(* ===== verification/_CoqProject ===== *)
-Q . S2P
Prelude.v
Bits.v
PrivilegeDefs.v
Privilege.v
Bitmap.v
ByteOrder.v
ByteMem.v
Heap.v
BaseList.v
ListIter.v
DList.v
PList.v
IList.v
IntrusiveList.v
LifoBuffer.v
TranxAlloc.v
Histogram.v
Mbr.v
Window.v
BoundsArray.v
SortRecord.v
Mdl.v
SelArg.v
MemRootArray.v
HashFilo.v
QueryTables.v
LexStream.v
BinaryString.v
JoinCache.v
Xid.v
Transaction.v
Handler.v
IntervalList.v
SqlInt.v
DateMode.v
SelectLimit.v
MyTime.v
Calendar.v
TimeLib.v
SecValue.v
Temporal.v
TimeValue.v
DatetimeValue.v
Timestamp.v
SqlState.v
Diagnostics.v
KeySeg.v
Sequence.v
BoundedQueue.v
ItemTree.v
Field.v
JsonWriter.v
FilesortBuffer.v
InPredicate.v
SessionTime.v
LooseScan.v
CommitOrder.v
