(* ===== verification/Prelude.v ===== *)
(** * Verification of the server headers of MariaDB 10.5.2

    The repository holds a course project together with an installed MariaDB
    server; the C and C++ code is what that installation ships for writing
    plugins: the headers under
    [src/mariaDB/mariadb-10.5.2-winx64/include/mysql/server/] (and its
    [private/]).  Most of them declare things that are compiled elsewhere.  Some
    carry code of their own: macros, inline functions, templates and classes
    with their bodies.  That code is the subject of this library; file names
    below are relative to that directory.

    ** How the code is modelled

    - Machine integers are [Z] with their wrap-around written out ([wrap], [u8] to
      [u64], [s32], [s64] below); the bit operators of C are notations of
      [cxx_scope].  Where a signed operation could overflow, or an enum or a
      pointer may be misused, the definition returns [option].
    - A failing [DBUG_ASSERT], a null dereference, a read outside an array and a
      division by zero have no result: [None], or [undefined] in the monad
      [prog] of Heap.v.  A theorem that a call returns is then also a theorem that
      none of these happens.  Bitmap.v has a parameter for the build: there a failing
      assertion stops a debug build only, and its theorems are about both.
    - Pointer structures live in one store from field addresses to values
      (Heap.v); operations are programs of the monad [prog], written in the
      order of the source.  Allocation takes its outcome as an argument, so that
      both success and failure of [malloc] are covered.
    - Loops whose bound is not structural take fuel.  Running out of fuel is
      [None] too, and every theorem about such a loop gives a fuel, in terms of
      the length of the list, the width of the array or the number of blocks,
      for which the result exists.

    ** The parts

    Words and bytes:
    - Bits.v: [private/my_bit.h].  Population count, logarithm, first set bit,
      rounding to powers of two, bit reversal.  The class [FirstBit] is what
      bitmaps need of [my_find_first_bit]; the portable function implements it.
    - Bitmap.v: [private/sql_bitmap.h], the template [Bitmap<width>] and its
      iterator, refined to finite sets of bits; proved against [FirstBit].
    - ByteOrder.v: [byte_order_generic.h], [byte_order_generic_x86.h],
      [byte_order_generic_x86_64.h], [myisampack.h] and the float macros of
      [big_endian.h] and [little_endian.h].  Every reader and writer as a list of
      bytes; round trips, agreement of the variants, order of stored keys.
    - PrivilegeDefs.v, Privilege.v: [private/privilege.h] and the column order of
      [private/sql_acl.h].  The class [PrivilegeCodec] states what it means to
      store privileges in a grant table; four pairs of functions implement it.

    - KeySeg.v: [private/my_compare.h], lengths of key parts, bits inside records.
    - ByteMem.v: a memory of bytes and heap blocks, ranges of it, C strings, decimal
      texts, fixed buffers as lists of bytes (no code of its own); BinaryString.v,
      JoinCache.v, Xid.v, Mdl.v, SqlState.v, Diagnostics.v, KeySeg.v, Field.v,
      FilesortBuffer.v, JsonWriter.v and InPredicate.v use it.

    Containers:
    - Heap.v: the store, the monad, chains of cells (no code of its own).
    - BaseList.v, ListIter.v: [private/sql_list.h], [List<T>], its iterators, the
      copy and the bubble sort on it.  A list is refined to the sequence of its
      elements, with the shared sentinel and the address [last] in the invariant.
    - DList.v: the shape shared by the next two files.
    - PList.v: [private/sql_plist.h], [I_P_List] with its policies.
    - IList.v: [ilink], [base_ilist] and [SQL_I_List] of [private/sql_list.h].
    - IntrusiveList.v: [private/intrusive_list.h].
    - LifoBuffer.v: [private/sql_lifo_buffer.h]; the class [LifoBuffer] has the
      laws of a buffer, the forward and the backward buffer are its instances.
    - TranxAlloc.v: the node allocator of [private/semisync_master.h].
    - BoundsArray.v: [Bounds_checked_array] of [private/sql_array.h].
    - SortRecord.v: [private/sql_sort.h], the layout of filesort's records (the length
      fields are read and written with the macros of ByteOrder.v) and merge chunks.
    - FilesortBuffer.v: [private/filesort_utils.h], the buffer with records at one end
      and the pointers to them at the other.
    - BoundedQueue.v: [private/bounded_queue.h] and the macros of [private/queues.h];
      the classes [QueueFunctions] and [QueueLaws] are the heap of mysys.
    - MemRootArray.v: [private/mem_root_array.h] on the buffers of a memory root,
      with constructed and destroyed objects.
    - HashFilo.v: [private/hash_filo.h]; the class [HashTable] has the laws of the
      hash table that it links through, sets are an instance.
    - BinaryString.v: [Static_binary_string] and [Binary_string] of
      [private/sql_string.h] on a memory with heap blocks; the class [Realloc] has
      the law of the growth step, [moving_realloc] is an instance.

    Locking, values and limits:
    - Mdl.v: [private/mdl.h], keys and requests of metadata locks.
    - SqlInt.v: [private/sql_type_int.h], integers of either signedness.
    - DateMode.v: [private/sql_basic_types.h], flags of temporal conversions.
    - MyTime.v: [private/my_time.h], the check of timestamps, fractions of seconds.
    - SelectLimit.v: [private/sql_limit.h].
    - Sequence.v: [private/sql_sequence.h], the next value of a sequence, with overflow
      undefined or wrapping.

    Temporal values ([private/sql_type.h] with [private/sql_time.h]); every class
    of the header has one invariant and a file has the functions of one or a few:
    - Calendar.v: [calc_daynr] is injective and monotone on valid dates, bounds.
    - TimeLib.v: the class [TimeLib] lists the functions of [my_time.c] and
      [sql_time.cc] that the header calls, [TimeLaws] what it relies on; [civil_lib]
      with [civil_laws] is an instance.  Also the inline functions of [sql_time.h].
    - SecValue.v: [Sec6], [Sec9], [VSec9], [Sec6_add], seconds with a fraction.
    - Temporal.v: [Temporal], [Temporal_hybrid], [Extract_source],
      [Interval_DDhhmmssff].
    - TimeValue.v: [Time], the conversions to it, truncation and rounding.
    - DatetimeValue.v: [Temporal_with_date], [Date], [Datetime].
    - Timestamp.v: [Timestamp], [Timestamp_or_zero_datetime] and the native form.
    Members that the header only declares are the classes [SecMembers],
    [TemporalMembers], [TimeMembers], [DateMembers] and [TimestampMembers], with the
    laws that their callers assert.

    The parser's input and the tables of a statement ([private/sql_lex.h]):
    - LexStream.v: the two buffers of [Lex_input_stream], refined to the list of
      the characters read and whether each was echoed.
    - QueryTables.v: [Query_tables_list] with prelocking (on Heap.v and DList.v),
      the flags that make a statement unsafe for the binary log.

    Conditions and the session:
    - SqlState.v: [private/sql_error.h], SQLSTATEs and conditions, the texts put into
      messages (class [Printers]).
    - Diagnostics.v: [private/sql_error.h], [Warning_info] and [Diagnostics_area], the
      stack of the former (on PList.v); what is compiled elsewhere is the class
      [WarningMembers] with [WarningLaws].
    - SessionTime.v: [private/sql_class.h] with [my_sys.h] and
      [private/my_time.h], the time of a statement.
    - CommitOrder.v: [private/sql_class.h], [wait_for_commit] (on Heap.v).

    Storage engines and transactions:
    - Handler.v: [private/handler.h], the wrappers of class [handler] that keep the
      state of its scans, over the class [StorageEngine] of the virtual functions;
      the instance [traced] writes down what any engine is asked to do.
    - Transaction.v: [THD_TRANS] and [Ha_trx_info] of [private/handler.h].
    - Xid.v: [xid_t] of [private/handler.h] and its text in [private/log_event.h].
    - IntervalList.v: [private/structs.h], the intervals of auto-increment values;
      the identifiers of LAST_INSERT_ID of [private/sql_class.h].  The class
      [IntervalsAppend] has the laws of the function compiled elsewhere.

    Expressions and columns:
    - ItemTree.v: [private/item.h], [private/item_func.h], [private/item_row.h], trees
      of items in a store (on Heap.v and BaseList.v), what they depend on, walks; the
      leaves are the class [LeafItem].
    - InPredicate.v: [private/item_cmpfunc.h], IN and simple CASE.  [ItemValues] has the
      values of items, [CmpItem] with [CmpItemLaws] is the interface of comparators,
      which those of strings, integers and reals implement.
    - Field.v: [private/field.h], columns in a record (class [FieldType]): NULL bits,
      copies of records, integers, lengths and pointers of strings and blobs.

    Query processing:
    - JoinCache.v: [private/sql_join_cache.h], references inside join buffers, the
      space that is left, the links between the caches of a join.
    - Histogram.v: [private/sql_statistics.h].
    - Mbr.v: [private/spatial.h], rectangles over the classes [Coord] and
      [CoordOrder] (doubles that are not NaN).
    - LooseScan.v: [private/opt_subselect.h], the search for a loose index scan over the
      classes [Cost] and [CostOrder].
    - JsonWriter.v: [private/my_json_writer.h], the guards that write the optimizer trace.
    - SelArg.v: [private/opt_range.h], intervals of the range optimizer; the class
      [EndOrder] is what they need of the comparison of key values.
    - Window.v: [private/item_windowfunc.h], window functions as machines over the
      class [Dbl] of double arithmetic.

    ** What the theorems show

    Refinement ([base_list_ops_refine], [plist_ops_refine], [ilist_ops_refine],
    [intrusive_list_refines], [bitmap_ops_refine]): any operation, or any
    sequence of operations, does to the abstract value what its name says and
    restores the invariant of the representation, with a frame: cells outside
    the structure keep their contents; likewise the stack of warnings ([warning_infos_nest]),
    the waiters of a commit ([waiter_removed]), the queue of the best rows
    ([bounded_queue_keeps_best]) and the records of a sort ([sort_buffer_holds_records]).
    Round trips and agreement of codecs
    ([store_korr_roundtrip], [korr_variants_agree], [db_rights_roundtrip],
    [lifo_roundtrip], [date_mode_roundtrip], [mdl_key_roundtrip], [sort_buffer_walk],
    [blob_values_roundtrip]); [json_document_written] gives the exact condition on
    unsigned numbers for a document to be written as it was meant.
    Meaning ([interval_algebra], [store_min_key_lower_bound], [mdl_key_order],
    [timestamp_check_is_safe], [percentile_disc_value], [mbr_relations]): what the
    code computes on its representation is the operation on what it stands for.
    Expressions ([update_used_tables_spec], [excl_dep_on_table_is_safe],
    [walk_is_postorder]): a cached or computed answer is that of the leaves of the tree.
    IN and CASE ([in_is_kleene_or], [case_stops_at_null], [null_of_other_comparator]): the
    answer is the disjunction of the comparisons in three-valued logic, or UNKNOWN where
    comparators disagree on whether the predicant is NULL.  Columns
    ([null_bits_isolated]): a NULL bit is a value of its own.  The optimizer
    ([loose_scan_conditions], [cheapest_way_kept]): what is taken is possible, and the
    cheapest.  The session ([session_times_increase], [query_warnings]): time that does not
    repeat while the seconds fit, the warnings of the last statement.
    Types of values ([time_constructors_valid], [date_constructors_valid]): what the
    constructors leave is a value of its class.  The first theorem says, for each
    rounding mode, what the digits become and when an assertion fails; the second
    assumes the mode to truncate or to round.
    What temporal values mean ([conversion_to_time], [extract_fields_spec],
    [sec6_add_spec], [add_nanoseconds_mmssff_spec], [time_seconds_roundtrip],
    [datetime_seconds_order], [timestamp_order]): fields, sums and comparisons are
    those of the number of seconds or microseconds that the value stands for.
    Liveness ([scans_can_always_end]): in every state that calls of the wrappers can
    reach, whatever the engine answered, the scan can be ended, and the engine has seen
    matching calls.  What a statement leaves behind ([trx_lists_refine],
    [insert_ids_of_statement], [auto_increment_restored]).  Packed and printed
    identifiers, references inside buffers ([my_xid_roundtrip], [xid_text_safe],
    [xid_identity], [buffer_references], [free_space_is_exact]).
    Termination with the result
    ([bubble_sort_sorts], [find_bucket_spec], [iterator_enumerates],
    [interval_list_life]).  Safety of
    memory ([allocate_node_ok], [free_nodes_before_ok], [tranx_release_all],
    [lifo_space_transfer], [string_appends]) and of its ownership
    ([no_block_lost]).  Arithmetic without overflow ([ntile_buckets],
    [hybrid_comparisons], [hybrid_conversions], [range_selectivity_counts]).
    Error behaviour, where the code does not do what it means to:
    [push_back_oom_breaks_iteration], [pop_back_erases_sentinel],
    [push_front_onto_empty_loses], [find_bucket_two_reads_outside],
    [touches_one_direction], [round_of_undefined], [bitmap_print_defined],
    [references_wrap], [free_space_is_exact] (its last part), [binlog_second_overflows],
    [null_of_other_comparator], [tracing_off_is_quiet], [five_arguments_without_memory],
    [increment_value_exact] (its last part).

    ** What the model assumes

    Code that is not in the headers is a parameter: the bit reversal table, the
    allocator, comparison functions, the conversions and arithmetic of doubles,
    [my_qsort2], the caches of item values, the calendar and the parsers of
    [my_time.c].  What is assumed of it is a named
    hypothesis or the law of a class, and each has an instance at which the
    theorems are evaluated.

    ** Not modelled

    - Bodies that are compiled into the server: most of the classes of items, fields,
      tables, the lexer, the log events and the handler are only declared in the headers,
      and their inline accessors return a member or forward a virtual call.  With them go
      the values of items, the storing and comparing of column values, and the functions
      that block or take locks.
    - Character sets (tables and functions defined elsewhere) and the glue to the Galera
      library ([wsrep]).
    - Platform glue ([my_global.h], [my_pthread.h], atomics, sockets) and the
      instrumentation interface [mysql/psi/]; generated files (error numbers,
      the character tables).
    - The Java programs, SQL scripts and data files of the repository.

    ** Order of the work

    Containers and codecs were done first, because everything else stores its
    state in them; then statistics, geometry and window functions; then the
    value types; then join buffers, transactions and handlers; then the diagnostics
    area, expressions, columns, sort buffers, and the session.  What is left that the
    headers define: the upper bound of keys in SelArg.v (the mirror image of the lower
    one), the guards of [private/sql_class.h] that save and restore a part of the session,
    and the remaining classes of items.

    The rest of this file is shared by every component: machine words, bits,
    small lists. *)

From stdpp Require Import base numbers list.
From Stdlib Require Import ZArith Lia Btauto.

Local Open Scope Z_scope.

(** ** Notations for the C operators *)

Declare Scope cxx_scope.
Delimit Scope cxx_scope with cxx.
Infix "&&&" := Z.land (at level 40, left associativity) : cxx_scope.
Infix "|||" := Z.lor (at level 50, left associativity) : cxx_scope.
Infix "<<<" := Z.shiftl (at level 38, left associativity) : cxx_scope.
Infix ">>>" := Z.shiftr (at level 38, left associativity) : cxx_scope.
Local Open Scope cxx_scope.

(** ** Machine words *)

(** The value of the mathematical integer [z] stored in [w] unsigned bits. *)
Definition wrap (w z : Z) : Z := z mod 2 ^ w.
Definition u8 : Z -> Z := wrap 8.
Definition u16 : Z -> Z := wrap 16.
Definition u32 : Z -> Z := wrap 32.
Definition u64 : Z -> Z := wrap 64.

(** The value of [z] stored in [w] bits of two's complement. *)
Definition swrap (w z : Z) : Z := (z + 2 ^ (w - 1)) mod 2 ^ w - 2 ^ (w - 1).
Definition s32 : Z -> Z := swrap 32.
Definition s64 : Z -> Z := swrap 64.

(** [z] is a value of the [w]-bit unsigned type. *)
Definition is_word (w z : Z) : Prop := 0 <= z < 2 ^ w.

(** [~ z] on a [w]-bit unsigned type. *)
Definition wnot (w z : Z) : Z := wrap w (Z.lnot z).

Lemma is_word_wrap w z : 0 <= w -> is_word w (wrap w z).
Proof. intros Hw. apply Z.mod_pos_bound. lia. Qed.

Lemma wrap_small w z : is_word w z -> wrap w z = z.
Proof. apply Z.mod_small. Qed.

Lemma u32_small z : 0 <= z < 2 ^ 32 -> u32 z = z.
Proof. apply wrap_small. Qed.

Lemma u64_small z : 0 <= z < 2 ^ 64 -> u64 z = z.
Proof. apply wrap_small. Qed.

Lemma swrap_small w z : 0 < w -> - 2 ^ (w - 1) <= z < 2 ^ (w - 1) -> swrap w z = z.
Proof.
  intros Hw Hz. unfold swrap. rewrite Z.mod_small; [lia |].
  replace (2 ^ w) with (2 * 2 ^ (w - 1)); [lia |].
  rewrite <- Z.pow_succ_r by lia. f_equal. lia.
Qed.

(** ** Bits *)

Create HintDb word_bits.

Lemma testbit_wrap w z i : 0 <= w -> Z.testbit (wrap w z) i = (i <? w) && Z.testbit z i.
Proof.
  intros Hw. unfold wrap. destruct (Z.ltb_spec i w).
  - by rewrite Z.mod_pow2_bits_low.
  - by rewrite Z.mod_pow2_bits_high by lia.
Qed.

Lemma testbit_wnot w z i : 0 <= w -> 0 <= i -> Z.testbit (wnot w z) i = (i <? w) && negb (Z.testbit z i).
Proof. intros. unfold wnot. rewrite testbit_wrap by lia. by rewrite Z.lnot_spec. Qed.

Lemma testbit_word_high w z i : is_word w z -> w <= i -> Z.testbit z i = false.
Proof.
  intros Hz Hi. rewrite <- (wrap_small w z Hz).
  destruct (decide (0 <= w)).
  - rewrite testbit_wrap by lia. destruct (Z.ltb_spec i w); [lia | done].
  - unfold is_word in Hz. rewrite Z.pow_neg_r in Hz by lia. lia.
Qed.

Lemma is_word_bits w z : 0 <= w -> is_word w z <-> 0 <= z /\ forall i, w <= i -> Z.testbit z i = false.
Proof.
  intros Hw. split.
  - intros Hz. split; [apply Hz |]. intros. by eapply testbit_word_high.
  - intros [Hz Hi]. unfold is_word. split; [done |]. apply Z.bounded_iff_bits_nonneg; [lia | done |].
    intros l Hl. by apply Hi.
Qed.

(** Bitwise equality of words only needs the bits below the width. *)
Lemma word_bits_eq w x y :
  is_word w x -> is_word w y ->
  (forall i, 0 <= i < w -> Z.testbit x i = Z.testbit y i) -> x = y.
Proof.
  intros Hx Hy Hxy. apply Z.bits_inj'. intros i Hi.
  destruct (decide (i < w)); [by apply Hxy |].
  rewrite !(testbit_word_high w) by (done || lia). done.
Qed.

Lemma is_word_land_l w x y : is_word w x -> 0 <= y -> is_word w (x &&& y).
Proof.
  intros Hx Hy. destruct (decide (0 <= w)).
  - apply is_word_bits; [done |]. split; [apply Z.land_nonneg; destruct Hx; lia |].
    intros i Hi. rewrite Z.land_spec, (testbit_word_high w x) by done. done.
  - unfold is_word in Hx. rewrite Z.pow_neg_r in Hx by lia. lia.
Qed.

Lemma is_word_land_r w x y : 0 <= x -> is_word w y -> is_word w (x &&& y).
Proof. intros. rewrite Z.land_comm. by apply is_word_land_l. Qed.

Lemma is_word_lor w x y : 0 <= w -> is_word w x -> is_word w y -> is_word w (x ||| y).
Proof.
  intros Hw Hx Hy. apply is_word_bits; [done |]. split; [apply Z.lor_nonneg; split; [apply Hx | apply Hy] |].
  intros i Hi. by rewrite Z.lor_spec, !(testbit_word_high w) by done.
Qed.

Lemma is_word_shiftr w x n : 0 <= n -> is_word w x -> is_word w (x >>> n).
Proof.
  intros Hn [Hx1 Hx2]. rewrite Z.shiftr_div_pow2 by done. split; [apply Z.div_pos; lia |].
  apply Z.le_lt_trans with x; [| done]. apply Z.div_le_upper_bound; [lia |].
  assert (0 < 2 ^ n) by lia. nia.
Qed.

Lemma is_word_wnot w z : 0 <= w -> is_word w (wnot w z).
Proof. apply is_word_wrap. Qed.

Lemma is_word_0 w : 0 <= w -> is_word w 0.
Proof. unfold is_word. lia. Qed.

Lemma is_word_mono w w' z : 0 <= w <= w' -> is_word w z -> is_word w' z.
Proof. intros Hw [? ?]. split; [done |]. pose proof (Z.pow_le_mono_r 2 w w'). lia. Qed.

Lemma ones_pow2 n : Z.ones n = 2 ^ n - 1.
Proof. rewrite Z.ones_equiv. lia. Qed.

Lemma testbit_shiftl1 n i : 0 <= n -> Z.testbit (1 <<< n) i = (i =? n).
Proof.
  intros Hn. rewrite Z.shiftl_1_l, Z.pow2_bits_eqb by done. apply Z.eqb_sym.
Qed.

Lemma is_word_shiftl1 w n : 0 <= n < w -> is_word w (1 <<< n).
Proof.
  intros. rewrite Z.shiftl_1_l. split; [lia |]. apply Z.pow_lt_mono_r; lia.
Qed.

(** A boolean [z & mask] is the test of the bit when the mask has one bit. *)
Lemma land_single_bit z n : 0 <= n -> (z &&& (1 <<< n) =? 0) = negb (Z.testbit z n).
Proof.
  intros Hn. destruct (Z.testbit z n) eqn:E; simpl.
  - apply Z.eqb_neq. intros H. apply (f_equal (fun x => Z.testbit x n)) in H.
    rewrite Z.land_spec, testbit_shiftl1, E, Z.eqb_refl, Z.bits_0 in H by done. done.
  - apply Z.eqb_eq. apply Z.bits_inj'. intros i Hi.
    rewrite Z.land_spec, testbit_shiftl1, Z.bits_0 by done.
    destruct (Z.eqb_spec i n) as [-> |]; [by rewrite E | by rewrite andb_false_r].
Qed.

Lemma word_nonzero_bit z : 0 <= z -> z <> 0 <-> exists i, 0 <= i /\ Z.testbit z i = true.
Proof.
  intros Hz. split.
  - intros Hn. exists (Z.log2 z). split; [apply Z.log2_nonneg |]. apply Z.bit_log2. lia.
  - intros (i & Hi & Hb) ->. by rewrite Z.bits_0 in Hb.
Qed.

#[export] Hint Resolve is_word_wrap is_word_wnot is_word_0 is_word_lor is_word_land_l
  is_word_land_r is_word_shiftr is_word_shiftl1 : word_bits.

(** [word_side] closes the side conditions of the word lemmas. *)
Ltac word_side :=
  solve [ done | lia | auto with word_bits | unfold is_word in *; lia ].

(** [word_spec] pushes [Z.testbit] through the operators of C; the bit index
    must be known to be non-negative. *)
Ltac word_spec_step :=
  match goal with
  | |- context [Z.testbit (Z.land _ _) _] => rewrite Z.land_spec
  | |- context [Z.testbit (Z.lor _ _) _] => rewrite Z.lor_spec
  | |- context [Z.testbit (Z.shiftr _ _) _] => rewrite Z.shiftr_spec by lia
  | |- context [Z.testbit (Z.shiftl 1 _) _] => rewrite testbit_shiftl1 by lia
  | |- context [Z.testbit (Z.shiftl _ _) _] => rewrite Z.shiftl_spec by lia
  | |- context [Z.testbit (wrap _ _) _] => rewrite testbit_wrap by lia
  | |- context [Z.testbit (wnot _ _) _] => rewrite testbit_wnot by lia
  | |- context [Z.testbit (Z.lnot _) _] => rewrite Z.lnot_spec by lia
  | |- context [Z.testbit 0 _] => rewrite Z.bits_0
  end.
Ltac word_spec := repeat word_spec_step.

(** A decidable property of a bounded index is checked by evaluation. *)
Lemma bounded_check (P : Z -> Prop) `{forall i, Decision (P i)} (n : Z) :
  forallb (fun i => bool_decide (P i)) (seqZ 0 n) = true -> forall i, 0 <= i < n -> P i.
Proof.
  intros Hall i Hi. rewrite forallb_forall in Hall.
  apply (bool_decide_eq_true (P i)), Hall, list_elem_of_In, elem_of_seqZ; lia.
Qed.

(** ** Lists *)

Lemma last_cons_cases {A} (x : A) (l : list A) : last (x :: l) = Some (default x (last l)).
Proof. revert x. induction l as [| y l IH]; intros x; [done |]. change (last (y :: l) = Some (default x (last (y :: l)))). by rewrite IH. Qed.

Lemma fmap_seq_const {A} (f : nat -> A) c a m :
  (forall k, (a <= k < a + m)%nat -> f k = c) -> f <$> seq a m = replicate m c.
Proof.
  revert a. induction m as [| m IH]; intros a Hf; [done |]. cbn [seq replicate fmap list_fmap].
  rewrite Hf by lia. f_equal. apply IH. intros k Hk. apply Hf. lia.
Qed.

Lemma forallb_eqb_replicate (c : Z) (l : list Z) : forallb (fun w => w =? c) l = true <-> l = replicate (length l) c.
Proof.
  induction l as [| x l IH]; simpl; [done |]. rewrite andb_true_iff, Z.eqb_eq, IH. split.
  - intros [-> E]. by f_equal.
  - intros [= -> E]. done.
Qed.

Lemma split_at_iff {A} (l l1 l2 : list A) : (length l1 <= length l)%nat -> l = l1 ++ l2 <-> take (length l1) l = l1 /\ drop (length l1) l = l2.
Proof.
  intros Hl. split.
  - intros ->. by rewrite take_app_length, drop_app_length.
  - intros [<- <-]. rewrite length_take_le by done. by rewrite take_drop.
Qed.

Lemma filter_nil_on {A} (P : A -> Prop) `{forall x, Decision (P x)} (l : list A) :
  (forall x, x ∈ l -> ~ P x) -> filter P l = [].
Proof.
  induction l as [| x l IH]; intros Hl; [done |]. rewrite filter_cons, decide_False by (apply Hl; left).
  apply IH. intros y Hy. apply Hl. by right.
Qed.

Lemma NoDup_snoc {A} (l : list A) x : NoDup (l ++ [x]) <-> NoDup l /\ x ∉ l.
Proof.
  rewrite NoDup_app. split.
  - intros (H1 & H2 & _). split; [done |]. intros Hx. apply (H2 x Hx). left.
  - intros [H1 H2]. split_and!; [done | | apply NoDup_singleton]. by intros y Hy ->%list_elem_of_singleton.
Qed.

Lemma NoDup_insert_after {A} (l1 l2 : list A) x k :
  NoDup (l1 ++ x :: l2) -> k ∉ l1 ++ x :: l2 -> NoDup (l1 ++ x :: k :: l2).
Proof.
  intros H1 H2. assert (H : NoDup (k :: l1 ++ x :: l2)) by (by apply NoDup_cons).
  revert H. rewrite (cons_middle x l1 (k :: l2)), (cons_middle x l1 l2), !app_assoc.
  by rewrite (Permutation_middle (l1 ++ [x]) l2 k).
Qed.

Lemma filter_id_on {A} (P : A -> Prop) `{forall x, Decision (P x)} (l : list A) :
  (forall x, x ∈ l -> P x) -> filter P l = l.
Proof.
  induction l as [| x l IH]; intros Hl; [done |]. rewrite filter_cons, decide_True by (apply Hl; left).
  f_equal. apply IH. intros y Hy. apply Hl. by right.
Qed.
