(* ===== verification/Bits.v ===== *)
(** * Bits: the bit tricks of [my_bit.h]

    Every inline function of [private/my_bit.h], on words kept as [Z].  The
    table [_my_bits_reverse_table] is defined outside the headers and is a
    parameter of [my_reverse_bits].  [my_find_first_bit] is the portable branch
    of the function; compilers with an intrinsic replace it, which is why its
    clients ([Bitmap]) are written against the class [FirstBit]. *)

From stdpp Require Import base numbers list.
From Stdlib Require Import ZArith Lia Btauto.
From S2P Require Import Prelude.

Local Open Scope Z_scope.
Local Open Scope cxx_scope.

(** ** Definitions *)

(* [my_bit.h:46-50 my_bit_log2_hex_digit] *)
Definition my_bit_log2_hex_digit (value : Z) : Z :=
  if negb (value &&& 0x0C =? 0) then (if negb (value &&& 0x08 =? 0) then 3 else 2)
  else (if negb (value &&& 0x02 =? 0) then 1 else 0).

(* [my_bit.h:51-55 my_bit_log2_uint8] *)
Definition my_bit_log2_uint8 (value : Z) : Z :=
  if negb (value &&& 0xF0 =? 0) then my_bit_log2_hex_digit (u8 (value >>> 4)) + 4
  else my_bit_log2_hex_digit value.

(* [my_bit.h:56-60 my_bit_log2_uint16] *)
Definition my_bit_log2_uint16 (value : Z) : Z :=
  if negb (value &&& 0xFF00 =? 0) then my_bit_log2_uint8 (u8 (value >>> 8)) + 8
  else my_bit_log2_uint8 (u8 value).

(* [my_bit.h:61-66 my_bit_log2_uint32] *)
Definition my_bit_log2_uint32 (value : Z) : Z :=
  if negb (value &&& 0xFFFF0000 =? 0) then my_bit_log2_uint16 (u16 (value >>> 16)) + 16
  else my_bit_log2_uint16 (u16 value).

(* [my_bit.h:67-72 my_bit_log2_uint64] *)
Definition my_bit_log2_uint64 (value : Z) : Z :=
  if negb (value &&& 0xFFFFFFFF00000000 =? 0) then my_bit_log2_uint32 (u32 (value >>> 32)) + 32
  else my_bit_log2_uint32 (u32 value).

(* [my_bit.h:84-89 my_count_bits_uint32] *)
Definition my_count_bits_uint32 (v : Z) : Z :=
  let v := u32 (v - ((v >>> 1) &&& 0x55555555)) in
  let v := u32 ((v &&& 0x33333333) + ((v >>> 2) &&& 0x33333333)) in
  u32 ((u32 (v + (v >>> 4)) &&& 0xF0F0F0F) * 0x1010101) >>> 24.

(* [my_bit.h:92-95 my_count_bits] *)
Definition my_count_bits (x : Z) : Z :=
  u32 (my_count_bits_uint32 (u32 x) + my_count_bits_uint32 (u32 (x >>> 32))).

(* [my_bit.h:119-128 my_round_up_to_next_power] *)
Definition my_round_up_to_next_power (v : Z) : Z :=
  let v := u32 (v - 1) in
  let v := v ||| (v >>> 1) in
  let v := v ||| (v >>> 2) in
  let v := v ||| (v >>> 4) in
  let v := v ||| (v >>> 8) in
  let v := v ||| (v >>> 16) in
  u32 (v + 1).

(* [my_bit.h:130-139 my_clear_highest_bit] *)
Definition my_clear_highest_bit (v : Z) : Z :=
  let w := v >>> 1 in
  let w := w ||| (w >>> 1) in
  let w := w ||| (w >>> 2) in
  let w := w ||| (w >>> 4) in
  let w := w ||| (w >>> 8) in
  let w := w ||| (w >>> 16) in
  v &&& w.

Section reverse.
(** [_my_bits_reverse_table[256]], defined outside the headers. *)
Variable bits_reverse_table : Z -> Z.

(* [my_bit.h:141-148 my_reverse_bits] *)
Definition my_reverse_bits (key : Z) : Z :=
  u32 (bits_reverse_table (key &&& 255) <<< 24) |||
  u32 (bits_reverse_table ((key >>> 8) &&& 255) <<< 16) |||
  u32 (bits_reverse_table ((key >>> 16) &&& 255) <<< 8) |||
  bits_reverse_table (key >>> 24).
End reverse.

(* [my_bit.h:154-157 my_set_bits] *)
Definition my_set_bits (n : Z) : Z :=
  u64 (u64 (u64 (1 <<< (n - 1)) - 1) <<< 1) ||| 1.

(* [my_bit.h:160-166 last_byte_mask] *)
Definition last_byte_mask (bits : Z) : Z :=
  let used := u32 (bits - 1) &&& 7 in
  u8 (u32 (2 <<< used) - 1).

(** The table [last_bit] of the portable branch; 32 means "no bit here". *)
(* [my_bit.h:197-200 my_find_first_bit::last_bit] *)
Definition last_bit : list Z := [32; 0; 1; 0; 2; 0; 1; 0; 3; 0; 1; 0; 2; 0; 1; 0].

(** The loop [while ((bit= last_bit[(n >> shift) & 0xF]) == 32) shift+= 4]:
    [fuel] bounds its rounds and [None] means that they were not enough. *)
(* [my_bit.h:196-204 my_find_first_bit] *)
Fixpoint find_first_bit_loop (fuel : nat) (n shift : Z) : option Z :=
  match fuel with
  | O => None
  | S fuel =>
      let bit := nth (Z.to_nat ((n >>> shift) &&& 0xF)) last_bit 0 in
      if bit =? 32 then find_first_bit_loop fuel n (shift + 4)
      else Some (shift + bit)
  end.

(* [my_bit.h:176-179 my_find_first_bit] *)
Definition my_find_first_bit (n : Z) : option Z :=
  if n =? 0 then Some 64 else find_first_bit_loop 16 n 0.

(** ** What a first-bit primitive promises

    The clients of [my_find_first_bit] are proved for every function with this
    contract: the portable branch below, or a compiler intrinsic. *)
Class FirstBit (ffb : Z -> Z) := {
  first_bit_zero : ffb 0 = 64;
  first_bit_set n : is_word 64 n -> n <> 0 -> 0 <= ffb n < 64 /\ Z.testbit n (ffb n) = true;
  first_bit_least n i : is_word 64 n -> 0 <= i < ffb n -> Z.testbit n i = false
}.

(** ** Highest bit *)

(** The high half of a [2k]-bit word is empty exactly when the mask of the high
    half misses it. *)
Lemma high_half_zero k v :
  0 <= k -> is_word (k + k) v -> (v &&& (Z.ones k <<< k) =? 0) = (v >>> k =? 0).
Proof.
  intros Hk Hv. apply eq_true_iff_eq. rewrite !Z.eqb_eq. split; intros H.
  - apply Z.bits_inj'. intros i Hi. rewrite Z.shiftr_spec, Z.bits_0 by done.
    apply (f_equal (fun x => Z.testbit x (i + k))) in H.
    rewrite Z.land_spec, Z.shiftl_spec, Z.bits_0 in H by lia.
    replace (i + k - k) with i in H by lia. destruct (decide (i < k)) as [Hik | Hik].
    + rewrite Z.ones_spec_low, andb_true_r in H by lia. done.
    + apply (testbit_word_high (k + k)); [done | lia].
  - apply Z.bits_inj'. intros i Hi. rewrite Z.land_spec, Z.shiftl_spec, Z.bits_0 by done.
    destruct (decide (i < k)); [by rewrite (Z.testbit_neg_r _ (i - k)), andb_false_r by lia |].
    apply (f_equal (fun x => Z.testbit x (i - k))) in H.
    rewrite Z.shiftr_spec, Z.bits_0 in H by lia. replace (i - k + k) with i in H by lia.
    by rewrite H.
Qed.

(** One level of the binary search for the highest bit. *)
Lemma log2_search_step (f : Z -> Z) k v :
  0 < k -> (forall x, is_word k x -> f x = Z.log2 x) -> is_word (k + k) v ->
  (if negb (v &&& (Z.ones k <<< k) =? 0) then f (wrap k (v >>> k)) + k else f (wrap k v)) = Z.log2 v.
Proof.
  intros Hk Hf Hv. rewrite high_half_zero by (done || lia). destruct Hv as [Hv1 Hv2].
  rewrite Hf, (Hf (wrap k v)) by (apply is_word_wrap; lia).
  rewrite Z.shiftr_div_pow2 by lia. assert (Hp : 0 < 2 ^ k) by lia.
  rewrite Z.pow_add_r in Hv2 by lia.
  destruct (Z.eqb_spec (v / 2 ^ k) 0) as [E | E]; simpl.
  - f_equal. apply wrap_small. apply Z.div_small_iff in E; unfold is_word; lia.
  - assert (Hw : is_word k (v / 2 ^ k)) by (split; [apply Z.div_pos | apply Z.div_lt_upper_bound]; lia).
    assert (2 ^ k <= v) by (apply Z.nlt_ge; intros ?; apply E; by apply Z.div_small).
    rewrite wrap_small by done. rewrite <- Z.shiftr_div_pow2 by lia. rewrite Z.log2_shiftr by lia.
    pose proof (Z.log2_le_pow2 v k). lia.
Qed.

Lemma my_bit_log2_uint8_log2 v : is_word 8 v -> my_bit_log2_uint8 v = Z.log2 v.
Proof.
  apply (bounded_check (fun v => my_bit_log2_uint8 v = Z.log2 v) 256). by vm_compute.
Qed.

Lemma my_bit_log2_uint16_log2 v : is_word 16 v -> my_bit_log2_uint16 v = Z.log2 v.
Proof. apply (log2_search_step my_bit_log2_uint8 8); [done | apply my_bit_log2_uint8_log2]. Qed.

Lemma my_bit_log2_uint32_log2 v : is_word 32 v -> my_bit_log2_uint32 v = Z.log2 v.
Proof. apply (log2_search_step my_bit_log2_uint16 16); [done | apply my_bit_log2_uint16_log2]. Qed.

(** the constexpr binary search of [my_bit_log2_uint64] computes the index
    of the highest set bit of every 64-bit word (and 0 for 0). *)
Theorem my_bit_log2_uint64_log2 v : is_word 64 v -> my_bit_log2_uint64 v = Z.log2 v.
Proof. apply (log2_search_step my_bit_log2_uint32 32); [done | apply my_bit_log2_uint32_log2]. Qed.

(** ** Counting bits *)

(** The number of set bits below [w]. *)
Definition bit_count (w z : Z) : Z := Z.of_nat (length (filter (fun i => Z.testbit z i = true) (seqZ 0 w))).

Lemma length_filter_fmap {A B} (f : A -> B) (P : B -> Prop) `{forall x, Decision (P x)} (l : list A) :
  length (filter P (f <$> l)) = length (filter (fun x => P (f x)) l).
Proof.
  induction l as [| x l IH]; [done |]. rewrite fmap_cons, !filter_cons. by repeat case_decide; simpl; rewrite ?IH.
Qed.

Lemma filter_ext_on {A} (P Q : A -> Prop) `{forall x, Decision (P x)} `{forall x, Decision (Q x)} (l : list A) :
  (forall x, x ∈ l -> P x <-> Q x) -> filter P l = filter Q l.
Proof.
  induction l as [| x l IH]; intros Hl; [done |]. rewrite !filter_cons.
  rewrite IH by (intros; apply Hl; by right). specialize (Hl x ltac:(left)).
  repeat case_decide; tauto.
Qed.

Lemma bit_count_split k h z :
  0 <= k -> 0 <= h -> bit_count (k + h) z = bit_count k z + bit_count h (z >>> k).
Proof.
  intros Hk Hh. unfold bit_count. rewrite seqZ_app, filter_app, length_app, Nat2Z.inj_add by done.
  do 2 f_equal. replace (0 + k) with (k + 0) by lia. rewrite <- fmap_add_seqZ, length_filter_fmap.
  f_equal. apply filter_ext_on. intros i Hi%elem_of_seqZ.
  rewrite Z.shiftr_spec by lia. by rewrite Z.add_comm.
Qed.

Lemma bit_count_wrap k z : 0 <= k -> bit_count k (wrap k z) = bit_count k z.
Proof.
  intros Hk. unfold bit_count. do 2 f_equal. apply filter_ext_on. intros i Hi%elem_of_seqZ.
  rewrite testbit_wrap by lia. destruct (Z.ltb_spec i k); [done | lia].
Qed.

Lemma bit_count_bounds k z : 0 <= k -> 0 <= bit_count k z <= k.
Proof.
  intros Hk. unfold bit_count. pose proof (length_filter (fun i => Z.testbit z i = true) (seqZ 0 k)).
  rewrite length_seqZ in *. lia.
Qed.

(** The base-16 digits of a word, each transformed by [f]. *)
Fixpoint nibs (n : nat) (f : Z -> Z) (v : Z) : Z :=
  match n with
  | O => 0
  | S n => f (v mod 16) + 16 * nibs n f (v / 16)
  end.

Lemma nibs_id n v : is_word (4 * Z.of_nat n) v -> nibs n id v = v.
Proof.
  revert v. induction n as [| n IH]; intros v [Hv1 Hv2]; cbn [nibs]; [change (2 ^ (4 * Z.of_nat 0)) with 1 in Hv2; lia |].
  replace (4 * Z.of_nat (S n)) with (4 + 4 * Z.of_nat n) in Hv2 by lia. rewrite Z.pow_add_r in Hv2 by lia.
  rewrite IH; [unfold id; pose proof (Z.div_mod v 16); lia |].
  split; [apply Z.div_pos; lia | apply Z.div_lt_upper_bound; lia].
Qed.

Lemma nibs_ext n f g v : (forall x, 0 <= x < 16 -> f x = g x) -> nibs n f v = nibs n g v.
Proof.
  intros Hfg. revert v. induction n as [| n IH]; intros v; cbn [nibs]; [done |].
  rewrite IH, Hfg; [done |]. by apply Z.mod_pos_bound.
Qed.

Lemma nibs_add n f g v : nibs n f v + nibs n g v = nibs n (fun x => f x + g x) v.
Proof. revert v. induction n as [| n IH]; intros v; cbn [nibs]; [done |]. rewrite <- IH. lia. Qed.

Lemma nibs_sub n f g v : nibs n f v - nibs n g v = nibs n (fun x => f x - g x) v.
Proof. revert v. induction n as [| n IH]; intros v; cbn [nibs]; [done |]. rewrite <- IH. lia. Qed.

Lemma nibs_compose n f g v :
  (forall x, 0 <= x < 16 -> 0 <= g x < 16) -> nibs n f (nibs n g v) = nibs n (fun x => f (g x)) v.
Proof.
  intros Hg. revert v. induction n as [| n IH]; intros v; cbn [nibs]; [done |].
  pose proof (Hg (v mod 16) (Z.mod_pos_bound v 16 eq_refl)) as Hr.
  set (r := g (v mod 16)) in *. set (q := nibs n g (v / 16)).
  replace (r + 16 * q) with (r + q * 16) by lia.
  rewrite Z_mod_plus_full, Z.div_add, (Z.mod_small r), (Z.div_small r) by lia.
  rewrite Z.add_0_l. unfold q. by rewrite IH.
Qed.

Lemma nibs_bounds n g v :
  (forall x, 0 <= x < 16 -> 0 <= g x < 16) -> is_word (4 * Z.of_nat n) (nibs n g v).
Proof.
  intros Hg. revert v. induction n as [| n IH]; intros v; cbn [nibs]; [done |].
  pose proof (Hg (v mod 16) (Z.mod_pos_bound v 16 eq_refl)). specialize (IH (v / 16)).
  unfold is_word in *. replace (4 * Z.of_nat (S n)) with (4 + 4 * Z.of_nat n) by lia.
  rewrite Z.pow_add_r by lia. lia.
Qed.

(** [&] works digit by digit, and so does [(v >> k) & m] when the digits of the
    mask discard the bits shifted in from the next digit. *)
Lemma land_split x y : x &&& y = ((x mod 16) &&& (y mod 16)) + 16 * ((x / 16) &&& (y / 16)).
Proof.
  change 16 with (2 ^ 4). rewrite <- !Z.shiftr_div_pow2, <- Z.shiftr_land by lia.
  rewrite <- !Z.land_ones by lia.
  replace ((x &&& Z.ones 4) &&& (y &&& Z.ones 4)) with ((x &&& y) &&& Z.ones 4).
  - rewrite Z.land_ones, Z.shiftr_div_pow2 by lia. pose proof (Z.div_mod (x &&& y) (2 ^ 4)). lia.
  - apply Z.bits_inj'. intros i Hi. rewrite !Z.land_spec. btauto.
Qed.

Lemma land_shiftr_digit k m x :
  0 <= k <= 4 -> is_word (4 - k) m -> ((x >>> k) mod 16) &&& m = ((x mod 16) >>> k) &&& m.
Proof.
  intros Hk Hm. apply Z.bits_inj'. intros i Hi. change 16 with (2 ^ 4).
  rewrite !Z.land_spec. destruct (decide (i < 4 - k)) as [Hlt | Hge].
  - rewrite Z.mod_pow2_bits_low, !Z.shiftr_spec, Z.mod_pow2_bits_low by lia. done.
  - rewrite (testbit_word_high (4 - k) m) by (done || lia). by rewrite !andb_false_r.
Qed.

Lemma nibs_land_shiftr n k m v :
  0 <= k <= 4 -> is_word (4 - k) m ->
  (v >>> k) &&& nibs n (fun _ => m) 0 = nibs n (fun x => (x >>> k) &&& m) v.
Proof.
  intros Hk Hm. revert v. induction n as [| n IH]; intros v; cbn [nibs]; [apply Z.land_0_r |].
  rewrite <- IH, land_split. change (0 / 16) with 0.
  assert (0 <= m < 16). { destruct Hm. split; [done |]. pose proof (Z.pow_le_mono_r 2 (4 - k) 4). lia. }
  set (q := nibs n (fun _ => m) 0).
  replace (m + 16 * q) with (m + q * 16) by lia.
  rewrite Z_mod_plus_full, Z.div_add, (Z.mod_small m), (Z.div_small m) by lia.
  rewrite land_shiftr_digit by done. do 2 f_equal. f_equal.
  change 16 with (2 ^ 4). rewrite <- !Z.shiftr_div_pow2, !Z.shiftr_shiftr by lia. f_equal. lia.
Qed.

(** Population count of one digit; the three SWAR steps compute it digit-wise. *)
Definition nib_pop (x : Z) : Z := bit_count 4 x.

Lemma swar_digit_step x :
  0 <= x < 16 ->
  let y := x - ((x >>> 1) &&& 5) in
  0 <= y < 16 /\ 0 <= (y &&& 3) + ((y >>> 2) &&& 3) < 16 /\ (y &&& 3) + ((y >>> 2) &&& 3) = nib_pop x.
Proof.
  intros Hx. cbv zeta.
  apply (bounded_check (fun x => 0 <= x - ((x >>> 1) &&& 5) < 16 /\
    0 <= ((x - ((x >>> 1) &&& 5)) &&& 3) + (((x - ((x >>> 1) &&& 5)) >>> 2) &&& 3) < 16 /\
    ((x - ((x >>> 1) &&& 5)) &&& 3) + (((x - ((x >>> 1) &&& 5)) >>> 2) &&& 3) = nib_pop x) 16); [by vm_compute | done].
Qed.

Lemma swar_two_steps v :
  is_word 32 v ->
  let v1 := u32 (v - ((v >>> 1) &&& 0x55555555)) in
  u32 ((v1 &&& 0x33333333) + ((v1 >>> 2) &&& 0x33333333)) = nibs 8 nib_pop v.
Proof.
  intros Hv. cbv zeta.
  assert (E1 : v - ((v >>> 1) &&& 0x55555555) = nibs 8 (fun x => x - ((x >>> 1) &&& 5)) v).
  { rewrite <- nibs_sub. rewrite <- (nibs_land_shiftr 8 1 5) by (done || lia).
    f_equal. by rewrite (nibs_ext 8 (fun x => x) id), nibs_id. }
  rewrite E1. set (v1 := nibs 8 _ v).
  assert (Hd : forall x, 0 <= x < 16 -> 0 <= x - ((x >>> 1) &&& 5) < 16) by (intros x Hx; apply (swar_digit_step x Hx)).
  unfold u32. rewrite (wrap_small 32 v1) by (apply (nibs_bounds 8); done).
  rewrite <- (Z.shiftr_0_r v1) at 1.
  change 0x33333333 with (nibs 8 (fun _ => 3) 0).
  rewrite !nibs_land_shiftr, nibs_add by (done || lia).
  unfold v1. rewrite nibs_compose by done.
  rewrite (nibs_ext _ _ nib_pop).
  - apply wrap_small, (nibs_bounds 8). intros x Hx. pose proof (swar_digit_step x Hx). cbv zeta in *. lia.
  - intros x Hx. rewrite Z.shiftr_0_r. apply (swar_digit_step x Hx).
Qed.

Lemma nibs_pop_count n v : nibs n (fun _ => 0) v = 0 /\ bit_count (4 * Z.of_nat (S n)) v = nib_pop (v mod 16) + bit_count (4 * Z.of_nat n) (v / 16).
Proof.
  split; [revert v; induction n as [| n IH]; intros v; cbn [nibs]; [done | by rewrite IH] |].
  replace (4 * Z.of_nat (S n)) with (4 + 4 * Z.of_nat n) by lia.
  rewrite bit_count_split, Z.shiftr_div_pow2 by lia. f_equal.
  symmetry. apply (bit_count_wrap 4 v). lia.
Qed.

(** [& 0x0F] on a pair of digits keeps the low one. *)
Lemma land_low_digit a b q m :
  0 <= a < 16 -> 0 <= b < 16 -> (a + 16 * (b + 16 * q)) &&& (15 + 256 * m) = a + 256 * (q &&& m).
Proof.
  intros Ha Hb. rewrite land_split.
  replace (a + 16 * (b + 16 * q)) with (a + (b + 16 * q) * 16) by lia.
  replace (15 + 256 * m) with (15 + (16 * m) * 16) by lia.
  rewrite !Z_mod_plus_full, !Z.div_add, (Z.mod_small a), (Z.div_small a) by lia.
  rewrite (land_split (0 + _)). replace (0 + (b + 16 * q)) with (b + q * 16) by lia.
  replace (15 / 16 + 16 * m) with (0 + m * 16) by (change (15 / 16) with 0; lia).
  rewrite !Z_mod_plus_full, !Z.div_add, (Z.mod_small b), (Z.div_small b) by lia.
  change (0 mod 16) with 0. change (0 / 16) with 0. change (15 mod 16) with (Z.ones 4).
  rewrite Z.land_0_r, Z.land_ones, !Z.add_0_l, (Z.mod_small a) by lia. lia.
Qed.

(** The last step adds up the eight digits. *)
Lemma swar_sum c0 c1 c2 c3 c4 c5 c6 c7 :
  let dig x := 0 <= x <= 4 in
  dig c0 -> dig c1 -> dig c2 -> dig c3 -> dig c4 -> dig c5 -> dig c6 -> dig c7 ->
  let v := c0 + 16 * (c1 + 16 * (c2 + 16 * (c3 + 16 * (c4 + 16 * (c5 + 16 * (c6 + 16 * c7)))))) in
  u32 ((u32 (v + (v >>> 4)) &&& 0xF0F0F0F) * 0x1010101) >>> 24 = c0 + c1 + c2 + c3 + c4 + c5 + c6 + c7.
Proof.
  intros dig H0 H1 H2 H3 H4 H5 H6 H7 v. subst dig. cbv beta in *.
  assert (Es : v >>> 4 = c1 + 16 * (c2 + 16 * (c3 + 16 * (c4 + 16 * (c5 + 16 * (c6 + 16 * c7)))))).
  { rewrite Z.shiftr_div_pow2 by lia. unfold v. rewrite (Z.mul_comm 16), Z.div_add, Z.div_small by lia. lia. }
  rewrite Es. unfold u32 at 2. rewrite wrap_small by (unfold is_word, v; lia).
  replace (v + _) with ((c0 + c1) + 16 * ((c1 + c2) + 16 * ((c2 + c3) + 16 * ((c3 + c4) + 16 *
    ((c4 + c5) + 16 * ((c5 + c6) + 16 * ((c6 + c7) + 16 * (c7 + 16 * 0)))))))) by (unfold v; lia).
  change 0xF0F0F0F with (15 + 256 * (15 + 256 * (15 + 256 * (15 + 256 * 0)))).
  rewrite !land_low_digit, Z.land_0_r, Z.shiftr_div_pow2 by lia. unfold u32, wrap.
  Z.to_euclidean_division_equations. lia.
Qed.

Lemma nib_pop_bounds x : 0 <= nib_pop x <= 4.
Proof. apply bit_count_bounds. lia. Qed.

Lemma my_count_bits_uint32_count v : is_word 32 v -> my_count_bits_uint32 v = bit_count 32 v.
Proof.
  intros Hv. unfold my_count_bits_uint32. cbv zeta. rewrite swar_two_steps by done. cbn [nibs].
  rewrite Z.mul_0_r, Z.add_0_r. rewrite swar_sum by apply nib_pop_bounds.
  change 32 with (4 * Z.of_nat 8). rewrite !(proj2 (nibs_pop_count _ _)).
  change (bit_count (4 * Z.of_nat 0) _) with 0. lia.
Qed.

Lemma count_bits_bit_count x : is_word 64 x -> my_count_bits x = bit_count 64 x.
Proof.
  intros Hx. unfold my_count_bits, u32.
  rewrite (wrap_small 32 (x >>> 32)).
  - rewrite !my_count_bits_uint32_count; [| | by apply is_word_wrap].
    + rewrite bit_count_wrap by lia. change 64 with (32 + 32). rewrite bit_count_split by lia.
      pose proof (bit_count_bounds 32 x). pose proof (bit_count_bounds 32 (x >>> 32)).
      apply wrap_small. unfold is_word. lia.
    + rewrite Z.shiftr_div_pow2 by lia. destruct Hx. split; [apply Z.div_pos | apply Z.div_lt_upper_bound]; lia.
  - rewrite Z.shiftr_div_pow2 by lia. destruct Hx. split; [apply Z.div_pos | apply Z.div_lt_upper_bound]; lia.
Qed.

(** the SWAR population count of [my_count_bits] returns the number of set
    bits of every 64-bit word. *)
Theorem my_count_bits_count x : is_word 64 x -> my_count_bits x = bit_count 64 x.
Proof. apply count_bits_bit_count. Qed.

(** ** Smearing the highest bit down *)

(** [w] has a bit exactly where [v] has one less than [n] positions above. *)
Definition smeared (n v w : Z) : Prop :=
  0 <= w /\ forall i, 0 <= i -> Z.testbit w i = true <-> exists j, 0 <= j < n /\ Z.testbit v (i + j) = true.

Lemma smeared_1 v : 0 <= v -> smeared 1 v v.
Proof.
  intros Hv. split; [done |]. intros i Hi. split.
  - intros H. exists 0. split; [lia |]. by rewrite Z.add_0_r.
  - intros (j & Hj & H). replace (i + j) with i in H by lia. done.
Qed.

Lemma smeared_step n k v w : 0 < k <= n -> smeared n v w -> smeared (n + k) v (w ||| (w >>> k)).
Proof.
  intros Hk [Hw Hs]. split; [apply Z.lor_nonneg; split; [done | by apply Z.shiftr_nonneg] |].
  intros i Hi. rewrite Z.lor_spec, Z.shiftr_spec, orb_true_iff, !Hs by lia. split.
  - intros [(j & Hj & H) | (j & Hj & H)]; [exists j | exists (j + k)]; (split; [lia |]); [done |].
    by replace (i + (j + k)) with (i + k + j) by lia.
  - intros (j & Hj & H). destruct (decide (j < n)); [left; exists j | right; exists (j - k)]; (split; [lia |]); [done |].
    by replace (i + k + (j - k)) with (i + j) by lia.
Qed.

Lemma smeared_full n v w : 0 < v < 2 ^ n -> smeared n v w -> w = 2 ^ (Z.log2 v + 1) - 1.
Proof.
  intros Hv [Hw Hs]. assert (Hl : 0 <= Z.log2 v < n).
  { split; [apply Z.log2_nonneg | apply Z.log2_lt_pow2; lia]. }
  rewrite <- ones_pow2. apply Z.bits_inj'. intros i Hi.
  destruct (decide (i <= Z.log2 v)).
  - rewrite Z.ones_spec_low by lia. apply Hs; [done |]. exists (Z.log2 v - i). split; [lia |].
    replace (i + (Z.log2 v - i)) with (Z.log2 v) by lia. apply Z.bit_log2; lia.
  - rewrite Z.ones_spec_high by lia. apply not_true_is_false. intros H%Hs; [| done].
    destruct H as (j & Hj & H). rewrite Z.bits_above_log2 in H by lia. done.
Qed.

Definition smear32 (v : Z) : Z :=
  let v := v ||| (v >>> 1) in let v := v ||| (v >>> 2) in let v := v ||| (v >>> 4) in
  let v := v ||| (v >>> 8) in v ||| (v >>> 16).

Lemma smear32_full v : 0 < v < 2 ^ 32 -> smear32 v = 2 ^ (Z.log2 v + 1) - 1.
Proof.
  intros Hv. apply (smeared_full 32); [done |]. unfold smear32. cbv zeta.
  apply (smeared_step 16 16), (smeared_step 8 8), (smeared_step 4 4), (smeared_step 2 2), (smeared_step 1 1);
    try lia. apply smeared_1. lia.
Qed.

(** [my_round_up_to_next_power] returns the least power of two that is not
    below a positive [v], as long as that power fits 32 bits. *)
Theorem my_round_up_to_next_power_spec v :
  0 < v <= 2 ^ 31 ->
  my_round_up_to_next_power v = 2 ^ Z.log2_up v /\ v <= my_round_up_to_next_power v /\
  forall n, 0 <= n -> v <= 2 ^ n -> my_round_up_to_next_power v <= 2 ^ n.
Proof.
  intros Hv. assert (E : my_round_up_to_next_power v = 2 ^ Z.log2_up v).
  { unfold my_round_up_to_next_power.
    assert (Hu : u32 (v - 1) = v - 1) by (apply wrap_small; unfold is_word; lia). rewrite Hu.
    change (u32 (smear32 (v - 1) + 1) = 2 ^ Z.log2_up v).
    destruct (decide (v = 1)) as [-> |]; [by vm_compute |].
    rewrite smear32_full by lia. unfold Z.log2_up. destruct (Z.compare_spec 1 v); try lia.
    replace (Z.pred v) with (v - 1) by lia. rewrite Z.sub_add, Z.add_1_r. apply wrap_small.
    split; [lia |]. apply Z.pow_lt_mono_r; [lia | lia |].
    assert (Z.log2 (v - 1) < 31) by (apply Z.log2_lt_pow2; lia). lia. }
  rewrite E. split; [done |]. split.
  - destruct (decide (v = 1)) as [-> |]; [by vm_compute |]. apply Z.log2_log2_up_spec. lia.
  - intros n Hn Hle. apply Z.pow_le_mono_r; [lia |]. apply Z.log2_up_le_pow2; lia.
Qed.

Lemma my_round_up_to_next_power_zero : my_round_up_to_next_power 0 = 0.
Proof. by vm_compute. Qed.

Lemma my_clear_highest_bit_sub v : 0 < v < 2 ^ 32 -> my_clear_highest_bit v = v - 2 ^ Z.log2 v.
Proof.
  intros Hv. unfold my_clear_highest_bit. change (v &&& smear32 (v >>> 1) = v - 2 ^ Z.log2 v).
  destruct (decide (v = 1)) as [-> |]; [by vm_compute |].
  assert (Hl : 0 < Z.log2 v) by (apply Z.log2_pos; lia).
  assert (Hs : Z.log2 (v >>> 1) = Z.log2 v - 1) by (rewrite Z.log2_shiftr by lia; lia).
  rewrite smear32_full.
  - rewrite Hs, Z.sub_add, <- ones_pow2, Z.land_ones by lia.
    pose proof (Z.log2_spec v ltac:(lia)) as Hp. rewrite Z.pow_succ_r in Hp by lia.
    symmetry. apply (Z.mod_unique _ _ 1); lia.
  - rewrite Z.shiftr_div_pow2 by lia. change (2 ^ 1) with 2. Z.to_euclidean_division_equations. lia.
Qed.

(** ** Masks *)

Lemma my_set_bits_ones n : 0 < n <= 64 -> my_set_bits n = 2 ^ n - 1.
Proof.
  intros Hn. unfold my_set_bits, u64.
  assert (Hw : is_word 64 (1 <<< (n - 1))) by (apply is_word_shiftl1; lia).
  rewrite (wrap_small 64 (1 <<< (n - 1))) by done. rewrite Z.shiftl_1_l in *.
  rewrite (wrap_small 64 (2 ^ (n - 1) - 1)) by (unfold is_word in *; lia).
  rewrite <- !ones_pow2. apply Z.bits_inj'. intros i Hi.
  pose proof (testbit_shiftl1 0 i ltac:(lia)) as E1. rewrite Z.shiftl_0_r in E1.
  rewrite Z.lor_spec, testbit_wrap, Z.shiftl_spec, E1 by lia.
  rewrite !Z.testbit_ones by lia.
  destruct (Z.leb_spec 0 (i - 1)), (Z.ltb_spec (i - 1) (n - 1)), (Z.leb_spec 0 i), (Z.ltb_spec i n),
    (Z.eqb_spec i 0), (Z.ltb_spec i 64); simpl; first [done | lia].
Qed.

Lemma last_byte_mask_ones bits : 0 < bits < 2 ^ 32 -> last_byte_mask bits = 2 ^ ((bits - 1) mod 8 + 1) - 1.
Proof.
  intros Hb. unfold last_byte_mask.
  assert (Hu : u32 (bits - 1) = bits - 1) by (apply wrap_small; unfold is_word; lia). rewrite Hu.
  change 7 with (Z.ones 3). rewrite Z.land_ones by lia. change (2 ^ 3) with 8.
  pose proof (Z.mod_pos_bound (bits - 1) 8 eq_refl) as Hm. revert Hm. generalize ((bits - 1) mod 8). intros m Hm.
  apply (bounded_check (fun m => u8 (u32 (2 <<< m) - 1) = 2 ^ (m + 1) - 1) 8); [by vm_compute | done].
Qed.

(** ** First bit *)

(** [b] is the least set bit of [d], below [w]. *)
Definition least_bit (w d b : Z) : Prop :=
  0 <= b < w /\ Z.testbit d b = true /\ Forall (fun i => Z.testbit d i = false) (seqZ 0 b).

#[export] Instance least_bit_dec w d b : Decision (least_bit w d b).
Proof. unfold least_bit. apply _. Defined.

Lemma last_bit_spec d :
  0 <= d < 16 ->
  (nth (Z.to_nat d) last_bit 0 = 32 /\ d = 0) \/ least_bit 4 d (nth (Z.to_nat d) last_bit 0).
Proof. apply (bounded_check (fun d => (nth (Z.to_nat d) last_bit 0 = 32 /\ d = 0) \/ least_bit 4 d (nth (Z.to_nat d) last_bit 0)) 16). by vm_compute. Qed.

(** The loop keeps "no bit below [shift]", and sixteen rounds reach every bit. *)
Lemma find_first_bit_loop_spec fuel n shift :
  is_word 64 n -> n <> 0 -> 0 <= shift -> 64 <= shift + 4 * Z.of_nat fuel ->
  (forall i, 0 <= i < shift -> Z.testbit n i = false) ->
  exists b, find_first_bit_loop fuel n shift = Some b /\ least_bit 64 n b.
Proof.
  intros Hn Hnz. revert shift. induction fuel as [| fuel IH]; intros shift Hs Hfuel Hlow.
  - exfalso. apply Hnz. apply (word_bits_eq 64); [done | by apply is_word_0 |].
    intros i Hi. rewrite Z.bits_0. apply Hlow. lia.
  - cbn [find_first_bit_loop]. set (d := (n >>> shift) &&& 0xF).
    assert (Hd : 0 <= d < 16). { unfold d. change 0xF with (Z.ones 4). rewrite Z.land_ones by lia. by apply Z.mod_pos_bound. }
    assert (Hbit : forall i, 0 <= i < 4 -> Z.testbit d i = Z.testbit n (i + shift)).
    { intros i Hi. unfold d. change 0xF with (Z.ones 4).
      by rewrite Z.land_spec, Z.shiftr_spec, Z.ones_spec_low, andb_true_r by lia. }
    pose proof (last_bit_spec d Hd) as Htab. revert Htab. generalize (nth (Z.to_nat d) last_bit 0). intros b Htab.
    destruct Htab as [[-> Hd0] | (Hb & Hset & Hleast)].
    + apply IH; [lia | lia |]. intros i Hi. destruct (decide (i < shift)); [apply Hlow; lia |].
      replace i with ((i - shift) + shift) by lia. rewrite <- Hbit by lia. by rewrite Hd0, Z.bits_0.
    + destruct (Z.eqb_spec b 32); [lia |].
      exists (shift + b). rewrite Hbit, Z.add_comm in Hset by lia. rewrite Forall_seqZ in Hleast.
      split; [done |]. split; [split; [lia |] | split; [done |]].
      * apply Z.nle_gt. intros Hle. rewrite (testbit_word_high 64) in Hset by (done || lia). done.
      * apply Forall_seqZ. intros i Hi. destruct (decide (i < shift)); [apply Hlow; lia |].
        replace i with ((i - shift) + shift) by lia. rewrite <- Hbit by lia. apply Hleast. lia.
Qed.

(** [my_find_first_bit] terminates on every 64-bit word: the search loop
    never runs past the word, it returns 64 for 0 and otherwise the position of
    the least significant set bit. *)
Theorem my_find_first_bit_total n :
  is_word 64 n ->
  (n = 0 /\ my_find_first_bit n = Some 64) \/ exists b, my_find_first_bit n = Some b /\ least_bit 64 n b.
Proof.
  intros Hn. unfold my_find_first_bit. destruct (Z.eqb_spec n 0); [by left | right].
  apply find_first_bit_loop_spec; try done; lia.
Qed.

(** The portable branch as a plain function, and the contract it meets. *)
Definition find_first_bit (n : Z) : Z := default 64 (my_find_first_bit n).

#[export] Instance find_first_bit_ok : FirstBit find_first_bit.
Proof.
  split; [done | |].
  - intros n Hn Hnz. unfold find_first_bit. destruct (find_first_bit_loop_spec 16 n 0) as (b & E & Hb & Hset & _); try done; try lia.
    unfold my_find_first_bit. destruct (Z.eqb_spec n 0); [done |]. by rewrite E.
  - intros n i Hn. unfold find_first_bit, my_find_first_bit. destruct (Z.eqb_spec n 0) as [-> |]; [by rewrite Z.bits_0 |].
    destruct (find_first_bit_loop_spec 16 n 0) as (b & E & _ & _ & Hl); try done; try lia.
    rewrite E, Forall_seqZ in *. simpl. intros Hi. apply Hl. lia.
Qed.

(** ** Reversal *)

Section reverse_proofs.
Variable bits_reverse_table : Z -> Z.
(** Entry [b] of the table is the byte [b] with its bits in reverse order. *)
Hypothesis table_word : forall b, is_word 8 b -> is_word 8 (bits_reverse_table b).
Hypothesis table_bits : forall b i, is_word 8 b -> 0 <= i < 8 -> Z.testbit (bits_reverse_table b) i = Z.testbit b (7 - i).

Lemma table_testbit b i : is_word 8 b -> 0 <= i -> Z.testbit (bits_reverse_table b) i = (i <? 8) && Z.testbit b (7 - i).
Proof using Type*.
  intros Hb Hi. destruct (Z.ltb_spec i 8); [apply table_bits; [done | lia] |].
  apply (testbit_word_high 8); [by apply table_word | done].
Qed.

Lemma byte_word key k : 0 <= k -> is_word 32 key -> is_word 8 ((key >>> k) &&& 255).
Proof using. intros Hk Hw. apply is_word_land_r; [apply Z.shiftr_nonneg, Hw | done]. Qed.

(** given the byte table, [my_reverse_bits] reverses the 32 bits of its
    argument. *)
Theorem my_reverse_bits_spec key i :
  is_word 32 key -> 0 <= i < 32 -> Z.testbit (my_reverse_bits bits_reverse_table key) i = Z.testbit key (31 - i).
Proof using Type*.
  intros Hkey Hi. unfold my_reverse_bits, u32.
  assert (Hlast : is_word 8 (key >>> 24)).
  { rewrite Z.shiftr_div_pow2 by lia. destruct Hkey. split; [apply Z.div_pos | apply Z.div_lt_upper_bound]; lia. }
  rewrite !Z.lor_spec, !testbit_wrap, !Z.shiftl_spec by lia.
  assert (E0 : key &&& 255 = (key >>> 0) &&& 255) by (by rewrite Z.shiftr_0_r). rewrite E0.
  assert (Hb : forall k j, 0 <= k -> Z.testbit (bits_reverse_table ((key >>> k) &&& 255)) j
     = (0 <=? j) && (j <? 8) && Z.testbit key (7 - j + k)).
  { intros k j Hk. destruct (Z.leb_spec 0 j); [| by rewrite Z.testbit_neg_r by lia].
    rewrite table_testbit by (done || by apply byte_word). destruct (Z.ltb_spec j 8); [| done]. simpl.
    rewrite Z.land_spec, Z.shiftr_spec by lia. change 255 with (Z.ones 8). by rewrite Z.ones_spec_low, andb_true_r by lia. }
  rewrite !Hb, table_testbit by (done || lia).
  assert (Hr : i < 8 -> Z.testbit (key >>> 24) (7 - i) = Z.testbit key (31 - i)).
  { intros H8. rewrite Z.shiftr_spec by lia. f_equal. lia. }
  destruct (Z.ltb_spec i 8); [rewrite Hr by lia | clear Hr].
  all: repeat match goal with |- context [?a <=? ?b] => destruct (Z.leb_spec a b) end.
  all: repeat match goal with |- context [?a <? ?b] => destruct (Z.ltb_spec a b) end.
  all: cbn [andb orb]; rewrite ?orb_false_r; try lia; f_equal; lia.
Qed.
End reverse_proofs.

(** ** Concrete words *)

Lemma my_bit_log2_uint64_log2_witness : my_bit_log2_uint64 0x8000000000000001 = 63.
Proof. refine (eq_trans (my_bit_log2_uint64_log2 0x8000000000000001 _) _); [unfold is_word; lia | reflexivity]. Defined.

Lemma my_count_bits_count_witness : my_count_bits 0xF0F0000000000001 = 9.
Proof. refine (eq_trans (my_count_bits_count 0xF0F0000000000001 _) _); [unfold is_word; lia | reflexivity]. Defined.

Lemma my_round_up_to_next_power_spec_witness : my_round_up_to_next_power 1025 = 2048.
Proof. refine (eq_trans (proj1 (my_round_up_to_next_power_spec 1025 _)) _); [lia | reflexivity]. Defined.

Lemma my_find_first_bit_total_witness : exists b, my_find_first_bit 0x100000 = Some b /\ least_bit 64 0x100000 b.
Proof. destruct (my_find_first_bit_total 0x100000) as [[H _] | H]; [unfold is_word; lia | discriminate H | exact H]. Defined.
