(* ===== verification/PrivilegeDefs.v ===== *)
(** * PrivilegeDefs: the privilege bits and masks of [privilege.h]

    [privilege_t] is an enum over [unsigned long long]: a word of 64 bits of
    which every enumerator is one.  The masks are the constexpr combinations of
    the header: the object-level sets ([COL_ACLS] ... [GLOBAL_ACLS]), the
    requirement of each statement, command and system variable ([PRIV_...]) and
    the chunks in which the grant tables store them ([DB_CHUNK...]). *)

From stdpp Require Import base numbers list.
From Stdlib Require Import ZArith Lia.
From S2P Require Import Prelude Bits.

Local Open Scope Z_scope.
Local Open Scope cxx_scope.

(* [privilege.h:29-30 privilege_t] *)
Definition privilege_t : Type := Z.

(* [privilege.h:31-31 privilege_t::NO_ACL] *)
Definition NO_ACL : privilege_t := 0.

(* [privilege.h:32-32 privilege_t::SELECT_ACL] *)
Definition SELECT_ACL : privilege_t := 1 <<< 0.

(* [privilege.h:33-33 privilege_t::INSERT_ACL] *)
Definition INSERT_ACL : privilege_t := 1 <<< 1.

(* [privilege.h:34-34 privilege_t::UPDATE_ACL] *)
Definition UPDATE_ACL : privilege_t := 1 <<< 2.

(* [privilege.h:35-35 privilege_t::DELETE_ACL] *)
Definition DELETE_ACL : privilege_t := 1 <<< 3.

(* [privilege.h:36-36 privilege_t::CREATE_ACL] *)
Definition CREATE_ACL : privilege_t := 1 <<< 4.

(* [privilege.h:37-37 privilege_t::DROP_ACL] *)
Definition DROP_ACL : privilege_t := 1 <<< 5.

(* [privilege.h:38-38 privilege_t::RELOAD_ACL] *)
Definition RELOAD_ACL : privilege_t := 1 <<< 6.

(* [privilege.h:39-39 privilege_t::SHUTDOWN_ACL] *)
Definition SHUTDOWN_ACL : privilege_t := 1 <<< 7.

(* [privilege.h:40-40 privilege_t::PROCESS_ACL] *)
Definition PROCESS_ACL : privilege_t := 1 <<< 8.

(* [privilege.h:41-41 privilege_t::FILE_ACL] *)
Definition FILE_ACL : privilege_t := 1 <<< 9.

(* [privilege.h:42-42 privilege_t::GRANT_ACL] *)
Definition GRANT_ACL : privilege_t := 1 <<< 10.

(* [privilege.h:43-43 privilege_t::REFERENCES_ACL] *)
Definition REFERENCES_ACL : privilege_t := 1 <<< 11.

(* [privilege.h:44-44 privilege_t::INDEX_ACL] *)
Definition INDEX_ACL : privilege_t := 1 <<< 12.

(* [privilege.h:45-45 privilege_t::ALTER_ACL] *)
Definition ALTER_ACL : privilege_t := 1 <<< 13.

(* [privilege.h:46-46 privilege_t::SHOW_DB_ACL] *)
Definition SHOW_DB_ACL : privilege_t := 1 <<< 14.

(* [privilege.h:47-47 privilege_t::SUPER_ACL] *)
Definition SUPER_ACL : privilege_t := 1 <<< 15.

(* [privilege.h:48-48 privilege_t::CREATE_TMP_ACL] *)
Definition CREATE_TMP_ACL : privilege_t := 1 <<< 16.

(* [privilege.h:49-49 privilege_t::LOCK_TABLES_ACL] *)
Definition LOCK_TABLES_ACL : privilege_t := 1 <<< 17.

(* [privilege.h:50-50 privilege_t::EXECUTE_ACL] *)
Definition EXECUTE_ACL : privilege_t := 1 <<< 18.

(* [privilege.h:51-51 privilege_t::REPL_SLAVE_ACL] *)
Definition REPL_SLAVE_ACL : privilege_t := 1 <<< 19.

(* [privilege.h:52-52 privilege_t::BINLOG_MONITOR_ACL] *)
Definition BINLOG_MONITOR_ACL : privilege_t := 1 <<< 20.

(* [privilege.h:53-53 privilege_t::CREATE_VIEW_ACL] *)
Definition CREATE_VIEW_ACL : privilege_t := 1 <<< 21.

(* [privilege.h:54-54 privilege_t::SHOW_VIEW_ACL] *)
Definition SHOW_VIEW_ACL : privilege_t := 1 <<< 22.

(* [privilege.h:55-55 privilege_t::CREATE_PROC_ACL] *)
Definition CREATE_PROC_ACL : privilege_t := 1 <<< 23.

(* [privilege.h:56-56 privilege_t::ALTER_PROC_ACL] *)
Definition ALTER_PROC_ACL : privilege_t := 1 <<< 24.

(* [privilege.h:57-57 privilege_t::CREATE_USER_ACL] *)
Definition CREATE_USER_ACL : privilege_t := 1 <<< 25.

(* [privilege.h:58-58 privilege_t::EVENT_ACL] *)
Definition EVENT_ACL : privilege_t := 1 <<< 26.

(* [privilege.h:59-59 privilege_t::TRIGGER_ACL] *)
Definition TRIGGER_ACL : privilege_t := 1 <<< 27.

(* [privilege.h:60-60 privilege_t::CREATE_TABLESPACE_ACL] *)
Definition CREATE_TABLESPACE_ACL : privilege_t := 1 <<< 28.

(* [privilege.h:61-61 privilege_t::DELETE_HISTORY_ACL] *)
Definition DELETE_HISTORY_ACL : privilege_t := 1 <<< 29.

(* [privilege.h:62-62 privilege_t::SET_USER_ACL] *)
Definition SET_USER_ACL : privilege_t := 1 <<< 30.

(* [privilege.h:63-63 privilege_t::FEDERATED_ADMIN_ACL] *)
Definition FEDERATED_ADMIN_ACL : privilege_t := 1 <<< 31.

(* [privilege.h:64-64 privilege_t::CONNECTION_ADMIN_ACL] *)
Definition CONNECTION_ADMIN_ACL : privilege_t := 1 <<< 32.

(* [privilege.h:65-65 privilege_t::READ_ONLY_ADMIN_ACL] *)
Definition READ_ONLY_ADMIN_ACL : privilege_t := 1 <<< 33.

(* [privilege.h:66-66 privilege_t::REPL_SLAVE_ADMIN_ACL] *)
Definition REPL_SLAVE_ADMIN_ACL : privilege_t := 1 <<< 34.

(* [privilege.h:67-67 privilege_t::REPL_MASTER_ADMIN_ACL] *)
Definition REPL_MASTER_ADMIN_ACL : privilege_t := 1 <<< 35.

(* [privilege.h:68-68 privilege_t::BINLOG_ADMIN_ACL] *)
Definition BINLOG_ADMIN_ACL : privilege_t := 1 <<< 36.

(* [privilege.h:69-69 privilege_t::BINLOG_REPLAY_ACL] *)
Definition BINLOG_REPLAY_ACL : privilege_t := 1 <<< 37.

(** The enumerators with a bit, in the order of the header. *)
(* [privilege.h:32-69 privilege_t] *)
Definition privilege_bits : list privilege_t :=
  [SELECT_ACL; INSERT_ACL; UPDATE_ACL; DELETE_ACL;
   CREATE_ACL; DROP_ACL; RELOAD_ACL; SHUTDOWN_ACL;
   PROCESS_ACL; FILE_ACL; GRANT_ACL; REFERENCES_ACL;
   INDEX_ACL; ALTER_ACL; SHOW_DB_ACL; SUPER_ACL;
   CREATE_TMP_ACL; LOCK_TABLES_ACL; EXECUTE_ACL; REPL_SLAVE_ACL;
   BINLOG_MONITOR_ACL; CREATE_VIEW_ACL; SHOW_VIEW_ACL; CREATE_PROC_ACL;
   ALTER_PROC_ACL; CREATE_USER_ACL; EVENT_ACL; TRIGGER_ACL;
   CREATE_TABLESPACE_ACL; DELETE_HISTORY_ACL; SET_USER_ACL; FEDERATED_ADMIN_ACL;
   CONNECTION_ADMIN_ACL; READ_ONLY_ADMIN_ACL; REPL_SLAVE_ADMIN_ACL; REPL_MASTER_ADMIN_ACL;
   BINLOG_ADMIN_ACL; BINLOG_REPLAY_ACL].

(** ** Operators *)

(* [privilege.h:123-126 operator~] *)
Definition privilege_not (access : privilege_t) : Z := wnot 64 access.

(* [privilege.h:178-192 operator&] *)
Definition privilege_and (a b : privilege_t) : privilege_t := a &&& b.

(* [privilege.h:194-198 operator|] *)
Definition privilege_or (a b : privilege_t) : privilege_t := a ||| b.

(* [privilege.h:202-210 operator&=] *)
Definition privilege_and_assign (a b : privilege_t) : privilege_t := privilege_and a b.

(* [privilege.h:212-215 operator|=] *)
Definition privilege_or_assign (a b : privilege_t) : privilege_t := privilege_or a b.

Infix "∨ₚ" := privilege_or (at level 50, left associativity) : cxx_scope.

(** ** Masks *)

(* [privilege.h:98-98 LAST_100304_ACL] *)
Definition LAST_100304_ACL : privilege_t := DELETE_HISTORY_ACL.

(* [privilege.h:99-99 LAST_100502_ACL] *)
Definition LAST_100502_ACL : privilege_t := BINLOG_REPLAY_ACL.

(* [privilege.h:102-102 LAST_CURRENT_ACL] *)
Definition LAST_CURRENT_ACL : privilege_t := LAST_100502_ACL.

(* [privilege.h:103-104 PRIVILEGE_T_MAX_BIT] *)
Definition PRIVILEGE_T_MAX_BIT : Z := my_bit_log2_uint64 LAST_CURRENT_ACL.

(* [privilege.h:111-112 ALL_KNOWN_ACL_100304] *)
Definition ALL_KNOWN_ACL_100304 : privilege_t := u64 (u64 (LAST_100304_ACL <<< 1) - 1).

(* [privilege.h:115-116 ALL_KNOWN_ACL_100502] *)
Definition ALL_KNOWN_ACL_100502 : privilege_t := u64 (u64 (LAST_100502_ACL <<< 1) - 1).

(* [privilege.h:119-119 ALL_KNOWN_ACL] *)
Definition ALL_KNOWN_ACL : privilege_t := ALL_KNOWN_ACL_100502.

(* [privilege.h:223-230 GLOBAL_SUPER_ADDED_SINCE_USER_TABLE_ACLS] *)
Definition GLOBAL_SUPER_ADDED_SINCE_USER_TABLE_ACLS : privilege_t :=
  SET_USER_ACL ∨ₚ FEDERATED_ADMIN_ACL ∨ₚ CONNECTION_ADMIN_ACL ∨ₚ READ_ONLY_ADMIN_ACL ∨ₚ REPL_SLAVE_ADMIN_ACL ∨ₚ BINLOG_ADMIN_ACL ∨ₚ BINLOG_REPLAY_ACL.

(* [privilege.h:233-234 COL_DML_ACLS] *)
Definition COL_DML_ACLS : privilege_t := SELECT_ACL ∨ₚ INSERT_ACL ∨ₚ UPDATE_ACL ∨ₚ DELETE_ACL.

(* [privilege.h:236-237 VIEW_ACLS] *)
Definition VIEW_ACLS : privilege_t := CREATE_VIEW_ACL ∨ₚ SHOW_VIEW_ACL.

(* [privilege.h:239-240 STD_TABLE_DDL_ACLS] *)
Definition STD_TABLE_DDL_ACLS : privilege_t := CREATE_ACL ∨ₚ DROP_ACL ∨ₚ ALTER_ACL.

(* [privilege.h:242-243 ALL_TABLE_DDL_ACLS] *)
Definition ALL_TABLE_DDL_ACLS : privilege_t := STD_TABLE_DDL_ACLS ∨ₚ INDEX_ACL.

(* [privilege.h:245-246 COL_ACLS] *)
Definition COL_ACLS : privilege_t := SELECT_ACL ∨ₚ INSERT_ACL ∨ₚ UPDATE_ACL ∨ₚ REFERENCES_ACL.

(* [privilege.h:248-249 PROC_DDL_ACLS] *)
Definition PROC_DDL_ACLS : privilege_t := CREATE_PROC_ACL ∨ₚ ALTER_PROC_ACL.

(* [privilege.h:251-252 SHOW_PROC_ACLS] *)
Definition SHOW_PROC_ACLS : privilege_t := PROC_DDL_ACLS ∨ₚ EXECUTE_ACL.

(* [privilege.h:254-257 TABLE_ACLS] *)
Definition TABLE_ACLS : privilege_t :=
  COL_DML_ACLS ∨ₚ ALL_TABLE_DDL_ACLS ∨ₚ VIEW_ACLS ∨ₚ GRANT_ACL ∨ₚ REFERENCES_ACL ∨ₚ TRIGGER_ACL ∨ₚ DELETE_HISTORY_ACL.

(* [privilege.h:259-261 DB_ACLS] *)
Definition DB_ACLS : privilege_t :=
  TABLE_ACLS ∨ₚ PROC_DDL_ACLS ∨ₚ EXECUTE_ACL ∨ₚ CREATE_TMP_ACL ∨ₚ LOCK_TABLES_ACL ∨ₚ EVENT_ACL.

(* [privilege.h:263-264 PROC_ACLS] *)
Definition PROC_ACLS : privilege_t := ALTER_PROC_ACL ∨ₚ EXECUTE_ACL ∨ₚ GRANT_ACL.

(* [privilege.h:266-272 GLOBAL_ACLS] *)
Definition GLOBAL_ACLS : privilege_t :=
  DB_ACLS ∨ₚ SHOW_DB_ACL ∨ₚ CREATE_USER_ACL ∨ₚ CREATE_TABLESPACE_ACL ∨ₚ SUPER_ACL ∨ₚ RELOAD_ACL ∨ₚ SHUTDOWN_ACL ∨ₚ PROCESS_ACL ∨ₚ FILE_ACL ∨ₚ REPL_SLAVE_ACL ∨ₚ BINLOG_MONITOR_ACL ∨ₚ GLOBAL_SUPER_ADDED_SINCE_USER_TABLE_ACLS ∨ₚ REPL_MASTER_ADMIN_ACL.

(* [privilege.h:274-275 DEFAULT_CREATE_PROC_ACLS] *)
Definition DEFAULT_CREATE_PROC_ACLS : privilege_t := ALTER_PROC_ACL ∨ₚ EXECUTE_ACL.

(* [privilege.h:277-279 SHOW_CREATE_TABLE_ACLS] *)
Definition SHOW_CREATE_TABLE_ACLS : privilege_t :=
  COL_DML_ACLS ∨ₚ ALL_TABLE_DDL_ACLS ∨ₚ TRIGGER_ACL ∨ₚ REFERENCES_ACL ∨ₚ GRANT_ACL ∨ₚ VIEW_ACLS.

(* [privilege.h:285-286 TMP_TABLE_ACLS] *)
Definition TMP_TABLE_ACLS : privilege_t := COL_DML_ACLS ∨ₚ ALL_TABLE_DDL_ACLS.

(* [privilege.h:295-295 PRIV_DEFINER_CLAUSE] *)
Definition PRIV_DEFINER_CLAUSE : privilege_t := SET_USER_ACL ∨ₚ SUPER_ACL.

(* [privilege.h:311-311 PRIV_REVEAL_MISSING_DEFINER] *)
Definition PRIV_REVEAL_MISSING_DEFINER : privilege_t := SET_USER_ACL ∨ₚ SUPER_ACL.

(* [privilege.h:314-314 PRIV_DES_DECRYPT_ONE_ARG] *)
Definition PRIV_DES_DECRYPT_ONE_ARG : privilege_t := SUPER_ACL.

(* [privilege.h:315-315 PRIV_LOG_BIN_TRUSTED_SP_CREATOR] *)
Definition PRIV_LOG_BIN_TRUSTED_SP_CREATOR : privilege_t := SUPER_ACL.

(* [privilege.h:316-316 PRIV_DEBUG] *)
Definition PRIV_DEBUG : privilege_t := SUPER_ACL.

(* [privilege.h:317-317 PRIV_SET_GLOBAL_SYSTEM_VARIABLE] *)
Definition PRIV_SET_GLOBAL_SYSTEM_VARIABLE : privilege_t := SUPER_ACL.

(* [privilege.h:318-318 PRIV_SET_RESTRICTED_SESSION_SYSTEM_VARIABLE] *)
Definition PRIV_SET_RESTRICTED_SESSION_SYSTEM_VARIABLE : privilege_t := SUPER_ACL.

(* [privilege.h:321-322 PRIV_SET_SYSTEM_VAR_BINLOG_FORMAT] *)
Definition PRIV_SET_SYSTEM_VAR_BINLOG_FORMAT : privilege_t := SUPER_ACL ∨ₚ BINLOG_ADMIN_ACL.

(* [privilege.h:324-325 PRIV_SET_SYSTEM_VAR_BINLOG_DIRECT_NON_TRANSACTIONAL_UPDATES] *)
Definition PRIV_SET_SYSTEM_VAR_BINLOG_DIRECT_NON_TRANSACTIONAL_UPDATES : privilege_t :=
  SUPER_ACL ∨ₚ BINLOG_ADMIN_ACL.

(* [privilege.h:327-328 PRIV_SET_SYSTEM_VAR_BINLOG_ANNOTATE_ROW_EVENTS] *)
Definition PRIV_SET_SYSTEM_VAR_BINLOG_ANNOTATE_ROW_EVENTS : privilege_t :=
  SUPER_ACL ∨ₚ BINLOG_ADMIN_ACL.

(* [privilege.h:330-331 PRIV_SET_SYSTEM_VAR_BINLOG_ROW_IMAGE] *)
Definition PRIV_SET_SYSTEM_VAR_BINLOG_ROW_IMAGE : privilege_t := SUPER_ACL ∨ₚ BINLOG_ADMIN_ACL.

(* [privilege.h:333-334 PRIV_SET_SYSTEM_VAR_SQL_LOG_BIN] *)
Definition PRIV_SET_SYSTEM_VAR_SQL_LOG_BIN : privilege_t := SUPER_ACL ∨ₚ BINLOG_ADMIN_ACL.

(* [privilege.h:336-337 PRIV_SET_SYSTEM_GLOBAL_VAR_BINLOG_CACHE_SIZE] *)
Definition PRIV_SET_SYSTEM_GLOBAL_VAR_BINLOG_CACHE_SIZE : privilege_t :=
  SUPER_ACL ∨ₚ BINLOG_ADMIN_ACL.

(* [privilege.h:339-340 PRIV_SET_SYSTEM_GLOBAL_VAR_BINLOG_FILE_CACHE_SIZE] *)
Definition PRIV_SET_SYSTEM_GLOBAL_VAR_BINLOG_FILE_CACHE_SIZE : privilege_t :=
  SUPER_ACL ∨ₚ BINLOG_ADMIN_ACL.

(* [privilege.h:342-343 PRIV_SET_SYSTEM_GLOBAL_VAR_BINLOG_STMT_CACHE_SIZE] *)
Definition PRIV_SET_SYSTEM_GLOBAL_VAR_BINLOG_STMT_CACHE_SIZE : privilege_t :=
  SUPER_ACL ∨ₚ BINLOG_ADMIN_ACL.

(* [privilege.h:345-346 PRIV_SET_SYSTEM_GLOBAL_VAR_BINLOG_COMMIT_WAIT_COUNT] *)
Definition PRIV_SET_SYSTEM_GLOBAL_VAR_BINLOG_COMMIT_WAIT_COUNT : privilege_t :=
  SUPER_ACL ∨ₚ BINLOG_ADMIN_ACL.

(* [privilege.h:348-349 PRIV_SET_SYSTEM_GLOBAL_VAR_BINLOG_COMMIT_WAIT_USEC] *)
Definition PRIV_SET_SYSTEM_GLOBAL_VAR_BINLOG_COMMIT_WAIT_USEC : privilege_t :=
  SUPER_ACL ∨ₚ BINLOG_ADMIN_ACL.

(* [privilege.h:351-352 PRIV_SET_SYSTEM_GLOBAL_VAR_BINLOG_ROW_METADATA] *)
Definition PRIV_SET_SYSTEM_GLOBAL_VAR_BINLOG_ROW_METADATA : privilege_t :=
  SUPER_ACL ∨ₚ BINLOG_ADMIN_ACL.

(* [privilege.h:354-355 PRIV_SET_SYSTEM_GLOBAL_VAR_EXPIRE_LOGS_DAYS] *)
Definition PRIV_SET_SYSTEM_GLOBAL_VAR_EXPIRE_LOGS_DAYS : privilege_t :=
  SUPER_ACL ∨ₚ BINLOG_ADMIN_ACL.

(* [privilege.h:357-358 PRIV_SET_SYSTEM_GLOBAL_VAR_LOG_BIN_COMPRESS] *)
Definition PRIV_SET_SYSTEM_GLOBAL_VAR_LOG_BIN_COMPRESS : privilege_t :=
  SUPER_ACL ∨ₚ BINLOG_ADMIN_ACL.

(* [privilege.h:360-361 PRIV_SET_SYSTEM_GLOBAL_VAR_LOG_BIN_COMPRESS_MIN_LEN] *)
Definition PRIV_SET_SYSTEM_GLOBAL_VAR_LOG_BIN_COMPRESS_MIN_LEN : privilege_t :=
  SUPER_ACL ∨ₚ BINLOG_ADMIN_ACL.

(* [privilege.h:363-364 PRIV_SET_SYSTEM_GLOBAL_VAR_LOG_BIN_TRUST_FUNCTION_CREATORS] *)
Definition PRIV_SET_SYSTEM_GLOBAL_VAR_LOG_BIN_TRUST_FUNCTION_CREATORS : privilege_t :=
  SUPER_ACL ∨ₚ BINLOG_ADMIN_ACL.

(* [privilege.h:366-367 PRIV_SET_SYSTEM_GLOBAL_VAR_MAX_BINLOG_CACHE_SIZE] *)
Definition PRIV_SET_SYSTEM_GLOBAL_VAR_MAX_BINLOG_CACHE_SIZE : privilege_t :=
  SUPER_ACL ∨ₚ BINLOG_ADMIN_ACL.

(* [privilege.h:369-370 PRIV_SET_SYSTEM_GLOBAL_VAR_MAX_BINLOG_STMT_CACHE_SIZE] *)
Definition PRIV_SET_SYSTEM_GLOBAL_VAR_MAX_BINLOG_STMT_CACHE_SIZE : privilege_t :=
  SUPER_ACL ∨ₚ BINLOG_ADMIN_ACL.

(* [privilege.h:372-373 PRIV_SET_SYSTEM_GLOBAL_VAR_MAX_BINLOG_SIZE] *)
Definition PRIV_SET_SYSTEM_GLOBAL_VAR_MAX_BINLOG_SIZE : privilege_t :=
  SUPER_ACL ∨ₚ BINLOG_ADMIN_ACL.

(* [privilege.h:375-376 PRIV_SET_SYSTEM_GLOBAL_VAR_SYNC_BINLOG] *)
Definition PRIV_SET_SYSTEM_GLOBAL_VAR_SYNC_BINLOG : privilege_t := SUPER_ACL ∨ₚ BINLOG_ADMIN_ACL.

(* [privilege.h:382-382 PRIV_IGNORE_READ_ONLY] *)
Definition PRIV_IGNORE_READ_ONLY : privilege_t := READ_ONLY_ADMIN_ACL ∨ₚ SUPER_ACL.

(* [privilege.h:384-385 PRIV_SET_SYSTEM_GLOBAL_VAR_READ_ONLY] *)
Definition PRIV_SET_SYSTEM_GLOBAL_VAR_READ_ONLY : privilege_t := READ_ONLY_ADMIN_ACL ∨ₚ SUPER_ACL.

(* [privilege.h:391-391 PRIV_IGNORE_INIT_CONNECT] *)
Definition PRIV_IGNORE_INIT_CONNECT : privilege_t := CONNECTION_ADMIN_ACL ∨ₚ SUPER_ACL.

(* [privilege.h:393-393 PRIV_IGNORE_MAX_USER_CONNECTIONS] *)
Definition PRIV_IGNORE_MAX_USER_CONNECTIONS : privilege_t := CONNECTION_ADMIN_ACL ∨ₚ SUPER_ACL.

(* [privilege.h:395-395 PRIV_IGNORE_MAX_CONNECTIONS] *)
Definition PRIV_IGNORE_MAX_CONNECTIONS : privilege_t := CONNECTION_ADMIN_ACL ∨ₚ SUPER_ACL.

(* [privilege.h:397-397 PRIV_IGNORE_MAX_PASSWORD_ERRORS] *)
Definition PRIV_IGNORE_MAX_PASSWORD_ERRORS : privilege_t := CONNECTION_ADMIN_ACL ∨ₚ SUPER_ACL.

(* [privilege.h:399-399 PRIV_KILL_OTHER_USER_PROCESS] *)
Definition PRIV_KILL_OTHER_USER_PROCESS : privilege_t := CONNECTION_ADMIN_ACL ∨ₚ SUPER_ACL.

(* [privilege.h:402-403 PRIV_SET_SYSTEM_GLOBAL_VAR_CONNECT_TIMEOUT] *)
Definition PRIV_SET_SYSTEM_GLOBAL_VAR_CONNECT_TIMEOUT : privilege_t :=
  CONNECTION_ADMIN_ACL ∨ₚ SUPER_ACL.

(* [privilege.h:405-406 PRIV_SET_SYSTEM_GLOBAL_VAR_DISCONNECT_ON_EXPIRED_PASSWORD] *)
Definition PRIV_SET_SYSTEM_GLOBAL_VAR_DISCONNECT_ON_EXPIRED_PASSWORD : privilege_t :=
  CONNECTION_ADMIN_ACL ∨ₚ SUPER_ACL.

(* [privilege.h:408-409 PRIV_SET_SYSTEM_GLOBAL_VAR_EXTRA_MAX_CONNECTIONS] *)
Definition PRIV_SET_SYSTEM_GLOBAL_VAR_EXTRA_MAX_CONNECTIONS : privilege_t :=
  CONNECTION_ADMIN_ACL ∨ₚ SUPER_ACL.

(* [privilege.h:411-412 PRIV_SET_SYSTEM_GLOBAL_VAR_INIT_CONNECT] *)
Definition PRIV_SET_SYSTEM_GLOBAL_VAR_INIT_CONNECT : privilege_t :=
  CONNECTION_ADMIN_ACL ∨ₚ SUPER_ACL.

(* [privilege.h:414-415 PRIV_SET_SYSTEM_GLOBAL_VAR_MAX_CONNECTIONS] *)
Definition PRIV_SET_SYSTEM_GLOBAL_VAR_MAX_CONNECTIONS : privilege_t :=
  CONNECTION_ADMIN_ACL ∨ₚ SUPER_ACL.

(* [privilege.h:417-418 PRIV_SET_SYSTEM_GLOBAL_VAR_MAX_CONNECT_ERRORS] *)
Definition PRIV_SET_SYSTEM_GLOBAL_VAR_MAX_CONNECT_ERRORS : privilege_t :=
  CONNECTION_ADMIN_ACL ∨ₚ SUPER_ACL.

(* [privilege.h:420-421 PRIV_SET_SYSTEM_GLOBAL_VAR_MAX_PASSWORD_ERRORS] *)
Definition PRIV_SET_SYSTEM_GLOBAL_VAR_MAX_PASSWORD_ERRORS : privilege_t :=
  CONNECTION_ADMIN_ACL ∨ₚ SUPER_ACL.

(* [privilege.h:423-424 PRIV_SET_SYSTEM_GLOBAL_VAR_PROXY_PROTOCOL_NETWORKS] *)
Definition PRIV_SET_SYSTEM_GLOBAL_VAR_PROXY_PROTOCOL_NETWORKS : privilege_t :=
  CONNECTION_ADMIN_ACL ∨ₚ SUPER_ACL.

(* [privilege.h:426-427 PRIV_SET_SYSTEM_GLOBAL_VAR_SECURE_AUTH] *)
Definition PRIV_SET_SYSTEM_GLOBAL_VAR_SECURE_AUTH : privilege_t :=
  CONNECTION_ADMIN_ACL ∨ₚ SUPER_ACL.

(* [privilege.h:429-430 PRIV_SET_SYSTEM_GLOBAL_VAR_SLOW_LAUNCH_TIME] *)
Definition PRIV_SET_SYSTEM_GLOBAL_VAR_SLOW_LAUNCH_TIME : privilege_t :=
  CONNECTION_ADMIN_ACL ∨ₚ SUPER_ACL.

(* [privilege.h:433-434 PRIV_SET_SYSTEM_GLOBAL_VAR_THREAD_POOL] *)
Definition PRIV_SET_SYSTEM_GLOBAL_VAR_THREAD_POOL : privilege_t :=
  CONNECTION_ADMIN_ACL ∨ₚ SUPER_ACL.

(* [privilege.h:448-448 PRIV_STMT_SHOW_BINLOG_STATUS] *)
Definition PRIV_STMT_SHOW_BINLOG_STATUS : privilege_t := BINLOG_MONITOR_ACL ∨ₚ SUPER_ACL.

(* [privilege.h:454-454 PRIV_STMT_SHOW_BINARY_LOGS] *)
Definition PRIV_STMT_SHOW_BINARY_LOGS : privilege_t := BINLOG_MONITOR_ACL ∨ₚ SUPER_ACL.

(* [privilege.h:457-457 PRIV_STMT_PURGE_BINLOG] *)
Definition PRIV_STMT_PURGE_BINLOG : privilege_t := BINLOG_ADMIN_ACL ∨ₚ SUPER_ACL.

(* [privilege.h:460-460 PRIV_STMT_SHOW_BINLOG_EVENTS] *)
Definition PRIV_STMT_SHOW_BINLOG_EVENTS : privilege_t := BINLOG_MONITOR_ACL.

(* [privilege.h:467-467 PRIV_COM_REGISTER_SLAVE] *)
Definition PRIV_COM_REGISTER_SLAVE : privilege_t := REPL_SLAVE_ACL.

(* [privilege.h:468-468 PRIV_COM_BINLOG_DUMP] *)
Definition PRIV_COM_BINLOG_DUMP : privilege_t := REPL_SLAVE_ACL.

(* [privilege.h:470-470 PRIV_STMT_SHOW_SLAVE_HOSTS] *)
Definition PRIV_STMT_SHOW_SLAVE_HOSTS : privilege_t := REPL_MASTER_ADMIN_ACL.

(* [privilege.h:476-477 PRIV_SET_SYSTEM_GLOBAL_VAR_RPL_SEMI_SYNC_MASTER_ENABLED] *)
Definition PRIV_SET_SYSTEM_GLOBAL_VAR_RPL_SEMI_SYNC_MASTER_ENABLED : privilege_t :=
  REPL_MASTER_ADMIN_ACL ∨ₚ SUPER_ACL.

(* [privilege.h:478-479 PRIV_SET_SYSTEM_GLOBAL_VAR_RPL_SEMI_SYNC_MASTER_TIMEOUT] *)
Definition PRIV_SET_SYSTEM_GLOBAL_VAR_RPL_SEMI_SYNC_MASTER_TIMEOUT : privilege_t :=
  REPL_MASTER_ADMIN_ACL ∨ₚ SUPER_ACL.

(* [privilege.h:480-481 PRIV_SET_SYSTEM_GLOBAL_VAR_RPL_SEMI_SYNC_MASTER_WAIT_NO_SLAVE] *)
Definition PRIV_SET_SYSTEM_GLOBAL_VAR_RPL_SEMI_SYNC_MASTER_WAIT_NO_SLAVE : privilege_t :=
  REPL_MASTER_ADMIN_ACL ∨ₚ SUPER_ACL.

(* [privilege.h:482-483 PRIV_SET_SYSTEM_GLOBAL_VAR_RPL_SEMI_SYNC_MASTER_TRACE_LEVEL] *)
Definition PRIV_SET_SYSTEM_GLOBAL_VAR_RPL_SEMI_SYNC_MASTER_TRACE_LEVEL : privilege_t :=
  REPL_MASTER_ADMIN_ACL ∨ₚ SUPER_ACL.

(* [privilege.h:484-485 PRIV_SET_SYSTEM_GLOBAL_VAR_RPL_SEMI_SYNC_MASTER_WAIT_POINT] *)
Definition PRIV_SET_SYSTEM_GLOBAL_VAR_RPL_SEMI_SYNC_MASTER_WAIT_POINT : privilege_t :=
  REPL_MASTER_ADMIN_ACL ∨ₚ SUPER_ACL.

(* [privilege.h:487-488 PRIV_SET_SYSTEM_GLOBAL_VAR_MASTER_VERIFY_CHECKSUM] *)
Definition PRIV_SET_SYSTEM_GLOBAL_VAR_MASTER_VERIFY_CHECKSUM : privilege_t :=
  REPL_MASTER_ADMIN_ACL ∨ₚ SUPER_ACL.

(* [privilege.h:490-491 PRIV_SET_SYSTEM_GLOBAL_VAR_GTID_BINLOG_STATE] *)
Definition PRIV_SET_SYSTEM_GLOBAL_VAR_GTID_BINLOG_STATE : privilege_t :=
  REPL_MASTER_ADMIN_ACL ∨ₚ SUPER_ACL.

(* [privilege.h:493-494 PRIV_SET_SYSTEM_GLOBAL_VAR_SERVER_ID] *)
Definition PRIV_SET_SYSTEM_GLOBAL_VAR_SERVER_ID : privilege_t := REPL_MASTER_ADMIN_ACL ∨ₚ SUPER_ACL.

(* [privilege.h:496-497 PRIV_SET_SYSTEM_GLOBAL_VAR_GTID_DOMAIN_ID] *)
Definition PRIV_SET_SYSTEM_GLOBAL_VAR_GTID_DOMAIN_ID : privilege_t :=
  REPL_MASTER_ADMIN_ACL ∨ₚ SUPER_ACL.

(* [privilege.h:502-502 PRIV_STMT_START_SLAVE] *)
Definition PRIV_STMT_START_SLAVE : privilege_t := REPL_SLAVE_ADMIN_ACL ∨ₚ SUPER_ACL.

(* [privilege.h:504-504 PRIV_STMT_STOP_SLAVE] *)
Definition PRIV_STMT_STOP_SLAVE : privilege_t := REPL_SLAVE_ADMIN_ACL ∨ₚ SUPER_ACL.

(* [privilege.h:506-506 PRIV_STMT_CHANGE_MASTER] *)
Definition PRIV_STMT_CHANGE_MASTER : privilege_t := REPL_SLAVE_ADMIN_ACL ∨ₚ SUPER_ACL.

(* [privilege.h:508-508 PRIV_STMT_SHOW_SLAVE_STATUS] *)
Definition PRIV_STMT_SHOW_SLAVE_STATUS : privilege_t := REPL_SLAVE_ADMIN_ACL ∨ₚ SUPER_ACL.

(* [privilege.h:510-510 PRIV_STMT_SHOW_RELAYLOG_EVENTS] *)
Definition PRIV_STMT_SHOW_RELAYLOG_EVENTS : privilege_t := REPL_SLAVE_ADMIN_ACL.

(* [privilege.h:516-516 PRIV_STMT_BINLOG] *)
Definition PRIV_STMT_BINLOG : privilege_t := BINLOG_REPLAY_ACL ∨ₚ SUPER_ACL.

(* [privilege.h:518-519 PRIV_SET_SYSTEM_SESSION_VAR_GTID_SEQ_NO] *)
Definition PRIV_SET_SYSTEM_SESSION_VAR_GTID_SEQ_NO : privilege_t := BINLOG_REPLAY_ACL ∨ₚ SUPER_ACL.

(* [privilege.h:521-522 PRIV_SET_SYSTEM_SESSION_VAR_PSEUDO_THREAD_ID] *)
Definition PRIV_SET_SYSTEM_SESSION_VAR_PSEUDO_THREAD_ID : privilege_t :=
  BINLOG_REPLAY_ACL ∨ₚ SUPER_ACL.

(* [privilege.h:524-525 PRIV_SET_SYSTEM_SESSION_VAR_SERVER_ID] *)
Definition PRIV_SET_SYSTEM_SESSION_VAR_SERVER_ID : privilege_t := BINLOG_REPLAY_ACL ∨ₚ SUPER_ACL.

(* [privilege.h:527-528 PRIV_SET_SYSTEM_SESSION_VAR_GTID_DOMAIN_ID] *)
Definition PRIV_SET_SYSTEM_SESSION_VAR_GTID_DOMAIN_ID : privilege_t :=
  BINLOG_REPLAY_ACL ∨ₚ SUPER_ACL.

(* [privilege.h:534-535 PRIV_SET_SYSTEM_GLOBAL_VAR_REPLICATE_EVENTS_MARKED_FOR_SKIP] *)
Definition PRIV_SET_SYSTEM_GLOBAL_VAR_REPLICATE_EVENTS_MARKED_FOR_SKIP : privilege_t :=
  REPL_SLAVE_ADMIN_ACL ∨ₚ SUPER_ACL.

(* [privilege.h:536-537 PRIV_SET_SYSTEM_GLOBAL_VAR_REPLICATE_DO_DB] *)
Definition PRIV_SET_SYSTEM_GLOBAL_VAR_REPLICATE_DO_DB : privilege_t :=
  REPL_SLAVE_ADMIN_ACL ∨ₚ SUPER_ACL.

(* [privilege.h:538-539 PRIV_SET_SYSTEM_GLOBAL_VAR_REPLICATE_DO_TABLE] *)
Definition PRIV_SET_SYSTEM_GLOBAL_VAR_REPLICATE_DO_TABLE : privilege_t :=
  REPL_SLAVE_ADMIN_ACL ∨ₚ SUPER_ACL.

(* [privilege.h:540-541 PRIV_SET_SYSTEM_GLOBAL_VAR_REPLICATE_IGNORE_DB] *)
Definition PRIV_SET_SYSTEM_GLOBAL_VAR_REPLICATE_IGNORE_DB : privilege_t :=
  REPL_SLAVE_ADMIN_ACL ∨ₚ SUPER_ACL.

(* [privilege.h:542-543 PRIV_SET_SYSTEM_GLOBAL_VAR_REPLICATE_IGNORE_TABLE] *)
Definition PRIV_SET_SYSTEM_GLOBAL_VAR_REPLICATE_IGNORE_TABLE : privilege_t :=
  REPL_SLAVE_ADMIN_ACL ∨ₚ SUPER_ACL.

(* [privilege.h:544-545 PRIV_SET_SYSTEM_GLOBAL_VAR_REPLICATE_WILD_DO_TABLE] *)
Definition PRIV_SET_SYSTEM_GLOBAL_VAR_REPLICATE_WILD_DO_TABLE : privilege_t :=
  REPL_SLAVE_ADMIN_ACL ∨ₚ SUPER_ACL.

(* [privilege.h:546-547 PRIV_SET_SYSTEM_GLOBAL_VAR_REPLICATE_WILD_IGNORE_TABLE] *)
Definition PRIV_SET_SYSTEM_GLOBAL_VAR_REPLICATE_WILD_IGNORE_TABLE : privilege_t :=
  REPL_SLAVE_ADMIN_ACL ∨ₚ SUPER_ACL.

(* [privilege.h:548-549 PRIV_SET_SYSTEM_GLOBAL_VAR_READ_BINLOG_SPEED_LIMIT] *)
Definition PRIV_SET_SYSTEM_GLOBAL_VAR_READ_BINLOG_SPEED_LIMIT : privilege_t :=
  REPL_SLAVE_ADMIN_ACL ∨ₚ SUPER_ACL.

(* [privilege.h:550-551 PRIV_SET_SYSTEM_GLOBAL_VAR_SLAVE_COMPRESSED_PROTOCOL] *)
Definition PRIV_SET_SYSTEM_GLOBAL_VAR_SLAVE_COMPRESSED_PROTOCOL : privilege_t :=
  REPL_SLAVE_ADMIN_ACL ∨ₚ SUPER_ACL.

(* [privilege.h:552-553 PRIV_SET_SYSTEM_GLOBAL_VAR_SLAVE_DDL_EXEC_MODE] *)
Definition PRIV_SET_SYSTEM_GLOBAL_VAR_SLAVE_DDL_EXEC_MODE : privilege_t :=
  REPL_SLAVE_ADMIN_ACL ∨ₚ SUPER_ACL.

(* [privilege.h:554-555 PRIV_SET_SYSTEM_GLOBAL_VAR_SLAVE_DOMAIN_PARALLEL_THREADS] *)
Definition PRIV_SET_SYSTEM_GLOBAL_VAR_SLAVE_DOMAIN_PARALLEL_THREADS : privilege_t :=
  REPL_SLAVE_ADMIN_ACL ∨ₚ SUPER_ACL.

(* [privilege.h:556-557 PRIV_SET_SYSTEM_GLOBAL_VAR_SLAVE_EXEC_MODE] *)
Definition PRIV_SET_SYSTEM_GLOBAL_VAR_SLAVE_EXEC_MODE : privilege_t :=
  REPL_SLAVE_ADMIN_ACL ∨ₚ SUPER_ACL.

(* [privilege.h:558-559 PRIV_SET_SYSTEM_GLOBAL_VAR_SLAVE_MAX_ALLOWED_PACKET] *)
Definition PRIV_SET_SYSTEM_GLOBAL_VAR_SLAVE_MAX_ALLOWED_PACKET : privilege_t :=
  REPL_SLAVE_ADMIN_ACL ∨ₚ SUPER_ACL.

(* [privilege.h:560-561 PRIV_SET_SYSTEM_GLOBAL_VAR_SLAVE_NET_TIMEOUT] *)
Definition PRIV_SET_SYSTEM_GLOBAL_VAR_SLAVE_NET_TIMEOUT : privilege_t :=
  REPL_SLAVE_ADMIN_ACL ∨ₚ SUPER_ACL.

(* [privilege.h:562-563 PRIV_SET_SYSTEM_GLOBAL_VAR_SLAVE_PARALLEL_MAX_QUEUED] *)
Definition PRIV_SET_SYSTEM_GLOBAL_VAR_SLAVE_PARALLEL_MAX_QUEUED : privilege_t :=
  REPL_SLAVE_ADMIN_ACL ∨ₚ SUPER_ACL.

(* [privilege.h:564-565 PRIV_SET_SYSTEM_GLOBAL_VAR_SLAVE_PARALLEL_MODE] *)
Definition PRIV_SET_SYSTEM_GLOBAL_VAR_SLAVE_PARALLEL_MODE : privilege_t :=
  REPL_SLAVE_ADMIN_ACL ∨ₚ SUPER_ACL.

(* [privilege.h:566-567 PRIV_SET_SYSTEM_GLOBAL_VAR_SLAVE_PARALLEL_THREADS] *)
Definition PRIV_SET_SYSTEM_GLOBAL_VAR_SLAVE_PARALLEL_THREADS : privilege_t :=
  REPL_SLAVE_ADMIN_ACL ∨ₚ SUPER_ACL.

(* [privilege.h:568-569 PRIV_SET_SYSTEM_GLOBAL_VAR_SLAVE_PARALLEL_WORKERS] *)
Definition PRIV_SET_SYSTEM_GLOBAL_VAR_SLAVE_PARALLEL_WORKERS : privilege_t :=
  REPL_SLAVE_ADMIN_ACL ∨ₚ SUPER_ACL.

(* [privilege.h:570-571 PRIV_SET_SYSTEM_GLOBAL_VAR_SLAVE_RUN_TRIGGERS_FOR_RBR] *)
Definition PRIV_SET_SYSTEM_GLOBAL_VAR_SLAVE_RUN_TRIGGERS_FOR_RBR : privilege_t :=
  REPL_SLAVE_ADMIN_ACL ∨ₚ SUPER_ACL.

(* [privilege.h:572-573 PRIV_SET_SYSTEM_GLOBAL_VAR_SLAVE_SQL_VERIFY_CHECKSUM] *)
Definition PRIV_SET_SYSTEM_GLOBAL_VAR_SLAVE_SQL_VERIFY_CHECKSUM : privilege_t :=
  REPL_SLAVE_ADMIN_ACL ∨ₚ SUPER_ACL.

(* [privilege.h:574-575 PRIV_SET_SYSTEM_GLOBAL_VAR_SLAVE_TRANSACTION_RETRY_INTERVAL] *)
Definition PRIV_SET_SYSTEM_GLOBAL_VAR_SLAVE_TRANSACTION_RETRY_INTERVAL : privilege_t :=
  REPL_SLAVE_ADMIN_ACL ∨ₚ SUPER_ACL.

(* [privilege.h:576-577 PRIV_SET_SYSTEM_GLOBAL_VAR_SLAVE_TYPE_CONVERSIONS] *)
Definition PRIV_SET_SYSTEM_GLOBAL_VAR_SLAVE_TYPE_CONVERSIONS : privilege_t :=
  REPL_SLAVE_ADMIN_ACL ∨ₚ SUPER_ACL.

(* [privilege.h:578-579 PRIV_SET_SYSTEM_GLOBAL_VAR_INIT_SLAVE] *)
Definition PRIV_SET_SYSTEM_GLOBAL_VAR_INIT_SLAVE : privilege_t := REPL_SLAVE_ADMIN_ACL ∨ₚ SUPER_ACL.

(* [privilege.h:581-582 PRIV_SET_SYSTEM_GLOBAL_VAR_RPL_SEMI_SYNC_SLAVE_ENABLED] *)
Definition PRIV_SET_SYSTEM_GLOBAL_VAR_RPL_SEMI_SYNC_SLAVE_ENABLED : privilege_t :=
  REPL_SLAVE_ADMIN_ACL ∨ₚ SUPER_ACL.

(* [privilege.h:583-584 PRIV_SET_SYSTEM_GLOBAL_VAR_RPL_SEMI_SYNC_SLAVE_TRACE_LEVEL] *)
Definition PRIV_SET_SYSTEM_GLOBAL_VAR_RPL_SEMI_SYNC_SLAVE_TRACE_LEVEL : privilege_t :=
  REPL_SLAVE_ADMIN_ACL ∨ₚ SUPER_ACL.

(* [privilege.h:585-586 PRIV_SET_SYSTEM_GLOBAL_VAR_RPL_SEMI_SYNC_SLAVE_DELAY_MASTER] *)
Definition PRIV_SET_SYSTEM_GLOBAL_VAR_RPL_SEMI_SYNC_SLAVE_DELAY_MASTER : privilege_t :=
  REPL_SLAVE_ADMIN_ACL ∨ₚ SUPER_ACL.

(* [privilege.h:587-588 PRIV_SET_SYSTEM_GLOBAL_VAR_RPL_SEMI_SYNC_SLAVE_KILL_CONN_TIMEOUT] *)
Definition PRIV_SET_SYSTEM_GLOBAL_VAR_RPL_SEMI_SYNC_SLAVE_KILL_CONN_TIMEOUT : privilege_t :=
  REPL_SLAVE_ADMIN_ACL ∨ₚ SUPER_ACL.

(* [privilege.h:590-591 PRIV_SET_SYSTEM_GLOBAL_VAR_RELAY_LOG_PURGE] *)
Definition PRIV_SET_SYSTEM_GLOBAL_VAR_RELAY_LOG_PURGE : privilege_t :=
  REPL_SLAVE_ADMIN_ACL ∨ₚ SUPER_ACL.

(* [privilege.h:592-593 PRIV_SET_SYSTEM_GLOBAL_VAR_RELAY_LOG_RECOVERY] *)
Definition PRIV_SET_SYSTEM_GLOBAL_VAR_RELAY_LOG_RECOVERY : privilege_t :=
  REPL_SLAVE_ADMIN_ACL ∨ₚ SUPER_ACL.

(* [privilege.h:594-595 PRIV_SET_SYSTEM_GLOBAL_VAR_SYNC_MASTER_INFO] *)
Definition PRIV_SET_SYSTEM_GLOBAL_VAR_SYNC_MASTER_INFO : privilege_t :=
  REPL_SLAVE_ADMIN_ACL ∨ₚ SUPER_ACL.

(* [privilege.h:596-597 PRIV_SET_SYSTEM_GLOBAL_VAR_SYNC_RELAY_LOG] *)
Definition PRIV_SET_SYSTEM_GLOBAL_VAR_SYNC_RELAY_LOG : privilege_t :=
  REPL_SLAVE_ADMIN_ACL ∨ₚ SUPER_ACL.

(* [privilege.h:598-599 PRIV_SET_SYSTEM_GLOBAL_VAR_SYNC_RELAY_LOG_INFO] *)
Definition PRIV_SET_SYSTEM_GLOBAL_VAR_SYNC_RELAY_LOG_INFO : privilege_t :=
  REPL_SLAVE_ADMIN_ACL ∨ₚ SUPER_ACL.

(* [privilege.h:601-602 PRIV_SET_SYSTEM_GLOBAL_VAR_GTID_CLEANUP_BATCH_SIZE] *)
Definition PRIV_SET_SYSTEM_GLOBAL_VAR_GTID_CLEANUP_BATCH_SIZE : privilege_t :=
  REPL_SLAVE_ADMIN_ACL ∨ₚ SUPER_ACL.

(* [privilege.h:603-604 PRIV_SET_SYSTEM_GLOBAL_VAR_GTID_IGNORE_DUPLICATES] *)
Definition PRIV_SET_SYSTEM_GLOBAL_VAR_GTID_IGNORE_DUPLICATES : privilege_t :=
  REPL_SLAVE_ADMIN_ACL ∨ₚ SUPER_ACL.

(* [privilege.h:605-606 PRIV_SET_SYSTEM_GLOBAL_VAR_GTID_POS_AUTO_ENGINES] *)
Definition PRIV_SET_SYSTEM_GLOBAL_VAR_GTID_POS_AUTO_ENGINES : privilege_t :=
  REPL_SLAVE_ADMIN_ACL ∨ₚ SUPER_ACL.

(* [privilege.h:607-608 PRIV_SET_SYSTEM_GLOBAL_VAR_GTID_SLAVE_POS] *)
Definition PRIV_SET_SYSTEM_GLOBAL_VAR_GTID_SLAVE_POS : privilege_t :=
  REPL_SLAVE_ADMIN_ACL ∨ₚ SUPER_ACL.

(* [privilege.h:609-610 PRIV_SET_SYSTEM_GLOBAL_VAR_GTID_STRICT_MODE] *)
Definition PRIV_SET_SYSTEM_GLOBAL_VAR_GTID_STRICT_MODE : privilege_t :=
  REPL_SLAVE_ADMIN_ACL ∨ₚ SUPER_ACL.

(* [privilege.h:615-615 PRIV_STMT_CREATE_SERVER] *)
Definition PRIV_STMT_CREATE_SERVER : privilege_t := FEDERATED_ADMIN_ACL ∨ₚ SUPER_ACL.

(* [privilege.h:617-617 PRIV_STMT_ALTER_SERVER] *)
Definition PRIV_STMT_ALTER_SERVER : privilege_t := FEDERATED_ADMIN_ACL ∨ₚ SUPER_ACL.

(* [privilege.h:619-619 PRIV_STMT_DROP_SERVER] *)
Definition PRIV_STMT_DROP_SERVER : privilege_t := FEDERATED_ADMIN_ACL ∨ₚ SUPER_ACL.

(* [privilege.h:623-623 PRIV_COM_PROCESS_INFO] *)
Definition PRIV_COM_PROCESS_INFO : privilege_t := PROCESS_ACL.

(* [privilege.h:624-624 PRIV_STMT_SHOW_EXPLAIN] *)
Definition PRIV_STMT_SHOW_EXPLAIN : privilege_t := PROCESS_ACL.

(* [privilege.h:625-625 PRIV_STMT_SHOW_ENGINE_STATUS] *)
Definition PRIV_STMT_SHOW_ENGINE_STATUS : privilege_t := PROCESS_ACL.

(* [privilege.h:626-626 PRIV_STMT_SHOW_ENGINE_MUTEX] *)
Definition PRIV_STMT_SHOW_ENGINE_MUTEX : privilege_t := PROCESS_ACL.

(* [privilege.h:627-627 PRIV_STMT_SHOW_PROCESSLIST] *)
Definition PRIV_STMT_SHOW_PROCESSLIST : privilege_t := PROCESS_ACL.

(* [privilege.h:636-636 DB_CHUNK0] *)
Definition DB_CHUNK0 : privilege_t := COL_DML_ACLS ∨ₚ CREATE_ACL ∨ₚ DROP_ACL.

(* [privilege.h:637-637 DB_CHUNK1] *)
Definition DB_CHUNK1 : privilege_t := GRANT_ACL ∨ₚ REFERENCES_ACL ∨ₚ INDEX_ACL ∨ₚ ALTER_ACL.

(* [privilege.h:638-638 DB_CHUNK2] *)
Definition DB_CHUNK2 : privilege_t := CREATE_TMP_ACL ∨ₚ LOCK_TABLES_ACL.

(* [privilege.h:639-639 DB_CHUNK3] *)
Definition DB_CHUNK3 : privilege_t := VIEW_ACLS ∨ₚ PROC_DDL_ACLS.

(* [privilege.h:640-640 DB_CHUNK4] *)
Definition DB_CHUNK4 : privilege_t := EXECUTE_ACL.

(* [privilege.h:641-641 DB_CHUNK5] *)
Definition DB_CHUNK5 : privilege_t := EVENT_ACL ∨ₚ TRIGGER_ACL.

(* [privilege.h:642-642 DB_CHUNK6] *)
Definition DB_CHUNK6 : privilege_t := DELETE_HISTORY_ACL.

(* [privilege.h:672-672 TBL_CHUNK0] *)
Definition TBL_CHUNK0 : privilege_t := DB_CHUNK0.

(* [privilege.h:673-673 TBL_CHUNK1] *)
Definition TBL_CHUNK1 : privilege_t := DB_CHUNK1.

(* [privilege.h:674-674 TBL_CHUNK2] *)
Definition TBL_CHUNK2 : privilege_t := CREATE_VIEW_ACL ∨ₚ SHOW_VIEW_ACL.

(* [privilege.h:675-675 TBL_CHUNK3] *)
Definition TBL_CHUNK3 : privilege_t := TRIGGER_ACL.

(* [privilege.h:676-676 TBL_CHUNK4] *)
Definition TBL_CHUNK4 : privilege_t := DELETE_HISTORY_ACL.

(** Every requirement constant of the header. *)
Definition PRIV_requirements : list privilege_t :=
  [PRIV_DEFINER_CLAUSE;
   PRIV_REVEAL_MISSING_DEFINER;
   PRIV_DES_DECRYPT_ONE_ARG;
   PRIV_LOG_BIN_TRUSTED_SP_CREATOR;
   PRIV_DEBUG;
   PRIV_SET_GLOBAL_SYSTEM_VARIABLE;
   PRIV_SET_RESTRICTED_SESSION_SYSTEM_VARIABLE;
   PRIV_SET_SYSTEM_VAR_BINLOG_FORMAT;
   PRIV_SET_SYSTEM_VAR_BINLOG_DIRECT_NON_TRANSACTIONAL_UPDATES;
   PRIV_SET_SYSTEM_VAR_BINLOG_ANNOTATE_ROW_EVENTS;
   PRIV_SET_SYSTEM_VAR_BINLOG_ROW_IMAGE;
   PRIV_SET_SYSTEM_VAR_SQL_LOG_BIN;
   PRIV_SET_SYSTEM_GLOBAL_VAR_BINLOG_CACHE_SIZE;
   PRIV_SET_SYSTEM_GLOBAL_VAR_BINLOG_FILE_CACHE_SIZE;
   PRIV_SET_SYSTEM_GLOBAL_VAR_BINLOG_STMT_CACHE_SIZE;
   PRIV_SET_SYSTEM_GLOBAL_VAR_BINLOG_COMMIT_WAIT_COUNT;
   PRIV_SET_SYSTEM_GLOBAL_VAR_BINLOG_COMMIT_WAIT_USEC;
   PRIV_SET_SYSTEM_GLOBAL_VAR_BINLOG_ROW_METADATA;
   PRIV_SET_SYSTEM_GLOBAL_VAR_EXPIRE_LOGS_DAYS;
   PRIV_SET_SYSTEM_GLOBAL_VAR_LOG_BIN_COMPRESS;
   PRIV_SET_SYSTEM_GLOBAL_VAR_LOG_BIN_COMPRESS_MIN_LEN;
   PRIV_SET_SYSTEM_GLOBAL_VAR_LOG_BIN_TRUST_FUNCTION_CREATORS;
   PRIV_SET_SYSTEM_GLOBAL_VAR_MAX_BINLOG_CACHE_SIZE;
   PRIV_SET_SYSTEM_GLOBAL_VAR_MAX_BINLOG_STMT_CACHE_SIZE;
   PRIV_SET_SYSTEM_GLOBAL_VAR_MAX_BINLOG_SIZE;
   PRIV_SET_SYSTEM_GLOBAL_VAR_SYNC_BINLOG;
   PRIV_IGNORE_READ_ONLY;
   PRIV_SET_SYSTEM_GLOBAL_VAR_READ_ONLY;
   PRIV_IGNORE_INIT_CONNECT;
   PRIV_IGNORE_MAX_USER_CONNECTIONS;
   PRIV_IGNORE_MAX_CONNECTIONS;
   PRIV_IGNORE_MAX_PASSWORD_ERRORS;
   PRIV_KILL_OTHER_USER_PROCESS;
   PRIV_SET_SYSTEM_GLOBAL_VAR_CONNECT_TIMEOUT;
   PRIV_SET_SYSTEM_GLOBAL_VAR_DISCONNECT_ON_EXPIRED_PASSWORD;
   PRIV_SET_SYSTEM_GLOBAL_VAR_EXTRA_MAX_CONNECTIONS;
   PRIV_SET_SYSTEM_GLOBAL_VAR_INIT_CONNECT;
   PRIV_SET_SYSTEM_GLOBAL_VAR_MAX_CONNECTIONS;
   PRIV_SET_SYSTEM_GLOBAL_VAR_MAX_CONNECT_ERRORS;
   PRIV_SET_SYSTEM_GLOBAL_VAR_MAX_PASSWORD_ERRORS;
   PRIV_SET_SYSTEM_GLOBAL_VAR_PROXY_PROTOCOL_NETWORKS;
   PRIV_SET_SYSTEM_GLOBAL_VAR_SECURE_AUTH;
   PRIV_SET_SYSTEM_GLOBAL_VAR_SLOW_LAUNCH_TIME;
   PRIV_SET_SYSTEM_GLOBAL_VAR_THREAD_POOL;
   PRIV_STMT_SHOW_BINLOG_STATUS;
   PRIV_STMT_SHOW_BINARY_LOGS;
   PRIV_STMT_PURGE_BINLOG;
   PRIV_STMT_SHOW_BINLOG_EVENTS;
   PRIV_COM_REGISTER_SLAVE;
   PRIV_COM_BINLOG_DUMP;
   PRIV_STMT_SHOW_SLAVE_HOSTS;
   PRIV_SET_SYSTEM_GLOBAL_VAR_RPL_SEMI_SYNC_MASTER_ENABLED;
   PRIV_SET_SYSTEM_GLOBAL_VAR_RPL_SEMI_SYNC_MASTER_TIMEOUT;
   PRIV_SET_SYSTEM_GLOBAL_VAR_RPL_SEMI_SYNC_MASTER_WAIT_NO_SLAVE;
   PRIV_SET_SYSTEM_GLOBAL_VAR_RPL_SEMI_SYNC_MASTER_TRACE_LEVEL;
   PRIV_SET_SYSTEM_GLOBAL_VAR_RPL_SEMI_SYNC_MASTER_WAIT_POINT;
   PRIV_SET_SYSTEM_GLOBAL_VAR_MASTER_VERIFY_CHECKSUM;
   PRIV_SET_SYSTEM_GLOBAL_VAR_GTID_BINLOG_STATE;
   PRIV_SET_SYSTEM_GLOBAL_VAR_SERVER_ID;
   PRIV_SET_SYSTEM_GLOBAL_VAR_GTID_DOMAIN_ID;
   PRIV_STMT_START_SLAVE;
   PRIV_STMT_STOP_SLAVE;
   PRIV_STMT_CHANGE_MASTER;
   PRIV_STMT_SHOW_SLAVE_STATUS;
   PRIV_STMT_SHOW_RELAYLOG_EVENTS;
   PRIV_STMT_BINLOG;
   PRIV_SET_SYSTEM_SESSION_VAR_GTID_SEQ_NO;
   PRIV_SET_SYSTEM_SESSION_VAR_PSEUDO_THREAD_ID;
   PRIV_SET_SYSTEM_SESSION_VAR_SERVER_ID;
   PRIV_SET_SYSTEM_SESSION_VAR_GTID_DOMAIN_ID;
   PRIV_SET_SYSTEM_GLOBAL_VAR_REPLICATE_EVENTS_MARKED_FOR_SKIP;
   PRIV_SET_SYSTEM_GLOBAL_VAR_REPLICATE_DO_DB;
   PRIV_SET_SYSTEM_GLOBAL_VAR_REPLICATE_DO_TABLE;
   PRIV_SET_SYSTEM_GLOBAL_VAR_REPLICATE_IGNORE_DB;
   PRIV_SET_SYSTEM_GLOBAL_VAR_REPLICATE_IGNORE_TABLE;
   PRIV_SET_SYSTEM_GLOBAL_VAR_REPLICATE_WILD_DO_TABLE;
   PRIV_SET_SYSTEM_GLOBAL_VAR_REPLICATE_WILD_IGNORE_TABLE;
   PRIV_SET_SYSTEM_GLOBAL_VAR_READ_BINLOG_SPEED_LIMIT;
   PRIV_SET_SYSTEM_GLOBAL_VAR_SLAVE_COMPRESSED_PROTOCOL;
   PRIV_SET_SYSTEM_GLOBAL_VAR_SLAVE_DDL_EXEC_MODE;
   PRIV_SET_SYSTEM_GLOBAL_VAR_SLAVE_DOMAIN_PARALLEL_THREADS;
   PRIV_SET_SYSTEM_GLOBAL_VAR_SLAVE_EXEC_MODE;
   PRIV_SET_SYSTEM_GLOBAL_VAR_SLAVE_MAX_ALLOWED_PACKET;
   PRIV_SET_SYSTEM_GLOBAL_VAR_SLAVE_NET_TIMEOUT;
   PRIV_SET_SYSTEM_GLOBAL_VAR_SLAVE_PARALLEL_MAX_QUEUED;
   PRIV_SET_SYSTEM_GLOBAL_VAR_SLAVE_PARALLEL_MODE;
   PRIV_SET_SYSTEM_GLOBAL_VAR_SLAVE_PARALLEL_THREADS;
   PRIV_SET_SYSTEM_GLOBAL_VAR_SLAVE_PARALLEL_WORKERS;
   PRIV_SET_SYSTEM_GLOBAL_VAR_SLAVE_RUN_TRIGGERS_FOR_RBR;
   PRIV_SET_SYSTEM_GLOBAL_VAR_SLAVE_SQL_VERIFY_CHECKSUM;
   PRIV_SET_SYSTEM_GLOBAL_VAR_SLAVE_TRANSACTION_RETRY_INTERVAL;
   PRIV_SET_SYSTEM_GLOBAL_VAR_SLAVE_TYPE_CONVERSIONS;
   PRIV_SET_SYSTEM_GLOBAL_VAR_INIT_SLAVE;
   PRIV_SET_SYSTEM_GLOBAL_VAR_RPL_SEMI_SYNC_SLAVE_ENABLED;
   PRIV_SET_SYSTEM_GLOBAL_VAR_RPL_SEMI_SYNC_SLAVE_TRACE_LEVEL;
   PRIV_SET_SYSTEM_GLOBAL_VAR_RPL_SEMI_SYNC_SLAVE_DELAY_MASTER;
   PRIV_SET_SYSTEM_GLOBAL_VAR_RPL_SEMI_SYNC_SLAVE_KILL_CONN_TIMEOUT;
   PRIV_SET_SYSTEM_GLOBAL_VAR_RELAY_LOG_PURGE;
   PRIV_SET_SYSTEM_GLOBAL_VAR_RELAY_LOG_RECOVERY;
   PRIV_SET_SYSTEM_GLOBAL_VAR_SYNC_MASTER_INFO;
   PRIV_SET_SYSTEM_GLOBAL_VAR_SYNC_RELAY_LOG;
   PRIV_SET_SYSTEM_GLOBAL_VAR_SYNC_RELAY_LOG_INFO;
   PRIV_SET_SYSTEM_GLOBAL_VAR_GTID_CLEANUP_BATCH_SIZE;
   PRIV_SET_SYSTEM_GLOBAL_VAR_GTID_IGNORE_DUPLICATES;
   PRIV_SET_SYSTEM_GLOBAL_VAR_GTID_POS_AUTO_ENGINES;
   PRIV_SET_SYSTEM_GLOBAL_VAR_GTID_SLAVE_POS;
   PRIV_SET_SYSTEM_GLOBAL_VAR_GTID_STRICT_MODE;
   PRIV_STMT_CREATE_SERVER;
   PRIV_STMT_ALTER_SERVER;
   PRIV_STMT_DROP_SERVER;
   PRIV_COM_PROCESS_INFO;
   PRIV_STMT_SHOW_EXPLAIN;
   PRIV_STMT_SHOW_ENGINE_STATUS;
   PRIV_STMT_SHOW_ENGINE_MUTEX;
   PRIV_STMT_SHOW_PROCESSLIST].

(** The requirements that the comments of the header say were SUPER before 10.5.2, or are SUPER only. *)
Definition PRIV_formerly_super : list privilege_t :=
  [PRIV_DEFINER_CLAUSE;
   PRIV_REVEAL_MISSING_DEFINER;
   PRIV_DES_DECRYPT_ONE_ARG;
   PRIV_LOG_BIN_TRUSTED_SP_CREATOR;
   PRIV_DEBUG;
   PRIV_SET_GLOBAL_SYSTEM_VARIABLE;
   PRIV_SET_RESTRICTED_SESSION_SYSTEM_VARIABLE;
   PRIV_SET_SYSTEM_VAR_BINLOG_FORMAT;
   PRIV_SET_SYSTEM_VAR_BINLOG_DIRECT_NON_TRANSACTIONAL_UPDATES;
   PRIV_SET_SYSTEM_VAR_BINLOG_ANNOTATE_ROW_EVENTS;
   PRIV_SET_SYSTEM_VAR_BINLOG_ROW_IMAGE;
   PRIV_SET_SYSTEM_VAR_SQL_LOG_BIN;
   PRIV_SET_SYSTEM_GLOBAL_VAR_BINLOG_CACHE_SIZE;
   PRIV_SET_SYSTEM_GLOBAL_VAR_BINLOG_FILE_CACHE_SIZE;
   PRIV_SET_SYSTEM_GLOBAL_VAR_BINLOG_STMT_CACHE_SIZE;
   PRIV_SET_SYSTEM_GLOBAL_VAR_BINLOG_COMMIT_WAIT_COUNT;
   PRIV_SET_SYSTEM_GLOBAL_VAR_BINLOG_COMMIT_WAIT_USEC;
   PRIV_SET_SYSTEM_GLOBAL_VAR_BINLOG_ROW_METADATA;
   PRIV_SET_SYSTEM_GLOBAL_VAR_EXPIRE_LOGS_DAYS;
   PRIV_SET_SYSTEM_GLOBAL_VAR_LOG_BIN_COMPRESS;
   PRIV_SET_SYSTEM_GLOBAL_VAR_LOG_BIN_COMPRESS_MIN_LEN;
   PRIV_SET_SYSTEM_GLOBAL_VAR_LOG_BIN_TRUST_FUNCTION_CREATORS;
   PRIV_SET_SYSTEM_GLOBAL_VAR_MAX_BINLOG_CACHE_SIZE;
   PRIV_SET_SYSTEM_GLOBAL_VAR_MAX_BINLOG_STMT_CACHE_SIZE;
   PRIV_SET_SYSTEM_GLOBAL_VAR_MAX_BINLOG_SIZE;
   PRIV_SET_SYSTEM_GLOBAL_VAR_SYNC_BINLOG;
   PRIV_IGNORE_READ_ONLY;
   PRIV_SET_SYSTEM_GLOBAL_VAR_READ_ONLY;
   PRIV_IGNORE_INIT_CONNECT;
   PRIV_IGNORE_MAX_USER_CONNECTIONS;
   PRIV_IGNORE_MAX_CONNECTIONS;
   PRIV_IGNORE_MAX_PASSWORD_ERRORS;
   PRIV_KILL_OTHER_USER_PROCESS;
   PRIV_SET_SYSTEM_GLOBAL_VAR_CONNECT_TIMEOUT;
   PRIV_SET_SYSTEM_GLOBAL_VAR_DISCONNECT_ON_EXPIRED_PASSWORD;
   PRIV_SET_SYSTEM_GLOBAL_VAR_EXTRA_MAX_CONNECTIONS;
   PRIV_SET_SYSTEM_GLOBAL_VAR_INIT_CONNECT;
   PRIV_SET_SYSTEM_GLOBAL_VAR_MAX_CONNECTIONS;
   PRIV_SET_SYSTEM_GLOBAL_VAR_MAX_CONNECT_ERRORS;
   PRIV_SET_SYSTEM_GLOBAL_VAR_MAX_PASSWORD_ERRORS;
   PRIV_SET_SYSTEM_GLOBAL_VAR_PROXY_PROTOCOL_NETWORKS;
   PRIV_SET_SYSTEM_GLOBAL_VAR_SECURE_AUTH;
   PRIV_SET_SYSTEM_GLOBAL_VAR_SLOW_LAUNCH_TIME;
   PRIV_SET_SYSTEM_GLOBAL_VAR_THREAD_POOL;
   PRIV_STMT_SHOW_BINLOG_STATUS;
   PRIV_STMT_SHOW_BINARY_LOGS;
   PRIV_STMT_PURGE_BINLOG;
   PRIV_SET_SYSTEM_GLOBAL_VAR_RPL_SEMI_SYNC_MASTER_ENABLED;
   PRIV_SET_SYSTEM_GLOBAL_VAR_RPL_SEMI_SYNC_MASTER_TIMEOUT;
   PRIV_SET_SYSTEM_GLOBAL_VAR_RPL_SEMI_SYNC_MASTER_WAIT_NO_SLAVE;
   PRIV_SET_SYSTEM_GLOBAL_VAR_RPL_SEMI_SYNC_MASTER_TRACE_LEVEL;
   PRIV_SET_SYSTEM_GLOBAL_VAR_RPL_SEMI_SYNC_MASTER_WAIT_POINT;
   PRIV_SET_SYSTEM_GLOBAL_VAR_MASTER_VERIFY_CHECKSUM;
   PRIV_SET_SYSTEM_GLOBAL_VAR_GTID_BINLOG_STATE;
   PRIV_SET_SYSTEM_GLOBAL_VAR_SERVER_ID;
   PRIV_SET_SYSTEM_GLOBAL_VAR_GTID_DOMAIN_ID;
   PRIV_STMT_START_SLAVE;
   PRIV_STMT_STOP_SLAVE;
   PRIV_STMT_CHANGE_MASTER;
   PRIV_STMT_SHOW_SLAVE_STATUS;
   PRIV_STMT_BINLOG;
   PRIV_SET_SYSTEM_SESSION_VAR_GTID_SEQ_NO;
   PRIV_SET_SYSTEM_SESSION_VAR_PSEUDO_THREAD_ID;
   PRIV_SET_SYSTEM_SESSION_VAR_SERVER_ID;
   PRIV_SET_SYSTEM_SESSION_VAR_GTID_DOMAIN_ID;
   PRIV_SET_SYSTEM_GLOBAL_VAR_REPLICATE_EVENTS_MARKED_FOR_SKIP;
   PRIV_SET_SYSTEM_GLOBAL_VAR_REPLICATE_DO_DB;
   PRIV_SET_SYSTEM_GLOBAL_VAR_REPLICATE_DO_TABLE;
   PRIV_SET_SYSTEM_GLOBAL_VAR_REPLICATE_IGNORE_DB;
   PRIV_SET_SYSTEM_GLOBAL_VAR_REPLICATE_IGNORE_TABLE;
   PRIV_SET_SYSTEM_GLOBAL_VAR_REPLICATE_WILD_DO_TABLE;
   PRIV_SET_SYSTEM_GLOBAL_VAR_REPLICATE_WILD_IGNORE_TABLE;
   PRIV_SET_SYSTEM_GLOBAL_VAR_READ_BINLOG_SPEED_LIMIT;
   PRIV_SET_SYSTEM_GLOBAL_VAR_SLAVE_COMPRESSED_PROTOCOL;
   PRIV_SET_SYSTEM_GLOBAL_VAR_SLAVE_DDL_EXEC_MODE;
   PRIV_SET_SYSTEM_GLOBAL_VAR_SLAVE_DOMAIN_PARALLEL_THREADS;
   PRIV_SET_SYSTEM_GLOBAL_VAR_SLAVE_EXEC_MODE;
   PRIV_SET_SYSTEM_GLOBAL_VAR_SLAVE_MAX_ALLOWED_PACKET;
   PRIV_SET_SYSTEM_GLOBAL_VAR_SLAVE_NET_TIMEOUT;
   PRIV_SET_SYSTEM_GLOBAL_VAR_SLAVE_PARALLEL_MAX_QUEUED;
   PRIV_SET_SYSTEM_GLOBAL_VAR_SLAVE_PARALLEL_MODE;
   PRIV_SET_SYSTEM_GLOBAL_VAR_SLAVE_PARALLEL_THREADS;
   PRIV_SET_SYSTEM_GLOBAL_VAR_SLAVE_PARALLEL_WORKERS;
   PRIV_SET_SYSTEM_GLOBAL_VAR_SLAVE_RUN_TRIGGERS_FOR_RBR;
   PRIV_SET_SYSTEM_GLOBAL_VAR_SLAVE_SQL_VERIFY_CHECKSUM;
   PRIV_SET_SYSTEM_GLOBAL_VAR_SLAVE_TRANSACTION_RETRY_INTERVAL;
   PRIV_SET_SYSTEM_GLOBAL_VAR_SLAVE_TYPE_CONVERSIONS;
   PRIV_SET_SYSTEM_GLOBAL_VAR_INIT_SLAVE;
   PRIV_SET_SYSTEM_GLOBAL_VAR_RPL_SEMI_SYNC_SLAVE_ENABLED;
   PRIV_SET_SYSTEM_GLOBAL_VAR_RPL_SEMI_SYNC_SLAVE_TRACE_LEVEL;
   PRIV_SET_SYSTEM_GLOBAL_VAR_RPL_SEMI_SYNC_SLAVE_DELAY_MASTER;
   PRIV_SET_SYSTEM_GLOBAL_VAR_RPL_SEMI_SYNC_SLAVE_KILL_CONN_TIMEOUT;
   PRIV_SET_SYSTEM_GLOBAL_VAR_RELAY_LOG_PURGE;
   PRIV_SET_SYSTEM_GLOBAL_VAR_RELAY_LOG_RECOVERY;
   PRIV_SET_SYSTEM_GLOBAL_VAR_SYNC_MASTER_INFO;
   PRIV_SET_SYSTEM_GLOBAL_VAR_SYNC_RELAY_LOG;
   PRIV_SET_SYSTEM_GLOBAL_VAR_SYNC_RELAY_LOG_INFO;
   PRIV_SET_SYSTEM_GLOBAL_VAR_GTID_CLEANUP_BATCH_SIZE;
   PRIV_SET_SYSTEM_GLOBAL_VAR_GTID_IGNORE_DUPLICATES;
   PRIV_SET_SYSTEM_GLOBAL_VAR_GTID_POS_AUTO_ENGINES;
   PRIV_SET_SYSTEM_GLOBAL_VAR_GTID_SLAVE_POS;
   PRIV_SET_SYSTEM_GLOBAL_VAR_GTID_STRICT_MODE;
   PRIV_STMT_CREATE_SERVER;
   PRIV_STMT_ALTER_SERVER;
   PRIV_STMT_DROP_SERVER].
