(* ===== verification/Privilege.v ===== *)
(** * Privilege: how privileges are stored in the grant tables

    The [fix_rights_for_...] functions of [privilege.h] turn the bits of a grant
    table row into privileges and the [get_rights_for_...] functions go back.
    The class [PrivilegeCodec] states what the grant code needs of such a pair;
    the four pairs (database, table, column, procedure) are its instances.  The
    enum [mysql_db_table_field] of [sql_acl.h] fixes the column order that the
    database pair has to agree with. *)

From stdpp Require Import base numbers list.
From Stdlib Require Import ZArith Lia Btauto.
From S2P Require Import Prelude Bits PrivilegeDefs.

Local Open Scope Z_scope.
Local Open Scope cxx_scope.

(** ** Definitions *)

(* [privilege.h:645-656 fix_rights_for_db] *)
Definition fix_rights_for_db (access : privilege_t) : privilege_t :=
  let A := access in
  (A &&& DB_CHUNK0) ||| (u64 (A <<< 4) &&& DB_CHUNK1) ||| (u64 (A <<< 6) &&& DB_CHUNK2) |||
  (u64 (A <<< 9) &&& DB_CHUNK3) ||| (u64 (A <<< 2) &&& DB_CHUNK4) |||
  (u64 (A <<< 9) &&& DB_CHUNK5) ||| (u64 (A <<< 10) &&& DB_CHUNK6).

(* [privilege.h:658-669 get_rights_for_db] *)
Definition get_rights_for_db (access : privilege_t) : privilege_t :=
  let A := access in
  (A &&& DB_CHUNK0) ||| ((A &&& DB_CHUNK1) >>> 4) ||| ((A &&& DB_CHUNK2) >>> 6) |||
  ((A &&& DB_CHUNK3) >>> 9) ||| ((A &&& DB_CHUNK4) >>> 2) |||
  ((A &&& DB_CHUNK5) >>> 9) ||| ((A &&& DB_CHUNK6) >>> 10).

(* [privilege.h:679-688 fix_rights_for_table] *)
Definition fix_rights_for_table (access : privilege_t) : privilege_t :=
  let A := access in
  (A &&& TBL_CHUNK0) ||| (u64 (A <<< 4) &&& TBL_CHUNK1) ||| (u64 (A <<< 11) &&& TBL_CHUNK2) |||
  (u64 (A <<< 15) &&& TBL_CHUNK3) ||| (u64 (A <<< 16) &&& TBL_CHUNK4).

(* [privilege.h:691-700 get_rights_for_table] *)
Definition get_rights_for_table (access : privilege_t) : privilege_t :=
  let A := access in
  (A &&& TBL_CHUNK0) ||| ((A &&& TBL_CHUNK1) >>> 4) ||| ((A &&& TBL_CHUNK2) >>> 11) |||
  ((A &&& TBL_CHUNK3) >>> 15) ||| ((A &&& TBL_CHUNK4) >>> 16).

(* [privilege.h:703-707 fix_rights_for_column] *)
Definition fix_rights_for_column (A : privilege_t) : privilege_t :=
  let mask := SELECT_ACL ∨ₚ INSERT_ACL ∨ₚ UPDATE_ACL in
  (A &&& mask) ||| u64 ((A &&& wnot 64 mask) <<< 8).

(* [privilege.h:710-715 get_rights_for_column] *)
Definition get_rights_for_column (A : privilege_t) : privilege_t :=
  let mask := SELECT_ACL ∨ₚ INSERT_ACL ∨ₚ UPDATE_ACL in
  (A &&& mask) ||| (A >>> 8).

(* [privilege.h:718-725 fix_rights_for_procedure] *)
Definition fix_rights_for_procedure (access : privilege_t) : privilege_t :=
  let A := access in
  (u64 (A <<< 18) &&& EXECUTE_ACL) ||| (u64 (A <<< 23) &&& ALTER_PROC_ACL) ||| (u64 (A <<< 8) &&& GRANT_ACL).

(* [privilege.h:728-735 get_rights_for_procedure] *)
Definition get_rights_for_procedure (access : privilege_t) : privilege_t :=
  let A := access in
  ((A &&& EXECUTE_ACL) >>> 18) ||| ((A &&& ALTER_PROC_ACL) >>> 23) ||| ((A &&& GRANT_ACL) >>> 8).

(* [sql_acl.h:26-52 mysql_db_table_field] *)
Inductive mysql_db_table_field :=
| MYSQL_DB_FIELD_HOST | MYSQL_DB_FIELD_DB | MYSQL_DB_FIELD_USER
| MYSQL_DB_FIELD_SELECT_PRIV | MYSQL_DB_FIELD_INSERT_PRIV | MYSQL_DB_FIELD_UPDATE_PRIV
| MYSQL_DB_FIELD_DELETE_PRIV | MYSQL_DB_FIELD_CREATE_PRIV | MYSQL_DB_FIELD_DROP_PRIV
| MYSQL_DB_FIELD_GRANT_PRIV | MYSQL_DB_FIELD_REFERENCES_PRIV | MYSQL_DB_FIELD_INDEX_PRIV
| MYSQL_DB_FIELD_ALTER_PRIV | MYSQL_DB_FIELD_CREATE_TMP_TABLE_PRIV | MYSQL_DB_FIELD_LOCK_TABLES_PRIV
| MYSQL_DB_FIELD_CREATE_VIEW_PRIV | MYSQL_DB_FIELD_SHOW_VIEW_PRIV | MYSQL_DB_FIELD_CREATE_ROUTINE_PRIV
| MYSQL_DB_FIELD_ALTER_ROUTINE_PRIV | MYSQL_DB_FIELD_EXECUTE_PRIV | MYSQL_DB_FIELD_EVENT_PRIV
| MYSQL_DB_FIELD_TRIGGER_PRIV | MYSQL_DB_FIELD_DELETE_VERSIONING_ROWS_PRIV | MYSQL_DB_FIELD_COUNT.

(** The enumerators in order: the position is the value of the enumerator. *)
(* [sql_acl.h:28-51 mysql_db_table_field] *)
Definition mysql_db_table_fields : list mysql_db_table_field :=
  [MYSQL_DB_FIELD_HOST; MYSQL_DB_FIELD_DB; MYSQL_DB_FIELD_USER;
   MYSQL_DB_FIELD_SELECT_PRIV; MYSQL_DB_FIELD_INSERT_PRIV; MYSQL_DB_FIELD_UPDATE_PRIV;
   MYSQL_DB_FIELD_DELETE_PRIV; MYSQL_DB_FIELD_CREATE_PRIV; MYSQL_DB_FIELD_DROP_PRIV;
   MYSQL_DB_FIELD_GRANT_PRIV; MYSQL_DB_FIELD_REFERENCES_PRIV; MYSQL_DB_FIELD_INDEX_PRIV;
   MYSQL_DB_FIELD_ALTER_PRIV; MYSQL_DB_FIELD_CREATE_TMP_TABLE_PRIV; MYSQL_DB_FIELD_LOCK_TABLES_PRIV;
   MYSQL_DB_FIELD_CREATE_VIEW_PRIV; MYSQL_DB_FIELD_SHOW_VIEW_PRIV; MYSQL_DB_FIELD_CREATE_ROUTINE_PRIV;
   MYSQL_DB_FIELD_ALTER_ROUTINE_PRIV; MYSQL_DB_FIELD_EXECUTE_PRIV; MYSQL_DB_FIELD_EVENT_PRIV;
   MYSQL_DB_FIELD_TRIGGER_PRIV; MYSQL_DB_FIELD_DELETE_VERSIONING_ROWS_PRIV; MYSQL_DB_FIELD_COUNT].

(* [sql_acl.h:63-71 access_denied_error_code] *)
Definition access_denied_error_code (ER_ACCESS_DENIED_NO_PASSWORD_ERROR ER_ACCESS_DENIED_ERROR passwd_used : Z) : Z :=
  if passwd_used =? 2 then ER_ACCESS_DENIED_NO_PASSWORD_ERROR else ER_ACCESS_DENIED_ERROR.

(** [a] holds only privileges of [b]. *)
Definition privilege_subset (a b : privilege_t) : Prop := a &&& b = a.
Infix "⊆ₚ" := privilege_subset (at level 70) : cxx_scope.

#[export] Instance privilege_subset_dec a b : Decision (a ⊆ₚ b).
Proof. unfold privilege_subset. apply _. Defined.

(** ** Set algebra of privileges *)

Lemma privilege_subset_bits a b : a ⊆ₚ b <-> forall i, 0 <= i -> Z.testbit a i = true -> Z.testbit b i = true.
Proof.
  unfold privilege_subset. split.
  - intros E i Hi Ha. rewrite <- E, Z.land_spec in Ha. by apply andb_true_iff in Ha as [_ ?].
  - intros H. apply Z.bits_inj'. intros i Hi. rewrite Z.land_spec.
    destruct (Z.testbit a i) eqn:Ea; simpl; [by apply H | done].
Qed.

#[export] Instance privilege_subset_preorder : PreOrder privilege_subset.
Proof.
  split; [intros a; apply privilege_subset_bits; auto |].
  intros a b c. rewrite !privilege_subset_bits. auto.
Qed.

Lemma privilege_subset_antisym a b : a ⊆ₚ b -> b ⊆ₚ a -> a = b.
Proof.
  rewrite !privilege_subset_bits. intros H1 H2. apply Z.bits_inj'. intros i Hi.
  apply eq_true_iff_eq. split; auto.
Qed.

Lemma privilege_subset_word w a b : 0 <= w -> 0 <= a -> is_word w b -> a ⊆ₚ b -> is_word w a.
Proof. intros Hw Ha Hb <-. by apply is_word_land_r. Qed.

Lemma privilege_subset_or a b c : a ⊆ₚ c -> b ⊆ₚ c -> (a ||| b) ⊆ₚ c.
Proof.
  rewrite !privilege_subset_bits. intros Ha Hb i Hi. rewrite Z.lor_spec, orb_true_iff. intros []; auto.
Qed.

Lemma privilege_or_bits_subset a b c : (a ||| b) ⊆ₚ c -> a ⊆ₚ c /\ b ⊆ₚ c.
Proof.
  rewrite !privilege_subset_bits. intros H. split; intros i Hi Hb; apply H; try done;
    rewrite Z.lor_spec, Hb; [done | apply orb_true_r].
Qed.

(** ** Bitwise linear functions *)

(** [f] maps no bits to no bits and unions to unions. *)
Class BitLinear (f : Z -> Z) := {
  bit_linear_0 : f 0 = 0;
  bit_linear_or a b : f (a ||| b) = f a ||| f b
}.

#[export] Instance bit_linear_id : BitLinear (fun a => a).
Proof. by split. Qed.

#[export] Instance bit_linear_compose f g `{!BitLinear f, !BitLinear g} : BitLinear (fun a => f (g a)).
Proof. split; [by rewrite bit_linear_0, bit_linear_0 | intros; by rewrite !bit_linear_or]. Qed.

#[export] Instance bit_linear_land f m `{!BitLinear f} : BitLinear (fun a => f a &&& m).
Proof. split; [by rewrite bit_linear_0 | intros; by rewrite bit_linear_or, Z.land_lor_distr_l]. Qed.

#[export] Instance bit_linear_shiftl f n `{!BitLinear f} : BitLinear (fun a => f a <<< n).
Proof. split; [by rewrite bit_linear_0, Z.shiftl_0_l | intros; by rewrite bit_linear_or, Z.shiftl_lor]. Qed.

#[export] Instance bit_linear_shiftr f n `{!BitLinear f} : BitLinear (fun a => f a >>> n).
Proof. split; [by rewrite bit_linear_0, Z.shiftr_0_l | intros; by rewrite bit_linear_or, Z.shiftr_lor]. Qed.

#[export] Instance bit_linear_u64 f `{!BitLinear f} : BitLinear (fun a => u64 (f a)).
Proof.
  split; [by rewrite bit_linear_0 | intros a b; rewrite bit_linear_or].
  unfold u64. apply Z.bits_inj'. intros i Hi. word_spec. btauto.
Qed.

#[export] Instance bit_linear_lor f g `{!BitLinear f, !BitLinear g} : BitLinear (fun a => f a ||| g a).
Proof.
  split; [by rewrite !bit_linear_0 | intros a b; rewrite !bit_linear_or].
  apply Z.bits_inj'. intros i Hi. word_spec. btauto.
Qed.

(** Two linear functions that agree on the single bits of a mask agree on every
    subset of the mask. *)
Lemma bit_linear_ext (f g : Z -> Z) `{!BitLinear f, !BitLinear g} (n : nat) m :
  forallb (fun i => implb (Z.testbit m i) (f (1 <<< i) =? g (1 <<< i))) (seqZ 0 (Z.of_nat n)) = true ->
  forall a, is_word (Z.of_nat n) a -> a ⊆ₚ m -> f a = g a.
Proof.
  intros Hbase. assert (Hb : forall i, 0 <= i < Z.of_nat n -> Z.testbit m i = true -> f (1 <<< i) = g (1 <<< i)).
  { rewrite forallb_forall in Hbase. intros i Hi Hm. apply Z.eqb_eq.
    specialize (Hbase i). rewrite Hm in Hbase. apply Hbase. apply list_elem_of_In, elem_of_seqZ. lia. }
  clear Hbase. induction n as [| n IH]; intros a Ha Hm.
  - change (Z.of_nat 0) with 0 in Ha. assert (a = 0) as -> by (unfold is_word in Ha; lia).
    by rewrite !bit_linear_0.
  - set (k := Z.of_nat n) in *. set (top := if Z.testbit a k then 1 <<< k else 0).
    assert (E : a = wrap k a ||| top).
    { apply Z.bits_inj'. intros i Hi. rewrite Z.lor_spec, testbit_wrap by lia. unfold top.
      destruct (Z.ltb_spec i k); simpl.
      - destruct (Z.testbit a k); [rewrite testbit_shiftl1 by lia | rewrite Z.bits_0]; [| by rewrite orb_false_r].
        destruct (Z.eqb_spec i k); [lia | by rewrite orb_false_r].
      - destruct (decide (i = k)) as [-> |].
        + destruct (Z.testbit a k); [by rewrite testbit_shiftl1, Z.eqb_refl by lia | by rewrite Z.bits_0].
        + rewrite (testbit_word_high (Z.of_nat (S n))) by (done || lia).
          destruct (Z.testbit a k); [rewrite testbit_shiftl1 by lia | by rewrite Z.bits_0].
          destruct (Z.eqb_spec i k); [lia | done]. }
    rewrite E, !bit_linear_or. f_equal.
    + apply IH; [intros; apply Hb; [lia | done] | by apply is_word_wrap; lia |].
      apply (transitivity (y := a)); [| done]. apply privilege_subset_bits. intros i Hi.
      rewrite testbit_wrap by lia. by intros [_ ?]%andb_true_iff.
    + unfold top. destruct (Z.testbit a k) eqn:Ek; [| by rewrite !bit_linear_0].
      apply Hb; [lia |]. rewrite privilege_subset_bits in Hm. apply Hm; [lia | done].
Qed.

(** ** The contract of a pair of conversions

    [stored] are the bits a grant table row can hold and [acls] the privileges
    of that object level. *)
Class PrivilegeCodec (fix_rights get_rights : privilege_t -> privilege_t) (stored acls : privilege_t) := {
  codec_fix_linear : BitLinear fix_rights;
  codec_get_linear : BitLinear get_rights;
  codec_fix_acls a : is_word 64 a -> a ⊆ₚ stored -> fix_rights a ⊆ₚ acls;
  codec_get_stored a : is_word 64 a -> a ⊆ₚ acls -> get_rights a ⊆ₚ stored;
  codec_get_fix a : is_word 64 a -> a ⊆ₚ stored -> get_rights (fix_rights a) = a;
  codec_fix_get a : is_word 64 a -> a ⊆ₚ acls -> fix_rights (get_rights a) = a
}.
#[export] Existing Instances codec_fix_linear codec_get_linear.

(** Checking the two inverse equations bit by bit is enough. *)
Lemma codec_by_bits fix_rights get_rights stored acls :
  BitLinear fix_rights -> BitLinear get_rights ->
  forallb (fun i => implb (Z.testbit stored i)
    ((fix_rights (1 <<< i) &&& acls =? fix_rights (1 <<< i)) && (get_rights (fix_rights (1 <<< i)) =? 1 <<< i))) (seqZ 0 64) = true ->
  forallb (fun i => implb (Z.testbit acls i)
    ((get_rights (1 <<< i) &&& stored =? get_rights (1 <<< i)) && (fix_rights (get_rights (1 <<< i)) =? 1 <<< i))) (seqZ 0 64) = true ->
  PrivilegeCodec fix_rights get_rights stored acls.
Proof.
  intros Hf Hg H1 H2. rewrite forallb_forall in H1, H2. split; try done.
  - apply (bit_linear_ext (fun a => fix_rights a &&& acls) fix_rights 64).
    apply forallb_forall. intros i Hi. specialize (H1 i Hi). destruct (Z.testbit stored i); [| done].
    by apply andb_true_iff in H1 as [? _].
  - apply (bit_linear_ext (fun a => get_rights a &&& stored) get_rights 64).
    apply forallb_forall. intros i Hi. specialize (H2 i Hi). destruct (Z.testbit acls i); [| done].
    by apply andb_true_iff in H2 as [? _].
  - apply (bit_linear_ext (fun a => get_rights (fix_rights a)) (fun a => a) 64).
    apply forallb_forall. intros i Hi. specialize (H1 i Hi). destruct (Z.testbit stored i); [| done].
    by apply andb_true_iff in H1 as [_ ?].
  - apply (bit_linear_ext (fun a => fix_rights (get_rights a)) (fun a => a) 64).
    apply forallb_forall. intros i Hi. specialize (H2 i Hi). destruct (Z.testbit acls i); [| done].
    by apply andb_true_iff in H2 as [_ ?].
Qed.

#[export] Instance fix_rights_for_db_linear : BitLinear fix_rights_for_db.
Proof. unfold fix_rights_for_db. cbv zeta. apply _. Qed.
#[export] Instance get_rights_for_db_linear : BitLinear get_rights_for_db.
Proof. unfold get_rights_for_db. cbv zeta. apply _. Qed.
#[export] Instance fix_rights_for_table_linear : BitLinear fix_rights_for_table.
Proof. unfold fix_rights_for_table. cbv zeta. apply _. Qed.
#[export] Instance get_rights_for_table_linear : BitLinear get_rights_for_table.
Proof. unfold get_rights_for_table. cbv zeta. apply _. Qed.
#[export] Instance fix_rights_for_column_linear : BitLinear fix_rights_for_column.
Proof. unfold fix_rights_for_column. cbv zeta. apply _. Qed.
#[export] Instance get_rights_for_column_linear : BitLinear get_rights_for_column.
Proof. unfold get_rights_for_column. cbv zeta. apply _. Qed.
#[export] Instance fix_rights_for_procedure_linear : BitLinear fix_rights_for_procedure.
Proof. unfold fix_rights_for_procedure. cbv zeta. apply _. Qed.
#[export] Instance get_rights_for_procedure_linear : BitLinear get_rights_for_procedure.
Proof. unfold get_rights_for_procedure. cbv zeta. apply _. Qed.

(** The rows of [mysql.db] hold twenty privilege columns, those of
    [mysql.tables_priv] a set of fourteen, of [mysql.columns_priv] of four and
    of [mysql.procs_priv] of three. *)
#[export] Instance db_codec : PrivilegeCodec fix_rights_for_db get_rights_for_db (Z.ones 20) DB_ACLS.
Proof. apply codec_by_bits; [apply _ | apply _ | by vm_compute | by vm_compute]. Qed.
#[export] Instance table_codec : PrivilegeCodec fix_rights_for_table get_rights_for_table (Z.ones 14) TABLE_ACLS.
Proof. apply codec_by_bits; [apply _ | apply _ | by vm_compute | by vm_compute]. Qed.
#[export] Instance column_codec : PrivilegeCodec fix_rights_for_column get_rights_for_column (Z.ones 4) COL_ACLS.
Proof. apply codec_by_bits; [apply _ | apply _ | by vm_compute | by vm_compute]. Qed.
#[export] Instance procedure_codec : PrivilegeCodec fix_rights_for_procedure get_rights_for_procedure (Z.ones 3) PROC_ACLS.
Proof. apply codec_by_bits; [apply _ | apply _ | by vm_compute | by vm_compute]. Qed.

(** ** What follows from the contract *)

Section codec_client.
Context {fix_rights get_rights stored acls} `{!PrivilegeCodec fix_rights get_rights stored acls}.

(** A privilege check on the stored form is the check on the privileges. *)
Lemma codec_subset_iff a b :
  is_word 64 a -> is_word 64 b -> a ⊆ₚ acls -> b ⊆ₚ acls -> a ⊆ₚ b <-> get_rights a ⊆ₚ get_rights b.
Proof using Type*.
  intros Ha Hb Haa Hba. split; intros H.
  - assert (E : a ||| b = b).
    { apply Z.bits_inj'. intros i Hi. rewrite Z.lor_spec. rewrite privilege_subset_bits in H.
      specialize (H i Hi). destruct (Z.testbit a i); [by rewrite H | done]. }
    apply privilege_or_bits_subset with (b := get_rights b). rewrite <- bit_linear_or, E. reflexivity.
  - assert (E : get_rights a ||| get_rights b = get_rights b).
    { apply Z.bits_inj'. intros i Hi. rewrite Z.lor_spec. rewrite privilege_subset_bits in H.
      specialize (H i Hi). destruct (Z.testbit (get_rights a) i); [by rewrite H | done]. }
    rewrite <- bit_linear_or in E. apply (f_equal fix_rights) in E.
    rewrite !codec_fix_get in E by first [done | apply is_word_lor; (lia || done) | by apply privilege_subset_or].
    apply privilege_or_bits_subset with (b := b). rewrite E. reflexivity.
Qed.
End codec_client.

Lemma word_subset_ones n a : 0 <= n -> is_word n a <-> 0 <= a /\ a ⊆ₚ Z.ones n.
Proof.
  intros Hn. unfold privilege_subset. rewrite Z.land_ones by done. split.
  - intros Ha. split; [apply Ha | by apply wrap_small].
  - intros [_ <-]. by apply is_word_wrap.
Qed.

Section codec_roundtrip.
Context {fix_rights get_rights n acls} `{!PrivilegeCodec fix_rights get_rights (Z.ones n) acls}.
Hypothesis Hn : 0 <= n <= 64.
Hypothesis Hacls : is_word 64 acls.

Lemma codec_roundtrip_stored a : is_word n a -> fix_rights a ⊆ₚ acls /\ get_rights (fix_rights a) = a.
Proof using Type*.
  intros Ha. assert (is_word 64 a) by (by apply (is_word_mono n)).
  apply word_subset_ones in Ha as [_ Ha]; [| lia]. split; [by apply codec_fix_acls | by apply codec_get_fix].
Qed.

Lemma codec_roundtrip_acls a : 0 <= a -> a ⊆ₚ acls -> get_rights a ⊆ₚ Z.ones n /\ fix_rights (get_rights a) = a.
Proof using Type*.
  intros Ha Hs. assert (is_word 64 a) by (by apply (privilege_subset_word 64 a acls)).
  split; [by apply codec_get_stored | by apply codec_fix_get].
Qed.
End codec_roundtrip.

(** ** The properties *)

(** the enumerators of [privilege_t] are the powers of two from bit 0 to
    [PRIVILEGE_T_MAX_BIT], in order and without a gap, [ALL_KNOWN_ACL] is exactly
    their union, and the [static_assert] of the header holds. *)
Theorem privilege_bits_complete :
  privilege_bits = ((fun i => 1 <<< i) <$> seqZ 0 (PRIVILEGE_T_MAX_BIT + 1)) /\
  ALL_KNOWN_ACL = foldr privilege_or NO_ACL privilege_bits /\
  (forall i, Z.testbit ALL_KNOWN_ACL i = (0 <=? i) && (i <=? PRIVILEGE_T_MAX_BIT)) /\
  u64 (1 <<< PRIVILEGE_T_MAX_BIT) = LAST_CURRENT_ACL.
Proof.
  split; [by vm_compute |]. split; [by vm_compute |]. split; [| by vm_compute].
  intros i. change ALL_KNOWN_ACL with (Z.ones (PRIVILEGE_T_MAX_BIT + 1)).
  rewrite Z.testbit_ones by (by vm_compute). f_equal. apply eq_true_iff_eq. rewrite Z.leb_le, Z.ltb_lt. lia.
Qed.

(** each level's privileges include the next lower level's, every column,
    table, procedure and database privilege is a global one, and the global ones
    are all there are. *)
Theorem privilege_levels_nested :
  COL_ACLS ⊆ₚ TABLE_ACLS /\ TABLE_ACLS ⊆ₚ DB_ACLS /\ PROC_ACLS ⊆ₚ DB_ACLS /\ DB_ACLS ⊆ₚ GLOBAL_ACLS /\
  GLOBAL_ACLS = ALL_KNOWN_ACL /\ TMP_TABLE_ACLS ⊆ₚ TABLE_ACLS /\ SHOW_CREATE_TABLE_ACLS ⊆ₚ TABLE_ACLS /\
  GLOBAL_SUPER_ADDED_SINCE_USER_TABLE_ACLS ⊆ₚ GLOBAL_ACLS /\
  GLOBAL_SUPER_ADDED_SINCE_USER_TABLE_ACLS &&& DB_ACLS = NO_ACL.
Proof. repeat split; by vm_compute. Qed.

(** every requirement constant names at least one privilege and only
    privileges that can be granted globally, and each one that used to be SUPER
    is still satisfied by SUPER, so an account upgraded with SUPER keeps it. *)
Theorem priv_requirements_grantable p :
  p ∈ PRIV_requirements ->
  p <> NO_ACL /\ p ⊆ₚ GLOBAL_ACLS /\
  (p ∈ PRIV_formerly_super -> forall access, SUPER_ACL ⊆ₚ access -> privilege_and access p <> NO_ACL).
Proof.
  assert (H1 : Forall (fun p => p <> NO_ACL /\ p ⊆ₚ GLOBAL_ACLS) PRIV_requirements) by (apply (bool_decide_unpack _); by vm_compute).
  assert (H2 : Forall (fun p => Z.testbit p 15 = true) PRIV_formerly_super) by (apply (bool_decide_unpack _); by vm_compute).
  rewrite Forall_forall in H1, H2. intros Hp. destruct (H1 p Hp). split; [done |]. split; [done |].
  intros Hs access Ha E. rewrite privilege_subset_bits in Ha.
  apply (f_equal (fun x => Z.testbit x 15)) in E. unfold privilege_and in E.
  rewrite Z.land_spec, (H2 p Hs), Ha in E by (lia || by vm_compute). done.
Qed.


(** C20: storing database privileges in a [mysql.db] row and reading them back is
    the identity in both directions: on every combination of the twenty stored
    columns and on every combination of [DB_ACLS]. *)
Theorem db_rights_roundtrip a :
  (is_word 20 a -> fix_rights_for_db a ⊆ₚ DB_ACLS /\ get_rights_for_db (fix_rights_for_db a) = a) /\
  (0 <= a -> a ⊆ₚ DB_ACLS -> get_rights_for_db a ⊆ₚ Z.ones 20 /\ fix_rights_for_db (get_rights_for_db a) = a).
Proof. split; [by apply codec_roundtrip_stored | by apply codec_roundtrip_acls]. Qed.

Lemma db_rights_roundtrip_witness :
  get_rights_for_db (SELECT_ACL ||| EVENT_ACL) = 2 ^ 17 + 1 /\
  fix_rights_for_db (get_rights_for_db (SELECT_ACL ||| EVENT_ACL)) = SELECT_ACL ||| EVENT_ACL.
Proof.
  split; [by vm_compute |].
  apply (proj2 (db_rights_roundtrip (SELECT_ACL ||| EVENT_ACL))); by vm_compute.
Defined.

(** the same for the rows of the table, column and procedure grant tables;
    for columns this needs the argument to be one of [COL_ACLS], since the
    function shifts every other bit along. *)
Theorem object_rights_roundtrip a :
  (is_word 14 a -> fix_rights_for_table a ⊆ₚ TABLE_ACLS /\ get_rights_for_table (fix_rights_for_table a) = a) /\
  (0 <= a -> a ⊆ₚ TABLE_ACLS -> fix_rights_for_table (get_rights_for_table a) = a) /\
  (is_word 4 a -> fix_rights_for_column a ⊆ₚ COL_ACLS /\ get_rights_for_column (fix_rights_for_column a) = a) /\
  (0 <= a -> a ⊆ₚ COL_ACLS -> fix_rights_for_column (get_rights_for_column a) = a) /\
  (is_word 3 a -> fix_rights_for_procedure a ⊆ₚ PROC_ACLS /\ get_rights_for_procedure (fix_rights_for_procedure a) = a) /\
  (0 <= a -> a ⊆ₚ PROC_ACLS -> fix_rights_for_procedure (get_rights_for_procedure a) = a).
Proof.
  repeat match goal with |- _ /\ _ => split end; intros;
    first [by apply codec_roundtrip_stored | by eapply codec_roundtrip_acls].
Qed.

Lemma object_rights_roundtrip_witness :
  get_rights_for_table TRIGGER_ACL = 2 ^ 12 /\ fix_rights_for_table (get_rights_for_table TRIGGER_ACL) = TRIGGER_ACL.
Proof. split; [by vm_compute |]. apply (proj1 (proj2 (object_rights_roundtrip TRIGGER_ACL))); by vm_compute. Defined.

(** a subset check made on stored rows gives the same answer as the check on
    the privileges themselves, for database rows and for table rows. *)
Theorem stored_subset_check a b :
  0 <= a -> 0 <= b -> b ⊆ₚ TABLE_ACLS -> a ⊆ₚ TABLE_ACLS ->
  (a ⊆ₚ b <-> get_rights_for_db a ⊆ₚ get_rights_for_db b) /\
  (a ⊆ₚ b <-> get_rights_for_table a ⊆ₚ get_rights_for_table b).
Proof.
  intros Ha Hb Hbt Hat.
  assert (is_word 64 a) by (by apply (privilege_subset_word 64 a TABLE_ACLS)).
  assert (is_word 64 b) by (by apply (privilege_subset_word 64 b TABLE_ACLS)).
  assert (TABLE_ACLS ⊆ₚ DB_ACLS) by (by vm_compute).
  split; apply codec_subset_iff; try done; by etransitivity.
Qed.

Lemma stored_subset_check_witness :
  SELECT_ACL ⊆ₚ COL_ACLS /\ get_rights_for_table SELECT_ACL ⊆ₚ get_rights_for_table COL_ACLS.
Proof. split; [by vm_compute |]. apply (proj2 (stored_subset_check SELECT_ACL COL_ACLS ltac:(by vm_compute) ltac:(by vm_compute) ltac:(by vm_compute) ltac:(by vm_compute))). by vm_compute. Defined.

(** the twenty privilege columns of [mysql.db], in the order of
    [mysql_db_table_field], are the stored bits in order: reading the row with
    only column [SELECT_PRIV + k] set gives the privilege that names the column. *)
Theorem db_columns_match_rights :
  ((fun k => fix_rights_for_db (1 <<< k)) <$> seqZ 0 20) =
  [SELECT_ACL; INSERT_ACL; UPDATE_ACL; DELETE_ACL; CREATE_ACL; DROP_ACL; GRANT_ACL; REFERENCES_ACL;
   INDEX_ACL; ALTER_ACL; CREATE_TMP_ACL; LOCK_TABLES_ACL; CREATE_VIEW_ACL; SHOW_VIEW_ACL;
   CREATE_PROC_ACL; ALTER_PROC_ACL; EXECUTE_ACL; EVENT_ACL; TRIGGER_ACL; DELETE_HISTORY_ACL] /\
  drop 3 (take 23 mysql_db_table_fields) =
  [MYSQL_DB_FIELD_SELECT_PRIV; MYSQL_DB_FIELD_INSERT_PRIV; MYSQL_DB_FIELD_UPDATE_PRIV; MYSQL_DB_FIELD_DELETE_PRIV;
   MYSQL_DB_FIELD_CREATE_PRIV; MYSQL_DB_FIELD_DROP_PRIV; MYSQL_DB_FIELD_GRANT_PRIV; MYSQL_DB_FIELD_REFERENCES_PRIV;
   MYSQL_DB_FIELD_INDEX_PRIV; MYSQL_DB_FIELD_ALTER_PRIV; MYSQL_DB_FIELD_CREATE_TMP_TABLE_PRIV;
   MYSQL_DB_FIELD_LOCK_TABLES_PRIV; MYSQL_DB_FIELD_CREATE_VIEW_PRIV; MYSQL_DB_FIELD_SHOW_VIEW_PRIV;
   MYSQL_DB_FIELD_CREATE_ROUTINE_PRIV; MYSQL_DB_FIELD_ALTER_ROUTINE_PRIV; MYSQL_DB_FIELD_EXECUTE_PRIV;
   MYSQL_DB_FIELD_EVENT_PRIV; MYSQL_DB_FIELD_TRIGGER_PRIV; MYSQL_DB_FIELD_DELETE_VERSIONING_ROWS_PRIV] /\
  nth_error mysql_db_table_fields 23 = Some MYSQL_DB_FIELD_COUNT.
Proof. by vm_compute. Qed.
