(* ===== verification/Bitmap.v ===== *)
(** * Bitmap: the template [Bitmap<width>] of [sql_bitmap.h]

    A bitmap is an array of [ARRAY_ELEMENTS] 64-bit words.  The template
    parameter [width] is a section variable and the loops over the array are
    list functions.  [dbug] says whether assertions are compiled in: a debug build stops
    ([None]) where a [DBUG_ASSERT] fails, a release build goes on, and then [None] is
    a shift or an index out of range.  The theorems hold for both builds and say
    where the debug build stops.  The abstract view of a
    bitmap is the finite set of its bits, [to_set]; every operation is shown to
    be the set operation its name announces.

    [my_find_first_bit] is used through the class [FirstBit] of [Bits]. *)

From stdpp Require Import base numbers list gmap sets.
From Stdlib Require Import ZArith Lia Btauto.
From S2P Require Import Prelude Bits.

Local Open Scope Z_scope.
Local Open Scope cxx_scope.

(** ** Table_map_iterator *)

(* [sql_bitmap.h:46-46 Table_map_iterator::BITMAP_END] *)
Definition TABLE_MAP_END : Z := 64.

(** The state is the word of the bits still to report. *)
(* [sql_bitmap.h:37-45 Table_map_iterator::next_bit] *)
Definition next_bit (ffb : Z -> Z) (bmp : Z) : Z * Z :=
  if bmp =? 0 then (TABLE_MAP_END, bmp)
  else let bit := ffb bmp in (bit, bmp &&& wnot 64 (1 <<< bit)).

(* [sql_bitmap.h:64-64 Bitmap::BITS_PER_ELEMENT] *)
Definition BITS_PER_ELEMENT : Z := 64.
(* [sql_bitmap.h:66-66 Bitmap::ALL_BITS_SET] *)
Definition ALL_BITS_SET : Z := 2 ^ 64 - 1.

(** The array [buffer]. *)
Abbreviation bitmap := (list Z).

(** [DBUG_ASSERT(c)]. *)
Definition debug_assert (dbug c : bool) : option unit := if dbug && negb c then None else Some tt.

Section bitmap.
Variable dbug : bool.
Variable width : Z.

(* [sql_bitmap.h:65-65 Bitmap::ARRAY_ELEMENTS] *)
Definition ARRAY_ELEMENTS : nat := Z.to_nat ((width + BITS_PER_ELEMENT - 1) / BITS_PER_ELEMENT).

(* [sql_bitmap.h:70-74 Bitmap::bit_index] *)
Definition bit_index (n : Z) : option nat :=
  _ ← debug_assert dbug (n <? width);
  Some (if (ARRAY_ELEMENTS =? 1)%nat then 0%nat else Z.to_nat (n / BITS_PER_ELEMENT)).

(** A shift of 64 or more has no value. *)
(* [sql_bitmap.h:75-79 Bitmap::bit_mask] *)
Definition bit_mask (n : Z) : option Z :=
  _ ← debug_assert dbug (n <? width);
  if (ARRAY_ELEMENTS =? 1)%nat then (if n <? 64 then Some (1 <<< n) else None) else Some (1 <<< (n mod BITS_PER_ELEMENT)).

(* [sql_bitmap.h:80-84 Bitmap::last_element_mask] *)
Definition last_element_mask (n : Z) : option Z :=
  _ ← debug_assert dbug (negb (n mod BITS_PER_ELEMENT =? 0));
  m ← bit_mask n;
  Some (m - 1).

(** The word at an index of the array. *)
Definition element (b : bitmap) (i : nat) : Z := nth i b 0.

(* [sql_bitmap.h:103-106 Bitmap::length] *)
Definition bitmap_length : Z := width.

(* [sql_bitmap.h:107-110 Bitmap::set_bit] *)
Definition set_bit (b : bitmap) (n : Z) : option bitmap :=
  i ← bit_index n; w ← b !! i; m ← bit_mask n; Some (<[i := w ||| m]> b).

(* [sql_bitmap.h:111-114 Bitmap::clear_bit] *)
Definition clear_bit (b : bitmap) (n : Z) : option bitmap :=
  i ← bit_index n; w ← b !! i; m ← bit_mask n; Some (<[i := w &&& wnot 64 m]> b).

(* [sql_bitmap.h:115-118 Bitmap::is_set] *)
Definition is_set (b : bitmap) (n : Z) : option bool :=
  i ← bit_index n; w ← b !! i; m ← bit_mask n; Some (negb (w &&& m =? 0)).

(** The three consecutive writes of [set_prefix]: full words, the partial
    word, zero words. *)
(* [sql_bitmap.h:119-133 Bitmap::set_prefix] *)
Definition set_prefix (prefix_size : Z) : option bitmap :=
  let prefix_size := if width <? prefix_size then width else prefix_size in
  let idx := Z.to_nat (prefix_size / BITS_PER_ELEMENT) in
  partial ← if prefix_size mod BITS_PER_ELEMENT =? 0 then Some [] else (m ← last_element_mask prefix_size; Some [m]);
  Some (replicate idx ALL_BITS_SET ++ partial ++ replicate (ARRAY_ELEMENTS - (idx + length partial)) 0).

(* [sql_bitmap.h:95-102 Bitmap::init] *)
Definition init (prefix : Z) : option bitmap := set_prefix prefix.

(** The first loop of [is_prefix]. *)
(* [sql_bitmap.h:140-142 Bitmap::is_prefix] *)
Fixpoint full_words (idx : nat) (b : bitmap) : option bool :=
  match idx with
  | O => Some true
  | S idx => match b with [] => None | w :: b => if negb (w =? ALL_BITS_SET) then Some false else full_words idx b end
  end.

(* [sql_bitmap.h:134-153 Bitmap::is_prefix] *)
Definition is_prefix (b : bitmap) (prefix_size : Z) : option bool :=
  _ ← debug_assert dbug (prefix_size <=? width);
  let idx := Z.to_nat (prefix_size / BITS_PER_ELEMENT) in
  let partial := negb (prefix_size mod BITS_PER_ELEMENT =? 0) in
  full ← full_words idx b;
  if negb full then Some false else
  same ← if partial then (w ← b !! idx; m ← last_element_mask prefix_size; Some (w =? m)) else Some true;
  if negb same then Some false else
  Some (forallb (fun w => w =? 0) (drop (if partial then S idx else idx) b)).

(* [sql_bitmap.h:154-162 Bitmap::set_all] *)
Definition set_all : option bitmap :=
  if negb (width mod BITS_PER_ELEMENT =? 0) then set_prefix width
  else if (1 <? ARRAY_ELEMENTS)%nat then Some (replicate ARRAY_ELEMENTS ALL_BITS_SET)
  else Some [ALL_BITS_SET].

(* [sql_bitmap.h:163-169 Bitmap::clear_all] *)
Definition clear_all : bitmap := replicate ARRAY_ELEMENTS 0.

(* [sql_bitmap.h:170-174 Bitmap::intersect] *)
Definition intersect (b map2 : bitmap) : bitmap := zip_with Z.land b map2.

(* [sql_bitmap.h:182-191 Bitmap::intersect_and_pad] *)
Definition intersect_and_pad (b : bitmap) (map2buff : Z) (pad_with_ones : bool) : option bitmap :=
  let b := (element b 0 &&& map2buff) ::
           replicate (ARRAY_ELEMENTS - 1) (if pad_with_ones then ALL_BITS_SET else 0) in
  if (1 <? ARRAY_ELEMENTS)%nat && negb (width mod BITS_PER_ELEMENT =? 0) && pad_with_ones
  then m ← last_element_mask width; Some (<[(ARRAY_ELEMENTS - 1)%nat := m]> b)
  else Some b.

(* [sql_bitmap.h:194-197 Bitmap::intersect] *)
Definition intersect_ulonglong (b : bitmap) (map2buff : Z) : option bitmap := intersect_and_pad b map2buff false.

(* [sql_bitmap.h:199-202 Bitmap::intersect_extended] *)
Definition intersect_extended (b : bitmap) (map2buff : Z) : option bitmap :=
  intersect_and_pad b map2buff (negb (map2buff &&& (1 <<< 63) =? 0)).

(* [sql_bitmap.h:203-207 Bitmap::subtract] *)
Definition subtract (b map2 : bitmap) : bitmap := zip_with (fun x y => x &&& wnot 64 y) b map2.

(* [sql_bitmap.h:208-212 Bitmap::merge] *)
Definition merge (b map2 : bitmap) : bitmap := zip_with Z.lor b map2.

(* [sql_bitmap.h:213-219 Bitmap::is_clear_all] *)
Definition is_clear_all (b : bitmap) : bool := forallb (fun w => w =? 0) b.

(* [sql_bitmap.h:220-226 Bitmap::is_subset] *)
Definition is_subset (b map2 : bitmap) : bool :=
  forallb (fun '(x, y) => x &&& wnot 64 y =? 0) (zip b map2).

(* [sql_bitmap.h:227-233 Bitmap::is_overlapping] *)
Definition is_overlapping (b map2 : bitmap) : bool :=
  existsb (fun '(x, y) => negb (x &&& y =? 0)) (zip b map2).

(* [sql_bitmap.h:234-239 Bitmap::operator==] *)
Definition bitmap_eq (b map2 : bitmap) : bool := bool_decide (b = map2).

(* [sql_bitmap.h:240-243 Bitmap::operator!=] *)
Definition bitmap_ne (b map2 : bitmap) : bool := negb (bitmap_eq b map2).

(* [sql_bitmap.h:269-272 Bitmap::to_ulonglong] *)
Definition to_ulonglong (b : bitmap) : Z := element b 0.

(* [sql_bitmap.h:273-279 Bitmap::bits_set] *)
Definition bits_set (b : bitmap) : Z := foldl (fun res w => u32 (res + my_count_bits w)) 0 b.

(** Printing: [longlong2str(value, buf, 16)] is external.  A shift of 64 or
    more has no defined value, which is [None]. *)
Section print.
Variable longlong2str : Z -> list Z.

(* [sql_bitmap.h:252-252 Bitmap::print] *)
Fixpoint last_nonzero (b : bitmap) (last : nat) : nat :=
  match last with
  | O => O
  | S l => if element b last =? 0 then last_nonzero b l else last
  end.

(** The inner loop: [rounds] digits from [shift] on. *)
(* [sql_bitmap.h:260-264 Bitmap::print] *)
Fixpoint print_element (num shift : Z) (rounds : nat) : option (list Z) :=
  match rounds with
  | O => Some []
  | S r => if shift <? 64
           then (digits ← print_element num (shift + 4) r; Some (((num >>> shift) &&& 0xf) :: digits))
           else None
  end.

(** [longlong2str] writes its digits and a terminating zero at the start of
    [buf], over the digits of the loop: the string left is its string. *)
(* [sql_bitmap.h:248-268 Bitmap::print] *)
Definition print (b : bitmap) : option (list Z) :=
  let last := last_nonzero b (ARRAY_ELEMENTS - 1) in
  _ ← mapM (fun num => print_element num (BITS_PER_ELEMENT - 4) 16) (take last b);
  Some (longlong2str (element b last)).
End print.

(** The iterator: the offset of the current word and its remaining bits. *)
(* [sql_bitmap.h:282-284 Bitmap::Iterator] *)
Record iterator := { it_offset : Z; it_tmi : Z }.

(* [sql_bitmap.h:286-286 Bitmap::Iterator::Iterator] *)
Definition iterator_init (b : bitmap) : iterator := {| it_offset := 0; it_tmi := element b 0 |}.

(* [sql_bitmap.h:303-303 Bitmap::Iterator::BITMAP_END] *)
Definition BITMAP_END : Z := width.

(** One round of the [for (;;)] per unit of fuel. *)
(* [sql_bitmap.h:287-302 Bitmap::Iterator::operator++] *)
Fixpoint iterator_next (ffb : Z -> Z) (fuel : nat) (b : bitmap) (it : iterator) : option (Z * iterator) :=
  match fuel with
  | O => None
  | S fuel =>
      let '(nextbit, tmi) := next_bit ffb (it_tmi it) in
      if negb (nextbit =? TABLE_MAP_END)
      then Some (it_offset it + nextbit, {| it_offset := it_offset it; it_tmi := tmi |})
      else if bitmap_length <=? it_offset it + BITS_PER_ELEMENT
      then Some (BITMAP_END, {| it_offset := it_offset it; it_tmi := tmi |})
      else let offset := it_offset it + BITS_PER_ELEMENT in
           iterator_next ffb fuel b
             {| it_offset := offset; it_tmi := element b (Z.to_nat (offset / BITS_PER_ELEMENT)) |}
  end.

(** The bits a client reads with [while ((i= it++) != BITMAP_END)]. *)
Fixpoint iterator_run (ffb : Z -> Z) (rounds fuel : nat) (b : bitmap) (it : iterator) : option (list Z) :=
  match rounds with
  | O => None
  | S rounds =>
      '(i, it) ← iterator_next ffb fuel b it;
      if i =? BITMAP_END then Some []
      else (others ← iterator_run ffb rounds fuel b it; Some (i :: others))
  end.
End bitmap.

(** ** The abstract view *)

Section bitmap_proofs.
Variable dbug : bool.
Variable width : Z.
Hypothesis Hwidth : 0 < width.
Abbreviation n := (ARRAY_ELEMENTS width).

(** The bit at position [i] of the array. *)
Definition test (b : bitmap) (i : Z) : bool := Z.testbit (element b (Z.to_nat (i / 64))) (i mod 64).

(** An array of the right size and of words, with no bit from [width] on. *)
Record bitmap_wf (b : bitmap) : Prop := {
  wf_length : length b = n;
  wf_words : Forall (is_word 64) b;
  wf_tail : forall i, width <= i < 64 * Z.of_nat n -> test b i = false
}.

(** The set of the bits. *)
Definition to_set (b : bitmap) : gset Z := list_to_set (filter (fun i => test b i = true) (seqZ 0 width)).

(** The operation has a result, which is well formed and has the bits of [s]. *)
Definition refines (r : option bitmap) (s : gset Z) : Prop := exists b, r = Some b /\ bitmap_wf b /\ to_set b = s.

(** Where a debug build stops: [last_element_mask(width)] is called. *)
Definition stops_at_end : bool := dbug && negb (width mod BITS_PER_ELEMENT =? 0).

Lemma elem_of_to_set b i : i ∈ to_set b <-> 0 <= i < width /\ test b i = true.
Proof using. unfold to_set. rewrite elem_of_list_to_set, list_elem_of_filter, elem_of_seqZ. split; intros; split; try tauto; lia. Qed.

Lemma array_bounds : width <= 64 * Z.of_nat n < width + 64.
Proof using Hwidth.
  unfold ARRAY_ELEMENTS, BITS_PER_ELEMENT. rewrite Z2Nat.id by (apply Z.div_pos; lia).
  Z.to_euclidean_division_equations. lia.
Qed.

Lemma array_pos : (0 < n)%nat.
Proof using Hwidth. pose proof array_bounds. lia. Qed.

Lemma element_word b i : Forall (is_word 64) b -> is_word 64 (element b i).
Proof using.
  intros Hb. unfold element. destruct (le_lt_dec (length b) i) as [H | H].
  - rewrite nth_overflow by done. by apply is_word_0.
  - rewrite List.Forall_forall in Hb. apply Hb. by apply nth_In.
Qed.

(** Reads after a write. *)
Lemma element_insert b i j w : (i < length b)%nat -> element (<[i := w]> b) j = if decide (i = j) then w else element b j.
Proof using.
  intros Hi. unfold element. rewrite !nth_lookup. destruct (decide (i = j)) as [-> |].
  - by rewrite list_lookup_insert_eq.
  - by rewrite list_lookup_insert_ne.
Qed.

Lemma bit_word i : 0 <= i < width -> (Z.to_nat (i / 64) < n)%nat.
Proof using Hwidth. intros Hi. pose proof array_bounds. Z.to_euclidean_division_equations. lia. Qed.

Lemma index_mask i : 0 <= i < width ->
  bit_index dbug width i = Some (Z.to_nat (i / 64)) /\ bit_mask dbug width i = Some (1 <<< (i mod 64)).
Proof using Hwidth.
  intros Hi. pose proof array_bounds. unfold bit_index, bit_mask, debug_assert, BITS_PER_ELEMENT.
  rewrite (proj2 (Z.ltb_lt i width)), andb_false_r by lia. cbn [mbind option_bind].
  assert (0 <= i / 64) by (apply Z.div_pos; lia). pose proof (Z.div_mod i 64).
  pose proof (Z.mod_pos_bound i 64). destruct (Nat.eqb_spec n 1) as [E |].
  - by rewrite Z.div_small, Z.mod_small, (proj2 (Z.ltb_lt i 64)) by lia.
  - done.
Qed.

(** The word of bit [i]. *)
Lemma word_of_bit b i : length b = n -> 0 <= i < width -> b !! Z.to_nat (i / 64) = Some (element b (Z.to_nat (i / 64))).
Proof using Hwidth.
  intros L Hi. pose proof (bit_word i Hi) as Hlt. destruct (lookup_lt_is_Some_2 b (Z.to_nat (i / 64))) as [w E]; [lia |].
  unfold element. by rewrite nth_lookup, E.
Qed.

(** Well-formed bitmaps are equal when they have the same bits. *)
Lemma words_ext (b1 b2 : bitmap) :
  length b1 = length b2 -> Forall (is_word 64) b1 -> Forall (is_word 64) b2 ->
  (forall i, 0 <= i < 64 * Z.of_nat (length b1) -> test b1 i = test b2 i) -> b1 = b2.
Proof using.
  intros Hl H1 H2 Ht. apply (nth_ext _ _ 0 0 Hl). intros k Hk.
  apply (word_bits_eq 64); [by apply element_word | by apply element_word |].
  intros i Hi. specialize (Ht (64 * Z.of_nat k + i) ltac:(lia)). unfold test in Ht.
  replace (64 * Z.of_nat k + i) with (i + Z.of_nat k * 64) in Ht by lia.
  rewrite Z.div_add, Z_mod_plus_full, Z.div_small, Z.mod_small, Z.add_0_l, Nat2Z.id in Ht by lia. done.
Qed.

Lemma wf_ext b1 b2 : bitmap_wf b1 -> bitmap_wf b2 -> to_set b1 = to_set b2 -> b1 = b2.
Proof using Hwidth.
  intros [L1 W1 T1] [L2 W2 T2] E. apply words_ext; [congruence | done | done |].
  intros i Hi. destruct (decide (i < width)).
  - apply eq_true_iff_eq. pose proof (elem_of_to_set b1 i) as E1. rewrite E, elem_of_to_set in E1.
    assert (0 <= i < width) by lia. tauto.
  - rewrite T1, T2 by lia. done.
Qed.

(** ** Pointwise operations *)

Lemma test_zip_with (f : Z -> Z -> Z) (g : bool -> bool -> bool) b1 b2 i :
  length b1 = n -> length b2 = n -> 0 <= i < 64 * Z.of_nat n ->
  (forall x y j, 0 <= j < 64 -> Z.testbit (f x y) j = g (Z.testbit x j) (Z.testbit y j)) ->
  test (zip_with f b1 b2) i = g (test b1 i) (test b2 i).
Proof using.
  intros L1 L2 Hi Hf. unfold test. rewrite <- Hf by (apply Z.mod_pos_bound; lia). f_equal.
  unfold element. assert (Hk : (Z.to_nat (i / 64) < n)%nat) by (Z.to_euclidean_division_equations; lia).
  rewrite !nth_lookup, lookup_zip_with.
  destruct (lookup_lt_is_Some_2 b1 (Z.to_nat (i / 64))) as [x Hx]; [lia |].
  destruct (lookup_lt_is_Some_2 b2 (Z.to_nat (i / 64))) as [y Hy]; [lia |].
  by rewrite Hx, Hy.
Qed.

Lemma zip_with_wf (f : Z -> Z -> Z) (g : bool -> bool -> bool) b1 b2 :
  bitmap_wf b1 -> bitmap_wf b2 ->
  (forall x y, is_word 64 x -> is_word 64 y -> is_word 64 (f x y)) ->
  (forall x y j, 0 <= j < 64 -> Z.testbit (f x y) j = g (Z.testbit x j) (Z.testbit y j)) ->
  g false false = false -> bitmap_wf (zip_with f b1 b2).
Proof using Hwidth.
  intros [L1 W1 T1] [L2 W2 T2] Hw Hf Hg. split.
  - rewrite length_zip_with. lia.
  - clear L1 L2 T1 T2. revert b2 W2. induction W1 as [| x b1 Hx W1 IH]; intros b2 W2; [constructor |].
    destruct W2 as [| y b2 Hy W2]; constructor; auto.
  - intros i Hi. rewrite (test_zip_with f g) by (done || lia). by rewrite T1, T2 by lia.
Qed.

Ltac word_pointwise := intros; cbv beta; word_spec; try done; btauto.

Lemma land_word x y : is_word 64 x -> is_word 64 y -> is_word 64 (x &&& y).
Proof using. intros Hx Hy. apply is_word_land_l; [done | apply Hy]. Qed.

Lemma subtract_word x y : is_word 64 x -> is_word 64 y -> is_word 64 (x &&& wnot 64 y).
Proof using. intros Hx _. apply is_word_land_l; [done | by apply is_word_wnot]. Qed.

Lemma subtract_bits x y j : 0 <= j < 64 -> Z.testbit (x &&& wnot 64 y) j = Z.testbit x j && negb (Z.testbit y j).
Proof using. intros Hj. word_spec. by destruct (Z.ltb_spec j 64); [| lia]. Qed.

Lemma intersect_spec b1 b2 :
  bitmap_wf b1 -> bitmap_wf b2 -> bitmap_wf (intersect b1 b2) /\ to_set (intersect b1 b2) = to_set b1 ∩ to_set b2.
Proof using Hwidth.
  intros H1 H2. pose proof array_bounds. split.
  - apply (zip_with_wf Z.land andb); auto using land_word. intros; apply Z.land_spec.
  - apply set_eq. intros i. rewrite elem_of_intersection, !elem_of_to_set.
    split; intros Hi; (assert (0 <= i < width) by tauto);
      unfold intersect in *; rewrite (test_zip_with Z.land andb), andb_true_iff in * by
        (apply H1 || apply H2 || lia || (intros; apply Z.land_spec)); tauto.
Qed.

Lemma merge_spec b1 b2 :
  bitmap_wf b1 -> bitmap_wf b2 -> bitmap_wf (merge b1 b2) /\ to_set (merge b1 b2) = to_set b1 ∪ to_set b2.
Proof using Hwidth.
  intros H1 H2. pose proof array_bounds. split.
  - apply (zip_with_wf Z.lor orb); auto; intros; [by apply is_word_lor | apply Z.lor_spec].
  - apply set_eq. intros i. rewrite elem_of_union, !elem_of_to_set.
    destruct (decide (0 <= i < width)); [| tauto].
    unfold merge; rewrite (test_zip_with Z.lor orb), orb_true_iff by
        (apply H1 || apply H2 || lia || (intros; apply Z.lor_spec)); tauto.
Qed.

Lemma subtract_spec b1 b2 :
  bitmap_wf b1 -> bitmap_wf b2 -> bitmap_wf (subtract b1 b2) /\ to_set (subtract b1 b2) = to_set b1 ∖ to_set b2.
Proof using Hwidth.
  intros H1 H2. pose proof array_bounds. split.
  - apply (zip_with_wf _ (fun x y => x && negb y)); auto using subtract_word, subtract_bits.
  - apply set_eq. intros i. rewrite elem_of_difference, !elem_of_to_set.
    destruct (decide (0 <= i < width)); [| tauto].
    unfold subtract; rewrite (test_zip_with _ (fun x y => x && negb y)), andb_true_iff, negb_true_iff by
        (apply H1 || apply H2 || lia || apply subtract_bits).
    destruct (test b2 i); intuition congruence.
Qed.

(** ** Single bits *)

Lemma test_insert b i j w :
  length b = n -> 0 <= i < width -> 0 <= j ->
  test (<[Z.to_nat (i / 64) := w]> b) j = if i / 64 =? j / 64 then Z.testbit w (j mod 64) else test b j.
Proof using Hwidth.
  intros L Hi Hj. pose proof (bit_word i Hi) as Hlt. unfold test.
  rewrite element_insert by lia.
  assert (0 <= i / 64) by (apply Z.div_pos; lia). assert (0 <= j / 64) by (apply Z.div_pos; lia).
  destruct (Z.eqb_spec (i / 64) (j / 64)) as [-> |]; case_decide; done || lia.
Qed.

Lemma same_position i j : i / 64 = j / 64 -> (j mod 64 =? i mod 64) = (j =? i).
Proof using.
  intros E. pose proof (Z.div_mod i 64 ltac:(lia)). pose proof (Z.div_mod j 64 ltac:(lia)).
  destruct (Z.eqb_spec (j mod 64) (i mod 64)), (Z.eqb_spec j i); congruence || lia.
Qed.

Lemma insert_wf b i w :
  bitmap_wf b -> 0 <= i < width -> is_word 64 w ->
  (forall j, width <= j < 64 * Z.of_nat n -> i / 64 = j / 64 -> Z.testbit w (j mod 64) = false) ->
  bitmap_wf (<[Z.to_nat (i / 64) := w]> b).
Proof using Hwidth.
  intros [L W T] Hi Hw Ht. split.
  - by rewrite length_insert.
  - by apply Forall_insert.
  - intros j Hj. rewrite test_insert by (done || lia).
    destruct (Z.eqb_spec (i / 64) (j / 64)); [by apply Ht | by apply T].
Qed.

Lemma set_bit_spec b i :
  bitmap_wf b -> 0 <= i < width ->
  refines (set_bit dbug width b i) ({[i]} ∪ to_set b).
Proof using Hwidth.
  intros Hb Hi. destruct (index_mask i Hi) as (E & M). unfold set_bit. rewrite E. cbn [mbind option_bind]. rewrite word_of_bit by (apply Hb || done). cbn [mbind option_bind]. rewrite M. cbn [mbind option_bind].
  pose proof (Z.mod_pos_bound i 64 eq_refl) as Him.
  assert (Hbit : forall j, 0 <= j -> i / 64 = j / 64 ->
    Z.testbit (element b (Z.to_nat (i / 64)) ||| 1 <<< (i mod 64)) (j mod 64) = test b j || (j =? i)).
  { intros j Hj Hij. pose proof (Z.mod_pos_bound j 64 eq_refl). word_spec. rewrite same_position by done.
    unfold test. by rewrite Hij. }
  eexists. split; [done |]. split.
  - apply insert_wf; try done.
    + apply is_word_lor; [lia | apply element_word, Hb | by apply is_word_shiftl1].
    + intros j Hj Hij. rewrite Hbit, (wf_tail b) by (done || lia). destruct (Z.eqb_spec j i); [lia | done].
  - apply set_eq. intros j. rewrite elem_of_union, elem_of_singleton, !elem_of_to_set.
    destruct (decide (0 <= j < width)); [| split; [tauto | intros [-> |]; tauto]].
    rewrite test_insert by (apply Hb || lia).
    destruct (Z.eqb_spec (i / 64) (j / 64)) as [Hij | Hij].
    + rewrite Hbit by (done || lia). rewrite orb_true_iff, Z.eqb_eq. tauto.
    + assert (j <> i) by congruence. tauto.
Qed.

Lemma clear_bit_spec b i :
  bitmap_wf b -> 0 <= i < width ->
  refines (clear_bit dbug width b i) (to_set b ∖ {[i]}).
Proof using Hwidth.
  intros Hb Hi. destruct (index_mask i Hi) as (E & M). unfold clear_bit. rewrite E. cbn [mbind option_bind]. rewrite word_of_bit by (apply Hb || done). cbn [mbind option_bind]. rewrite M. cbn [mbind option_bind].
  pose proof (Z.mod_pos_bound i 64 eq_refl) as Him.
  assert (Hbit : forall j, 0 <= j -> i / 64 = j / 64 ->
    Z.testbit (element b (Z.to_nat (i / 64)) &&& wnot 64 (1 <<< (i mod 64))) (j mod 64) = test b j && negb (j =? i)).
  { intros j Hj Hij. pose proof (Z.mod_pos_bound j 64 eq_refl). rewrite subtract_bits, testbit_shiftl1, same_position by (done || lia).
    unfold test. by rewrite Hij. }
  eexists. split; [done |]. split.
  - apply insert_wf; try done.
    + apply subtract_word; [apply element_word, Hb | by apply is_word_shiftl1].
    + intros j Hj Hij. by rewrite Hbit, (wf_tail b) by (done || lia).
  - apply set_eq. intros j. rewrite elem_of_difference, elem_of_singleton, !elem_of_to_set.
    destruct (decide (0 <= j < width)); [| tauto].
    rewrite test_insert by (apply Hb || lia).
    destruct (Z.eqb_spec (i / 64) (j / 64)) as [Hij | Hij].
    + rewrite Hbit by (done || lia). rewrite andb_true_iff, negb_true_iff, Z.eqb_neq. tauto.
    + assert (j <> i) by congruence. tauto.
Qed.

Lemma is_set_spec b i : bitmap_wf b -> 0 <= i < width -> is_set dbug width b i = Some (bool_decide (i ∈ to_set b)).
Proof using Hwidth.
  intros Hb Hi. destruct (index_mask i Hi) as (E & M). unfold is_set. rewrite E. cbn [mbind option_bind].
  rewrite word_of_bit by (apply Hb || done). cbn [mbind option_bind]. rewrite M. cbn [mbind option_bind]. f_equal.
  pose proof (Z.mod_pos_bound i 64 eq_refl). rewrite land_single_bit, negb_involutive by lia.
  apply eq_true_iff_eq. rewrite bool_decide_eq_true, elem_of_to_set. unfold test. tauto.
Qed.

(** ** Prefixes *)

(** The word at index [k] of the bitmap of the first [p] bits. *)
Definition prefix_word (p : Z) (k : nat) : Z :=
  if Z.of_nat k <? p / 64 then ALL_BITS_SET
  else if Z.of_nat k =? p / 64 then Z.ones (p mod 64) else 0.

Definition prefix_words (p : Z) : bitmap := prefix_word p <$> seq 0 n.

Lemma all_bits_ones : ALL_BITS_SET = Z.ones 64.
Proof using. done. Qed.

Lemma prefix_word_word p k : is_word 64 (prefix_word p k).
Proof using.
  unfold prefix_word. destruct (_ <? _); [done |]. destruct (_ =? _); [| done].
  pose proof (Z.mod_pos_bound p 64 eq_refl). rewrite ones_pow2. unfold is_word.
  pose proof (Z.pow_le_mono_r 2 (p mod 64) 64). lia.
Qed.

Lemma prefix_word_bit p i : 0 <= p -> 0 <= i -> Z.testbit (prefix_word p (Z.to_nat (i / 64))) (i mod 64) = (i <? p).
Proof using.
  intros Hp Hi. unfold prefix_word. rewrite Z2Nat.id by (apply Z.div_pos; lia).
  pose proof (Z.mod_pos_bound i 64 eq_refl). pose proof (Z.mod_pos_bound p 64 eq_refl).
  pose proof (Z.div_mod i 64). pose proof (Z.div_mod p 64).
  destruct (Z.ltb_spec (i / 64) (p / 64)).
  - rewrite all_bits_ones, Z.ones_spec_low by lia. symmetry. apply Z.ltb_lt. lia.
  - destruct (Z.eqb_spec (i / 64) (p / 64)).
    + rewrite Z.testbit_ones by lia. destruct (Z.leb_spec 0 (i mod 64)); [| lia].
      simpl. apply eq_true_iff_eq. rewrite !Z.ltb_lt. lia.
    + rewrite Z.bits_0. symmetry. apply Z.ltb_ge. lia.
Qed.

Lemma element_fmap_seq (f : nat -> Z) k : (k < n)%nat -> element (f <$> seq 0 n) k = f k.
Proof using. intros Hk. unfold element. by rewrite nth_lookup, list_lookup_fmap, lookup_seq_lt by lia. Qed.

Lemma test_prefix_words p i : 0 <= p -> 0 <= i < 64 * Z.of_nat n -> test (prefix_words p) i = (i <? p).
Proof using.
  intros Hp Hi. unfold test, prefix_words. rewrite element_fmap_seq; [by apply prefix_word_bit; lia |].
  Z.to_euclidean_division_equations; lia.
Qed.

Lemma prefix_words_wf p : 0 <= p <= width -> bitmap_wf (prefix_words p).
Proof using Hwidth.
  intros Hp. split.
  - unfold prefix_words. by rewrite length_fmap, length_seq.
  - apply Forall_fmap, Forall_forall. intros k _. apply prefix_word_word.
  - intros i Hi. rewrite test_prefix_words by lia. apply Z.ltb_ge. lia.
Qed.

Lemma last_element_mask_ones p :
  0 <= p <= width -> p mod 64 <> 0 ->
  last_element_mask dbug width p = if dbug && (width <=? p) then None else Some (Z.ones (p mod 64)).
Proof using Hwidth.
  intros Hp Hm. rewrite ones_pow2. unfold last_element_mask, bit_mask, debug_assert, BITS_PER_ELEMENT. pose proof array_bounds.
  rewrite (proj2 (Z.eqb_neq _ _) Hm), andb_false_r. cbn [mbind option_bind]. rewrite <- Z.leb_antisym.
  destruct (dbug && (width <=? p)); [done |]. cbn [mbind option_bind]. rewrite !Z.shiftl_1_l. destruct (Nat.eqb_spec n 1) as [E |]; [| done].
  assert (p < 64) by (apply Z.nle_gt; intros Hle; apply Hm; assert (p = 64) as -> by lia; done).
  rewrite (proj2 (Z.ltb_lt p 64)), (Z.mod_small p) by lia. done.
Qed.

(** The word of the array that holds only some of the bits, and the zeros behind it. *)
Definition prefix_rest (p : Z) : bitmap :=
  let partial := if p mod 64 =? 0 then [] else [Z.ones (p mod 64)] in
  partial ++ replicate (n - (Z.to_nat (p / 64) + length partial)) 0.

Lemma prefix_words_parts p : 0 <= p <= width -> prefix_words p = replicate (Z.to_nat (p / 64)) ALL_BITS_SET ++ prefix_rest p.
Proof using Hwidth.
  intros Hp. pose proof array_bounds. unfold prefix_words, prefix_rest. set (idx := Z.to_nat (p / 64)). set (partial := if p mod 64 =? 0 then [] else _).
  assert (Hidx : Z.of_nat idx = p / 64) by (apply Z2Nat.id, Z.div_pos; lia).
  assert (Hl : (idx + length partial <= n)%nat).
  { unfold partial. destruct (Z.eqb_spec (p mod 64) 0); simpl; Z.to_euclidean_division_equations; lia. }
  replace n with (idx + (length partial + (n - (idx + length partial))))%nat at 1 by lia.
  rewrite !seq_app, !fmap_app. f_equal; [| f_equal].
  - apply fmap_seq_const. intros k Hk. unfold prefix_word. destruct (Z.ltb_spec (Z.of_nat k) (p / 64)); [done | lia].
  - unfold partial. destruct (Z.eqb_spec (p mod 64) 0) as [E | E]; [done |]. cbn [length seq fmap list_fmap].
    unfold prefix_word. rewrite Nat.add_0_l, Hidx, Z.ltb_irrefl, Z.eqb_refl. done.
  - apply fmap_seq_const. intros k Hk. unfold prefix_word.
    destruct (Z.ltb_spec (Z.of_nat k) (p / 64)); [lia |]. destruct (Z.eqb_spec (Z.of_nat k) (p / 64)) as [Ek | Ek]; [| done].
    revert Hk. unfold partial. destruct (Z.eqb_spec (p mod 64) 0) as [-> | E]; [done | simpl; lia].
Qed.

(** [last_element_mask] is called for a part of a word only. *)
Lemma mask_stops p : 0 <= p <= width -> p mod 64 <> 0 -> dbug && (width <=? p) = stops_at_end && (width <=? p).
Proof using.
  intros Hp Em. unfold stops_at_end. destruct (Z.leb_spec width p); [| by rewrite !andb_false_r].
  assert (E : (width mod BITS_PER_ELEMENT =? 0) = false) by (apply Z.eqb_neq; by replace width with p by lia). by rewrite E, !andb_true_r.
Qed.

Lemma whole_goes_on p : 0 <= p <= width -> p mod 64 = 0 -> stops_at_end && (width <=? p) = false.
Proof using.
  intros Hp Em. unfold stops_at_end. destruct (Z.leb_spec width p); [| by rewrite !andb_false_r].
  assert (E : (width mod BITS_PER_ELEMENT =? 0) = true) by (apply Z.eqb_eq; by replace width with p by lia). by rewrite E, !andb_false_r.
Qed.

Lemma set_prefix_words p : 0 <= p ->
  set_prefix dbug width p = if stops_at_end && (width <=? p) then None else Some (prefix_words (Z.min p width)).
Proof using Hwidth.
  intros Hp. unfold set_prefix. assert (E : (if width <? p then width else p) = Z.min p width)
    by (destruct (Z.ltb_spec width p); lia). rewrite E. clear E.
  assert (Ew : (width <=? p) = (width <=? Z.min p width)) by (apply eq_true_iff_eq; rewrite !Z.leb_le; lia).
  rewrite Ew. assert (Hq : 0 <= Z.min p width <= width) by lia. clear Ew. set (q := Z.min p width) in *. clearbody q.
  rewrite prefix_words_parts by done. unfold prefix_rest, BITS_PER_ELEMENT. destruct (Z.eqb_spec (q mod 64) 0) as [E | E]; cbn [mbind option_bind].
  - by rewrite whole_goes_on.
  - rewrite last_element_mask_ones, mask_stops by done. by destruct (_ && _).
Qed.

Lemma to_set_prefix_words p : 0 <= p <= width -> to_set (prefix_words p) = list_to_set (seqZ 0 p).
Proof using Hwidth.
  intros Hp. pose proof array_bounds. apply set_eq. intros i. rewrite elem_of_to_set, elem_of_list_to_set, elem_of_seqZ.
  split.
  - intros [Hi Ht]. rewrite test_prefix_words in Ht by lia. apply Z.ltb_lt in Ht. lia.
  - intros Hi. split; [lia |]. rewrite test_prefix_words by lia. apply Z.ltb_lt. lia.
Qed.

(** The bitmap of the first [p] bits, where the debug build does not stop. *)
Lemma prefix_refines (c : bool) p : 0 <= p <= width ->
  (if c then True else refines (if c then None else Some (prefix_words p)) (list_to_set (seqZ 0 p))).
Proof using Hwidth. intros Hp. destruct c; [done |]. eexists. split; [done |]. split; [by apply prefix_words_wf | by apply to_set_prefix_words]. Qed.

Lemma set_prefix_spec p : 0 <= p ->
  if stops_at_end && (width <=? p) then set_prefix dbug width p = None else refines (set_prefix dbug width p) (list_to_set (seqZ 0 (Z.min p width))).
Proof using Hwidth.
  intros Hp. rewrite set_prefix_words by done. pose proof (prefix_refines (stops_at_end && (width <=? p)) (Z.min p width) ltac:(lia)) as G.
  by destruct (_ && _).
Qed.

Lemma set_all_words : set_all dbug width = if stops_at_end then None else Some (prefix_words width).
Proof using Hwidth.
  unfold set_all. destruct (Z.eqb_spec (width mod BITS_PER_ELEMENT) 0) as [E | E]; cbn [negb].
  - assert (Hn : Z.of_nat n = width / 64) by (unfold ARRAY_ELEMENTS, BITS_PER_ELEMENT in *; rewrite Z2Nat.id by (apply Z.div_pos; lia); Z.to_euclidean_division_equations; lia).
    assert (Hs : stops_at_end = false) by (unfold stops_at_end; rewrite E; apply andb_false_r). rewrite Hs.
    transitivity (Some (replicate n ALL_BITS_SET)).
    + destruct (Nat.ltb_spec 1 n); [done |]. pose proof array_pos. replace n with 1%nat by lia. done.
    + f_equal. symmetry. apply fmap_seq_const. intros k Hk. unfold prefix_word. destruct (Z.ltb_spec (Z.of_nat k) (width / 64)); [done | lia].
  - rewrite set_prefix_words, Z.min_id, Z.leb_refl, andb_true_r by lia. done.
Qed.

Lemma set_all_spec : if stops_at_end then set_all dbug width = None else refines (set_all dbug width) (list_to_set (seqZ 0 width)).
Proof using Hwidth. rewrite set_all_words. pose proof (prefix_refines stops_at_end width ltac:(lia)) as G. by destruct stops_at_end. Qed.

Lemma clear_all_spec : bitmap_wf (clear_all width) /\ to_set (clear_all width) = ∅.
Proof using Hwidth.
  assert (E : clear_all width = prefix_words 0).
  { symmetry. apply fmap_seq_const. intros k Hk. unfold prefix_word. change (0 / 64) with 0.
    destruct (Z.ltb_spec (Z.of_nat k) 0); [lia |]. by destruct (Z.of_nat k =? 0). }
  rewrite E. split; [apply prefix_words_wf; lia | by rewrite to_set_prefix_words by lia].
Qed.

Lemma full_words_spec idx b : (idx <= length b)%nat -> full_words idx b = Some (forallb (fun w => w =? ALL_BITS_SET) (take idx b)).
Proof using.
  revert b. induction idx as [| idx IH]; intros [| w b] Hl; cbn in Hl |- *; try done; try lia.
  destruct (w =? ALL_BITS_SET); cbn [negb andb]; [apply IH; lia | done].
Qed.

Lemma prefix_words_full p b : 0 <= p <= width -> length b = n ->
  let full := forallb (fun w => w =? ALL_BITS_SET) (take (Z.to_nat (p / 64)) b) in
  b = prefix_words p <-> full = true /\ drop (Z.to_nat (p / 64)) b = prefix_rest p.
Proof using Hwidth.
  intros Hp Hl full. pose proof array_bounds. assert (Hidx : (Z.to_nat (p / 64) <= n)%nat) by (Z.to_euclidean_division_equations; lia).
  rewrite prefix_words_parts by done. rewrite split_at_iff by (rewrite length_replicate; lia). rewrite length_replicate.
  unfold full. rewrite forallb_eqb_replicate, length_take, Nat.min_l by lia. done.
Qed.

(** The assertion of [last_element_mask] is reached only behind the full words. *)
Lemma is_prefix_words b p : bitmap_wf b -> 0 <= p <= width ->
  let full := forallb (fun w => w =? ALL_BITS_SET) (take (Z.to_nat (p / 64)) b) in
  is_prefix dbug width b p = if stops_at_end && (width <=? p) && full then None else Some (bool_decide (b = prefix_words p)).
Proof using Hwidth.
  intros Hb Hp full. pose proof array_bounds. pose proof (wf_length b Hb) as Hl.
  pose proof (prefix_words_full p b Hp Hl) as Hsplit. fold full in Hsplit. cbv zeta in Hsplit. unfold is_prefix, debug_assert, BITS_PER_ELEMENT.
  rewrite (proj2 (Z.leb_le p width)), andb_false_r by lia. cbn [mbind option_bind].
  rewrite full_words_spec by (Z.to_euclidean_division_equations; lia). cbn [mbind option_bind]. fold full.
  destruct full; cbn [negb]; rewrite ?andb_true_r, ?andb_false_r; [| by rewrite bool_decide_eq_false_2 by (rewrite Hsplit; by intros [? _])].
  unfold prefix_rest in Hsplit. destruct (Z.eqb_spec (p mod 64) 0) as [Em | Em]; cbn [negb mbind option_bind length app] in *.
  - rewrite whole_goes_on by done. f_equal. apply eq_true_iff_eq. rewrite bool_decide_eq_true, Hsplit, forallb_eqb_replicate, length_drop.
    rewrite Nat.add_0_r in Hsplit |- *. rewrite Hl. tauto.
  - assert (Hlt : (Z.to_nat (p / 64) < length b)%nat) by (Z.to_euclidean_division_equations; lia).
    destruct (lookup_lt_is_Some_2 b _ Hlt) as [x Hx]. rewrite Hx. cbn [mbind option_bind]. rewrite last_element_mask_ones, mask_stops by done.
    destruct (stops_at_end && _); [done |]. cbn [mbind option_bind]. rewrite (drop_S b x _ Hx) in Hsplit.
    destruct (Z.eqb_spec x (Z.ones (p mod 64))) as [-> | Hne]; cbn [negb];
      [| rewrite bool_decide_eq_false_2; [done |]; rewrite Hsplit; intros [_ [= ? _]]; done].
    f_equal. apply eq_true_iff_eq. rewrite bool_decide_eq_true, Hsplit, forallb_eqb_replicate, length_drop.
    replace (n - (Z.to_nat (p / 64) + 1))%nat with (length b - S (Z.to_nat (p / 64)))%nat by lia. split; [by intros -> | by intros [_ [= ->]]].
Qed.

Lemma is_prefix_spec b p : bitmap_wf b -> 0 <= p <= width ->
  (stops_at_end = false \/ p < width -> is_prefix dbug width b p = Some (bool_decide (to_set b = list_to_set (seqZ 0 p)))) /\
  (stops_at_end = true -> to_set b = list_to_set (seqZ 0 width) -> is_prefix dbug width b width = None).
Proof using Hwidth.
  intros Hb Hp. split.
  - intros Hs. rewrite is_prefix_words by done. assert (Hc : stops_at_end && (width <=? p) = false).
    { destruct Hs as [-> | Hs]; [done |]. rewrite (proj2 (Z.leb_gt width p)) by done. apply andb_false_r. }
    rewrite Hc. cbn [andb]. f_equal. apply bool_decide_ext. rewrite <- to_set_prefix_words by done.
    split; [by intros -> | apply wf_ext; [done | by apply prefix_words_wf]].
  - intros Hs E. rewrite <- to_set_prefix_words in E by lia. apply wf_ext in E; [subst b | done | apply prefix_words_wf; lia].
    rewrite is_prefix_words, Hs, Z.leb_refl by (done || lia).
    pose proof (prefix_words_full width (prefix_words width) ltac:(lia) (wf_length _ (prefix_words_wf width ltac:(lia)))) as [G _].
    destruct (G eq_refl) as [-> _]. done.
Qed.

(** ** Comparisons *)

Lemma is_clear_all_spec b : bitmap_wf b -> is_clear_all b = true <-> to_set b = ∅.
Proof using Hwidth.
  intros Hb. destruct clear_all_spec as [Hc Hs]. rewrite <- Hs. unfold is_clear_all.
  rewrite forallb_eqb_replicate, (wf_length b) by done. split; [by intros -> | by apply wf_ext].
Qed.

Lemma is_subset_alt b1 b2 : is_subset b1 b2 = is_clear_all (subtract b1 b2).
Proof using.
  unfold is_subset, is_clear_all, subtract. revert b2.
  induction b1 as [| x b1 IH]; intros [| y b2]; simpl; [done | done | done | by rewrite IH].
Qed.

Lemma is_overlapping_alt b1 b2 : is_overlapping b1 b2 = negb (is_clear_all (intersect b1 b2)).
Proof using.
  unfold is_overlapping, is_clear_all, intersect. revert b2.
  induction b1 as [| x b1 IH]; intros [| y b2]; simpl; [done | done | done |].
  by rewrite IH, negb_andb.
Qed.

Lemma is_subset_spec b1 b2 : bitmap_wf b1 -> bitmap_wf b2 -> is_subset b1 b2 = true <-> to_set b1 ⊆ to_set b2.
Proof using Hwidth.
  intros H1 H2. destruct (subtract_spec b1 b2 H1 H2) as [Hw Hs].
  rewrite is_subset_alt, is_clear_all_spec, Hs by done. split; [| apply subseteq_empty_difference_L].
  intros E x Hx. destruct (decide (x ∈ to_set b2)); [done | exfalso].
  apply (not_elem_of_empty (C := gset Z) x). rewrite <- E. by apply elem_of_difference.
Qed.

Lemma is_overlapping_spec b1 b2 :
  bitmap_wf b1 -> bitmap_wf b2 -> is_overlapping b1 b2 = true <-> to_set b1 ∩ to_set b2 <> ∅.
Proof using Hwidth.
  intros H1 H2. destruct (intersect_spec b1 b2 H1 H2) as [Hw Hs].
  rewrite is_overlapping_alt, negb_true_iff, <- Hs, <- (is_clear_all_spec (intersect b1 b2)) by done.
  by rewrite not_true_iff_false.
Qed.

Lemma bitmap_eq_spec b1 b2 : bitmap_wf b1 -> bitmap_wf b2 -> bitmap_eq b1 b2 = true <-> to_set b1 = to_set b2.
Proof using Hwidth.
  intros H1 H2. unfold bitmap_eq. rewrite (bool_decide_eq_true (b1 = b2)).
  split; [by intros -> | by apply wf_ext].
Qed.

(** ** Intersection with a word *)

(** The array that [intersect_and_pad] leaves where it does not stop. *)
Definition padded (b : bitmap) (m : Z) (pad : bool) : bitmap :=
  (fun k => if (k =? 0)%nat then element b 0 &&& m else if pad then prefix_word width k else 0) <$> seq 0 n.
(** More than one word and a part of a word: then the mask of the last word is needed. *)
Definition pad_stops (pad : bool) : bool := stops_at_end && (1 <? n)%nat && pad.

Lemma intersect_and_pad_words b m pad : intersect_and_pad dbug width b m pad = if pad_stops pad then None else Some (padded b m pad).
Proof using Hwidth.
  pose proof array_bounds. pose proof array_pos as Hn0. unfold intersect_and_pad, pad_stops.
  set (l := (element b 0 &&& m) :: _).
  assert (Ll : length l = n) by (unfold l; cbn [length]; rewrite length_replicate; lia).
  assert (El : forall k, (k < n)%nat -> l !! k = Some (if (k =? 0)%nat then element b 0 &&& m else if pad then ALL_BITS_SET else 0)).
  { intros k Hk. unfold l. destruct k as [| k]; [done |]. cbn [lookup list_lookup Nat.eqb]. apply lookup_replicate_2. lia. }
  assert (Elt : forall k, (k < n)%nat -> padded b m pad !! k = Some (if (k =? 0)%nat then element b 0 &&& m else if pad then prefix_word width k else 0)).
  { intros k Hk. unfold padded. by rewrite list_lookup_fmap, lookup_seq_lt by lia. }
  assert (Lp : length (padded b m pad) = n) by (unfold padded; by rewrite length_fmap, length_seq).
  destruct ((1 <? n)%nat && negb (width mod BITS_PER_ELEMENT =? 0) && pad) eqn:Ec.
  - rewrite !andb_true_iff, negb_true_iff, Z.eqb_neq, Nat.ltb_lt in Ec. destruct Ec as [[Hn Em] ->]. unfold BITS_PER_ELEMENT in Em.
    rewrite last_element_mask_ones, mask_stops, Z.leb_refl, andb_true_r by (done || lia).
    assert (Hn' : (1 <? n)%nat = true) by (by apply Nat.ltb_lt). rewrite Hn', !andb_true_r. destruct stops_at_end; [done |]. cbn [mbind option_bind]. f_equal.
    apply (list_eq_same_length _ _ n); rewrite ?length_insert; [done | done |]. intros k x y Hk Hx. rewrite Elt by done. intros [= <-]. revert Hx.
    destruct (decide (k = (n - 1)%nat)) as [-> |].
    + rewrite list_lookup_insert_eq by lia. intros [= <-]. destruct (Nat.eqb_spec (n - 1) 0) as [| Hz]; [lia |]. unfold prefix_word.
      destruct (Z.ltb_spec (Z.of_nat (n - 1)) (width / 64)), (Z.eqb_spec (Z.of_nat (n - 1)) (width / 64)); try done; Z.to_euclidean_division_equations; lia.
    + rewrite list_lookup_insert_ne, El by done. intros [= <-]. destruct (k =? 0)%nat; [done |]. unfold prefix_word.
      destruct (Z.ltb_spec (Z.of_nat k) (width / 64)); [done |]. Z.to_euclidean_division_equations; lia.
  - assert (Hs : stops_at_end && (1 <? n)%nat && pad = false).
    { unfold stops_at_end. destruct dbug, (negb (width mod BITS_PER_ELEMENT =? 0)), (1 <? n)%nat, pad; done. }
    rewrite Hs. f_equal. apply (list_eq_same_length _ _ n); [done | done |]. intros k x y Hk. rewrite El, Elt by done. intros [= <-] [= <-].
    destruct (Nat.eqb_spec k 0) as [| Hz]; [done |]. destruct pad; [| done]. rewrite andb_true_r, andb_false_iff, Nat.ltb_ge, negb_false_iff, Z.eqb_eq in Ec. unfold BITS_PER_ELEMENT in Ec.
    unfold prefix_word. destruct (Z.ltb_spec (Z.of_nat k) (width / 64)); [done |]. destruct Ec as [Ec | Ec]; Z.to_euclidean_division_equations; lia.
Qed.

(** Bits of the first word are intersected; the others are replaced by the padding. *)
Lemma test_padded b m pad i :
  0 <= i < 64 * Z.of_nat n -> test (padded b m pad) i = if i <? 64 then test b i && Z.testbit m i else pad && (i <? width).
Proof using Hwidth.
  intros Hi. unfold test at 1, padded. rewrite element_fmap_seq by (Z.to_euclidean_division_equations; lia).
  destruct (Z.ltb_spec i 64).
  - unfold test. rewrite (Z.div_small i), (Z.mod_small i) by lia. cbn [Z.to_nat Nat.eqb]. apply Z.land_spec.
  - destruct (Nat.eqb_spec (Z.to_nat (i / 64)) 0); [Z.to_euclidean_division_equations; lia |].
    destruct pad; [apply prefix_word_bit; lia | apply Z.bits_0].
Qed.

Lemma padded_wf b m pad : bitmap_wf b -> is_word 64 m -> bitmap_wf (padded b m pad).
Proof using Hwidth.
  intros Hb Hm. pose proof array_bounds. split; [unfold padded; by rewrite length_fmap, length_seq | |].
  - apply Forall_fmap, Forall_forall. intros k _. cbn. destruct (k =? 0)%nat; [apply land_word; [apply element_word, Hb | done] |].
    destruct pad; [apply prefix_word_word | by apply is_word_0].
  - intros i Hi. rewrite test_padded by lia. destruct (Z.ltb_spec i 64).
    + by rewrite (wf_tail b) by (done || lia).
    + destruct (Z.ltb_spec i width); [lia | apply andb_false_r].
Qed.

Lemma intersect_ulonglong_spec b m :
  bitmap_wf b -> is_word 64 m ->
  exists r, intersect_ulonglong dbug width b m = Some r /\ bitmap_wf r /\
    forall i, i ∈ to_set r <-> i ∈ to_set b /\ i < 64 /\ Z.testbit m i = true.
Proof using Hwidth.
  intros Hb Hm. pose proof array_bounds. unfold intersect_ulonglong. rewrite intersect_and_pad_words. unfold pad_stops. rewrite andb_false_r.
  eexists. split; [done |]. split; [by apply padded_wf |]. intros i. rewrite !elem_of_to_set. destruct (decide (0 <= i < width)); [| tauto].
  rewrite test_padded by lia. destruct (Z.ltb_spec i 64).
  - rewrite andb_true_iff. tauto.
  - split; [intros [_ ?]; done | lia].
Qed.

Lemma intersect_extended_spec b m :
  bitmap_wf b -> is_word 64 m ->
  if pad_stops (Z.testbit m 63) then intersect_extended dbug width b m = None
  else exists r, intersect_extended dbug width b m = Some r /\ bitmap_wf r /\
    forall i, i ∈ to_set r <-> (i < 64 /\ i ∈ to_set b /\ Z.testbit m i = true) \/ (64 <= i < width /\ Z.testbit m 63 = true).
Proof using Hwidth.
  intros Hb Hm. pose proof array_bounds. unfold intersect_extended. rewrite land_single_bit, negb_involutive by lia.
  rewrite intersect_and_pad_words. destruct (pad_stops _); [done |].
  eexists. split; [done |]. split; [by apply padded_wf |]. intros i. rewrite !elem_of_to_set. destruct (decide (0 <= i < width)); [| lia].
  rewrite test_padded by lia. destruct (Z.ltb_spec i 64), (Z.ltb_spec i width); try lia;
    rewrite andb_true_iff; intuition lia.
Qed.

(** ** Enumerating the bits *)

(** The positions of the bits of one word, and of a list of words of which the
    first is at position [off]. *)
Definition bits_of (w : Z) : list Z := filter (fun i => Z.testbit w i = true) (seqZ 0 64).

Fixpoint words_bits (off : Z) (ws : list Z) : list Z :=
  match ws with
  | [] => []
  | w :: ws => (Z.add off <$> bits_of w) ++ words_bits (off + 64) ws
  end.

Lemma filter_fmap_shift (P : Z -> Prop) `{forall x, Decision (P x)} k (l : list Z) :
  filter P (Z.add k <$> l) = Z.add k <$> filter (fun i => P (k + i)) l.
Proof using. induction l as [| x l IH]; [done |]. rewrite fmap_cons, !filter_cons. case_decide; [by rewrite fmap_cons, IH | done]. Qed.

Lemma words_bits_filter k ws :
  0 <= k ->
  words_bits (64 * k) ws =
  filter (fun i => Z.testbit (nth (Z.to_nat (i / 64 - k)) ws 0) (i mod 64) = true) (seqZ (64 * k) (64 * Z.of_nat (length ws))).
Proof using.
  revert k. induction ws as [| w ws IH]; intros k Hk; [done |]. cbn [words_bits length].
  replace (64 * Z.of_nat (S (length ws))) with (64 + 64 * Z.of_nat (length ws)) by lia.
  rewrite seqZ_app, filter_app by lia. f_equal.
  - rewrite <- (Z.add_0_r (64 * k)) at 2. rewrite <- fmap_add_seqZ, filter_fmap_shift. f_equal.
    apply filter_ext_on. intros i Hi%elem_of_seqZ.
    replace ((64 * k + i) / 64) with k by (Z.to_euclidean_division_equations; lia).
    replace ((64 * k + i) mod 64) with i by (Z.to_euclidean_division_equations; lia).
    by rewrite Z.sub_diag.
  - replace (64 * k + 64) with (64 * (k + 1)) by lia. rewrite IH by lia. apply filter_ext_on.
    intros i Hi%elem_of_seqZ.
    replace (Z.to_nat (i / 64 - k)) with (S (Z.to_nat (i / 64 - (k + 1)))) by (Z.to_euclidean_division_equations; lia). done.
Qed.

Definition bits_list (b : bitmap) : list Z := filter (fun i => test b i = true) (seqZ 0 width).

Lemma words_bits_list b : bitmap_wf b -> words_bits 0 b = bits_list b.
Proof using Hwidth.
  intros Hb. pose proof array_bounds. change (words_bits 0 b) with (words_bits (64 * 0) b).
  rewrite (words_bits_filter 0 b), (wf_length b Hb) by done. change (64 * 0) with 0.
  replace (64 * Z.of_nat n) with (width + (64 * Z.of_nat n - width)) by lia.
  rewrite seqZ_app, filter_app by lia. rewrite (filter_nil_on _ (seqZ (0 + width) _)).
  - rewrite app_nil_r. apply filter_ext_on. intros i Hi. by rewrite Z.sub_0_r.
  - intros i Hi%elem_of_seqZ E. rewrite Z.sub_0_r in E. pose proof (wf_tail b Hb i) as T.
    unfold test, element in T. rewrite T in E by lia. done.
Qed.

Lemma bits_list_size b : Z.of_nat (size (to_set b)) = Z.of_nat (length (bits_list b)).
Proof using.
  unfold to_set. fold (bits_list b). rewrite size_list_to_set; [done |]. apply NoDup_filter, NoDup_seqZ.
Qed.

Lemma bits_set_words b off :
  Forall (is_word 64) b -> 64 * Z.of_nat (length b) < 2 ^ 32 -> bits_set b = Z.of_nat (length (words_bits off b)).
Proof using.
  intros Hw Hb. unfold bits_set.
  enough (H : forall acc, 0 <= acc -> acc + 64 * Z.of_nat (length b) < 2 ^ 32 ->
    foldl (fun res w => u32 (res + my_count_bits w)) acc b = acc + Z.of_nat (length (words_bits off b))) by (apply H; lia).
  clear Hb. revert off. induction Hw as [| w b Hw _ IH]; intros off acc Ha Hb; [simpl; lia |].
  cbn [foldl words_bits length] in *. rewrite length_app, length_fmap.
  assert (E : my_count_bits w = Z.of_nat (length (bits_of w))).
  { transitivity (bit_count 64 w); [by apply count_bits_bit_count | done]. }
  pose proof (bit_count_bounds 64 w ltac:(lia)) as Hc. change (bit_count 64 w) with (Z.of_nat (length (bits_of w))) in Hc.
  rewrite E. unfold u32. rewrite wrap_small by (unfold is_word; lia). rewrite (IH (off + 64)) by lia. lia.
Qed.

Lemma bits_set_spec b : bitmap_wf b -> width + 64 <= 2 ^ 32 -> bits_set b = Z.of_nat (size (to_set b)).
Proof using Hwidth.
  intros Hb Hw. pose proof array_bounds. rewrite bits_list_size, <- words_bits_list by done.
  apply bits_set_words; [apply Hb |]. rewrite (wf_length b Hb). lia.
Qed.

(** ** The iterator *)

Section iterator.
Context (ffb : Z -> Z) `{!FirstBit ffb}.

Lemma bits_of_next w : is_word 64 w -> w <> 0 -> bits_of w = ffb w :: bits_of (snd (next_bit ffb w)).
Proof using FirstBit0.
  intros Hw Hnz. destruct (first_bit_set w Hw Hnz) as [Hb Ht].
  unfold next_bit. destruct (Z.eqb_spec w 0); [done |]. cbn [snd]. unfold bits_of.
  assert (Es : seqZ 0 64 = seqZ 0 (ffb w) ++ ffb w :: seqZ (ffb w + 1) (63 - ffb w)).
  { replace 64 with (ffb w + Z.succ (63 - ffb w)) by lia. rewrite seqZ_app, (seqZ_cons (0 + _)) by lia.
    do 2 f_equal; f_equal; lia. }
  rewrite Es, !filter_app.
  assert (E1 : forall i, i ∈ seqZ 0 (ffb w) -> Z.testbit w i = false).
  { intros i Hi%elem_of_seqZ. apply (first_bit_least w i Hw). lia. }
  rewrite (filter_nil_on _ (seqZ 0 (ffb w))) by (intros i Hi; by rewrite (E1 i Hi)).
  rewrite (filter_nil_on _ (seqZ 0 (ffb w))).
  2: { intros i Hi E. pose proof (E1 i Hi) as E0. apply elem_of_seqZ in Hi. rewrite Z.land_spec, E0 in E. done. }
  rewrite !filter_cons. rewrite decide_True by done.
  rewrite decide_False.
  2: { rewrite subtract_bits, testbit_shiftl1, Z.eqb_refl, andb_false_r by lia. done. }
  cbn [app]. f_equal. apply filter_ext_on. intros i Hi%elem_of_seqZ.
  rewrite subtract_bits, testbit_shiftl1 by lia. destruct (Z.eqb_spec i (ffb w)); [lia |]. by rewrite andb_true_r.
Qed.

Lemma bits_of_0 : bits_of 0 = [].
Proof using. apply filter_nil_on. intros i _. by rewrite Z.bits_0. Qed.

(** The iterator stands in word [k] of [b] and [todo] is still to come. *)
Definition iterator_at (b : bitmap) (it : iterator) (k : nat) (todo : list Z) : Prop :=
  it_offset it = 64 * Z.of_nat k /\ (k < n)%nat /\ is_word 64 (it_tmi it) /\
  todo = (Z.add (it_offset it) <$> bits_of (it_tmi it)) ++ words_bits (it_offset it + 64) (drop (S k) b).

Lemma iterator_next_spec b it k todo fuel :
  bitmap_wf b -> iterator_at b it k todo -> (n - k <= fuel)%nat ->
  exists it' k', iterator_next width ffb fuel b it = Some (default width (head todo), it') /\
    iterator_at b it' k' (tail todo).
Proof using FirstBit0 Hwidth.
  intros Hb. pose proof array_bounds. pose proof (wf_length b Hb) as Hl.
  revert it k todo. induction fuel as [| fuel IH]; intros it k todo (Ho & Hk & Hw & ->) Hf; [lia |].
  cbn [iterator_next]. destruct (Z.eqb_spec (it_tmi it) 0) as [E0 | Hnz].
  - unfold next_bit. rewrite E0. cbn [Z.eqb]. change (TABLE_MAP_END =? TABLE_MAP_END) with true. cbn [negb].
    rewrite bits_of_0. cbn [fmap list_fmap app]. unfold bitmap_length, BITS_PER_ELEMENT.
    destruct (Z.leb_spec width (it_offset it + 64)).
    + rewrite drop_ge by lia. exists {| it_offset := it_offset it; it_tmi := 0 |}, k. split; [done |].
      split; [done |]. split; [done |]. split; [by apply is_word_0 |]. cbn. by rewrite bits_of_0, drop_ge by lia.
    + destruct (lookup_lt_is_Some_2 b (S k)) as [w Hwk]; [lia |].
      rewrite (drop_S b w (S k) Hwk). cbn [words_bits].
      replace (Z.to_nat ((it_offset it + 64) / 64)) with (S k) by (rewrite Ho; Z.to_euclidean_division_equations; lia).
      replace (element b (S k)) with w by (unfold element; by rewrite nth_lookup, Hwk).
      apply (IH {| it_offset := it_offset it + 64; it_tmi := w |} (S k)); [| lia].
      split; [cbn; lia |]. split; [lia |]. split; [| done].
      cbn [it_tmi]. replace w with (element b (S k)) by (unfold element; by rewrite nth_lookup, Hwk). apply element_word, Hb.
  - destruct (first_bit_set (it_tmi it) Hw Hnz) as [Hr _]. unfold next_bit at 1.
    destruct (Z.eqb_spec (it_tmi it) 0); [done |]. destruct (Z.eqb_spec (ffb (it_tmi it)) TABLE_MAP_END) as [E | _]; [unfold TABLE_MAP_END in E; lia |].
    cbn [negb]. rewrite (bits_of_next (it_tmi it)) by done.
    eexists _, k. split; [reflexivity |]. cbn [fmap list_fmap app tail].
    split; [done |]. split; [done |]. split; [| unfold next_bit; destruct (Z.eqb_spec (it_tmi it) 0); done].
    apply subtract_word; [done | by apply is_word_shiftl1].
Qed.

Lemma iterator_run_spec b it k todo rounds :
  bitmap_wf b -> iterator_at b it k todo -> (forall i, i ∈ todo -> i < width) -> (length todo < rounds)%nat ->
  iterator_run width ffb rounds n b it = Some todo.
Proof using FirstBit0 Hwidth.
  intros Hb. revert it k todo. induction rounds as [| rounds IH]; intros it k todo Hat Hlt Hr; [lia |].
  destruct (iterator_next_spec b it k todo n Hb Hat) as (it' & k' & Hn & Hat'); [lia |].
  cbn [iterator_run]. rewrite Hn. cbn [mbind option_bind]. unfold BITMAP_END.
  destruct todo as [| i todo]; cbn [head default tail id] in *; [by rewrite Z.eqb_refl |].
  change (id i) with i.
  destruct (Z.eqb_spec i width); [specialize (Hlt i ltac:(left)); lia |].
  rewrite (IH it' k' todo); [reflexivity | exact Hat' | intros; apply Hlt; by right | simpl in Hr; lia].
Qed.

Lemma iterator_complete b : bitmap_wf b -> iterator_run width ffb (S (length (bits_list b))) n b (iterator_init b) = Some (bits_list b).
Proof using FirstBit0 Hwidth.
  intros Hb. pose proof array_pos. pose proof (wf_length b Hb) as Hl.
  apply (iterator_run_spec b _ 0); [done | | | lia].
  - split; [done |]. split; [lia |]. split; [apply element_word, Hb |]. rewrite <- words_bits_list by done.
    destruct b as [| w b]; [simpl in Hl; lia |]. done.
  - intros i Hi. unfold bits_list in Hi. apply list_elem_of_filter in Hi as [_ Hi%elem_of_seqZ]. lia.
Qed.
End iterator.
End bitmap_proofs.

(** ** Printing *)

Lemma print_element_undefined num : print_element num (BITS_PER_ELEMENT - 4) 16 = None.
Proof. done. Qed.

Lemma last_nonzero_zero b last :
  (last < length b)%nat -> last_nonzero b last = 0%nat <-> forall k, (0 < k <= last)%nat -> element b k = 0.
Proof.
  induction last as [| l IH]; intros Hl; cbn [last_nonzero]; [split; [lia | done] |].
  destruct (Z.eqb_spec (element b (S l)) 0) as [E | E].
  - rewrite IH by lia. split; intros H k Hk; [| apply H; lia].
    destruct (decide (k = S l)) as [-> |]; [done | apply H; lia].
  - split; [done |]. intros H. exfalso. apply E, H. lia.
Qed.

Lemma last_nonzero_le b last : (last_nonzero b last <= last)%nat.
Proof. induction last as [| l IH]; cbn [last_nonzero]; [done |]. destruct (_ =? _); lia. Qed.

(** ** The properties *)


(** A well-formed bitmap to run the examples on. *)
Definition example_prefix : bitmap := [ALL_BITS_SET; 63].
Lemma example_wf : bitmap_wf 100 example_prefix.
Proof.
  split; [done | repeat constructor; by vm_compute |]. intros i Hi. change (Z.of_nat (ARRAY_ELEMENTS 100)) with 2 in Hi.
  apply (bounded_check (fun i => 100 <= i -> test example_prefix i = false) 128); [by vm_compute | lia | lia].
Qed.


(** [intersect] with a word keeps the bits of the word and clears every bit
    from 64 on; [intersect_extended] replaces every bit from 64 on by bit 63 of
    the word, whether or not the bitmap had it; a debug build stops when bit 63 is set and the last of
    several words is used in part. *)
Theorem bitmap_intersect_word dbug width b m :
  0 < width -> bitmap_wf width b -> is_word 64 m ->
  (exists r, intersect_ulonglong dbug width b m = Some r /\ bitmap_wf width r /\
    forall i, i ∈ to_set width r <-> i ∈ to_set width b /\ i < 64 /\ Z.testbit m i = true) /\
  (if dbug && negb (width mod 64 =? 0) && (1 <? ARRAY_ELEMENTS width)%nat && Z.testbit m 63 then intersect_extended dbug width b m = None
   else exists r, intersect_extended dbug width b m = Some r /\ bitmap_wf width r /\
     forall i, i ∈ to_set width r <-> (i < 64 /\ i ∈ to_set width b /\ Z.testbit m i = true) \/ (64 <= i < width /\ Z.testbit m 63 = true)).
Proof.
  intros Hw Hb Hm. split; [by apply intersect_ulonglong_spec | by apply intersect_extended_spec].
Qed.

Lemma bitmap_intersect_word_witness :
  intersect_extended true 100 example_prefix (2 ^ 63) = None /\ exists r, intersect_extended false 100 example_prefix (2 ^ 63) = Some r /\ 99 ∈ to_set 100 r.
Proof.
  split; [exact (proj2 (bitmap_intersect_word true 100 example_prefix (2 ^ 63) eq_refl example_wf ltac:(by vm_compute))) |].
  destruct (proj2 (bitmap_intersect_word false 100 example_prefix (2 ^ 63) eq_refl example_wf ltac:(by vm_compute))) as (r & E & _ & R).
  exists r. split; [exact E |]. apply R. by right.
Defined.

(** the queries answer the questions about the set they are named after; a debug build stops in [is_prefix]
    for the whole of a bitmap whose last word is used in part when all bits are set. *)
Theorem bitmap_queries dbug width b1 b2 i p :
  0 < width -> bitmap_wf width b1 -> bitmap_wf width b2 -> 0 <= i < width -> 0 <= p <= width ->
  is_set dbug width b1 i = Some (bool_decide (i ∈ to_set width b1)) /\
  (dbug && negb (width mod 64 =? 0) = false \/ p < width -> is_prefix dbug width b1 p = Some (bool_decide (to_set width b1 = list_to_set (seqZ 0 p)))) /\
  (dbug && negb (width mod 64 =? 0) = true -> to_set width b1 = list_to_set (seqZ 0 width) -> is_prefix dbug width b1 width = None) /\
  (is_clear_all b1 = true <-> to_set width b1 = ∅) /\
  (is_subset b1 b2 = true <-> to_set width b1 ⊆ to_set width b2) /\
  (is_overlapping b1 b2 = true <-> to_set width b1 ∩ to_set width b2 <> ∅) /\
  (bitmap_eq b1 b2 = true <-> to_set width b1 = to_set width b2) /\
  (bitmap_ne b1 b2 = true <-> to_set width b1 <> to_set width b2).
Proof.
  intros Hw H1 H2 Hi Hp. pose proof (bitmap_eq_spec width Hw b1 b2 H1 H2) as He.
  assert (Hne : bitmap_ne b1 b2 = true <-> to_set width b1 <> to_set width b2)
    by (unfold bitmap_ne; rewrite negb_true_iff, <- not_true_iff_false; tauto).
  split; [by apply is_set_spec |]. split; [by apply is_prefix_spec |]. split; [by apply (is_prefix_spec dbug width Hw b1 p) |].
  split; [by apply is_clear_all_spec |]. split; [by apply is_subset_spec |]. split; [by apply is_overlapping_spec |]. done.
Qed.

Lemma bitmap_queries_witness :
  is_subset example_prefix example_prefix = true /\ to_set 100 example_prefix ⊆ to_set 100 example_prefix /\ is_set true 100 example_prefix 69 = Some (bool_decide (69 ∈ to_set 100 example_prefix)).
Proof.
  pose proof (bitmap_queries true 100 example_prefix example_prefix 69 0 eq_refl example_wf example_wf ltac:(lia) ltac:(lia)) as (H1 & _ & _ & _ & H2 & _).
  assert (E : is_subset example_prefix example_prefix = true) by (by vm_compute). split; [exact E |]. split; [by apply H2 | exact H1].
Defined.

(** [bits_set] is the number of elements of the set, without overflow. *)
Theorem bits_set_size width b :
  0 < width -> width + 64 <= 2 ^ 32 -> bitmap_wf width b -> bits_set b = Z.of_nat (size (to_set width b)).
Proof. intros. by apply bits_set_spec. Qed.

Lemma bits_set_size_witness : bits_set example_prefix = 70 /\ Z.of_nat (size (to_set 100 example_prefix)) = 70.
Proof. split; [by vm_compute |]. rewrite <- (bits_set_size 100 example_prefix); [by vm_compute | lia | lia | apply example_wf]. Defined.

(** C24: reading the iterator until [BITMAP_END] terminates and yields exactly
    the set bits, each once and in increasing order, with any first-bit
    primitive that keeps its contract; no step needs more rounds of its loop
    than the array has words. *)
Theorem iterator_enumerates dbug width ffb `{!FirstBit ffb} b :
  0 < width -> bitmap_wf width b ->
  exists todo,
    iterator_run width ffb (S (size (to_set width b))) (ARRAY_ELEMENTS width) b (iterator_init b) = Some todo /\
    todo = filter (fun i => is_set dbug width b i = Some true) (seqZ 0 width) /\
    list_to_set todo = to_set width b.
Proof.
  intros Hw Hb. exists (bits_list width b). pose proof (bits_list_size width b) as Hs.
  replace (size (to_set width b)) with (length (bits_list width b)) by lia.
  split; [by apply iterator_complete |]. split; [| done].
  apply filter_ext_on. intros i Hi%elem_of_seqZ. rewrite is_set_spec by (done || lia). rewrite (inj_iff Some), bool_decide_eq_true, elem_of_to_set. intuition lia.
Qed.

Lemma iterator_enumerates_witness :
  iterator_run 100 find_first_bit 4 2 [5; 2] (iterator_init [5; 2]) = Some [0; 2; 65] /\
  exists todo, iterator_run 100 find_first_bit (S (size (to_set 100 [5; 2]))) 2 [5; 2] (iterator_init [5; 2]) = Some todo /\
    todo = filter (fun i => is_set true 100 [5; 2] i = Some true) (seqZ 0 100) /\ list_to_set todo = to_set 100 [5; 2].
Proof.
  split; [by vm_compute |]. apply (iterator_enumerates true 100 find_first_bit [5; 2]); [done |].
  split; [done | repeat constructor; lia |]. intros i Hi. change (Z.of_nat (ARRAY_ELEMENTS 100)) with 2 in Hi.
  apply (bounded_check (fun i => 100 <= i -> test [5; 2] i = false) 128); [by vm_compute | lia | lia].
Defined.

(** [print] has a defined result only when no bit from 64 on is set: for any
    other bitmap its loop shifts a word by 64 positions. *)
Theorem bitmap_print_defined width longlong2str b :
  0 < width -> bitmap_wf width b ->
  (print width longlong2str b <> None <-> forall i, i ∈ to_set width b -> i < 64) /\
  (forall s, print width longlong2str b = Some s -> s = longlong2str (to_ulonglong b)).
Proof.
  intros Hw Hb. pose proof (array_pos width Hw). pose proof (array_bounds width Hw). pose proof (wf_length width b Hb) as Hl.
  pose proof (last_nonzero_zero b (ARRAY_ELEMENTS width - 1) ltac:(lia)) as Hz.
  pose proof (last_nonzero_le b (ARRAY_ELEMENTS width - 1)) as Hle.
  assert (Hp : print width longlong2str b = if decide (last_nonzero b (ARRAY_ELEMENTS width - 1) = 0%nat)
    then Some (longlong2str (to_ulonglong b)) else None).
  { unfold print. cbv zeta. case_decide as E; [by rewrite E |].
    destruct (last_nonzero b (ARRAY_ELEMENTS width - 1)) as [| l] eqn:El; [done |].
    destruct b as [| w b]; [simpl in Hl; lia | done]. }
  rewrite Hp. case_decide as E.
  - split; [| by intros s [= <-]]. split; [| done]. intros _ i Hi%elem_of_to_set.
    destruct (decide (i < 64)); [done |]. destruct Hi as [Hi Ht]. exfalso. unfold test in Ht.
    rewrite (proj1 Hz E), Z.bits_0 in Ht; [done |]. Z.to_euclidean_division_equations; lia.
  - split; [| done]. split; [done |]. intros Hi. exfalso. apply E, Hz. intros k Hk.
    apply (word_bits_eq 64); [apply element_word, Hb | by apply is_word_0 |].
    intros j Hj. rewrite Z.bits_0. apply not_true_is_false. intros Hb1.
    assert (Hpos : test b (64 * Z.of_nat k + j) = true).
    { unfold test. replace ((64 * Z.of_nat k + j) / 64) with (Z.of_nat k) by (Z.to_euclidean_division_equations; lia).
      replace ((64 * Z.of_nat k + j) mod 64) with j by (Z.to_euclidean_division_equations; lia). by rewrite Nat2Z.id. }
    destruct (decide (64 * Z.of_nat k + j < width)).
    + assert (64 * Z.of_nat k + j < 64) by (apply Hi, elem_of_to_set; split; [lia | done]). lia.
    + rewrite (wf_tail width b) in Hpos by (done || lia). done.
Qed.

Lemma bitmap_print_defined_witness : print 100 (fun z => [z]) [5; 2] = None /\ print 100 (fun z => [z]) [5; 0] = Some [5].
Proof.
  split; [by vm_compute |].
  assert (Hb : bitmap_wf 100 [5; 0]).
  { split; [done | repeat constructor; lia |]. intros i Hi. change (Z.of_nat (ARRAY_ELEMENTS 100)) with 2 in Hi.
    apply (bounded_check (fun i => 100 <= i -> test [5; 0] i = false) 128); [by vm_compute | lia | lia]. }
  destruct (print 100 (fun z => [z]) [5; 0]) as [s |] eqn:E.
  - by rewrite (proj2 (bitmap_print_defined 100 (fun z => [z]) [5; 0] eq_refl Hb) s E).
  - by vm_compute in E.
Defined.
