(* ===== verification/ByteOrder.v ===== *)
(** * ByteOrder: integers and floats in bytes (byte_order_generic*.h, myisampack.h)

    Three sets of macros read and store integers low byte first: one for any
    machine and two that use the unaligned loads of x86; a fourth stores keys and
    file pointers high byte first.  Each macro is translated as it is written,
    with the casts of the source; the theorems say that they agree, that they
    invert each other, and that high-byte-first keys compare like their numbers. *)

From stdpp Require Import base numbers list.
From Stdlib Require Import ZArith Lia.
From S2P Require Import Prelude.

Local Open Scope Z_scope.
Local Open Scope cxx_scope.

(** ** Bytes and machine loads *)

Abbreviation bytes := (list Z).

(** [((uchar* ) A)[i]] and [((char* ) A)[i]]. *)
Definition ub (A : bytes) (i : nat) : Z := nth i A 0.
Definition sb (A : bytes) (i : nat) : Z := swrap 8 (ub A i).

Definition is_bytes (A : bytes) : Prop := Forall (fun b => 0 <= b < 256) A.

Definition s16 : Z -> Z := swrap 16.

(** The number whose low byte is first. *)
Fixpoint le_value (A : bytes) : Z := match A with [] => 0 | b :: A => b + 256 * le_value A end.

Fixpoint le_bytes (n : nat) (z : Z) : bytes :=
  match n with O => [] | S n => u8 z :: le_bytes n (z >>> 8) end.

(** Unaligned loads and stores of an [n]-byte integer on x86. *)
Definition load_le (n : nat) (A : bytes) : Z := le_value (take n A).
Definition store_le (n : nat) (z : Z) : bytes := le_bytes n z.

(** The [bswapq] instruction. *)
Definition bswapq (v : Z) : Z := le_value (reverse (le_bytes 8 v)).

(** ** byte_order_generic.h *)

Module Generic.
(* [byte_order_generic.h:21-22 sint2korr] *)
Definition sint2korr (A : bytes) : Z := s16 (ub A 0 ||| (ub A 1 <<< 8)).
(* [byte_order_generic.h:23-30 sint3korr] *)
Definition sint3korr (A : bytes) : Z :=
  s32 (if negb ((ub A 2 &&& 128) =? 0)
       then u32 (255 <<< 24) ||| u32 (ub A 2 <<< 16) ||| u32 (ub A 1 <<< 8) ||| ub A 0
       else u32 (ub A 2 <<< 16) ||| u32 (ub A 1 <<< 8) ||| ub A 0).
(* [byte_order_generic.h:31-34 sint4korr] *)
Definition sint4korr (A : bytes) : Z :=
  s32 (ub A 0 ||| s32 (ub A 1 <<< 8) ||| s32 (ub A 2 <<< 16) ||| s32 (ub A 3 <<< 24)).
(* [byte_order_generic.h:36-37 uint2korr] *)
Definition uint2korr (A : bytes) : Z := u16 (ub A 0 ||| (ub A 1 <<< 8)).
(* [byte_order_generic.h:38-40 uint3korr] *)
Definition uint3korr (A : bytes) : Z := u32 (ub A 0 ||| u32 (ub A 1 <<< 8) ||| u32 (ub A 2 <<< 16)).
(* [byte_order_generic.h:41-44 uint4korr] *)
Definition uint4korr (A : bytes) : Z :=
  u32 (ub A 0 ||| u32 (ub A 1 <<< 8) ||| u32 (ub A 2 <<< 16) ||| u32 (ub A 3 <<< 24)).
(* [byte_order_generic.h:45-49 uint5korr] *)
Definition uint5korr (A : bytes) : Z :=
  u64 (u32 (ub A 0 ||| u32 (ub A 1 <<< 8) ||| u32 (ub A 2 <<< 16) ||| u32 (ub A 3 <<< 24)) ||| u64 (ub A 4 <<< 32)).
(* [byte_order_generic.h:50-55 uint6korr] *)
Definition uint6korr (A : bytes) : Z :=
  u64 (u32 (ub A 0 ||| u32 (ub A 1 <<< 8) ||| u32 (ub A 2 <<< 16) ||| u32 (ub A 3 <<< 24)) |||
       u64 (ub A 4 <<< 32) ||| u64 (ub A 5 <<< 40)).
(* [byte_order_generic.h:56-64 uint8korr] *)
Definition uint8korr (A : bytes) : Z :=
  u64 (u32 (ub A 0 ||| u32 (ub A 1 <<< 8) ||| u32 (ub A 2 <<< 16) ||| u32 (ub A 3 <<< 24)) |||
       u64 (u32 (ub A 4 ||| u32 (ub A 5 <<< 8) ||| u32 (ub A 6 <<< 16) ||| u32 (ub A 7 <<< 24)) <<< 32)).
(* [byte_order_generic.h:35-35 sint8korr] *)
Definition sint8korr (A : bytes) : Z := s64 (uint8korr A).

(** The stores give the bytes written at [T], [T+1], ... *)
(* [byte_order_generic.h:65-68 int2store] *)
Definition int2store (A : Z) : bytes := let def_temp := u32 A in [u8 def_temp; u8 (def_temp >>> 8)].
(* [byte_order_generic.h:69-73 int3store] *)
Definition int3store (A : Z) : bytes := [u8 A; u8 (A >>> 8); u8 (A >>> 16)].
(* [byte_order_generic.h:74-78 int4store] *)
Definition int4store (A : Z) : bytes := [u8 A; u8 (A >>> 8); u8 (A >>> 16); u8 (A >>> 24)].
(* [byte_order_generic.h:79-84 int5store] *)
Definition int5store (A : Z) : bytes := [u8 A; u8 (A >>> 8); u8 (A >>> 16); u8 (A >>> 24); u8 (A >>> 32)].
(* [byte_order_generic.h:85-91 int6store] *)
Definition int6store (A : Z) : bytes :=
  [u8 A; u8 (A >>> 8); u8 (A >>> 16); u8 (A >>> 24); u8 (A >>> 32); u8 (A >>> 40)].
(* [byte_order_generic.h:92-96 int8store] *)
Definition int8store (A : Z) : bytes :=
  let def_temp := u32 A in let def_temp2 := u32 (A >>> 32) in int4store def_temp ++ int4store def_temp2.
End Generic.

(** ** byte_order_generic_x86.h (the variant of _WIN32) *)

Module X86.
(* [byte_order_generic_x86.h:20-20 sint2korr] *)
Definition sint2korr (A : bytes) : Z := s16 (load_le 2 A).
(* [byte_order_generic_x86.h:21-28 sint3korr] *)
Definition sint3korr (A : bytes) : Z :=
  s32 (if negb ((ub A 2 &&& 128) =? 0)
       then u32 (255 <<< 24) ||| u32 (ub A 2 <<< 16) ||| u32 (ub A 1 <<< 8) ||| ub A 0
       else u32 (ub A 2 <<< 16) ||| u32 (ub A 1 <<< 8) ||| ub A 0).
(** [long] has 32 bits where this file is used. *)
(* [byte_order_generic_x86.h:29-29 sint4korr] *)
Definition sint4korr (A : bytes) : Z := s32 (load_le 4 A).
(* [byte_order_generic_x86.h:30-30 uint2korr] *)
Definition uint2korr (A : bytes) : Z := u16 (load_le 2 A).
(* [byte_order_generic_x86.h:31-33 uint3korr] *)
Definition uint3korr (A : bytes) : Z := u32 (ub A 0 ||| u32 (ub A 1 <<< 8) ||| u32 (ub A 2 <<< 16)).
(* [byte_order_generic_x86.h:34-34 uint4korr] *)
Definition uint4korr (A : bytes) : Z := u32 (load_le 4 A).
(* [byte_order_generic_x86.h:35-39 uint5korr] *)
Definition uint5korr (A : bytes) : Z :=
  u64 (u32 (ub A 0 ||| u32 (ub A 1 <<< 8) ||| u32 (ub A 2 <<< 16) ||| u32 (ub A 3 <<< 24)) ||| u64 (ub A 4 <<< 32)).
(* [byte_order_generic_x86.h:40-45 uint6korr] *)
Definition uint6korr (A : bytes) : Z :=
  u64 (u32 (ub A 0 ||| u32 (ub A 1 <<< 8) ||| u32 (ub A 2 <<< 16) ||| u32 (ub A 3 <<< 24)) |||
       u64 (ub A 4 <<< 32) ||| u64 (ub A 5 <<< 40)).
(* [byte_order_generic_x86.h:46-46 uint8korr] *)
Definition uint8korr (A : bytes) : Z := u64 (load_le 8 A).
(* [byte_order_generic_x86.h:47-47 sint8korr] *)
Definition sint8korr (A : bytes) : Z := s64 (load_le 8 A).

(* [byte_order_generic_x86.h:49-49 int2store] *)
Definition int2store (A : Z) : bytes := store_le 2 (u16 A).
(* [byte_order_generic_x86.h:50-53 int3store] *)
Definition int3store (A : Z) : bytes := [u8 A; u8 (u32 A >>> 8); u8 (A >>> 16)].
(* [byte_order_generic_x86.h:54-54 int4store] *)
Definition int4store (A : Z) : bytes := store_le 4 (s32 A).
(* [byte_order_generic_x86.h:55-60 int5store] *)
Definition int5store (A : Z) : bytes := [u8 A; u8 (A >>> 8); u8 (A >>> 16); u8 (A >>> 24); u8 (A >>> 32)].
(* [byte_order_generic_x86.h:61-67 int6store] *)
Definition int6store (A : Z) : bytes :=
  [u8 A; u8 (A >>> 8); u8 (A >>> 16); u8 (A >>> 24); u8 (A >>> 32); u8 (A >>> 40)].
(* [byte_order_generic_x86.h:68-68 int8store] *)
Definition int8store (A : Z) : bytes := store_le 8 (u64 A).
End X86.

(** ** byte_order_generic_x86_64.h *)

Module X64.
(* [byte_order_generic_x86_64.h:21-21 sint2korr] *)
Definition sint2korr (A : bytes) : Z := s16 (load_le 2 A).
(* [byte_order_generic_x86_64.h:22-29 sint3korr] *)
Definition sint3korr (A : bytes) : Z :=
  s32 (if negb ((ub A 2 &&& 128) =? 0)
       then u32 (255 <<< 24) ||| u32 (ub A 2 <<< 16) ||| u32 (ub A 1 <<< 8) ||| ub A 0
       else u32 (ub A 2 <<< 16) ||| u32 (ub A 1 <<< 8) ||| ub A 0).
(* [byte_order_generic_x86_64.h:30-30 sint4korr] *)
Definition sint4korr (A : bytes) : Z := s32 (load_le 4 A).
(* [byte_order_generic_x86_64.h:31-31 uint2korr] *)
Definition uint2korr (A : bytes) : Z := u16 (load_le 2 A).
(* [byte_order_generic_x86_64.h:32-34 uint3korr] *)
Definition uint3korr (A : bytes) : Z := u32 (ub A 0 ||| u32 (ub A 1 <<< 8) ||| u32 (ub A 2 <<< 16)).
(* [byte_order_generic_x86_64.h:35-35 uint4korr] *)
Definition uint4korr (A : bytes) : Z := u32 (load_le 4 A).
(* [byte_order_generic_x86_64.h:38-43 uint5korr] *)
Definition uint5korr (p : bytes) : Z := let a := load_le 4 p in let b := ub p 4 in a ||| u64 (b <<< 32).
(* [byte_order_generic_x86_64.h:44-49 uint6korr] *)
Definition uint6korr (p : bytes) : Z := let a := load_le 4 p in let b := load_le 2 (drop 4 p) in a ||| u64 (b <<< 32).
(* [byte_order_generic_x86_64.h:51-51 uint8korr] *)
Definition uint8korr (A : bytes) : Z := u64 (load_le 8 A).
(* [byte_order_generic_x86_64.h:52-52 sint8korr] *)
Definition sint8korr (A : bytes) : Z := s64 (load_le 8 A).

(* [byte_order_generic_x86_64.h:54-56 int2store] *)
Definition int2store (A : Z) : bytes := store_le 2 (u16 A).
(* [byte_order_generic_x86_64.h:58-61 int3store] *)
Definition int3store (A : Z) : bytes := [u8 A; u8 (u32 A >>> 8); u8 (A >>> 16)].
(* [byte_order_generic_x86_64.h:63-65 int4store] *)
Definition int4store (A : Z) : bytes := store_le 4 (u32 A).
(* [byte_order_generic_x86_64.h:67-70 int5store] *)
Definition int5store (A : Z) : bytes := store_le 4 (u32 A) ++ [u8 (A >>> 32)].
(* [byte_order_generic_x86_64.h:72-75 int6store] *)
Definition int6store (A : Z) : bytes := store_le 4 (u32 A) ++ store_le 2 (u16 (A >>> 32)).
(* [byte_order_generic_x86_64.h:77-79 int8store] *)
Definition int8store (A : Z) : bytes := store_le 8 (u64 A).

(** High byte first with a byte swap (GNU C only). *)
(* [byte_order_generic_x86_64.h:90-97 mi_uint5korr] *)
Definition mi_uint5korr (p : bytes) : Z :=
  let a := load_le 4 p in let b := ub p 4 in
  bswapq (u64 ((a ||| u64 (b <<< 32)) <<< 24)).
(* [byte_order_generic_x86_64.h:99-106 mi_uint6korr] *)
Definition mi_uint6korr (p : bytes) : Z :=
  let a := load_le 4 p in let b := load_le 2 (drop 4 p) in
  bswapq (u64 ((a ||| u64 (b <<< 32)) <<< 16)).
(* [byte_order_generic_x86_64.h:108-116 mi_uint7korr] *)
Definition mi_uint7korr (p : bytes) : Z :=
  let a := load_le 4 p in let b := load_le 2 (drop 4 p) in let c := ub p 6 in
  bswapq (u64 ((a ||| u64 (b <<< 32) ||| u64 (c <<< 48)) <<< 8)).
(* [byte_order_generic_x86_64.h:118-123 mi_uint8korr] *)
Definition mi_uint8korr (p : bytes) : Z := bswapq (load_le 8 p).
End X64.

(** ** myisampack.h: high byte first *)

Module Mi.
(* [myisampack.h:29-29 mi_sint1korr] *)
Definition mi_sint1korr (A : bytes) : Z := swrap 8 (ub A 0).
(* [myisampack.h:30-30 mi_uint1korr] *)
Definition mi_uint1korr (A : bytes) : Z := u8 (ub A 0).
(* [myisampack.h:32-33 mi_sint2korr] *)
Definition mi_sint2korr (A : bytes) : Z := s16 (ub A 1 ||| s16 (sb A 0 <<< 8)).
(* [myisampack.h:34-41 mi_sint3korr] *)
Definition mi_sint3korr (A : bytes) : Z :=
  s32 (if negb ((ub A 0 &&& 128) =? 0)
       then u32 (255 <<< 24) ||| u32 (ub A 0 <<< 16) ||| u32 (ub A 1 <<< 8) ||| ub A 2
       else u32 (ub A 0 <<< 16) ||| u32 (ub A 1 <<< 8) ||| ub A 2).
(* [myisampack.h:42-45 mi_sint4korr] *)
Definition mi_sint4korr (A : bytes) : Z :=
  s32 (ub A 3 ||| s32 (ub A 2 <<< 8) ||| s32 (ub A 1 <<< 16) ||| s32 (s16 (sb A 0) <<< 24)).
(* [myisampack.h:47-48 mi_uint2korr] *)
Definition mi_uint2korr (A : bytes) : Z := u16 (ub A 1 ||| u16 (ub A 0 <<< 8)).
(* [myisampack.h:49-51 mi_uint3korr] *)
Definition mi_uint3korr (A : bytes) : Z := u32 (ub A 2 ||| u32 (ub A 1 <<< 8) ||| u32 (ub A 0 <<< 16)).
(* [myisampack.h:52-55 mi_uint4korr] *)
Definition mi_uint4korr (A : bytes) : Z :=
  u32 (ub A 3 ||| u32 (ub A 2 <<< 8) ||| u32 (ub A 1 <<< 16) ||| u32 (ub A 0 <<< 24)).
(* [myisampack.h:57-63 mi_uint5korr] *)
Definition mi_uint5korr (A : bytes) : Z :=
  u64 (u32 (ub A 4 ||| u32 (ub A 3 <<< 8) ||| u32 (ub A 2 <<< 16) ||| u32 (ub A 1 <<< 24)) ||| u64 (ub A 0 <<< 32)).
(* [myisampack.h:65-73 mi_uint6korr] *)
Definition mi_uint6korr (A : bytes) : Z :=
  u64 (u32 (ub A 5 ||| u32 (ub A 4 <<< 8) ||| u32 (ub A 3 <<< 16) ||| u32 (ub A 2 <<< 24)) |||
       u64 (u32 (ub A 1 ||| u32 (ub A 0 <<< 8)) <<< 32)).
(* [myisampack.h:75-84 mi_uint7korr] *)
Definition mi_uint7korr (A : bytes) : Z :=
  u64 (u32 (ub A 6 ||| u32 (ub A 5 <<< 8) ||| u32 (ub A 4 <<< 16) ||| u32 (ub A 3 <<< 24)) |||
       u64 (u32 (ub A 2 ||| u32 (ub A 1 <<< 8) ||| u32 (ub A 0 <<< 16)) <<< 32)).
(* [myisampack.h:86-96 mi_uint8korr] *)
Definition mi_uint8korr (A : bytes) : Z :=
  u64 (u32 (ub A 7 ||| u32 (ub A 6 <<< 8) ||| u32 (ub A 5 <<< 16) ||| u32 (ub A 4 <<< 24)) |||
       u64 (u32 (ub A 3 ||| u32 (ub A 2 <<< 8) ||| u32 (ub A 1 <<< 16) ||| u32 (ub A 0 <<< 24)) <<< 32)).
(* [myisampack.h:46-46 mi_sint8korr] *)
Definition mi_sint8korr (A : bytes) : Z := s64 (mi_uint8korr A).

(** [ulong] has [W] bits: 32 on Windows, 64 elsewhere. *)
Section store.
Variable W : Z.

(* [myisampack.h:99-99 mi_int1store] *)
Definition mi_int1store (A : Z) : bytes := [u8 A].
(* [myisampack.h:101-103 mi_int2store] *)
Definition mi_int2store (A : Z) : bytes := let def_temp := u32 A in [u8 (def_temp >>> 8); u8 def_temp].
(* [myisampack.h:104-109 mi_int3store] *)
Definition mi_int3store (A : Z) : bytes :=
  let def_temp := wrap W A in [u8 (def_temp >>> 16); u8 (def_temp >>> 8); u8 def_temp].
(* [myisampack.h:110-114 mi_int4store] *)
Definition mi_int4store (A : Z) : bytes :=
  let def_temp := wrap W A in [u8 (def_temp >>> 24); u8 (def_temp >>> 16); u8 (def_temp >>> 8); u8 def_temp].
(* [myisampack.h:115-121 mi_int5store] *)
Definition mi_int5store (A : Z) : bytes :=
  let def_temp := wrap W A in let def_temp2 := wrap W (A >>> 32) in
  [u8 def_temp2; u8 (def_temp >>> 24); u8 (def_temp >>> 16); u8 (def_temp >>> 8); u8 def_temp].
(* [myisampack.h:122-129 mi_int6store] *)
Definition mi_int6store (A : Z) : bytes :=
  let def_temp := wrap W A in let def_temp2 := wrap W (A >>> 32) in
  [u8 (def_temp2 >>> 8); u8 def_temp2; u8 (def_temp >>> 24); u8 (def_temp >>> 16); u8 (def_temp >>> 8); u8 def_temp].
(* [myisampack.h:130-138 mi_int7store] *)
Definition mi_int7store (A : Z) : bytes :=
  let def_temp := wrap W A in let def_temp2 := wrap W (A >>> 32) in
  [u8 (def_temp2 >>> 16); u8 (def_temp2 >>> 8); u8 def_temp2;
   u8 (def_temp >>> 24); u8 (def_temp >>> 16); u8 (def_temp >>> 8); u8 def_temp].
(* [myisampack.h:139-142 mi_int8store] *)
Definition mi_int8store (A : Z) : bytes :=
  let def_temp3 := wrap W A in let def_temp4 := wrap W (A >>> 32) in
  mi_int4store def_temp4 ++ mi_int4store def_temp3.

(** Row numbers and file offsets: 8 bytes in the file whatever their width. *)
(* [myisampack.h:237-244 mi_rowstore] *)
Definition mi_rowstore (big_tables : bool) (A : Z) : bytes :=
  if big_tables then mi_int8store A else mi_int4store 0 ++ mi_int4store A.

(** [HA_OFFSET_ERROR] is [~(my_off_t) 0]. *)
(* [myisampack.h:246-253 mi_sizestore] *)
Definition mi_sizestore (big_offsets : bool) (A : Z) : bytes :=
  if big_offsets then mi_int8store A
  else if A =? wnot 32 0 then replicate 8 255
  else mi_int4store 0 ++ mi_int4store A.
End store.

(* [myisampack.h:239-243 mi_rowkorr] *)
Definition mi_rowkorr (big_tables : bool) (T : bytes) : Z :=
  if big_tables then mi_uint8korr T else mi_uint4korr (drop 4 T).
(* [myisampack.h:248-254 mi_sizekorr] *)
Definition mi_sizekorr (big_offsets : bool) (T : bytes) : Z :=
  if big_offsets then mi_uint8korr T else mi_uint4korr (drop 4 T).
End Mi.

(** *** Floats *)

(** How a float lies in the memory of the machine: the byte [i] of the value,
    counted from the low one, is at [at i].  WORDS_BIGENDIAN; little-endian words
    with the high word first ([__FLOAT_WORD_ORDER]); little-endian. *)
Inductive float_order := BigEndian | BiEndian | LittleEndian.

(** The bytes in memory of the double whose bytes, low first, are [v]. *)
Definition in_memory (o : float_order) (v : bytes) : bytes :=
  match o with
  | BigEndian => reverse v
  | BiEndian => drop 4 v ++ take 4 v
  | LittleEndian => v
  end.

(** A float of four bytes is one word. *)
Definition in_memory4 (o : float_order) (v : bytes) : bytes :=
  match o with BigEndian => reverse v | _ => v end.

Module MiFloat.
(* [myisampack.h:146-149 mi_float4store] *)
Definition mi_float4store_be (V : bytes) : bytes := [ub V 0; ub V 1; ub V 2; ub V 3].
(* [myisampack.h:151-156 mi_float4get] *)
Definition mi_float4get_be (M : bytes) : bytes := [ub M 0; ub M 1; ub M 2; ub M 3].
(* [myisampack.h:158-165 mi_float8store] *)
Definition mi_float8store_be (V : bytes) : bytes := [ub V 0; ub V 1; ub V 2; ub V 3; ub V 4; ub V 5; ub V 6; ub V 7].
(* [myisampack.h:167-176 mi_float8get] *)
Definition mi_float8get_be (M : bytes) : bytes := [ub M 0; ub M 1; ub M 2; ub M 3; ub M 4; ub M 5; ub M 6; ub M 7].
(* [myisampack.h:179-182 mi_float4store] *)
Definition mi_float4store_le (V : bytes) : bytes := [ub V 3; ub V 2; ub V 1; ub V 0].
(* [myisampack.h:184-189 mi_float4get] *)
Definition mi_float4get_le (M : bytes) : bytes := [ub M 3; ub M 2; ub M 1; ub M 0].
(* [myisampack.h:192-199 mi_float8store] *)
Definition mi_float8store_bi (V : bytes) : bytes := [ub V 3; ub V 2; ub V 1; ub V 0; ub V 7; ub V 6; ub V 5; ub V 4].
(* [myisampack.h:201-210 mi_float8get] *)
Definition mi_float8get_bi (M : bytes) : bytes := [ub M 3; ub M 2; ub M 1; ub M 0; ub M 7; ub M 6; ub M 5; ub M 4].
(* [myisampack.h:213-220 mi_float8store] *)
Definition mi_float8store_le (V : bytes) : bytes := [ub V 7; ub V 6; ub V 5; ub V 4; ub V 3; ub V 2; ub V 1; ub V 0].
(* [myisampack.h:222-231 mi_float8get] *)
Definition mi_float8get_le (M : bytes) : bytes := [ub M 7; ub M 6; ub M 5; ub M 4; ub M 3; ub M 2; ub M 1; ub M 0].

(** The macro that a machine of the given order compiles. *)
(* [myisampack.h:144-144 mi_float4store] *)
Definition mi_float4store (o : float_order) : bytes -> bytes :=
  match o with BigEndian => mi_float4store_be | BiEndian => mi_float4store_le | LittleEndian => mi_float4store_le end.
(* [myisampack.h:144-144 mi_float4get] *)
Definition mi_float4get (o : float_order) : bytes -> bytes :=
  match o with BigEndian => mi_float4get_be | BiEndian => mi_float4get_le | LittleEndian => mi_float4get_le end.
(* [myisampack.h:191-191 mi_float8store] *)
Definition mi_float8store (o : float_order) : bytes -> bytes :=
  match o with BigEndian => mi_float8store_be | BiEndian => mi_float8store_bi | LittleEndian => mi_float8store_le end.
(* [myisampack.h:191-191 mi_float8get] *)
Definition mi_float8get (o : float_order) : bytes -> bytes :=
  match o with BigEndian => mi_float8get_be | BiEndian => mi_float8get_bi | LittleEndian => mi_float8get_le end.
End MiFloat.

(** Low byte first: little_endian.h and big_endian.h. *)
Module LeFloat.
(* [big_endian.h:19-22 float4store] *)
Definition float4store_be (V : bytes) : bytes := [ub V 3; ub V 2; ub V 1; ub V 0].
(* [big_endian.h:24-29 float4get] *)
Definition float4get_be (M : bytes) : bytes := [ub M 3; ub M 2; ub M 1; ub M 0].
(* [big_endian.h:31-38 float8store] *)
Definition float8store_be (V : bytes) : bytes := [ub V 7; ub V 6; ub V 5; ub V 4; ub V 3; ub V 2; ub V 1; ub V 0].
(* [big_endian.h:40-49 float8get] *)
Definition float8get_be (M : bytes) : bytes := [ub M 7; ub M 6; ub M 5; ub M 4; ub M 3; ub M 2; ub M 1; ub M 0].
(* [little_endian.h:28-36 doublestore] *)
Definition doublestore_bi (V : bytes) : bytes := [ub V 4; ub V 5; ub V 6; ub V 7; ub V 0; ub V 1; ub V 2; ub V 3].
(* [little_endian.h:37-46 doubleget] *)
Definition doubleget_bi (M : bytes) : bytes := [ub M 4; ub M 5; ub M 6; ub M 7; ub M 0; ub M 1; ub M 2; ub M 3].
(** [memcpy] of a float and of a double. *)
(* [little_endian.h:50-50 doublestore] *)
Definition doublestore_le (V : bytes) : bytes := take 8 V.
(* [little_endian.h:51-51 doubleget] *)
Definition doubleget_le (M : bytes) : bytes := take 8 M.
(* [little_endian.h:22-22 float4store] *)
Definition float4store (o : float_order) (V : bytes) : bytes :=
  match o with BigEndian => float4store_be V | _ => take 4 V end.
(* [little_endian.h:21-21 float4get] *)
Definition float4get (o : float_order) (M : bytes) : bytes :=
  match o with BigEndian => float4get_be M | _ => take 4 M end.
(* [little_endian.h:24-24 float8store] *)
Definition float8store (o : float_order) : bytes -> bytes :=
  match o with BigEndian => float8store_be | BiEndian => doublestore_bi | LittleEndian => doublestore_le end.
(* [little_endian.h:23-23 float8get] *)
Definition float8get (o : float_order) : bytes -> bytes :=
  match o with BigEndian => float8get_be | BiEndian => doubleget_bi | LittleEndian => doubleget_le end.
End LeFloat.

(** ** Arithmetic of byte strings *)

Lemma lor_disjoint k a b : 0 <= k -> 0 <= a < 2 ^ k -> b mod 2 ^ k = 0 -> a ||| b = a + b.
Proof.
  intros Hk Ha Hb. assert (H : a &&& b = 0).
  { apply Z.bits_inj'. intros i Hi. rewrite Z.land_spec, Z.bits_0. destruct (decide (i < k)).
    - rewrite <- (Z.mod_pow2_bits_low b k) by done. by rewrite Hb, Z.bits_0, andb_false_r.
    - by rewrite (testbit_word_high k a) by (done || lia). }
  rewrite Z.add_nocarry_lxor by done. symmetry. by apply Z.lxor_lor.
Qed.

Lemma lor_disjoint_r k a b : 0 <= k -> 0 <= a < 2 ^ k -> b mod 2 ^ k = 0 -> b ||| a = a + b.
Proof. rewrite Z.lor_comm. apply lor_disjoint. Qed.

Lemma le_value_bound A : is_bytes A -> 0 <= le_value A < 2 ^ (8 * Z.of_nat (length A)).
Proof.
  induction 1 as [| b A Hb HA IH]; cbn [le_value length]; [cbn; lia |].
  replace (8 * Z.of_nat (S (length A))) with (8 * Z.of_nat (length A) + 8) by lia. rewrite Z.pow_add_r by lia.
  change (2 ^ 8) with 256. nia.
Qed.

Lemma is_bytes_le n z : is_bytes (le_bytes n z).
Proof. revert z. induction n as [| n IH]; intros z; constructor; [| apply IH]. unfold u8, wrap. apply (Z.mod_pos_bound z 256). lia. Qed.

Lemma length_le n z : length (le_bytes n z) = n.
Proof. revert z. induction n as [| n IH]; intros z; cbn; [done | by rewrite IH]. Qed.

Lemma le_value_le n z : le_value (le_bytes n z) = z mod 2 ^ (8 * Z.of_nat n).
Proof.
  revert z. induction n as [| n IH]; intros z; cbn [le_bytes le_value]; [by rewrite Z.mod_1_r |].
  rewrite IH, Z.shiftr_div_pow2 by lia. replace (8 * Z.of_nat (S n)) with (8 + 8 * Z.of_nat n) by lia.
  rewrite Z.pow_add_r by lia. unfold u8, wrap. change (2 ^ 8) with 256. rewrite Z.rem_mul_r by lia. lia.
Qed.

Lemma le_bytes_value A : is_bytes A -> le_bytes (length A) (le_value A) = A.
Proof.
  induction 1 as [| b A Hb HA IH]; [done |]. cbn [length le_bytes le_value]. f_equal.
  - unfold u8, wrap. change (2 ^ 8) with 256. rewrite Z.mul_comm, Z.mod_add by lia. by apply Z.mod_small.
  - rewrite Z.shiftr_div_pow2 by lia. change (2 ^ 8) with 256. rewrite Z.mul_comm, Z.div_add, Z.div_small by lia. by rewrite Z.add_0_l.
Qed.

Lemma le_bytes_wrap n w z : 8 * Z.of_nat n <= w -> le_bytes n (wrap w z) = le_bytes n z.
Proof.
  revert w z. induction n as [| n IH]; intros w z Hw; [done |]. cbn [le_bytes]. f_equal.
  - apply Z.bits_inj'. intros i Hi. unfold u8. rewrite !testbit_wrap by lia. destruct (Z.ltb_spec i 8); [| done].
    destruct (Z.ltb_spec i w); [done | lia].
  - rewrite <- (IH (w - 8) (z >>> 8)) by lia. f_equal. apply Z.bits_inj'. intros i Hi.
    rewrite testbit_wrap, !Z.shiftr_spec, testbit_wrap by lia. f_equal. apply Bool.eq_iff_eq_true. rewrite !Z.ltb_lt. lia.
Qed.

(** ** Reading: every variant computes the same number *)

Ltac div_lia := Z.div_mod_to_equations; lia.

Lemma s32_cases z : 0 <= z < 2 ^ 32 -> s32 z = if z <? 2 ^ 31 then z else z - 2 ^ 32.
Proof. intros Hz. unfold s32, swrap. change (2 ^ (32 - 1)) with 2147483648. change (2 ^ 31) with 2147483648. change (2 ^ 32) with 4294967296 in *. destruct (Z.ltb_spec z 2147483648); div_lia. Qed.

Lemma land_128 b : 0 <= b < 256 -> (b &&& 128 =? 0) = (b <? 128).
Proof. intros Hb. apply (bounded_check (fun b => (b &&& 128 =? 0) = (b <? 128)) 256); [by vm_compute | done]. Qed.

Lemma is_bytes_take n A : is_bytes A -> is_bytes (take n A).
Proof. apply Forall_take. Qed.

Lemma swrap_mod_low w k x : 0 <= k <= w -> 0 < w -> x mod 2 ^ k = 0 -> swrap w x mod 2 ^ k = 0.
Proof.
  intros Hk Hw Hx. unfold swrap. set (h := 2 ^ (w - 1)).
  apply Z.mod_divide in Hx as [q Hq]; [| lia]. apply Z.mod_divide; [lia |].
  rewrite Z.mod_eq by lia. replace (2 ^ w) with (2 ^ (w - k) * 2 ^ k) by (rewrite <- Z.pow_add_r by lia; f_equal; lia).
  exists (q - 2 ^ (w - k) * ((x + h) / (2 ^ (w - k) * 2 ^ k))). rewrite Hq at 1. ring.
Qed.

Lemma swrap_add_swrap w a x : 0 < w -> swrap w (a + swrap w x) = swrap w (a + x).
Proof.
  intros Hw. unfold swrap. set (h := 2 ^ (w - 1)). f_equal.
  replace (a + ((x + h) mod 2 ^ w - h) + h) with (a + (x + h) mod 2 ^ w) by ring.
  rewrite Zplus_mod_idemp_r. f_equal. ring.
Qed.

(** Turns the bit operators into sums, when the parts do not overlap. *)
Ltac eval_pow :=
  change (2 ^ 8) with 256; change (2 ^ 16) with 65536; change (2 ^ 24) with 16777216; change (2 ^ 32) with 4294967296;
  change (2 ^ 40) with 1099511627776; change (2 ^ 48) with 281474976710656; change (2 ^ 56) with 72057594037927936;
  change (2 ^ 64) with 18446744073709551616; change (2 ^ (32 - 1)) with 2147483648; change (2 ^ (16 - 1)) with 32768.

Ltac wrap_small_step :=
  match goal with
  | |- context [u32 ?x] => rewrite (wrap_small 32 x : _ -> u32 x = x) by (unfold is_word; eval_pow; lia)
  | |- context [u64 ?x] => rewrite (wrap_small 64 x : _ -> u64 x = x) by (unfold is_word; eval_pow; lia)
  | |- context [u16 ?x] => rewrite (wrap_small 16 x : _ -> u16 x = x) by (unfold is_word; eval_pow; lia)
  | |- context [u8 ?x] => rewrite (wrap_small 8 x : _ -> u8 x = x) by (unfold is_word; eval_pow; lia)
  | |- context [s32 ?x] => rewrite (swrap_small 32 x : _ -> _ -> s32 x = x) by (eval_pow; lia)
  | |- context [s16 ?x] => rewrite (swrap_small 16 x : _ -> _ -> s16 x = x) by (eval_pow; lia)
  end.

Ltac mod_side :=
  eval_pow; first [ lia | div_lia
    | apply (swrap_mod_low 32 8); mod_side | apply (swrap_mod_low 32 16); mod_side | apply (swrap_mod_low 32 24); mod_side
    | apply (swrap_mod_low 16 8); mod_side ].

Ltac lor_step k x y := first
  [ rewrite (lor_disjoint k x y) by mod_side | rewrite (lor_disjoint_r k y x) by mod_side ].

Ltac no_lor x := lazymatch x with context [Z.lor _ _] => fail | _ => idtac end.

Ltac lor_sum :=
  repeat match goal with |- context [?x <<< ?n] => rewrite (Z.shiftl_mul_pow2 x n) by lia end;
  eval_pow;
  repeat first
    [ wrap_small_step
    | match goal with |- context [?x ||| ?y] => no_lor x; no_lor y;
        first [lor_step 8 x y | lor_step 16 x y | lor_step 24 x y | lor_step 32 x y | lor_step 40 x y | lor_step 48 x y] end ].

Lemma ub_bound A i : is_bytes A -> 0 <= ub A i < 256.
Proof.
  intros HA. unfold ub. destruct (decide (i < length A)%nat) as [Hi | Hi].
  - apply (proj1 (Forall_nth _ 0 A) HA); lia.
  - rewrite nth_overflow by lia. lia.
Qed.

Lemma take_ub n A : (n <= length A)%nat -> take n A = ub A <$> seq 0 n.
Proof.
  intros Hn. apply list_eq_same_length with n.
  - by rewrite length_fmap, length_seq.
  - by rewrite length_take_le.
  - intros i x y Hi Hx Hy. rewrite lookup_take in Hx. destruct (decide (i < n)%nat); [| done].
    rewrite list_lookup_fmap, lookup_seq_lt in Hy by done. injection Hy as <-.
    unfold ub. cbn. by erewrite nth_lookup_Some.
Qed.

Lemma load_le_ub n A : (n <= length A)%nat -> load_le n A = le_value (ub A <$> seq 0 n).
Proof. intros Hn. unfold load_le. by rewrite take_ub. Qed.

Lemma load_le_drop n k A : (k + n <= length A)%nat -> load_le n (drop k A) = le_value (ub A <$> seq k n).
Proof.
  intros Hn. rewrite load_le_ub by (rewrite length_drop; lia). f_equal.
  replace (seq k n) with (Nat.add k <$> seq 0 n) by (rewrite fmap_add_seq; f_equal; lia). rewrite <- list_fmap_compose.
  apply list_fmap_ext. intros i x _. unfold ub. cbn. rewrite <- nth_skipn. done.
Qed.

(** A reader of the headers: its width in bytes, its sign and itself. *)
Record reader := Reader { r_width : nat; r_signed : bool; r_read : bytes -> Z }.

(** What a reader of [n] bytes means. *)
Definition as_int (n : nat) (signed : bool) (v : Z) : Z := if signed then swrap (8 * Z.of_nat n) v else v.
Definition le_read (r : reader) (A : bytes) : Z := as_int (r_width r) (r_signed r) (le_value (take (r_width r) A)).
Definition be_read (r : reader) (A : bytes) : Z := as_int (r_width r) (r_signed r) (le_value (reverse (take (r_width r) A))).

Definition generic_readers : list reader :=
  [Reader 2 true Generic.sint2korr; Reader 3 true Generic.sint3korr; Reader 4 true Generic.sint4korr;
   Reader 8 true Generic.sint8korr; Reader 2 false Generic.uint2korr; Reader 3 false Generic.uint3korr;
   Reader 4 false Generic.uint4korr; Reader 5 false Generic.uint5korr; Reader 6 false Generic.uint6korr;
   Reader 8 false Generic.uint8korr].

Definition x86_readers : list reader :=
  [Reader 2 true X86.sint2korr; Reader 3 true X86.sint3korr; Reader 4 true X86.sint4korr;
   Reader 8 true X86.sint8korr; Reader 2 false X86.uint2korr; Reader 3 false X86.uint3korr;
   Reader 4 false X86.uint4korr; Reader 5 false X86.uint5korr; Reader 6 false X86.uint6korr;
   Reader 8 false X86.uint8korr].

Definition x64_readers : list reader :=
  [Reader 2 true X64.sint2korr; Reader 3 true X64.sint3korr; Reader 4 true X64.sint4korr;
   Reader 8 true X64.sint8korr; Reader 2 false X64.uint2korr; Reader 3 false X64.uint3korr;
   Reader 4 false X64.uint4korr; Reader 5 false X64.uint5korr; Reader 6 false X64.uint6korr;
   Reader 8 false X64.uint8korr].

Definition mi_readers : list reader :=
  [Reader 1 true Mi.mi_sint1korr; Reader 1 false Mi.mi_uint1korr; Reader 2 true Mi.mi_sint2korr;
   Reader 3 true Mi.mi_sint3korr; Reader 4 true Mi.mi_sint4korr; Reader 8 true Mi.mi_sint8korr;
   Reader 2 false Mi.mi_uint2korr; Reader 3 false Mi.mi_uint3korr; Reader 4 false Mi.mi_uint4korr;
   Reader 5 false Mi.mi_uint5korr; Reader 6 false Mi.mi_uint6korr; Reader 7 false Mi.mi_uint7korr;
   Reader 8 false Mi.mi_uint8korr; Reader 5 false X64.mi_uint5korr; Reader 6 false X64.mi_uint6korr;
   Reader 7 false X64.mi_uint7korr; Reader 8 false X64.mi_uint8korr].

Lemma bswapq_le B : is_bytes B -> length B = 8%nat -> bswapq (le_value B) = le_value (reverse B).
Proof. intros HB H8. unfold bswapq. rewrite <- H8. by rewrite le_bytes_value. Qed.

Lemma swrap_sign k x : 0 < k -> 0 <= x < 2 ^ k -> swrap k x = if x <? 2 ^ (k - 1) then x else x - 2 ^ k.
Proof.
  intros Hk Hx. assert (E : 2 ^ k = 2 * 2 ^ (k - 1)) by (rewrite <- Z.pow_succ_r by lia; f_equal; lia).
  destruct (Z.ltb_spec x (2 ^ (k - 1))).
  - apply swrap_small; lia.
  - unfold swrap. rewrite <- (Z.mod_add (x + 2 ^ (k - 1)) (-1)) by lia. rewrite Z.mod_small by lia. lia.
Qed.

(** The bytes of [A] become variables between 0 and 255. *)
Ltac name_bytes A HA :=
  repeat match goal with |- context [ub A ?i] =>
    let b := fresh "b" in let Hb := fresh "Hb" in
    pose proof (ub_bound A i HA) as Hb; set (b := ub A i) in *; clearbody b end.

(** Close an equation of two sums of bytes under the same sign. *)
Ltac sum_eq :=
  unfold s16, s32, s64;
  change (8 * Z.of_nat 1) with 8; change (8 * Z.of_nat 2) with 16; change (8 * Z.of_nat 3) with 24;
  change (8 * Z.of_nat 4) with 32; change (8 * Z.of_nat 8) with 64;
  rewrite ?swrap_add_swrap by lia;
  first [ lia | (apply f_equal; lia)
        | (rewrite ?swrap_sign by (eval_pow; lia); change (2 ^ (24 - 1)) with 8388608; eval_pow;
           repeat case_match; lia) ].

Ltac reader_eq A HA :=
  rewrite ?load_le_ub, ?load_le_drop, ?take_ub by lia; cbn [seq fmap list_fmap le_value]; name_bytes A HA;
  rewrite ?land_128 by done;
  try (match goal with |- context [?b <? 128] => destruct (Z.ltb_spec b 128) end; cbn [negb]);
  lor_sum; sum_eq.

Ltac readers_eq A HA :=
  repeat apply Forall_cons_2; [.. | apply Forall_nil_2]; cbn [r_width r_signed r_read as_int]; intros HL; reader_eq A HA.

Lemma generic_read A : is_bytes A -> Forall (fun r => (r_width r <= length A)%nat -> r_read r A = le_read r A) generic_readers.
Proof.
  intros HA. unfold generic_readers, le_read, Generic.sint8korr, Generic.sint2korr, Generic.sint3korr, Generic.sint4korr,
    Generic.uint2korr, Generic.uint3korr, Generic.uint4korr, Generic.uint5korr, Generic.uint6korr, Generic.uint8korr.
  readers_eq A HA.
Qed.

Lemma x86_read A : is_bytes A -> Forall (fun r => (r_width r <= length A)%nat -> r_read r A = le_read r A) x86_readers.
Proof.
  intros HA. unfold x86_readers, le_read, X86.sint8korr, X86.sint2korr, X86.sint3korr, X86.sint4korr,
    X86.uint2korr, X86.uint3korr, X86.uint4korr, X86.uint5korr, X86.uint6korr, X86.uint8korr.
  readers_eq A HA.
Qed.

Lemma x64_read A : is_bytes A -> Forall (fun r => (r_width r <= length A)%nat -> r_read r A = le_read r A) x64_readers.
Proof.
  intros HA. unfold x64_readers, le_read, X64.sint8korr, X64.sint2korr, X64.sint3korr, X64.sint4korr,
    X64.uint2korr, X64.uint3korr, X64.uint4korr, X64.uint5korr, X64.uint6korr, X64.uint8korr.
  readers_eq A HA.
Qed.

(** Shifting a signed byte to the top of a word forgets its sign. *)
Lemma swrap_sub_period w x : 0 < w -> swrap w (x - 2 ^ w) = swrap w x.
Proof.
  intros Hw. unfold swrap. f_equal. replace (x - 2 ^ w + 2 ^ (w - 1)) with (x + 2 ^ (w - 1) + (-1) * 2 ^ w) by ring.
  apply Z.mod_add. lia.
Qed.

Lemma sb_shift k A i : is_bytes A -> 0 <= k -> swrap (8 + k) (sb A i <<< k) = swrap (8 + k) (ub A i <<< k).
Proof.
  intros HA Hk. pose proof (ub_bound A i HA) as Hb. unfold sb. rewrite (swrap_sign 8) by (eval_pow; lia).
  case_match; [done |]. rewrite !Z.shiftl_mul_pow2 by done. rewrite Z.mul_sub_distr_r, <- Z.pow_add_r by lia.
  apply swrap_sub_period. lia.
Qed.

Lemma sb_s16 A i : is_bytes A -> s16 (sb A i) = sb A i.
Proof.
  intros HA. unfold s16. pose proof (ub_bound A i HA) as Hb. unfold sb. rewrite (swrap_sign 8) by (eval_pow; lia).
  case_match; apply swrap_small; eval_pow; change (2 ^ (8 - 1)) with 128 in *; lia.
Qed.

Lemma sb_top16 A i : is_bytes A -> s16 (sb A i <<< 8) = s16 (ub A i <<< 8).
Proof. intros HA. by apply (sb_shift 8). Qed.

Lemma sb_top32 A i : is_bytes A -> s32 (s16 (sb A i) <<< 24) = s32 (ub A i <<< 24).
Proof. intros HA. rewrite sb_s16 by done. by apply (sb_shift 24). Qed.

Lemma mi_read A :
  is_bytes A -> Forall (fun r => (r_width r <= length A)%nat -> r_read r A = be_read r A) (take 13 mi_readers).
Proof.
  intros HA. unfold mi_readers, be_read, Mi.mi_sint1korr, Mi.mi_uint1korr, Mi.mi_sint2korr, Mi.mi_sint3korr,
    Mi.mi_sint4korr, Mi.mi_sint8korr, Mi.mi_uint2korr, Mi.mi_uint3korr, Mi.mi_uint4korr, Mi.mi_uint5korr,
    Mi.mi_uint6korr, Mi.mi_uint7korr, Mi.mi_uint8korr. cbn [take].
  repeat apply Forall_cons_2; [.. | apply Forall_nil_2]; cbn [r_width r_signed r_read as_int]; intros HL;
    rewrite ?sb_top16, ?sb_top32 by done; rewrite take_ub by lia; cbn [seq fmap list_fmap]; unfold reverse; cbn [rev_append];
    reader_eq A HA.
Qed.

(** [bswapq] of a word whose low bytes are empty. *)
Lemma le_value_app_zeros B k : le_value (B ++ replicate k 0) = le_value B.
Proof.
  induction B as [| b B IH]; cbn [le_value app]; [| by rewrite IH].
  induction k as [| k IH]; [done |]. cbn [replicate le_value]. rewrite IH. lia.
Qed.

Lemma bswapq_shifted v k B :
  is_bytes B -> (k + length B = 8)%nat -> v = le_value (replicate k 0 ++ B) -> bswapq v = le_value (reverse B).
Proof.
  intros HB H8 ->. rewrite bswapq_le.
  - by rewrite reverse_app, reverse_replicate, le_value_app_zeros.
  - apply Forall_app. split; [| done]. apply Forall_replicate. lia.
  - by rewrite length_app, length_replicate.
Qed.

Lemma mi_swap_read A :
  is_bytes A -> Forall (fun r => (r_width r <= length A)%nat -> r_read r A = be_read r A) (drop 13 mi_readers).
Proof.
  intros HA. unfold mi_readers, be_read, X64.mi_uint5korr, X64.mi_uint6korr, X64.mi_uint7korr, X64.mi_uint8korr.
  cbn [drop]. repeat apply Forall_cons_2; [.. | apply Forall_nil_2]; cbn [r_width r_signed r_read as_int]; intros HL;
    [ apply (bswapq_shifted _ 3) | apply (bswapq_shifted _ 2) | apply (bswapq_shifted _ 1) | apply (bswapq_shifted _ 0) ];
    try (by apply is_bytes_take); try (rewrite length_take_le; lia);
    rewrite (take_ub _ A) by lia; cbn [replicate app]; reader_eq A HA.
Qed.

Definition le_readers : list reader := generic_readers ++ x86_readers ++ x64_readers.

Lemma le_reads A r : is_bytes A -> r ∈ le_readers -> (r_width r <= length A)%nat -> r_read r A = le_read r A.
Proof.
  intros HA. revert r. apply (proj1 (Forall_forall (fun r => (r_width r <= length A)%nat -> r_read r A = le_read r A) le_readers)). unfold le_readers.
  rewrite !Forall_app. split_and!; [by apply generic_read | by apply x86_read | by apply x64_read].
Qed.

Lemma be_reads A r : is_bytes A -> r ∈ mi_readers -> (r_width r <= length A)%nat -> r_read r A = be_read r A.
Proof.
  intros HA. revert r. apply (proj1 (Forall_forall (fun r => (r_width r <= length A)%nat -> r_read r A = be_read r A) mi_readers)).
  rewrite <- (take_drop 13 mi_readers). apply Forall_app. split; [by apply mi_read | by apply mi_swap_read].
Qed.

(** the three families of low-byte-first readers (any machine, x86 with 32-bit longs,
    x86_64) all read the same number, the one the bytes mean; the high-byte-first readers of
    myisampack.h and their byte-swapping x86_64 replacements all read the reversed bytes.
    Every width and sign is covered. *)
Theorem korr_variants_agree A r1 r2 :
  is_bytes A -> r_width r1 = r_width r2 -> r_signed r1 = r_signed r2 -> (r_width r1 <= length A)%nat ->
  (r1 ∈ le_readers /\ r2 ∈ le_readers -> r_read r1 A = r_read r2 A /\ r_read r1 A = le_read r1 A) /\
  (r1 ∈ mi_readers /\ r2 ∈ mi_readers -> r_read r1 A = r_read r2 A /\ r_read r1 A = be_read r1 A).
Proof.
  intros HA Hw Hs Hl. split; intros [H1 H2].
  - rewrite !le_reads by (done || lia). unfold le_read. by rewrite Hw, Hs.
  - rewrite !be_reads by (done || lia). unfold be_read. by rewrite Hw, Hs.
Qed.

(** Membership in the tables above, by the position. *)
Ltac in_table i := apply list_elem_of_lookup; exists i; reflexivity.

Lemma korr_variants_agree_witness :
  X64.uint6korr [1; 2; 3; 4; 5; 6; 7; 250] = Generic.uint6korr [1; 2; 3; 4; 5; 6; 7; 250] /\
  X64.mi_uint7korr [1; 2; 3; 4; 5; 6; 7; 250] = Mi.mi_uint7korr [1; 2; 3; 4; 5; 6; 7; 250].
Proof.
  assert (HA : is_bytes [1; 2; 3; 4; 5; 6; 7; 250]) by (repeat constructor; lia). split.
  - destruct (korr_variants_agree _ (Reader 6 false X64.uint6korr) (Reader 6 false Generic.uint6korr) HA) as [H _];
      [done | done | cbn; lia |]. apply H. split; [in_table 28%nat | in_table 8%nat].
  - destruct (korr_variants_agree _ (Reader 7 false X64.mi_uint7korr) (Reader 7 false Mi.mi_uint7korr) HA) as [_ H];
      [done | done | cbn; lia |]. apply H. split; [in_table 15%nat | in_table 11%nat].
Defined.

(** ** Storing, and reading back *)

(** A store of the headers: its width and the bytes it writes for a number. *)
Record writer := Writer { w_width : nat; w_write : Z -> bytes }.

Definition generic_writers : list writer :=
  [Writer 2 Generic.int2store; Writer 3 Generic.int3store; Writer 4 Generic.int4store; Writer 5 Generic.int5store;
   Writer 6 Generic.int6store; Writer 8 Generic.int8store].
Definition x86_writers : list writer :=
  [Writer 2 X86.int2store; Writer 3 X86.int3store; Writer 4 X86.int4store; Writer 5 X86.int5store;
   Writer 6 X86.int6store; Writer 8 X86.int8store].
Definition x64_writers : list writer :=
  [Writer 2 X64.int2store; Writer 3 X64.int3store; Writer 4 X64.int4store; Writer 5 X64.int5store;
   Writer 6 X64.int6store; Writer 8 X64.int8store].
Definition le_writers : list writer := generic_writers ++ x86_writers ++ x64_writers.
(** The stores of myisampack.h, where [ulong] has [W] bits. *)
Definition mi_writers (W : Z) : list writer :=
  [Writer 1 Mi.mi_int1store; Writer 2 Mi.mi_int2store; Writer 3 (Mi.mi_int3store W); Writer 4 (Mi.mi_int4store W);
   Writer 5 (Mi.mi_int5store W); Writer 6 (Mi.mi_int6store W); Writer 7 (Mi.mi_int7store W); Writer 8 (Mi.mi_int8store W)].

Lemma u8_shiftr_wrap w k z : 0 <= k -> k + 8 <= w -> u8 (wrap w z >>> k) = u8 (z >>> k).
Proof.
  intros Hk Hw. apply Z.bits_inj'. intros i Hi. unfold u8. rewrite !testbit_wrap by lia.
  destruct (Z.ltb_spec i 8); [| done]. rewrite !Z.shiftr_spec, testbit_wrap by lia.
  destruct (Z.ltb_spec (i + k) w); [done | lia].
Qed.

Lemma u8_wrap w z : 8 <= w -> u8 (wrap w z) = u8 z.
Proof. intros Hw. rewrite <- (Z.shiftr_0_r (wrap w z)), u8_shiftr_wrap, Z.shiftr_0_r by lia. done. Qed.

(** [s32 z] and [z] have the same low four bytes. *)
Lemma wrap_swrap w z : 0 < w -> wrap w (swrap w z) = wrap w z.
Proof. intros Hw. unfold wrap, swrap. rewrite Zminus_mod_idemp_l. f_equal. ring. Qed.

Lemma le_bytes_s32 z : le_bytes 4 (s32 z) = le_bytes 4 z.
Proof. rewrite <- (le_bytes_wrap 4 32 (s32 z)), <- (le_bytes_wrap 4 32 z) by lia. f_equal. by apply (wrap_swrap 32). Qed.

Ltac store_eq :=
  unfold store_le; rewrite ?le_bytes_s32, ?app_nil_r; cbn [le_bytes app]; unfold u64, u32, u16;
  rewrite ?Z.shiftr_shiftr by lia; cbn [Z.add Pos.add Pos.succ Pos.add_carry];
  repeat (rewrite u8_shiftr_wrap by lia); repeat (rewrite u8_wrap by lia);
  rewrite ?Z.shiftr_shiftr by lia; reflexivity.

Lemma le_writes z : Forall (fun w => w_write w z = le_bytes (w_width w) z) le_writers.
Proof.
  unfold le_writers, generic_writers, x86_writers, x64_writers, Generic.int2store, Generic.int3store, Generic.int4store,
    Generic.int5store, Generic.int6store, Generic.int8store, X86.int2store, X86.int3store, X86.int4store, X86.int5store,
    X86.int6store, X86.int8store, X64.int2store, X64.int3store, X64.int4store, X64.int5store, X64.int6store, X64.int8store,
    Generic.int4store.
  cbn [app]. repeat apply Forall_cons_2; [.. | apply Forall_nil_2]; cbn [w_width w_write]; store_eq.
Qed.

Lemma mi_writes W z : 32 <= W -> Forall (fun w => w_write w z = reverse (le_bytes (w_width w) z)) (mi_writers W).
Proof.
  intros HW. unfold mi_writers, Mi.mi_int1store, Mi.mi_int2store, Mi.mi_int3store, Mi.mi_int4store, Mi.mi_int5store,
    Mi.mi_int6store, Mi.mi_int7store, Mi.mi_int8store, Mi.mi_int4store.
  repeat apply Forall_cons_2; [.. | apply Forall_nil_2]; cbn [w_width w_write]; unfold reverse; cbn [le_bytes rev_append]; store_eq.
Qed.

(** *** Reading back *)

Lemma is_bytes_write_le n z rest : is_bytes rest -> is_bytes (le_bytes n z ++ rest).
Proof. intros. apply Forall_app. split; [apply is_bytes_le | done]. Qed.

Lemma is_bytes_reverse B : is_bytes B -> is_bytes (reverse B).
Proof. unfold is_bytes. by rewrite Forall_reverse. Qed.

Lemma take_write n z rest : take n (le_bytes n z ++ rest) = le_bytes n z.
Proof. rewrite <- (length_le n z) at 1. apply take_app_length. Qed.

Lemma take_write_rev n z rest : take n (reverse (le_bytes n z) ++ rest) = reverse (le_bytes n z).
Proof. rewrite <- (length_le n z) at 1. rewrite <- length_reverse. apply take_app_length. Qed.

(** What is read back from [n] bytes of a stored [z]: its low [8n] bits. *)
Definition low_int (n : nat) (signed : bool) (z : Z) : Z := as_int n signed (wrap (8 * Z.of_nat n) z).

Lemma le_stored_read r w z rest : is_bytes rest -> r_width r = w_width w -> r ∈ le_readers -> w ∈ le_writers ->
  r_read r (w_write w z ++ rest) = low_int (r_width r) (r_signed r) z.
Proof.
  intros Hrest Hn Hr Hw. unfold low_int, wrap.
  pose proof (proj1 (Forall_forall _ _) (le_writes z) w Hw) as ->. rewrite <- Hn.
  assert (HA : is_bytes (le_bytes (r_width r) z ++ rest)) by by apply is_bytes_write_le.
  rewrite le_reads by (done || (rewrite length_app, length_le; lia)).
  unfold le_read. by rewrite take_write, le_value_le.
Qed.

Lemma be_stored_read W r w z rest : 32 <= W -> is_bytes rest -> r_width r = w_width w -> r ∈ mi_readers -> w ∈ mi_writers W ->
  r_read r (w_write w z ++ rest) = low_int (r_width r) (r_signed r) z.
Proof.
  intros HW Hrest Hn Hr Hw. unfold low_int, wrap.
  pose proof (proj1 (Forall_forall _ _) (mi_writes W z HW) w Hw) as ->. rewrite <- Hn.
  assert (HA : is_bytes (reverse (le_bytes (r_width r) z) ++ rest))
    by (apply Forall_app; split; [apply is_bytes_reverse, is_bytes_le | done]).
  rewrite be_reads by (done || (rewrite length_app, length_reverse, length_le; lia)).
  unfold be_read. by rewrite take_write_rev, reverse_involutive, le_value_le.
Qed.

(** The unsigned readers of the portable macros on what their stores wrote. *)
Lemma uint2korr_stored z rest : is_bytes rest -> 0 <= z < 2 ^ 16 -> Generic.uint2korr (Generic.int2store z ++ rest) = z.
Proof.
  intros Hrest Hz. pose proof (le_stored_read (Reader 2 false Generic.uint2korr) (Writer 2 Generic.int2store) z rest Hrest eq_refl) as H.
  cbn [r_read w_write r_width r_signed] in H. rewrite H.
  - by apply (wrap_small 16).
  - unfold le_readers, generic_readers. apply elem_of_app. left. do 4 right. left.
  - left.
Qed.

Lemma uint4korr_stored z rest : is_bytes rest -> 0 <= z < 2 ^ 32 -> Generic.uint4korr (Generic.int4store z ++ rest) = z.
Proof.
  intros Hrest Hz. pose proof (le_stored_read (Reader 4 false Generic.uint4korr) (Writer 4 Generic.int4store) z rest Hrest eq_refl) as H.
  cbn [r_read w_write r_width r_signed] in H. rewrite H.
  - by apply (wrap_small 32).
  - unfold le_readers, generic_readers. apply elem_of_app. left. do 6 right. left.
  - do 2 right. left.
Qed.

(** C3: a number stored by any of the low-byte-first stores and read by any of the readers of
    that width comes back as its low bits (sign-extended by the signed readers), whatever
    follows it in the record; the same holds of the high-byte-first pairs of myisampack.h, on
    machines whose [ulong] has 32 bits and on those where it has 64. *)
Theorem store_korr_roundtrip W r w z rest :
  32 <= W -> is_bytes rest -> r_width r = w_width w ->
  (r ∈ le_readers /\ w ∈ le_writers) \/ (r ∈ mi_readers /\ w ∈ mi_writers W) ->
  r_read r (w_write w z ++ rest) = low_int (r_width r) (r_signed r) z.
Proof.
  intros HW Hrest Hn [[Hr Hw] | [Hr Hw]]; [by apply le_stored_read | by apply (be_stored_read W)].
Qed.

Lemma store_korr_roundtrip_witness :
  X64.sint3korr (Generic.int3store (-5) ++ [7]) = -5 /\ X64.mi_uint7korr (Mi.mi_int7store 32 0x01020304050607 ++ []) = 0x01020304050607.
Proof.
  split.
  - apply (store_korr_roundtrip 32 (Reader 3 true X64.sint3korr) (Writer 3 Generic.int3store)); [lia | repeat constructor; lia | done |].
    left. split; [in_table 21%nat | in_table 1%nat].
  - apply (store_korr_roundtrip 32 (Reader 7 false X64.mi_uint7korr) (Writer 7 (Mi.mi_int7store 32))); [lia | constructor | done |].
    right. split; [in_table 15%nat | in_table 6%nat].
Defined.

(** ** Keys: high-byte-first numbers compare like bytes *)

(** [memcmp] of two strings of the same length. *)
Fixpoint memcmp (A B : bytes) : comparison :=
  match A, B with
  | a :: A, b :: B => match a ?= b with Eq => memcmp A B | c => c end
  | _, _ => Eq
  end.

Fixpoint be_value (acc : Z) (A : bytes) : Z := match A with [] => acc | b :: A => be_value (256 * acc + b) A end.

Lemma le_value_app A B : le_value (A ++ B) = le_value A + 2 ^ (8 * Z.of_nat (length A)) * le_value B.
Proof.
  induction A as [| a A IH]; cbn [le_value app length]; [by rewrite Z.mul_1_l |]. rewrite IH.
  replace (8 * Z.of_nat (S (length A))) with (8 + 8 * Z.of_nat (length A)) by lia. rewrite Z.pow_add_r by lia.
  change (2 ^ 8) with 256. ring.
Qed.

Lemma memcmp_value A B :
  is_bytes A -> is_bytes B -> length A = length B -> memcmp A B = (le_value (reverse A) ?= le_value (reverse B)).
Proof.
  intros HA. revert B. induction HA as [| a A Ha HA IH]; intros [| b B] HB Hl; try done. injection Hl as Hl.
  apply Forall_cons in HB as [Hb HB]. cbn [memcmp]. rewrite !reverse_cons, !le_value_app, !length_reverse, <- Hl. cbn [le_value].
  pose proof (le_value_bound (reverse A) (is_bytes_reverse _ HA)) as HvA.
  pose proof (le_value_bound (reverse B) (is_bytes_reverse _ HB)) as HvB. rewrite length_reverse in HvA, HvB. rewrite <- Hl in HvB.
  set (p := 2 ^ (8 * Z.of_nat (length A))) in *. destruct (Z.compare_spec a b) as [-> | Hab | Hab].
  - rewrite IH by done. destruct (Z.compare_spec (le_value (reverse A)) (le_value (reverse B))) as [-> | H | H]; symmetry;
      [by rewrite Z.compare_refl | apply Z.compare_lt_iff | apply Z.compare_gt_iff]; lia.
  - symmetry. apply Z.compare_lt_iff. nia.
  - symmetry. apply Z.compare_gt_iff. nia.
Qed.

(** keys and file pointers are stored high byte first so that [memcmp] of two stored
    numbers is their comparison as numbers, at every width from one to eight bytes. *)
Theorem mi_store_orders_keys W w z1 z2 :
  32 <= W -> w ∈ mi_writers W -> is_word (8 * Z.of_nat (w_width w)) z1 -> is_word (8 * Z.of_nat (w_width w)) z2 ->
  memcmp (w_write w z1) (w_write w z2) = (z1 ?= z2).
Proof.
  intros HW Hw H1 H2. rewrite !(proj1 (Forall_forall _ _) (mi_writes W _ HW) w Hw).
  rewrite memcmp_value by (by rewrite ?length_reverse, ?length_le || apply is_bytes_reverse, is_bytes_le).
  rewrite !reverse_involutive, !le_value_le. by rewrite !Z.mod_small.
Qed.

Lemma mi_store_orders_keys_witness :
  memcmp (Mi.mi_int5store 32 0x0100000001) (Mi.mi_int5store 32 0x00FFFFFFFF) = Gt.
Proof.
  apply (mi_store_orders_keys 32 (Writer 5 (Mi.mi_int5store 32))); [lia | in_table 4%nat | ..]; unfold is_word; cbn; lia.
Defined.

(** *** Row numbers and file offsets *)

Lemma mi_write_read W r w z rest :
  32 <= W -> is_bytes rest -> r ∈ mi_readers -> w ∈ mi_writers W -> r_width r = w_width w -> r_signed r = false ->
  is_word (8 * Z.of_nat (w_width w)) z -> r_read r (w_write w z ++ rest) = z.
Proof.
  intros HW Hrest Hr Hw Hn Hs Hz. rewrite (proj1 (Forall_forall _ _) (mi_writes W z HW) w Hw). rewrite <- Hn in *.
  assert (HA : is_bytes (reverse (le_bytes (r_width r) z) ++ rest))
    by (apply Forall_app; split; [apply is_bytes_reverse, is_bytes_le | done]).
  rewrite be_reads by (done || (rewrite length_app, length_reverse, length_le; lia)).
  unfold be_read. rewrite take_write_rev, reverse_involutive, le_value_le, Hs. by apply Z.mod_small.
Qed.

(** a row number or file offset stored in the eight bytes of a file is read back, with
    8-byte and with 4-byte offsets; "no offset", stored as eight bytes 255 whatever the width,
    is read back as the [HA_OFFSET_ERROR] of that width. *)
Theorem mi_size_roundtrip W (big_offsets : bool) A :
  32 <= W -> is_word (if big_offsets then 64 else 32) A ->
  length (Mi.mi_sizestore W big_offsets A) = 8%nat /\ length (Mi.mi_rowstore W big_offsets A) = 8%nat /\
  Mi.mi_sizekorr big_offsets (Mi.mi_sizestore W big_offsets A) = A /\
  Mi.mi_rowkorr big_offsets (Mi.mi_rowstore W big_offsets A) = A /\
  (A = wnot (if big_offsets then 64 else 32) 0 -> Mi.mi_sizestore W big_offsets A = replicate 8 255).
Proof.
  intros HW HA.
  assert (H4 : is_word 32 A -> Mi.mi_uint4korr (Mi.mi_int4store W A) = A).
  { intros H. rewrite <- (app_nil_r (Mi.mi_int4store W A)).
    apply (mi_write_read W (Reader 4 false Mi.mi_uint4korr) (Writer 4 (Mi.mi_int4store W))); try done; [constructor | in_table 8%nat | in_table 3%nat]. }
  assert (H8 : is_word 64 A -> Mi.mi_uint8korr (Mi.mi_int8store W A) = A).
  { intros H. rewrite <- (app_nil_r (Mi.mi_int8store W A)).
    apply (mi_write_read W (Reader 8 false Mi.mi_uint8korr) (Writer 8 (Mi.mi_int8store W))); try done; [constructor | in_table 12%nat | in_table 7%nat]. }
  unfold Mi.mi_sizekorr, Mi.mi_sizestore, Mi.mi_rowkorr, Mi.mi_rowstore. destruct big_offsets.
  - split_and!; try done; [by apply H8 | by apply H8 |]. intros ->.
    pose proof (proj1 (Forall_forall _ _) (mi_writes W (wnot 64 0) HW) (Writer 8 (Mi.mi_int8store W))) as E.
    cbn [w_write w_width] in E. rewrite E by in_table 7%nat. by vm_compute.
  - assert (Hdrop : forall l, drop 4 (Mi.mi_int4store W 0 ++ l) = l) by done.
    destruct (Z.eqb_spec A (wnot 32 0)) as [-> | Hne]; rewrite ?Hdrop; split_and!; try done; by apply H4.
Qed.

Lemma mi_size_roundtrip_witness :
  Mi.mi_sizekorr false (Mi.mi_sizestore 64 false 0xFFFFFFFF) = 0xFFFFFFFF.
Proof. apply (mi_size_roundtrip 64 false 0xFFFFFFFF); [lia | unfold is_word; cbn; lia]. Defined.

(** ** Floats *)

(** a float or double written to a file by one kind of machine and read by another gives the
    other machine's representation of the same value: the file bytes do not depend on the order
    of the machine that wrote them, for both families (high byte first and low byte first). *)
Theorem floats_are_portable o1 o2 v :
  (length v = 8%nat ->
   MiFloat.mi_float8get o2 (MiFloat.mi_float8store o1 (in_memory o1 v)) = in_memory o2 v /\
   MiFloat.mi_float8store o1 (in_memory o1 v) = reverse v /\
   LeFloat.float8get o2 (LeFloat.float8store o1 (in_memory o1 v)) = in_memory o2 v /\
   LeFloat.float8store o1 (in_memory o1 v) = v) /\
  (length v = 4%nat ->
   MiFloat.mi_float4get o2 (MiFloat.mi_float4store o1 (in_memory4 o1 v)) = in_memory4 o2 v /\
   MiFloat.mi_float4store o1 (in_memory4 o1 v) = reverse v /\
   LeFloat.float4get o2 (LeFloat.float4store o1 (in_memory4 o1 v)) = in_memory4 o2 v /\
   LeFloat.float4store o1 (in_memory4 o1 v) = v).
Proof.
  split; intros Hv; repeat (match goal with l : list Z |- _ => destruct l; try discriminate Hv end); destruct o1, o2; done.
Qed.

Lemma floats_are_portable_witness :
  MiFloat.mi_float8get LittleEndian (MiFloat.mi_float8store BiEndian (in_memory BiEndian [0; 0; 0; 0; 0; 0; 240; 63])) =
  in_memory LittleEndian [0; 0; 0; 0; 0; 0; 240; 63].
Proof. apply (floats_are_portable BiEndian LittleEndian [0; 0; 0; 0; 0; 0; 240; 63]); reflexivity. Defined.
