(* ===== verification/ByteMem.v ===== *)
(** * ByteMem: memory as bytes at addresses

    Strings and join buffers work on raw bytes through pointers.  Memory is a map
    from addresses to bytes with the sizes of the heap blocks; an access to an
    address that is not there, and freeing what is not a block, have no result.
    Where one array is enough a buffer is its list of bytes.
    The file has no code of its own. *)

From stdpp Require Import base numbers list gmap.
From Stdlib Require Import ZArith Lia.
From S2P Require Import Prelude ByteOrder.

Local Open Scope Z_scope.

(** ** Memory *)

Record memory := Mem { mem_bytes : gmap Z Z; blocks : gmap Z Z }.

Definition read (m : memory) (a : Z) : option Z := mem_bytes m !! a.
Definition write (m : memory) (a b : Z) : option memory :=
  if bool_decide (is_Some (mem_bytes m !! a)) then Some (Mem (<[a := u8 b]> (mem_bytes m)) (blocks m)) else None.

Fixpoint read_bytes (m : memory) (a : Z) (n : nat) : option bytes :=
  match n with O => Some [] | S n => b ← read m a; bs ← read_bytes m (a + 1) n; Some (b :: bs) end.
Fixpoint write_bytes (m : memory) (a : Z) (bs : bytes) : option memory :=
  match bs with [] => Some m | b :: bs => m ← write m a b; write_bytes m (a + 1) bs end.

(** [my_free]: the bytes of the block are gone; NULL is allowed. *)
Definition my_free (m : memory) (p : Z) : option memory :=
  if p =? 0 then Some m else
  n ← blocks m !! p;
  Some (Mem (filter (fun kb => ~ (p <= kb.1 < p + n)) (mem_bytes m)) (delete p (blocks m))).

(** ** Lemmas on memory *)

Definition mem_ok (m : memory) : Prop := forall a b, read m a = Some b -> 0 <= b < 256.

(** The addresses that are there stay there. *)
Definition same_domain (m m' : memory) : Prop := blocks m' = blocks m /\ forall a, is_Some (read m' a) <-> is_Some (read m a).

Lemma same_domain_refl m : same_domain m m.
Proof. done. Qed.
Lemma same_domain_trans m1 m2 m3 : same_domain m1 m2 -> same_domain m2 m3 -> same_domain m1 m3.
Proof. intros [E1 H1] [E2 H2]. split; [congruence |]. intros a. by rewrite H2, H1. Qed.

Lemma write_ok m a b : mem_ok m -> is_Some (read m a) ->
  exists m', write m a b = Some m' /\ mem_ok m' /\ same_domain m m' /\ read m' a = Some (u8 b) /\
    forall x, x <> a -> read m' x = read m x.
Proof.
  intros Hm Ha. unfold write. rewrite bool_decide_eq_true_2 by done. eexists. split; [reflexivity |]. unfold read in *.
  cbn [mem_bytes blocks]. split_and!.
  - intros x y. unfold read. cbn [mem_bytes]. destruct (decide (a = x)) as [<- |].
    + rewrite lookup_insert_eq. intros [= <-]. pose proof (is_word_wrap 8 b ltac:(lia)) as Hw. unfold is_word in Hw. exact Hw.
    + rewrite lookup_insert_ne by done. apply Hm.
  - split; [done |]. intros x. unfold read. cbn [mem_bytes].
    destruct (decide (a = x)) as [<- |]; [rewrite lookup_insert_eq; naive_solver | by rewrite lookup_insert_ne].
  - by rewrite lookup_insert_eq.
  - intros x Hx. by rewrite lookup_insert_ne.
Qed.

Lemma read_bytes_ext m m' a n : (forall x, a <= x < a + Z.of_nat n -> read m' x = read m x) -> read_bytes m' a n = read_bytes m a n.
Proof.
  revert a. induction n as [| n IH]; intros a H; [done |]. cbn [read_bytes]. rewrite H by lia. destruct (read m a); [| done].
  cbn [mbind option_bind]. by rewrite IH by (intros; apply H; lia).
Qed.

Lemma read_bytes_length m a n bs : read_bytes m a n = Some bs -> length bs = n.
Proof.
  revert a bs. induction n as [| n IH]; intros a bs; cbn [read_bytes]; [by intros [= <-] |].
  destruct (read m a); [| done]. cbn [mbind option_bind]. destruct (read_bytes m (a + 1) n) eqn:E; [| done]. cbn.
  intros [= <-]. cbn. f_equal. by eapply IH.
Qed.

Lemma read_bytes_app m a n k bs cs : read_bytes m a n = Some bs -> read_bytes m (a + Z.of_nat n) k = Some cs ->
  read_bytes m a (n + k) = Some (bs ++ cs).
Proof.
  revert a bs. induction n as [| n IH]; intros a bs; cbn [read_bytes Nat.add]; [intros [= <-]; by rewrite Z.add_0_r |].
  destruct (read m a); [| done]. cbn [mbind option_bind]. destruct (read_bytes m (a + 1) n) eqn:E; [| done].
  cbn. intros [= <-] Hk. rewrite (IH (a + 1) l E); [done |]. by replace (a + 1 + Z.of_nat n) with (a + Z.of_nat (S n)) by lia.
Qed.

Lemma read_bytes_some m a n : (forall x, a <= x < a + Z.of_nat n -> is_Some (read m x)) -> exists bs, read_bytes m a n = Some bs.
Proof.
  revert a. induction n as [| n IH]; intros a H; [by exists [] |]. cbn [read_bytes].
  destruct (H a) as [b ->]; [lia |]. destruct (IH (a + 1)) as [bs ->]; [intros; apply H; lia |]. by exists (b :: bs).
Qed.

Lemma read_bytes_lookup m a n bs : length bs = n -> (forall i b, bs !! i = Some b -> read m (a + Z.of_nat i) = Some b) ->
  read_bytes m a n = Some bs.
Proof.
  revert a n. induction bs as [| b bs IH]; intros a n <- H; [done |]. cbn [length read_bytes].
  pose proof (H 0%nat b eq_refl) as H0. rewrite Z.add_0_r in H0. rewrite H0. cbn [mbind option_bind]. rewrite (IH (a + 1) (length bs)); [done | done |].
  intros i c Hi. replace (a + 1 + Z.of_nat i) with (a + Z.of_nat (S i)) by lia. by apply H.
Qed.

Lemma read_bytes_bytes m a n bs : mem_ok m -> read_bytes m a n = Some bs -> is_bytes bs.
Proof.
  intros Hm. revert a bs. induction n as [| n IH]; intros a bs; cbn [read_bytes]; [intros [= <-]; apply Forall_nil_2 |].
  destruct (read m a) eqn:E; [| done]. cbn [mbind option_bind]. destruct (read_bytes m (a + 1) n) eqn:E'; [| done]. cbn.
  intros [= <-]. apply Forall_cons_2; [by eapply Hm | by eapply IH].
Qed.

Lemma write_bytes_ok bs : forall m a, mem_ok m -> (forall x, a <= x < a + Z.of_nat (length bs) -> is_Some (read m x)) -> is_bytes bs ->
  exists m', write_bytes m a bs = Some m' /\ mem_ok m' /\ same_domain m m' /\ read_bytes m' a (length bs) = Some bs /\
    forall x, ~ (a <= x < a + Z.of_nat (length bs)) -> read m' x = read m x.
Proof.
  induction bs as [| b bs IH]; intros m a Hm Ha Hb; [by exists m |]. cbn [length] in *. apply Forall_cons in Hb as [Hb Hbs].
  cbn [write_bytes]. destruct (write_ok m a b Hm) as (m1 & -> & Hm1 & Hd1 & Hr1 & Hf1); [apply Ha; lia |]. cbn [mbind option_bind].
  destruct (IH m1 (a + 1) Hm1) as (m2 & -> & Hm2 & Hd2 & Hr2 & Hf2); [| done |].
  { intros x Hx. apply (proj2 Hd1). apply Ha. lia. }
  exists m2. split_and!; [done | done | by eapply same_domain_trans | |].
  - cbn [read_bytes]. rewrite Hf2, Hr1 by lia. cbn [mbind option_bind]. rewrite Hr2. cbn. unfold u8. by rewrite (wrap_small 8).
  - intros x Hx. rewrite Hf2 by lia. apply Hf1. lia.
Qed.

(** ** Ranges of addresses *)

Definition writable (m : memory) (a n : Z) : Prop := forall x, a <= x < a + n -> is_Some (read m x).
Definition apart (a n b k : Z) : Prop := a + n <= b \/ b + k <= a.

Lemma writable_domain m m' a n : same_domain m m' -> writable m a n -> writable m' a n.
Proof. intros [_ D] Hw x Hx. apply D. by apply Hw. Qed.

Lemma write_bytes_apart m a bs m' b n : mem_ok m -> writable m a (Z.of_nat (length bs)) -> is_bytes bs -> apart a (Z.of_nat (length bs)) b (Z.of_nat n) ->
  write_bytes m a bs = Some m' -> read_bytes m' b n = read_bytes m b n.
Proof.
  intros Hm Hw Hb Ha E. destruct (write_bytes_ok bs m a Hm Hw Hb) as (m1 & E1 & _ & _ & _ & F). replace m1 with m' in F by congruence.
  apply read_bytes_ext. intros x Hx. apply F. destruct Ha; lia.
Qed.

Lemma writable_compute m a n : forallb (fun i => bool_decide (is_Some (read m (a + i)))) (seqZ 0 n) = true -> writable m a n.
Proof.
  intros Hf x Hx. rewrite forallb_forall in Hf. specialize (Hf (x - a)). apply bool_decide_eq_true in Hf.
  - by replace (a + (x - a)) with x in Hf by lia.
  - apply list_elem_of_In, elem_of_seqZ. lia.
Qed.

Lemma mem_ok_compute m : bool_decide (map_Forall (fun _ b => 0 <= b < 256) (mem_bytes m)) = true -> mem_ok m.
Proof. intros Hf. apply bool_decide_eq_true in Hf. intros a b E. by apply (Hf a). Qed.

Ltac demo_writable := apply writable_compute; by vm_compute.

(** ** Pointers in memory *)

(** Eight bytes, the low one first. *)
Definition read_ptr (m : memory) (a : Z) : option Z := s ← read_bytes m a 8; Some (load_le 8 s).
Definition write_ptr (m : memory) (a p : Z) : option memory := write_bytes m a (store_le 8 p).

Lemma load_store_le v : 0 <= v < 2 ^ 64 -> load_le 8 (le_bytes 8 v) = v.
Proof.
  intros Hv. unfold load_le. rewrite <- (app_nil_r (le_bytes 8 v)), take_write, le_value_le. by apply Z.mod_small.
Qed.

Lemma write_ptr_ok m a p : mem_ok m -> writable m a 8 -> 0 <= p < 2 ^ 64 ->
  exists m', write_ptr m a p = Some m' /\ mem_ok m' /\ same_domain m m' /\ read_ptr m' a = Some p /\
    forall x, ~ (a <= x < a + 8) -> read m' x = read m x.
Proof.
  intros Hm Hw Hp. unfold write_ptr, store_le.
  destruct (write_bytes_ok (le_bytes 8 p) m a Hm) as (m' & -> & Hm' & D & R & F); rewrite ?length_le in *; [done | apply is_bytes_le |].
  exists m'. unfold read_ptr. rewrite R. cbn [mbind option_bind]. rewrite load_store_le by done.
  split; [done |]. split; [done |]. split; [done |]. split; [done | exact F].
Qed.

(** ** Buffers *)

(** The bytes [bs] written at [off]; outside the buffer is undefined. *)
Definition write_at (buf : bytes) (off : Z) (bs : bytes) : option bytes :=
  if (0 <=? off) && (off + Z.of_nat (length bs) <=? Z.of_nat (length buf))
  then Some (take (Z.to_nat off) buf ++ bs ++ drop (Z.to_nat off + length bs) buf) else None.

Lemma write_at_app a b c bs : length b = length bs ->
  write_at (a ++ b ++ c) (Z.of_nat (length a)) bs = Some (a ++ bs ++ c).
Proof.
  intros Hl. unfold write_at. rewrite (proj2 (andb_true_iff _ _)).
  - rewrite Nat2Z.id, take_app_length, drop_app_add', <- Hl, drop_app_length by done. done.
  - split; apply Z.leb_le; rewrite ?length_app; lia.
Qed.

(** A buffer long enough splits at every position. *)
Lemma split_buffer (buf : bytes) n : (n <= length buf)%nat -> exists a b, buf = a ++ b /\ length a = n.
Proof. intros Hn. exists (take n buf), (drop n buf). by rewrite take_drop, length_take_le. Qed.

(** Writing behind what was written so far. *)
Lemma write_at_behind a r bs : (length bs <= length r)%nat ->
  exists r', write_at (a ++ r) (Z.of_nat (length a)) bs = Some ((a ++ bs) ++ r') /\ length r = (length bs + length r')%nat.
Proof.
  intros H. destruct (split_buffer r (length bs) H) as (r1 & r2 & -> & Hl). exists r2.
  rewrite (write_at_app a r1 r2 bs Hl), length_app, Hl. by rewrite <- app_assoc.
Qed.

(** ** C strings *)

(** The C string that begins at the buffer. *)
Fixpoint c_string (b : bytes) : bytes := match b with [] => [] | x :: b => if x =? 0 then [] else x :: c_string b end.

(** [strcmp(a, b) == 0]; neither string may end without its zero. *)
Fixpoint strcmp_eq (a b : bytes) : option bool :=
  match a, b with
  | x :: a, y :: b => if negb (x =? y) then Some false else if x =? 0 then Some true else strcmp_eq a b
  | _, _ => None
  end.

Lemma c_string_text a rest : Forall (fun c => 0 < c) a -> c_string (a ++ 0 :: rest) = a.
Proof.
  induction a as [| x a IH]; intros H; [done |]. apply Forall_cons in H as [Hx Ha]. cbn [app c_string].
  destruct (Z.eqb_spec x 0); [lia |]. by rewrite IH.
Qed.

Lemma strcmp_eq_text a b ra rb : Forall (fun c => 0 < c) a -> Forall (fun c => 0 < c) b ->
  strcmp_eq (a ++ 0 :: ra) (b ++ 0 :: rb) = Some (bool_decide (a = b)).
Proof.
  revert b. induction a as [| x a IH]; intros [| y b] Ha Hb; cbn [app strcmp_eq]; [by rewrite bool_decide_eq_true_2 | | |].
  - apply Forall_cons in Hb as [Hy _]. destruct (Z.eqb_spec 0 y); [lia | done].
  - apply Forall_cons in Ha as [Hx _]. destruct (Z.eqb_spec x 0); [lia | done].
  - apply Forall_cons in Ha as [Hx Ha], Hb as [_ Hb]. destruct (Z.eqb_spec x y) as [-> | Hne]; cbn [negb].
    + rewrite (proj2 (Z.eqb_neq y 0)), IH by (done || lia). f_equal. apply bool_decide_ext. naive_solver.
    + rewrite bool_decide_eq_false_2 by naive_solver. done.
Qed.

(** ** Decimal texts *)

(** [sprintf("%lu")]: the decimal digits of an [unsigned long]; 20 suffice for 64 bits. *)
Fixpoint decimal (fuel : nat) (n : Z) : option bytes :=
  match fuel with
  | O => None
  | S fuel => if n <? 10 then Some [48 + n] else ds ← decimal fuel (n / 10); Some (ds ++ [48 + n mod 10])
  end.

(** The number that decimal digits stand for. *)
Definition number (ds : bytes) : Z := foldl (fun acc d => 10 * acc + (d - 48)) 0 ds.

Lemma decimal_ok fuel : forall n k, (1 <= k <= fuel)%nat -> 0 <= n < 10 ^ Z.of_nat k ->
  exists ds, decimal fuel n = Some ds /\ number ds = n /\ (length ds <= k)%nat /\ Forall (fun d => 48 <= d < 58) ds.
Proof.
  induction fuel as [| fuel IH]; intros n k Hk Hn; [lia |]. cbn [decimal]. destruct (Z.ltb_spec n 10) as [H | H].
  - exists [48 + n]. split; [done |]. split; [unfold number; cbn; lia |]. split; [cbn; lia |]. apply Forall_cons. split; [lia | apply Forall_nil_2].
  - destruct k as [| [| k]]; [lia | change (10 ^ Z.of_nat 1) with 10 in Hn; lia |].
    assert (E10 : 10 ^ Z.of_nat (S (S k)) = 10 * 10 ^ Z.of_nat (S k)) by (rewrite <- Z.pow_succ_r by lia; f_equal; lia).
    destruct (IH (n / 10) (S k)) as (ds & -> & Hv & Hl & Hd); [lia | |].
    { split; [apply Z.div_pos; lia | apply Z.div_lt_upper_bound; lia]. }
    cbn [mbind option_bind]. eexists. split; [reflexivity |]. split; [| split].
    + unfold number in *. rewrite foldl_app, Hv. cbn. pose proof (Z.div_mod n 10). lia.
    + rewrite length_app. cbn. lia.
    + apply Forall_app. split; [done |]. apply Forall_cons. pose proof (Z.mod_pos_bound n 10). split; [lia | apply Forall_nil_2].
Qed.
