(* ===== verification/Heap.v ===== *)
(** * Heap: the store in which the pointer structures live

    The linked lists of the server are shared mutable objects: a list holds
    pointers to its nodes, and often the {e address} of a pointer field
    ([T **last], [T **prev]).  The model keeps one store for all of them, from
    field addresses to values.  A step that dereferences a null pointer, or a
    field of an object that does not exist, has no result: [None] is the
    undefined behaviour of C++.

    [chain] is the shape shared by all singly-linked structures: a cell, the
    nodes reached from it through one [next] field, and the value in the last
    cell. *)

From stdpp Require Import base numbers option gmap list.
From Stdlib Require Import ZArith Lia.
From S2P Require Import Prelude.

Local Open Scope Z_scope.

(** ** Addresses and values *)

Abbreviation loc := positive.

(** The fields of the objects.  A node may have several [next]/[prev] pairs, one
    per intrusive list it can be in: the index selects the pair. *)
Inductive field := F_first | F_last | F_elements | F_info | F_next (hook : nat) | F_prev (hook : nat).

#[export] Instance field_eq_dec : EqDecision field.
Proof. solve_decision. Defined.

#[export] Instance field_countable : Countable field.
Proof.
  apply (inj_countable'
    (fun f => match f with F_first => (0, 0) | F_last => (1, 0) | F_elements => (2, 0) | F_info => (3, 0)
                         | F_next k => (4, k) | F_prev k => (5, k) end)%nat
    (fun p => match p with (0, _) => F_first | (1, _) => F_last | (2, _) => F_elements | (3, _) => F_info
                         | (4, k) => F_next k | (_, k) => F_prev k end)%nat).
  by intros [].
Defined.

Abbreviation addr := (loc * field)%type.

(** [VObj] is a pointer to an object, [VAddr] a pointer to a pointer field. *)
Inductive val := VNull | VObj (l : loc) | VAddr (a : addr) | VInt (z : Z).

#[export] Instance val_eq_dec : EqDecision val.
Proof. solve_decision. Defined.

Abbreviation mem := (gmap addr val).

(** ** Programs *)

Definition prog (A : Type) : Type := mem -> option (A * mem).

#[export] Instance prog_ret : MRet prog := fun A x m => Some (x, m).
#[export] Instance prog_bind : MBind prog := fun A B k p m => '(x, m) ← p m; k x m.

(** Undefined behaviour. *)
Definition undefined {A} : prog A := fun _ => None.

Definition load (a : addr) : prog val := fun m => v ← m !! a; Some (v, m).
Definition store (a : addr) (v : val) : prog unit :=
  fun m => _ ← m !! a; Some (tt, <[a := v]> m).

(** Reading a pointer that is used as an object, or as the address of a field. *)
Definition as_obj (v : val) : prog loc := match v with VObj l => mret l | _ => undefined end.
Definition as_addr (v : val) : prog addr := match v with VAddr a => mret a | _ => undefined end.
Definition as_int (v : val) : prog Z := match v with VInt z => mret z | _ => undefined end.

(** The end of an object's lifetime: its field is gone. *)
Definition free_field (a : addr) : prog unit := fun m => _ ← m !! a; Some (tt, delete a m).

(** Pointer comparison. *)
Abbreviation ptr_eqb a b := (bool_decide (a = b)).

(** [elements += k] on an unsigned 32-bit counter; the result is the new value. *)
Definition add_elements (l : loc) (k : Z) : prog Z :=
  e ← load (l, F_elements); e ← as_int e;
  store (l, F_elements) (VInt (u32 (e + k)));;
  mret (u32 (e + k)).

Lemma run_load {A} a v (k : val -> prog A) m : m !! a = Some v -> (load a ≫= k) m = k v m.
Proof. intros E. unfold mbind, prog_bind, load. by rewrite E. Qed.

Lemma run_store {A} a v w (k : unit -> prog A) m : m !! a = Some w -> (store a v ≫= k) m = k tt (<[a := v]> m).
Proof. intros E. unfold mbind, prog_bind, store. by rewrite E. Qed.

Lemma run_free {A} a w (k : unit -> prog A) m : m !! a = Some w -> (free_field a ≫= k) m = k tt (delete a m).
Proof. intros E. unfold mbind, prog_bind, free_field. by rewrite E. Qed.

Lemma run_load_ret a v m : m !! a = Some v -> load a m = Some (v, m).
Proof. intros E. unfold load. by rewrite E. Qed.

Lemma run_store_ret a v w m : m !! a = Some w -> store a v m = Some (tt, <[a := v]> m).
Proof. intros E. unfold store. by rewrite E. Qed.

Lemma run_bind {A B} (p : prog A) (k : A -> prog B) m x m' : p m = Some (x, m') -> (p ≫= k) m = k x m'.
Proof. intros E. unfold mbind, prog_bind. by rewrite E. Qed.

Lemma run_load_undefined {A} a (k : val -> prog A) m : m !! a = None -> (load a ≫= k) m = None.
Proof. intros E. unfold mbind, prog_bind, load. by rewrite E. Qed.

Lemma run_ret {A B} (x : A) (k : A -> prog B) m : (mret x ≫= k) m = k x m.
Proof. done. Qed.

Lemma run_as_obj {A} l (k : loc -> prog A) m : (as_obj (VObj l) ≫= k) m = k l m.
Proof. done. Qed.

Lemma run_as_addr {A} a (k : addr -> prog A) m : (as_addr (VAddr a) ≫= k) m = k a m.
Proof. done. Qed.

Lemma run_as_int {A} z (k : Z -> prog A) m : (as_int (VInt z) ≫= k) m = k z m.
Proof. done. Qed.

Lemma run_assoc {A B C} (p : prog A) (q : A -> prog B) (k : B -> prog C) m :
  ((p ≫= q) ≫= k) m = (p ≫= (fun x => q x ≫= k)) m.
Proof. unfold mbind, prog_bind. destruct (p m) as [[x m'] |]; done. Qed.

Lemma run_undefined {A B} (k : A -> prog B) m : (undefined ≫= k) m = None.
Proof. done. Qed.

(** [addr_ne] separates addresses, [lk] looks up an address through known writes. *)
Ltac elem_norm := repeat progress rewrite ?elem_of_app, ?elem_of_cons, ?list_elem_of_singleton, ?elem_of_nil in *.
Ltac elem_tac := elem_norm; solve [ tauto | intuition congruence ].
Ltac addr_ne := solve [ congruence | intros [=]; subst; solve [congruence | elem_tac] ].

Ltac lk :=
  repeat first
    [ rewrite lookup_insert_eq | rewrite lookup_insert_ne by addr_ne
    | rewrite lookup_delete_eq | rewrite lookup_delete_ne by addr_ne ];
  try eassumption; try reflexivity.

Lemma run_add_elements {A} l e k (K : Z -> prog A) m :
  m !! (l, F_elements) = Some (VInt e) ->
  (add_elements l k ≫= K) m = K (u32 (e + k)) (<[(l, F_elements) := VInt (u32 (e + k))]> m).
Proof.
  intros E. unfold add_elements. unfold mbind, prog_bind, load, store, as_int, mret, prog_ret. rewrite E. cbn. by rewrite E.
Qed.

(** [run] executes the known steps of the program on the left of an equation. *)
Ltac run_test P :=
  first [ rewrite (bool_decide_eq_true_2 P) by (first [reflexivity | assumption | congruence])
        | rewrite (bool_decide_eq_false_2 P) by addr_ne ]; cbn [negb andb orb].
Ltac run_rules := fail.
Ltac run_step :=
  first
    [ rewrite run_assoc | rewrite run_ret | rewrite run_as_obj | rewrite run_as_addr | rewrite run_as_int
    | erewrite run_load by solve [lk]
    | erewrite run_store by solve [lk]
    | erewrite run_free by solve [lk]
    | erewrite run_add_elements by solve [lk]
    | run_rules
    | match goal with
      | |- context [(if ?b then _ else _) _] => match b with context [bool_decide ?P] => run_test P end
      | |- context [(mbind _ (if ?b then _ else _)) _] => match b with context [bool_decide ?P] => run_test P end
      end
    | match goal with
      | |- load _ _ = _ => erewrite run_load_ret by solve [lk]
      | |- store _ _ _ = _ => erewrite run_store_ret by solve [lk]
      end ].
Ltac run := repeat (run_step; cbv beta).

(** ** Chains *)

Section chain.
Variable hook : nat.

Abbreviation next n := (n, F_next hook).

Fixpoint chain (m : mem) (a : addr) (ns : list loc) (e : val) : Prop :=
  match ns with
  | [] => m !! a = Some e
  | n :: ns => m !! a = Some (VObj n) /\ chain m (next n) ns e
  end.

(** The cells of a chain: where its pointers are stored. *)
Definition cells (a : addr) (ns : list loc) : list addr := a :: ((fun n => next n) <$> ns).

Definition last_cell (a : addr) (ns : list loc) : addr :=
  match last ns with None => a | Some n => next n end.

(** The pointer to the first node of [ns], or [e] when there is none. *)
Definition head_ptr (ns : list loc) (e : val) : val :=
  match ns with [] => e | n :: _ => VObj n end.

Lemma last_cell_nil a : last_cell a [] = a.
Proof using. done. Qed.

Lemma last_cell_cons a n ns : last_cell a (n :: ns) = last_cell (next n) ns.
Proof using. unfold last_cell. rewrite last_cons. by destruct (last ns). Qed.

Lemma last_cell_snoc a ns n : last_cell a (ns ++ [n]) = next n.
Proof using. unfold last_cell. by rewrite last_snoc. Qed.

Lemma last_cell_app a ns1 ns2 : last_cell a (ns1 ++ ns2) = last_cell (last_cell a ns1) ns2.
Proof using.
  revert a. induction ns1 as [| n ns1 IH]; intros a; [done |]. cbn [app]. by rewrite !last_cell_cons.
Qed.

Lemma last_cell_in a ns : last_cell a ns ∈ cells a ns.
Proof using.
  revert a. induction ns as [| n ns IH]; intros a; [left |]. rewrite last_cell_cons. right. apply IH.
Qed.

Lemma elem_of_cells a ns c : c ∈ cells a ns <-> c = a \/ exists n, n ∈ ns /\ c = next n.
Proof using.
  unfold cells. rewrite elem_of_cons, list_elem_of_fmap. split; intros [-> | (n & Hn)]; [by left | right | by left | right];
    exists n; tauto.
Qed.

Lemma chain_head m a ns e : chain m a ns e -> m !! a = Some (head_ptr ns e).
Proof using. destruct ns; [done | by intros []]. Qed.

Lemma chain_last m a ns e : chain m a ns e -> m !! last_cell a ns = Some e.
Proof using.
  revert a. induction ns as [| n ns IH]; intros a; [done |]. intros [_ H]. rewrite last_cell_cons. by apply IH.
Qed.

Lemma chain_app m a ns1 ns2 e :
  chain m a (ns1 ++ ns2) e <-> chain m a ns1 (head_ptr ns2 e) /\ chain m (last_cell a ns1) ns2 e.
Proof using.
  revert a. induction ns1 as [| n ns1 IH]; intros a; cbn [app chain].
  - rewrite last_cell_nil. split; [intros H; split; [by apply chain_head in H | done] | by intros [_ ?]].
  - rewrite IH, last_cell_cons. tauto.
Qed.

Lemma chain_snoc m a ns n e : chain m a (ns ++ [n]) e <-> chain m a ns (VObj n) /\ m !! next n = Some e.
Proof using.
  rewrite chain_app. cbn [chain head_ptr]. split; [tauto |]. intros [H1 H2]. split_and!; [done | | done].
  by apply chain_last in H1.
Qed.

Lemma chain_frame m m' a ns e :
  (forall c, c ∈ cells a ns -> m' !! c = m !! c) -> chain m a ns e -> chain m' a ns e.
Proof using.
  revert a. induction ns as [| n ns IH]; intros a Hf; cbn [chain].
  - intros H. rewrite Hf; [done | left].
  - intros [H1 H2]. split; [rewrite Hf; [done | left] |]. apply IH; [| done].
    intros c Hc. apply Hf. by right.
Qed.

(** A chain moved to another first cell. *)
Lemma chain_rebase m m' a b ns e :
  m' !! b = m !! a -> (forall n, n ∈ ns -> m' !! next n = m !! next n) -> chain m a ns e -> chain m' b ns e.
Proof using.
  intros Hb Hf. destruct ns as [| n ns]; cbn [chain]; [by rewrite Hb |]. intros [H1 H2]. split; [by rewrite Hb |].
  eapply chain_frame; [| done]. intros c [-> | (k & Hk & ->)]%elem_of_cells; apply Hf; [left | by right].
Qed.

Lemma last_cell_rebase a b ns : ns <> [] -> last_cell a ns = last_cell b ns.
Proof using. destruct ns as [| n ns]; [done |]. intros _. by rewrite !last_cell_cons. Qed.

Lemma chain_insert m a ns e c v : c ∉ cells a ns -> chain m a ns e -> chain (<[c := v]> m) a ns e.
Proof using. intros Hc. apply chain_frame. intros c' Hc'. apply lookup_insert_ne. by intros ->. Qed.

Lemma chain_delete m a ns e c : c ∉ cells a ns -> chain m a ns e -> chain (delete c m) a ns e.
Proof using. intros Hc. apply chain_frame. intros c' Hc'. apply lookup_delete_ne. by intros ->. Qed.

(** Writing the last cell of a chain changes only where it ends. *)
Lemma chain_set_end m a ns e e' :
  NoDup (cells a ns) -> chain m a ns e -> chain (<[last_cell a ns := e']> m) a ns e'.
Proof using.
  revert a. induction ns as [| n ns IH]; intros a Hnd; cbn [chain].
  - intros _. rewrite last_cell_nil. apply lookup_insert_eq.
  - intros [H1 H2]. apply NoDup_cons in Hnd as [Ha Hnd]. rewrite last_cell_cons. split; [| by apply IH].
    rewrite lookup_insert_ne; [done |]. intros E. apply Ha. rewrite <- E. apply (last_cell_in (next n) ns).
Qed.

Lemma chain_retarget m m' a ns e e' :
  NoDup (cells a ns) -> (forall c, c ∈ cells a ns -> c <> last_cell a ns -> m' !! c = m !! c) ->
  m' !! last_cell a ns = Some e' -> chain m a ns e -> chain m' a ns e'.
Proof using.
  intros Hnd Hf He Hc. eapply chain_frame; [| by eapply chain_set_end].
  intros c Hin. destruct (decide (c = last_cell a ns)) as [-> |].
  - by rewrite lookup_insert_eq.
  - rewrite lookup_insert_ne by done. by apply Hf.
Qed.

Lemma NoDup_cells a ns : NoDup ns -> (forall n, a <> next n) -> NoDup (cells a ns).
Proof using.
  intros Hnd Ha. apply NoDup_cons. split.
  - intros (n & E & _)%list_elem_of_fmap. by apply (Ha n).
  - by apply (NoDup_fmap_2 (fun n => next n)).
Qed.
End chain.

(** Two stores agree outside a set of addresses. *)
Definition same_outside (A : addr -> Prop) (m m' : mem) : Prop := forall a, ~ A a -> m' !! a = m !! a.

#[export] Instance same_outside_preorder A : PreOrder (same_outside A).
Proof.
  split; [by intros m a _ |]. intros m1 m2 m3 H12 H23 a Ha. by rewrite H23, H12.
Qed.

Lemma same_outside_mono (A B : addr -> Prop) m m' :
  (forall a, A a -> B a) -> same_outside A m m' -> same_outside B m m'.
Proof. intros HAB H a Ha. apply H. auto. Qed.

Lemma same_outside_insert (A : addr -> Prop) m m' a v : A a -> same_outside A m m' -> same_outside A m (<[a := v]> m').
Proof. intros Ha H a' Ha'. rewrite lookup_insert_ne by (by intros ->). by apply H. Qed.

Lemma same_outside_delete (A : addr -> Prop) m m' a : A a -> same_outside A m m' -> same_outside A m (delete a m').
Proof. intros Ha H a' Ha'. rewrite lookup_delete_ne by (by intros ->). by apply H. Qed.
