(* ===== verification/BaseList.v ===== *)
(** * BaseList: the server's singly-linked list (sql_list.h)

    [list_node], [base_list] and the operations of [List<T>] that forward to
    it.  All lists share one sentinel, [end_of_list], whose [next] is itself and
    whose [info] is NULL; the list object holds the first node, the address of
    the pointer that ends the list ([last]) and a 32-bit count.

    [is_list] is the representation invariant: it ties the store to the nodes
    and to the abstract list of elements.  The theorems say what each operation
    does to the abstract list, and that nothing outside the list changes. *)

From stdpp Require Import base numbers option gmap list.
From Stdlib Require Import ZArith Lia.
From S2P Require Import Prelude Heap.

Local Open Scope Z_scope.

Abbreviation nxt n := (n%positive, F_next 0).

(** ** The code *)

(** The object [end_of_list]. *)
Section code.
Variable eol : loc.

(** [new list_node(info, next)]: the allocator gives a node or NULL, in which
    case the constructor does not run. *)
(* [sql_list.h:118-130 list_node] *)
Definition new_node (o : option loc) (info next : val) : prog val :=
  match o with
  | None => mret VNull
  | Some n => fun m => Some (VObj n, <[(n, F_info) := info]> (<[nxt n := next]> m))
  end.

(* [sql_list.h:159-159 empty] *)
Definition empty (l : loc) : prog unit :=
  store (l, F_elements) (VInt 0);;
  store (l, F_first) (VObj eol);;
  store (l, F_last) (VAddr (l, F_first)).

(* [sql_list.h:302-302 is_empty] *)
Definition is_empty (l : loc) : prog bool :=
  f ← load (l, F_first); mret (ptr_eqb f (VObj eol)).

(* [sql_list.h:144-150 operator==] *)
Definition equal (l r : loc) : prog bool :=
  e1 ← load (l, F_elements); e2 ← load (r, F_elements);
  if negb (ptr_eqb e1 e2) then mret false else
  f1 ← load (l, F_first); f2 ← load (r, F_first);
  if negb (ptr_eqb f1 f2) then mret false else
  l1 ← load (l, F_last); l2 ← load (r, F_last);
  mret (ptr_eqb l1 l2).

(* [sql_list.h:151-157 operator=] *)
Definition assign (l r : loc) : prog unit :=
  e ← load (r, F_elements); store (l, F_elements) e;;
  f ← load (r, F_first); store (l, F_first) f;;
  e ← load (l, F_elements); e ← as_int e;
  if negb (e =? 0) then (p ← load (r, F_last); store (l, F_last) p)
  else store (l, F_last) (VAddr (l, F_first)).

(** [push_back]: 0 (false) on success, 1 (true) when there is no memory. *)
(* [sql_list.h:183-202 push_back] *)
Definition push_back (l : loc) (info : val) (o : option loc) : prog bool :=
  p ← load (l, F_last); p ← as_addr p;
  node ← new_node o info (VObj eol);
  store p node;;
  if ptr_eqb node VNull then mret true else
  p ← load (l, F_last); p ← as_addr p;
  v ← load p; n ← as_obj v;
  store (l, F_last) (VAddr (nxt n));;
  add_elements l 1;;
  mret false.

(* [sql_list.h:203-214 push_front_impl] *)
Definition push_front_impl (l : loc) (node : val) : prog bool :=
  if ptr_eqb node VNull then mret true else
  n ← as_obj node;
  p ← load (l, F_last);
  (if ptr_eqb p (VAddr (l, F_first)) then store (l, F_last) (VAddr (nxt n)) else mret tt);;
  store (l, F_first) node;;
  add_elements l 1;;
  mret false.

(* [sql_list.h:215-218 push_front] *)
Definition push_front (l : loc) (info : val) (o : option loc) : prog bool :=
  f ← load (l, F_first);
  node ← new_node o info f;
  push_front_impl l node.

(** [prev] is the address of the pointer to the node that is removed. *)
(* [sql_list.h:219-228 remove] *)
Definition remove (l : loc) (prev : addr) : prog unit :=
  v ← load prev; n ← as_obj v;
  node ← load (nxt n);
  e ← add_elements l (-1);
  (if e =? 0 then store (l, F_last) (VAddr (l, F_first))
   else
     p ← load (l, F_last); v ← load prev; n ← as_obj v;
     if ptr_eqb p (VAddr (nxt n)) then store (l, F_last) (VAddr prev) else mret tt);;
  v ← load prev; n ← as_obj v;
  free_field (n, F_info);; free_field (nxt n);;
  store prev node.

(* [sql_list.h:229-242 append] *)
Definition append (l r : loc) : prog unit :=
  re ← is_empty r;
  if (re : bool) then mret tt else
  le ← is_empty l;
  if (le : bool) then assign l r else
  p ← load (l, F_last); p ← as_addr p;
  f ← load (r, F_first);
  store p f;;
  q ← load (r, F_last); store (l, F_last) q;;
  e ← load (r, F_elements); e ← as_int e;
  add_elements l e;; mret tt.

(* [sql_list.h:243-251 pop] *)
Definition pop (l : loc) : prog val :=
  f ← load (l, F_first);
  if ptr_eqb f (VObj eol) then mret VNull else
  n ← as_obj f;
  s ← load (nxt n); store (l, F_first) s;;
  e ← add_elements l (-1);
  (if e =? 0 then store (l, F_last) (VAddr (l, F_first)) else mret tt);;
  load (n, F_info).

(** The loop of [disjoin]; the result is the early [return] or the final
    [prev]. *)
(* [sql_list.h:264-271 disjoin] *)
Fixpoint disjoin_loop (fuel : nat) (l : loc) (list_first : val) (prev : addr) (node : val) : prog (option addr) :=
  match fuel with
  | O => undefined
  | S fuel =>
    if ptr_eqb node (VObj eol) || ptr_eqb node list_first then mret (Some prev) else
    n ← as_obj node;
    node ← load (nxt n);
    add_elements l 1;;
    if ptr_eqb node (VObj eol) then mret None
    else disjoin_loop fuel l list_first (nxt n) node
  end.

(* [sql_list.h:258-274 disjoin] *)
Definition disjoin (fuel : nat) (l r : loc) : prog unit :=
  node ← load (l, F_first);
  list_first ← load (r, F_first);
  store (l, F_elements) (VInt 0);;
  res ← disjoin_loop fuel l list_first (l, F_first) node;
  match res with
  | None => mret tt
  | Some prev => store prev (VObj eol);; store (l, F_last) (VAddr prev)
  end.

(* [sql_list.h:275-285 prepend] *)
Definition prepend (l r : loc) : prog unit :=
  re ← is_empty r;
  if (re : bool) then mret tt else
  le ← is_empty l;
  (if (le : bool) then (p ← load (r, F_last); store (l, F_last) p) else mret tt);;
  p ← load (r, F_last); p ← as_addr p;
  f ← load (l, F_first); store p f;;
  f ← load (r, F_first); store (l, F_first) f;;
  e ← load (r, F_elements); e ← as_int e;
  add_elements l e;; mret tt.

(* [sql_list.h:289-296 swap] *)
Definition swap (l r : loc) : prog unit :=
  rhs_last ← load (r, F_last);
  f ← load (l, F_first); f' ← load (r, F_first); store (l, F_first) f';; store (r, F_first) f;;
  e ← load (l, F_elements); e' ← load (r, F_elements); store (l, F_elements) e';; store (r, F_elements) e;;
  p ← load (l, F_last);
  store (r, F_last) (if ptr_eqb p (VAddr (l, F_first)) then VAddr (r, F_first) else p);;
  store (l, F_last) (if ptr_eqb rhs_last (VAddr (r, F_first)) then VAddr (l, F_first) else rhs_last).

(* [sql_list.h:300-300 head] *)
Definition head (l : loc) : prog val :=
  f ← load (l, F_first); n ← as_obj f; load (n, F_info).

(* [sql_list.h:301-301 head_ref] *)
Definition head_ref (l : loc) : prog val :=
  f ← load (l, F_first);
  if negb (ptr_eqb f (VObj eol)) then (n ← as_obj f; mret (VAddr (n, F_info))) else mret VNull.

(** The search of [add_unique]: the node it stops at. *)
(* [sql_list.h:306-309 add_unique] *)
Fixpoint find_node (fuel : nat) (eq : val -> val -> bool) (info : val) (node : val) : prog val :=
  match fuel with
  | O => undefined
  | S fuel =>
    if ptr_eqb node (VObj eol) then mret node else
    n ← as_obj node; i ← load (n, F_info);
    if eq i info then mret node else (node ← load (nxt n); find_node fuel eq info node)
  end.

(* [sql_list.h:304-313 add_unique] *)
Definition add_unique (fuel : nat) (eq : val -> val -> bool) (l : loc) (info : val) (o : option loc) : prog bool :=
  f ← load (l, F_first);
  node ← find_node fuel eq info f;
  if ptr_eqb node (VObj eol) then push_back l info o else mret true.

(* [sql_list.h:326-336 elem] *)
Fixpoint elem_loop (fuel : nat) (n i : Z) (node data : val) : prog val :=
  match fuel with
  | O => undefined
  | S fuel =>
    if i <=? n then
      if ptr_eqb node (VObj eol) then mret VNull else
      p ← as_obj node; data ← load (p, F_info); node ← load (nxt p);
      elem_loop fuel n (u32 (i + 1)) node data
    else mret data
  end.

(* [sql_list.h:322-337 elem] *)
Definition elem (fuel : nat) (l : loc) (n : Z) : prog val :=
  f ← load (l, F_first); elem_loop fuel n 0 f VNull.

(** Compiled only with [LIST_EXTRA_DEBUG]: the loop stops at the last node,
    and counts the nodes before it. *)
(* [sql_list.h:361-371 check_list] *)
Fixpoint check_loop (fuel : nat) (node : loc) (cnt : Z) : prog (option (loc * Z)) :=
  match fuel with
  | O => undefined
  | S fuel =>
    s ← load (nxt node);
    if ptr_eqb s (VObj eol) then mret (Some (node, cnt)) else
    i ← load (node, F_info);
    if ptr_eqb i VNull then mret None else
    s ← as_obj s; check_loop fuel s (u32 (cnt + 1))
  end.

(* [sql_list.h:355-384 check_list] *)
Definition check_list (fuel : nat) (l : loc) : prog bool :=
  f ← load (l, F_first); f ← as_obj f;
  res ← check_loop fuel f 0;
  match res with
  | None => mret false
  | Some (node, cnt) =>
    p ← load (l, F_last);
    if negb (ptr_eqb p (VAddr (nxt node))) then mret false else
    e ← load (l, F_elements); e ← as_int e;
    mret (u32 (cnt + 1) =? e)
  end.
End code.

(** ** The representation *)

(** The store has the sentinel: [end_of_list.next] is [&end_of_list], its [info] NULL. *)
Definition eol_ok (eol : loc) (m : mem) : Prop :=
  m !! nxt eol = Some (VObj eol) /\ m !! (eol, F_info) = Some VNull.

Definition fresh (n : loc) (m : mem) : Prop := forall f, m !! (n, f) = None.

(** The fields of a deleted node. *)
Definition gone (n : loc) (m : mem) : Prop := m !! (n, F_info) = None /\ m !! nxt n = None.

Definition infos (m : mem) (ns : list loc) (xs : list val) : Prop :=
  Forall2 (fun n x => m !! (n, F_info) = Some x) ns xs.

Record is_list (eol : loc) (m : mem) (l : loc) (ns : list loc) (xs : list val) : Prop := {
  il_chain : chain 0 m (l, F_first) ns (VObj eol);
  il_last : m !! (l, F_last) = Some (VAddr (last_cell 0 (l, F_first) ns));
  il_elements : m !! (l, F_elements) = Some (VInt (Z.of_nat (length ns)));
  il_infos : infos m ns xs;
  il_nodup : NoDup ns;
  il_eol : eol ∉ ns;
  il_count : Z.of_nat (length ns) < 2 ^ 32
}.

(** The addresses a list owns: its own fields and those of its nodes. *)
Inductive foot (l : loc) (ns : list loc) : addr -> Prop :=
  | foot_first : foot l ns (l, F_first)
  | foot_last : foot l ns (l, F_last)
  | foot_elements : foot l ns (l, F_elements)
  | foot_info n : n ∈ ns -> foot l ns (n, F_info)
  | foot_next n : n ∈ ns -> foot l ns (nxt n).

Create HintDb heap.
#[export] Hint Constructors foot : heap.

Lemma foot_mono l ns ns' a : ns ⊆ ns' -> foot l ns a -> foot l ns' a.
Proof. intros Hs []; auto with heap. Qed.

Lemma foot_cells l ns a : a ∈ cells 0 (l, F_first) ns -> foot l ns a.
Proof. intros [-> | (n & Hn & ->)]%elem_of_cells; auto with heap. Qed.

Lemma infos_frame m m' ns xs :
  (forall n, n ∈ ns -> m' !! (n, F_info) = m !! (n, F_info)) -> infos m ns xs -> infos m' ns xs.
Proof.
  intros Hf H. unfold infos in *. induction H as [| n x ns xs Hn H IH]; constructor.
  - rewrite Hf; [done | left].
  - apply IH. intros n' Hn'. apply Hf. by right.
Qed.

Lemma infos_app m ns1 ns2 xs1 xs2 : infos m ns1 xs1 -> infos m ns2 xs2 -> infos m (ns1 ++ ns2) (xs1 ++ xs2).
Proof. apply Forall2_app. Qed.

Lemma infos_cons m n ns x xs : infos m (n :: ns) (x :: xs) <-> m !! (n, F_info) = Some x /\ infos m ns xs.
Proof. split; [by inversion 1 | intros []; by constructor]. Qed.

Lemma infos_nil m : infos m [] [].
Proof. constructor. Qed.

Lemma infos_length m ns xs : infos m ns xs -> length ns = length xs.
Proof. apply Forall2_length. Qed.

Lemma is_list_frame eol m m' l ns xs :
  (forall a, foot l ns a -> m' !! a = m !! a) -> is_list eol m l ns xs -> is_list eol m' l ns xs.
Proof.
  intros Hf []. split; try done.
  - eapply chain_frame; [| done]. intros c Hc. apply Hf. by apply foot_cells.
  - rewrite Hf; auto with heap.
  - rewrite Hf; auto with heap.
  - eapply infos_frame; [| done]. intros n Hn. apply Hf. auto with heap.
Qed.

(** A list is untouched by what happens outside its footprint. *)
Lemma is_list_outside eol (A : addr -> Prop) m m' l ns xs :
  (forall a, foot l ns a -> ~ A a) -> same_outside A m m' -> is_list eol m l ns xs -> is_list eol m' l ns xs.
Proof. intros Hd Hs. apply is_list_frame. intros a Ha. apply Hs. by apply Hd. Qed.

Lemma eol_ok_outside eol m m' l ns : eol ∉ ns -> same_outside (foot l ns) m m' -> eol_ok eol m -> eol_ok eol m'.
Proof. intros He Hs [H1 H2]. split; rewrite Hs; try done; inversion 1; congruence. Qed.

Lemma chain_node m a ns e n : chain 0 m a ns e -> n ∈ ns -> exists v, m !! nxt n = Some v.
Proof.
  intros Hc Hn. apply list_elem_of_split in Hn as (ns1 & ns2 & ->).
  apply chain_app in Hc as [_ [_ Hc]]. apply chain_head in Hc. eauto.
Qed.

Lemma last_cell_cases l ns :
  last_cell 0 (l, F_first) ns = (l, F_first) \/ exists k, k ∈ ns /\ last_cell 0 (l, F_first) ns = nxt k.
Proof.
  pose proof (last_cell_in 0 (l, F_first) ns) as H. apply elem_of_cells in H as [H | (k & Hk & H)]; eauto.
Qed.

Lemma is_list_fresh eol m l ns xs n : is_list eol m l ns xs -> fresh n m -> (n ∉ ns) /\ n <> l.
Proof.
  intros [] Hf. split.
  - intros Hn. destruct (chain_node _ _ _ _ _ il_chain0 Hn) as [v Hv]. by rewrite Hf in Hv.
  - intros ->. by rewrite Hf in il_last0.
Qed.

Lemma eol_fresh eol m n : eol_ok eol m -> fresh n m -> n <> eol.
Proof. intros [H _] Hf ->. by rewrite Hf in H. Qed.

(** The code compares pointers and zero-tests the 32-bit count. *)
Lemma head_ptr_eol ns eol : eol ∉ ns -> ptr_eqb (head_ptr ns (VObj eol)) (VObj eol) = bool_decide (ns = []).
Proof.
  intros He. apply bool_decide_ext. destruct ns as [| n ns]; [done |]. cbn [head_ptr]. split; [| done].
  intros [= ->]. exfalso. apply He. left.
Qed.

(** ** Tactics *)

Ltac not_cell := rewrite elem_of_cells; intros [? | (? & ? & ?)]; simplify_eq; solve [congruence | elem_tac].
Ltac chain_tac :=
  repeat first [ apply chain_insert; [not_cell |] | apply chain_delete; [not_cell |] ]; try eassumption.

Ltac infos_tac :=
  match goal with
  | H : infos ?m ?ns ?xs |- infos _ ?ns ?xs => apply (infos_frame m); [intros ? ?; lk; reflexivity | exact H]
  end.

Ltac foot_tac :=
  first [ apply foot_first | apply foot_last | apply foot_elements | apply foot_info; elem_tac | apply foot_next; elem_tac ].
Ltac outside_tac :=
  repeat first [ apply same_outside_insert; [foot_tac |] | apply same_outside_delete; [foot_tac |] ]; try reflexivity.

Lemma run_new_node {A} n info next (K : val -> prog A) m :
  (new_node (Some n) info next ≫= K) m = K (VObj n) (<[(n, F_info) := info]> (<[nxt n := next]> m)).
Proof. done. Qed.

Ltac run_rules ::= rewrite run_new_node.

Ltac count_tac :=
  repeat progress (rewrite ?length_app in *; cbn [length app] in *); rewrite ?u32_small by lia; lia.

(** ** One list: the effect of each operation *)

Section ops.
Variable eol : loc.
Abbreviation is_list := (is_list eol).

Lemma empty_ok m l :
  (forall f, f = F_first \/ f = F_last \/ f = F_elements -> is_Some (m !! (l, f))) ->
  exists m', empty eol l m = Some (tt, m') /\ is_list m' l [] [] /\ same_outside (foot l []) m m'.
Proof using.
  intros Hl. destruct (Hl F_first) as [v1 H1]; [tauto |]. destruct (Hl F_last) as [v2 H2]; [tauto |].
  destruct (Hl F_elements) as [v3 H3]; [tauto |].
  eexists. split; [unfold empty; run; reflexivity |]. split; [| outside_tac].
  split; cbn [chain last_cell last length]; try lk; try done; [by constructor | constructor | set_solver].
Qed.

Lemma push_back_ok m l ns xs x n :
  eol_ok eol m -> is_list m l ns xs -> fresh n m -> Z.of_nat (S (length ns)) < 2 ^ 32 ->
  exists m', push_back eol l x (Some n) m = Some (false, m') /\
    is_list m' l (ns ++ [n]) (xs ++ [x]) /\ same_outside (foot l (n :: ns)) m m'.
Proof using.
  intros He Hl Hf Hc. destruct (is_list_fresh _ _ _ _ _ _ Hl Hf) as [Hn Hnl]. destruct Hl.
  pose proof (eol_fresh _ _ _ He Hf) as Hne.
  assert (Hend := chain_last _ _ _ _ _ il_chain0).
  assert (Hnd : NoDup (ns ++ [n])) by (apply NoDup_snoc; done).
  assert (Hel : u32 (Z.of_nat (length ns) + 1) = Z.of_nat (length (ns ++ [n])))
    by (rewrite length_app; cbn; rewrite u32_small; lia).
  destruct ns as [| k ns _] using rev_ind.
  - cbn [chain last_cell last app] in *. eexists. split.
    { unfold push_back. run. reflexivity. }
    split; [| outside_tac].
    split; cbn [chain last_cell last].
    + split; lk.
    + lk.
    + lk; by rewrite Hel.
    + apply Forall2_nil_inv_l in il_infos0 as ->. apply infos_cons; split; [lk | apply infos_nil].
    + done.
    + elem_tac.
    + done.
  - rewrite last_cell_snoc in *. apply chain_snoc in il_chain0 as [Hc1 Hc2].
    pose proof (proj1 (NoDup_snoc _ _) il_nodup0) as [Hnd1 Hk].
    eexists. split.
    { unfold push_back. run. reflexivity. }
    split; [| outside_tac].
    assert (n <> k) by elem_tac.
    split; rewrite ?last_cell_snoc.
    + rewrite !chain_snoc. split_and!; [chain_tac | lk | lk].
    + lk.
    + lk; by rewrite Hel.
    + apply infos_app; [infos_tac | ]. apply infos_cons; split; [lk | apply infos_nil].
    + done.
    + elem_tac.
    + count_tac.
Qed.

(** No memory: the list ends in NULL instead of the sentinel. *)
Lemma push_back_oom m l ns xs x :
  is_list m l ns xs ->
  push_back eol l x None m = Some (true, <[last_cell 0 (l, F_first) ns := VNull]> m).
Proof using.
  intros []. pose proof (chain_last _ _ _ _ _ il_chain0) as Hend. unfold push_back. run. cbn [new_node].
  run. reflexivity.
Qed.

Lemma push_front_ok m l ns xs x n :
  eol_ok eol m -> is_list m l ns xs -> fresh n m -> Z.of_nat (S (length ns)) < 2 ^ 32 ->
  exists m', push_front l x (Some n) m = Some (false, m') /\
    is_list m' l (n :: ns) (x :: xs) /\ same_outside (foot l (n :: ns)) m m'.
Proof using.
  intros He Hl Hf Hc. destruct (is_list_fresh _ _ _ _ _ _ Hl Hf) as [Hn Hnl]. destruct Hl.
  pose proof (eol_fresh _ _ _ He Hf) as Hne.
  assert (Hhead := chain_head _ _ _ _ _ il_chain0).
  assert (Hnd : NoDup (n :: ns)) by (by apply NoDup_cons).
  destruct ns as [| k ns].
  - cbn [chain head_ptr last_cell last] in *. eexists. split.
    { unfold push_front, push_front_impl. run. reflexivity. }
    split; [| outside_tac].
    apply Forall2_nil_inv_l in il_infos0 as ->.
    split; cbn [chain last_cell last]; [split | | | | done | elem_tac | done]; try lk.
    apply infos_cons; split; [lk | apply infos_nil].
  - rewrite last_cell_cons in il_last0.
    assert (Hlc : last_cell 0 (nxt k) ns <> (l, F_first)) by (unfold last_cell; destruct (last ns); congruence).
    eexists. split.
    { unfold push_front, push_front_impl. run. reflexivity. }
    split; [| outside_tac].
    split; [cbn [chain head_ptr] in *; destruct il_chain0; split_and!; lk; chain_tac | | | | done | elem_tac | done].
    + rewrite !last_cell_cons. lk.
    + lk. f_equal. f_equal. count_tac.
    + apply infos_cons. split; [lk |]. infos_tac.
Qed.

Lemma pop_nil m l xs : is_list m l [] xs -> pop eol l m = Some (VNull, m).
Proof using. intros []. cbn [chain] in *. unfold pop. run. reflexivity. Qed.

(** The node that [pop] unlinks is not freed. *)
Lemma pop_cons m l n ns x xs :
  is_list m l (n :: ns) (x :: xs) ->
  exists m', pop eol l m = Some (x, m') /\ is_list m' l ns xs /\ same_outside (foot l []) m m'.
Proof using.
  intros []. destruct il_chain0 as [Hc1 Hc2]. pose proof (chain_head _ _ _ _ _ Hc2) as Hh.
  apply infos_cons in il_infos0 as [Hi His]. apply NoDup_cons in il_nodup0 as [Hn Hnd].
  assert (n <> eol) by elem_tac.
  assert (Hnl : eol ∉ ns) by elem_tac.
  destruct ns as [| k ns].
  - cbn [head_ptr] in Hh. eexists. split.
    { unfold pop. run. change (_ =? 0) with true. cbv iota. run. reflexivity. }
    split; [| outside_tac].
    split; cbn [chain last_cell last] in *; try lk; try done. by infos_tac.
  - cbn [head_ptr] in Hh. assert (Hu : u32 (Z.of_nat (length (n :: k :: ns)) + -1) = Z.of_nat (length (k :: ns))) by count_tac.
    assert (Ht : (u32 (Z.of_nat (length (n :: k :: ns)) + -1) =? 0) = false) by (apply Z.eqb_neq; count_tac).
    eexists. split.
    { unfold pop. run. rewrite Ht. cbv iota. run. reflexivity. }
    split; [| outside_tac].
    rewrite !last_cell_cons in il_last0. destruct Hc2 as [_ Hc2].
    split; try done; try lk.
    + split; [lk |]. chain_tac.
    + by rewrite last_cell_cons.
    + by rewrite Hu.
    + infos_tac.
    + count_tac.
Qed.

(** The store after a node between [ns1] and [ns2] was removed. *)
Definition removed (l : loc) (ns1 : list loc) (n : loc) (ns2 : list loc) (m : mem) : mem :=
  <[last_cell 0 (l, F_first) ns1 := head_ptr ns2 (VObj eol)]> (delete (nxt n) (delete (n, F_info)
    (<[(l, F_last) := VAddr (last_cell 0 (l, F_first) (ns1 ++ ns2))]>
    (<[(l, F_elements) := VInt (Z.of_nat (length (ns1 ++ ns2)))]> m)))).

Lemma cell_facts l ns1 n ns2 :
  NoDup (ns1 ++ n :: ns2) ->
  let c := last_cell 0 (l, F_first) ns1 in
  c <> nxt n /\ c <> (l, F_last) /\ c <> (l, F_elements) /\ (forall k, c <> (k, F_info)) /\
  (forall k, k ∈ ns2 -> c <> nxt k).
Proof using.
  intros (_ & Hdisj & _)%NoDup_app c.
  destruct (last_cell_cases l ns1) as [E | (k & Hk & E)]; unfold c; rewrite E; split_and!; try congruence; intros;
    intros [= ->]; apply (Hdisj _ Hk); elem_tac.
Qed.

Lemma last_cell_other k ns n : n <> k -> n ∉ ns -> last_cell 0 (nxt k) ns <> nxt n.
Proof using.
  intros H1 H2 E. pose proof (last_cell_in 0 (nxt k) ns) as Hin. rewrite E in Hin.
  apply elem_of_cells in Hin as [? | (? & ? & ?)]; simplify_eq; tauto.
Qed.

(** [remove] is given the address of the pointer to the node: the cell after
    the nodes before it. *)
Lemma remove_run m l ns1 n ns2 xs :
  is_list m l (ns1 ++ n :: ns2) xs ->
  remove l (last_cell 0 (l, F_first) ns1) m = Some (tt, removed l ns1 n ns2 m).
Proof using.
  intros []. destruct (cell_facts l _ _ _ il_nodup0) as (Hc3 & Hc4 & Hc5 & Hc6 & Hc7).
  apply chain_app in il_chain0 as [Hc1 [_ Hc2]].
  pose proof (chain_last _ _ _ _ _ Hc1) as Hp. cbn [head_ptr] in Hp. pose proof (chain_head _ _ _ _ _ Hc2) as Hh.
  apply Forall2_app_inv_l in il_infos0 as (xs1 & ? & _ & Hi2 & ->).
  inversion Hi2 as [| ? w ? xs2 Hi _]; subst.
  assert (Hu : u32 (Z.of_nat (length (ns1 ++ n :: ns2)) + -1) = Z.of_nat (length (ns1 ++ ns2))) by count_tac.
  rewrite last_cell_app, last_cell_cons in il_last0.
  set (m1 := <[(l, F_elements) := VInt (Z.of_nat (length (ns1 ++ ns2)))]> m).
  assert (Hl1 : m1 !! (l, F_last) = Some (VAddr (last_cell 0 (nxt n) ns2))) by (unfold m1; lk).
  assert (Hp1 : m1 !! last_cell 0 (l, F_first) ns1 = Some (VObj n)) by (unfold m1; lk).
  assert (Hn : m1 !! nxt n = Some (head_ptr ns2 (VObj eol))) by (unfold m1; lk).
  assert (Hni : m1 !! (n, F_info) = Some w) by (unfold m1; lk).
  unfold remove. run. rewrite !Hu. unfold removed. fold m1.
  rewrite (run_bind _ _ _ tt (<[(l, F_last) := VAddr (last_cell 0 (l, F_first) (ns1 ++ ns2))]> m1));
    [clearbody m1; run; reflexivity |].
  rewrite last_cell_app. apply NoDup_app in il_nodup0 as (_ & _ & [Hn2 _]%NoDup_cons).
  destruct ns2 as [| k ns2].
  - rewrite last_cell_nil, app_nil_r in *. destruct ns1 as [| k ns1 _] using rev_ind.
    { change (_ =? 0) with true. cbv iota. clearbody m1. run. reflexivity. }
    rewrite (proj2 (Z.eqb_neq _ _)) by (rewrite length_app; cbn; lia). clearbody m1. run. reflexivity.
  - rewrite (proj2 (Z.eqb_neq _ _)) by (rewrite length_app; cbn; lia).
    rewrite !last_cell_cons in *.
    assert (last_cell 0 (nxt k) ns2 <> nxt n) by (apply last_cell_other; elem_tac).
    clearbody m1. run. unfold mret, prog_ret. by rewrite insert_id.
Qed.

Lemma removed_repr m l ns1 n ns2 xs1 x xs2 :
  is_list m l (ns1 ++ n :: ns2) (xs1 ++ x :: xs2) -> length ns1 = length xs1 ->
  is_list (removed l ns1 n ns2 m) l (ns1 ++ ns2) (xs1 ++ xs2) /\ gone n (removed l ns1 n ns2 m) /\
  same_outside (foot l (ns1 ++ [n])) m (removed l ns1 n ns2 m).
Proof using.
  intros [] Hlen. destruct (cell_facts l _ _ _ il_nodup0) as (Hc3 & Hc4 & Hc5 & Hc6 & Hc7).
  apply chain_app in il_chain0 as [Hc1 [_ Hc2]].
  apply Forall2_app_inv in il_infos0 as [Hi1 Hi2]; [| done]. apply infos_cons in Hi2 as [Hi Hi2].
  change (infos m ns1 xs1) in Hi1.
  pose proof il_nodup0 as (Hnd1 & Hdisj & [Hn2 Hnd2]%NoDup_cons)%NoDup_app.
  assert (Hn1 : n ∉ ns1) by (intros H; apply (Hdisj n H); left).
  assert (Hncs : NoDup (cells 0 (l, F_first) ns1)) by (by apply NoDup_cells).
  assert (Hcf : foot l (ns1 ++ [n]) (last_cell 0 (l, F_first) ns1)).
  { eapply foot_mono; [| apply foot_cells, last_cell_in]. intros ? ?. elem_tac. }
  unfold removed. set (c := last_cell 0 (l, F_first) ns1) in *.
  split_and!; [split | split | ].
  - apply chain_app. split.
    + eapply chain_set_end; [done |]. chain_tac.
    + fold c. destruct ns2 as [| k ns2]; cbn [chain head_ptr] in *; [lk |]. destruct Hc2 as [_ Hc2]. split; [lk |].
      apply chain_insert; [| chain_tac].
      rewrite elem_of_cells. intros [E | (k' & Hk' & E)]; [apply (Hc7 k); [left | done] | apply (Hc7 k'); [by right | done]].
  - lk.
  - lk.
  - unfold infos. apply Forall2_app; apply (infos_frame m); try done; intros; lk.
  - apply NoDup_app. split_and!; [done | | done]. intros k Hk1 Hk2. apply (Hdisj k Hk1). by right.
  - elem_tac.
  - count_tac.
  - lk.
  - lk.
  - apply same_outside_insert; [done |]. outside_tac.
Qed.

Lemma find_node_ok m ns : forall a xs fuel eq x,
  chain 0 m a ns (VObj eol) -> infos m ns xs -> eol ∉ ns -> (length ns < fuel)%nat ->
  exists v, find_node eol fuel eq x (head_ptr ns (VObj eol)) m = Some (v, m) /\
    ptr_eqb v (VObj eol) = negb (existsb (fun i => eq i x) xs).
Proof using.
  induction ns as [| n ns IH]; intros a xs fuel eq x Hc Hi He Hf; (destruct fuel as [| fuel]; [cbn in Hf; lia |]).
  - apply Forall2_nil_inv_l in Hi as ->. cbn [head_ptr find_node]. eexists. split; [run; reflexivity |]. by rewrite bool_decide_true.
  - destruct xs as [| i xs]; [by inversion Hi |]. apply infos_cons in Hi as [Hi His]. destruct Hc as [_ Hc].
    assert (n <> eol) by elem_tac. pose proof (chain_head _ _ _ _ _ Hc) as Hh.
    cbn [head_ptr find_node existsb]. destruct (eq i x) eqn:E.
    + eexists. split; [run; rewrite E; reflexivity |]. by rewrite bool_decide_false by congruence.
    + destruct (IH (nxt n) xs fuel eq x) as (v & Hv & Hb); [done | done | elem_tac | cbn in Hf; lia |].
      exists v. split; [| done]. run. rewrite E. run. by rewrite Hv.
Qed.

Lemma add_unique_ok m l ns xs x n fuel eq :
  eol_ok eol m -> is_list m l ns xs -> fresh n m -> Z.of_nat (S (length ns)) < 2 ^ 32 -> (length ns < fuel)%nat ->
  let dup := existsb (fun i => eq i x) xs in
  exists m', add_unique eol fuel eq l x (Some n) m = Some (dup, m') /\
    is_list m' l (ns ++ if dup then [] else [n]) (xs ++ if dup then [] else [x]) /\
    same_outside (foot l (n :: ns)) m m'.
Proof using.
  intros He Hl Hfr Hc Hfu dup. pose proof Hl as [Hch _ _ Hi _ Heo _].
  destruct (find_node_ok m ns _ _ _ eq x Hch Hi Heo Hfu) as (v & Hv & Hb).
  unfold add_unique. rewrite (run_load _ _ _ _ (chain_head _ _ _ _ _ Hch)), (run_bind _ _ _ _ _ Hv), Hb. fold dup.
  destruct dup; cbn [negb].
  - exists m. rewrite !app_nil_r. done.
  - destruct (push_back_ok m l ns xs x n) as (m' & H1 & H2 & H3); try done. exists m'. done.
Qed.

Lemma elem_loop_ok m ns : forall a xs fuel n i data,
  chain 0 m a ns (VObj eol) -> infos m ns xs -> eol ∉ ns -> (S (length ns) < fuel)%nat ->
  0 <= i -> i + Z.of_nat (length ns) < 2 ^ 32 ->
  elem_loop eol fuel n i (head_ptr ns (VObj eol)) data m =
    Some (if i <=? n then default VNull (xs !! Z.to_nat (n - i)) else data, m).
Proof using.
  induction ns as [| k ns IH]; intros a xs fuel n i data Hc Hi He Hf Hi0 Hb; (destruct fuel as [| fuel]; [lia |]);
    cbn [head_ptr elem_loop].
  - apply Forall2_nil_inv_l in Hi as ->. destruct (i <=? n); [run; done | done].
  - destruct xs as [| x xs]; [by inversion Hi |]. apply infos_cons in Hi as [Hi His]. destruct Hc as [_ Hc].
    assert (k <> eol) by elem_tac. pose proof (chain_head _ _ _ _ _ Hc) as Hh.
    destruct (Z.leb_spec i n); [| done]. run. cbn [length] in *.
    rewrite (IH (nxt k) xs) by (try done; try elem_tac; try lia; rewrite u32_small by lia; lia).
    rewrite u32_small by lia. do 2 f_equal. destruct (Z.leb_spec (i + 1) n).
    + replace (Z.to_nat (n - i)) with (S (Z.to_nat (n - (i + 1)))) by lia. done.
    + replace (Z.to_nat (n - i)) with 0%nat by lia. done.
Qed.

Lemma elem_ok m l ns xs n fuel :
  is_list m l ns xs -> 0 <= n -> (S (length ns) < fuel)%nat ->
  elem eol fuel l n m = Some (default VNull (xs !! Z.to_nat n), m).
Proof using.
  intros [] Hn Hf. unfold elem. rewrite (run_load _ _ _ _ (chain_head _ _ _ _ _ il_chain0)).
  rewrite (elem_loop_ok m ns (l, F_first) xs) by (try done; lia). rewrite (proj2 (Z.leb_le 0 n)) by done. by rewrite Z.sub_0_r.
Qed.

Lemma head_ok m l ns xs : eol_ok eol m -> is_list m l ns xs -> head l m = Some (default VNull (hd_error xs), m).
Proof using.
  intros [_ He] []. pose proof (chain_head _ _ _ _ _ il_chain0). unfold head. destruct ns as [| n ns]; cbn [head_ptr] in *.
  - apply Forall2_nil_inv_l in il_infos0 as ->. run. reflexivity.
  - destruct xs as [| x xs]; [by inversion il_infos0 |]. apply infos_cons in il_infos0 as [Hi _]. run. reflexivity.
Qed.

Lemma is_empty_ok m l ns xs : is_list m l ns xs -> is_empty eol l m = Some (bool_decide (xs = []), m).
Proof using.
  intros []. unfold is_empty. rewrite (run_load _ _ _ _ (chain_head _ _ _ _ _ il_chain0)).
  rewrite (head_ptr_eol _ _ il_eol0). unfold mret, prog_ret. do 2 f_equal. apply bool_decide_ext.
  rewrite <- !length_zero_iff_nil. apply infos_length in il_infos0. lia.
Qed.
End ops.

(** ** Two lists *)

Section two.
Variable eol : loc.
Abbreviation is_list := (is_list eol).

(** [assign] from a non-empty list shares its nodes. *)
Lemma assign_run m l r ns ns2 xs xs2 :
  is_list m l ns xs -> is_list m r ns2 xs2 -> ns2 <> [] -> l <> r ->
  assign l r m = Some (tt, <[(l, F_last) := VAddr (last_cell 0 (l, F_first) ns2)]>
    (<[(l, F_first) := head_ptr ns2 (VObj eol)]> (<[(l, F_elements) := VInt (Z.of_nat (length ns2))]> m))).
Proof using.
  intros Hl Hr Hne Hlr. destruct Hr. pose proof (chain_head _ _ _ _ _ il_chain0) as Hh.
  pose proof (chain_head _ _ _ _ _ (il_chain _ _ _ _ _ Hl)). destruct Hl.
  unfold assign. run. rewrite (proj2 (Z.eqb_neq _ _)) by (destruct ns2; [done | cbn; lia]). cbn [negb]. run.
  by rewrite (last_cell_rebase 0 (l, F_first) (r, F_first)).
Qed.

Lemma append_ok m l r ns1 xs1 ns2 xs2 :
  is_list m l ns1 xs1 -> is_list m r ns2 xs2 -> l <> r -> NoDup (ns1 ++ ns2) ->
  Z.of_nat (length ns1 + length ns2) < 2 ^ 32 ->
  exists m', append eol l r m = Some (tt, m') /\ is_list m' l (ns1 ++ ns2) (xs1 ++ xs2) /\
    same_outside (foot l ns1) m m'.
Proof using.
  intros Hl Hr Hlr Hnd Hc. unfold append.
  rewrite (run_bind _ _ _ _ _ (is_empty_ok _ _ _ _ _ Hr)).
  assert (Hl2 : length ns2 = length xs2) by (destruct Hr; eapply infos_length; eauto).
  assert (Hl1 : length ns1 = length xs1) by (destruct Hl; eapply infos_length; eauto).
  destruct ns2 as [| n ns2].
  { destruct xs2; [| done]. rewrite bool_decide_true by done. exists m. by rewrite !app_nil_r. }
  rewrite bool_decide_false by (by intros ->). rewrite (run_bind _ _ _ _ _ (is_empty_ok _ _ _ _ _ Hl)).
  destruct ns1 as [| k ns1].
  - destruct xs1; [| done]. rewrite bool_decide_true by done.
    rewrite (assign_run m l r [] (n :: ns2) [] xs2) by done. eexists. split; [reflexivity |]. split; [| outside_tac].
    destruct Hr. split; try done.
    + apply (chain_rebase 0 m _ (r, F_first)); [lk; by rewrite (chain_head _ _ _ _ _ il_chain0) | intros; lk | done].
    + lk.
    + lk.
    + infos_tac.
  - rewrite bool_decide_false by (by intros ->). destruct Hl, Hr.
    pose proof (chain_last _ _ _ _ _ il_chain0) as He. pose proof (chain_head _ _ _ _ _ il_chain1) as Hh.
    cbn [head_ptr] in Hh. rewrite last_cell_cons in il_last0, He.
    assert (Hcs : exists j, j ∈ k :: ns1 /\ last_cell 0 (nxt k) ns1 = nxt j).
    { destruct (last_cell_cases l (k :: ns1)) as [E | ?]; [| by rewrite last_cell_cons in *].
      rewrite last_cell_cons in E. pose proof (last_cell_in 0 (nxt k) ns1) as Hi. rewrite E in Hi.
      apply elem_of_cells in Hi as [? | (? & ? & ?)]; congruence. }
    destruct Hcs as (j & Hj & Ej). rewrite Ej in *.
    assert (Hj2 : j ∉ n :: ns2) by (apply NoDup_app in Hnd as (_ & Hd & _); by apply Hd).
    eexists. split; [run; reflexivity |]. split; [| outside_tac].
    split.
    + apply chain_app. cbn [head_ptr]. rewrite (last_cell_cons 0 (l, F_first) k), Ej. split.
      * repeat (apply chain_insert; [not_cell |]). rewrite <- Ej, <- (last_cell_cons 0 (l, F_first)).
        eapply chain_set_end; [by apply NoDup_cells | done].
      * apply (chain_rebase 0 m _ (r, F_first)); [lk; by rewrite (chain_head _ _ _ _ _ il_chain1) | | done].
        intros i Hi. assert (i <> j) by congruence. lk.
    + lk. by rewrite last_cell_app, !last_cell_cons.
    + lk. do 2 f_equal. rewrite u32_small; count_tac.
    + unfold infos. apply Forall2_app; apply (infos_frame m); try done; intros; lk.
    + done.
    + elem_tac.
    + count_tac.
Qed.

Lemma foot_disjoint l r ns1 ns2 a : l <> r -> NoDup (ns1 ++ ns2) -> foot r ns2 a -> ~ foot l ns1 a.
Proof using.
  intros Hlr (_ & Hd & _)%NoDup_app H1 H2. inversion H1; subst; inversion H2; subst; try congruence; by eapply Hd.
Qed.

Lemma prepend_ok m l r ns1 xs1 ns2 xs2 :
  is_list m l ns1 xs1 -> is_list m r ns2 xs2 -> l <> r -> NoDup (ns2 ++ ns1) ->
  Z.of_nat (length ns1 + length ns2) < 2 ^ 32 ->
  exists m', prepend eol l r m = Some (tt, m') /\ is_list m' l (ns2 ++ ns1) (xs2 ++ xs1) /\
    same_outside (foot l ns2) m m'.
Proof using.
  intros Hl Hr Hlr Hnd Hc. unfold prepend.
  rewrite (run_bind _ _ _ _ _ (is_empty_ok _ _ _ _ _ Hr)).
  assert (Hl2 : length ns2 = length xs2) by (destruct Hr; eapply infos_length; eauto).
  assert (Hl1 : length ns1 = length xs1) by (destruct Hl; eapply infos_length; eauto).
  destruct ns2 as [| j ns2 _] using rev_ind.
  { destruct xs2; [| done]. rewrite bool_decide_true by done. by exists m. }
  rewrite bool_decide_false by (intros ->; rewrite length_app in Hl2; cbn in Hl2; lia).
  rewrite (run_bind _ _ _ _ _ (is_empty_ok _ _ _ _ _ Hl)). destruct Hl, Hr.
  rewrite last_cell_snoc in *. apply chain_snoc in il_chain1 as [Hc1 Hc2].
  pose proof (chain_head _ _ _ _ _ Hc1) as Hh2. pose proof (chain_head _ _ _ _ _ il_chain0) as Hh1.
  pose proof (proj1 (NoDup_snoc _ _) il_nodup1) as [Hnd2 Hj].
  assert (Hj1 : j ∉ ns1) by (apply NoDup_app in Hnd as (_ & Hd & _); apply Hd; elem_tac).
  assert (Hu : forall a b, a + b = Z.of_nat (length ((ns2 ++ [j]) ++ ns1)) -> u32 (a + b) = Z.of_nat (length ((ns2 ++ [j]) ++ ns1)))
    by (intros ? ? ->; apply u32_small; count_tac).
  assert (Hgoal : forall m', m' !! (l, F_last) = Some (VAddr (last_cell 0 (nxt j) ns1)) ->
    m' !! (l, F_elements) = Some (VInt (Z.of_nat (length ((ns2 ++ [j]) ++ ns1)))) ->
    m' !! (l, F_first) = Some (head_ptr ns2 (VObj j)) -> m' !! nxt j = Some (head_ptr ns1 (VObj eol)) ->
    (forall k, k <> j -> m' !! nxt k = m !! nxt k) -> (forall k, m' !! (k, F_info) = m !! (k, F_info)) ->
    is_list m' l ((ns2 ++ [j]) ++ ns1) (xs2 ++ xs1)).
  { intros m' A1 A2 A3 A4 A5 A6. split; try done.
    - apply chain_app. rewrite last_cell_snoc, chain_snoc. split_and!; [| done |].
      + apply (chain_rebase 0 m _ (r, F_first)); [congruence | | done]. intros k Hk. apply A5. congruence.
      + apply (chain_rebase 0 m _ (l, F_first)); [congruence | | done]. intros k Hk. apply A5. congruence.
    - by rewrite last_cell_app, last_cell_snoc.
    - unfold infos. apply Forall2_app; apply (infos_frame m); try done; intros; by rewrite A6.
    - elem_tac.
    - count_tac. }
  destruct ns1 as [| k ns1].
  - destruct xs1; [| done]. rewrite bool_decide_true by done. cbn [head_ptr] in *.
    eexists. split; [run; reflexivity |]. split; [| outside_tac].
    apply Hgoal; intros; lk. do 2 f_equal. apply Hu. count_tac.
  - rewrite bool_decide_false by (by intros ->). cbn [head_ptr] in *. rewrite last_cell_cons in il_last0.
    eexists. split; [run; reflexivity |]. split; [| outside_tac].
    apply Hgoal; intros; lk.
    + by rewrite last_cell_cons.
    + do 2 f_equal. apply Hu. count_tac.
Qed.

Lemma swap_ok m l r ns1 xs1 ns2 xs2 :
  is_list m l ns1 xs1 -> is_list m r ns2 xs2 -> l <> r ->
  exists m', swap l r m = Some (tt, m') /\ is_list m' l ns2 xs2 /\ is_list m' r ns1 xs1 /\
    same_outside (fun a => foot l [] a \/ foot r [] a) m m'.
Proof using.
  intros [] [] Hlr.
  pose proof (chain_head _ _ _ _ _ il_chain0) as H1. pose proof (chain_head _ _ _ _ _ il_chain1) as H2.
  assert (Hsw : forall a b ns, (if ptr_eqb (VAddr (last_cell 0 (a, F_first) ns)) (VAddr (a, F_first)) then VAddr (b, F_first)
    else VAddr (last_cell 0 (a, F_first) ns)) = VAddr (last_cell 0 (b, F_first) ns)).
  { intros a b [| k ns]; [by rewrite bool_decide_true |]. rewrite bool_decide_false; [by rewrite !last_cell_cons |].
    rewrite last_cell_cons. intros [= E]. pose proof (last_cell_in 0 (nxt k) ns) as Hi. rewrite E in Hi.
    apply elem_of_cells in Hi as [? | (? & ? & ?)]; congruence. }
  eexists. split; [unfold swap; run; rewrite !Hsw; reflexivity |].
  split_and!; [split; try done; try lk | split; try done; try lk |].
  - apply (chain_rebase 0 m _ (r, F_first)); [lk; congruence | intros; lk; congruence | done].
  - infos_tac.
  - apply (chain_rebase 0 m _ (l, F_first)); [lk; congruence | intros; lk; congruence | done].
  - infos_tac.
  - repeat (apply same_outside_insert; [first [left; foot_tac | right; foot_tac] |]). reflexivity.
Qed.

Lemma disjoin_loop_ok l ns2 : forall ns1 m a fuel k,
  chain 0 m a (ns1 ++ ns2) (VObj eol) -> NoDup (ns1 ++ ns2) -> eol ∉ ns1 ++ ns2 -> (length ns1 < fuel)%nat ->
  m !! (l, F_elements) = Some (VInt k) -> 0 <= k -> k + Z.of_nat (length ns1) < 2 ^ 32 -> a <> (l, F_elements) ->
  disjoin_loop eol fuel l (head_ptr ns2 (VObj eol)) a (head_ptr (ns1 ++ ns2) (VObj eol)) m =
    Some (if bool_decide (ns2 = []) && negb (bool_decide (ns1 = [])) then None else Some (last_cell 0 a ns1),
          <[(l, F_elements) := VInt (k + Z.of_nat (length ns1))]> m).
Proof using.
  intros ns1. induction ns1 as [| n ns1 IH]; intros m a fuel k Hc Hnd He Hf Hk Hk0 Hb Ha;
    (destruct fuel as [| fuel]; [cbn in Hf; lia |]); cbn [app head_ptr disjoin_loop].
  - rewrite (bool_decide_true (head_ptr ns2 _ = head_ptr ns2 _)), orb_true_r by done. rewrite andb_false_r.
    cbn [length]. rewrite Z.add_0_r, insert_id by done. done.
  - destruct Hc as [Hc1 Hc2]. apply NoDup_cons in Hnd as [Hn Hnd].
    pose proof (chain_head _ _ _ _ _ Hc2) as Hh. cbn [app] in He.
    rewrite (bool_decide_false (VObj n = VObj eol)) by (intros [= ->]; apply He; left).
    rewrite (bool_decide_false (VObj n = head_ptr ns2 _)).
    2:{ destruct ns2 as [| j ns2]; cbn [head_ptr]; intros [= ->]; [apply He; left | apply Hn; elem_tac]. }
    cbn [orb]. run. rewrite u32_small by (cbn [length] in *; lia).
    rewrite head_ptr_eol by elem_tac. destruct (decide (ns1 ++ ns2 = [])) as [E | E].
    + apply app_eq_nil in E as [-> ->]. rewrite !bool_decide_true by done. rewrite bool_decide_false by done. done.
    + rewrite bool_decide_false by done.
      rewrite (IH _ _ _ (k + 1)); try done.
      * rewrite last_cell_cons, insert_insert_eq. cbn [length]. do 2 f_equal; [| do 2 f_equal; lia].
        rewrite (bool_decide_false (n :: ns1 = [])) by done. destruct (decide (ns2 = [])) as [-> |].
        -- rewrite (bool_decide_false (ns1 = [])); [done |]. intros ->. done.
        -- by rewrite bool_decide_false.
      * chain_tac.
      * elem_tac.
      * cbn [length] in Hf. lia.
      * by rewrite lookup_insert_eq.
      * lia.
      * cbn [length] in Hb. lia.
Qed.

Lemma disjoin_ok m l r ns1 ns2 xs1 xs2 fuel :
  is_list m l (ns1 ++ ns2) (xs1 ++ xs2) -> is_list m r ns2 xs2 -> l <> r -> length ns1 = length xs1 ->
  (length ns1 < fuel)%nat ->
  exists m', disjoin eol fuel l r m = Some (tt, m') /\ is_list m' l ns1 xs1 /\ is_list m' r ns2 xs2 /\
    same_outside (foot l ns1) m m'.
Proof using.
  intros Hl Hr Hlr Hlen Hf. destruct Hl as [Hc Hla Hel Hin Hnd Heo Hco].
  pose proof (chain_head _ _ _ _ _ Hc) as Hh1. pose proof (chain_head _ _ _ _ _ (il_chain _ _ _ _ _ Hr)) as Hh2.
  set (m1 := <[(l, F_elements) := VInt 0]> m).
  assert (Hc' : chain 0 m1 (l, F_first) (ns1 ++ ns2) (VObj eol)) by (unfold m1; chain_tac).
  pose proof (disjoin_loop_ok l ns2 ns1 m1 (l, F_first) fuel 0 Hc' Hnd Heo Hf (lookup_insert_eq _ _ _) ltac:(lia)
    ltac:(rewrite length_app in Hco; lia) ltac:(congruence)) as Hloop.
  unfold m1 in Hloop. rewrite insert_insert_eq, Z.add_0_l in Hloop. cbn in Hloop.
  apply chain_app in Hc as [Hc1 Hc2].
  apply Forall2_app_inv in Hin as [Hi1 Hi2]; [| done]. change (infos m ns1 xs1) in Hi1.
  pose proof Hnd as (Hnd1 & Hd & _)%NoDup_app.
  assert (Hout : forall m', same_outside (foot l ns1) m m' -> is_list m' r ns2 xs2).
  { intros m' Hs. apply (is_list_outside _ (foot l ns1) m); [| done | done]. intros a. by apply foot_disjoint. }
  assert (Hcf : foot l ns1 (last_cell 0 (l, F_first) ns1)) by apply foot_cells, last_cell_in.
  destruct (bool_decide (ns2 = []) && negb (bool_decide (ns1 = []))) eqn:E.
  - apply andb_true_iff in E as [->%bool_decide_eq_true _]. rewrite app_nil_r in *. cbn [head_ptr] in *.
    eexists. split; [unfold disjoin; run; rewrite (run_bind _ _ _ _ _ Hloop); reflexivity |].
    assert (Hs : same_outside (foot l ns1) m (<[(l, F_elements) := VInt (Z.of_nat (length ns1))]> m)) by outside_tac.
    split_and!; [| by apply Hout | done].
    split; try done; try lk; [chain_tac | infos_tac].
  - pose proof (chain_last _ _ _ _ _ Hc1) as Hp.
    assert (Hns : NoDup (cells 0 (l, F_first) ns1)) by (by apply NoDup_cells).
    assert (Hk : last_cell 0 (l, F_first) ns1 <> (l, F_last) /\ last_cell 0 (l, F_first) ns1 <> (l, F_elements) /\
      forall k, last_cell 0 (l, F_first) ns1 <> (k, F_info))
      by (destruct (last_cell_cases l ns1) as [-> | (? & ? & ->)]; split_and!; congruence).
    destruct Hk as (Hk1 & Hk2 & Hk3). set (c := last_cell 0 (l, F_first) ns1) in *.
    eexists. split; [unfold disjoin; run; rewrite (run_bind _ _ _ _ _ Hloop); run; reflexivity |].
    match goal with |- is_list ?m' _ _ _ /\ _ => assert (Hs : same_outside (foot l ns1) m m') end.
    { apply same_outside_insert; [foot_tac |]. apply same_outside_insert; [done |]. outside_tac. }
    split_and!; [| by apply Hout | done].
    split; try done; try lk.
    + repeat (apply chain_insert; [not_cell |]). eapply chain_set_end; [done |]. chain_tac.
    + infos_tac.
    + elem_tac.
    + rewrite length_app in Hco. lia.
Qed.
End two.

(** ** Sequences of operations against the abstract list *)

Inductive list_op :=
  | OpPushBack (x : val) | OpPushFront (x : val) | OpAddUnique (x : val) | OpPop | OpHead | OpElem (n : Z) | OpIsEmpty.

Definition bool_val (b : bool) : val := VInt (if b then 1 else 0).

Section run.
Variable eol : loc.
Variable fuel : nat.
Variable eq : val -> val -> bool.

(** One call on the list at [l]; [n] is the node a successful [new] returns. *)
Definition run_op (l : loc) (op : list_op) (n : loc) : prog val :=
  match op with
  | OpPushBack x => b ← push_back eol l x (Some n); mret (bool_val b)
  | OpPushFront x => b ← push_front l x (Some n); mret (bool_val b)
  | OpAddUnique x => b ← add_unique eol fuel eq l x (Some n); mret (bool_val b)
  | OpPop => pop eol l
  | OpHead => head l
  | OpElem i => elem eol fuel l i
  | OpIsEmpty => b ← is_empty eol l; mret (bool_val b)
  end.

Fixpoint run_ops (l : loc) (ops : list (list_op * loc)) : prog (list val) :=
  match ops with
  | [] => mret []
  | (op, n) :: ops => r ← run_op l op n; rs ← run_ops l ops; mret (r :: rs)
  end.

(** What the calls mean for a list of elements. *)
Definition abs_op (op : list_op) (xs : list val) : val * list val :=
  match op with
  | OpPushBack x => (VInt 0, xs ++ [x])
  | OpPushFront x => (VInt 0, x :: xs)
  | OpAddUnique x => if existsb (fun i => eq i x) xs then (VInt 1, xs) else (VInt 0, xs ++ [x])
  | OpPop => (default VNull (hd_error xs), tail xs)
  | OpHead => (default VNull (hd_error xs), xs)
  | OpElem i => (default VNull (xs !! Z.to_nat i), xs)
  | OpIsEmpty => (bool_val (bool_decide (xs = [])), xs)
  end.

Fixpoint abs_ops (ops : list list_op) (xs : list val) : list val * list val :=
  match ops with
  | [] => ([], xs)
  | op :: ops => let '(r, xs) := abs_op op xs in let '(rs, xs) := abs_ops ops xs in (r :: rs, xs)
  end.

Definition op_wf (op : list_op) : Prop := match op with OpElem i => 0 <= i | _ => True end.

Lemma run_op_ok m l ns xs op n :
  eol_ok eol m -> is_list eol m l ns xs -> fresh n m -> Z.of_nat (S (length ns)) < 2 ^ 32 -> (S (length ns) < fuel)%nat ->
  op_wf op ->
  exists m' ns', run_op l op n m = Some ((abs_op op xs).1, m') /\ is_list eol m' l ns' (abs_op op xs).2 /\
    same_outside (foot l (n :: ns)) m m' /\ ns' ⊆ n :: ns /\ (length ns' <= S (length ns))%nat.
Proof using.
  intros He Hl Hfr Hc Hf Hw. destruct op as [x | x | x | | | i |]; cbn [run_op abs_op fst snd].
  - destruct (push_back_ok eol m l ns xs x n) as (m' & H1 & H2 & H3); try done. exists m', (ns ++ [n]).
    rewrite (run_bind _ _ _ _ _ H1). split_and!; try done; [intros ? ?; elem_tac | rewrite length_app; cbn; lia].
  - destruct (push_front_ok eol m l ns xs x n) as (m' & H1 & H2 & H3); try done. exists m', (n :: ns).
    rewrite (run_bind _ _ _ _ _ H1). done.
  - destruct (add_unique_ok eol m l ns xs x n fuel eq) as (m' & H1 & H2 & H3); try done; [lia |].
    rewrite (run_bind _ _ _ _ _ H1). exists m'.
    destruct (existsb (fun i => eq i x) xs); cbn [fst snd]; rewrite ?app_nil_r in H2; eexists; split_and!; try done.
    + intros ? ?; elem_tac.
    + lia.
    + intros ? ?; elem_tac.
    + rewrite length_app; cbn; lia.
  - destruct xs as [| x xs].
    + assert (ns = []) as -> by (destruct Hl; by apply length_zero_iff_nil, (infos_length _ _ _ il_infos0)).
      exists m, []. rewrite (pop_nil _ _ _ _ Hl). split_and!; try done; [set_solver | lia].
    + destruct ns as [| k ns]; [by destruct Hl as [_ _ _ Hi _ _ _]; inversion Hi |].
      destruct (pop_cons _ _ _ _ _ _ _ Hl) as (m' & H1 & H2 & H3). exists m', ns. rewrite H1. split_and!; try done.
      * eapply same_outside_mono; [| done]. intros a. apply foot_mono. set_solver.
      * intros ? ?; elem_tac.
      * cbn; lia.
  - exists m, ns. rewrite (head_ok _ _ _ _ _ He Hl). split_and!; try done; [intros ? ?; elem_tac | lia].
  - exists m, ns. rewrite (elem_ok _ _ _ _ _ _ _ Hl) by done. split_and!; try done; [intros ? ?; elem_tac | lia].
  - exists m, ns. rewrite (run_bind _ _ _ _ _ (is_empty_ok _ _ _ _ _ Hl)). split_and!; try done; [intros ? ?; elem_tac | lia].
Qed.

Lemma fresh_outside m m' l ns n :
  same_outside (foot l ns) m m' -> n <> l -> n ∉ ns -> fresh n m -> fresh n m'.
Proof using. intros Hs H1 H2 Hf f. rewrite Hs; [apply Hf |]. inversion 1; congruence. Qed.
End run.

(** A concrete store for the witnesses: the sentinel is object 1, the list at 2
    holds the elements 10, 20 in nodes 4, 5, the list at 3 is empty. *)
Definition demo_mem : mem := list_to_map
  [(nxt 1, VObj 1); ((1%positive, F_info), VNull);
   ((2%positive, F_first), VObj 4); ((2%positive, F_last), VAddr (nxt 5)); ((2%positive, F_elements), VInt 2);
   ((3%positive, F_first), VObj 1); ((3%positive, F_last), VAddr (3%positive, F_first)); ((3%positive, F_elements), VInt 0);
   ((4%positive, F_info), VInt 10); (nxt 4, VObj 5); ((5%positive, F_info), VInt 20); (nxt 5, VObj 1)].

Lemma demo_eol : eol_ok 1 demo_mem.
Proof. split; reflexivity. Qed.

Lemma demo_two : is_list 1 demo_mem 2 [4%positive; 5%positive] [VInt 10; VInt 20].
Proof.
  split; try reflexivity; try (by vm_compute).
  - repeat (apply infos_cons; split; [reflexivity |]). apply infos_nil.
  - apply (bool_decide_unpack _). by vm_compute.
  - apply (bool_decide_unpack _). by vm_compute.
Qed.

Lemma demo_none : is_list 1 demo_mem 3 [] [].
Proof. split; try reflexivity; try (by vm_compute); first [apply infos_nil | apply NoDup_nil_2 | apply not_elem_of_nil]. Qed.

Lemma demo_fresh n : (5 < n)%positive -> fresh n demo_mem.
Proof.
  intros Hn f. unfold demo_mem. cbn [list_to_map foldr]. repeat (rewrite lookup_insert_ne by (intros [=]; lia)). done.
Qed.

(** C1: Any sequence of [push_back], [push_front], [add_unique], [pop], [head],
    [elem] and [is_empty] on a list runs to completion and does to the stored
    list exactly what it does to the abstract list: same results, same final
    elements, the invariant of the representation ([last], the count, the
    sentinel at the end) restored, and no write outside the list's own fields,
    its nodes and the nodes it was given. *)
Theorem base_list_ops_refine (eol : loc) (fuel : nat) (eq : val -> val -> bool) (l : loc) (ops : list (list_op * loc)) :
  forall m ns xs,
  eol_ok eol m -> is_list eol m l ns xs ->
  NoDup (snd <$> ops) -> Forall (fun p => fresh p.2 m /\ op_wf p.1) ops ->
  Z.of_nat (length ns + length ops) < 2 ^ 32 -> (length ns + length ops < fuel)%nat ->
  exists m' ns', run_ops eol fuel eq l ops m = Some ((abs_ops eq (fst <$> ops) xs).1, m') /\
    is_list eol m' l ns' (abs_ops eq (fst <$> ops) xs).2 /\ eol_ok eol m' /\
    same_outside (foot l (ns ++ (snd <$> ops))) m m'.
Proof.
  induction ops as [| [op n] ops IH]; intros m ns xs He Hl Hnd Hfr Hc Hf.
  { exists m, ns. done. }
  apply Forall_cons in Hfr as [[Hn Hw] Hfr]. apply NoDup_cons in Hnd as [Hnn Hnd]. cbn [snd fst] in *.
  destruct (run_op_ok eol fuel eq m l ns xs op n) as (m1 & ns1 & H1 & H2 & H3 & H4 & H5); try done; [cbn in Hc; lia | cbn in Hf; lia |].
  destruct (is_list_fresh _ _ _ _ _ _ Hl Hn) as [Hnns Hnl].
  assert (He1 : eol_ok eol m1).
  { eapply eol_ok_outside; [| done | done]. apply not_elem_of_cons. split; [by apply not_eq_sym, (eol_fresh _ m) | by destruct Hl]. }
  assert (Hfr1 : Forall (fun p : list_op * loc => fresh p.2 m1 /\ op_wf p.1) ops).
  { apply Forall_forall. intros p Hp. pose proof (proj1 (Forall_forall _ _) Hfr p Hp) as [Hpf Hpw]. split; [| done].
    destruct (is_list_fresh _ _ _ _ _ _ Hl Hpf) as [Hpns Hpl].
    eapply fresh_outside; [done | done | | done]. apply not_elem_of_cons. split; [| done].
    intros E. apply Hnn. apply list_elem_of_fmap. eauto. }
  destruct (IH m1 ns1 (abs_op eq op xs).2) as (m2 & ns2 & R1 & R2 & R3 & R4); try done; [cbn in Hc; lia | cbn in Hf; lia |].
  exists m2, ns2. cbn [run_ops fmap list_fmap abs_ops fst snd].
  rewrite (run_bind _ _ _ _ _ H1), (run_bind _ _ _ _ _ R1).
  destruct (abs_op eq op xs) as [r xs1]. cbn [fst snd] in *. fold (fst <$> ops) in *.
  destruct (abs_ops eq (fst <$> ops) xs1) as [rs xs2]. split_and!; try done.
  etrans; eapply same_outside_mono; [| exact H3 | | exact R4]; intros a; apply foot_mono; cbn [fmap list_fmap snd].
  - intros x Hx. elem_tac.
  - intros x [Hx%H4 | Hx]%elem_of_app; elem_tac.
Qed.

Lemma base_list_ops_refine_witness :
  let ops := [(OpPop, 6%positive); (OpAddUnique (VInt 30), 7%positive); (OpPushFront (VInt 5), 8%positive); (OpElem 2, 9%positive)] in
  let eq a b := bool_decide (a = b) in
  abs_ops eq (fst <$> ops) [VInt 10; VInt 20] = ([VInt 10; VInt 0; VInt 0; VInt 30], [VInt 5; VInt 20; VInt 30]) /\
  exists m' ns', run_ops 1 9 eq 2 ops demo_mem = Some ((abs_ops eq (fst <$> ops) [VInt 10; VInt 20]).1, m') /\
    is_list 1 m' 2 ns' (abs_ops eq (fst <$> ops) [VInt 10; VInt 20]).2 /\ eol_ok 1 m' /\
    same_outside (foot 2 ([4%positive; 5%positive] ++ (snd <$> ops))) demo_mem m'.
Proof.
  intros ops eq. split; [by vm_compute |].
  apply (base_list_ops_refine 1 9 eq 2 ops demo_mem [4%positive; 5%positive] [VInt 10; VInt 20]).
  - apply demo_eol.
  - apply demo_two.
  - apply (bool_decide_unpack _). by vm_compute.
  - repeat apply Forall_cons_2; try apply Forall_nil_2; (split; [apply demo_fresh; reflexivity | done]).
  - reflexivity.
  - cbn. lia.
Defined.

(** Two lists that share no node: [append] puts the other list's elements
    after, [prepend] before (and each restores [last], also when one list is
    empty), [swap] exchanges the contents although an empty list's [last] points
    into the list object itself, and [disjoin] cuts off the tail that the other
    list shares, leaving that list valid. *)
Theorem base_list_pair_ops (eol : loc) (fuel : nat) (m : mem) (l r : loc) (ns1 ns2 : list loc) (xs1 xs2 : list val) :
  l <> r -> is_list eol m r ns2 xs2 -> NoDup (ns1 ++ ns2) -> Z.of_nat (length ns1 + length ns2) < 2 ^ 32 ->
  (length ns1 < fuel)%nat ->
  (is_list eol m l ns1 xs1 ->
     (exists m', append eol l r m = Some (tt, m') /\ is_list eol m' l (ns1 ++ ns2) (xs1 ++ xs2) /\
        is_list eol m' r ns2 xs2 /\ same_outside (foot l ns1) m m') /\
     (exists m', prepend eol l r m = Some (tt, m') /\ is_list eol m' l (ns2 ++ ns1) (xs2 ++ xs1) /\
        same_outside (foot l ns2) m m') /\
     (exists m', swap l r m = Some (tt, m') /\ is_list eol m' l ns2 xs2 /\ is_list eol m' r ns1 xs1)) /\
  (is_list eol m l (ns1 ++ ns2) (xs1 ++ xs2) -> length ns1 = length xs1 ->
     exists m', disjoin eol fuel l r m = Some (tt, m') /\ is_list eol m' l ns1 xs1 /\ is_list eol m' r ns2 xs2 /\
       same_outside (foot l ns1) m m').
Proof.
  intros Hlr Hr Hnd Hc Hf. split.
  - intros Hl. split_and!.
    + destruct (append_ok eol m l r ns1 xs1 ns2 xs2) as (m' & H1 & H2 & H3); try done. exists m'. split_and!; try done.
      eapply is_list_outside; [| exact H3 | done]. intros a. by apply foot_disjoint.
    + apply prepend_ok; try done. by rewrite (Permutation_app_comm ns2 ns1).
    + destruct (swap_ok eol m l r ns1 xs1 ns2 xs2) as (m' & H1 & H2 & H3 & _); try done. by exists m'.
  - intros Hl Hlen. by apply disjoin_ok.
Qed.

Lemma base_list_pair_ops_witness :
  exists m', append 1 3 2 demo_mem = Some (tt, m') /\
    is_list 1 m' 3 [4%positive; 5%positive] [VInt 10; VInt 20] /\
    is_list 1 m' 2 [4%positive; 5%positive] [VInt 10; VInt 20] /\ same_outside (foot 3 []) demo_mem m'.
Proof.
  apply (base_list_pair_ops 1 1 demo_mem 3 2 [] [4%positive; 5%positive] [] [VInt 10; VInt 20]).
  - done.
  - apply demo_two.
  - apply (bool_decide_unpack _). by vm_compute.
  - reflexivity.
  - cbn. lia.
  - apply demo_none.
Defined.

Section check.
Variable eol : loc.

Lemma check_loop_ok m ns : forall a n xs fuel cnt,
  chain 0 m a (n :: ns) (VObj eol) -> infos m (n :: ns) xs -> eol ∉ n :: ns -> (length ns < fuel)%nat ->
  0 <= cnt -> cnt + Z.of_nat (length ns) < 2 ^ 32 ->
  exists k, last (n :: ns) = Some k /\
  check_loop eol fuel n cnt m =
    Some (if forallb (fun x => negb (ptr_eqb x VNull)) (removelast xs) then Some (k, cnt + Z.of_nat (length ns)) else None, m).
Proof using.
  induction ns as [| n2 ns IH]; intros a n xs fuel cnt [_ Hc] Hi He Hf H0 Hb; (destruct fuel as [| fuel]; [lia |]);
    cbn [check_loop]; pose proof (chain_head _ _ _ _ _ Hc) as Hh; cbn [head_ptr] in Hh;
    (destruct xs as [| x xs]; [by inversion Hi |]); apply infos_cons in Hi as [Hi His].
  - exists n. split; [done |]. apply Forall2_nil_inv_l in His as ->. run. cbn. by rewrite Z.add_0_r.
  - destruct xs as [| x2 xs]; [by inversion His |].
    destruct (IH (nxt n) n2 (x2 :: xs) fuel (u32 (cnt + 1))) as (k & Hk & R); try done;
      [elem_tac | cbn in Hf; lia | rewrite u32_small; cbn [length] in *; lia | rewrite u32_small; cbn [length] in *; lia |].
    exists k. split; [done |]. assert (n2 <> eol) by elem_tac. run.
    change (removelast (x :: x2 :: xs)) with (x :: removelast (x2 :: xs)). cbn [forallb].
    destruct (bool_decide_reflect (x = VNull)); cbn [negb andb]; [done |]. run. rewrite R.
    rewrite u32_small by (cbn [length] in *; lia). destruct (forallb _ _); [| done]. do 4 f_equal. cbn [length]. lia.
Qed.
End check.

(** The debug invariant check accepts a well-formed non-empty list whose
    elements before the last are not NULL, and only these: it reports a
    well-formed {e empty} list as broken, because its [last] is the list's own
    [first] and not [end_of_list.next]. *)
Theorem check_list_verdict (eol : loc) (fuel : nat) (m : mem) (l : loc) (ns : list loc) (xs : list val) :
  eol_ok eol m -> is_list eol m l ns xs -> (length ns < fuel)%nat ->
  check_list eol fuel l m =
    Some (bool_decide (xs <> []) && forallb (fun x => negb (ptr_eqb x VNull)) (removelast xs), m).
Proof.
  intros [He _] [] Hf. unfold check_list. destruct ns as [| n ns].
  - apply Forall2_nil_inv_l in il_infos0 as ->. cbn in *. destruct fuel as [| fuel]; [lia |].
    run. cbn [check_loop]. run. reflexivity.
  - destruct xs as [| x xs]; [by inversion il_infos0 |]. pose proof (chain_head _ _ _ _ _ il_chain0) as Hh. cbn [head_ptr] in Hh.
    destruct (check_loop_ok eol m ns (l, F_first) n (x :: xs) fuel 0) as (k & Hk & R); try done; [cbn in Hf; lia | cbn [length] in *; lia |].
    run. rewrite (run_bind _ _ _ _ _ R). rewrite bool_decide_true by done. cbn [andb].
    destruct (forallb _ _); [| done]. unfold last_cell in il_last0. rewrite Hk in il_last0. run.
    unfold mret, prog_ret. do 2 f_equal. rewrite u32_small by (cbn [length] in *; lia). apply Z.eqb_eq. cbn [length]. lia.
Qed.

Lemma check_list_verdict_witness : check_list 1 2 3 demo_mem = Some (false, demo_mem).
Proof. apply (check_list_verdict 1 2 demo_mem 3 [] []); [apply demo_eol | apply demo_none | cbn; lia]. Defined.
