(* ===== verification/ListIter.v ===== *)
(** * ListIter: iterators over [List<T>] and the algorithms built on them (sql_list.h)

    [base_list_iterator] keeps the address of the pointer it will follow next
    ([el]), the address of the pointer it followed last ([prev]) and the node
    it is on ([current]), so that it can remove, replace or insert in place.
    [bubble_sort] and [list_copy_and_replace_each_value] are written with it. *)

From stdpp Require Import base numbers option gmap list sorting.
From Stdlib Require Import ZArith Lia.
From S2P Require Import Prelude Heap BaseList.

Local Open Scope Z_scope.

(** ** The code *)

(* [sql_list.h:399-403 base_list_iterator] *)
Record iter := Iter { it_list : loc; it_el : val; it_prev : val; it_current : val }.

Section code.
Variable eol : loc.

(* [sql_list.h:388-395 after] *)
Definition list_after (l : loc) (info : val) (node : loc) (o : option loc) : prog unit :=
  s ← load (nxt node);
  new ← new_node o info s;
  store (nxt node) new;;
  add_elements l 1;;
  p ← load (l, F_last);
  if ptr_eqb p (VAddr (nxt node)) then (n ← as_obj new; store (l, F_last) (VAddr (nxt n))) else mret tt.

(* [sql_list.h:418-424 init] *)
Definition iter_init (l : loc) : iter := Iter l (VAddr (l, F_first)) VNull VNull.

(* [sql_list.h:404-409 sublist] *)
Definition iter_sublist (it : iter) (ls : loc) (elm : Z) : prog unit :=
  a ← as_addr (it_el it); f ← load a; store (ls, F_first) f;;
  p ← load (it_list it, F_last); store (ls, F_last) p;;
  store (ls, F_elements) (VInt elm).

(* [sql_list.h:426-432 next] *)
Definition iter_next (it : iter) : prog (val * iter) :=
  a ← as_addr (it_el it); c ← load a; n ← as_obj c; i ← load (n, F_info);
  mret (i, Iter (it_list it) (VAddr (nxt n)) (it_el it) c).

(* [sql_list.h:434-437 peek] *)
Definition iter_peek (it : iter) : prog val :=
  a ← as_addr (it_el it); c ← load a; n ← as_obj c; load (n, F_info).

(* [sql_list.h:438-444 next_fast] *)
Definition iter_next_fast (it : iter) : prog (val * iter) :=
  a ← as_addr (it_el it); c ← load a; n ← as_obj c; i ← load (n, F_info);
  mret (i, Iter (it_list it) (VAddr (nxt n)) (it_prev it) (it_current it)).

(* [sql_list.h:445-448 rewind] *)
Definition iter_rewind (it : iter) : iter :=
  Iter (it_list it) (VAddr (it_list it, F_first)) (it_prev it) (it_current it).

(* [sql_list.h:449-455 replace] *)
Definition iter_replace (it : iter) (element : val) : prog val :=
  n ← as_obj (it_current it);
  tmp ← load (n, F_info);
  if ptr_eqb tmp VNull then undefined else
  store (n, F_info) element;;
  mret tmp.

(* [sql_list.h:456-469 replace] *)
Definition iter_replace_list (it : iter) (new_list : loc) : prog val :=
  n ← as_obj (it_current it);
  ret_value ← load (n, F_info);
  e ← is_empty eol new_list;
  if (e : bool) then mret ret_value else
  p ← load (new_list, F_last); p ← as_addr p;
  s ← load (nxt n); store p s;;
  f ← load (new_list, F_first); f ← as_obj f;
  i ← load (f, F_info); store (n, F_info) i;;
  s ← load (nxt f); store (nxt n) s;;
  k ← load (new_list, F_elements); k ← as_int k;
  q ← load (it_list it, F_last);
  (if ptr_eqb q (VAddr (nxt n)) && (1 <? k) then (q ← load (new_list, F_last); store (it_list it, F_last) q)
   else mret tt);;
  add_elements (it_list it) (k - 1);;
  mret ret_value.

(* [sql_list.h:470-475 remove] *)
Definition iter_remove (it : iter) : prog iter :=
  p ← as_addr (it_prev it);
  remove (it_list it) p;;
  mret (Iter (it_list it) (it_prev it) (it_prev it) VNull).

(* [sql_list.h:476-481 after] *)
Definition iter_after (it : iter) (element : val) (o : option loc) : prog iter :=
  n ← as_obj (it_current it);
  list_after (it_list it) element n o;;
  c ← load (nxt n); k ← as_obj c;
  mret (Iter (it_list it) (VAddr (nxt k)) (it_prev it) c).

(* [sql_list.h:482-485 ref] *)
Definition iter_ref (it : iter) : prog val :=
  n ← as_obj (it_current it); mret (VAddr (n, F_info)).

(* [sql_list.h:486-489 is_last] *)
Definition iter_is_last (it : iter) : bool := ptr_eqb (it_el it) (VAddr (nxt eol)).

(* [sql_list.h:490-493 at_end] *)
Definition iter_at_end (it : iter) : bool := ptr_eqb (it_current it) (VObj eol).

(** [delete (T* ) info] is the destructor of the element, which is not part of
    the list. *)
(* [sql_list.h:522-526 delete_elements] *)
Fixpoint delete_loop (fuel : nat) (destroy : val -> prog unit) (element : val) : prog unit :=
  match fuel with
  | O => undefined
  | S fuel =>
    if ptr_eqb element (VObj eol) then mret tt else
    n ← as_obj element;
    next ← load (nxt n);
    i ← load (n, F_info); destroy i;;
    delete_loop fuel destroy next
  end.

(* [sql_list.h:519-528 delete_elements] *)
Definition delete_elements (fuel : nat) (destroy : val -> prog unit) (l : loc) : prog unit :=
  f ← load (l, F_first);
  delete_loop fuel destroy f;;
  empty eol l.

(** The range-based loop over [begin()], [end()] and [Iterator]: the elements
    it visits. *)
(* [sql_list.h:537-591 Iterator] *)
Fixpoint range_loop (fuel : nat) (node : val) : prog (list val) :=
  match fuel with
  | O => undefined
  | S fuel =>
    if ptr_eqb node (VObj eol) then mret [] else
    n ← as_obj node;
    i ← load (n, F_info);
    node ← load (nxt n);
    rest ← range_loop fuel node; mret (i :: rest)
  end.

(** [while ((el= it++)) it.replace(el->clone(mem_root));] *)
(* [sql_list.h:862-870 list_copy_and_replace_each_value] *)
Fixpoint copy_loop (fuel : nat) (clone : val -> val) (it : iter) : prog unit :=
  match fuel with
  | O => undefined
  | S fuel =>
    '(el, it) ← iter_next it;
    if ptr_eqb el VNull then mret tt else
    iter_replace it (clone el);;
    copy_loop fuel clone it
  end.

(* [sql_list.h:860-870 list_copy_and_replace_each_value] *)
Definition list_copy_and_replace_each_value (fuel : nat) (clone : val -> val) (l : loc) : prog unit :=
  copy_loop fuel clone (iter_init l).

(** *** [bubble_sort] *)

(** The inner loop compares neighbours up to the element the last pass ended on. *)
(* [sql_list.h:652-664 bubble_sort] *)
Fixpoint bubble_inner (fuel : nat) (cmp : val -> val -> Z) (last_ref : val) (it : iter) (item1 ref1 : val) (swap : bool)
  : prog (iter * val * bool) :=
  match fuel with
  | O => undefined
  | S fuel =>
    '(item2, it) ← iter_next it;
    if ptr_eqb item2 VNull then mret (it, ref1, swap) else
    ref2 ← iter_ref it;
    if ptr_eqb ref2 last_ref then mret (it, ref1, swap) else
    if 0 <? cmp item1 item2 then
      a1 ← as_addr ref1; store a1 item2;;
      a2 ← as_addr ref2; store a2 item1;;
      bubble_inner fuel cmp last_ref it item1 ref2 true
    else bubble_inner fuel cmp last_ref it item2 ref2 swap
  end.

(* [sql_list.h:644-667 bubble_sort] *)
Fixpoint bubble_outer (fuel inner : nat) (cmp : val -> val -> Z) (it : iter) (ref1 : val) : prog unit :=
  match fuel with
  | O => undefined
  | S fuel =>
    let last_ref := ref1 in
    '(item1, it) ← iter_next it;
    ref1 ← iter_ref it;
    '(it, ref1, swap) ← bubble_inner inner cmp last_ref it item1 ref1 false;
    let it := iter_rewind it in
    if (swap : bool) then bubble_outer fuel inner cmp it ref1 else mret tt
  end.

(* [sql_list.h:637-667 bubble_sort] *)
Definition bubble_sort (fuel : nat) (cmp : val -> val -> Z) (l : loc) : prog unit :=
  bubble_outer fuel fuel cmp (iter_init l) VNull.
End code.

(** ** Positions *)

(** The iterator will follow next the pointer after the nodes [pre]. *)
Definition between (it : iter) (l : loc) (pre : list loc) : Prop :=
  it_list it = l /\ it_el it = VAddr (last_cell 0 (l, F_first) pre).

(** The last call was a [next] that stepped on [n], the node after [pre]. *)
Definition on (it : iter) (l : loc) (pre : list loc) (n : loc) : Prop :=
  it_list it = l /\ it_prev it = VAddr (last_cell 0 (l, F_first) pre) /\ it_current it = VObj n /\ it_el it = VAddr (nxt n).

(** The last call returned the NULL of the sentinel. *)
Definition ended (eol : loc) (it : iter) (l : loc) : Prop :=
  it_list it = l /\ it_current it = VObj eol /\ it_el it = VAddr (nxt eol).

Lemma on_between it l pre n : on it l pre n -> between it l (pre ++ [n]).
Proof. intros (? & _ & _ & ?). split; [done |]. by rewrite last_cell_snoc. Qed.

Lemma between_init l : between (iter_init l) l [].
Proof. done. Qed.

Lemma between_rewind it : between (iter_rewind it) (it_list it) [].
Proof. done. Qed.

Section position.
Variable eol : loc.
Abbreviation is_list := (is_list eol).

Lemma is_list_cell m l pre n post xs1 x xs2 :
  is_list m l (pre ++ n :: post) (xs1 ++ x :: xs2) -> length pre = length xs1 ->
  m !! last_cell 0 (l, F_first) pre = Some (VObj n) /\ m !! (n, F_info) = Some x /\
  m !! nxt n = Some (head_ptr post (VObj eol)).
Proof using.
  intros [] Hlen. apply chain_app in il_chain as [Hc1 [_ Hc2]].
  apply Forall2_app_inv in il_infos as [_ Hi]; [| done]. apply infos_cons in Hi as [Hi _].
  split_and!; [by apply chain_last in Hc1 | done | by apply chain_head in Hc2].
Qed.

Lemma next_ok m l it pre n post xs1 x xs2 :
  is_list m l (pre ++ n :: post) (xs1 ++ x :: xs2) -> length pre = length xs1 -> between it l pre ->
  exists it', iter_next it m = Some ((x, it'), m) /\ on it' l pre n.
Proof using.
  intros Hl Hlen [E1 E2]. destruct (is_list_cell _ _ _ _ _ _ _ _ Hl Hlen) as (H1 & H2 & H3).
  unfold iter_next. rewrite E2. eexists. split; [run; reflexivity |]. by rewrite E1.
Qed.

Lemma next_end m l it ns xs :
  eol_ok eol m -> is_list m l ns xs -> between it l ns ->
  exists it', iter_next it m = Some ((VNull, it'), m) /\ ended eol it' l.
Proof using.
  intros [_ He] [] [E1 E2]. pose proof (chain_last _ _ _ _ _ il_chain). unfold iter_next. rewrite E2.
  eexists. split; [run; reflexivity |]. done.
Qed.

Lemma next_ended m l it :
  eol_ok eol m -> ended eol it l -> exists it', iter_next it m = Some ((VNull, it'), m) /\ ended eol it' l.
Proof using.
  intros [Hn He] (E1 & E2 & E3). unfold iter_next. rewrite E3. eexists. split; [run; reflexivity |]. done.
Qed.

Lemma iter_remove_ok m l it pre n post xs1 x xs2 :
  is_list m l (pre ++ n :: post) (xs1 ++ x :: xs2) -> length pre = length xs1 -> on it l pre n ->
  exists it' m', iter_remove it m = Some (it', m') /\ is_list m' l (pre ++ post) (xs1 ++ xs2) /\ gone n m' /\
    between it' l pre /\ same_outside (foot l (pre ++ [n])) m m'.
Proof using.
  intros Hl Hlen (E1 & E2 & E3 & E4). destruct (removed_repr _ _ _ _ _ _ _ _ _ Hl Hlen) as (H1 & H2 & H3).
  exists (Iter l (it_prev it) (it_prev it) VNull), (removed eol l pre n post m). split_and!; try done.
  unfold iter_remove. rewrite E2, run_as_addr, E1, (run_bind _ _ _ _ _ (remove_run _ _ _ _ _ _ _ Hl)). by rewrite <- E2.
Qed.

(** Writing the element of a node. *)
Lemma set_info_ok m l pre n post xs1 x xs2 y :
  is_list m l (pre ++ n :: post) (xs1 ++ x :: xs2) -> length pre = length xs1 ->
  is_list (<[(n, F_info) := y]> m) l (pre ++ n :: post) (xs1 ++ y :: xs2).
Proof using.
  intros [] Hlen. split; try done; try lk; [chain_tac |].
  apply Forall2_app_inv in il_infos as [Hi1 Hi2]; [| done]. apply infos_cons in Hi2 as [_ Hi2].
  pose proof il_nodup as (_ & Hd & [Hn _]%NoDup_cons)%NoDup_app.
  unfold infos. apply Forall2_app; [| apply infos_cons; split; [lk |]]; apply (infos_frame m); try done; intros k Hk.
  - assert (k <> n) by (intros ->; apply (Hd n Hk); left). lk.
  - assert (k <> n) by congruence. lk.
Qed.

Lemma iter_replace_ok m l it pre n post xs1 x xs2 y :
  is_list m l (pre ++ n :: post) (xs1 ++ x :: xs2) -> length pre = length xs1 -> it_current it = VObj n -> x <> VNull ->
  iter_replace it y m = Some (x, <[(n, F_info) := y]> m) /\
  is_list (<[(n, F_info) := y]> m) l (pre ++ n :: post) (xs1 ++ y :: xs2).
Proof using.
  intros Hl Hlen E Hx. destruct (is_list_cell _ _ _ _ _ _ _ _ Hl Hlen) as (_ & H2 & _). split; [| by apply (set_info_ok _ _ _ _ _ _ x)].
  unfold iter_replace. rewrite E. run. reflexivity.
Qed.

Lemma iter_after_ok m l it pre n post xs1 x xs2 y k :
  eol_ok eol m -> is_list m l (pre ++ n :: post) (xs1 ++ x :: xs2) -> length pre = length xs1 -> on it l pre n ->
  fresh k m -> Z.of_nat (S (length (pre ++ n :: post))) < 2 ^ 32 ->
  exists it' m', iter_after it y (Some k) m = Some (it', m') /\
    is_list m' l (pre ++ n :: k :: post) (xs1 ++ x :: y :: xs2) /\
    between it' l (pre ++ [n; k]) /\ same_outside (foot l (k :: pre ++ n :: post)) m m'.
Proof using.
  intros He Hl Hlen (E1 & E2 & E3 & E4) Hf Hc. destruct (is_list_cell _ _ _ _ _ _ _ _ Hl Hlen) as (_ & H2 & H3).
  destruct (is_list_fresh _ _ _ _ _ _ Hl Hf) as [Hk Hkl]. pose proof (eol_fresh _ _ _ He Hf) as Hke.
  assert (Hlast : last_cell 0 (l, F_first) (pre ++ n :: post) = last_cell 0 (nxt n) post)
    by (by rewrite last_cell_app, last_cell_cons).
  assert (Hlast' : last_cell 0 (l, F_first) (pre ++ n :: k :: post) = last_cell 0 (nxt k) post)
    by (by rewrite last_cell_app, !last_cell_cons).
  assert (Hnd : NoDup (pre ++ n :: k :: post)) by (apply NoDup_insert_after; [apply Hl | done]).
  assert (Hnp : (n ∉ pre) /\ (n ∉ post) /\ k <> n).
  { destruct Hl as [_ _ _ _ (_ & Hd & [? _]%NoDup_cons)%NoDup_app _ _]. split_and!; [| done | intros ->; elem_tac].
    intros Hn. apply (Hd _ Hn). left. }
  destruct Hnp as (Hn1 & Hn2 & Hkn). destruct Hl as [Hch Hla Hel Hin _ Heo Hco]. rewrite Hlast in Hla.
  apply chain_app in Hch as [Hc1 [_ Hc2]].
  assert (Hres : forall m', m' !! (l, F_last) = Some (VAddr (last_cell 0 (nxt k) post)) ->
    m' !! (l, F_elements) = Some (VInt (u32 (Z.of_nat (length (pre ++ n :: post)) + 1))) ->
    m' !! (k, F_info) = Some y -> m' !! nxt k = m !! nxt n -> m' !! nxt n = Some (VObj k) ->
    m' !! (l, F_first) = m !! (l, F_first) ->
    (forall j, j <> n -> j <> k -> m' !! nxt j = m !! nxt j) -> (forall j, j <> k -> m' !! (j, F_info) = m !! (j, F_info)) ->
    is_list m' l (pre ++ n :: k :: post) (xs1 ++ x :: y :: xs2)).
  { intros m' A1 A2 A3 A4 A5 A6 A7 A8. split; try done.
    - apply chain_app. cbn [head_ptr chain]. split_and!; [| | done |].
      + apply (chain_rebase 0 m _ (l, F_first)); [done | intros j Hj; apply A7; [congruence | elem_tac] | done].
      + apply chain_last in Hc1. cbn [head_ptr] in Hc1. destruct (last_cell_cases l pre) as [E | (j & Hj & E)]; rewrite E in *; [congruence |].
        rewrite A7; [done | intros ->; elem_tac | intros ->; elem_tac].
      + apply (chain_rebase 0 m _ (nxt n)); [done | intros j Hj; apply A7; [congruence | elem_tac] | done].
    - by rewrite Hlast'.
    - rewrite A2. do 2 f_equal. rewrite u32_small; count_tac.
    - apply Forall2_app_inv in Hin as [Hi1 Hi2]; [| done]. apply infos_cons in Hi2 as [Hi Hi2].
      unfold infos. apply Forall2_app; [| apply infos_cons; split; [by rewrite A8 |]; apply infos_cons; split; [done |]];
        apply (infos_frame m); try done; intros j Hj; apply A8; elem_tac.
    - elem_tac.
    - count_tac. }
  unfold iter_after, list_after. rewrite E1, E3. destruct post as [| j post].
  - cbn [head_ptr last_cell last] in *. eexists _, _. split; [run; reflexivity |]. split_and!; [| | outside_tac].
    + apply Hres; intros; lk; congruence.
    + split; [done |]. cbn [it_el]. by rewrite last_cell_app, !last_cell_cons.
  - rewrite !last_cell_cons in *. cbn [head_ptr] in *.
    assert (last_cell 0 (nxt j) post <> nxt n) by (apply last_cell_other; elem_tac).
    eexists _, _. split; [run; reflexivity |]. split_and!; [| | outside_tac].
    + apply Hres; intros; lk; congruence.
    + split; [done |]. cbn [it_el]. by rewrite last_cell_app, !last_cell_cons.
Qed.

(** The store after node [n] was replaced by the elements of a list with nodes [j :: ns2]. *)
Definition spliced (l n : loc) (post : list loc) (j : loc) (ns2 : list loc) (y : val) (count : Z) (m : mem) : mem :=
  <[(l, F_elements) := VInt count]>
  (<[(l, F_last) := VAddr (last_cell 0 (nxt n) (ns2 ++ post))]>
  (<[nxt n := head_ptr ns2 (head_ptr post (VObj eol))]>
  (<[(n, F_info) := y]> (<[last_cell 0 (nxt j) ns2 := head_ptr post (VObj eol)]> m)))).

Lemma cell_of_next j ns2 : exists i, i ∈ j :: ns2 /\ last_cell 0 (nxt j) ns2 = nxt i.
Proof using.
  pose proof (last_cell_in 0 (nxt j) ns2) as [-> | (i & Hi & ->)]%elem_of_cells; eexists; (split; [| reflexivity]); [left | by right].
Qed.

Lemma iter_replace_list_run m l r it pre n post xs1 x xs2 j ns2 y ys :
  is_list m l (pre ++ n :: post) (xs1 ++ x :: xs2) -> length pre = length xs1 -> it_list it = l -> it_current it = VObj n ->
  is_list m r (j :: ns2) (y :: ys) -> NoDup ((pre ++ n :: post) ++ j :: ns2) -> l <> r ->
  Z.of_nat (length (pre ++ n :: post) + length ns2) < 2 ^ 32 ->
  iter_replace_list eol it r m =
    Some (x, spliced l n post j ns2 y (Z.of_nat (length (pre ++ n :: post) + length ns2)) m).
Proof using.
  intros Hl Hlen E1 E3 Hr Hnd Hlr Hc. destruct (is_list_cell _ _ _ _ _ _ _ _ Hl Hlen) as (_ & H2 & H3).
  unfold iter_replace_list. rewrite E3, run_as_obj. run. rewrite (run_bind _ _ _ _ _ (is_empty_ok _ _ _ _ _ Hr)).
  rewrite (bool_decide_false (y :: ys = [])) by done. rewrite E1.
  assert (Hlast : last_cell 0 (l, F_first) (pre ++ n :: post) = last_cell 0 (nxt n) post)
    by (by rewrite last_cell_app, last_cell_cons).
  destruct Hr as [[Hf Hch] Hla Hel Hi _ _ Hco]. destruct Hl as [Hch1 Hla1 Hel1 _ Hnd1 _ Hco1].
  apply infos_cons in Hi as [Hi _]. rewrite last_cell_cons in Hla. rewrite Hlast in Hla1.
  destruct (cell_of_next j ns2) as (i & Hi1 & Hc1).
  pose proof (chain_last _ _ _ _ _ Hch) as Hend. pose proof (chain_head _ _ _ _ _ Hch) as Hj. rewrite Hc1 in *.
  apply NoDup_app in Hnd as (_ & Hd & Hnd2).
  assert (i <> n) by (intros ->; apply (Hd n); elem_tac).
  assert (j <> n) by (intros ->; apply (Hd n); elem_tac).
  assert (Hj1 : <[nxt i := head_ptr post (VObj eol)]> m !! nxt j = Some (head_ptr ns2 (head_ptr post (VObj eol)))).
  { destruct ns2 as [| k ns2].
    - cbn [last_cell last] in Hc1. injection Hc1 as <-. cbn [head_ptr]. lk.
    - cbn [head_ptr] in *. assert (i <> j); [| lk]. intros ->. rewrite last_cell_cons in Hc1. symmetry in Hc1.
      apply NoDup_cons in Hnd2 as [Hnj _]. apply (last_cell_other k ns2 j); try done; [intros -> | intros ?]; elem_tac. }
  unfold spliced. rewrite Hc1. run.
  rewrite (run_bind _ _ _ tt (<[(l, F_last) := VAddr (last_cell 0 (nxt n) (ns2 ++ post))]>
    (<[nxt n := head_ptr ns2 (head_ptr post (VObj eol))]> (<[(n, F_info) := y]> (<[nxt i := head_ptr post (VObj eol)]> m))))).
  { run. unfold mret, prog_ret. do 3 f_equal. f_equal. f_equal. rewrite u32_small; cbn [length] in *; lia. }
  destruct post as [| k post].
  - rewrite app_nil_r. cbn [last_cell last] in Hla1. rewrite bool_decide_true by done. cbn [andb].
    destruct ns2 as [| j2 ns2].
    + cbn [last_cell last head_ptr]. change (1 <? _) with false. cbv iota. unfold mret, prog_ret.
      rewrite (insert_id _ (l, F_last)); [done | lk].
    + replace (1 <? Z.of_nat (length (j :: j2 :: ns2))) with true by (symmetry; apply Z.ltb_lt; cbn [length]; lia).
      run. rewrite <- Hc1, !last_cell_cons. done.
  - rewrite (bool_decide_false (VAddr _ = VAddr (nxt n))).
    2:{ rewrite last_cell_cons. intros [= E]. revert E. apply last_cell_other.
        - intros ->. apply NoDup_app in Hnd1 as (_ & _ & [Hn _]%NoDup_cons). elem_tac.
        - apply NoDup_app in Hnd1 as (_ & _ & [Hn _]%NoDup_cons). elem_tac. }
    cbn [andb]. unfold mret, prog_ret. rewrite (insert_id _ (l, F_last)); [done |]. rewrite last_cell_app, last_cell_cons.
    rewrite last_cell_cons in Hla1. lk.
Qed.

Lemma spliced_repr m l r pre n post xs1 x xs2 j ns2 y ys :
  is_list m l (pre ++ n :: post) (xs1 ++ x :: xs2) -> length pre = length xs1 ->
  is_list m r (j :: ns2) (y :: ys) -> NoDup ((pre ++ n :: post) ++ j :: ns2) ->
  Z.of_nat (length (pre ++ n :: post) + length ns2) < 2 ^ 32 ->
  is_list (spliced l n post j ns2 y (Z.of_nat (length (pre ++ n :: post) + length ns2)) m)
    l (pre ++ n :: ns2 ++ post) (xs1 ++ y :: ys ++ xs2).
Proof using.
  intros [Hch Hla Hel Hin Hnd1 Heo Hco] Hlen [[Hf2 Hch2] Hla2 Hel2 Hin2 Hnd2 Heo2 Hco2] Hnd Hc.
  apply chain_app in Hch as [Hc1 [_ Hc2]]. cbn [head_ptr] in Hc1.
  apply Forall2_app_inv in Hin as [Hi1 Hi2]; [| done]. apply infos_cons in Hi2 as [_ Hi2]. apply infos_cons in Hin2 as [_ Hin2].
  destruct (cell_of_next j ns2) as (i & Hii & Ei).
  assert (Hm : Forall (fun a => a <> n /\ a <> i) pre /\ Forall (fun a => a <> n /\ a <> i) post /\
    Forall (fun a => a <> n) ns2 /\ i <> n /\ NoDup (pre ++ n :: ns2 ++ post)).
  { apply NoDup_app in Hnd as (_ & Hd & _). apply NoDup_app in Hnd1 as (Hp & Hd1 & [Hn Hpo]%NoDup_cons).
    apply NoDup_cons in Hnd2 as [Hj Hn2]. rewrite !Forall_forall. split_and!.
    - intros a Ha. split; intros ->; [apply (Hd1 n Ha); left | apply (Hd i); elem_tac].
    - intros a Ha. split; intros ->; [done | apply (Hd i); elem_tac].
    - intros a Ha ->. apply (Hd n); elem_tac.
    - intros ->. apply (Hd n); elem_tac.
    - apply NoDup_app. split_and!; [done | | apply NoDup_cons; split; [| apply NoDup_app; split_and!; try done]].
      + intros a Ha. specialize (Hd1 a Ha). specialize (Hd a). elem_norm. intuition.
      + specialize (Hd n). elem_norm. intuition.
      + intros a Ha Hb. apply (Hd a); elem_tac. }
  destruct Hm as (Hm1 & Hm2 & Hm3 & Hin' & Hnd'). rewrite Forall_forall in Hm1, Hm2, Hm3.
  unfold spliced. rewrite Ei.
  assert (Hs : chain 0 (<[nxt i := head_ptr post (VObj eol)]> m) (nxt j) ns2 (head_ptr post (VObj eol))).
  { rewrite <- Ei. eapply chain_set_end; [| done]. apply NoDup_cons in Hnd2 as [? ?].
    apply NoDup_cons. split; [| by apply (NoDup_fmap_2 (fun n => nxt n))]. intros (? & [= ->] & ?)%list_elem_of_fmap. done. }
  split; try done.
  - apply chain_app. cbn [head_ptr chain]. split_and!.
    + apply (chain_rebase 0 m _ (l, F_first)); [lk | intros k Hk; destruct (Hm1 k Hk); lk | done].
    + pose proof (chain_last _ _ _ _ _ Hc1) as Hx. destruct (last_cell_cases l pre) as [E | (k & Hk & E)]; rewrite E in *;
        [lk | destruct (Hm1 k Hk); lk].
    + apply chain_app. assert (Hx : chain 0 (<[nxt n := head_ptr ns2 (head_ptr post (VObj eol))]> (<[nxt i := head_ptr post (VObj eol)]> m))
        (nxt n) ns2 (head_ptr post (VObj eol))).
      { apply (chain_rebase 0 (<[nxt i := head_ptr post (VObj eol)]> m) _ (nxt j));
          [rewrite (chain_head _ _ _ _ _ Hs); lk | intros k Hk; specialize (Hm3 k Hk); lk | done]. }
      split.
      * eapply chain_frame; [| exact Hx]. intros a [-> | (k & Hk & ->)]%elem_of_cells; [lk | specialize (Hm3 k Hk); lk].
        destruct (decide (k = i)) as [-> |]; lk.
      * apply (chain_rebase 0 m _ (nxt n)); [| intros k Hk; destruct (Hm2 k Hk); lk | done].
        rewrite (chain_head _ _ _ _ _ Hc2). pose proof (chain_last _ _ _ _ _ Hx) as Hy. revert Hy.
        destruct (cell_of_next n ns2) as (k & Hk & ->). intros Hy. rewrite lookup_insert_ne by congruence.
        rewrite lookup_insert_ne by congruence. destruct (decide (k = n)) as [-> |]; [revert Hy; lk; done |].
        revert Hy. rewrite !(lookup_insert_ne _ (nxt n)) by congruence.
        rewrite (lookup_insert_ne _ (n, F_info)) by congruence. done.
  - lk. by rewrite (last_cell_app 0 _ pre), last_cell_cons.
  - lk. do 2 f_equal. count_tac.
  - unfold infos. apply Forall2_app; [| apply infos_cons; split; [lk |]; apply Forall2_app]; apply (infos_frame m); try done; intros k Hk.
    + destruct (Hm1 k Hk); lk.
    + specialize (Hm3 k Hk); lk.
    + destruct (Hm2 k Hk); lk.
  - elem_norm. intuition.
  - count_tac.
Qed.
End position.

(** ** Walking a list *)

Section walk.
Variable eol : loc.
Abbreviation is_list := (is_list eol).

(** [k] calls of [it++], with [next] or [next_fast], and what they returned. *)
Fixpoint collect (nx : iter -> prog (val * iter)) (k : nat) (it : iter) : prog (list val * iter) :=
  match k with
  | O => mret ([], it)
  | S k => '(x, it) ← nx it; '(xs, it) ← collect nx k it; mret (x :: xs, it)
  end.

(** Both ways to step read the same node; they differ in what they remember. *)
Definition steps (nx : iter -> prog (val * iter)) : Prop :=
  forall it m a n i, it_el it = VAddr a -> m !! a = Some (VObj n) -> m !! (n, F_info) = Some i ->
  exists it', nx it m = Some ((i, it'), m) /\ it_list it' = it_list it /\ it_el it' = VAddr (nxt n).

Lemma next_steps : steps iter_next.
Proof using. intros it m a n i E H1 H2. unfold iter_next. rewrite E. eexists. split; [run; reflexivity |]. done. Qed.

Lemma next_fast_steps : steps iter_next_fast.
Proof using. intros it m a n i E H1 H2. unfold iter_next_fast. rewrite E. eexists. split; [run; reflexivity |]. done. Qed.

Lemma collect_chain nx m ns : steps nx -> forall a e xs it,
  chain 0 m a ns e -> infos m ns xs -> it_el it = VAddr a ->
  exists it', collect nx (length xs) it m = Some ((xs, it'), m) /\ it_el it' = VAddr (last_cell 0 a ns) /\ it_list it' = it_list it.
Proof using.
  intros Hnx. induction ns as [| n ns IH]; intros a e xs it Hc Hi He.
  - apply Forall2_nil_inv_l in Hi as ->. by exists it.
  - destruct xs as [| x xs]; [by inversion Hi |]. apply infos_cons in Hi as [Hi His]. destruct Hc as [Hc1 Hc2].
    destruct (Hnx it m a n x He Hc1 Hi) as (it1 & R1 & L1 & E1). destruct (IH (nxt n) e xs it1 Hc2 His E1) as (it2 & R2 & E2 & L2).
    exists it2. cbn [collect length]. rewrite (run_bind _ _ _ _ _ R1), (run_bind _ _ _ _ _ R2), last_cell_cons, E2. split_and!; [done | done | congruence].
Qed.

Lemma collect_end nx m l ns xs j it :
  steps nx -> eol_ok eol m -> is_list m l ns xs -> it_el it = VAddr (last_cell 0 (l, F_first) ns) \/ it_el it = VAddr (nxt eol) ->
  exists it', collect nx j it m = Some ((replicate j VNull, it'), m) /\ (0 < j -> it_el it' = VAddr (nxt eol))%nat.
Proof using.
  intros Hnx [He1 He2] [Hc _ _ _ _ _ _]. apply chain_last in Hc. revert it. induction j as [| j IH]; intros it He.
  - exists it. split; [done | lia].
  - assert (exists a, it_el it = VAddr a /\ m !! a = Some (VObj eol)) as (a & Ha & Hv) by (destruct He as [-> | ->]; eauto).
    destruct (Hnx it m a eol VNull Ha Hv He2) as (it1 & R1 & _ & E1). destruct (IH it1 (or_intror E1)) as (it2 & R2 & E2).
    exists it2. cbn [collect replicate]. rewrite (run_bind _ _ _ _ _ R1), (run_bind _ _ _ _ _ R2). split; [done |]. intros _.
    destruct j; [| by apply E2; lia]. injection R2 as <-. done.
Qed.

Lemma collect_app nx j k it m : collect nx (j + k) it m =
  '((xs, it1), m1) ← collect nx j it m; '((ys, it2), m2) ← collect nx k it1 m1; Some ((xs ++ ys, it2), m2).
Proof using.
  revert it m. induction j as [| j IH]; intros it m; cbn [Nat.add collect].
  - unfold mbind, prog_bind, option_bind, mret, prog_ret. destruct (collect nx k it m) as [[[? ?] ?] |]; done.
  - unfold mbind, prog_bind, option_bind, mret, prog_ret in *. destruct (nx it m) as [[[x it0] m0] |]; [| done].
    cbn. rewrite IH. destruct (collect nx j it0 m0) as [[[? ?] ?] |]; [| cbn; done]. cbn. destruct (collect nx k _ _) as [[[? ?] ?] |]; done.
Qed.

Lemma range_loop_ok m ns : forall a xs fuel,
  chain 0 m a ns (VObj eol) -> infos m ns xs -> eol ∉ ns -> (length ns < fuel)%nat ->
  range_loop eol fuel (head_ptr ns (VObj eol)) m = Some (xs, m).
Proof using.
  induction ns as [| n ns IH]; intros a xs fuel Hc Hi He Hf; (destruct fuel as [| fuel]; [lia |]); cbn [head_ptr range_loop].
  - apply Forall2_nil_inv_l in Hi as ->. run. done.
  - destruct xs as [| x xs]; [by inversion Hi |]. apply infos_cons in Hi as [Hi His]. destruct Hc as [_ Hc].
    pose proof (chain_head _ _ _ _ _ Hc). assert (n <> eol) by elem_tac. run.
    rewrite (run_bind _ _ _ xs m); [done |]. apply (IH (nxt n)); [done | done | elem_tac | cbn in Hf; lia].
Qed.
End walk.

(** Calling [it++] on a fresh or rewound iterator, of [List_iterator] and of
    [List_iterator_fast] alike, returns the elements in order and then NULL for
    ever (the sentinel's [next] is itself), and only then does [is_last] hold;
    the range-based loop visits the same elements.  Nothing is written. *)
Theorem list_iteration_complete (eol : loc) (m : mem) (l : loc) (ns : list loc) (xs : list val) (it : iter) (j fuel : nat)
  (nx : iter -> prog (val * iter)) :
  eol_ok eol m -> is_list eol m l ns xs -> it_list it = l -> (length ns < fuel)%nat -> nx = iter_next \/ nx = iter_next_fast ->
  (exists it', collect nx (length xs + j) (iter_rewind it) m = Some ((xs ++ replicate j VNull, it'), m) /\
     iter_is_last eol it' = bool_decide (0 < j)%nat) /\
  range_loop eol fuel (head_ptr ns (VObj eol)) m = Some (xs, m).
Proof.
  intros He Hl E Hf Hnx. assert (Hs : steps nx) by (destruct Hnx as [-> | ->]; [apply next_steps | apply next_fast_steps]).
  pose proof Hl as [Hc _ _ Hi _ Heo _]. split; [| by apply (range_loop_ok _ _ _ (l, F_first))].
  destruct (collect_chain nx m ns Hs (l, F_first) _ xs (iter_rewind it) Hc Hi) as (it1 & R1 & E1 & L1); [cbn; by rewrite E |].
  destruct (collect_end eol nx m l ns xs j it1 Hs He Hl (or_introl E1)) as (it2 & R2 & E2). exists it2.
  rewrite collect_app, R1. cbn. rewrite R2. split; [done |]. unfold iter_is_last. apply bool_decide_ext.
  destruct j as [| j]; [| split; [lia | intros _; apply E2; lia]]. cbn in R2. injection R2 as <-. split; [| lia].
  rewrite E1. intros [= Ex]. destruct (last_cell_cases l ns) as [Ey | (k & Hk & Ey)]; rewrite Ey in Ex; congruence.
Qed.

Lemma list_iteration_complete_witness :
  (exists it', collect iter_next_fast 4 (iter_rewind (iter_init 2)) demo_mem = Some (([VInt 10; VInt 20; VNull; VNull], it'), demo_mem) /\
     iter_is_last 1 it' = true) /\
  range_loop 1 3 (VObj 4) demo_mem = Some ([VInt 10; VInt 20], demo_mem).
Proof.
  apply (list_iteration_complete 1 demo_mem 2 [4%positive; 5%positive] [VInt 10; VInt 20] (iter_init 2) 2 3 iter_next_fast).
  - apply demo_eol.
  - apply demo_two.
  - done.
  - cbn; lia.
  - by right.
Defined.

(** When [new list_node] fails, [push_back] reports the error but has
    already stored the NULL into the list: iterating still gives all elements,
    but the step that should meet the sentinel dereferences NULL. *)
Theorem push_back_oom_breaks_iteration (eol : loc) (m : mem) (l : loc) (ns : list loc) (xs : list val) (x : val) :
  is_list eol m l ns xs ->
  exists m', push_back eol l x None m = Some (true, m') /\
    (exists it', collect iter_next (length xs) (iter_init l) m' = Some ((xs, it'), m')) /\
    collect iter_next (S (length xs)) (iter_init l) m' = None.
Proof.
  intros Hl. eexists. split; [by apply (push_back_oom _ _ _ ns xs) |]. destruct Hl.
  assert (Hc : chain 0 (<[last_cell 0 (l, F_first) ns := VNull]> m) (l, F_first) ns VNull)
    by (eapply chain_set_end; [by apply NoDup_cells | done]).
  assert (Hi : infos (<[last_cell 0 (l, F_first) ns := VNull]> m) ns xs).
  { eapply infos_frame; [| done]. intros k _. destruct (last_cell_cases l ns) as [-> | (? & ? & ->)]; lk; reflexivity. }
  destruct (collect_chain iter_next _ ns next_steps (l, F_first) _ xs (iter_init l) Hc Hi eq_refl) as (it1 & R1 & E1 & _).
  split; [by exists it1 |]. replace (S (length xs)) with (length xs + 1)%nat by lia.
  apply chain_last in Hc.
  assert (Hn : iter_next it1 (<[last_cell 0 (l, F_first) ns := VNull]> m) = None)
    by (unfold iter_next; by rewrite E1, run_as_addr, (run_load _ _ _ _ Hc)).
  rewrite collect_app, R1. cbn -[iter_next]. unfold mbind, prog_bind. by rewrite Hn.
Qed.

Lemma push_back_oom_breaks_iteration_witness :
  exists m', push_back 1 2 (VInt 7) None demo_mem = Some (true, m') /\
    (exists it', collect iter_next 2 (iter_init 2) m' = Some (([VInt 10; VInt 20], it'), m')) /\
    collect iter_next 3 (iter_init 2) m' = None.
Proof. apply (push_back_oom_breaks_iteration 1 demo_mem 2 [4%positive; 5%positive] [VInt 10; VInt 20] (VInt 7)), demo_two. Defined.

(** ** Editing through an iterator *)

(** With the iterator on an element [x]: [remove] takes it out (its node is
    freed) and the iterator stands before its successor; [replace] swaps it for
    another element and returns it (an element that is NULL fails its assertion); [after] puts a new element behind it and
    steps over it; replacing it by a whole non-empty list splices that list's
    elements in its place and the iterator goes on with the second of them.  In
    every case the list is well formed again ([last] and the count included). *)
Theorem list_iterator_edits (eol : loc) (m : mem) (l r : loc) (it : iter) (pre post ns2 : list loc) (n j k : loc)
  (xs1 xs2 ys : list val) (x y z : val) :
  eol_ok eol m -> is_list eol m l (pre ++ n :: post) (xs1 ++ x :: xs2) -> length pre = length xs1 -> on it l pre n ->
  fresh k m -> Z.of_nat (length (pre ++ n :: post) + length (j :: ns2)) < 2 ^ 32 ->
  is_list eol m r (j :: ns2) (y :: ys) -> NoDup ((pre ++ n :: post) ++ j :: ns2) -> l <> r ->
  (exists it' m', iter_remove it m = Some (it', m') /\ is_list eol m' l (pre ++ post) (xs1 ++ xs2) /\ gone n m' /\
     between it' l pre /\ same_outside (foot l (pre ++ [n])) m m') /\
  (x <> VNull -> exists m', iter_replace it z m = Some (x, m') /\ is_list eol m' l (pre ++ n :: post) (xs1 ++ z :: xs2) /\
     same_outside (foot l [n]) m m') /\
  (x = VNull -> iter_replace it z m = None) /\
  (exists it' m', iter_after it z (Some k) m = Some (it', m') /\ is_list eol m' l (pre ++ n :: k :: post) (xs1 ++ x :: z :: xs2) /\
     between it' l (pre ++ [n; k]) /\ same_outside (foot l (k :: pre ++ n :: post)) m m') /\
  (exists m', iter_replace_list eol it r m = Some (x, m') /\
     is_list eol m' l (pre ++ n :: ns2 ++ post) (xs1 ++ y :: ys ++ xs2) /\ between it l (pre ++ [n])).
Proof.
  intros He Hl Hlen Hon Hk Hc Hr Hnd Hlr. split_and!.
  - destruct (iter_remove_ok eol m l it pre n post xs1 x xs2) as (it' & m' & H); try done. by exists it', m'.
  - intros Hx. pose proof Hon as (_ & _ & Hcur & _).
    destruct (iter_replace_ok eol m l it pre n post xs1 x xs2 z) as [H1 H2]; try done. eexists. split_and!; [done | done |].
    outside_tac.
  - intros ->. pose proof Hon as (_ & _ & Hcur & _). destruct (is_list_cell _ _ _ _ _ _ _ _ _ Hl Hlen) as (_ & H2 & _).
    unfold iter_replace. rewrite Hcur. run. done.
  - apply iter_after_ok; try done. rewrite length_app in *. cbn [length] in *. lia.
  - pose proof Hon as (Hli & _ & Hcur & _). eexists. split_and!.
    + apply (iter_replace_list_run eol m l r it pre n post xs1 x xs2 j ns2 y ys); try done. cbn [length] in Hc. lia.
    + apply (spliced_repr eol m l r pre n post xs1 x xs2 j ns2 y ys); try done. cbn [length] in Hc. lia.
    + by apply on_between.
Qed.

(** A store with two lists for the witness: 10, 20 at object 2 and 30, 40 at 3. *)
Definition demo_mem2 : mem :=
  <[(3%positive, F_first) := VObj 6]> (<[(3%positive, F_last) := VAddr (nxt 7)]> (<[(3%positive, F_elements) := VInt 2]>
  (<[(6%positive, F_info) := VInt 30]> (<[nxt 6 := VObj 7]> (<[(7%positive, F_info) := VInt 40]> (<[nxt 7 := VObj 1]> demo_mem)))))).

Lemma demo2_lists : eol_ok 1 demo_mem2 /\ is_list 1 demo_mem2 2 [4%positive; 5%positive] [VInt 10; VInt 20] /\
  is_list 1 demo_mem2 3 [6%positive; 7%positive] [VInt 30; VInt 40].
Proof.
  split_and!; [split; reflexivity | |]; split; try reflexivity; try (by vm_compute);
    first [ repeat (apply infos_cons; split; [reflexivity |]); apply infos_nil | apply (bool_decide_unpack _); by vm_compute ].
Qed.

Lemma demo2_fresh n : (7 < n)%positive -> fresh n demo_mem2.
Proof.
  intros Hn f. unfold demo_mem2. repeat (rewrite lookup_insert_ne by (intros [=]; lia)). apply demo_fresh. lia.
Qed.

Lemma list_iterator_edits_witness :
  exists m', iter_replace_list 1 (Iter 2 (VAddr (nxt 4)) (VAddr (2%positive, F_first)) (VObj 4)) 3 demo_mem2 = Some (VInt 10, m') /\
     is_list 1 m' 2 [4%positive; 7%positive; 5%positive] [VInt 30; VInt 40; VInt 20] /\
     between (Iter 2 (VAddr (nxt 4)) (VAddr (2%positive, F_first)) (VObj 4)) 2 [4%positive].
Proof.
  apply (list_iterator_edits 1 demo_mem2 2 3 (Iter 2 (VAddr (nxt 4)) (VAddr (2%positive, F_first)) (VObj 4))
    [] [5%positive] [7%positive] 4 6 8 [] [VInt 20] [VInt 40] (VInt 10) (VInt 30) VNull).
  - apply demo2_lists.
  - apply demo2_lists.
  - done.
  - done.
  - by apply demo2_fresh.
  - reflexivity.
  - apply demo2_lists.
  - apply (bool_decide_unpack _). by vm_compute.
  - done.
Defined.

(** ** Algorithms *)

(** One call per element, in order. *)
Fixpoint each (f : val -> prog unit) (xs : list val) : prog unit :=
  match xs with [] => mret tt | x :: xs => f x;; each f xs end.

Section algorithms.
Variable eol : loc.
Abbreviation is_list := (is_list eol).

Lemma copy_loop_ok l clone post : forall m pre xs1 xs2 it fuel,
  eol_ok eol m -> is_list m l (pre ++ post) (xs1 ++ xs2) -> length pre = length xs1 -> between it l pre ->
  Forall (fun x => x <> VNull) xs2 -> (length post < fuel)%nat ->
  exists m', copy_loop fuel clone it m = Some (tt, m') /\ is_list m' l (pre ++ post) (xs1 ++ (clone <$> xs2)) /\
    same_outside (fun a => exists n, n ∈ post /\ a = (n, F_info)) m m'.
Proof using.
  induction post as [| n post IH]; intros m pre xs1 xs2 it fuel He Hl Hlen Hb Hnn Hf; (destruct fuel as [| fuel]; [lia |]).
  - assert (xs2 = []) as ->.
    { destruct Hl as [_ _ _ Hi _ _ _]. apply infos_length in Hi. rewrite !length_app in Hi. apply length_zero_iff_nil. cbn in Hi. lia. }
    rewrite !app_nil_r in *. destruct (next_end _ _ _ _ _ _ He Hl Hb) as (it' & R & _). exists m.
    cbn [copy_loop]. rewrite (run_bind _ _ _ _ _ R). done.
  - destruct xs2 as [| x xs2].
    { destruct Hl as [_ _ _ Hi _ _ _]. apply infos_length in Hi. rewrite !length_app in Hi. cbn in Hi. lia. }
    apply Forall_cons in Hnn as [Hx Hnn].
    destruct (next_ok _ _ _ _ _ _ _ _ _ _ Hl Hlen Hb) as (it1 & R1 & Hon). pose proof Hon as (_ & _ & Hcur & _).
    destruct (iter_replace_ok _ _ _ _ _ _ _ _ _ _ (clone x) Hl Hlen Hcur Hx) as [R2 Hl2].
    set (m1 := <[(n, F_info) := clone x]> m) in *.
    assert (Hs1 : same_outside (foot l [n]) m m1) by (unfold m1; outside_tac).
    destruct (IH m1 (pre ++ [n]) (xs1 ++ [clone x]) xs2 it1 fuel) as (m2 & R3 & Hl3 & Hs2).
    + eapply eol_ok_outside; [| exact Hs1 | done]. destruct Hl as [_ _ _ _ _ Heo _]. elem_tac.
    + by rewrite <- !app_assoc.
    + rewrite !length_app. cbn. lia.
    + by apply on_between.
    + done.
    + cbn in Hf. lia.
    + exists m2. rewrite <- !app_assoc in Hl3. cbn [copy_loop]. rewrite (run_bind _ _ _ _ _ R1).
      rewrite bool_decide_false by done. rewrite (run_bind _ _ _ _ _ R2). split_and!; [done | done |].
      intros a Ha. rewrite Hs2; [unfold m1; rewrite lookup_insert_ne; [done |] |].
      * intros <-. apply Ha. exists n. split; [left | done].
      * intros (k & Hk & ->). apply Ha. exists k. split; [by right | done].
Qed.

Lemma delete_loop_ok l destroy ns : forall m a xs fuel,
  (forall x m, exists m', destroy x m = Some (tt, m') /\ forall b, (foot l ns b \/ b.2 = F_next 0 \/ b.2 = F_info) -> m' !! b = m !! b) ->
  chain 0 m a ns (VObj eol) -> infos m ns xs -> eol ∉ ns -> (length ns < fuel)%nat ->
  exists m', delete_loop eol fuel destroy (head_ptr ns (VObj eol)) m = Some (tt, m') /\
    each destroy xs m = Some (tt, m').
Proof using.
  induction ns as [| n ns IH]; intros m a xs fuel Hd Hc Hi He Hf; (destruct fuel as [| fuel]; [lia |]); cbn [head_ptr delete_loop].
  - apply Forall2_nil_inv_l in Hi as ->. exists m. split; [run; done | done].
  - destruct xs as [| x xs]; [by inversion Hi |]. apply infos_cons in Hi as [Hi His]. destruct Hc as [_ Hc].
    pose proof (chain_head _ _ _ _ _ Hc). assert (n <> eol) by elem_tac.
    destruct (Hd x m) as (m1 & R1 & Hm1).
    destruct (IH m1 (nxt n) xs fuel) as (m2 & R2 & R3).
    + intros z m0. destruct (Hd z m0) as (m' & ? & Hm'). exists m'. split; [done |]. intros b Hb. apply Hm'.
      destruct Hb as [Hb | Hb]; [left | by right]. eapply foot_mono; [| done]. set_solver.
    + eapply chain_frame; [| done]. intros c [-> | (k & _ & ->)]%elem_of_cells; apply Hm1; right; by left.
    + eapply infos_frame; [| done]. intros k _. apply Hm1. right. by right.
    + elem_tac.
    + cbn in Hf. lia.
    + exists m2. split.
      * run. by rewrite (run_bind _ _ _ _ _ R1).
      * cbn [each]. by rewrite (run_bind _ _ _ _ _ R1).
Qed.

(** [delete_elements] destroys every element once, in order, and empties the list. *)
Lemma delete_elements_ok m l ns xs fuel destroy :
  is_list m l ns xs -> (length ns < fuel)%nat ->
  (forall x m, exists m', destroy x m = Some (tt, m') /\ forall b, (foot l ns b \/ b.2 = F_next 0 \/ b.2 = F_info) -> m' !! b = m !! b) ->
  exists m1 m', each destroy xs m = Some (tt, m1) /\
    delete_elements eol fuel destroy l m = Some (tt, m') /\ is_list m' l [] [] /\ same_outside (foot l []) m1 m'.
Proof using.
  intros [Hc Hla Hel Hi Hnd Heo Hco] Hf Hd.
  destruct (delete_loop_ok l destroy ns m _ xs fuel Hd Hc Hi Heo Hf) as (m1 & R1 & R2).
  assert (Hsome : forall f, f = F_first \/ f = F_last \/ f = F_elements -> is_Some (m1 !! (l, f))).
  { assert (Hkeep : forall ys m0 m0', each destroy ys m0 = Some (tt, m0') -> forall b, foot l ns b -> m0' !! b = m0 !! b).
    { induction ys as [| z ys IHy]; intros m0 m0' R b Hb; cbn [each] in R; [injection R as <-; done |].
      destruct (Hd z m0) as (m2 & Rz & Hz). rewrite (run_bind _ _ _ _ _ Rz) in R. rewrite (IHy _ _ R) by done. apply Hz. by left. }
    intros f Hff. rewrite (Hkeep _ _ _ R2) by (destruct Hff as [-> | [-> | ->]]; constructor).
    apply chain_head in Hc. destruct Hff as [-> | [-> | ->]]; eauto. }
  destruct (empty_ok eol m1 l Hsome) as (m' & R3 & Hl & Hs). exists m1, m'. split_and!; try done.
  unfold delete_elements. by rewrite (run_load _ _ _ _ (chain_head _ _ _ _ _ Hc)), (run_bind _ _ _ _ _ R1).
Qed.
End algorithms.

(** [list_copy_and_replace_each_value] replaces every element by its clone,
    in place: same nodes, same order, and nothing but the elements' slots is
    written. *)
Theorem list_copy_replaces_all (eol : loc) (fuel : nat) (clone : val -> val) (m : mem) (l : loc) (ns : list loc) (xs : list val) :
  eol_ok eol m -> is_list eol m l ns xs -> Forall (fun x => x <> VNull) xs -> (length ns < fuel)%nat ->
  exists m', list_copy_and_replace_each_value fuel clone l m = Some (tt, m') /\ is_list eol m' l ns (clone <$> xs) /\
    same_outside (fun a => exists n, n ∈ ns /\ a = (n, F_info)) m m'.
Proof. intros. by apply (copy_loop_ok eol l clone ns m [] [] xs). Qed.

Lemma list_copy_replaces_all_witness :
  exists m', list_copy_and_replace_each_value 3 (fun v => match v with VInt z => VInt (z + 1) | _ => v end) 2 demo_mem = Some (tt, m') /\
    is_list 1 m' 2 [4%positive; 5%positive] [VInt 11; VInt 21] /\
    same_outside (fun a => exists n, n ∈ [4%positive; 5%positive] /\ a = (n, F_info)) demo_mem m'.
Proof.
  apply (list_copy_replaces_all 1 3 (fun v => match v with VInt z => VInt (z + 1) | _ => v end) demo_mem 2
    [4%positive; 5%positive] [VInt 10; VInt 20]).
  - apply demo_eol.
  - apply demo_two.
  - by repeat constructor.
  - cbn; lia.
Defined.

(** *** Bubble sort on the list of elements *)

Section bubble.
Variable cmp : val -> val -> Z.

(** One pass of neighbour comparisons, and whether it swapped. *)
Fixpoint pass (x : val) (ys : list val) : list val * bool :=
  match ys with
  | [] => ([x], false)
  | y :: ys => if 0 <? cmp x y then (y :: (pass x ys).1, true) else (x :: (pass y ys).1, (pass y ys).2)
  end.

(** Each pass leaves out the last element of the one before. *)
Fixpoint bubble (fuel : nat) (xs zs : list val) : list val :=
  match fuel, xs with
  | S fuel, x :: ys =>
    let p := pass x ys in
    if p.2 then bubble fuel (removelast p.1) (List.last p.1 VNull :: zs) else p.1 ++ zs
  | _, _ => xs ++ zs
  end.

Definition le (a b : val) : Prop := cmp a b <= 0.

Lemma pass_length x ys : length (pass x ys).1 = S (length ys).
Proof using. revert x. induction ys as [| y ys IH]; intros x; cbn; [done |]. case_match; cbn; by rewrite IH. Qed.

Lemma pass_perm x ys : (pass x ys).1 ≡ₚ x :: ys.
Proof using.
  revert x. induction ys as [| y ys IH]; intros x; cbn; [done |]. case_match; cbn; rewrite IH; [by apply Permutation_swap | done].
Qed.

Lemma pass_split x ys : (pass x ys).1 = removelast (pass x ys).1 ++ [List.last (pass x ys).1 VNull].
Proof using. apply app_removelast_last. intros E. pose proof (pass_length x ys) as Hl. by rewrite E in Hl. Qed.

Lemma pass_noswap x ys : (pass x ys).2 = false -> (pass x ys).1 = x :: ys /\ Sorted le (x :: ys).
Proof using.
  revert x. induction ys as [| y ys IH]; intros x; cbn; [intros _; split; [done | by repeat constructor] |].
  destruct (Z.ltb_spec 0 (cmp x y)); [done |]. cbn. intros [-> Hs]%IH. split; [done |].
  constructor; [done |]. constructor. unfold le. lia.
Qed.

Context (le_total : forall a b, le a b \/ le b a) (le_trans : Transitive le).

Lemma pass_max x ys : Forall (fun a => le a (List.last (pass x ys).1 VNull)) (pass x ys).1.
Proof using le_total le_trans.
  revert x. induction ys as [| y ys IH]; intros x.
  - cbn. constructor; [| constructor]. by destruct (le_total x x).
  - assert (Hl : forall z w, List.last (z :: (pass w ys).1) VNull = List.last (pass w ys).1 VNull).
    { intros z w. pose proof (pass_length w ys). by destruct (pass w ys).1. }
    cbn [pass]. destruct (Z.ltb_spec 0 (cmp x y)) as [Hc | Hc]; cbn [fst]; rewrite Hl.
    + constructor; [| apply IH]. assert (Hx : le x (List.last (pass x ys).1 VNull)).
      { apply (proj1 (Forall_forall _ _) (IH x)). rewrite pass_perm. left. }
      etrans; [| exact Hx]. destruct (le_total y x) as [? | Hxy]; [done |]. unfold le in Hxy. lia.
    + constructor; [| apply IH]. assert (Hy : le y (List.last (pass y ys).1 VNull)).
      { apply (proj1 (Forall_forall _ _) (IH y)). rewrite pass_perm. left. }
      etrans; [| exact Hy]. done.
Qed.

Lemma bubble_sorted fuel : forall xs zs, (length xs < fuel)%nat -> StronglySorted le zs ->
  Forall (fun z => Forall (fun a => le a z) xs) zs ->
  bubble fuel xs zs ≡ₚ xs ++ zs /\ StronglySorted le (bubble fuel xs zs).
Proof using le_total le_trans.
  induction fuel as [| fuel IH]; intros xs zs Hf Hs Hb; [lia |]. destruct xs as [| x ys]; [done |]. cbn [bubble].
  destruct (pass x ys).2 eqn:Esw.
  - pose proof (pass_split x ys) as Hsp. pose proof (pass_max x ys) as Hm. pose proof (pass_perm x ys) as Hp.
    set (w := List.last (pass x ys).1 VNull) in *. set (ws := removelast (pass x ys).1) in *.
    destruct (IH ws (w :: zs)) as [Hperm Hsort].
    + pose proof (pass_length x ys) as Hl. rewrite Hsp, length_app in Hl. cbn in Hl, Hf. lia.
    + constructor; [done |]. eapply Forall_impl; [done |]. intros z Hz. cbn beta in Hz. apply (proj1 (Forall_forall _ _) Hz).
      rewrite <- Hp, Hsp. apply elem_of_app. right. left.
    + constructor; [rewrite Hsp in Hm; by apply Forall_app in Hm as [? _] |].
      eapply Forall_impl; [done |]. intros z Hz. cbn beta in *. rewrite <- Hp, Hsp in Hz. by apply Forall_app in Hz as [? _].
    + split; [| done]. rewrite Hperm, cons_middle, app_assoc, <- Hsp, Hp. done.
  - apply pass_noswap in Esw as [-> Hso]. split; [done |]. clear -Hso Hs Hb le_trans.
    apply Sorted_StronglySorted in Hso; [| done]. induction (x :: ys) as [| a l IH]; [done |].
    apply StronglySorted_inv in Hso as [Hl Ha]. cbn. constructor.
    + apply IH; [| done]. eapply Forall_impl; [done |]. intros z Hz. cbn beta in *. by apply Forall_cons in Hz as [_ ?].
    + apply Forall_app. split; [done |]. eapply Forall_impl; [done |]. intros z Hz. cbn beta in *. by apply Forall_cons in Hz as [? _].
Qed.
End bubble.

Section bubble_list.
Variable eol : loc.
Variable cmp : val -> val -> Z.
Abbreviation is_list := (is_list eol).

(** What a pass may write: the element slots. *)
Definition slots (ns : list loc) (a : addr) : Prop := exists n, n ∈ ns /\ a = (n, F_info).

Lemma slots_eol m m' ns : eol ∉ ns -> same_outside (slots ns) m m' -> eol_ok eol m -> eol_ok eol m'.
Proof using. intros He Hs [H1 H2]. split; rewrite Hs; try done; intros (n & Hn & [= ?]); congruence. Qed.

Lemma bubble_inner_ok l stop zs last_ref : forall mid m pre n1 xs0 x ys it fuel swap,
  eol_ok eol m -> is_list m l (pre ++ n1 :: mid ++ stop) (xs0 ++ x :: ys ++ zs) ->
  length pre = length xs0 -> length mid = length ys -> between it l (pre ++ [n1]) ->
  Forall (fun v => v <> VNull) (x :: ys ++ zs) ->
  (forall k, k ∈ mid -> last_ref <> VAddr (k, F_info)) -> (forall k, hd_error stop = Some k -> last_ref = VAddr (k, F_info)) ->
  (length mid < fuel)%nat ->
  exists it' m', bubble_inner fuel cmp last_ref it x (VAddr (n1, F_info)) swap m =
      Some ((it', VAddr (default n1 (last mid), F_info), swap || (pass cmp x ys).2), m') /\ it_list it' = l /\
    is_list m' l (pre ++ n1 :: mid ++ stop) (xs0 ++ (pass cmp x ys).1 ++ zs) /\ same_outside (slots (n1 :: mid)) m m'.
Proof using.
  intros mid. induction mid as [| n2 mid IH]; intros m pre n1 xs0 x ys it fuel swap He Hl Hlen Hlen2 Hb Hnn Hnl Hst Hf;
    (destruct fuel as [| fuel]; [lia |]); cbn [bubble_inner].
  - destruct ys; [| done]. cbn [app pass fst snd last default] in *. rewrite orb_false_r.
    change (n1 :: stop) with ([n1] ++ stop) in Hl. change (x :: zs) with ([x] ++ zs) in Hl. rewrite !app_assoc in Hl.
    assert (Hlz : length stop = length zs).
    { destruct Hl as [_ _ _ Hi _ _ _]. apply infos_length in Hi. rewrite !length_app in Hi. cbn in Hi. lia. }
    destruct stop as [| s stop].
    + destruct zs; [| done]. rewrite !app_nil_r in *. destruct (next_end _ _ _ _ _ _ He Hl Hb) as (it1 & R1 & E1 & _).
      exists it1, m. rewrite (run_bind _ _ _ _ _ R1). by rewrite <- ?app_assoc in *.
    + destruct zs as [| z zs]; [done |].
      destruct (next_ok _ _ _ _ _ _ _ _ _ _ Hl ltac:(rewrite !length_app; cbn; lia) Hb) as (it1 & R1 & E1 & E2 & E3 & E4).
      exists it1, m. rewrite (run_bind _ _ _ _ _ R1).
      rewrite bool_decide_false by (apply Forall_cons in Hnn as [_ [? _]%Forall_cons]; done).
      unfold iter_ref. rewrite E3, run_assoc, run_as_obj, run_ret, (Hst s) by done. rewrite bool_decide_true by done.
      rewrite <- !app_assoc in Hl. done.
  - destruct ys as [| y ys]; [done |]. cbn [app] in Hl. injection Hlen2 as Hlen2.
    pose proof (Forall_cons_1 _ _ _ Hnn) as [Hx [Hy Hnz]%Forall_cons].
    change (n1 :: n2 :: mid ++ stop) with ([n1] ++ n2 :: mid ++ stop) in Hl.
    change (x :: y :: ys ++ zs) with ([x] ++ y :: ys ++ zs) in Hl. rewrite !app_assoc in Hl.
    destruct (next_ok _ _ _ _ _ _ _ _ _ _ Hl ltac:(rewrite !length_app; cbn; lia) Hb) as (it1 & R1 & Hon).
    pose proof Hon as (E1 & E2 & E3 & E4). apply on_between in Hon.
    assert (Hcell : exists v, m !! (n1, F_info) = Some v /\ m !! (n2, F_info) = Some y).
    { destruct (is_list_cell _ _ _ _ _ _ _ _ _ Hl ltac:(rewrite !length_app; cbn; lia)) as (_ & H2 & _).
      rewrite <- !app_assoc in Hl. destruct (is_list_cell _ _ _ _ _ _ _ _ _ Hl Hlen) as (_ & H1 & _). eauto. }
    destruct Hcell as (v & H1 & H2).
    assert (Hn12 : n1 <> n2).
    { destruct Hl as [_ _ _ _ Hnd _ _]. apply NoDup_app in Hnd as (_ & Hd & _). intros ->. apply (Hd n2); [elem_tac | left]. }
    assert (Hout : forall m1 m2, same_outside (slots [n1; n2]) m m1 -> same_outside (slots (n2 :: mid)) m1 m2 ->
      same_outside (slots (n1 :: n2 :: mid)) m m2).
    { intros m1 m2 S1 S2. etrans; eapply same_outside_mono; [| exact S1 | | exact S2]; intros a (k & Hk & ->); exists k;
        (split; [elem_tac | done]). }
    rewrite (run_bind _ _ _ _ _ R1), bool_decide_false by done. unfold iter_ref. rewrite E3, run_assoc, run_as_obj, run_ret.
    rewrite bool_decide_false by (apply not_eq_sym, Hnl; left). cbn [pass].
    rewrite (last_cons_cases n2 mid). change (default n1 (Some (default n2 (last mid)))) with (default n2 (last mid)).
    destruct (Z.ltb_spec 0 (cmp x y)) as [Hc | Hc].
    + set (m1 := <[(n2, F_info) := x]> (<[(n1, F_info) := y]> m)).
      assert (Hl1 : is_list m1 l ((pre ++ [n1]) ++ n2 :: mid ++ stop) ((xs0 ++ [y]) ++ x :: ys ++ zs)).
      { unfold m1. apply (set_info_ok _ _ _ _ _ _ _ y); [| rewrite !length_app; cbn; lia]. rewrite <- !app_assoc in *.
        by apply (set_info_ok _ _ _ _ _ _ _ x). }
      assert (Hs1 : same_outside (slots [n1; n2]) m m1).
      { unfold m1. repeat (apply same_outside_insert; [eexists; split; [| reflexivity]; elem_tac |]). done. }
      destruct (IH m1 (pre ++ [n1]) n2 (xs0 ++ [y]) x ys it1 fuel true) as (it2 & m2 & R2 & E5 & Hl2 & Hs2); try done.
      * eapply slots_eol; [| exact Hs1 | done]. destruct Hl as [_ _ _ _ _ Heo _]. elem_tac.
      * rewrite !length_app. cbn. lia.
      * by apply Forall_cons.
      * intros k Hk. apply Hnl. by right.
      * cbn in Hf. lia.
      * exists it2, m2. rewrite run_as_addr, (run_store _ _ v), run_as_addr, (run_store _ _ y) by lk.
        fold m1. rewrite R2. cbn [fst snd]. rewrite orb_true_r. split_and!; [done | done | | by eapply Hout].
        rewrite <- !app_assoc in Hl2. done.
    + assert (Hs1 : same_outside (slots [n1; n2]) m m) by done.
      destruct (IH m (pre ++ [n1]) n2 (xs0 ++ [x]) y ys it1 fuel swap) as (it2 & m2 & R2 & E5 & Hl2 & Hs2); try done.
      * rewrite !length_app. cbn. lia.
      * by apply Forall_cons.
      * intros k Hk. apply Hnl. by right.
      * cbn in Hf. lia.
      * exists it2, m2. rewrite R2. split_and!; [done | done | | by eapply Hout].
        rewrite <- !app_assoc in Hl2. done.
Qed.

Lemma bubble_outer_ok l inner : forall fuel m act stop xs zs it ref1,
  eol_ok eol m -> is_list m l (act ++ stop) (xs ++ zs) -> length act = length xs -> act <> [] -> between it l [] ->
  Forall (fun v => v <> VNull) (xs ++ zs) ->
  (forall k, k ∈ act -> ref1 <> VAddr (k, F_info)) -> (forall k, hd_error stop = Some k -> ref1 = VAddr (k, F_info)) ->
  (length act < fuel)%nat -> (length act < inner)%nat ->
  exists m', bubble_outer fuel inner cmp it ref1 m = Some (tt, m') /\ is_list m' l (act ++ stop) (bubble cmp fuel xs zs) /\
    same_outside (slots act) m m'.
Proof using.
  induction fuel as [| fuel IH]; intros m act stop xs zs it ref1 He Hl Hlen Hne Hb Hnn Hnl Hst Hf Hfi; [lia |].
  destruct act as [| n1 mid]; [done |]. destruct xs as [| x ys]; [done |]. injection Hlen as Hlen. cbn [app] in *.
  destruct (next_ok eol m l it [] n1 _ [] x _ Hl eq_refl Hb) as (it1 & R1 & Hon).
  pose proof Hon as (_ & _ & Hcur & _). apply on_between in Hon.
  destruct (bubble_inner_ok l stop zs ref1 mid m [] n1 [] x ys it1 inner false) as (it2 & m1 & R2 & E2 & Hl1 & Hs1);
    try done; [intros k Hk; apply Hnl; by right | cbn in Hfi; lia |].
  cbn [bubble_outer bubble]. rewrite (run_bind _ _ _ _ _ R1). unfold iter_ref.
  rewrite Hcur, run_assoc, run_as_obj, run_ret, (run_bind _ _ _ _ _ R2). cbn [orb app] in *.
  destruct (pass cmp x ys).2 eqn:Esw; [| by exists m1].
  destruct mid as [| k mid _] using rev_ind; [destruct ys; done |].
  rewrite last_snoc. change (default n1 (Some k)) with k.
  assert (Heo : eol ∉ n1 :: mid ++ [k]) by (destruct Hl as [_ _ _ _ _ Heo _]; elem_tac).
  assert (Hk : k ∉ n1 :: mid).
  { destruct Hl as [_ _ _ _ Hnd _ _]. change (NoDup ((n1 :: mid ++ [k]) ++ stop)) in Hnd. apply NoDup_app in Hnd as [Hnd _].
    change (NoDup ((n1 :: mid) ++ [k])) in Hnd. by apply NoDup_snoc in Hnd as [_ ?]. }
  pose proof (pass_split cmp x ys) as Hsp. pose proof (pass_perm cmp x ys) as Hp. pose proof (pass_length cmp x ys) as Hpl.
  set (w := List.last (pass cmp x ys).1 VNull) in *. set (ws := removelast (pass cmp x ys).1) in *.
  rewrite Hsp, length_app in Hpl. rewrite length_app in *. cbn [length] in *.
  destruct (IH m1 (n1 :: mid) (k :: stop) ws (w :: zs) (iter_rewind it2) (VAddr (k, F_info))) as (m2 & R3 & Hl2 & Hs2).
  - by eapply slots_eol.
  - rewrite Hsp in Hl1. rewrite <- !app_assoc in Hl1. done.
  - count_tac.
  - done.
  - rewrite <- E2. done.
  - rewrite cons_middle, app_assoc, <- Hsp. apply Forall_app. change (x :: ys ++ zs) with ((x :: ys) ++ zs) in Hnn.
    apply Forall_app in Hnn. by rewrite Hp.
  - intros j Hj [= <-]. done.
  - by intros ? [= ->].
  - count_tac.
  - count_tac.
  - exists m2. rewrite R3. split_and!; [done | by rewrite <- app_assoc |].
    etrans; [exact Hs1 |]. eapply same_outside_mono; [| exact Hs2]. intros a (j & Hj & ->). exists j. split; [elem_tac | done].
Qed.

Lemma bubble_sort_empty l m : eol_ok eol m -> is_list m l [] [] -> forall fuel, (1 < fuel)%nat ->
  bubble_sort fuel cmp l m = Some (tt, m).
Proof using.
  intros He Hl fuel Hf. do 2 (destruct fuel as [| fuel]; [lia |]). unfold bubble_sort.
  destruct (next_end eol m l (iter_init l) [] [] He Hl (between_init l)) as (it1 & R1 & Hen). pose proof Hen as (_ & Hcur & _).
  destruct (next_ended eol m l it1 He Hen) as (it2 & R2 & _).
  cbn [bubble_outer bubble_inner]. rewrite (run_bind _ _ _ _ _ R1). unfold iter_ref. rewrite Hcur, run_assoc, run_as_obj, run_ret.
  rewrite run_assoc, (run_bind _ _ _ _ _ R2). rewrite bool_decide_true by done. done.
Qed.
End bubble_list.

(** C22: For a comparison that is a total preorder, [bubble_sort] terminates and
    leaves the list sorted, a permutation of what it was: the bound [last_ref] at
    which a pass stops (the element the previous pass ended on) never skips an
    element that is out of order.  Only the elements' slots are written; the
    nodes stay linked as they were. *)
Theorem bubble_sort_sorts (eol : loc) (fuel : nat) (cmp : val -> val -> Z) (m : mem) (l : loc) (ns : list loc) (xs : list val) :
  eol_ok eol m -> is_list eol m l ns xs -> Forall (fun v => v <> VNull) xs -> (S (length ns) < fuel)%nat ->
  (forall a b, cmp a b <= 0 \/ cmp b a <= 0) -> (forall a b c, cmp a b <= 0 -> cmp b c <= 0 -> cmp a c <= 0) ->
  exists m' ys, bubble_sort fuel cmp l m = Some (tt, m') /\ is_list eol m' l ns ys /\
    ys ≡ₚ xs /\ StronglySorted (fun a b => cmp a b <= 0) ys /\ same_outside (slots ns) m m'.
Proof.
  intros He Hl Hnn Hf Htot Htr. destruct ns as [| n ns].
  { assert (xs = []) as -> by (destruct Hl as [_ _ _ Hi _ _ _]; by apply Forall2_nil_inv_l in Hi).
    exists m, []. rewrite (bubble_sort_empty eol cmp l m) by (done || lia). split_and!; try done. constructor. }
  destruct (bubble_outer_ok eol cmp l fuel fuel m (n :: ns) [] xs [] (iter_init l) VNull) as (m' & R & Hl' & Hs);
    try done; rewrite ?app_nil_r; try done; try (cbn in *; lia).
  { destruct Hl as [_ _ _ Hi _ _ _]. by apply infos_length in Hi. }
  rewrite app_nil_r in *.
  destruct (bubble_sorted cmp Htot Htr fuel xs []) as [Hp Hso].
  - destruct Hl as [_ _ _ Hi _ _ _]. apply infos_length in Hi. cbn in *. lia.
  - constructor.
  - constructor.
  - exists m', (bubble cmp fuel xs []). rewrite app_nil_r in Hp. done.
Qed.

Lemma bubble_sort_sorts_witness :
  let cmp a b := match a, b with VInt x, VInt y => y - x | VInt _, _ => -1 | _, VInt _ => 1 | _, _ => 0 end in
  exists m' ys, bubble_sort 4 cmp 2 demo_mem = Some (tt, m') /\ is_list 1 m' 2 [4%positive; 5%positive] ys /\
    ys ≡ₚ [VInt 10; VInt 20] /\ StronglySorted (fun a b => cmp a b <= 0) ys /\ same_outside (slots [4%positive; 5%positive]) demo_mem m'.
Proof.
  intros cmp. apply (bubble_sort_sorts 1 4 cmp demo_mem 2 [4%positive; 5%positive] [VInt 10; VInt 20]).
  - apply demo_eol.
  - apply demo_two.
  - by repeat constructor.
  - cbn; lia.
  - intros [] []; cbn; lia.
  - intros [] [] []; cbn; lia.
Defined.
