(* ===== verification/DList.v ===== *)
(** * DList: doubly-linked chains whose [prev] is the address of a pointer

    [ilink] (sql_list.h) and [I_P_List] (sql_plist.h) link their elements the same
    way: [next] points to the next element, [prev] to the {e pointer} that points
    to this element, so that unlinking needs no list.  They differ in the end of
    the chain (NULL or a sentinel) and in where the address of the last pointer is
    kept.  This file has the shape and the two facts both need: linking an element
    in between, and unlinking one. *)

From stdpp Require Import base numbers option gmap list.
From Stdlib Require Import ZArith Lia.
From S2P Require Import Prelude Heap.

Section dlist.
Variable hook : nat.
Abbreviation next n := (n, F_next hook).
Abbreviation prev n := (n, F_prev hook).

(** Every element's [prev] is the cell that points to it. *)
Fixpoint prevs (m : mem) (a : addr) (ns : list loc) : Prop :=
  match ns with
  | [] => True
  | n :: ns => m !! prev n = Some (VAddr a) /\ prevs m (next n) ns
  end.

(** [e] ends the chain; [tail], where there is one, keeps the address of the
    last pointer. *)
Record dlist (e : val) (tail : option addr) (m : mem) (a : addr) (ns : list loc) : Prop := {
  dl_chain : chain hook m a ns e;
  dl_prevs : prevs m a ns;
  dl_tail : forall c, tail = Some c -> m !! c = Some (VAddr (last_cell hook a ns));
  dl_nodup : NoDup ns
}.

(** What a list with these elements owns. *)
Definition dfoot (a : addr) (tail : option addr) (ns : list loc) (c : addr) : Prop :=
  c = a \/ tail = Some c \/ exists n, n ∈ ns /\ (c = next n \/ c = prev n).

(** The slot that names the cell a successor hangs on: the successor's [prev],
    or the tail. *)
Definition prev_slot (tail : option addr) (ns : list loc) : option addr :=
  match ns with [] => tail | k :: _ => Some (prev k) end.

Lemma prevs_app m a ns1 ns2 : prevs m a (ns1 ++ ns2) <-> prevs m a ns1 /\ prevs m (last_cell hook a ns1) ns2.
Proof using.
  revert a. induction ns1 as [| n ns1 IH]; intros a; cbn [app prevs]; [rewrite last_cell_nil; tauto |].
  rewrite IH, last_cell_cons. tauto.
Qed.

Lemma prevs_frame m m' a ns : (forall n, n ∈ ns -> m' !! prev n = m !! prev n) -> prevs m a ns -> prevs m' a ns.
Proof using.
  revert a. induction ns as [| n ns IH]; intros a Hf; [done |]. intros [H1 H2]. split; [by rewrite Hf by left |].
  apply IH; [| done]. intros k Hk. apply Hf. by right.
Qed.

Lemma dlist_frame e tail m m' a ns : (forall c, dfoot a tail ns c -> m' !! c = m !! c) -> dlist e tail m a ns -> dlist e tail m' a ns.
Proof using.
  intros Hf []. split; [| | | done].
  - eapply chain_frame; [| done]. intros c [-> | (n & Hn & ->)]%elem_of_cells; apply Hf; unfold dfoot; eauto 7.
  - eapply prevs_frame; [| done]. intros n Hn. apply Hf. unfold dfoot; eauto 7.
  - intros c Hc. rewrite Hf; [eauto | unfold dfoot; eauto].
Qed.

(** The pointer slots of a list never coincide with its [prev] slots. *)
Definition apart (a : addr) (tail : option addr) (n : loc) : Prop :=
  a <> next n /\ a <> prev n /\ tail <> Some (next n) /\ tail <> Some (prev n).

Lemma last_cell_in_cases a ns : last_cell hook a ns = a \/ exists k, k ∈ ns /\ last_cell hook a ns = next k.
Proof using. pose proof (last_cell_in hook a ns) as [H | H]%elem_of_cells; eauto. Qed.

(** Linking [n] in between: what the store must look like afterwards. *)
Record linked (e : val) (tail : option addr) (a : addr) (ns1 : list loc) (n : loc) (ns2 : list loc) (X : addr -> Prop) (m m' : mem) : Prop := {
  lk_cell : m' !! last_cell hook a ns1 = Some (VObj n);
  lk_next : m' !! next n = Some (head_ptr ns2 e);
  lk_prev : m' !! prev n = Some (VAddr (last_cell hook a ns1));
  lk_succ : forall c, prev_slot tail ns2 = Some c -> m' !! c = Some (VAddr (next n));
  lk_same : same_outside (fun c => c = last_cell hook a ns1 \/ c = next n \/ c = prev n \/ prev_slot tail ns2 = Some c \/ X c) m m'
}.

Lemma linked_dlist e tail a ns1 n ns2 X m m' :
  dlist e tail m a (ns1 ++ ns2) -> (n ∉ ns1 ++ ns2) -> (forall k, k ∈ n :: ns1 ++ ns2 -> apart a tail k) -> tail <> Some a ->
  (forall c, dfoot a tail (ns1 ++ ns2) c -> ~ X c) ->
  linked e tail a ns1 n ns2 X m m' -> dlist e tail m' a (ns1 ++ n :: ns2).
Proof using.
  intros [Hc Hp Ht Hnd] Hn Hap Hta HX [A1 A2 A3 A4 A5].
  apply chain_app in Hc as [Hc1 Hc2]. apply prevs_app in Hp as [Hp1 Hp2].
  pose proof Hnd as (Hnd1 & Hd & Hnd2)%NoDup_app.
  assert (HF : forall c, dfoot a tail (ns1 ++ ns2) c -> c <> last_cell hook a ns1 -> prev_slot tail ns2 <> Some c -> m' !! c = m !! c).
  { intros c Hf H1 H2. apply A5. intros [-> | [-> | [-> | [? | ?]]]]; try done; [| | by apply (HX c)].
    - destruct Hf as [E | [E | (k & Hk & [E | E])]]; try congruence; destruct (Hap n) as (? & ? & ? & ?); [left | congruence | left | congruence].
    - destruct Hf as [E | [E | (k & Hk & [E | E])]]; try congruence; destruct (Hap n) as (? & ? & ? & ?); [left | congruence | left | congruence]. }
  assert (HL : forall k, k ∈ ns2 -> next k <> last_cell hook a ns1).
  { intros k Hk E. destruct (last_cell_in_cases a ns1) as [E2 | (j & Hj & E2)]; rewrite E2 in E.
    - destruct (Hap k) as (? & _); [elem_tac | congruence].
    - injection E as ->. by apply (Hd j). }
  assert (HS : forall b, b = a \/ (exists k, k ∈ ns1 ++ ns2 /\ b = next k) -> prev_slot tail ns2 <> Some b).
  { intros b Hb. destruct ns2 as [| k2 ns2]; cbn [prev_slot].
    - destruct Hb as [-> | (k & Hk & ->)]; [done |]. destruct (Hap k) as (? & ? & ? & ?); [elem_tac | done].
    - destruct Hb as [-> | (k & Hk & ->)]; [| congruence]. destruct (Hap k2) as (? & ? & ? & ?); [elem_tac | congruence]. }
  assert (HP : forall k, prev k <> last_cell hook a ns1 \/ k ∉ ns1 ++ ns2).
  { intros k. destruct (decide (k ∈ ns1 ++ ns2)) as [Hk |]; [left | by right].
    destruct (last_cell_in_cases a ns1) as [-> | (j & Hj & ->)]; [| congruence]. destruct (Hap k) as (? & ? & ? & ?); [elem_tac | congruence]. }
  assert (HC : NoDup (cells hook a ns1)).
  { apply NoDup_cons. split; [| by apply (NoDup_fmap_2 (fun k => next k))].
    intros (k & E & Hk)%list_elem_of_fmap. destruct (Hap k) as (? & _); [elem_tac | done]. }
  split.
  - apply chain_app. cbn [head_ptr chain]. split_and!; [| done |].
    + eapply chain_retarget; [done | | done | done]. intros c Hc Hne. apply HF; [| done |].
      * apply elem_of_cells in Hc as [-> | (k & Hk & ->)]; unfold dfoot; [by left | right; right; exists k; elem_tac].
      * apply HS. apply elem_of_cells in Hc as [-> | (k & Hk & ->)]; [by left | right; exists k; elem_tac].
    + apply (chain_rebase hook m m' (last_cell hook a ns1)); [by rewrite A2, (chain_head _ _ _ _ _ Hc2) | | done].
      intros k Hk. apply HF; [right; right; exists k; elem_tac | by apply HL | apply HS; right; exists k; elem_tac].
  - apply prevs_app. cbn [prevs]. split_and!; [| done |].
    + eapply prevs_frame; [| done]. intros k Hk. apply HF; [right; right; exists k; elem_tac | | ].
      * destruct (HP k) as [? | Hx]; [done |]. exfalso. apply Hx. elem_tac.
      * destruct ns2 as [| k2 ns2]; cbn [prev_slot]; [destruct (Hap k) as (? & ? & ? & ?); [elem_tac | done] |].
        intros [= ->]. apply (Hd k); [done | left].
    + destruct ns2 as [| k2 ns2]; [done |]. destruct Hp2 as [_ Hp2]. cbn [prevs prev_slot] in *. split; [by apply A4 |].
      eapply prevs_frame; [| done]. intros k Hk. apply HF; [right; right; exists k; elem_tac | | ].
      * destruct (HP k) as [? | Hx]; [done |]. exfalso. apply Hx. elem_tac.
      * intros [= ->]. by apply NoDup_cons in Hnd2 as [? _].
  - intros c Hc. rewrite last_cell_app, last_cell_cons. destruct ns2 as [| k2 ns2]; [by apply A4 |].
    rewrite HF; [| by right; left | | ].
    + rewrite (Ht c Hc), last_cell_app. do 2 f_equal. by rewrite !last_cell_cons.
    + destruct (last_cell_in_cases a ns1) as [-> | (j & Hj & ->)]; [congruence |]. destruct (Hap j) as (? & ? & ? & ?); [elem_tac | congruence].
    + cbn [prev_slot]. destruct (Hap k2) as (? & ? & ? & ?); [elem_tac | congruence].
  - apply NoDup_app. split_and!; [done | | apply NoDup_cons; split; [elem_tac | done]].
    intros k Hk1 [-> | Hk2]%elem_of_cons; [elem_tac | by apply (Hd k)].
Qed.

(** Unlinking [n]: its own [next] and [prev] may be anything afterwards. *)
Record unlinked (e : val) (tail : option addr) (a : addr) (ns1 : list loc) (n : loc) (ns2 : list loc) (X : addr -> Prop) (m m' : mem) : Prop := {
  ul_cell : m' !! last_cell hook a ns1 = Some (head_ptr ns2 e);
  ul_succ : forall c, prev_slot tail ns2 = Some c -> m' !! c = Some (VAddr (last_cell hook a ns1));
  ul_same : same_outside (fun c => c = last_cell hook a ns1 \/ c = next n \/ c = prev n \/ prev_slot tail ns2 = Some c \/ X c) m m'
}.

Lemma unlinked_dlist e tail a ns1 n ns2 X m m' :
  dlist e tail m a (ns1 ++ n :: ns2) -> (forall k, k ∈ ns1 ++ n :: ns2 -> apart a tail k) -> tail <> Some a ->
  (forall c, dfoot a tail (ns1 ++ n :: ns2) c -> ~ X c) ->
  unlinked e tail a ns1 n ns2 X m m' -> dlist e tail m' a (ns1 ++ ns2).
Proof using.
  intros [Hc Hp Ht Hnd] Hap Hta HX [A1 A2 A5].
  apply chain_app in Hc as [Hc1 [_ Hc2]]. apply prevs_app in Hp as [Hp1 [_ Hp2]].
  pose proof Hnd as (Hnd1 & Hd & [Hn Hnd2]%NoDup_cons)%NoDup_app.
  assert (Hn1 : n ∉ ns1) by (intros Hx; apply (Hd n Hx); left).
  assert (HF : forall c, dfoot a tail (ns1 ++ ns2) c -> c <> last_cell hook a ns1 -> prev_slot tail ns2 <> Some c -> m' !! c = m !! c).
  { intros c Hf H1 H2. apply A5. intros [-> | [-> | [-> | [? | ?]]]]; try done; [| | apply (HX c); [| done]].
    - destruct Hf as [E | [E | (k & Hk & [E | E])]]; try congruence; [destruct (Hap n) as (? & ? & ? & ?); [elem_tac | congruence] .. | injection E as ->; elem_tac].
    - destruct Hf as [E | [E | (k & Hk & [E | E])]]; try congruence; [destruct (Hap n) as (? & ? & ? & ?); [elem_tac | congruence] .. | injection E as ->; elem_tac].
    - destruct Hf as [E | [E | (k & Hk & E)]]; [by left | by right; left |]. right; right. exists k. split; [elem_tac | done]. }
  assert (HL : forall k, k ∈ ns2 -> next k <> last_cell hook a ns1).
  { intros k Hk E. destruct (last_cell_in_cases a ns1) as [E2 | (j & Hj & E2)]; rewrite E2 in E.
    - destruct (Hap k) as (? & _); [elem_tac | congruence].
    - injection E as ->. apply (Hd j); [done | by right]. }
  assert (HS : forall b, b = a \/ (exists k, k ∈ ns1 ++ ns2 /\ b = next k) -> prev_slot tail ns2 <> Some b).
  { intros b Hb. destruct ns2 as [| k2 ns2]; cbn [prev_slot].
    - destruct Hb as [-> | (k & Hk & ->)]; [done |]. destruct (Hap k) as (? & ? & ? & ?); [elem_tac | done].
    - destruct Hb as [-> | (k & Hk & ->)]; [| congruence]. destruct (Hap k2) as (? & ? & ? & ?); [elem_tac | congruence]. }
  assert (HP : forall k, k ∈ ns1 ++ ns2 -> prev k <> last_cell hook a ns1).
  { intros k Hk. destruct (last_cell_in_cases a ns1) as [-> | (j & Hj & ->)]; [| congruence].
    destruct (Hap k) as (? & ? & ? & ?); [elem_tac | congruence]. }
  assert (HC : NoDup (cells hook a ns1)).
  { apply NoDup_cons. split; [| by apply (NoDup_fmap_2 (fun k => next k))].
    intros (k & E & Hk)%list_elem_of_fmap. destruct (Hap k) as (? & _); [elem_tac | done]. }
  split.
  - apply chain_app. split.
    + eapply chain_retarget; [done | | done | done]. intros c Hc Hne. apply HF; [| done |].
      * apply elem_of_cells in Hc as [-> | (k & Hk & ->)]; unfold dfoot; [by left | right; right; exists k; elem_tac].
      * apply HS. apply elem_of_cells in Hc as [-> | (k & Hk & ->)]; [by left | right; exists k; elem_tac].
    + apply (chain_rebase hook m m' (next n)); [by rewrite A1, (chain_head _ _ _ _ _ Hc2) | | done].
      intros k Hk. apply HF; [right; right; exists k; elem_tac | by apply HL | apply HS; right; exists k; elem_tac].
  - apply prevs_app. split.
    + eapply prevs_frame; [| done]. intros k Hk. apply HF; [right; right; exists k; elem_tac | apply HP; elem_tac |].
      destruct ns2 as [| k2 ns2]; cbn [prev_slot]; [destruct (Hap k) as (? & ? & ? & ?); [elem_tac | done] |].
      intros [= ->]. apply (Hd k); [done | right; left].
    + destruct ns2 as [| k2 ns2]; [done |]. destruct Hp2 as [_ Hp2]. cbn [prevs prev_slot] in *. split; [by apply A2 |].
      eapply prevs_frame; [| done]. intros k Hk. apply HF; [right; right; exists k; elem_tac | apply HP; elem_tac |].
      intros [= ->]. by apply NoDup_cons in Hnd2 as [? _].
  - intros c Hc. destruct ns2 as [| k2 ns2]; [rewrite app_nil_r; by apply A2 |].
    rewrite HF; [| by right; left | | ].
    + by rewrite (Ht c Hc), !last_cell_app, !last_cell_cons.
    + destruct (last_cell_in_cases a ns1) as [-> | (j & Hj & ->)]; [congruence |]. destruct (Hap j) as (? & ? & ? & ?); [elem_tac | congruence].
    + cbn [prev_slot]. destruct (Hap k2) as (? & ? & ? & ?); [elem_tac | congruence].
  - apply NoDup_app. split_and!; [done | | done]. intros k Hk1 Hk2. apply (Hd k Hk1). by right.
Qed.
End dlist.
