(* ===== verification/PList.v ===== *)
(** * PList: the intrusive parameterized list (sql_plist.h)

    [I_P_List<T, B, C, I>]: [B] selects the members of an element that link it (the
    [hook] here, so one element can be in several lists), [C] says whether
    elements are counted and [I] whether the list knows its last pointer. *)

From stdpp Require Import base numbers option gmap list.
From Stdlib Require Import ZArith Lia.
From S2P Require Import Prelude Heap DList.

Local Open Scope Z_scope.

(** The policies: [I_P_List_counter] or [I_P_List_null_counter],
    [I_P_List_fast_push_back] or [I_P_List_no_push_back]. *)
(* [sql_plist.h:58-66 I_P_List] *)
Record policy := Policy { counted : bool; fast_push_back : bool }.

Section code.
(** [I_P_List_adapter]: the members [next] and [prev] used by this list. *)
Variable hook : nat.
Variable pol : policy.

(* [sql_plist.h:221-221 next_ptr] *)
Definition next_ptr (el : loc) : addr := (el, F_next hook).
(* [sql_plist.h:223-223 prev_ptr] *)
Definition prev_ptr (el : loc) : addr := (el, F_prev hook).

(* [sql_plist.h:252-252 reset] *)
Definition count_reset (l : loc) : prog unit := if counted pol then store (l, F_elements) (VInt 0) else mret tt.
(* [sql_plist.h:253-253 inc] *)
Definition count_inc (l : loc) : prog unit := if counted pol then (add_elements l 1;; mret tt) else mret tt.
(* [sql_plist.h:254-254 dec] *)
Definition count_dec (l : loc) : prog unit := if counted pol then (add_elements l (-1);; mret tt) else mret tt.
(* [sql_plist.h:255-256 swap] *)
Definition count_swap (l r : loc) : prog unit :=
  if counted pol then
    a ← load (l, F_elements); b ← load (r, F_elements); store (l, F_elements) b;; store (r, F_elements) a
  else mret tt.
(* [sql_plist.h:291-291 set_last] *)
Definition set_last (l : loc) (a : val) : prog unit := if fast_push_back pol then store (l, F_last) a else mret tt.

(* [sql_plist.h:81-81 empty] *)
Definition empty (l : loc) : prog unit :=
  store (l, F_first) VNull;; count_reset l;; set_last l (VAddr (l, F_first)).

(* [sql_plist.h:82-82 is_empty] *)
Definition is_empty (l : loc) : prog bool := f ← load (l, F_first); mret (ptr_eqb f VNull).

(* [sql_plist.h:83-93 push_front] *)
Definition push_front (l a : loc) : prog unit :=
  f ← load (l, F_first); store (next_ptr a) f;;
  f ← load (l, F_first);
  (if negb (ptr_eqb f VNull) then (n ← as_obj f; store (prev_ptr n) (VAddr (next_ptr a)))
   else set_last l (VAddr (next_ptr a)));;
  store (l, F_first) (VObj a);;
  store (prev_ptr a) (VAddr (l, F_first));;
  count_inc l.

(** Only for lists with [I_P_List_fast_push_back]: the other policy has no [get_last]. *)
(* [sql_plist.h:94-102 push_back] *)
Definition push_back (l a : loc) : prog unit :=
  lastv ← (if fast_push_back pol then load (l, F_last) else undefined); last ← as_addr lastv;
  v ← load last; store (next_ptr a) v;;
  store last (VObj a);;
  store (prev_ptr a) lastv;;
  set_last l (VAddr (next_ptr a));;
  count_inc l.

(* [sql_plist.h:103-121 insert_after] *)
Definition insert_after (l : loc) (pos : val) (a : loc) : prog unit :=
  if ptr_eqb pos VNull then push_front l a else
  pos ← as_obj pos;
  v ← load (next_ptr pos); store (next_ptr a) v;;
  store (prev_ptr a) (VAddr (next_ptr pos));;
  store (next_ptr pos) (VObj a);;
  v ← load (next_ptr a);
  (if negb (ptr_eqb v VNull) then (old_next ← as_obj v; store (prev_ptr old_next) (VAddr (next_ptr a)))
   else set_last l (VAddr (next_ptr a)));;
  count_inc l.

(* [sql_plist.h:122-131 remove] *)
Definition remove (l a : loc) : prog unit :=
  next ← load (next_ptr a);
  (if negb (ptr_eqb next VNull) then (n ← as_obj next; p ← load (prev_ptr a); store (prev_ptr n) p)
   else (p ← load (prev_ptr a); set_last l p));;
  p ← load (prev_ptr a); p ← as_addr p;
  store p next;;
  count_dec l.

(* [sql_plist.h:132-133 front] *)
Definition front (l : loc) : prog val := load (l, F_first).

(* [sql_plist.h:134-142 pop_front] *)
Definition pop_front (l : loc) : prog val :=
  result ← front l;
  (if negb (ptr_eqb result VNull) then (a ← as_obj result; remove l a) else mret tt);;
  mret result.

(** [swap] takes a list of the default insertion policy, so it compiles only for
    lists without [I_P_List_fast_push_back]; there [set_last] does nothing. *)
(* [sql_plist.h:143-156 swap] *)
Definition swap (l r : loc) : prog unit :=
  if fast_push_back pol then undefined else
  a ← load (l, F_first); b ← load (r, F_first); store (l, F_first) b;; store (r, F_first) a;;
  f ← load (l, F_first);
  (if negb (ptr_eqb f VNull) then (n ← as_obj f; store (prev_ptr n) (VAddr (l, F_first)))
   else set_last l (VAddr (l, F_first)));;
  f ← load (r, F_first);
  (if negb (ptr_eqb f VNull) then (n ← as_obj f; store (prev_ptr n) (VAddr (r, F_first)))
   else set_last l (VAddr (r, F_first)));;
  count_swap l r.

(** The iterator keeps the element the next [it++] returns. *)
(* [sql_plist.h:182-186 init] *)
Definition iter_init (l : loc) : prog val := load (l, F_first).

(* [sql_plist.h:193-199 operator++] *)
Definition iter_next (current : val) : prog (val * val) :=
  if negb (ptr_eqb current VNull) then
    n ← as_obj current; c ← load (next_ptr n); mret (current, c)
  else mret (current, current).

(* [sql_plist.h:201-205 operator++] *)
Definition iter_step (current : val) : prog val := n ← as_obj current; load (next_ptr n).
End code.

(** ** The representation *)

Section repr.
Variable hook : nat.
Variable pol : policy.
Abbreviation next_ptr := (next_ptr hook).
Abbreviation prev_ptr := (prev_ptr hook).

Definition tail_of (l : loc) : option addr := if fast_push_back pol then Some (l, F_last) else None.

Record is_plist (m : mem) (l : loc) (ns : list loc) : Prop := {
  pl_list : dlist hook VNull (tail_of l) m (l, F_first) ns;
  pl_count : counted pol = true -> m !! (l, F_elements) = Some (VInt (Z.of_nat (length ns)));
  pl_bound : Z.of_nat (length ns) < 2 ^ 32
}.

(** An element that can be put on the list: it has the two members. *)
Definition hooked (m : mem) (a : loc) : Prop := is_Some (m !! next_ptr a) /\ is_Some (m !! prev_ptr a).

Definition pfoot (l : loc) (ns : list loc) (c : addr) : Prop :=
  c = (l, F_first) \/ c = (l, F_last) \/ c = (l, F_elements) \/ exists n, n ∈ ns /\ (c = next_ptr n \/ c = prev_ptr n).

Lemma apart_list l n : apart hook (l, F_first) (tail_of l) n.
Proof using. unfold apart, tail_of. destruct (fast_push_back pol); split_and!; congruence. Qed.

Lemma tail_not_first l : tail_of l <> Some (l, F_first).
Proof using. unfold tail_of. destruct (fast_push_back pol); congruence. Qed.

Lemma dfoot_not_count l ns c : dfoot hook (l, F_first) (tail_of l) ns c -> c <> (l, F_elements).
Proof using. unfold tail_of. intros [-> | [E | (n & _ & [-> | ->])]]; [congruence | destruct (fast_push_back pol); congruence .. ]. Qed.

Lemma is_plist_frame m m' l ns : (forall c, pfoot l ns c -> m' !! c = m !! c) -> is_plist m l ns -> is_plist m' l ns.
Proof using.
  intros Hf []. split; [| intros Hc; rewrite Hf; [auto | unfold pfoot; tauto] | done].
  eapply dlist_frame; [| done]. intros c Hc. apply Hf. unfold pfoot.
  destruct Hc as [-> | [E | Hc]]; [tauto | | tauto]. unfold tail_of in E. destruct (fast_push_back pol); [injection E as <-; tauto | done].
Qed.

Definition set_count (l : loc) (k : Z) (m : mem) : mem := if counted pol then <[(l, F_elements) := VInt k]> m else m.
Definition put_last (l : loc) (v : val) (m : mem) : mem := if fast_push_back pol then <[(l, F_last) := v]> m else m.

Lemma run_count_inc m l k : (counted pol = true -> m !! (l, F_elements) = Some (VInt k)) ->
  count_inc pol l m = Some (tt, set_count l (u32 (k + 1)) m).
Proof using. unfold count_inc, set_count. destruct (counted pol); [| done]. intros Hc. specialize (Hc eq_refl). run. done. Qed.

Lemma run_count_dec m l k : (counted pol = true -> m !! (l, F_elements) = Some (VInt k)) ->
  count_dec pol l m = Some (tt, set_count l (u32 (k + -1)) m).
Proof using. unfold count_dec, set_count. destruct (counted pol); [| done]. intros Hc. specialize (Hc eq_refl). run. done. Qed.

Lemma run_set_last m l v : (fast_push_back pol = true -> is_Some (m !! (l, F_last))) ->
  set_last pol l v m = Some (tt, put_last l v m).
Proof using.
  unfold set_last, put_last. destruct (fast_push_back pol); [| done]. intros Hc. destruct (Hc eq_refl) as [w Hw]. by erewrite run_store_ret.
Qed.

Lemma set_count_ne m l k c : c <> (l, F_elements) -> set_count l k m !! c = m !! c.
Proof using. intros. unfold set_count. destruct (counted pol); [by rewrite lookup_insert_ne by congruence | done]. Qed.

Lemma put_last_ne m l v c : c <> (l, F_last) -> put_last l v m !! c = m !! c.
Proof using. intros. unfold put_last. destruct (fast_push_back pol); [by rewrite lookup_insert_ne by congruence | done]. Qed.

Lemma last_exists m l ns : is_plist m l ns -> fast_push_back pol = true -> is_Some (m !! (l, F_last)).
Proof using. intros [[_ _ Ht _] _ _] E. unfold tail_of in Ht. rewrite E in Ht. rewrite (Ht _ eq_refl). eauto. Qed.

Lemma insert_core m m' l ns1 a ns2 :
  is_plist m l (ns1 ++ ns2) -> (a ∉ ns1 ++ ns2) -> Z.of_nat (S (length (ns1 ++ ns2))) < 2 ^ 32 ->
  linked hook VNull (tail_of l) (l, F_first) ns1 a ns2 (fun c => c = (l, F_elements)) m m' ->
  (counted pol = true -> m' !! (l, F_elements) = Some (VInt (u32 (Z.of_nat (length (ns1 ++ ns2)) + 1)))) ->
  is_plist m' l (ns1 ++ a :: ns2) /\ same_outside (pfoot l (a :: ns1 ++ ns2)) m m'.
Proof using.
  intros [Hl Hc Hb] Ha Hb' Hlk Hc'. split; [split |].
  - eapply linked_dlist; try done; [intros; apply apart_list | apply tail_not_first |]. intros c H. by apply dfoot_not_count in H.
  - intros E. rewrite (Hc' E), u32_small by lia. do 2 f_equal. rewrite !length_app in *. cbn. lia.
  - rewrite !length_app in *. cbn. lia.
  - eapply same_outside_mono; [| apply Hlk]. intros c [-> | [-> | [-> | [E | ->]]]]; unfold pfoot.
    + destruct (last_cell_in_cases hook (l, F_first) ns1) as [-> | (k & Hk & ->)]; [tauto |]. right; right; right. exists k. split; [elem_tac | by left].
    + right; right; right. exists a. split; [left | by left].
    + right; right; right. exists a. split; [left | by right].
    + destruct ns2 as [| k ns2]; cbn [prev_slot] in E.
      * unfold tail_of in E. destruct (fast_push_back pol); [injection E as <-; tauto | done].
      * injection E as <-. right; right; right. exists k. split; [elem_tac | by right].
    + tauto.
Qed.

Lemma remove_core m m' l ns1 a ns2 :
  is_plist m l (ns1 ++ a :: ns2) ->
  unlinked hook VNull (tail_of l) (l, F_first) ns1 a ns2 (fun c => c = (l, F_elements)) m m' ->
  (counted pol = true -> m' !! (l, F_elements) = Some (VInt (u32 (Z.of_nat (length (ns1 ++ a :: ns2)) + -1)))) ->
  is_plist m' l (ns1 ++ ns2) /\ same_outside (pfoot l (ns1 ++ a :: ns2)) m m'.
Proof using.
  intros [Hl Hc Hb] Hlk Hc'. split; [split |].
  - eapply unlinked_dlist; try done; [intros; apply apart_list | apply tail_not_first |]. intros c H. by apply dfoot_not_count in H.
  - intros E. rewrite (Hc' E), u32_small; rewrite !length_app in *; cbn [length] in *; [| lia]. do 2 f_equal. lia.
  - rewrite !length_app in *. cbn [length] in *. lia.
  - eapply same_outside_mono; [| apply Hlk]. intros c [-> | [-> | [-> | [E | ->]]]]; unfold pfoot.
    + destruct (last_cell_in_cases hook (l, F_first) ns1) as [-> | (k & Hk & ->)]; [tauto |]. right; right; right. exists k. split; [elem_tac | by left].
    + right; right; right. exists a. split; [elem_tac | by left].
    + right; right; right. exists a. split; [elem_tac | by right].
    + destruct ns2 as [| k ns2]; cbn [prev_slot] in E.
      * unfold tail_of in E. destruct (fast_push_back pol); [injection E as <-; tauto | done].
      * injection E as <-. right; right; right. exists k. split; [elem_tac | by right].
    + tauto.
Qed.
End repr.

(** ** The effect of each operation *)

Ltac side_or := solve [ tauto | by eauto 7 ].
Ltac slot_outside :=
  repeat (apply same_outside_insert; [cbn [prev_slot tail_of last_cell last]; rewrite ?last_cell_snoc; solve [tauto | eauto 8 ] |]); try reflexivity.
Ltac slot_succ := intros ? [= <-]; lk.

Section ops.
Variable hook : nat.
Variable pol : policy.
Abbreviation next_ptr := (next_ptr hook).
Abbreviation prev_ptr := (prev_ptr hook).
Abbreviation is_plist := (is_plist hook pol).

Lemma plist_push_front_ok m l ns a :
  is_plist m l ns -> a ∉ ns -> hooked hook m a -> Z.of_nat (S (length ns)) < 2 ^ 32 ->
  exists m', push_front hook pol l a m = Some (tt, m') /\ is_plist m' l (a :: ns) /\ same_outside (pfoot hook l (a :: ns)) m m'.
Proof using.
  intros Hl Ha [[v1 H1] [v2 H2]] Hb. pose proof Hl as [[Hc Hp Ht _] Hcnt _].
  pose proof (chain_head _ _ _ _ _ Hc) as Hh.
  assert (Hs : exists m', push_front hook pol l a m = Some (tt, m') /\
    linked hook VNull (tail_of pol l) (l, F_first) [] a ns (fun c => c = (l, F_elements)) m m' /\
    (counted pol = true -> m' !! (l, F_elements) = Some (VInt (u32 (Z.of_nat (length ns) + 1))))).
  { unfold push_front, set_last, count_inc, tail_of in *.
    destruct ns as [| k ns]; [| destruct Hp as [Hp _]; assert (a <> k) by elem_tac]; cbn [head_ptr] in Hh;
      destruct (fast_push_back pol); try specialize (Ht _ eq_refl); destruct (counted pol); try specialize (Hcnt eq_refl);
      (eexists; split; [run; reflexivity | split; [split; [lk | lk | lk | slot_succ | slot_outside] | intros; lk; done]]). }
  destruct Hs as (m' & R & Hlk & Hc'). exists m'. split; [done |]. by apply (insert_core hook pol m m' l [] a ns).
Qed.

Lemma plist_push_back_ok m l ns a :
  fast_push_back pol = true -> is_plist m l ns -> a ∉ ns -> hooked hook m a -> Z.of_nat (S (length ns)) < 2 ^ 32 ->
  exists m', push_back hook pol l a m = Some (tt, m') /\ is_plist m' l (ns ++ [a]) /\ same_outside (pfoot hook l (a :: ns)) m m'.
Proof using.
  intros EF Hl Ha [[v1 H1] [v2 H2]] Hb. pose proof Hl as [[Hc Hp Ht _] Hcnt _].
  pose proof (chain_last _ _ _ _ _ Hc) as Hh.
  assert (Hs : exists m', push_back hook pol l a m = Some (tt, m') /\
    linked hook VNull (tail_of pol l) (l, F_first) ns a [] (fun c => c = (l, F_elements)) m m' /\
    (counted pol = true -> m' !! (l, F_elements) = Some (VInt (u32 (Z.of_nat (length ns) + 1))))).
  { unfold push_back, set_last, count_inc, tail_of in *. rewrite EF in *. specialize (Ht _ eq_refl).
    destruct ns as [| k ns _] using rev_ind; [| rewrite last_cell_snoc in *; assert (a <> k) by elem_tac];
      destruct (counted pol); try specialize (Hcnt eq_refl);
      (eexists; split; [run; reflexivity | split; [split; rewrite ?last_cell_snoc; [lk | lk | lk | slot_succ | slot_outside] | intros; lk; done]]). }
  destruct Hs as (m' & R & Hlk & Hc'). exists m'. split; [done |].
  rewrite <- (app_nil_r ns) in Hl, Ha, Hb, Hc'. destruct (insert_core hook pol m m' l ns a [] Hl Ha Hb Hlk Hc') as [? Hs]. split; [done |].
  by rewrite app_nil_r in Hs.
Qed.

Lemma insert_after_ok m l ns1 pos ns2 a :
  is_plist m l (ns1 ++ pos :: ns2) -> a ∉ ns1 ++ pos :: ns2 -> hooked hook m a ->
  Z.of_nat (S (length (ns1 ++ pos :: ns2))) < 2 ^ 32 ->
  exists m', insert_after hook pol l (VObj pos) a m = Some (tt, m') /\ is_plist m' l (ns1 ++ pos :: a :: ns2) /\
    same_outside (pfoot hook l (a :: ns1 ++ pos :: ns2)) m m'.
Proof using.
  intros Hl Ha [[v1 H1] [v2 H2]] Hb. pose proof Hl as [[Hc Hp Ht Hnd] Hcnt _].
  apply chain_app in Hc as [_ [_ Hc]]. apply prevs_app in Hp as [_ [_ Hp]].
  pose proof (chain_head _ _ _ _ _ Hc) as Hh. assert (a <> pos) by elem_tac.
  assert (Hs : exists m', insert_after hook pol l (VObj pos) a m = Some (tt, m') /\
    linked hook VNull (tail_of pol l) (l, F_first) (ns1 ++ [pos]) a ns2 (fun c => c = (l, F_elements)) m m' /\
    (counted pol = true -> m' !! (l, F_elements) = Some (VInt (u32 (Z.of_nat (length (ns1 ++ pos :: ns2)) + 1))))).
  { unfold insert_after, set_last, count_inc, tail_of in *.
    destruct ns2 as [| k ns2]; [| destruct Hp as [Hp _]; assert (a <> k) by elem_tac]; cbn [head_ptr] in Hh;
      destruct (fast_push_back pol); try specialize (Ht _ eq_refl); destruct (counted pol); try specialize (Hcnt eq_refl);
      (eexists; split; [run; reflexivity | split; [split; rewrite ?last_cell_snoc; [lk | lk | lk | slot_succ | slot_outside] | intros; lk; done]]). }
  destruct Hs as (m' & R & Hlk & Hc'). exists m'. split; [done |].
  rewrite cons_middle, app_assoc in Hl, Ha, Hb, Hc'. destruct (insert_core hook pol m m' l _ a ns2 Hl Ha Hb Hlk Hc') as [Hr Hs].
  rewrite <- !app_assoc in Hr, Hs. done.
Qed.

Lemma remove_ok m l ns1 a ns2 :
  is_plist m l (ns1 ++ a :: ns2) ->
  exists m', remove hook pol l a m = Some (tt, m') /\ is_plist m' l (ns1 ++ ns2) /\
    same_outside (fun c => pfoot hook l (ns1 ++ a :: ns2) c /\ c <> next_ptr a /\ c <> prev_ptr a) m m'.
Proof using.
  intros Hl. pose proof Hl as [[Hc Hp Ht Hnd] Hcnt _].
  apply chain_app in Hc as [Hc1 [_ Hc]]. apply prevs_app in Hp as [_ [Hpa Hp]].
  pose proof (chain_head _ _ _ _ _ Hc) as Hh. pose proof (chain_last _ _ _ _ _ Hc1) as Hx. cbn [head_ptr] in Hx.
  assert (Hcell : last_cell hook (l, F_first) ns1 = (l, F_first) \/ exists k, k ∈ ns1 /\ last_cell hook (l, F_first) ns1 = next_ptr k)
    by apply last_cell_in_cases.
  assert (Hna : forall k, k ∈ ns1 -> k <> a).
  { apply NoDup_app in Hnd as (_ & Hd & _). intros k Hk ->. apply (Hd a Hk). left. }
  assert (Hs : exists m', remove hook pol l a m = Some (tt, m') /\
    unlinked hook VNull (tail_of pol l) (l, F_first) ns1 a ns2 (fun c => c = (l, F_elements)) m m' /\
    (counted pol = true -> m' !! (l, F_elements) = Some (VInt (u32 (Z.of_nat (length (ns1 ++ a :: ns2)) + -1)))) /\
    m' !! next_ptr a = m !! next_ptr a /\ m' !! prev_ptr a = m !! prev_ptr a).
  { unfold remove, set_last, count_dec, tail_of in *.
    apply NoDup_app in Hnd as (_ & _ & [Hna2 _]%NoDup_cons).
    destruct ns2 as [| k ns2]; [| destruct Hp as [Hp _]; assert (a <> k) by elem_tac]; cbn [head_ptr] in Hh;
      destruct (fast_push_back pol); try specialize (Ht _ eq_refl); destruct (counted pol); try specialize (Hcnt eq_refl);
      destruct Hcell as [E | (j & Hj & E)]; rewrite E in *; try (pose proof (Hna j Hj));
      (eexists; split; [run; reflexivity |
        split; [split; rewrite ?E; [lk | slot_succ | slot_outside] | split_and!; [intros; lk; done | lk | lk]]]). }
  destruct Hs as (m' & R & Hlk & Hc' & Hna' & Hpa'). exists m'. destruct (remove_core hook pol m m' l ns1 a ns2 Hl Hlk Hc') as [H1 H2].
  split_and!; [done | done |]. intros c Hc2. destruct (decide (c = next_ptr a)) as [-> |]; [done |].
  destruct (decide (c = prev_ptr a)) as [-> |]; [done |]. apply H2. tauto.
Qed.

Lemma is_plist_hooked m l ns a : is_plist m l ns -> a ∈ ns -> hooked hook m a.
Proof using.
  intros [[Hc Hp _ _] _ _] Ha. apply list_elem_of_split in Ha as (ns1 & ns2 & ->).
  apply chain_app in Hc as [_ [_ Hc]]. apply prevs_app in Hp as [_ [Hp _]]. apply chain_head in Hc. split; eauto.
Qed.

Lemma pop_front_ok m l ns :
  is_plist m l ns ->
  exists m', pop_front hook pol l m = Some (head_ptr ns VNull, m') /\ is_plist m' l (tail ns) /\
    same_outside (fun c => pfoot hook l ns c /\ forall a, hd_error ns = Some a -> c <> next_ptr a /\ c <> prev_ptr a) m m'.
Proof using.
  intros Hl. pose proof Hl as [[Hc _ _ _] _ _]. apply chain_head in Hc. unfold pop_front, front.
  rewrite (run_load _ _ _ _ Hc). destruct ns as [| a ns]; cbn [head_ptr tail].
  - exists m. rewrite bool_decide_true by done. done.
  - destruct (remove_ok m l [] a ns Hl) as (m' & R & Hr & Hs). exists m'. rewrite bool_decide_false by done.
    cbn [negb]. rewrite run_assoc, run_as_obj, (run_bind _ _ _ _ _ R). split_and!; [done | done |].
    eapply same_outside_mono; [| exact Hs]. intros c [H1 H2]. split; [done |]. by intros ? [= ->].
Qed.

(** Exchanging two lists also redirects the first elements' [prev]. *)
Lemma plist_swap_ok m l r ns1 ns2 :
  fast_push_back pol = false -> is_plist m l ns1 -> is_plist m r ns2 -> l <> r -> NoDup (ns1 ++ ns2) ->
  exists m', swap hook pol l r m = Some (tt, m') /\ is_plist m' l ns2 /\ is_plist m' r ns1.
Proof using.
  intros EF [[Hc1 Hp1 _ Hnd1] Hn1 Hb1] [[Hc2 Hp2 _ Hnd2] Hn2 Hb2] Hlr (_ & Hd & _)%NoDup_app.
  pose proof (chain_head _ _ _ _ _ Hc1) as Hh1. pose proof (chain_head _ _ _ _ _ Hc2) as Hh2.
  assert (Hend : forall m', m' !! (l, F_first) = Some (head_ptr ns2 VNull) -> m' !! (r, F_first) = Some (head_ptr ns1 VNull) ->
    (forall k, hd_error ns2 = Some k -> m' !! prev_ptr k = Some (VAddr (l, F_first))) ->
    (forall k, hd_error ns1 = Some k -> m' !! prev_ptr k = Some (VAddr (r, F_first))) ->
    (forall k, m' !! next_ptr k = m !! next_ptr k) ->
    (forall k, hd_error ns1 <> Some k -> hd_error ns2 <> Some k -> m' !! prev_ptr k = m !! prev_ptr k) ->
    (counted pol = true -> m' !! (l, F_elements) = m !! (r, F_elements) /\ m' !! (r, F_elements) = m !! (l, F_elements)) ->
    is_plist m' l ns2 /\ is_plist m' r ns1).
  { intros m' A1 A2 A3 A4 A5 A6 A7.
    assert (Hprev : forall a b ns, prevs hook m a ns -> NoDup ns ->
      (forall k, k ∈ tail ns -> hd_error ns1 <> Some k /\ hd_error ns2 <> Some k) ->
      (forall k, hd_error ns = Some k -> m' !! prev_ptr k = Some (VAddr b)) -> prevs hook m' b ns).
    { intros a b [| k ns] Hp Hnd Hne Hk; [done |]. destruct Hp as [_ Hp]. split; [by apply Hk |].
      eapply prevs_frame; [| done]. intros j Hj. by apply A6; apply (Hne j Hj). }
    split; (split; [split; [| | unfold tail_of; rewrite EF; done | done] | intros E; destruct (A7 E) as [E1 E2]; rewrite ?E1, ?E2; auto | done]).
    - apply (chain_rebase hook m _ (r, F_first)); [congruence | intros; apply A5 | done].
    - apply (Hprev (r, F_first)); try done. intros k Hk. split.
      + destruct ns1 as [| k1 ns1]; [done |]. intros [= <-]. apply (Hd k1); [left |]. destruct ns2; [done |]. by right.
      + destruct ns2 as [| k2 ns2]; [done |]. intros [= <-]. by apply NoDup_cons in Hnd2 as [? _].
    - apply (chain_rebase hook m _ (l, F_first)); [congruence | intros; apply A5 | done].
    - apply (Hprev (l, F_first)); try done. intros k Hk. split.
      + destruct ns1 as [| k1 ns1]; [done |]. intros [= <-]. by apply NoDup_cons in Hnd1 as [? _].
      + destruct ns2 as [| k2 ns2]; [done |]. intros [= <-]. apply (Hd k2); [| left]. destruct ns1; [done |]. by right. }
  unfold swap, set_last, count_swap. rewrite EF.
  destruct ns1 as [| k1 ns1]; [| destruct Hp1 as [Hp1 _]]; (destruct ns2 as [| k2 ns2]; [| destruct Hp2 as [Hp2 _]]);
    cbn [head_ptr hd_error] in *; try (assert (k1 <> k2) by (intros ->; apply (Hd k2); left));
    destruct (counted pol); try specialize (Hn1 eq_refl); try specialize (Hn2 eq_refl);
    (eexists; split; [run; reflexivity |
      apply Hend; [lk | lk | intros ? [= <-]; lk | intros ? [= <-]; lk | intros; lk; done | | intros; try done; split; lk; congruence ];
      intros k ? ?; repeat (rewrite lookup_insert_ne by (intros [=]; subst; try congruence; tauto)); done ]).
Qed.
End ops.

(** ** Sequences of operations *)

Inductive plist_op := PushFront (a : loc) | PushBack (a : loc) | InsertAfter (pos : option loc) (a : loc) | Remove (a : loc) | PopFront.

Definition opt_ptr (o : option loc) : val := match o with Some a => VObj a | None => VNull end.

Section run.
Variable hook : nat.
Variable pol : policy.
Abbreviation is_plist := (is_plist hook pol).

Definition run_op (l : loc) (op : plist_op) : prog val :=
  match op with
  | PushFront a => push_front hook pol l a;; mret VNull
  | PushBack a => push_back hook pol l a;; mret VNull
  | InsertAfter pos a => insert_after hook pol l (opt_ptr pos) a;; mret VNull
  | Remove a => remove hook pol l a;; mret VNull
  | PopFront => pop_front hook pol l
  end.

Fixpoint run_ops (l : loc) (ops : list plist_op) : prog (list val) :=
  match ops with
  | [] => mret []
  | op :: ops => r ← run_op l op; rs ← run_ops l ops; mret (r :: rs)
  end.

Fixpoint insert_behind (p a : loc) (ns : list loc) : list loc :=
  match ns with
  | [] => []
  | n :: ns => if bool_decide (n = p) then n :: a :: ns else n :: insert_behind p a ns
  end.

(** What the operations mean for the sequence of elements. *)
Definition abs_op (op : plist_op) (ns : list loc) : val * list loc :=
  match op with
  | PushFront a => (VNull, a :: ns)
  | PushBack a => (VNull, ns ++ [a])
  | InsertAfter None a => (VNull, a :: ns)
  | InsertAfter (Some p) a => (VNull, insert_behind p a ns)
  | Remove a => (VNull, filter (fun n => n <> a) ns)
  | PopFront => (head_ptr ns VNull, tail ns)
  end.

(** What the caller owes: an element is put on a list it is not on, and only
    elements on the list are named. *)
Definition op_ok (op : plist_op) (ns : list loc) : Prop :=
  match op with
  | PushFront a => a ∉ ns
  | PushBack a => fast_push_back pol = true /\ a ∉ ns
  | InsertAfter pos a => (a ∉ ns) /\ (forall p, pos = Some p -> p ∈ ns)
  | Remove a => a ∈ ns
  | PopFront => True
  end.

Definition op_elem (op : plist_op) : list loc :=
  match op with PushFront a | PushBack a | InsertAfter _ a | Remove a => [a] | PopFront => [] end.

Fixpoint ops_ok (ops : list plist_op) (ns : list loc) : Prop :=
  match ops with
  | [] => True
  | op :: ops => op_ok op ns /\ ops_ok ops (abs_op op ns).2
  end.

Fixpoint abs_ops (ops : list plist_op) (ns : list loc) : list val * list loc :=
  match ops with
  | [] => ([], ns)
  | op :: ops => let r := abs_op op ns in let rs := abs_ops ops r.2 in (r.1 :: rs.1, rs.2)
  end.

Lemma filter_remove (ns1 : list loc) a ns2 : NoDup (ns1 ++ a :: ns2) -> filter (fun n => n <> a) (ns1 ++ a :: ns2) = ns1 ++ ns2.
Proof using.
  intros (_ & Hd & [Hn _]%NoDup_cons)%NoDup_app. rewrite filter_app, filter_cons_False by (intros H; by apply H).
  f_equal; apply filter_id_on; intros k Hk ->; [apply (Hd a Hk); left | done].
Qed.

Lemma insert_behind_split ns1 p ns2 a : p ∉ ns1 -> insert_behind p a (ns1 ++ p :: ns2) = ns1 ++ p :: a :: ns2.
Proof using.
  induction ns1 as [| n ns1 IH]; intros Hp; cbn [app insert_behind]; [by rewrite bool_decide_true |].
  rewrite bool_decide_false by elem_tac. rewrite IH by elem_tac. done.
Qed.

(** The elements around: those the operations name keep their members. *)
Lemma plist_run_op_ok m l ns op (U : list loc) :
  is_plist m l ns -> op_ok op ns -> (forall a, a ∈ U -> hooked hook m a) -> op_elem op ⊆ U ->
  Z.of_nat (S (length ns)) < 2 ^ 32 ->
  exists m', run_op l op m = Some ((abs_op op ns).1, m') /\ is_plist m' l (abs_op op ns).2 /\
    same_outside (pfoot hook l (op_elem op ++ ns)) m m' /\ (forall a, a ∈ U -> hooked hook m' a).
Proof using.
  intros Hl Hok HU Hsub Hb.
  assert (Hkeep : forall m' ns' (P : loc -> Prop), is_plist m' l ns' ->
    same_outside (fun c => pfoot hook l (op_elem op ++ ns) c /\ forall a, P a -> c <> next_ptr hook a /\ c <> prev_ptr hook a) m m' ->
    (forall a, a ∈ op_elem op ++ ns -> a ∈ ns' \/ P a) ->
    (forall a, a ∈ U -> hooked hook m' a)).
  { intros m' ns' P Hl' Hs Hp a Ha. destruct (decide (a ∈ ns')) as [Hin |]; [by eapply is_plist_hooked |].
    destruct (HU a Ha) as [H1 H2]. unfold hooked. rewrite !Hs; [done | |].
    - intros [Hf HP]. destruct (decide (a ∈ op_elem op ++ ns)) as [Hin | Hnin].
      + destruct (Hp a Hin) as [? | HPa]; [done |]. destruct (HP a HPa). done.
      + destruct Hf as [? | [? | [? | (k & Hk & [[= ->] | [= ->]])]]]; done.
    - intros [Hf HP]. destruct (decide (a ∈ op_elem op ++ ns)) as [Hin | Hnin].
      + destruct (Hp a Hin) as [? | HPa]; [done |]. destruct (HP a HPa). done.
      + destruct Hf as [? | [? | [? | (k & Hk & [[= ->] | [= ->]])]]]; done. }
  assert (Hnone : forall m', same_outside (pfoot hook l (op_elem op ++ ns)) m m' ->
    same_outside (fun c => pfoot hook l (op_elem op ++ ns) c /\ forall a, False -> c <> next_ptr hook a /\ c <> prev_ptr hook a) m m').
  { intros m' Hs. eapply same_outside_mono; [| exact Hs]. tauto. }
  destruct op as [a | a | [p |] a | a |]; cbn [run_op abs_op op_ok op_elem fst snd opt_ptr app] in *.
  - destruct (plist_push_front_ok hook pol m l ns a) as (m' & R & Hr & Hs); try done; [apply HU; set_solver |].
    exists m'. rewrite (run_bind _ _ _ _ _ R). split_and!; [done | done | done |]. eapply Hkeep; [done | by apply Hnone |]. tauto.
  - destruct Hok as [EF Ha]. destruct (plist_push_back_ok hook pol m l ns a) as (m' & R & Hr & Hs); try done; [apply HU; set_solver |].
    exists m'. rewrite (run_bind _ _ _ _ _ R). split_and!; [done | done | done |]. eapply Hkeep; [done | by apply Hnone |].
    intros b Hb'. left. elem_tac.
  - destruct Hok as [Ha Hp]. specialize (Hp p eq_refl). apply list_elem_of_split in Hp as (ns1 & ns2 & ->).
    assert (Hp : p ∉ ns1) by (destruct Hl as [[_ _ _ (_ & Hd & _)%NoDup_app] _ _]; intros H; apply (Hd p H); left).
    destruct (insert_after_ok hook pol m l ns1 p ns2 a) as (m' & R & Hr & Hs); try done; [apply HU; set_solver |].
    exists m'. rewrite (run_bind _ _ _ _ _ R), insert_behind_split by done. split_and!; [done | done | done |].
    eapply Hkeep; [done | by apply Hnone |]. intros b Hb'. left. elem_tac.
  - destruct Hok as [Ha _]. destruct (plist_push_front_ok hook pol m l ns a) as (m' & R & Hr & Hs); try done; [apply HU; set_solver |].
    exists m'. unfold insert_after. rewrite bool_decide_true by done. rewrite (run_bind _ _ _ _ _ R). split_and!; [done | done | done |].
    eapply Hkeep; [done | by apply Hnone |]. tauto.
  - apply list_elem_of_split in Hok as (ns1 & ns2 & ->).
    destruct (remove_ok hook pol m l ns1 a ns2 Hl) as (m' & R & Hr & Hs). pose proof Hl as [[_ _ _ Hnd] _ _].
    exists m'. rewrite (run_bind _ _ _ _ _ R), filter_remove by done. split_and!; [done | done | |].
    + eapply same_outside_mono; [| exact Hs]. intros c [[? | [? | [? | (k & Hk & ?)]]] _]; unfold pfoot; try tauto.
      right; right; right. exists k. split; [by right | done].
    + eapply (Hkeep m' _ (fun b => b = a)); [done | |].
      * eapply same_outside_mono; [| exact Hs]. intros c [[? | [? | [? | (k & Hk & ?)]]] [? ?]]; unfold pfoot; (split; [| by intros ? ->]); try tauto.
        right; right; right. exists k. split; [by right | done].
      * intros b Hb'. elem_tac.
  - destruct (pop_front_ok hook pol m l ns Hl) as (m' & R & Hr & Hs). exists m'. split_and!; [done | done | |].
    + eapply same_outside_mono; [| exact Hs]. by intros c [? _].
    + eapply (Hkeep m' _ (fun b => hd_error ns = Some b)); [done | done |]. intros b Hb'.
      destruct ns as [| k ns]; [by apply elem_of_nil in Hb' |]. apply elem_of_cons in Hb' as [-> | ?]; [by right | by left].
Qed.

Lemma abs_op_subset op ns U : op_elem op ⊆ U -> ns ⊆ U -> (abs_op op ns).2 ⊆ U.
Proof using.
  intros H1 H2. destruct op as [a | a | [p |] a | a |]; cbn [abs_op snd op_elem] in *; try set_solver.
  - intros x Hx. assert (Hi : x = a \/ x ∈ ns); [| set_solver]. revert Hx. clear. induction ns as [| n ns IH]; cbn [insert_behind]; [tauto |].
    case_bool_decide; intros Hx; elem_norm; tauto.
  - intros x [_ Hx]%list_elem_of_filter. by apply H2.
  - destruct ns; set_solver.
Qed.

Lemma abs_op_length op ns : (length (abs_op op ns).2 <= S (length ns))%nat.
Proof using.
  destruct op as [a | a | [p |] a | a |]; cbn [abs_op snd]; rewrite ?length_app; cbn [length]; try lia.
  - induction ns as [| n ns IH]; cbn [insert_behind length]; [lia |]. case_bool_decide; cbn [length]; lia.
  - pose proof (length_filter (fun n => n <> a) ns). lia.
  - destruct ns; cbn; lia.
Qed.
End run.

(** C23: For every adapter (choice of link members) and every policy, any
    sequence of [push_front], [push_back], [insert_after], [remove] and
    [pop_front] whose caller keeps the rules (an element is put only on a list it
    is not on) does to the linked elements what it does to the sequence of
    elements; counter and last pointer, where the policy has them, stay right;
    and an element of another list linked through other members keeps its place
    there, although it is the same object. *)
Theorem plist_ops_refine (hook hook2 : nat) (pol pol2 : policy) (l r : loc) (U ns2 : list loc) (ops : list plist_op) :
  forall m ns,
  is_plist hook pol m l ns -> ops_ok pol ops ns -> (forall a, a ∈ U -> hooked hook m a) -> ns ⊆ U ->
  Forall (fun op => op_elem op ⊆ U) ops -> Z.of_nat (length ns + length ops) < 2 ^ 32 ->
  hook <> hook2 -> l <> r -> is_plist hook2 pol2 m r ns2 ->
  exists m', run_ops hook pol l ops m = Some ((abs_ops ops ns).1, m') /\ is_plist hook pol m' l (abs_ops ops ns).2 /\
    same_outside (pfoot hook l U) m m' /\ is_plist hook2 pol2 m' r ns2.
Proof.
  induction ops as [| op ops IH]; intros m ns Hl Hok HU Hns Hops Hb Hh Hlr Hr.
  { exists m. done. }
  destruct Hok as [Hok Hoks]. apply Forall_cons in Hops as [Hop Hops]. cbn [length] in Hb.
  destruct (plist_run_op_ok hook pol m l ns op U) as (m1 & R1 & Hl1 & Hs1 & HU1); try done; [lia |].
  assert (Hs1' : same_outside (pfoot hook l U) m m1).
  { eapply same_outside_mono; [| exact Hs1]. intros c [? | [? | [? | (k & Hk & ?)]]]; unfold pfoot; try tauto.
    right; right; right. exists k. split; [| done]. apply elem_of_app in Hk as [? | ?]; auto. }
  destruct (IH m1 (abs_op op ns).2) as (m2 & R2 & Hl2 & Hs2 & Hr2); try done.
  - by apply abs_op_subset.
  - pose proof (abs_op_length op ns). lia.
  - eapply is_plist_frame; [| exact Hr]. intros c Hc. apply Hs1'.
    intros [-> | [-> | [-> | (k & _ & [-> | ->])]]]; destruct Hc as [E | [E | [E | (j & _ & [E | E])]]]; unfold next_ptr, prev_ptr in *; congruence.
  - exists m2. cbn [run_ops abs_ops fst snd]. rewrite (run_bind _ _ _ _ _ R1), (run_bind _ _ _ _ _ R2).
    split_and!; [done | done | by etrans | done].
Qed.

(** A store for the witnesses: elements 4 and 5 on list 2 through hook 0, element
    4 also on list 3 through hook 1, element 6 on no list. *)
Definition demo_mem : mem := list_to_map
  [((2%positive, F_first), VObj 4); ((2%positive, F_last), VAddr (5%positive, F_next 0)); ((2%positive, F_elements), VInt 2);
   ((4%positive, F_next 0), VObj 5); ((4%positive, F_prev 0), VAddr (2%positive, F_first));
   ((5%positive, F_next 0), VNull); ((5%positive, F_prev 0), VAddr (4%positive, F_next 0));
   ((6%positive, F_next 0), VNull); ((6%positive, F_prev 0), VNull);
   ((3%positive, F_first), VObj 4); ((4%positive, F_next 1), VNull); ((4%positive, F_prev 1), VAddr (3%positive, F_first))].

Definition full : policy := Policy true true.
Definition plain : policy := Policy false false.

Lemma plist_demo_lists : is_plist 0 full demo_mem 2 [4%positive; 5%positive] /\ is_plist 1 plain demo_mem 3 [4%positive].
Proof.
  split; (split; [split | intros; reflexivity || done | reflexivity]); try (by vm_compute);
    try (intros c [= <-]; by vm_compute); try done; apply (bool_decide_unpack _); by vm_compute.
Qed.

Lemma demo_hooked a : a ∈ [4%positive; 5%positive; 6%positive] -> hooked 0 demo_mem a.
Proof. rewrite !elem_of_cons, elem_of_nil. intros [-> | [-> | [-> | []]]]; split; eexists; reflexivity. Qed.

Lemma plist_ops_refine_witness :
  let ops := [Remove 4; PushBack 6; InsertAfter (Some 5%positive) 4; PopFront] in
  abs_ops ops [4%positive; 5%positive] = ([VNull; VNull; VNull; VObj 5], [4%positive; 6%positive]) /\
  exists m', run_ops 0 full 2 ops demo_mem = Some ((abs_ops ops [4%positive; 5%positive]).1, m') /\
    is_plist 0 full m' 2 (abs_ops ops [4%positive; 5%positive]).2 /\
    same_outside (pfoot 0 2 [4%positive; 5%positive; 6%positive]) demo_mem m' /\ is_plist 1 plain m' 3 [4%positive].
Proof.
  intros ops. split; [by vm_compute |].
  apply (plist_ops_refine 0 1 full plain 2 3 [4%positive; 5%positive; 6%positive] [4%positive] ops demo_mem [4%positive; 5%positive]).
  - apply plist_demo_lists.
  - split; [| split; [split; [done |] | split; [split; [| intros p [= <-]] | split; done]]];
      cbn [op_ok]; apply (bool_decide_unpack _); by vm_compute.
  - apply demo_hooked.
  - intros x Hx. elem_tac.
  - unfold ops. repeat (apply Forall_cons_2; [intros x Hx; cbn [op_elem] in Hx; elem_tac |]). apply Forall_nil_2.
  - reflexivity.
  - done.
  - done.
  - apply plist_demo_lists.
Defined.

(** ** Removing while iterating *)

Section sweep.
Variable hook : nat.
Variable pol : policy.

(** [while ((e= it++)) if (p(e)) list.remove(e);] *)
Fixpoint sweep (fuel : nat) (p : loc -> bool) (l : loc) (current : val) : prog unit :=
  match fuel with
  | O => undefined
  | S fuel =>
    '(e, current) ← iter_next hook current;
    if ptr_eqb e VNull then mret tt else
    a ← as_obj e;
    (if p a then remove hook pol l a else mret tt);;
    sweep fuel p l current
  end.

Lemma sweep_ok l p todo : forall m seen fuel,
  is_plist hook pol m l (seen ++ todo) -> (length todo < fuel)%nat ->
  exists m', sweep fuel p l (head_ptr todo VNull) m = Some (tt, m') /\
    is_plist hook pol m' l (seen ++ filter (fun a => p a = false) todo).
Proof using.
  induction todo as [| a todo IH]; intros m seen fuel Hl Hf; (destruct fuel as [| fuel]; [lia |]); cbn [head_ptr sweep].
  - exists m. split; [| done]. unfold iter_next. run. done.
  - pose proof Hl as [[Hc _ _ _] _ _]. apply chain_app in Hc as [_ [_ Hc]]. apply chain_head in Hc.
    assert (R : iter_next hook (VObj a) m = Some ((VObj a, head_ptr todo VNull), m)) by (unfold iter_next; run; done).
    rewrite (run_bind _ _ _ _ _ R), bool_decide_false, run_as_obj by done. rewrite filter_cons. destruct (p a) eqn:E.
    + destruct (remove_ok hook pol m l seen a todo Hl) as (m1 & R1 & Hl1 & _).
      rewrite (run_bind _ _ _ _ _ R1). apply IH; [done | cbn in Hf; lia].
    + rewrite run_ret. destruct (IH m (seen ++ [a]) fuel) as (m1 & R1 & Hl1); [by rewrite <- app_assoc | cbn in Hf; lia |].
      exists m1. split; [done |]. by rewrite <- app_assoc in Hl1.
Qed.
End sweep.

(** Because the iterator has already read the next element, removing the
    element [it++] just returned does not disturb it: one loop removes exactly
    the elements chosen and keeps the others in order. *)
Theorem plist_sweep_filters (hook : nat) (pol : policy) (m : mem) (l : loc) (ns : list loc) (p : loc -> bool) (fuel : nat) :
  is_plist hook pol m l ns -> (length ns < fuel)%nat ->
  exists m', (c ← iter_init l; sweep hook pol fuel p l c) m = Some (tt, m') /\
    is_plist hook pol m' l (filter (fun a => p a = false) ns).
Proof.
  intros Hl Hf. pose proof Hl as [[Hc _ _ _] _ _]. unfold iter_init. rewrite (run_load _ _ _ _ (chain_head _ _ _ _ _ Hc)).
  by apply (sweep_ok hook pol l p ns m []).
Qed.

Lemma plist_sweep_filters_witness :
  exists m', (c ← iter_init 2; sweep 0 full 3 (fun a => Pos.eqb a 4) 2 c) demo_mem = Some (tt, m') /\
    is_plist 0 full m' 2 (filter (fun a => Pos.eqb a 4 = false) [4%positive; 5%positive]).
Proof.
  apply (plist_sweep_filters 0 full demo_mem 2 [4%positive; 5%positive] (fun a => Pos.eqb a 4) 3); [apply plist_demo_lists | cbn; lia].
Defined.
