(* ===== verification/IList.v ===== *)
(** * IList: the self-unlinking intrusive list and the embedded list (sql_list.h)

    [ilink] elements unlink themselves (also in their destructor); [base_ilist]
    holds the first pointer and a sentinel [ilink] whose [prev] is the address of
    the last pointer.  [SQL_I_List] is the older list of structures that carry
    their own next pointer. *)

From stdpp Require Import base numbers option gmap list.
From Stdlib Require Import ZArith Lia.
From S2P Require Import Prelude Heap DList.

Local Open Scope Z_scope.

Abbreviation next n := (n%positive, F_next 0).
Abbreviation prev n := (n%positive, F_prev 0).

(** ** [ilink] and [base_ilist] *)

Module Ilist.

(** The list object is [l]; [s] is the address of its member [last]. *)
Section code.
Variables l s : loc.

(* [sql_list.h:692-698 unlink] *)
Definition unlink (n : loc) : prog unit :=
p ← load (prev n);
(if negb (ptr_eqb p VNull) then (c ← as_addr p; x ← load (next n); store c x) else mret tt);;
x ← load (next n);
(if negb (ptr_eqb x VNull) then (k ← as_obj x; p ← load (prev n); store (prev k) p) else mret tt);;
store (prev n) VNull;; store (next n) VNull.

(* [sql_list.h:741-741 empty] *)
Definition empty : prog unit := store (l, F_first) (VObj s);; store (prev s) (VAddr (l, F_first)).

(* [sql_list.h:743-743 is_empty] *)
Definition is_empty : prog bool := f ← load (l, F_first); mret (ptr_eqb f (VObj s)).

(* [sql_list.h:746-746 is_last] *)
Definition is_last (p : loc) : prog bool :=
x ← load (next p); mret (ptr_eqb x VNull || ptr_eqb x (VObj s)).

(* [sql_list.h:747-751 append] *)
Definition append (a : loc) : prog unit :=
f ← load (l, F_first); k ← as_obj f; store (prev k) (VAddr (next a));;
f ← load (l, F_first); store (next a) f;;
store (prev a) (VAddr (l, F_first));;
store (l, F_first) (VObj a).

(* [sql_list.h:752-758 push_back] *)
Definition push_back (a : loc) : prog unit :=
p ← load (prev s); c ← as_addr p; store c (VObj a);;
store (next a) (VObj s);;
p ← load (prev s); store (prev a) p;;
store (prev s) (VAddr (next a)).

(* [sql_list.h:759-766 get] *)
Definition get : prog val :=
f ← load (l, F_first);
if ptr_eqb f (VObj s) then mret VNull else
n ← as_obj f; unlink n;; mret f.

(* [sql_list.h:767-770 head] *)
Definition head : prog val :=
f ← load (l, F_first); mret (if negb (ptr_eqb f (VObj s)) then f else VNull).

(** The iterator is the address of the pointer to follow; [next] also returns
  the new one. *)
(* [sql_list.h:806-813 next] *)
Definition iter_next (el : addr) : prog (val * addr) :=
current ← load el;
if ptr_eqb current (VObj s) then mret (VNull, el) else
n ← as_obj current; mret (current, next n).
End code.

(* [sql_list.h:779-785 move_elements_to] *)
Definition move_elements_to (l s : loc) (l' s' : loc) : prog unit :=
f ← load (l, F_first); store (l', F_first) f;;
p ← load (prev s); store (prev s') p;; x ← load (next s); store (next s') x;;
empty l s.

(** *** Representation *)

Record is_ilist (m : mem) (l s : loc) (ns : list loc) : Prop := {
il_list : dlist 0 (VObj s) (Some (prev s)) m (l, F_first) ns;
il_sentinel : s ∉ ns
}.

Definition unlinked_elem (m : mem) (a : loc) : Prop := is_Some (m !! next a) /\ is_Some (m !! prev a).

Lemma apart_ilist l s n : n <> s -> apart 0 (l, F_first) (Some (prev s)) n.
Proof. intros. unfold apart. split_and!; congruence. Qed.

Lemma ilist_linked m m' l s ns1 a ns2 :
is_ilist m l s (ns1 ++ ns2) -> (a ∉ ns1 ++ ns2) -> a <> s ->
linked 0 (VObj s) (Some (prev s)) (l, F_first) ns1 a ns2 (fun _ => False) m m' -> is_ilist m' l s (ns1 ++ a :: ns2).
Proof.
intros [Hl Hs] Ha Has Hlk. split; [| elem_tac]. eapply linked_dlist; try done; [| tauto].
intros k Hk. apply apart_ilist. intros ->. elem_tac.
Qed.

Lemma ilist_append_ok m l s ns a :
is_ilist m l s ns -> a ∉ ns -> a <> s -> unlinked_elem m a ->
exists m', append l a m = Some (tt, m') /\ is_ilist m' l s (a :: ns).
Proof.
intros Hl Ha Has [[v1 H1] [v2 H2]]. pose proof Hl as [[Hc Hp Ht _] Hs]. pose proof (chain_head _ _ _ _ _ Hc) as Hh.
specialize (Ht _ eq_refl).
assert (Hr : exists m', append l a m = Some (tt, m') /\
  linked 0 (VObj s) (Some (prev s)) (l, F_first) [] a ns (fun _ => False) m m').
{ destruct ns as [| k ns]; [| destruct Hp as [Hp _]; assert (a <> k) by elem_tac]; cbn [head_ptr] in Hh;
    (eexists; split; [unfold append; run; reflexivity |]; split;
     [lk | lk | lk | intros ? [= <-]; lk | repeat (apply same_outside_insert; [cbn [prev_slot last_cell last]; tauto |]); done]). }
destruct Hr as (m' & R & Hlk). exists m'. split; [done |]. by apply (ilist_linked m m' l s [] a ns).
Qed.

Lemma ilist_push_back_ok m l s ns a :
is_ilist m l s ns -> a ∉ ns -> a <> s -> unlinked_elem m a ->
exists m', push_back s a m = Some (tt, m') /\ is_ilist m' l s (ns ++ [a]).
Proof.
intros Hl Ha Has [[v1 H1] [v2 H2]]. pose proof Hl as [[Hc Hp Ht _] Hs]. pose proof (chain_last _ _ _ _ _ Hc) as Hh.
specialize (Ht _ eq_refl).
assert (Hr : exists m', push_back s a m = Some (tt, m') /\
  linked 0 (VObj s) (Some (prev s)) (l, F_first) ns a [] (fun _ => False) m m').
{ destruct ns as [| k ns _] using rev_ind; [| rewrite last_cell_snoc in *; assert (a <> k) by elem_tac];
    (eexists; split; [unfold push_back; run; reflexivity |]; split; rewrite ?last_cell_snoc;
     [lk | lk | lk | intros ? [= <-]; lk | repeat (apply same_outside_insert; [cbn [prev_slot last_cell last]; tauto |]); done]). }
destruct Hr as (m' & R & Hlk). exists m'. split; [done |].
apply (ilist_linked m m' l s ns a []); rewrite ?app_nil_r; done.
Qed.

Lemma unlink_ok m l s ns1 n ns2 :
is_ilist m l s (ns1 ++ n :: ns2) ->
exists m', unlink n m = Some (tt, m') /\ is_ilist m' l s (ns1 ++ ns2) /\ m' !! next n = Some VNull /\ m' !! prev n = Some VNull.
Proof.
intros Hl. pose proof Hl as [[Hc Hp Ht Hnd] Hs]. apply chain_app in Hc as [Hc1 [_ Hc2]]. apply prevs_app in Hp as [_ [Hpn Hp]].
pose proof (chain_head _ _ _ _ _ Hc2) as Hh. pose proof (chain_last _ _ _ _ _ Hc1) as Hx. cbn [head_ptr] in Hx.
specialize (Ht _ eq_refl). pose proof Hnd as (_ & Hd & [Hn2 _]%NoDup_cons)%NoDup_app.
assert (Hns : n <> s) by elem_tac.
assert (Hna : forall k, k ∈ ns1 -> k <> n) by (intros k Hk ->; apply (Hd n Hk); left).
assert (Hr : exists m', unlink n m = Some (tt, m') /\
  unlinked 0 (VObj s) (Some (prev s)) (l, F_first) ns1 n ns2 (fun _ => False) m m' /\ m' !! next n = Some VNull /\ m' !! prev n = Some VNull).
{ pose proof (last_cell_in_cases 0 (l, F_first) ns1) as Hcell.
  destruct ns2 as [| k ns2]; [| destruct Hp as [Hp _]; assert (n <> k) by elem_tac]; cbn [head_ptr] in Hh;
    destruct Hcell as [E | (j & Hj & E)]; rewrite E in *; try (pose proof (Hna j Hj));
    (eexists; split; [unfold unlink; run; reflexivity |]; split_and!; [split; rewrite ?E;
     [lk | intros ? [= <-]; lk | repeat (apply same_outside_insert; [cbn [prev_slot]; tauto |]); done] | lk | lk]). }
destruct Hr as (m' & R & Hlk & Hz). exists m'. split_and!; [done | | apply Hz | apply Hz].
destruct Hl as [Hl _]. split; [| elem_tac]. eapply unlinked_dlist; try done; [| tauto].
intros k Hk. apply apart_ilist. intros ->. elem_tac.
Qed.

Lemma get_ok m l s ns :
is_ilist m l s ns -> exists m', get l s m = Some (head_ptr ns VNull, m') /\ is_ilist m' l s (tail ns).
Proof.
intros Hl. pose proof Hl as [[Hc _ _ _] Hs]. apply chain_head in Hc. unfold get. rewrite (run_load _ _ _ _ Hc).
destruct ns as [| n ns]; cbn [head_ptr tail].
- exists m. by rewrite bool_decide_true.
- destruct (unlink_ok m l s [] n ns Hl) as (m' & R & Hr & _). exists m'.
  rewrite bool_decide_false by (intros [= ->]; apply Hs; left). rewrite run_as_obj, (run_bind _ _ _ _ _ R). done.
Qed.

(** [k] calls of the iterator's [next]. *)
Fixpoint collect (s : loc) (k : nat) (el : addr) : prog (list val * addr) :=
match k with
| O => mret ([], el)
| S k => '(x, el) ← iter_next s el; '(xs, el) ← collect s k el; mret (x :: xs, el)
end.

Lemma ilist_collect_chain m s e ns : forall a, chain 0 m a ns e -> s ∉ ns ->
collect s (length ns) a m = Some ((VObj <$> ns, last_cell 0 a ns), m).
Proof.
induction ns as [| n ns IH]; intros a Hc Hs; [done |]. destruct Hc as [Hc1 Hc2]. cbn [collect length fmap list_fmap].
assert (R : iter_next s a m = Some ((VObj n, next n), m)).
{ unfold iter_next. rewrite (run_load _ _ _ _ Hc1), bool_decide_false by (intros [= ->]; apply Hs; left). done. }
rewrite (run_bind _ _ _ _ _ R), (run_bind _ _ _ _ _ (IH _ Hc2 ltac:(elem_tac))). by rewrite last_cell_cons.
Qed.

(** On a well-formed [base_ilist]: [append] puts an element first,
  [push_back] last, [get] takes the first (NULL when there is none), and any
  element can unlink itself without knowing the list, after which its own
  pointers are NULL, so a second [unlink] (the destructor's) does nothing. *)
Theorem ilist_ops_refine (m : mem) (l s : loc) (ns ns1 ns2 : list loc) (a : loc) :
is_ilist m l s ns -> a ∉ ns -> a <> s -> unlinked_elem m a ->
(exists m', append l a m = Some (tt, m') /\ is_ilist m' l s (a :: ns)) /\
(exists m', push_back s a m = Some (tt, m') /\ is_ilist m' l s (ns ++ [a])) /\
(exists m', get l s m = Some (head_ptr ns VNull, m') /\ is_ilist m' l s (tail ns)) /\
(forall n, ns = ns1 ++ n :: ns2 ->
   exists m', unlink n m = Some (tt, m') /\ is_ilist m' l s (ns1 ++ ns2) /\ unlink n m' = Some (tt, m')).
Proof.
intros Hl Ha Has Hu. split_and!.
- by apply ilist_append_ok.
- by apply ilist_push_back_ok.
- by apply get_ok.
- intros n ->. destruct (unlink_ok m l s ns1 n ns2 Hl) as (m' & R & Hr & H1 & H2). exists m'. split_and!; [done | done |].
  unfold unlink. run. rewrite !insert_id by lk. done.
Qed.

(** A store for the witnesses: elements 6, 7 on the list 2 with sentinel 3; the
  list 4 with sentinel 5 is empty; element 8 is on no list. *)
Definition demo_mem : mem := list_to_map
[((2%positive, F_first), VObj 6); (next 6, VObj 7); (prev 6, VAddr (2%positive, F_first)); (next 7, VObj 3); (prev 7, VAddr (next 6));
 (next 3, VNull); (prev 3, VAddr (next 7)); ((4%positive, F_first), VObj 5); (next 5, VNull); (prev 5, VAddr (4%positive, F_first));
 (next 8, VNull); (prev 8, VNull)].

Lemma demo_ilists : is_ilist demo_mem 2 3 [6%positive; 7%positive] /\ is_ilist demo_mem 4 5 [].
Proof.
split; (split; [split |]); try (by vm_compute); try (intros c [= <-]; by vm_compute); apply (bool_decide_unpack _); by vm_compute.
Qed.

Lemma ilist_ops_refine_witness :
(exists m', append 2 8 demo_mem = Some (tt, m') /\ is_ilist m' 2 3 [8%positive; 6%positive; 7%positive]) /\
(exists m', push_back 3 8 demo_mem = Some (tt, m') /\ is_ilist m' 2 3 [6%positive; 7%positive; 8%positive]) /\
(exists m', get 2 3 demo_mem = Some (VObj 6, m') /\ is_ilist m' 2 3 [7%positive]) /\
(forall n, [6%positive; 7%positive] = [6%positive] ++ n :: [] ->
   exists m', unlink n demo_mem = Some (tt, m') /\ is_ilist m' 2 3 [6%positive] /\ unlink n m' = Some (tt, m')).
Proof.
apply (ilist_ops_refine demo_mem 2 3 [6%positive; 7%positive] [6%positive] [] 8).
- apply demo_ilists.
- apply (bool_decide_unpack _); by vm_compute.
- done.
- split; eexists; reflexivity.
Defined.

(** [move_elements_to] does not deliver the elements to a usable owner: the
  chain still ends in the {e old} owner's sentinel, which the new owner does not
  recognise.  The old list is empty as promised, but the new one never looks
  empty, and its iterator returns the moved elements followed by the old
  sentinel as if it were an element. *)
Theorem move_elements_to_keeps_old_sentinel (m : mem) (l s l' s' : loc) (ns : list loc) :
is_ilist m l s ns -> is_ilist m l' s' [] -> is_Some (m !! next s) -> is_Some (m !! next s') ->
l <> l' -> s <> s' -> s' ∉ ns ->
exists m', move_elements_to l s l' s' m = Some (tt, m') /\ is_ilist m' l s [] /\
  is_empty l' s' m' = Some (false, m') /\
  exists el, collect s' (S (length ns)) (l', F_first) m' = Some ((VObj <$> ns ++ [s], el), m').
Proof.
intros [[Hc Hp Ht Hnd] Hs] [[Hc' _ Ht' _] _] [v Hv] [v' Hv'] Hll Hss Hsn. cbn [chain] in Hc'.
specialize (Ht _ eq_refl). specialize (Ht' _ eq_refl). pose proof (chain_head _ _ _ _ _ Hc) as Hh.
eexists. split; [unfold move_elements_to, empty; run; reflexivity |]. split_and!.
- split; [| apply not_elem_of_nil]. split; [cbn [chain]; lk | done | intros c [= <-]; cbn [last_cell last]; lk | constructor].
- unfold is_empty. run. rewrite bool_decide_false; [done |]. destruct ns as [| n ns]; cbn [head_ptr]; [congruence |].
  intros [= ->]. apply Hsn. left.
- set (m' := <[prev s := VAddr (l, F_first)]> _).
  assert (Hc2 : chain 0 m' (l', F_first) ns (VObj s)).
  { apply (chain_rebase 0 m _ (l, F_first)); [unfold m'; rewrite Hh; lk | | done].
    intros n Hn. assert (n <> s') by congruence. unfold m'. lk. }
  assert (R : iter_next s' (last_cell 0 (l', F_first) ns) m' = Some ((VObj s, next s), m')).
  { unfold iter_next. rewrite (run_load _ _ _ _ (chain_last _ _ _ _ _ Hc2)), bool_decide_false by congruence. done. }
  exists (next s). clearbody m'. clear - Hc2 R Hsn. revert Hc2 R. generalize (l', F_first).
  induction ns as [| n ns IH]; intros a Hc R.
  + cbn [collect length app fmap list_fmap]. cbn [last_cell last] in R. by rewrite (run_bind _ _ _ _ _ R).
  + destruct Hc as [Hc1 Hc2]. rewrite last_cell_cons in R. cbn [length app fmap list_fmap].
    assert (R1 : iter_next s' a m' = Some ((VObj n, next n), m')).
    { unfold iter_next. rewrite (run_load _ _ _ _ Hc1), bool_decide_false by (intros [= ->]; apply Hsn; left). done. }
    change (collect s' (S (S (length ns))) a) with ('(x, el) ← iter_next s' a; '(xs, el) ← collect s' (S (length ns)) el; mret (x :: xs, el)).
    rewrite (run_bind _ _ _ _ _ R1), (run_bind _ _ _ _ _ (IH ltac:(elem_tac) _ Hc2 R)). done.
Qed.

Lemma move_elements_to_keeps_old_sentinel_witness :
exists m', move_elements_to 2 3 4 5 demo_mem = Some (tt, m') /\ is_ilist m' 2 3 [] /\
  is_empty 4 5 m' = Some (false, m') /\
  exists el, collect 5 3 (4%positive, F_first) m' = Some (([VObj 6; VObj 7; VObj 3], el), m').
Proof.
apply (move_elements_to_keeps_old_sentinel demo_mem 2 3 4 5 [6%positive; 7%positive]); try done.
- apply demo_ilists.
- apply demo_ilists.
- apply (bool_decide_unpack _); by vm_compute.
Defined.

End Ilist.

(** ** [SQL_I_List] *)

Module SqlIList.

(* [sql_list.h:61-66 empty] *)
Definition empty (l : loc) : prog unit :=
store (l, F_elements) (VInt 0);; store (l, F_first) VNull;; store (l, F_last) (VAddr (l, F_first)).

(* [sql_list.h:46-51 SQL_I_List] *)
Definition copy_construct (l tmp : loc) : prog unit :=
e ← load (tmp, F_elements); store (l, F_elements) e;;
f ← load (tmp, F_first); store (l, F_first) f;;
e ← load (l, F_elements); e ← as_int e;
if negb (e =? 0) then (p ← load (tmp, F_last); store (l, F_last) p) else store (l, F_last) (VAddr (l, F_first)).

(* [sql_list.h:53-59 operator=] *)
Definition assign (l tmp : loc) : prog unit :=
e ← load (tmp, F_elements); store (l, F_elements) e;;
f ← load (tmp, F_first); store (l, F_first) f;;
p ← load (tmp, F_last); store (l, F_last) p.

(* [sql_list.h:68-74 link_in_list] *)
Definition link_in_list (l element : loc) (next_ptr : addr) : prog unit :=
add_elements l 1;;
p ← load (l, F_last); a ← as_addr p; store a (VObj element);;
store (l, F_last) (VAddr next_ptr);;
p ← load (l, F_last); a ← as_addr p; store a VNull.

(* [sql_list.h:76-80 save_and_clear] *)
Definition save_and_clear (l save : loc) : prog unit := assign save l;; empty l.

(* [sql_list.h:82-88 push_front] *)
Definition push_front (l save : loc) : prog unit :=
p ← load (save, F_last); a ← as_addr p; f ← load (l, F_first); store a f;;
f ← load (save, F_first); store (l, F_first) f;;
e ← load (save, F_elements); e ← as_int e; add_elements l e;; mret tt.

(* [sql_list.h:90-98 push_back] *)
Definition push_back (l save : loc) : prog unit :=
f ← load (save, F_first);
if negb (ptr_eqb f VNull) then
  p ← load (l, F_last); a ← as_addr p; store a f;;
  q ← load (save, F_last); store (l, F_last) q;;
  e ← load (save, F_elements); e ← as_int e; add_elements l e;; mret tt
else mret tt.

Record is_list (m : mem) (l : loc) (ns : list loc) : Prop := {
sl_chain : chain 0 m (l, F_first) ns VNull;
sl_next : m !! (l, F_last) = Some (VAddr (last_cell 0 (l, F_first) ns));
sl_elements : m !! (l, F_elements) = Some (VInt (Z.of_nat (length ns)));
sl_nodup : NoDup ns;
sl_bound : Z.of_nat (length ns) < 2 ^ 32
}.

Lemma last_cell_shape l ns : last_cell 0 (l, F_first) ns = (l, F_first) \/ exists k, k ∈ ns /\ last_cell 0 (l, F_first) ns = next k.
Proof. pose proof (last_cell_in 0 (l, F_first) ns) as [H | H]%elem_of_cells; eauto. Qed.

Lemma cells_nodup l ns : NoDup ns -> NoDup (cells 0 (l, F_first) ns).
Proof. intros. apply NoDup_cells; [done | congruence]. Qed.

Lemma link_in_list_ok m l ns a :
is_list m l ns -> a ∉ ns -> is_Some (m !! next a) -> Z.of_nat (S (length ns)) < 2 ^ 32 ->
exists m', link_in_list l a (next a) m = Some (tt, m') /\ is_list m' l (ns ++ [a]).
Proof.
intros [Hc Hn He Hnd Hb] Ha [v Hv] Hb'. pose proof (chain_last _ _ _ _ _ Hc) as Hl.
pose proof (cells_nodup l ns Hnd) as Hcn. unfold link_in_list.
destruct (last_cell_shape l ns) as [E | (k & Hk & E)]; [| assert (k <> a) by congruence]; rewrite E in *;
  (eexists; split; [run; reflexivity |]); (split; [| | lk | | ]).
all: try (rewrite last_cell_snoc; lk).
all: try (by apply NoDup_snoc).
all: try (rewrite length_app; cbn [length]; lia).
all: try (rewrite length_app, u32_small by lia; cbn [length]; do 2 f_equal; lia).
- apply chain_snoc. split; [| lk]. eapply chain_retarget; [done | | rewrite E; lk | done].
  intros c Hin Hne. apply elem_of_cells in Hin as [-> | (j & Hj & ->)]; [congruence |]. assert (j <> a) by congruence. lk.
- apply chain_snoc. split; [| lk]. eapply chain_retarget; [done | | rewrite E; lk | done].
  intros c Hin Hne. rewrite E in Hne.
  apply elem_of_cells in Hin as [-> | (j & Hj & ->)]; [lk |]. assert (j <> a) by congruence. assert (j <> k) by congruence. lk.
Qed.

(** [link_in_list] appends an element; [save_and_clear] of a non-empty list
  moves its elements and leaves it empty; [push_front] puts a saved list before
  a non-empty one; [push_back] puts it after any list. *)
Theorem sql_i_list_ops (m : mem) (l r : loc) (ns ns2 : list loc) (a : loc) :
is_list m l ns -> is_list m r ns2 -> l <> r -> NoDup (ns ++ ns2) -> a ∉ ns -> is_Some (m !! next a) ->
Z.of_nat (S (length ns) + length ns2) < 2 ^ 32 ->
(exists m', link_in_list l a (next a) m = Some (tt, m') /\ is_list m' l (ns ++ [a])) /\
(ns <> [] -> exists m', save_and_clear l r m = Some (tt, m') /\ is_list m' r ns /\ is_list m' l []) /\
(ns <> [] -> exists m', push_front l r m = Some (tt, m') /\ is_list m' l (ns2 ++ ns)) /\
(exists m', push_back l r m = Some (tt, m') /\ is_list m' l (ns ++ ns2)).
Proof.
intros Hl Hr Hlr Hnd Ha Hv Hb.
assert (Hb' : forall xs ys : list loc, xs ++ ys ≡ₚ ns ++ ns2 -> Z.of_nat (length (xs ++ ys)) < 2 ^ 32 /\ NoDup (xs ++ ys) /\
  u32 (Z.of_nat (length ns) + Z.of_nat (length ns2)) = Z.of_nat (length (xs ++ ys))).
{ intros xs ys E. rewrite E. split_and!; [rewrite length_app; lia | done | rewrite length_app, u32_small; lia]. }
split_and!; [apply link_in_list_ok; try done; lia | | |]; destruct Hl as [Hc Hn He Hnd1 Hb1], Hr as [Hc2 Hn2 He2 Hnd2 Hb2];
  pose proof (chain_head _ _ _ _ _ Hc) as Hh; pose proof (chain_head _ _ _ _ _ Hc2) as Hh2.
- intros Hne. eexists. split; [unfold save_and_clear, assign, empty; run; reflexivity |]. split; (split; try done; try lk).
  + apply (chain_rebase 0 m _ (l, F_first)); [lk; done | intros; lk; done | done].
  + f_equal. f_equal. by apply last_cell_rebase.
  + cbn [chain]. lk.
  + constructor.
- intros Hne. pose proof (chain_last _ _ _ _ _ Hc2) as Hl2. pose proof (cells_nodup r ns2 Hnd2) as Hcn.
  destruct (Hb' ns2 ns) as (B1 & B2 & B3); [apply Permutation_app_comm |].
  destruct ns as [| n ns]; [done |]. cbn [head_ptr] in Hh.
  destruct (last_cell_shape r ns2) as [E | (k & Hk & E)]; rewrite E in *;
    (eexists; split; [unfold push_front; run; reflexivity |]; split; [| | lk; by rewrite B3 | done | done]).
  + assert (ns2 = []) as -> by (destruct ns2 as [| j ns2]; [done |]; rewrite last_cell_cons in E;
      pose proof (last_cell_in 0 (next j) ns2) as Hi; rewrite E in Hi; apply elem_of_cells in Hi as [? | (? & ? & ?)]; congruence).
    cbn [app]. apply (chain_rebase 0 m _ (l, F_first)); [lk; done | intros; lk; done | done].
  + assert (ns2 = []) as -> by (destruct ns2 as [| j ns2]; [done |]; rewrite last_cell_cons in E;
      pose proof (last_cell_in 0 (next j) ns2) as Hi; rewrite E in Hi; apply elem_of_cells in Hi as [? | (? & ? & ?)]; congruence).
    cbn [app]. lk.
  + assert (Hne2 : ns2 <> []) by (by intros ->; apply elem_of_nil in Hk).
    assert (E2 : last_cell 0 (l, F_first) ns2 = next k) by (by rewrite (last_cell_rebase 0 _ (r, F_first))).
    apply NoDup_app in Hnd as (_ & Hd & _). apply chain_app. cbn [head_ptr]. rewrite E2. split.
    * apply (chain_rebase 0 (<[next k := VObj n]> m) _ (r, F_first)).
      -- by lk.
      -- intros j Hj. by lk.
      -- rewrite <- E. eapply chain_set_end; done.
    * apply (chain_rebase 0 m _ (l, F_first)); [by lk | | done]. intros j Hj. assert (j <> k) by (intros ->; by apply (Hd k)). by lk.
  + lk. by rewrite Hn, last_cell_app, !last_cell_cons.
- destruct ns2 as [| n2 ns2].
  { exists m. rewrite app_nil_r. split; [| done]. unfold push_back. run. done. }
  cbn [head_ptr] in Hh2. pose proof (chain_last _ _ _ _ _ Hc) as Hl1. pose proof (cells_nodup l ns Hnd1) as Hcn.
  destruct (Hb' ns (n2 :: ns2)) as (B1 & B2 & B3); [done |].
  apply NoDup_app in Hnd as (_ & Hd & _).
  destruct (last_cell_shape l ns) as [E | (k & Hk & E)]; rewrite E in *;
    (eexists; split; [unfold push_back; run; reflexivity |]; split; [| | lk; by rewrite B3 | done | done]).
  all: try (lk; do 2 f_equal; rewrite last_cell_app; by rewrite !last_cell_cons).
  + apply chain_app. cbn [head_ptr]. rewrite E. split.
    * eapply chain_retarget; [done | | rewrite E; lk; done | done]. intros c Hin Hne. rewrite E in Hne.
      apply elem_of_cells in Hin as [-> | (j & Hj & ->)]; [done | by lk].
    * apply (chain_rebase 0 m _ (r, F_first)); [lk; done | intros; lk; done | done].
  + apply chain_app. cbn [head_ptr]. rewrite E. split.
    * eapply chain_retarget; [done | | rewrite E; lk; done | done]. intros c Hin Hne. rewrite E in Hne.
      apply elem_of_cells in Hin as [-> | (j & Hj & ->)]; [by lk |]. assert (j <> k) by congruence. by lk.
    * apply (chain_rebase 0 m _ (r, F_first)); [lk; done | | done]. intros j Hj. assert (j <> k) by (intros ->; by apply (Hd k)). by lk.
Qed.

(** A store for the witnesses: 6, 7 on the list 2; 8 on the list 3; the list 4 is
  empty; 9 is on no list. *)
Definition demo_mem : mem := list_to_map
[((2%positive, F_first), VObj 6); ((2%positive, F_last), VAddr (next 7)); ((2%positive, F_elements), VInt 2); (next 6, VObj 7); (next 7, VNull);
 ((3%positive, F_first), VObj 8); ((3%positive, F_last), VAddr (next 8)); ((3%positive, F_elements), VInt 1); (next 8, VNull);
 ((4%positive, F_first), VNull); ((4%positive, F_last), VAddr (4%positive, F_first)); ((4%positive, F_elements), VInt 0); (next 9, VNull)].

Lemma demo_sql_lists : is_list demo_mem 2 [6%positive; 7%positive] /\ is_list demo_mem 3 [8%positive] /\ is_list demo_mem 4 [].
Proof. split_and!; split; try (by vm_compute); apply (bool_decide_unpack _); by vm_compute. Qed.

Lemma sql_i_list_ops_witness :
(exists m', link_in_list 2 9 (next 9) demo_mem = Some (tt, m') /\ is_list m' 2 [6%positive; 7%positive; 9%positive]) /\
([6%positive; 7%positive] <> [] -> exists m', save_and_clear 2 3 demo_mem = Some (tt, m') /\
   is_list m' 3 [6%positive; 7%positive] /\ is_list m' 2 []) /\
([6%positive; 7%positive] <> [] -> exists m', push_front 2 3 demo_mem = Some (tt, m') /\
   is_list m' 2 [8%positive; 6%positive; 7%positive]) /\
(exists m', push_back 2 3 demo_mem = Some (tt, m') /\ is_list m' 2 [6%positive; 7%positive; 8%positive]).
Proof.
apply (sql_i_list_ops demo_mem 2 3 [6%positive; 7%positive] [8%positive] 9); try apply demo_sql_lists; try done;
  apply (bool_decide_unpack _); by vm_compute.
Defined.

(** Putting a saved list in front of an {e empty} list restores the elements
  and the count but leaves [next] at the list's own [first]; the next
  [link_in_list] then overwrites [first], and every saved element is lost while
  the count still includes them. *)
Theorem push_front_onto_empty_loses (m : mem) (l r a : loc) (ns2 : list loc) :
is_list m l [] -> is_list m r ns2 -> ns2 <> [] -> l <> r -> a ∉ ns2 -> is_Some (m !! next a) ->
Z.of_nat (S (length ns2)) < 2 ^ 32 ->
exists m1 m2, push_front l r m = Some (tt, m1) /\ chain 0 m1 (l, F_first) ns2 VNull /\
  link_in_list l a (next a) m1 = Some (tt, m2) /\ chain 0 m2 (l, F_first) [a] VNull /\
  m2 !! (l, F_elements) = Some (VInt (Z.of_nat (S (length ns2)))).
Proof.
intros [Hc Hn He _ _] [Hc2 Hn2 He2 Hnd2 _] Hne Hlr Ha [v Hv] Hb. cbn [chain last_cell last length] in *.
pose proof (chain_head _ _ _ _ _ Hc2) as Hh2. pose proof (chain_last _ _ _ _ _ Hc2) as Hl2.
destruct ns2 as [| n ns2]; [done |]. cbn [head_ptr] in Hh2.
assert (Hk : exists k, k ∈ n :: ns2 /\ last_cell 0 (r, F_first) (n :: ns2) = next k).
{ rewrite last_cell_cons. pose proof (last_cell_in 0 (next n) ns2) as [E | (k & Hk & E)]%elem_of_cells; rewrite E; eexists;
    (split; [| reflexivity]); [left | by right]. }
destruct Hk as (k & Hk & E). rewrite E in *. assert (a <> k) by congruence.
eexists _, _. split; [unfold push_front; run; reflexivity |].
split; [| split; [unfold link_in_list; run; reflexivity | split]].
- apply (chain_rebase 0 (<[next k := VNull]> m) _ (r, F_first)); [lk; done | intros; lk; done |].
  rewrite <- E. eapply chain_set_end; [by apply cells_nodup | done].
- cbn [chain]. split; lk.
- lk. do 2 f_equal. rewrite !u32_small by (rewrite ?u32_small; cbn [length] in *; lia). cbn [length]. lia.
Qed.

Lemma push_front_onto_empty_loses_witness :
exists m1 m2, push_front 4 2 demo_mem = Some (tt, m1) /\ chain 0 m1 (4%positive, F_first) [6%positive; 7%positive] VNull /\
  link_in_list 4 9 (next 9) m1 = Some (tt, m2) /\ chain 0 m2 (4%positive, F_first) [9%positive] VNull /\
  m2 !! (4%positive, F_elements) = Some (VInt 3).
Proof.
apply (push_front_onto_empty_loses demo_mem 4 2 9 [6%positive; 7%positive]); try apply demo_sql_lists; try done;
  apply (bool_decide_unpack _); by vm_compute.
Defined.
End SqlIList.
