(* ===== verification/IntrusiveList.v ===== *)
(** * IntrusiveList: the std::list-like intrusive list (intrusive_list.h)

    [intrusive::list<T>]: a ring through an embedded sentinel, both link members
    being pointers to nodes, and an element count.  The list object and its
    sentinel are one location [s]. *)

From stdpp Require Import base numbers option gmap list.
From Stdlib Require Import ZArith Lia.
From S2P Require Import Prelude Heap.

Local Open Scope Z_scope.

Abbreviation next n := (n%positive, F_next 0).
Abbreviation prev n := (n%positive, F_prev 0).

(** ** The code *)

Section code.
Variable s : loc.

(** [++size_] and [--size_] on a [size_t]. *)
Definition add_size (k : Z) : prog unit :=
  e ← load (s, F_elements); e ← as_int e; store (s, F_elements) (VInt (u64 (e + k))).

(* [intrusive_list.h:73-77 operator++] *)
Definition iter_inc (node : val) : prog val := n ← as_obj node; load (next n).
(* [intrusive_list.h:85-89 operator--] *)
Definition iter_dec (node : val) : prog val := n ← as_obj node; load (prev n).
(* [intrusive_list.h:116-116 begin] *)
Definition begin_ : prog val := load (next s).
(* [intrusive_list.h:121-121 end] *)
Definition end_ : val := VObj s.
(* [intrusive_list.h:132-132 empty] *)
Definition empty : prog bool := e ← load (s, F_elements); mret (ptr_eqb e (VInt 0)).

(* [intrusive_list.h:135-140 clear] *)
Definition clear : prog unit :=
  store (next s) (VObj s);; store (prev s) (VObj s);; store (s, F_elements) (VInt 0).

(* [intrusive_list.h:142-155 insert] *)
Definition insert (pos : val) (value : loc) : prog val :=
  curr ← as_obj pos; p ← load (prev curr); pv ← as_obj p;
  store (next pv) (VObj value);;
  store (prev curr) (VObj value);;
  store (prev value) (VObj pv);;
  store (next value) (VObj curr);;
  add_size 1;;
  mret (VObj value).

(* [intrusive_list.h:157-173 erase] *)
Definition erase (pos : val) : prog val :=
  curr ← as_obj pos; p ← load (prev curr); n ← load (next curr);
  pv ← as_obj p; store (next pv) n;;
  nx ← as_obj n; store (prev nx) p;;
  store (prev curr) VNull;; store (next curr) VNull;;
  add_size (-1);;
  mret n.

(* [intrusive_list.h:175-175 push_back] *)
Definition push_back (value : loc) : prog unit := insert end_ value;; mret tt.
(* [intrusive_list.h:176-176 pop_back] *)
Definition pop_back : prog unit := erase end_;; mret tt.
(* [intrusive_list.h:178-178 push_front] *)
Definition push_front (value : loc) : prog unit := b ← begin_; insert b value;; mret tt.
(* [intrusive_list.h:179-179 pop_front] *)
Definition pop_front : prog unit := b ← begin_; erase b;; mret tt.
(* [intrusive_list.h:183-183 remove] *)
Definition remove (value : loc) : prog unit := erase (VObj value);; mret tt.
(* [intrusive_list.h:112-112 back] *)
Definition back : prog val := iter_dec end_.
End code.

(** ** Rings *)

(** The nodes [ns] linked both ways between [x] and [e]. *)
Fixpoint linked (m : mem) (x : loc) (ns : list loc) (e : loc) : Prop :=
  match ns with
  | [] => m !! next x = Some (VObj e) /\ m !! prev e = Some (VObj x)
  | n :: ns => m !! next x = Some (VObj n) /\ m !! prev n = Some (VObj x) /\ linked m n ns e
  end.

Record is_list (m : mem) (s : loc) (ns : list loc) : Prop := {
  rl_ring : linked m s ns s;
  rl_size : m !! (s, F_elements) = Some (VInt (Z.of_nat (length ns)));
  rl_nodup : NoDup (s :: ns);
  rl_bound : Z.of_nat (length ns) < 2 ^ 64
}.

Definition foot (s : loc) (ns : list loc) (c : addr) : Prop :=
  c = (s, F_elements) \/ exists n, n ∈ s :: ns /\ (c = next n \/ c = prev n).

Lemma linked_app m x ns1 n ns2 e : linked m x (ns1 ++ n :: ns2) e <-> linked m x ns1 n /\ linked m n ns2 e.
Proof. revert x. induction ns1 as [| k ns1 IH]; intros x; cbn [app linked]; [| rewrite IH]; tauto. Qed.

Lemma linked_frame m m' x ns e :
  (forall k, k ∈ x :: ns -> m' !! next k = m !! next k) -> (forall k, k ∈ ns ++ [e] -> m' !! prev k = m !! prev k) ->
  linked m x ns e -> linked m' x ns e.
Proof.
  revert x. induction ns as [| n ns IH]; intros x Hn Hp; cbn [linked].
  - rewrite Hn, Hp by (left || elem_tac). done.
  - rewrite (Hn x), (Hp n) by left. intros (? & ? & ?). split_and!; try done. apply IH; [| | done].
    + intros k Hk. apply Hn. by right.
    + intros k Hk. apply Hp. by right.
Qed.

Lemma linked_ends m x ns e : linked m x ns e ->
  m !! next (default x (last ns)) = Some (VObj e) /\ m !! prev e = Some (VObj (default x (last ns))) /\
  m !! next x = Some (VObj (default e (hd_error ns))).
Proof.
  revert x. induction ns as [| n ns IH]; intros x; cbn [linked].
  - intros []. done.
  - intros (H1 & H2 & H3). rewrite last_cons_cases. destruct (IH _ H3) as (A1 & A2 & _). done.
Qed.

(** Changing what follows the last node. *)
Lemma linked_retarget m m' x ns e e' : NoDup (x :: ns) -> e' ∉ ns ->
  (forall k, k ∈ x :: ns -> k <> default x (last ns) -> m' !! next k = m !! next k) -> (forall k, k ∈ ns -> m' !! prev k = m !! prev k) ->
  m' !! next (default x (last ns)) = Some (VObj e') -> m' !! prev e' = Some (VObj (default x (last ns))) ->
  linked m x ns e -> linked m' x ns e'.
Proof.
  destruct ns as [| q ns _] using rev_ind; intros Hnd He Hn Hp H1 H2; [done |]. rewrite last_snoc in *. cbn [from_option id] in *.
  rewrite !linked_app. intros [Hl _]. split; [| done]. apply NoDup_cons in Hnd as [Hx Hnd]. apply NoDup_snoc in Hnd as [Hnd Hq].
  eapply linked_frame; [| | done].
  - intros k Hk. apply Hn; [elem_tac | intros ->; elem_tac].
  - intros k Hk. apply Hp. done.
Qed.

Lemma run_add_size {A} m s k z (K : unit -> prog A) :
  m !! (s, F_elements) = Some (VInt z) -> (add_size s k ≫= K) m = K tt (<[(s, F_elements) := VInt (u64 (z + k))]> m).
Proof. intros H. unfold add_size. run. done. Qed.

Lemma last_in x (ns : list loc) : default x (last ns) ∈ x :: ns.
Proof. destruct (last ns) eqn:E; [right; by apply last_Some_elem_of | left]. Qed.

(** [insert] before [pos]: an element, or [end()]. *)
Lemma insert_ok m s ns1 ns2 v :
  is_list m s (ns1 ++ ns2) -> v ∉ s :: ns1 ++ ns2 -> is_Some (m !! next v) -> is_Some (m !! prev v) ->
  Z.of_nat (S (length (ns1 ++ ns2))) < 2 ^ 64 ->
  exists m', insert s (VObj (default s (hd_error ns2))) v m = Some (VObj v, m') /\ is_list m' s (ns1 ++ v :: ns2) /\
    same_outside (foot s (v :: ns1 ++ ns2)) m m'.
Proof.
  intros [Hr Hs Hnd Hb] Hv [v1 H1] [v2 H2] Hb'.
  set (p := default s (hd_error ns2)). set (q := default s (last ns1)).
  assert (Hsplit : linked m s ns1 p /\ forall m', m' !! next v = Some (VObj p) -> m' !! prev p = Some (VObj v) ->
    (forall k, k ∈ ns2 -> m' !! next k = m !! next k) -> (forall k, k ∈ ns2 ++ [s] -> k <> p -> m' !! prev k = m !! prev k) ->
    linked m' v ns2 s).
  { destruct ns2 as [| k ns2]; subst p; cbn [hd_error from_option id] in *.
    - rewrite app_nil_r in *. done.
    - apply linked_app in Hr as [Hr1 Hr2]. split; [done |]. intros m' A1 A2 A3 A4. split_and!; [done | done |].
      change (s :: ns1 ++ k :: ns2) with ((s :: ns1) ++ k :: ns2) in Hnd. apply NoDup_app in Hnd as (_ & Hd & [Hk _]%NoDup_cons).
      eapply linked_frame; [| | done]; [done |]. intros j Hj. apply A4; [by right |]. intros ->.
      apply elem_of_app in Hj as [? | ->%list_elem_of_singleton]; [done |]. apply (Hd s); left. }
  destruct Hsplit as [Hr1 Hr2]. destruct (linked_ends _ _ _ _ Hr1) as (E1 & E2 & _). fold q in E1, E2.
  assert (Hq : q ∈ s :: ns1) by apply last_in. assert (Hp : p ∈ s :: ns2) by (subst p; destruct ns2; cbn; [left | right; left]).
  assert (Hvq : v <> q) by (intros ->; apply Hv; elem_tac). assert (Hvp : v <> p) by (intros ->; apply Hv; elem_tac).
  exists (<[(s, F_elements) := VInt (u64 (Z.of_nat (length (ns1 ++ ns2)) + 1))]> (<[next v := VObj p]> (<[prev v := VObj q]>
    (<[prev p := VObj v]> (<[next q := VObj v]> m))))). split_and!.
  - unfold insert. run. erewrite run_add_size by lk. done.
  - split.
    + apply linked_app. split; [| apply Hr2; lk].
      * apply NoDup_cons in Hnd as [Hs1 Hnd]. apply NoDup_app in Hnd as (Hnd1 & Hd & _).
        eapply linked_retarget; [apply NoDup_cons; split; [elem_tac | done] | elem_tac | | | fold q; lk | fold q; lk | done].
        -- intros k Hk Hkq. fold q in Hkq. assert (k <> v) by (intros ->; elem_tac). by lk.
        -- intros k Hk. assert (k <> v) by (intros ->; elem_tac). assert (k <> p); [| by lk].
           intros ->. subst p. destruct ns2 as [| k2 ns2]; cbn in *; [elem_tac |]. apply (Hd k2 Hk). left.
      * intros k Hk. assert (k <> v) by (intros ->; elem_tac). assert (k <> q); [| by lk]. intros ->.
        apply NoDup_cons in Hnd as [Hs1 Hnd]. apply NoDup_app in Hnd as (_ & Hd & _).
        apply elem_of_cons in Hq as [Hq | Hq]; [rewrite Hq in Hk; elem_tac | by apply (Hd q)].
      * intros k Hk Hkp. assert (k <> v) by (intros ->; elem_tac). by lk.
    + lk. do 2 f_equal. unfold u64. rewrite wrap_small; rewrite !length_app in *; cbn [length] in *; [lia |]. split; lia.
    + apply NoDup_cons in Hnd as [Hs1 Hnd]. apply NoDup_cons. split; [elem_tac |].
      rewrite <- (Permutation_middle ns1 ns2 v). apply NoDup_cons. split; [elem_tac | done].
    + rewrite length_app in *. cbn [length]. lia.
  - repeat (apply same_outside_insert; [unfold foot; first [by left | right; eexists; split; [| by eauto]; elem_tac] |]). done.
Qed.

(** [erase] of an element: its members become NULL, the next position is returned. *)
Lemma erase_ok m s ns1 n ns2 :
  is_list m s (ns1 ++ n :: ns2) ->
  exists m', erase s (VObj n) m = Some (VObj (default s (hd_error ns2)), m') /\ is_list m' s (ns1 ++ ns2) /\
    m' !! next n = Some VNull /\ m' !! prev n = Some VNull /\ same_outside (foot s (ns1 ++ n :: ns2)) m m'.
Proof.
  intros [Hr Hs Hnd Hb]. apply linked_app in Hr as [Hr1 Hr2].
  set (p := default s (hd_error ns2)). set (q := default s (last ns1)).
  destruct (linked_ends _ _ _ _ Hr1) as (E1 & E2 & _). destruct (linked_ends _ _ _ _ Hr2) as (_ & _ & E3). fold q in E1, E2. fold p in E3.
  assert (E4 : m !! prev p = Some (VObj n)) by (subst p; destruct ns2 as [| k ns2]; cbn; apply Hr2).
  assert (Hq : q ∈ s :: ns1) by apply last_in. assert (Hp : p ∈ s :: ns2) by (subst p; destruct ns2; cbn; [left | right; left]).
  pose proof Hnd as [Hs1 Hnd']%NoDup_cons. pose proof Hnd' as (Hnd1 & Hd & [Hn2 Hnd2]%NoDup_cons)%NoDup_app.
  assert (Hnq : n <> q) by (intros ->; apply elem_of_cons in Hq as [Hq | Hq]; [rewrite <- Hq in Hs1; elem_tac | apply (Hd q Hq); left]).
  assert (Hnp : n <> p) by (intros ->; apply elem_of_cons in Hp as [Hp | Hp]; [rewrite <- Hp in Hs1; elem_tac | done]).
  exists (<[(s, F_elements) := VInt (u64 (Z.of_nat (length (ns1 ++ n :: ns2)) + -1))]> (<[next n := VNull]> (<[prev n := VNull]>
    (<[prev p := VObj q]> (<[next q := VObj p]> m))))). split_and!.
  - unfold erase. run. erewrite run_add_size by lk. done.
  - split.
    + assert (Hgo : linked (<[(s, F_elements) := VInt (u64 (Z.of_nat (length (ns1 ++ n :: ns2)) + -1))]> (<[next n := VNull]>
        (<[prev n := VNull]> (<[prev p := VObj q]> (<[next q := VObj p]> m))))) s ns1 p).
      { eapply linked_retarget; [apply NoDup_cons; split; [elem_tac | done] | | | | fold q; lk | fold q; lk | done].
        - subst p. destruct ns2 as [| k ns2]; cbn; [elem_tac |]. intros Hk. apply (Hd k Hk). right; left.
        - intros k Hk Hkq. fold q in Hkq. assert (k <> n) by (intros ->; elem_norm; destruct Hk as [-> | Hk]; [tauto | by apply (Hd n); elem_norm; auto]). by lk.
        - intros k Hk. assert (k <> n) by (intros ->; apply (Hd n Hk); left). assert (k <> p); [| by lk].
          intros ->. apply elem_of_cons in Hp as [Hp | Hp]; [rewrite Hp in Hk; elem_tac | apply (Hd p Hk); by right]. }
      destruct ns2 as [| k ns2]; subst p; cbn [hd_error from_option id] in *; [by rewrite app_nil_r |].
      apply linked_app. split; [done |]. destruct Hr2 as (_ & _ & Hr2). apply NoDup_cons in Hnd2 as [Hk2 Hnd2].
      eapply linked_frame; [| | done].
      * intros j Hj. assert (j <> n) by (intros ->; done). assert (j <> q); [| by lk]. intros ->.
        apply elem_of_cons in Hq as [Hq | Hq]; [rewrite Hq in Hj; elem_tac | apply (Hd q Hq); by right].
      * intros j Hj. assert (j <> n) by (intros ->; elem_norm; naive_solver).
        assert (j <> k) by (intros ->; elem_norm; naive_solver). by lk.
    + lk. do 2 f_equal. unfold u64. rewrite wrap_small; rewrite !length_app in *; cbn [length] in *; [lia |]. split; lia.
    + apply NoDup_cons. split; [elem_tac |]. apply NoDup_app. split_and!; [done | | done]. intros k Hk1 Hk2. apply (Hd k Hk1). by right.
    + rewrite length_app in *. cbn [length] in *. lia.
  - by lk.
  - by lk.
  - repeat (apply same_outside_insert; [unfold foot; first [by left | right; eexists; split; [| by eauto]; elem_tac] |]). done.
Qed.

(** Inserting before any position links the element there and returns a
    position on it; erasing an element unlinks it, clears its members and returns
    the position behind it; so [push_front], [push_back], [pop_front] and [remove]
    do to the ring what they do to the sequence. *)
Theorem intrusive_list_refines (m : mem) (s v n : loc) (ns1 ns2 : list loc) :
  is_list m s (ns1 ++ ns2) -> v ∉ s :: ns1 ++ ns2 -> is_Some (m !! next v) -> is_Some (m !! prev v) ->
  Z.of_nat (S (length (ns1 ++ ns2))) < 2 ^ 64 ->
  (exists m', insert s (VObj (default s (hd_error ns2))) v m = Some (VObj v, m') /\ is_list m' s (ns1 ++ v :: ns2)) /\
  (exists m', push_front s v m = Some (tt, m') /\ is_list m' s (v :: ns1 ++ ns2)) /\
  (exists m', push_back s v m = Some (tt, m') /\ is_list m' s ((ns1 ++ ns2) ++ [v])) /\
  (hd_error ns2 = Some n ->
     (exists m', erase s (VObj n) m = Some (VObj (default s (hd_error (tail ns2))), m') /\ is_list m' s (ns1 ++ tail ns2)) /\
     (exists m', remove s n m = Some (tt, m') /\ is_list m' s (ns1 ++ tail ns2)) /\
     (ns1 = [] -> exists m', pop_front s m = Some (tt, m') /\ is_list m' s (tail ns2))).
Proof.
  intros Hl Hv H1 H2 Hb. split_and!.
  - destruct (insert_ok m s ns1 ns2 v) as (m' & R & Hr & _); try done. by exists m'.
  - destruct (insert_ok m s [] (ns1 ++ ns2) v) as (m' & R & Hr & _); try done. exists m'. split; [| done].
    unfold push_front, begin_. destruct Hl as [Hr0 _ _ _]. destruct (linked_ends _ _ _ _ Hr0) as (_ & _ & E).
    rewrite (run_load _ _ _ _ E), (run_bind _ _ _ _ _ R). done.
  - destruct (insert_ok m s (ns1 ++ ns2) [] v) as (m' & R & Hr & _); rewrite ?app_nil_r; try done. exists m'. split; [| done].
    unfold push_back. by rewrite (run_bind _ _ _ _ _ R).
  - destruct ns2 as [| k ns2]; [done |]. intros [= ->]. cbn [tail].
    destruct (erase_ok m s ns1 n ns2 Hl) as (m' & R & Hr & _). split_and!.
    + by exists m'.
    + exists m'. split; [| done]. unfold remove. by rewrite (run_bind _ _ _ _ _ R).
    + intros ->. exists m'. split; [| done]. unfold pop_front, begin_. destruct Hl as [Hr0 _ _ _].
      destruct (linked_ends _ _ _ _ Hr0) as (_ & _ & E). rewrite (run_load _ _ _ _ E). cbn [app hd_error from_option id].
      by rewrite (run_bind _ _ _ _ _ R).
Qed.

(** A store for the witnesses: 4, 5 on the list 2; 6 on no list. *)
Definition demo_mem : mem := list_to_map
  [(next 2, VObj 4); (prev 2, VObj 5); ((2%positive, F_elements), VInt 2); (next 4, VObj 5); (prev 4, VObj 2); (next 5, VObj 2); (prev 5, VObj 4);
   (next 6, VNull); (prev 6, VNull)].

Lemma demo_list : is_list demo_mem 2 [4%positive; 5%positive].
Proof. split; try (by vm_compute). apply (bool_decide_unpack _); by vm_compute. Qed.

Lemma intrusive_list_refines_witness :
  (exists m', insert 2 (VObj 5) 6 demo_mem = Some (VObj 6, m') /\ is_list m' 2 [4%positive; 6%positive; 5%positive]) /\
  (exists m', push_front 2 6 demo_mem = Some (tt, m') /\ is_list m' 2 [6%positive; 4%positive; 5%positive]) /\
  (exists m', push_back 2 6 demo_mem = Some (tt, m') /\ is_list m' 2 [4%positive; 5%positive; 6%positive]) /\
  (hd_error [5%positive] = Some 5%positive ->
     (exists m', erase 2 (VObj 5) demo_mem = Some (VObj 2, m') /\ is_list m' 2 [4%positive]) /\
     (exists m', remove 2 5 demo_mem = Some (tt, m') /\ is_list m' 2 [4%positive]) /\
     ([4%positive] = [] -> exists m', pop_front 2 demo_mem = Some (tt, m') /\ is_list m' 2 [])).
Proof.
  apply (intrusive_list_refines demo_mem 2 6 5 [4%positive] [5%positive]).
  - apply demo_list.
  - apply (bool_decide_unpack _); by vm_compute.
  - by eexists.
  - by eexists.
  - reflexivity.
Defined.

(** [pop_back] erases [end()], which is the sentinel and not the last element:
    no element is removed, the count drops by one, the elements are left in a
    ring of their own, and [begin()] is NULL, so the next use of the list
    dereferences NULL. *)
Theorem pop_back_erases_sentinel (m : mem) (s n : loc) (ns : list loc) :
  is_list m s (n :: ns) ->
  exists m', pop_back s m = Some (tt, m') /\ linked m' n ns n /\
    m' !! (s, F_elements) = Some (VInt (Z.of_nat (length ns))) /\
    begin_ s m' = Some (VNull, m') /\ (forall v, push_front s v m' = None) /\ (forall v, push_back s v m' = None).
Proof.
  intros [Hr Hs Hnd Hb]. destruct (linked_ends _ _ _ _ Hr) as (E1 & E2 & E3). rewrite last_cons_cases in E1, E2.
  destruct Hr as (_ & E4 & Hr). set (q := default n (last ns)) in *. cbn [from_option id hd_error] in *.
  apply NoDup_cons in Hnd as [Hsn Hnd].
  assert (Hq : q ∈ n :: ns) by apply last_in. assert (Hqs : q <> s) by (intros ->; done).
  assert (Hns : n <> s) by (intros ->; apply Hsn; left).
  exists (<[(s, F_elements) := VInt (u64 (Z.of_nat (length (n :: ns)) + -1))]> (<[next s := VNull]> (<[prev s := VNull]>
    (<[prev n := VObj q]> (<[next q := VObj n]> m))))). split_and!.
  - unfold pop_back, erase, end_. run. erewrite run_add_size by lk. done.
  - apply NoDup_cons in Hnd as [Hn Hnd']. eapply linked_retarget; [by apply NoDup_cons | done | | | fold q; lk | fold q; lk | exact Hr].
    + intros k Hk Hkq. fold q in Hkq. assert (k <> s) by (intros ->; done). by lk.
    + intros k Hk. assert (k <> s) by (intros ->; apply Hsn; by right). assert (k <> n) by (intros ->; done). by lk.
  - lk. do 2 f_equal. unfold u64. rewrite wrap_small; cbn [length] in *; [lia |]. split; lia.
  - unfold begin_. apply run_load_ret. by lk.
  - intros v. unfold push_front, begin_. erewrite run_load by lk. done.
  - intros v. unfold push_back, insert, end_. rewrite run_assoc, run_as_obj, run_assoc. erewrite run_load by lk. done.
Qed.

Lemma pop_back_erases_sentinel_witness :
  exists m', pop_back 2 demo_mem = Some (tt, m') /\ linked m' 4 [5%positive] 4 /\
    m' !! (2%positive, F_elements) = Some (VInt 1) /\
    begin_ 2 m' = Some (VNull, m') /\ (forall v, push_front 2 v m' = None) /\ (forall v, push_back 2 v m' = None).
Proof. apply (pop_back_erases_sentinel demo_mem 2 4 [5%positive]), demo_list. Defined.
