(* ===== verification/LifoBuffer.v ===== *)
(** * LifoBuffer: last-in-first-out buffers on user memory (sql_lifo_buffer.h)

    Elements of fixed size, or pairs of them, are copied into a stretch of memory
    given by the caller and read back in the opposite order.  The forward buffer
    grows upwards from [start], the backward one downwards from [end].  Both
    implement one interface, here the class [LifoBuffer]; the iterator and the
    read-back theorems are proved against the interface. *)

From stdpp Require Import base numbers list.
From Stdlib Require Import ZArith Lia Permutation.
From S2P Require Import Prelude.

Local Open Scope Z_scope.

(** ** Memory *)

(** Bytes by address; buffers of a query share it. *)
Abbreviation bytes := (Z -> Z).

Definition mem_read (m : bytes) (a n : Z) : list Z := m <$> seqZ a n.

(** [memcpy(to, from, n)]. *)
Definition mem_copy (m : bytes) (to from n : Z) : bytes :=
  fun x => if (to <=? x) && (x <? to + n) then m (from + (x - to)) else m x.

Definition apart (a n b k : Z) : Prop := a + n <= b \/ b + k <= a.

Lemma mem_read_ext m m' a n : (forall x, a <= x < a + n -> m' x = m x) -> mem_read m' a n = mem_read m a n.
Proof.
  intros H. unfold mem_read. apply list_fmap_ext. intros i x Hx. apply H.
  apply list_elem_of_lookup_2, elem_of_seqZ in Hx. lia.
Qed.

Lemma mem_copy_other m to from n a k : apart to n a k -> mem_read (mem_copy m to from n) a k = mem_read m a k.
Proof.
  intros H. apply mem_read_ext. intros x Hx. unfold mem_copy, apart in *.
  destruct (Z.leb_spec to x); [| done]. destruct (Z.ltb_spec x (to + n)); [lia | done].
Qed.

Lemma mem_copy_same m to from n : mem_read (mem_copy m to from n) to n = mem_read m from n.
Proof.
  unfold mem_read. destruct (decide (0 <= n)); [| by rewrite !seqZ_nil by lia].
  apply list_eq. intros i. rewrite !list_lookup_fmap. destruct (decide (Z.of_nat i < n)).
  - rewrite !lookup_seqZ_lt by lia. cbn. unfold mem_copy. rewrite (proj2 (Z.leb_le _ _)), (proj2 (Z.ltb_lt _ _)) by lia.
    cbn [andb]. do 2 f_equal. lia.
  - by rewrite !lookup_seqZ_ge by lia.
Qed.

(** ** The buffers *)

(* [sql_lifo_buffer.h:44-72 Lifo_buffer] *)
Record buffer := Buffer {
  size1 : Z; size2 : Z;
  write_ptr1 : Z; write_ptr2 : Z;
  read_ptr1 : Z; read_ptr2 : Z;
  start : Z; end_ : Z; pos : Z
}.

Definition set_pos (b : buffer) (p : Z) : buffer :=
  Buffer (size1 b) (size2 b) (write_ptr1 b) (write_ptr2 b) (read_ptr1 b) (read_ptr2 b) (start b) (end_ b) p.

Definition set_space (b : buffer) (s e : Z) : buffer :=
  Buffer (size1 b) (size2 b) (write_ptr1 b) (write_ptr2 b) (read_ptr1 b) (read_ptr2 b) s e (pos b).

(** What [read] moves: the position and the two pointers to the data. *)
Record cursor := Cursor { c_pos : Z; c_ptr1 : Z; c_ptr2 : Z }.

(** The virtual functions. *)
Class LifoOps := {
  reset : buffer -> buffer;
  used_size : buffer -> Z;
  have_space_for : buffer -> Z -> bool;
  write : bytes -> buffer -> bytes * buffer;
  read_at : buffer -> cursor -> bool * cursor;
  used_area : buffer -> Z
}.

(* [sql_lifo_buffer.h:95-99 setup_writing] *)
Definition setup_writing (b : buffer) (len1 len2 : Z) : buffer :=
  Buffer len1 len2 (write_ptr1 b) (write_ptr2 b) (read_ptr1 b) (read_ptr2 b) (start b) (end_ b) (pos b).

Section generic.
Context `{LifoOps}.

(* [sql_lifo_buffer.h:82-89 set_buffer_space] *)
Definition set_buffer_space (b : buffer) (start_arg end_arg : Z) : buffer := reset (set_space b start_arg end_arg).

(* [sql_lifo_buffer.h:111-114 can_write] *)
Definition can_write (b : buffer) : bool := have_space_for b (size1 b + size2 b).

(* [sql_lifo_buffer.h:117-117 is_empty] *)
Definition is_empty (b : buffer) : bool := used_size b =? 0.

(** [my_qsort2] is not part of this code: a parameter. *)
(* [sql_lifo_buffer.h:120-125 sort] *)
Definition sort (my_qsort2 : bytes -> Z -> Z -> Z -> bytes) (m : bytes) (b : buffer) : bytes :=
  let elem_size := size1 b + size2 b in
  let n_elements := used_size b / elem_size in
  my_qsort2 m (used_area b) n_elements elem_size.

Definition read (b : buffer) : bool * buffer :=
  let '(eof, c) := read_at b (Cursor (pos b) (read_ptr1 b) (read_ptr2 b)) in
  (eof, Buffer (size1 b) (size2 b) (write_ptr1 b) (write_ptr2 b) (c_ptr1 c) (c_ptr2 c) (start b) (end_ b) (c_pos c)).
End generic.

(** *** Forward *)

(* [sql_lifo_buffer.h:175-178 have_space_for] *)
Definition fwd_have_space_for (b : buffer) (n : Z) : bool := pos b + n <? end_ b.

(* [sql_lifo_buffer.h:166-169 used_size] *)
Definition fwd_used_size (b : buffer) : Z := pos b - start b.

(* [sql_lifo_buffer.h:170-173 reset] *)
Definition fwd_reset (b : buffer) : buffer := set_pos b (start b).

(* [sql_lifo_buffer.h:186-191 write_bytes] *)
Definition fwd_write_bytes (m : bytes) (b : buffer) (data n : Z) : bytes * buffer :=
  (mem_copy m (pos b) data n, set_pos b (pos b + n)).

(* [sql_lifo_buffer.h:180-185 write] *)
Definition fwd_write (m : bytes) (b : buffer) : bytes * buffer :=
  let '(m, b) := fwd_write_bytes m b (write_ptr1 b) (size1 b) in
  if negb (size2 b =? 0) then fwd_write_bytes m b (write_ptr2 b) (size2 b) else (m, b).

(* [sql_lifo_buffer.h:192-195 have_data] *)
Definition fwd_have_data (b : buffer) (position n : Z) : bool := n <=? position - start b.

(* [sql_lifo_buffer.h:196-201 read_bytes] *)
Definition fwd_read_bytes (position n : Z) : Z * Z := (position - n, position - n).

(* [sql_lifo_buffer.h:202-211 read] *)
Definition fwd_read_at (b : buffer) (c : cursor) : bool * cursor :=
  if negb (fwd_have_data b (c_pos c) (size1 b + size2 b)) then (true, c) else
  let '(p, r2) := if negb (size2 b =? 0) then fwd_read_bytes (c_pos c) (size2 b) else (c_pos c, c_ptr2 c) in
  let '(p, r1) := fwd_read_bytes p (size1 b) in
  (false, Cursor p r1 r2).

(* [sql_lifo_buffer.h:223-229 grow] *)
Definition fwd_grow (b : buffer) (unused_start unused_end : Z) : buffer := set_space b (start b) unused_end.

#[export] Instance Forward : LifoOps := {
  reset := fwd_reset; used_size := fwd_used_size; have_space_for := fwd_have_space_for;
  write := fwd_write; read_at := fwd_read_at; used_area := start
}.

(** *** Backward *)

(* [sql_lifo_buffer.h:268-271 have_space_for] *)
Definition bwd_have_space_for (b : buffer) (n : Z) : bool := start b <=? pos b - n.

(* [sql_lifo_buffer.h:259-262 used_size] *)
Definition bwd_used_size (b : buffer) : Z := end_ b - pos b.

(* [sql_lifo_buffer.h:263-266 reset] *)
Definition bwd_reset (b : buffer) : buffer := set_pos b (end_ b).

(* [sql_lifo_buffer.h:278-283 write_bytes] *)
Definition bwd_write_bytes (m : bytes) (b : buffer) (data n : Z) : bytes * buffer :=
  (mem_copy m (pos b - n) data n, set_pos b (pos b - n)).

(** The second component is written when its pointer, not its size, is non-zero. *)
(* [sql_lifo_buffer.h:272-277 write] *)
Definition bwd_write (m : bytes) (b : buffer) : bytes * buffer :=
  let '(m, b) := if negb (write_ptr2 b =? 0) then bwd_write_bytes m b (write_ptr2 b) (size2 b) else (m, b) in
  bwd_write_bytes m b (write_ptr1 b) (size1 b).

(* [sql_lifo_buffer.h:297-300 have_data] *)
Definition bwd_have_data (b : buffer) (position n : Z) : bool := n <=? end_ b - position.

(* [sql_lifo_buffer.h:301-307 read_bytes] *)
Definition bwd_read_bytes (position n : Z) : Z * Z := (position + n, position).

(* [sql_lifo_buffer.h:284-296 read] *)
Definition bwd_read_at (b : buffer) (c : cursor) : bool * cursor :=
  if negb (bwd_have_data b (c_pos c) (size1 b + size2 b)) then (true, c) else
  let '(p, r1) := bwd_read_bytes (c_pos c) (size1 b) in
  let '(p, r2) := if negb (size2 b =? 0) then bwd_read_bytes p (size2 b) else (p, c_ptr2 c) in
  (false, Cursor p r1 r2).

(** The space below [pos] is handed out: its bounds, and the buffer without it. *)
(* [sql_lifo_buffer.h:313-318 remove_unused_space] *)
Definition bwd_remove_unused_space (b : buffer) : Z * Z * buffer := (start b, pos b, set_space b (pos b) (end_ b)).

#[export] Instance Backward : LifoOps := {
  reset := bwd_reset; used_size := bwd_used_size; have_space_for := bwd_have_space_for;
  write := bwd_write; read_at := bwd_read_at; used_area := pos
}.

(** ** The contract *)

(** An element: the bytes of its two components (the second is empty when
    [size2] is 0). *)
Abbreviation element := (list Z * list Z)%type.

(** What a caller may hand to [write]: sources of the announced sizes that do not
    overlap the buffer's space. *)
Record source_ok (b : buffer) : Prop := {
  so_apart1 : apart (write_ptr1 b) (size1 b) (start b) (end_ b - start b);
  so_apart2 : apart (write_ptr2 b) (size2 b) (start b) (end_ b - start b);
  so_null : write_ptr2 b = 0 -> size2 b = 0
}.

Definition source (m : bytes) (b : buffer) : element :=
  (mem_read m (write_ptr1 b) (size1 b), mem_read m (write_ptr2 b) (size2 b)).

(** The buffer's position is in its space. *)
Record buffer_ok (b : buffer) : Prop := {
  bo_size1 : 0 < size1 b;
  bo_size2 : 0 <= size2 b;
  bo_start : start b <= pos b;
  bo_end : pos b <= end_ b
}.

(** Two buffers of the same sizes over the same space. *)
Definition same_space (b b' : buffer) : Prop :=
  size1 b' = size1 b /\ size2 b' = size2 b /\ start b' = start b /\ end_ b' = end_ b.

(** [holds m b p xs]: from position [p] the buffer holds [xs], the element that
    would be read first in front. *)
Class LifoBuffer (O : LifoOps) := {
  holds : bytes -> buffer -> Z -> list element -> Prop;
  holds_reset m b : buffer_ok b -> holds m (reset b) (pos (reset b)) [] /\ buffer_ok (reset b);
  holds_used m b xs : buffer_ok b -> holds m b (pos b) xs -> used_size b = Z.of_nat (length xs) * (size1 b + size2 b);
  holds_write m b xs :
    buffer_ok b -> source_ok b -> have_space_for b (size1 b + size2 b) = true -> holds m b (pos b) xs ->
    let '(m', b') := write m b in
    b' = set_pos b (pos b') /\ buffer_ok b' /\ holds m' b' (pos b') (source m b :: xs) /\
    forall x, ~ (start b <= x < end_ b) -> m' x = m x;
  holds_read m b c x xs :
    buffer_ok b -> start b <= c_pos c <= end_ b -> holds m b (c_pos c) (x :: xs) ->
    let '(eof, c') := read_at b c in
    eof = false /\ holds m b (c_pos c') xs /\ mem_read m (c_ptr1 c') (size1 b) = x.1 /\
    (size2 b = 0 -> c_ptr2 c' = c_ptr2 c) /\ (size2 b <> 0 -> mem_read m (c_ptr2 c') (size2 b) = x.2) /\
    start b <= c_pos c' <= end_ b;
  holds_read_empty m b c : buffer_ok b -> holds m b (c_pos c) [] -> read_at b c = (true, c);
  holds_ext m m' b b' p xs : (forall x, start b <= x < end_ b -> m' x = m x) -> buffer_ok b -> start b <= p <= end_ b ->
    same_space b b' -> holds m b p xs -> holds m' b' p xs
}.

Fixpoint fwd_holds (m : bytes) (st s1 s2 p : Z) (xs : list element) : Prop :=
  match xs with
  | [] => p = st
  | x :: xs => st + s1 + s2 <= p /\ mem_read m (p - s2) s2 = x.2 /\ mem_read m (p - s2 - s1) s1 = x.1 /\
      fwd_holds m st s1 s2 (p - s2 - s1) xs
  end.

Fixpoint bwd_holds (m : bytes) (en s1 s2 p : Z) (xs : list element) : Prop :=
  match xs with
  | [] => p = en
  | x :: xs => p + s1 + s2 <= en /\ mem_read m p s1 = x.1 /\ mem_read m (p + s1) s2 = x.2 /\
      bwd_holds m en s1 s2 (p + s1 + s2) xs
  end.

Lemma fwd_holds_ext m m' st s1 s2 xs : forall p, 0 <= s1 -> 0 <= s2 -> (forall x, st <= x < p -> m' x = m x) ->
  fwd_holds m st s1 s2 p xs -> fwd_holds m' st s1 s2 p xs.
Proof.
  induction xs as [| x xs IH]; intros p H1 H2 Hm; [done |]. intros (A1 & A2 & A3 & A4). split_and!; [done | | |].
  - rewrite <- A2. apply mem_read_ext. intros y Hy. apply Hm. lia.
  - rewrite <- A3. apply mem_read_ext. intros y Hy. apply Hm. lia.
  - apply IH; try done. intros y Hy. apply Hm. lia.
Qed.

Lemma bwd_holds_ext m m' en s1 s2 xs : forall p, 0 <= s1 -> 0 <= s2 -> (forall x, p <= x < en -> m' x = m x) ->
  bwd_holds m en s1 s2 p xs -> bwd_holds m' en s1 s2 p xs.
Proof.
  induction xs as [| x xs IH]; intros p H1 H2 Hm; [done |]. intros (A1 & A2 & A3 & A4). split_and!; [done | | |].
  - rewrite <- A2. apply mem_read_ext. intros y Hy. apply Hm. lia.
  - rewrite <- A3. apply mem_read_ext. intros y Hy. apply Hm. lia.
  - apply IH; try done. intros y Hy. apply Hm. lia.
Qed.

Lemma fwd_holds_pos m st s1 s2 xs : forall p, fwd_holds m st s1 s2 p xs -> p = st + Z.of_nat (length xs) * (s1 + s2).
Proof. induction xs as [| x xs IH]; intros p; cbn [fwd_holds length]; [lia |]. intros (_ & _ & _ & E%IH). lia. Qed.

Lemma bwd_holds_pos m en s1 s2 xs : forall p, bwd_holds m en s1 s2 p xs -> p = en - Z.of_nat (length xs) * (s1 + s2).
Proof. induction xs as [| x xs IH]; intros p; cbn [bwd_holds length]; [lia |]. intros (_ & _ & _ & E%IH). lia. Qed.

Lemma mem_read_0 m a : mem_read m a 0 = [].
Proof. done. Qed.

Lemma mem_copy_outside m to from n x : ~ (to <= x < to + n) -> mem_copy m to from n x = m x.
Proof. intros H. unfold mem_copy. destruct (Z.leb_spec to x); [| done]. destruct (Z.ltb_spec x (to + n)); [lia | done]. Qed.

Ltac buffer_unfold :=
  cbn [reset used_size have_space_for write read_at used_area Forward Backward] in *;
  unfold fwd_reset, fwd_used_size, fwd_have_space_for, fwd_write, fwd_write_bytes, fwd_read_at, fwd_have_data, fwd_read_bytes,
    bwd_reset, bwd_used_size, bwd_have_space_for, bwd_write, bwd_write_bytes, bwd_read_at, bwd_have_data, bwd_read_bytes, set_pos in *;
  cbn [size1 size2 write_ptr1 write_ptr2 read_ptr1 read_ptr2 start end_ pos c_pos c_ptr1 c_ptr2] in *.

Lemma fwd_write_law m b xs :
  buffer_ok b -> source_ok b -> fwd_have_space_for b (size1 b + size2 b) = true ->
  fwd_holds m (start b) (size1 b) (size2 b) (pos b) xs ->
  let '(m', b') := fwd_write m b in
  b' = set_pos b (pos b') /\ buffer_ok b' /\
  fwd_holds m' (start b') (size1 b') (size2 b') (pos b') (source m b :: xs) /\
  forall x, ~ (start b <= x < end_ b) -> m' x = m x.
Proof.
  intros [H1 H2 H3 H4] [S1 S2 S3] Hs Hx. destruct b as [s1 s2 w1 w2 r1 r2 st en p]. buffer_unfold. unfold source in *. cbn [size1 size2 write_ptr1 write_ptr2] in *.
  apply Z.ltb_lt in Hs. unfold apart in S1, S2.
  assert (Hkeep : forall k q n, fwd_holds (mem_copy m p q n) st s1 s2 p k <-> fwd_holds m st s1 s2 p k).
  { intros k q n. split; apply fwd_holds_ext; try lia; intros y Hy; rewrite mem_copy_outside by lia; done. }
  destruct (Z.eqb_spec s2 0) as [-> | Hne]; cbn [negb]; buffer_unfold.
  - split_and!; [done | split; cbn; lia | | intros x Hx'; apply mem_copy_outside; lia].
    cbn [fwd_holds fst snd size1 size2 start pos]. rewrite !mem_read_0. replace (p + s1 - 0 - s1) with p by lia.
    split_and!; [lia | done | apply mem_copy_same | by apply Hkeep].
  - split_and!; [done | split; cbn; lia | | intros x Hx'; rewrite !mem_copy_outside by lia; done].
    cbn [fwd_holds fst snd size1 size2 start pos].
    replace (p + s1 + s2 - s2) with (p + s1) by lia. replace (p + s1 - s1) with p by lia. split_and!; [lia | | |].
    + rewrite mem_copy_same. apply mem_copy_other. unfold apart. lia.
    + rewrite mem_copy_other by (unfold apart; lia). apply mem_copy_same.
    + eapply fwd_holds_ext; [lia | lia | | by apply Hkeep]. intros y Hy. by rewrite mem_copy_outside by lia.
Qed.

Lemma bwd_write_law m b xs :
  buffer_ok b -> source_ok b -> bwd_have_space_for b (size1 b + size2 b) = true ->
  bwd_holds m (end_ b) (size1 b) (size2 b) (pos b) xs ->
  let '(m', b') := bwd_write m b in
  b' = set_pos b (pos b') /\ buffer_ok b' /\
  bwd_holds m' (end_ b') (size1 b') (size2 b') (pos b') (source m b :: xs) /\
  forall x, ~ (start b <= x < end_ b) -> m' x = m x.
Proof.
  intros [H1 H2 H3 H4] [S1 S2 S3] Hs Hx. destruct b as [s1 s2 w1 w2 r1 r2 st en p]. buffer_unfold. unfold source in *. cbn [size1 size2 write_ptr1 write_ptr2] in *.
  apply Z.leb_le in Hs. unfold apart in S1, S2.
  destruct (Z.eqb_spec w2 0) as [-> | Hne]; cbn [negb]; buffer_unfold.
  - assert (s2 = 0) as -> by auto. split_and!; [done | split; cbn; lia | | intros x Hx'; apply mem_copy_outside; lia].
    cbn [bwd_holds fst snd size1 size2 end_ pos]. rewrite !mem_read_0. replace (p - s1 + s1 + 0) with p by lia.
    split_and!; [lia | apply mem_copy_same | done |]. eapply bwd_holds_ext; [lia | lia | | exact Hx].
    intros y Hy. by rewrite mem_copy_outside by lia.
  - split_and!; [done | split; cbn; lia | | intros x Hx'; rewrite !mem_copy_outside by lia; done].
    cbn [bwd_holds fst snd size1 size2 end_ pos].
    replace (p - s2 - s1 + s1) with (p - s2) by lia. replace (p - s2 + s2) with p by lia. split_and!; [lia | | |].
    + rewrite mem_copy_same. apply mem_copy_other. unfold apart. lia.
    + rewrite mem_copy_other by (unfold apart; lia). apply mem_copy_same.
    + eapply bwd_holds_ext; [lia | lia | | exact Hx]. intros y Hy. by rewrite !mem_copy_outside by lia.
Qed.

#[export] Program Instance Forward_ok : LifoBuffer Forward := {
  holds m b p xs := fwd_holds m (start b) (size1 b) (size2 b) p xs
}.
Next Obligation. intros m b []. split; [done |]. buffer_unfold. split; cbn; lia. Qed.
Next Obligation. intros m b xs [] H%fwd_holds_pos. buffer_unfold. lia. Qed.
Next Obligation. intros. by apply fwd_write_law. Qed.
Next Obligation.
  intros m b c x xs [H1 H2 H3 H4] Hc Hx. pose proof (fwd_holds_pos _ _ _ _ _ _ Hx) as Hp. destruct Hx as (A1 & A2 & A3 & A4).
  pose proof (fwd_holds_pos _ _ _ _ _ _ A4) as Hp'.
  destruct b as [s1 s2 w1 w2 r1 r2 st en p], c as [q r1' r2']. buffer_unfold. rewrite (proj2 (Z.leb_le _ _)) by lia. cbn [negb].
  destruct (Z.eqb_spec s2 0) as [-> | Hne]; cbn [negb]; buffer_unfold.
  - replace (q - 0 - s1) with (q - s1) in * by lia. split_and!; intros; first [done | lia].
  - split_and!; intros; first [done | lia].
Qed.
Next Obligation. intros m b [q r1 r2] [] Hx. buffer_unfold. cbn in Hx. subst q. rewrite (proj2 (Z.leb_gt _ _)) by lia. done. Qed.
Next Obligation.
  intros m m' b b' p xs Hm [] Hp (E1 & E2 & E3 & E4) Hx. rewrite ?E1, ?E2, ?E3, ?E4. eapply fwd_holds_ext; [lia | lia | | done].
  intros y Hy. apply Hm. lia.
Qed.

#[export] Program Instance Backward_ok : LifoBuffer Backward := {
  holds m b p xs := bwd_holds m (end_ b) (size1 b) (size2 b) p xs
}.
Next Obligation. intros m b []. split; [done |]. buffer_unfold. split; cbn; lia. Qed.
Next Obligation. intros m b xs [] H%bwd_holds_pos. buffer_unfold. lia. Qed.
Next Obligation. intros. by apply bwd_write_law. Qed.
Next Obligation.
  intros m b c x xs [H1 H2 H3 H4] Hc Hx. pose proof (bwd_holds_pos _ _ _ _ _ _ Hx) as Hp. destruct Hx as (A1 & A2 & A3 & A4).
  pose proof (bwd_holds_pos _ _ _ _ _ _ A4) as Hp'.
  destruct b as [s1 s2 w1 w2 r1 r2 st en p], c as [q r1' r2']. buffer_unfold. rewrite (proj2 (Z.leb_le _ _)) by lia. cbn [negb].
  destruct (Z.eqb_spec s2 0) as [-> | Hne]; cbn [negb]; buffer_unfold.
  - replace (q + s1 + 0) with (q + s1) in * by lia. split_and!; intros; first [done | lia].
  - split_and!; intros; first [done | lia].
Qed.
Next Obligation. intros m b [q r1 r2] [] Hx. buffer_unfold. cbn in Hx. subst q. rewrite (proj2 (Z.leb_gt _ _)) by lia. done. Qed.
Next Obligation.
  intros m m' b b' p xs Hm [] Hp (E1 & E2 & E3 & E4) Hx. rewrite ?E1, ?E2, ?E3, ?E4. eapply bwd_holds_ext; [lia | lia | | done].
  intros y Hy. apply Hm. lia.
Qed.

(** ** Clients of the contract *)

Section client.
Context {Ops : LifoOps} {LO : LifoBuffer Ops}.

(** The caller points the buffer at the data, checks the space and writes. *)
Definition put (m : bytes) (b : buffer) (src : Z * Z) : option (bytes * buffer) :=
  let b := Buffer (size1 b) (size2 b) src.1 src.2 (read_ptr1 b) (read_ptr2 b) (start b) (end_ b) (pos b) in
  if can_write b then Some (write m b) else None.

Fixpoint fill (m : bytes) (b : buffer) (srcs : list (Z * Z)) : option (bytes * buffer) :=
  match srcs with
  | [] => Some (m, b)
  | src :: srcs => '(m, b) ← put m b src; fill m b srcs
  end.

(** Reading until EOF: the data the pointers show. *)
Fixpoint drain (fuel : nat) (m : bytes) (b : buffer) : option (list element * buffer) :=
  match fuel with
  | O => None
  | S fuel =>
    let '(eof, b) := read b in
    if (eof : bool) then Some ([], b) else
    let x := (mem_read m (read_ptr1 b) (size1 b), mem_read m (read_ptr2 b) (size2 b)) in
    '(xs, b) ← drain fuel m b; Some (x :: xs, b)
  end.

(** [Lifo_buffer_iterator]: a cursor of its own over the buffer. *)
(* [sql_lifo_buffer.h:341-345 init] *)
Definition iter_init (b : buffer) : cursor := Cursor (pos b) 0 0.

(* [sql_lifo_buffer.h:353-356 read] *)
Definition iter_read (b : buffer) (c : cursor) : bool * cursor := read_at b c.

Fixpoint iter_walk (fuel : nat) (m : bytes) (b : buffer) (c : cursor) : option (list element * cursor) :=
  match fuel with
  | O => None
  | S fuel =>
    let '(eof, c) := iter_read b c in
    if (eof : bool) then Some ([], c) else
    let x := (mem_read m (c_ptr1 c) (size1 b), mem_read m (c_ptr2 c) (size2 b)) in
    '(xs, c) ← iter_walk fuel m b c; Some (x :: xs, c)
  end.

Definition shape (b : buffer) (x : element) : Prop := size2 b = 0 -> x.2 = [].

Lemma read_elem m b c x xs :
  buffer_ok b -> start b <= c_pos c <= end_ b -> holds m b (c_pos c) (x :: xs) -> shape b x ->
  exists c', read_at b c = (false, c') /\ holds m b (c_pos c') xs /\ start b <= c_pos c' <= end_ b /\
    (mem_read m (c_ptr1 c') (size1 b), mem_read m (c_ptr2 c') (size2 b)) = x.
Proof using.
  intros Hb Hc Hx Hs. pose proof (holds_read m b c x xs Hb Hc Hx) as Hr. destruct (read_at b c) as [eof c'].
  destruct Hr as (-> & H1 & H2 & H3 & H4 & H5). exists c'. split_and!; try done; try lia.
  destruct x as [x1 x2]. cbn in *. f_equal; [done |]. destruct (decide (size2 b = 0)) as [E | E]; [| by apply H4].
  unfold shape in Hs. cbn in Hs. rewrite E, (Hs E). done.
Qed.

Lemma iter_walk_ok m b xs : forall c fuel,
  buffer_ok b -> start b <= c_pos c <= end_ b -> holds m b (c_pos c) xs -> Forall (shape b) xs -> (length xs < fuel)%nat ->
  exists c', iter_walk fuel m b c = Some (xs, c') /\ holds m b (c_pos c') [] /\ start b <= c_pos c' <= end_ b.
Proof using.
  induction xs as [| x xs IH]; intros c fuel Hb Hc Hx Hs Hf; (destruct fuel as [| fuel]; [lia |]); cbn [iter_walk]; unfold iter_read.
  - rewrite (holds_read_empty m) by done. exists c. done.
  - apply Forall_cons in Hs as [Hs Hss]. destruct (read_elem m b c x xs Hb Hc Hx Hs) as (c1 & R & Hx1 & Hc1 & E). rewrite R, E.
    destruct (IH c1 fuel) as (c' & R2 & H2 & H3); try done; [cbn in Hf; lia |]. exists c'. rewrite R2. done.
Qed.

Lemma drain_ok m xs : forall b fuel,
  buffer_ok b -> holds m b (pos b) xs -> Forall (shape b) xs -> (length xs < fuel)%nat ->
  exists b', drain fuel m b = Some (xs, b') /\ holds m b' (pos b') [] /\ buffer_ok b'.
Proof using.
  induction xs as [| x xs IH]; intros b fuel Hb Hx Hs Hf; (destruct fuel as [| fuel]; [lia |]); cbn [drain]; unfold read.
  - rewrite (holds_read_empty m) by done. cbn [c_pos c_ptr1 c_ptr2]. exists b. by destruct b.
  - apply Forall_cons in Hs as [Hs Hss].
    destruct (read_elem m b (Cursor (pos b) (read_ptr1 b) (read_ptr2 b)) x xs Hb) as (c1 & R & Hx1 & Hc1 & E);
      [destruct Hb; cbn; lia | done | done |]. rewrite R. cbn [c_pos c_ptr1 c_ptr2 size1 size2 read_ptr1 read_ptr2]. rewrite E.
    set (b1 := Buffer _ _ _ _ _ _ _ _ _).
    assert (Hb1 : buffer_ok b1) by (destruct Hb; split; cbn; lia || done).
    assert (Hx1' : holds m b1 (pos b1) xs).
    { by apply (holds_ext m m b b1 (pos b1)). }
    destruct (IH b1 fuel) as (b' & R2 & H2 & H3); try done; [cbn in Hf; lia |]. exists b'. by rewrite R2.
Qed.

(** The data the sources show. *)
Definition src_elem (m : bytes) (b : buffer) (src : Z * Z) : element := (mem_read m src.1 (size1 b), mem_read m src.2 (size2 b)).

Definition src_ok (b : buffer) (src : Z * Z) : Prop :=
  apart src.1 (size1 b) (start b) (end_ b - start b) /\ apart src.2 (size2 b) (start b) (end_ b - start b) /\ (src.2 = 0 -> size2 b = 0).

Lemma fill_ok srcs : forall m b m' b' xs,
  buffer_ok b -> holds m b (pos b) xs -> Forall (src_ok b) srcs -> fill m b srcs = Some (m', b') ->
  buffer_ok b' /\ holds m' b' (pos b') (reverse (src_elem m b <$> srcs) ++ xs) /\ same_space b b' /\
  (forall x, ~ (start b <= x < end_ b) -> m' x = m x).
Proof using.
  induction srcs as [| src srcs IH]; intros m b m' b' xs Hb Hx Hs R; cbn [fill] in R.
  { injection R as <- <-. done. }
  apply Forall_cons in Hs as [(S1 & S2 & S3) Hss]. unfold put in R.
  set (b1 := Buffer (size1 b) (size2 b) src.1 src.2 _ _ _ _ _) in R.
  assert (Hb1 : buffer_ok b1) by (destruct Hb; split; cbn; lia || done).
  assert (Hx1 : holds m b1 (pos b1) xs) by (apply (holds_ext m m b b1 (pos b)); destruct Hb; done).
  destruct (can_write b1) eqn:Ec; [| done]. cbn in R.
  assert (Hsrc : source_ok b1) by (split; cbn; done).
  pose proof (holds_write m b1 xs Hb1 Hsrc Ec Hx1) as Hw. destruct (write m b1) as [m2 b2]. destruct Hw as (E2 & Hb2 & Hx2 & Hm2).
  assert (Hsp : same_space b b2) by (rewrite E2; done).
  destruct (IH m2 b2 m' b' _ Hb2 Hx2) as (A1 & A2 & A3 & A4); [| exact R |].
  { eapply Forall_impl; [exact Hss |]. intros s0 H0. rewrite E2. exact H0. }
  assert (Helem : src_elem m2 b2 <$> srcs = src_elem m b <$> srcs).
  { apply list_fmap_ext. intros i s0 Hi. rewrite Forall_forall in Hss. destruct (Hss s0) as (T1 & T2 & _); [by eapply list_elem_of_lookup_2 |].
    unfold src_elem. rewrite E2. cbn. unfold apart in *. f_equal; apply mem_read_ext; intros y Hy; apply Hm2; cbn; lia. }
  rewrite Helem in A2. split_and!; [done | | |].
  - cbn [fmap list_fmap]. rewrite reverse_cons, <- app_assoc. exact A2.
  - rewrite E2 in A3. exact A3.
  - intros x Hxx. rewrite A4; [by apply Hm2 |]. rewrite E2. done.
Qed.
End client.

(** For either buffer: after writing elements (each after [can_write] said
    yes), reading until EOF returns exactly their data, last written first, and
    leaves the buffer empty; an iterator started before sees the same sequence
    without changing the buffer, and no byte outside the buffer's space was
    written. *)
Theorem lifo_roundtrip (Ops : LifoOps) (LO : LifoBuffer Ops) (m m' : bytes) (b b' : buffer) (srcs : list (Z * Z)) (fuel : nat) :
  buffer_ok b -> Forall (src_ok (reset b)) srcs -> fill m (reset b) srcs = Some (m', b') -> (length srcs < fuel)%nat ->
  let data := reverse (src_elem m (reset b) <$> srcs) in
  (exists c, iter_walk fuel m' b' (iter_init b') = Some (data, c)) /\
  (exists b2, drain fuel m' b' = Some (data, b2) /\ is_empty b2 = true) /\
  (forall x, ~ (start (reset b) <= x < end_ (reset b)) -> m' x = m x).
Proof.
  intros Hb Hs R Hf data. destruct (holds_reset m b Hb) as [Hx Hb0].
  destruct (fill_ok srcs m (reset b) m' b' [] Hb0 Hx Hs R) as (Hb' & Hx' & Hsp & Hm). rewrite app_nil_r in Hx'. fold data in Hx'.
  assert (Hsh : Forall (shape b') data).
  { unfold data. rewrite Forall_forall. intros x Hin. apply elem_of_reverse, list_elem_of_fmap in Hin as (src & -> & _).
    intros E. destruct Hsp as (_ & E2 & _). unfold src_elem. cbn. rewrite <- E2, E. done. }
  assert (Hlen : (length data < fuel)%nat) by (unfold data; by rewrite length_reverse, length_fmap).
  split_and!; [| | done].
  - destruct (iter_walk_ok m' b' data (iter_init b') fuel) as (c & R1 & _); try done; [destruct Hb'; cbn; lia |]. by exists c.
  - destruct (drain_ok m' data b' fuel) as (b2 & R2 & H2 & H3); try done. exists b2. split; [done |].
    unfold is_empty. rewrite (holds_used m' b2 []) by done. done.
Qed.

(** Space 100..110, elements of one byte with a companion of two; the sources are at 0 and 10. *)
Definition demo : buffer := Buffer 1 2 0 0 0 0 100 110 110.
Definition demo_bytes : bytes := fun x => x mod 7.

Lemma demo_ok : buffer_ok demo /\ Forall (src_ok (bwd_reset demo)) [(1, 10); (2, 20); (3, 30)].
Proof. split; [split; cbn; lia |]. repeat constructor; unfold apart; cbn; lia. Qed.

Lemma lifo_roundtrip_witness :
  exists m' b', fill demo_bytes (bwd_reset demo) [(1, 10); (2, 20); (3, 30)] = Some (m', b') /\
  let data := [([3], [2; 3]); ([2], [6; 0]); ([1], [3; 4])] in
  (exists c, iter_walk 4 m' b' (iter_init b') = Some (data, c)) /\
  (exists b2, drain 4 m' b' = Some (data, b2) /\ is_empty b2 = true) /\
  (forall x, ~ (start (bwd_reset demo) <= x < end_ (bwd_reset demo)) -> m' x = demo_bytes x).
Proof.
  eexists _, _. split; [reflexivity |].
  apply (lifo_roundtrip Backward Backward_ok demo_bytes _ demo _ [(1, 10); (2, 20); (3, 30)] 4); [apply demo_ok | apply demo_ok | reflexivity | cbn; lia].
Defined.

(** How full a buffer can get: with [k] elements in it, the backward buffer
    takes another one as long as [(k + 1)] elements fit its space; the forward
    buffer compares strictly and so never uses the last byte of its space.  When
    [can_write] holds, both parts of the element pass the check that
    [write_bytes] asserts. *)
Theorem lifo_capacity (m : bytes) (b : buffer) (xs : list element) :
  buffer_ok b ->
  let size := size1 b + size2 b in
  let k := Z.of_nat (length xs) in
  (@holds Forward _ m b (pos b) xs ->
     @can_write Forward b = ((k + 1) * size <? end_ b - start b) /\
     (@can_write Forward b = true -> fwd_have_space_for b (size1 b) = true /\
        fwd_have_space_for (fwd_write_bytes m b (write_ptr1 b) (size1 b)).2 (size2 b) = true)) /\
  (@holds Backward _ m b (pos b) xs ->
     @can_write Backward b = ((k + 1) * size <=? end_ b - start b) /\
     (@can_write Backward b = true -> bwd_have_space_for b (size2 b) = true /\
        bwd_have_space_for (bwd_write_bytes m b (write_ptr2 b) (size2 b)).2 (size1 b) = true)).
Proof.
  intros [H1 H2 H3 H4] size k. split.
  - intros Hx%fwd_holds_pos. unfold can_write. buffer_unfold. fold size in Hx |- *. fold k in Hx. split.
    + apply Bool.eq_iff_eq_true. rewrite !Z.ltb_lt. lia.
    + cbn [snd pos end_]. rewrite !Z.ltb_lt. unfold size. lia.
  - intros Hx%bwd_holds_pos. unfold can_write. buffer_unfold. fold size in Hx |- *. fold k in Hx. split.
    + apply Bool.eq_iff_eq_true. rewrite !Z.leb_le. lia.
    + cbn [snd pos start]. rewrite !Z.leb_le. unfold size. lia.
Qed.

Lemma lifo_capacity_witness :
  let b := fwd_reset (Buffer 4 0 0 0 0 0 100 104 100) in
  @can_write Forward b = false /\ @can_write Backward (bwd_reset b) = true.
Proof.
  split.
  - destruct (lifo_capacity demo_bytes (fwd_reset (Buffer 4 0 0 0 0 0 100 104 100)) []) as [H _]; [split; cbn; lia |].
    destruct (H eq_refl) as [E _]. rewrite E. reflexivity.
  - reflexivity.
Defined.

(** Space moves between two adjacent buffers, the forward one below the
    backward one: what [remove_unused_space] gives up is exactly what [grow] may
    take; both keep their contents, their spaces stay adjacent and disjoint, and
    writing to the grown forward buffer leaves the backward buffer's elements
    alone. *)
Theorem lifo_space_transfer (m : bytes) (f b : buffer) (xs ys : list element) :
  buffer_ok f -> buffer_ok b -> end_ f = start b ->
  @holds Forward _ m f (pos f) xs -> @holds Backward _ m b (pos b) ys ->
  let '(s, e, b') := bwd_remove_unused_space b in
  let f' := fwd_grow f s e in
  s = end_ f /\ s <= e /\ end_ f' = start b' /\ buffer_ok f' /\ buffer_ok b' /\
  @holds Forward _ m f' (pos f') xs /\ @holds Backward _ m b' (pos b') ys /\
  (source_ok f' -> @can_write Forward f' = true ->
     let '(m2, f2) := fwd_write m f' in
     @holds Forward _ m2 f2 (pos f2) (source m f' :: xs) /\ @holds Backward _ m2 b' (pos b') ys).
Proof.
  intros Hf Hb E Hx Hy. unfold bwd_remove_unused_space. set (f' := fwd_grow f (start b) (pos b)). set (b' := set_space b (pos b) (end_ b)).
  pose proof Hf as [F1 F2 F3 F4]. pose proof Hb as [B1 B2 B3 B4].
  assert (Hf' : buffer_ok f') by (split; cbn; lia). assert (Hb' : buffer_ok b') by (split; cbn; lia).
  assert (Hx' : @holds Forward _ m f' (pos f') xs) by exact Hx.
  split_and!; try done; try lia. intros Hs Hc. pose proof (fwd_write_law m f' xs Hf' Hs Hc Hx') as Hw.
  destruct (fwd_write m f') as [m2 f2]. destruct Hw as (_ & _ & W3 & W4). split; [exact W3 |].
  eapply bwd_holds_ext; [cbn; lia | cbn; lia | | exact Hy]. intros x Hxx. apply W4. cbn in *. lia.
Qed.

Lemma lifo_space_transfer_witness :
  let f := Buffer 1 0 1 0 0 0 90 100 95 in
  let '(s, e, b') := bwd_remove_unused_space (Buffer 1 0 0 0 0 0 100 110 108) in
  let f' := fwd_grow f s e in
  (s = 100 /\ e = 108) /\
  exists xs ys, length xs = 5%nat /\ length ys = 2%nat /\
    @holds Forward _ demo_bytes f' (pos f') xs /\ @holds Backward _ demo_bytes b' (pos b') ys.
Proof.
  split; [done |].
  exists ((fun x => ([demo_bytes x], [])) <$> [94; 93; 92; 91; 90]), ((fun x => ([demo_bytes x], [])) <$> [108; 109]).
  destruct (lifo_space_transfer demo_bytes (Buffer 1 0 1 0 0 0 90 100 95) (Buffer 1 0 0 0 0 0 100 110 108)
    ((fun x => ([demo_bytes x], [])) <$> [94; 93; 92; 91; 90]) ((fun x => ([demo_bytes x], [])) <$> [108; 109])) as (_ & _ & _ & _ & _ & H1 & H2 & _).
  - split; cbn; lia.
  - split; cbn; lia.
  - reflexivity.
  - repeat split; cbn; lia.
  - repeat split; cbn; lia.
  - done.
Defined.
