(* ===== verification/TranxAlloc.v ===== *)
(** * TranxAlloc: the node allocator of semi-synchronous replication (semisync_master.h)

    [Tranx_node_allocator] hands out the nodes of the active-transaction list from
    blocks of sixteen, in order, and frees them from the front.  The store maps
    the address of each block to its [next] pointer and nodes; the addresses of
    nodes are the real ones (64-bit layout), because [free_nodes_before] finds the
    block of a node by comparing pointers. *)

From stdpp Require Import base numbers option list gmap sets.
From Stdlib Require Import ZArith Lia.
From S2P Require Import Prelude.

Local Open Scope Z_scope.

(** ** Data *)

(* [semisync_master.h:31-36 Tranx_node] *)
Record Tranx_node := TN { log_name : list Z; log_pos : Z; next : Z; hash_next : Z }.

(* [semisync_master.h:71-71 BLOCK_TRANX_NODES] *)
Definition BLOCK_TRANX_NODES : Z := 16.

(* [semisync_master.h:197-200 Block] *)
Record Block := Blk { blk_next : Z; nodes : list Tranx_node }.

(** The layout of [Block]: [next], then sixteen nodes of
    [FN_REFLEN + 3 * 8] bytes. *)
Definition sizeof_Tranx_node : Z := 512 + 3 * 8.
Definition sizeof_Block : Z := 8 + BLOCK_TRANX_NODES * sizeof_Tranx_node.

(** [&(block->nodes[i])]. *)
Definition node_addr (block i : Z) : Z := block + 8 + i * sizeof_Tranx_node.

(** The members and, in [blocks], what they point to; 0 is [NULL]. *)
(* [semisync_master.h:187-227 Tranx_node_allocator] *)
Record Tranx_node_allocator := TNA {
  reserved_blocks : Z; first_block : Z; last_block : Z; current_block : Z; last_node : Z; block_num : Z;
  blocks : gmap Z Block }.

Definition with_current (a : Tranx_node_allocator) (c l : Z) : Tranx_node_allocator :=
  TNA (reserved_blocks a) (first_block a) (last_block a) c l (block_num a) (blocks a).
Definition with_ends (a : Tranx_node_allocator) (f l : Z) : Tranx_node_allocator :=
  TNA (reserved_blocks a) f l (current_block a) (last_node a) (block_num a) (blocks a).
Definition with_blocks (a : Tranx_node_allocator) (n : Z) (h : gmap Z Block) : Tranx_node_allocator :=
  TNA (reserved_blocks a) (first_block a) (last_block a) (current_block a) (last_node a) n h.

(** [block->next] and [block->next= v]; no result when [block] is not a block. *)
Definition get_next (h : gmap Z Block) (b : Z) : option Z := blk_next <$> h !! b.
Definition set_next (h : gmap Z Block) (b v : Z) : option (gmap Z Block) :=
  blk ← h !! b; Some (<[b := Blk v (nodes blk)]> h).

(** What [my_malloc] returns: nothing, or an address and what lies there. *)
Abbreviation malloc_result := (option (Z * list Tranx_node)).

(** ** Operations *)

(* [semisync_master.h:82-86 Tranx_node_allocator] *)
Definition tranx_init (reserved_nodes : Z) : Tranx_node_allocator :=
  TNA (u32 (reserved_nodes `div` BLOCK_TRANX_NODES + (if 1 <? reserved_nodes `mod` BLOCK_TRANX_NODES then 2 else 1)))
    0 0 0 (-1) 0 ∅.

(* [semisync_master.h:232-252 allocate_block] *)
Definition allocate_block (m : malloc_result) (a : Tranx_node_allocator) : option (Z * Tranx_node_allocator) :=
  match m with
  | Some (block, garbage) =>
      let h := <[block := Blk 0 garbage]> (blocks a) in
      h ← (if first_block a =? 0 then Some h else set_next h (last_block a) block);
      let f := if first_block a =? 0 then block else first_block a in
      Some (0, TNA (reserved_blocks a) f block block (last_node a) (u32 (block_num a + 1)) h)
  | None => Some (1, a)
  end.

(* [semisync_master.h:258-262 free_block] *)
Definition free_block (block : Z) (a : Tranx_node_allocator) : option Tranx_node_allocator :=
  _ ← blocks a !! block; Some (with_blocks a (u32 (block_num a - 1)) (delete block (blocks a))).

(** The loop of [free_blocks]: the new [block] and allocator. *)
(* [semisync_master.h:279-284 free_blocks] *)
Fixpoint free_blocks_loop (fuel : nat) (block : Z) (a : Tranx_node_allocator) : option (Z * Tranx_node_allocator) :=
  match fuel with
  | O => None
  | S fuel =>
      if (reserved_blocks a <? block_num a) && negb (block =? 0) then
        next ← get_next (blocks a) block; a ← free_block block a; free_blocks_loop fuel next a
      else Some (block, a)
  end.

(** [size (blocks a)] bounds the blocks that can be freed. *)
(* [semisync_master.h:272-288 free_blocks] *)
Definition free_blocks (a : Tranx_node_allocator) : option Tranx_node_allocator :=
  if current_block a =? 0 then Some a else
  n ← get_next (blocks a) (current_block a);
  if n =? 0 then Some a else
  block ← get_next (blocks a) n;
  '(block, a) ← free_blocks_loop (S (size (blocks a))) block a;
  n ← get_next (blocks a) (current_block a);
  h ← set_next (blocks a) n block;
  let a := with_blocks a (block_num a) h in
  if block =? 0 then (n ← get_next (blocks a) (current_block a); Some (with_ends a (first_block a) n)) else Some a.

(* [semisync_master.h:127-130 allocate_node] *)
Definition clear_node (t : Tranx_node) : Tranx_node := TN (<[0%nat := 0]> (log_name t)) 0 0 0.

(* [semisync_master.h:126-131 allocate_node] *)
Definition take_node (a : Tranx_node_allocator) : option (Z * Tranx_node_allocator) :=
  let a := with_current a (current_block a) (last_node a + 1) in
  blk ← blocks a !! current_block a;
  trx_node ← nodes blk !! Z.to_nat (last_node a);
  let blk := Blk (blk_next blk) (<[Z.to_nat (last_node a) := clear_node trx_node]> (nodes blk)) in
  Some (node_addr (current_block a) (last_node a), with_blocks a (block_num a) (<[current_block a := blk]> (blocks a))).

(** The result is the address of the node, or [NULL]. *)
(* [semisync_master.h:107-132 allocate_node] *)
Definition allocate_node (m : malloc_result) (a : Tranx_node_allocator) : option (Z * Tranx_node_allocator) :=
  let block := current_block a in
  a ← (if last_node a =? BLOCK_TRANX_NODES - 1
       then (c ← get_next (blocks a) (current_block a); Some (with_current a c (-1))) else Some a);
  '(failed, a) ← (if current_block a =? 0 then allocate_block m a else Some (0, a));
  if negb (failed =? 0) then
    Some (0, with_current a block (if negb (block =? 0) then BLOCK_TRANX_NODES - 1 else last_node a))
  else take_node a.

(* [semisync_master.h:139-145 free_all_nodes] *)
Definition free_all_nodes (a : Tranx_node_allocator) : option (Z * Tranx_node_allocator) :=
  a ← free_blocks (with_current a (first_block a) (-1)); Some (0, a).

(* [semisync_master.h:164-164 free_nodes_before] *)
Definition in_block (block node : Z) : bool :=
  (node_addr block 0 <=? node) && (node <=? node_addr block BLOCK_TRANX_NODES).

(** Behind the loop [DBUG_ASSERT(0)] fails: the node was not found. *)
(* [semisync_master.h:161-183 free_nodes_before] *)
Fixpoint free_before_loop (fuel : nat) (node block prev_block : Z) (a : Tranx_node_allocator) :
    option (Z * Tranx_node_allocator) :=
  match fuel with
  | O => None
  | S fuel =>
      stop ← get_next (blocks a) (current_block a);
      if negb (block =? stop) then
        if in_block block node then
          if negb (first_block a =? block) then
            h ← set_next (blocks a) (last_block a) (first_block a);
            h ← set_next h prev_block 0;
            a ← free_blocks (with_blocks (with_ends a block prev_block) (block_num a) h);
            Some (0, a)
          else Some (0, a)
        else (next ← get_next (blocks a) block; free_before_loop fuel node next block a)
      else None
  end.

(* [semisync_master.h:155-184 free_nodes_before] *)
Definition free_nodes_before (node : Z) (a : Tranx_node_allocator) : option (Z * Tranx_node_allocator) :=
  free_before_loop (S (size (blocks a))) node (first_block a) 0 a.

(* [semisync_master.h:88-97 ~Tranx_node_allocator] *)
Fixpoint destroy_loop (fuel : nat) (block : Z) (a : Tranx_node_allocator) : option Tranx_node_allocator :=
  match fuel with
  | O => None
  | S fuel =>
      if negb (block =? 0) then
        next ← get_next (blocks a) block; a ← free_block block a; destroy_loop fuel next a
      else Some a
  end.
(* [semisync_master.h:88-97 ~Tranx_node_allocator] *)
Definition destroy (a : Tranx_node_allocator) : option Tranx_node_allocator :=
  destroy_loop (S (size (blocks a))) (first_block a) a.

(** ** The block list *)

Lemma elem_of_take_elem {A} (l : list A) k x : x ∈ take k l -> x ∈ l.
Proof. intros (i & Hi%list_elem_of_lookup_2 & _)%elem_of_take. done. Qed.

Lemma elem_of_drop_elem {A} (l : list A) k x : x ∈ drop k l -> x ∈ l.
Proof. intros Hx. rewrite <- (take_drop k l). apply elem_of_app. by right. Qed.

Ltac in_list := repeat first [rewrite elem_of_app | rewrite elem_of_cons | rewrite list_elem_of_singleton]; tauto.

(** The pointer to the first of [bs], or [e]. *)
Definition hd (bs : list Z) (e : Z) : Z := match bs with [] => e | b :: _ => b end.

(** Every block of [bs] points to the following one, the last one to [e]. *)
Fixpoint nexts (h : gmap Z Block) (bs : list Z) (e : Z) : Prop :=
  match bs with [] => True | b :: bs => get_next h b = Some (hd bs e) /\ nexts h bs e end.

Lemma hd_app l1 l2 e : hd (l1 ++ l2) e = hd l1 (hd l2 e).
Proof. by destruct l1. Qed.

Lemma nexts_app h l1 l2 e : nexts h (l1 ++ l2) e <-> nexts h l1 (hd l2 e) /\ nexts h l2 e.
Proof. induction l1 as [| b l1 IH]; cbn [app nexts]; [tauto |]. rewrite IH, hd_app. tauto. Qed.

Lemma nexts_frame h h' bs e : (forall b, b ∈ bs -> get_next h' b = get_next h b) -> nexts h bs e -> nexts h' bs e.
Proof.
  induction bs as [| b bs IH]; intros Hf; [done |]. intros [H1 H2]. split; [by rewrite Hf by left |].
  apply IH; [| done]. intros b' Hb'. apply Hf. by right.
Qed.

Lemma nexts_retarget h h' bs b e e' :
  nexts h (bs ++ [b]) e -> (forall b', b' ∈ bs -> get_next h' b' = get_next h b') -> get_next h' b = Some e' ->
  nexts h' (bs ++ [b]) e'.
Proof.
  rewrite !nexts_app. intros [H1 _] Hf Hb. split; [by apply nexts_frame with h | by split].
Qed.

Lemma get_next_elem h bs e b : nexts h bs e -> b ∈ bs -> is_Some (get_next h b).
Proof. induction bs as [| c bs IH]; [by intros _ ?%elem_of_nil |]. intros [H1 H2] [-> | Hb]%elem_of_cons; [by eexists | by apply IH]. Qed.

Definition get_nodes (h : gmap Z Block) (b : Z) : option (list Tranx_node) := nodes <$> h !! b.

(** What writing a [next] pointer does. *)
Lemma set_next_ok h b v :
  is_Some (get_next h b) ->
  exists h', set_next h b v = Some h' /\ get_next h' b = Some v /\ dom h' = dom h /\
    (forall c, c <> b -> get_next h' c = get_next h c) /\ (forall c, get_nodes h' c = get_nodes h c).
Proof.
  intros [n Hn]. unfold set_next, get_next, get_nodes in *. destruct (h !! b) as [blk |] eqn:E; [| done]. eexists.
  split; [reflexivity |]. split_and!.
  - by rewrite lookup_insert_eq.
  - rewrite dom_insert_L. apply elem_of_dom_2 in E. set_solver.
  - intros c Hc. by rewrite lookup_insert_ne.
  - intros c. destruct (decide (c = b)) as [-> |]; [by rewrite lookup_insert_eq, E | by rewrite lookup_insert_ne].
Qed.

(** ** The invariant *)

(** [used] are the blocks up to [current_block], [free] those after it; together
    they are all the memory the allocator owns. *)
Record tranx_inv (a : Tranx_node_allocator) (used free : list Z) : Prop := {
  ti_nexts : nexts (blocks a) (used ++ free) 0;
  ti_nodup : NoDup (used ++ free);
  ti_dom : dom (blocks a) = list_to_set (used ++ free);
  ti_first : first_block a = hd (used ++ free) 0;
  ti_last : last_block a = default 0 (last (used ++ free));
  ti_current : current_block a = default 0 (last used);
  ti_num : block_num a = Z.of_nat (length (used ++ free));
  ti_bound : Z.of_nat (length (used ++ free)) < 2 ^ 32;
  ti_last_node : if decide (used = []) then last_node a = -1 /\ free = [] else -1 <= last_node a < 16;
  ti_nodes b ns : get_nodes (blocks a) b = Some ns -> length ns = 16%nat;
  ti_pos b : b ∈ used ++ free -> 0 < b;
  ti_sep b c : b ∈ used ++ free -> c ∈ used ++ free -> b <> c -> sizeof_Block <= Z.abs (b - c)
}.

(** The nodes of a block, and all the nodes of a list of blocks, in order. *)
Definition block_nodes (b : Z) : list (Z * Z) := (fun i => (b, i)) <$> seqZ 0 16.
Definition all_nodes (bs : list Z) : list (Z * Z) := bs ≫= block_nodes.

(** The nodes handed out and not given back: up to [last_node] of the current block. *)
Definition live (a : Tranx_node_allocator) (used : list Z) : list (Z * Z) :=
  take (Z.to_nat (16 * (Z.of_nat (length used) - 1) + last_node a + 1)) (all_nodes used).

(** The contents of a node. *)
Definition node_at (h : gmap Z Block) (n : Z * Z) : option Tranx_node :=
  ns ← get_nodes h n.1; ns !! Z.to_nat n.2.

Lemma length_all_nodes bs : length (all_nodes bs) = (16 * length bs)%nat.
Proof. induction bs as [| b bs IH]; [done |]. unfold all_nodes in *. cbn [mbind list_bind]. rewrite length_app, IH. unfold block_nodes. rewrite length_fmap, length_seqZ. cbn [length]. lia. Qed.

Lemma all_nodes_app l1 l2 : all_nodes (l1 ++ l2) = all_nodes l1 ++ all_nodes l2.
Proof. apply bind_app. Qed.

Lemma elem_of_all_nodes n bs : n ∈ all_nodes bs <-> n.1 ∈ bs /\ 0 <= n.2 < 16.
Proof.
  unfold all_nodes. rewrite list_elem_of_bind. split.
  - intros (b & (i & -> & Hi%elem_of_seqZ)%list_elem_of_fmap & Hb). done.
  - intros [Hb Hi]. exists n.1. split; [| done]. apply list_elem_of_fmap. exists n.2. split; [by destruct n |]. apply elem_of_seqZ. lia.
Qed.

Lemma live_snoc a used c :
  -1 <= last_node a < 16 -> live a (used ++ [c]) = all_nodes used ++ take (Z.to_nat (last_node a + 1)) (block_nodes c).
Proof.
  intros Hl. unfold live. rewrite all_nodes_app, length_app. cbn [length].
  replace (Z.to_nat _) with (length (all_nodes used) + Z.to_nat (last_node a + 1))%nat by (rewrite length_all_nodes; lia).
  rewrite take_app_add. unfold all_nodes at 2. cbn [mbind list_bind]. by rewrite app_nil_r.
Qed.

Lemma live_app a l1 l2 : l2 <> [] -> -1 <= last_node a < 16 -> live a (l1 ++ l2) = all_nodes l1 ++ live a l2.
Proof.
  intros Hl2 Hl. destruct (exists_last Hl2) as (l & c & ->). rewrite app_assoc, !live_snoc by done.
  by rewrite all_nodes_app, app_assoc.
Qed.

Lemma live_nil a : last_node a = -1 -> live a [] = [].
Proof. intros E. unfold live. by rewrite E. Qed.

Lemma live_elem a used n : n ∈ live a used -> n.1 ∈ used /\ 0 <= n.2 < 16.
Proof. intros (i & Hi%list_elem_of_lookup_2 & _)%elem_of_take. by apply elem_of_all_nodes. Qed.

(** ** Freeing blocks *)

(** The loop frees a prefix of the blocks it is given, and stops early only when
    few enough blocks are left. *)
Lemma free_blocks_loop_ok fuel rest a :
  nexts (blocks a) rest 0 -> NoDup rest -> (forall b, b ∈ rest -> 0 < b) ->
  Z.of_nat (length rest) <= block_num a < 2 ^ 32 -> (length rest < fuel)%nat ->
  exists k h, free_blocks_loop fuel (hd rest 0) a = Some (hd (drop k rest) 0, with_blocks a (block_num a - Z.of_nat k) h) /\
    (k <= length rest)%nat /\ (drop k rest = [] \/ block_num a - Z.of_nat k <= reserved_blocks a) /\
    dom h = dom (blocks a) ∖ list_to_set (take k rest) /\ (forall b, b ∉ take k rest -> h !! b = blocks a !! b).
Proof.
  revert fuel a. induction rest as [| b rest IH]; intros [| fuel] a Hn Hnd Hpos Hnum Hfuel; try (cbn in Hfuel; lia).
  - exists O, (blocks a). cbn [free_blocks_loop hd]. rewrite andb_false_r. split_and!; try done; [| by left | set_solver].
    unfold with_blocks. rewrite Z.sub_0_r. by destruct a.
  - cbn [free_blocks_loop hd]. destruct (Z.ltb_spec (reserved_blocks a) (block_num a)) as [Hres | Hres].
    + rewrite (proj2 (Z.eqb_neq b 0)) by (pose proof (Hpos b ltac:(left)); lia). cbn [andb negb].
      destruct Hn as [Hb Hn]. apply NoDup_cons in Hnd as [Hbr Hnd]. cbn [length] in *. rewrite Hb. cbn [mbind option_bind].
      unfold free_block. unfold get_next in Hb. destruct (blocks a !! b) as [blk |] eqn:Eb; [| done]. cbn [mbind option_bind].
      unfold u32. rewrite wrap_small by (unfold is_word; lia).
      set (a1 := with_blocks a (block_num a - 1) (delete b (blocks a))).
      destruct (IH fuel a1) as (k & h & E & Hk & Hend & Hdom & Hh); cbn [blocks block_num with_blocks reserved_blocks a1].
      * eapply nexts_frame; [| exact Hn]. intros c Hc. unfold get_next. rewrite lookup_delete_ne; [done |]. by intros ->.
      * done.
      * intros c Hc. apply Hpos. by right.
      * lia.
      * lia.
      * exists (S k), h. cbn [drop take]. subst a1. cbn [blocks block_num with_blocks reserved_blocks] in *.
        split_and!; [| lia | | |].
        -- rewrite E. do 2 f_equal. unfold with_blocks. cbn. f_equal. lia.
        -- destruct Hend; [by left | right; lia].
        -- rewrite Hdom, dom_delete_L. set_solver.
        -- intros c Hc. apply not_elem_of_cons in Hc as [Hcb Hc]. rewrite Hh by done. by rewrite lookup_delete_ne.
    + exists O, (blocks a). cbn [andb drop take hd]. split_and!; [| lia | right; lia | set_solver | done].
      unfold with_blocks. rewrite Z.sub_0_r. by destruct a.
Qed.

Lemma inv_size a used free : tranx_inv a used free -> size (blocks a) = length (used ++ free).
Proof. intros [Hn Hnd Hdom]. rewrite <- size_dom, Hdom. by rewrite size_list_to_set. Qed.

Lemma hd_zero bs : (forall b, b ∈ bs -> 0 < b) -> (hd bs 0 =? 0) = bool_decide (bs = []).
Proof.
  intros Hpos. destruct bs as [| b bs]; [done |]. cbn [hd]. rewrite (proj2 (Z.eqb_neq b 0)); [done |].
  specialize (Hpos b ltac:(left)). lia.
Qed.

(** What [free_blocks] keeps: [used] and its nodes, one free block, and no more
    than [reserved_blocks] blocks otherwise. *)
Definition trimmed (a a' : Tranx_node_allocator) (used free free' : list Z) : Prop :=
  tranx_inv a' used free' /\ last_node a' = last_node a /\ reserved_blocks a' = reserved_blocks a /\
  (length free' <= length free)%nat /\
  Z.of_nat (length (used ++ free')) <= Z.max (reserved_blocks a) (Z.of_nat (length used) + 1) /\
  (forall b, b ∈ used -> get_nodes (blocks a') b = get_nodes (blocks a) b).

Lemma inv_current a used c free : tranx_inv a (used ++ [c]) free -> current_block a = c /\ 0 < c /\ get_next (blocks a) c = Some (hd free 0).
Proof.
  intros [Hn Hnd Hdom Hf Hl Hc Hnum Hbd Hln Hns Hpos Hsep]. rewrite last_snoc in Hc. split_and!; [done | |].
  - apply Hpos. in_list.
  - rewrite <- app_assoc in Hn. apply nexts_app in Hn as [_ Hn]. by destruct Hn.
Qed.

(** The allocator after [k] free blocks behind [f] went. *)
Lemma trimmed_intro a u f rest k h :
  tranx_inv a u (f :: rest) -> u <> [] -> (k <= length rest)%nat ->
  drop k rest = [] \/ block_num a - Z.of_nat k <= reserved_blocks a ->
  nexts h (u ++ f :: drop k rest) 0 -> dom h = list_to_set (u ++ f :: drop k rest) ->
  (forall b, b ∈ u ++ f :: drop k rest -> get_nodes h b = get_nodes (blocks a) b) ->
  trimmed a (TNA (reserved_blocks a) (first_block a) (default f (last (drop k rest))) (current_block a) (last_node a)
               (block_num a - Z.of_nat k) h) u (f :: rest) (f :: drop k rest).
Proof.
  intros [Hn Hnd Hdom Hf Hl Hc Hnum Hbd Hln Hns Hpos Hsep] Hu Hk Hend Hn2 Hdom2 Hnodes.
  assert (Hsub : forall b, b ∈ u ++ f :: drop k rest -> b ∈ u ++ f :: rest).
  { intros b. rewrite !elem_of_app, !elem_of_cons. intros [Hb | [Hb | Hb%elem_of_drop_elem]]; tauto. }
  rewrite !length_app in *. cbn [length] in *.
  split; [| split_and!; cbn [reserved_blocks last_node blocks]; try done].
  - split; cbn [reserved_blocks first_block last_block current_block last_node block_num blocks]; try done.
    + apply NoDup_app in Hnd as (H1 & H2 & [H3 H4]%NoDup_cons). rewrite <- (take_drop k rest), elem_of_app in H3.
      rewrite <- (take_drop k rest) in H4. apply NoDup_app in H4 as (_ & _ & H4).
      apply NoDup_app. split_and!; [done | | by apply NoDup_cons; split; [tauto |]].
      intros b Hb Hb'. apply (H2 b Hb). rewrite <- (take_drop k rest). revert Hb'. rewrite !elem_of_cons, elem_of_app. tauto.
    + rewrite Hf. by destruct u.
    + by rewrite last_app, last_cons_cases.
    + rewrite !length_app. cbn [length]. rewrite length_drop. lia.
    + rewrite !length_app. cbn [length]. rewrite length_drop. lia.
    + by destruct (decide (u = [])).
    + intros b ns Hb. destruct (decide (b ∈ u ++ f :: drop k rest)) as [Hin | Hin]; [rewrite Hnodes in Hb by done; by eapply Hns |].
      unfold get_nodes in Hb. destruct (h !! b) eqn:Eb; [| done]. apply elem_of_dom_2 in Eb. rewrite Hdom2, elem_of_list_to_set in Eb. done.
    + auto.
    + auto.
  - cbn [length]. rewrite length_drop. lia.
  - rewrite length_app. cbn [length]. rewrite length_drop. destruct Hend as [Hend | Hend]; [| lia].
    apply (f_equal length) in Hend. rewrite length_drop in Hend. cbn in Hend. lia.
  - intros b Hb. apply Hnodes. in_list.
Qed.

Lemma free_blocks_ok a used free :
  tranx_inv a used free -> used <> [] -> exists a' free', free_blocks a = Some a' /\ trimmed a a' used free free'.
Proof.
  intros Hinv Hused. pose proof (inv_size _ _ _ Hinv) as Hsize. destruct (exists_last Hused) as (u & c & ->). clear Hused.
  destruct (inv_current _ _ _ _ Hinv) as (Hc & Hc0 & Hnc). assert (Hinv' := Hinv). destruct Hinv as [Hn Hnd Hdom Hf Hl _ Hnum Hbd Hln Hns Hpos Hsep].
  unfold free_blocks. rewrite Hc, (proj2 (Z.eqb_neq c 0)) by lia. rewrite Hnc. cbn [mbind option_bind].
  rewrite hd_zero by (intros; apply Hpos; in_list). destruct free as [| f rest]; cbn [bool_decide decide_rel].
  - case_bool_decide; [| done]. exists a, []. split; [done |]. split; [by split; try rewrite last_snoc |].
    split_and!; try done. rewrite app_nil_r in *. lia.
  - case_bool_decide; [done |]. cbn [hd]. apply nexts_app in Hn as [Hnu [Hnf Hnr]]. rewrite Hnf. cbn [mbind option_bind].
    assert (Hnd' := Hnd). apply NoDup_app in Hnd as (Hndu & Hdis & [Hfr Hndr]%NoDup_cons).
    destruct (free_blocks_loop_ok (S (size (blocks a))) rest a) as (k & h & E & Hk & Hend & Hdomh & Hh); try done.
    { intros b Hb. apply Hpos. in_list. }
    { rewrite Hnum, !length_app in *. cbn [length] in *. lia. }
    { rewrite Hsize, !length_app. cbn [length]. lia. }
    rewrite E. cbn [mbind option_bind blocks block_num current_block first_block with_blocks with_ends]. clear E.
    assert (Hkeep : forall b, b ∈ (u ++ [c]) ++ [f] -> b ∉ take k rest).
    { intros b Hb Hbk%elem_of_take_elem. apply elem_of_app in Hb as [Hb | ->%list_elem_of_singleton]; [| done].
      apply (Hdis b Hb). by right. }
    assert (Hgn : forall b, b ∉ take k rest -> get_next h b = get_next (blocks a) b) by (intros b Hb; unfold get_next; by rewrite Hh).
    rewrite Hc, Hgn, Hnc by (apply Hkeep; in_list). cbn [mbind option_bind hd].
    destruct (set_next_ok h f (hd (drop k rest) 0)) as (h2 & E2 & Hf2 & Hdom2 & Hg2 & Hn2); [rewrite Hgn; [by eexists | apply Hkeep; in_list] |].
    rewrite E2. cbn [mbind option_bind].
    assert (Hrest : forall b, b ∈ drop k rest -> b ∉ take k rest /\ b <> f /\ b <> c).
    { intros b Hb. rewrite <- (take_drop k rest) in Hndr, Hfr, Hdis. apply NoDup_app in Hndr as (_ & Hd & _). split_and!.
      - intros Hb'. by apply (Hd b).
      - intros ->. apply Hfr. in_list.
      - intros ->. apply (Hdis c); in_list. }
    assert (Hcf : c <> f) by (intros ->; apply (Hdis f); in_list).
    assert (Ht : trimmed a (TNA (reserved_blocks a) (first_block a) (default f (last (drop k rest))) (current_block a) (last_node a)
               (block_num a - Z.of_nat k) h2) (u ++ [c]) (f :: rest) (f :: drop k rest)).
    { apply trimmed_intro; try done; [by destruct u | | |].
      - apply nexts_app. split; [| split; [done |]].
        + eapply nexts_frame; [| exact Hnu]. intros b Hb. rewrite Hg2, Hgn; [done | apply Hkeep, elem_of_app; by left |].
          intros ->. apply (Hdis f); [done | by left].
        + rewrite <- (take_drop k rest) in Hnr. apply nexts_app in Hnr as [_ Hnr]. eapply nexts_frame; [| exact Hnr].
          intros b Hb. destruct (Hrest b Hb) as (? & ? & ?). by rewrite Hg2, Hgn.
      - rewrite Hdom2, Hdomh, Hdom. apply set_eq. intros b. rewrite elem_of_difference, !elem_of_list_to_set.
        assert (Hr : b ∈ rest <-> b ∈ take k rest \/ b ∈ drop k rest) by by rewrite <- elem_of_app, take_drop.
        rewrite (elem_of_app (u ++ [c])), (elem_of_app (u ++ [c])), !(elem_of_cons _ b f), Hr. split; [tauto |].
        intros Hb. split; [tauto |]. destruct Hb as [Hb | [-> | Hb]]; [apply Hkeep, elem_of_app; by left | apply Hkeep; in_list | by apply Hrest].
      - intros b Hb. rewrite Hn2. unfold get_nodes. rewrite Hh; [done |].
        apply elem_of_app in Hb as [Hb | [-> | Hb]%elem_of_cons]; [apply Hkeep, elem_of_app; by left | apply Hkeep; in_list | by apply Hrest]. }
    rewrite hd_zero by (intros b Hb%elem_of_drop_elem; apply Hpos; in_list). case_bool_decide as Hd.
    + rewrite Hg2, Hgn, Hnc by (done || apply Hkeep; in_list). cbn [mbind option_bind hd].
      eexists _, _. split; [reflexivity |]. rewrite Hd in Ht. exact Ht.
    + eexists _, _. split; [reflexivity |].
      replace (default f (last (drop k rest))) with (last_block a) in Ht; [exact Ht |].
      replace ((u ++ [c]) ++ f :: rest) with (((u ++ [c]) ++ f :: take k rest) ++ drop k rest) in Hl
        by (by rewrite <- app_assoc, <- app_comm_cons, take_drop).
      rewrite Hl, last_app. destruct (last (drop k rest)) eqn:E; [done |]. by apply last_None in E.
Qed.

(** ** Allocating *)

Lemma NoDup_all_nodes bs : NoDup bs -> NoDup (all_nodes bs).
Proof.
  induction 1 as [| b bs Hb Hnd IH]; [constructor |]. change (NoDup (block_nodes b ++ all_nodes bs)). apply NoDup_app. split_and!.
  - apply NoDup_fmap; [by intros i j [= ->] | apply NoDup_seqZ].
  - intros n (i & -> & _)%list_elem_of_fmap [Hn _]%elem_of_all_nodes. done.
  - done.
Qed.

Lemma NoDup_live a used : NoDup used -> NoDup (live a used).
Proof.
  intros H. unfold live. pose proof (NoDup_all_nodes used H) as Hn.
  rewrite <- (take_drop (Z.to_nat (16 * (Z.of_nat (length used) - 1) + last_node a + 1)) (all_nodes used)) in Hn.
  by apply NoDup_app in Hn as [Hn _].
Qed.

(** What [my_malloc] gives: a block apart from those in use. *)
Definition fresh_block (m : malloc_result) (bs : list Z) : Prop :=
  match m with
  | None => True
  | Some (b, garbage) => 0 < b /\ length garbage = 16%nat /\ forall c, c ∈ bs -> sizeof_Block <= Z.abs (b - c)
  end.

Lemma allocate_block_ok a used b garbage :
  tranx_inv a used [] -> fresh_block (Some (b, garbage)) used -> Z.of_nat (length used) + 1 < 2 ^ 32 ->
  exists a', allocate_block (Some (b, garbage)) (with_current a 0 (-1)) = Some (0, a') /\ tranx_inv a' (used ++ [b]) [] /\
    last_node a' = -1 /\ (forall c, c ∈ used -> get_nodes (blocks a') c = get_nodes (blocks a) c).
Proof.
  intros [Hn Hnd Hdom Hf Hl Hc Hnum Hbd Hln Hns Hpos Hsep] (Hb0 & Hg & Hbs) Hlen. rewrite app_nil_r in *.
  assert (Hb : b ∉ used) by (intros Hin; specialize (Hbs b Hin); unfold sizeof_Block, BLOCK_TRANX_NODES, sizeof_Tranx_node in Hbs; lia).
  set (h := <[b := Blk 0 garbage]> (blocks a)).
  assert (Hh : forall c, c <> b -> h !! c = blocks a !! c) by (intros c Hcb; by apply lookup_insert_ne).
  assert (Hgb : get_next h b = Some 0) by (unfold get_next, h; by rewrite lookup_insert_eq).
  assert (Hub : forall c, c ∈ used -> c <> b) by (by intros c Hcu ->).
  assert (exists h', (if first_block a =? 0 then Some h else set_next h (last_block a) b) = Some h' /\
    nexts h' (used ++ [b]) 0 /\ dom h' = dom h /\ (forall c, get_nodes h' c = get_nodes h c)) as (h' & E & Hn' & Hdom' & Hns').
  { rewrite Hf, hd_zero by done. case_bool_decide as Hu.
    - subst used. exists h. done.
    - destruct (exists_last Hu) as (u & c & ->). rewrite last_snoc in Hl. cbn [default] in Hl. rewrite Hl.
      destruct (set_next_ok h c b) as (h' & E & Hc' & Hd' & Hg' & Hn').
      { apply nexts_app in Hn as [_ [Hn _]]. eexists. unfold get_next. rewrite Hh by (apply Hub; in_list). exact Hn. }
      exists h'. split_and!; try done. apply nexts_app. cbn [hd nexts]. split_and!; [| | done].
      + eapply nexts_retarget; [exact Hn | | done]. intros d Hd. rewrite Hg'; [| intros ->].
        * unfold get_next. rewrite Hh; [done |]. apply Hub. apply elem_of_app. by left.
        * apply NoDup_snoc in Hnd as [_ Hnd]. done.
      + rewrite Hg'; [done |]. intros ->. apply Hb. in_list. }
  unfold allocate_block. cbn [blocks first_block last_block block_num reserved_blocks last_node with_current]. fold h. rewrite E. cbn [mbind option_bind].
  eexists. split; [reflexivity |]. split; [| split; [done |]].
  - split; cbn [blocks first_block last_block block_num reserved_blocks last_node current_block]; rewrite ?app_nil_r, ?last_snoc; try done.
    + by apply NoDup_snoc.
    + rewrite Hdom'. unfold h. rewrite dom_insert_L, Hdom, list_to_set_app_L. cbn [list_to_set]. set_solver.
    + rewrite Hf, hd_zero by done. rewrite hd_app. case_bool_decide as Hu; [by subst used | by destruct used].
    + rewrite length_app, Hnum. cbn [length]. unfold u32. rewrite wrap_small by (unfold is_word; lia). lia.
    + rewrite length_app. cbn [length]. lia.
    + destruct (decide (used ++ [b] = [])) as [H%app_nil |]; [by destruct H | lia].
    + intros c ns. rewrite Hns'. unfold get_nodes, h. destruct (decide (c = b)) as [-> | Hcb].
      * rewrite lookup_insert_eq. by intros [= <-].
      * rewrite lookup_insert_ne by done. apply Hns.
    + intros c [Hcu | ->%list_elem_of_singleton]%elem_of_app; [by apply Hpos | done].
    + intros c d [Hcu | ->%list_elem_of_singleton]%elem_of_app [Hdu | ->%list_elem_of_singleton]%elem_of_app Hcd; try done.
      * by apply Hsep.
      * rewrite <- Z.abs_opp. replace (- (c - b)) with (b - c) by lia. by apply Hbs.
      * by apply Hbs.
  - intros c Hcu. rewrite Hns'. unfold get_nodes. by rewrite Hh by auto.
Qed.

(** The next node of the current block. *)
Lemma take_node_ok a u c free :
  tranx_inv a (u ++ [c]) free -> -1 <= last_node a < 15 ->
  exists a' t, take_node a = Some (node_addr c (last_node a + 1), a') /\ tranx_inv a' (u ++ [c]) free /\
    live a' (u ++ [c]) = live a (u ++ [c]) ++ [(c, last_node a + 1)] /\
    node_at (blocks a') (c, last_node a + 1) = Some (clear_node t) /\
    (forall n, n ∈ live a (u ++ [c]) -> node_at (blocks a') n = node_at (blocks a) n).
Proof.
  intros Hinv Hl. destruct (inv_current _ _ _ _ Hinv) as (Hc & Hc0 & Hnc).
  assert (Hndu : NoDup (u ++ [c])) by (pose proof (ti_nodup _ _ _ Hinv) as H; by apply NoDup_app in H as [H _]).
  destruct Hinv as [Hn Hnd Hdom Hf Hlast Hcur Hnum Hbd Hln Hns Hpos Hsep].
  set (i := last_node a + 1). unfold take_node. cbn [with_current current_block last_node blocks block_num with_blocks]. fold i.
  rewrite Hc. unfold get_next in Hnc. destruct (blocks a !! c) as [blk |] eqn:Eb; [| done]. cbn [mbind option_bind].
  assert (Hlen : length (nodes blk) = 16%nat) by (apply (Hns c); unfold get_nodes; by rewrite Eb).
  destruct (lookup_lt_is_Some_2 (nodes blk) (Z.to_nat i)) as [t Et]; [lia |]. rewrite Et. cbn [mbind option_bind].
  eexists _, t. split; [reflexivity |].
  assert (Hlive : live a (u ++ [c]) = all_nodes u ++ take (Z.to_nat (last_node a + 1)) (block_nodes c)) by (apply live_snoc; lia).
  split_and!.
  - split; cbn [with_current with_blocks current_block last_node blocks block_num first_block last_block]; try done.
    + eapply nexts_frame; [| exact Hn]. intros b Hb. unfold get_next. destruct (decide (b = c)) as [-> |].
      * by rewrite lookup_insert_eq, Eb.
      * by rewrite lookup_insert_ne.
    + rewrite dom_insert_L, <- Hdom. apply elem_of_dom_2 in Eb. set_solver.
    + by rewrite last_snoc.
    + destruct (decide (u ++ [c] = [])) as [H%app_nil |]; [by destruct H | lia].
    + intros b ns. unfold get_nodes. destruct (decide (b = c)) as [-> |].
      * rewrite lookup_insert_eq. intros [= <-]. cbn [nodes]. by rewrite length_insert.
      * rewrite lookup_insert_ne by done. apply Hns.
  - rewrite Hlive, live_snoc by (cbn; lia). cbn [with_current with_blocks last_node]. rewrite <- app_assoc. f_equal.
    replace (Z.to_nat (i + 1)) with (S (Z.to_nat i)) by lia. apply take_S_r.
    unfold block_nodes. rewrite list_lookup_fmap, lookup_seqZ_lt by lia. cbn. do 2 f_equal. lia.
  - unfold node_at, get_nodes. cbn [fst snd with_current with_blocks blocks]. rewrite lookup_insert_eq. cbn.
    rewrite list_lookup_insert_eq; [done | lia].
  - intros [b j] Hb. unfold node_at, get_nodes. cbn [fst snd with_current with_blocks blocks].
    destruct (decide (b = c)) as [-> |]; [| by rewrite lookup_insert_ne].
    rewrite lookup_insert_eq, Eb. cbn. apply list_lookup_insert_ne. intros Hij.
    rewrite Hlive in Hb. apply elem_of_app in Hb as [[Hb _]%elem_of_all_nodes | (k & Hk & Hlt)%elem_of_take].
    + apply NoDup_snoc in Hndu as [_ Hndu]. done.
    + unfold block_nodes in Hk. rewrite list_lookup_fmap, lookup_seqZ_lt in Hk by lia. injection Hk as Hk. lia.
Qed.

(** the allocator hands out nodes in sequence.  A successful call returns a node that was
    not handed out before, clears its position and links, and leaves every node already handed
    out (and not given back) as it was; it moves to the next free block, or to a new one, exactly when the
    current block is full.  When memory runs out it returns NULL and nothing has changed. *)
Theorem allocate_node_ok m a used free :
  tranx_inv a used free -> fresh_block m (used ++ free) -> Z.of_nat (length (used ++ free)) + 1 < 2 ^ 32 ->
  (m = None /\ free = [] /\ (used = [] \/ last_node a = 15) /\ allocate_node m a = Some (0, a)) \/
  exists a' used' free' n t,
    allocate_node m a = Some (node_addr n.1 n.2, a') /\ node_addr n.1 n.2 <> 0 /\ tranx_inv a' used' free' /\
    live a' used' = live a used ++ [n] /\ n ∉ live a used /\
    node_at (blocks a') n = Some (clear_node t) /\
    (forall n', n' ∈ live a used -> node_at (blocks a') n' = node_at (blocks a) n').
Proof.
  intros Hinv Hm Hlen. assert (Hstep : forall a0 u c fr,
      tranx_inv a0 (u ++ [c]) fr -> -1 <= last_node a0 < 15 -> live a0 (u ++ [c]) = live a used ->
      (forall n, n ∈ live a used -> node_at (blocks a0) n = node_at (blocks a) n) ->
      exists a' used' free' n t,
        take_node a0 = Some (node_addr n.1 n.2, a') /\ node_addr n.1 n.2 <> 0 /\ tranx_inv a' used' free' /\
        live a' used' = live a used ++ [n] /\ n ∉ live a used /\ node_at (blocks a') n = Some (clear_node t) /\
        (forall n', n' ∈ live a used -> node_at (blocks a') n' = node_at (blocks a) n')).
  { intros a0 u c fr Hi Hl Hlive Hsame. destruct (take_node_ok a0 u c fr Hi Hl) as (a' & t & E & Hi' & Hlive' & Ht & Hold).
    rewrite Hlive in Hlive', Hold. destruct (inv_current _ _ _ _ Hi) as (_ & Hc & _). exists a', (u ++ [c]), fr, (c, last_node a0 + 1), t.
    split_and!; [exact E | cbn [fst snd]; unfold node_addr, sizeof_Tranx_node; lia | exact Hi' | exact Hlive' | | exact Ht |].
    - pose proof (ti_nodup _ _ _ Hi') as Hnd. apply NoDup_app in Hnd as [Hnd _].
      apply (NoDup_live a') in Hnd. rewrite Hlive' in Hnd. by apply NoDup_snoc in Hnd as [_ ?].
    - intros n' Hn'. by rewrite Hold, Hsame. }
  assert (Hfull : forall u c, used = u ++ [c] -> last_node a = 15 -> live a used = all_nodes used).
  { intros u c -> E. rewrite live_snoc, E by lia. rewrite all_nodes_app. unfold all_nodes at 3. cbn [mbind list_bind]. by rewrite app_nil_r. }
  unfold allocate_node. change (BLOCK_TRANX_NODES - 1) with 15. destruct (decide (used = [])) as [-> | Hused].
  - pose proof (ti_last_node _ _ _ Hinv) as [Hl ->]. pose proof (ti_current _ _ _ Hinv) as Hc. cbn in Hc. rewrite Hl, Hc. cbn [Z.eqb mbind option_bind].
    rewrite Hc. cbn [Z.eqb]. destruct m as [[b garbage] |].
    + right. destruct (allocate_block_ok a [] b garbage Hinv Hm Hlen) as (a' & E & Hi' & Hl' & Hns).
      replace (with_current a 0 (-1)) with a in E by (destruct a; cbn in *; by subst). rewrite E. cbn [mbind option_bind Z.eqb negb].
      apply (Hstep a' [] b []); [done | lia | |].
      * rewrite live_snoc, live_nil by lia. by rewrite Hl'.
      * intros n Hn. rewrite live_nil in Hn by done. by apply elem_of_nil in Hn.
    + left. do 2 (split; [done |]). split; [by left |]. cbn. rewrite Hl. destruct a; cbn in *. by subst.
  - destruct (exists_last Hused) as (u & c & ->). pose proof (ti_last_node _ _ _ Hinv) as Hl. rewrite decide_False in Hl by done.
    destruct (inv_current _ _ _ _ Hinv) as (Hc & Hc0 & Hnc).
    destruct (Z.eqb_spec (last_node a) 15) as [E15 | E15]; cbn [mbind option_bind].
    + rewrite Hc, Hnc. cbn [mbind option_bind with_current current_block]. rewrite hd_zero by (intros; apply (ti_pos _ _ _ Hinv); in_list).
      destruct free as [| f free]; case_bool_decide; try done; cbn [hd].
      * destruct m as [[b garbage] |].
        -- right. rewrite app_nil_r in Hm, Hlen.
           destruct (allocate_block_ok a (u ++ [c]) b garbage Hinv Hm Hlen) as (a' & E & Hi' & Hl' & Hns). rewrite E. cbn [mbind option_bind Z.eqb negb].
           apply (Hstep a' (u ++ [c]) b []); [done | lia | |].
           ++ rewrite live_snoc, Hl', (Hfull u c) by (done || lia). by rewrite app_nil_r.
           ++ intros n [Hn _]%live_elem. unfold node_at. by rewrite Hns.
        -- left. do 2 (split; [done |]). split; [by right |]. cbn [allocate_block mbind option_bind Z.eqb negb].
           rewrite (proj2 (Z.eqb_neq c 0)) by lia. cbn [negb]. unfold with_current. cbn. f_equal. f_equal. destruct a; cbn in *. by subst.
      * right. cbn [mbind option_bind Z.eqb negb].
        apply (Hstep (with_current a f (-1)) (u ++ [c]) f free); cbn [with_current last_node blocks]; [| lia | | done].
        -- destruct Hinv as [Hn Hnd Hdom Hf Hlast Hcur Hnum Hbd Hln Hns Hpos Hsep].
           split; cbn [with_current current_block last_node blocks block_num first_block last_block]; rewrite <- ?(app_assoc (u ++ [c]) [f] free); try done.
           ++ by rewrite last_snoc.
           ++ destruct (decide ((u ++ [c]) ++ [f] = [])) as [H'%app_nil |]; [by destruct H' | lia].
        -- rewrite live_snoc, (Hfull u c) by (done || cbn; lia). cbn [with_current last_node]. by rewrite app_nil_r.
    + right. rewrite Hc, (proj2 (Z.eqb_neq c 0)) by lia. cbn [mbind option_bind Z.eqb negb].
      apply (Hstep a u c free); [done | lia | done | done].
Qed.

(** ** Freeing nodes *)

Lemma in_block_iff a used free x b i :
  tranx_inv a used free -> x ∈ used -> b ∈ used -> 0 <= i < 16 -> in_block x (node_addr b i) = bool_decide (x = b).
Proof.
  intros Hinv Hx Hb Hi. unfold in_block, node_addr, sizeof_Tranx_node, BLOCK_TRANX_NODES. case_bool_decide as E.
  - subst. apply andb_true_intro. split; apply Z.leb_le; lia.
  - pose proof (ti_sep _ _ _ Hinv x b ltac:(apply elem_of_app; by left) ltac:(apply elem_of_app; by left) E) as Hs.
    unfold sizeof_Block, sizeof_Tranx_node, BLOCK_TRANX_NODES in Hs. apply andb_false_iff.
    destruct (decide (x < b)); [right; apply Z.leb_gt | left; apply Z.leb_gt]; lia.
Qed.

(** The loop stops behind the current block, which no used block equals. *)
Lemma stop_not_used a used free x :
  tranx_inv a used free -> x ∈ used -> exists stop, get_next (blocks a) (current_block a) = Some stop /\ x <> stop.
Proof.
  intros Hinv Hx. destruct (decide (used = [])) as [-> | Hu]; [by apply elem_of_nil in Hx |].
  destruct (exists_last Hu) as (u & c & ->). destruct (inv_current _ _ _ _ Hinv) as (-> & _ & Hc). exists (hd free 0). split; [done |].
  pose proof (ti_pos _ _ _ Hinv x ltac:(apply elem_of_app; by left)) as Hp.
  pose proof (ti_nodup _ _ _ Hinv) as Hnd. apply NoDup_app in Hnd as (_ & Hd & _). destruct free as [| f free]; cbn [hd]; [lia |].
  intros ->. apply (Hd f Hx). by left.
Qed.

Lemma free_before_skip a used free b i post mid pre fuel :
  tranx_inv a used free -> used = pre ++ mid ++ b :: post -> 0 <= i < 16 -> (length mid <= fuel)%nat ->
  free_before_loop fuel (node_addr b i) (hd (mid ++ [b]) 0) (default 0 (last pre)) a =
  free_before_loop (fuel - length mid) (node_addr b i) b (default 0 (last (pre ++ mid))) a.
Proof.
  intros Hinv Hu Hi. revert pre fuel Hu. induction mid as [| x mid IH]; intros pre fuel Hu Hfuel.
  - by rewrite Nat.sub_0_r, app_nil_r.
  - destruct fuel as [| fuel]; [cbn in Hfuel; lia |]. cbn [app hd free_before_loop length Nat.sub].
    assert (Hx : x ∈ used) by (rewrite Hu; in_list). assert (Hb : b ∈ used) by (rewrite Hu; in_list).
    destruct (stop_not_used _ _ _ x Hinv Hx) as (stop & -> & Hs). cbn [mbind option_bind].
    rewrite (proj2 (Z.eqb_neq x stop)) by done. cbn [negb]. rewrite (in_block_iff _ _ _ x b i Hinv Hx Hb Hi).
    assert (Hxb : x <> b).
    { intros ->. pose proof (ti_nodup _ _ _ Hinv) as Hnd. rewrite Hu in Hnd.
      apply NoDup_app in Hnd as [Hnd _]. apply NoDup_app in Hnd as (_ & _ & Hnd). cbn [app] in Hnd.
      apply NoDup_cons in Hnd as [Hnd _]. apply Hnd. in_list. }
    rewrite bool_decide_eq_false_2 by done.
    assert (Hn : get_next (blocks a) x = Some (hd (mid ++ [b]) 0)).
    { pose proof (ti_nexts _ _ _ Hinv) as Hn. rewrite Hu, <- app_assoc in Hn. apply nexts_app in Hn as [_ Hn]. cbn [app nexts] in Hn.
      destruct Hn as [-> _]. by destruct mid. }
    rewrite Hn. cbn [mbind option_bind]. pose proof (IH (pre ++ [x]) fuel) as H. rewrite last_snoc, <- !app_assoc in H.
    apply H; [done | cbn in Hfuel; lia].
Qed.

(** The blocks in front of the node's block move behind the last block. *)
Lemma rotate_ok a pre prev b post free :
  tranx_inv a (pre ++ prev :: b :: post) free ->
  exists h1 h2, set_next (blocks a) (last_block a) (first_block a) = Some h1 /\ set_next h1 prev 0 = Some h2 /\
    tranx_inv (with_blocks (with_ends a b prev) (block_num a) h2) (b :: post) (free ++ pre ++ [prev]) /\
    (forall c, get_nodes h2 c = get_nodes (blocks a) c).
Proof.
  intros [Hn Hnd Hdom Hf Hlast Hcur Hnum Hbd Hln Hns Hpos Hsep].
  assert (Hsplit : (pre ++ prev :: b :: post) ++ free = (pre ++ [prev]) ++ (b :: post ++ free)) by (by rewrite <- !app_assoc).
  assert (Hperm : (b :: post) ++ free ++ pre ++ [prev] ≡ₚ (pre ++ prev :: b :: post) ++ free).
  { rewrite Hsplit, app_assoc. apply Permutation_app_comm. }
  rewrite Hsplit in Hn, Hlast, Hf. apply nexts_app in Hn as [Hn1 Hn2].
  destruct (exists_last (l := b :: post ++ free)) as (l & c & El); [done |]. rewrite El in *.
  rewrite app_assoc, last_snoc in Hlast. cbn [default] in Hlast. rewrite Hlast.
  assert (Hnd' : NoDup ((pre ++ [prev]) ++ l ++ [c])) by (by rewrite <- Hsplit).
  apply NoDup_app in Hnd' as (Hnd1 & Hd & Hnd2). apply NoDup_snoc in Hnd1 as [_ Hpp]. apply NoDup_snoc in Hnd2 as [_ Hcl].
  assert (Hpc : prev <> c) by (intros ->; apply (Hd c); in_list).
  destruct (set_next_ok (blocks a) c (first_block a)) as (h1 & E1 & Hc1 & Hdom1 & Hg1 & Hns1).
  { apply nexts_app in Hn2 as [_ [Hn2 _]]. by eexists. }
  destruct (set_next_ok h1 prev 0) as (h2 & E2 & Hc2 & Hdom2 & Hg2 & Hns2).
  { apply nexts_app in Hn1 as [_ [Hn1 _]]. rewrite Hg1 by done. by eexists. }
  exists h1, h2. split_and!; [done | done | | intros d; by rewrite Hns2, Hns1].
  split; cbn [with_blocks with_ends blocks first_block last_block block_num current_block last_node]; try done.
  - rewrite app_assoc. apply nexts_app. change ((b :: post) ++ free) with (b :: post ++ free). rewrite El. split.
    + eapply nexts_frame with h1; [intros d Hdl; apply Hg2; intros ->; apply (Hd prev); [in_list | done] |].
      eapply nexts_retarget; [exact Hn2 | |].
      * intros d Hdl. apply Hg1. by intros ->.
      * rewrite Hc1, Hf. f_equal. by destruct pre.
    + eapply nexts_retarget; [exact Hn1 | | done]. intros d Hdl. rewrite Hg2, Hg1; [done | |].
      * intros ->. apply (Hd c); [apply elem_of_app; by left | in_list].
      * by intros ->.
  - by rewrite Hperm.
  - rewrite Hdom2, Hdom1, Hdom. by rewrite Hperm.
  - by rewrite !app_assoc, last_snoc.
  - rewrite Hcur, last_app. change (last (prev :: b :: post)) with (last (b :: post)). by rewrite last_cons_cases.
  - by rewrite (Permutation_length Hperm).
  - by rewrite (Permutation_length Hperm).
  - rewrite decide_False in Hln by (by destruct pre). by rewrite decide_False.
  - intros d ns. rewrite Hns2, Hns1. apply Hns.
  - intros d. rewrite Hperm. apply Hpos.
  - intros d e. rewrite Hperm. apply Hsep.
Qed.

(** C21: giving back the nodes before a node that is in use succeeds, frees exactly the nodes in
    the blocks in front of its block (so the node itself and all later ones stay, untouched and
    in order) and makes the node's block the first. When there are blocks in front of it, at most [reserved_blocks] blocks
    are left unless more are in use (plus one kept in reserve); when there is none nothing changes, and free blocks
    behind the current one are not given back either. *)
Theorem free_nodes_before_ok a used free n :
  tranx_inv a used free -> n ∈ live a used ->
  exists a' used' free' gone,
    free_nodes_before (node_addr n.1 n.2) a = Some (0, a') /\ tranx_inv a' used' free' /\
    live a used = all_nodes gone ++ live a' used' /\ n ∈ live a' used' /\ first_block a' = n.1 /\ n.1 ∉ gone /\
    (forall n', n' ∈ live a' used' -> node_at (blocks a') n' = node_at (blocks a) n') /\
    (gone <> [] -> block_num a' <= Z.max (reserved_blocks a) (Z.of_nat (length used') + 1)) /\
    (gone = [] -> a' = a).
Proof.
  intros Hinv Hlive. destruct n as [b i]. cbn [fst snd]. destruct (live_elem _ _ _ Hlive) as [Hb Hi]. cbn [fst snd] in Hb, Hi.
  destruct (list_elem_of_split _ _ Hb) as (b1 & b2 & Hu).
  assert (Hln : -1 <= last_node a < 16) by (pose proof (ti_last_node _ _ _ Hinv) as Hl; rewrite decide_False in Hl; [done | rewrite Hu; by destruct b1]).
  assert (Hb1 : b ∉ b1).
  { pose proof (ti_nodup _ _ _ Hinv) as Hnd. rewrite Hu in Hnd. apply NoDup_app in Hnd as [Hnd _].
    apply NoDup_app in Hnd as (_ & Hd & _). intros Hbb. apply (Hd b Hbb). by left. }
  assert (Hsplit : live a used = all_nodes b1 ++ live a (b :: b2)) by (rewrite Hu; by apply live_app).
  assert (Hin : (b, i) ∈ live a (b :: b2)).
  { rewrite Hsplit in Hlive. apply elem_of_app in Hlive as [[Hin _]%elem_of_all_nodes | Hin]; done. }
  assert (Hfuel : (length b1 < S (size (blocks a)))%nat).
  { rewrite (inv_size _ _ _ Hinv), Hu, !length_app. cbn. lia. }
  unfold free_nodes_before. rewrite (ti_first _ _ _ Hinv).
  pose proof (free_before_skip a used free b i b2 b1 [] (S (size (blocks a))) Hinv Hu Hi ltac:(lia)) as Hskip.
  replace (hd (used ++ free) 0) with (hd (b1 ++ [b]) 0) by (rewrite Hu; by destruct b1). cbn [last default app] in Hskip. rewrite Hskip.
  replace (S (size (blocks a)) - length b1)%nat with (S (size (blocks a) - length b1)) by lia. cbn [free_before_loop].
  destruct (stop_not_used _ _ _ b Hinv Hb) as (stop & -> & Hs). cbn [mbind option_bind].
  rewrite (proj2 (Z.eqb_neq b stop)) by done. cbn [negb]. rewrite (in_block_iff _ _ _ b b i Hinv Hb Hb Hi), bool_decide_eq_true_2 by done.
  assert (Hf : first_block a = hd (b1 ++ [b]) 0) by (rewrite (ti_first _ _ _ Hinv), Hu; by destruct b1).
  destruct (decide (b1 = [])) as [-> | Hne].
  - rewrite Hf. cbn [app hd]. rewrite Z.eqb_refl. cbn [negb]. cbn [app] in Hu. subst used. exists a, (b :: b2), free, [].
    split_and!; try done.
  - destruct (exists_last Hne) as (pre & prev & ->). rewrite <- app_assoc in Hu. cbn [app] in Hu.
    rewrite Hu in Hinv. destruct (rotate_ok a pre prev b b2 free Hinv) as (h1 & h2 & E1 & E2 & Hinv2 & Hns).
    rewrite (proj2 (Z.eqb_neq _ b)); [cbn [negb] | rewrite Hf; destruct pre as [| p pre]; cbn; intros ->; apply Hb1; left].
    rewrite E1. cbn [mbind option_bind]. rewrite last_snoc. change (default 0 (Some prev)) with prev. rewrite E2. cbn [mbind option_bind].
    destruct (free_blocks_ok _ _ _ Hinv2) as (a' & free' & E & Ht); [done |]. rewrite E. cbn [mbind option_bind].
    destruct Ht as (Hinv' & Hl' & Hres & _ & Hbound & Hns').
    assert (Hlv : live a' (b :: b2) = live a (b :: b2)) by (unfold live; by rewrite Hl').
    exists a', (b :: b2), free', (pre ++ [prev]). split_and!; try done.
    + by rewrite Hlv.
    + by rewrite Hlv.
    + by rewrite (ti_first _ _ _ Hinv').
    + intros n' [Hn' _]%live_elem. unfold node_at. by rewrite Hns', Hns.
    + intros _. rewrite (ti_num _ _ _ Hinv'). exact Hbound.
Qed.

(** A new allocator owns nothing. *)
Lemma tranx_init_inv n : tranx_inv (tranx_init n) [] [].
Proof.
  split; cbn [app tranx_init blocks last_node]; try done; try (by intros b Hb%elem_of_nil).
  - constructor.
  - by intros b c Hb%elem_of_nil.
Qed.

Lemma free_all_nodes_ok a used free :
  tranx_inv a used free ->
  exists a' used' free', free_all_nodes a = Some (0, a') /\ tranx_inv a' used' free' /\ live a' used' = [] /\
    reserved_blocks a' = reserved_blocks a /\ block_num a' <= Z.max (reserved_blocks a) 2.
Proof.
  intros Hinv. unfold free_all_nodes. destruct used as [| u us].
  - pose proof (ti_last_node _ _ _ Hinv) as [Hl ->]. exists a, [], []. pose proof (ti_first _ _ _ Hinv) as Hf.
    pose proof (ti_current _ _ _ Hinv) as Hc. pose proof (ti_num _ _ _ Hinv) as Hn. cbn in Hf, Hc, Hn.
    replace (with_current a (first_block a) (-1)) with a by (destruct a; cbn in *; by subst).
    unfold free_blocks. rewrite Hc. cbn. split_and!; try done; [by apply live_nil | lia].
  - assert (Hinv1 : tranx_inv (with_current a u (-1)) [u] (us ++ free)).
    { destruct Hinv as [Hn Hnd Hdom Hf Hlast Hcur Hnum Hbd Hln Hns Hpos Hsep]. by split. }
    rewrite (ti_first _ _ _ Hinv). cbn [hd app]. destruct (free_blocks_ok _ _ _ Hinv1) as (a' & free' & E & Hi & Hl & Hr & _ & Hb & _); [done |].
    rewrite E. cbn [mbind option_bind]. exists a', [u], free'. split_and!; try done.
    + change [u] with ([] ++ [u]). rewrite live_snoc by (rewrite Hl; cbn; lia). by rewrite Hl.
    + rewrite (ti_num _ _ _ Hi). exact Hb.
Qed.

Lemma destroy_loop_ok bs fuel a :
  nexts (blocks a) bs 0 -> NoDup bs -> (forall b, b ∈ bs -> 0 < b) -> dom (blocks a) = list_to_set bs ->
  block_num a = Z.of_nat (length bs) -> Z.of_nat (length bs) < 2 ^ 32 -> (length bs < fuel)%nat ->
  exists a', destroy_loop fuel (hd bs 0) a = Some a' /\ blocks a' = ∅ /\ block_num a' = 0.
Proof.
  revert fuel a. induction bs as [| b bs IH]; intros [| fuel] a Hn Hnd Hpos Hdom Hnum Hbd Hf; try (cbn in Hf; lia); cbn [hd destroy_loop].
  - exists a. split_and!; [done | by apply dom_empty_inv_L | done].
  - rewrite (proj2 (Z.eqb_neq b 0)) by (pose proof (Hpos b ltac:(left)); lia). cbn [negb]. destruct Hn as [Hb Hn]. rewrite Hb. cbn [mbind option_bind].
    apply NoDup_cons in Hnd as [Hbb Hnd]. unfold free_block. unfold get_next in Hb.
    destruct (blocks a !! b) as [blk |] eqn:Eb; [| done]. cbn [mbind option_bind]. cbn [length] in *. apply IH; cbn [with_blocks blocks block_num]; try done.
    + eapply nexts_frame; [| exact Hn]. intros c Hc. unfold get_next. rewrite lookup_delete_ne; [done | by intros ->].
    + intros c Hc. apply Hpos. by right.
    + rewrite dom_delete_L, Hdom. cbn [list_to_set]. assert (b ∉ (list_to_set bs : gset Z)) by (by rewrite elem_of_list_to_set). set_solver.
    + unfold u32. rewrite wrap_small by (unfold is_word; lia). lia.
    + lia.
    + lia.
Qed.

(** the allocator never leaks: freeing all nodes leaves none handed out and at most
    [reserved_blocks] blocks (or two), and the destructor frees every block it ever obtained. *)
Theorem tranx_release_all a used free :
  tranx_inv a used free ->
  (exists a' used' free', free_all_nodes a = Some (0, a') /\ tranx_inv a' used' free' /\ live a' used' = [] /\
    block_num a' <= Z.max (reserved_blocks a) 2) /\
  (exists a', destroy a = Some a' /\ blocks a' = ∅ /\ block_num a' = 0).
Proof.
  intros Hinv. split.
  - destruct (free_all_nodes_ok _ _ _ Hinv) as (a' & used' & free' & E & Hi & Hl & _ & Hb). by exists a', used', free'.
  - unfold destroy. pose proof (inv_size _ _ _ Hinv) as Hsize. destruct Hinv as [Hn Hnd Hdom Hf Hlast Hcur Hnum Hbd Hln Hns Hpos Hsep].
    rewrite Hf. apply destroy_loop_ok; try done. lia.
Qed.

(** ** A run *)

Definition demo_node : Tranx_node := TN [1; 2] 7 8 9.
Definition demo_malloc (b : Z) : malloc_result := Some (b, replicate 16 demo_node).

Lemma demo_fresh_block b bs : 0 < b -> (forall c, c ∈ bs -> sizeof_Block <= Z.abs (b - c)) -> fresh_block (demo_malloc b) bs.
Proof. intros. by split_and!. Qed.

Lemma allocate_node_ok_witness :
  exists a n t, allocate_node (demo_malloc 4096) (tranx_init 40) = Some (node_addr n.1 n.2, a) /\ node_at (blocks a) n = Some (clear_node t).
Proof.
  destruct (allocate_node_ok (demo_malloc 4096) (tranx_init 40) [] []) as [(H & _) | (a & u & f & n & t & E & _ & _ & _ & _ & Ht & _)].
  - apply tranx_init_inv.
  - apply demo_fresh_block; [lia | by intros c ?%elem_of_nil].
  - done.
  - done.
  - by exists a, n, t.
Defined.

(** Three blocks: the first full, the second with four nodes handed out, the third free. *)
Definition demo_alloc : Tranx_node_allocator :=
  TNA 1 4096 60000 20000 3 3
    (<[4096 := Blk 20000 (replicate 16 demo_node)]> (<[20000 := Blk 60000 (replicate 16 demo_node)]>
      (<[60000 := Blk 0 (replicate 16 demo_node)]> ∅))).

Lemma demo_alloc_inv : tranx_inv demo_alloc [4096; 20000] [60000].
Proof.
  split; try (cbn; done).
  - repeat constructor; intros H; rewrite ?elem_of_cons, ?elem_of_nil in H; lia.
  - intros b ns. unfold get_nodes, demo_alloc. cbn [blocks].
    rewrite !lookup_insert, lookup_empty. repeat case_decide; cbn; intros [= <-]; done.
  - intros b Hb. cbn [app] in Hb. rewrite !elem_of_cons, elem_of_nil in Hb. lia.
  - intros b c Hb Hc Hbc. cbn [app] in Hb, Hc. rewrite !elem_of_cons, elem_of_nil in Hb, Hc.
    unfold sizeof_Block, BLOCK_TRANX_NODES, sizeof_Tranx_node. lia.
Qed.

Lemma free_nodes_before_ok_witness :
  exists a, free_nodes_before (node_addr 20000 1) demo_alloc = Some (0, a) /\ first_block a = 20000.
Proof.
  destruct (free_nodes_before_ok demo_alloc [4096; 20000] [60000] (20000, 1)) as (a & u & f & g & E & _ & _ & _ & Hf & _).
  - apply demo_alloc_inv.
  - apply elem_of_take. exists 17%nat. split; [reflexivity | cbn; lia].
  - by exists a.
Defined.

Lemma tranx_release_all_witness : exists a, destroy demo_alloc = Some a /\ blocks a = ∅.
Proof. destruct (tranx_release_all _ _ _ demo_alloc_inv) as [_ (a & E & Hb & _)]. by exists a. Defined.

(** The first block moves behind the free one and is freed: one block is reserved. *)
Example demo_free_before :
  (fun r => (block_num r.2, first_block r.2, last_block r.2)) <$> free_nodes_before (node_addr 20000 1) demo_alloc = Some (2, 20000, 60000).
Proof. by vm_compute. Qed.
