(* ===== verification/Histogram.v ===== *)
(** * Histogram: column statistics of the optimizer (sql_statistics.h)

    A [Histogram] is an array of bucket end points, of one or two bytes each, and
    [find_bucket] searches it by bisection.  Reading a bucket that does not exist
    ([DBUG_ASSERT(i < get_width())]) has no result.  Positions are doubles; what
    the code does with them (scale and truncate) is a parameter.  The null bitmap
    of [Column_statistics] follows. *)

From stdpp Require Import base numbers option list.
From Stdlib Require Import ZArith Lia.
From S2P Require Import Prelude ByteOrder.

Local Open Scope Z_scope.
Local Open Scope cxx_scope.

(** ** Data *)

(* [sql_statistics.h:42-46 enum_histogram_type] *)
Inductive Histogram_type := SINGLE_PREC_HB | DOUBLE_PREC_HB.

(* [sql_statistics.h:143-148 Histogram] *)
Record Histogram := Hist { type : Histogram_type; size : Z; values : option bytes }.

(** ** Buckets *)

(* [sql_statistics.h:151-160 prec_factor] *)
Definition prec_factor (h : Histogram) : Z :=
  match type h with
  | SINGLE_PREC_HB => u32 (u32 (1 <<< 8) - 1)
  | DOUBLE_PREC_HB => u32 (u32 (1 <<< 16) - 1)
  end.

(* [sql_statistics.h:163-172 get_width] *)
Definition get_width (h : Histogram) : Z :=
  match type h with SINGLE_PREC_HB => size h | DOUBLE_PREC_HB => size h `div` 2 end.

(** [uint2korr] is the macro of the machine; all its variants agree (ByteOrder). *)
(* [sql_statistics.h:175-185 get_value] *)
Definition get_value (h : Histogram) (i : Z) : option Z :=
  if i <? get_width h then
    vs ← values h;
    match type h with
    | SINGLE_PREC_HB => vs !! Z.to_nat i
    | DOUBLE_PREC_HB =>
        let A := drop (Z.to_nat (i * 2)) vs in
        if (2 <=? length A)%nat then Some (Generic.uint2korr A) else None
    end
  else None.

(** The bisection: [fuel] bounds its rounds.  All indices are below 256, so the
    conversions between [int] and [uint] change nothing but in [get_width() - 1]. *)
(* [sql_statistics.h:195-205 find_bucket] *)
Fixpoint find_loop (fuel : nat) (h : Histogram) (val lp rp d i : Z) : option Z :=
  match fuel with
  | O => None
  | S fuel =>
      if d =? 0 then Some i else
      v ← get_value h i;
      if val =? v then Some i
      else if val <? v then
        let rp := i in let d := (rp - lp) ÷ 2 in find_loop fuel h val lp rp d (lp + d)
      else
        v1 ← get_value h (i + 1);
        if v1 <? val then
          let lp := i + 1 in let d := (rp - lp) ÷ 2 in find_loop fuel h val lp rp d (lp + d)
        else Some i
  end.

(* [sql_statistics.h:214-215 find_bucket] *)
Fixpoint first_loop (fuel : nat) (h : Histogram) (val i : Z) : option Z :=
  match fuel with
  | O => None
  | S fuel =>
      if negb (i =? 0) then v ← get_value h (i - 1); if val =? v then first_loop fuel h val (i - 1) else Some i
      else Some i
  end.

(* [sql_statistics.h:219-220 find_bucket] *)
Fixpoint last_loop (fuel : nat) (h : Histogram) (val i : Z) : option Z :=
  match fuel with
  | O => None
  | S fuel =>
      if i + 1 <? get_width h then v ← get_value h (i + 1); if val =? v then last_loop fuel h val (i + 1) else Some i
      else Some i
  end.

(** The search for an already scaled position. *)
(* [sql_statistics.h:190-224 find_bucket] *)
Definition find_scaled (h : Histogram) (val : Z) (first : bool) : option Z :=
  let fuel := S (Z.to_nat (get_width h)) in
  let lp := 0 in
  let rp := s32 (u32 (get_width h - 1)) in
  let d := get_width h ÷ 2 in
  i ← find_loop fuel h val lp rp d (lp + d);
  v ← get_value h i;
  let i := if (v <? val) && (i <? u32 (get_width h - 1)) then i + 1 else i in
  v ← get_value h i;
  if val =? v then (if first then first_loop fuel h val i else last_loop fuel h val i) else Some i.

Section positions.
(** Doubles, [(uint) (pos * prec_factor())], and the arithmetic of
    [range_selectivity]. *)
Context {double : Type} (to_uint : double -> Z -> Z) (inv : Z -> double) (times : double -> Z -> double).

(* [sql_statistics.h:188-190 find_bucket] *)
Definition find_bucket (h : Histogram) (pos : double) (first : bool) : option Z :=
  find_scaled h (to_uint pos (prec_factor h)) first.

(** [inv n] is [1.0 / n], [times x n] is [x * n]. *)
(* [sql_statistics.h:266-274 range_selectivity] *)
Definition range_selectivity (h : Histogram) (min_pos max_pos : double) : option double :=
  let bucket_sel := inv (u32 (get_width h + 1)) in
  min ← find_bucket h min_pos true;
  max ← find_bucket h max_pos false;
  Some (times bucket_sel (u32 (u32 (max - min) + 1))).

(* [sql_statistics.h:242-252 set_value] *)
Definition set_value (h : Histogram) (i : Z) (val : double) : option Histogram :=
  vs ← values h;
  match type h with
  | SINGLE_PREC_HB =>
      if (Z.to_nat i <? length vs)%nat
      then Some (Hist (type h) (size h) (Some (<[Z.to_nat i := u8 (to_uint val (prec_factor h))]> vs))) else None
  | DOUBLE_PREC_HB =>
      if (Z.to_nat (i * 2) + 1 <? length vs)%nat
      then Some (Hist (type h) (size h) (Some (list_inserts (Z.to_nat (i * 2)) (Generic.int2store (to_uint val (prec_factor h))) vs)))
      else None
  end.
End positions.

(* [sql_statistics.h:254-264 set_prev_value] *)
Definition set_prev_value (h : Histogram) (i : Z) : option Histogram :=
  vs ← values h;
  match type h with
  | SINGLE_PREC_HB =>
      v ← (if 1 <=? i then vs !! Z.to_nat (i - 1) else None);
      if (Z.to_nat i <? length vs)%nat then Some (Hist (type h) (size h) (Some (<[Z.to_nat i := v]> vs))) else None
  | DOUBLE_PREC_HB =>
      if (1 <=? i) && (Z.to_nat (i * 2) + 1 <? length vs)%nat then
        let v := Generic.uint2korr (drop (Z.to_nat (i * 2 - 2)) vs) in
        Some (Hist (type h) (size h) (Some (list_inserts (Z.to_nat (i * 2)) (Generic.int2store v) vs)))
      else None
  end.

(* [sql_statistics.h:228-228 get_size] *)
Definition get_size (h : Histogram) : Z := u32 (size h).
(* [sql_statistics.h:234-234 set_size] *)
Definition set_size (h : Histogram) (sz : Z) : Histogram := Hist (type h) (u8 sz) (values h).
(* [sql_statistics.h:236-236 set_type] *)
Definition set_type (h : Histogram) (t : Histogram_type) : Histogram := Hist t (size h) (values h).
(* [sql_statistics.h:238-238 set_values] *)
Definition set_values (h : Histogram) (vs : option bytes) : Histogram := Hist (type h) (size h) vs.
(* [sql_statistics.h:240-240 is_available] *)
Definition is_available (h : Histogram) : bool := (0 <? get_size h) && bool_decide (is_Some (values h)).

(** ** Column_statistics: which statistics are NULL *)

(* [sql_statistics.h:73-87 enum_column_stat_col] *)
Inductive enum_column_stat_col :=
  COLUMN_STAT_DB_NAME | COLUMN_STAT_TABLE_NAME | COLUMN_STAT_COLUMN_NAME | COLUMN_STAT_MIN_VALUE | COLUMN_STAT_MAX_VALUE
| COLUMN_STAT_NULLS_RATIO | COLUMN_STAT_AVG_LENGTH | COLUMN_STAT_AVG_FREQUENCY | COLUMN_STAT_HIST_SIZE | COLUMN_STAT_HIST_TYPE
| COLUMN_STAT_HISTOGRAM | COLUMN_STAT_N_FIELDS.

(** The value of an enumerator. *)
(* [sql_statistics.h:73-87 enum_column_stat_col] *)
Definition col_no (c : enum_column_stat_col) : Z :=
  match c with
  | COLUMN_STAT_DB_NAME => 0 | COLUMN_STAT_TABLE_NAME => 1 | COLUMN_STAT_COLUMN_NAME => 2 | COLUMN_STAT_MIN_VALUE => 3
  | COLUMN_STAT_MAX_VALUE => 4 | COLUMN_STAT_NULLS_RATIO => 5 | COLUMN_STAT_AVG_LENGTH => 6 | COLUMN_STAT_AVG_FREQUENCY => 7
  | COLUMN_STAT_HIST_SIZE => 8 | COLUMN_STAT_HIST_TYPE => 9 | COLUMN_STAT_HISTOGRAM => 10 | COLUMN_STAT_N_FIELDS => 11
  end.

(* [sql_statistics.h:364-369 no_values_provided_bitmap] *)
Definition no_values_provided_bitmap : Z :=
  u32 (((1 <<< (col_no COLUMN_STAT_HISTOGRAM - col_no COLUMN_STAT_COLUMN_NAME)) - 1) <<< (col_no COLUMN_STAT_COLUMN_NAME + 1)).

(** The operations on [column_stat_nulls]. *)
(* [sql_statistics.h:371-374 set_all_nulls] *)
Definition set_all_nulls (column_stat_nulls : Z) : Z := no_values_provided_bitmap.
(* [sql_statistics.h:376-379 set_not_null] *)
Definition set_not_null (column_stat_nulls stat_field_no : Z) : Z := column_stat_nulls &&& wnot 32 (1 <<< stat_field_no).
(* [sql_statistics.h:381-384 is_null] *)
Definition is_null (column_stat_nulls stat_field_no : Z) : bool := negb (column_stat_nulls &&& (1 <<< stat_field_no) =? 0).
(* [sql_statistics.h:416-420 min_max_values_are_provided] *)
Definition min_max_values_are_provided (column_stat_nulls : Z) : bool :=
  negb (is_null column_stat_nulls (col_no COLUMN_STAT_MIN_VALUE)) && negb (is_null column_stat_nulls (col_no COLUMN_STAT_MAX_VALUE)).
(* [sql_statistics.h:429-434 no_stat_values_provided] *)
Definition no_stat_values_provided (column_stat_nulls : Z) : bool := column_stat_nulls =? no_values_provided_bitmap.

(* [sql_statistics.h:32-39 Use_stat_tables_mode] *)
Inductive Use_stat_tables_mode := NEVER | COMPLEMENTARY | PREFERABLY | COMPLEMENTARY_FOR_QUERIES | PREFERABLY_FOR_QUERIES.
#[export] Instance Use_stat_tables_mode_eq_dec : EqDecision Use_stat_tables_mode.
Proof. solve_decision. Defined.

(** The argument is [thd->variables.use_stat_tables]. *)
(* [sql_statistics.h:105-109 check_eits_collection_allowed] *)
Definition check_eits_collection_allowed (m : Use_stat_tables_mode) : bool := bool_decide (m = COMPLEMENTARY) || bool_decide (m = PREFERABLY).
(* [sql_statistics.h:111-116 check_eits_preferred] *)
Definition check_eits_preferred (m : Use_stat_tables_mode) : bool :=
  bool_decide (m = PREFERABLY) || bool_decide (m = PREFERABLY_FOR_QUERIES).

(** ** Well-formed histograms *)

Record hist_ok (h : Histogram) (vs : bytes) : Prop := {
  ho_values : values h = Some vs;
  ho_bytes : is_bytes vs;
  ho_length : Z.of_nat (length vs) = size h;
  ho_size : size h < 256
}.

Definition bucket (h : Histogram) (i : Z) : Z := default 0 (get_value h i).

(** The end points do not decrease. *)
Definition hist_sorted (h : Histogram) : Prop := forall i j, 0 <= i <= j -> j < get_width h -> bucket h i <= bucket h j.

Lemma get_width_bounds h vs : hist_ok h vs -> 0 <= get_width h < 256.
Proof.
  intros [_ _ Hl Hs]. unfold get_width. destruct (type h); [lia |]. split; [apply Z.div_pos; lia |].
  apply Z.div_lt_upper_bound; lia.
Qed.

Lemma get_value_bucket h vs i : hist_ok h vs -> 0 <= i < get_width h -> get_value h i = Some (bucket h i).
Proof.
  intros [Hv Hb Hl Hs] Hi. unfold bucket, get_value. rewrite (proj2 (Z.ltb_lt _ _)) by lia. rewrite Hv. cbn [mbind option_bind].
  unfold get_width in Hi. destruct (type h).
  - destruct (lookup_lt_is_Some_2 vs (Z.to_nat i)) as [v E]; [lia |]. by rewrite E.
  - destruct (Nat.leb_spec 2 (length (drop (Z.to_nat (i * 2)) vs))) as [| H]; [done |].
    rewrite length_drop in H. pose proof (Z.mul_div_le (size h) 2). lia.
Qed.

Lemma get_value_outside h i : get_width h <= i -> get_value h i = None.
Proof. intros Hi. unfold get_value. by rewrite (proj2 (Z.ltb_ge _ _)). Qed.

(** ** The search *)

Section search.
Context (h : Histogram) (vs : bytes).
Hypothesis Hok : hist_ok h vs.
Hypothesis Hsorted : hist_sorted h.
Hypothesis Hw : 0 < get_width h.

Abbreviation w := (get_width h).
Abbreviation v := (bucket h).

(** Where the bisection stops: at a bucket with the value, or just below it, or at
    the start. *)
Definition stopped (val j : Z) : Prop :=
  0 <= j < w /\ (v j = val \/ (v j < val /\ (j + 2 < w -> val <= v (j + 1))) \/ (j = 0 /\ val < v j)).

Lemma find_loop_ok fuel val lp rp d i :
  0 <= lp <= rp -> rp < w -> lp <= i <= rp -> 0 <= d -> (d = 0 -> i = lp /\ rp <= lp + 1) ->
  (d <> 0 -> i + 1 < w \/ val <= v i) ->
  (0 < lp -> v lp < val) -> (rp < w - 1 -> val < v rp) -> (d <> 0 -> lp < i) -> rp - lp + (if i =? rp then 1 else 0) < Z.of_nat fuel ->
  exists j, find_loop fuel h val lp rp d i = Some j /\ stopped val j.
Proof using Hok Hw.
  revert lp rp d i. induction fuel as [| fuel IH]; intros lp rp d i Hlp Hrp Hi Hd Hd0 Hd1 Hlo Hhi Hdi Hfuel; [destruct (Z.eqb_spec i rp); lia |].
  cbn [find_loop]. destruct (Z.eqb_spec d 0) as [E | E].
  - destruct (Hd0 E) as [-> Hclose]. exists lp. split; [done |]. split; [lia |].
    destruct (Z.lt_trichotomy (v lp) val) as [H | [H | H]]; [| by left |].
    + right. left. split; [done |]. intros H2. destruct (decide (rp = lp)) as [-> |]; [pose proof (Hhi ltac:(lia)); lia |].
      replace (lp + 1) with rp by lia. pose proof (Hhi ltac:(lia)). lia.
    + right. right. split; [| done]. destruct (decide (0 < lp)); [pose proof (Hlo ltac:(lia)); lia | lia].
  - rewrite (get_value_bucket h vs i Hok) by lia. cbn [mbind option_bind].
    assert (Hhalf : forall n, 0 <= n -> 0 <= n ÷ 2 /\ 2 * (n ÷ 2) <= n < 2 * (n ÷ 2) + 2).
    { intros n Hn. rewrite Z.quot_div_nonneg by lia. Z.div_mod_to_equations. lia. }
    destruct (Z.eqb_spec val (v i)); [exists i; split; [done | split; [lia | by left]] |].
    destruct (Z.ltb_spec val (v i)).
    + pose proof (Hhalf (i - lp) ltac:(lia)). apply IH; try lia. destruct (Z.eqb_spec (lp + (i - lp) ÷ 2) i), (Z.eqb_spec i rp); lia.
    + destruct (Hd1 E) as [Hi1 |]; [| lia]. rewrite (get_value_bucket h vs _ Hok) by lia. cbn [mbind option_bind].
      destruct (Z.ltb_spec (v (i + 1)) val).
      * assert (i + 1 <= rp) by (destruct (decide (i = rp)) as [-> |]; [| lia]; destruct (decide (rp < w - 1)) as [H1 |]; [pose proof (Hhi H1); lia | lia]).
        pose proof (Hhalf (rp - (i + 1)) ltac:(lia)). apply IH; try lia. destruct (Z.eqb_spec (i + 1 + (rp - (i + 1)) ÷ 2) rp), (Z.eqb_spec i rp); lia.
      * exists i. split; [done |]. split; [lia |]. right. left. split; [lia | by intros _].
Qed.

(** The first bucket whose end point is not below [val], or the last bucket. *)
Definition first_bucket (val j : Z) : Prop :=
  0 <= j < w /\ (forall k, 0 <= k < j -> v k < val) /\ (val <= v j \/ j = w - 1).

(** The last bucket that ends at [val], if there is one. *)
Definition last_bucket (val j : Z) : Prop :=
  0 <= j < w /\ ((v j = val /\ forall k, j < k < w -> val < v k) \/ ((forall k, 0 <= k < w -> v k <> val) /\ first_bucket val j)).

Lemma first_loop_ok fuel val i :
  0 <= i < w -> v i = val -> i < Z.of_nat fuel -> exists j, first_loop fuel h val i = Some j /\ first_bucket val j.
Proof using Hok Hsorted Hw.
  revert i. induction fuel as [| fuel IH]; intros i Hi Hv Hf; [lia |]. cbn [first_loop].
  destruct (Z.eqb_spec i 0) as [-> | Hi0]; cbn [negb].
  - exists 0. split; [done |]. split; [lia |]. split; [lia | lia].
  - rewrite (get_value_bucket h vs _ Hok) by lia. cbn [mbind option_bind].
    destruct (Z.eqb_spec val (v (i - 1))); [apply IH; lia |]. exists i. split; [done |]. split; [lia |]. split; [| lia].
    intros k Hk. pose proof (Hsorted k (i - 1)). pose proof (Hsorted (i - 1) i). lia.
Qed.

Lemma last_loop_ok fuel val i :
  0 <= i < w -> v i = val -> w - i <= Z.of_nat fuel -> exists j, last_loop fuel h val i = Some j /\ last_bucket val j.
Proof using Hok Hsorted Hw.
  revert i. induction fuel as [| fuel IH]; intros i Hi Hv Hf; [lia |]. cbn [last_loop].
  destruct (Z.ltb_spec (i + 1) w).
  - rewrite (get_value_bucket h vs _ Hok) by lia. cbn [mbind option_bind].
    destruct (Z.eqb_spec val (v (i + 1))); [apply IH; lia |]. exists i. split; [done |]. split; [lia |]. left. split; [done |].
    intros k Hk. pose proof (Hsorted i (i + 1)). pose proof (Hsorted (i + 1) k). lia.
  - exists i. split; [done |]. split; [lia |]. left. split; [done | lia].
Qed.

(** One step up when the bucket ends below the value. *)
Lemma step_up val j :
  stopped val j -> let i := if (v j <? val) && (j <? w - 1) then j + 1 else j in
  0 <= i < w /\ (v i <> val -> first_bucket val i /\ forall k, 0 <= k < w -> v k <> val).
Proof using Hsorted Hw.
  intros [Hj Hs]. cbn zeta. destruct (Z.ltb_spec (v j) val) as [Hlt | Hge]; cbn [andb].
  - destruct Hs as [Hs | [[_ Hs] | [_ Hs]]]; [lia | | lia]. destruct (Z.ltb_spec j (w - 1)) as [Hj1 | Hj1].
    + split; [lia |]. intros Hne. assert (Hlow : forall k, 0 <= k <= j -> v k < val) by (intros k Hk; pose proof (Hsorted k j); lia).
      assert (Hhigh : j + 2 < w -> forall k, j + 1 <= k < w -> val < v k).
      { intros H2 k Hk. pose proof (Hs H2). pose proof (Hsorted (j + 1) k). lia. }
      split; [split; [lia |]; split; [intros k Hk; apply Hlow; lia |]; destruct (decide (j + 2 < w)) as [H2 |]; [left; pose proof (Hs H2); lia | lia] |].
      intros k Hk. destruct (decide (k <= j)); [pose proof (Hlow k ltac:(lia)); lia |].
      destruct (decide (j + 2 < w)) as [H2 |]; [pose proof (Hhigh H2 k); lia |]. by replace k with (j + 1) by lia.
    + split; [lia |]. intros _. split; [split; [lia |]; split; [| lia] |]; intros k Hk; pose proof (Hsorted k j); lia.
  - split; [lia |]. intros Hne. destruct Hs as [Hs | [[Hs _] | [-> Hs]]]; [lia | lia |].
    split; [split; [lia |]; split; lia |]. intros k Hk. pose proof (Hsorted 0 k). lia.
Qed.

Lemma find_scaled_ok val first :
  w <> 2 \/ val <= v 1 ->
  exists j, find_scaled h val first = Some j /\ if first then first_bucket val j else last_bucket val j.
Proof using All.
  intros H2. pose proof (get_width_bounds h vs Hok) as Hb. unfold find_scaled.
  assert (E1 : u32 (w - 1) = w - 1) by (apply u32_small; lia). rewrite E1.
  assert (E2 : s32 (w - 1) = w - 1) by (apply (swrap_small 32); lia). rewrite E2.
  assert (Hhalf : 0 <= w ÷ 2 /\ 2 * (w ÷ 2) <= w < 2 * (w ÷ 2) + 2) by (rewrite Z.quot_div_nonneg by lia; Z.div_mod_to_equations; lia).
  destruct (find_loop_ok (S (Z.to_nat w)) val 0 (w - 1) (w ÷ 2) (0 + w ÷ 2)) as (j & Ej & Hj); try lia.
  { intros Hne. destruct H2 as [H2 | H2]; [left; lia |]. destruct (decide (w = 2)) as [E |]; [right; rewrite E; exact H2 | left; lia]. }
  { destruct (Z.eqb_spec (0 + w ÷ 2) (w - 1)); lia. }
  rewrite Ej. cbn [mbind option_bind]. destruct (step_up val j Hj) as [Hi Hne].
  rewrite (get_value_bucket h vs j Hok) by apply Hj. cbn [mbind option_bind].
  set (i := if (v j <? val) && (j <? w - 1) then j + 1 else j) in *.
  rewrite (get_value_bucket h vs i Hok) by done. cbn [mbind option_bind]. destruct (Z.eqb_spec val (v i)) as [Ev | Ev].
  - destruct first; [apply first_loop_ok; lia | apply last_loop_ok; lia].
  - destruct (Hne ltac:(lia)) as [Hf Hn]. exists i. split; [done |]. destruct first; [done |]. split; [done |]. by right.
Qed.
End search.

(** ** Properties *)

(** the search for a bucket terminates and never reads outside the array.  For the lower
    end of a range it returns the first bucket that ends at or above the position, for the
    upper end the last bucket that ends exactly there if there is one; the last bucket when
    the position is above them all.  Histograms of every width but two, and of width two when
    the position is not above the last bucket. *)
Theorem find_bucket_spec {double : Type} (to_uint : double -> Z -> Z) h vs pos (first : bool) :
  hist_ok h vs -> hist_sorted h -> 0 < get_width h ->
  get_width h <> 2 \/ to_uint pos (prec_factor h) <= bucket h 1 ->
  exists j, find_bucket to_uint h pos first = Some j /\
    if first then first_bucket h (to_uint pos (prec_factor h)) j else last_bucket h (to_uint pos (prec_factor h)) j.
Proof. intros Hok Hs Hw H2. by apply (find_scaled_ok h vs). Qed.

(** with exactly two buckets a position above the second one makes the search read a third
    bucket: the first probe is at [get_width() / 2], the last bucket, and its right
    neighbour is compared next. *)
Theorem find_bucket_two_reads_outside {double : Type} (to_uint : double -> Z -> Z) h vs pos (first : bool) :
  hist_ok h vs -> get_width h = 2 -> bucket h 1 < to_uint pos (prec_factor h) -> find_bucket to_uint h pos first = None.
Proof.
  intros Hok H2 Hv. unfold find_bucket, find_scaled. set (val := to_uint pos (prec_factor h)) in *. rewrite H2.
  change (Z.to_nat 2) with 2%nat. change (s32 (u32 (2 - 1))) with 1. change (0 + 2 ÷ 2) with 1. change (2 ÷ 2) with 1.
  remember 2%nat as n eqn:En. cbn [find_loop Z.eqb Pos.eqb]. rewrite (get_value_bucket h vs 1 Hok) by lia. cbn [mbind option_bind].
  rewrite (proj2 (Z.eqb_neq val _)), (proj2 (Z.ltb_ge val _)) by lia. by rewrite get_value_outside by lia.
Qed.

Lemma bucket_order h val1 val2 j1 j2 : val1 <= val2 -> first_bucket h val1 j1 -> last_bucket h val2 j2 -> j1 <= j2.
Proof.
  intros Hv (Hj1 & Hlow & _) (Hj2 & [[E _] | [_ (_ & _ & Hend)]]); destruct (decide (j1 <= j2)) as [| Hgt]; try done.
  - pose proof (Hlow j2 ltac:(lia)). lia.
  - destruct Hend as [Hend |]; [| lia]. pose proof (Hlow j2 ltac:(lia)). lia.
Qed.

(** the estimated selectivity of a range is a count of buckets between one and the width of
    the histogram, times the share of a bucket: the unsigned subtraction [max - min]
    does not wrap when the ends of the range are in order. *)
Theorem range_selectivity_counts {double : Type} (to_uint : double -> Z -> Z) (inv : Z -> double) (times : double -> Z -> double)
    h vs min_pos max_pos :
  hist_ok h vs -> hist_sorted h -> 0 < get_width h -> get_width h <> 2 ->
  to_uint min_pos (prec_factor h) <= to_uint max_pos (prec_factor h) ->
  exists lo hi, range_selectivity to_uint inv times h min_pos max_pos = Some (times (inv (get_width h + 1)) (hi - lo + 1)) /\
    1 <= hi - lo + 1 <= get_width h /\
    first_bucket h (to_uint min_pos (prec_factor h)) lo /\ last_bucket h (to_uint max_pos (prec_factor h)) hi.
Proof.
  intros Hok Hs Hw H2 Hle. pose proof (get_width_bounds h vs Hok) as Hb.
  destruct (find_scaled_ok h vs Hok Hs Hw (to_uint min_pos (prec_factor h)) true (or_introl H2)) as (lo & E1 & Hlo).
  destruct (find_scaled_ok h vs Hok Hs Hw (to_uint max_pos (prec_factor h)) false (or_introl H2)) as (hi & E2 & Hhi).
  pose proof (bucket_order _ _ _ _ _ Hle Hlo Hhi). assert (0 <= lo < get_width h /\ 0 <= hi < get_width h) by (split; [apply Hlo | apply Hhi]).
  exists lo, hi. unfold range_selectivity, find_bucket. rewrite E1. cbn [mbind option_bind]. rewrite E2. cbn [mbind option_bind].
  split_and!; [| lia | lia | done | done]. by rewrite !u32_small by (rewrite ?u32_small by lia; lia).
Qed.

(** ** Filling a histogram *)

Lemma uint2korr_head a b A : 0 <= a < 256 -> 0 <= b < 256 -> Generic.uint2korr (a :: b :: A) = a + 256 * b.
Proof.
  intros Ha Hb. unfold Generic.uint2korr, ub. cbn [nth]. rewrite Z.shiftl_mul_pow2 by lia.
  rewrite (lor_disjoint 8) by (done || (change (2 ^ 8) with 256; rewrite ?Z.mod_mul; lia)).
  change (2 ^ 8) with 256. unfold u16. rewrite wrap_small by (unfold is_word; lia). lia.
Qed.

(** What writing a bucket of the given precision does. *)
Lemma int2store_bytes z : Generic.int2store z = [u8 z; u8 (z >>> 8)].
Proof. unfold Generic.int2store, u32. by rewrite u8_wrap, u8_shiftr_wrap by lia. Qed.

Definition is_double (h : Histogram) : bool := match type h with SINGLE_PREC_HB => false | DOUBLE_PREC_HB => true end.

(** The scaled value as it is stored. *)
Definition stored (h : Histogram) (z : Z) : Z := if is_double h then u16 z else u8 z.

Lemma u8_bound z : 0 <= u8 z < 256.
Proof. apply (is_word_wrap 8). lia. Qed.

Lemma drop_two (l : bytes) k : (k + 1 < length l)%nat -> exists a b, drop k l = a :: b :: drop (k + 2) l /\ l !! k = Some a /\ l !! (k + 1)%nat = Some b.
Proof.
  intros Hk. destruct (lookup_lt_is_Some_2 l k ltac:(lia)) as [a Ea]. destruct (lookup_lt_is_Some_2 l (k + 1) ltac:(lia)) as [b Eb].
  exists a, b. split_and!; try done. rewrite (drop_S l a k Ea). rewrite Nat.add_1_r in Eb. rewrite (drop_S l b (S k) Eb). by rewrite Nat.add_comm.
Qed.

(** [get_value] of a double precision histogram by its two bytes. *)
Lemma get_value_double h vs i a b :
  hist_ok h vs -> type h = DOUBLE_PREC_HB -> 0 <= i < get_width h ->
  vs !! Z.to_nat (i * 2) = Some a -> vs !! (Z.to_nat (i * 2) + 1)%nat = Some b -> get_value h i = Some (a + 256 * b).
Proof.
  intros [Hv Hb Hl _] Ht Hi Ha Hb'. unfold get_value. rewrite (proj2 (Z.ltb_lt _ _)) by lia. rewrite Hv, Ht. cbn [mbind option_bind].
  pose proof (lookup_lt_Some _ _ _ Hb') as Hlt. destruct (drop_two vs (Z.to_nat (i * 2)) Hlt) as (a' & b' & E & Ea & Eb).
  rewrite E. cbn [length Nat.leb]. rewrite Ha in Ea. rewrite Hb' in Eb. injection Ea as <-. injection Eb as <-.
  f_equal. unfold is_bytes in Hb. rewrite Forall_lookup in Hb. apply uint2korr_head; [by apply (Hb _ _ Ha) | by apply (Hb _ _ Hb')].
Qed.

Lemma u16_of_bytes z : u8 z + 256 * u8 (z >>> 8) = u16 z.
Proof.
  unfold u8, u16, wrap. rewrite Z.shiftr_div_pow2 by lia. change (2 ^ 16) with (2 ^ 8 * 2 ^ 8).
  rewrite Z.rem_mul_r by lia. lia.
Qed.

(** The array with bucket [i] set to [z]. *)
Definition put_bucket (h : Histogram) (vs : bytes) (i z : Z) : bytes :=
  if is_double h then list_inserts (Z.to_nat (i * 2)) (Generic.int2store z) vs else <[Z.to_nat i := u8 z]> vs.

Lemma put_bucket_ok h vs i z :
  hist_ok h vs -> 0 <= i < get_width h ->
  let h' := Hist (type h) (size h) (Some (put_bucket h vs i z)) in
  hist_ok h' (put_bucket h vs i z) /\ get_value h' i = Some (stored h z) /\
  (forall j, 0 <= j < get_width h -> j <> i -> get_value h' j = get_value h j).
Proof.
  intros Hok Hi h'. assert (Hw : get_width h' = get_width h) by done.
  assert (Hok' : hist_ok h' (put_bucket h vs i z)).
  { destruct Hok as [Hv Hb Hl Hs]. split; [done | | | done]; unfold put_bucket; destruct (is_double h).
    - rewrite int2store_bytes. cbn [list_inserts]. repeat apply Forall_insert; try apply u8_bound. done.
    - by apply Forall_insert; [| apply u8_bound].
    - by rewrite length_inserts.
    - by rewrite length_insert. }
  split; [done |]. destruct Hok as [Hv Hb Hl Hs]. unfold get_width in Hi. unfold put_bucket, stored, is_double in *.
  destruct (type h) eqn:Et; cbn in h'.
  - split.
    + unfold get_value. rewrite (proj2 (Z.ltb_lt _ _)) by (subst h'; unfold get_width; cbn; lia). subst h'. cbn. by rewrite list_lookup_insert_eq by lia.
    + intros j Hj Hne. unfold get_value, get_width in *. rewrite Et in *. subst h'. cbn. rewrite Hv. cbn.
      by rewrite list_lookup_insert_ne by lia.
  - pose proof (Z.mul_div_le (size h) 2 ltac:(lia)). assert (Hlen : (Z.to_nat (i * 2) + 1 < length vs)%nat) by lia.
    rewrite int2store_bytes in *. cbn [list_inserts] in *.
    split.
    + rewrite (get_value_double h' _ i (u8 z) (u8 (z >>> 8)) Hok'); [| done | unfold get_width; cbn; lia | |].
      * f_equal. apply u16_of_bytes.
      * by rewrite list_lookup_insert_eq by (rewrite length_insert; lia).
      * rewrite list_lookup_insert_ne by lia. rewrite Nat.add_1_r. by rewrite list_lookup_insert_eq by lia.
    + intros j Hj Hne. unfold get_width in Hj. rewrite Et in Hj.
      destruct (drop_two vs (Z.to_nat (j * 2)) ltac:(lia)) as (a & b & _ & Ea & Eb).
      rewrite (get_value_double h vs j a b); [| by split | done | unfold get_width; rewrite Et; lia | done | done].
      apply (get_value_double h' _ j a b Hok'); [done | unfold get_width; cbn; lia | |];
        rewrite !list_lookup_insert_ne by lia; done.
Qed.

Lemma set_value_put {double : Type} (to_uint : double -> Z -> Z) h vs i val :
  hist_ok h vs -> 0 <= i < get_width h ->
  set_value to_uint h i val = Some (Hist (type h) (size h) (Some (put_bucket h vs i (to_uint val (prec_factor h))))).
Proof.
  intros [Hv Hb Hl Hs] Hi. unfold set_value, put_bucket, is_double, get_width in *. rewrite Hv. cbn [mbind option_bind].
  destruct (type h); (rewrite (proj2 (Nat.ltb_lt _ _)); [done |]); [lia |]. pose proof (Z.mul_div_le (size h) 2). lia.
Qed.

(** A bucket fits its width. *)
Lemma bucket_stored h vs i : hist_ok h vs -> 0 <= i < get_width h -> stored h (bucket h i) = bucket h i.
Proof.
  intros Hok Hi. pose proof (get_value_bucket h vs i Hok Hi) as Hg. destruct Hok as [Hv Hb Hl Hs].
  assert (Hbyte : forall k a, vs !! k = Some a -> 0 <= a < 256) by (unfold is_bytes in Hb; rewrite Forall_lookup in Hb; exact Hb).
  unfold stored, is_double. destruct (type h) eqn:Et.
  - unfold get_value in Hg. rewrite (proj2 (Z.ltb_lt _ _)), Hv, Et in Hg by lia. cbn [mbind option_bind] in Hg.
    apply wrap_small. unfold is_word. change (2 ^ 8) with 256. by apply (Hbyte _ _ Hg).
  - assert (Hw := Hi). unfold get_width in Hw. rewrite Et in Hw. pose proof (Z.mul_div_le (size h) 2 ltac:(lia)).
    destruct (drop_two vs (Z.to_nat (i * 2)) ltac:(lia)) as (a & b & _ & Ea & Eb).
    rewrite (get_value_double h vs i a b) in Hg by (done || by split). injection Hg as <-.
    pose proof (Hbyte _ _ Ea). pose proof (Hbyte _ _ Eb). apply wrap_small. unfold is_word. lia.
Qed.

Lemma set_prev_put h vs i :
  hist_ok h vs -> 1 <= i < get_width h ->
  set_prev_value h i = Some (Hist (type h) (size h) (Some (put_bucket h vs i (bucket h (i - 1))))).
Proof.
  intros Hok Hi. pose proof (get_value_bucket h vs (i - 1) Hok ltac:(lia)) as Hg.
  pose proof (bucket_stored h vs (i - 1) Hok ltac:(lia)) as Hst. destruct Hok as [Hv Hb Hl Hs].
  unfold set_prev_value, put_bucket, stored, is_double in *. rewrite Hv. cbn [mbind option_bind]. unfold get_width in Hi.
  unfold get_value, get_width in Hg. rewrite Hv in Hg. destruct (type h) eqn:Et; rewrite (proj2 (Z.ltb_lt (i - 1) _)) in Hg by lia; cbn [mbind option_bind] in Hg.
  - rewrite (proj2 (Z.leb_le 1 i)), Hg by lia. cbn [mbind option_bind]. rewrite (proj2 (Nat.ltb_lt _ _)) by lia. by rewrite Hst.
  - pose proof (Z.mul_div_le (size h) 2 ltac:(lia)). rewrite (proj2 (Z.leb_le 1 i)), (proj2 (Nat.ltb_lt _ _)) by lia. cbn [andb].
    replace (i * 2 - 2) with ((i - 1) * 2) by lia. destruct (2 <=? _)%nat in Hg; [| done]. by injection Hg as ->.
Qed.

(** storing an end point changes that bucket only, to the scaled value cut to the width of
    a bucket; copying the previous bucket makes both equal.  Neither leaves the array. *)
Theorem set_value_updates_bucket {double : Type} (to_uint : double -> Z -> Z) h vs i val :
  hist_ok h vs -> 0 <= i < get_width h ->
  (exists h' vs', set_value to_uint h i val = Some h' /\ hist_ok h' vs' /\ get_width h' = get_width h /\
     get_value h' i = Some (stored h (to_uint val (prec_factor h))) /\
     forall j, 0 <= j < get_width h -> j <> i -> get_value h' j = get_value h j) /\
  (1 <= i -> exists h' vs', set_prev_value h i = Some h' /\ hist_ok h' vs' /\ get_width h' = get_width h /\
     get_value h' i = get_value h (i - 1) /\
     forall j, 0 <= j < get_width h -> j <> i -> get_value h' j = get_value h j).
Proof.
  intros Hok Hi. split; [| intros H1]; eexists _, _.
  - rewrite (set_value_put to_uint h vs) by done. split; [done |].
    destruct (put_bucket_ok h vs i (to_uint val (prec_factor h)) Hok Hi) as (? & ? & ?). by split_and!.
  - rewrite (set_prev_put h vs) by (done || lia). split; [done |].
    destruct (put_bucket_ok h vs i (bucket h (i - 1)) Hok Hi) as (? & Hg & ?). split_and!; [done | done | | done].
    rewrite Hg, (bucket_stored h vs), (get_value_bucket h vs) by (done || lia). done.
Qed.

(** ** Column_statistics *)

(** The columns whose statistics may be missing. *)
Definition has_stat (c : enum_column_stat_col) : bool := (3 <=? col_no c) && (col_no c <=? 10).

(** [set_not_null] for each of a list of columns. *)
Definition provide (nulls : Z) (cs : list enum_column_stat_col) : Z := foldl (fun n c => set_not_null n (col_no c)) nulls cs.

Lemma is_null_bit n k : 0 <= k -> is_null n k = Z.testbit n k.
Proof. intros Hk. unfold is_null. by rewrite land_single_bit, negb_involutive. Qed.

Lemma col_no_bounds c : 0 <= col_no c < 12.
Proof. by destruct c. Qed.

Lemma set_not_null_bit n k i : 0 <= k < 32 -> 0 <= i < 32 -> Z.testbit (set_not_null n k) i = Z.testbit n i && negb (i =? k).
Proof. intros Hk Hi. unfold set_not_null. rewrite Z.land_spec, testbit_wnot, testbit_shiftl1 by lia. by rewrite (proj2 (Z.ltb_lt i 32)) by lia. Qed.

Lemma provide_bit cs n i : 0 <= i < 32 -> Z.testbit (provide n cs) i = Z.testbit n i && forallb (fun c => negb (i =? col_no c)) cs.
Proof.
  intros Hi. revert n. induction cs as [| c cs IH]; intros n; cbn [provide foldl forallb]; [by rewrite andb_true_r |].
  unfold provide in IH. rewrite IH, set_not_null_bit by (pose proof (col_no_bounds c); lia). by rewrite andb_assoc.
Qed.

Lemma provide_word cs n : is_word 32 n -> is_word 32 (provide n cs).
Proof.
  revert n. induction cs as [| c cs IH]; intros n Hn; [done |]. cbn [provide foldl]. apply IH. unfold set_not_null.
  apply is_word_land_l; [done | apply is_word_wnot; lia].
Qed.

(** after [set_all_nulls] exactly the statistics columns MIN_VALUE to HISTOGRAM are NULL;
    each [set_not_null] clears its own column and no other, so after any sequence of them a
    column is NULL when it is a statistics column that was not provided, the minimum and maximum are both
    provided when both were set, and "no values" means that none of the eight was. *)
Theorem column_stat_nulls_track n cs :
  let nulls := provide (set_all_nulls n) cs in
  (forall c, is_null nulls (col_no c) = has_stat c && negb (existsb (fun c' => col_no c =? col_no c') cs)) /\
  (min_max_values_are_provided nulls = true <-> COLUMN_STAT_MIN_VALUE ∈ cs /\ COLUMN_STAT_MAX_VALUE ∈ cs) /\
  (no_stat_values_provided nulls = true <-> forall c, c ∈ cs -> has_stat c = false).
Proof.
  intros nulls. assert (Hbit : forall c, is_null nulls (col_no c) = has_stat c && negb (existsb (fun c' => col_no c =? col_no c') cs)).
  { intros c. pose proof (col_no_bounds c). rewrite is_null_bit by lia. unfold nulls. rewrite provide_bit by lia. f_equal; [by destruct c |].
    induction cs as [| c' cs IH]; [done |]. cbn [forallb existsb]. by rewrite negb_orb, IH. }
  assert (Hin : forall c, existsb (fun c' => col_no c =? col_no c') cs = true <-> c ∈ cs).
  { intros c. rewrite existsb_exists. setoid_rewrite Z.eqb_eq. setoid_rewrite <- list_elem_of_In. split; [| by eauto].
    intros (c' & Hc' & E). replace c with c'; [done |]. by destruct c, c'. }
  split; [done |]. split.
  - unfold min_max_values_are_provided. rewrite !Hbit. change (has_stat COLUMN_STAT_MIN_VALUE) with true.
    change (has_stat COLUMN_STAT_MAX_VALUE) with true. rewrite !andb_true_l, !negb_involutive, andb_true_iff, !Hin. done.
  - unfold no_stat_values_provided. rewrite Z.eqb_eq. split.
    + intros E c Hc. specialize (Hbit c). rewrite (proj2 (Hin c) Hc), andb_false_r, E in Hbit. by destruct c.
    + intros Hno. unfold nulls. apply (word_bits_eq 32); [by apply provide_word | done |]. intros i Hi. rewrite provide_bit by lia.
      unfold set_all_nulls. destruct (Z.testbit no_values_provided_bitmap i) eqn:E; [| done]. cbn [andb]. apply forallb_forall.
      intros c Hc%list_elem_of_In. specialize (Hno c Hc). apply negb_true_iff, Z.eqb_neq. intros ->. by destruct c.
Qed.

(** ** Concrete histograms *)

(** Positions given already scaled. *)
Definition scaled (pos prec : Z) : Z := pos.

Definition demo_hist : Histogram := Hist SINGLE_PREC_HB 6 (Some [10; 20; 20; 20; 40; 90]).
Definition demo_two_buckets : Histogram := Hist DOUBLE_PREC_HB 4 (Some [10; 0; 0; 2]).

Lemma demo_hist_ok : hist_ok demo_hist [10; 20; 20; 20; 40; 90].
Proof. split; [done | repeat constructor; lia | done | cbn; lia]. Qed.

(** Sortedness of a concrete histogram by evaluation. *)
Lemma sorted_check h :
  forallb (fun j => bool_decide (Forall (fun i => bucket h i <= bucket h j) (seqZ 0 (j + 1)))) (seqZ 0 (get_width h)) = true -> hist_sorted h.
Proof.
  intros Hall i j Hij Hj. pose proof (bounded_check (fun j => Forall (fun i => bucket h i <= bucket h j) (seqZ 0 (j + 1))) (get_width h) Hall j ltac:(lia)) as H.
  rewrite Forall_seqZ in H. apply H. lia.
Qed.

Lemma demo_hist_sorted : hist_sorted demo_hist.
Proof. apply sorted_check. by vm_compute. Qed.

(** 20 ends three buckets: the range [20, 20] counts all of them. *)
Lemma find_bucket_spec_witness :
  exists j, find_bucket scaled demo_hist 20 true = Some j /\ first_bucket demo_hist 20 j.
Proof.
  apply (find_bucket_spec scaled demo_hist [10; 20; 20; 20; 40; 90] 20 true); [apply demo_hist_ok | apply demo_hist_sorted | done | by left].
Defined.

Example find_bucket_demo :
  find_bucket scaled demo_hist 20 true = Some 1 /\ find_bucket scaled demo_hist 20 false = Some 3 /\
  find_bucket scaled demo_hist 41 true = Some 5 /\ find_bucket scaled demo_hist 200 true = Some 5.
Proof. by vm_compute. Qed.

Lemma find_bucket_two_reads_outside_witness : find_bucket scaled demo_two_buckets 600 true = None.
Proof.
  apply (find_bucket_two_reads_outside scaled demo_two_buckets [10; 0; 0; 2] 600 true); [| done | by vm_compute].
  split; [done | repeat constructor; lia | done | cbn; lia].
Defined.

Lemma range_selectivity_counts_witness :
  exists lo hi, range_selectivity scaled (fun n => n) Z.mul demo_hist 20 40 = Some (7 * (hi - lo + 1)) /\ 1 <= hi - lo + 1 <= 6.
Proof.
  destruct (range_selectivity_counts scaled (fun n => n) Z.mul demo_hist [10; 20; 20; 20; 40; 90] 20 40) as (lo & hi & E & Hb & _);
    [apply demo_hist_ok | apply demo_hist_sorted | done | done | unfold scaled; lia |].
  by exists lo, hi.
Defined.

Lemma set_value_updates_bucket_witness :
  exists h', set_value scaled demo_hist 4 30 = Some h' /\ get_value h' 4 = Some 30.
Proof.
  destruct (set_value_updates_bucket scaled demo_hist [10; 20; 20; 20; 40; 90] 4 30) as [(h' & vs & E & _ & _ & Hg & _) _];
    [apply demo_hist_ok | by split; [lia |] |]. by exists h'.
Defined.
