(* ===== verification/Mbr.v ===== *)
(** * Mbr: minimum bounding rectangles (spatial.h)

    [struct MBR] over an abstract type of doubles.  What the code relies on is
    the order of doubles that are not NaN: it is the order of some integer
    rank (for IEEE doubles, of the bit pattern read as a signed integer, with the two zeros at
    the same rank), which also makes [lia] decide every comparison. *)

From stdpp Require Import base numbers option list.
From Stdlib Require Import ZArith Lia.
From S2P Require Import Prelude.

Local Open Scope Z_scope.

(** ** Doubles *)

(** The operations of [double] used by the code; [float8get] decodes eight bytes. *)
Class Coord (D : Type) := {
  dlt : D -> D -> bool;
  DBL_MAX : D;
  neg_DBL_MAX : D;
  dadd : D -> D -> D;
  dsub : D -> D -> D;
  float8get : list Z -> D
}.

Class CoordOrder (D : Type) `{Coord D} := {
  rank : D -> Z;
  dlt_rank x y : dlt x y = (rank x <? rank y)
}.

Section mbr.
Context {D : Type} `{!Coord D}.

Definition dle (x y : D) : bool := negb (dlt y x).
Definition deq (x y : D) : bool := dle x y && dle y x.
Definition MY_MAX (x y : D) : D := if dlt y x then x else y.
Definition MY_MIN (x y : D) : D := if dlt x y then x else y.

(** ** The struct and its constructors *)

(* [spatial.h:57-59 MBR] *)
Record MBR := Mbr { xmin : D; ymin : D; xmax : D; ymax : D }.

(* [spatial.h:37-41 st_point_2d] *)
Record st_point_2d := Point { pt_x : D; pt_y : D }.

(* [spatial.h:61-65 MBR] *)
Definition mbr_empty : MBR := Mbr DBL_MAX DBL_MAX neg_DBL_MAX neg_DBL_MAX.
(* [spatial.h:67-70 MBR] *)
Definition mbr_make (xmin_arg ymin_arg xmax_arg ymax_arg : D) : MBR := Mbr xmin_arg ymin_arg xmax_arg ymax_arg.
(* [spatial.h:72-74 MBR] *)
Definition mbr_points (min max : st_point_2d) : MBR := Mbr (pt_x min) (pt_y min) (pt_x max) (pt_y max).

(** ** Growing *)

(* [spatial.h:80-91 add_xy] *)
Definition add_xy (m : MBR) (x y : D) : MBR :=
  let m := if dlt x (xmin m) then Mbr x (ymin m) (xmax m) (ymax m) else m in
  let m := if dlt (xmax m) x then Mbr (xmin m) (ymin m) x (ymax m) else m in
  let m := if dlt y (ymin m) then Mbr (xmin m) y (xmax m) (ymax m) else m in
  if dlt (ymax m) y then Mbr (xmin m) (ymin m) (xmax m) y else m.

(* [spatial.h:92-98 add_xy] *)
Definition add_xy_bytes (m : MBR) (px py : list Z) : MBR := add_xy m (float8get px) (float8get py).

(* [spatial.h:99-109 add_mbr] *)
Definition add_mbr (m mbr : MBR) : MBR :=
  let m := if dlt (xmin mbr) (xmin m) then Mbr (xmin mbr) (ymin m) (xmax m) (ymax m) else m in
  let m := if dlt (xmax m) (xmax mbr) then Mbr (xmin m) (ymin m) (xmax mbr) (ymax m) else m in
  let m := if dlt (ymin mbr) (ymin m) then Mbr (xmin m) (ymin mbr) (xmax m) (ymax m) else m in
  if dlt (ymax m) (ymax mbr) then Mbr (xmin m) (ymin m) (xmax m) (ymax mbr) else m.

(* [spatial.h:76-78 MBR] *)
Definition mbr_union (mbr1 mbr2 : MBR) : MBR := add_mbr mbr1 mbr2.

(* [spatial.h:110-116 buffer] *)
Definition buffer (m : MBR) (d : D) : MBR := Mbr (dsub (xmin m) d) (dsub (ymin m) d) (dadd (xmax m) d) (dadd (ymax m) d).

(** ** Comparing *)

(* [spatial.h:118-123 equals] *)
Definition equals (m mbr : MBR) : bool :=
  deq (xmin mbr) (xmin m) && deq (ymin mbr) (ymin m) && deq (xmax mbr) (xmax m) && deq (ymax mbr) (ymax m).
(* [spatial.h:125-130 disjoint] *)
Definition disjoint (m mbr : MBR) : bool :=
  dlt (xmax m) (xmin mbr) || dlt (ymax m) (ymin mbr) || dlt (xmax mbr) (xmin m) || dlt (ymax mbr) (ymin m).
(* [spatial.h:132-135 intersects] *)
Definition intersects (m mbr : MBR) : bool := negb (disjoint m mbr).
(* [spatial.h:137-146 touches] *)
Definition touches (m mbr : MBR) : bool :=
  ((deq (xmin mbr) (xmax m) || deq (xmax mbr) (xmin m)) &&
   ((dle (ymin m) (ymin mbr) && dle (ymin mbr) (ymax m)) || (dle (ymin m) (ymax mbr) && dle (ymax mbr) (ymax m)))) ||
  ((deq (ymin mbr) (ymax m) || deq (ymax mbr) (ymin m)) &&
   ((dle (xmin m) (xmin mbr) && dle (xmin mbr) (xmax m)) || (dle (xmin m) (xmax mbr) && dle (xmax mbr) (xmax m)))).
(* [spatial.h:150-155 contains] *)
Definition contains (m mbr : MBR) : bool :=
  dle (xmin m) (xmin mbr) && dle (ymin m) (ymin mbr) && dle (xmax mbr) (xmax m) && dle (ymax mbr) (ymax m).
(* [spatial.h:157-161 inner_point] *)
Definition inner_point (m : MBR) (x y : D) : bool := dlt (xmin m) x && dlt x (xmax m) && dlt (ymin m) y && dlt y (ymax m).
(* [spatial.h:170-185 dimension] *)
Definition dimension (m : MBR) : Z :=
  let d := 0 in
  if dlt (xmax m) (xmin m) then -1 else
  let d := if dlt (xmin m) (xmax m) then d + 1 else d in
  if dlt (ymax m) (ymin m) then -1 else
  if dlt (ymin m) (ymax m) then d + 1 else d.
(* [spatial.h:205-206 valid] *)
Definition valid (m : MBR) : bool := dle (xmin m) (xmax m) && dle (ymin m) (ymax m).

(** [within] is only declared in the header. *)
Context (within : MBR -> MBR -> bool).
(* [spatial.h:187-203 overlaps] *)
Definition overlaps (m mbr : MBR) : bool :=
  let d := dimension m in
  if negb (d =? dimension mbr) || (d <=? 0) || contains m mbr || within m mbr then false else
  let intersection := Mbr (MY_MAX (xmin m) (xmin mbr)) (MY_MAX (ymin m) (ymin mbr))
                          (MY_MIN (xmax m) (xmax mbr)) (MY_MIN (ymax m) (ymax mbr)) in
  d =? dimension intersection.
End mbr.
Arguments MBR : clear implicits.

(** ** Rectangles as sets of points *)

Section laws.
Context {D : Type} {CO : Coord D} {CL : CoordOrder D}.

Definition inside (m : MBR D) (x y : D) : Prop := rank (xmin m) <= rank x <= rank (xmax m) /\ rank (ymin m) <= rank y <= rank (ymax m).

(** Two rectangles with sides of the same rank. *)
Definition same_box (m1 m2 : MBR D) : Prop :=
  rank (xmin m1) = rank (xmin m2) /\ rank (ymin m1) = rank (ymin m2) /\ rank (xmax m1) = rank (xmax m2) /\ rank (ymax m1) = rank (ymax m2).

#[export] Instance same_box_equiv : Equivalence same_box.
Proof. unfold same_box. split; repeat intro; lia. Qed.

(** Between [-DBL_MAX] and [DBL_MAX]: every finite double. *)
Definition finite (x : D) : Prop := rank neg_DBL_MAX <= rank x <= rank DBL_MAX.

(** Case analysis on every comparison; [lia] does the rest. *)
Ltac ranks :=
  unfold add_mbr, add_xy, intersects, disjoint, touches, contains, inner_point, valid, equals, deq, dle, dimension, MY_MAX, MY_MIN,
    inside, same_box, finite in *; cbn [xmin ymin xmax ymax] in *; rewrite ?dlt_rank in *;
  repeat (match goal with |- context [?a <? ?b] => destruct (Z.ltb_spec a b) | H : context [?a <? ?b] |- _ => destruct (Z.ltb_spec a b) end;
    cbn [negb andb orb xmin ymin xmax ymax] in *; rewrite ?dlt_rank in *).

Lemma add_xy_rank m x y :
  rank (xmin (add_xy m x y)) = Z.min (rank (xmin m)) (rank x) /\ rank (xmax (add_xy m x y)) = Z.max (rank (xmax m)) (rank x) /\
  rank (ymin (add_xy m x y)) = Z.min (rank (ymin m)) (rank y) /\ rank (ymax (add_xy m x y)) = Z.max (rank (ymax m)) (rank y).
Proof. ranks; lia. Qed.

Lemma add_mbr_rank m n :
  rank (xmin (add_mbr m n)) = Z.min (rank (xmin m)) (rank (xmin n)) /\ rank (xmax (add_mbr m n)) = Z.max (rank (xmax m)) (rank (xmax n)) /\
  rank (ymin (add_mbr m n)) = Z.min (rank (ymin m)) (rank (ymin n)) /\ rank (ymax (add_mbr m n)) = Z.max (rank (ymax m)) (rank (ymax n)).
Proof. ranks; lia. Qed.

(** The comparisons in terms of ranks; [lia] reads the boolean ones. *)
Lemma dle_rank (x y : D) : dle x y = (rank x <=? rank y).
Proof. unfold dle. rewrite dlt_rank. by rewrite Z.leb_antisym. Qed.

Lemma deq_rank (x y : D) : deq x y = (rank x =? rank y).
Proof. unfold deq. rewrite !dle_rank. lia. Qed.

Lemma max_rank (x y : D) : rank (MY_MAX x y) = Z.max (rank x) (rank y).
Proof. unfold MY_MAX. rewrite dlt_rank. destruct (Z.ltb_spec (rank y) (rank x)); lia. Qed.

Lemma min_rank (x y : D) : rank (MY_MIN x y) = Z.min (rank x) (rank y).
Proof. unfold MY_MIN. rewrite dlt_rank. destruct (Z.ltb_spec (rank x) (rank y)); lia. Qed.

Ltac to_ranks :=
  unfold intersects, disjoint, touches, contains, inner_point, valid, equals, inside, same_box, finite in *;
  cbn [xmin ymin xmax ymax] in *; rewrite ?deq_rank, ?dle_rank, ?dlt_rank, ?max_rank, ?min_rank in *.

Lemma dimension_rank (m : MBR D) :
  dimension m = (if (rank (xmax m) <? rank (xmin m)) || (rank (ymax m) <? rank (ymin m)) then -1
                 else Z.b2z (rank (xmin m) <? rank (xmax m)) + Z.b2z (rank (ymin m) <? rank (ymax m))).
Proof.
  unfold dimension. rewrite !dlt_rank. destruct (rank (xmax m) <? rank (xmin m)), (rank (ymax m) <? rank (ymin m)),
    (rank (xmin m) <? rank (xmax m)), (rank (ymin m) <? rank (ymax m)); done.
Qed.

(** The box of a list of points, added one by one to the empty box. *)
Definition add_points (m : MBR D) (ps : list (D * D)) : MBR D := foldl (fun m p => add_xy m p.1 p.2) m ps.

Lemma contains_rank m n :
  contains m n = true <-> rank (xmin m) <= rank (xmin n) /\ rank (ymin m) <= rank (ymin n) /\
                          rank (xmax n) <= rank (xmax m) /\ rank (ymax n) <= rank (ymax m).
Proof. to_ranks. lia. Qed.

Lemma add_points_contains m ps n :
  (contains n m = true /\ forall p, p ∈ ps -> inside n p.1 p.2) -> contains n (add_points m ps) = true.
Proof.
  revert m. induction ps as [| p ps IH]; intros m [Hm Hps]; [done |]. cbn [add_points foldl]. apply IH. split.
  - specialize (Hps p ltac:(left)). unfold inside in Hps. rewrite contains_rank in *. pose proof (add_xy_rank m p.1 p.2). lia.
  - intros q Hq. apply Hps. by right.
Qed.

Lemma add_points_grows m ps : contains (add_points m ps) m = true /\ forall p, p ∈ ps -> inside (add_points m ps) p.1 p.2.
Proof.
  revert m. induction ps as [| p ps IH]; intros m.
  - split; [apply contains_rank; cbn; lia | by intros p ?%elem_of_nil].
  - cbn [add_points foldl]. destruct (IH (add_xy m p.1 p.2)) as [Hm Hps]. fold (add_points (add_xy m p.1 p.2) ps).
    pose proof (add_xy_rank m p.1 p.2) as Hr. rewrite contains_rank in *. split; [lia |].
    intros q [-> | Hq]%elem_of_cons; [unfold inside; lia | by apply Hps].
Qed.

(** adding the points of a non-empty list to the empty rectangle gives their minimum
    bounding rectangle: a valid one that holds every point and lies within every rectangle that does;
    it does not depend on the order of the points.  Only finite coordinates. *)
Theorem mbr_of_points ps :
  ps <> [] -> (forall p, p ∈ ps -> finite p.1 /\ finite p.2) ->
  let m := add_points mbr_empty ps in
  valid m = true /\ (forall p, p ∈ ps -> inside m p.1 p.2) /\
  (forall n, (forall p, p ∈ ps -> inside n p.1 p.2) -> contains n m = true) /\
  (forall ps', ps' ≡ₚ ps -> same_box (add_points mbr_empty ps') m).
Proof.
  intros Hne Hfin m. destruct (add_points_grows mbr_empty ps) as [_ Hin]. fold m in Hin.
  assert (Hempty : forall qs n, qs <> [] -> (forall p, p ∈ qs -> finite p.1 /\ finite p.2) -> (forall p, p ∈ qs -> inside n p.1 p.2) ->
            contains n (add_points mbr_empty qs) = true).
  { intros [| p qs] n Hq Hf Hn; [done |]. cbn [add_points foldl]. apply add_points_contains. split; [| intros q Hq'; apply Hn; by right].
    specialize (Hf p ltac:(left)). specialize (Hn p ltac:(left)). pose proof (add_xy_rank mbr_empty p.1 p.2) as Hr.
    rewrite contains_rank. unfold finite, inside, mbr_empty in *. cbn [xmin ymin xmax ymax] in *. lia. }
  split_and!; [| done | by intros n Hn; apply Hempty |].
  - destruct ps as [| p ps]; [done |]. specialize (Hin p ltac:(left)). to_ranks. lia.
  - intros ps' Hp. assert (Hne' : ps' <> []) by (intros ->; apply Permutation_nil in Hp; done).
    assert (Hf' : forall p, p ∈ ps' -> finite p.1 /\ finite p.2) by (intros p; rewrite Hp; apply Hfin).
    destruct (add_points_grows mbr_empty ps') as [_ Hin'].
    assert (C1 : contains m (add_points mbr_empty ps') = true) by (apply Hempty; [done | done | intros p; rewrite Hp; apply Hin]).
    assert (C2 : contains (add_points mbr_empty ps') m = true) by (apply Hempty; [done | done | intros p; rewrite <- Hp; apply Hin']).
    rewrite contains_rank in C1, C2. unfold same_box. lia.
Qed.

(** the predicates on valid rectangles are the relations of the sets of points: [contains]
    is inclusion, [disjoint] and [intersects] say whether there is a common point, [equals]
    is equality of the sides, [add_mbr] gives the least rectangle that contains both, and
    [dimension] counts the sides that are not degenerate. *)
Theorem mbr_relations m n :
  valid m = true -> valid n = true ->
  (contains m n = true <-> forall x y, inside n x y -> inside m x y) /\
  (disjoint m n = false <-> exists x y, inside m x y /\ inside n x y) /\
  intersects m n = negb (disjoint m n) /\
  (equals m n = true <-> same_box m n) /\
  (contains (add_mbr m n) m = true /\ contains (add_mbr m n) n = true /\
   forall k, contains k m = true -> contains k n = true -> contains k (add_mbr m n) = true) /\
  dimension m = Z.b2z (dlt (xmin m) (xmax m)) + Z.b2z (dlt (ymin m) (ymax m)).
Proof.
  intros Hm Hn. split_and!.
  - rewrite contains_rank. split.
    + unfold inside. intros H x y. lia.
    + intros Hi. pose proof (Hi (xmin n) (ymin n)) as H1. pose proof (Hi (xmax n) (ymax n)) as H2. clear Hi. to_ranks. lia.
  - split.
    + intros Hd. exists (MY_MAX (xmin m) (xmin n)), (MY_MAX (ymin m) (ymin n)). to_ranks. lia.
    + intros (x & y & H1 & H2). to_ranks. lia.
  - done.
  - to_ranks. lia.
  - pose proof (add_mbr_rank m n). rewrite contains_rank. lia.
  - pose proof (add_mbr_rank m n). rewrite contains_rank. lia.
  - intros k. pose proof (add_mbr_rank m n). rewrite !contains_rank. lia.
  - rewrite dimension_rank. to_ranks. by rewrite (proj2 (Z.ltb_ge (rank (xmax m)) (rank (xmin m)))), (proj2 (Z.ltb_ge (rank (ymax m)) (rank (ymin m)))) by lia.
Qed.

(** The sides meet: a vertical side of one on a vertical side of the other, or the
    same for horizontal sides. *)
Definition sides_meet (m n : MBR D) : Prop :=
  rank (xmin n) = rank (xmax m) \/ rank (xmax n) = rank (xmin m) \/ rank (ymin n) = rank (ymax m) \/ rank (ymax n) = rank (ymin m).

(** [touches] looks for an end of the other rectangle's side on its own side.  One of the
    two directions holds exactly when valid rectangles share a point and sides of them meet;
    but a rectangle whose side is strictly longer on both ends is not found: [touches] is not
    symmetric. *)
Theorem touches_one_direction m n :
  valid m = true -> valid n = true ->
  (touches m n || touches n m = true <-> intersects m n = true /\ sides_meet m n) /\
  (rank (xmin n) = rank (xmax m) -> rank (xmax m) < rank (xmax n) -> rank (xmin m) < rank (xmin n) ->
   rank (ymin n) < rank (ymin m) -> rank (ymax m) < rank (ymax n) ->
   touches m n = false /\ touches n m = true).
Proof.
  intros Hm Hn. unfold sides_meet. to_ranks. split; [lia | intros; lia].
Qed.

(** The common part of two rectangles, and [overlaps] in one line. *)
Definition inter (m n : MBR D) : MBR D :=
  Mbr (MY_MAX (xmin m) (xmin n)) (MY_MAX (ymin m) (ymin n)) (MY_MIN (xmax m) (xmax n)) (MY_MIN (ymax m) (ymax n)).

Lemma overlaps_inter (within : MBR D -> MBR D -> bool) m n :
  (forall a b, within a b = contains b a) ->
  overlaps within m n = (dimension m =? dimension n) && (0 <? dimension m) && negb (contains m n) && negb (contains n m) &&
                        (dimension m =? dimension (inter m n)).
Proof.
  intros Hw. unfold overlaps. rewrite Hw. fold (inter m n). rewrite (Z.leb_antisym 0 (dimension m)).
  by destruct (dimension m =? dimension n), (0 <? dimension m), (contains m n), (contains n m).
Qed.

Lemma dimension_inter_comm m n : dimension (inter m n) = dimension (inter n m).
Proof.
  rewrite !dimension_rank. cbn [inter xmin ymin xmax ymax]. rewrite !max_rank, !min_rank.
  by rewrite (Z.max_comm (rank (xmin n))), (Z.max_comm (rank (ymin n))), (Z.min_comm (rank (xmax n))), (Z.min_comm (rank (ymax n))).
Qed.

Lemma dimension_pos m : 0 < dimension m -> rank (xmin m) <= rank (xmax m) /\ rank (ymin m) <= rank (ymax m).
Proof.
  rewrite dimension_rank. destruct (Z.ltb_spec (rank (xmax m)) (rank (xmin m))), (Z.ltb_spec (rank (ymax m)) (rank (ymin m))); cbn; lia.
Qed.

Lemma eq_comm_iff (a b : Z) : a = b <-> b = a.
Proof. done. Qed.

Lemma dimension_two m : dimension m = 2 <-> rank (xmin m) < rank (xmax m) /\ rank (ymin m) < rank (ymax m).
Proof.
  rewrite dimension_rank. destruct (Z.ltb_spec (rank (xmax m)) (rank (xmin m))), (Z.ltb_spec (rank (ymax m)) (rank (ymin m))),
    (Z.ltb_spec (rank (xmin m)) (rank (xmax m))), (Z.ltb_spec (rank (ymin m)) (rank (ymax m))); cbn; lia.
Qed.

(** for rectangles of the same dimension, neither within the other, [overlaps] says whether
    their intersection has that dimension too; so it is symmetric, overlapping rectangles share a
    point, and proper rectangles overlap exactly when their interiors meet.  [within] is taken to be the
    converse of [contains]. *)
Theorem overlaps_spec (within : MBR D -> MBR D -> bool) m n :
  (forall a b, within a b = contains b a) -> valid m = true -> valid n = true ->
  overlaps within m n = overlaps within n m /\
  (overlaps within m n = true ->
   dimension m = dimension n /\ 0 < dimension m /\ contains m n = false /\ contains n m = false /\
   exists x y, inside m x y /\ inside n x y) /\
  (dimension m = 2 -> dimension n = 2 ->
   (overlaps within m n = true <->
    contains m n = false /\ contains n m = false /\
    rank (xmin m) < rank (xmax n) /\ rank (xmin n) < rank (xmax m) /\ rank (ymin m) < rank (ymax n) /\ rank (ymin n) < rank (ymax m))).
Proof.
  intros Hw Hm Hn. rewrite !overlaps_inter by done. split_and!.
  - rewrite (dimension_inter_comm n m), (Z.eqb_sym (dimension n)). destruct (Z.eqb_spec (dimension m) (dimension n)) as [-> |]; [| done].
    by destruct (0 <? dimension n), (contains m n), (contains n m).
  - rewrite !andb_true_iff, !negb_true_iff, !Z.eqb_eq, Z.ltb_lt. intros ((((Hd & Hp) & Hc1) & Hc2) & Hi). split_and!; try done.
    exists (MY_MAX (xmin m) (xmin n)), (MY_MAX (ymin m) (ymin n)). rewrite Hi in Hp. apply dimension_pos in Hp.
    cbn [inter xmin ymin xmax ymax] in Hp. unfold inside. rewrite !max_rank, !min_rank in *. lia.
  - intros Hdm Hdn. rewrite !andb_true_iff, !negb_true_iff, !Z.eqb_eq, Z.ltb_lt, Hdm, Hdn. rewrite (eq_comm_iff 2 (dimension (inter m n))), dimension_two.
    apply dimension_two in Hdm, Hdn. cbn [inter xmin ymin xmax ymax]. rewrite !max_rank, !min_rank. intuition lia.
Qed.
End laws.

(** ** Concrete rectangles *)

(** Integers stand for the doubles that are integers. *)
#[export] Instance Z_coord : Coord Z := {
  dlt := Z.ltb; DBL_MAX := 2 ^ 1000; neg_DBL_MAX := - 2 ^ 1000; dadd := Z.add; dsub := Z.sub; float8get l := nth 0 l 0 }.
#[export] Instance Z_coord_order : CoordOrder Z := { rank := id; dlt_rank x y := eq_refl }.

Lemma mbr_of_points_witness :
  valid (add_points mbr_empty [(3, 4); (1, 9); (2, -1)]) = true /\
  same_box (add_points mbr_empty [(2, -1); (3, 4); (1, 9)]) (Mbr 1 (-1) 3 9).
Proof.
  destruct (mbr_of_points [(3, 4); (1, 9); (2, -1)]) as (Hv & _ & _ & Hp).
  - done.
  - intros p. rewrite !elem_of_cons, elem_of_nil. unfold finite. intros [-> | [-> | [-> | []]]]; cbn; lia.
  - split; [exact Hv |]. change (Mbr 1 (-1) 3 9) with (add_points mbr_empty [(3, 4); (1, 9); (2, -1)]). apply Hp.
    apply (Permutation_app_comm [(2, -1)] [(3, 4); (1, 9)]).
Defined.

Lemma mbr_relations_witness :
  contains (Mbr 0 0 9 9) (Mbr 1 1 2 2) = true <-> forall x y, inside (Mbr 1 1 2 2) x y -> inside (Mbr 0 0 9 9) x y.
Proof. apply (mbr_relations (Mbr 0 0 9 9) (Mbr 1 1 2 2)); reflexivity. Defined.

Lemma touches_one_direction_witness : touches (Mbr 0 4 2 5) (Mbr 2 0 9 9) = false /\ touches (Mbr 2 0 9 9) (Mbr 0 4 2 5) = true.
Proof. apply (touches_one_direction (Mbr 0 4 2 5) (Mbr 2 0 9 9)); reflexivity. Defined.

Lemma overlaps_spec_witness :
  overlaps (fun a b => contains b a) (Mbr 0 0 4 4) (Mbr 2 2 9 9) = true.
Proof.
  destruct (overlaps_spec (fun a b => contains b a) (Mbr 0 0 4 4) (Mbr 2 2 9 9)) as (_ & _ & H); [done.. |].
  apply H; [done | done | by vm_compute].
Defined.
