(* ===== verification/Window.v ===== *)
(** * Window: window functions (item_windowfunc.h)

    The window functions whose evaluation is in the header, as machines: [clear]
    at the start of a partition, [set_partition_row_count], [add] once per row,
    and the value.  Integers keep their width; doubles and the values of rows are abstract,
    with the operations the code applies to them.  An [Item_cache] is its contents: nothing
    ([None]) for NULL. *)

From stdpp Require Import base numbers option list.
From Stdlib Require Import ZArith Lia QArith Qround.
From S2P Require Import Prelude.

Local Open Scope Z_scope.

(** The operations of [double]; [of_int] is the conversion of an integer. *)
Class Dbl (D : Type) := {
  of_int : Z -> D;
  dlt : D -> D -> bool;
  deq : D -> D -> bool;
  dadd : D -> D -> D;
  dsub : D -> D -> D;
  dmul : D -> D -> D;
  ddiv : D -> D -> D;
  dfloor : D -> D;
  dceil : D -> D
}.

(** What a function returns, with the two flags it may set: the value, [null_value], an error. *)
Record result (A : Type) := Res { value : A; null_value : bool; failed : bool }.
Arguments Res {A}.
Arguments value {A}.
Arguments null_value {A}.
Arguments failed {A}.

(** ** Group_bound_tracker *)

Section tracker.
(** The cached items, and what the code calls on them: [test_if_group_changed]
    (which also caches the new row) and [cmp_read_only]. *)
Context {item row : Type} (test_if_group_changed : row -> list item -> Z * list item) (cmp_read_only : row -> item -> Z).

(* [item_windowfunc.h:89-101 Group_bound_tracker] *)
Record Group_bound_tracker := Tracker { group_fields : list item; first_check : bool }.

(* [item_windowfunc.h:42-45 init] *)
Definition tracker_init (t : Group_bound_tracker) : Group_bound_tracker := Tracker (group_fields t) true.

(* [item_windowfunc.h:55-63 check_if_next_group] *)
Definition check_if_next_group (t : Group_bound_tracker) (r : row) : bool * Group_bound_tracker :=
  let '(changed, fields) := test_if_group_changed r (group_fields t) in
  if (-1 <? changed) || first_check t then (true, Tracker fields false) else (false, Tracker fields (first_check t)).

(* [item_windowfunc.h:76-81 compare_with_cache] *)
Fixpoint compare_loop (r : row) (li : list item) : Z :=
  match li with
  | [] => 0
  | ptr :: li => let res := cmp_read_only r ptr in if negb (res =? 0) then res else compare_loop r li
  end.
(* [item_windowfunc.h:72-83 compare_with_cache] *)
Definition compare_with_cache (t : Group_bound_tracker) (r : row) : Z := compare_loop r (group_fields t).
End tracker.

(** ** ROW_NUMBER *)

Module RowNumber.
(* [item_windowfunc.h:123-126 clear] *)
Definition clear (count : Z) : Z := 0.
(* [item_windowfunc.h:128-132 add] *)
Definition add (count : Z) : Z := s64 (count + 1).
(* [item_windowfunc.h:142-145 val_int] *)
Definition val_int (count : Z) : Z := count.
End RowNumber.

(** ** Rows of the partition and of the frame *)

(* [item_windowfunc.h:449-477 Partition_row_count, Current_row_count] *)
Record counts := Counts { partition_row_count_ : Z; current_row_count_ : Z }.

(* [item_windowfunc.h:453-456 set_partition_row_count] *)
Definition set_partition_row_count (c : counts) (count : Z) : counts := Counts (u64 count) (current_row_count_ c).
(* [item_windowfunc.h:465-465 get_row_count] *)
Definition get_row_count (c : counts) : Z := s64 (partition_row_count_ c).
(* [item_windowfunc.h:475-475 get_row_number] *)
Definition get_row_number (c : counts) : Z := current_row_count_ c.

Section doubles.
Context {D : Type} `{!Dbl D}.

(* [item_windowfunc.h:457-463 calc_val_real] *)
Definition calc_val_real (c : counts) (current_row_count : Z) : result D :=
  if partition_row_count_ c =? 0 then Res (of_int 0) true false
  else Res (ddiv (of_int current_row_count) (of_int (partition_row_count_ c))) false false.
End doubles.

(** ** NTILE *)

Module Ntile.
(* [item_windowfunc.h:682-686 add] *)
Definition add (c : counts) : counts := Counts (partition_row_count_ c) (u64 (current_row_count_ c + 1)).
(* [item_windowfunc.h:693-697 clear] *)
Definition clear (c : counts) : counts := Counts 0 0.

(** [None] is the division by zero. *)
Definition udiv (a b : Z) : option Z := if b =? 0 then None else Some (a `div` b).

(** The argument is what [get_num_quantiles()] gives. *)
(* [item_windowfunc.h:657-680 val_int] *)
Definition val_int (c : counts) (num_quantiles : Z) : option (result Z) :=
  if get_row_count c =? 0 then Some (Res 0 true false) else
  if num_quantiles <=? 0 then Some (Res 1 false true) else
  let quantile_size := u64 (get_row_count c ÷ num_quantiles) in
  let extra_rows := u64 (u64 (get_row_count c) - u64 (quantile_size * num_quantiles)) in
  if current_row_count_ c <=? u64 (extra_rows * u64 (quantile_size + 1)) then
    v ← udiv (u64 (current_row_count_ c - 1)) (u64 (quantile_size + 1)); Some (Res (s64 (u64 (v + 1))) false false)
  else
    v ← udiv (u64 (u64 (current_row_count_ c - 1) - extra_rows)) quantile_size; Some (Res (s64 (u64 (v + 1))) false false).
End Ntile.

(** ** PERCENT_RANK and CUME_DIST *)

Module PercentRank.
Section code.
Context {D : Type} `{!Dbl D}.
(** [null_value] is set when the partition is empty, and the value is 0 for one row. *)
(* [item_windowfunc.h:508-519 val_real] *)
Definition val_real (c : counts) (cur_rank : Z) : result D :=
  let partition_rows := u64 (get_row_count c) in
  let null := if 0 <? partition_rows then false else true in
  if 1 <? partition_rows
  then Res (ddiv (of_int (s64 (cur_rank - 1))) (of_int (u64 (partition_rows - 1)))) null false
  else Res (of_int 0) null false.
End code.
(** [cur_rank] and [row_number]. *)
(* [item_windowfunc.h:533-537 clear] *)
Definition clear (r : Z * Z) : Z * Z := (1, 0).
End PercentRank.

Module CumeDist.
(* [item_windowfunc.h:604-608 add] *)
Definition add (c : counts) : counts := Counts (partition_row_count_ c) (u64 (current_row_count_ c + 1)).
(* [item_windowfunc.h:615-619 clear] *)
Definition clear (c : counts) : counts := Counts 0 0.
Section code.
Context {D : Type} `{!Dbl D}.
(* [item_windowfunc.h:599-602 val_real] *)
Definition val_real (c : counts) : result D := calc_val_real c (current_row_count_ c).
End code.
End CumeDist.

(** ** PERCENTILE_DISC *)

Module PercentileDisc.
Section code.
Context {D V : Type} `{!Dbl D}.

(** [null_value] is a member: [add] writes it. *)
(* [item_windowfunc.h:872-877 Item_sum_percentile_disc] *)
Record state := St {
  st_counts : counts; st_value : option V; val_calculated : bool; first_call : bool; prev_value : D; st_null : bool }.

(* [item_windowfunc.h:834-841 clear] *)
Definition clear (s : state) : state := St (Counts 0 0) None false true (prev_value s) (st_null s).

(* [item_windowfunc.h:861-864 set_partition_row_count] *)
Definition set_rows (s : state) (n : Z) : state :=
  St (set_partition_row_count (st_counts s) n) (st_value s) (val_calculated s) (first_call s) (prev_value s) (st_null s).

(** The part of [add] after the checks of the argument. *)
(* [item_windowfunc.h:813-826 add] *)
Definition add_row (s : state) (order_item : option V) : bool * state :=
  if val_calculated s then (false, s) else
  let s := St (st_counts s) order_item (val_calculated s) (first_call s) (prev_value s) (st_null s) in
  match st_value s with
  | None => (false, s)
  | Some _ =>
      let c := Counts (partition_row_count_ (st_counts s)) (u64 (current_row_count_ (st_counts s) + 1)) in
      let val := calc_val_real c (current_row_count_ c) in
      let calculated := negb (dlt (value val) (prev_value s)) && negb (val_calculated s) || val_calculated s in
      (false, St c (st_value s) calculated (first_call s) (prev_value s) (null_value val))
  end.

(** [arg] is the argument on this row, nothing for NULL; [true] is an error. *)
(* [item_windowfunc.h:788-827 add] *)
Definition add (s : state) (arg : option D) (order_item : option V) : bool * state :=
  match arg with
  | None => (false, s)
  | Some arg_val =>
      let set_prev f := St (st_counts s) (st_value s) (val_calculated s) f arg_val (st_null s) in
      if first_call s && (dlt (of_int 1) arg_val || dlt arg_val (of_int 0)) then (true, set_prev true)
      else
        let s := if first_call s then set_prev false else s in
        if negb (deq (prev_value s) arg_val) then (true, s) else add_row s order_item
  end.

(** The five methods that read the value; [conv] is the method of [Item_cache]. *)
Definition read {A} (dflt : A) (conv : option V -> A) (s : state) (arg : option D) : result A :=
  if (get_row_count (st_counts s) =? 0) || bool_decide (arg = None) then Res dflt true false else Res (conv (st_value s)) false false.

Section reading.
(** The methods of the cache, and the null results of each type. *)
Context {decimal str date : Type} (cache_real : option V -> D) (cache_int : option V -> Z)
  (cache_decimal : option V -> option decimal) (cache_str : option V -> option str) (cache_date : option V -> bool * date) (no_date : date).
(* [item_windowfunc.h:733-742 val_real] *)
Definition val_real : state -> option D -> result D := read (of_int 0) cache_real.
(* [item_windowfunc.h:744-753 val_int] *)
Definition val_int : state -> option D -> result Z := read 0 cache_int.
(* [item_windowfunc.h:755-764 val_decimal] *)
Definition val_decimal : state -> option D -> result (option decimal) := read None cache_decimal.
(* [item_windowfunc.h:766-775 val_str] *)
Definition val_str : state -> option D -> result (option str) := read None cache_str.
(* [item_windowfunc.h:777-786 get_date] *)
Definition get_date : state -> option D -> result (bool * date) := read (false, no_date) cache_date.
End reading.
End code.
End PercentileDisc.

(** ** PERCENTILE_CONT *)

Module PercentileCont.
Section code.
Context {D V : Type} `{!Dbl D}.

(* [item_windowfunc.h:1008-1015 Item_sum_percentile_cont] *)
Record state := St {
  st_counts : counts; floor_value : option V; ceil_value : option V; first_call : bool; prev_value : D;
  ceil_val_calculated : bool; floor_val_calculated : bool }.

(* [item_windowfunc.h:971-980 clear] *)
Definition clear (s : state) : state := St (Counts 0 0) None None true (prev_value s) false false.

(* [item_windowfunc.h:997-1000 set_partition_row_count] *)
Definition set_rows (s : state) (n : Z) : state :=
  St (set_partition_row_count (st_counts s) n) (floor_value s) (ceil_value s) (first_call s) (prev_value s)
    (ceil_val_calculated s) (floor_val_calculated s).

(** [1 + prev_value * (get_row_count()-1)]. *)
(* [item_windowfunc.h:956-956 add] *)
Definition position (s : state) : D := dadd (of_int 1) (dmul (prev_value s) (of_int (s64 (get_row_count (st_counts s) - 1)))).

(** The end of [add]: the row is counted. *)
(* [item_windowfunc.h:955-963 add] *)
Definition count_row (s : state) : bool * state :=
  let c := Counts (partition_row_count_ (st_counts s)) (u64 (current_row_count_ (st_counts s) + 1)) in
  let s := St c (floor_value s) (ceil_value s) (first_call s) (prev_value s) (ceil_val_calculated s) (floor_val_calculated s) in
  let val := position s in
  let fl := negb (floor_val_calculated s) && deq (of_int (get_row_number c)) (dfloor val) || floor_val_calculated s in
  let ce := negb (ceil_val_calculated s) && deq (of_int (get_row_number c)) (dceil val) || ceil_val_calculated s in
  (false, St c (floor_value s) (ceil_value s) (first_call s) (prev_value s) ce fl).

(** The part of [add] after the checks of the argument. *)
(* [item_windowfunc.h:940-963 add] *)
Definition add_row (s : state) (order_item : option V) : bool * state :=
  let fl := floor_val_calculated s in
  let s := if negb fl
    then St (st_counts s) order_item (ceil_value s) (first_call s) (prev_value s) (ceil_val_calculated s) fl else s in
  if negb fl && bool_decide (floor_value s = None) then (false, s) else
  let store := floor_val_calculated s && negb (ceil_val_calculated s) in
  let s := if store
    then St (st_counts s) (floor_value s) order_item (first_call s) (prev_value s) (ceil_val_calculated s) fl else s in
  if store && bool_decide (ceil_value s = None) then (false, s) else count_row s.

(* [item_windowfunc.h:916-964 add] *)
Definition add (s : state) (arg : option D) (order_item : option V) : bool * state :=
  match arg with
  | None => (false, s)
  | Some arg_val =>
      let set_prev := St (st_counts s) (floor_value s) (ceil_value s) false arg_val (ceil_val_calculated s) (floor_val_calculated s) in
      if first_call s && (dlt (of_int 1) arg_val || dlt arg_val (of_int 0)) then (true, set_prev)
      else
        let s := if first_call s then set_prev else s in
        if negb (deq (prev_value s) arg_val) then (true, s) else add_row s order_item
  end.

(** [cache_real] is [Item_cache::val_real]. *)
Context (cache_real : option V -> D).
(* [item_windowfunc.h:889-914 val_real] *)
Definition val_real (s : state) (arg : option D) : result D :=
  if (get_row_count (st_counts s) =? 0) || bool_decide (arg = None) then Res (of_int 0) true false else
  let val := position s in
  if deq (dceil val) (dfloor val) then Res (cache_real (floor_value s)) false false else
  Res (dadd (dmul (dsub val (dfloor val)) (cache_real (ceil_value s)))
            (dmul (dsub (dceil val) val) (cache_real (floor_value s)))) false false.
End code.
End PercentileCont.

(** ** ROW_NUMBER, trackers and NTILE *)

(** The first row of bucket [b + 1] minus one, when [n] rows go into [q] buckets: the first
    [n mod q] buckets have one row more. *)
Definition bucket_start (n q b : Z) : Z := b * (n `div` q) + Z.min b (n `mod` q).

Lemma s64_small z : - 2 ^ 63 <= z < 2 ^ 63 -> s64 z = z.
Proof. apply (swrap_small 64). lia. Qed.

(** NTILE(q) on row [i] of a partition of [n] rows never divides by zero, does not overflow,
    and numbers the buckets from 1 to [q] so that row [i] is in bucket [b] exactly when it
    lies between the starts of [b] and the next one: every bucket has [n / q] rows and the first [n mod q]
    have one more, which uses up the rows.  An empty partition gives NULL and a number of
    buckets that is not positive is an error. *)
Theorem ntile_buckets n i q :
  0 <= n < 2 ^ 63 -> q < 2 ^ 63 ->
  (n = 0 -> Ntile.val_int (Counts n i) q = Some (Res 0 true false)) /\
  (0 < n -> q <= 0 -> Ntile.val_int (Counts n i) q = Some (Res 1 false true)) /\
  (0 < q -> 1 <= i <= n ->
   exists b, Ntile.val_int (Counts n i) q = Some (Res b false false) /\ 1 <= b <= q /\
     bucket_start n q (b - 1) < i <= bucket_start n q b) /\
  (0 < q -> bucket_start n q 0 = 0 /\ bucket_start n q q = n /\
   forall b, 0 <= b < q -> bucket_start n q (b + 1) - bucket_start n q b = n `div` q + (if b <? n `mod` q then 1 else 0)).
Proof.
  intros Hn Hq. unfold Ntile.val_int, get_row_count. cbn [partition_row_count_ current_row_count_]. rewrite s64_small by lia. split_and!.
  - by intros ->.
  - intros H0 Hq0. rewrite (proj2 (Z.eqb_neq n 0)), (proj2 (Z.leb_le q 0)) by lia. done.
  - intros Hq0 Hi. rewrite (proj2 (Z.eqb_neq n 0)), (proj2 (Z.leb_gt q 0)) by lia. rewrite Z.quot_div_nonneg by lia. unfold bucket_start.
    pose proof (Z.div_mod n q ltac:(lia)) as Hdm. pose proof (Z.mod_pos_bound n q Hq0) as Hmod. pose proof (Z.div_pos n q ltac:(lia) Hq0) as Hs0.
    set (s := n `div` q) in *. set (e := n `mod` q) in *. assert (s <= n) by nia. assert (s * q <= n) by nia. assert (e * (s + 1) <= n) by nia.
    rewrite (u64_small s), (u64_small n), (u64_small (s * q)), (u64_small (n - s * q)), (u64_small (s + 1)) by lia.
    replace (n - s * q) with e by lia. rewrite (u64_small (e * (s + 1))), (u64_small (i - 1)) by nia. unfold Ntile.udiv.
    destruct (Z.leb_spec i (e * (s + 1))) as [Hle | Hgt].
    + rewrite (proj2 (Z.eqb_neq (s + 1) 0)) by lia. cbn [mbind option_bind].
      pose proof (Z.div_mod (i - 1) (s + 1) ltac:(lia)) as Hd. pose proof (Z.mod_pos_bound (i - 1) (s + 1) ltac:(lia)) as Hm.
      set (k := (i - 1) `div` (s + 1)) in *. assert (0 <= k) by (apply Z.div_pos; lia). assert (k < e) by nia. rewrite u64_small, s64_small by lia.
      exists (k + 1). split; [done |]. rewrite !Z.min_l by lia. split; [lia |]. nia.
    + assert (0 < s) by (destruct (decide (s = 0)) as [E0 |]; [rewrite E0 in *; lia | lia]).
      rewrite (u64_small (i - 1 - e)) by nia. rewrite (proj2 (Z.eqb_neq s 0)) by lia. cbn [mbind option_bind].
      pose proof (Z.div_mod (i - 1 - e) s ltac:(lia)) as Hd. pose proof (Z.mod_pos_bound (i - 1 - e) s ltac:(lia)) as Hm.
      set (k := (i - 1 - e) `div` s) in *. assert (e <= k) by nia. assert (k < q) by nia. rewrite u64_small, s64_small by lia.
      exists (k + 1). split; [done |]. rewrite !Z.min_r by lia. split; [lia |]. nia.
  - intros Hq0. unfold bucket_start. pose proof (Z.div_mod n q ltac:(lia)). pose proof (Z.mod_pos_bound n q Hq0). split_and!; [lia | | ].
    + rewrite Z.min_r by lia. lia.
    + intros b Hb. destruct (Z.ltb_spec b (n `mod` q)); lia.
Qed.

Lemma ntile_buckets_witness :
  (exists b, Ntile.val_int (Counts 10 4) 3 = Some (Res b false false) /\ 1 <= b <= 3) /\ bucket_start 10 3 3 = 10.
Proof.
  destruct (ntile_buckets 10 4 3) as (_ & _ & H1 & H2); [lia | lia |]. split.
  - destruct H1 as (b & E & Hb & _); [lia | lia |]. by exists b.
  - by apply H2.
Defined.

(** ** The percentiles *)

(** The values of a column without the NULLs. *)
Definition non_null {V : Type} (rows : list (option V)) : list V := omap id rows.

Lemma non_null_app {V : Type} (r1 r2 : list (option V)) : non_null (r1 ++ r2) = non_null r1 ++ non_null r2.
Proof. apply omap_app. Qed.

Lemma length_non_null {V : Type} (rows : list (option V)) : (length (non_null rows) <= length rows)%nat.
Proof. unfold non_null. induction rows as [| [v |] rows IH]; cbn in *; lia. Qed.

(** An argument that passes the checks: a number between 0 and 1, and not NaN. *)
Record in_range {D : Type} `{!Dbl D} (p : D) : Prop := {
  ir_self : deq p p = true; ir_one : dlt (of_int 1) p = false; ir_zero : dlt p (of_int 0) = false }.

Section percentile_disc.
Context {D V : Type} `{!Dbl D}.
Import PercentileDisc.

(** All rows of a partition, until an error. *)
Fixpoint disc_rows (s : state (D := D) (V := V)) (p : D) (rows : list (option V)) : bool * state :=
  match rows with
  | [] => (false, s)
  | r :: rows => let '(e, s) := add s (Some p) r in if e then (true, s) else disc_rows s p rows
  end.

Definition disc_ready (s : state (D := D) (V := V)) (p : D) : Prop := first_call s = true \/ (first_call s = false /\ prev_value s = p).

Lemma disc_add_checks (s : state (D := D) (V := V)) p r :
  in_range p -> disc_ready s p ->
  add s (Some p) r = add_row (St (st_counts s) (st_value s) (val_calculated s) false p (st_null s)) r.
Proof.
  intros [H1 H2 H3] Hr. unfold add. destruct s as [c v k f q nl]. unfold disc_ready in Hr. cbn in *.
  destruct f; cbn [andb]; rewrite ?H2, ?H3; cbn; [by rewrite H1 |]. destruct Hr as [| [_ ->]]; [done |]. by rewrite H1.
Qed.

Lemma disc_done (s : state (D := D) (V := V)) p rows :
  in_range p -> disc_ready s p -> val_calculated s = true ->
  exists s', disc_rows s p rows = (false, s') /\ st_value s' = st_value s /\ partition_row_count_ (st_counts s') = partition_row_count_ (st_counts s).
Proof.
  intros Hp. revert s. induction rows as [| r rows IH]; intros s Hr Hc; [by exists s |]. cbn [disc_rows].
  rewrite disc_add_checks by done. unfold add_row. cbn [val_calculated]. rewrite Hc.
  destruct (IH (St (st_counts s) (st_value s) true false p (st_null s))) as (s' & E & Hv & Hn); [by right | done |]. by exists s'.
Qed.

(** The row found, from any point before it. *)
Lemma disc_found (s : state (D := D) (V := V)) p n rows v post :
  in_range p -> disc_ready s p -> val_calculated s = false -> 0 < n ->
  let k := current_row_count_ (st_counts s) in
  partition_row_count_ (st_counts s) = n -> 0 <= k -> k + Z.of_nat (length rows) + 1 < 2 ^ 64 ->
  (forall j, k < j <= k + Z.of_nat (length (non_null rows)) -> dlt (ddiv (of_int j) (of_int n)) p = true) ->
  dlt (ddiv (of_int (k + Z.of_nat (length (non_null rows)) + 1)) (of_int n)) p = false ->
  exists s', disc_rows s p (rows ++ Some v :: post) = (false, s') /\ st_value s' = Some v /\ partition_row_count_ (st_counts s') = n.
Proof.
  intros Hp. revert s. induction rows as [| r rows IH]; intros s Hr Hc Hn0 k Hn Hk Hlen Hlt Hge; cbn [app disc_rows];
    rewrite disc_add_checks by done; unfold add_row; cbn [val_calculated st_value st_counts prev_value]; rewrite Hc.
  - cbn [andb orb negb]. cbn in Hge. rewrite Z.add_0_r in Hge. unfold calc_val_real. cbn [partition_row_count_ current_row_count_].
    rewrite Hn, (proj2 (Z.eqb_neq n 0)) by lia. cbn [value null_value]. fold k. rewrite u64_small by lia. rewrite Hge. cbn [negb andb orb].
    destruct (disc_done (St (Counts n (k + 1)) (Some v) true false p false) p post Hp) as (s' & E & Hv & Hn'); [by right | done |].
    by exists s'.
  - cbn [length] in Hlen. destruct r as [w |]; cbn [non_null omap list_omap id length] in Hlt, Hge.
    + cbn [andb orb negb]. unfold calc_val_real. cbn [partition_row_count_ current_row_count_].
      rewrite Hn, (proj2 (Z.eqb_neq n 0)) by lia. cbn [value null_value]. fold k. rewrite u64_small by lia.
      rewrite (Hlt (k + 1)) by lia. cbn [negb andb orb].
      apply IH; cbn; try done; [by right | lia | lia | |].
      * intros j Hj. apply Hlt. unfold non_null in Hj. lia.
      * rewrite <- Hge. do 3 f_equal. unfold non_null. lia.
    + apply IH; cbn; try done; [by right | lia].
Qed.

(** over a partition of [n] rows with a constant argument [p] between 0 and 1,
    PERCENTILE_DISC returns the value of the first non-NULL row whose cumulative share
    [k / n] is not below [p], whatever NULL rows lie between and whatever rows follow; it is
    NULL on an empty partition or a NULL argument, and an argument outside [0, 1] or one
    that changes between rows is an error. *)
Theorem percentile_disc_value (s : state (D := D) (V := V)) p n pre v post :
  in_range p -> 0 < n < 2 ^ 63 -> Z.of_nat (length pre) + 1 < 2 ^ 64 ->
  (forall j, 0 < j <= Z.of_nat (length (non_null pre)) -> dlt (ddiv (of_int j) (of_int n)) p = true) ->
  dlt (ddiv (of_int (Z.of_nat (length (non_null pre)) + 1)) (of_int n)) p = false ->
  (exists s', disc_rows (set_rows (clear s) n) p (pre ++ Some v :: post) = (false, s') /\
     forall A (dflt : A) conv arg, read dflt conv s' (Some arg) = Res (conv (Some v)) false false /\ read dflt conv s' None = Res dflt true false) /\
  (forall q r, dlt (of_int 1) q || dlt q (of_int 0) = true -> (add (set_rows (clear s) n) (Some q) r).1 = true) /\
  (forall q r s1, (add (set_rows (clear s) n) (Some p) r).2 = s1 -> deq p q = false -> (add s1 (Some q) r).1 = true).
Proof.
  intros Hp Hn Hlen Hlt Hge. split_and!.
  - destruct (disc_found (set_rows (clear s) n) p n pre v post) as (s' & E & Hv & Hrows); try done; [by left | lia | cbn; by apply u64_small; lia | ].
    exists s'. split; [done |]. intros A dflt conv arg. unfold read, get_row_count. rewrite Hrows, s64_small by lia.
    rewrite (proj2 (Z.eqb_neq n 0)), Hv by lia. by rewrite orb_true_r.
  - intros q r Hq. unfold add. cbn. by rewrite Hq.
  - intros q r s1 <- Hq. rewrite (disc_add_checks _ p r Hp) by (left; reflexivity). unfold add_row. cbn.
    destruct r; unfold add; cbn; by rewrite Hq.
Qed.
End percentile_disc.

Section percentile_cont.
Context {D V : Type} `{!Dbl D}.
Import PercentileCont.

Fixpoint cont_rows (s : state (D := D) (V := V)) (p : D) (rows : list (option V)) : bool * state :=
  match rows with
  | [] => (false, s)
  | r :: rows => let '(e, s) := add s (Some p) r in if e then (true, s) else cont_rows s p rows
  end.

(** What the code relies on of [floor], [ceil] and the conversion of row numbers: [fl] and
    [ce] are the two row numbers around the position. *)
Record rounds (p : D) (n fl ce : Z) : Prop := {
  ro_floor k : 0 < k <= n -> deq (of_int k) (dfloor (dadd (of_int 1) (dmul p (of_int (n - 1))))) = (k =? fl);
  ro_ceil k : 0 < k <= n -> deq (of_int k) (dceil (dadd (of_int 1) (dmul p (of_int (n - 1))))) = (k =? ce);
  ro_order : 1 <= fl <= ce /\ ce <= n /\ ce <= fl + 1
}.

(** After the rows with the values [xs] (and any NULL rows between them). *)
Record cont_state (s : state (D := D) (V := V)) (p : D) (n fl ce : Z) (xs : list V) : Prop := {
  cs_rows : partition_row_count_ (st_counts s) = n;
  cs_current : Z.of_nat (length xs) < ce -> current_row_count_ (st_counts s) = Z.of_nat (length xs);
  cs_ready : first_call s = true \/ (first_call s = false /\ prev_value s = p);
  cs_prev : xs <> [] -> prev_value s = p;
  cs_fl : floor_val_calculated s = (fl <=? Z.of_nat (length xs));
  cs_ce : ceil_val_calculated s = (ce <=? Z.of_nat (length xs));
  cs_floor : fl <= Z.of_nat (length xs) -> floor_value s = xs !! Z.to_nat (fl - 1);
  cs_ceil : fl < ce <= Z.of_nat (length xs) -> ceil_value s = xs !! Z.to_nat (ce - 1)
}.

Lemma cont_add_checks (s : state (D := D) (V := V)) p r :
  in_range p -> first_call s = true \/ (first_call s = false /\ prev_value s = p) ->
  add s (Some p) r = add_row (St (st_counts s) (floor_value s) (ceil_value s) false p (ceil_val_calculated s) (floor_val_calculated s)) r.
Proof.
  intros [H1 H2 H3] Hr. unfold add. destruct s as [c a b f q x y]. cbn in *.
  destruct f; cbn [andb]; rewrite ?H2, ?H3; cbn; [by rewrite H1 |]. destruct Hr as [| [_ ->]]; [done |]. by rewrite H1.
Qed.

(** Counting one more row moves the flags as the row numbers say. *)
Lemma count_row_flags c (a b : option V) (p : D) x y n fl ce j :
  rounds p n fl ce -> 0 < n < 2 ^ 63 -> partition_row_count_ c = n -> 0 <= j -> j + 1 <= ce -> current_row_count_ c = j ->
  x = (ce <=? j) -> y = (fl <=? j) ->
  count_row (St c a b false p x y) =
    (false, St (Counts n (j + 1)) a b false p (ce <=? j + 1) (fl <=? j + 1)).
Proof.
  intros [Hfl Hce Ho] Hn Hc Hj Hjc Hcur -> ->. unfold count_row, position, get_row_count, get_row_number. cbn. rewrite Hc, Hcur.
  rewrite (u64_small (j + 1)), (s64_small n), (s64_small (n - 1)), Hfl, Hce by lia. do 2 f_equal; lia.
Qed.

(** What [add_row] does in its three phases. *)
Lemma add_row_floor c (a b : option V) f (p : D) x r :
  add_row (St c a b f p x false) r =
    match r with None => (false, St c None b f p x false) | Some v => count_row (St c (Some v) b f p x false) end.
Proof. by destruct r. Qed.

Lemma add_row_ceil c (a b : option V) f (p : D) r :
  add_row (St c a b f p false true) r =
    match r with None => (false, St c a None f p false true) | Some v => count_row (St c a (Some v) f p false true) end.
Proof. by destruct r. Qed.

Lemma add_row_done c (a b : option V) f (p : D) r : add_row (St c a b f p true true) r = count_row (St c a b f p true true).
Proof. done. Qed.

Lemma cont_step (s : state (D := D) (V := V)) p n fl ce xs r :
  in_range p -> rounds p n fl ce -> 0 < n < 2 ^ 63 -> cont_state s p n fl ce xs ->
  exists s', add s (Some p) r = (false, s') /\ cont_state s' p n fl ce (xs ++ non_null [r]).
Proof.
  intros Hp Hro Hn [Hrows Hcur Hready Hprev Hf Hc Hfv Hcv]. pose proof (ro_order _ _ _ _ Hro) as Ho. rewrite cont_add_checks by done.
  rewrite Hf, Hc. set (j := Z.of_nat (length xs)) in *.
  assert (Hlen : forall v, Z.of_nat (length (xs ++ [v])) = j + 1) by (intros v; rewrite length_app; cbn; lia).
  destruct (Z.leb_spec fl j) as [Hfj | Hfj]; [destruct (Z.leb_spec ce j) as [Hcj | Hcj] |].
  - rewrite add_row_done. eexists. split; [unfold count_row; reflexivity |].
    assert (Hx : forall i, (i < length xs)%nat -> (xs ++ non_null [r]) !! i = xs !! i) by (intros i Hi; by rewrite lookup_app_l).
    assert (Hl : j <= Z.of_nat (length (xs ++ non_null [r]))) by (rewrite length_app; lia).
    split; cbn [st_counts partition_row_count_ floor_val_calculated ceil_val_calculated floor_value ceil_value first_call prev_value andb orb negb]; try done.
    + lia.
    + by right.
    + lia.
    + lia.
    + intros _. rewrite Hx by lia. by apply Hfv.
    + intros Hb. rewrite Hx by lia. apply Hcv. lia.
  - rewrite add_row_ceil. destruct r as [v |]; cbn [non_null omap list_omap id].
    + rewrite (count_row_flags _ _ _ p _ _ n fl ce j) by (done || lia).
      eexists. split; [reflexivity |]. split; cbn; rewrite ?Hlen; try lia; try done; [by right | |].
      * intros _. rewrite lookup_app_l by lia. by apply Hfv.
      * intros Hb. rewrite lookup_app_r by lia. replace (Z.to_nat (ce - 1) - length xs)%nat with 0%nat by lia. done.
    + eexists. split; [reflexivity |]. rewrite app_nil_r. split; cbn; fold j; try done; try lia. by right.
  - rewrite (proj2 (Z.leb_gt ce j)) by lia. rewrite add_row_floor. destruct r as [v |]; cbn [non_null omap list_omap id].
    + rewrite (count_row_flags _ _ _ p _ _ n fl ce j) by (done || lia).
      eexists. split; [reflexivity |]. split; cbn; rewrite ?Hlen; try lia; try done; [by right |].
      intros Hb. rewrite lookup_app_r by lia. replace (Z.to_nat (fl - 1) - length xs)%nat with 0%nat by lia. done.
    + eexists. split; [reflexivity |]. rewrite app_nil_r. split; cbn; fold j; try done; try lia. by right.
Qed.

Lemma cont_all (s : state (D := D) (V := V)) p n fl ce xs rows :
  in_range p -> rounds p n fl ce -> 0 < n < 2 ^ 63 -> cont_state s p n fl ce xs ->
  exists s', cont_rows s p rows = (false, s') /\ cont_state s' p n fl ce (xs ++ non_null rows).
Proof.
  intros Hp Hro Hn. revert s xs. induction rows as [| r rows IH]; intros s xs Hs; [exists s; by rewrite app_nil_r |].
  destruct (cont_step s p n fl ce xs r Hp Hro Hn Hs) as (s1 & E & Hs1). cbn [cont_rows]. rewrite E.
  destruct (IH s1 _ Hs1) as (s' & E' & Hs'). exists s'. split; [done |]. by rewrite <- app_assoc, <- (non_null_app [r] rows) in Hs'.
Qed.

(** over the [n] non-NULL rows of a partition (NULL rows may lie between them) with a
    constant argument [p] between 0 and 1, PERCENTILE_CONT returns the value of the row at
    [1 + p (n - 1)] when that is a row number, and otherwise the linear interpolation between the rows on
    both sides of it. *)
Theorem percentile_cont_value (cache_real : option V -> D) (s : state (D := D) (V := V)) p n fl ce rows arg :
  in_range p -> 0 < n < 2 ^ 63 -> rounds p n fl ce -> Z.of_nat (length (non_null rows)) = n ->
  let RN := dadd (of_int 1) (dmul p (of_int (n - 1))) in
  deq (dceil RN) (dfloor RN) = (fl =? ce) ->
  exists s' a b, cont_rows (set_rows (clear s) n) p rows = (false, s') /\
    non_null rows !! Z.to_nat (fl - 1) = Some a /\ non_null rows !! Z.to_nat (ce - 1) = Some b /\
    val_real cache_real s' (Some arg) =
      Res (if fl =? ce then cache_real (Some a)
           else dadd (dmul (dsub RN (dfloor RN)) (cache_real (Some b))) (dmul (dsub (dceil RN) RN) (cache_real (Some a)))) false false.
Proof.
  intros Hp Hn Hro Hlen RN Heq. pose proof (ro_order _ _ _ _ Hro) as Ho.
  assert (H0 : cont_state (set_rows (clear s) n) p n fl ce []).
  { split; cbn; try lia; try done; [apply u64_small; lia | symmetry; apply Z.leb_gt; lia..]. }
  destruct (cont_all _ p n fl ce [] rows Hp Hro Hn H0) as (s' & E & Hs). rewrite app_nil_l in Hs.
  destruct (lookup_lt_is_Some_2 (non_null rows) (Z.to_nat (fl - 1))) as [a Ea]; [lia |].
  destruct (lookup_lt_is_Some_2 (non_null rows) (Z.to_nat (ce - 1))) as [b Eb]; [lia |].
  exists s', a, b. split_and!; try done. destruct Hs as [Hrows Hcur Hready Hprev Hf Hc Hfv Hcv].
  unfold val_real, get_row_count. rewrite Hrows, s64_small, (proj2 (Z.eqb_neq n 0)) by lia. cbn [orb bool_decide decide_rel].
  assert (Hp' : prev_value s' = p) by (apply Hprev; intros E0; rewrite E0 in Hlen; cbn in Hlen; lia).
  unfold position, get_row_count. rewrite Hrows, Hp', (s64_small n), (s64_small (n - 1)) by lia. fold RN. rewrite Heq.
  rewrite Hfv, Ea by lia. destruct (Z.eqb_spec fl ce) as [-> | Hne]; [done |]. by rewrite Hcv, Eb by lia.
Qed.
End percentile_cont.

(** ** Exact rationals *)

(** A model of the operations, for concrete runs: the rationals. *)
#[export] Instance Q_dbl : Dbl Q := {
  of_int := inject_Z;
  dlt x y := negb (Qle_bool y x);
  deq := Qeq_bool;
  dadd := Qplus; dsub := Qminus; dmul := Qmult; ddiv := Qdiv;
  dfloor x := inject_Z (Qfloor x);
  dceil x := inject_Z (Qceiling x)
}.

Definition Q_disc : PercentileDisc.state (D := Q) (V := Z) := PercentileDisc.St (Counts 7 7) (Some 9) true false 0%Q true.
Definition Q_cont : PercentileCont.state (D := Q) (V := Z) := PercentileCont.St (Counts 7 7) (Some 9) (Some 9) false 0%Q true true.

Lemma in_range_half : in_range (1 # 2)%Q.
Proof. by split. Qed.

(** The half of 10, NULL, 20, 30, 40 is 20. *)
Lemma percentile_disc_value_witness :
  exists s', disc_rows (PercentileDisc.set_rows (PercentileDisc.clear Q_disc) 4) (1 # 2)%Q [Some 10; None; Some 20; Some 30; Some 40] = (false, s') /\
    value (PercentileDisc.read 0 (default 0) s' (Some (1 # 2)%Q)) = 20.
Proof.
  destruct (percentile_disc_value Q_disc (1 # 2)%Q 4 [Some 10; None] 20 [Some 30; Some 40]) as [(s' & E & Hr) _];
    [apply in_range_half | lia | cbn; lia | | by vm_compute |].
  - intros j Hj. cbn in Hj. replace j with 1 by lia. by vm_compute.
  - exists s'. split; [exact E |]. by rewrite (proj1 (Hr Z 0 (default 0) (1 # 2)%Q)).
Defined.

Definition to_Q (v : option Z) : Q := inject_Z (default 0 v).

(** The half of 10, 20, 30, 40 is in the middle of 20 and 30. *)
Lemma percentile_cont_value_witness :
  exists s', cont_rows (PercentileCont.set_rows (PercentileCont.clear Q_cont) 4) (1 # 2)%Q [Some 10; Some 20; None; Some 30; Some 40] = (false, s') /\
    (value (PercentileCont.val_real to_Q s' (Some (1 # 2)%Q)) == 25)%Q.
Proof.
  destruct (percentile_cont_value to_Q Q_cont (1 # 2)%Q 4 2 3 [Some 10; Some 20; None; Some 30; Some 40] (1 # 2)%Q) as (s' & a & b & E & Ha & Hb & Hv).
  - apply in_range_half.
  - lia.
  - split; [| | lia]; intros k Hk; assert (H : k = 1 \/ k = 2 \/ k = 3 \/ k = 4) by lia;
      destruct H as [-> | [-> | [-> | ->]]]; by vm_compute.
  - done.
  - by vm_compute.
  - exists s'. split; [exact E |]. cbn in Ha, Hb. injection Ha as <-. injection Hb as <-. rewrite Hv. by vm_compute.
Defined.

(** [check_if_next_group] answers true exactly when the group changed or on the first call
    after [init]; it caches the new row either way and clears the first-call flag, so the next
    call depends on the rows alone. *)
Theorem check_if_next_group_spec {item row : Type} (changed : row -> list item -> Z * list item) (t : Group_bound_tracker (item := item)) r :
  let '(b, t') := check_if_next_group changed t r in
  b = (-1 <? (changed r (group_fields t)).1) || first_check t /\
  group_fields t' = (changed r (group_fields t)).2 /\ first_check t' = false.
Proof.
  unfold check_if_next_group. destruct (changed r (group_fields t)) as [c f]. cbn.
  destruct (-1 <? c); cbn; [done |]. by destruct (first_check t) eqn:E.
Qed.
