(* ===== verification/BoundsArray.v ===== *)
(** * BoundsArray: [Bounds_checked_array] ([sql_array.h])

    A pointer to the first element of an array owned by someone else, and a
    length.  The pointer is an address, 0 for NULL, and a reference to an
    element is its address; the size of an element is a parameter.  A failing
    assertion is [None]. *)

From stdpp Require Import base numbers list.
From Stdlib Require Import ZArith Lia.
From S2P Require Import Prelude.

Local Open Scope Z_scope.

Section array.
Variable sizeof_element : Z.

(** ** The class *)

(* [sql_array.h:102-105 m_array] *)
Record Bounds_checked_array := Arr { m_array : Z; m_size : Z }.

(* [sql_array.h:38-38 Bounds_checked_array::Bounds_checked_array] *)
Definition array_default : Bounds_checked_array := Arr 0 0.

(* [sql_array.h:40-42 Bounds_checked_array::Bounds_checked_array] *)
Definition array_make (el size_arg : Z) : Bounds_checked_array := Arr el size_arg.

(* [sql_array.h:44-44 Bounds_checked_array::reset] *)
Definition reset_null (a : Bounds_checked_array) : Bounds_checked_array := Arr 0 0.

(* [sql_array.h:46-50 Bounds_checked_array::reset] *)
Definition reset (a : Bounds_checked_array) (array_arg size_arg : Z) : Bounds_checked_array := Arr array_arg size_arg.

(* [sql_array.h:52-61 Bounds_checked_array::resize] *)
Definition resize (a : Bounds_checked_array) (new_size : Z) : option Bounds_checked_array :=
  if new_size <=? m_size a then Some (Arr (m_array a) new_size) else None.

(* [sql_array.h:63-67 Bounds_checked_array::operator[]] *)
Definition at_ (a : Bounds_checked_array) (n : Z) : option Z :=
  if n <? m_size a then Some (m_array a + n * sizeof_element) else None.

(* [sql_array.h:69-73 Bounds_checked_array::operator[]] *)
Definition at_const (a : Bounds_checked_array) (n : Z) : option Z :=
  if n <? m_size a then Some (m_array a + n * sizeof_element) else None.

(* [sql_array.h:75-75 Bounds_checked_array::element_size] *)
Definition element_size (a : Bounds_checked_array) : Z := sizeof_element.
(* [sql_array.h:76-76 Bounds_checked_array::size] *)
Definition size (a : Bounds_checked_array) : Z := m_size a.
(* [sql_array.h:78-78 Bounds_checked_array::is_null] *)
Definition is_null (a : Bounds_checked_array) : bool := m_array a =? 0.

(* [sql_array.h:80-85 Bounds_checked_array::pop_front] *)
Definition pop_front (a : Bounds_checked_array) : option Bounds_checked_array :=
  if 0 <? m_size a then Some (Arr (m_array a + sizeof_element) (u64 (m_size a - 1))) else None.

(* [sql_array.h:87-87 Bounds_checked_array::array] *)
Definition array (a : Bounds_checked_array) : Z := m_array a.
(* [sql_array.h:89-89 Bounds_checked_array::begin] *)
Definition begin_ (a : Bounds_checked_array) : Z := array a.
(* [sql_array.h:90-90 Bounds_checked_array::end] *)
Definition end_ (a : Bounds_checked_array) : Z := array a + m_size a * sizeof_element.

(* [sql_array.h:93-96 Bounds_checked_array::operator==] *)
Definition array_eq (a rhs : Bounds_checked_array) : bool := (m_array a =? m_array rhs) && (m_size a =? m_size rhs).
(* [sql_array.h:97-100 Bounds_checked_array::operator!=] *)
Definition array_ne (a rhs : Bounds_checked_array) : bool :=
  negb (m_array a =? m_array rhs) || negb (m_size a =? m_size rhs).

(** ** Narrowing a view *)

(** The operations that change a view. *)
Inductive array_op := Resize (n : Z) | PopFront.

Definition run_op (a : Bounds_checked_array) (op : array_op) : option Bounds_checked_array :=
  match op with Resize n => resize a n | PopFront => pop_front a end.

Definition run_ops (a : Bounds_checked_array) (ops : list array_op) : option Bounds_checked_array :=
  foldl (fun a op => a ← a; run_op a op) (Some a) ops.

Definition op_arg_ok (op : array_op) : Prop := match op with Resize n => 0 <= n | PopFront => True end.

(** The number of [pop_front]s. *)
Fixpoint pops (ops : list array_op) : nat :=
  match ops with [] => O | PopFront :: ops => S (pops ops) | Resize _ :: ops => pops ops end.

(** [b] is the part of [a] that begins [k] elements in. *)
Definition view_of (a b : Bounds_checked_array) (k : Z) : Prop :=
  0 <= k /\ 0 <= m_size b /\ k + m_size b <= m_size a /\ m_array b = m_array a + k * sizeof_element.

Lemma view_step a b b' k op : m_size a < 2 ^ 64 -> op_arg_ok op -> view_of a b k -> run_op b op = Some b' ->
  view_of a b' (match op with PopFront => k + 1 | Resize _ => k end).
Proof.
  intros Ha Hop (Hk & Hb & Hin & Eb). destruct op as [n |]; simpl; unfold resize, pop_front.
  - destruct (Z.leb_spec n (m_size b)); intros [= <-]. unfold view_of; simpl in *. lia.
  - destruct (Z.ltb_spec 0 (m_size b)); intros [= <-]. unfold view_of; simpl. rewrite u64_small by lia. lia.
Qed.

Lemma run_ops_view a ops : m_size a < 2 ^ 64 -> forall b b' k, Forall op_arg_ok ops -> view_of a b k ->
  run_ops b ops = Some b' ->
  view_of a b' (k + Z.of_nat (pops ops)).
Proof.
  intros Ha. induction ops as [| op ops IH]; intros b b' k Hok Hv Hr.
  - injection Hr as <-. by rewrite Z.add_0_r.
  - apply Forall_cons in Hok as [Hop Hok]. unfold run_ops in Hr. simpl in Hr.
    destruct (run_op b op) as [c |] eqn:E.
    + pose proof (view_step a b c k op Ha Hop Hv E) as Hc.
      pose proof (IH c b' _ Hok Hc Hr) as H. destruct op; [exact H |]. cbn [pops].
      by replace (k + Z.of_nat (S (pops ops))) with (k + 1 + Z.of_nat (pops ops)) by lia.
    + exfalso. clear -Hr. induction ops as [| o ops IH]; [done | by apply IH].
Qed.

(** however a checked array is narrowed with [resize] and [pop_front], what
    is left is a part of the original one: element [n] is the original element
    at [n] plus the number of [pop_front]s, it lies before the original [end],
    and every index from the new size on fails the assertion. *)
Theorem array_views_stay_inside a ops b n : 0 < sizeof_element -> 0 <= m_size a < 2 ^ 64 -> Forall op_arg_ok ops ->
  run_ops a ops = Some b -> 0 <= n ->
  let k := Z.of_nat (pops ops) in
  (n < size b -> at_ b n = at_ a (n + k) /\ exists p, at_ b n = Some p /\ begin_ a <= p /\ p + sizeof_element <= end_ a) /\
  (size b <= n -> at_ b n = None) /\ at_const b n = at_ b n /\ end_ b <= end_ a.
Proof.
  intros Hs Ha Hok Hr Hn k.
  assert (Hv : view_of a b (0 + k)).
  { apply (run_ops_view a ops ltac:(lia) a b 0 Hok); [unfold view_of; lia | done]. }
  rewrite Z.add_0_l in Hv. destruct Hv as (Hk & Hb & Hin & Eb). unfold size, at_, at_const, begin_, end_, array. split_and!; intros.
  - destruct (Z.ltb_spec n (m_size b)); [| lia]. destruct (Z.ltb_spec (n + k) (m_size a)); [| lia].
    split; [f_equal; lia |]. eexists. split; [done |]. nia.
  - destruct (Z.ltb_spec n (m_size b)); [lia | done].
  - done.
  - nia.
Qed.
End array.

Lemma array_views_stay_inside_witness :
  run_ops 4 (array_make 100 5) [PopFront; Resize 3; PopFront] = Some (Arr 108 2) /\
  at_ 4 (Arr 108 2) 1 = at_ 4 (array_make 100 5) 3.
Proof.
  split; [reflexivity |].
  destruct (array_views_stay_inside 4 (array_make 100 5) [PopFront; Resize 3; PopFront] (Arr 108 2) 1) as [H _];
    [lia | simpl; lia | repeat (apply Forall_cons; split; [simpl; lia |]); apply Forall_nil; exact I | reflexivity | lia |].
  apply H. reflexivity.
Defined.
