(* ===== verification/SortRecord.v ===== *)
(** * SortRecord: records of filesort and merge chunks ([sql_sort.h])

    A record in the sort buffer is a sort key, of fixed or of packed (variable)
    size, followed by the row's addon fields (fixed or packed) or by its rowid.
    [Sort_param] finds the length of a record from the flags and from the length
    fields that packed parts start with; the readers and writers of those fields
    are the macros of ByteOrder.v.  A record is the list of bytes from its start.

    [Merge_chunk] describes a run of sorted records, on disk and in memory. *)

From stdpp Require Import base numbers list.
From Stdlib Require Import ZArith Lia.
From S2P Require Import Prelude ByteOrder BoundsArray.

Local Open Scope Z_scope.

(** ** Merge chunks *)

(* [sql_sort.h:142-156 m_current_key] *)
Record Merge_chunk := Chunk {
  m_current_key : Z; m_file_position : Z; m_buffer_start : Z; m_buffer_end : Z;
  m_rowcount : Z; m_mem_count : Z; m_max_keys : Z }.

(* [sql_sort.h:80-80 file_position] *)
Definition file_position (c : Merge_chunk) : Z := m_file_position c.
(* [sql_sort.h:81-81 set_file_position] *)
Definition set_file_position (c : Merge_chunk) (val : Z) : Merge_chunk :=
  Chunk (m_current_key c) val (m_buffer_start c) (m_buffer_end c) (m_rowcount c) (m_mem_count c) (m_max_keys c).
(* [sql_sort.h:82-82 advance_file_position] *)
Definition advance_file_position (c : Merge_chunk) (val : Z) : Merge_chunk :=
  set_file_position c (u64 (m_file_position c + val)).
(* [sql_sort.h:84-84 buffer_start] *)
Definition buffer_start (c : Merge_chunk) : Z := m_buffer_start c.
(* [sql_sort.h:85-85 buffer_end] *)
Definition buffer_end (c : Merge_chunk) : Z := m_buffer_end c.
(* [sql_sort.h:87-91 set_buffer] *)
Definition set_buffer (c : Merge_chunk) (start end_ : Z) : Merge_chunk :=
  Chunk (m_current_key c) (m_file_position c) start end_ (m_rowcount c) (m_mem_count c) (m_max_keys c).
(* [sql_sort.h:92-95 set_buffer_start] *)
Definition set_buffer_start (c : Merge_chunk) (start : Z) : Merge_chunk := set_buffer c start (m_buffer_end c).
(* [sql_sort.h:96-100 set_buffer_end] *)
Definition set_buffer_end (c : Merge_chunk) (end_ : Z) : option Merge_chunk :=
  if (m_buffer_end c =? 0) || (end_ <=? m_buffer_end c) then Some (set_buffer c (m_buffer_start c) end_) else None.
Definition set_current_key (c : Merge_chunk) (k : Z) : Merge_chunk :=
  Chunk k (m_file_position c) (m_buffer_start c) (m_buffer_end c) (m_rowcount c) (m_mem_count c) (m_max_keys c).
(* [sql_sort.h:102-102 init_current_key] *)
Definition init_current_key (c : Merge_chunk) : Merge_chunk := set_current_key c (m_buffer_start c).
(* [sql_sort.h:103-103 current_key] *)
Definition current_key (c : Merge_chunk) : Z := m_current_key c.
(* [sql_sort.h:104-104 advance_current_key] *)
Definition advance_current_key (c : Merge_chunk) (val : Z) : Merge_chunk := set_current_key c (m_current_key c + val).
(* [sql_sort.h:107-107 set_rowcount] *)
Definition set_rowcount (c : Merge_chunk) (val : Z) : Merge_chunk :=
  Chunk (m_current_key c) (m_file_position c) (m_buffer_start c) (m_buffer_end c) val (m_mem_count c) (m_max_keys c).
(* [sql_sort.h:106-106 decrement_rowcount] *)
Definition decrement_rowcount (c : Merge_chunk) (val : Z) : Merge_chunk := set_rowcount c (u64 (m_rowcount c - val)).
(* [sql_sort.h:108-108 rowcount] *)
Definition rowcount (c : Merge_chunk) : Z := m_rowcount c.
(* [sql_sort.h:110-110 mem_count] *)
Definition mem_count (c : Merge_chunk) : Z := m_mem_count c.
(* [sql_sort.h:111-111 set_mem_count] *)
Definition set_mem_count (c : Merge_chunk) (val : Z) : Merge_chunk :=
  Chunk (m_current_key c) (m_file_position c) (m_buffer_start c) (m_buffer_end c) (m_rowcount c) val (m_max_keys c).
(* [sql_sort.h:112-112 decrement_mem_count] *)
Definition decrement_mem_count (c : Merge_chunk) : Z * Merge_chunk :=
  let n := u64 (m_mem_count c - 1) in (n, set_mem_count c n).
(* [sql_sort.h:114-114 max_keys] *)
Definition max_keys (c : Merge_chunk) : Z := m_max_keys c.
(* [sql_sort.h:115-115 set_max_keys] *)
Definition set_max_keys (c : Merge_chunk) (val : Z) : Merge_chunk :=
  Chunk (m_current_key c) (m_file_position c) (m_buffer_start c) (m_buffer_end c) (m_rowcount c) (m_mem_count c) val.
(* [sql_sort.h:117-117 buffer_size] *)
Definition buffer_size (c : Merge_chunk) : Z := u64 (m_buffer_end c - m_buffer_start c).

(** The result and the chunk [mc]. *)
(* [sql_sort.h:119-140 merge_freed_buff] *)
Definition merge_freed_buff (this mc : Merge_chunk) : bool * Merge_chunk :=
  if m_buffer_end mc =? m_buffer_start this then
    (true, set_max_keys (set_buffer mc (m_buffer_start mc) (m_buffer_end this)) (u64 (m_max_keys mc + m_max_keys this)))
  else if m_buffer_start mc =? m_buffer_end this then
    (true, set_max_keys (set_buffer mc (m_buffer_start this) (m_buffer_end mc)) (u64 (m_max_keys mc + m_max_keys this)))
  else (false, mc).

(** ** Addon fields and sort keys *)

(* [sql_sort.h:237-243 m_field_descriptors] *)
Record Addon_fields := Addons {
  m_field_descriptors : Bounds_checked_array; m_addon_buf : Z; m_addon_buf_length : Z; m_using_packed_addons : bool }.

(* [sql_sort.h:171-178 Addon_fields::Addon_fields] *)
Definition mk_Addon_fields (arr : Bounds_checked_array) : option Addon_fields :=
  if BoundsArray.is_null arr then None else Some (Addons arr 0 0 false).

(** [malloc_result] is the address [my_malloc] gives, 0 on failure. *)
(* [sql_sort.h:183-190 Addon_fields::allocate_addon_buf] *)
Definition allocate_addon_buf (malloc_result : Z) (a : Addon_fields) (sz : Z) : Z * Addon_fields :=
  let len := if negb (malloc_result =? 0) then sz else m_addon_buf_length a in
  (malloc_result, Addons (m_field_descriptors a) malloc_result len (m_using_packed_addons a)).

(* [sql_sort.h:192-197 Addon_fields::free_addon_buff] *)
Definition free_addon_buff (a : Addon_fields) : Addon_fields :=
  Addons (m_field_descriptors a) 0 0 (m_using_packed_addons a).

(* [sql_sort.h:202-205 Addon_fields::set_using_packed_addons] *)
Definition set_using_packed_addons (a : Addon_fields) (val : bool) : Addon_fields :=
  Addons (m_field_descriptors a) (m_addon_buf a) (m_addon_buf_length a) val.

(* [sql_sort.h:212-215 Addon_fields::can_pack_addon_fields] *)
Definition can_pack_addon_fields (record_length : Z) : bool := record_length <=? 0xFFFF.

(** The bytes [bs] written over the beginning of [p]. *)
Definition overwrite (p bs : bytes) : bytes := bs ++ drop (length bs) p.

Module AddonLength.
(* [sql_sort.h:235-235 Addon_fields::size_of_length_field] *)
Definition size_of_length_field : Z := 2.
(* [sql_sort.h:217-224 Addon_fields::read_addon_length] *)
Definition read_addon_length (p : bytes) : Z := u32 (size_of_length_field + Generic.uint2korr p).
(* [sql_sort.h:226-233 Addon_fields::store_addon_length] *)
Definition store_addon_length (p : bytes) (sz : Z) : bytes :=
  overwrite p (Generic.int2store (u32 (sz - size_of_length_field))).
End AddonLength.

(* [sql_sort.h:315-324 m_using_packed_sortkeys] *)
Record Sort_keys := Keys {
  keys_array : Bounds_checked_array; m_using_packed_sortkeys : bool; size_of_packable_fields : Z; keys_sort_length : Z }.

(* [sql_sort.h:257-264 Sort_keys::Sort_keys] *)
Definition mk_Sort_keys (arr count : Z) : option Sort_keys :=
  let a := array_make arr count in if BoundsArray.is_null a then None else Some (Keys a false 0 0).
(* [sql_sort.h:269-272 Sort_keys::set_using_packed_sortkeys] *)
Definition set_using_packed_sortkeys (k : Sort_keys) (val : bool) : Sort_keys :=
  Keys (keys_array k) val (size_of_packable_fields k) (keys_sort_length k).
(* [sql_sort.h:273-276 Sort_keys::set_size_of_packable_fields] *)
Definition set_size_of_packable_fields (k : Sort_keys) (len : Z) : Sort_keys :=
  Keys (keys_array k) (m_using_packed_sortkeys k) len (keys_sort_length k).
(* [sql_sort.h:283-286 Sort_keys::set_sort_length] *)
Definition set_sort_length (k : Sort_keys) (len : Z) : Sort_keys :=
  Keys (keys_array k) (m_using_packed_sortkeys k) (size_of_packable_fields k) len.
(* [sql_sort.h:303-306 Sort_keys::increment_size_of_packable_fields] *)
Definition increment_size_of_packable_fields (k : Sort_keys) (len : Z) : Sort_keys :=
  set_size_of_packable_fields k (u32 (size_of_packable_fields k + len)).
(* [sql_sort.h:308-311 Sort_keys::increment_original_sort_length] *)
Definition increment_original_sort_length (k : Sort_keys) (len : Z) : Sort_keys :=
  set_sort_length k (u32 (keys_sort_length k + len)).

Module KeyLength.
(* [sql_sort.h:313-313 Sort_keys::size_of_length_field] *)
Definition size_of_length_field : Z := 4.
(* [sql_sort.h:293-296 Sort_keys::store_sortkey_length] *)
Definition store_sortkey_length (p : bytes) (sz : Z) : bytes :=
  overwrite p (Generic.int4store (u32 (sz - size_of_length_field))).
(* [sql_sort.h:298-301 Sort_keys::read_sortkey_length] *)
Definition read_sortkey_length (p : bytes) : Z := u32 (size_of_length_field + Generic.uint4korr p).
End KeyLength.
Import AddonLength(read_addon_length, store_addon_length).
Import KeyLength(read_sortkey_length, store_sortkey_length).

(** ** Sort_param *)

(** The members that say how a record is laid out, with the cached flags. *)
(* [sql_sort.h:516-522 Sort_param] *)
Record Sort_param := Param {
  rec_length : Z; sort_length : Z; ref_length : Z; addon_length : Z; res_length : Z;
  addon_fields : option Addon_fields; sort_keys : option Sort_keys;
  cached_packed_addons : bool; cached_packed_sortkeys : bool; m_packed_format : bool }.

Definition addons_packed (p : Sort_param) : bool := from_option m_using_packed_addons false (addon_fields p).
Definition keys_packed (p : Sort_param) : bool := from_option m_using_packed_sortkeys false (sort_keys p).

(* [sql_sort.h:553-560 Sort_param::using_packed_addons] *)
Definition using_packed_addons (p : Sort_param) : option bool :=
  if Bool.eqb (cached_packed_addons p) (addons_packed p) then Some (cached_packed_addons p) else None.

(* [sql_sort.h:562-567 Sort_param::using_packed_sortkeys] *)
Definition using_packed_sortkeys (p : Sort_param) : option bool :=
  if Bool.eqb (cached_packed_sortkeys p) (keys_packed p) then Some (cached_packed_sortkeys p) else None.

(* [sql_sort.h:569-573 Sort_param::using_addon_fields] *)
Definition using_addon_fields (p : Sort_param) : bool := bool_decide (is_Some (addon_fields p)).

(* [sql_sort.h:575-580 Sort_param::get_result_length] *)
Definition get_result_length (p : Sort_param) (plen : bytes) : Z :=
  if negb (cached_packed_addons p) then res_length p else read_addon_length plen.

(* [sql_sort.h:582-588 Sort_param::get_addon_length] *)
Definition get_addon_length (p : Sort_param) (plen : bytes) : option Z :=
  packed ← using_packed_addons p;
  Some (if (packed : bool) then read_addon_length plen else addon_length p).

(* [sql_sort.h:590-602 Sort_param::get_sort_length] *)
Definition get_sort_length (p : Sort_param) (plen : bytes) : option Z :=
  packed ← using_packed_sortkeys p;
  Some (if (packed : bool) then u32 (read_sortkey_length plen + (if using_addon_fields p then 0 else res_length p))
        else sort_length p).

(* [sql_sort.h:604-613 Sort_param::get_record_length] *)
Definition get_record_length (p : Sort_param) (plen : bytes) : option Z :=
  if m_packed_format p then
    sort_len ← get_sort_length p plen;
    addon_len ← get_addon_length p (drop (Z.to_nat sort_len) plen);
    Some (u32 (sort_len + addon_len))
  else Some (rec_length p).

(* [sql_sort.h:615-635 Sort_param::get_rec_and_res_len] *)
Definition get_rec_and_res_len (p : Sort_param) (record_start : bytes) : option (Z * Z) :=
  if m_packed_format p then
    sort_len ← get_sort_length p record_start;
    addon_len ← get_addon_length p (drop (Z.to_nat sort_len) record_start);
    Some (u32 (sort_len + addon_len), if using_addon_fields p then addon_len else res_length p)
  else Some (rec_length p, res_length p).

(** The functions that compare records and their argument, as addresses. *)
Section compare.
Variables (packed_keys_compare_ptr this_ : Z) (ptr_compare : Z -> Z).

(* [sql_sort.h:639-644 Sort_param::get_compare_function] *)
Definition get_compare_function (p : Sort_param) : option Z :=
  packed ← using_packed_sortkeys p; Some (if (packed : bool) then packed_keys_compare_ptr else ptr_compare (sort_length p)).

(* [sql_sort.h:645-650 Sort_param::get_compare_argument] *)
Definition get_compare_argument (p : Sort_param) (sort_len : Z) : option Z :=
  packed ← using_packed_sortkeys p; Some (if (packed : bool) then this_ else sort_len).
End compare.

(* [sql_sort.h:652-655 Sort_param::is_packed_format] *)
Definition is_packed_format (p : Sort_param) : bool := m_packed_format p.

(** ** The record format *)

(** What follows the key of a record. *)
Inductive tail := Rowid (bs : bytes) | FixedAddons (bs : bytes) | PackedAddons (bs : bytes).

Record record := Rec { key : bytes; rest : tail }.

Definition zeros (n : nat) : bytes := replicate n 0.

(** The parts of a record as they lie in the sort buffer; a packed part has its
    length field stored once its contents are there. *)
Definition encode_tail (t : tail) : bytes :=
  match t with
  | Rowid bs | FixedAddons bs => bs
  | PackedAddons bs => store_addon_length (zeros 2 ++ bs) (2 + Z.of_nat (length bs))
  end.

Definition encode_key (packed : bool) (k : bytes) : bytes :=
  if packed then store_sortkey_length (zeros 4 ++ k) (4 + Z.of_nat (length k)) else k.

Definition encode (p : Sort_param) (r : record) : bytes := encode_key (keys_packed p) (key r) ++ encode_tail (rest r).

Definition len (A : bytes) : Z := Z.of_nat (length A).

(** The parameters agree with the parts that are always of the same size, and
    the cached flags with the objects they cache; [m_packed_format] is set
    exactly when some part is packed. *)
Definition flags_ok (p : Sort_param) : Prop :=
  cached_packed_addons p = addons_packed p /\ cached_packed_sortkeys p = keys_packed p /\
  m_packed_format p = keys_packed p || addons_packed p /\
  rec_length p = sort_length p + addon_length p.

(** The record has the sizes that the parameters declare, and its packed parts have lengths that their length fields can hold. *)
Definition fits (p : Sort_param) (r : record) : Prop :=
  is_bytes (key r) /\ is_bytes (encode_tail (rest r)) /\
  8 + len (key r) + len (encode_tail (rest r)) < 2 ^ 32 /\
  match rest r with
  | Rowid bs => addon_fields p = None /\ res_length p = len bs /\ addon_length p = 0 /\
      (keys_packed p = false -> sort_length p = len (key r) + len bs)
  | FixedAddons bs => using_addon_fields p = true /\ addons_packed p = false /\
      res_length p = len bs /\ addon_length p = len bs /\ (keys_packed p = false -> sort_length p = len (key r))
  | PackedAddons bs => using_addon_fields p = true /\ addons_packed p = true /\
      can_pack_addon_fields (2 + len bs) = true /\ (keys_packed p = false -> sort_length p = len (key r))
  end.

Lemma len_app A B : len (A ++ B) = len A + len B.
Proof. unfold len. rewrite length_app. lia. Qed.

Lemma overwrite_zeros n bs A : length bs = n -> overwrite (zeros n ++ A) bs = bs ++ A.
Proof. intros <-. unfold overwrite, zeros. f_equal. by rewrite drop_app_length' by (by rewrite length_replicate). Qed.

Lemma drop_len A B : drop (Z.to_nat (len A)) (A ++ B) = B.
Proof. unfold len. rewrite Nat2Z.id. apply drop_app_length. Qed.

Lemma packed_addons bs more : is_bytes (bs ++ more) -> can_pack_addon_fields (2 + len bs) = true ->
  len (encode_tail (PackedAddons bs)) = 2 + len bs /\ read_addon_length (encode_tail (PackedAddons bs) ++ more) = 2 + len bs.
Proof.
  unfold can_pack_addon_fields. intros Hb Hc%Z.leb_le. cbn [encode_tail]. unfold store_addon_length.
  rewrite overwrite_zeros by done. change (2 + Z.of_nat (length bs)) with (2 + len bs) in *.
  unfold AddonLength.size_of_length_field. assert (0 <= len bs) by (unfold len; lia).
  rewrite u32_small by lia. replace (2 + len bs - 2) with (len bs) by lia. split; [rewrite len_app; done |].
  unfold read_addon_length. rewrite <- app_assoc, uint2korr_stored by (done || lia). apply u32_small. unfold AddonLength.size_of_length_field. lia.
Qed.

Lemma packed_key k more : is_bytes (k ++ more) -> 4 + len k < 2 ^ 32 ->
  len (encode_key true k) = 4 + len k /\ read_sortkey_length (encode_key true k ++ more) = 4 + len k.
Proof.
  intros Hb Hk. cbn [encode_key]. unfold store_sortkey_length.
  rewrite overwrite_zeros by done. change (4 + Z.of_nat (length k)) with (4 + len k) in *.
  unfold KeyLength.size_of_length_field. assert (0 <= len k) by (unfold len; lia).
  rewrite u32_small by lia. replace (4 + len k - 4) with (len k) by lia. split; [rewrite len_app; done |].
  unfold read_sortkey_length. rewrite <- app_assoc, uint4korr_stored by (done || lia). apply u32_small. unfold KeyLength.size_of_length_field. lia.
Qed.

Lemma is_bytes_app A B : is_bytes (A ++ B) <-> is_bytes A /\ is_bytes B.
Proof. apply Forall_app. Qed.

(** The rowid counts as part of the key. *)
Definition rowid_len (t : tail) : Z := match t with Rowid bs => len bs | _ => 0 end.

Lemma fits_addon_length p r more : flags_ok p -> fits p r -> is_bytes more ->
  get_addon_length p (encode_tail (rest r) ++ more) = Some (len (encode_tail (rest r)) - rowid_len (rest r)) /\
  get_result_length p (encode_tail (rest r) ++ more) = len (encode_tail (rest r)).
Proof.
  intros (Fa & _ & _ & _) (_ & Hb & _ & Hr) Hm. unfold get_addon_length, get_result_length, using_packed_addons.
  rewrite Fa, eqb_reflx. cbn [mbind option_bind]. unfold addons_packed.
  destruct (rest r) as [bs | bs | bs]; cbn [rowid_len].
  - destruct Hr as (-> & -> & -> & _). cbn [from_option negb encode_tail]. split; [f_equal; lia | done].
  - destruct Hr as (_ & Hp & -> & -> & _). fold (addons_packed p). rewrite Hp. cbn [negb encode_tail]. split; [f_equal; lia | done].
  - destruct Hr as (_ & Hp & Hc & _). fold (addons_packed p). rewrite Hp. cbn [negb].
    assert (Hbs : is_bytes (bs ++ more)).
    { cbn [encode_tail] in Hb. unfold store_addon_length in Hb. rewrite overwrite_zeros in Hb by done.
      apply is_bytes_app in Hb as [_ Hb]. by apply is_bytes_app. }
    destruct (packed_addons bs more Hbs Hc) as [-> ->]. split; [f_equal; lia | done].
Qed.

Lemma fits_sort_length p r more : flags_ok p -> fits p r -> is_bytes more ->
  get_sort_length p (encode_key (keys_packed p) (key r) ++ more) =
    Some (len (encode_key (keys_packed p) (key r)) + rowid_len (rest r)) /\
  len (encode_key (keys_packed p) (key r)) <= 4 + len (key r).
Proof.
  intros (_ & Fk & _ & _) (Hk & _ & Hlen & Hr) Hm. unfold get_sort_length, using_packed_sortkeys.
  rewrite Fk, eqb_reflx. cbn [mbind option_bind].
  assert (0 <= len (key r) /\ 0 <= len (encode_tail (rest r))) by (unfold len; lia).
  destruct (keys_packed p) eqn:E.
  - destruct (packed_key (key r) more) as [-> ->]; [by apply is_bytes_app | lia |]. split; [| lia].
    assert (Hres : (if using_addon_fields p then 0 else res_length p) = rowid_len (rest r) /\
      0 <= rowid_len (rest r) <= len (encode_tail (rest r))).
    { destruct (rest r) as [bs | bs | bs]; cbn [rowid_len encode_tail] in *.
      - destruct Hr as (Hn & -> & _). unfold using_addon_fields. rewrite Hn. cbn. unfold len. lia.
      - destruct Hr as (-> & _). lia.
      - destruct Hr as (-> & _). lia. }
    destruct Hres as [-> Hres]. f_equal. apply u32_small. lia.
  - cbn [encode_key]. split; [| lia]. f_equal. destruct (rest r) as [bs | bs | bs]; cbn [rowid_len] in *.
    + destruct Hr as (_ & _ & _ & H'). by apply H'.
    + destruct Hr as (_ & _ & _ & _ & H'). rewrite H' by done. lia.
    + destruct Hr as (_ & _ & _ & H'). rewrite H' by done. lia.
Qed.

Lemma rowid_no_addons p r : fits p r -> 
  (using_addon_fields p = true /\ rowid_len (rest r) = 0) \/
  (using_addon_fields p = false /\ addons_packed p = false /\ res_length p = len (encode_tail (rest r)) /\
   rowid_len (rest r) = len (encode_tail (rest r))).
Proof.
  intros (_ & _ & _ & Hr). destruct (rest r) as [bs | bs | bs].
  - right. destruct Hr as (Hn & -> & _). unfold using_addon_fields, addons_packed. by rewrite Hn.
  - left. by destruct Hr as (-> & _).
  - left. by destruct Hr as (-> & _).
Qed.

(** Where the addon fields, if any, start. *)
Lemma fits_addon_after_key p r more : flags_ok p -> fits p r -> is_bytes more ->
  get_addon_length p (drop (Z.to_nat (len (encode_key (keys_packed p) (key r)) + rowid_len (rest r)))
    (encode_key (keys_packed p) (key r) ++ encode_tail (rest r) ++ more)) =
  Some (len (encode_tail (rest r)) - rowid_len (rest r)).
Proof.
  intros Hf Hr Hm. destruct (fits_addon_length p r more Hf Hr Hm) as [H _].
  destruct (rowid_no_addons p r Hr) as [[_ E] | (_ & Ep & _ & E)].
  - rewrite E, Z.add_0_r, drop_len. by rewrite E in H.
  - destruct Hf as (Fa & _). revert H. unfold get_addon_length, using_packed_addons. by rewrite Fa, Ep.
Qed.

Lemma fits_record_length p r more : flags_ok p -> fits p r -> is_bytes more ->
  get_record_length p (encode p r ++ more) = Some (len (encode p r)) /\
  get_rec_and_res_len p (encode p r ++ more) = Some (len (encode p r), len (encode_tail (rest r))).
Proof.
  intros Hf Hr Hm. assert (E : encode p r ++ more = encode_key (keys_packed p) (key r) ++ encode_tail (rest r) ++ more)
    by (unfold encode; by rewrite <- app_assoc).
  unfold get_record_length, get_rec_and_res_len. rewrite E.
  destruct (fits_sort_length p r (encode_tail (rest r) ++ more) Hf Hr) as [Hs Hl];
    [apply is_bytes_app; split; [apply Hr | done] |].
  pose proof (fits_addon_after_key p r more Hf Hr Hm) as Ha.
  unfold encode. rewrite len_app. destruct (Hf) as (_ & _ & Hfmt & Hrec). destruct (m_packed_format p).
  - rewrite Hs. cbn [mbind option_bind]. rewrite Ha. cbn [mbind option_bind].
    replace (_ + rowid_len (rest r) + (_ - rowid_len (rest r)))
      with (len (encode_key (keys_packed p) (key r)) + len (encode_tail (rest r))) by lia.
    destruct (Hr) as (_ & _ & Hlen & _). rewrite u32_small by (unfold len in *; lia). split; [done |]. do 2 f_equal.
    destruct (rowid_no_addons p r Hr) as [[-> ->] | (-> & _ & -> & _)]; [lia | done].
  - symmetry in Hfmt. apply orb_false_elim in Hfmt as [Hk Ha']. rewrite Hk. cbn [encode_key].
    rewrite Hrec. destruct Hr as (_ & _ & _ & Hr). destruct (rest r) as [bs | bs | bs]; cbn [encode_tail].
    + destruct Hr as (_ & -> & -> & ->); [| done]. rewrite Z.add_0_r. done.
    + destruct Hr as (_ & _ & -> & -> & ->); done.
    + destruct Hr as (_ & Hp & _). congruence.
Qed.

(** ** Properties *)

(** Skipping [k] records of a buffer. *)
Fixpoint skip_records (k : nat) (p : Sort_param) (buf : bytes) : option bytes :=
  match k with O => Some buf | S k => n ← get_record_length p buf; skip_records k p (drop (Z.to_nat n) buf) end.

(** The records one after another. *)
Definition buffer_of (p : Sort_param) (rs : list record) : bytes := mjoin (encode p <$> rs).

Lemma buffer_cons p r rs more : buffer_of p (r :: rs) ++ more = encode p r ++ buffer_of p rs ++ more.
Proof. unfold buffer_of. cbn. by rewrite <- app_assoc. Qed.

Lemma is_bytes_encode p rs : Forall (fits p) rs -> is_bytes (buffer_of p rs).
Proof.
  induction 1 as [| r rs Hr Hrs IH]; [apply Forall_nil_2 |]. change (buffer_of p (r :: rs)) with (encode p r ++ buffer_of p rs).
  apply is_bytes_app. split; [| done]. unfold encode. destruct Hr as (Hk & Ht & _). apply is_bytes_app. split; [| done].
  destruct (keys_packed p); [| done]. cbn [encode_key]. unfold store_sortkey_length. rewrite overwrite_zeros by done.
  pose proof (proj1 (Forall_forall _ _) (le_writes (u32 (4 + Z.of_nat (length (key r)) - KeyLength.size_of_length_field))) (Writer 4 Generic.int4store)) as ->;
    [| do 2 right; left]. by apply is_bytes_write_le.
Qed.

Lemma skip_records_app p rs more k : flags_ok p -> Forall (fits p) rs -> is_bytes more -> (k <= length rs)%nat ->
  skip_records k p (buffer_of p rs ++ more) = Some (buffer_of p (drop k rs) ++ more).
Proof.
  intros Hf. revert rs. induction k as [| k IH]; intros rs Hrs Hm Hk; [done |].
  destruct rs as [| r rs]; [simpl in Hk; lia |]. apply Forall_cons in Hrs as [Hr Hrs].
  rewrite buffer_cons. cbn [skip_records drop].
  destruct (fits_record_length p r (buffer_of p rs ++ more) Hf Hr) as [-> _];
    [apply is_bytes_app; split; [by apply is_bytes_encode | done] |].
  cbn [mbind option_bind]. rewrite drop_len. apply IH; [done | done | simpl in Hk; lia].
Qed.

(** C25: records written one after another into the sort buffer are found again by
    their lengths, in each of the six formats (key of fixed or packed size,
    followed by the rowid, by fixed or by packed addon fields), provided that they fit the format: the parts that are not
    packed have the lengths that the parameters declare, packed addon fields with their length field pass [can_pack_addon_fields]
    (at most 0xFFFF bytes), and a record is shorter than 2^32 bytes. The bytes of keys and addon fields are arbitrary.
    Skipping [k] records arrives at the [k]-th one,
    where [get_record_length], [get_rec_and_res_len] and [get_result_length] give
    its length and the length of what follows the key; no assertion fails. *)
Theorem sort_buffer_walk p rs more k r : flags_ok p -> Forall (fits p) rs -> is_bytes more -> rs !! k = Some r ->
  exists buf, skip_records k p (buffer_of p rs ++ more) = Some buf /\
    take (length (encode p r)) buf = encode p r /\
    get_record_length p buf = Some (len (encode p r)) /\
    get_rec_and_res_len p buf = Some (len (encode p r), len (encode_tail (rest r))) /\
    get_result_length p (drop (length (encode_key (keys_packed p) (key r))) buf) = len (encode_tail (rest r)).
Proof.
  intros Hf Hrs Hm Hk. pose proof (lookup_lt_Some _ _ _ Hk) as Hlt.
  rewrite skip_records_app by (done || lia). eexists. split; [reflexivity |].
  rewrite (drop_S rs r k Hk). rewrite buffer_cons.
  assert (Hr : fits p r) by (eapply Forall_lookup_1; [exact Hrs | exact Hk]).
  assert (Hb : is_bytes (buffer_of p (drop (S k) rs) ++ more)).
  { apply is_bytes_app. split; [| done]. apply is_bytes_encode, Forall_drop, Hrs. }
  destruct (fits_record_length p r _ Hf Hr Hb) as [H1 H2]. destruct (fits_addon_length p r _ Hf Hr Hb) as [_ H3].
  split_and!; [by rewrite take_app_length | done | done |]. unfold encode. by rewrite <- app_assoc, drop_app_length.
Qed.

(** A packed key with packed addon fields; two records. *)
Definition demo_param : Sort_param :=
  Param 0 0 0 0 0 (Some (Addons (Arr 8 1) 0 0 true)) (Some (Keys (Arr 16 1) true 0 0)) true true true.
Definition demo_records : list record := [Rec [1; 2; 3] (PackedAddons [9]); Rec [4] (PackedAddons [])].

Lemma sort_buffer_walk_witness :
  encode demo_param (Rec [1; 2; 3] (PackedAddons [9])) = [3; 0; 0; 0; 1; 2; 3; 1; 0; 9] /\
  exists buf, skip_records 1 demo_param (buffer_of demo_param demo_records ++ [7]) = Some buf /\
    get_record_length demo_param buf = Some 7.
Proof.
  split; [reflexivity |].
  destruct (sort_buffer_walk demo_param demo_records [7] 1 (Rec [4] (PackedAddons []))) as (buf & H1 & _ & H2 & _).
  - split_and!; reflexivity.
  - apply Forall_cons_2; [| apply Forall_cons_2; [| apply Forall_nil_2]]; split_and!;
      first [reflexivity | vm_compute; repeat (apply Forall_cons_2; [split; [discriminate | reflexivity] |]); apply Forall_nil_2
        | split_and!; (reflexivity || discriminate)].
  - repeat (apply Forall_cons_2; [lia |]). apply Forall_nil_2.
  - reflexivity.
  - exists buf. split; [exact H1 | exact H2].
Defined.

(** The bytes of a chunk's buffer. *)
Definition in_buffer (c : Merge_chunk) (a : Z) : Prop := m_buffer_start c <= a < m_buffer_end c.

Definition chunk_ok (c : Merge_chunk) : Prop := 0 < m_buffer_start c <= m_buffer_end c /\ m_buffer_end c < 2 ^ 63.

(** a freed chunk hands its memory over exactly when the two buffers are
    adjacent, at either end: the other chunk's buffer then covers the bytes of
    both and nothing else, sizes and key capacities add up, and its place in the
    file, its current key and its row counts stay; otherwise nothing changes. *)
Theorem merge_freed_buff_spec this mc : chunk_ok this -> chunk_ok mc ->
  0 <= m_max_keys this -> 0 <= m_max_keys mc -> m_max_keys this + m_max_keys mc < 2 ^ 64 ->
  let '(done, mc') := merge_freed_buff this mc in
  done = (m_buffer_end mc =? m_buffer_start this) || (m_buffer_start mc =? m_buffer_end this) /\
  chunk_ok mc' /\
  (done = true -> (forall a, in_buffer mc' a <-> in_buffer this a \/ in_buffer mc a) /\
    buffer_size mc' = buffer_size this + buffer_size mc /\ m_max_keys mc' = m_max_keys this + m_max_keys mc /\
    m_file_position mc' = m_file_position mc /\ m_current_key mc' = m_current_key mc /\
    m_rowcount mc' = m_rowcount mc /\ m_mem_count mc' = m_mem_count mc) /\
  (done = false -> mc' = mc).
Proof.
  intros Ht Hm Hk1 Hk2 Hk. unfold chunk_ok, in_buffer, buffer_size in *. unfold merge_freed_buff.
  destruct (Z.eqb_spec (m_buffer_end mc) (m_buffer_start this)); [| destruct (Z.eqb_spec (m_buffer_start mc) (m_buffer_end this))].
  - split_and!; try done; simpl; try lia. intros _. split_and!; try done; simpl; [lia | rewrite !u64_small by lia; lia | rewrite u64_small; lia].
  - split_and!; try done; simpl; try lia. intros _. split_and!; try done; simpl; [lia | rewrite !u64_small by lia; lia | rewrite u64_small; lia].
  - split_and!; try done; lia.
Qed.

Lemma merge_freed_buff_spec_witness :
  let this := Chunk 0 0 200 300 0 0 5 in let mc := Chunk 110 40 100 200 7 3 5 in
  merge_freed_buff this mc = (true, Chunk 110 40 100 300 7 3 10) /\ buffer_size (merge_freed_buff this mc).2 = 200.
Proof.
  intros this mc. split; [reflexivity |].
  pose proof (merge_freed_buff_spec this mc) as H. cbv beta iota delta [merge_freed_buff] in H.
  destruct H as (_ & _ & H & _);
    [vm_compute; split_and!; congruence | vm_compute; split_and!; congruence | discriminate | discriminate | reflexivity |].
  destruct (H eq_refl) as (_ & Hs & _). exact Hs.
Defined.
