(* ===== verification/Mdl.v ===== *)
(** * Mdl: keys and requests of metadata locks ([mdl.h])

    An [MDL_key] is a buffer that holds a namespace byte, the database name and the
    object name, each name with its terminating zero, and their lengths.  Lock
    lookup compares these buffers as bytes.  A [const char *] is the list of bytes
    from it on.  [strmake] (mysys), [my_hash_sort] (strings) and
    [ok_for_lower_case_names] (the server) are parameters.  Writing outside the
    buffer and a failing assertion have no result. *)

From stdpp Require Import base numbers list.
From Stdlib Require Import ZArith Lia.
From S2P Require Import Prelude ByteOrder ByteMem.

Local Open Scope Z_scope.

(** ** Lock types *)

(* [mdl.h:124-251 enum_mdl_type] *)
Inductive enum_mdl_type :=
  | MDL_INTENTION_EXCLUSIVE | MDL_SHARED | MDL_SHARED_HIGH_PRIO | MDL_SHARED_READ | MDL_SHARED_WRITE
  | MDL_SHARED_UPGRADABLE | MDL_SHARED_READ_ONLY | MDL_SHARED_NO_WRITE | MDL_SHARED_NO_READ_WRITE
  | MDL_EXCLUSIVE | MDL_TYPE_END.

#[export] Instance enum_mdl_type_eq : EqDecision enum_mdl_type.
Proof. solve_decision. Defined.

(** The value of an enumerator. *)
Definition mdl_type_no (t : enum_mdl_type) : Z :=
  match t with
  | MDL_INTENTION_EXCLUSIVE => 0 | MDL_SHARED => 1 | MDL_SHARED_HIGH_PRIO => 2 | MDL_SHARED_READ => 3
  | MDL_SHARED_WRITE => 4 | MDL_SHARED_UPGRADABLE => 5 | MDL_SHARED_READ_ONLY => 6 | MDL_SHARED_NO_WRITE => 7
  | MDL_SHARED_NO_READ_WRITE => 8 | MDL_EXCLUSIVE => 9 | MDL_TYPE_END => 10
  end.

(* [mdl.h:323-340 enum_mdl_duration] *)
Inductive enum_mdl_duration := MDL_STATEMENT | MDL_TRANSACTION | MDL_EXPLICIT | MDL_DURATION_END.

(* [mdl.h:381-391 enum_mdl_namespace] *)
Inductive enum_mdl_namespace :=
  | BACKUP | SCHEMA | TABLE | FUNCTION | PROCEDURE | PACKAGE_BODY | TRIGGER | EVENT | USER_LOCK | NAMESPACE_END.

#[export] Instance enum_mdl_namespace_eq : EqDecision enum_mdl_namespace.
Proof. solve_decision. Defined.

Definition namespace_no (n : enum_mdl_namespace) : Z :=
  match n with
  | BACKUP => 0 | SCHEMA => 1 | TABLE => 2 | FUNCTION => 3 | PROCEDURE => 4 | PACKAGE_BODY => 5
  | TRIGGER => 6 | EVENT => 7 | USER_LOCK => 8 | NAMESPACE_END => 9
  end.

(** ** Keys *)

(* [mysql_com.h:32-32 NAME_LEN] *)
Definition NAME_LEN : Z := 64 * 3.

(* [mdl.h:344-344 MAX_MDLKEY_LENGTH] *)
Definition MAX_MDLKEY_LENGTH : Z := 1 + NAME_LEN + 1 + NAME_LEN + 1.

(* [mdl.h:489-493 m_length] *)
Record MDL_key := Key { m_length : Z; m_db_name_length : Z; m_hash_value : Z; m_ptr : bytes }.

(* [mdl.h:393-393 ptr] *)
Definition ptr (k : MDL_key) : bytes := m_ptr k.
(* [mdl.h:394-394 length] *)
Definition key_length (k : MDL_key) : Z := m_length k.
(* [mdl.h:396-396 db_name] *)
Definition db_name (k : MDL_key) : bytes := drop 1 (m_ptr k).
(* [mdl.h:397-397 db_name_length] *)
Definition db_name_length (k : MDL_key) : Z := m_db_name_length k.
(* [mdl.h:399-399 name] *)
Definition name (k : MDL_key) : bytes := drop (Z.to_nat (m_db_name_length k + 2)) (m_ptr k).
(* [mdl.h:400-400 name_length] *)
Definition name_length (k : MDL_key) : Z := u32 (m_length k - m_db_name_length k - 3).
(* [mdl.h:402-403 mdl_namespace] *)
Definition mdl_namespace (k : MDL_key) : Z := swrap 8 (ub (m_ptr k) 0).

Section keys.
(** What [strmake] writes (the string and its zero), the hash of a collation, and the check of letter case. *)
Variables (strmake : bytes -> Z -> bytes) (my_hash_sort : bytes -> Z) (ok_for_lower_case_names : bytes -> bool).

(** [strlen] of a name that is given by its bytes before the zero. *)
Definition strlen (s : bytes) : Z := Z.of_nat (length s).

(* [mdl.h:405-435 mdl_key_init] *)
Definition mdl_key_init (this : MDL_key) (mdl_namespace_arg : enum_mdl_namespace) (db name_arg : bytes) : option MDL_key :=
  p ← write_at (m_ptr this) 0 [namespace_no mdl_namespace_arg];
  if negb (strlen db <=? NAME_LEN) then None else
  if negb (strlen name_arg <=? NAME_LEN) then None else
  let s := strmake db NAME_LEN in
  p ← write_at p 1 s;
  let db_len := u16 (1 + (strlen s - 1) - 1) in
  let s := strmake name_arg NAME_LEN in
  p ← write_at p (db_len + 2) s;
  let len := u16 (db_len + 2 + (strlen s - 1) + 1) in
  let hash := my_hash_sort (take (Z.to_nat (len - 1)) (drop 1 p)) in
  if bool_decide (mdl_namespace_arg = USER_LOCK) || ok_for_lower_case_names db
  then Some (Key len db_len hash p) else None.

(* [mdl.h:436-442 mdl_key_init] *)
Definition mdl_key_copy (this rhs : MDL_key) : option MDL_key :=
  p ← write_at (m_ptr this) 0 (take (Z.to_nat (m_length rhs)) (m_ptr rhs));
  Some (Key (m_length rhs) (m_db_name_length rhs) (m_hash_value rhs) p).

(** [memcmp] of the first [n] bytes. *)
Definition memcmp_n (a b : bytes) (n : Z) : comparison := memcmp (take (Z.to_nat n) a) (take (Z.to_nat n) b).

(* [mdl.h:443-447 is_equal] *)
Definition is_equal (this rhs : MDL_key) : bool :=
  (m_length this =? m_length rhs) && match memcmp_n (m_ptr this) (m_ptr rhs) (m_length this) with Eq => true | _ => false end.

(* [mdl.h:448-459 cmp] *)
Definition cmp (this rhs : MDL_key) : comparison :=
  memcmp_n (m_ptr this) (m_ptr rhs) (Z.min (m_length this) (m_length rhs)).

(* [mdl.h:480-483 hash_value] *)
Definition hash_value (k : MDL_key) : Z := u32 (m_hash_value k + mdl_namespace k).
(* [mdl.h:484-487 tc_hash_value] *)
Definition tc_hash_value (k : MDL_key) : Z := m_hash_value k.

(** ** Requests and tickets *)

(** Pointers are addresses, 0 for NULL. *)
(* [mdl.h:516-539 MDL_request] *)
Record MDL_request := Request {
  type : enum_mdl_type; duration : enum_mdl_duration; next_in_list : Z; prev_in_list : Z; ticket : Z;
  key : MDL_key; m_src_file : bytes; m_src_line : Z }.

(* [mdl.h:555-560 set_type] *)
Definition set_type (r : MDL_request) (type_arg : enum_mdl_type) : option MDL_request :=
  if ticket r =? 0
  then Some (Request type_arg (duration r) (next_in_list r) (prev_in_list r) (ticket r) (key r) (m_src_file r) (m_src_line r))
  else None.

(** The new [*this] and the new [from]. *)
(* [mdl.h:561-570 move_from] *)
Definition move_from (this from : MDL_request) : option (MDL_request * MDL_request) :=
  k ← mdl_key_copy (key this) (key from);
  Some (Request (type from) (duration from) (next_in_list from) (prev_in_list from) (ticket from) k
          (m_src_file this) (m_src_line this),
        Request (type from) (duration from) (next_in_list from) (prev_in_list from) 0 (key from)
          (m_src_file from) (m_src_line from)).

(* [mdl.h:572-583 is_write_lock_request] *)
Definition is_write_lock_request (r : MDL_request) : bool :=
  (mdl_type_no MDL_SHARED_WRITE <=? mdl_type_no (type r)) && negb (bool_decide (type r = MDL_SHARED_READ_ONLY)).

(* [mdl.h:585-603 operator=] *)
Definition request_assign (this rhs : MDL_request) : MDL_request :=
  Request (type this) (duration this) (next_in_list this) (prev_in_list this) 0 (key this) (m_src_file this) (m_src_line this).

(** [junk] is the memory the object is constructed in. *)
(* [mdl.h:607-612 MDL_request] *)
Definition request_copy (junk rhs : MDL_request) : option MDL_request :=
  k ← mdl_key_copy (key junk) (key rhs);
  Some (Request (type rhs) (duration rhs) (next_in_list junk) (prev_in_list junk) 0 k (m_src_file junk) (m_src_line junk)).

(* [mdl.h:710-716 is_upgradable_or_exclusive] *)
Definition is_upgradable_or_exclusive (m_type : enum_mdl_type) : bool :=
  bool_decide (m_type = MDL_SHARED_UPGRADABLE) || bool_decide (m_type = MDL_SHARED_NO_WRITE) ||
  bool_decide (m_type = MDL_SHARED_NO_READ_WRITE) || bool_decide (m_type = MDL_EXCLUSIVE).

(** ** What a key stands for *)

(** A name: bytes other than zero, no more than [NAME_LEN]. *)
Definition is_name (s : bytes) : Prop := Forall (fun b => 0 < b < 256) s /\ strlen s <= NAME_LEN.

(** The documented behaviour of [strmake] on a string that is not longer than the limit. *)
Hypothesis strmake_spec : forall s n, Forall (fun b => 0 < b < 256) s -> strlen s <= n -> strmake s n = s ++ [0].

(** The used part of the buffer for a namespace and two names. *)
Definition key_bytes (n : enum_mdl_namespace) (db nm : bytes) : bytes := namespace_no n :: db ++ 0 :: nm ++ [0].

(** The buffer has its size. *)
Definition has_buffer (k : MDL_key) : Prop := Z.of_nat (length (m_ptr k)) = MAX_MDLKEY_LENGTH.

(** [k] is the key of the object [nm] of [db]. *)
Definition is_key (k : MDL_key) (n : enum_mdl_namespace) (db nm : bytes) : Prop :=
  has_buffer k /\ m_length k = strlen (key_bytes n db nm) /\ m_db_name_length k = strlen db /\
  m_hash_value k = my_hash_sort (db ++ 0 :: nm ++ [0]) /\
  exists junk, m_ptr k = key_bytes n db nm ++ junk.

Lemma strlen_key_bytes n db nm : strlen (key_bytes n db nm) = strlen db + strlen nm + 3.
Proof. unfold key_bytes, strlen. cbn [length]. rewrite length_app. cbn [length]. rewrite length_app. cbn [length]. lia. Qed.

Lemma mdl_key_init_ok junk n db nm : has_buffer junk -> is_name db -> is_name nm ->
  ok_for_lower_case_names db = true -> exists k, mdl_key_init junk n db nm = Some k /\ is_key k n db nm.
Proof.
  intros Hb [Fdb Hdb] [Fnm Hnm] Hok. unfold has_buffer in Hb.
  assert (Hlen : (length (key_bytes n db nm) <= length (m_ptr junk))%nat).
  { pose proof (strlen_key_bytes n db nm) as E. unfold strlen, MAX_MDLKEY_LENGTH, NAME_LEN in *. lia. }
  destruct (split_buffer _ _ Hlen) as (b & more & E & Hlb). rewrite E in Hb. unfold mdl_key_init. rewrite E. clear E Hlen.
  rewrite (proj2 (Z.leb_le _ _) Hdb), (proj2 (Z.leb_le _ _) Hnm), !strmake_spec by done.
  unfold key_bytes in Hlb. cbn [length] in Hlb. rewrite length_app in Hlb. cbn [length] in Hlb. rewrite length_app in Hlb. cbn [length] in Hlb.
  destruct b as [| b0 b]; [done |]. cbn [length] in Hlb. injection Hlb as Hlb.
  destruct (split_buffer b (length db + 1)) as (b1 & b2 & -> & Hl1); [lia |]. rewrite length_app in Hlb.
  change ((b0 :: b1 ++ b2) ++ more) with ([] ++ [b0] ++ ((b1 ++ b2) ++ more)).
  rewrite (write_at_app [] [b0]) by done. cbn [mbind option_bind negb].
  rewrite <- app_assoc, app_nil_l, (write_at_app [namespace_no n] b1) by (rewrite length_app; cbn; lia). cbn [mbind option_bind].
  assert (Hs : strlen (db ++ [0]) = strlen db + 1) by (unfold strlen; rewrite length_app; cbn; lia).
  assert (Hs' : strlen (nm ++ [0]) = strlen nm + 1) by (unfold strlen; rewrite length_app; cbn; lia).
  rewrite Hs, Hs'. replace (u16 (1 + (strlen db + 1 - 1) - 1)) with (strlen db)
    by (symmetry; unfold NAME_LEN, strlen in *; replace (1 + _ - 1) with (Z.of_nat (length db)) by lia; apply (wrap_small 16); split; lia).
  replace ([namespace_no n] ++ (db ++ [0]) ++ b2 ++ more) with (([namespace_no n] ++ db ++ [0]) ++ b2 ++ more) by by rewrite <- !app_assoc.
  replace (strlen db + 2) with (Z.of_nat (length ([namespace_no n] ++ db ++ [0]))) by (rewrite !length_app; unfold strlen; cbn; lia).
  rewrite write_at_app by (rewrite length_app; cbn; lia). cbn [mbind option_bind].
  replace (u16 _) with (strlen db + strlen nm + 3).
  2:{ symmetry. rewrite !length_app. cbn [length]. unfold NAME_LEN, strlen in *. replace (Z.of_nat _ + _ + 1) with (Z.of_nat (length db) + Z.of_nat (length nm) + 3) by lia.
      apply (wrap_small 16). split; lia. }
  rewrite Hok, orb_true_r. eexists. split; [reflexivity |].
  assert (Ek : ([namespace_no n] ++ db ++ [0]) ++ (nm ++ [0]) ++ more = key_bytes n db nm ++ more)
    by (unfold key_bytes; cbn; repeat (rewrite <- app_assoc; cbn [app]); done).
  rewrite Ek. unfold is_key, has_buffer. cbn [m_ptr m_length m_db_name_length m_hash_value].
  pose proof (strlen_key_bytes n db nm) as El. rewrite El. split_and!; [| done | done | | by eexists].
  - rewrite <- Hb, !length_app. unfold strlen in El. cbn [length]. rewrite length_app. lia.
  - f_equal. unfold key_bytes. cbn [app drop]. replace (Z.to_nat (strlen db + strlen nm + 3 - 1)) with (length (db ++ 0 :: nm ++ [0])).
    + apply take_app_length.
    + rewrite length_app. cbn [length]. rewrite length_app. unfold strlen. cbn. lia.
Qed.

Lemma key_reads k n db nm : is_key k n db nm -> is_name db -> is_name nm ->
  mdl_namespace k = namespace_no n /\ c_string (db_name k) = db /\ c_string (name k) = nm /\
  db_name_length k = strlen db /\ name_length k = strlen nm /\
  take (Z.to_nat (key_length k)) (ptr k) = key_bytes n db nm.
Proof.
  intros (_ & Hl & Hd & _ & junk & Hp) [Fdb Hdb] [Fnm Hnm].
  unfold mdl_namespace, db_name, name, db_name_length, name_length, key_length, ptr. rewrite Hl, Hd, Hp, strlen_key_bytes.
  unfold key_bytes. cbn [app]. split_and!.
  - cbn [ub nth]. unfold ub. cbn [nth]. apply swrap_small; destruct n; simpl; lia.
  - cbn [drop]. rewrite <- app_assoc. apply c_string_text; eapply Forall_impl; [done |]; cbn; lia.
  - unfold strlen. replace (Z.to_nat _) with (S (length db + 1))%nat by lia. cbn [drop].
    rewrite <- app_assoc, drop_app_add. cbn [drop app]. rewrite <- app_assoc. apply c_string_text; eapply Forall_impl; [done |]; cbn; lia.
  - done.
  - replace (_ - _ - 3) with (strlen nm) by lia. apply u32_small. unfold NAME_LEN, strlen in *. lia.
  - change (namespace_no n :: (db ++ 0 :: nm ++ [0]) ++ junk) with ((namespace_no n :: db ++ 0 :: nm ++ [0]) ++ junk).
    rewrite <- (strlen_key_bytes n db nm). unfold strlen. rewrite Nat2Z.id. apply take_app_length.
Qed.

(** *** Comparison *)

(** Lexicographic order of names; a prefix comes first. *)
Fixpoint name_compare (a b : bytes) : comparison :=
  match a, b with
  | [], [] => Eq
  | [], _ => Lt
  | _, [] => Gt
  | x :: a, y :: b => match x ?= y with Eq => name_compare a b | c => c end
  end.

Lemma name_compare_eq a b : name_compare a b = Eq <-> a = b.
Proof.
  revert b. induction a as [| x a IH]; intros [| y b]; simpl; try done.
  destruct (Z.compare_spec x y) as [-> | |]; [rewrite IH | |]; split; intros; simplify_eq; try done; lia.
Qed.

(** Namespace first, then database, then object. *)
Definition triple_compare (n1 : enum_mdl_namespace) (db1 nm1 : bytes) (n2 : enum_mdl_namespace) (db2 nm2 : bytes) : comparison :=
  match namespace_no n1 ?= namespace_no n2 with
  | Eq => match name_compare db1 db2 with Eq => name_compare nm1 nm2 | c => c end
  | c => c
  end.

Lemma namespace_no_inj n1 n2 : namespace_no n1 = namespace_no n2 -> n1 = n2.
Proof. by destruct n1, n2. Qed.

Lemma triple_compare_eq n1 db1 nm1 n2 db2 nm2 :
  triple_compare n1 db1 nm1 n2 db2 nm2 = Eq <-> n1 = n2 /\ db1 = db2 /\ nm1 = nm2.
Proof.
  unfold triple_compare. destruct (Z.compare_spec (namespace_no n1) (namespace_no n2)) as [E | E | E].
  - apply namespace_no_inj in E. destruct (name_compare db1 db2) eqn:D.
    + apply name_compare_eq in D. rewrite name_compare_eq. naive_solver.
    + split; [done |]. intros (_ & -> & _). by rewrite (proj2 (name_compare_eq db2 db2) eq_refl) in D.
    + split; [done |]. intros (_ & -> & _). by rewrite (proj2 (name_compare_eq db2 db2) eq_refl) in D.
  - split; [done |]. intros (-> & _). lia.
  - split; [done |]. intros (-> & _). lia.
Qed.

(** The terminating zero ends the comparison of two names. *)
Lemma memcmp_names a b r s : Forall (fun x => 0 < x < 256) a -> Forall (fun x => 0 < x < 256) b ->
  memcmp (a ++ 0 :: r) (b ++ 0 :: s) = match name_compare a b with Eq => memcmp r s | c => c end.
Proof.
  intros Ha. revert b. induction Ha as [| x a Hx Ha IH]; intros b [| y b' Hy Hb]; cbn [app memcmp name_compare].
  - done.
  - destruct (Z.compare_spec 0 y); [lia | done | lia].
  - destruct (Z.compare_spec x 0); [lia | lia | done].
  - destruct (x ?= y); [by apply IH | done | done].
Qed.

Lemma memcmp_min A B : memcmp (take (length B) A) (take (length A) B) = memcmp A B.
Proof.
  revert B. induction A as [| a A IH]; intros [| b B]; try done. cbn [length take memcmp]. by rewrite IH.
Qed.

Lemma take_key k n db nm i : is_key k n db nm -> 0 <= i <= strlen (key_bytes n db nm) ->
  take (Z.to_nat i) (m_ptr k) = take (Z.to_nat i) (key_bytes n db nm).
Proof.
  intros (_ & _ & _ & _ & junk & ->) Hi. apply take_app_le. unfold strlen in Hi. lia.
Qed.

Lemma cmp_triples k1 k2 n1 db1 nm1 n2 db2 nm2 : is_key k1 n1 db1 nm1 -> is_key k2 n2 db2 nm2 ->
  is_name db1 -> is_name nm1 -> is_name db2 -> is_name nm2 ->
  cmp k1 k2 = triple_compare n1 db1 nm1 n2 db2 nm2.
Proof.
  intros H1 H2 [Fd1 _] [Fn1 _] [Fd2 _] [Fn2 _]. unfold cmp, memcmp_n.
  assert (E : forall n db nm, 0 <= strlen (key_bytes n db nm)) by (unfold strlen; lia).
  pose proof (E n1 db1 nm1). pose proof (E n2 db2 nm2). clear E.
  pose proof H1 as (_ & L1 & _). pose proof H2 as (_ & L2 & _). rewrite L1, L2.
  rewrite (take_key k1 n1 db1 nm1), (take_key k2 n2 db2 nm2) by (done || lia). 
  replace (memcmp _ _) with (memcmp (key_bytes n1 db1 nm1) (key_bytes n2 db2 nm2)).
  - unfold key_bytes, triple_compare. cbn [memcmp]. destruct (namespace_no n1 ?= namespace_no n2); try done.
    rewrite memcmp_names by done. destruct (name_compare db1 db2); try done.
    rewrite memcmp_names by done. destruct (name_compare nm1 nm2); done.
  - rewrite <- (memcmp_min (key_bytes n1 db1 nm1) (key_bytes n2 db2 nm2)). unfold strlen in *. f_equal.
    + by rewrite Z2Nat.inj_min, !Nat2Z.id, Nat.min_comm, <- take_take, (take_ge (key_bytes n1 db1 nm1) (length (key_bytes n1 db1 nm1))) by lia.
    + by rewrite Z2Nat.inj_min, !Nat2Z.id, <- take_take, (take_ge (key_bytes n2 db2 nm2) (length (key_bytes n2 db2 nm2))) by lia.
Qed.

Lemma is_equal_triples k1 k2 n1 db1 nm1 n2 db2 nm2 : is_key k1 n1 db1 nm1 -> is_key k2 n2 db2 nm2 ->
  is_name db1 -> is_name nm1 -> is_name db2 -> is_name nm2 ->
  is_equal k1 k2 = true <-> n1 = n2 /\ db1 = db2 /\ nm1 = nm2.
Proof.
  intros H1 H2 Hd1 Hn1 Hd2 Hn2. rewrite <- triple_compare_eq, <- (cmp_triples k1 k2) by done.
  pose proof (cmp_triples k1 k2 n1 db1 nm1 n2 db2 nm2 H1 H2 Hd1 Hn1 Hd2 Hn2) as Hc.
  unfold is_equal, cmp in *. split.
  - rewrite andb_true_iff, Z.eqb_eq. intros [E Hm]. clear Hc. rewrite E in Hm |- *. rewrite Z.min_id. revert Hm. by destruct (memcmp_n _ _ _).
  - intros E. rewrite E in Hc. symmetry in Hc. apply triple_compare_eq in Hc as (-> & -> & ->).
    pose proof H1 as (_ & L1 & _). pose proof H2 as (_ & L2 & _). rewrite L1, L2 in *. rewrite Z.min_id in E.
    by rewrite Z.eqb_refl, E.
Qed.

Lemma mdl_key_copy_ok this rhs n db nm : has_buffer this -> is_key rhs n db nm -> is_name db -> is_name nm ->
  exists k, mdl_key_copy this rhs = Some k /\ is_key k n db nm.
Proof.
  intros Hb H [_ Hdb] [_ Hnm]. pose proof H as (_ & Hl & Hd & Hh & junk & Hp). unfold mdl_key_copy. rewrite Hl, Hp.
  pose proof (strlen_key_bytes n db nm) as El. unfold has_buffer, MAX_MDLKEY_LENGTH, NAME_LEN in *.
  replace (take _ (key_bytes n db nm ++ junk)) with (key_bytes n db nm)
    by (unfold strlen; by rewrite Nat2Z.id, take_app_length).
  destruct (split_buffer (m_ptr this) (length (key_bytes n db nm))) as (a & b & E & La); [unfold strlen in *; lia |].
  pose proof (write_at_app [] a b (key_bytes n db nm) La) as W. cbn [app length] in W. change (Z.of_nat 0) with 0 in W.
  rewrite E, W. eexists. split; [reflexivity |]. unfold is_key, has_buffer, MAX_MDLKEY_LENGTH, NAME_LEN. cbn [m_ptr m_length m_db_name_length m_hash_value].
  rewrite <- Hb, E, !length_app, La. split_and!; [done | done | done | done | by eexists].
Qed.

(** ** Properties *)

(** a key made in any memory, for names up to the full [NAME_LEN], stays within
    its buffer (which two longest names fill) and gives back the namespace, both
    names and both lengths; so does a copy of it. *)
Theorem mdl_key_roundtrip this other n db nm : has_buffer this -> has_buffer other ->
  is_name db -> is_name nm -> n <> NAMESPACE_END -> ok_for_lower_case_names db = true ->
  exists k, mdl_key_init this n db nm = Some k /\ exists k', mdl_key_copy other k = Some k' /\
    Forall (fun k => has_buffer k /\ mdl_namespace k = namespace_no n /\ c_string (db_name k) = db /\ c_string (name k) = nm /\
      db_name_length k = strlen db /\ name_length k = strlen nm /\ key_length k <= MAX_MDLKEY_LENGTH /\
      take (Z.to_nat (key_length k)) (ptr k) = namespace_no n :: db ++ 0 :: nm ++ [0]) [k; k'] /\
    tc_hash_value k' = tc_hash_value k.
Proof.
  intros Hb Ho Hdb Hnm _ Hok. destruct (mdl_key_init_ok this n db nm Hb Hdb Hnm Hok) as (k & -> & Hk). exists k. split; [done |].
  destruct (mdl_key_copy_ok other k n db nm Ho Hk Hdb Hnm) as (k' & -> & Hk'). exists k'. split; [done |]. split.
  - repeat apply Forall_cons_2; [| | apply Forall_nil_2].
    + destruct (key_reads k n db nm Hk Hdb Hnm) as (? & ? & ? & ? & ? & ?). pose proof Hk as (? & Hl & _).
      split_and!; try done. unfold key_length. rewrite Hl, strlen_key_bytes. destruct Hdb as [_ Hdb], Hnm as [_ Hnm]. unfold MAX_MDLKEY_LENGTH. lia.
    + destruct (key_reads k' n db nm Hk' Hdb Hnm) as (? & ? & ? & ? & ? & ?). pose proof Hk' as (? & Hl & _).
      split_and!; try done. unfold key_length. rewrite Hl, strlen_key_bytes. destruct Hdb as [_ Hdb], Hnm as [_ Hnm]. unfold MAX_MDLKEY_LENGTH. lia.
  - destruct Hk as (_ & _ & _ & H & _), Hk' as (_ & _ & _ & H' & _). unfold tc_hash_value. congruence.
Qed.

(** comparing the buffers of two keys is comparing what they stand for: [cmp]
    orders by namespace, then by database name, then by object name (a prefix
    first), although it only looks at the bytes of the shorter key, and it is zero,
    as [is_equal] is true, only for the same object; the same object has the same
    hash value. *)
Theorem mdl_key_order this1 this2 k1 k2 n1 db1 nm1 n2 db2 nm2 : has_buffer this1 -> has_buffer this2 ->
  is_name db1 -> is_name nm1 -> is_name db2 -> is_name nm2 ->
  ok_for_lower_case_names db1 = true -> ok_for_lower_case_names db2 = true ->
  mdl_key_init this1 n1 db1 nm1 = Some k1 -> mdl_key_init this2 n2 db2 nm2 = Some k2 ->
  cmp k1 k2 = triple_compare n1 db1 nm1 n2 db2 nm2 /\
  (cmp k1 k2 = Eq <-> n1 = n2 /\ db1 = db2 /\ nm1 = nm2) /\
  (is_equal k1 k2 = true <-> n1 = n2 /\ db1 = db2 /\ nm1 = nm2) /\
  (is_equal k1 k2 = true -> hash_value k1 = hash_value k2).
Proof.
  intros Hb1 Hb2 Hd1 Hn1 Hd2 Hn2 Ho1 Ho2 E1 E2.
  destruct (mdl_key_init_ok this1 n1 db1 nm1) as (k & Ek & Hk1); try done. rewrite E1 in Ek. injection Ek as <-.
  destruct (mdl_key_init_ok this2 n2 db2 nm2) as (k & Ek & Hk2); try done. rewrite E2 in Ek. injection Ek as <-.
  rewrite (cmp_triples k1 k2 n1 db1 nm1 n2 db2 nm2), triple_compare_eq, (is_equal_triples k1 k2 n1 db1 nm1 n2 db2 nm2) by done.
  split_and!; [done | done | done |]. intros (-> & -> & ->). unfold hash_value.
  destruct (key_reads k1 n2 db2 nm2) as [N1 _]; try done. destruct (key_reads k2 n2 db2 nm2) as [N2 _]; try done.
  destruct Hk1 as (_ & _ & _ & M1 & _), Hk2 as (_ & _ & _ & M2 & _). congruence.
Qed.
End keys.

(** A [strmake], a hash and a blank buffer. *)
Definition demo_strmake (s : bytes) (n : Z) : bytes := take (Z.to_nat n) s ++ [0].
Definition demo_hash (s : bytes) : Z := foldl (fun h b => u32 (31 * h + b)) 7 s.
Definition demo_key : MDL_key := Key 0 0 0 (replicate 387 170).

Lemma demo_strmake_spec s n : Forall (fun b => 0 < b < 256) s -> strlen s <= n -> demo_strmake s n = s ++ [0].
Proof. intros _ Hn. unfold demo_strmake, strlen in *. by rewrite take_ge by lia. Qed.

Ltac is_name_tac := split; [repeat (apply Forall_cons_2; [lia |]); apply Forall_nil_2 | vm_compute; discriminate].

Lemma mdl_key_roundtrip_witness :
  exists k, mdl_key_init demo_strmake demo_hash (fun _ => true) demo_key TABLE [116; 49] [] = Some k.
Proof.
  destruct (mdl_key_roundtrip demo_strmake demo_hash (fun _ => true) demo_strmake_spec demo_key demo_key TABLE [116; 49] [])
    as (k & H & _); [reflexivity | reflexivity | is_name_tac | is_name_tac | discriminate | reflexivity |].
  exists k. exact H.
Defined.

(** The names [a], [bc] and [ab], [c]: the boundary between them counts. *)
Lemma mdl_key_order_witness : exists k1 k2,
  mdl_key_init demo_strmake demo_hash (fun _ => true) demo_key TABLE [97] [98; 99] = Some k1 /\
  mdl_key_init demo_strmake demo_hash (fun _ => true) demo_key TABLE [97; 98] [99] = Some k2 /\ cmp k1 k2 = Lt.
Proof.
  eexists. eexists. split; [reflexivity |]. split; [reflexivity |].
  apply (mdl_key_order demo_strmake demo_hash (fun _ => true) demo_strmake_spec demo_key demo_key _ _ TABLE [97] [98; 99] TABLE [97; 98] [99]);
    [reflexivity | reflexivity | is_name_tac | is_name_tac | is_name_tac | is_name_tac | reflexivity | reflexivity | reflexivity | reflexivity].
Defined.
