(* ===== verification/SelArg.v ===== *)
(** * SelArg: the intervals of the range optimizer ([opt_range.h])

    A [SEL_ARG] is an interval of values of one key part.  Its ends carry flags: no
    end, or a strict one.  The intervals of a key part form a tree that is also a
    list in increasing order; [first] and [last] are its ends, so the model keeps
    the list.  An interval may point to the tree of the next key part.

    Values are key images (bytes).  [sel_cmp] and [Field::key_cmp] are compiled
    elsewhere; what the intervals rely on is that they order the ends of
    intervals, here by a [rank] of key images (the class [EndOrder]). *)

From stdpp Require Import base numbers list.
From Stdlib Require Import ZArith Lia.
From S2P Require Import Prelude ByteOrder.

Local Open Scope Z_scope.
Local Open Scope cxx_scope.

(** ** Flags *)

(* [my_base.h:610-610 NO_MIN_RANGE] *)
Definition NO_MIN_RANGE : Z := 1.
(* [my_base.h:611-611 NO_MAX_RANGE] *)
Definition NO_MAX_RANGE : Z := 2.
(* [my_base.h:612-612 NEAR_MIN] *)
Definition NEAR_MIN : Z := 4.
(* [my_base.h:613-613 NEAR_MAX] *)
Definition NEAR_MAX : Z := 8.
(* [my_base.h:617-617 GEOM_FLAG] *)
Definition GEOM_FLAG : Z := 128.

Definition has (flags mask : Z) : bool := negb (flags &&& mask =? 0).

(** ** Intervals *)

(* [opt_range.h:264-264 Type] *)
Inductive arg_type := IMPOSSIBLE | MAYBE | MAYBE_KEY | KEY_RANGE.

#[export] Instance arg_type_eq_dec : EqDecision arg_type.
Proof. solve_decision. Defined.

(** The members of one interval; the links of the tree are left out. *)
(* [opt_range.h:233-264 SEL_ARG] *)
Record SEL_ARG := SelArg {
  type : arg_type; min_flag : Z; max_flag : Z; maybe_flag : Z; part : Z; maybe_null : bool;
  min_value : bytes; max_value : bytes }.

Section intervals.
(** [SEL_ARG::sel_cmp] and [key_cmp] of the field the key part belongs to. *)
Context (sel_cmp : bytes -> bytes -> Z -> Z -> Z) (key_cmp : bytes -> bytes -> Z).

(* [opt_range.h:313-316 cmp_min_to_min] *)
Definition cmp_min_to_min (this arg : SEL_ARG) : Z :=
  sel_cmp (min_value this) (min_value arg) (min_flag this) (min_flag arg).
(* [opt_range.h:317-320 cmp_min_to_max] *)
Definition cmp_min_to_max (this arg : SEL_ARG) : Z :=
  sel_cmp (min_value this) (max_value arg) (min_flag this) (max_flag arg).
(* [opt_range.h:321-324 cmp_max_to_max] *)
Definition cmp_max_to_max (this arg : SEL_ARG) : Z :=
  sel_cmp (max_value this) (max_value arg) (max_flag this) (max_flag arg).
(* [opt_range.h:325-328 cmp_max_to_min] *)
Definition cmp_max_to_min (this arg : SEL_ARG) : Z :=
  sel_cmp (max_value this) (min_value arg) (max_flag this) (min_flag arg).

(* [opt_range.h:278-289 is_same] *)
Definition is_same (this arg : SEL_ARG) : bool :=
  if negb (bool_decide (type this = type arg)) || negb (part this =? part arg) then false
  else if negb (bool_decide (type this = KEY_RANGE)) then true
  else (cmp_min_to_min this arg =? 0) && (cmp_max_to_max this arg =? 0).

(** The loop over both lists. *)
Fixpoint same_loop (cur cmp : list SEL_ARG) : bool :=
  match cur, cmp with
  | c :: cur, d :: cmp => if is_same c d then same_loop cur cmp else false
  | [], [] => true
  | _, _ => false
  end.

(** [this] and [arg] are elements of the trees [l] and [m]; [same_ptr] is [arg == this]. *)
(* [opt_range.h:290-308 all_same] *)
Definition all_same (same_ptr : bool) (this : SEL_ARG) (l : list SEL_ARG) (arg : SEL_ARG) (m : list SEL_ARG) : bool :=
  if negb (bool_decide (type this = type arg)) || negb (part this =? part arg) then false
  else if negb (bool_decide (type this = KEY_RANGE)) then true
  else if same_ptr then true else same_loop l m.

Definition set_maybe (a : SEL_ARG) (f : Z) : SEL_ARG :=
  SelArg (type a) (min_flag a) (max_flag a) f (part a) (maybe_null a) (min_value a) (max_value a).
Definition set_min (a : SEL_ARG) (v : bytes) (f : Z) : SEL_ARG :=
  SelArg (type a) f (max_flag a) (maybe_flag a) (part a) (maybe_null a) v (max_value a).
Definition set_max (a : SEL_ARG) (v : bytes) (f : Z) : SEL_ARG :=
  SelArg (type a) (min_flag a) f (maybe_flag a) (part a) (maybe_null a) (min_value a) v.

(* [opt_range.h:309-309 merge_flags] *)
Definition merge_flags (this arg : SEL_ARG) : SEL_ARG := set_maybe this (maybe_flag this ||| maybe_flag arg).
(* [opt_range.h:310-310 maybe_smaller] *)
Definition maybe_smaller (this : SEL_ARG) : SEL_ARG := set_maybe this 1.
(* [opt_range.h:311-312 is_null_interval] *)
Definition is_null_interval (this : SEL_ARG) : bool := maybe_null this && (ub (max_value this) 0 =? 1).

(** The constructor with seven arguments; it takes [maybe_null] from the field. *)
Definition new_range (nullable : bool) (p : Z) (vmin vmax : bytes) (fmin fmax maybe : Z) : SEL_ARG :=
  SelArg KEY_RANGE fmin fmax maybe p nullable vmin vmax.

(* [opt_range.h:329-352 clone_and] *)
Definition clone_and (this arg : SEL_ARG) : SEL_ARG :=
  let '(new_min, flag_min) := if 0 <=? cmp_min_to_min this arg then (min_value this, min_flag this) else (min_value arg, min_flag arg) in
  let '(new_max, flag_max) := if cmp_max_to_max this arg <=? 0 then (max_value this, max_flag this) else (max_value arg, max_flag arg) in
  new_range (maybe_null this) (part this) new_min new_max flag_min flag_max
    (if negb (maybe_flag this =? 0) && negb (maybe_flag arg =? 0) then 1 else 0).

(* [opt_range.h:353-358 clone_first] *)
Definition clone_first (this arg : SEL_ARG) : SEL_ARG :=
  new_range (maybe_null this) (part this) (min_value this) (min_value arg) (min_flag this)
    (if has (min_flag arg) NEAR_MIN then 0 else NEAR_MAX) (maybe_flag this ||| maybe_flag arg).

(* [opt_range.h:359-363 clone_last] *)
Definition clone_last (this arg : SEL_ARG) : SEL_ARG :=
  new_range (maybe_null this) (part this) (min_value this) (max_value arg) (min_flag this) (max_flag arg)
    (maybe_flag this ||| maybe_flag arg).

Definition full_range_flag (f : Z) : bool := (f &&& (NO_MAX_RANGE ||| NO_MIN_RANGE)) =? (NO_MAX_RANGE ||| NO_MIN_RANGE).

(* [opt_range.h:366-377 copy_min] *)
Definition copy_min (this arg : SEL_ARG) : bool * SEL_ARG :=
  if 0 <? cmp_min_to_min this arg then
    let this := set_min this (min_value arg) (min_flag arg) in
    if full_range_flag (max_flag this) then (true, this) else (false, merge_flags this arg)
  else (false, merge_flags this arg).

(* [opt_range.h:378-389 copy_max] *)
Definition copy_max (this arg : SEL_ARG) : bool * SEL_ARG :=
  if cmp_max_to_max this arg <=? 0 then
    let this := set_max this (max_value arg) (max_flag arg) in
    if full_range_flag (max_flag this) then (true, this) else (false, merge_flags this arg)
  else (false, merge_flags this arg).

(* [opt_range.h:391-394 copy_min_to_min] *)
Definition copy_min_to_min (this arg : SEL_ARG) : SEL_ARG := set_min this (min_value arg) (min_flag arg).
(* [opt_range.h:395-399 copy_min_to_max] *)
Definition copy_min_to_max (this arg : SEL_ARG) : SEL_ARG :=
  set_max this (min_value arg) (if has (min_flag arg) NEAR_MIN then 0 else NEAR_MAX).
(* [opt_range.h:400-404 copy_max_to_min] *)
Definition copy_max_to_min (this arg : SEL_ARG) : SEL_ARG :=
  set_min this (max_value arg) (if has (max_flag arg) NEAR_MAX then 0 else NEAR_MIN).

(* [opt_range.h:557-597 is_singlepoint] *)
Definition is_singlepoint (this : SEL_ARG) : bool :=
  if negb (min_flag this =? 0) || negb (max_flag this =? 0) then false else
  if maybe_null this then
    if negb (ub (min_value this) 0 =? ub (max_value this) 0) then false
    else if negb (ub (min_value this) 0 =? 0) then true
    else key_cmp (drop 1 (min_value this)) (drop 1 (max_value this)) =? 0
  else key_cmp (min_value this) (max_value this) =? 0.

(** ** Keys from intervals *)

(** What is appended to the key buffer, nothing when the interval has no such
    end; [length] is the stored size of the key part. *)
(* [opt_range.h:405-424 store_min] *)
Definition store_min (this : SEL_ARG) (length : Z) (min_key_flag : Z) : option bytes :=
  if has (min_flag this) GEOM_FLAG ||
     (negb (has (min_flag this) NO_MIN_RANGE) && negb (has min_key_flag (NO_MIN_RANGE ||| NEAR_MIN)))
  then Some (if maybe_null this && negb (ub (min_value this) 0 =? 0)
             then 1 :: replicate (Z.to_nat (length - 1)) 0 else take (Z.to_nat length) (min_value this))
  else None.

(* [opt_range.h:425-442 store_max] *)
Definition store_max (this : SEL_ARG) (length : Z) (max_key_flag : Z) : option bytes :=
  if negb (has (max_flag this) NO_MAX_RANGE) && negb (has max_key_flag (NO_MAX_RANGE ||| NEAR_MAX))
  then Some (if maybe_null this && negb (ub (max_value this) 0 =? 0)
             then 1 :: replicate (Z.to_nat (length - 1)) 0 else take (Z.to_nat length) (max_value this))
  else None.
End intervals.

(** The tree of a key part: its intervals in order, each with the tree of the
    next key part, if any; a tree that is not of intervals is its type and part. *)
Inductive key_tree :=
  | Ranges (tree_part : Z) (rs : list (SEL_ARG * option key_tree))
  | NoRanges (tree_type : arg_type) (tree_part : Z).

Definition is_key_range (t : key_tree) : bool :=
  match t with Ranges _ _ => true | NoRanges ty _ => bool_decide (ty = KEY_RANGE) end.
Definition tree_part (t : key_tree) : Z := match t with Ranges p _ | NoRanges _ p => p end.

Section keys.
(** [key[part].store_length]. *)
Variable store_length : Z -> Z.

(** The count, the bytes appended, the new flags.  [None]: the tree has no interval. *)
(* [opt_range.h:444-475 store_min_key] *)
Fixpoint store_min_key (t : key_tree) (range_key_flag last_part : Z) : option (Z * bytes * Z) :=
  match t with
  | Ranges _ ((key_tree, next_key_part) :: _) =>
      match store_min key_tree (store_length (part key_tree)) range_key_flag with
      | None => Some (0, [], range_key_flag)
      | Some bs =>
          let flags := range_key_flag ||| min_flag key_tree in
          match next_key_part with
          | Some t' =>
              if is_key_range t' && negb (part key_tree =? last_part) && (tree_part t' =? part key_tree + 1) &&
                 negb (has flags (NO_MIN_RANGE ||| NEAR_MIN))
              then '(n, bs', flags) ← store_min_key t' flags last_part; Some (1 + n, bs ++ bs', flags)
              else Some (1, bs, flags)
          | None => Some (1, bs, flags)
          end
      end
  | _ => None
  end.

(* [opt_range.h:477-499 store_max_key] *)
Fixpoint store_max_key (t : key_tree) (range_key_flag last_part : Z) : option (Z * bytes * Z) :=
  match t with
  | Ranges _ rs =>
      (fix last (rs : list (SEL_ARG * option key_tree)) : option (Z * bytes * Z) :=
        match rs with
        | [] => None
        | [(key_tree, next_key_part)] =>
            match store_max key_tree (store_length (part key_tree)) range_key_flag with
            | None => Some (0, [], range_key_flag)
            | Some bs =>
                let flags := range_key_flag ||| max_flag key_tree in
                match next_key_part with
                | Some t' =>
                    if is_key_range t' && negb (part key_tree =? last_part) && (tree_part t' =? part key_tree + 1) &&
                       negb (has flags (NO_MAX_RANGE ||| NEAR_MAX))
                    then '(n, bs', flags) ← store_max_key t' flags last_part; Some (1 + n, bs ++ bs', flags)
                    else Some (1, bs, flags)
                | None => Some (1, bs, flags)
                end
            end
        | _ :: rs => last rs
        end) rs
  | NoRanges _ _ => None
  end.
End keys.

(** ** The order of ends *)

(** Where an end lies: below everything, above everything, or at, just above or
    just below the rank of its value. *)
Definition end_of (rank : bytes -> Z) (v : bytes) (flag : Z) : Z * Z :=
  if has flag NO_MIN_RANGE then (-1, 0) else if has flag NO_MAX_RANGE then (1, 0)
  else (0, 3 * rank v + (if has flag NEAR_MIN then 1 else if has flag NEAR_MAX then -1 else 0)).

Definition end_le (p q : Z * Z) : Prop := p.1 < q.1 \/ p.1 = q.1 /\ p.2 <= q.2.

(** The flags of an end: none, or one of the four. *)
Definition flag_ok (f : Z) : Prop := f = 0 \/ f = NO_MIN_RANGE \/ f = NO_MAX_RANGE \/ f = NEAR_MIN \/ f = NEAR_MAX.

(** What the intervals need of [sel_cmp]: its sign orders ends. *)
Class EndOrder (sel_cmp : bytes -> bytes -> Z -> Z -> Z) (rank : bytes -> Z) := {
  sel_cmp_le a b fa fb : flag_ok fa -> flag_ok fb -> sel_cmp a b fa fb <= 0 <-> end_le (end_of rank a fa) (end_of rank b fb);
  sel_cmp_ge a b fa fb : flag_ok fa -> flag_ok fb -> 0 <= sel_cmp a b fa fb <-> end_le (end_of rank b fb) (end_of rank a fa) }.

(** A value among the ends. *)
Definition point (rank : bytes -> Z) (x : bytes) : Z * Z := (0, 3 * rank x).

Lemma end_closed rank v : end_of rank v 0 = (0, 3 * rank v).
Proof. change (end_of rank v 0) with (0, 3 * rank v + 0). by rewrite Z.add_0_r. Qed.
Lemma end_near_min rank v : end_of rank v NEAR_MIN = (0, 3 * rank v + 1).
Proof. done. Qed.
Lemma end_near_max rank v : end_of rank v NEAR_MAX = (0, 3 * rank v - 1).
Proof. done. Qed.
Lemma end_no_min rank v : end_of rank v NO_MIN_RANGE = (-1, 0).
Proof. done. Qed.
Lemma end_no_max rank v : end_of rank v NO_MAX_RANGE = (1, 0).
Proof. done. Qed.

(** [ends] computes ends and compares them. *)
Ltac ends :=
  change (has 0 NEAR_MIN) with false in *; change (has 0 NEAR_MAX) with false in *;
  change (has NEAR_MIN NEAR_MIN) with true in *; change (has NEAR_MAX NEAR_MAX) with true in *; cbv iota in *;
  rewrite ?end_closed, ?end_near_min, ?end_near_max, ?end_no_min, ?end_no_max in *;
  unfold end_le, point in *; cbn [fst snd] in *.

Section order.
Context (rank : bytes -> Z).

Definition min_flag_ok (f : Z) : Prop := f = 0 \/ f = NO_MIN_RANGE \/ f = NEAR_MIN.
Definition max_flag_ok (f : Z) : Prop := f = 0 \/ f = NO_MAX_RANGE \/ f = NEAR_MAX.

Definition range_ok (r : SEL_ARG) : Prop := type r = KEY_RANGE /\ min_flag_ok (min_flag r) /\ max_flag_ok (max_flag r).

Definition min_end (r : SEL_ARG) : Z * Z := end_of rank (min_value r) (min_flag r).
Definition max_end (r : SEL_ARG) : Z * Z := end_of rank (max_value r) (max_flag r).

(** The value [x] is not below, not above, in the interval. *)
Definition above_min (r : SEL_ARG) (x : bytes) : Prop := end_le (min_end r) (point rank x).
Definition below_max (r : SEL_ARG) (x : bytes) : Prop := end_le (point rank x) (max_end r).
Definition contains (r : SEL_ARG) (x : bytes) : Prop := above_min r x /\ below_max r x.

Lemma min_flag_any f : min_flag_ok f -> flag_ok f.
Proof. unfold min_flag_ok, flag_ok. tauto. Qed.
Lemma max_flag_any f : max_flag_ok f -> flag_ok f.
Proof. unfold max_flag_ok, flag_ok. tauto. Qed.

Lemma end_le_trans p q r : end_le p q -> end_le q r -> end_le p r.
Proof. unfold end_le. lia. Qed.
Lemma end_le_total p q : end_le p q \/ end_le q p.
Proof. unfold end_le. lia. Qed.
Lemma end_le_refl p : end_le p p.
Proof. unfold end_le. lia. Qed.

(** Turning an end into an end of the other kind: just below a minimum, just
    above a maximum. *)
Lemma before_min a x : min_flag_ok (min_flag a) -> min_flag a <> NO_MIN_RANGE ->
  end_le (point rank x) (end_of rank (min_value a) (if has (min_flag a) NEAR_MIN then 0 else NEAR_MAX)) <-> ~ above_min a x.
Proof.
  unfold above_min, min_end. destruct a as [t mf Mf y p n v w]. cbn [min_flag min_value].
  intros [-> | [-> | ->]] Hn; [| done |]; ends; lia.
Qed.

Lemma after_max a x : max_flag_ok (max_flag a) -> max_flag a <> NO_MAX_RANGE ->
  end_le (end_of rank (max_value a) (if has (max_flag a) NEAR_MAX then 0 else NEAR_MIN)) (point rank x) <-> ~ below_max a x.
Proof.
  unfold below_max, max_end. destruct a as [t mf Mf y p n v w]. cbn [max_flag max_value].
  intros [-> | [-> | ->]] Hn; [| done |]; ends; lia.
Qed.

(** Of an infinite end the value is taken as if it were one. *)
Lemma before_no_min a x : min_flag a = NO_MIN_RANGE ->
  end_le (point rank x) (end_of rank (min_value a) (if has (min_flag a) NEAR_MIN then 0 else NEAR_MAX)) <-> rank x < rank (min_value a).
Proof. intros ->. change (has NO_MIN_RANGE NEAR_MIN) with false. ends. lia. Qed.

Lemma after_no_max a x : max_flag a = NO_MAX_RANGE ->
  end_le (end_of rank (max_value a) (if has (max_flag a) NEAR_MAX then 0 else NEAR_MIN)) (point rank x) <-> rank (max_value a) < rank x.
Proof. intros ->. change (has NO_MAX_RANGE NEAR_MAX) with false. ends. lia. Qed.

Section compare.
Context (sel_cmp : bytes -> bytes -> Z -> Z -> Z) `{!EndOrder sel_cmp rank}.

Lemma cmp_min_le a b : range_ok a -> range_ok b -> cmp_min_to_min sel_cmp a b <= 0 <-> end_le (min_end a) (min_end b).
Proof. intros (_ & Ha & _) (_ & Hb & _). apply sel_cmp_le; by apply min_flag_any. Qed.
Lemma cmp_min_ge a b : range_ok a -> range_ok b -> 0 <= cmp_min_to_min sel_cmp a b <-> end_le (min_end b) (min_end a).
Proof. intros (_ & Ha & _) (_ & Hb & _). apply sel_cmp_ge; by apply min_flag_any. Qed.
Lemma cmp_max_le a b : range_ok a -> range_ok b -> cmp_max_to_max sel_cmp a b <= 0 <-> end_le (max_end a) (max_end b).
Proof. intros (_ & _ & Ha) (_ & _ & Hb). apply sel_cmp_le; by apply max_flag_any. Qed.
Lemma cmp_max_ge a b : range_ok a -> range_ok b -> 0 <= cmp_max_to_max sel_cmp a b <-> end_le (max_end b) (max_end a).
Proof. intros (_ & _ & Ha) (_ & _ & Hb). apply sel_cmp_ge; by apply max_flag_any. Qed.

(** One of two ends, the higher minimum and the lower maximum. *)
Lemma clone_and_min a b : range_ok a -> range_ok b -> let c := clone_and sel_cmp a b in
  min_flag_ok (min_flag c) /\
  (min_end c = min_end a /\ end_le (min_end b) (min_end a) \/ min_end c = min_end b /\ end_le (min_end a) (min_end b)).
Proof.
  intros Ha Hb. pose proof (cmp_min_ge a b Ha Hb) as Hge. pose proof (cmp_min_le a b Ha Hb) as Hle.
  destruct Ha as (_ & Fa & _), Hb as (_ & Fb & _). unfold clone_and.
  destruct (Z.leb_spec 0 (cmp_min_to_min sel_cmp a b)), (cmp_max_to_max sel_cmp a b <=? 0).
  1,2: split; [done |]; left; split; [done |]; by apply Hge.
  1,2: split; [done |]; right; split; [done |]; apply Hle; lia.
Qed.

Lemma clone_and_max a b : range_ok a -> range_ok b -> let c := clone_and sel_cmp a b in
  max_flag_ok (max_flag c) /\
  (max_end c = max_end a /\ end_le (max_end a) (max_end b) \/ max_end c = max_end b /\ end_le (max_end b) (max_end a)).
Proof.
  intros Ha Hb. pose proof (cmp_max_ge a b Ha Hb) as Hge. pose proof (cmp_max_le a b Ha Hb) as Hle.
  destruct Ha as (_ & _ & Fa), Hb as (_ & _ & Fb). unfold clone_and.
  destruct (0 <=? cmp_min_to_min sel_cmp a b), (Z.leb_spec (cmp_max_to_max sel_cmp a b) 0).
  1,3: split; [done |]; left; split; [done |]; by apply Hle.
  1,2: split; [done |]; right; split; [done |]; apply Hge; lia.
Qed.

Lemma clone_and_contains a b x : range_ok a -> range_ok b ->
  range_ok (clone_and sel_cmp a b) /\ (contains (clone_and sel_cmp a b) x <-> contains a x /\ contains b x).
Proof.
  intros Ha Hb. destruct (clone_and_min a b Ha Hb) as [Fm Hm]. destruct (clone_and_max a b Ha Hb) as [FM HM].
  split.
  - split; [| done]. unfold clone_and. by destruct (0 <=? _), (_ <=? 0).
  - unfold contains, above_min, below_max.
    destruct Hm as [[-> Hm] | [-> Hm]], HM as [[-> HM] | [-> HM]]; unfold end_le in *; lia.
Qed.

(** The union of neighbours: [copy_min] lowers the minimum, [copy_max] raises the maximum. *)
Lemma full_range_max f : max_flag_ok f -> full_range_flag f = false.
Proof. by intros [-> | [-> | ->]]. Qed.

Lemma copy_min_min a b : range_ok a -> range_ok b ->
  (copy_min sel_cmp a b).1 = false /\ let c := (copy_min sel_cmp a b).2 in
  range_ok c /\ max_end c = max_end a /\
  (min_end c = min_end a /\ end_le (min_end a) (min_end b) \/ min_end c = min_end b /\ end_le (min_end b) (min_end a)).
Proof.
  intros Ha Hb. pose proof (cmp_min_ge a b Ha Hb) as Hge. pose proof (cmp_min_le a b Ha Hb) as Hle.
  pose proof Ha as (Ta & Fa & Ma). pose proof Hb as (_ & Fb & _). unfold copy_min.
  destruct (Z.ltb_spec 0 (cmp_min_to_min sel_cmp a b)).
  - cbn [max_flag set_min]. rewrite full_range_max by done. split; [done |]. split; [done |]. split; [done |].
    right. split; [done |]. apply Hge. lia.
  - split; [done |]. split; [done |]. split; [done |]. left. split; [done |]. by apply Hle.
Qed.

Lemma copy_max_max a b : range_ok a -> range_ok b ->
  (copy_max sel_cmp a b).1 = false /\ let c := (copy_max sel_cmp a b).2 in
  range_ok c /\ min_end c = min_end a /\
  (max_end c = max_end a /\ end_le (max_end b) (max_end a) \/ max_end c = max_end b /\ end_le (max_end a) (max_end b)).
Proof.
  intros Ha Hb. pose proof (cmp_max_ge a b Ha Hb) as Hge. pose proof (cmp_max_le a b Ha Hb) as Hle.
  pose proof Ha as (Ta & Fa & Ma). pose proof Hb as (_ & _ & Mb). unfold copy_max.
  destruct (Z.leb_spec (cmp_max_to_max sel_cmp a b) 0).
  - cbn [max_flag set_max]. rewrite full_range_max by done. split; [done |]. split; [done |]. split; [done |].
    right. split; [done |]. by apply Hle.
  - split; [done |]. split; [done |]. split; [done |]. left. split; [done |]. apply Hge. lia.
Qed.

(** ** Properties *)

(** C28: the operations on intervals are those on the sets of values in them:
    [clone_and] is the intersection, [clone_last] reaches to the other's end,
    [copy_min] and [copy_max] widen to the lower minimum and the higher maximum, for open, closed and infinite ends
    alike; where the other interval has an end on that side, [clone_first] and [copy_min_to_max] keep what lies below it
    and [copy_max_to_min] what lies above it; each result is an interval with proper flags. Where the other interval
    is infinite on that side these three do not give the empty set: they take the value that the infinite end happens to
    have for a strict end. *)
Theorem interval_algebra a b x : range_ok a -> range_ok b ->
  (range_ok (clone_and sel_cmp a b) /\ (contains (clone_and sel_cmp a b) x <-> contains a x /\ contains b x)) /\
  (range_ok (clone_last a b) /\ (contains (clone_last a b) x <-> above_min a x /\ below_max b x)) /\
  (min_flag b <> NO_MIN_RANGE ->
     range_ok (clone_first a b) /\ (contains (clone_first a b) x <-> above_min a x /\ ~ above_min b x) /\
     range_ok (copy_min_to_max a b) /\ (contains (copy_min_to_max a b) x <-> above_min a x /\ ~ above_min b x)) /\
  (max_flag b <> NO_MAX_RANGE ->
     range_ok (copy_max_to_min a b) /\ (contains (copy_max_to_min a b) x <-> below_max a x /\ ~ below_max b x)) /\
  (min_flag b = NO_MIN_RANGE -> (contains (clone_first a b) x <-> above_min a x /\ rank x < rank (min_value b)) /\
     (contains (copy_min_to_max a b) x <-> above_min a x /\ rank x < rank (min_value b))) /\
  (max_flag b = NO_MAX_RANGE -> (contains (copy_max_to_min a b) x <-> below_max a x /\ rank (max_value b) < rank x)) /\
  (let c := (copy_min sel_cmp a b).2 in range_ok c /\ (contains c x <-> (above_min a x \/ above_min b x) /\ below_max a x)) /\
  (let c := (copy_max sel_cmp a b).2 in range_ok c /\ (contains c x <-> above_min a x /\ (below_max a x \/ below_max b x))).
Proof.
  intros Ha Hb. pose proof Ha as (Ta & Fa & Ma). pose proof Hb as (_ & Fb & Mb).
  assert (Gb : max_flag_ok (if has (min_flag b) NEAR_MIN then 0 else NEAR_MAX)) by (destruct (has _ _); [by left | by right; right]).
  assert (Hb' : min_flag_ok (if has (max_flag b) NEAR_MAX then 0 else NEAR_MIN)) by (destruct (has (max_flag b) NEAR_MAX); [by left | by right; right]).
  refine (conj (clone_and_contains a b x Ha Hb) (conj (conj (conj eq_refl (conj Fa Mb)) _) (conj _ (conj _ (conj _ (conj _ (conj _ _))))))); [done | | | | | |].
  - intros Hn. pose proof (before_min b x Fb Hn) as E.
    refine (conj (conj eq_refl (conj Fa Gb)) (conj _ (conj (conj Ta (conj Fa Gb)) _))); by rewrite <- E.
  - intros Hn. refine (conj (conj Ta (conj Hb' Ma)) _). rewrite <- (after_max b x Mb Hn). unfold contains. tauto.
  - intros Hn. pose proof (before_no_min b x Hn) as E. split; by rewrite <- E.
  - intros Hn. rewrite <- (after_no_max b x Hn). unfold contains. tauto.
  - destruct (copy_min_min a b Ha Hb) as (_ & Hok & Hmax & Hmin). split; [exact Hok |].
    unfold contains, above_min, below_max in *. rewrite Hmax. destruct Hmin as [[-> Hm] | [-> Hm]]; unfold end_le in *; lia.
  - destruct (copy_max_max a b Ha Hb) as (_ & Hok & Hmin & Hmax). split; [exact Hok |].
    unfold contains, above_min, below_max in *. rewrite Hmin. destruct Hmax as [[-> Hm] | [-> Hm]]; unfold end_le in *; lia.
Qed.

(** Two intervals with the same ends. *)
Definition same_ends (a b : SEL_ARG) : Prop := min_end a = min_end b /\ max_end a = max_end b.

Lemma end_le_antisym p q : end_le p q -> end_le q p -> p = q.
Proof. destruct p, q. unfold end_le. simpl. intros. f_equal; lia. Qed.

Lemma is_same_ends a b : range_ok a -> range_ok b -> part a = part b -> is_same sel_cmp a b = true <-> same_ends a b.
Proof.
  intros Ha Hb Hp. pose proof (cmp_min_ge a b Ha Hb) as H1. pose proof (cmp_min_le a b Ha Hb) as H2.
  pose proof (cmp_max_ge a b Ha Hb) as H3. pose proof (cmp_max_le a b Ha Hb) as H4.
  destruct (Ha) as (Ta & _), (Hb) as (Tb & _). unfold is_same. rewrite !bool_decide_eq_true_2 by congruence.
  rewrite Hp, Z.eqb_refl. cbn [negb orb]. rewrite andb_true_iff, !Z.eqb_eq. unfold same_ends. split.
  - intros [E1 E2]. split; apply end_le_antisym; [apply H2 | apply H1 | apply H4 | apply H3]; lia.
  - intros [E1 E2]. rewrite E1 in H1, H2. rewrite E2 in H3, H4.
    split; apply Z.le_antisymm; [apply H2 | apply H1 | apply H4 | apply H3]; apply end_le_refl.
Qed.

(** [all_same] compares two trees by their lists of intervals: it is true
    exactly when they have the same number of intervals and those have the same
    ends, one by one; [is_singlepoint] is true exactly for a closed interval both
    of whose ends are the same value (NULL included), and then every value in it
    is that one. *)
Theorem range_equality key_cmp p a b l m : Forall (fun r => range_ok r /\ part r = p) (a :: b :: l ++ m) ->
  (forall v w, ub v 0 <> 0 -> ub w 0 <> 0 -> ub v 0 = ub w 0 -> maybe_null a = true -> rank v = rank w) ->
  (forall v w, ub v 0 = 0 -> ub w 0 = 0 -> maybe_null a = true -> key_cmp (drop 1 v) (drop 1 w) = 0 <-> rank v = rank w) ->
  (forall v w, ub v 0 <> ub w 0 -> maybe_null a = true -> rank v <> rank w) ->
  (forall v w, maybe_null a = false -> key_cmp v w = 0 <-> rank v = rank w) ->
  (all_same sel_cmp false a l b m = true <-> Forall2 same_ends l m) /\
  (is_singlepoint key_cmp a = true <-> min_flag a = 0 /\ max_flag a = 0 /\ rank (min_value a) = rank (max_value a)) /\
  (is_singlepoint key_cmp a = true -> forall x, contains a x <-> rank x = rank (min_value a)).
Proof.
  intros Hall Hnull Hval Hdiff Hnn. apply Forall_cons in Hall as [[Ha Pa] Hall]. apply Forall_cons in Hall as [[Hb Pb] Hall].
  apply Forall_app in Hall as [Hl Hm].
  assert (Hsp : is_singlepoint key_cmp a = true <-> min_flag a = 0 /\ max_flag a = 0 /\ rank (min_value a) = rank (max_value a)).
  { unfold is_singlepoint. destruct (Z.eqb_spec (min_flag a) 0), (Z.eqb_spec (max_flag a) 0); cbn [negb orb]; [| naive_solver ..].
    destruct (maybe_null a) eqn:N.
    - destruct (Z.eqb_spec (ub (min_value a) 0) (ub (max_value a) 0)) as [E |]; cbn [negb]; [| naive_solver].
      destruct (Z.eqb_spec (ub (min_value a) 0) 0) as [E0 | E0]; cbn [negb].
      + rewrite Z.eqb_eq, Hval by (congruence || done). naive_solver.
      + split; [intros _ | done]. split_and!; [done | done |]. apply Hnull; congruence.
    - rewrite Z.eqb_eq, Hnn by done. naive_solver. }
  refine (conj _ (conj Hsp _)).
  - destruct (Ha) as (Ta & _), (Hb) as (Tb & _). unfold all_same. rewrite !bool_decide_eq_true_2 by congruence.
    rewrite Pa, Pb, Z.eqb_refl. cbn [negb orb]. clear Hsp. revert m Hm. induction Hl as [| c l [Hc Pc] Hl IH]; intros [| d m] Hm; cbn [same_loop].
    + split; [by constructor | done].
    + split; [done | by inversion 1].
    + split; [done | by inversion 1].
    + apply Forall_cons in Hm as [[Hd Pd] Hm]. rewrite Forall2_cons. pose proof (is_same_ends c d Hc Hd) as Hs. rewrite Pc, Pd in Hs.
      specialize (Hs eq_refl). rewrite <- Hs, <- (IH m Hm). destruct (is_same sel_cmp c d); naive_solver.
  - intros (Em & EM & Er)%Hsp x. unfold contains, above_min, below_max, min_end, max_end. rewrite Em, EM. ends. rewrite Er. lia.
Qed.

(** [copy_min] and [copy_max] mean to return true when the interval has become
    the full range, but they look for both flags in [max_flag], which never holds
    the flag of a minimum: they always return false, also when the result
    contains every value. *)
Theorem copy_full_range_missed a b : range_ok a -> range_ok b ->
  (copy_min sel_cmp a b).1 = false /\ (copy_max sel_cmp a b).1 = false /\
  (max_flag a = NO_MAX_RANGE -> min_flag b = NO_MIN_RANGE -> forall x, contains (copy_min sel_cmp a b).2 x) /\
  (min_flag a = NO_MIN_RANGE -> max_flag b = NO_MAX_RANGE -> forall x, contains (copy_max sel_cmp a b).2 x).
Proof.
  intros Ha Hb. destruct (copy_min_min a b Ha Hb) as (-> & _ & Hmax & Hmin).
  destruct (copy_max_max a b Ha Hb) as (-> & _ & Hmin' & Hmax'). split_and!; [done | done | |].
  - intros Ea Eb x. unfold contains, above_min, below_max. rewrite Hmax. unfold max_end at 1. rewrite Ea.
    assert (Em : min_end b = (-1, 0)) by (unfold min_end; by rewrite Eb). rewrite Em in Hmin.
    split; [| ends; lia]. destruct Hmin as [[-> Hm] | [-> Hm]]; ends; lia.
  - intros Ea Eb x. unfold contains, above_min, below_max. rewrite Hmin'. unfold min_end at 1. rewrite Ea.
    assert (Em : max_end b = (1, 0)) by (unfold max_end; by rewrite Eb). rewrite Em in Hmax'.
    split; [ends; lia |]. destruct Hmax' as [[-> Hm] | [-> Hm]]; ends; lia.
Qed.
End compare.
End order.

(** ** The key of the lowest row *)

Section lower_bound.
(** The order of each key part, and its stored size. *)
Context (rank : Z -> bytes -> Z) (store_length : Z -> Z).

(** The stored values of a minimum: of the right size, and all NULLs of a part are equal. *)
Definition stored_ok (r : SEL_ARG) : Prop :=
  0 < store_length (part r) /\ Z.of_nat (length (min_value r)) = store_length (part r) /\
  (maybe_null r = true -> ub (min_value r) 0 <> 0 ->
   rank (part r) (1 :: replicate (Z.to_nat (store_length (part r) - 1)) 0) = rank (part r) (min_value r)).

(** What is needed of the trees the key is made from: the first interval is not
    empty and ends below all others. *)
Fixpoint tree_ok (t : key_tree) : Prop :=
  match t with
  | NoRanges ty _ => ty <> KEY_RANGE
  | Ranges p [] => False
  | Ranges p ((r, next_key_part) :: more) =>
      range_ok r /\ part r = p /\ stored_ok r /\ end_le (min_end (rank p) r) (max_end (rank p) r) /\
      Forall (fun r' => ~ end_le (min_end (rank p) r'.1) (max_end (rank p) r)) more /\
      match next_key_part with Some t' => tree_ok t' | None => True end
  end.

(** A row (the value of each key part) satisfies the condition of a tree. *)
Fixpoint matches (row : Z -> bytes) (t : key_tree) : Prop :=
  match t with
  | NoRanges _ _ => True
  | Ranges p rs =>
      (fix any (rs : list (SEL_ARG * option key_tree)) : Prop :=
        match rs with
        | [] => False
        | (r, next_key_part) :: rs =>
            contains (rank p) r (row p) /\ match next_key_part with Some t' => matches row t' | None => True end \/ any rs
        end) rs
  end.

(** The row is not below the key that starts at part [p]; not equal to it either when [strict]. *)
Fixpoint not_below (strict : bool) (images : list bytes) (p : Z) (row : Z -> bytes) : Prop :=
  match images with
  | [] => strict = false
  | v :: images => rank p v < rank p (row p) \/ rank p v = rank p (row p) /\ not_below strict images (p + 1) row
  end.

Lemma has_lor a b m : has (a ||| b) m = has a m || has b m.
Proof.
  unfold has. rewrite Z.land_lor_distr_l. destruct (Z.eqb_spec (a &&& m) 0) as [-> |], (Z.eqb_spec (b &&& m) 0) as [-> |];
    try done; apply negb_true_iff, Z.eqb_neq; intros [? ?]%Z.lor_eq_0_iff; done.
Qed.

Lemma has_join a : has a (NO_MIN_RANGE ||| NEAR_MIN) = has a NO_MIN_RANGE || has a NEAR_MIN.
Proof.
  unfold has. rewrite Z.land_lor_distr_r. destruct (Z.eqb_spec (a &&& NO_MIN_RANGE) 0) as [-> |], (Z.eqb_spec (a &&& NEAR_MIN) 0) as [-> |];
    try done; apply negb_true_iff, Z.eqb_neq; intros [? ?]%Z.lor_eq_0_iff; done.
Qed.

(** A row of the tree lies in its first interval or above it. *)
Lemma matches_first row p r nk more : Forall (fun r' => ~ end_le (min_end (rank p) r'.1) (max_end (rank p) r)) more ->
  matches row (Ranges p ((r, nk) :: more)) ->
  contains (rank p) r (row p) /\ match nk with Some t' => matches row t' | None => True end \/
  end_le (max_end (rank p) r) (point (rank p) (row p)) /\ ~ end_le (point (rank p) (row p)) (max_end (rank p) r).
Proof.
  intros Hm [H | H]; [by left | right]. induction Hm as [| [r' nk'] more Hr Hm IH]; [done |].
  destruct H as [[[H _] _] | H]; [| by apply IH]. unfold above_min in H. unfold end_le in *. cbn [fst] in *. lia.
Qed.

(** What [store_min] appends is an image of the minimum, whose rank bounds the rows. *)
Lemma store_min_image r flag bs : range_ok r -> stored_ok r -> store_min r (store_length (part r)) flag = Some bs ->
  min_flag r <> NO_MIN_RANGE /\ has flag (NO_MIN_RANGE ||| NEAR_MIN) = false /\
  Z.of_nat (length bs) = store_length (part r) /\ rank (part r) bs = rank (part r) (min_value r).
Proof.
  intros (_ & Fm & _) (Hpos & Hlen & Hnull). unfold store_min.
  assert (G : has (min_flag r) GEOM_FLAG = false) by (destruct Fm as [-> | [-> | ->]]; done). rewrite G. cbn [orb].
  destruct (has (min_flag r) NO_MIN_RANGE) eqn:E, (has flag _) eqn:F; try done. cbn [negb andb]. intros [= <-].
  split; [intros H; by rewrite H in E |]. split; [done |].
  destruct (maybe_null r && negb (ub (min_value r) 0 =? 0)) eqn:N.
  - apply andb_true_iff in N as [N1 N2%negb_true_iff%Z.eqb_neq]. split; [cbn [length]; rewrite length_replicate; lia | by apply Hnull].
  - rewrite take_ge by lia. done.
Qed.

(** The key that is stored. *)
Definition key_bound (t : key_tree) (n : Z) (bs : bytes) (flags : Z) (last_part : Z) : Prop :=
  exists images, bs = mjoin images /\ n = Z.of_nat (length images) /\
    (forall i v, images !! i = Some v -> Z.of_nat (length v) = store_length (tree_part t + Z.of_nat i)) /\
    (tree_part t <= last_part -> tree_part t + n <= last_part + 1) /\
    (forall row, matches row t -> not_below (has flags NEAR_MIN) images (tree_part t) row).

Lemma one_part p r nk more bs flag : tree_ok (Ranges p ((r, nk) :: more)) -> has flag (NO_MIN_RANGE ||| NEAR_MIN) = false ->
  store_min r (store_length (part r)) flag = Some bs -> forall row, matches row (Ranges p ((r, nk) :: more)) ->
  rank p bs < rank p (row p) \/ rank p bs = rank p (row p) /\ has (flag ||| min_flag r) NEAR_MIN = false /\
    match nk with Some t' => matches row t' | None => True end.
Proof.
  intros (Hr & Hp & Hs & Hne & Hm & _) Hf Hb row Hrow. subst p.
  destruct (store_min_image r flag bs Hr Hs Hb) as (Hn & _ & _ & ->).
  rewrite has_join in Hf. apply orb_false_elim in Hf as [_ Hf]. rewrite has_lor, Hf. cbn [orb].
  apply matches_first in Hrow; [| done]. destruct Hr as (_ & Fm & _).
  unfold contains, above_min in Hrow. unfold min_end in *.
  destruct Fm as [E | [E | E]]; rewrite E in *; [| done |]; ends; destruct Hrow as [[[Ha _] Hnk] | [H1 H2]]; try lia.
  destruct (Z.eq_dec (rank (part r) (min_value r)) (rank (part r) (row (part r)))); [right; by split_and! | left; lia].
Qed.

Lemma store_min_key_bound t : forall flag last_part, is_key_range t = true -> tree_ok t ->
  has flag (NO_MIN_RANGE ||| NEAR_MIN) = false ->
  exists n bs flags, store_min_key store_length t flag last_part = Some (n, bs, flags) /\ key_bound t n bs flags last_part.
Proof.
  revert t. fix IH 1. intros t flag last_part Hk Ht Hf. destruct t as [p [| [r nk] more] | ty p]; [done | | simpl in Hk; by apply bool_decide_eq_true in Hk].
  cbn [store_min_key]. pose proof Ht as (Hr & Hp & Hs & _ & _ & Hnk).
  destruct (store_min r (store_length (part r)) flag) as [bs |] eqn:Hb.
  2:{ do 3 eexists. split; [reflexivity |]. exists []. split_and!; try done; [cbn; lia |].
      intros row _. rewrite has_join in Hf. by apply orb_false_elim in Hf as [_ Hf]. }
  pose proof (one_part p r nk more bs flag Ht Hf Hb) as Hone. destruct (store_min_image r flag bs Hr Hs Hb) as (_ & _ & Hlen & _).
  assert (Hstop : forall lp, key_bound (Ranges p ((r, nk) :: more)) 1 bs (flag ||| min_flag r) lp).
  { intros lp. exists [bs]. split_and!; try done; [cbn; by rewrite app_nil_r | | cbn; lia |].
    - intros [| i] v; [| done]. intros [= <-]. rewrite Z.add_0_r. cbn [tree_part]. by rewrite <- Hp.
    - intros row Hrow. cbn [not_below tree_part]. specialize (Hone row Hrow). tauto. }
  destruct nk as [t' |]; [| do 3 eexists; split; [reflexivity | apply Hstop]].
  destruct (is_key_range t' && negb (part r =? last_part) && (tree_part t' =? part r + 1) &&
    negb (has (flag ||| min_flag r) (NO_MIN_RANGE ||| NEAR_MIN))) eqn:C; [| do 3 eexists; split; [reflexivity | apply Hstop]].
  apply andb_true_iff in C as [[[C1 C2%negb_true_iff%Z.eqb_neq]%andb_true_iff C3%Z.eqb_eq]%andb_true_iff C4%negb_true_iff].
  destruct (IH t' (flag ||| min_flag r) last_part C1 Hnk C4) as (n & bs' & flags & -> & images & -> & -> & Hl & Hlast & Hb').
  do 3 eexists. split; [reflexivity |]. exists (bs :: images). cbn [tree_part] in *. rewrite C3, Hp in *. split_and!.
  - done.
  - cbn [length]. lia.
  - intros [| i] v; cbn [lookup list_lookup]; [intros [= <-]; by rewrite Z.add_0_r | intros Hi; rewrite (Hl i v Hi); f_equal; lia].
  - lia.
  - intros row Hrow. cbn [not_below]. destruct (Hone row Hrow) as [H | (H & _ & Hm)]; [by left |]. right. split; [done |]. by apply Hb'.
Qed.

(** C29: the key that [store_min_key] builds from the first interval of each key
    part exists, is a sequence of key images of the stored sizes that never goes
    past [last_part], and is a lower bound: a row that satisfies the intervals of
    all key parts is not below it in the lexicographic order of the parts, and is
    strictly above it when the flags say that the bound is open. *)
Theorem store_min_key_lower_bound t last_part : is_key_range t = true -> tree_ok t ->
  exists n bs flags, store_min_key store_length t 0 last_part = Some (n, bs, flags) /\
    exists images, bs = mjoin images /\ n = Z.of_nat (length images) /\
      (forall i v, images !! i = Some v -> Z.of_nat (length v) = store_length (tree_part t + Z.of_nat i)) /\
      (tree_part t <= last_part -> tree_part t + n <= last_part + 1) /\
      (forall row, matches row t -> not_below (has flags NEAR_MIN) images (tree_part t) row).
Proof. intros Hk Ht. by apply store_min_key_bound. Qed.
End lower_bound.

(** ** Examples *)

(** An order on one-byte values, and the comparison of ends that it gives. *)
Definition demo_rank (v : bytes) : Z := ub v 0.
Definition demo_sel_cmp (a b : bytes) (fa fb : Z) : Z :=
  let p := end_of demo_rank a fa in let q := end_of demo_rank b fb in
  if (p.1 <? q.1) || ((p.1 =? q.1) && (p.2 <? q.2)) then -1
  else if (p.1 =? q.1) && (p.2 =? q.2) then 0 else 1.

#[export] Instance demo_order : EndOrder demo_sel_cmp demo_rank.
Proof.
  split; intros a b fa fb _ _; unfold demo_sel_cmp, end_le; generalize (end_of demo_rank a fa), (end_of demo_rank b fb);
    intros [p1 p2] [q1 q2]; cbn [fst snd];
    destruct (Z.ltb_spec p1 q1), (Z.eqb_spec p1 q1), (Z.ltb_spec p2 q2), (Z.eqb_spec p2 q2); cbn [orb andb]; lia.
Defined.

(** [3 <= x < 7], and [5 < x]. *)
Definition demo_range : SEL_ARG := SelArg KEY_RANGE 0 NEAR_MAX 0 0 false [3] [7].
Definition demo_above : SEL_ARG := SelArg KEY_RANGE NEAR_MIN NO_MAX_RANGE 0 0 false [5] [].

Lemma demo_ranges_ok : range_ok demo_range /\ range_ok demo_above.
Proof. split; (split; [reflexivity |]); (split; [(left; reflexivity) || (right; right; reflexivity) | (right; right; reflexivity) || (right; left; reflexivity)]). Qed.

Lemma interval_algebra_witness : contains demo_rank (clone_and demo_sel_cmp demo_range demo_above) [6].
Proof.
  destruct (interval_algebra demo_rank demo_sel_cmp demo_range demo_above [6]) as [[_ H] _]; [apply demo_ranges_ok | apply demo_ranges_ok |].
  apply H. split; split;
    first [left; reflexivity | right; split; [reflexivity | vm_compute; discriminate]].
Defined.

(** [5 < x] and [x < 7]. *)
Definition demo_below : SEL_ARG := SelArg KEY_RANGE NO_MIN_RANGE NEAR_MAX 0 0 false [] [7].

Lemma copy_full_range_missed_witness :
  (copy_min demo_sel_cmp demo_above demo_below).1 = false /\ contains demo_rank (copy_min demo_sel_cmp demo_above demo_below).2 [0].
Proof.
  destruct (copy_full_range_missed demo_rank demo_sel_cmp demo_above demo_below) as (H1 & _ & H2 & _).
  - apply demo_ranges_ok.
  - split; [reflexivity |]. split; [right; left; reflexivity | right; right; reflexivity].
  - split; [exact H1 | apply H2; reflexivity].
Defined.

Lemma range_equality_witness :
  all_same demo_sel_cmp false demo_range [demo_range; demo_above] demo_range [demo_range; demo_above] = true.
Proof.
  apply (range_equality demo_rank demo_sel_cmp (fun v w => ub v 0 - ub w 0) 0 demo_range demo_range [demo_range; demo_above] [demo_range; demo_above]).
  - repeat (apply Forall_cons_2; [split; [apply demo_ranges_ok | reflexivity] |]). apply Forall_nil_2.
  - discriminate.
  - discriminate.
  - discriminate.
  - intros v w _. unfold demo_rank. split; intros H; lia.
  - repeat constructor.
Defined.

(** [k1 > 2 or k1 = 2] in the first part, and [k2 > 5] for the second when [k1] is 2. *)
Definition demo_tree : key_tree :=
  Ranges 0 [(SelArg KEY_RANGE 0 0 0 0 false [2] [2], Some (Ranges 1 [(SelArg KEY_RANGE NEAR_MIN NO_MAX_RANGE 0 1 false [5] [], None)]));
            (SelArg KEY_RANGE NEAR_MIN NO_MAX_RANGE 0 0 false [2] [], None)].

Lemma store_min_key_lower_bound_witness :
  store_min_key (fun _ => 1) demo_tree 0 64 = Some (2, [2; 5], 4) /\
  exists n bs flags, store_min_key (fun _ => 1) demo_tree 0 64 = Some (n, bs, flags).
Proof.
  split; [reflexivity |].
  destruct (store_min_key_lower_bound (fun _ => demo_rank) (fun _ => 1) demo_tree 64) as (n & bs & flags & H & _).
  - reflexivity.
  - assert (Hin : forall r, maybe_null r = false -> length (min_value r) = 1%nat -> stored_ok (fun _ => demo_rank) (fun _ => 1) r).
    { intros r Hn Hl. split; [reflexivity |]. split; [rewrite Hl; reflexivity | congruence]. }
    cbn [tree_ok demo_tree]. split_and!; try reflexivity; try (apply Hin; reflexivity); try (left; reflexivity); try (right; left; reflexivity);
      try apply Forall_nil_2;
      try (split; [reflexivity |]; split; first [left; reflexivity | right; left; reflexivity | right; right; reflexivity]).
    + right. split; [reflexivity | vm_compute; discriminate].
    + apply Forall_cons_2; [| apply Forall_nil_2]. intros [H | [_ H]]; [discriminate | revert H; vm_compute; congruence].
  - exists n, bs, flags. exact H.
Defined.
