(* ===== verification/MemRootArray.v ===== *)
(** * MemRootArray: the growing array of [mem_root_array.h]

    A memory root is the list of the buffers it has given out (nothing is ever
    returned to it); a buffer is a list of slots, each holding a constructed
    object or raw storage.  Reading or destroying what is not constructed, and
    constructing outside a buffer, have no result; so has a failing assertion.
    An operation takes the root and gives the array and the root after it.

    An element passed by reference may live in the array itself, so an argument
    is a value or a slot.  [ok] is the outcome of [alloc_root] where it is
    called. *)

From stdpp Require Import base numbers list.
From Stdlib Require Import ZArith Lia.
From S2P Require Import Prelude.

Local Open Scope Z_scope.

Section mem_root_array.
Context {Element_type : Type} (element_size : Z) (has_trivial_destructor : bool).
Implicit Types (e : Element_type) (l : list Element_type).

Abbreviation buffer := (list (option Element_type)).
Abbreviation mem_root := (list (list (option Element_type))).

(** ** Objects in buffers *)

Inductive value_ref := Value (e : Element_type) | Slot (b i : nat).

Definition slot_read (root : mem_root) (b i : nat) : option Element_type := buf ← root !! b; s ← buf !! i; s.
Definition read_ref (root : mem_root) (r : value_ref) : option Element_type :=
  match r with Value e => Some e | Slot b i => slot_read root b i end.

Definition slot_write (root : mem_root) (b i : nat) (s : option Element_type) : option mem_root :=
  buf ← root !! b; if (i <? length buf)%nat then Some (<[b := <[i := s]> buf]> root) else None.
(** Placement [new] and the destructor call. *)
Definition construct (root : mem_root) (b i : nat) (e : Element_type) : option mem_root := slot_write root b i (Some e).
Definition destroy (root : mem_root) (b i : nat) : option mem_root := _ ← slot_read root b i; slot_write root b i None.

(** [alloc_root]; no request of half the address space or more succeeds. *)
Definition alloc_root (root : mem_root) (bytes : Z) (ok : bool) : option (nat * mem_root) :=
  if ok && (bytes <? 2 ^ 63) then Some (length root, root ++ [replicate (Z.to_nat (bytes / element_size)) None]) else None.

(** ** The class *)

(* [mem_root_array.h:235-237 Mem_root_array] *)
Record Mem_root_array := Arr { m_array : option nat; m_size : Z; m_capacity : Z }.

(* [mem_root_array.h:53-57 Mem_root_array] *)
Definition mem_root_array : Mem_root_array := Arr None 0 0.

(* [mem_root_array.h:230-230 size] *)
Definition size_ (this : Mem_root_array) : Z := m_size this.
(* [mem_root_array.h:229-229 empty] *)
Definition empty_ (this : Mem_root_array) : bool := size_ this =? 0.
(* [mem_root_array.h:227-227 capacity] *)
Definition capacity (this : Mem_root_array) : Z := m_capacity this.

(** A reference to an element is its slot. *)
(* [mem_root_array.h:70-74 at] *)
Definition at_ (this : Mem_root_array) (n : Z) : option (nat * nat) :=
  if n <? size_ this then b ← m_array this; Some (b, Z.to_nat n) else None.
(* [mem_root_array.h:85-85 back] *)
Definition back (this : Mem_root_array) : option (nat * nat) := at_ this (u64 (size_ this - 1)).
(** Reading and assigning through the reference. *)
(* [mem_root_array.h:83-83 operator[]] *)
Definition get (this : Mem_root_array) (root : mem_root) (n : Z) : option Element_type :=
  p ← at_ this n; slot_read root p.1 p.2.
(* [mem_root_array.h:82-82 operator[]] *)
Definition set_ (this : Mem_root_array) (root : mem_root) (n : Z) (e : Element_type) : option mem_root :=
  p ← at_ this n; _ ← slot_read root p.1 p.2; slot_write root p.1 p.2 (Some e).

Fixpoint destroy_loop (this : Mem_root_array) (root : mem_root) (ix k : nat) : option mem_root :=
  match k with
  | O => Some root
  | S k => b ← m_array this; root ← destroy root b ix; destroy_loop this root (S ix) k
  end.

(* [mem_root_array.h:107-119 chop] *)
Definition chop (this : Mem_root_array) (root : mem_root) (pos : Z) : option (Mem_root_array * mem_root) :=
  if pos <? m_size this then
    root ← (if has_trivial_destructor then Some root else destroy_loop this root (Z.to_nat pos) (Z.to_nat (m_size this - pos)));
    Some (Arr (m_array this) pos (m_capacity this), root)
  else None.

(* [mem_root_array.h:97-101 clear] *)
Definition clear (this : Mem_root_array) (root : mem_root) : option (Mem_root_array * mem_root) :=
  if negb (empty_ this) then chop this root 0 else Some (this, root).

Fixpoint copy_loop (old : option nat) (new : nat) (root : mem_root) (ix k : nat) : option mem_root :=
  match k with
  | O => Some root
  | S k =>
      b ← old;
      e ← slot_read root b ix;
      root ← construct root new ix e;
      root ← (if has_trivial_destructor then Some root else destroy root b ix);
      copy_loop old new root (S ix) k
  end.

(** [true] is out-of-memory. *)
(* [mem_root_array.h:128-152 reserve] *)
Definition reserve (this : Mem_root_array) (root : mem_root) (n : Z) (ok : bool) : option (bool * Mem_root_array * mem_root) :=
  if n <=? m_capacity this then Some (false, this, root) else
  match alloc_root root (u64 (n * element_size)) ok with
  | None => Some (true, this, root)
  | Some (array, root) =>
      root ← copy_loop (m_array this) array root 0 (Z.to_nat (m_size this));
      Some (false, Arr (Some array) (m_size this) n, root)
  end.

(* [mem_root_array.h:162-173 push_back] *)
Definition push_back (this : Mem_root_array) (root : mem_root) (element : value_ref) (ok : bool)
    : option (bool * Mem_root_array * mem_root) :=
  '(err, this, root) ← (if m_capacity this =? 0 then reserve this root 20 ok else Some (false, this, root));
  if (err : bool) then Some (true, this, root) else
  '(err, this, root) ← (if m_size this =? m_capacity this then reserve this root (u64 (m_capacity this * 2)) ok
                        else Some (false, this, root));
  if (err : bool) then Some (true, this, root) else
  b ← m_array this;
  e ← read_ref root element;
  root ← construct root b (Z.to_nat (m_size this)) e;
  Some (false, Arr (m_array this) (u64 (m_size this + 1)) (m_capacity this), root).

(* [mem_root_array.h:179-185 pop_back] *)
Definition pop_back (this : Mem_root_array) (root : mem_root) : option (Mem_root_array * mem_root) :=
  if empty_ this then None else
  root ← (if has_trivial_destructor then Some root else p ← back this; destroy root p.1 p.2);
  Some (Arr (m_array this) (u64 (m_size this - 1)) (m_capacity this), root).

Fixpoint push_loop (fuel : nat) (n : Z) (this : Mem_root_array) (root : mem_root) (val : value_ref) (ok : bool)
    : option (Mem_root_array * mem_root) :=
  if n =? m_size this then Some (this, root) else
  match fuel with
  | O => None
  | S fuel => '(_, this, root) ← push_back this root val ok; push_loop fuel n this root val ok
  end.

Fixpoint pop_loop (fuel : nat) (n : Z) (this : Mem_root_array) (root : mem_root) : option (Mem_root_array * mem_root) :=
  if n =? m_size this then Some (this, root) else
  match fuel with
  | O => None
  | S fuel => '(this, root) ← pop_back this root; pop_loop fuel n this root
  end.

(** A failure to reserve is not reported. *)
(* [mem_root_array.h:206-225 resize] *)
Definition resize (fuel : nat) (this : Mem_root_array) (root : mem_root) (n : Z) (val : value_ref) (ok : bool)
    : option (Mem_root_array * mem_root) :=
  if n =? m_size this then Some (this, root) else
  if m_size this <? n then
    '(err, this, root) ← reserve this root n ok;
    if negb (err : bool) then push_loop fuel n this root val ok else Some (this, root)
  else
    '(this, root) ← (if has_trivial_destructor then Some (this, root) else pop_loop fuel n this root);
    Some (Arr (m_array this) n (m_capacity this), root).

(* [mem_root_array.h:59-63 Mem_root_array] *)
Definition mem_root_array_n (fuel : nat) (root : mem_root) (n : Z) (val : value_ref) (ok : bool) : option (Mem_root_array * mem_root) :=
  resize fuel (Arr None 0 0) root n val ok.
(* [mem_root_array.h:65-68 ~Mem_root_array] *)
Definition destructor (this : Mem_root_array) (root : mem_root) : option (Mem_root_array * mem_root) := clear this root.

(** ** The representation *)

Hypothesis element_size_range : 0 < element_size < 2 ^ 32.

Definition dead (buf : buffer) : Prop := has_trivial_destructor = false -> Forall (fun s => s = None) buf.

(** The buffer holds the elements [l]; when destructors matter, nothing else. *)
Record buffer_holds (buf : buffer) (cap : Z) (l : list Element_type) : Prop := {
  holds_cap : Z.of_nat (length buf) = cap;
  holds_list : take (length l) buf = Some <$> l;
  holds_rest : dead (drop (length l) buf) }.

Record array_ok (this : Mem_root_array) (root : mem_root) (l : list Element_type) : Prop := {
  ok_size : m_size this = Z.of_nat (length l);
  ok_fits : Z.of_nat (length l) <= m_capacity this;
  ok_bytes : m_capacity this * element_size < 2 ^ 63;
  ok_buf : match m_array this with
           | None => m_capacity this = 0
           | Some b => exists buf, root !! b = Some buf /\ buffer_holds buf (m_capacity this) l
           end }.

(** From [this] to [this']: buffers of others are as they were, and what the
    array left behind is dead. *)
Definition framed (this : Mem_root_array) (root : mem_root) (this' : Mem_root_array) (root' : mem_root) : Prop :=
  (m_array this' = m_array this \/ exists b, m_array this' = Some b /\ (length root <= b)%nat) /\
  (length root <= length root')%nat /\
  (forall b, (b < length root)%nat -> Some b <> m_array this -> root' !! b = root !! b) /\
  (forall b buf, root' !! b = Some buf -> Some b <> m_array this' -> (length root <= b)%nat \/ Some b = m_array this -> dead buf).

(** ** Slots *)

Lemma slot_read_eq root b buf i : root !! b = Some buf -> slot_read root b i = buf !! i ≫= id.
Proof. intros Hb. unfold slot_read. by rewrite Hb. Qed.

Lemma slot_write_eq root b buf i s : root !! b = Some buf -> (i < length buf)%nat ->
  slot_write root b i s = Some (<[b := <[i := s]> buf]> root).
Proof. intros Hb Hi. unfold slot_write. rewrite Hb. cbn [mbind option_bind]. destruct (Nat.ltb_spec i (length buf)); [done | lia]. Qed.

Lemma destroy_eq root b buf i e : root !! b = Some buf -> buf !! i = Some (Some e) ->
  destroy root b i = Some (<[b := <[i := None]> buf]> root).
Proof.
  intros Hb Hi. unfold destroy. rewrite (slot_read_eq _ _ _ _ Hb), Hi. cbn [mbind option_bind id].
  apply slot_write_eq; [done | by eapply lookup_lt_Some].
Qed.

Lemma holds_lookup buf cap l i e : buffer_holds buf cap l -> l !! i = Some e -> buf !! i = Some (Some e).
Proof.
  intros [_ Ht _] Hi. assert (Hl : (Some <$> l) !! i = Some (Some e)) by (by rewrite list_lookup_fmap, Hi).
  rewrite <- Ht in Hl. apply lookup_take_Some in Hl. tauto.
Qed.

Lemma dead_app b1 b2 : dead b1 -> dead b2 -> dead (b1 ++ b2).
Proof. intros H1 H2 Ht. apply Forall_app. auto. Qed.
Lemma dead_replicate n : dead (replicate n None).
Proof. intros _. by apply Forall_replicate. Qed.
Lemma dead_nil : dead [].
Proof. intros _. apply Forall_nil_2. Qed.

(** A buffer that holds [l], as a concatenation. *)
Lemma holds_split buf cap l : buffer_holds buf cap l <->
  exists rest, buf = (Some <$> l) ++ rest /\ dead rest /\ Z.of_nat (length buf) = cap.
Proof.
  split.
  - intros [Hc Ht Hd]. exists (drop (length l) buf). split_and!; [by rewrite <- Ht, take_drop | done | done].
  - intros (rest & -> & Hd & Hc). split; [done | |].
    + apply take_app_length'. by rewrite length_fmap.
    + by rewrite drop_app_length' by (by rewrite length_fmap).
Qed.

(** The state of a copied or destroyed object's slot. *)
Definition left_behind (l : list Element_type) : buffer :=
  if has_trivial_destructor then Some <$> l else replicate (length l) None.

Lemma left_behind_cons e l : left_behind (e :: l) = (if has_trivial_destructor then Some e else None) :: left_behind l.
Proof. unfold left_behind. by destruct has_trivial_destructor. Qed.

Lemma dead_left_behind l : dead (left_behind l).
Proof. intros H. unfold left_behind. rewrite H. by apply Forall_replicate. Qed.

Lemma copy_elements_ok l2 : forall root b nb d1 rest l1 k, b <> nb ->
  root !! b = Some (d1 ++ (Some <$> l2) ++ rest) -> root !! nb = Some ((Some <$> l1) ++ replicate k None) ->
  length d1 = length l1 -> (length l2 <= k)%nat ->
  exists root', copy_loop (Some b) nb root (length l1) (length l2) = Some root' /\
    root' !! b = Some (d1 ++ left_behind l2 ++ rest) /\
    root' !! nb = Some ((Some <$> (l1 ++ l2)) ++ replicate (k - length l2) None) /\
    length root' = length root /\ (forall x, x <> b -> x <> nb -> root' !! x = root !! x).
Proof.
  induction l2 as [| e l2 IH]; intros root b nb d1 rest l1 k Hne Hb Hnb Hd Hk.
  { exists root. unfold left_behind. rewrite app_nil_r, Nat.sub_0_r. cbn. destruct has_trivial_destructor; by split_and!. }
  cbn [length copy_loop mbind option_bind fmap list_fmap app] in *. rewrite (slot_read_eq _ _ _ _ Hb), <- Hd, lookup_app_r by lia.
  rewrite Nat.sub_diag. cbn [lookup list_lookup mbind option_bind id]. unfold construct. rewrite (slot_write_eq _ _ _ _ _ Hnb) by (rewrite length_app, length_fmap, length_replicate; lia).
  cbn [mbind option_bind]. destruct k as [| k]; [lia |]. rewrite Hd, (insert_app_r_alt (Some <$> l1)) by (rewrite length_fmap; lia).
  rewrite length_fmap, Nat.sub_diag. cbn [replicate insert list_insert].
  set (r1 := <[nb := _]> root).
  assert (Hb1 : r1 !! b = Some (d1 ++ Some e :: (Some <$> l2) ++ rest)) by (unfold r1; by rewrite list_lookup_insert_ne).
  assert (H2 : exists r2, (if has_trivial_destructor then Some r1 else destroy r1 b (length l1)) = Some r2 /\
    r2 !! b = Some ((d1 ++ [if has_trivial_destructor then Some e else None]) ++ (Some <$> l2) ++ rest) /\
    length r2 = length root /\ forall x, x <> b -> r2 !! x = r1 !! x).
  { destruct has_trivial_destructor.
    - exists r1. split_and!; [done | by rewrite <- app_assoc | by unfold r1; rewrite length_insert | done].
    - erewrite destroy_eq; [| exact Hb1 | rewrite lookup_app_r by lia; by rewrite Hd, Nat.sub_diag].
      eexists. split; [reflexivity |]. split_and!.
      + rewrite list_lookup_insert_eq by (by eapply lookup_lt_Some). rewrite insert_app_r_alt, Hd, Nat.sub_diag by lia.
        cbn [insert list_insert]. by rewrite <- app_assoc.
      + unfold r1. by rewrite !length_insert.
      + intros x Hx. by rewrite list_lookup_insert_ne. }
  destruct H2 as (r2 & -> & Hb2 & Hlen2 & Hx2). cbn [mbind option_bind].
  destruct (IH r2 b nb _ rest (l1 ++ [e]) k Hne Hb2) as (r3 & Hr3 & Hb3 & Hnb3 & Hlen3 & Hx3).
  - rewrite Hx2 by done. unfold r1. rewrite list_lookup_insert_eq by (by eapply lookup_lt_Some). by rewrite fmap_app, <- app_assoc.
  - rewrite !length_app. cbn. lia.
  - lia.
  - exists r3. rewrite length_app in Hr3. cbn [length] in Hr3. rewrite Nat.add_1_r in Hr3.
    split_and!; [done | by rewrite Hb3, left_behind_cons, <- app_assoc | by rewrite Hnb3, <- app_assoc | lia |].
    intros x Hxb Hxn. rewrite Hx3, Hx2 by done. unfold r1. by rewrite list_lookup_insert_ne.
Qed.

Lemma destroy_elements_ok l2 : forall this root b d1 rest, m_array this = Some b -> root !! b = Some (d1 ++ (Some <$> l2) ++ rest) ->
  exists root', destroy_loop this root (length d1) (length l2) = Some root' /\
    root' !! b = Some (d1 ++ replicate (length l2) None ++ rest) /\
    length root' = length root /\ (forall x, x <> b -> root' !! x = root !! x).
Proof.
  induction l2 as [| e l2 IH]; intros this root b d1 rest Ha Hb; [by exists root |].
  cbn [length destroy_loop]. rewrite Ha. cbn [mbind option_bind].
  erewrite destroy_eq; [| exact Hb | rewrite lookup_app_r by lia; by rewrite Nat.sub_diag]. cbn [mbind option_bind].
  destruct (IH this (<[b := <[length d1 := None]> (d1 ++ (Some <$> e :: l2) ++ rest)]> root) b (d1 ++ [None]) rest Ha) as (r & Hr & Hb' & Hl & Hx).
  - rewrite list_lookup_insert_eq by (by eapply lookup_lt_Some). rewrite insert_app_r_alt, Nat.sub_diag by lia. cbn. by rewrite <- app_assoc.
  - rewrite length_app in Hr. cbn [length] in Hr. rewrite Nat.add_1_r in Hr. exists r. split_and!; [done | by rewrite Hb', <- app_assoc | |].
    + by rewrite Hl, length_insert.
    + intros x Hne. rewrite Hx by done. by rewrite list_lookup_insert_ne.
Qed.

(** ** Frames *)

Lemma framed_refl this root : framed this root this root.
Proof.
  split_and!; [by left | done | done |]. intros b buf Hb Hne [H | H]; [| by destruct Hne].
  apply lookup_lt_Some in Hb. lia.
Qed.

Lemma framed_trans this root this1 root1 this2 root2 :
  framed this root this1 root1 -> framed this1 root1 this2 root2 -> framed this root this2 root2.
Proof.
  intros (Ha1 & Hl1 & Hs1 & Hd1) (Ha2 & Hl2 & Hs2 & Hd2). split_and!.
  - destruct Ha2 as [-> | (b & -> & Hb)]; [done |]. right. exists b. split; [done | lia].
  - lia.
  - intros b Hb Hne. rewrite Hs2, Hs1; [done | done | done | lia |]. destruct Ha1 as [-> | (c & -> & Hc)]; [done |]. intros [= ->]. lia.
  - intros b buf Hb Hne Hor. destruct (decide (length root1 <= b)%nat); [by eapply Hd2; [| | left] |].
    destruct (decide (Some b = m_array this1)); [by eapply Hd2; [| | right] |].
    rewrite Hs2 in Hb by (done || lia). by eapply Hd1.
Qed.

(** Only the array's own buffer changed. *)
Lemma framed_same this this' root root' : m_array this' = m_array this -> length root' = length root ->
  (forall b, Some b <> m_array this -> root' !! b = root !! b) -> framed this root this' root'.
Proof.
  intros Ha Hl Hs. split_and!; [by left | lia | by intros; apply Hs |]. intros b buf Hb Hne [H | H].
  - apply lookup_lt_Some in Hb. lia.
  - congruence.
Qed.

Lemma array_ok_buf this root l b : array_ok this root l -> m_array this = Some b ->
  exists rest, root !! b = Some ((Some <$> l) ++ rest) /\ dead rest /\ Z.of_nat (length ((Some <$> l) ++ rest)) = m_capacity this.
Proof.
  intros [_ _ _ Hb] Ha. rewrite Ha in Hb. destruct Hb as (buf & Hr & Hh). apply holds_split in Hh as (rest & -> & Hd & Hc). by exists rest.
Qed.

Lemma array_ok_intro this root l b rest : m_array this = Some b -> root !! b = Some ((Some <$> l) ++ rest) -> dead rest ->
  Z.of_nat (length ((Some <$> l) ++ rest)) = m_capacity this -> m_capacity this * element_size < 2 ^ 63 ->
  m_size this = Z.of_nat (length l) -> array_ok this root l.
Proof.
  intros Ha Hr Hd Hc Hs Hl. split; [done | | done |].
  - rewrite <- Hc, length_app, length_fmap. lia.
  - rewrite Ha. eexists. split; [done |]. apply holds_split. by exists rest.
Qed.

Lemma capacity_bound this root l : array_ok this root l -> 0 <= m_size this <= m_capacity this /\ m_capacity this < 2 ^ 63.
Proof. intros [Hs Hf Hb _]. split; [lia |]. nia. Qed.

(** ** Each operation *)

Lemma reserve_ok this root l n ok : array_ok this root l -> 0 <= n -> n * element_size < 2 ^ 64 ->
  exists err this' root', reserve this root n ok = Some (err, this', root') /\ array_ok this' root' l /\ framed this root this' root' /\
    (if (err : bool) then this' = this /\ root' = root /\ (ok = false \/ 2 ^ 63 <= n * element_size)
     else n <= m_capacity this' /\ (m_capacity this < n -> exists b, m_array this' = Some b /\ (length root <= b)%nat)).
Proof.
  intros Hok Hn0 Hn. unfold reserve. destruct (Z.leb_spec n (m_capacity this)).
  { exists false, this, root. split_and!; [done | done | apply framed_refl | lia ..]. }
  destruct (capacity_bound _ _ _ Hok) as [Hsz _].
  rewrite u64_small by nia. unfold alloc_root. destruct ok; cbn [andb].
  2: { exists true, this, root. split_and!; [done | done | apply framed_refl | by auto ..]. }
  destruct (Z.ltb_spec (n * element_size) (2 ^ 63)).
  2: { exists true, this, root. split_and!; [done | done | apply framed_refl | by auto ..]. }
  rewrite Z.div_mul by lia. pose proof (ok_size _ _ _ Hok) as Hl. rewrite Hl, Nat2Z.id.
  set (r0 := root ++ [replicate (Z.to_nat n) None]).
  assert (Hnew : r0 !! length root = Some (replicate (Z.to_nat n) None)) by (unfold r0; rewrite lookup_app_r, Nat.sub_diag by lia; done).
  assert (Hcap : forall k : nat, (k <= Z.to_nat n)%nat -> Z.of_nat (length ((Some <$> l) ++ replicate (Z.to_nat n - length l) (@None Element_type))) = n).
  { intros _ _. rewrite length_app, length_fmap, length_replicate. lia. }
  destruct (m_array this) as [b |] eqn:Ha.
  - destruct (array_ok_buf _ _ _ _ Hok Ha) as (rest & Hb & Hd & Hc). pose proof (lookup_lt_Some _ _ _ Hb) as Hlt.
    pose proof (copy_elements_ok l r0 b (length root) [] rest [] (Z.to_nat n)) as Hcopy. cbn [length app fmap list_fmap] in Hcopy.
    destruct Hcopy as (r1 & -> & Hb1 & Hn1 & Hlen1 & Hx1); [lia | by unfold r0; rewrite lookup_app_l | done | done | lia |].
    cbn [mbind option_bind]. do 3 eexists. split; [reflexivity |]. split_and!; [| | cbn; lia | intros _; by eexists].
    + eapply array_ok_intro; [reflexivity | exact Hn1 | apply dead_replicate | by apply Hcap with (k := 0%nat); lia | done | done].
    + unfold r0 in *. rewrite length_app in Hlen1. cbn in Hlen1. split_and!; [right; eexists; by split | lia | |].
      * intros x Hx Hne. rewrite Ha in Hne. rewrite Hx1 by (congruence || lia). by rewrite lookup_app_l.
      * intros x buf Hx Hne Hor. rewrite Ha in Hor. destruct Hor as [Hge | [= ->]].
        -- apply lookup_lt_Some in Hx as Hlt'. destruct Hne. cbn. f_equal. lia.
        -- rewrite Hb1 in Hx. injection Hx as <-. apply dead_app; [apply dead_left_behind | done].
  - pose proof (ok_buf _ _ _ Hok) as Hb. rewrite Ha in Hb. assert (l = []) as -> by (destruct l; [done |]; cbn in Hl; lia).
    cbn [length copy_loop mbind option_bind]. do 3 eexists. split; [reflexivity |]. split_and!; [| | cbn; lia | intros _; by eexists].
    + eapply array_ok_intro with (rest := replicate (Z.to_nat n) None); [reflexivity | exact Hnew | apply dead_replicate | | done | done].
      cbn. rewrite length_replicate. lia.
    + unfold r0. split_and!; [right; eexists; by split | rewrite length_app; lia | |].
      * intros x Hx _. by rewrite lookup_app_l.
      * intros x buf Hx Hne Hor. rewrite Ha in Hor. destruct Hor as [Hge | [=]].
        apply lookup_lt_Some in Hx as Hlt'. rewrite length_app in Hlt'. cbn in Hlt'. destruct Hne. cbn. f_equal. lia.
Qed.

(** Constructing behind the last element. *)
Lemma push_room this root l e b : array_ok this root l -> m_array this = Some b -> m_size this < m_capacity this ->
  exists root', construct root b (Z.to_nat (m_size this)) e = Some root' /\
    let this' := Arr (m_array this) (u64 (m_size this + 1)) (m_capacity this) in
    array_ok this' root' (l ++ [e]) /\ framed this root this' root'.
Proof.
  intros Hok Ha Hroom. destruct (array_ok_buf _ _ _ _ Hok Ha) as (rest & Hb & Hd & Hc). pose proof (ok_size _ _ _ Hok) as Hs.
  destruct (capacity_bound _ _ _ Hok) as [Hsz Hcb].
  unfold construct. rewrite Hs, Nat2Z.id. pose proof (lookup_lt_Some _ _ _ Hb) as Hlt. rewrite length_app, length_fmap in Hc.
  rewrite (slot_write_eq _ _ _ _ _ Hb) by (rewrite length_app, length_fmap; lia). eexists. split; [reflexivity |]. cbn zeta.
  rewrite u64_small by lia. destruct rest as [| s rest]; [cbn in Hc; lia |]. cbn [length] in Hc.
  rewrite insert_app_r_alt, length_fmap, Nat.sub_diag by (by rewrite length_fmap). cbn [insert list_insert]. split.
  - eapply array_ok_intro with (rest := rest); [exact Ha | | | | apply (ok_bytes _ _ _ Hok) |]; cbn [m_size m_capacity].
    + rewrite list_lookup_insert_eq by done. by rewrite fmap_app, <- app_assoc.
    + intros Ht. specialize (Hd Ht). by apply Forall_cons in Hd as [_ ?].
    + rewrite length_app, length_fmap, length_app. cbn [length]. lia.
    + rewrite length_app. cbn. lia.
  - apply framed_same; [done | by rewrite length_insert |]. intros x Hx. apply list_lookup_insert_ne. congruence.
Qed.

(** The pushed element is a value, lies outside the array, or there is room. *)
Definition ref_ok (this : Mem_root_array) (root : mem_root) (r : value_ref) (e : Element_type) : Prop :=
  read_ref root r = Some e /\ match r with Value _ => True | Slot b _ => Some b <> m_array this \/ m_size this < m_capacity this end.

Lemma read_ref_framed this root this' root' r e : framed this root this' root' -> read_ref root r = Some e ->
  match r with Value _ => True | Slot b _ => Some b <> m_array this end -> read_ref root' r = Some e.
Proof.
  intros (_ & _ & Hs & _). destruct r as [e' | b i]; [done |]. cbn [read_ref]. unfold slot_read. intros Hr Hne.
  destruct (root !! b) eqn:E; [| done]. rewrite Hs; [by rewrite E | by eapply lookup_lt_Some | done].
Qed.

Lemma read_ref_room this root r e : ref_ok this root r e -> m_capacity this <= m_size this ->
  match r with Value _ => True | Slot b _ => Some b <> m_array this end.
Proof. intros [_ H] Hc. destruct r; [done |]. destruct H; [done | lia]. Qed.

(** Making room for one more. *)
Lemma push_reserve_ok this root l r e ok n : array_ok this root l -> ref_ok this root r e ->
  m_size this = m_capacity this -> m_size this < n -> n * element_size < 2 ^ 64 ->
  exists err this' root', reserve this root n ok = Some (err, this', root') /\ array_ok this' root' l /\ framed this root this' root' /\
    if (err : bool) then this' = this /\ root' = root else m_size this' < m_capacity this' /\ read_ref root' r = Some e.
Proof.
  intros Hok Hr Hfull Hn Hbytes. destruct (capacity_bound _ _ _ Hok) as [Hsz _].
  destruct (reserve_ok this root l n ok Hok) as (err & this' & root' & -> & Hok' & Hf & He); [lia | done |].
  exists err, this', root'. split_and!; [done | done | done |]. destruct err; [tauto |]. split.
  - rewrite (ok_size _ _ _ Hok'), <- (ok_size _ _ _ Hok). lia.
  - eapply read_ref_framed; [exact Hf | apply Hr | by eapply read_ref_room; [exact Hr | lia]].
Qed.

(** The last steps of [push_back], after the reservations. *)
Lemma push_store this root l r e this1 root1 : array_ok this1 root1 l -> framed this root this1 root1 -> m_size this1 < m_capacity this1 ->
  read_ref root1 r = Some e ->
  let this2 := Arr (m_array this1) (u64 (m_size this1 + 1)) (m_capacity this1) in
  exists root2, (b ← m_array this1; e ← read_ref root1 r; root ← construct root1 b (Z.to_nat (m_size this1)) e; Some (false, this2, root))
    = Some (false, this2, root2) /\ framed this root this2 root2 /\ array_ok this2 root2 (l ++ [e]).
Proof.
  intros Hok1 Hf1 Hroom Hread this2. unfold this2. destruct (m_array this1) as [b |] eqn:Ha.
  - destruct (push_room this1 root1 l e b Hok1 Ha Hroom) as (root' & Hc & Hok' & Hf'). rewrite Ha in Hok', Hf'.
    exists root'. cbn [mbind option_bind]. rewrite Hread. cbn [mbind option_bind]. rewrite Hc. split_and!; [done | by eapply framed_trans | done].
  - pose proof (ok_buf _ _ _ Hok1) as Hb. rewrite Ha in Hb. pose proof (ok_size _ _ _ Hok1). lia.
Qed.

Lemma array_push_back_ok this root l r e ok : array_ok this root l -> ref_ok this root r e ->
  exists err this' root', push_back this root r ok = Some (err, this', root') /\ framed this root this' root' /\
    if (err : bool) then this' = this /\ root' = root /\ m_size this = m_capacity this
    else array_ok this' root' (l ++ [e]) /\ m_size this < m_capacity this' /\ m_capacity this <= m_capacity this'.
Proof.
  intros Hok Hr. destruct (capacity_bound _ _ _ Hok) as [Hsz Hcb]. pose proof (ok_bytes _ _ _ Hok) as Hbytes. unfold push_back.
  pose proof (ok_size _ _ _ Hok) as Hl.
  destruct (Z.eqb_spec (m_capacity this) 0) as [E0 | N0]; [| cbn [mbind option_bind]; destruct (Z.eqb_spec (m_size this) (m_capacity this)) as [Efull | Nfull]].
  - destruct (push_reserve_ok this root l r e ok 20 Hok Hr) as (err & this1 & root1 & Hres & Hok1 & Hf1 & He); [lia | lia | lia |].
    rewrite Hres. cbn [mbind option_bind]. destruct err as [|].
    + exists true, this1, root1. destruct He as [-> ->]. split_and!; [done | done | done | done | lia].
    + destruct He as [Hroom Hread]. destruct (Z.eqb_spec (m_size this1) (m_capacity this1)); [lia |]. cbn [mbind option_bind].
      pose proof (ok_size _ _ _ Hok1) as Hl1.
      destruct (push_store this root l r e this1 root1 Hok1 Hf1 Hroom Hread) as (root' & -> & Hf & Hok').
      do 3 eexists. split; [reflexivity |]. split_and!; [done | done | cbn [m_capacity]; lia ..].
  - rewrite u64_small by nia.
    destruct (push_reserve_ok this root l r e ok (m_capacity this * 2) Hok Hr) as (err & this1 & root1 & Hres & Hok1 & Hf1 & He); [lia | lia | lia |].
    rewrite Hres. cbn [mbind option_bind]. destruct err as [|].
    + exists true, this1, root1. destruct He as [-> ->]. by split_and!.
    + destruct He as [Hroom Hread]. pose proof (ok_size _ _ _ Hok1) as Hl1.
      destruct (push_store this root l r e this1 root1 Hok1 Hf1 Hroom Hread) as (root' & -> & Hf & Hok').
      do 3 eexists. split; [reflexivity |]. split_and!; [done | done | cbn [m_capacity]; lia ..].
  - cbn [mbind option_bind]. destruct (push_store this root l r e this root Hok (framed_refl _ _)) as (root' & -> & Hf & Hok'); [lia | apply Hr |].
    do 3 eexists. split; [reflexivity |]. split_and!; [done | done | cbn [m_capacity]; lia ..].
Qed.

(** The array now has the first elements only. *)
Lemma array_shrunk this root root' l1 l2 b d : array_ok this root (l1 ++ l2) -> m_array this = Some b ->
  root' !! b = Some ((Some <$> l1) ++ d) -> dead d -> Z.of_nat (length ((Some <$> l1) ++ d)) = m_capacity this ->
  length root' = length root -> (forall x, x <> b -> root' !! x = root !! x) ->
  let this' := Arr (m_array this) (Z.of_nat (length l1)) (m_capacity this) in array_ok this' root' l1 /\ framed this root this' root'.
Proof.
  intros Hok Ha Hb Hd Hc Hlen Hx. split.
  - eapply array_ok_intro; [exact Ha | exact Hb | done | done | apply (ok_bytes _ _ _ Hok) | done].
  - apply framed_same; [done | done |]. intros x Hne. apply Hx. congruence.
Qed.

Lemma nonempty_buffer this root l : array_ok this root l -> l <> [] -> exists b, m_array this = Some b.
Proof.
  intros [Hs Hf _ Hb] Hl. destruct (m_array this) as [b |]; [by exists b |]. destruct l; [done |]. cbn in *. lia.
Qed.

Lemma drop_elements_ok this root l1 l2 : array_ok this root (l1 ++ l2) -> l2 <> [] ->
  exists root', (if has_trivial_destructor then Some root
      else destroy_loop this root (length l1) (length l2)) = Some root' /\
    let this' := Arr (m_array this) (Z.of_nat (length l1)) (m_capacity this) in array_ok this' root' l1 /\ framed this root this' root'.
Proof.
  intros Hok Hne. destruct (nonempty_buffer _ _ _ Hok) as [b Ha]; [by destruct l1, l2 |].
  destruct (array_ok_buf _ _ _ _ Hok Ha) as (rest & Hb & Hd & Hc). rewrite fmap_app, <- app_assoc in Hb.
  rewrite !length_app, !length_fmap, length_app in Hc. destruct has_trivial_destructor eqn:Ht.
  - exists root. split; [done |]. eapply array_shrunk; [exact Hok | exact Ha | exact Hb | | | done | done].
    + intros ?. congruence.
    + rewrite !length_app, !length_fmap. lia.
  - destruct (destroy_elements_ok l2 this root b (Some <$> l1) rest Ha Hb) as (root' & Hr & Hb' & Hlen & Hx). rewrite length_fmap in Hr.
    exists root'. split; [done |]. eapply array_shrunk; [exact Hok | exact Ha | exact Hb' | | | done | done].
    + apply dead_app; [apply dead_replicate | done].
    + rewrite !length_app, length_fmap, length_replicate. lia.
Qed.

Lemma chop_ok this root l pos : array_ok this root l -> 0 <= pos < Z.of_nat (length l) ->
  exists this' root', chop this root pos = Some (this', root') /\ array_ok this' root' (take (Z.to_nat pos) l) /\ framed this root this' root'.
Proof.
  intros Hok Hpos. unfold chop. rewrite (ok_size _ _ _ Hok). destruct (Z.ltb_spec pos (Z.of_nat (length l))); [| lia].
  rewrite <- (take_drop (Z.to_nat pos) l) in Hok. destruct (drop_elements_ok _ _ _ _ Hok) as (root' & Hr & Hok' & Hf).
  { intros E. apply (f_equal length) in E. rewrite length_drop in E. cbn in E. lia. }
  rewrite length_take_le, length_drop in Hr by lia. rewrite length_take_le in Hok', Hf by lia.
  replace (Z.to_nat (Z.of_nat (length l) - pos)) with (length l - Z.to_nat pos)%nat by lia. rewrite Hr. cbn [mbind option_bind].
  rewrite Z2Nat.id in Hok', Hf by lia. by do 2 eexists.
Qed.

Lemma clear_ok this root l : array_ok this root l ->
  exists this' root', clear this root = Some (this', root') /\ array_ok this' root' [] /\ framed this root this' root'.
Proof.
  intros Hok. unfold clear, empty_, size_. rewrite (ok_size _ _ _ Hok). destruct (Z.eqb_spec (Z.of_nat (length l)) 0); cbn [negb].
  - exists this, root. destruct l; [| done]. split_and!; [done | done | apply framed_refl].
  - destruct (chop_ok this root l 0 Hok) as (this' & root' & -> & Hok' & Hf); [lia |]. by exists this', root'.
Qed.

Lemma back_eq this root l b : array_ok this root l -> m_array this = Some b -> l <> [] -> back this = Some (b, pred (length l)).
Proof.
  intros Hok Ha Hl. unfold back, at_, size_. rewrite (ok_size _ _ _ Hok). destruct (capacity_bound _ _ _ Hok) as [Hs Hc].
  rewrite (ok_size _ _ _ Hok) in Hs. destruct l as [| x l]; [done |]. cbn [length] in *. rewrite u64_small by lia.
  destruct (Z.ltb_spec (Z.of_nat (S (length l)) - 1) (Z.of_nat (S (length l)))); [| lia]. rewrite Ha. cbn [mbind option_bind]. do 2 f_equal. lia.
Qed.

Lemma pop_back_ok this root l e : array_ok this root (l ++ [e]) ->
  exists this' root', pop_back this root = Some (this', root') /\ array_ok this' root' l /\ framed this root this' root' /\
    this' = Arr (m_array this) (m_size this - 1) (m_capacity this).
Proof.
  intros Hok. destruct (nonempty_buffer _ _ _ Hok) as [b Ha]; [by destruct l |]. unfold pop_back, empty_, size_.
  pose proof (capacity_bound _ _ _ Hok) as [Hs Hc]. pose proof (ok_size _ _ _ Hok) as Hl. rewrite length_app in Hl. cbn in Hl.
  destruct (Z.eqb_spec (m_size this) 0); [lia |]. rewrite u64_small by lia.
  rewrite (back_eq _ _ _ _ Hok Ha) by (by destruct l). cbn [mbind option_bind fst snd]. rewrite length_app, Nat.add_1_r. cbn [length pred].
  destruct (drop_elements_ok _ _ _ _ Hok) as (root' & Hr & Hok' & Hf); [done |]. cbn [length destroy_loop] in Hr. rewrite Ha in Hr. cbn [mbind option_bind] in Hr.
  assert (Hr' : (if has_trivial_destructor then Some root else destroy root b (length l)) = Some root').
  { destruct has_trivial_destructor; [done |]. by destruct (destroy root b (length l)). }
  rewrite Hr'. cbn [mbind option_bind]. replace (m_size this - 1) with (Z.of_nat (length l)) by lia. by do 2 eexists.
Qed.

(** A reference to something outside the array stays readable. *)
Definition outside (this : Mem_root_array) (root : mem_root) (r : value_ref) (e : Element_type) : Prop :=
  read_ref root r = Some e /\ match r with Value _ => True | Slot b _ => Some b <> m_array this end.

Lemma outside_ref this root r e : outside this root r e -> ref_ok this root r e.
Proof. intros [Hr Hs]. split; [done |]. destruct r; [done | by left]. Qed.

Lemma outside_framed this root this' root' r e : framed this root this' root' -> outside this root r e -> outside this' root' r e.
Proof.
  intros Hf [Hr Hs]. split; [by eapply read_ref_framed |]. destruct r as [| b i]; [done |]. destruct Hf as ([-> | (c & -> & Hc)] & _); [done |].
  intros [= ->]. cbn [read_ref] in Hr. unfold slot_read in Hr. destruct (root !! c) eqn:E; [| done]. apply lookup_lt_Some in E. lia.
Qed.

Lemma push_loop_ok k : forall this root l r e ok fuel, array_ok this root l -> outside this root r e ->
  Z.of_nat (length l + k) <= m_capacity this -> (k <= fuel)%nat ->
  exists this' root', push_loop fuel (Z.of_nat (length l + k)) this root r ok = Some (this', root') /\
    array_ok this' root' (l ++ replicate k e) /\ framed this root this' root'.
Proof.
  induction k as [| k IH]; intros this root l r e ok fuel Hok Hr Hcap Hfuel.
  { exists this, root. rewrite Nat.add_0_r, app_nil_r. split_and!; [| done | apply framed_refl].
    pose proof (ok_size _ _ _ Hok). destruct fuel; cbn [push_loop]; by rewrite (proj2 (Z.eqb_eq _ _)). }
  destruct fuel as [| fuel]; [lia |]. cbn [push_loop]. pose proof (ok_size _ _ _ Hok) as Hs.
  destruct (Z.eqb_spec (Z.of_nat (length l + S k)) (m_size this)); [lia |].
  destruct (array_push_back_ok this root l r e ok Hok (outside_ref _ _ _ _ Hr)) as (err & this1 & root1 & -> & Hf1 & He).
  destruct err; [destruct He as (_ & _ & He); lia |]. destruct He as (Hok1 & _ & Hcap1). cbn [mbind option_bind].
  destruct (IH this1 root1 (l ++ [e]) r e ok fuel Hok1) as (this2 & root2 & Hl & Hok2 & Hf2).
  - by eapply outside_framed.
  - rewrite length_app. cbn [length]. lia.
  - lia.
  - exists this2, root2. rewrite length_app in Hl. cbn [length] in Hl. replace (length l + S k)%nat with (length l + 1 + k)%nat by lia.
    split_and!; [done | by rewrite <- app_assoc in Hok2 | by eapply framed_trans].
Qed.

Lemma pop_loop_ok k : forall this root l1 l2 fuel, array_ok this root (l1 ++ l2) -> length l2 = k -> (k <= fuel)%nat ->
  exists this' root', pop_loop fuel (Z.of_nat (length l1)) this root = Some (this', root') /\
    array_ok this' root' l1 /\ framed this root this' root'.
Proof.
  induction k as [| k IH]; intros this root l1 l2 fuel Hok Hk Hfuel; pose proof (ok_size _ _ _ Hok) as Hs; rewrite length_app in Hs.
  { destruct l2; [| done]. rewrite app_nil_r in Hok. exists this, root. split_and!; [| done | apply framed_refl].
    destruct fuel; cbn [pop_loop]; by rewrite (proj2 (Z.eqb_eq _ _)) by (cbn in Hs; lia). }
  destruct fuel as [| fuel]; [lia |]. cbn [pop_loop]. destruct (Z.eqb_spec (Z.of_nat (length l1)) (m_size this)); [lia |].
  destruct l2 as [| e l2 _] using rev_ind; [done |]. rewrite app_assoc in Hok. rewrite length_app in Hk. cbn in Hk.
  destruct (pop_back_ok _ _ _ _ Hok) as (this1 & root1 & -> & Hok1 & Hf1 & _). cbn [mbind option_bind].
  destruct (IH this1 root1 l1 l2 fuel Hok1) as (this2 & root2 & Hl & Hok2 & Hf2); [lia | lia |].
  exists this2, root2. split_and!; [done | done | by eapply framed_trans].
Qed.

Lemma resize_ok this root l n r e ok fuel : array_ok this root l -> outside this root r e ->
  0 <= n -> n * element_size < 2 ^ 64 -> (Z.to_nat n + length l <= fuel)%nat ->
  exists this' root' l', resize fuel this root n r ok = Some (this', root') /\ array_ok this' root' l' /\ framed this root this' root' /\
    (l' = take (Z.to_nat n) l ++ replicate (Z.to_nat n - length l) e \/
     l' = l /\ Z.of_nat (length l) < n /\ (ok = false \/ 2 ^ 63 <= n * element_size)).
Proof.
  intros Hok Hr Hn Hbytes Hfuel. unfold resize. pose proof (ok_size _ _ _ Hok) as Hs.
  destruct (Z.eqb_spec n (m_size this)) as [-> | Hne].
  { exists this, root, l. split_and!; [done | done | apply framed_refl |]. left. rewrite Hs, Nat2Z.id, firstn_all, Nat.sub_diag. by rewrite app_nil_r. }
  destruct (Z.ltb_spec (m_size this) n) as [Hup | Hdown].
  - destruct (reserve_ok this root l n ok Hok Hn Hbytes) as (err & this1 & root1 & -> & Hok1 & Hf1 & He). cbn [mbind option_bind].
    destruct err; cbn [negb].
    + destruct He as (-> & -> & He). exists this, root, l. split_and!; [done | done | done |]. right. split_and!; [done | lia | done].
    + destruct (push_loop_ok (Z.to_nat n - length l) this1 root1 l r e ok fuel Hok1) as (this2 & root2 & Hl & Hok2 & Hf2);
        [by eapply outside_framed | lia | lia |].
      replace (Z.of_nat (length l + (Z.to_nat n - length l))) with n in Hl by lia.
      exists this2, root2, (l ++ replicate (Z.to_nat n - length l) e). split_and!; [done | done | by eapply framed_trans |].
      left. by rewrite take_ge by lia.
  - replace (Z.to_nat n - length l)%nat with 0%nat by lia.
    assert (Hlen : length (take (Z.to_nat n) l) = Z.to_nat n) by (apply length_take_le; lia).
    rewrite <- (take_drop (Z.to_nat n) l) in Hok.
    assert (H : exists this1 root1, (if has_trivial_destructor then Some (this, root) else pop_loop fuel n this root) = Some (this1, root1) /\
      let this' := Arr (m_array this1) n (m_capacity this1) in array_ok this' root1 (take (Z.to_nat n) l) /\ framed this root this' root1).
    { destruct has_trivial_destructor eqn:Ht.
      - destruct (drop_elements_ok _ _ _ _ Hok) as (root1 & Hr1 & Hok1 & Hf1).
        { intros E. apply (f_equal length) in E. rewrite length_drop in E. cbn in E. lia. }
        rewrite Ht in Hr1. injection Hr1 as <-. rewrite Hlen, Z2Nat.id in Hok1, Hf1 by lia. by exists this, root.
      - destruct (pop_loop_ok (length l - Z.to_nat n) this root (take (Z.to_nat n) l) (drop (Z.to_nat n) l) fuel Hok) as (this1 & root1 & Hl & Hok1 & Hf1);
          [by rewrite length_drop | lia |]. rewrite Hlen, Z2Nat.id in Hl by lia. exists this1, root1. split; [done |].
        pose proof (ok_size _ _ _ Hok1) as Hs1. rewrite Hlen, Z2Nat.id in Hs1 by lia. cbn zeta.
        replace (Arr (m_array this1) n (m_capacity this1)) with this1; [done |]. destruct this1 as [a sz cap]. cbn [m_size] in Hs1. by subst sz. }
    destruct H as (this1 & root1 & -> & Hok1 & Hf1). cbn [mbind option_bind]. exists (Arr (m_array this1) n (m_capacity this1)), root1, (take (Z.to_nat n) l).
    split_and!; [done | done | done |]. left. by rewrite app_nil_r.
Qed.

Lemma array_get_ok this root l n : array_ok this root l -> 0 <= n -> get this root n = l !! Z.to_nat n.
Proof.
  intros Hok Hn. unfold get, at_, size_. rewrite (ok_size _ _ _ Hok). destruct (Z.ltb_spec n (Z.of_nat (length l))).
  - destruct (lookup_lt_is_Some_2 l (Z.to_nat n)) as [e He]; [lia |]. destruct (nonempty_buffer _ _ _ Hok) as [b Ha]; [by intros -> |].
    destruct (array_ok_buf _ _ _ _ Hok Ha) as (rest & Hb & _ & _). rewrite Ha. cbn [mbind option_bind fst snd].
    rewrite (slot_read_eq _ _ _ _ Hb), lookup_app_l by (rewrite length_fmap; lia). by rewrite list_lookup_fmap, He.
  - symmetry. apply lookup_ge_None. lia.
Qed.

Lemma array_set_ok this root l n e : array_ok this root l -> 0 <= n < Z.of_nat (length l) ->
  exists root', set_ this root n e = Some root' /\ array_ok this root' (<[Z.to_nat n := e]> l) /\ framed this root this root'.
Proof.
  intros Hok Hn. unfold set_, at_, size_. rewrite (ok_size _ _ _ Hok). destruct (Z.ltb_spec n (Z.of_nat (length l))); [| lia].
  destruct (lookup_lt_is_Some_2 l (Z.to_nat n)) as [e0 He]; [lia |]. destruct (nonempty_buffer _ _ _ Hok) as [b Ha]; [by intros -> |].
  destruct (array_ok_buf _ _ _ _ Hok Ha) as (rest & Hb & Hd & Hc). rewrite Ha. cbn [mbind option_bind fst snd].
  rewrite (slot_read_eq _ _ _ _ Hb), lookup_app_l by (rewrite length_fmap; lia). rewrite list_lookup_fmap, He. cbn [mbind option_bind fmap option_fmap option_map id].
  rewrite (slot_write_eq _ _ _ _ _ Hb) by (rewrite length_app, length_fmap; lia). eexists. split; [reflexivity |].
  pose proof (lookup_lt_Some _ _ _ Hb) as Hlt. split.
  - eapply array_ok_intro with (rest := rest); [exact Ha | | done | | apply (ok_bytes _ _ _ Hok) |].
    + rewrite list_lookup_insert_eq by done. rewrite insert_app_l by (rewrite length_fmap; lia). by rewrite list_fmap_insert.
    + rewrite length_app, length_fmap, length_insert. by rewrite length_app, length_fmap in Hc.
    + rewrite length_insert. apply (ok_size _ _ _ Hok).
  - apply framed_same; [done | by rewrite length_insert |]. intros x Hx. apply list_lookup_insert_ne. congruence.
Qed.

(** ** Any operation *)

Inductive array_op :=
  | Push_back (r : value_ref) (ok : bool) | Pop_back | Chop (pos : Z) | Clear | Reserve (n : Z) (ok : bool)
  | Resize (n : Z) (val : value_ref) (ok : bool) | Set_at (n : Z) (e : Element_type).

(** The result, [true] for out-of-memory. *)
Definition array_step (this : Mem_root_array) (root : mem_root) (o : array_op) : option (bool * Mem_root_array * mem_root) :=
  let quiet r := '(this, root) ← r; Some (false, this, root) in
  match o with
  | Push_back r ok => push_back this root r ok
  | Pop_back => quiet (pop_back this root)
  | Chop pos => quiet (chop this root pos)
  | Clear => quiet (clear this root)
  | Reserve n ok => reserve this root n ok
  | Resize n val ok => quiet (resize (Z.to_nat n + Z.to_nat (m_size this)) this root n val ok)
  | Set_at n e => root ← set_ this root n e; Some (false, this, root)
  end.

Definition array_allowed (this : Mem_root_array) (root : mem_root) (l : list Element_type) (o : array_op) : Prop :=
  match o with
  | Push_back r _ => exists e, ref_ok this root r e
  | Pop_back => l <> []
  | Chop pos => 0 <= pos < Z.of_nat (length l)
  | Clear => True
  | Reserve n _ => 0 <= n /\ n * element_size < 2 ^ 64
  | Resize n r _ => 0 <= n /\ n * element_size < 2 ^ 64 /\ exists e, outside this root r e
  | Set_at n _ => 0 <= n < Z.of_nat (length l)
  end.

Definition array_result (root : mem_root) (l : list Element_type) (o : array_op) (err : bool) (l' : list Element_type) : Prop :=
  match o with
  | Push_back r _ => if err then l' = l else exists e, read_ref root r = Some e /\ l' = l ++ [e]
  | Pop_back => err = false /\ l' = removelast l
  | Chop pos => err = false /\ l' = take (Z.to_nat pos) l
  | Clear => err = false /\ l' = []
  | Reserve n ok => l' = l /\ (err = true -> ok = false \/ 2 ^ 63 <= n * element_size)
  | Resize n r ok => err = false /\ exists e, read_ref root r = Some e /\
      (l' = take (Z.to_nat n) l ++ replicate (Z.to_nat n - length l) e \/
       l' = l /\ Z.of_nat (length l) < n /\ (ok = false \/ 2 ^ 63 <= n * element_size))
  | Set_at n e => err = false /\ l' = <[Z.to_nat n := e]> l
  end.

Lemma array_step_ok this root l o : array_ok this root l -> array_allowed this root l o ->
  exists err this' root' l', array_step this root o = Some (err, this', root') /\ array_result root l o err l' /\
    array_ok this' root' l' /\ framed this root this' root'.
Proof.
  intros Hok Ha. destruct o as [r ok | | pos | | n ok | n r ok | n e]; cbn [array_allowed array_step array_result] in *.
  - destruct Ha as [e Hr]. destruct (array_push_back_ok this root l r e ok Hok Hr) as (err & this' & root' & -> & Hf & He).
    destruct err; [destruct He as (-> & -> & _); exists true, this, root, l; split_and!; [done | done | exact Hok | exact Hf] |].
    exists false, this', root', (l ++ [e]). split_and!; [done | by exists e; split; [apply Hr |] | apply He | done].
  - destruct l as [| e l _] using rev_ind; [done |]. destruct (pop_back_ok _ _ _ _ Hok) as (this' & root' & -> & Hok' & Hf & _).
    exists false, this', root', l. by rewrite removelast_last.
  - destruct (chop_ok _ _ _ pos Hok Ha) as (this' & root' & -> & Hok' & Hf). by eexists false, this', root', _.
  - destruct (clear_ok _ _ _ Hok) as (this' & root' & -> & Hok' & Hf). by eexists false, this', root', _.
  - destruct Ha as [Hn Hb]. destruct (reserve_ok this root l n ok Hok Hn Hb) as (err & this' & root' & -> & Hok' & Hf & He).
    exists err, this', root', l. split_and!; [done | done | | done | done]. intros ->. apply He.
  - destruct Ha as (Hn & Hb & e & Hr).
    destruct (resize_ok this root l n r e ok (Z.to_nat n + Z.to_nat (m_size this)) Hok Hr Hn Hb) as (this' & root' & l' & -> & Hok' & Hf & Hl').
    { rewrite (ok_size _ _ _ Hok). lia. }
    exists false, this', root', l'. split_and!; [done | done | by exists e; split; [apply Hr |] | done | done].
  - destruct (array_set_ok this root l n e Hok Ha) as (root' & -> & Hok' & Hf). by eexists false, this, root', _.
Qed.

(** C32: [Mem_root_array] is the list of its elements: on a well-formed array
    every operation within its contract runs without undefined behaviour (no
    access to raw storage, no assertion, no wrap-around of sizes), has the effect
    of the list operation, or for a refused allocation none, and restores the
    invariant; buffers of others on the same root keep their contents, and a
    buffer the array has outgrown holds no object any more. *)
Theorem mem_root_array_refines this root l o :
  array_ok this root l -> array_allowed this root l o ->
  exists err this' root' l', array_step this root o = Some (err, this', root') /\ array_result root l o err l' /\
    array_ok this' root' l' /\ framed this root this' root' /\ forall n, 0 <= n -> get this' root' n = l' !! Z.to_nat n.
Proof.
  intros Hok Ha. destruct (array_step_ok this root l o Hok Ha) as (err & this' & root' & l' & Hs & Hr & Hok' & Hf).
  exists err, this', root', l'. split_and!; [done | done | done | done |]. intros n Hn. by apply array_get_ok.
Qed.

(** ** A whole life *)

(** A client that passes values and looks at [size()] first. *)
Definition checked (this : Mem_root_array) (o : array_op) : bool :=
  match o with
  | Push_back r _ => if r is Value _ then true else false
  | Pop_back => negb (empty_ this)
  | Chop pos | Set_at pos _ => (0 <=? pos) && (pos <? size_ this)
  | Clear => true
  | Reserve n _ => (0 <=? n) && (n * element_size <? 2 ^ 64)
  | Resize n r _ => (0 <=? n) && (n * element_size <? 2 ^ 64) && (if r is Value _ then true else false)
  end.

Fixpoint client (this : Mem_root_array) (root : mem_root) (os : list array_op) : option (Mem_root_array * mem_root) :=
  match os with
  | [] => Some (this, root)
  | o :: os =>
      if checked this o then '(_, this, root) ← array_step this root o; client this root os else client this root os
  end.

Lemma checked_allowed this root l o : array_ok this root l -> checked this o = true -> array_allowed this root l o.
Proof.
  intros Hok Hc. pose proof (ok_size _ _ _ Hok) as Hs. destruct o as [r ok | | pos | | n ok | n r ok | n e]; cbn [checked array_allowed] in *; unfold empty_, size_ in *.
  - destruct r as [e |]; [| done]. by exists e.
  - destruct (Z.eqb_spec (m_size this) 0); [done |]. intros ->. cbn in Hs. lia.
  - lia.
  - done.
  - lia.
  - destruct r as [e |]; [| lia]. split; [lia |]. split; [lia |]. by exists e.
  - lia.
Qed.

Lemma client_ok os : forall this root l, array_ok this root l ->
  exists this' root' l', client this root os = Some (this', root') /\ array_ok this' root' l' /\ framed this root this' root'.
Proof.
  induction os as [| o os IH]; intros this root l Hok; [exists this, root, l; split_and!; [done | done | apply framed_refl] |].
  cbn [client]. destruct (checked this o) eqn:Hc; [| by eapply IH].
  destruct (array_step_ok this root l o Hok (checked_allowed _ _ _ _ Hok Hc)) as (err & this1 & root1 & l1 & -> & _ & Hok1 & Hf1).
  cbn [mbind option_bind]. destruct (IH this1 root1 l1 Hok1) as (this2 & root2 & l2 & -> & Hok2 & Hf2).
  exists this2, root2, l2. split_and!; [done | done | by eapply framed_trans].
Qed.

(** from constructor to destructor an array leaks nothing and destroys
    nothing twice: whatever a client does, with whatever allocations failing,
    everything runs (destroying a slot needs a constructed object), buffers that
    were on the root before are untouched, and, when elements have destructors,
    none of the buffers the array took holds an object afterwards. *)
Theorem mem_root_array_life root os :
  exists this1 root1 this2 root2, client mem_root_array root os = Some (this1, root1) /\ destructor this1 root1 = Some (this2, root2) /\
    (forall b, (b < length root)%nat -> root2 !! b = root !! b) /\
    (has_trivial_destructor = false -> forall b buf, (length root <= b)%nat -> root2 !! b = Some buf -> Forall (fun s => s = None) buf).
Proof.
  assert (Hok0 : array_ok mem_root_array root []) by (split; [done | done | done | done]).
  destruct (client_ok os _ _ _ Hok0) as (this1 & root1 & l & Hc & Hok1 & Hf1).
  destruct (clear_ok _ _ _ Hok1) as (this2 & root2 & Hd & Hok2 & Hf2).
  destruct (framed_trans _ _ _ _ _ _ Hf1 Hf2) as (_ & _ & Hsame & Hdead).
  exists this1, root1, this2, root2. split_and!; [done | done | by intros; apply Hsame |].
  intros Ht b buf Hb Hr. destruct (decide (Some b = m_array this2)) as [E | Hne].
  - symmetry in E. destruct (array_ok_buf _ _ _ _ Hok2 E) as (rest & Hr2 & Hrest & _). rewrite Hr in Hr2. injection Hr2 as ->. by apply Hrest.
  - by eapply (Hdead b buf Hr Hne); [left |].
Qed.

(** pushing an element of a full array onto itself reads a destroyed
    object: when the destructor matters, [push_back] first moves the elements
    and destroys the old ones, among them the one its argument refers to. *)
Theorem push_back_of_own_element this root l b i :
  array_ok this root l -> has_trivial_destructor = false -> m_array this = Some b -> (i < length l)%nat ->
  m_size this = m_capacity this -> m_capacity this * 2 * element_size < 2 ^ 63 ->
  push_back this root (Slot b i) true = None.
Proof.
  intros Hok Ht Ha Hi Hfull Hbytes. destruct (capacity_bound _ _ _ Hok) as [Hsz Hcb]. pose proof (ok_size _ _ _ Hok) as Hl. unfold push_back.
  destruct (Z.eqb_spec (m_capacity this) 0); [lia |]. cbn [mbind option_bind]. rewrite (proj2 (Z.eqb_eq _ _) Hfull), u64_small by lia.
  destruct (reserve_ok this root l (m_capacity this * 2) true Hok) as (err & this1 & root1 & Hres & Hok1 & Hf1 & He); [lia | lia |].
  rewrite Hres. cbn [mbind option_bind]. destruct err; [destruct He as (_ & _ & [? | ?]); [done | lia] |].
  destruct He as [_ He]. destruct He as (b1 & Ha1 & Hb1); [lia |]. rewrite Ha1. cbn [mbind option_bind read_ref].
  destruct (array_ok_buf _ _ _ _ Hok Ha) as (rest & Hb & _). apply lookup_lt_Some in Hb.
  unfold slot_read. destruct (root1 !! b) as [buf |] eqn:E; [| done]. cbn [mbind option_bind].
  destruct Hf1 as (_ & _ & _ & Hdead). specialize (Hdead b buf E). rewrite Ha, Ha1 in Hdead.
  assert (Hd : Forall (fun s => s = None) buf) by (apply Hdead; [intros [= ->]; lia | by right | done]).
  destruct (buf !! i) as [s |] eqn:Es; [| done]. by rewrite (Forall_lookup_1 _ _ _ _ Hd Es).
Qed.
End mem_root_array.

(** ** Examples: elements of eight bytes with destructors *)

Definition demo_root : list (list (option Z)) := [[Some 7; Some 9]; [Some 1; Some 2]].
(** A full array in the second buffer. *)
Definition demo_array : Mem_root_array := Arr (Some 1%nat) 2 2.

Lemma demo_array_ok : array_ok 8 false demo_array demo_root [1; 2].
Proof.
  split; [done | cbn; lia | cbn; lia |]. exists [Some 1; Some 2]. split; [done |].
  split; [done | done | intros _; apply Forall_nil_2].
Qed.

Lemma mem_root_array_refines_witness :
  array_step 8 false demo_array demo_root (Push_back (Slot 0 1) true) =
    Some (false, Arr (Some 2%nat) 3 4, [[Some 7; Some 9]; [None; None]; [Some 1; Some 2; Some 9; None]]) /\
  exists err this' root' l', array_step 8 false demo_array demo_root (Push_back (Slot 0 1) true) = Some (err, this', root') /\
    array_ok 8 false this' root' l'.
Proof.
  split; [vm_compute; reflexivity |].
  destruct (mem_root_array_refines 8 false ltac:(lia) demo_array demo_root [1; 2] (Push_back (Slot 0 1) true) demo_array_ok)
    as (err & this' & root' & l' & Hs & _ & Hok & _).
  - exists 9. split; [done |]. left. intros [=].
  - exists err, this', root', l'. split; [exact Hs | exact Hok].
Defined.

Lemma mem_root_array_life_witness :
  client 8 false mem_root_array [[Some 5]] [Push_back (Value 1) true; Resize 30 (Value 4) true; Chop 3; Pop_back; Push_back (Value 2) false]
    <> None /\
  exists this1 root1 this2 root2,
    client 8 false mem_root_array [[Some 5]] [Push_back (Value 1) true; Pop_back; Pop_back] = Some (this1, root1) /\
    destructor false this1 root1 = Some (this2, root2) /\ root2 !! 0%nat = Some [Some 5].
Proof.
  split; [vm_compute; discriminate |].
  destruct (mem_root_array_life 8 false ltac:(lia) [[Some 5]] [Push_back (Value 1) true; Pop_back; Pop_back])
    as (this1 & root1 & this2 & root2 & Hc & Hd & Hs & _).
  exists this1, root1, this2, root2. split; [exact Hc |]. split; [exact Hd |]. rewrite (Hs 0%nat); [done | cbn; lia].
Defined.

Lemma push_back_of_own_element_witness : push_back 8 false demo_array demo_root (Slot 1 0) true = None.
Proof. apply (push_back_of_own_element 8 false ltac:(lia) demo_array demo_root [1; 2] 1%nat 0%nat demo_array_ok); cbn; (done || lia). Defined.
