(* ===== verification/HashFilo.v ===== *)
(** * HashFilo: the cache that forgets the least recently used ([hash_filo.h])

    Elements are addresses (0 is NULL); each has a [next_used] and a [prev_used]
    pointer in memory.  The hash table is code of mysys: the class [HashTable]
    states what this class uses of it, for keys that an element has once and for
    all.  A null dereference, a use of a freed element, a failing assertion on
    the mutex and locking it twice have no result.

    The abstract value is the list of the elements in the cache, most recently
    used first. *)

From stdpp Require Import base numbers list gmap.
From Stdlib Require Import ZArith Lia.
From S2P Require Import Prelude.

Local Open Scope Z_scope.

(** ** The hash table *)

Class HashTable (Key T : Type) := {
  hash_empty : T;
  my_hash_search : T -> Key -> option Z;
  hash_records : T -> Z;
  my_hash_insert : T -> Z -> bool -> option T;
  my_hash_delete : T -> Z -> T;
  hash_elems : T -> gset Z }.

(** What is relied on: [hash_elems] are the records; a search finds a record with
    the key if there is one; insertion may fail (its last argument is the outcome
    of the allocation), deletion does not. *)
Class HashTableLaws {Key T : Type} (key_of : Z -> Key) (H : HashTable Key T) : Prop := {
  hash_empty_elems : hash_elems hash_empty = ∅;
  hash_search_hit t k a : my_hash_search t k = Some a -> a ∈ hash_elems t /\ key_of a = k;
  hash_search_miss t k : my_hash_search t k = None -> forall a, a ∈ hash_elems t -> key_of a <> k;
  hash_records_size t : hash_records t = Z.of_nat (size (hash_elems t));
  hash_insert_elems t a t' ok : my_hash_insert t a ok = Some t' -> hash_elems t' = {[a]} ∪ hash_elems t;
  hash_insert_fails t a ok : my_hash_insert t a ok = None -> ok = false;
  hash_delete_elems t a : hash_elems (my_hash_delete t a) = hash_elems t ∖ {[a]} }.

Section hash_filo.
Context {Key T : Type} {key_of : Z -> Key} `{HT : !HashTable Key T} `{!HashTableLaws key_of HT}.

(** ** The class *)

(** [next_used] and [prev_used] of the elements in memory. *)
(* [hash_filo.h:33-38 hash_filo_element] *)
Record hash_filo_element := Elem { next_used : Z; prev_used : Z }.

Abbreviation elements := (gmap Z hash_filo_element).

(** [free_element] is there or NULL; [locked] is the state of [lock]. *)
(* [hash_filo.h:55-63 hash_filo] *)
Record hash_filo := Filo {
  m_size : Z; free_element : bool; init : bool; first_link : Z; last_link : Z; locked : bool; cache : T; mem_elems : elements }.

Definition set_links (f : hash_filo) (first last : Z) (m : elements) : hash_filo :=
  Filo (m_size f) (free_element f) (init f) first last (locked f) (cache f) m.
Definition set_cache (f : hash_filo) (c : T) (m : elements) : hash_filo :=
  Filo (m_size f) (free_element f) (init f) (first_link f) (last_link f) (locked f) c m.
Definition set_locked (f : hash_filo) (b : bool) : hash_filo :=
  Filo (m_size f) (free_element f) (init f) (first_link f) (last_link f) b (cache f) (mem_elems f).

Definition set_next (m : elements) (a v : Z) : option elements := e ← m !! a; Some (<[a := Elem v (prev_used e)]> m).
Definition set_prev (m : elements) (a v : Z) : option elements := e ← m !! a; Some (<[a := Elem (next_used e) v]> m).

(* [hash_filo.h:39-40 next] *)
Definition next (m : elements) (a : Z) : option Z := next_used <$> m !! a.
(* [hash_filo.h:41-42 prev] *)
Definition prev (m : elements) (a : Z) : option Z := prev_used <$> m !! a.

(* [hash_filo.h:65-74 hash_filo] *)
Definition make (size_arg : Z) (free_element_arg : bool) (m : elements) : hash_filo :=
  Filo size_arg free_element_arg false 0 0 false hash_empty m.

(** [lock] and [unlock] of the mutex. *)
Definition mutex_lock (f : hash_filo) : option hash_filo := if init f && negb (locked f) then Some (set_locked f true) else None.
Definition mutex_unlock (f : hash_filo) : option hash_filo := if locked f then Some (set_locked f false) else None.

(** The elements [l] are freed. *)
Definition freed (f : hash_filo) (es : gset Z) : elements :=
  if free_element f then filter (fun kv => kv.1 ∉ es) (mem_elems f) else mem_elems f.

(** [my_hash_free] frees every record; [my_hash_init] starts again. *)
(* [hash_filo.h:85-101 clear] *)
Definition clear (f : hash_filo) (locked_arg : bool) : option hash_filo :=
  let f := if init f then f else Filo (m_size f) (free_element f) true (first_link f) (last_link f) false (cache f) (mem_elems f) in
  f ← (if locked_arg then Some f else mutex_lock f);
  let f := set_links f 0 0 (mem_elems f) in
  let f := set_cache f hash_empty (freed f (hash_elems (cache f))) in
  if locked_arg then Some f else mutex_unlock f.

(* [hash_filo.h:103-107 first] *)
Definition first (f : hash_filo) : option Z := if locked f then Some (first_link f) else None.
(* [hash_filo.h:109-113 last] *)
Definition last (f : hash_filo) : option Z := if locked f then Some (last_link f) else None.

(** The found element, 0 if there is none. *)
(* [hash_filo.h:115-152 search] *)
Definition search (f : hash_filo) (key : Key) : option (Z * hash_filo) :=
  if negb (locked f) then None else
  match my_hash_search (cache f) key with
  | None => Some (0, f)
  | Some entry =>
      if (first_link f =? 0) || (last_link f =? 0) then None else
      if negb (entry =? first_link f) then
        '(last, m) ← (if entry =? last_link f then
            last ← prev (mem_elems f) (last_link f);
            if last =? 0 then None else
            m ← set_next (mem_elems f) last 0;
            Some (last, m)
          else
            n ← next (mem_elems f) entry; p ← prev (mem_elems f) entry;
            if (n =? 0) || (p =? 0) then None else
            m ← set_prev (mem_elems f) n p;
            n ← next m entry; p ← prev m entry;
            m ← set_next m p n;
            Some (last_link f, m));
        m ← set_prev m entry 0;
        m ← set_next m entry (first_link f);
        m ← set_prev m (first_link f) entry;
        Some (entry, set_links f entry last m)
      else Some (entry, f)
  end.

(** The last element of a full cache is forgotten. *)
(* [hash_filo.h:157-171 add] *)
Definition evict (f : hash_filo) : option hash_filo :=
  let tmp := last_link f in
  last ← prev (mem_elems f) (last_link f);
  f ← (if negb (last =? 0) then m ← set_next (mem_elems f) last 0; Some (set_links f (first_link f) last m)
       else Some (set_links f 0 last (mem_elems f)));
  Some (set_cache f (my_hash_delete (cache f) tmp) (freed f {[tmp]})).

(** [true] is failure; [ok] is the outcome of the allocation in the table. *)
(* [hash_filo.h:154-187 add] *)
Definition add (f : hash_filo) (entry : Z) (ok : bool) : option (bool * hash_filo) :=
  if m_size f =? 0 then Some (true, f) else
  f ← (if hash_records (cache f) =? m_size f then evict f else Some f);
  match my_hash_insert (cache f) entry ok with
  | None => Some (true, set_cache f (cache f) (freed f {[entry]}))
  | Some c =>
      m ← set_prev (mem_elems f) entry 0;
      m ← set_next m entry (first_link f);
      f ← (if negb (first_link f =? 0) then m ← set_prev m (first_link f) entry; Some (set_links f (first_link f) (last_link f) m)
           else Some (set_links f (first_link f) entry m));
      let f := set_links f entry (last_link f) (mem_elems f) in
      Some (false, set_cache f c (mem_elems f))
  end.

(* [hash_filo.h:189-190 size] *)
Definition size_ (f : hash_filo) : Z := m_size f.

(* [hash_filo.h:192-198 resize] *)
Definition resize (f : hash_filo) (new_size : Z) : option hash_filo :=
  f ← mutex_lock f;
  f ← clear (Filo new_size (free_element f) (init f) (first_link f) (last_link f) (locked f) (cache f) (mem_elems f)) true;
  mutex_unlock f.

(* [hash_filo.h:76-84 ~hash_filo] *)
Definition destructor (f : hash_filo) : elements :=
  if init f then freed f (hash_elems (cache f)) else mem_elems f.

(** ** Chains *)

(** The elements [l] are linked from [p] to [q]. *)
Fixpoint linked (m : elements) (p : Z) (l : list Z) (q : Z) : Prop :=
  match l with [] => True | a :: l => m !! a = Some (Elem (List.hd q l) p) /\ linked m a l q end.

(** The last element, or what is before the list. *)
Definition last_of (p : Z) (l : list Z) : Z := List.last l p.

Record filo_ok (f : hash_filo) (l : list Z) : Prop := {
  ok_chain : linked (mem_elems f) 0 l 0;
  ok_nodup : NoDup l;
  ok_first : first_link f = List.hd 0 l;
  ok_last : last_link f = last_of 0 l;
  ok_null : mem_elems f !! 0 = None;
  ok_cache : hash_elems (cache f) = list_to_set l;
  ok_size : Z.of_nat (length l) <= m_size f;
  ok_init : init f = true }.

Lemma last_of_cons p a l : last_of p (a :: l) = last_of a l.
Proof.
  revert p a. induction l as [| b l IH]; intros p a; [done |]. change (last_of p (b :: l) = last_of a (b :: l)). by rewrite !IH.
Qed.

Lemma last_of_app p l1 l2 : last_of p (l1 ++ l2) = last_of (last_of p l1) l2.
Proof. revert p. induction l1 as [| a l1 IH]; intros p; [done |]. rewrite last_of_cons. cbn [app]. by rewrite last_of_cons, IH. Qed.

Lemma last_of_in p l : l <> [] -> last_of p l ∈ l.
Proof.
  revert p. induction l as [| a l IH]; intros p Hl; [done |]. rewrite last_of_cons. destruct l; [by left |]. right. by apply IH.
Qed.

Lemma hd_concat q (l1 l2 : list Z) : List.hd q (l1 ++ l2) = List.hd (List.hd q l2) l1.
Proof. by destruct l1. Qed.

Lemma used_app m p l1 l2 q : linked m p (l1 ++ l2) q <-> linked m p l1 (List.hd q l2) /\ linked m (last_of p l1) l2 q.
Proof.
  revert p. induction l1 as [| a l1 IH]; intros p; [cbn; unfold last_of; cbn; tauto |]. cbn [app linked]. rewrite IH, hd_concat, last_of_cons. tauto.
Qed.

Lemma used_frame m m' p l q : (forall a, a ∈ l -> m' !! a = m !! a) -> linked m p l q -> linked m' p l q.
Proof.
  revert p. induction l as [| a l IH]; intros p Hf; [done |]. intros [H1 H2]. split; [by rewrite Hf by left |].
  apply IH; [| done]. intros b Hb. apply Hf. by right.
Qed.

Lemma linked_present m p l q a : linked m p l q -> a ∈ l -> is_Some (m !! a).
Proof.
  revert p. induction l as [| b l IH]; intros p; [by intros _ ?%not_elem_of_nil |]. intros [H1 H2] [-> | H]%elem_of_cons; [by eexists | by eapply IH].
Qed.

(** The first element gets another predecessor, the last another successor. *)
Lemma linked_set_prev m p a l q v : linked m p (a :: l) q -> NoDup (a :: l) ->
  exists m', set_prev m a v = Some m' /\ linked m' v (a :: l) q /\ (forall b, b <> a -> m' !! b = m !! b).
Proof.
  intros [H1 H2] Hn. unfold set_prev. rewrite H1. cbn [mbind option_bind next_used]. eexists. split; [reflexivity |].
  apply NoDup_cons in Hn as [Ha _]. split; [split |].
  - by rewrite lookup_insert_eq.
  - eapply used_frame; [| exact H2]. intros b Hb. apply lookup_insert_ne. by intros ->.
  - intros b Hb. by rewrite lookup_insert_ne.
Qed.

Lemma linked_set_next m p l a q v : linked m p (l ++ [a]) q -> NoDup (l ++ [a]) ->
  exists m', set_next m a v = Some m' /\ linked m' p (l ++ [a]) v /\ (forall b, b <> a -> m' !! b = m !! b).
Proof.
  intros [H1 [H2 _]]%used_app Hn. unfold set_next. cbn in H2. rewrite H2. cbn [mbind option_bind prev_used]. eexists. split; [reflexivity |].
  apply NoDup_app in Hn as (_ & Hn & _). split.
  - apply used_app. split.
    + eapply used_frame; [| exact H1]. intros b Hb. apply lookup_insert_ne. intros ->. by apply (Hn b Hb), list_elem_of_singleton.
    + split; [by rewrite lookup_insert_eq | done].
  - intros b Hb. by rewrite lookup_insert_ne.
Qed.

Lemma in_chain_nonzero f l a : filo_ok f l -> a ∈ l -> a <> 0.
Proof. intros Hok Ha ->. destruct (linked_present _ _ _ _ _ (ok_chain _ _ Hok) Ha) as [e He]. by rewrite (ok_null _ _ Hok) in He. Qed.

(** Only elements of the list [l] changed. *)
Definition only (l : list Z) (m m' : elements) : Prop := forall b, b ∉ l -> m' !! b = m !! b.

Lemma only_refl l m : only l m m.
Proof. done. Qed.
Lemma only_trans l m m1 m2 : only l m m1 -> only l m1 m2 -> only l m m2.
Proof. intros H1 H2 b Hb. by rewrite H2, H1. Qed.

(** The element's own two pointers. *)
Lemma set_both m a e n p : m !! a = Some e ->
  (m ← set_prev m a p; set_next m a n) = Some (<[a := Elem n p]> m).
Proof.
  intros Ha. unfold set_prev, set_next. rewrite Ha. cbn [mbind option_bind]. rewrite lookup_insert_eq. cbn [mbind option_bind prev_used].
  by rewrite insert_insert_eq.
Qed.

(** [a] is linked in front. *)
Lemma relink_front m a e l : linked m 0 l 0 -> NoDup (a :: l) -> m !! a = Some e -> l <> [] ->
  exists m', (m ← set_prev m a 0; m ← set_next m a (List.hd 0 l); set_prev m (List.hd 0 l) a) = Some m' /\
    linked m' 0 (a :: l) 0 /\ only (a :: l) m m'.
Proof.
  intros Hl Hn Ha Hne. destruct l as [| h t]; [done |]. cbn [List.hd]. pose proof (set_both m a e h 0 Ha) as Hb. apply NoDup_cons in Hn as [Hna Hn].
  destruct (set_prev m a 0) as [m0 |]; [| done]. cbn [mbind option_bind] in *. rewrite Hb. cbn [mbind option_bind].
  destruct (linked_set_prev (<[a := Elem h 0]> m) 0 h t 0 a) as (m' & -> & Hl' & Hf); [| done |].
  - eapply used_frame; [| exact Hl]. intros b Hbt. apply lookup_insert_ne. by intros ->.
  - assert (a <> h) by (intros ->; by apply Hna; left).
    exists m'. split; [done |]. split; [split; [| done] |].
    + rewrite Hf by done. by rewrite lookup_insert_eq.
    + intros b Hbn. rewrite Hf by (intros ->; apply Hbn; right; left). apply lookup_insert_ne. intros ->. apply Hbn. by left.
Qed.

(** The element is taken out of the chain, which keeps its own pointers. *)
Lemma unlink_last m k z a : linked m 0 ((k ++ [z]) ++ [a]) 0 -> NoDup ((k ++ [z]) ++ [a]) ->
  prev m a = Some z /\ exists m', set_next m z 0 = Some m' /\ linked m' 0 (k ++ [z]) 0 /\ only [z] m m' /\ m' !! a = m !! a.
Proof.
  intros Hl Hn. apply used_app in Hl as [Hl [Ha _]]. rewrite last_of_app in Ha. cbn in Ha. split; [unfold prev; by rewrite Ha |].
  apply NoDup_app in Hn as (Hn & Hd & _).
  destruct (linked_set_next m 0 k z _ 0 Hl Hn) as (m' & -> & Hl' & Hf). exists m'. split_and!; [done | done | |].
  - intros b Hb. apply Hf. intros ->. apply Hb. by left.
  - apply Hf. intros ->. apply (Hd z); [apply elem_of_app; right |]; by left.
Qed.

Lemma unlink_mid m k p a n t : linked m 0 ((k ++ [p]) ++ a :: n :: t) 0 -> NoDup ((k ++ [p]) ++ a :: n :: t) ->
  m !! a = Some (Elem n p) /\ exists m1 m', set_prev m n p = Some m1 /\ m1 !! a = m !! a /\ set_next m1 p n = Some m' /\
    linked m' 0 ((k ++ [p]) ++ n :: t) 0 /\ only [p; n] m m' /\ m' !! a = m !! a.
Proof.
  intros Hl Hn. apply used_app in Hl as [Hl [Ha Ht]]. rewrite last_of_app in Ha. cbn in Ha. split; [done |].
  apply NoDup_app in Hn as (Hn1 & Hd & Hn2). apply NoDup_cons in Hn2 as [Hna Hn2].
  assert (Hpn : p <> n) by (intros ->; apply (Hd n); [apply elem_of_app; right; by left | right; by left]).
  assert (Han : a <> n) by (intros ->; apply Hna; by left).
  assert (Hap : a <> p) by (intros ->; apply (Hd p); [apply elem_of_app; right |]; by left).
  destruct (linked_set_prev m a n t 0 p Ht Hn2) as (m1 & Hm1 & Ht1 & Hf1).
  destruct (linked_set_next m1 0 k p a n) as (m' & Hm' & Hl' & Hf'); [| done |].
  { eapply used_frame; [| exact Hl]. intros b Hb. apply Hf1. intros ->. apply (Hd n); [done | right; by left]. }
  exists m1, m'. split_and!; [done | by apply Hf1 | done | | |].
  - apply used_app. split; [done |]. rewrite last_of_app. change (last_of (last_of 0 k) [p]) with p. eapply used_frame; [| exact Ht1].
    intros b Hb. apply Hf'. intros ->. apply (Hd p); [apply elem_of_app; right; by left | by right].
  - intros b Hb. rewrite Hf', Hf1; [done | intros ->; apply Hb; right; by left | intros ->; apply Hb; by left].
  - rewrite Hf', Hf1; done.
Qed.

(** What no operation changes. *)
Definition same_rest (f f' : hash_filo) : Prop :=
  m_size f' = m_size f /\ free_element f' = free_element f /\ locked f' = locked f.

Lemma front_ok f l a e last m1 l' : filo_ok f l -> linked m1 0 l' 0 -> NoDup (a :: l') -> m1 !! a = Some e -> l' <> [] ->
  l ≡ₚ a :: l' -> only l (mem_elems f) m1 -> m1 !! 0 = None -> last = last_of 0 l' -> List.hd 0 l' = first_link f ->
  exists f', (m ← set_prev m1 a 0; m ← set_next m a (first_link f); m ← set_prev m (first_link f) a; Some (a, set_links f a last m)) = Some (a, f') /\
    filo_ok f' (a :: l') /\ same_rest f f' /\ only l (mem_elems f) (mem_elems f').
Proof.
  intros Hok Hl Hn Ha Hne HP Ho H0 -> Hh. destruct (relink_front m1 a e l' Hl Hn Ha Hne) as (m' & Hm' & Hl' & Ho'). rewrite Hh in Hm'.
  destruct (set_prev m1 a 0) as [m2 |]; [| done]. cbn [mbind option_bind] in *.
  destruct (set_next m2 a (first_link f)) as [m3 |]; [| done]. cbn [mbind option_bind] in *. rewrite Hm'. cbn [mbind option_bind].
  eexists. split; [reflexivity |].
  assert (Ho2 : only l (mem_elems f) m').
  { intros b Hb. rewrite Ho' by (by rewrite <- HP). by apply Ho. }
  split; [| by split]. split; cbn [set_links mem_elems first_link last_link cache m_size init]; [done | done | done | | | | | apply (ok_init _ _ Hok)].
  - rewrite last_of_cons. destruct l' as [| b l']; [done |]. by rewrite !last_of_cons.
  - rewrite Ho2; [apply (ok_null _ _ Hok) |]. intros Hz. by apply (in_chain_nonzero f l 0).
  - rewrite (ok_cache _ _ Hok). by rewrite HP.
  - rewrite <- (ok_size _ _ Hok). by rewrite HP.
Qed.

Lemma chain_ends f l : filo_ok f l -> l <> [] -> (first_link f =? 0) || (last_link f =? 0) = false.
Proof.
  intros Hok Hl. rewrite (ok_first _ _ Hok), (ok_last _ _ Hok). apply orb_false_iff. rewrite !Z.eqb_neq. split; apply (in_chain_nonzero f l); [done | | done |].
  - destruct l; [done | by left].
  - by apply last_of_in.
Qed.

Lemma search_hit_ok f l a k : filo_ok f l -> locked f = true -> my_hash_search (cache f) k = Some a ->
  exists f' l1 l2, l = l1 ++ a :: l2 /\ search f k = Some (a, f') /\ filo_ok f' (a :: l1 ++ l2) /\ same_rest f f' /\
    only l (mem_elems f) (mem_elems f').
Proof.
  intros Hok Hlock Hs. destruct (hash_search_hit _ _ _ Hs) as [Ha _]. rewrite (ok_cache _ _ Hok) in Ha. apply elem_of_list_to_set in Ha.
  pose proof (in_chain_nonzero _ _ _ Hok Ha) as Hza. pose proof (ok_nodup _ _ Hok) as Hn. pose proof (ok_chain _ _ Hok) as Hc.
  unfold search. rewrite Hlock, Hs. cbn [negb]. rewrite (chain_ends _ _ Hok) by (by intros ->; apply not_elem_of_nil in Ha).
  apply list_elem_of_split in Ha as (l1 & l2 & E). assert (HP : l ≡ₚ a :: l1 ++ l2) by (rewrite E; by rewrite Permutation_middle).
  pose proof Hn as Hn'. rewrite HP in Hn'. destruct l1 as [| h l1'] using rev_ind; [| clear IHl1'].
  { assert (Hfa : first_link f = a) by (rewrite (ok_first _ _ Hok), E; done).
    exists f, [], l2. rewrite Hfa, Z.eqb_refl. cbn [negb app] in *. rewrite <- E. split_and!; [done | done | done | by split_and! | done]. }
  rename h into p, l1' into k1. assert (Hpl : p ∈ l) by (rewrite E; rewrite !elem_of_app; left; right; by left).
  pose proof (in_chain_nonzero _ _ _ Hok Hpl) as Hzp.
  assert (Hfirst : List.hd 0 ((k1 ++ [p]) ++ l2) = first_link f) by (rewrite (ok_first _ _ Hok), E; by destruct k1).
  assert (Hane : a =? first_link f = false).
  { apply Z.eqb_neq. intros ->. apply NoDup_cons in Hn' as [Hna _]. apply Hna. rewrite <- Hfirst. destruct k1; left. }
  assert (H0l : 0 ∉ l) by (intros H; by apply (in_chain_nonzero _ _ _ Hok H)).
  rewrite Hane. cbn [negb]. rewrite E in Hc, Hn. destruct l2 as [| n t].
  - assert (Hlast : last_link f = a) by (by rewrite (ok_last _ _ Hok), E, last_of_app).
    rewrite Hlast, Z.eqb_refl. destruct (unlink_last _ _ _ _ Hc Hn) as (Hp & m1 & Hm1 & Hl1 & Ho1 & Ha1).
    rewrite Hp. cbn [mbind option_bind]. rewrite (proj2 (Z.eqb_neq _ _) Hzp), Hm1. cbn [mbind option_bind]. rewrite app_nil_r in HP, Hn', Hfirst.
    destruct (linked_present _ _ _ _ a Hc) as [e He]; [apply elem_of_app; right; by left |].
    destruct (front_ok f l a e p m1 (k1 ++ [p]) Hok Hl1 Hn') as (f' & Hf' & Hok' & Hr' & Ho'); [by rewrite Ha1 | by destruct k1 | done | | | by rewrite last_of_app | done |].
    + intros b Hb. apply Ho1. intros ->%list_elem_of_singleton. done.
    + rewrite Ho1; [apply (ok_null _ _ Hok) |]. intros H%list_elem_of_singleton. by rewrite <- H in Hpl.
    + exists f', (k1 ++ [p]), []. rewrite app_nil_r. split_and!; [done | exact Hf' | done | apply Hr' .. | done].
  - assert (Hlast : last_link f = last_of 0 ((k1 ++ [p]) ++ n :: t)).
    { rewrite (ok_last _ _ Hok), E, !last_of_app. by rewrite !last_of_cons. }
    assert (Hal : a =? last_link f = false).
    { apply Z.eqb_neq. intros Hx. apply NoDup_cons in Hn' as [Hna _]. apply Hna. rewrite Hx, Hlast. apply last_of_in. by destruct k1. }
    rewrite Hal. destruct (unlink_mid _ _ _ _ _ _ Hc Hn) as (Ha & m1 & m2 & Hm1 & Ha1 & Hm2 & Hl2 & Ho2 & Ha2).
    assert (Hnl : n ∈ l) by (rewrite E, elem_of_app; right; right; by left).
    unfold next, prev. rewrite Ha. cbn [fmap option_fmap option_map mbind option_bind next_used prev_used].
    rewrite (proj2 (Z.eqb_neq _ _) Hzp), (proj2 (Z.eqb_neq _ _) (in_chain_nonzero _ _ _ Hok Hnl)). cbn [orb]. rewrite Hm1. cbn [mbind option_bind].
    rewrite Ha1, Ha. cbn [fmap option_fmap option_map mbind option_bind next_used prev_used]. rewrite Hm2. cbn [mbind option_bind].
    destruct (front_ok f l a (Elem n p) (last_link f) m2 ((k1 ++ [p]) ++ n :: t) Hok Hl2 Hn') as (f' & Hf' & Hok' & Hr' & Ho');
      [by rewrite Ha2 | by destruct k1 | done | | | done | done |].
    + intros b Hb. apply Ho2. by intros [-> | ->%list_elem_of_singleton]%elem_of_cons.
    + rewrite Ho2; [apply (ok_null _ _ Hok) |]. intros [H | H%list_elem_of_singleton]%elem_of_cons; [by rewrite <- H in Hpl | by rewrite <- H in Hnl].
    + exists f', (k1 ++ [p]), (n :: t). split_and!; [done | exact Hf' | done | apply Hr' .. | done].
Qed.

(** Searching: the found element moves to the front. *)
Definition found (l : list Z) (k : Key) (r : Z) (l' : list Z) : Prop :=
  (r = 0 /\ l' = l /\ (forall a, a ∈ l -> key_of a <> k)) \/
  (r <> 0 /\ key_of r = k /\ exists l1 l2, l = l1 ++ r :: l2 /\ l' = r :: l1 ++ l2).

Lemma search_ok f l k : filo_ok f l -> locked f = true ->
  exists r f' l', search f k = Some (r, f') /\ filo_ok f' l' /\ found l k r l' /\ same_rest f f' /\ only l (mem_elems f) (mem_elems f').
Proof.
  intros Hok Hlock. destruct (my_hash_search (cache f) k) as [a |] eqn:Hs.
  - destruct (search_hit_ok f l a k Hok Hlock Hs) as (f' & l1 & l2 & E & Hf' & Hok' & Hr & Ho). destruct (hash_search_hit _ _ _ Hs) as [_ Hk].
    exists a, f', (a :: l1 ++ l2). split_and!; [done | done | | apply Hr .. | done]. right.
    split_and!; [| done | by exists l1, l2]. apply (in_chain_nonzero _ _ _ Hok). rewrite E, elem_of_app. right. by left.
  - exists 0, f, l. unfold search. rewrite Hlock, Hs. cbn [negb]. split_and!; [done | done | | done ..]. left.
    split_and!; [done | done |]. intros a Ha. eapply hash_search_miss; [exact Hs |]. rewrite (ok_cache _ _ Hok). by apply elem_of_list_to_set.
Qed.

(** Freeing elements. *)
Lemma freed_other f es b : b ∉ es -> freed f es !! b = mem_elems f !! b.
Proof.
  intros Hb. unfold freed. destruct (free_element f); [| done]. destruct (mem_elems f !! b) eqn:E.
  - by apply map_lookup_filter_Some_2.
  - apply map_lookup_filter_None_2. by left.
Qed.

Lemma freed_none f es b : mem_elems f !! b = None -> freed f es !! b = None.
Proof. intros E. unfold freed. destruct (free_element f); [| done]. apply map_lookup_filter_None_2. by left. Qed.

Lemma evict_ok f k z : filo_ok f (k ++ [z]) ->
  exists f', evict f = Some f' /\ filo_ok f' k /\ same_rest f f' /\ only (k ++ [z]) (mem_elems f) (mem_elems f').
Proof.
  intros Hok. pose proof (ok_chain _ _ Hok) as Hc. pose proof (ok_nodup _ _ Hok) as Hn. unfold evict.
  assert (Hlast : last_link f = z) by (by rewrite (ok_last _ _ Hok), last_of_app). rewrite Hlast.
  assert (Hz0 : z <> 0) by (apply (in_chain_nonzero _ _ _ Hok), elem_of_app; right; by left).
  pose proof (ok_size _ _ Hok) as Hsize. rewrite length_app in Hsize. cbn in Hsize.
  pose proof Hn as Hn'. apply NoDup_app in Hn' as (Hnk & Hzk & _).
  assert (Hcache : hash_elems (my_hash_delete (cache f) z) = list_to_set k).
  { rewrite hash_delete_elems, (ok_cache _ _ Hok), list_to_set_app_L, list_to_set_singleton_L. apply set_eq. intros x.
    rewrite elem_of_difference, elem_of_union, elem_of_list_to_set, elem_of_singleton. split; [tauto |]. intros Hx. split; [by left |].
    intros ->. by apply (Hzk z Hx), list_elem_of_singleton. }
  destruct k as [| p k _] using rev_ind.
  - destruct Hc as [Hz _]. unfold prev. rewrite Hz. cbn [fmap option_fmap option_map mbind option_bind prev_used negb Z.eqb].
    eexists. split; [reflexivity |]. split; [| split; [done |]].
    + split; cbn [set_cache set_links mem_elems first_link last_link cache m_size init]; [done | done | done | done | | done | cbn; lia | apply (ok_init _ _ Hok)].
      apply freed_none, (ok_null _ _ Hok).
    + intros b Hb. etransitivity; [apply freed_other | done]. intros ->%elem_of_singleton. by apply Hb, list_elem_of_singleton.
  - destruct (unlink_last _ _ _ _ Hc Hn) as (Hp & m1 & Hm1 & Hl1 & Ho1 & _). rewrite Hp. cbn [mbind option_bind].
    assert (Hp0 : p <> 0) by (apply (in_chain_nonzero _ _ _ Hok), elem_of_app; left; apply elem_of_app; right; by left).
    rewrite (proj2 (Z.eqb_neq _ _) Hp0). cbn [negb]. rewrite Hm1. cbn [mbind option_bind]. eexists. split; [reflexivity |].
    split; [| split; [done |]].
    + split; cbn [set_cache set_links mem_elems first_link last_link cache m_size init]; [| done | | | | done | lia | apply (ok_init _ _ Hok)].
      * eapply used_frame; [| exact Hl1]. intros b Hb. etransitivity; [apply freed_other | done]. intros ->%elem_of_singleton. by apply (Hzk z Hb), list_elem_of_singleton.
      * rewrite (ok_first _ _ Hok). by destruct k.
      * by rewrite last_of_app.
      * apply freed_none. cbn [mem_elems]. rewrite Ho1; [apply (ok_null _ _ Hok) |]. by intros ?%list_elem_of_singleton.
    + intros b Hb. rewrite elem_of_app, elem_of_app, !list_elem_of_singleton in Hb. etransitivity; [apply freed_other; rewrite elem_of_singleton; tauto |].
      apply Ho1. rewrite list_elem_of_singleton. tauto.
Qed.

Lemma insert_front_ok f l entry e ok : filo_ok f l -> Z.of_nat (length l) < m_size f -> entry ∉ l -> entry <> 0 -> mem_elems f !! entry = Some e ->
  exists err f', match my_hash_insert (cache f) entry ok with
    | None => Some (true, set_cache f (cache f) (freed f {[entry]}))
    | Some c =>
        m ← set_prev (mem_elems f) entry 0;
        m ← set_next m entry (first_link f);
        f ← (if negb (first_link f =? 0) then m ← set_prev m (first_link f) entry; Some (set_links f (first_link f) (last_link f) m)
             else Some (set_links f (first_link f) entry m));
        let f := set_links f entry (last_link f) (mem_elems f) in
        Some (false, set_cache f c (mem_elems f))
    end = Some (err, f') /\ filo_ok f' (if (err : bool) then l else entry :: l) /\ (err = true -> ok = false) /\ same_rest f f' /\
    only (entry :: l) (mem_elems f) (mem_elems f').
Proof.
  intros Hok Hsz Hnl Hn0 He. assert (Hn : NoDup (entry :: l)) by (apply NoDup_cons; split; [done | apply (ok_nodup _ _ Hok)]).
  destruct (my_hash_insert (cache f) entry ok) as [c |] eqn:Hins.
  2: { do 2 eexists. split; [reflexivity |]. split; [| split; [intros _; by eapply hash_insert_fails | split; [done |]]].
    - split; cbn [set_cache mem_elems first_link last_link cache m_size init]; try apply Hok.
      + eapply used_frame; [| apply (ok_chain _ _ Hok)]. intros b Hb. apply freed_other. by intros ->%elem_of_singleton.
      + apply freed_none, (ok_null _ _ Hok).
    - intros b Hb. apply freed_other. intros ->%elem_of_singleton. apply Hb. by left. }
  pose proof (hash_insert_elems _ _ _ _ Hins) as Hc. rewrite (ok_cache _ _ Hok) in Hc.
  destruct l as [| h t].
  - pose proof (ok_first _ _ Hok) as Hf. cbn in Hf. rewrite Hf. pose proof (set_both _ _ _ 0 0 He) as Hb.
    destruct (set_prev (mem_elems f) entry 0) as [m1 |]; [| done]. cbn [mbind option_bind] in *. rewrite Hb. cbn [mbind option_bind negb Z.eqb].
    do 2 eexists. split; [reflexivity |]. split; [| split; [done | split; [done |]]].
    + split; cbn [set_cache set_links mem_elems first_link last_link cache m_size init]; [split; [| done] | done | done | done | | | | apply (ok_init _ _ Hok)].
      * by rewrite lookup_insert_eq.
      * rewrite lookup_insert_ne by done. apply (ok_null _ _ Hok).
      * rewrite Hc. by rewrite list_to_set_cons.
      * cbn in *. lia.
    + intros b Hb'. apply lookup_insert_ne. intros ->. apply Hb'. by left.
  - destruct (relink_front _ _ _ (h :: t) (ok_chain _ _ Hok) Hn He) as (m' & Hm' & Hl' & Ho'); [done |].
    pose proof (ok_first _ _ Hok) as Hf. cbn [List.hd] in *. rewrite Hf.
    assert (Hh0 : h <> 0) by (apply (in_chain_nonzero _ _ _ Hok); by left). rewrite (proj2 (Z.eqb_neq _ _) Hh0).
    destruct (set_prev (mem_elems f) entry 0) as [m1 |]; [| done]. cbn [mbind option_bind negb] in *.
    destruct (set_next m1 entry h) as [m2 |]; [| done]. cbn [mbind option_bind] in *. rewrite Hm'. cbn [mbind option_bind].
    do 2 eexists. split; [reflexivity |]. split; [| split; [done | by split]].
    split; cbn [set_cache set_links mem_elems first_link last_link cache m_size init]; [done | done | done | | | | | apply (ok_init _ _ Hok)].
    + rewrite (ok_last _ _ Hok). by rewrite !last_of_cons.
    + rewrite Ho'; [apply (ok_null _ _ Hok) |]. intros [H | H]%elem_of_cons; [done |]. by apply (in_chain_nonzero _ _ _ Hok) in H.
    + rewrite Hc. by rewrite (list_to_set_cons entry).
    + cbn [length] in *. lia.
Qed.

(** What [add] does to the list: it forgets the last element of a full cache,
    also when the insertion then fails. *)
Definition added (size : Z) (l : list Z) (entry : Z) (err : bool) (l' : list Z) : Prop :=
  let kept := if Z.of_nat (length l) =? size then removelast l else l in
  if size =? 0 then err = true /\ l' = l else if err then l' = kept else l' = entry :: kept.

Lemma add_ok f l entry e ok : filo_ok f l -> entry ∉ l -> entry <> 0 -> mem_elems f !! entry = Some e ->
  exists err f' l', add f entry ok = Some (err, f') /\ filo_ok f' l' /\ added (m_size f) l entry err l' /\
    (err = true -> ok = false \/ m_size f = 0) /\ same_rest f f' /\ only (entry :: l) (mem_elems f) (mem_elems f').
Proof.
  intros Hok Hnl Hn0 He. unfold add, added. destruct (Z.eqb_spec (m_size f) 0) as [E0 | Hs0].
  { exists true, f, l. split; [done |]. split; [done |]. split; [done |]. split; [by right |]. by split. }
  rewrite hash_records_size, (ok_cache _ _ Hok), size_list_to_set by apply (ok_nodup _ _ Hok).
  pose proof (ok_size _ _ Hok) as Hsz. destruct (Z.eqb_spec (Z.of_nat (length l)) (m_size f)) as [Hfull | Hroom].
  - destruct l as [| z k _] using rev_ind; [cbn in Hfull; lia |]. rewrite removelast_last.
    destruct (evict_ok f k z Hok) as (f1 & -> & Hok1 & Hr1 & Ho1). cbn [mbind option_bind]. rewrite length_app in Hfull. cbn in Hfull.
    destruct (insert_front_ok f1 k entry e ok Hok1) as (err & f' & Hf' & Hok' & Herr & Hr' & Ho').
    + destruct Hr1 as [-> _]. lia.
    + intros H. apply Hnl, elem_of_app. by left.
    + done.
    + by rewrite Ho1.
    + destruct Hr1 as (R1 & R2 & R3), Hr' as (R4 & R5 & R6).
      exists err, f', (if err then k else entry :: k). split_and!; [exact Hf' | done | by destruct err | intros H; left; by apply Herr | split_and!; congruence .. |].
      intros b Hb. rewrite elem_of_cons, elem_of_app in Hb. rewrite Ho', Ho1; [done | rewrite elem_of_app; tauto | rewrite elem_of_cons; tauto].
  - cbn [mbind option_bind]. destruct (insert_front_ok f l entry e ok Hok) as (err & f' & Hf' & Hok' & Herr & Hr' & Ho'); [lia | done | done | done |].
    exists err, f', (if err then l else entry :: l). split_and!; [exact Hf' | done | by destruct err | intros H; left; by apply Herr | apply Hr' .. | done].
Qed.

(** [clear] frees the elements and starts again. *)
Definition emptied (f : hash_filo) (l : list Z) (f' : hash_filo) : Prop :=
  filo_ok f' [] /\ free_element f' = free_element f /\ locked f' = locked f /\ only l (mem_elems f) (mem_elems f') /\
  (free_element f = true -> forall a, a ∈ l -> mem_elems f' !! a = None).

Lemma freed_in f es a : free_element f = true -> a ∈ es -> freed f es !! a = None.
Proof. intros Hf Ha. unfold freed. rewrite Hf. apply map_lookup_filter_None_2. right. intros x _. cbn. tauto. Qed.

Lemma emptied_intro f l size : filo_ok f l -> 0 <= size -> locked f = true ->
  emptied f l (set_cache (Filo size (free_element f) (init f) 0 0 (locked f) (cache f) (mem_elems f)) hash_empty (freed f (hash_elems (cache f)))).
Proof.
  intros Hok Hs Hl. split; [| split; [done | split; [done | split]]].
  - split; cbn [set_cache mem_elems first_link last_link cache m_size init]; [done | by apply NoDup_nil_2 | done | done | | | done | apply (ok_init _ _ Hok)].
    + apply freed_none, (ok_null _ _ Hok).
    + by rewrite hash_empty_elems.
  - intros b Hb. apply freed_other. rewrite (ok_cache _ _ Hok). by rewrite elem_of_list_to_set.
  - intros Hf a Ha. apply freed_in; [done |]. rewrite (ok_cache _ _ Hok). by rewrite elem_of_list_to_set.
Qed.

Lemma set_locked_ok f l b : filo_ok f l -> filo_ok (set_locked f b) l.
Proof. intros []. by split. Qed.

Lemma filo_resize_ok f l n : filo_ok f l -> locked f = false -> 0 <= n ->
  exists f', resize f n = Some f' /\ emptied f l f' /\ m_size f' = n.
Proof.
  intros Hok Hl Hn. unfold resize, mutex_lock. rewrite (ok_init _ _ Hok), Hl. cbn [andb negb mbind option_bind].
  unfold clear. cbn [init set_locked]. rewrite (ok_init _ _ Hok). cbn [mbind option_bind mutex_unlock set_cache set_links locked set_locked].
  eexists. split; [reflexivity |]. split; [| done].
  pose proof (set_locked_ok f l true Hok) as Hok1.
  destruct (emptied_intro (set_locked f true) l n Hok1 Hn eq_refl) as (H1 & H2 & _ & H4 & H5).
  split; [| split; [done | split; [by rewrite Hl | split; [exact H4 | exact H5]]]]. destruct H1. by split.
Qed.

Lemma clear_ok' f l b : filo_ok f l -> locked f = b -> exists f', clear f b = Some f' /\ emptied f l f' /\ m_size f' = m_size f.
Proof.
  intros Hok Hl. pose proof (ok_size _ _ Hok) as Hs. destruct b.
  - unfold clear. rewrite (ok_init _ _ Hok). cbn [mbind option_bind]. eexists. split; [reflexivity |]. split; [| done].
    apply (emptied_intro f l (m_size f) Hok); [lia | done].
  - destruct (filo_resize_ok f l (m_size f) Hok Hl) as (f' & Hr & He & Hm); [lia |]. exists f'. split; [| done].
    rewrite <- Hr. pose proof (ok_init _ _ Hok) as Hi. clear -Hl Hi. destruct f as [sz fr ini fl ll lk c m]. cbn in Hl, Hi. by subst.
Qed.

(** ** Any operation *)

Inductive filo_op := Search (k : Key) | Add (entry : Z) (ok : bool) | Clear (locked_arg : bool) | Resize (n : Z) | Lock | Unlock.

(** The result is the element found, 1 for a failing [add], 0 otherwise. *)
Definition filo_step (f : hash_filo) (o : filo_op) : option (Z * hash_filo) :=
  let quiet r := f ← r; Some (0, f) in
  match o with
  | Search k => search f k
  | Add entry ok => '(err, f) ← add f entry ok; Some (Z.b2z err, f)
  | Clear b => quiet (clear f b)
  | Resize n => quiet (resize f n)
  | Lock => quiet (mutex_lock f)
  | Unlock => quiet (mutex_unlock f)
  end.

(** A new element is in memory and not in the cache; the mutex is held where it
    must be and free where it is taken. *)
Definition filo_allowed (f : hash_filo) (o : filo_op) : Prop :=
  match o with
  | Search _ | Unlock => locked f = true
  | Add entry _ => entry ∉ hash_elems (cache f) /\ entry <> 0 /\ is_Some (mem_elems f !! entry)
  | Clear b => locked f = b
  | Resize n => locked f = false /\ 0 <= n
  | Lock => locked f = false
  end.

Definition filo_result (f : hash_filo) (l : list Z) (o : filo_op) (r : Z) (f' : hash_filo) (l' : list Z) : Prop :=
  match o with
  | Search k => found l k r l' /\ same_rest f f'
  | Add entry ok => added (m_size f) l entry (r =? 1) l' /\ (r =? 1 = true -> ok = false \/ m_size f = 0) /\ same_rest f f'
  | Clear _ => l' = [] /\ m_size f' = m_size f /\ (free_element f = true -> forall a, a ∈ l -> mem_elems f' !! a = None)
  | Resize n => l' = [] /\ m_size f' = n /\ (free_element f = true -> forall a, a ∈ l -> mem_elems f' !! a = None)
  | Lock => l' = l /\ locked f' = true
  | Unlock => l' = l /\ locked f' = false
  end.

Definition touched (l : list Z) (o : filo_op) : list Z := match o with Add entry _ => entry :: l | _ => l end.

Lemma filo_step_ok f l o : filo_ok f l -> filo_allowed f o ->
  exists r f' l', filo_step f o = Some (r, f') /\ filo_ok f' l' /\ filo_result f l o r f' l' /\ only (touched l o) (mem_elems f) (mem_elems f').
Proof.
  intros Hok Ha. destruct o as [k | entry ok | b | n | |]; cbn [filo_allowed filo_step filo_result touched] in *.
  - destruct (search_ok f l k Hok Ha) as (r & f' & l' & -> & Hok' & Hf & Hr & Ho). exists r, f', l'. done.
  - destruct Ha as (Hnc & Hn0 & [e He]). rewrite (ok_cache _ _ Hok), elem_of_list_to_set in Hnc.
    destruct (add_ok f l entry e ok Hok Hnc Hn0 He) as (err & f' & l' & -> & Hok' & Had & Herr & Hr & Ho).
    cbn [mbind option_bind]. exists (Z.b2z err), f', l'. replace (Z.b2z err =? 1) with err by (by destruct err). done.
  - destruct (clear_ok' f l b Hok Ha) as (f' & -> & (Hok' & _ & _ & Ho & Hfree) & Hm). by exists 0, f', [].
  - destruct Ha as [Hl Hn]. destruct (filo_resize_ok f l n Hok Hl Hn) as (f' & -> & (Hok' & _ & _ & Ho & Hfree) & Hm). by exists 0, f', [].
  - unfold mutex_lock. rewrite (ok_init _ _ Hok), Ha. cbn. eexists 0, _, l. split; [reflexivity |]. split; [by apply set_locked_ok | done].
  - unfold mutex_unlock. rewrite Ha. cbn. eexists 0, _, l. split; [reflexivity |]. split; [by apply set_locked_ok | done].
Qed.

(** C33: [hash_filo] is a least-recently-used list behind a hash table: on a
    well-formed cache every operation within its contract runs without a null
    dereference, a use of freed memory or a failing assertion; the chain of
    used elements and the table hold the same elements again, at most [size()];
    a hit moves its element to the front, an insertion puts the new element
    there and forgets exactly the last one of a full cache, [clear] and [resize]
    free every element; memory of other elements is untouched. *)
Theorem hash_filo_refines f l o : filo_ok f l -> filo_allowed f o ->
  exists r f' l', filo_step f o = Some (r, f') /\ filo_ok f' l' /\ filo_result f l o r f' l' /\ only (touched l o) (mem_elems f) (mem_elems f').
Proof. intros Hok Ha. by apply filo_step_ok. Qed.

(** ** Recently used elements *)

Inductive uses : hash_filo -> list filo_op -> hash_filo -> Prop :=
  | uses_nil f : uses f [] f
  | uses_search f k r f1 os f' : search f k = Some (r, f1) -> uses f1 os f' -> uses f (Search k :: os) f'
  | uses_add f entry ok err f1 os f' : filo_allowed f (Add entry ok) -> add f entry ok = Some (err, f1) -> uses f1 os f' ->
      uses f (Add entry ok :: os) f'.

(** [a] is in the list, with at most [n] elements before it. *)
Definition within (l : list Z) (a : Z) (n : nat) : Prop := exists l1 l2, l = l1 ++ a :: l2 /\ (length l1 <= n)%nat.

Lemma within_found l k r l' a n : found l k r l' -> within l a n -> within l' a (S n).
Proof.
  intros [(_ & -> & _) | (_ & _ & k1 & k2 & -> & ->)] (l1 & l2 & E & Hn); [exists l1, l2; split; [done | lia] |].
  apply app_eq_app in E as (k3 & [[-> E] | [-> E]]).
  - destruct k3 as [| x k3]; injection E as <- ->.
    + exists [], ((l1 ++ []) ++ k2). split; [done | cbn; lia].
    + exists (r :: l1), (k3 ++ k2). rewrite <- app_assoc. split; [done | cbn; lia].
  - destruct k3 as [| x k3]; injection E as -> ->.
    + eexists [], _. split; [done | cbn; lia].
    + exists (x :: k1 ++ k3), l2. cbn. rewrite <- app_assoc. rewrite length_app in *. cbn in Hn. split; [done | lia].
Qed.

Lemma within_added size l entry err l' a n : added size l entry err l' -> within l a n -> Z.of_nat (S n) < size -> within l' a (S n).
Proof.
  unfold added. cbv zeta. intros Had (l1 & l2 & E & Hn) Hs. destruct (Z.eqb_spec size 0); [lia |].
  assert (Hk : within (if Z.of_nat (length l) =? size then removelast l else l) a n).
  { destruct (Z.eqb_spec (Z.of_nat (length l)) size) as [Hf |]; [| by exists l1, l2].
    destruct l2 as [| z l2 _] using rev_ind; [rewrite E, length_app in Hf; cbn in Hf; lia |].
    exists l1, l2. rewrite E. rewrite app_comm_cons, app_assoc, removelast_last. done. }
  destruct Hk as (k1 & k2 & Ek & Hk). rewrite Ek in Had. destruct err; subst l'; [exists k1, k2; split; [done | lia] |].
  exists (entry :: k1), k2. split; [done | cbn; lia].
Qed.

(** what was used recently is still cached: an element with [i] elements
    before it in the order of use survives any further searches and insertions
    (failing ones included) as long as [i] plus their number is below the size
    of the cache; in particular the element used last survives the next
    [size() - 1] operations. *)
Theorem recently_used_survives f l os f' a n :
  filo_ok f l -> locked f = true -> uses f os f' -> within l a n -> Z.of_nat (n + length os) < m_size f ->
  a ∈ hash_elems (cache f') /\ is_Some (mem_elems f' !! a).
Proof.
  intros Hok Hlock Hu. revert l n Hok Hlock. induction Hu as [f | f k r f1 os f' Hs _ IH | f entry ok err f1 os f' Ha Hs _ IH];
    intros l n Hok Hlock Hw Hn; cbn [length] in *.
  - destruct Hw as (l1 & l2 & -> & _). assert (Hin : a ∈ l1 ++ a :: l2) by (apply elem_of_app; right; by left). split.
    + rewrite (ok_cache _ _ Hok). by apply elem_of_list_to_set.
    + by eapply linked_present; [apply (ok_chain _ _ Hok) |].
  - destruct (search_ok f l k Hok Hlock) as (r' & f2 & l' & Hs' & Hok' & Hf & (Hm & _ & Hl) & _). rewrite Hs' in Hs. injection Hs as -> ->.
    apply (IH l' (S n) Hok'); [congruence | by eapply within_found | lia].
  - destruct Ha as (Hnc & Hn0 & [e He]). rewrite (ok_cache _ _ Hok), elem_of_list_to_set in Hnc.
    destruct (add_ok f l entry e ok Hok Hnc Hn0 He) as (err' & f2 & l' & Hs' & Hok' & Had & _ & (Hm & _ & Hl) & _). rewrite Hs' in Hs. injection Hs as -> ->.
    apply (IH l' (S n) Hok'); [congruence | eapply within_added; [done | done | lia] | lia].
Qed.

(** The constructor, and the first [clear]. *)
Lemma make_ok size_arg fr m : 0 <= size_arg -> m !! 0 = None -> exists f, clear (make size_arg fr m) false = Some f /\ filo_ok f [] /\ locked f = false.
Proof.
  intros Hs H0. eexists. split; [reflexivity |]. split; [| done]. split; try done.
  - by apply NoDup_nil_2.
  - by apply freed_none.
  - cbn. by rewrite hash_empty_elems.
Qed.
End hash_filo.

(** ** A table that satisfies the laws: a set, searched element by element *)

Definition set_table {Key} `{EqDecision Key} (key_of : Z -> Key) : HashTable Key (gset Z) := {|
  hash_empty := ∅;
  my_hash_search t k := list_find (fun a => key_of a = k) (elements t) ≫= fun ia => Some ia.2;
  hash_records t := Z.of_nat (size t);
  my_hash_insert t a ok := if ok : bool then Some ({[a]} ∪ t) else None;
  my_hash_delete t a := t ∖ {[a]};
  hash_elems t := t |}.

#[export] Instance set_table_laws {Key} `{EqDecision Key} (key_of : Z -> Key) : HashTableLaws key_of (set_table key_of).
Proof.
  split; cbn; try done.
  - intros t k a. destruct (list_find _ _) as [[i b] |] eqn:E; [| done]. cbn. intros [= ->].
    apply list_find_Some in E as (Hi & Hk & _). split; [| done]. apply elem_of_elements. by eapply list_elem_of_lookup_2.
  - intros t k. destruct (list_find _ _) as [[i b] |] eqn:E; [done |]. intros _ a Ha. apply list_find_None in E.
    rewrite Forall_forall in E. by apply E, elem_of_elements.
  - intros t a t' [|]; [by intros [= <-] | done].
  - intros t a [|]; done.
Qed.

(** ** Examples: a cache of two elements with keys [a / 10] *)

Definition demo_key (a : Z) : Z := a / 10.
Abbreviation demo_table := (set_table demo_key).

Definition demo_elems : gmap Z hash_filo_element := {[10 := Elem 20 0; 20 := Elem 0 10; 30 := Elem 0 0]}.
Definition demo_filo : hash_filo (T := gset Z) := Filo 2 true true 10 20 true {[10; 20]} demo_elems.

Lemma demo_filo_ok : filo_ok (HT := demo_table) demo_filo [10; 20].
Proof.
  split; try done.
  - apply NoDup_cons. split; [by intros ?%list_elem_of_singleton | apply NoDup_singleton].
Qed.

(** 20 is found and moves to the front; then 30 takes the place of 10. *)
Lemma hash_filo_refines_witness :
  option_map fst (filo_step (HT := demo_table) demo_filo (Search 2)) = Some 20 /\
  (exists r f' l', filo_step (HT := demo_table) demo_filo (Search 2) = Some (r, f') /\ filo_ok (HT := demo_table) f' l' /\
    found (key_of := demo_key) [10; 20] 2 r l') /\
  exists r f' l', filo_step (HT := demo_table) demo_filo (Add 30 true) = Some (r, f') /\ filo_ok (HT := demo_table) f' l' /\
    added 2 [10; 20] 30 (r =? 1) l'.
Proof.
  split; [vm_compute; reflexivity |]. split.
  - destruct (hash_filo_refines (key_of := demo_key) (HT := demo_table) demo_filo [10; 20] (Search 2) demo_filo_ok) as (r & f' & l' & Hs & Hok & Hr & _);
      [done |]. exists r, f', l'. split; [exact Hs |]. split; [exact Hok | apply Hr].
  - destruct (hash_filo_refines (key_of := demo_key) (HT := demo_table) demo_filo [10; 20] (Add 30 true) demo_filo_ok) as (r & f' & l' & Hs & Hok & Hr & _).
    + split; [cbn; set_solver |]. split; [done |]. by eexists.
    + exists r, f', l'. split; [exact Hs |]. split; [exact Hok | apply Hr].
Defined.

Lemma recently_used_survives_witness :
  exists f', uses (HT := demo_table) demo_filo [Add 30 true] f' /\ 10 ∈ hash_elems (HashTable := demo_table) (cache f').
Proof.
  assert (Ha : filo_allowed (HT := demo_table) demo_filo (Add 30 true)).
  { split; [cbn; set_solver |]. split; [done |]. by eexists. }
  destruct (add (HT := demo_table) demo_filo 30 true) as [[err f1] |] eqn:Hs; [| by vm_compute in Hs].
  exists f1. assert (Hu : uses (HT := demo_table) demo_filo [Add 30 true] f1) by (eapply uses_add; [exact Ha | exact Hs | apply uses_nil]).
  split; [exact Hu |].
  apply (recently_used_survives (key_of := demo_key) demo_filo [10; 20] [Add 30 true] f1 10 0 demo_filo_ok eq_refl Hu).
  - exists [], [20]. split; [done | cbn; lia].
  - cbn. lia.
Defined.
