(* ===== verification/QueryTables.v ===== *)
(** * QueryTables: the tables of a statement and its binlog flags ([sql_lex.h])

    [Query_tables_list] links all tables of a statement through [next_global] and
    [prev_global] (the address of the pointer to the table), its own ones first
    and behind them those that prelocking added; [query_tables_own_last] is the
    address of the pointer that ends the own part.  The members live in the store
    of Heap.v: [query_tables], [query_tables_last] and [query_tables_own_last] are
    the fields [F_first], [F_last] and [F_info] of the list, hook 0 is
    [next_global] and [prev_global] of a table.

    The second part is the two flag words that decide whether a statement is
    unsafe for the binary log.  [binlog_unsafe_map] is filled elsewhere: it is an
    argument. *)

From stdpp Require Import base numbers option gmap list.
From Stdlib Require Import ZArith Lia.
From S2P Require Import Prelude Heap DList.

Local Open Scope Z_scope.
Local Open Scope cxx_scope.

(** ** The list of tables *)

Abbreviation query_tables q := (q, F_first).
Abbreviation query_tables_last q := (q, F_last).
Abbreviation query_tables_own_last q := (q, F_info).
Abbreviation next_global t := (t, F_next 0).
Abbreviation prev_global t := (t, F_prev 0).

(* [sql_lex.h:1763-1767 add_to_query_tables] *)
Definition add_to_query_tables (q table : loc) : prog unit :=
  p ← load (query_tables_last q); store (prev_global table) p;;
  a ← as_addr p; store a (VObj table);;
  store (query_tables_last q) (VAddr (next_global table)).

(* [sql_lex.h:1768-1771 requires_prelocking] *)
Definition requires_prelocking (q : loc) : prog bool :=
  p ← load (query_tables_own_last q); mret (negb (ptr_eqb p VNull)).

(* [sql_lex.h:1772-1775 mark_as_requiring_prelocking] *)
Definition mark_as_requiring_prelocking (q : loc) (tables_own_last : val) : prog unit :=
  store (query_tables_own_last q) tables_own_last.

(* [sql_lex.h:1777-1780 first_not_own_table] *)
Definition first_not_own_table (q : loc) : prog val :=
  p ← load (query_tables_own_last q);
  if negb (ptr_eqb p VNull) then (a ← as_addr p; load a) else mret VNull.

(* [sql_lex.h:1781-1789 chop_off_not_own_tables] *)
Definition chop_off_not_own_tables (q : loc) : prog unit :=
  p ← load (query_tables_own_last q);
  if negb (ptr_eqb p VNull) then
    a ← as_addr p; store a VNull;;
    store (query_tables_last q) p;;
    store (query_tables_own_last q) VNull
  else mret tt.

(** The table whose [next_global] is at an address. *)
Definition container (v : val) : prog val :=
  match v with VAddr (t, F_next 0) => mret (VObj t) | _ => undefined end.

(* [sql_lex.h:1792-1800 last_table] *)
Definition last_table (q : loc) : prog val :=
  t ← load (query_tables q);
  if negb (ptr_eqb t VNull) then (p ← load (query_tables_last q); container p) else mret VNull.

(** The own tables, and the others once prelocking is required. *)
Record is_tables (m : mem) (q : loc) (own : list loc) (others : option (list loc)) : Prop := {
  qt_list : dlist 0 VNull (Some (query_tables_last q)) m (query_tables q) (own ++ default [] others);
  qt_own : m !! query_tables_own_last q =
    Some (if others is Some _ then VAddr (last_cell 0 (query_tables q) own) else VNull) }.

(** Adding goes to the own tables until prelocking is required. *)
Definition add_table (own : list loc) (others : option (list loc)) (t : loc) : list loc * option (list loc) :=
  match others with None => (own ++ [t], None) | Some l => (own, Some (l ++ [t])) end.

(** What an operation may write. *)
Definition footprint (q : loc) (ts : list loc) (c : addr) : Prop :=
  c = query_tables q \/ c = query_tables_last q \/ c = query_tables_own_last q \/
  exists t, t ∈ ts /\ (c = next_global t \/ c = prev_global t).

Lemma tables_apart q t : apart 0 (query_tables q) (Some (query_tables_last q)) t.
Proof. split_and!; congruence. Qed.

Lemma tables_last_cell q ts : last_cell 0 (query_tables q) ts = query_tables q \/ exists t, t ∈ ts /\ last_cell 0 (query_tables q) ts = next_global t.
Proof. apply last_cell_in_cases. Qed.

Lemma add_to_query_tables_ok m q own others t : is_tables m q own others -> t ∉ own ++ default [] others ->
  m !! next_global t = Some VNull -> is_Some (m !! prev_global t) ->
  exists m', add_to_query_tables q t m = Some (tt, m') /\
    is_tables m' q (add_table own others t).1 (add_table own others t).2 /\
    same_outside (footprint q (t :: own ++ default [] others)) m m'.
Proof.
  intros [Hl Ho] Ht Hn [v Hp]. pose proof Hl as [Hc _ Htail _]. specialize (Htail _ eq_refl).
  pose proof (chain_last _ _ _ _ _ Hc) as Hend. set (ts := own ++ default [] others) in *.
  assert (Hs : exists m', add_to_query_tables q t m = Some (tt, m') /\
    linked 0 VNull (Some (query_tables_last q)) (query_tables q) ts t [] (fun _ => False) m m').
  { unfold add_to_query_tables. destruct (tables_last_cell q ts) as [E | (k & Hk & E)]; [| assert (k <> t) by congruence]; rewrite E in *.
    all: eexists; split; [run; reflexivity |]; split; rewrite ?E; try lk.
    all: try (intros c [= <-]; lk).
    all: repeat apply same_outside_insert; try reflexivity; cbn [prev_slot]; tauto. }
  destruct Hs as (m' & Hrun & Hlk). exists m'. split; [done |].
  pose proof (linked_dlist 0 VNull (Some (query_tables_last q)) (query_tables q) ts t [] (fun _ => False) m m') as Hd. rewrite app_nil_r in Hd.
  specialize (Hd Hl Ht (fun k _ => tables_apart q k) ltac:(congruence) ltac:(tauto) Hlk).
  assert (Hsame : same_outside (footprint q (t :: ts)) m m').
  { eapply same_outside_mono; [| apply (lk_same _ _ _ _ _ _ _ _ _ _ Hlk)]. intros c [-> | [-> | [-> | [[= <-] | []]]]]; unfold footprint.
    - destruct (tables_last_cell q ts) as [-> | (k & Hk & ->)]; [tauto |]. right; right; right. exists k. split; [by right | tauto].
    - right; right; right. exists t. split; [by left | tauto].
    - right; right; right. exists t. split; [by left | tauto].
    - tauto. }
  split; [| done].
  assert (Hown : m' !! query_tables_own_last q = m !! query_tables_own_last q).
  { apply (lk_same _ _ _ _ _ _ _ _ _ _ Hlk). intros [E | [E | [E | [[= E] | []]]]]; try congruence.
    destruct (tables_last_cell q ts) as [E2 | (k & Hk & E2)]; congruence. }
  unfold ts in *. destruct others as [l |]; cbn [add_table fst snd default from_option id] in *; split; cbn [default from_option id].
  - by rewrite app_assoc.
  - by rewrite Hown.
  - rewrite app_nil_r in *. done.
  - by rewrite Hown.
Qed.

Lemma tables_full m q own others own' others' : is_tables m q own others -> own ++ default [] others = own' ++ default [] others' ->
  forall m', m' !! query_tables_own_last q = Some (if others' is Some _ then VAddr (last_cell 0 (query_tables q) own') else VNull) ->
  same_outside (fun c => c = query_tables_own_last q) m m' -> is_tables m' q own' others'.
Proof.
  intros [Hl _] E m' Ho Hs. split; [| done]. rewrite <- E. eapply dlist_frame; [| exact Hl].
  intros c Hc. apply Hs. intros ->. destruct Hc as [? | [? | (k & _ & [? | ?])]]; congruence.
Qed.

(** The position may be anywhere in the list, for example its present end. *)
Lemma mark_ok m q own others l1 l2 : is_tables m q own others -> own ++ default [] others = l1 ++ l2 ->
  exists m', mark_as_requiring_prelocking q (VAddr (last_cell 0 (query_tables q) l1)) m = Some (tt, m') /\ is_tables m' q l1 (Some l2) /\
    same_outside (fun c => c = query_tables_own_last q) m m'.
Proof.
  intros Hq E. pose proof (qt_own _ _ _ _ Hq) as Ho. unfold mark_as_requiring_prelocking. eexists. split; [run; reflexivity |]. split.
  - eapply tables_full; [exact Hq | exact E | lk |]. apply same_outside_insert; [done | reflexivity].
  - apply same_outside_insert; [done | reflexivity].
Qed.

Lemma requires_prelocking_eq m q own others : is_tables m q own others ->
  requires_prelocking q m = Some (bool_decide (is_Some others), m).
Proof.
  intros [_ Ho]. unfold requires_prelocking. erewrite run_load by exact Ho. cbv beta. destruct others; [| done].
  rewrite bool_decide_eq_false_2 by done. by rewrite bool_decide_eq_true_2.
Qed.

Lemma first_not_own_table_eq m q own others : is_tables m q own others ->
  first_not_own_table q m = Some (head_ptr (default [] others) VNull, m).
Proof.
  intros [Hl Ho]. unfold first_not_own_table. destruct others as [l |]; [| run; done].
  destruct Hl as [Hc _ _ _]. apply chain_app in Hc as [_ Hc]. pose proof (chain_head _ _ _ _ _ Hc) as Hh. run. done.
Qed.

Lemma last_table_eq m q own others : is_tables m q own others ->
  last_table q m = Some (if last (own ++ default [] others) is Some t then VObj t else VNull, m).
Proof.
  intros [[Hc _ Ht _] _]. specialize (Ht _ eq_refl). pose proof (chain_head _ _ _ _ _ Hc) as Hh. unfold last_table.
  destruct (own ++ default [] others) as [| t ts _] using rev_ind; [run; done |]. rewrite last_snoc. rewrite last_cell_snoc in Ht.
  destruct ts as [| t' ts]; cbn [app head_ptr] in Hh; run; done.
Qed.

Lemma chop_off_ok m q own others : is_tables m q own others ->
  exists m', chop_off_not_own_tables q m = Some (tt, m') /\ is_tables m' q own None /\
    same_outside (footprint q own) m m'.
Proof.
  intros Hq. pose proof Hq as [Hl Ho]. unfold chop_off_not_own_tables. destruct others as [l |].
  - pose proof Hl as [Hc Hp Ht Hnd]. cbn [default from_option id] in *. apply chain_app in Hc as [Hc1 Hc2]. apply prevs_app in Hp as [Hp1 _].
    pose proof (chain_head _ _ _ _ _ Hc2) as Hh. specialize (Ht _ eq_refl). apply NoDup_app in Hnd as (Hnd & _ & _).
    assert (Hcn : NoDup (cells 0 (query_tables q) own)) by (apply NoDup_cells; [done | congruence]).
    destruct (tables_last_cell q own) as [E | (k & Hk & E)]; rewrite E in Ho, Hh; (eexists; split; [run; reflexivity |]; split; [split; [split |] |]).
    all: try lk.
    all: try (rewrite app_nil_r; eapply chain_retarget; [done | | rewrite E; lk | exact Hc1];
      intros c Hc Hne; rewrite E in Hne; apply elem_of_cells in Hc as [-> | (j & Hj & ->)]; first [congruence | by lk]).
    all: try (rewrite app_nil_r; eapply prevs_frame; [| exact Hp1]; intros j Hj; lk).
    all: try (intros c [= <-]; rewrite app_nil_r, E; lk).
    all: try (by rewrite app_nil_r).
    all: try (repeat apply same_outside_insert; try reflexivity; unfold footprint; eauto 8).
  - exists m. run. split; [done |]. split; [done | reflexivity].
Qed.

(** A table ready to be added: allocated, with [next_global] NULL. *)
Definition new_table (m : mem) (t : loc) : Prop := m !! next_global t = Some VNull /\ is_Some (m !! prev_global t).

Lemma new_table_outside m m' q ts t : same_outside (footprint q ts) m m' -> t ∉ ts -> new_table m t -> new_table m' t.
Proof.
  intros Hs Ht [Hn Hp].
  assert (Hout : forall f, f = F_next 0 \/ f = F_prev 0 -> m' !! (t, f) = m !! (t, f)).
  { intros f Hf. apply Hs. intros [? | [? | [? | (k & Hk & [? | ?])]]]; destruct Hf as [-> | ->]; congruence. }
  split; rewrite Hout; [done | by left | done | by right].
Qed.

Fixpoint add_tables (q : loc) (ts : list loc) : prog unit :=
  match ts with [] => mret tt | t :: ts => add_to_query_tables q t;; add_tables q ts end.

Lemma add_tables_ok ts : forall m q own others, is_tables m q own others -> NoDup ts ->
  (forall t, t ∈ ts -> t ∉ own ++ default [] others /\ new_table m t) ->
  exists m', add_tables q ts m = Some (tt, m') /\
    is_tables m' q (if others is Some _ then own else own ++ ts) (l ← others; Some (l ++ ts)) /\
    same_outside (footprint q (own ++ default [] others ++ ts)) m m'.
Proof.
  induction ts as [| t ts IH]; intros m q own others Hq Hn Hts.
  { exists m. split; [done |]. split; [| reflexivity]. destruct others as [l |]; cbn; by rewrite app_nil_r. }
  apply NoDup_cons in Hn as [Hnt Hn]. destruct (Hts t) as [Ht [Hnext Hprev]]; [by left |].
  destruct (add_to_query_tables_ok m q own others t Hq Ht Hnext Hprev) as (m1 & Hr1 & Hq1 & Hs1).
  cbn [add_tables]. rewrite (run_bind _ _ _ _ _ Hr1).
  destruct (IH m1 q _ _ Hq1 Hn) as (m2 & Hr2 & Hq2 & Hs2).
  { intros k Hk. destruct (Hts k) as [Hk1 Hk2]; [by right |]. assert (k <> t) by (intros ->; by apply Hnt). split.
    - destruct others; cbn [add_table fst snd default from_option id] in *; elem_tac.
    - eapply new_table_outside; [exact Hs1 | elem_tac | done]. }
  exists m2. split; [done |]. split.
  - destruct others as [l |]; cbn in *; by rewrite <- app_assoc in Hq2.
  - etransitivity; [eapply same_outside_mono; [| exact Hs1] | eapply same_outside_mono; [| exact Hs2]];
      intros c [? | [? | [? | (k & Hk & ?)]]]; unfold footprint; try tauto; right; right; right; exists k; (split; [| done]);
      destruct others; cbn [add_table fst snd default from_option id] in *; elem_tac.
Qed.

(** C35: prelocking is undone exactly: tables added after
    [mark_as_requiring_prelocking] follow the statement's own tables,
    [first_not_own_table] finds the first of them and [last_table] the last of
    all, and [chop_off_not_own_tables] gives back the statement's own list, to
    which tables can be added again; no other memory is written. *)
Theorem prelocking_is_undone m q own ts :
  is_tables m q own None -> NoDup ts -> (forall t, t ∈ ts -> t ∉ own /\ new_table m t) ->
  exists m1 m2,
    (p ← load (query_tables_last q); mark_as_requiring_prelocking q p;; add_tables q ts) m = Some (tt, m1) /\
    requires_prelocking q m1 = Some (true, m1) /\
    first_not_own_table q m1 = Some (head_ptr ts VNull, m1) /\
    last_table q m1 = Some (if last (own ++ ts) is Some t then VObj t else VNull, m1) /\
    chop_off_not_own_tables q m1 = Some (tt, m2) /\ is_tables m2 q own None /\
    requires_prelocking q m2 = Some (false, m2) /\ same_outside (footprint q (own ++ ts)) m m2.
Proof.
  intros Hq Hn Hts. pose proof (dl_tail _ _ _ _ _ _ (qt_list _ _ _ _ Hq) _ eq_refl) as Ht. cbn [default] in Ht. rewrite app_nil_r in Ht.
  destruct (mark_ok m q own None own [] Hq eq_refl) as (m0 & Hr0 & Hq0 & Hs0).
  destruct (add_tables_ok ts m0 q own (Some []) Hq0 Hn) as (m1 & Hr1 & Hq1 & Hs1).
  { intros t Hin. destruct (Hts t Hin) as [Ho [H1 H2]]. cbn. rewrite app_nil_r. split; [done |].
    split; rewrite Hs0 by congruence; done. }
  destruct (chop_off_ok m1 q own _ Hq1) as (m2 & Hr2 & Hq2 & Hs2). exists m1, m2.
  split; [rewrite (run_load _ _ _ _ Ht), (run_bind _ _ _ _ _ Hr0); exact Hr1 |].
  split; [apply (requires_prelocking_eq _ _ _ _ Hq1) |]. split; [apply (first_not_own_table_eq _ _ _ _ Hq1) |].
  split; [apply (last_table_eq _ _ _ _ Hq1) |]. split; [exact Hr2 |]. split; [exact Hq2 |].
  split; [apply (requires_prelocking_eq _ _ _ _ Hq2) |].
  etransitivity; [eapply same_outside_mono; [| exact Hs0] | etransitivity; [eapply same_outside_mono; [| exact Hs1] | eapply same_outside_mono; [| exact Hs2]]].
  - intros c ->. unfold footprint. tauto.
  - intros c [? | [? | [? | (k & Hk & ?)]]]; unfold footprint; try tauto. right; right; right. exists k. split; [cbn in Hk; elem_tac | done].
  - intros c [? | [? | [? | (k & Hk & ?)]]]; unfold footprint; try tauto. right; right; right. exists k. split; [elem_tac | done].
Qed.

(** ** Why a statement is unsafe *)

(* [sql_lex.h:1809-1939 enum_binlog_stmt_unsafe] *)
Inductive enum_binlog_stmt_unsafe :=
  | BINLOG_STMT_UNSAFE_LIMIT | BINLOG_STMT_UNSAFE_INSERT_DELAYED | BINLOG_STMT_UNSAFE_SYSTEM_TABLE
  | BINLOG_STMT_UNSAFE_AUTOINC_COLUMNS | BINLOG_STMT_UNSAFE_UDF | BINLOG_STMT_UNSAFE_SYSTEM_VARIABLE
  | BINLOG_STMT_UNSAFE_SYSTEM_FUNCTION | BINLOG_STMT_UNSAFE_NONTRANS_AFTER_TRANS
  | BINLOG_STMT_UNSAFE_MULTIPLE_ENGINES_AND_SELF_LOGGING_ENGINE | BINLOG_STMT_UNSAFE_MIXED_STATEMENT
  | BINLOG_STMT_UNSAFE_INSERT_IGNORE_SELECT | BINLOG_STMT_UNSAFE_INSERT_SELECT_UPDATE
  | BINLOG_STMT_UNSAFE_WRITE_AUTOINC_SELECT | BINLOG_STMT_UNSAFE_REPLACE_SELECT
  | BINLOG_STMT_UNSAFE_CREATE_IGNORE_SELECT | BINLOG_STMT_UNSAFE_CREATE_REPLACE_SELECT
  | BINLOG_STMT_UNSAFE_CREATE_SELECT_AUTOINC | BINLOG_STMT_UNSAFE_UPDATE_IGNORE
  | BINLOG_STMT_UNSAFE_INSERT_TWO_KEYS | BINLOG_STMT_UNSAFE_AUTOINC_NOT_FIRST.

#[export] Instance unsafe_eq_dec : EqDecision enum_binlog_stmt_unsafe.
Proof. solve_decision. Defined.

(** The values of the enumerators. *)
Definition unsafe_code (u : enum_binlog_stmt_unsafe) : Z :=
  match u with
  | BINLOG_STMT_UNSAFE_LIMIT => 0 | BINLOG_STMT_UNSAFE_INSERT_DELAYED => 1 | BINLOG_STMT_UNSAFE_SYSTEM_TABLE => 2
  | BINLOG_STMT_UNSAFE_AUTOINC_COLUMNS => 3 | BINLOG_STMT_UNSAFE_UDF => 4 | BINLOG_STMT_UNSAFE_SYSTEM_VARIABLE => 5
  | BINLOG_STMT_UNSAFE_SYSTEM_FUNCTION => 6 | BINLOG_STMT_UNSAFE_NONTRANS_AFTER_TRANS => 7
  | BINLOG_STMT_UNSAFE_MULTIPLE_ENGINES_AND_SELF_LOGGING_ENGINE => 8 | BINLOG_STMT_UNSAFE_MIXED_STATEMENT => 9
  | BINLOG_STMT_UNSAFE_INSERT_IGNORE_SELECT => 10 | BINLOG_STMT_UNSAFE_INSERT_SELECT_UPDATE => 11
  | BINLOG_STMT_UNSAFE_WRITE_AUTOINC_SELECT => 12 | BINLOG_STMT_UNSAFE_REPLACE_SELECT => 13
  | BINLOG_STMT_UNSAFE_CREATE_IGNORE_SELECT => 14 | BINLOG_STMT_UNSAFE_CREATE_REPLACE_SELECT => 15
  | BINLOG_STMT_UNSAFE_CREATE_SELECT_AUTOINC => 16 | BINLOG_STMT_UNSAFE_UPDATE_IGNORE => 17
  | BINLOG_STMT_UNSAFE_INSERT_TWO_KEYS => 18 | BINLOG_STMT_UNSAFE_AUTOINC_NOT_FIRST => 19
  end.
Definition BINLOG_STMT_UNSAFE_COUNT : Z := 20.

(* [sql_lex.h:1944-1945 BINLOG_STMT_UNSAFE_ALL_FLAGS] *)
Definition BINLOG_STMT_UNSAFE_ALL_FLAGS : Z := u32 (u32 (1 <<< BINLOG_STMT_UNSAFE_COUNT) - 1).

(** The members [binlog_stmt_flags] and [stmt_accessed_table_flag]. *)
(* [sql_lex.h:2334-2340 binlog_stmt_flags] *)
Record stmt_flags := Flags { binlog_stmt_flags : Z; stmt_accessed_table_flag : Z }.

(* [sql_lex.h:2002-2005 get_stmt_unsafe_flags] *)
Definition get_stmt_unsafe_flags (f : stmt_flags) : Z := binlog_stmt_flags f &&& BINLOG_STMT_UNSAFE_ALL_FLAGS.
(* [sql_lex.h:1958-1960 is_stmt_unsafe] *)
Definition is_stmt_unsafe (f : stmt_flags) : bool := negb (get_stmt_unsafe_flags f =? 0).
(* [sql_lex.h:1962-1965 is_stmt_unsafe] *)
Definition is_stmt_unsafe_for (f : stmt_flags) (unsafe : enum_binlog_stmt_unsafe) : bool :=
  negb (binlog_stmt_flags f &&& u32 (1 <<< unsafe_code unsafe) =? 0).
(* [sql_lex.h:1974-1979 set_stmt_unsafe] *)
Definition set_stmt_unsafe (f : stmt_flags) (unsafe_type : enum_binlog_stmt_unsafe) : stmt_flags :=
  Flags (binlog_stmt_flags f ||| u32 (1 <<< unsafe_code unsafe_type)) (stmt_accessed_table_flag f).
(* [sql_lex.h:1989-1994 set_stmt_unsafe_flags] *)
Definition set_stmt_unsafe_flags (f : stmt_flags) (flags : Z) : option stmt_flags :=
  if flags &&& wnot 32 BINLOG_STMT_UNSAFE_ALL_FLAGS =? 0
  then Some (Flags (binlog_stmt_flags f ||| flags) (stmt_accessed_table_flag f)) else None.
(* [sql_lex.h:2012-2016 clear_stmt_unsafe] *)
Definition clear_stmt_unsafe (f : stmt_flags) : stmt_flags :=
  Flags (binlog_stmt_flags f &&& wnot 32 BINLOG_STMT_UNSAFE_ALL_FLAGS) (stmt_accessed_table_flag f).

(* [sql_lex.h:2308-2317 BINLOG_STMT_TYPE_ROW_INJECTION] *)
Definition BINLOG_STMT_TYPE_ROW_INJECTION : Z := 0.
(* [sql_lex.h:2024-2027 is_stmt_row_injection] *)
Definition is_stmt_row_injection (f : stmt_flags) : bool :=
  negb (binlog_stmt_flags f &&& u32 (1 <<< (BINLOG_STMT_UNSAFE_COUNT + BINLOG_STMT_TYPE_ROW_INJECTION)) =? 0).
(* [sql_lex.h:2034-2039 set_stmt_row_injection] *)
Definition set_stmt_row_injection (f : stmt_flags) : stmt_flags :=
  Flags (binlog_stmt_flags f ||| u32 (1 <<< (BINLOG_STMT_UNSAFE_COUNT + BINLOG_STMT_TYPE_ROW_INJECTION))) (stmt_accessed_table_flag f).

(* [sql_lex.h:2041-2084 enum_stmt_accessed_table] *)
Inductive enum_stmt_accessed_table :=
  | STMT_READS_TRANS_TABLE | STMT_READS_NON_TRANS_TABLE | STMT_READS_TEMP_TRANS_TABLE | STMT_READS_TEMP_NON_TRANS_TABLE
  | STMT_WRITES_TRANS_TABLE | STMT_WRITES_NON_TRANS_TABLE | STMT_WRITES_TEMP_TRANS_TABLE | STMT_WRITES_TEMP_NON_TRANS_TABLE.

#[export] Instance access_eq_dec : EqDecision enum_stmt_accessed_table.
Proof. solve_decision. Defined.

Definition access_code (a : enum_stmt_accessed_table) : Z :=
  match a with
  | STMT_READS_TRANS_TABLE => 0 | STMT_READS_NON_TRANS_TABLE => 1 | STMT_READS_TEMP_TRANS_TABLE => 2
  | STMT_READS_TEMP_NON_TRANS_TABLE => 3 | STMT_WRITES_TRANS_TABLE => 4 | STMT_WRITES_NON_TRANS_TABLE => 5
  | STMT_WRITES_TEMP_TRANS_TABLE => 6 | STMT_WRITES_TEMP_NON_TRANS_TABLE => 7
  end.

(* [sql_lex.h:2125-2127 BINLOG_DIRECT_ON] *)
Definition BINLOG_DIRECT_ON : Z := 0xF0.
(* [sql_lex.h:2129-2131 BINLOG_DIRECT_OFF] *)
Definition BINLOG_DIRECT_OFF : Z := 0xF.
(* [sql_lex.h:2133-2133 TRX_CACHE_EMPTY] *)
Definition TRX_CACHE_EMPTY : Z := 0x33.
(* [sql_lex.h:2135-2135 TRX_CACHE_NOT_EMPTY] *)
Definition TRX_CACHE_NOT_EMPTY : Z := 0xCC.
(* [sql_lex.h:2137-2137 IL_LT_REPEATABLE] *)
Definition IL_LT_REPEATABLE : Z := 0xAA.
(* [sql_lex.h:2139-2139 IL_GTE_REPEATABLE] *)
Definition IL_GTE_REPEATABLE : Z := 0x55.
(* [handler.h:1938-1939 enum_tx_isolation] *)
Definition ISO_REPEATABLE_READ : Z := 2.

(* [sql_lex.h:2148-2156 set_stmt_accessed_table] *)
Definition set_stmt_accessed_table (f : stmt_flags) (accessed_table : enum_stmt_accessed_table) : stmt_flags :=
  Flags (binlog_stmt_flags f) (stmt_accessed_table_flag f ||| u32 (1 <<< access_code accessed_table)).
(* [sql_lex.h:2169-2176 stmt_accessed_table] *)
Definition stmt_accessed_table (f : stmt_flags) (accessed_table : enum_stmt_accessed_table) : bool :=
  negb (stmt_accessed_table_flag f &&& u32 (1 <<< access_code accessed_table) =? 0).

Definition accesses (f : stmt_flags) (a b : enum_stmt_accessed_table) : bool :=
  negb (stmt_accessed_table_flag f &&& (u32 (1 <<< access_code a) ||| u32 (1 <<< access_code b)) =? 0).
(* [sql_lex.h:2201-2208 stmt_accessed_trans_temp_table] *)
Definition stmt_accessed_trans_temp_table (f : stmt_flags) : bool := accesses f STMT_READS_TEMP_TRANS_TABLE STMT_WRITES_TEMP_TRANS_TABLE.
(* [sql_lex.h:2209-2216 stmt_writes_to_non_temp_table] *)
Definition stmt_writes_to_non_temp_table (f : stmt_flags) : bool := accesses f STMT_WRITES_TRANS_TABLE STMT_WRITES_NON_TRANS_TABLE.
(* [sql_lex.h:2227-2234 stmt_accessed_non_trans_temp_table] *)
Definition stmt_accessed_non_trans_temp_table (f : stmt_flags) : bool :=
  accesses f STMT_READS_TEMP_NON_TRANS_TABLE STMT_WRITES_TEMP_NON_TRANS_TABLE.
(* [sql_lex.h:2186-2191 stmt_accessed_temp_table] *)
Definition stmt_accessed_temp_table (f : stmt_flags) : bool :=
  stmt_accessed_non_trans_temp_table f || stmt_accessed_trans_temp_table f.

(** [binlog_unsafe_map] is an array of 256 words; reading behind it has no result. *)
(* [sql_lex.h:2251-2292 is_mixed_stmt_unsafe] *)
Definition is_mixed_stmt_unsafe (binlog_unsafe_map : list Z) (f : stmt_flags)
    (in_multi_stmt_transaction_mode binlog_direct trx_cache_is_not_empty : bool) (tx_isolation : Z) : option bool :=
  unsafe ← (if in_multi_stmt_transaction_mode then
      let condition :=
        (if binlog_direct then BINLOG_DIRECT_ON else BINLOG_DIRECT_OFF) &&&
        (if trx_cache_is_not_empty then TRX_CACHE_NOT_EMPTY else TRX_CACHE_EMPTY) &&&
        (if ISO_REPEATABLE_READ <=? tx_isolation then IL_GTE_REPEATABLE else IL_LT_REPEATABLE) in
      w ← binlog_unsafe_map !! Z.to_nat (stmt_accessed_table_flag f);
      Some (negb (w &&& condition =? 0))
    else Some false);
  Some (if stmt_accessed_table f STMT_WRITES_NON_TRANS_TABLE && stmt_accessed_table f STMT_READS_TRANS_TABLE &&
           (tx_isolation <? ISO_REPEATABLE_READ) then true
        else if stmt_accessed_table f STMT_WRITES_TEMP_NON_TRANS_TABLE && stmt_accessed_table f STMT_READS_TRANS_TABLE &&
           (tx_isolation <? ISO_REPEATABLE_READ) then true
        else unsafe).

(** *** What the words mean *)

Lemma unsafe_code_inj u v : unsafe_code u = unsafe_code v -> u = v.
Proof. by destruct u, v. Qed.
Lemma unsafe_code_range u : 0 <= unsafe_code u < BINLOG_STMT_UNSAFE_COUNT.
Proof. unfold BINLOG_STMT_UNSAFE_COUNT. destruct u; cbn; lia. Qed.
Lemma access_code_inj a b : access_code a = access_code b -> a = b.
Proof. by destruct a, b. Qed.
Lemma access_code_range a : 0 <= access_code a < 8.
Proof. destruct a; cbn; lia. Qed.

Lemma test_bit_word w n : 0 <= n < 32 -> negb (w &&& u32 (1 <<< n) =? 0) = Z.testbit w n.
Proof.
  intros Hn. pose proof (is_word_shiftl1 32 n ltac:(lia)) as Hw. rewrite (u32_small _ Hw), land_single_bit by lia. apply negb_involutive.
Qed.

Lemma set_bit_word w n k : 0 <= n < 32 -> Z.testbit (w ||| u32 (1 <<< n)) k = (k =? n) || Z.testbit w k.
Proof.
  intros Hn. pose proof (is_word_shiftl1 32 n ltac:(lia)) as Hw. rewrite (u32_small _ Hw), Z.lor_spec, testbit_shiftl1 by lia. apply orb_comm.
Qed.

Lemma all_flags_bits n : 0 <= n -> Z.testbit BINLOG_STMT_UNSAFE_ALL_FLAGS n = (n <? 20).
Proof. intros Hn. change BINLOG_STMT_UNSAFE_ALL_FLAGS with (Z.ones 20). by rewrite Z.testbit_ones_nonneg by lia. Qed.

Lemma not_all_flags_bits n : 0 <= n < 32 -> Z.testbit (wnot 32 BINLOG_STMT_UNSAFE_ALL_FLAGS) n = (20 <=? n).
Proof.
  intros Hn. rewrite testbit_wnot, all_flags_bits by lia. rewrite (proj2 (Z.ltb_lt n 32)) by lia.
  destruct (Z.ltb_spec n 20), (Z.leb_spec 20 n); (lia || done).
Qed.

Lemma unsafe_for_bit f u : is_stmt_unsafe_for f u = Z.testbit (binlog_stmt_flags f) (unsafe_code u).
Proof. pose proof (unsafe_code_range u) as Hu. unfold BINLOG_STMT_UNSAFE_COUNT in Hu. apply test_bit_word. lia. Qed.

Lemma row_injection_bit f : is_stmt_row_injection f = Z.testbit (binlog_stmt_flags f) 20.
Proof. by apply (test_bit_word _ 20). Qed.

Lemma accessed_bit f a : stmt_accessed_table f a = Z.testbit (stmt_accessed_table_flag f) (access_code a).
Proof. pose proof (access_code_range a) as Ha. apply test_bit_word. lia. Qed.

Definition all_unsafe : list enum_binlog_stmt_unsafe :=
  [BINLOG_STMT_UNSAFE_LIMIT; BINLOG_STMT_UNSAFE_INSERT_DELAYED; BINLOG_STMT_UNSAFE_SYSTEM_TABLE;
   BINLOG_STMT_UNSAFE_AUTOINC_COLUMNS; BINLOG_STMT_UNSAFE_UDF; BINLOG_STMT_UNSAFE_SYSTEM_VARIABLE;
   BINLOG_STMT_UNSAFE_SYSTEM_FUNCTION; BINLOG_STMT_UNSAFE_NONTRANS_AFTER_TRANS;
   BINLOG_STMT_UNSAFE_MULTIPLE_ENGINES_AND_SELF_LOGGING_ENGINE; BINLOG_STMT_UNSAFE_MIXED_STATEMENT;
   BINLOG_STMT_UNSAFE_INSERT_IGNORE_SELECT; BINLOG_STMT_UNSAFE_INSERT_SELECT_UPDATE;
   BINLOG_STMT_UNSAFE_WRITE_AUTOINC_SELECT; BINLOG_STMT_UNSAFE_REPLACE_SELECT;
   BINLOG_STMT_UNSAFE_CREATE_IGNORE_SELECT; BINLOG_STMT_UNSAFE_CREATE_REPLACE_SELECT;
   BINLOG_STMT_UNSAFE_CREATE_SELECT_AUTOINC; BINLOG_STMT_UNSAFE_UPDATE_IGNORE;
   BINLOG_STMT_UNSAFE_INSERT_TWO_KEYS; BINLOG_STMT_UNSAFE_AUTOINC_NOT_FIRST].

Lemma unsafe_code_onto n : 0 <= n < BINLOG_STMT_UNSAFE_COUNT -> exists u, unsafe_code u = n.
Proof.
  intros Hn. assert (Hin : n ∈ unsafe_code <$> all_unsafe) by (change (n ∈ seqZ 0 20); by apply elem_of_seqZ).
  apply list_elem_of_fmap in Hin as (u & -> & _). by exists u.
Qed.

Lemma unsafe_flags_bits f n : 0 <= n -> Z.testbit (get_stmt_unsafe_flags f) n = (n <? 20) && Z.testbit (binlog_stmt_flags f) n.
Proof. intros Hn. unfold get_stmt_unsafe_flags. rewrite Z.land_spec, all_flags_bits by done. apply andb_comm. Qed.

Lemma is_stmt_unsafe_exists f : is_stmt_unsafe f = true <-> exists u, is_stmt_unsafe_for f u = true.
Proof.
  unfold is_stmt_unsafe. rewrite negb_true_iff, Z.eqb_neq, word_nonzero_bit by (apply Z.land_nonneg; by right). split.
  - intros (n & Hn & Hb). rewrite unsafe_flags_bits in Hb by done. apply andb_true_iff in Hb as [Hlt Hb]. apply Z.ltb_lt in Hlt.
    destruct (unsafe_code_onto n) as [u <-]; [done |]. exists u. by rewrite unsafe_for_bit.
  - intros [u Hu]. rewrite unsafe_for_bit in Hu. pose proof (unsafe_code_range u) as [H0 H1]. exists (unsafe_code u). split; [done |].
    rewrite unsafe_flags_bits, Hu, (proj2 (Z.ltb_lt _ _)) by done. done.
Qed.

Lemma unsafe_code_eqb u v : (unsafe_code v =? unsafe_code u) = bool_decide (u = v).
Proof.
  case_bool_decide as H; [subst; apply Z.eqb_refl |]. apply Z.eqb_neq. intros E. by apply H, unsafe_code_inj.
Qed.

(** [binlog_stmt_flags] is a set of reasons and one separate flag:
    [set_stmt_unsafe] adds its reason and no other, [set_stmt_unsafe_flags] with
    the flags of another statement adds its reasons (and accepts exactly such
    words), [clear_stmt_unsafe] removes all of them, none touches the
    row-injection flag, which [set_stmt_row_injection] sets alone, and the
    statement is unsafe when it has a reason. *)
Theorem binlog_flags_are_sets f g u v :
  is_stmt_unsafe_for (set_stmt_unsafe f u) v = bool_decide (u = v) || is_stmt_unsafe_for f v /\
  is_stmt_row_injection (set_stmt_unsafe f u) = is_stmt_row_injection f /\
  is_stmt_unsafe_for (clear_stmt_unsafe f) v = false /\
  is_stmt_row_injection (clear_stmt_unsafe f) = is_stmt_row_injection f /\
  is_stmt_unsafe_for (set_stmt_row_injection f) v = is_stmt_unsafe_for f v /\
  is_stmt_row_injection (set_stmt_row_injection f) = true /\
  (is_stmt_unsafe f = true <-> exists w, is_stmt_unsafe_for f w = true) /\
  exists f', set_stmt_unsafe_flags f (get_stmt_unsafe_flags g) = Some f' /\
    is_stmt_unsafe_for f' v = is_stmt_unsafe_for f v || is_stmt_unsafe_for g v /\ is_stmt_row_injection f' = is_stmt_row_injection f.
Proof.
  pose proof (unsafe_code_range u) as Hu. pose proof (unsafe_code_range v) as Hv. unfold BINLOG_STMT_UNSAFE_COUNT in *.
  rewrite !row_injection_bit, !unsafe_for_bit.
  unfold set_stmt_unsafe, clear_stmt_unsafe, set_stmt_row_injection, BINLOG_STMT_UNSAFE_COUNT, BINLOG_STMT_TYPE_ROW_INJECTION. cbn [binlog_stmt_flags].
  change (20 + 0) with 20. rewrite !set_bit_word, !Z.land_spec, !not_all_flags_bits, unsafe_code_eqb by lia.
  rewrite (proj2 (Z.eqb_neq 20 (unsafe_code u))), (proj2 (Z.eqb_neq (unsafe_code v) 20)), (proj2 (Z.leb_gt 20 (unsafe_code v))) by lia.
  rewrite andb_false_r, andb_true_r. cbn [orb Z.eqb]. do 6 (split; [done |]). split; [apply is_stmt_unsafe_exists |].
  unfold set_stmt_unsafe_flags. rewrite (proj2 (Z.eqb_eq _ _)).
  - eexists. split; [reflexivity |]. rewrite row_injection_bit, unsafe_for_bit. cbn [binlog_stmt_flags].
    rewrite !Z.lor_spec, !unsafe_flags_bits, (proj2 (Z.ltb_lt (unsafe_code v) 20)) by lia. split; [done | apply orb_false_r].
  - apply Z.bits_inj'. intros n Hn. rewrite Z.land_spec, unsafe_flags_bits, testbit_wnot, all_flags_bits, Z.testbit_0_l by lia.
    by destruct (n <? 20), (n <? 32), (Z.testbit (binlog_stmt_flags g) n).
Qed.

(** *** Tables that are accessed *)

Definition accessed (l : list enum_stmt_accessed_table) : stmt_flags := foldl set_stmt_accessed_table (Flags 0 0) l.

Lemma accessed_snoc l a : accessed (l ++ [a]) = set_stmt_accessed_table (accessed l) a.
Proof. unfold accessed. by rewrite foldl_snoc. Qed.

Lemma accessed_byte l : is_word 8 (stmt_accessed_table_flag (accessed l)).
Proof.
  induction l as [| a l IH] using rev_ind; [by split |]. rewrite accessed_snoc. apply is_word_lor; [lia | exact IH |].
  pose proof (access_code_range a) as Ha. pose proof (is_word_shiftl1 8 (access_code a) Ha) as Hw.
  rewrite u32_small; [done |]. unfold is_word in Hw. lia.
Qed.

Lemma accessed_iff l b : stmt_accessed_table (accessed l) b = bool_decide (b ∈ l).
Proof.
  pose proof (access_code_range b) as Hb. induction l as [| a l IH] using rev_ind.
  { rewrite accessed_bit, bool_decide_eq_false_2 by apply not_elem_of_nil. apply Z.testbit_0_l. }
  rewrite accessed_snoc, accessed_bit. cbn [set_stmt_accessed_table stmt_accessed_table_flag].
  pose proof (access_code_range a) as Ha. rewrite set_bit_word, <- accessed_bit, IH by lia.
  destruct (Z.eqb_spec (access_code b) (access_code a)) as [E | Hne].
  - apply access_code_inj in E as ->. symmetry. cbn. apply bool_decide_eq_true. elem_tac.
  - cbn. apply bool_decide_ext. rewrite elem_of_app, list_elem_of_singleton. naive_solver.
Qed.

Lemma accesses_iff l a b : accesses (accessed l) a b = bool_decide (a ∈ l \/ b ∈ l).
Proof.
  unfold accesses. rewrite Z.land_lor_distr_r. rewrite bool_decide_or, <- !accessed_iff. unfold stmt_accessed_table.
  set (x := _ &&& u32 (1 <<< access_code a)). set (y := _ &&& u32 (1 <<< access_code b)).
  destruct (Z.eqb_spec (x ||| y) 0) as [E | Hne].
  - apply Z.lor_eq_0_iff in E as [-> ->]. done.
  - symmetry. apply orb_true_iff. rewrite !negb_true_iff, !Z.eqb_neq. destruct (decide (x = 0)) as [-> |]; [| by left].
    right. intros ->. by apply Hne.
Qed.

(** The bit of the map that stands for the situation. *)
Definition situation (binlog_direct trx_cache_is_not_empty : bool) (tx_isolation : Z) : Z :=
  4 * Z.b2z binlog_direct + 2 * Z.b2z trx_cache_is_not_empty + Z.b2z (tx_isolation <? ISO_REPEATABLE_READ).

Lemma condition_bit w (d c : bool) iso :
  negb (w &&& ((if d then BINLOG_DIRECT_ON else BINLOG_DIRECT_OFF) &&& (if c then TRX_CACHE_NOT_EMPTY else TRX_CACHE_EMPTY) &&&
    (if ISO_REPEATABLE_READ <=? iso then IL_GTE_REPEATABLE else IL_LT_REPEATABLE)) =? 0) = Z.testbit w (situation d c iso).
Proof.
  unfold situation. assert (Hi : (ISO_REPEATABLE_READ <=? iso) = negb (iso <? ISO_REPEATABLE_READ)) by (apply Z.leb_antisym).
  rewrite Hi. destruct d, c, (iso <? ISO_REPEATABLE_READ); cbn [negb Z.b2z];
    match goal with |- negb (_ &&& ?c =? 0) = Z.testbit _ ?n => change c with (1 <<< n) end; rewrite land_single_bit by lia; apply negb_involutive.
Qed.

(** what makes a mixed statement unsafe: the three conditions select
    exactly one bit of the map's word for the set of accessed tables (which is
    always one of its 256 words); besides, below repeatable read a write to a
    non-transactional table, temporary or not, with a read of a transactional one
    is unsafe in and outside of transactions. *)
Theorem mixed_unsafe_spec (binlog_unsafe_map : list Z) l in_multi direct not_empty iso :
  length binlog_unsafe_map = 256%nat ->
  exists w, binlog_unsafe_map !! Z.to_nat (stmt_accessed_table_flag (accessed l)) = Some w /\
    is_mixed_stmt_unsafe binlog_unsafe_map (accessed l) in_multi direct not_empty iso = Some
      (bool_decide (iso < ISO_REPEATABLE_READ /\ STMT_READS_TRANS_TABLE ∈ l /\
         (STMT_WRITES_NON_TRANS_TABLE ∈ l \/ STMT_WRITES_TEMP_NON_TRANS_TABLE ∈ l)) ||
       in_multi && Z.testbit w (situation direct not_empty iso)).
Proof.
  intros Hlen. pose proof (accessed_byte l) as Hw. unfold is_word in Hw. change (2 ^ 8) with 256 in Hw.
  destruct (lookup_lt_is_Some_2 binlog_unsafe_map (Z.to_nat (stmt_accessed_table_flag (accessed l)))) as [w E]; [lia |].
  exists w. split; [done |]. unfold is_mixed_stmt_unsafe. rewrite E. cbn [mbind option_bind]. rewrite condition_bit, !accessed_iff.
  assert (Hiso : (iso <? ISO_REPEATABLE_READ) = bool_decide (iso < ISO_REPEATABLE_READ)).
  { case_bool_decide as H; [by apply Z.ltb_lt | by apply Z.ltb_ge, Z.nlt_ge]. }
  rewrite Hiso. set (t := Z.testbit w (situation direct not_empty iso)). clearbody t.
  do 4 case_bool_decide; destruct in_multi; cbn [mbind option_bind andb orb]; try tauto; case_bool_decide; try tauto; done.
Qed.

(** ** Examples *)

(** The list 1 holds the table 2; the tables 3 and 4 are new. *)
Definition demo_store : mem := list_to_map
  [(query_tables 1%positive, VObj 2); (query_tables_last 1%positive, VAddr (next_global 2%positive)); (query_tables_own_last 1%positive, VNull);
   (next_global 2%positive, VNull); (prev_global 2%positive, VAddr (query_tables 1%positive)); (next_global 3%positive, VNull); (prev_global 3%positive, VNull);
   (next_global 4%positive, VNull); (prev_global 4%positive, VNull)].

Lemma demo_tables : is_tables demo_store 1 [2%positive] None.
Proof.
  split; [split | done]; try (by vm_compute).
  - intros c [= <-]. by vm_compute.
  - apply NoDup_singleton.
Qed.

Lemma prelocking_is_undone_witness :
  exists m1 m2, chop_off_not_own_tables 1 m1 = Some (tt, m2) /\ first_not_own_table 1 m1 = Some (VObj 3, m1) /\
    last_table 1 m1 = Some (VObj 4, m1) /\ is_tables m2 1 [2%positive] None.
Proof.
  destruct (prelocking_is_undone demo_store 1 [2%positive] [3%positive; 4%positive] demo_tables) as (m1 & m2 & _ & _ & Hf & Hl & Hc & Hq & _).
  - refine (bool_decide_eq_true_1 _ _). by vm_compute.
  - intros t [-> | ->%list_elem_of_singleton]%elem_of_cons; (split; [by intros [=]%list_elem_of_singleton | by split]).
  - exists m1, m2. split; [exact Hc |]. split; [exact Hf |]. split; [exact Hl | exact Hq].
Defined.

Lemma mixed_unsafe_spec_witness :
  is_mixed_stmt_unsafe (replicate 256 0) (accessed [STMT_READS_TRANS_TABLE; STMT_WRITES_NON_TRANS_TABLE]) false false true 1 = Some true /\
  is_mixed_stmt_unsafe (replicate 256 2) (accessed [STMT_READS_TRANS_TABLE]) true false false 0 = Some true.
Proof.
  split; [reflexivity |].
  destruct (mixed_unsafe_spec (replicate 256 2) [STMT_READS_TRANS_TABLE] true false false 0 eq_refl) as (w & Hw & H).
  rewrite H. vm_compute in Hw. injection Hw as <-. reflexivity.
Defined.
