(* ===== verification/LexStream.v ===== *)
(** * LexStream: the characters the lexer reads ([Lex_input_stream] of [sql_lex.h])

    The stream reads the query from the raw buffer and, while it echoes, copies
    what it reads to the pre-processed buffer, so that the latter holds the query
    without the text that was skipped silently (comments).  Pointers into a
    buffer are offsets from its beginning ([m_buf], [m_cpp_buf]); reading or
    writing outside a buffer has no result.  [my_isspace] is a table lookup of the
    character set: a parameter.  [init], [reset] and the scanner itself are
    compiled elsewhere.

    The abstract value of a stream is the list of the characters it has read,
    each with whether it was echoed. *)

From stdpp Require Import base numbers list.
From Stdlib Require Import ZArith Lia.
From S2P Require Import Prelude.

Local Open Scope Z_scope.

(** ** The class *)

(* [sql_lex.h:2361-2379 enum_comment_state] *)
Inductive enum_comment_state := NO_COMMENT | PRESERVE_COMMENT | DISCARD_COMMENT.

(* [sql_lex.h:2768-2814 Lex_input_stream] *)
Record Lex_input_stream := Stream {
  raw : list Z; m_ptr : Z; m_tok_start : Z; m_tok_end : Z; m_end_of_query : Z; m_tok_start_prev : Z;
  m_echo : bool; m_echo_saved : bool;
  cpp : list Z; m_cpp_ptr : Z; m_cpp_tok_start : Z; m_cpp_tok_start_prev : Z; m_cpp_tok_end : Z;
  in_comment : enum_comment_state; in_comment_saved : enum_comment_state; lookahead_token : Z }.

(** The parts the operations change. *)
Definition set_pos (s : Lex_input_stream) (p : Z) (c : list Z) (cp : Z) : Lex_input_stream :=
  Stream (raw s) p (m_tok_start s) (m_tok_end s) (m_end_of_query s) (m_tok_start_prev s) (m_echo s) (m_echo_saved s)
    c cp (m_cpp_tok_start s) (m_cpp_tok_start_prev s) (m_cpp_tok_end s) (in_comment s) (in_comment_saved s) (lookahead_token s).
Definition set_state (s : Lex_input_stream) (echo saved : bool) (c cs : enum_comment_state) : Lex_input_stream :=
  Stream (raw s) (m_ptr s) (m_tok_start s) (m_tok_end s) (m_end_of_query s) (m_tok_start_prev s) echo saved
    (cpp s) (m_cpp_ptr s) (m_cpp_tok_start s) (m_cpp_tok_start_prev s) (m_cpp_tok_end s) c cs (lookahead_token s).
Definition set_raw (s : Lex_input_stream) (r : list Z) : Lex_input_stream :=
  Stream r (m_ptr s) (m_tok_start s) (m_tok_end s) (m_end_of_query s) (m_tok_start_prev s) (m_echo s) (m_echo_saved s)
    (cpp s) (m_cpp_ptr s) (m_cpp_tok_start s) (m_cpp_tok_start_prev s) (m_cpp_tok_end s) (in_comment s) (in_comment_saved s) (lookahead_token s).

Definition peek (b : list Z) (p : Z) : option Z := if 0 <=? p then b !! Z.to_nat p else None.
Definition poke (b : list Z) (p c : Z) : option (list Z) :=
  if (0 <=? p) && (p <? Z.of_nat (length b)) then Some (<[Z.to_nat p := c]> b) else None.

(* [sql_lex.h:2437-2440 set_echo] *)
Definition set_echo (s : Lex_input_stream) (echo : bool) : Lex_input_stream :=
  set_state s echo (m_echo_saved s) (in_comment s) (in_comment_saved s).
(* [sql_lex.h:2442-2446 save_in_comment_state] *)
Definition save_in_comment_state (s : Lex_input_stream) : Lex_input_stream :=
  set_state s (m_echo s) (m_echo s) (in_comment s) (in_comment s).
(* [sql_lex.h:2448-2452 restore_in_comment_state] *)
Definition restore_in_comment_state (s : Lex_input_stream) : Lex_input_stream :=
  set_state s (m_echo_saved s) (m_echo_saved s) (in_comment_saved s) (in_comment_saved s).

(** [memcpy] from the raw to the pre-processed buffer. *)
Fixpoint copy (r c : list Z) (p cp : Z) (n : nat) : option (list Z) :=
  match n with O => Some c | S n => b ← peek r p; c ← poke c cp b; copy r c (p + 1) (cp + 1) n end.

(* [sql_lex.h:2458-2466 skip_binary] *)
Definition skip_binary (s : Lex_input_stream) (n : Z) : option Lex_input_stream :=
  if m_echo s
  then c ← copy (raw s) (cpp s) (m_ptr s) (m_cpp_ptr s) (Z.to_nat n); Some (set_pos s (m_ptr s + n) c (m_cpp_ptr s + n))
  else Some (set_pos s (m_ptr s + n) (cpp s) (m_cpp_ptr s)).
(* [sql_lex.h:2472-2478 yyGet] *)
Definition yyGet (s : Lex_input_stream) : option (Z * Lex_input_stream) :=
  ch ← peek (raw s) (m_ptr s);
  if m_echo s then c ← poke (cpp s) (m_cpp_ptr s) ch; Some (ch, set_pos s (m_ptr s + 1) c (m_cpp_ptr s + 1))
  else Some (ch, set_pos s (m_ptr s + 1) (cpp s) (m_cpp_ptr s)).
(* [sql_lex.h:2483-2486 yyGetLast] *)
Definition yyGetLast (s : Lex_input_stream) : option Z := peek (raw s) (m_ptr s - 1).
(* [sql_lex.h:2491-2494 yyPeek] *)
Definition yyPeek (s : Lex_input_stream) : option Z := peek (raw s) (m_ptr s).
(* [sql_lex.h:2500-2503 yyPeekn] *)
Definition yyPeekn (s : Lex_input_stream) (n : Z) : option Z := peek (raw s) (m_ptr s + n).
(* [sql_lex.h:2510-2515 yyUnget] *)
Definition yyUnget (s : Lex_input_stream) : Lex_input_stream :=
  set_pos s (m_ptr s - 1) (cpp s) (if m_echo s then m_cpp_ptr s - 1 else m_cpp_ptr s).
(* [sql_lex.h:2520-2526 yySkip] *)
Definition yySkip (s : Lex_input_stream) : option Lex_input_stream :=
  if m_echo s then ch ← peek (raw s) (m_ptr s); c ← poke (cpp s) (m_cpp_ptr s) ch; Some (set_pos s (m_ptr s + 1) c (m_cpp_ptr s + 1))
  else Some (set_pos s (m_ptr s + 1) (cpp s) (m_cpp_ptr s)).
(* [sql_lex.h:2532-2540 yySkipn] *)
Definition yySkipn (s : Lex_input_stream) (n : Z) : option Lex_input_stream :=
  if m_echo s
  then c ← copy (raw s) (cpp s) (m_ptr s) (m_cpp_ptr s) (Z.to_nat n); Some (set_pos s (m_ptr s + n) c (m_cpp_ptr s + n))
  else Some (set_pos s (m_ptr s + n) (cpp s) (m_cpp_ptr s)).
(* [sql_lex.h:2548-2554 yyUnput] *)
Definition yyUnput (s : Lex_input_stream) (ch : Z) : option Lex_input_stream :=
  r ← poke (raw s) (m_ptr s - 1) ch;
  Some (set_pos (set_raw s r) (m_ptr s - 1) (cpp s) (if m_echo s then m_cpp_ptr s - 1 else m_cpp_ptr s)).
(* [sql_lex.h:2561-2564 eof] *)
Definition eof_n (s : Lex_input_stream) (n : Z) : bool := m_end_of_query s <=? m_ptr s + n.
(* [sql_lex.h:2621-2624 eof] *)
Definition eof (s : Lex_input_stream) : bool := m_end_of_query s <=? m_ptr s.
(* [sql_lex.h:2567-2576 start_token] *)
Definition start_token (s : Lex_input_stream) : Lex_input_stream :=
  Stream (raw s) (m_ptr s) (m_ptr s) (m_ptr s) (m_end_of_query s) (m_tok_start s) (m_echo s) (m_echo_saved s)
    (cpp s) (m_cpp_ptr s) (m_cpp_ptr s) (m_cpp_tok_start s) (m_cpp_ptr s) (in_comment s) (in_comment_saved s) (lookahead_token s).
(* [sql_lex.h:2582-2586 restart_token] *)
Definition restart_token (s : Lex_input_stream) : Lex_input_stream :=
  Stream (raw s) (m_ptr s) (m_ptr s) (m_tok_end s) (m_end_of_query s) (m_tok_start_prev s) (m_echo s) (m_echo_saved s)
    (cpp s) (m_cpp_ptr s) (m_cpp_ptr s) (m_cpp_tok_start_prev s) (m_cpp_tok_end s) (in_comment s) (in_comment_saved s) (lookahead_token s).
(* [sql_lex.h:2595-2604 yyLength] *)
Definition yyLength (s : Lex_input_stream) : option Z :=
  if m_tok_start s <? m_ptr s then Some (u32 (m_ptr s - m_tok_start s - 1)) else None.
(* [sql_lex.h:2610-2613 has_lookahead] *)
Definition has_lookahead (s : Lex_input_stream) : bool := 0 <=? lookahead_token s.
(* [sql_lex.h:2639-2642 get_end_of_query] *)
Definition get_end_of_query (s : Lex_input_stream) : Z := m_end_of_query s.
(* [sql_lex.h:2645-2648 get_tok_start] *)
Definition get_tok_start (s : Lex_input_stream) : Z := if has_lookahead s then m_tok_start_prev s else m_tok_start s.
(* [sql_lex.h:2650-2653 set_cpp_tok_start] *)
Definition set_cpp_tok_start (s : Lex_input_stream) (pos : Z) : Lex_input_stream :=
  Stream (raw s) (m_ptr s) (m_tok_start s) (m_tok_end s) (m_end_of_query s) (m_tok_start_prev s) (m_echo s) (m_echo_saved s)
    (cpp s) (m_cpp_ptr s) pos (m_cpp_tok_start_prev s) (m_cpp_tok_end s) (in_comment s) (in_comment_saved s) (lookahead_token s).
(* [sql_lex.h:2656-2659 get_tok_end] *)
Definition get_tok_end (s : Lex_input_stream) : Z := m_tok_end s.
(* [sql_lex.h:2662-2665 get_ptr] *)
Definition get_ptr (s : Lex_input_stream) : Z := m_ptr s.
(* [sql_lex.h:2668-2671 get_cpp_tok_start] *)
Definition get_cpp_tok_start (s : Lex_input_stream) : Z := if has_lookahead s then m_cpp_tok_start_prev s else m_cpp_tok_start s.
(* [sql_lex.h:2674-2677 get_cpp_tok_end] *)
Definition get_cpp_tok_end (s : Lex_input_stream) : Z := m_cpp_tok_end s.
(* [sql_lex.h:2694-2697 get_cpp_ptr] *)
Definition get_cpp_ptr (s : Lex_input_stream) : Z := m_cpp_ptr s.

Section rtrim.
Variable my_isspace : Z -> bool.

Fixpoint rtrim_loop (fuel : nat) (b : list Z) (p : Z) : option Z :=
  if 0 <? p then
    c ← peek b (p - 1);
    if my_isspace c then match fuel with O => None | S fuel => rtrim_loop fuel b (p - 1) end else Some p
  else Some p.
(* [sql_lex.h:2683-2691 get_cpp_tok_end_rtrim] *)
Definition get_cpp_tok_end_rtrim (s : Lex_input_stream) : option Z := rtrim_loop (Z.to_nat (m_cpp_tok_end s)) (cpp s) (m_cpp_tok_end s).
(* [sql_lex.h:2703-2711 get_cpp_ptr_rtrim] *)
Definition get_cpp_ptr_rtrim (s : Lex_input_stream) : option Z := rtrim_loop (Z.to_nat (m_cpp_ptr s)) (cpp s) (m_cpp_ptr s).
End rtrim.

(** ** What has been read *)

Abbreviation log := (list (Z * bool)).

Definition echoed (l : log) : list Z := (filter (fun cb => cb.2 = true) l).*1.

(** A position of both buffers: the token that starts there began with the
    [k]-th character. *)
Definition mark (l : log) (k : nat) (p cp : Z) : Prop := p = Z.of_nat k /\ cp = Z.of_nat (length (echoed (take k l))).

Record stream_ok (s : Lex_input_stream) (l : log) : Prop := {
  ok_ptr : m_ptr s = Z.of_nat (length l);
  ok_raw : take (length l) (raw s) = l.*1;
  ok_cpp_ptr : m_cpp_ptr s = Z.of_nat (length (echoed l));
  ok_cpp : take (length (echoed l)) (cpp s) = echoed l;
  ok_room : (length (raw s) <= length (cpp s))%nat;
  ok_marks : exists k kp ke, mark l k (m_tok_start s) (m_cpp_tok_start s) /\ mark l kp (m_tok_start_prev s) (m_cpp_tok_start_prev s) /\
    mark l ke (m_tok_end s) (m_cpp_tok_end s) /\ (kp <= k)%nat /\ (ke <= k)%nat /\ (k <= length l)%nat }.

Lemma echoed_app l1 l2 : echoed (l1 ++ l2) = echoed l1 ++ echoed l2.
Proof. unfold echoed. by rewrite filter_app, fmap_app. Qed.

Lemma echoed_length l : (length (echoed l) <= length l)%nat.
Proof. unfold echoed. rewrite length_fmap. apply length_filter. Qed.

Lemma echoed_all (bs : list Z) (e : bool) : echoed ((fun b => (b, e)) <$> bs) = if e then bs else [].
Proof.
  unfold echoed. induction bs as [| b bs IH]; [by destruct e |]. cbn [fmap list_fmap] in *. rewrite filter_cons. cbn [snd].
  destruct e; [rewrite decide_True by done; cbn; by rewrite <- IH at 2 | by rewrite decide_False].
Qed.

Lemma raw_length s l : stream_ok s l -> (length l <= length (raw s))%nat.
Proof. intros [_ Hr _ _ _ _]. apply (f_equal length) in Hr. rewrite length_take, length_fmap in Hr. lia. Qed.

(** More is read: the characters [bs] of the raw buffer, all echoed or none. *)
Lemma mark_app l l2 k p cp : (k <= length l)%nat -> mark l k p cp -> mark (l ++ l2) k p cp.
Proof. intros Hk [-> ->]. split; [done |]. by rewrite take_app_le. Qed.

Lemma peek_in b p : (p < length b)%nat -> exists c, peek b (Z.of_nat p) = Some c /\ b !! p = Some c.
Proof.
  intros Hp. apply lookup_lt_is_Some_2 in Hp as [c Hc]. exists c. unfold peek. rewrite (proj2 (Z.leb_le _ _)), Nat2Z.id by lia. done.
Qed.

Lemma poke_in b p c : (p < length b)%nat -> poke b (Z.of_nat p) c = Some (<[p := c]> b).
Proof. intros Hp. unfold poke. rewrite (proj2 (Z.leb_le _ _)), (proj2 (Z.ltb_lt _ _)), Nat2Z.id by lia. done. Qed.

Lemma copy_ok n : forall r c p cp, (p + n <= length r)%nat -> (cp + n <= length c)%nat ->
  exists c', copy r c (Z.of_nat p) (Z.of_nat cp) n = Some c' /\ length c' = length c /\
    take (cp + n) c' = take cp c ++ take n (drop p r).
Proof.
  induction n as [| n IH]; intros r c p cp Hp Hc.
  { exists c. rewrite Nat.add_0_r, app_nil_r. done. }
  cbn [copy]. destruct (peek_in r p) as (b & -> & Hb); [lia |]. cbn [mbind option_bind]. rewrite poke_in by lia. cbn [mbind option_bind].
  replace (Z.of_nat p + 1) with (Z.of_nat (S p)) by lia. replace (Z.of_nat cp + 1) with (Z.of_nat (S cp)) by lia.
  destruct (IH r (<[cp := b]> c) (S p) (S cp)) as (c' & -> & Hl & Ht); [lia | rewrite length_insert; lia |].
  exists c'. rewrite length_insert in Hl. split_and!; [done | done |]. replace (cp + S n)%nat with (S cp + n)%nat by lia. rewrite Ht.
  rewrite (drop_S r b p Hb). cbn [take]. rewrite (take_S_r (<[cp:=b]> c) cp b) by (apply list_lookup_insert_eq; lia).
  by rewrite take_insert_ge, <- app_assoc by lia.
Qed.

(** ** Each operation *)

(** The next [k] characters, as they enter the log. *)
Definition next_chars (s : Lex_input_stream) (l : log) (k : nat) : log := (fun b => (b, m_echo s)) <$> take k (drop (length l) (raw s)).

Lemma next_chars_length s l k : (length l + k <= length (raw s))%nat -> length (next_chars s l k) = k.
Proof. intros Hk. unfold next_chars. rewrite length_fmap, length_take_le; [done |]. rewrite length_drop. lia. Qed.

Lemma next_chars_fst s l k : (next_chars s l k).*1 = take k (drop (length l) (raw s)).
Proof. unfold next_chars. rewrite <- list_fmap_compose. cbn. by rewrite list_fmap_id. Qed.

Lemma advance_ok s l k c' : stream_ok s l -> (length l + k <= length (raw s))%nat -> length c' = length (cpp s) ->
  (if m_echo s then take (length (echoed l) + k) c' = echoed l ++ take k (drop (length l) (raw s)) else c' = cpp s) ->
  stream_ok (set_pos s (m_ptr s + Z.of_nat k) c' (if m_echo s then m_cpp_ptr s + Z.of_nat k else m_cpp_ptr s)) (l ++ next_chars s l k).
Proof.
  intros Hok Hk Hlen Hc. pose proof Hok as [Hp Hr Hcp Hcc Hroom (m & mp & me & H1 & H2 & H3 & Hmp & Hme & Hm)].
  pose proof (next_chars_length s l k Hk) as Hl. pose proof (next_chars_fst s l k) as Hf.
  assert (He : echoed (next_chars s l k) = if m_echo s then take k (drop (length l) (raw s)) else []) by apply echoed_all.
  assert (Hle : length (echoed (next_chars s l k)) = if m_echo s then k else 0%nat).
  { rewrite He. destruct (m_echo s); [| done]. by rewrite <- Hf, length_fmap. }
  split; cbn [set_pos m_ptr raw m_cpp_ptr cpp m_tok_start m_cpp_tok_start m_tok_start_prev m_cpp_tok_start_prev m_tok_end m_cpp_tok_end].
  - rewrite length_app. lia.
  - rewrite length_app, Hl, fmap_app, Hf, <- Hr. symmetry. apply take_take_drop.
  - rewrite echoed_app, length_app, Hle. destruct (m_echo s); lia.
  - rewrite echoed_app, length_app, Hle, He. destruct (m_echo s); [done |]. by rewrite Hc, Nat.add_0_r, app_nil_r.
  - lia.
  - exists m, mp, me. rewrite length_app. split_and!; [by apply mark_app | apply mark_app; [lia | done] | apply mark_app; [lia | done] | done | done | lia].
Qed.

Lemma skipn_ok s l k : stream_ok s l -> (length l + k <= length (raw s))%nat ->
  exists s', yySkipn s (Z.of_nat k) = Some s' /\ stream_ok s' (l ++ next_chars s l k) /\ raw s' = raw s /\ m_echo s' = m_echo s.
Proof.
  intros Hok Hk. pose proof (advance_ok s l k) as Hadv. unfold yySkipn. pose proof (echoed_length l) as Hel. pose proof (ok_room _ _ Hok) as Hroom.
  destruct (m_echo s) eqn:Ee.
  - rewrite (ok_ptr _ _ Hok), (ok_cpp_ptr _ _ Hok), Nat2Z.id in *.
    destruct (copy_ok k (raw s) (cpp s) (length l) (length (echoed l)) Hk) as (c' & -> & Hl & Ht); [lia |]. cbn [mbind option_bind].
    eexists. split; [reflexivity |]. split; [| by cbn]. apply Hadv; [done | done | done |]. by rewrite Ht, (ok_cpp _ _ Hok).
  - eexists. split; [reflexivity |]. split; [| by cbn]. by apply Hadv.
Qed.

(** [yyGet] and [yySkip] read as [yySkipn(1)] does. *)
Lemma copy_1 r c p cp : copy r c p cp 1 = (b ← peek r p; poke c cp b).
Proof. cbn [copy]. destruct (peek r p); [| done]. cbn. by destruct (poke c cp z). Qed.

Lemma yySkip_eq s : yySkip s = yySkipn s 1.
Proof.
  unfold yySkip, yySkipn. destruct (m_echo s); [| done]. change (Z.to_nat 1) with 1%nat. rewrite copy_1.
  destruct (peek (raw s) (m_ptr s)); [| done]. cbn [mbind option_bind]. done.
Qed.

Lemma yyGet_eq s : yyGet s = (c ← yyPeek s; s' ← yySkipn s 1; Some (c, s')).
Proof.
  unfold yyGet, yyPeek, yySkipn. destruct (peek (raw s) (m_ptr s)) as [c |] eqn:E; [| done]. cbn [mbind option_bind].
  destruct (m_echo s); [| done]. change (Z.to_nat 1) with 1%nat. rewrite copy_1, E. cbn [mbind option_bind]. by destruct (poke (cpp s) (m_cpp_ptr s) c).
Qed.

(** Going back one character. *)
Lemma back_ok s l c r : stream_ok s (l ++ [(c, m_echo s)]) -> m_tok_start s < m_ptr s -> length r = length (raw s) ->
  take (length l) r = l.*1 ->
  stream_ok (set_pos (set_raw s r) (m_ptr s - 1) (cpp s) (if m_echo s then m_cpp_ptr s - 1 else m_cpp_ptr s)) l.
Proof.
  intros Hok Htok Hlen Hr. pose proof Hok as [Hp _ Hcp Hcc Hroom (m & mp & me & [H1 H1'] & [H2 H2'] & [H3 H3'] & Hmp & Hme & Hm)].
  rewrite length_app in *. cbn [length] in *. assert (Hml : (m <= length l)%nat) by lia.
  assert (He : echoed (l ++ [(c, m_echo s)]) = echoed l ++ if m_echo s then [c] else []) by (rewrite echoed_app; by destruct (m_echo s)).
  rewrite He, length_app in *.
  split; cbn [set_pos set_raw m_ptr raw m_cpp_ptr cpp m_tok_start m_cpp_tok_start m_tok_start_prev m_cpp_tok_start_prev m_tok_end m_cpp_tok_end].
  - lia.
  - done.
  - destruct (m_echo s); cbn in Hcp; lia.
  - apply (f_equal (take (length (echoed l)))) in Hcc. by rewrite take_take, take_app_le, firstn_all, Nat.min_l in Hcc by lia.
  - lia.
  - exists m, mp, me. rewrite !take_app_le in * by lia. unfold mark. split_and!; try done; lia.
Qed.

Inductive lex_op :=
  | Get | Skip | Skipn (n : Z) | Skip_binary (n : Z) | Unget | Unput (ch : Z) | Echo (b : bool) | Save | Restore | Start_token | Restart_token.

Definition lex_step (s : Lex_input_stream) (o : lex_op) : option Lex_input_stream :=
  match o with
  | Get => '(_, s) ← yyGet s; Some s
  | Skip => yySkip s
  | Skipn n => yySkipn s n
  | Skip_binary n => skip_binary s n
  | Unget => Some (yyUnget s)
  | Unput ch => yyUnput s ch
  | Echo b => Some (set_echo s b)
  | Save => Some (save_in_comment_state s)
  | Restore => Some (restore_in_comment_state s)
  | Start_token => Some (start_token s)
  | Restart_token => Some (restart_token s)
  end.

(** Reading stays in the raw buffer; the last character of the token is taken
    back in the echo mode it was read in. *)
Definition lex_allowed (s : Lex_input_stream) (l : log) (o : lex_op) : Prop :=
  match o with
  | Get | Skip => (length l < length (raw s))%nat
  | Skipn n | Skip_binary n => 0 <= n /\ Z.of_nat (length l) + n <= Z.of_nat (length (raw s))
  | Unget | Unput _ => m_tok_start s < m_ptr s /\ exists c l0, l = l0 ++ [(c, m_echo s)]
  | _ => True
  end.

Definition lex_log (s : Lex_input_stream) (l : log) (o : lex_op) : log :=
  match o with
  | Get | Skip => l ++ next_chars s l 1
  | Skipn n | Skip_binary n => l ++ next_chars s l (Z.to_nat n)
  | Unget | Unput _ => removelast l
  | _ => l
  end.

Definition lex_raw (s : Lex_input_stream) (l : log) (o : lex_op) : list Z :=
  match o with Unput ch => <[length (removelast l) := ch]> (raw s) | _ => raw s end.

Lemma lex_step_ok s l o : stream_ok s l -> lex_allowed s l o ->
  exists s', lex_step s o = Some s' /\ stream_ok s' (lex_log s l o) /\ raw s' = lex_raw s l o.
Proof.
  intros Hok Ha. destruct o as [| | n | n | | ch | b | | | |]; cbn [lex_step lex_allowed lex_log lex_raw] in *.
  - destruct (skipn_ok s l 1 Hok) as (s' & Hs & Hok' & Hr & _); [lia |]. exists s'. rewrite yyGet_eq. unfold yyPeek. rewrite (ok_ptr _ _ Hok).
    destruct (peek_in (raw s) (length l) Ha) as (c & -> & _). cbn [mbind option_bind]. change (Z.of_nat 1) with 1 in Hs. by rewrite Hs.
  - destruct (skipn_ok s l 1 Hok) as (s' & Hs & Hok' & Hr & _); [lia |]. exists s'. rewrite yySkip_eq. done.
  - destruct (skipn_ok s l (Z.to_nat n) Hok) as (s' & Hs & Hok' & Hr & _); [lia |]. rewrite Z2Nat.id in Hs by lia. by exists s'.
  - destruct (skipn_ok s l (Z.to_nat n) Hok) as (s' & Hs & Hok' & Hr & _); [lia |]. rewrite Z2Nat.id in Hs by lia. by exists s'.
  - destruct Ha as (Ht & c & l0 & ->). rewrite removelast_last. eexists. split; [reflexivity |]. split; [| done].
    pose proof (ok_raw _ _ Hok) as Hr. rewrite length_app, fmap_app in Hr.
    assert (H := back_ok s l0 c (raw s) Hok Ht eq_refl). replace (set_raw s (raw s)) with s in H by (by destruct s). apply H.
    apply (f_equal (take (length l0))) in Hr. rewrite take_take, Nat.min_l, take_app_length' in Hr; [done | by rewrite length_fmap | lia].
  - destruct Ha as (Ht & c & l0 & ->). rewrite removelast_last. pose proof (raw_length _ _ Hok) as Hlen. rewrite length_app in Hlen. cbn in Hlen.
    pose proof (ok_ptr _ _ Hok) as Hp. rewrite length_app in Hp. cbn in Hp. unfold yyUnput. replace (m_ptr s - 1) with (Z.of_nat (length l0)) by lia.
    rewrite poke_in by lia. cbn [mbind option_bind]. eexists. split; [reflexivity |]. split; [| done].
    replace (Z.of_nat (length l0)) with (m_ptr s - 1) by lia. apply (back_ok s l0 c); [done | done | by rewrite length_insert |].
    rewrite take_insert_ge by lia. pose proof (ok_raw _ _ Hok) as Hr. rewrite length_app, fmap_app in Hr.
    apply (f_equal (take (length l0))) in Hr. rewrite take_take, Nat.min_l, take_app_length' in Hr; [done | by rewrite length_fmap | lia].
  - eexists. split; [reflexivity |]. split; [destruct Hok; by split | done].
  - eexists. split; [reflexivity |]. split; [destruct Hok; by split | done].
  - eexists. split; [reflexivity |]. split; [destruct Hok; by split | done].
  - eexists. split; [reflexivity |]. split; [| done]. destruct Hok as [Hp Hr Hcp Hcc Hroom (m & mp & me & H1 & H2 & H3 & Hmp & Hme & Hm)].
    split; try done. exists (length l), m, (length l). destruct H1. unfold mark. rewrite firstn_all. split_and!; (done || lia).
  - eexists. split; [reflexivity |]. split; [| done]. destruct Hok as [Hp Hr Hcp Hcc Hroom (m & mp & me & H1 & H2 & H3 & Hmp & Hme & Hm)].
    split; try done. exists (length l), mp, me. destruct H2, H3. unfold mark. rewrite firstn_all. split_and!; (done || lia).
Qed.

(** C34: the two buffers stay in step: on a well-formed stream every operation
    within its contract stays inside both buffers (the pre-processed buffer need
    only be as large as the raw one), does to the characters read what its name
    says, and restores the invariant: the raw buffer up to [m_ptr] is what was
    read, the pre-processed buffer up to [m_cpp_ptr] is what of it was echoed, and
    the token marks of both buffers denote the same characters. *)
Theorem lex_stream_refines s l o : stream_ok s l -> lex_allowed s l o ->
  exists s', lex_step s o = Some s' /\ stream_ok s' (lex_log s l o) /\ raw s' = lex_raw s l o.
Proof. intros Hok Ha. by apply lex_step_ok. Qed.

(** A part of a buffer. *)
Definition text (b : list Z) (from to : Z) : list Z := take (Z.to_nat (to - from)) (drop (Z.to_nat from) b).

Lemma text_between b n m x : take m b = x -> (n <= m)%nat -> text b (Z.of_nat n) (Z.of_nat m) = drop n x.
Proof.
  intros <- Hn. unfold text. rewrite Nat2Z.id. replace (Z.to_nat (Z.of_nat m - Z.of_nat n)) with (m - n)%nat by lia. by rewrite skipn_firstn_comm.
Qed.

(** a token has the same characters in both buffers: between the start of
    the token and the read position the raw buffer holds the characters read
    since then and the pre-processed buffer those of them that were echoed;
    [yyLength] is their number less the one character of lookahead. *)
Theorem token_text s l : stream_ok s l -> Z.of_nat (length l) < 2 ^ 32 ->
  exists l0 l1, l = l0 ++ l1 /\ m_tok_start s = Z.of_nat (length l0) /\
    text (raw s) (m_tok_start s) (m_ptr s) = l1.*1 /\
    text (cpp s) (m_cpp_tok_start s) (m_cpp_ptr s) = echoed l1 /\
    yyLength s = (match l1 with [] => None | _ :: l2 => Some (Z.of_nat (length l2)) end).
Proof.
  intros [Hp Hr Hcp Hcc _ (k & _ & _ & [Hk Hck] & _ & _ & _ & _ & Hkl)] Hlen.
  exists (take k l), (drop k l). rewrite take_drop. pose proof (length_take_le l k Hkl) as Hl0.
  split; [done |]. split; [by rewrite Hl0 |].
  assert (He : echoed l = echoed (take k l) ++ echoed (drop k l)) by (by rewrite <- echoed_app, take_drop).
  split; [| split].
  - rewrite Hk, Hp, (text_between _ _ _ _ Hr Hkl). by rewrite fmap_drop.
  - rewrite Hck, Hcp, (text_between _ _ _ _ Hcc) by (rewrite He, length_app; lia). rewrite He. by rewrite drop_app_length.
  - unfold yyLength. rewrite Hk, Hp. pose proof (length_drop l k) as Hd. destruct (drop k l) as [| x l2]; cbn [length] in Hd.
    + destruct (Z.ltb_spec (Z.of_nat k) (Z.of_nat (length l))); [lia | done].
    + destruct (Z.ltb_spec (Z.of_nat k) (Z.of_nat (length l))); [| lia]. rewrite u32_small by lia. f_equal. lia.
Qed.

(** ** Trailing spaces *)

Section rtrim_facts.
Variable my_isspace : Z -> bool.

Lemma rtrim_loop_ok n : forall b fuel, (n <= length b)%nat -> (n <= fuel)%nat ->
  exists p, rtrim_loop my_isspace fuel b (Z.of_nat n) = Some (Z.of_nat p) /\ (p <= n)%nat /\
    (forall i c, (p <= i < n)%nat -> b !! i = Some c -> my_isspace c = true) /\
    (forall c, (0 < p)%nat -> b !! pred p = Some c -> my_isspace c = false).
Proof.
  induction n as [| n IH]; intros b fuel Hn Hf.
  { exists 0%nat. split_and!; [by destruct fuel | done | intros; lia | intros; lia]. }
  destruct fuel as [| fuel]; [lia |]. cbn [rtrim_loop]. rewrite (proj2 (Z.ltb_lt _ _)) by lia.
  replace (Z.of_nat (S n) - 1) with (Z.of_nat n) by lia. destruct (peek_in b n) as (c & -> & Hc); [lia |]. cbn [mbind option_bind].
  destruct (my_isspace c) eqn:Es.
  - destruct (IH b fuel) as (p & -> & Hp & Hs & Hl); [lia | lia |]. exists p. split_and!; [done | lia | | done].
    intros i d Hi Hd. destruct (decide (i = n)) as [-> |]; [congruence |]. apply (Hs i d); [lia | done].
  - exists (S n). split_and!; [done | done | intros; lia |]. intros d _ Hd. cbn [pred] in Hd. congruence.
Qed.

(** [get_cpp_ptr_rtrim] ends and gives the end of the pre-processed text
    without its trailing spaces: from there to [m_cpp_ptr] are spaces only, and
    the character before it, if there is one, is not a space. *)
Theorem cpp_ptr_rtrim_spec s l : stream_ok s l ->
  exists p, get_cpp_ptr_rtrim my_isspace s = Some (Z.of_nat p) /\ (p <= length (echoed l))%nat /\
    Forall (fun c => my_isspace c = true) (drop p (echoed l)) /\
    (forall c, last (take p (echoed l)) = Some c -> my_isspace c = false).
Proof.
  intros Hok. pose proof (ok_cpp _ _ Hok) as Hc. unfold get_cpp_ptr_rtrim. rewrite (ok_cpp_ptr _ _ Hok), Nat2Z.id.
  assert (Hlen : (length (echoed l) <= length (cpp s))%nat) by (rewrite <- Hc, length_take; lia).
  destruct (rtrim_loop_ok (length (echoed l)) (cpp s) (length (echoed l)) Hlen) as (p & -> & Hp & Hs & Hl); [done |].
  exists p. split_and!; [done | done | |].
  - apply Forall_lookup. intros i c Hi. rewrite lookup_drop in Hi. apply (Hs (p + i)%nat).
    + apply lookup_lt_Some in Hi. lia.
    + rewrite <- Hc in Hi. by apply lookup_take_Some in Hi as [Hi _].
  - intros c Hlast. rewrite last_lookup, length_take_le in Hlast by done. rewrite lookup_take_Some in Hlast. destruct Hlast as [Hi Hlt].
    apply (Hl c); [lia |]. rewrite <- Hc in Hi. by apply lookup_take_Some in Hi as [Hi _].
Qed.
End rtrim_facts.

(** ** Examples: the query "a /*b*/ " *)

Definition demo_raw : list Z := [97; 32; 47; 42; 98; 42; 47; 32; 0].
(** Two characters have been read and echoed; the token starts at the second. *)
Definition demo_stream : Lex_input_stream :=
  Stream demo_raw 2 1 1 8 0 true true [97; 32; 0; 0; 0; 0; 0; 0; 0] 2 1 0 1 NO_COMMENT NO_COMMENT (-1).
Definition demo_log : log := [(97, true); (32, true)].

Lemma demo_stream_ok : stream_ok demo_stream demo_log.
Proof. split; try done. exists 1%nat, 0%nat, 1%nat. split_and!; try done; cbn; lia. Qed.

(** The comment is skipped without echo, then the space is read. *)
Definition demo_steps : option Lex_input_stream :=
  s ← lex_step demo_stream (Echo false); s ← lex_step s (Skipn 5); s ← lex_step s (Echo true); lex_step s Get.

Lemma lex_stream_refines_witness :
  (s ← demo_steps; Some (take 3 (cpp s), m_ptr s, m_cpp_ptr s)) = Some ([97; 32; 32], 8, 3) /\
  exists s', lex_step demo_stream Unget = Some s' /\ stream_ok s' [(97, true)].
Proof.
  split; [vm_compute; reflexivity |].
  destruct (lex_stream_refines demo_stream demo_log Unget demo_stream_ok) as (s' & Hs & Hok & _).
  - split; [by vm_compute |]. by exists 32, [(97, true)].
  - exists s'. split; [exact Hs | exact Hok].
Defined.

Lemma token_text_witness : exists l0 l1, demo_log = l0 ++ l1 /\ text (cpp demo_stream) 1 2 = echoed l1 /\ text (cpp demo_stream) 1 2 = [32].
Proof.
  destruct (token_text demo_stream demo_log demo_stream_ok) as (l0 & l1 & E & _ & _ & Hc & _); [by vm_compute |].
  exists l0, l1. split; [exact E |]. split; [exact Hc | reflexivity].
Defined.

Lemma cpp_ptr_rtrim_spec_witness :
  get_cpp_ptr_rtrim (fun c => c =? 32) demo_stream = Some 1 /\
  exists p, get_cpp_ptr_rtrim (fun c => c =? 32) demo_stream = Some (Z.of_nat p) /\ (p <= 2)%nat.
Proof.
  split; [reflexivity |]. destruct (cpp_ptr_rtrim_spec (fun c => c =? 32) demo_stream demo_log demo_stream_ok) as (p & Hp & Hle & _).
  exists p. split; [exact Hp | exact Hle].
Defined.
