(* ===== verification/BinaryString.v ===== *)
(** * BinaryString: the string buffers of the server ([sql_string.h])

    [Static_binary_string] is a pointer and a length; [Binary_string] adds a
    capacity ([Alloced_length], 0 for a constant), ownership ([alloced]) and the
    growth step.  An operation takes the string and the memory of ByteMem.v and
    gives its result with the new string and memory.

    [realloc_raw] and [real_alloc] are compiled elsewhere; the class [Realloc]
    states what the inline functions rely on. *)

From stdpp Require Import base numbers list gmap.
From Stdlib Require Import ZArith Lia.
From S2P Require Import Prelude ByteOrder ByteMem.

Local Open Scope Z_scope.
Local Open Scope cxx_scope.

(** ** Static_binary_string and Binary_string *)

(* [sql_string.h:199-203 Static_binary_string] *)
Record Static_binary_string := Static { Ptr : Z; str_length : Z }.

(* [sql_string.h:381-384 Binary_string] *)
Record Binary_string := Str {
  base :> Static_binary_string; Alloced_length : Z; extra_alloc : Z; alloced : bool; thread_specific : bool }.

Definition with_base (s : Binary_string) (b : Static_binary_string) : Binary_string :=
  Str b (Alloced_length s) (extra_alloc s) (alloced s) (thread_specific s).

(* [sql_string.h:209-214 Static_binary_string] *)
Definition mk_static (str length_arg : Z) : option Static_binary_string :=
  if length_arg <? 2 ^ 32 - 1 then Some (Static str (u32 length_arg)) else None.
(* [sql_string.h:215-215 length] *)
Definition length_ (s : Static_binary_string) : Z := str_length s.
(* [sql_string.h:217-217 length] *)
Definition set_length (s : Static_binary_string) (len : Z) : Static_binary_string := Static (Ptr s) (u32 len).
(* [sql_string.h:218-218 is_empty] *)
Definition is_empty (s : Static_binary_string) : bool := str_length s =? 0.
(* [sql_string.h:219-219 ptr] *)
Definition ptr (s : Static_binary_string) : Z := Ptr s.
(* [sql_string.h:220-220 end] *)
Definition end_ (s : Static_binary_string) : Z := Ptr s + str_length s.

Fixpoint ascii_loop (m : memory) (c : Z) (n : nat) : option bool :=
  match n with
  | O => Some false
  | S n => b ← read m c; if negb (b &&& 128 =? 0) then Some true else ascii_loop m (c + 1) n
  end.
(* [sql_string.h:233-241 has_8bit_bytes] *)
Definition has_8bit_bytes (m : memory) (s : Static_binary_string) : option bool :=
  ascii_loop m (Ptr s) (Z.to_nat (str_length s)).

(* [sql_string.h:243-247 bin_eq] *)
Definition bin_eq (m : memory) (s other : Static_binary_string) : option bool :=
  if negb (str_length s =? str_length other) then Some false else
  a ← read_bytes m (Ptr s) (Z.to_nat (str_length s)); b ← read_bytes m (Ptr other) (Z.to_nat (str_length s));
  Some (bool_decide (a = b)).

(* [sql_string.h:249-253 set] *)
Definition set_static (s : Static_binary_string) (str len : Z) : Static_binary_string := Static str (u32 len).

(* [sql_string.h:255-259 swap] *)
Definition swap_static (a b : Static_binary_string) : Static_binary_string * Static_binary_string :=
  (Static (Ptr b) (str_length b), Static (Ptr a) (str_length a)).

(** [strlen(p) == n] where a zero has just been written at [p + n]. *)
Definition strlen_is (m : memory) (p n : Z) : option bool :=
  bs ← read_bytes m p (Z.to_nat n); Some (forallb (fun b => negb (b =? 0)) bs).

(* [sql_string.h:282-287 chop] *)
Definition chop (s : Static_binary_string) (m : memory) : option (Static_binary_string * memory) :=
  let s := Static (Ptr s) (u32 (str_length s - 1)) in
  m ← write m (Ptr s + str_length s) 0;
  ok ← strlen_is m (Ptr s) (str_length s);
  if (ok : bool) then Some (s, m) else None.

(* [sql_string.h:299-302 q_append] *)
Definition q_append_char (s : Static_binary_string) (m : memory) (c : Z) : option (Static_binary_string * memory) :=
  m ← write m (Ptr s + str_length s) c; Some (Static (Ptr s) (u32 (str_length s + 1)), m).
(* [sql_string.h:303-307 q_append2b] *)
Definition q_append2b (s : Static_binary_string) (m : memory) (n : Z) : option (Static_binary_string * memory) :=
  m ← write_bytes m (Ptr s + str_length s) (Generic.int2store n); Some (Static (Ptr s) (u32 (str_length s + 2)), m).
(* [sql_string.h:308-312 q_append] *)
Definition q_append_uint32 (s : Static_binary_string) (m : memory) (n : Z) : option (Static_binary_string * memory) :=
  m ← write_bytes m (Ptr s + str_length s) (Generic.int4store n); Some (Static (Ptr s) (u32 (str_length s + 4)), m).
(* [sql_string.h:323-328 q_append] *)
Definition q_append (s : Static_binary_string) (m : memory) (data data_len : Z) : option (Static_binary_string * memory) :=
  bs ← read_bytes m data (Z.to_nat data_len);
  m ← write_bytes m (Ptr s + str_length s) bs;
  if str_length s <=? u64 (2 ^ 32 - 1 - data_len) then Some (Static (Ptr s) (u32 (str_length s + u32 data_len)), m) else None.
(* [sql_string.h:337-340 write_at_position] *)
Definition write_at_position (s : Static_binary_string) (m : memory) (position value : Z) : option memory :=
  write_bytes m (Ptr s + position) (Generic.int4store value).
(* [sql_string.h:357-361 qs_append] *)
Definition qs_append_char (s : Static_binary_string) (m : memory) (c : Z) : option (Static_binary_string * memory) :=
  m ← write m (Ptr s + str_length s) c; Some (Static (Ptr s) (u32 (str_length s + 1)), m).

(** *** Ownership *)

(* [sql_string.h:385-389 init_private_data] *)
Definition init_private_data (b : Static_binary_string) : Binary_string := Str b 0 0 false false.
(* [sql_string.h:391-394 Binary_string] *)
Definition string_default : Binary_string := init_private_data (Static 0 0).
(* [sql_string.h:408-412 Binary_string] *)
Definition string_const (str len : Z) : option Binary_string := b ← mk_static str len; Some (init_private_data b).
(* [sql_string.h:413-419 Binary_string] *)
Definition string_buffer (str len : Z) : option Binary_string := b ← mk_static str len; Some (Str b (u32 len) 0 false false).
(* [sql_string.h:420-426 Binary_string] *)
Definition string_copy (str : Binary_string) : Binary_string := Str (base str) (Alloced_length str) 0 false false.
(* [sql_string.h:431-435 set_thread_specific] *)
Definition set_thread_specific (s : Binary_string) : Binary_string :=
  if negb (alloced s) then Str (base s) (Alloced_length s) (extra_alloc s) (alloced s) true else s.
(* [sql_string.h:440-440 mark_as_const] *)
Definition mark_as_const (s : Binary_string) : Binary_string := Str (base s) 0 (extra_alloc s) (alloced s) (thread_specific s).
(* [sql_string.h:442-445 uses_buffer_owned_by] *)
Definition uses_buffer_owned_by (this s : Binary_string) : bool :=
  alloced s && (Ptr s <=? Ptr this) && (Ptr this <? Ptr s + str_length s).

(* [sql_string.h:448-453 swap] *)
Definition swap (this s : Binary_string) : Binary_string * Binary_string :=
  let '(b, b') := swap_static this s in
  (Str b (Alloced_length s) (extra_alloc this) (alloced s) (thread_specific this),
   Str b' (Alloced_length this) (extra_alloc s) (alloced this) (thread_specific s)).

(* [sql_string.h:625-634 free] *)
Definition free (s : Binary_string) (m : memory) : option (Binary_string * memory) :=
  m ← (if alloced s then my_free m (Ptr s) else Some m);
  Some (Str (Static 0 0) 0 0 false (thread_specific s), m).

(* [sql_string.h:462-468 set_alloced] *)
Definition set_alloced (s : Binary_string) (m : memory) (str length_arg alloced_length_arg : Z) : option (Binary_string * memory) :=
  '(s, m) ← free s m;
  if alloced_length_arg <? 2 ^ 32 - 1
  then Some (Str (set_static (base s) str length_arg) (u32 alloced_length_arg) (extra_alloc s) (alloced s) (thread_specific s), m) else None.
(* [sql_string.h:469-472 set] *)
Definition set_buffer (s : Binary_string) (m : memory) (str arg_length : Z) : option (Binary_string * memory) :=
  set_alloced s m str arg_length arg_length.
(* [sql_string.h:473-477 set] *)
Definition set_const (s : Binary_string) (m : memory) (str arg_length : Z) : option (Binary_string * memory) :=
  '(s, m) ← free s m; Some (with_base s (set_static (base s) str arg_length), m).
(** [str] is another object. *)
(* [sql_string.h:479-486 set] *)
Definition set_substring (s : Binary_string) (m : memory) (str : Binary_string) (offset arg_length : Z) : option (Binary_string * memory) :=
  '(s, m) ← free s m;
  let s := with_base s (set_static (base s) (Ptr str + offset) arg_length) in
  Some (if negb (Alloced_length str =? 0)
        then Str (base s) (u32 (Alloced_length str - offset)) (extra_alloc s) (alloced s) (thread_specific s) else s, m).
(* [sql_string.h:489-493 reset] *)
Definition reset (s : Binary_string) (m : memory) (ptr_arg length_arg alloced_length_arg : Z) : option (Binary_string * memory) :=
  '(s, m) ← set_alloced s m ptr_arg length_arg alloced_length_arg;
  Some (Str (base s) (Alloced_length s) (extra_alloc s) (negb (ptr_arg =? 0)) (thread_specific s), m).
(* [sql_string.h:496-502 release] *)
Definition release (s : Binary_string) : Z * Binary_string := (Ptr s, init_private_data (Static 0 0)).
(* [sql_string.h:504-511 set_quick] *)
Definition set_quick (s : Binary_string) (str arg_length : Z) : Binary_string :=
  if negb (alloced s) then Str (Static str (u32 arg_length)) (u32 arg_length) (extra_alloc s) (alloced s) (thread_specific s) else s.
(** [s] is another object. *)
(* [sql_string.h:513-525 operator=] *)
Definition assign (this : Binary_string) (m : memory) (s : Binary_string) : option (Binary_string * memory) :=
  if uses_buffer_owned_by s this then None else set_alloced this m (Ptr s) (str_length s) (Alloced_length s).
(** The new [*this], the new [s]; they are different objects. *)
(* [sql_string.h:671-678 move] *)
Definition move (this : Binary_string) (m : memory) (s : Binary_string) : option (Binary_string * Binary_string * memory) :=
  '(this, m) ← set_alloced this m (Ptr s) (str_length s) (Alloced_length s);
  Some (Str (base this) (Alloced_length this) (extra_alloc s) (alloced s) (thread_specific s),
        Str (base s) (Alloced_length s) (extra_alloc s) false (thread_specific s), m).

(** *** Growing *)

Section growing.
(** [realloc_raw], [real_alloc] and the table of hexadecimal digits. *)
Context (realloc_raw real_alloc : Binary_string -> memory -> Z -> bool * Binary_string * memory) (dig_vec_lower : Z -> Z).

(** A string, with the memory after an operation on it; [true] is an error. *)
Abbreviation outcome := (option (bool * Binary_string * memory)).

(* [sql_string.h:635-640 alloc] *)
Definition alloc (s : Binary_string) (m : memory) (arg_length : Z) : bool * Binary_string * memory :=
  if arg_length <? Alloced_length s then (false, s, m) else real_alloc s m arg_length.

(* [sql_string.h:643-649 realloc] *)
Definition realloc (s : Binary_string) (m : memory) (arg_length : Z) : outcome :=
  let '(err, s, m) := realloc_raw s m arg_length in
  if (err : bool) then Some (true, s, m) else m ← write m (Ptr s + arg_length) 0; Some (false, s, m).

Definition set_extra_alloc (s : Binary_string) (e : Z) : Binary_string :=
  Str (base s) (Alloced_length s) e (alloced s) (thread_specific s).

(* [sql_string.h:650-658 realloc_with_extra] *)
Definition realloc_with_extra (s : Binary_string) (m : memory) (arg_length : Z) : outcome :=
  let s := if extra_alloc s <? 4096 then set_extra_alloc s (u32 (extra_alloc s * 2 + 128)) else s in
  let '(err, s, m) := realloc_raw s m (u64 (arg_length + extra_alloc s)) in
  if (err : bool) then Some (true, s, m) else m ← write m (Ptr s + arg_length) 0; Some (false, s, m).

(* [sql_string.h:659-667 realloc_with_extra_if_needed] *)
Definition realloc_with_extra_if_needed (s : Binary_string) (m : memory) (arg_length : Z) : outcome :=
  if arg_length <? Alloced_length s then m ← write m (Ptr s + arg_length) 0; Some (false, s, m)
  else realloc_with_extra s m arg_length.

(* [sql_string.h:547-555 append] *)
Definition append (this : Binary_string) (m : memory) (s size : Z) : outcome :=
  if size =? 0 then Some (false, this, m) else
  '(err, this, m) ← realloc_with_extra_if_needed this m (u64 (str_length this + size));
  if (err : bool) then Some (true, this, m) else
  '(b, m) ← q_append (base this) m s size; Some (false, with_base this b, m).
(* [sql_string.h:560-563 append] *)
Definition append_string (this : Binary_string) (m : memory) (s : Static_binary_string) : outcome :=
  append this m (ptr s) (length_ s).

(* [sql_string.h:566-579 append_char] *)
Definition append_char (this : Binary_string) (m : memory) (chr : Z) : outcome :=
  if str_length this <? Alloced_length this then
    '(b, m) ← q_append_char (base this) m chr; Some (false, with_base this b, m)
  else
    '(err, this, m) ← realloc_with_extra this m (u32 (str_length this + 1));
    if (err : bool) then Some (true, this, m) else
    '(b, m) ← q_append_char (base this) m chr; Some (false, with_base this b, m).

Fixpoint append_hex_loop (this : Binary_string) (m : memory) (src : Z) (n : nat) : outcome :=
  match n with
  | O => Some (false, this, m)
  | S n =>
      c ← read m src;
      '(err, this, m) ← append_char this m (dig_vec_lower (c >>> 4));
      if (err : bool) then Some (true, this, m) else
      c ← read m src;
      '(err, this, m) ← append_char this m (dig_vec_lower (c &&& 0x0F));
      if (err : bool) then Some (true, this, m) else append_hex_loop this m (src + 1) n
  end.
(* [sql_string.h:580-589 append_hex] *)
Definition append_hex (this : Binary_string) (m : memory) (src srclen : Z) : outcome :=
  append_hex_loop this m src (Z.to_nat srclen).

(* [sql_string.h:591-599 append_with_step] *)
Definition append_with_step (this : Binary_string) (m : memory) (s arg_length step_alloc : Z) : outcome :=
  let new_length := u32 (arg_length + str_length this) in
  '(err, this, m) ← (if Alloced_length this <? new_length then realloc this m (u32 (new_length + step_alloc)) else Some (false, this, m));
  if (err : bool) then Some (true, this, m) else
  '(b, m) ← q_append (base this) m s arg_length; Some (false, with_base this b, m).

(** The pointer that is returned, with the string and memory; the result of [realloc] is ignored. *)
(* [sql_string.h:601-609 c_ptr] *)
Definition c_ptr (this : Binary_string) (m : memory) : option (Z * Binary_string * memory) :=
  if negb (negb (alloced this) || (Ptr this =? 0) || (Alloced_length this =? 0) || (str_length this + 1 <=? Alloced_length this))
  then None else
  full ← (if Ptr this =? 0 then Some true else (fun b => negb (b =? 0)) <$> read m (Ptr this + str_length this));
  '(_, this, m) ← (if (full : bool) then realloc this m (str_length this) else Some (false, this, m));
  Some (Ptr (base this), this, m).
(* [sql_string.h:610-615 c_ptr_quick] *)
Definition c_ptr_quick (this : Binary_string) (m : memory) : option (Z * memory) :=
  m ← (if negb (Ptr this =? 0) && (str_length this <? Alloced_length this) then write m (Ptr this + str_length this) 0 else Some m);
  Some (Ptr this, m).
(* [sql_string.h:616-623 c_ptr_safe] *)
Definition c_ptr_safe (this : Binary_string) (m : memory) : outcome :=
  if negb (Ptr this =? 0) && (str_length this <? Alloced_length this)
  then m ← write m (Ptr this + str_length this) 0; Some (false, this, m)
  else realloc this m (str_length this).

(* [sql_string.h:690-694 reserve] *)
Definition reserve (this : Binary_string) (m : memory) (space_needed : Z) : outcome :=
  if u64 (str_length this + space_needed) <? 2 ^ 32 - 1 then realloc this m (u64 (str_length this + space_needed)) else None.

(** The area to use, 0 on failure. *)
(* [sql_string.h:697-708 prep_append] *)
Definition prep_append (this : Binary_string) (m : memory) (arg_length step_alloc : Z) : option (Z * Binary_string * memory) :=
  let new_length := u32 (arg_length + str_length this) in
  '(err, this, m) ← (if Alloced_length this <? new_length then realloc this m (u32 (new_length + step_alloc)) else Some (false, this, m));
  if (err : bool) then Some (0, this, m) else
  let old := base this in
  Some (Ptr old + str_length old, with_base this (Static (Ptr old) (u32 (str_length old + arg_length))), m).
End growing.

(** ** The representation of a string *)

Definition capacity (s : Binary_string) : Z := Z.max (str_length s) (Alloced_length s).
Definition in_buf (s : Binary_string) (a : Z) : Prop := Ptr s <= a < Ptr s + capacity s.

(** The invariant: contents and capacity are there, and a heap buffer is a block
    of the heap. *)
Record string_ok (m : memory) (s : Binary_string) : Prop := {
  ok_mem : mem_ok m;
  ok_len : 0 <= str_length s < 2 ^ 32 - 1;
  ok_cap : 0 <= Alloced_length s < 2 ^ 32 - 1;
  ok_fits : Alloced_length s = 0 \/ str_length s <= Alloced_length s;
  ok_buf a : in_buf s a -> is_Some (read m a);
  ok_extra : 0 <= extra_alloc s < 2 ^ 31;
  ok_heap : alloced s = true -> Ptr s <> 0 /\ blocks m !! Ptr s = Some (Alloced_length s) }.

Definition has_contents (m : memory) (s : Binary_string) (c : bytes) : Prop :=
  read_bytes m (Ptr s) (Z.to_nat (str_length s)) = Some c.

(** The string has changed within its buffer or moved to a fresh one; everything
    else that was there is as it was. *)
Definition grown (m : memory) (s : Binary_string) (m' : memory) (s' : Binary_string) : Prop :=
  string_ok m' s' /\ forall a, ~ in_buf s a -> is_Some (read m a) -> read m' a = read m a /\ ~ in_buf s' a.

(** What the inline functions rely on: [realloc_raw] either fails and changes
    nothing, or makes room for more than [n] bytes and keeps the contents. *)
Class Realloc (realloc_raw : Binary_string -> memory -> Z -> bool * Binary_string * memory) : Prop :=
  realloc_raw_ok s m n c : string_ok m s -> has_contents m s c -> str_length s <= n ->
    let '(err, s', m') := realloc_raw s m n in
    if (err : bool) then s' = s /\ m' = m
    else grown m s m' s' /\ has_contents m' s' c /\ str_length s' = str_length s /\ n < Alloced_length s'.

Lemma grown_refl m s : string_ok m s -> grown m s m s.
Proof. by intros H; split. Qed.

Lemma grown_trans m s m1 s1 m2 s2 : grown m s m1 s1 -> grown m1 s1 m2 s2 -> grown m s m2 s2.
Proof.
  intros [_ H1] [Hok H2]. split; [done |]. intros a Ha Hr. destruct (H1 a Ha Hr) as [E1 N1].
  destruct (H2 a N1) as [E2 N2]; [by rewrite E1 |]. by rewrite E2, E1.
Qed.

Lemma grown_reads m s m' s' a n bs : grown m s m' s' -> (forall x, a <= x < a + Z.of_nat n -> ~ in_buf s x) ->
  read_bytes m a n = Some bs -> read_bytes m' a n = Some bs /\ forall x, a <= x < a + Z.of_nat n -> ~ in_buf s' x.
Proof.
  intros [_ Hg] Hout Hr. assert (Hs : forall x, a <= x < a + Z.of_nat n -> is_Some (read m x)).
  { clear -Hr. revert a bs Hr. induction n as [| n IH]; intros a bs; [lia |]. cbn [read_bytes].
    destruct (read m a) eqn:E; [| done]. cbn [mbind option_bind]. destruct (read_bytes m (a + 1) n) eqn:E'; [| done].
    intros _ x Hx. destruct (Z.eq_dec x a) as [-> |]; [by eexists |]. eapply IH; [exact E' | lia]. }
  split.
  - rewrite <- Hr. apply read_bytes_ext. intros x Hx. apply Hg; [by apply Hout | by apply Hs].
  - intros x Hx. apply Hg; [by apply Hout | by apply Hs].
Qed.

(** Changing bytes of the buffer behind the contents, and the length. *)
Lemma string_ok_written m m' s n : string_ok m s -> mem_ok m' -> same_domain m m' -> 0 <= n <= Alloced_length s ->
  (forall a, ~ in_buf s a -> read m' a = read m a) ->
  grown m s m' (with_base s (Static (Ptr s) n)).
Proof.
  intros [Hm Hl Hc Hf Hb He Hh] Hm' [Hbl Hd] Hn Hout. split; [split |].
  - done.
  - cbn [base with_base str_length]. lia.
  - done.
  - right. cbn [base with_base str_length Alloced_length]. lia.
  - intros a Ha. apply Hd, Hb. unfold in_buf, capacity, with_base in *. cbn [base Ptr str_length Alloced_length] in *. lia.
  - done.
  - cbn [alloced with_base base Ptr Alloced_length]. by rewrite Hbl.
  - intros a Ha _. split; [by apply Hout |]. unfold in_buf, capacity, with_base in *. cbn [base Ptr str_length Alloced_length] in *. lia.
Qed.

Lemma with_base_id s : with_base s (Static (Ptr s) (str_length s)) = s.
Proof. by destruct s as [[]]. Qed.

(** Writing one byte behind the contents. *)
Lemma write_behind m s c n b : string_ok m s -> has_contents m s c -> str_length s <= n < Alloced_length s ->
  exists m', write m (Ptr s + n) b = Some m' /\ grown m s m' s /\ has_contents m' s c /\ read m' (Ptr s + n) = Some (u8 b).
Proof.
  intros Hok Hc Hn. pose proof (ok_len _ _ Hok) as Hl. destruct (write_ok m (Ptr s + n) b) as (m' & -> & Hm' & Hd & Hr & Hf).
  - apply Hok.
  - apply (ok_buf _ _ Hok). unfold in_buf, capacity. lia.
  - exists m'. split; [done |]. split_and!; [| | done].
    + rewrite <- (with_base_id s). rewrite (with_base_id s) at 1. apply string_ok_written; try done; [lia |].
      intros a Ha. apply Hf. intros ->. apply Ha. unfold in_buf, capacity. lia.
    + unfold has_contents in *. rewrite <- Hc. apply read_bytes_ext. intros x Hx. apply Hf. lia.
Qed.

(** Appending bytes for which there is room. *)
Lemma append_room m s c bs : string_ok m s -> has_contents m s c -> is_bytes bs ->
  str_length s + Z.of_nat (length bs) <= Alloced_length s ->
  exists m', write_bytes m (Ptr s + str_length s) bs = Some m' /\
    let s' := with_base s (Static (Ptr s) (str_length s + Z.of_nat (length bs))) in
    grown m s m' s' /\ has_contents m' s' (c ++ bs).
Proof.
  intros Hok Hc Hb Hn. pose proof (ok_len _ _ Hok) as Hl.
  destruct (write_bytes_ok bs m (Ptr s + str_length s)) as (m' & -> & Hm' & Hd & Hr & Hf); [apply Hok | | done |].
  - intros x Hx. apply (ok_buf _ _ Hok). unfold in_buf, capacity. lia.
  - exists m'. split; [done |]. split.
    + apply string_ok_written; try done; [lia |]. intros a Ha. apply Hf. unfold in_buf, capacity in Ha. lia.
    + unfold has_contents in *. cbn [base with_base Ptr str_length]. replace (Z.to_nat _) with (Z.to_nat (str_length s) + length bs)%nat by lia.
      apply read_bytes_app.
      * rewrite <- Hc. apply read_bytes_ext. intros x Hx. apply Hf. lia.
      * by rewrite Z2Nat.id by lia.
Qed.

Lemma contents_length m s c : string_ok m s -> has_contents m s c -> Z.of_nat (length c) = str_length s.
Proof. intros Hok Hc. apply read_bytes_length in Hc. pose proof (ok_len _ _ Hok). lia. Qed.

(** ** Appending *)

Section appending.
Context (realloc_raw : Binary_string -> memory -> Z -> bool * Binary_string * memory) `{!Realloc realloc_raw} (dig_vec_lower : Z -> Z).
Hypothesis dig_vec_bytes : forall d, 0 <= d < 16 -> 0 <= dig_vec_lower d < 256.

(** The outcome of making room for [n] bytes. *)
Definition room (m : memory) (s : Binary_string) (c : bytes) (n : Z) (err : bool) (s' : Binary_string) (m' : memory) : Prop :=
  grown m s m' s' /\ has_contents m' s' c /\ str_length s' = str_length s /\ (err = false -> n < Alloced_length s').

Lemma realloc_ok m s c n : string_ok m s -> has_contents m s c -> str_length s <= n ->
  exists err s' m', realloc realloc_raw s m n = Some (err, s', m') /\ room m s c n err s' m' /\
    (err = false -> read m' (Ptr s' + n) = Some 0).
Proof.
  intros Hok Hc Hn. unfold realloc. pose proof (realloc_raw_ok s m n c Hok Hc Hn) as H.
  destruct (realloc_raw s m n) as [[[|] s'] m'].
  - destruct H as [-> ->]. do 3 eexists. split; [reflexivity |]. split; [| done]. split_and!; [by apply grown_refl | done | done | done].
  - destruct H as (Hg & Hc' & Hl & Hcap). destruct (write_behind m' s' c n 0) as (m2 & -> & Hg2 & Hc2 & Hr2); [apply Hg | done | lia |].
    do 3 eexists. split; [reflexivity |]. split; [| done]. split_and!; [by eapply grown_trans | done | done | done].
Qed.

Lemma set_extra_ok m s e : string_ok m s -> 0 <= e < 2 ^ 31 -> grown m s m (set_extra_alloc s e).
Proof. intros [] He. by split; [split |]. Qed.

Lemma realloc_with_extra_ok m s c n : string_ok m s -> has_contents m s c -> str_length s <= n < 2 ^ 63 ->
  exists err s' m', realloc_with_extra realloc_raw s m n = Some (err, s', m') /\ room m s c n err s' m'.
Proof.
  intros Hok Hc Hn. unfold realloc_with_extra. pose proof (ok_extra _ _ Hok) as He. pose proof (ok_len _ _ Hok) as Hl.
  set (s0 := if extra_alloc s <? 4096 then set_extra_alloc s (u32 (extra_alloc s * 2 + 128)) else s).
  assert (H0 : grown m s m s0 /\ has_contents m s0 c /\ str_length s0 = str_length s).
  { unfold s0. destruct (Z.ltb_spec (extra_alloc s) 4096); [| split; [by apply grown_refl | done]].
    rewrite u32_small by lia. split; [apply set_extra_ok; [done | lia] | done]. }
  clearbody s0. destruct H0 as (Hg0 & Hc0 & Hl0). pose proof (ok_extra _ _ (proj1 Hg0)) as He0. rewrite u64_small by lia.
  pose proof (realloc_raw_ok s0 m (n + extra_alloc s0) c (proj1 Hg0) Hc0 ltac:(lia)) as H.
  destruct (realloc_raw s0 m (n + extra_alloc s0)) as [[[|] s'] m'].
  - destruct H as [-> ->]. do 3 eexists. split; [reflexivity |]. split_and!; [done | done | done | done].
  - destruct H as (Hg & Hc' & Hl1 & Hcap). destruct (write_behind m' s' c n 0) as (m2 & -> & Hg2 & Hc2 & _); [apply Hg | done | lia |].
    do 3 eexists. split; [reflexivity |]. split_and!; [| done | congruence | intros; lia].
    eapply grown_trans; [done |]. by eapply grown_trans.
Qed.

Lemma realloc_if_needed_ok m s c n : string_ok m s -> has_contents m s c -> str_length s <= n < 2 ^ 63 ->
  exists err s' m', realloc_with_extra_if_needed realloc_raw s m n = Some (err, s', m') /\ room m s c n err s' m'.
Proof.
  intros Hok Hc Hn. unfold realloc_with_extra_if_needed. destruct (Z.ltb_spec n (Alloced_length s)); [| by apply realloc_with_extra_ok].
  destruct (write_behind m s c n 0) as (m2 & -> & Hg2 & Hc2 & _); [done | done | lia |].
  do 3 eexists. split; [reflexivity |]. by split_and!.
Qed.

(** A piece of text in memory, outside the string's buffer. *)
Definition source (m : memory) (s : Binary_string) (a n : Z) (bs : bytes) : Prop :=
  0 <= n < 2 ^ 62 /\ read_bytes m a (Z.to_nat n) = Some bs /\ forall x, a <= x < a + n -> ~ in_buf s x.

Lemma source_grown m s m' s' a n bs : grown m s m' s' -> source m s a n bs -> source m' s' a n bs.
Proof.
  intros Hg (Hn & Hr & Ho). destruct (grown_reads m s m' s' a (Z.to_nat n) bs Hg) as [Hr' Ho'];
    [intros x Hx; apply Ho; lia | done |]. split_and!; [lia | lia | done | intros x Hx; apply Ho'; lia].
Qed.

(** What one append does. *)
Definition appended (m : memory) (s : Binary_string) (c bs : bytes) (err : bool) (s' : Binary_string) (m' : memory) : Prop :=
  grown m s m' s' /\ exists ds, has_contents m' s' (c ++ ds) /\ ds `prefix_of` bs /\ (err = false -> ds = bs).

Lemma appended_none m s c bs s' m' : grown m s m' s' -> has_contents m' s' c -> appended m s c bs true s' m'.
Proof. intros Hg Hc. split; [done |]. exists []. rewrite app_nil_r. split_and!; [done | apply prefix_nil | done]. Qed.

Lemma appended_all m s c bs s' m' err : grown m s m' s' -> has_contents m' s' (c ++ bs) -> appended m s c bs err s' m'.
Proof. intros Hg Hc. split; [done |]. by exists bs. Qed.

Lemma string_append_ok m s c a n bs : string_ok m s -> has_contents m s c -> source m s a n bs ->
  exists err s' m', append realloc_raw s m a n = Some (err, s', m') /\ appended m s c bs err s' m'.
Proof.
  intros Hok Hc Hsrc. pose proof Hsrc as (Hn & Hr & _). pose proof (ok_len _ _ Hok) as Hl. unfold append.
  destruct (Z.eqb_spec n 0) as [-> |].
  { injection Hr as <-. do 3 eexists. split; [reflexivity |]. apply appended_all; [by apply grown_refl | by rewrite app_nil_r]. }
  rewrite u64_small by lia.
  destruct (realloc_if_needed_ok m s c (str_length s + n) Hok Hc) as (err & s1 & m1 & -> & Hg1 & Hc1 & Hl1 & Hroom); [lia |].
  cbn [mbind option_bind]. destruct err; [do 3 eexists; split; [reflexivity | by apply appended_none] |]. specialize (Hroom eq_refl).
  destruct (source_grown _ _ _ _ _ _ _ Hg1 Hsrc) as (_ & Hr1 & _). unfold q_append. rewrite Hr1. cbn [mbind option_bind].
  pose proof (read_bytes_length _ _ _ _ Hr) as Hlb. pose proof (ok_cap _ _ (proj1 Hg1)) as Hcap.
  destruct (append_room m1 s1 c bs (proj1 Hg1) Hc1) as (m2 & -> & Hg2 & Hc2);
    [by eapply read_bytes_bytes; [apply Hg1 | exact Hr1] | lia |]. cbn [mbind option_bind].
  rewrite (u64_small (2 ^ 32 - 1 - n)) by lia. destruct (Z.leb_spec (str_length s1) (2 ^ 32 - 1 - n)); [| lia]. cbn [mbind option_bind].
  rewrite (u32_small n), u32_small by lia. replace n with (Z.of_nat (length bs)) in * by lia.
  do 3 eexists. split; [reflexivity |]. apply appended_all; [by eapply grown_trans | done].
Qed.

Lemma append_char_ok m s c chr : string_ok m s -> has_contents m s c -> 0 <= chr < 256 ->
  exists err s' m', append_char realloc_raw s m chr = Some (err, s', m') /\ appended m s c [chr] err s' m'.
Proof.
  intros Hok Hc Hchr. pose proof (ok_len _ _ Hok) as Hl. unfold append_char.
  assert (Hput : forall m1 s1, grown m s m1 s1 -> has_contents m1 s1 c -> str_length s1 < Alloced_length s1 ->
    exists err s' m', ('(b, m) ← q_append_char (base s1) m1 chr; Some (false, with_base s1 b, m)) = Some (err, s', m') /\ appended m s c [chr] err s' m').
  { intros m1 s1 Hg1 Hc1 Hroom. pose proof (ok_cap _ _ (proj1 Hg1)). pose proof (ok_len _ _ (proj1 Hg1)).
    destruct (append_room m1 s1 c [chr] (proj1 Hg1) Hc1) as (m2 & Hw & Hg2 & Hc2); [by apply Forall_cons_2; [| apply Forall_nil_2] | simpl; lia |].
    unfold q_append_char. cbn [write_bytes] in Hw. destruct (write m1 (Ptr s1 + str_length s1) chr) as [m2' |]; [| done]. injection Hw as ->.
    cbn [mbind option_bind]. rewrite u32_small by lia. do 3 eexists. split; [reflexivity |]. apply appended_all; [by eapply grown_trans | done]. }
  destruct (Z.ltb_spec (str_length s) (Alloced_length s)); [apply Hput; [by apply grown_refl | done | done] |].
  rewrite u32_small by lia.
  destruct (realloc_with_extra_ok m s c (str_length s + 1) Hok Hc) as (err & s1 & m1 & -> & Hg1 & Hc1 & Hl1 & Hroom); [lia |].
  cbn [mbind option_bind]. destruct err; [do 3 eexists; split; [reflexivity | by apply appended_none] |].
  apply Hput; [done | done | specialize (Hroom eq_refl); lia].
Qed.

Lemma appended_trans m s c bs1 bs2 s1 m1 err s2 m2 : appended m s c bs1 false s1 m1 -> appended m1 s1 (c ++ bs1) bs2 err s2 m2 ->
  appended m s c (bs1 ++ bs2) err s2 m2.
Proof.
  intros (Hg1 & ds1 & Hc1 & _ & E1) (Hg2 & ds2 & Hc2 & Hp & E2). specialize (E1 eq_refl). subst ds1.
  split; [by eapply grown_trans |]. exists (bs1 ++ ds2). split_and!.
  - by rewrite app_assoc.
  - by apply prefix_app.
  - intros Herr. by rewrite (E2 Herr).
Qed.

Lemma appended_stop m s c bs1 bs2 s1 m1 : appended m s c bs1 true s1 m1 -> appended m s c (bs1 ++ bs2) true s1 m1.
Proof. intros (Hg & ds & Hc & Hp & _). split; [done |]. exists ds. split_and!; [done | by apply prefix_app_r | done]. Qed.

(** The two digits of each byte. *)
Definition hex_digits (bs : bytes) : bytes := bs ≫= fun b => [dig_vec_lower (b >>> 4); dig_vec_lower (b &&& 0x0F)].

Lemma hex_digit_range b : 0 <= b < 256 -> 0 <= b >>> 4 < 16 /\ 0 <= b &&& 0x0F < 16.
Proof.
  intros Hb. rewrite Z.shiftr_div_pow2 by lia. change (2 ^ 4) with 16. change 0x0F with (Z.ones 4). rewrite Z.land_ones by lia.
  change (2 ^ 4) with 16. split; [| by apply Z.mod_pos_bound]. Z.div_mod_to_equations. lia.
Qed.

Lemma append_hex_ok bs : forall m s c a, string_ok m s -> has_contents m s c -> source m s a (Z.of_nat (length bs)) bs ->
  exists err s' m', append_hex_loop realloc_raw dig_vec_lower s m a (length bs) = Some (err, s', m') /\ appended m s c (hex_digits bs) err s' m'.
Proof.
  induction bs as [| b bs IH]; intros m s c a Hok Hc (Hn & Hr & Ho).
  { do 3 eexists. split; [reflexivity |]. apply appended_all; [by apply grown_refl | by rewrite app_nil_r]. }
  rewrite Nat2Z.id in Hr. cbn [length read_bytes append_hex_loop] in *.
  destruct (read m a) as [b' |] eqn:Ea; [| done]. cbn [mbind option_bind] in *.
  destruct (read_bytes m (a + 1) (length bs)) as [bs' |] eqn:Er; [| done]. cbn in Hr. injection Hr as -> ->.
  destruct (hex_digit_range b) as [Hd1 Hd2]; [by eapply ok_mem |].
  change (hex_digits (b :: bs)) with ([dig_vec_lower (b >>> 4)] ++ [dig_vec_lower (b &&& 0x0F)] ++ hex_digits bs).
  assert (Hsb : source m s a 1 [b]).
  { split_and!; [lia | lia | change (Z.to_nat 1) with 1%nat; cbn [read_bytes]; by rewrite Ea | intros x Hx; apply Ho; lia]. }
  assert (Hsbs : source m s (a + 1) (Z.of_nat (length bs)) bs).
  { split_and!; [lia | lia | by rewrite Nat2Z.id | intros x Hx; apply Ho; lia]. }
  destruct (append_char_ok m s c (dig_vec_lower (b >>> 4)) Hok Hc) as (e1 & s1 & m1 & -> & A1); [by apply dig_vec_bytes |].
  cbn [mbind option_bind]. destruct e1; [do 3 eexists; split; [reflexivity | by apply appended_stop] |].
  destruct (source_grown _ _ _ _ _ _ _ (proj1 A1) Hsb) as (_ & Ha1 & _).
  change (Z.to_nat 1) with 1%nat in Ha1. cbn [read_bytes] in Ha1. destruct (read m1 a) as [? |]; [| done]. injection Ha1 as ->.
  cbn [mbind option_bind]. pose proof A1 as (G1 & ds1 & C1 & _ & E1). rewrite (E1 eq_refl) in C1.
  destruct (append_char_ok m1 s1 _ (dig_vec_lower (b &&& 0x0F)) (proj1 G1) C1) as (e2 & s2 & m2 & -> & A2); [by apply dig_vec_bytes |].
  cbn [mbind option_bind]. destruct e2; [do 3 eexists; split; [reflexivity | eapply appended_trans; [exact A1 | by apply appended_stop]] |].
  pose proof A2 as (G2 & ds2 & C2 & _ & E2). rewrite (E2 eq_refl) in C2.
  destruct (IH m2 s2 _ (a + 1) (proj1 G2) C2) as (e3 & s3 & m3 & -> & A3); [by eapply source_grown; [exact G2 | eapply source_grown; [exact G1 |]] |].
  do 3 eexists. split; [reflexivity |]. eapply appended_trans; [exact A1 |]. by eapply appended_trans.
Qed.

(** A sequence of appends, which stops at the first failure. *)
Inductive piece := Text (a n : Z) | Char (chr : Z) | Hex (a n : Z).

Definition append_piece (s : Binary_string) (m : memory) (p : piece) : option (bool * Binary_string * memory) :=
  match p with
  | Text a n => append realloc_raw s m a n
  | Char chr => append_char realloc_raw s m chr
  | Hex a n => append_hex realloc_raw dig_vec_lower s m a n
  end.

Fixpoint append_pieces (s : Binary_string) (m : memory) (ps : list piece) : option (bool * Binary_string * memory) :=
  match ps with
  | [] => Some (false, s, m)
  | p :: ps =>
      '(err, s, m) ← append_piece s m p;
      if (err : bool) then Some (true, s, m) else append_pieces s m ps
  end.

(** [p] appends [bs]: its text is in memory and outside the buffer. *)
Definition piece_bytes (m : memory) (s : Binary_string) (p : piece) (bs : bytes) : Prop :=
  match p with
  | Text a n => source m s a n bs
  | Char chr => 0 <= chr < 256 /\ bs = [chr]
  | Hex a n => exists cs, source m s a n cs /\ bs = hex_digits cs
  end.

Lemma piece_bytes_grown m s m' s' p bs : grown m s m' s' -> piece_bytes m s p bs -> piece_bytes m' s' p bs.
Proof.
  intros Hg. destruct p; cbn [piece_bytes]; [by apply source_grown | done |].
  intros (cs & Hs & ->). exists cs. split; [by eapply source_grown | done].
Qed.

Lemma append_piece_ok m s c p bs : string_ok m s -> has_contents m s c -> piece_bytes m s p bs ->
  exists err s' m', append_piece s m p = Some (err, s', m') /\ appended m s c bs err s' m'.
Proof.
  intros Hok Hc. destruct p as [a n | chr | a n]; cbn [piece_bytes append_piece].
  - by apply string_append_ok.
  - intros [Hchr ->]. by apply append_char_ok.
  - intros (cs & Hs & ->). pose proof Hs as (Hn & Hr & _). apply read_bytes_length in Hr. unfold append_hex. rewrite <- Hr.
    apply append_hex_ok; [done | done |]. by replace (Z.of_nat (length cs)) with n by lia.
Qed.

Lemma append_pieces_ok ps : forall m s c bss, string_ok m s -> has_contents m s c -> Forall2 (piece_bytes m s) ps bss ->
  exists err s' m', append_pieces s m ps = Some (err, s', m') /\ appended m s c (concat bss) err s' m'.
Proof.
  induction ps as [| p ps IH]; intros m s c bss Hok Hc Hps.
  - apply Forall2_nil_inv_l in Hps as ->. do 3 eexists. split; [reflexivity |].
    apply appended_all; [by apply grown_refl | by rewrite app_nil_r].
  - apply Forall2_cons_inv_l in Hps as (bs & bss' & Hp & Hps & ->). cbn [append_pieces concat].
    destruct (append_piece_ok m s c p bs Hok Hc Hp) as (err & s1 & m1 & -> & A1). cbn [mbind option_bind].
    destruct err; [do 3 eexists; split; [reflexivity | by apply appended_stop] |].
    pose proof A1 as (G1 & ds1 & C1 & _ & E1). rewrite (E1 eq_refl) in C1.
    destruct (IH m1 s1 (c ++ bs) bss' (proj1 G1) C1) as (err & s2 & m2 & -> & A2).
    { eapply Forall2_impl; [exact Hps |]. intros q b. by apply piece_bytes_grown. }
    do 3 eexists. split; [reflexivity |]. by eapply appended_trans.
Qed.

(** C30: the appending functions are memory safe and exact: any sequence of
    [append], [append_char] and [append_hex] whose texts lie outside the buffer
    touches only memory that is there, keeps the string well formed and every
    byte outside the buffer as it was, and, whether it grew in place, moved to
    a new block or the allocation failed, leaves the old contents followed by
    what was appended: all of it, or on failure a part from the front. *)
Theorem string_appends m s c ps bss :
  string_ok m s -> has_contents m s c -> Forall2 (piece_bytes m s) ps bss ->
  exists err s' m', append_pieces s m ps = Some (err, s', m') /\ string_ok m' s' /\
    (exists ds, has_contents m' s' (c ++ ds) /\ ds `prefix_of` concat bss /\ (err = false -> ds = concat bss)) /\
    (forall a, ~ in_buf s a -> is_Some (read m a) -> read m' a = read m a).
Proof.
  intros Hok Hc Hps. destruct (append_pieces_ok ps m s c bss Hok Hc Hps) as (err & s' & m' & -> & [Hok' Hg] & Hds).
  exists err, s', m'. split_and!; [done | done | done |]. intros a Ha Hs. by apply Hg.
Qed.

(** [c_ptr_safe] gives a zero-terminated string: when it succeeds the byte
    behind the contents is there and is 0, and the contents are unchanged. *)
Theorem c_ptr_safe_terminates m s c :
  string_ok m s -> has_contents m s c -> Ptr s <> 0 ->
  exists err s' m', c_ptr_safe realloc_raw s m = Some (err, s', m') /\ string_ok m' s' /\ has_contents m' s' c /\
    (err = false -> read m' (end_ s') = Some 0).
Proof.
  intros Hok Hc Hp. unfold c_ptr_safe, end_. pose proof (ok_len _ _ Hok) as Hl.
  destruct (Z.eqb_spec (Ptr s) 0); [done |]. cbn [negb andb]. destruct (Z.ltb_spec (str_length s) (Alloced_length s)).
  - destruct (write_behind m s c (str_length s) 0 Hok Hc) as (m' & -> & [Hok' _] & Hc' & Hr'); [lia |].
    do 3 eexists. split; [reflexivity |]. by split_and!.
  - destruct (realloc_ok m s c (str_length s) Hok Hc) as (err & s' & m' & -> & ([Hok' _] & Hc' & Hl' & _) & Hz); [lia |].
    do 3 eexists. split; [reflexivity |]. split_and!; [done | done |]. intros ->. rewrite Hl'. by apply Hz.
Qed.
End appending.

(** ** Ownership of heap blocks *)

(** Some string objects, the memory, and the blocks that no string owns. *)
Record owners := Owners { strings : list Binary_string; heap : memory; given : gset Z }.

(** Operations on the objects by their number. *)
Inductive owner_op :=
  | Free (i : nat) | Move (i j : nat) | Swap (i j : nat) | Assign (i j : nat) | Set_const (i : nat) (p n : Z)
  | Set_buffer (i : nat) (p n : Z) | Set_substring (i j : nat) (off n : Z) | Set_quick (i : nat) (p n : Z)
  | Reset_ (i : nat) (p n cap : Z) | Release (i : nat) | Mark_as_const (i : nat).

Definition update1 (st : owners) (i : nat) (f : Binary_string -> memory -> option (Binary_string * memory)) : option owners :=
  s ← strings st !! i; '(s, m) ← f s (heap st); Some (Owners (<[i := s]> (strings st)) m (given st)).

Definition owner_step (st : owners) (o : owner_op) : option owners :=
  match o with
  | Free i => update1 st i free
  | Move i j =>
      s ← strings st !! i; t ← strings st !! j; '(s, t, m) ← move s (heap st) t;
      Some (Owners (<[i := s]> (<[j := t]> (strings st))) m (given st))
  | Swap i j =>
      s ← strings st !! i; t ← strings st !! j; let '(s, t) := swap s t in
      Some (Owners (<[i := s]> (<[j := t]> (strings st))) (heap st) (given st))
  | Assign i j => if bool_decide (i = j) then Some st else t ← strings st !! j; update1 st i (fun s m => assign s m t)
  | Set_const i p n => update1 st i (fun s m => set_const s m p n)
  | Set_buffer i p n => update1 st i (fun s m => set_buffer s m p n)
  | Set_substring i j off n => t ← strings st !! j; update1 st i (fun s m => set_substring s m t off n)
  | Set_quick i p n => update1 st i (fun s m => Some (set_quick s p n, m))
  | Reset_ i p n cap =>
      st ← update1 st i (fun s m => reset s m p n cap); Some (Owners (strings st) (heap st) (given st ∖ {[p]}))
  | Release i =>
      s ← strings st !! i; let '(p, s') := release s in
      Some (Owners (<[i := s']> (strings st)) (heap st) (if alloced s then {[p]} ∪ given st else given st))
  | Mark_as_const i => update1 st i (fun s m => Some (mark_as_const s, m))
  end.

Fixpoint owner_run (st : owners) (os : list owner_op) : option owners :=
  match os with [] => Some st | o :: os => st ← owner_step st o; owner_run st os end.

(** What the caller promises: the objects exist and differ, lengths fit, an
    assigned string does not lie in the buffer it replaces, and a pointer that
    is handed over is NULL or a block that no string owns. *)
Definition valid_cap (n : Z) : Prop := 0 <= n < 2 ^ 32 - 1.
Definition owner_allowed (st : owners) (o : owner_op) : Prop :=
  let n := length (strings st) in
  match o with
  | Free i | Set_const i _ _ | Release i | Mark_as_const i => (i < n)%nat
  | Move i j | Swap i j => (i < n)%nat /\ (j < n)%nat /\ i <> j
  | Assign i j => (i < n)%nat /\ (j < n)%nat /\
      (i <> j -> forall s t, strings st !! i = Some s -> strings st !! j = Some t -> uses_buffer_owned_by t s = false)
  | Set_substring i j off _ => (i < n)%nat /\ (j < n)%nat /\ i <> j /\
      forall t, strings st !! j = Some t -> Alloced_length t = 0 \/ 0 <= off <= Alloced_length t
  | Set_buffer i _ cap | Set_quick i _ cap => (i < n)%nat /\ valid_cap cap
  | Reset_ i p _ cap => (i < n)%nat /\ valid_cap cap /\ (p = 0 \/ p ∈ given st)
  end.

Inductive owner_reach : owners -> list owner_op -> owners -> Prop :=
  | reach_nil st : owner_reach st [] st
  | reach_cons st o st1 os st2 : owner_allowed st o -> owner_step st o = Some st1 -> owner_reach st1 os st2 ->
      owner_reach st (o :: os) st2.

Definition own1 (s : Binary_string) : list Z := if alloced s then [Ptr s] else [].
Definition owned (ss : list Binary_string) : list Z := ss ≫= own1.

(** Every block of the heap is owned by one string or by the program. *)
Record owners_ok (st : owners) : Prop := {
  owners_once : NoDup (owned (strings st) ++ elements (given st));
  owners_blocks p : p ∈ owned (strings st) ++ elements (given st) <-> is_Some (blocks (heap st) !! p);
  owners_null : blocks (heap st) !! 0 = None;
  owners_caps : Forall (fun s => valid_cap (Alloced_length s)) (strings st) }.

Lemma owned_insert ss i s s' : ss !! i = Some s -> own1 s' ++ owned ss ≡ₚ own1 s ++ owned (<[i := s']> ss).
Proof.
  revert i. induction ss as [| t ss IH]; intros [| i]; [done | done | |].
  - intros [= ->]. cbn. rewrite !app_assoc. apply Permutation_app_tail, Permutation_app_comm.
  - intros Hi. cbn. specialize (IH i Hi). change (own1 s' ++ own1 t ++ owned ss ≡ₚ own1 s ++ own1 t ++ owned (<[i := s']> ss)).
    rewrite !(Permutation_app_swap_app _ (own1 t)). by rewrite IH.
Qed.

(** [free] on an object of a good state. *)
Lemma owners_free st s i : owners_ok st -> strings st !! i = Some s ->
  exists m', free s (heap st) = Some (Str (Static 0 0) 0 0 false (thread_specific s), m') /\
    forall p, is_Some (blocks m' !! p) <-> is_Some (blocks (heap st) !! p) /\ p ∉ own1 s.
Proof.
  intros [Hn Hb H0 _] Hi. unfold free. destruct (alloced s) eqn:Ea.
  - assert (Hp : is_Some (blocks (heap st) !! Ptr s)).
    { apply Hb. apply elem_of_app. left. unfold owned. apply list_elem_of_bind. exists s. unfold own1. rewrite Ea.
      split; [apply list_elem_of_singleton; done | by eapply list_elem_of_lookup_2]. }
    unfold my_free. destruct (Z.eqb_spec (Ptr s) 0) as [E |]; [rewrite E, H0 in Hp; by destruct Hp |].
    destruct Hp as [k ->]. eexists. split; [reflexivity |]. intros p. unfold own1. rewrite Ea. cbn [blocks].
    rewrite list_elem_of_singleton. destruct (decide (Ptr s = p)) as [<- |]; [rewrite lookup_delete_eq | rewrite lookup_delete_ne by done];
      [split; [by intros [] | by intros []] | naive_solver].
  - eexists. split; [reflexivity |]. intros p. unfold own1. rewrite Ea. split; [| tauto]. intros H. split; [done |]. apply not_elem_of_nil.
Qed.

(** A step that gives up what [fr] lists. *)
Lemma owners_ok_step st ss m g fr : owners_ok st ->
  owned (strings st) ++ elements (given st) ≡ₚ fr ++ owned ss ++ elements g ->
  (forall p, is_Some (blocks m !! p) <-> is_Some (blocks (heap st) !! p) /\ p ∉ fr) ->
  Forall (fun s => valid_cap (Alloced_length s)) ss -> owners_ok (Owners ss m g).
Proof.
  intros [Hn Hb H0 Hc] HP Hm Hcs. rewrite HP in Hn. apply NoDup_app in Hn as (_ & Hd & Hn). split; cbn [strings heap given]; [done | | | done].
  - intros p. rewrite Hm, <- Hb, HP, (elem_of_app fr). split; [intros Hp; split; [by right | intros Hf; by apply (Hd p)] | tauto].
  - destruct (blocks m !! 0) eqn:E; [| done]. destruct (Hm 0) as [[H _] _]; [by rewrite E |]. rewrite H0 in H. by destruct H.
Qed.

Lemma caps_insert st i s : owners_ok st -> valid_cap (Alloced_length s) ->
  Forall (fun s => valid_cap (Alloced_length s)) (<[i := s]> (strings st)).
Proof. intros H Hs. apply Forall_insert; [apply H | done]. Qed.

Lemma caps_lookup st i s : owners_ok st -> strings st !! i = Some s -> valid_cap (Alloced_length s).
Proof. intros H Hi. by eapply Forall_lookup_1 in Hi; [| apply H]. Qed.

(** One object takes a new value: with its old buffer freed, or kept. *)
Lemma update_freed st i s s' m' : owners_ok st -> strings st !! i = Some s ->
  (forall p, is_Some (blocks m' !! p) <-> is_Some (blocks (heap st) !! p) /\ p ∉ own1 s) ->
  own1 s' = [] -> valid_cap (Alloced_length s') -> owners_ok (Owners (<[i := s']> (strings st)) m' (given st)).
Proof.
  intros Hok Hi Hm Ho Hc. eapply owners_ok_step; [exact Hok | | exact Hm | by apply caps_insert]. pose proof (owned_insert _ _ _ s' Hi) as HP.
  rewrite Ho in HP. cbn [app] in HP. by rewrite HP, <- app_assoc.
Qed.

Lemma update_kept st i s s' : owners_ok st -> strings st !! i = Some s ->
  own1 s' = own1 s -> valid_cap (Alloced_length s') -> owners_ok (Owners (<[i := s']> (strings st)) (heap st) (given st)).
Proof.
  intros Hok Hi Ho Hc. eapply (owners_ok_step _ _ _ _ []); [exact Hok | | set_solver | by apply caps_insert].
  pose proof (owned_insert _ _ _ s' Hi) as HP. rewrite Ho in HP. apply Permutation_app_inv_l in HP. cbn [app]. by rewrite HP.
Qed.

Lemma update1_run st i f s s' m' : strings st !! i = Some s -> f s (heap st) = Some (s', m') ->
  update1 st i f = Some (Owners (<[i := s']> (strings st)) m' (given st)).
Proof. intros Hi Hf. unfold update1. rewrite Hi. cbn [mbind option_bind]. by rewrite Hf. Qed.

(** The operations that free and then point elsewhere without owning. *)
Lemma update1_freed st i f : owners_ok st -> (i < length (strings st))%nat ->
  (forall s m', strings st !! i = Some s -> free s (heap st) = Some (Str (Static 0 0) 0 0 false (thread_specific s), m') ->
    exists s', f s (heap st) = Some (s', m') /\ own1 s' = [] /\ valid_cap (Alloced_length s')) ->
  exists st', update1 st i f = Some st' /\ owners_ok st'.
Proof.
  intros Hok Hi Hf. apply lookup_lt_is_Some_2 in Hi as [s Hi]. destruct (owners_free st s i Hok Hi) as (m' & Hfree & Hm).
  destruct (Hf s m' Hi Hfree) as (s' & Hs' & Ho & Hc). eexists. split; [by eapply update1_run |]. by eapply update_freed.
Qed.

Lemma update1_kept st i f : owners_ok st -> (i < length (strings st))%nat ->
  (forall s, strings st !! i = Some s -> exists s', f s (heap st) = Some (s', heap st) /\ own1 s' = own1 s /\ valid_cap (Alloced_length s')) ->
  exists st', update1 st i f = Some st' /\ owners_ok st'.
Proof.
  intros Hok Hi Hf. apply lookup_lt_is_Some_2 in Hi as [s Hi]. destruct (Hf s Hi) as (s' & Hs' & Ho & Hc).
  eexists. split; [by eapply update1_run |]. by eapply update_kept.
Qed.

Lemma valid_cap_ltb n : valid_cap n -> n <? 2 ^ 32 - 1 = true /\ u32 n = n.
Proof. intros Hn. unfold valid_cap in Hn. split; [apply Z.ltb_lt; lia | apply u32_small; lia]. Qed.

Lemma valid_cap_0 : valid_cap 0.
Proof. unfold valid_cap. lia. Qed.

(** [set_alloced] after [free]. *)
Lemma set_alloced_freed s m str len cap m' : valid_cap cap ->
  free s m = Some (Str (Static 0 0) 0 0 false (thread_specific s), m') ->
  set_alloced s m str len cap = Some (Str (Static str (u32 len)) cap 0 false (thread_specific s), m').
Proof. intros Hc Hf. unfold set_alloced. rewrite Hf. cbn [mbind option_bind]. destruct (valid_cap_ltb _ Hc) as [-> ->]. done. Qed.

(** Two objects take new values. *)
Lemma owned_insert2 ss i j s t s' t' : ss !! i = Some s -> ss !! j = Some t -> i <> j ->
  (own1 s' ++ own1 t') ++ owned ss ≡ₚ (own1 s ++ own1 t) ++ owned (<[i := s']> (<[j := t']> ss)).
Proof.
  intros Hi Hj Hij. rewrite <- !app_assoc, (owned_insert ss j t t' Hj), (Permutation_app_swap_app (own1 s')).
  rewrite (owned_insert (<[j := t']> ss) i s s') by (by rewrite list_lookup_insert_ne). apply Permutation_app_swap_app.
Qed.

Lemma move_step st i j : owners_ok st -> owner_allowed st (Move i j) ->
  exists st', owner_step st (Move i j) = Some st' /\ owners_ok st'.
Proof.
  intros Hok (Hi & Hj & Hij). apply lookup_lt_is_Some_2 in Hi as [s Hi]. apply lookup_lt_is_Some_2 in Hj as [t Hj].
  destruct (owners_free st s i Hok Hi) as (m' & Hf & Hm). pose proof (caps_lookup _ _ _ Hok Hj) as Hc.
  cbn [owner_step]. rewrite Hi, Hj. cbn [mbind option_bind]. unfold move.
  rewrite (set_alloced_freed _ _ _ _ _ _ Hc Hf). cbn [mbind option_bind]. eexists. split; [reflexivity |].
  eapply owners_ok_step; [exact Hok | | exact Hm |].
  - match goal with |- context [<[i := ?a]> (<[j := ?b]> _)] => pose proof (owned_insert2 _ i j s t a b Hi Hj Hij) as HP end.
    unfold own1 at 1 2 in HP. cbn [alloced base Ptr] in HP. change (if alloced t then [Ptr t] else []) with (own1 t) in HP.
    rewrite app_nil_r, (Permutation_app_comm (own1 s)), <- app_assoc in HP. apply Permutation_app_inv_l in HP.
    by rewrite HP, <- app_assoc.
  - apply Forall_insert; [by apply caps_insert | done].
Qed.

Lemma swap_step st i j : owners_ok st -> owner_allowed st (Swap i j) ->
  exists st', owner_step st (Swap i j) = Some st' /\ owners_ok st'.
Proof.
  intros Hok (Hi & Hj & Hij). apply lookup_lt_is_Some_2 in Hi as [s Hi]. apply lookup_lt_is_Some_2 in Hj as [t Hj].
  cbn [owner_step]. rewrite Hi, Hj. cbn [mbind option_bind swap swap_static]. eexists. split; [reflexivity |].
  eapply (owners_ok_step _ _ _ _ []); [exact Hok | | set_solver |].
  - match goal with |- context [<[i := ?a]> (<[j := ?b]> _)] => pose proof (owned_insert2 _ i j s t a b Hi Hj Hij) as HP end.
    unfold own1 at 1 2 in HP. cbn [alloced base Ptr] in HP. change (if alloced t then [Ptr t] else []) with (own1 t) in HP.
    change (if alloced s then [Ptr s] else []) with (own1 s) in HP.
    rewrite (Permutation_app_comm (own1 t)) in HP. apply Permutation_app_inv_l in HP. cbn [app]. by rewrite HP.
  - apply Forall_insert; [apply caps_insert; [done |] |]; cbn [Alloced_length]; [by eapply caps_lookup; [exact Hok | exact Hi] | by eapply caps_lookup; [exact Hok | exact Hj]].
Qed.

Lemma reset_step st i p n cap : owners_ok st -> owner_allowed st (Reset_ i p n cap) ->
  exists st', owner_step st (Reset_ i p n cap) = Some st' /\ owners_ok st'.
Proof.
  intros Hok (Hi & Hc & Hp). apply lookup_lt_is_Some_2 in Hi as [s Hi].
  destruct (owners_free st s i Hok Hi) as (m' & Hf & Hm). cbn [owner_step].
  erewrite (update1_run st i _ s); [| done | unfold reset; rewrite (set_alloced_freed _ _ _ _ _ _ Hc Hf); cbn [mbind option_bind]; reflexivity].
  cbn [mbind option_bind strings heap given]. eexists. split; [reflexivity |].
  eapply owners_ok_step; [exact Hok | | exact Hm | by apply caps_insert].
  match goal with |- context [<[i := ?a]> _] => pose proof (owned_insert _ i s a Hi) as HP end.
  unfold own1 at 1 in HP. cbn [alloced base Ptr] in HP.
  assert (Hg : elements (given st) ≡ₚ (if negb (p =? 0) then [p] else []) ++ elements (given st ∖ {[p]})).
  { destruct (Z.eqb_spec p 0) as [-> | Hne]; cbn [negb app].
    - rewrite difference_disjoint_L; [done |]. assert (0 ∉ given st); [| set_solver].
      intros H0. pose proof (owners_null _ Hok) as HN. destruct (proj1 (owners_blocks _ Hok 0)) as [? E]; [set_solver | by rewrite HN in E].
    - destruct Hp as [-> | Hp]; [done |]. rewrite (union_difference_singleton_L p (given st) Hp) at 1.
      rewrite elements_disj_union by set_solver. by rewrite elements_singleton. }
  rewrite Hg, !app_assoc. apply Permutation_app_tail. rewrite <- HP. apply Permutation_app_comm.
Qed.

Lemma release_step st i : owners_ok st -> owner_allowed st (Release i) ->
  exists st', owner_step st (Release i) = Some st' /\ owners_ok st'.
Proof.
  intros Hok Hi. apply lookup_lt_is_Some_2 in Hi as [s Hi]. cbn [owner_step]. rewrite Hi. cbn [mbind option_bind release].
  eexists. split; [reflexivity |]. eapply (owners_ok_step _ _ _ _ []); [exact Hok | | set_solver | apply caps_insert; [done | apply valid_cap_0]].
  pose proof (owned_insert _ i s (init_private_data (Static 0 0)) Hi) as HP. unfold own1 at 1 in HP. cbn [alloced init_private_data app] in *.
  rewrite HP. unfold own1. destruct (alloced s) eqn:Ea; [| done].
  assert (Hn : Ptr s ∉ given st).
  { pose proof (owners_once _ Hok) as Hd. rewrite HP in Hd. unfold own1 in Hd. rewrite Ea in Hd. cbn in Hd.
    apply NoDup_cons in Hd as [Hd _]. set_solver. }
  rewrite elements_disj_union, elements_singleton by set_solver. cbn. by rewrite Permutation_middle.
Qed.

Lemma owner_step_ok st o : owners_ok st -> owner_allowed st o -> exists st', owner_step st o = Some st' /\ owners_ok st'.
Proof.
  intros Hok. destruct o as [i | i j | i j | i j | i p n | i p n | i j off n | i p n | i p n cap | i | i].
  - intros Hi. apply update1_freed; [done | done |]. intros s m' _ Hf. eexists. split_and!; [exact Hf | done | apply valid_cap_0 ..].
  - by apply move_step.
  - by apply swap_step.
  - intros (Hi & Hj & Hu). cbn [owner_step]. case_bool_decide as Hij; [by exists st |].
    apply lookup_lt_is_Some_2 in Hj as [t Hj]. rewrite Hj. cbn [mbind option_bind]. pose proof (caps_lookup _ _ _ Hok Hj) as Hc.
    apply update1_freed; [done | done |]. intros s m' Hs Hf. unfold assign. rewrite (Hu Hij s t Hs Hj), (set_alloced_freed _ _ _ _ _ _ Hc Hf).
    eexists. by split_and!.
  - intros Hi. apply update1_freed; [done | done |]. intros s m' _ Hf. cbn [owner_step]. unfold set_const. rewrite Hf. eexists. split_and!; [reflexivity | done | apply valid_cap_0 ..].
  - intros [Hi Hc]. apply update1_freed; [done | done |]. intros s m' _ Hf. unfold set_buffer. rewrite (set_alloced_freed _ _ _ _ _ _ Hc Hf).
    eexists. by split_and!.
  - intros (Hi & Hj & _ & Ht). apply lookup_lt_is_Some_2 in Hj as [t Hj]. pose proof (caps_lookup _ _ _ Hok Hj) as Hc. specialize (Ht t Hj).
    cbn [owner_step]. rewrite Hj. cbn [mbind option_bind]. apply update1_freed; [done | done |]. intros s m' _ Hf. unfold set_substring. rewrite Hf.
    unfold valid_cap in *. cbn [mbind option_bind]. eexists. split; [reflexivity |]. destruct (Z.eqb_spec (Alloced_length t) 0); cbn; [split; [done | lia] |].
    split; [done |]. rewrite u32_small by lia. lia.
  - intros [Hi Hc]. apply update1_kept; [done | done |]. intros s Hs. pose proof (caps_lookup _ _ _ Hok Hs) as Hcs. eexists. split; [reflexivity |].
    unfold set_quick. destruct (alloced s) eqn:Ea; cbn [negb]; [done |].
    unfold own1. rewrite Ea. destruct (valid_cap_ltb _ Hc) as [_ E]. cbn [alloced Alloced_length]. by rewrite E.
  - by apply reset_step.
  - by apply release_step.
  - intros Hi. apply update1_kept; [done | done |]. intros s Hs. eexists. split; [reflexivity |]. split; [done | apply valid_cap_0].
Qed.

Lemma owner_reach_ok st os st' : owner_reach st os st' -> owners_ok st -> owners_ok st'.
Proof.
  induction 1 as [| st o st1 os st2 Ha Hs _ IH]; intros Hok; [done |].
  apply IH. destruct (owner_step_ok st o Hok Ha) as (st3 & Hs' & H3). congruence.
Qed.

(** The destructors of the objects [l]. *)
Lemma free_objects l : forall st, owners_ok st -> Forall (fun i => (i < length (strings st))%nat) l ->
  exists st', owner_run st (Free <$> l) = Some st' /\ owners_ok st' /\ given st' = given st /\
    length (strings st') = length (strings st) /\
    forall i s, strings st' !! i = Some s -> (i ∈ l \/ exists s0, strings st !! i = Some s0 /\ alloced s0 = false) -> alloced s = false.
Proof.
  induction l as [| i l IH]; intros st Hok Hl.
  { exists st. split_and!; [done | done | done | done |]. intros i s Hi [H | (s0 & H & Hs)]; [by apply not_elem_of_nil in H | congruence]. }
  apply Forall_cons in Hl as [Hi Hl]. apply lookup_lt_is_Some_2 in Hi as [s Hi].
  destruct (owners_free st s i Hok Hi) as (m' & Hf & Hm). cbn [fmap list_fmap owner_run owner_step].
  rewrite (update1_run st i free s _ m' Hi Hf). cbn [mbind option_bind].
  match goal with |- context [owner_run ?x _] => set (st1 := x) end.
  assert (Hok1 : owners_ok st1) by (eapply update_freed; [done | exact Hi | exact Hm | done | apply valid_cap_0]).
  destruct (IH st1 Hok1) as (st' & Hr & Hok' & Hg & Hlen & Ha); [by unfold st1; cbn [strings]; rewrite length_insert |].
  exists st'. split_and!; [done | done | done | by rewrite Hlen; unfold st1; cbn [strings]; rewrite length_insert |].
  intros k t Hk Hor. apply (Ha k t Hk). unfold st1. cbn [strings]. destruct (decide (i = k)) as [<- | Hne].
  - right. eexists. rewrite list_lookup_insert_eq by (by eapply lookup_lt_Some). done.
  - rewrite list_lookup_insert_ne by done. destruct Hor as [Hin | H]; [| by right]. apply elem_of_cons in Hin as [-> | Hin]; [done | by left].
Qed.

(** C31: strings neither leak nor free twice: in every state reached by
    allowed operations, each heap block is owned by exactly one string or by the
    program, every further allowed operation succeeds (what it frees is a block),
    and running the destructors of all strings frees exactly the blocks that the
    strings own. *)
Theorem no_block_lost st os st' :
  owners_ok st -> owner_reach st os st' ->
  NoDup (owned (strings st') ++ elements (given st')) /\
  (forall o, owner_allowed st' o -> is_Some (owner_step st' o)) /\
  exists st'', owner_run st' (Free <$> seq 0 (length (strings st'))) = Some st'' /\
    forall p, is_Some (blocks (heap st'') !! p) <-> p ∈ given st'.
Proof.
  intros Hok Hr. pose proof (owner_reach_ok _ _ _ Hr Hok) as Hok'. split_and!.
  - apply Hok'.
  - intros o Ho. destruct (owner_step_ok st' o Hok' Ho) as (st2 & -> & _). done.
  - destruct (free_objects (seq 0 (length (strings st'))) st' Hok') as (st2 & -> & Hok2 & Hg & Hlen & Ha).
    { apply Forall_seq. lia. }
    exists st2. split; [done |]. intros p. rewrite <- (owners_blocks _ Hok2 p), elem_of_app, elem_of_elements, Hg.
    split; [| by right]. intros [Hp | Hp]; [| done]. exfalso. unfold owned in Hp. apply list_elem_of_bind in Hp as (s & Hp & Hs).
    apply list_elem_of_lookup in Hs as [i Hi]. unfold own1 in Hp. rewrite (Ha i s Hi) in Hp.
    + by apply not_elem_of_nil in Hp.
    + left. apply elem_of_seq. apply lookup_lt_Some in Hi. lia.
Qed.

(** ** A growth step that satisfies [Realloc]

    It always moves to a new block above all addresses, like [my_malloc],
    [memcpy] and [my_free] would. *)

Definition top (m : memory) : Z := foldr Z.max 0 (map_to_list (mem_bytes m)).*1.

Lemma foldr_max_above l a : a ∈ l -> a <= foldr Z.max 0 l.
Proof. induction l as [| b l IH]; [by intros ?%not_elem_of_nil |]. intros [-> | H]%elem_of_cons; cbn; [lia | specialize (IH H); lia]. Qed.

Lemma top_above m a : is_Some (read m a) -> a <= top m.
Proof.
  intros [b Hb]. apply foldr_max_above. apply list_elem_of_fmap. exists (a, b). split; [done |]. by apply elem_of_map_to_list.
Qed.

Lemma top_nonneg m : 0 <= top m.
Proof. unfold top. induction (map_to_list (mem_bytes m)).*1; cbn; lia. Qed.

Fixpoint put_bytes (f : gmap Z Z) (p : Z) (bs : bytes) : gmap Z Z :=
  match bs with [] => f | b :: bs => <[p := b]> (put_bytes f (p + 1) bs) end.

Lemma put_bytes_out f p bs x : ~ (p <= x < p + Z.of_nat (length bs)) -> put_bytes f p bs !! x = f !! x.
Proof.
  revert p. induction bs as [| b bs IH]; intros p Hx; [done |]. cbn [length put_bytes] in *.
  rewrite lookup_insert_ne by lia. apply IH. lia.
Qed.

Lemma put_bytes_in f p bs i b : bs !! i = Some b -> put_bytes f p bs !! (p + Z.of_nat i) = Some b.
Proof.
  revert p i. induction bs as [| b' bs IH]; intros p [| i]; [done | done | |]; cbn [lookup list_lookup put_bytes].
  - intros [= ->]. rewrite Z.add_0_r. by rewrite lookup_insert_eq.
  - intros Hi. rewrite lookup_insert_ne by lia. replace (p + Z.of_nat (S i)) with (p + 1 + Z.of_nat i) by lia. by apply IH.
Qed.

Definition fresh_block (m : memory) (p n : Z) (bs : bytes) : memory := Mem (put_bytes (mem_bytes m) p bs) (<[p := n]> (blocks m)).

Definition moving_realloc (s : Binary_string) (m : memory) (n : Z) : bool * Binary_string * memory :=
  if 2 ^ 32 - 1 <=? n + 1 then (true, s, m) else
  match read_bytes m (Ptr s) (Z.to_nat (str_length s)) with
  | None => (true, s, m)
  | Some c =>
      let p := top m + 1 in
      let cap := n + 1 in
      let bs := c ++ repeat 0 (Z.to_nat cap - length c) in
      match (if alloced s then my_free m (Ptr s) else Some m) with
      | None => (true, s, m)
      | Some m1 => (false, Str (Static p (str_length s)) cap (extra_alloc s) true (thread_specific s), fresh_block m1 p cap bs)
      end
  end.

(** [free] in a good state removes only bytes of the buffer. *)
Lemma free_own_block m s : string_ok m s ->
  exists m1, (if alloced s then my_free m (Ptr s) else Some m) = Some m1 /\
    (forall a b, read m1 a = Some b -> read m a = Some b) /\ (forall a, ~ in_buf s a -> read m1 a = read m a).
Proof.
  intros Hok. destruct (alloced s) eqn:Ea; [| by exists m]. destruct (ok_heap _ _ Hok Ea) as [Hp Hb]. unfold my_free.
  destruct (Z.eqb_spec (Ptr s) 0); [done |]. rewrite Hb. eexists. split; [reflexivity |]. unfold read. cbn [mem_bytes]. split.
  - intros a b. rewrite map_lookup_filter_Some. tauto.
  - intros a Ha. pose proof (ok_cap _ _ Hok). destruct (mem_bytes m !! a) eqn:E; [| by apply map_lookup_filter_None_2; left].
    apply map_lookup_filter_Some_2; [done |]. cbn. intros Hr. apply Ha. unfold in_buf, capacity. lia.
Qed.

Lemma fresh_block_out m p n bs a : ~ (p <= a < p + Z.of_nat (length bs)) -> read (fresh_block m p n bs) a = read m a.
Proof. apply put_bytes_out. Qed.

Lemma fresh_block_in m p n bs a : is_bytes bs -> p <= a < p + Z.of_nat (length bs) ->
  exists b, read (fresh_block m p n bs) a = Some b /\ 0 <= b < 256.
Proof.
  intros Hb Ha. destruct (lookup_lt_is_Some_2 bs (Z.to_nat (a - p))) as [b Hi]; [lia |]. exists b.
  split; [| by eapply Forall_lookup_1 in Hb]. replace a with (p + Z.of_nat (Z.to_nat (a - p))) by lia. by apply put_bytes_in.
Qed.

(** The contents, and zeros up to the capacity. *)
Lemma padded_bytes c n : is_bytes c -> Z.of_nat (length c) <= n ->
  let bs := c ++ repeat 0 (Z.to_nat n - length c) in is_bytes bs /\ Z.of_nat (length bs) = n.
Proof.
  intros Hc Hn bs. split; [| unfold bs; rewrite length_app, repeat_length; lia].
  apply Forall_app. split; [done |]. apply Forall_forall. intros x Hx%list_elem_of_In%repeat_spec. lia.
Qed.

#[export] Instance moving_realloc_ok : Realloc moving_realloc.
Proof.
  intros s m n c Hok Hc Hn. unfold moving_realloc. destruct (Z.leb_spec (2 ^ 32 - 1) (n + 1)); [done |].
  unfold has_contents in Hc. rewrite Hc. destruct (free_own_block m s Hok) as (m1 & -> & Hsub & Hsame).
  pose proof (read_bytes_length _ _ _ _ Hc) as Hlc. pose proof (ok_len _ _ Hok) as Hl. pose proof (top_nonneg m) as Htop.
  destruct (padded_bytes c (n + 1)) as [Hbb Hbl]; [by eapply read_bytes_bytes; [apply (ok_mem _ _ Hok) | exact Hc] | lia |].
  set (bs := c ++ repeat 0 (Z.to_nat (n + 1) - length c)) in *.
  split_and!; [split; [split |] | | done | cbn; lia]; cbn [base Ptr str_length Alloced_length extra_alloc alloced]; try lia.
  - intros a b Hr. destruct (decide (top m + 1 <= a < top m + 1 + (n + 1))) as [Ha | Ha].
    + destruct (fresh_block_in m1 (top m + 1) (n + 1) bs a Hbb) as (b' & Hr' & Hb'); [lia | congruence].
    + rewrite fresh_block_out in Hr by lia. by eapply (ok_mem _ _ Hok), Hsub.
  - intros a Ha. unfold in_buf, capacity in Ha. cbn [base Ptr str_length Alloced_length] in Ha.
    destruct (fresh_block_in m1 (top m + 1) (n + 1) bs a Hbb) as (b' & -> & _); [lia | done].
  - apply (ok_extra _ _ Hok).
  - intros _. split; [lia |]. cbn. by rewrite lookup_insert_eq.
  - intros a Ha Hs. pose proof (top_above _ _ Hs). split; [rewrite fresh_block_out by lia; by apply Hsame |].
    unfold in_buf. cbn [base Ptr]. lia.
  - unfold has_contents. cbn [base Ptr str_length]. apply read_bytes_lookup; [lia |].
    intros i b Hi. apply put_bytes_in. unfold bs. by apply lookup_app_l_Some.
Qed.

(** ** Examples *)

Definition demo_memory : memory :=
  Mem (list_to_map [(100, 104); (101, 105); (102, 0); (103, 0); (200, 10); (201, 255)]) ∅.
(** A buffer of four bytes that is not on the heap, with the contents "hi". *)
Definition demo_string : Binary_string := Str (Static 100 2) 4 0 false false.
Definition demo_digit (d : Z) : Z := if d <? 10 then 48 + d else if d <? 16 then 87 + d else 0.

Lemma demo_digit_byte d : 0 <= d < 16 -> 0 <= demo_digit d < 256.
Proof. intros Hd. unfold demo_digit. destruct (Z.ltb_spec d 10); [lia |]. destruct (Z.ltb_spec d 16); lia. Qed.

Lemma demo_string_ok : string_ok demo_memory demo_string.
Proof.
  split; try done.
  - intros a b Hr. assert (H : map_Forall (fun _ b => 0 <= b < 256) (mem_bytes demo_memory)) by (refine (bool_decide_eq_true_1 _ _); by vm_compute).
    by eapply H.
  - by right.
  - intros a Ha. unfold in_buf, capacity in Ha. cbn in Ha. assert (Hc : a = 100 \/ a = 101 \/ a = 102 \/ a = 103) by lia.
    destruct Hc as [-> | [-> | [-> | ->]]]; by eexists.
Qed.

(** "hi", then the two bytes at 200, a letter and the two bytes in hexadecimal. *)
Definition demo_pieces : list piece := [Text 200 2; Char 65; Hex 200 2].

Lemma demo_pieces_ok :
  Forall2 (piece_bytes demo_digit demo_memory demo_string) demo_pieces [[10; 255]; [65]; [48; 97; 102; 102]].
Proof.
  assert (Hs : source demo_memory demo_string 200 2 [10; 255]).
  { split_and!; [lia | lia | done |]. intros x Hx. unfold in_buf, capacity. cbn. lia. }
  repeat apply Forall2_cons_2; [exact Hs | split; [lia | done] | by exists [10; 255] | apply Forall2_nil_2].
Qed.

(** The error and the contents of a result. *)
Definition result_text (r : option (bool * Binary_string * memory)) : option (bool * bytes) :=
  '(err, s, m) ← r; c ← read_bytes m (Ptr (base s)) (Z.to_nat (str_length (base s))); Some (err, c).

Lemma string_appends_witness :
  let r := append_pieces moving_realloc demo_digit demo_string demo_memory demo_pieces in
  result_text r = Some (false, [104; 105; 10; 255; 65; 48; 97; 102; 102]) /\
  exists err s' m', r = Some (err, s', m') /\ string_ok m' s'.
Proof.
  split; [vm_compute; reflexivity |].
  destruct (string_appends moving_realloc demo_digit demo_digit_byte demo_memory demo_string [104; 105] demo_pieces _ demo_string_ok eq_refl demo_pieces_ok)
    as (err & s' & m' & H & Hok & _).
  exists err, s', m'. split; [exact H | exact Hok].
Defined.

(** The constructor from a constant; then the terminator needs a new block. *)
Lemma demo_const_ok : string_ok demo_memory (init_private_data (Static 100 2)).
Proof.
  destruct demo_string_ok as [H1 H2 H3 H4 H5 H6 H7]. split; try done; [by left |].
  intros a Ha. apply H5. unfold in_buf, capacity in *. cbn in *. lia.
Qed.

Lemma c_ptr_safe_terminates_witness :
  let r := c_ptr_safe moving_realloc (init_private_data (Static 100 2)) demo_memory in
  result_text r = Some (false, [104; 105]) /\
  exists err s' m', r = Some (err, s', m') /\ string_ok m' s' /\ (err = false -> read m' (end_ s') = Some 0).
Proof.
  split; [vm_compute; reflexivity |].
  destruct (c_ptr_safe_terminates moving_realloc demo_memory (init_private_data (Static 100 2)) [104; 105] demo_const_ok eq_refl ltac:(done))
    as (err & s' & m' & H & Hok & _ & Hz).
  exists err, s', m'. split; [exact H | split; [exact Hok | exact Hz]].
Defined.

(** Two strings: 0 owns block 500, 1 borrows; block 600 is the program's. *)
Definition demo_owners : owners :=
  Owners [Str (Static 500 2) 4 0 true false; Str (Static 100 2) 0 0 false false]
    (Mem (mem_bytes demo_memory) {[500 := 4; 600 := 8]}) {[600]}.

Lemma demo_owners_ok : owners_ok demo_owners.
Proof.
  split.
  - refine (bool_decide_eq_true_1 _ _). by vm_compute.
  - intros p. cbn [demo_owners strings given heap blocks owned own1 alloced base Ptr mbind list_bind app]. rewrite elements_singleton.
    cbn. rewrite lookup_insert_is_Some, lookup_singleton_is_Some. set_solver.
  - done.
  - repeat apply Forall_cons_2; [unfold valid_cap; cbn; lia .. | apply Forall_nil_2].
Qed.

Definition demo_ops : list owner_op := [Move 1 0; Reset_ 0 600 3 8; Swap 0 1; Release 1].

(** The states after the moves, the swap and the release. *)
Definition demo_moved : owners :=
  Owners [Str (Static 500 2) 4 0 false false; Str (Static 500 2) 4 0 true false] (heap demo_owners) {[600]}.
Definition demo_reset : owners :=
  Owners [Str (Static 600 3) 8 0 true false; Str (Static 500 2) 4 0 true false] (heap demo_owners) ({[600]} ∖ {[600]}).
Definition demo_swapped : owners :=
  Owners [Str (Static 500 2) 4 0 true false; Str (Static 600 3) 8 0 true false] (heap demo_owners) ({[600]} ∖ {[600]}).
Definition demo_released : owners :=
  Owners [Str (Static 500 2) 4 0 true false; string_default] (heap demo_owners) ({[600]} ∪ ({[600]} ∖ {[600]})).

Lemma demo_reach : owner_reach demo_owners demo_ops demo_released.
Proof.
  apply (reach_cons _ _ demo_moved); [by cbn; lia | reflexivity |].
  apply (reach_cons _ _ demo_reset); [| reflexivity |].
  { cbn. unfold valid_cap. split_and!; [lia | lia | lia | right; set_solver]. }
  apply (reach_cons _ _ demo_swapped); [by cbn; lia | reflexivity |].
  apply (reach_cons _ _ demo_released); [by cbn; lia | reflexivity | apply reach_nil].
Qed.

Lemma no_block_lost_witness :
  NoDup (owned (strings demo_released) ++ elements (given demo_released)) /\
  exists st', owner_run demo_released [Free 0%nat; Free 1%nat] = Some st' /\
    ~ is_Some (blocks (heap st') !! 500) /\ is_Some (blocks (heap st') !! 600).
Proof.
  destruct (no_block_lost demo_owners demo_ops demo_released demo_owners_ok demo_reach) as (Hn & _ & st' & Hr & Hb).
  split; [exact Hn |]. exists st'. split; [exact Hr |]. split; [rewrite Hb; cbn; set_solver |]. apply Hb. cbn. set_solver.
Defined.
