(* ===== verification/JoinCache.v ===== *)
(** * JoinCache: join buffers ([sql_join_cache.h])

    A join cache keeps the records of the left operand of a join in one buffer.
    Records, fields and, in the hashed caches, key entries refer to each other by
    offsets of 1, 2 or 4 bytes; the hash table lies at the end of the buffer and
    its references count backwards from its beginning.  The buffer is part of the
    memory of ByteMem.v, the offsets are written with the macros of ByteOrder.v.
    Join caches are linked to each other in the order of the joined tables. *)

From stdpp Require Import base numbers list gmap.
From Stdlib Require Import ZArith Lia.
From S2P Require Import Prelude ByteOrder ByteMem.

Local Open Scope Z_scope.

(** ** Offsets *)

(* [sql_join_cache.h:109-111 offset_size] *)
Definition offset_size (len : Z) : Z := if len <? 256 then 1 else if len <? 256 * 256 then 2 else 4.

(* [sql_join_cache.h:113-122 get_offset] *)
Definition get_offset (m : memory) (ofs_sz ptr : Z) : option Z :=
  if ofs_sz =? 1 then b ← read m ptr; Some (u32 b)
  else if ofs_sz =? 2 then bs ← read_bytes m ptr 2; Some (Generic.uint2korr bs)
  else if ofs_sz =? 4 then bs ← read_bytes m ptr 4; Some (Generic.uint4korr bs)
  else Some 0.

(* [sql_join_cache.h:124-132 store_offset] *)
Definition store_offset (m : memory) (ofs_sz ptr ofs : Z) : option memory :=
  if ofs_sz =? 1 then write_bytes m ptr [u8 ofs]
  else if ofs_sz =? 2 then write_bytes m ptr (Generic.int2store (u16 ofs))
  else if ofs_sz =? 4 then write_bytes m ptr (Generic.int4store (u32 ofs))
  else Some m.

(** ** The classes *)

(** The members that the inline functions use.  Pointers are addresses, 0 is NULL. *)
(* [sql_join_cache.h:90-347 JOIN_CACHE] *)
Record JOIN_CACHE := Cache {
  size_of_rec_ofs : Z; size_of_rec_len : Z; size_of_fld_ofs : Z;
  join : Z; join_tab : Z; prev_cache : Z; next_cache : Z;
  base_prefix_length : Z; buff : Z; buff_size : Z; aux_buff_size : Z; records : Z;
  end_pos : Z; curr_rec_pos : Z; last_rec_pos : Z; last_rec_blob_data_is_in_rec_buff : bool; curr_rec_link : Z }.

(* [sql_join_cache.h:764-848 JOIN_CACHE_HASHED] *)
Record JOIN_CACHE_HASHED := Hashed {
  base :> JOIN_CACHE;
  size_of_key_ofs : Z; key_entry_length : Z; hash_table : Z; curr_key_entry : Z; data_fields_offset : Z;
  key_entries : Z; last_key_entry : Z }.

(* [sql_join_cache.h:569-575 Join_algorithm] *)
Inductive Join_algorithm := BNL_JOIN_ALG | BNLH_JOIN_ALG | BKA_JOIN_ALG | BKAH_JOIN_ALG.

(* [handler.h:2882-2887 HANDLER_BUFFER] *)
Record HANDLER_BUFFER := HBuffer { buffer : Z; buffer_end : Z; end_of_used_area : Z }.

(** An object of one of the concrete classes: what its virtual functions need to know. *)
Inductive join_cache :=
  | JOIN_CACHE_BNL (c : JOIN_CACHE)
  | JOIN_CACHE_BKA (c : JOIN_CACHE) (mrr_mode : Z)
  | JOIN_CACHE_BNLH (h : JOIN_CACHE_HASHED)
  | JOIN_CACHE_BKAH (h : JOIN_CACHE_HASHED) (mrr_mode : Z).

Definition base_of (c : join_cache) : JOIN_CACHE :=
  match c with
  | JOIN_CACHE_BNL c | JOIN_CACHE_BKA c _ => c
  | JOIN_CACHE_BNLH h | JOIN_CACHE_BKAH h _ => base h
  end.

(** ** JOIN_CACHE *)

Section code.
(** The number of bits of [ulong]. *)
Variable W : Z.

(* [sql_join_cache.h:374-374 get_size_of_rec_offset] *)
Definition get_size_of_rec_offset (c : JOIN_CACHE) : Z := size_of_rec_ofs c.
(* [sql_join_cache.h:375-375 get_size_of_rec_length] *)
Definition get_size_of_rec_length (c : JOIN_CACHE) : Z := size_of_rec_len c.
(* [sql_join_cache.h:376-376 get_size_of_fld_offset] *)
Definition get_size_of_fld_offset (c : JOIN_CACHE) : Z := size_of_fld_ofs c.
(* [sql_join_cache.h:378-381 get_rec_ref] *)
Definition get_rec_ref (c : JOIN_CACHE) (m : memory) (ptr : Z) : option Z :=
  o ← get_offset m (size_of_rec_ofs c) (ptr - size_of_rec_ofs c); Some (buff c + o).
(* [sql_join_cache.h:382-385 get_rec_length] *)
Definition get_rec_length (c : JOIN_CACHE) (m : memory) (ptr : Z) : option Z := get_offset m (size_of_rec_len c) ptr.
(* [sql_join_cache.h:386-389 get_fld_offset] *)
Definition get_fld_offset (c : JOIN_CACHE) (m : memory) (ptr : Z) : option Z := get_offset m (size_of_fld_ofs c) ptr.
(* [sql_join_cache.h:391-394 store_rec_ref] *)
Definition store_rec_ref (c : JOIN_CACHE) (m : memory) (ptr ref : Z) : option memory :=
  store_offset m (size_of_rec_ofs c) (ptr - size_of_rec_ofs c) (wrap W (ref - buff c)).
(* [sql_join_cache.h:395-398 store_rec_length] *)
Definition store_rec_length (c : JOIN_CACHE) (m : memory) (ptr len : Z) : option memory := store_offset m (size_of_rec_len c) ptr len.
(* [sql_join_cache.h:399-402 store_fld_offset] *)
Definition store_fld_offset (c : JOIN_CACHE) (m : memory) (ptr ofs : Z) : option memory := store_offset m (size_of_fld_ofs c) ptr ofs.

(** [MY_MAX(x, 0)] on [size_t]. *)
Definition max_0 (x : Z) : Z := if 0 <? x then x else 0.

(* [sql_join_cache.h:426-429 JOIN_CACHE::rem_space] *)
Definition cache_rem_space (c : JOIN_CACHE) : Z := max_0 (u64 (u64 (buff_size c - (end_pos c - buff c)) - aux_buff_size c)).

(* [sql_join_cache.h:465-468 blob_data_is_in_rec_buff] *)
Definition blob_data_is_in_rec_buff (c : JOIN_CACHE) (rec_ptr : Z) : bool :=
  (rec_ptr =? last_rec_pos c) && last_rec_blob_data_is_in_rec_buff c.
(* [sql_join_cache.h:604-604 get_join_buffer_size] *)
Definition get_join_buffer_size (c : JOIN_CACHE) : Z := buff_size c.

Definition with_buffer (c : JOIN_CACHE) (b sz : Z) : JOIN_CACHE :=
  Cache (size_of_rec_ofs c) (size_of_rec_len c) (size_of_fld_ofs c) (join c) (join_tab c) (prev_cache c) (next_cache c)
    (base_prefix_length c) b sz (aux_buff_size c) (records c) (end_pos c) (curr_rec_pos c) (last_rec_pos c)
    (last_rec_blob_data_is_in_rec_buff c) (curr_rec_link c).
Definition with_links (c : JOIN_CACHE) (j tab prev next : Z) : JOIN_CACHE :=
  Cache (size_of_rec_ofs c) (size_of_rec_len c) (size_of_fld_ofs c) j tab prev next
    (base_prefix_length c) (buff c) (buff_size c) (aux_buff_size c) (records c) (end_pos c) (curr_rec_pos c) (last_rec_pos c)
    (last_rec_blob_data_is_in_rec_buff c) (curr_rec_link c).

(* [sql_join_cache.h:606-606 set_join_buffer_size] *)
Definition set_join_buffer_size (c : JOIN_CACHE) (sz : Z) : JOIN_CACHE := with_buffer c (buff c) sz.
(* [sql_join_cache.h:650-650 get_curr_rec] *)
Definition get_curr_rec (c : JOIN_CACHE) : Z := curr_rec_pos c.
(* [sql_join_cache.h:653-653 set_curr_rec_link] *)
Definition set_curr_rec_link (c : JOIN_CACHE) (link : Z) : JOIN_CACHE :=
  Cache (size_of_rec_ofs c) (size_of_rec_len c) (size_of_fld_ofs c) (join c) (join_tab c) (prev_cache c) (next_cache c)
    (base_prefix_length c) (buff c) (buff_size c) (aux_buff_size c) (records c) (end_pos c) (curr_rec_pos c) (last_rec_pos c)
    (last_rec_blob_data_is_in_rec_buff c) link.
(* [sql_join_cache.h:656-659 get_curr_rec_link] *)
Definition get_curr_rec_link (c : JOIN_CACHE) : Z := if negb (curr_rec_link c =? 0) then curr_rec_link c else get_curr_rec c.
(* [sql_join_cache.h:670-670 reset_join] *)
Definition reset_join (c : JOIN_CACHE) (j : Z) : JOIN_CACHE := with_links c j (join_tab c) (prev_cache c) (next_cache c).
(* [sql_join_cache.h:671-675 free] *)
Definition free (c : JOIN_CACHE) (m : memory) : option (JOIN_CACHE * memory) :=
  m ← my_free m (buff c); Some (with_buffer c 0 (buff_size c), m).

(** ** JOIN_CACHE_HASHED *)

(* [sql_join_cache.h:850-850 get_size_of_key_offset] *)
Definition get_size_of_key_offset (h : JOIN_CACHE_HASHED) : Z := size_of_key_ofs h.
(* [sql_join_cache.h:858-861 get_next_key_ref] *)
Definition get_next_key_ref (h : JOIN_CACHE_HASHED) (m : memory) (key_ref_ptr : Z) : option Z :=
  o ← get_offset m (size_of_key_ofs h) key_ref_ptr; Some (hash_table h - o).
(* [sql_join_cache.h:869-872 store_next_key_ref] *)
Definition store_next_key_ref (h : JOIN_CACHE_HASHED) (m : memory) (key_ref_ptr ref : Z) : option memory :=
  store_offset m (size_of_key_ofs h) key_ref_ptr (wrap W (hash_table h - ref)).
(** [nil] has [W / 8] bytes; [memcmp] may not read more of it. *)
(* [sql_join_cache.h:878-882 is_null_key_ref] *)
Definition is_null_key_ref (h : JOIN_CACHE_HASHED) (m : memory) (key_ref_ptr : Z) : option bool :=
  if W / 8 <? size_of_key_ofs h then None else
  bs ← read_bytes m key_ref_ptr (Z.to_nat (size_of_key_ofs h));
  Some (bool_decide (bs = take (length bs) (le_bytes (Z.to_nat (W / 8)) 0))).
(* [sql_join_cache.h:888-892 store_null_key_ref] *)
Definition store_null_key_ref (h : JOIN_CACHE_HASHED) (m : memory) (key_ref_ptr : Z) : option memory :=
  store_offset m (size_of_key_ofs h) key_ref_ptr 0.
(* [sql_join_cache.h:894-897 get_next_rec_ref] *)
Definition get_next_rec_ref (h : JOIN_CACHE_HASHED) (m : memory) (ref_ptr : Z) : option Z :=
  o ← get_offset m (get_size_of_rec_offset h) ref_ptr; Some (buff h + o).
(* [sql_join_cache.h:899-902 store_next_rec_ref] *)
Definition store_next_rec_ref (h : JOIN_CACHE_HASHED) (m : memory) (ref_ptr ref : Z) : option memory :=
  store_offset m (get_size_of_rec_offset h) ref_ptr (wrap W (ref - buff h)).
(* [sql_join_cache.h:908-911 get_curr_emb_key] *)
Definition get_curr_emb_key (h : JOIN_CACHE_HASHED) : Z := get_curr_rec h + data_fields_offset h.
(* [sql_join_cache.h:918-921 get_emb_key] *)
Definition get_emb_key (h : JOIN_CACHE_HASHED) (m : memory) (ref_ptr : Z) : option Z :=
  o ← get_offset m (get_size_of_rec_offset h) ref_ptr; Some (buff h + o).
(* [sql_join_cache.h:928-931 store_emb_key_ref] *)
Definition store_emb_key_ref (h : JOIN_CACHE_HASHED) (m : memory) (ref_ptr ref : Z) : option memory :=
  store_offset m (get_size_of_rec_offset h) ref_ptr (wrap W (ref - buff h)).
(* [sql_join_cache.h:949-952 JOIN_CACHE_HASHED::rem_space] *)
Definition hashed_rem_space (h : JOIN_CACHE_HASHED) : Z := max_0 (u64 (u64 (last_key_entry h - end_pos h) - aux_buff_size h)).
(* [sql_join_cache.h:1017-1021 get_curr_key_chain] *)
Definition get_curr_key_chain (h : JOIN_CACHE_HASHED) (m : memory) : option Z :=
  get_next_rec_ref h m (curr_key_entry h + key_entry_length h - get_size_of_rec_offset h).
End code.

(** ** The virtual functions *)

(* [sql_join_cache.h:949-952 rem_space] *)
Definition rem_space (c : join_cache) : Z :=
  match c with
  | JOIN_CACHE_BNL c | JOIN_CACHE_BKA c _ => cache_rem_space c
  | JOIN_CACHE_BNLH h | JOIN_CACHE_BKAH h _ => hashed_rem_space h
  end.
(* [sql_join_cache.h:934-937 get_prefix_length] *)
Definition get_prefix_length (c : join_cache) : Z :=
  match c with
  | JOIN_CACHE_BNL c | JOIN_CACHE_BKA c _ => base_prefix_length c
  | JOIN_CACHE_BNLH h | JOIN_CACHE_BKAH h _ => u32 (base_prefix_length h + get_size_of_rec_offset h)
  end.
(* [sql_join_cache.h:958-958 extra_key_length] *)
Definition extra_key_length (c : join_cache) : Z :=
  match c with JOIN_CACHE_BNL _ | JOIN_CACHE_BKA _ _ => 0 | JOIN_CACHE_BNLH h | JOIN_CACHE_BKAH h _ => key_entry_length h end.
(* [sql_join_cache.h:1437-1437 get_join_alg] *)
Definition get_join_alg (c : join_cache) : Join_algorithm :=
  match c with
  | JOIN_CACHE_BNL _ => BNL_JOIN_ALG | JOIN_CACHE_BNLH _ => BNLH_JOIN_ALG
  | JOIN_CACHE_BKA _ _ => BKA_JOIN_ALG | JOIN_CACHE_BKAH _ _ => BKAH_JOIN_ALG
  end.
(* [sql_join_cache.h:1137-1137 is_key_access] *)
Definition is_key_access (c : join_cache) : bool := match c with JOIN_CACHE_BNL _ => false | _ => true end.
(* [sql_join_cache.h:1287-1287 get_number_of_ranges_for_mrr] *)
Definition get_number_of_ranges_for_mrr (c : join_cache) : Z :=
  match c with
  | JOIN_CACHE_BNL _ | JOIN_CACHE_BNLH _ => 0 | JOIN_CACHE_BKA c _ => u32 (records c) | JOIN_CACHE_BKAH h _ => key_entries h
  end.
(** The caches without an auxiliary buffer fail an assertion. *)
(* [sql_join_cache.h:1390-1395 setup_aux_buffer] *)
Definition setup_aux_buffer (c : join_cache) (aux_buff : HANDLER_BUFFER) : option (Z * HANDLER_BUFFER) :=
  match c with
  | JOIN_CACHE_BNL _ | JOIN_CACHE_BNLH _ => None
  | JOIN_CACHE_BKA c _ => Some (0, HBuffer (end_pos c) (buff c + buff_size c) (end_of_used_area aux_buff))
  | JOIN_CACHE_BKAH h _ => Some (0, HBuffer (end_pos h) (last_key_entry h) (end_of_used_area aux_buff))
  end.

(** ** Construction: a list of linked caches *)

(** The objects by their addresses. *)
Abbreviation caches := (gmap Z JOIN_CACHE).

(** The object under construction is at [this]; [junk] is what its memory held. *)
(* [sql_join_cache.h:537-543 JOIN_CACHE::JOIN_CACHE(JOIN, JOIN_TAB)] *)
Definition mk_JOIN_CACHE (st : caches) (this : Z) (junk : JOIN_CACHE) (j tab : Z) : caches :=
  <[this := with_buffer (with_links junk j tab 0 0) 0 (buff_size junk)]> st.
(* [sql_join_cache.h:551-560 JOIN_CACHE::JOIN_CACHE(JOIN, JOIN_TAB, JOIN_CACHE)] *)
Definition mk_linked (st : caches) (this : Z) (junk : JOIN_CACHE) (j tab prev : Z) : option caches :=
  let st := <[this := with_buffer (with_links junk j tab prev 0) 0 (buff_size junk)]> st in
  if negb (prev =? 0) then
    p ← st !! prev; Some (<[prev := with_links p (join p) (join_tab p) (prev_cache p) this]> st)
  else Some st.
(** The copies of BKA and BKAH caches. *)
(* [sql_join_cache.h:1328-1330 JOIN_CACHE_BKA::JOIN_CACHE_BKA(JOIN_CACHE_BKA)] *)
Definition mk_copy (st : caches) (this : Z) (junk : JOIN_CACHE) (bka : Z) : option caches :=
  b ← st !! bka; mk_linked st this junk (join b) (join_tab b) (prev_cache b).

(** ** Lemmas on offsets *)

Lemma offset_size_cases len : offset_size len = 1 \/ offset_size len = 2 \/ offset_size len = 4.
Proof. unfold offset_size. destruct (len <? 256); [tauto |]. destruct (len <? 256 * 256); tauto. Qed.

Lemma offset_size_fits len o : 0 <= o < len -> len <= 2 ^ 32 -> o < 2 ^ (8 * offset_size len).
Proof.
  intros Ho Hl. unfold offset_size. destruct (Z.ltb_spec len 256); [lia |]. destruct (Z.ltb_spec len (256 * 256)); lia.
Qed.

Definition is_size (sz : Z) : Prop := sz = 1 \/ sz = 2 \/ sz = 4.

(** The bytes at [p] are there. *)
Definition mapped (m : memory) (p n : Z) : Prop := forall x, p <= x < p + n -> is_Some (read m x).

Lemma mapped_same m m' p n : same_domain m m' -> mapped m p n -> mapped m' p n.
Proof. intros [_ H] Hm x Hx. apply H, Hm, Hx. Qed.

(** What is written for an offset, and what is read for the bytes. *)
Definition offset_bytes (sz o : Z) : bytes := le_bytes (Z.to_nat sz) o.

Lemma store_offset_bytes m sz p o : is_size sz -> store_offset m sz p o = write_bytes m p (offset_bytes sz o).
Proof.
  intros [-> | [-> | ->]]; unfold store_offset, offset_bytes; cbn [Z.eqb Pos.eqb]; [done | |].
  - change (Generic.int2store (u16 o)) with (w_write (Writer 2 Generic.int2store) (u16 o)).
    rewrite (proj1 (Forall_forall _ _) (le_writes (u16 o))) by left. by rewrite (le_bytes_wrap 2 16).
  - change (Generic.int4store (u32 o)) with (w_write (Writer 4 Generic.int4store) (u32 o)).
    rewrite (proj1 (Forall_forall _ _) (le_writes (u32 o))) by (do 2 right; left). by rewrite (le_bytes_wrap 4 32).
Qed.

Lemma get_offset_bytes m sz p bs : is_size sz -> is_bytes bs -> read_bytes m p (Z.to_nat sz) = Some bs ->
  get_offset m sz p = Some (le_value bs).
Proof.
  intros Hs Hb Hr. pose proof (read_bytes_length _ _ _ _ Hr) as Hl.
  destruct Hs as [-> | [-> | ->]]; unfold get_offset; cbn [Z.eqb Pos.eqb].
  - change (Z.to_nat 1) with 1%nat in *. cbn [read_bytes] in Hr. destruct (read m p) as [b |]; [| done]. cbn in Hr |- *.
    injection Hr as <-. apply Forall_cons in Hb as [Hb _]. cbn [le_value]. rewrite u32_small by lia. do 2 f_equal. lia.
  - change (Z.to_nat 2) with 2%nat in *. rewrite Hr. cbn [mbind option_bind].
    change (Generic.uint2korr bs) with (r_read (Reader 2 false Generic.uint2korr) bs).
    rewrite le_reads by (done || (unfold le_readers, generic_readers; cbn [r_width]; first [lia | apply elem_of_app; left; do 4 right; left])).
    unfold le_read. cbn [r_width r_signed]. by rewrite take_ge by lia.
  - change (Z.to_nat 4) with 4%nat in *. rewrite Hr. cbn [mbind option_bind].
    change (Generic.uint4korr bs) with (r_read (Reader 4 false Generic.uint4korr) bs).
    rewrite le_reads by (done || (unfold le_readers, generic_readers; cbn [r_width]; first [lia | apply elem_of_app; left; do 6 right; left])).
    unfold le_read. cbn [r_width r_signed]. by rewrite take_ge by lia.
Qed.

Lemma store_offset_ok m sz p o : is_size sz -> mem_ok m -> mapped m p sz ->
  exists m', store_offset m sz p o = Some m' /\ mem_ok m' /\ same_domain m m' /\
    read_bytes m' p (Z.to_nat sz) = Some (offset_bytes sz o) /\
    forall x, ~ (p <= x < p + sz) -> read m' x = read m x.
Proof.
  intros Hs Hm Hp. rewrite store_offset_bytes by done.
  assert (HL : Z.of_nat (length (offset_bytes sz o)) = sz) by (unfold offset_bytes; rewrite length_le; destruct Hs as [-> | [-> | ->]]; lia).
  destruct (write_bytes_ok (offset_bytes sz o) m p Hm) as (m' & E & Hm' & Hd & Hr & Hf); [| apply is_bytes_le |].
  { intros x Hx. apply Hp. lia. }
  exists m'. do 3 (split; [done |]). split.
  - rewrite <- Hr. f_equal. lia.
  - intros x Hx. apply Hf. lia.
Qed.

(** The offset read from the bytes that were stored for [o]. *)
Lemma get_offset_stored m sz p o : is_size sz -> mem_ok m -> read_bytes m p (Z.to_nat sz) = Some (offset_bytes sz o) ->
  0 <= o < 2 ^ (8 * sz) -> get_offset m sz p = Some o.
Proof.
  intros Hs Hm Hr Ho. rewrite (get_offset_bytes m sz p _ Hs (is_bytes_le _ _) Hr). f_equal.
  unfold offset_bytes. rewrite le_value_le. rewrite Z2Nat.id by (destruct Hs as [-> | [-> | ->]]; lia). by apply Z.mod_small.
Qed.

Lemma le_bytes_zero_inv n o : le_bytes n o = le_bytes n 0 -> o mod 2 ^ (8 * Z.of_nat n) = 0.
Proof. intros E. rewrite <- le_value_le, E, le_value_le. apply Z.mod_0_l. lia. Qed.

Lemma take_le_bytes_zero k n : (k <= n)%nat -> take k (le_bytes n 0) = le_bytes k 0.
Proof.
  revert n. induction k as [| k IH]; intros [| n] H; [done | done | lia |]. cbn [le_bytes take]. f_equal.
  change (0 >>> 8)%cxx with 0. apply IH. lia.
Qed.

(** ** References in the buffer *)

(** What the inline functions write into the buffer of a hashed cache. *)
Inductive reference :=
  | RecRef (ptr ref : Z) | RecLength (ptr len : Z) | FldOffset (ptr ofs : Z)
  | NextRec (ptr ref : Z) | EmbKey (ptr ref : Z) | NextKey (ptr ref : Z) | NullKey (ptr : Z).

Section references.
Variables (W : Z) (h : JOIN_CACHE_HASHED).

Definition put (m : memory) (r : reference) : option memory :=
  match r with
  | RecRef p ref => store_rec_ref W h m p ref
  | RecLength p len => store_rec_length h m p len
  | FldOffset p ofs => store_fld_offset h m p ofs
  | NextRec p ref => store_next_rec_ref W h m p ref
  | EmbKey p ref => store_emb_key_ref W h m p ref
  | NextKey p ref => store_next_key_ref W h m p ref
  | NullKey p => store_null_key_ref h m p
  end.

Fixpoint put_all (m : memory) (rs : list reference) : option memory :=
  match rs with [] => Some m | r :: rs => m ← put m r; put_all m rs end.

(** What the matching getters give. *)
Definition reads_back (m : memory) (r : reference) : Prop :=
  match r with
  | RecRef p ref => get_rec_ref h m p = Some ref
  | RecLength p len => get_rec_length h m p = Some len
  | FldOffset p ofs => get_fld_offset h m p = Some ofs
  | NextRec p ref => get_next_rec_ref h m p = Some ref
  | EmbKey p ref => get_emb_key h m p = Some ref
  | NextKey p ref => get_next_key_ref h m p = Some ref /\ is_null_key_ref W h m p = Some false
  | NullKey p => is_null_key_ref W h m p = Some true
  end.

(** The bytes of a reference: where they begin, how many there are, the offset in them. *)
Definition slot (r : reference) : Z :=
  match r with
  | RecRef p _ => p - size_of_rec_ofs h
  | RecLength p _ | FldOffset p _ | NextRec p _ | EmbKey p _ | NextKey p _ | NullKey p => p
  end.
Definition width (r : reference) : Z :=
  match r with
  | RecRef _ _ | NextRec _ _ | EmbKey _ _ => size_of_rec_ofs h
  | RecLength _ _ => size_of_rec_len h
  | FldOffset _ _ => size_of_fld_ofs h
  | NextKey _ _ | NullKey _ => size_of_key_ofs h
  end.
Definition offset (r : reference) : Z :=
  match r with
  | RecRef _ ref | NextRec _ ref | EmbKey _ ref => ref - buff h
  | RecLength _ len => len
  | FldOffset _ ofs => ofs
  | NextKey _ ref => hash_table h - ref
  | NullKey _ => 0
  end.

(** Offsets that the sizes of the cache are made for: record and key positions inside
    the buffer, keys before the hash table, lengths below [2 ^ (8 * size)]. *)
Definition in_range (r : reference) : Prop :=
  match r with
  | RecRef _ ref | NextRec _ ref | EmbKey _ ref => buff h <= ref < buff h + buff_size h
  | RecLength _ len => 0 <= len < 2 ^ (8 * size_of_rec_len h)
  | FldOffset _ ofs => 0 <= ofs < 2 ^ (8 * size_of_fld_ofs h)
  | NextKey _ ref => 0 < hash_table h - ref < 2 ^ (8 * size_of_key_ofs h)
  | NullKey _ => True
  end.

Definition apart (r1 r2 : reference) : Prop := slot r1 + width r1 <= slot r2 \/ slot r2 + width r2 <= slot r1.

(** The sizes as [offset_size] gives them for a buffer of at most 4 GiB. *)
Record sizes_ok : Prop := {
  so_long : W = 32 \/ W = 64;
  so_rec : size_of_rec_ofs h = offset_size (buff_size h);
  so_buf : buff_size h <= 2 ^ 32;
  so_len : is_size (size_of_rec_len h);
  so_fld : is_size (size_of_fld_ofs h);
  so_key : is_size (size_of_key_ofs h) }.

Hypothesis Hso : sizes_ok.

Lemma width_size r : is_size (width r).
Proof using Hso. destruct Hso. destruct r; cbn [width]; try done; rewrite so_rec0; apply offset_size_cases. Qed.

Lemma offset_range r : in_range r -> 0 <= offset r < 2 ^ (8 * width r).
Proof using Hso.
  destruct Hso. destruct r; cbn [in_range offset width]; intros H; try done; try lia.
  - rewrite so_rec0. split; [lia |]. apply offset_size_fits; [lia | done].
  - rewrite so_rec0. split; [lia |]. apply offset_size_fits; [lia | done].
  - rewrite so_rec0. split; [lia |]. apply offset_size_fits; [lia | done].
  - destruct so_key0 as [-> | [-> | ->]]; lia.
Qed.

Lemma offset_word r : in_range r -> 0 <= offset r < 2 ^ 32.
Proof using Hso. intros H%offset_range. destruct (width_size r) as [E | [E | E]]; rewrite E in H; lia. Qed.

Lemma put_slot m r : in_range r -> put m r = store_offset m (width r) (slot r) (offset r).
Proof using Hso.
  intros H%offset_word. assert (HW : 2 ^ 32 <= 2 ^ W) by (destruct (so_long Hso) as [-> | ->]; lia).
  destruct r; cbn [put offset width slot] in *; unfold store_rec_ref, store_next_rec_ref, store_emb_key_ref, store_next_key_ref,
    get_size_of_rec_offset; rewrite ?(wrap_small W) by (unfold is_word; lia); reflexivity.
Qed.

(** The bytes of the slot decide what is read back. *)
Definition holds (m : memory) (r : reference) : Prop := read_bytes m (slot r) (Z.to_nat (width r)) = Some (offset_bytes (width r) (offset r)).

Lemma holds_reads m r : mem_ok m -> in_range r -> holds m r -> reads_back m r.
Proof using Hso.
  intros Hm Hr Hh. pose proof (get_offset_stored m _ _ _ (width_size r) Hm Hh (offset_range r Hr)) as G.
  assert (HN : forall p o, width (NullKey p) = width r -> slot r = p -> offset r = o -> 0 <= o < 2 ^ (8 * width r) ->
    is_null_key_ref W h m p = Some (bool_decide (o = 0))).
  { intros p o E1 <- <- Ho. cbn [width] in E1. unfold is_null_key_ref. rewrite E1.
    assert (HW : width r <= W / 8) by (destruct (width_size r) as [-> | [-> | ->]], (so_long Hso) as [-> | ->]; by vm_compute).
    destruct (Z.ltb_spec (W / 8) (width r)); [lia |]. unfold holds in Hh. rewrite Hh. cbn [mbind option_bind]. do 2 f_equal.
    unfold offset_bytes. rewrite length_le, take_le_bytes_zero by lia. apply bool_decide_ext. split; [| by intros ->].
    intros E%le_bytes_zero_inv. rewrite Z2Nat.id in E by (destruct (width_size r) as [-> | [-> | ->]]; lia).
    rewrite Z.mod_small in E; [done |]. exact Ho. }
  pose proof (offset_range r Hr) as Ho.
  destruct r; cbn [reads_back slot width offset in_range] in *; unfold get_rec_ref, get_rec_length, get_fld_offset, get_next_rec_ref, get_emb_key,
    get_next_key_ref, get_size_of_rec_offset; try rewrite G; cbn [mbind option_bind]; try (f_equal; lia); try done.
  - split; [f_equal; lia |]. rewrite (HN _ _ eq_refl eq_refl eq_refl Ho). by rewrite bool_decide_eq_false_2 by lia.
  - rewrite (HN _ _ eq_refl eq_refl eq_refl Ho). by rewrite bool_decide_eq_true_2.
Qed.

Lemma holds_frame m m' r : (forall x, slot r <= x < slot r + width r -> read m' x = read m x) -> holds m r -> holds m' r.
Proof using Hso.
  intros Hf Hh. unfold holds in *. rewrite <- Hh. apply read_bytes_ext. intros x Hx. apply Hf.
  destruct (width_size r) as [E | [E | E]]; rewrite E in *; lia.
Qed.

Lemma put_all_ok rs : forall m, mem_ok m -> Forall (fun r => in_range r /\ mapped m (slot r) (width r)) rs -> ForallOrdPairs apart rs ->
  exists m', put_all m rs = Some m' /\ mem_ok m' /\ same_domain m m' /\ Forall (holds m') rs /\
    forall x, (forall r, r ∈ rs -> ~ (slot r <= x < slot r + width r)) -> read m' x = read m x.
Proof using Hso.
  induction rs as [| r rs IH]; intros m Hm Hrs Hap.
  - exists m. do 4 (split; [done |]). done.
  - apply Forall_cons in Hrs as [[Hr Hmap] Hrs]. inversion Hap as [| r' rs' Hap1 Hap2]; subst r' rs'. cbn [put_all].
    rewrite (put_slot m r Hr). destruct (store_offset_ok m (width r) (slot r) (offset r) (width_size r) Hm Hmap) as (m1 & -> & Hm1 & Hd1 & Hh & Hf1).
    cbn [mbind option_bind]. destruct (IH m1 Hm1) as (m2 & E & Hm2 & Hd2 & Hh2 & Hf2); [| done |].
    { eapply Forall_impl; [exact Hrs |]. intros r' [? ?]. split; [done | by eapply mapped_same]. }
    exists m2. do 2 (split; [done |]). split; [by eapply same_domain_trans |]. split.
    + apply Forall_cons. split; [| done]. apply (holds_frame m1); [| done]. intros x Hx. apply Hf2. intros r' Hin.
      pose proof (proj1 (List.Forall_forall _ _) Hap1 r' (proj1 (list_elem_of_In _ _) Hin)) as HA. unfold apart in HA. lia.
    + intros x Hx. rewrite Hf2 by (intros r' Hin; apply Hx; by right). apply Hf1, Hx. left.
Qed.
End references.

(** C39: in a buffer of at most 4 GiB, whatever mix of record references, key references,
    lengths and field offsets is written at positions that do not overlap, every getter then
    gives back what was stored, a stored key reference is never taken for the nil reference
    and a nil reference is recognised; no other byte changes. *)
Theorem buffer_references W h m rs :
  sizes_ok W h -> mem_ok m -> Forall (fun r => in_range h r /\ mapped m (slot h r) (width h r)) rs -> ForallOrdPairs (apart h) rs ->
  exists m', put_all W h m rs = Some m' /\ same_domain m m' /\ Forall (reads_back W h m') rs /\
    forall x, (forall r, r ∈ rs -> ~ (slot h r <= x < slot h r + width h r)) -> read m' x = read m x.
Proof.
  intros Hso Hm Hrs Hap. destruct (put_all_ok W h Hso rs m Hm Hrs Hap) as (m' & E & Hm' & Hd & Hh & Hf).
  exists m'. do 2 (split; [done |]). split; [| done]. rewrite Forall_forall in Hrs, Hh |- *.
  intros r Hin. apply holds_reads; [done | done | by apply Hrs | by apply Hh].
Qed.

(** A cache of 1000 bytes at address 5000, the hash table in its last 100 bytes. *)
Definition demo_base : JOIN_CACHE := Cache 2 2 1 0 0 0 0 4 5000 1000 50 3 5300 5200 5200 false 0.
Definition demo_hashed : JOIN_CACHE_HASHED := Hashed demo_base 2 10 5900 5850 3 5 5700.
Definition demo_memory : memory := Mem (list_to_map ((fun i => (5000 + Z.of_nat i, 170)) <$> seq 0 1000)) {[ 5000 := 1000 ]}.
Definition demo_refs : list reference := [NextRec 5010 5040; RecLength 5012 300; RecRef 5016 5000; FldOffset 5020 7; NextKey 5860 5850; NullKey 5862].

Lemma demo_memory_bytes x b : read demo_memory x = Some b -> b = 170 /\ 5000 <= x < 6000.
Proof.
  unfold read, demo_memory. cbn [mem_bytes]. intros H%elem_of_list_to_map_2. apply list_elem_of_fmap in H as (i & E & Hi).
  injection E as -> ->. apply elem_of_seq in Hi. lia.
Qed.

Lemma demo_memory_mapped p n : 5000 <= p -> p + n <= 6000 -> mapped demo_memory p n.
Proof.
  intros Hp Hn x Hx. unfold read, demo_memory. cbn [mem_bytes]. exists 170. apply elem_of_list_to_map_1'.
  - intros y Hy. apply list_elem_of_fmap in Hy as (i & E & _). by injection E as _ ->.
  - apply list_elem_of_fmap. exists (Z.to_nat (x - 5000)). split; [f_equal; lia |]. apply elem_of_seq. lia.
Qed.

Lemma demo_sizes_ok : sizes_ok 64 demo_hashed.
Proof. split; cbn; unfold is_size; auto. lia. Qed.

Lemma buffer_references_witness : exists m', put_all 64 demo_hashed demo_memory demo_refs = Some m' /\
  get_next_rec_ref demo_hashed m' 5010 = Some 5040 /\ get_next_key_ref demo_hashed m' 5860 = Some 5850.
Proof.
  destruct (buffer_references 64 demo_hashed demo_memory demo_refs demo_sizes_ok) as (m' & E & _ & H & _).
  - intros x b H. apply demo_memory_bytes in H. lia.
  - repeat (apply Forall_cons; split; [split; [cbn; lia | apply demo_memory_mapped; cbn; lia] |]). apply Forall_nil_2.
  - repeat (constructor; [unfold apart; repeat constructor; cbn; lia |]). constructor.
  - exists m'. split; [exact E |]. rewrite Forall_forall in H. split; [apply (H (NextRec 5010 5040)); left |].
    apply (H (NextKey 5860 5850)). do 4 right. left.
Defined.

(** The widest offsets have four bytes: beyond 4 GiB another record is found. *)
Theorem references_wrap W c m ptr ref : W = 64 -> mem_ok m -> size_of_rec_ofs c = offset_size (buff_size c) -> 65536 <= buff_size c ->
  mapped m (ptr - 4) 4 -> 0 <= ref - buff c < 2 ^ 64 ->
  exists m', store_rec_ref W c m ptr ref = Some m' /\ get_rec_ref c m' ptr = Some (buff c + (ref - buff c) mod 2 ^ 32).
Proof.
  intros -> Hm Hs Hb Hmap Hr. assert (E4 : size_of_rec_ofs c = 4).
  { rewrite Hs. unfold offset_size. destruct (Z.ltb_spec (buff_size c) 256); [lia |]. destruct (Z.ltb_spec (buff_size c) (256 * 256)); [lia | done]. }
  unfold store_rec_ref, get_rec_ref. rewrite E4.
  destruct (store_offset_ok m 4 (ptr - 4) (wrap 64 (ref - buff c))) as (m' & -> & Hm' & _ & Hrd & _); [unfold is_size; tauto | done | done |].
  exists m'. split; [done |]. rewrite (get_offset_bytes m' 4 (ptr - 4) _ ltac:(unfold is_size; tauto) (is_bytes_le _ _) Hrd). cbn [mbind option_bind].
  unfold offset_bytes. rewrite le_value_le, (wrap_small 64) by exact Hr. done.
Qed.

(** ** Free space *)

(** Where the space for records ends. *)
Definition space_end (c : join_cache) : Z :=
  match c with
  | JOIN_CACHE_BNL c | JOIN_CACHE_BKA c _ => buff c + buff_size c
  | JOIN_CACHE_BNLH h | JOIN_CACHE_BKAH h _ => last_key_entry h
  end.

(** The records, the auxiliary buffer, the key entries and the hash table, in this order. *)
Record layout_ok (c : join_cache) : Prop := {
  lo_size : 0 <= buff_size (base_of c) < 2 ^ 63;
  lo_aux : 0 <= aux_buff_size (base_of c);
  lo_records : buff (base_of c) <= end_pos (base_of c);
  lo_free : end_pos (base_of c) + aux_buff_size (base_of c) <= space_end c;
  lo_hash : match c with
            | JOIN_CACHE_BNLH h | JOIN_CACHE_BKAH h _ => last_key_entry h <= hash_table h <= buff h + buff_size h
            | _ => True
            end }.

Definition has_aux_buffer (c : join_cache) : bool := match c with JOIN_CACHE_BKA _ _ | JOIN_CACHE_BKAH _ _ => true | _ => false end.

Definition with_end_pos (c : JOIN_CACHE) (p : Z) : JOIN_CACHE :=
  Cache (size_of_rec_ofs c) (size_of_rec_len c) (size_of_fld_ofs c) (join c) (join_tab c) (prev_cache c) (next_cache c)
    (base_prefix_length c) (buff c) (buff_size c) (aux_buff_size c) (records c) p (curr_rec_pos c) (last_rec_pos c)
    (last_rec_blob_data_is_in_rec_buff c) (curr_rec_link c).
Definition rebase_hashed (h : JOIN_CACHE_HASHED) (b : JOIN_CACHE) : JOIN_CACHE_HASHED :=
  Hashed b (size_of_key_ofs h) (key_entry_length h) (hash_table h) (curr_key_entry h) (data_fields_offset h) (key_entries h) (last_key_entry h).
Definition map_base (f : JOIN_CACHE -> JOIN_CACHE) (c : join_cache) : join_cache :=
  match c with
  | JOIN_CACHE_BNL c => JOIN_CACHE_BNL (f c)
  | JOIN_CACHE_BKA c k => JOIN_CACHE_BKA (f c) k
  | JOIN_CACHE_BNLH h => JOIN_CACHE_BNLH (rebase_hashed h (f h))
  | JOIN_CACHE_BKAH h k => JOIN_CACHE_BKAH (rebase_hashed h (f h)) k
  end.

Lemma max_0_u64 x : max_0 (u64 x) = u64 x.
Proof. unfold max_0. pose proof (is_word_wrap 64 x ltac:(lia)) as [H _]. destruct (Z.ltb_spec 0 (u64 x)); unfold u64 in *; lia. Qed.

(** Both versions of [rem_space] are one subtraction modulo [2 ^ 64]. *)
Lemma rem_space_word c : rem_space c = u64 (space_end c - end_pos (base_of c) - aux_buff_size (base_of c)).
Proof.
  assert (H : forall x y, u64 (u64 x - y) = u64 (x - y)) by (intros; apply Zminus_mod_idemp_l).
  destruct c; cbn [rem_space space_end base_of]; unfold cache_rem_space, hashed_rem_space; rewrite max_0_u64, H; f_equal; lia.
Qed.

(** C40: as long as records, auxiliary buffer and hash table do not overlap, [rem_space] is
    exactly the number of bytes between them; a record of at most that size keeps them apart;
    the buffer handed to multi-range read is the space up to the end of the buffer or up to
    the last key entry, it has room for the auxiliary buffer and touches no record.  Once they
    do overlap the [MY_MAX] with 0 is without effect: the size is unsigned, and [rem_space]
    reports more than the whole buffer. *)
Theorem free_space_is_exact c b n d :
  (layout_ok c -> 0 <= n <= rem_space c ->
   rem_space c = space_end c - end_pos (base_of c) - aux_buff_size (base_of c) /\
   layout_ok (map_base (fun a => with_end_pos a (end_pos a + n)) c) /\
   (has_aux_buffer c = true -> setup_aux_buffer c b = Some (0, HBuffer (end_pos (base_of c)) (space_end c) (end_of_used_area b)) /\
      buff (base_of c) <= end_pos (base_of c) /\ end_pos (base_of c) + aux_buff_size (base_of c) <= space_end c <= buff (base_of c) + buff_size (base_of c))) /\
  (0 < d < 2 ^ 63 -> 0 <= buff_size (base_of c) < 2 ^ 63 ->
   end_pos (base_of c) + aux_buff_size (base_of c) = space_end c + d -> rem_space c = 2 ^ 64 - d /\ buff_size (base_of c) < rem_space c).
Proof.
  rewrite rem_space_word. split.
  - intros [Hs Ha Hr Hf Hh] Hn.
    assert (He : space_end c <= buff (base_of c) + buff_size (base_of c)) by (destruct c; cbn [space_end base_of] in *; lia).
    rewrite u64_small in * by lia. split; [done |]. split.
    + destruct c; split; cbn [map_base base_of space_end rebase_hashed base with_end_pos buff buff_size end_pos aux_buff_size last_key_entry hash_table] in *; lia || done.
    + intros Hx. split; [by destruct c |]. lia.
  - intros Hd Hb E. replace (space_end c - end_pos (base_of c) - aux_buff_size (base_of c)) with (- d) by lia.
    assert (HU : u64 (- d) = 2 ^ 64 - d) by (symmetry; apply (Z.mod_unique_pos _ _ (-1)); lia). rewrite HU. lia.
Qed.

Lemma free_space_is_exact_witness :
  rem_space (JOIN_CACHE_BKAH demo_hashed 0) = 350 /\
  rem_space (JOIN_CACHE_BKAH (rebase_hashed demo_hashed (with_end_pos demo_base 5651)) 0) = 2 ^ 64 - 1.
Proof.
  split.
  - apply (free_space_is_exact (JOIN_CACHE_BKAH demo_hashed 0) (HBuffer 0 0 0) 0 0); [split; cbn; lia | by vm_compute].
  - apply (free_space_is_exact (JOIN_CACHE_BKAH (rebase_hashed demo_hashed (with_end_pos demo_base 5651)) 0) (HBuffer 0 0 0) 0 1); by vm_compute.
Defined.

(** ** Linked caches *)

(** Every cache points to its neighbours; [p] is before the first one, [e] behind the last. *)
Fixpoint linked_from (st : caches) (p : Z) (l : list Z) (e : Z) : Prop :=
  match l with
  | [] => True
  | a :: l => (exists c, st !! a = Some c /\ prev_cache c = p /\ next_cache c = default e (head l)) /\ linked_from st a l e
  end.

Lemma linked_caches_frame st st' p l e : (forall a, a ∈ l -> st' !! a = st !! a) -> linked_from st p l e -> linked_from st' p l e.
Proof.
  revert p. induction l as [| a l IH]; intros p Hf; [done |]. cbn [linked_from]. intros [H1 H2]. rewrite Hf by left. split; [done |].
  apply IH; [| done]. intros b Hb. apply Hf. by right.
Qed.

Lemma linked_snoc st p l a e : linked_from st p (l ++ [a]) e <->
  linked_from st p l a /\ exists c, st !! a = Some c /\ prev_cache c = default p (last l) /\ next_cache c = e.
Proof.
  revert p. induction l as [| b l IH]; intros p; cbn [app linked_from]; [cbn; tauto |].
  rewrite IH, last_cons. replace (default e (head (l ++ [a]))) with (default a (head l)) by by destruct l.
  destruct (last l); cbn [default from_option]; tauto.
Qed.

(** The first cache is made by the constructor without a previous one, each other one with the cache made before it. *)
Fixpoint build (st : caches) (junk : Z -> JOIN_CACHE) (j tab : Z) (prev : Z) (l : list Z) : option caches :=
  match l with [] => Some st | a :: l => st ← mk_linked st a (junk a) j tab prev; build st junk j tab a l end.

(** Adding one cache behind the others. *)
Lemma mk_linked_ok st junk j tab p l a e : linked_from st 0 (l ++ [p]) e -> NoDup (l ++ [p]) -> a ∉ l ++ [p] -> p <> 0 ->
  exists st', mk_linked st a junk j tab p = Some st' /\ linked_from st' 0 ((l ++ [p]) ++ [a]) 0 /\
    forall x, x <> a -> x <> p -> st' !! x = st !! x.
Proof.
  intros Hl Hnd Ha Hp. apply linked_snoc in Hl as [Hl (c & Ec & Hprev & Hnext)].
  assert (Hap : a <> p) by (intros ->; apply Ha; set_solver).
  unfold mk_linked. rewrite (proj2 (Z.eqb_neq p 0) Hp). cbn [negb]. rewrite lookup_insert_ne, Ec by done. cbn [mbind option_bind].
  assert (Hpl : p ∉ l) by (apply NoDup_app in Hnd as (_ & Hd & _); intros Hin; apply (Hd p Hin); left).
  assert (Hal : a ∉ l) by set_solver.
  eexists. split; [reflexivity |]. split; [| intros x H1 H2; by rewrite !lookup_insert_ne].
  apply linked_snoc. split; [apply linked_snoc; split |].
  - eapply linked_caches_frame; [| exact Hl]. intros b Hb. rewrite !lookup_insert_ne; [done | |]; by intros <-.
  - eexists. rewrite lookup_insert_eq. split; [reflexivity |]. cbn [with_links prev_cache next_cache]. done.
  - eexists. rewrite lookup_insert_ne, lookup_insert_eq by done. split; [reflexivity |].
    cbn [with_links with_buffer prev_cache next_cache]. by rewrite last_snoc.
Qed.

Lemma build_ok junk j tab l : forall st l0 p, linked_from st 0 (l0 ++ [p]) 0 -> NoDup ((l0 ++ [p]) ++ l) -> 0 ∉ (l0 ++ [p]) ++ l ->
  exists st', build st junk j tab p l = Some st' /\ linked_from st' 0 ((l0 ++ [p]) ++ l) 0.
Proof.
  induction l as [| a l IH]; intros st l0 p Hl Hnd H0; [exists st; by rewrite app_nil_r |]. cbn [build].
  pose proof Hnd as (Hnd1 & Hd & Hnd2)%NoDup_app.
  destruct (mk_linked_ok st (junk a) j tab p l0 a 0 Hl Hnd1) as (st1 & -> & Hl1 & _); [intros Hin; by apply (Hd a Hin); left | set_solver |].
  cbn [mbind option_bind]. rewrite cons_middle, app_assoc in Hnd, H0 |- *. apply (IH st1 (l0 ++ [p]) a); done.
Qed.

(** the constructors keep the caches of a join doubly linked in the order of their
    creation, the last one with no successor; copying the last cache (as BKA and BKAH caches
    are copied) puts the copy into its place, while the original keeps pointing to its
    predecessor. *)
Theorem caches_stay_linked st junk j tab a l z junk2 :
  NoDup (a :: l) -> 0 ∉ a :: l -> z ∉ a :: l ->
  exists st', build (mk_JOIN_CACHE st a (junk a) j tab) junk j tab a l = Some st' /\ linked_from st' 0 (a :: l) 0 /\
    forall l1 y, a :: l = l1 ++ [y] -> l1 <> [] ->
      exists st2 c, mk_copy st' z junk2 y = Some st2 /\ linked_from st2 0 (l1 ++ [z]) 0 /\
        st2 !! y = Some c /\ prev_cache c = default 0 (last l1).
Proof.
  intros Hnd H0 Hz. destruct (build_ok junk j tab l (mk_JOIN_CACHE st a (junk a) j tab) [] a) as (st' & E & Hl); [| done | done |].
  { split; [| done]. eexists. unfold mk_JOIN_CACHE. rewrite lookup_insert_eq. split; [reflexivity | done]. }
  exists st'. split; [done |]. cbn [app] in Hl. split; [done |]. intros l1 y El Hne. rewrite El in *.
  destruct l1 as [| p l0] using rev_ind; [done | clear IHl0].
  apply linked_snoc in Hl as [Hl (c & Ec & Hprev & _)]. rewrite last_snoc in Hprev. cbn [default from_option] in Hprev.
  apply NoDup_app in Hnd as (Hnd & Hd & _).
  destruct (mk_linked_ok st' junk2 (join c) (join_tab c) p l0 z y Hl Hnd) as (st2 & E2 & Hl2 & Hf); [set_solver | set_solver |].
  exists st2, c. unfold mk_copy. rewrite Ec. cbn [mbind option_bind]. rewrite Hprev. split; [done |]. split; [done |].
  rewrite Hf, last_snoc; [done | set_solver |]. intros ->. apply (Hd p); set_solver.
Qed.

Lemma caches_stay_linked_witness : exists st', build (mk_JOIN_CACHE ∅ 10 demo_base 1 2) (fun _ => demo_base) 1 2 10 [20; 30] = Some st' /\
  (next_cache <$> st' !! 20) = Some 30 /\ exists st2 c, mk_copy st' 40 demo_base 30 = Some st2 /\ st2 !! 30 = Some c /\ prev_cache c = 20.
Proof.
  destruct (caches_stay_linked ∅ (fun _ => demo_base) 1 2 10 [20; 30] 40 demo_base) as (st' & E & Hl & Hc); [compute_done.. |].
  exists st'. split; [exact E |]. split.
  - destruct Hl as [_ [(c & -> & _ & Hn) _]]. cbn. by rewrite Hn.
  - destruct (Hc [10; 20] 30 eq_refl) as (st2 & c & E2 & _ & Ec & Hp); [done |]. by exists st2, c.
Defined.
