(* ===== verification/Xid.v ===== *)
(** * Xid: transaction identifiers ([handler.h], [log_event.h])

    [xid_t] identifies a distributed transaction: a format number and two
    identifiers of up to 64 bytes each, kept one after the other in one array.
    Transactions of the server itself have a number, which is packed into the
    first identifier.  The binary log holds identifiers as text, which
    [serialize_xid] prints into a buffer that its caller provides.

    [W] is the number of bits of [long]; [server_id] and the table of digits are
    defined outside the headers.  The machine stores integers low byte first. *)

From stdpp Require Import base numbers list.
From Stdlib Require Import ZArith Lia.
From S2P Require Import Prelude ByteOrder ByteMem.

Local Open Scope Z_scope.

(** ** The identifier *)

(* [handler.h:817-817 XIDDATASIZE] *)
Definition XIDDATASIZE : Z := 128.
(* [handler.h:812-812 MYSQL_XID_PREFIX] *)
Definition MYSQL_XID_PREFIX : bytes := [77; 121; 83; 81; 76; 88; 105; 100].
(* [handler.h:813-813 MYSQL_XID_PREFIX_LEN] *)
Definition MYSQL_XID_PREFIX_LEN : Z := 8.

(* [handler.h:832-836 xid_t] *)
Record xid_t := Xid { formatID : Z; gtrid_length : Z; bqual_length : Z; data : bytes }.

(** [memcmp] of [n] bytes, [memcpy] from a source of which [n] bytes are read. *)
Definition same_bytes (a b : bytes) (n : Z) : option bool :=
  if (0 <=? n) && (n <=? Z.of_nat (length a)) && (n <=? Z.of_nat (length b))
  then Some (bool_decide (take (Z.to_nat n) a = take (Z.to_nat n) b)) else None.
Definition first_bytes (a : bytes) (n : Z) : option bytes :=
  if (0 <=? n) && (n <=? Z.of_nat (length a)) then Some (take (Z.to_nat n) a) else None.

Section code.
Variables (W : Z) (server_id : Z).

Definition sizeof_long : Z := W / 8.

(* [handler.h:814-814 MYSQL_XID_OFFSET] *)
Definition MYSQL_XID_OFFSET : Z := MYSQL_XID_PREFIX_LEN + sizeof_long.
(* [handler.h:815-815 MYSQL_XID_GTRID_LEN] *)
Definition MYSQL_XID_GTRID_LEN : Z := MYSQL_XID_OFFSET + 8.

(* [handler.h:868-868 is_null] *)
Definition is_null (x : xid_t) : bool := formatID x =? -1.
(* [handler.h:869-869 null] *)
Definition null (x : xid_t) : xid_t := Xid (-1) (gtrid_length x) (bqual_length x) (data x).
(* [handler.h:841-842 eq(long, long, const char)] *)
Definition eq_parts (this : xid_t) (g b : Z) (d : bytes) : option bool :=
  if is_null this then Some false else
  if negb (g =? gtrid_length this) then Some false else
  if negb (b =? bqual_length this) then Some false else
  same_bytes d (data this) (swrap W (g + b)).
(* [handler.h:839-840 eq(xid_t)] *)
Definition eq (this xid : xid_t) : option bool :=
  if is_null xid then Some false else eq_parts this (gtrid_length xid) (bqual_length xid) (data xid).

(* [handler.h:890-894 key_length] *)
Definition key_length (x : xid_t) : Z := u32 (2 * sizeof_long + gtrid_length x + bqual_length x).
(* [handler.h:882-885 length] *)
Definition length_ (x : xid_t) : Z := u32 (sizeof_long + key_length x).
(** The bytes at [key()]: the two lengths, then the data. *)
(* [handler.h:886-889 key] *)
Definition key (x : xid_t) : bytes :=
  store_le (Z.to_nat sizeof_long) (gtrid_length x) ++ store_le (Z.to_nat sizeof_long) (bqual_length x) ++ data x.

(** [memcpy] over the first [length()] bytes of the object: the three numbers and so many bytes of data. *)
(* [handler.h:843-844 set(xid_t)] *)
Definition set_copy (this xid : xid_t) : option xid_t :=
  if length_ xid <? 3 * sizeof_long then None else
  d ← first_bytes (data xid) (length_ xid - 3 * sizeof_long);
  d ← write_at (data this) 0 d;
  Some (Xid (formatID xid) (gtrid_length xid) (bqual_length xid) d).
(* [handler.h:845-850 set(long, const char, long, const char, long)] *)
Definition set_ids (this : xid_t) (f : Z) (g : bytes) (gl : Z) (b : bytes) (bl : Z) : option xid_t :=
  g ← first_bytes g gl; d ← write_at (data this) 0 g;
  b ← first_bytes b bl; d ← write_at d gl b;
  Some (Xid f gl bl d).
(* [handler.h:861-867 set(long, long, const char)] *)
Definition set_parts (this : xid_t) (g b : Z) (d : bytes) : option xid_t :=
  d ← first_bytes d (swrap W (g + b)); d ← write_at (data this) 0 d; Some (Xid 1 g b d).
(* [handler.h:851-860 set(ulonglong)] *)
Definition set_my_xid (this : xid_t) (xid : Z) : option xid_t :=
  x ← set_parts this MYSQL_XID_PREFIX_LEN 0 MYSQL_XID_PREFIX;
  d ← write_at (data x) MYSQL_XID_PREFIX_LEN (store_le (Z.to_nat sizeof_long) server_id);
  d ← write_at d MYSQL_XID_OFFSET (store_le 8 xid);
  Some (Xid (formatID x) MYSQL_XID_GTRID_LEN (bqual_length x) d).
(* [handler.h:870-875 quick_get_my_xid] *)
Definition quick_get_my_xid (x : xid_t) : option Z :=
  if MYSQL_XID_OFFSET + 8 <=? Z.of_nat (length (data x)) then Some (load_le 8 (drop (Z.to_nat MYSQL_XID_OFFSET) (data x))) else None.
(* [handler.h:876-881 get_my_xid] *)
Definition get_my_xid (x : xid_t) : option Z :=
  if negb (gtrid_length x =? MYSQL_XID_GTRID_LEN) then Some 0 else
  if negb (bqual_length x =? 0) then Some 0 else
  same ← same_bytes (data x) MYSQL_XID_PREFIX MYSQL_XID_PREFIX_LEN;
  if (same : bool) then quick_get_my_xid x else Some 0.

(** ** Text for the binary log *)

(** The output: the buffer and the position [c]. *)
Abbreviation output := (bytes * Z)%type.
Definition put_chars (s : output) (bs : bytes) : option output :=
  b ← write_at s.1 s.2 bs; Some (b, s.2 + Z.of_nat (length bs)).

Variable dig_vec_lower : Z -> Z.

(** The loop from [i] on, [n] times. *)
(* [log_event.h:3157-3162 serialize_xid: loop] *)
Fixpoint hex_loop (s : output) (dat : bytes) (i : nat) (n : nat) : option output :=
  match n with
  | O => Some s
  | S n =>
      d ← dat !! i;
      s ← put_chars s [dig_vec_lower (Z.shiftr d 4); dig_vec_lower (Z.land d 0x0f)];
      hex_loop s dat (S i) n
  end.

(* [log_event.h:3143-3179 serialize_xid] *)
Definition serialize_xid (buf : bytes) (fmt gln bln : Z) (dat : bytes) : option bytes :=
  s ← put_chars (buf, 0) [88; 39];
  s ← hex_loop s dat 0 (Z.to_nat gln);
  s ← put_chars s [39; 44; 88; 39];
  s ← hex_loop s dat (Z.to_nat gln) (Z.to_nat (swrap W (gln + bln) - Z.max 0 gln));
  b ← write_at s.1 s.2 [39];
  ds ← decimal 20 (wrap W fmt);
  write_at b (s.2 + 1) (44 :: ds ++ [0]).

(* [log_event.h:3189-3190 ser_buf_size] *)
Definition ser_buf_size : Z := 8 + 2 * XIDDATASIZE + 4 * sizeof_long + 1.
(** The object is an [XID] and a buffer [buf] of [ser_buf_size] bytes. *)
(* [log_event.h:3192-3199 event_mysql_xid_t] *)
Record event_xid_t := Event { ev_xid : xid_t; ev_buf : bytes }.
(* [log_event.h:3206-3209 event_xid_t::serialize] *)
Definition serialize_to (e : event_xid_t) (buf_arg : bytes) : option bytes :=
  serialize_xid buf_arg (formatID (ev_xid e)) (gtrid_length (ev_xid e)) (bqual_length (ev_xid e)) (data (ev_xid e)).
(* [log_event.h:3210-3213 serialize] *)
Definition serialize (e : event_xid_t) : option bytes := serialize_to e (ev_buf e).

(* [log_event.h:3222-3222 xid_subheader_no_data] *)
Definition xid_subheader_no_data : Z := 12.
(* [log_event.h:3244-3244 is_valid] *)
Definition is_valid (m_xid : xid_t) : bool := negb (formatID m_xid =? -1).
(* [log_event.h:3245-3248 get_data_size] *)
Definition get_data_size (m_xid : xid_t) : Z := xid_subheader_no_data + gtrid_length m_xid + bqual_length m_xid.

(** "XA COMMIT ", "XA PREPARE " and " ONE PHASE". *)
Definition XA_COMMIT : bytes := [88; 65; 32; 67; 79; 77; 77; 73; 84; 32].
Definition XA_PREPARE : bytes := [88; 65; 32; 80; 82; 69; 80; 65; 82; 69; 32].
Definition ONE_PHASE : bytes := [32; 79; 78; 69; 32; 80; 72; 65; 83; 69].
(** The member [query] has [sizeof("XA COMMIT ONE PHASE") + 1 + ser_buf_size] bytes. *)
(* [log_event.h:3256-3256 query] *)
Definition query_size : Z := 20 + 1 + ser_buf_size.
(* [log_event.h:3258-3264 get_query] *)
Definition get_query (query : bytes) (one_phase : bool) (m_xid : event_xid_t) : option bytes :=
  s ← serialize m_xid;
  write_at query 0 ((if one_phase then XA_COMMIT ++ c_string s ++ ONE_PHASE else XA_PREPARE ++ c_string s) ++ [0]).
End code.

(** ** Identity *)

Definition is_long_size (W : Z) : Prop := W = 32 \/ W = 64.

Record xid_ok (W : Z) (x : xid_t) : Prop := {
  xo_fmt : - 2 ^ (W - 1) <= formatID x < 2 ^ (W - 1);
  xo_g : 0 <= gtrid_length x;
  xo_b : 0 <= bqual_length x;
  xo_fits : gtrid_length x + bqual_length x <= XIDDATASIZE;
  xo_data : Z.of_nat (length (data x)) = XIDDATASIZE;
  xo_bytes : is_bytes (data x) }.

(** What the object stands for: the global transaction and the branch. *)
Definition gtrid (x : xid_t) : bytes := take (Z.to_nat (gtrid_length x)) (data x).
Definition bqual (x : xid_t) : bytes := take (Z.to_nat (bqual_length x)) (drop (Z.to_nat (gtrid_length x)) (data x)).
Definition ids (x : xid_t) : bytes * bytes := (gtrid x, bqual x).
Definition body (x : xid_t) : bytes := take (Z.to_nat (gtrid_length x + bqual_length x)) (data x).

Lemma body_ids W x : xid_ok W x -> body x = gtrid x ++ bqual x.
Proof.
  intros []. unfold body, gtrid, bqual. rewrite Z2Nat.inj_add by done. rewrite take_take_drop. done.
Qed.

Lemma gtrid_len W x : xid_ok W x -> Z.of_nat (length (gtrid x)) = gtrid_length x.
Proof. intros []. unfold gtrid, XIDDATASIZE in *. rewrite length_take. lia. Qed.

Lemma bqual_len W x : xid_ok W x -> Z.of_nat (length (bqual x)) = bqual_length x.
Proof. intros []. unfold bqual, XIDDATASIZE in *. rewrite length_take, length_drop. lia. Qed.

Lemma ids_body W x y : xid_ok W x -> xid_ok W y ->
  ids x = ids y <-> gtrid_length x = gtrid_length y /\ bqual_length x = bqual_length y /\ body x = body y.
Proof.
  intros Hx Hy. rewrite (body_ids W x Hx), (body_ids W y Hy). unfold ids. split.
  - intros [= E1 E2]. rewrite <- (gtrid_len W x Hx), <- (gtrid_len W y Hy), <- (bqual_len W x Hx), <- (bqual_len W y Hy), E1, E2. done.
  - intros (E1 & E2 & E). rewrite <- (gtrid_len W x Hx), <- (gtrid_len W y Hy) in E1. apply app_inj_1 in E as [-> ->]; [done | lia].
Qed.

Lemma swrap_sum W g b : is_long_size W -> 0 <= g -> 0 <= b -> g + b <= XIDDATASIZE -> swrap W (g + b) = g + b.
Proof. intros HW Hg Hb Hs. apply swrap_small; destruct HW as [-> | ->]; unfold XIDDATASIZE in *; lia. Qed.

Lemma same_bytes_ok a b n : 0 <= n <= Z.of_nat (length a) -> n <= Z.of_nat (length b) ->
  same_bytes a b n = Some (bool_decide (take (Z.to_nat n) a = take (Z.to_nat n) b)).
Proof.
  intros Ha Hb. unfold same_bytes. by rewrite (proj2 (Z.leb_le 0 n)), (proj2 (Z.leb_le n (Z.of_nat (length a)))), (proj2 (Z.leb_le n (Z.of_nat (length b)))) by lia.
Qed.

Lemma eq_ids W x y : is_long_size W -> xid_ok W x -> xid_ok W y ->
  eq W x y = Some (negb (is_null x) && negb (is_null y) && bool_decide (ids x = ids y)).
Proof.
  intros HW Hx Hy. pose proof (ids_body W x y Hx Hy) as Hi. unfold eq, eq_parts.
  destruct (is_null y); [by rewrite andb_false_r |]. destruct (is_null x); [done |]. cbn [negb andb].
  destruct (Z.eqb_spec (gtrid_length y) (gtrid_length x)) as [Eg |]; cbn [negb]; [| rewrite bool_decide_eq_false_2; [done |]; intros [? _]%Hi; congruence].
  destruct (Z.eqb_spec (bqual_length y) (bqual_length x)) as [Eb |]; cbn [negb];
    [| rewrite bool_decide_eq_false_2; [done |]; intros (_ & ? & _)%Hi; congruence].
  destruct Hx, Hy. rewrite swrap_sum by done. rewrite same_bytes_ok by lia. f_equal. apply bool_decide_ext. rewrite Hi.
  unfold body. rewrite <- Eg, <- Eb. split; [intros ->; done | intros (_ & _ & ->); done].
Qed.

Lemma le_bytes_inj n a b : 0 <= a < 2 ^ (8 * Z.of_nat n) -> 0 <= b < 2 ^ (8 * Z.of_nat n) -> le_bytes n a = le_bytes n b -> a = b.
Proof. intros Ha Hb E. apply (f_equal le_value) in E. rewrite !le_value_le, !Z.mod_small in E by done. done. Qed.

Lemma long_bytes W g : is_long_size W -> 0 <= g <= XIDDATASIZE -> 0 <= g < 2 ^ (8 * Z.of_nat (Z.to_nat (sizeof_long W))).
Proof. intros [-> | ->] Hg; unfold XIDDATASIZE in Hg; change (2 ^ _) with (2 ^ 32) || change (2 ^ _) with (2 ^ 64); lia. Qed.

Lemma key_length_ok W x : is_long_size W -> xid_ok W x -> key_length W x = 2 * sizeof_long W + gtrid_length x + bqual_length x.
Proof. intros HW []. unfold key_length, XIDDATASIZE in *. apply u32_small. destruct HW as [-> | ->]; unfold sizeof_long; [change (32 / 8) with 4 | change (64 / 8) with 8]; lia. Qed.

Lemma key_prefix W x : is_long_size W -> xid_ok W x -> take (Z.to_nat (key_length W x)) (key W x) =
  le_bytes (Z.to_nat (sizeof_long W)) (gtrid_length x) ++ le_bytes (Z.to_nat (sizeof_long W)) (bqual_length x) ++ body x.
Proof.
  intros HW Hx. rewrite key_length_ok by done. unfold key, store_le, body.
  assert (Hs : 0 <= sizeof_long W) by (destruct HW as [-> | ->]; by vm_compute). destruct Hx.
  replace (Z.to_nat _) with (Z.to_nat (sizeof_long W) + (Z.to_nat (sizeof_long W) + Z.to_nat (gtrid_length x + bqual_length x)))%nat by lia.
  rewrite take_app_add' by by rewrite length_le. f_equal. rewrite take_app_add' by by rewrite length_le. done.
Qed.

Lemma keys_ids W x y : is_long_size W -> xid_ok W x -> xid_ok W y ->
  take (Z.to_nat (key_length W x)) (key W x) = take (Z.to_nat (key_length W y)) (key W y) <-> ids x = ids y.
Proof.
  intros HW Hx Hy. rewrite !key_prefix, (ids_body W x y Hx Hy) by done. split; [| intros (-> & -> & ->); done].
  intros [E1 [E2 E3]%app_inj_1]%app_inj_1; rewrite ?length_le; [| done..]. destruct Hx, Hy.
  apply le_bytes_inj in E1; [| apply long_bytes; [done | lia]..]. apply le_bytes_inj in E2; [| apply long_bytes; [done | lia]..]. done.
Qed.

Definition data_ok (d : bytes) : Prop := Z.of_nat (length d) = XIDDATASIZE /\ is_bytes d.

Lemma is_bytes_write a b d d' : write_at d a b = Some d' -> is_bytes d -> is_bytes b -> is_bytes d' /\ length d' = length d.
Proof.
  unfold write_at. destruct ((0 <=? a) && (a + Z.of_nat (length b) <=? Z.of_nat (length d))) eqn:E; [| done]. intros [= <-] Hd Hb.
  apply andb_true_iff in E as [E1%Z.leb_le E2%Z.leb_le]. split.
  - apply Forall_app. split; [by apply Forall_take |]. apply Forall_app. split; [done | by apply Forall_drop].
  - rewrite !length_app, length_take, length_drop. lia.
Qed.

Lemma set_copy_ok W this x : is_long_size W -> data_ok (data this) -> xid_ok W x ->
  exists z, set_copy W this x = Some z /\ xid_ok W z /\ ids z = ids x /\ formatID z = formatID x.
Proof.
  intros HW [Hl Hb] Hx. pose proof (key_length_ok W x HW Hx) as HK.
  assert (HL : length_ W x = 3 * sizeof_long W + (gtrid_length x + bqual_length x)).
  { unfold length_. rewrite HK, u32_small; [lia |]. destruct Hx, HW as [-> | ->]; unfold sizeof_long, XIDDATASIZE in *;
      [change (32 / 8) with 4 | change (64 / 8) with 8]; lia. }
  unfold set_copy. rewrite HL, Z.add_simpl_l. pose proof Hx as [Hf Hg Hb' Hfit Hd Hby].
  destruct (Z.ltb_spec (3 * sizeof_long W + (gtrid_length x + bqual_length x)) (3 * sizeof_long W)); [lia |].
  unfold first_bytes. rewrite (proj2 (Z.leb_le _ _)), (proj2 (Z.leb_le _ _)) by lia. cbn [andb mbind option_bind].
  change (take _ (data x)) with (body x). destruct (write_at_behind [] (data this) (body x)) as (r & E & Hr).
  { unfold body, XIDDATASIZE in *. rewrite length_take. lia. }
  cbn [app length] in E. change (Z.of_nat 0) with 0 in E. rewrite E. cbn [mbind option_bind].
  apply is_bytes_write in E as [Hz Hzl]; [| done | by apply Forall_take].
  eexists. split; [reflexivity |]. assert (HO : xid_ok W (Xid (formatID x) (gtrid_length x) (bqual_length x) (body x ++ r))) by (split; cbn; [done.. | lia | done]).
  split; [done |]. split; [| done]. apply (ids_body W); [done | done |]. cbn. do 2 (split; [done |]). unfold body at 1. cbn.
  rewrite take_app_le by (unfold body, XIDDATASIZE in *; rewrite length_take; lia). unfold body. rewrite take_take. f_equal. lia.
Qed.

(** two identifiers are equal for [eq] exactly when neither is null and they stand for the
    same global transaction and branch (whatever their formats); the bytes that the hash of
    transactions compares agree exactly when the identifiers do; a copy stands for the same
    transaction and branch and has the same format. *)
Theorem xid_identity W this x y : is_long_size W -> data_ok (data this) -> xid_ok W x -> xid_ok W y ->
  eq W x y = Some (negb (is_null x) && negb (is_null y) && bool_decide (ids x = ids y)) /\
  (take (Z.to_nat (key_length W x)) (key W x) = take (Z.to_nat (key_length W y)) (key W y) <-> ids x = ids y) /\
  exists z, set_copy W this x = Some z /\ xid_ok W z /\ ids z = ids x /\ formatID z = formatID x.
Proof. intros HW Ht Hx Hy. split; [by apply eq_ids |]. split; [by apply keys_ids | by apply set_copy_ok]. Qed.

Definition demo_xid (f : Z) : xid_t := Xid f 2 1 ([7; 8; 9] ++ replicate 125 255).

Lemma demo_xid_ok f : - 2 ^ 63 <= f < 2 ^ 63 -> xid_ok 64 (demo_xid f).
Proof. intros Hf. split; [done | by vm_compute | by vm_compute | by vm_compute | by vm_compute |]. repeat (apply Forall_cons; split; [lia |]). apply Forall_nil_2. Qed.

Lemma xid_identity_witness : eq 64 (demo_xid 1) (demo_xid 5) = Some true /\ eq 64 (demo_xid 1) (demo_xid (-1)) = Some false.
Proof.
  assert (HD : data_ok (data (demo_xid 1))) by (split; [by vm_compute | apply (xo_bytes 64), demo_xid_ok; lia]).
  split.
  - rewrite (proj1 (xid_identity 64 (demo_xid 1) (demo_xid 1) (demo_xid 5) (or_intror eq_refl) HD (demo_xid_ok 1 ltac:(lia)) (demo_xid_ok 5 ltac:(lia)))). done.
  - rewrite (proj1 (xid_identity 64 (demo_xid 1) (demo_xid 1) (demo_xid (-1)) (or_intror eq_refl) HD (demo_xid_ok 1 ltac:(lia)) (demo_xid_ok (-1) ltac:(lia)))). done.
Defined.

(** ** The numbers of the server's own transactions *)

Lemma prefix_write (d : bytes) a b c : length a = 8%nat -> (length b = 4%nat \/ length b = 8%nat) -> length c = 8%nat -> Z.of_nat (length d) = XIDDATASIZE ->
  exists r d1 d2, write_at d 0 a = Some d1 /\ write_at d1 8 b = Some d2 /\ write_at d2 (8 + Z.of_nat (length b)) c = Some (a ++ b ++ c ++ r).
Proof.
  intros Ha Hb Hc Hd. unfold XIDDATASIZE in Hd.
  destruct (write_at_behind [] d a) as (r1 & E1 & L1); [lia |]. destruct (write_at_behind a r1 b) as (r2 & E2 & L2); [lia |].
  destruct (write_at_behind (a ++ b) r2 c) as (r3 & E3 & L3); [lia |].
  exists r3, (a ++ r1), ((a ++ b) ++ r2). split; [exact E1 |]. rewrite Ha in E2. split; [exact E2 |].
  rewrite length_app, Ha in E3. rewrite Nat2Z.inj_add in E3. change (Z.of_nat 8) with 8 in E3. rewrite E3. by rewrite <- !app_assoc.
Qed.

Lemma set_my_xid_ok W server_id this n : is_long_size W -> data_ok (data this) ->
  exists r, set_my_xid W server_id this n = Some (Xid 1 (MYSQL_XID_GTRID_LEN W) 0 (MYSQL_XID_PREFIX ++ le_bytes (Z.to_nat (sizeof_long W)) server_id ++ le_bytes 8 n ++ r)) /\
    xid_ok W (Xid 1 (MYSQL_XID_GTRID_LEN W) 0 (MYSQL_XID_PREFIX ++ le_bytes (Z.to_nat (sizeof_long W)) server_id ++ le_bytes 8 n ++ r)).
Proof.
  intros HW [Hl Hb].
  destruct (prefix_write (data this) MYSQL_XID_PREFIX (le_bytes (Z.to_nat (sizeof_long W)) server_id) (le_bytes 8 n)) as (r & d1 & d2 & E1 & E2 & E3);
    [done | destruct HW as [-> | ->]; [by left | by right] | done | done |].
  exists r. unfold set_my_xid, set_parts. change (MYSQL_XID_PREFIX_LEN + 0) with 8. rewrite swrap_small by (destruct HW as [-> | ->]; cbn; lia).
  change (first_bytes MYSQL_XID_PREFIX 8) with (Some MYSQL_XID_PREFIX). cbn [mbind option_bind]. rewrite E1. cbn [mbind option_bind data formatID bqual_length].
  unfold MYSQL_XID_PREFIX_LEN at 1, store_le. rewrite E2. cbn [mbind option_bind].
  rewrite length_le in E3. unfold MYSQL_XID_OFFSET, MYSQL_XID_PREFIX_LEN. rewrite Z2Nat.id in E3 by (destruct HW as [-> | ->]; by vm_compute).
  rewrite E3. cbn [mbind option_bind]. split; [done |].
  destruct (is_bytes_write _ _ _ _ E1 Hb) as [B1 L1]; [repeat (apply Forall_cons; split; [lia |]); apply Forall_nil_2 |].
  destruct (is_bytes_write _ _ _ _ E2 B1 (is_bytes_le _ _)) as [B2 L2]. destruct (is_bytes_write _ _ _ _ E3 B2 (is_bytes_le _ _)) as [B3 L3].
  split; cbn [formatID gtrid_length bqual_length data]; [destruct HW as [-> | ->]; lia | destruct HW as [-> | ->]; by vm_compute | done | | | done].
  - destruct HW as [-> | ->]; by vm_compute.
  - rewrite L3, L2, L1. done.
Qed.

Lemma take_write_prefix (r : bytes) : bool_decide (take (Z.to_nat MYSQL_XID_PREFIX_LEN) (MYSQL_XID_PREFIX ++ r) = take (Z.to_nat MYSQL_XID_PREFIX_LEN) MYSQL_XID_PREFIX) = true.
Proof. by apply bool_decide_eq_true_2. Qed.

Lemma body_packed W f server_id n r : is_long_size W ->
  body (Xid f (MYSQL_XID_GTRID_LEN W) 0 (MYSQL_XID_PREFIX ++ le_bytes (Z.to_nat (sizeof_long W)) server_id ++ le_bytes 8 n ++ r)) =
  MYSQL_XID_PREFIX ++ le_bytes (Z.to_nat (sizeof_long W)) server_id ++ le_bytes 8 n.
Proof.
  intros HW. unfold body. cbn [gtrid_length bqual_length data]. rewrite !app_assoc. apply take_app_length'.
  rewrite !length_app, !length_le. by destruct HW as [-> | ->].
Qed.

(** packing the number of a transaction of the server into an identifier and reading it
    back gives the number; two identifiers packed by the same server are equal for [eq] exactly
    when the numbers are; identifiers with another length of the first part or with a second
    part have no number. *)
Theorem my_xid_roundtrip W server_id this this2 n n2 x : is_long_size W -> data_ok (data this) -> data_ok (data this2) ->
  0 <= n < 2 ^ 64 -> 0 <= n2 < 2 ^ 64 ->
  (gtrid_length x <> MYSQL_XID_GTRID_LEN W \/ bqual_length x <> 0 -> get_my_xid W x = Some 0) /\
  exists a b, set_my_xid W server_id this n = Some a /\ set_my_xid W server_id this2 n2 = Some b /\
    get_my_xid W a = Some n /\ eq W a b = Some (n =? n2).
Proof.
  intros HW Ht Ht2 Hn Hn2. split.
  { intros H. unfold get_my_xid. destruct (Z.eqb_spec (gtrid_length x) (MYSQL_XID_GTRID_LEN W)); [| done]. cbn [negb].
    destruct (Z.eqb_spec (bqual_length x) 0); [tauto | done]. }
  destruct (set_my_xid_ok W server_id this n HW Ht) as (r & Ea & Oa). destruct (set_my_xid_ok W server_id this2 n2 HW Ht2) as (r2 & Eb & Ob).
  eexists _, _. do 2 (split; [eassumption |]). split.
  - unfold get_my_xid, quick_get_my_xid, same_bytes. cbn [gtrid_length bqual_length data]. rewrite !Z.eqb_refl. cbn [negb].
    destruct Oa as [_ _ _ _ Hl _]. cbn [data] in Hl. rewrite Hl. rewrite take_write_prefix.
    match goal with |- context [if ?b then Some true else None] => change b with true end. cbn [mbind option_bind]. replace (MYSQL_XID_OFFSET W + 8 <=? XIDDATASIZE) with true by (destruct HW as [-> | ->]; done).
    f_equal. unfold load_le. rewrite app_assoc, drop_app_length' by (rewrite length_app, length_le; destruct HW as [-> | ->]; done).
    rewrite take_write, le_value_le. by apply Z.mod_small.
  - rewrite eq_ids by done. match goal with |- Some (negb ?a && negb ?b && _) = _ => change a with false; change b with false end. cbn [negb andb]. f_equal. apply eq_true_iff_eq. rewrite bool_decide_eq_true, Z.eqb_eq.
    rewrite (ids_body W _ _ Oa Ob), !body_packed by done. cbn [gtrid_length bqual_length]. split; [| by intros ->].
    intros (_ & _ & E). apply app_inj_1 in E as [_ E]; [| done]. apply app_inj_1 in E as [_ E]; [| done].
    by apply (le_bytes_inj 8) in E.
Qed.

Lemma my_xid_roundtrip_witness : exists a b, set_my_xid 64 3 (demo_xid 1) 77 = Some a /\ set_my_xid 64 3 (demo_xid 2) 78 = Some b /\
  get_my_xid 64 a = Some 77 /\ eq 64 a b = Some false /\ get_my_xid 64 (demo_xid 1) = Some 0.
Proof.
  assert (HD : data_ok (data (demo_xid 1))) by (split; [by vm_compute | apply (xo_bytes 64), demo_xid_ok; lia]).
  destruct (my_xid_roundtrip 64 3 (demo_xid 1) (demo_xid 2) 77 78 (demo_xid 1) (or_intror eq_refl) HD HD) as (H0 & a & b & Ea & Eb & Hg & He); [lia | lia |].
  exists a, b. split; [exact Ea |]. split; [exact Eb |]. split; [exact Hg |]. split; [exact He |]. apply H0. by left.
Defined.

(** ** Text *)

(** The table of lower-case digits. *)
Record hex_table (dig : Z -> Z) : Prop := {
  hex_char d : 0 <= d < 16 -> 0 < dig d < 256;
  hex_no_quote d : 0 <= d < 16 -> dig d <> 39;
  hex_inj d e : 0 <= d < 16 -> 0 <= e < 16 -> dig d = dig e -> d = e }.

Section text.
Context (dig : Z -> Z) (Hdig : hex_table dig).

Definition hex_text (bs : bytes) : bytes := bs ≫= fun d => [dig (Z.shiftr d 4); dig (Z.land d 0x0f)].
Definition xid_text (x : xid_t) (ds : bytes) : bytes := [88; 39] ++ hex_text (gtrid x) ++ [39; 44; 88; 39] ++ hex_text (bqual x) ++ [39; 44] ++ ds.

Lemma put_ok a r bs : (length bs <= length r)%nat ->
  exists r', put_chars (a ++ r, Z.of_nat (length a)) bs = Some ((a ++ bs) ++ r', Z.of_nat (length (a ++ bs))) /\ length r = (length bs + length r')%nat.
Proof using.
  intros H. destruct (write_at_behind a r bs H) as (r' & E & L). exists r'. unfold put_chars. cbn [fst snd]. rewrite E. cbn [mbind option_bind].
  split; [| done]. do 2 f_equal. rewrite length_app. lia.
Qed.

Lemma hex_loop_ok dat n : forall i a r, (i + n <= length dat)%nat -> (2 * n <= length r)%nat ->
  exists r', hex_loop dig (a ++ r, Z.of_nat (length a)) dat i n =
    Some ((a ++ hex_text (take n (drop i dat))) ++ r', Z.of_nat (length (a ++ hex_text (take n (drop i dat))))) /\ length r = (2 * n + length r')%nat.
Proof using.
  induction n as [| n IH]; intros i a r Hi Hr; cbn [hex_loop].
  - exists r. rewrite take_0. cbn. rewrite app_nil_r. split; [done | lia].
  - destruct (lookup_lt_is_Some_2 dat i) as [d Ed]; [lia |]. rewrite Ed. cbn [mbind option_bind].
    destruct (put_ok a r [dig (Z.shiftr d 4); dig (Z.land d 0x0f)]) as (r1 & -> & L1); [cbn; lia |]. cbn [mbind option_bind].
    cbn [length] in L1. destruct (IH (S i) (a ++ [dig (Z.shiftr d 4); dig (Z.land d 0x0f)]) r1) as (r2 & -> & L2); [lia | lia |].
    exists r2. rewrite (drop_S _ _ _ Ed). cbn [take]. unfold hex_text. rewrite bind_cons, <- !app_assoc. split; [done | lia].
Qed.

Lemma hex_text_length bs : length (hex_text bs) = (2 * length bs)%nat.
Proof using. induction bs as [| b bs IH]; [done |]. unfold hex_text in *. rewrite bind_cons, length_app, IH. cbn. lia. Qed.

Lemma nibbles b : 0 <= b < 256 -> 0 <= Z.shiftr b 4 < 16 /\ 0 <= Z.land b 0x0f < 16 /\ b = 16 * Z.shiftr b 4 + Z.land b 0x0f.
Proof using.
  intros Hb. change 0x0f with (Z.ones 4). rewrite Z.land_ones, Z.shiftr_div_pow2 by lia. change (2 ^ 4) with 16.
  pose proof (Z.div_mod b 16). pose proof (Z.mod_pos_bound b 16). lia.
Qed.

Lemma hex_text_chars bs : is_bytes bs -> Forall (fun c => 0 < c < 256 /\ c <> 39) (hex_text bs).
Proof using Hdig.
  induction bs as [| b bs IH]; intros H; [apply Forall_nil_2 |]. apply Forall_cons in H as [Hb Hbs]. unfold hex_text in *. rewrite bind_cons.
  destruct (nibbles b Hb) as (H1 & H2 & _). destruct Hdig. apply Forall_app. split; [| by apply IH].
  repeat (apply Forall_cons; split; [eauto |]). apply Forall_nil_2.
Qed.

Lemma hex_text_inj a b : is_bytes a -> is_bytes b -> hex_text a = hex_text b -> a = b.
Proof using Hdig.
  revert b. induction a as [| x a IH]; intros [| y b] Ha Hb E; [done | done | done |]. apply Forall_cons in Ha as [Hx Ha], Hb as [Hy Hb].
  unfold hex_text in *. rewrite !bind_cons in E. cbn [app] in E. injection E as E1 E2 E3.
  destruct (nibbles x Hx) as (X1 & X2 & X3), (nibbles y Hy) as (Y1 & Y2 & Y3). apply (hex_inj _ Hdig) in E1; [| done..]. apply (hex_inj _ Hdig) in E2; [| done..].
  f_equal; [lia | by apply IH].
Qed.

(** The text up to the first quote. *)
Lemma split_quote (a b s t : bytes) : Forall (fun c => 0 < c < 256 /\ c <> 39) a -> Forall (fun c => 0 < c < 256 /\ c <> 39) b ->
  a ++ 39 :: s = b ++ 39 :: t -> a = b /\ s = t.
Proof using.
  revert b. induction a as [| x a IH]; intros [| y b] Ha Hb E; cbn [app] in E.
  - by injection E as ->.
  - injection E as <- _. apply Forall_cons in Hb as [[_ ?] _]. done.
  - injection E as -> _. apply Forall_cons in Ha as [[_ ?] _]. done.
  - injection E as -> E. apply Forall_cons in Ha as [_ Ha], Hb as [_ Hb]. destruct (IH b Ha Hb E) as [-> ->]. done.
Qed.
End text.

Lemma digits_fit W f : is_long_size W ->
  exists ds, decimal 20 (wrap W f) = Some ds /\ number ds = wrap W f /\ Z.of_nat (length ds) <= 4 * sizeof_long W /\ Forall (fun d => 48 <= d < 58) ds.
Proof.
  intros HW. destruct (decimal_ok 20 (wrap W f) (if W =? 32 then 10 else 20)) as (ds & E & Hv & Hl & Hd).
  - destruct HW as [-> | ->]; cbn; lia.
  - assert (Hw : is_word W (wrap W f)) by (apply is_word_wrap; destruct HW as [-> | ->]; lia). unfold is_word in Hw. destruct HW as [-> | ->].
    + change (10 ^ _) with 10000000000. lia.
    + change (10 ^ _) with 100000000000000000000. lia.
  - exists ds. split; [done |]. split; [done |]. split; [| done]. destruct HW as [-> | ->].
    + change (4 * sizeof_long 32) with 16. cbn in Hl. lia.
    + change (4 * sizeof_long 64) with 32. cbn in Hl. lia.
Qed.

Lemma serialize_ok W dig buf x : is_long_size W -> xid_ok W x -> Z.of_nat (length buf) = ser_buf_size W ->
  exists ds rest, decimal 20 (wrap W (formatID x)) = Some ds /\ serialize_xid W dig buf (formatID x) (gtrid_length x) (bqual_length x) (data x) =
    Some (xid_text dig x ds ++ 0 :: rest) /\ length (xid_text dig x ds ++ 0 :: rest) = length buf.
Proof.
  intros HW Hx Hl. pose proof (gtrid_len W x Hx) as Lg. pose proof (bqual_len W x Hx) as Lb. pose proof Hx as [_ Hg Hb Hf Hd _].
  destruct (digits_fit W (formatID x) HW) as (ds & Eds & _ & Hds & _). exists ds.
  unfold ser_buf_size, XIDDATASIZE in *. unfold serialize_xid.
  destruct (put_ok [] buf [88; 39]) as (r1 & E1 & L1); [cbn; lia |]. rewrite !app_nil_l in E1. change (Z.of_nat (length [])) with 0 in E1. cbn [length] in L1. rewrite E1. cbn [mbind option_bind].
  destruct (hex_loop_ok dig (data x) (Z.to_nat (gtrid_length x)) 0 [88; 39] r1) as (r2 & E2 & L2); [lia | lia |]. rewrite E2. cbn [mbind option_bind].
  rewrite drop_0. fold (gtrid x). destruct (put_ok ([88; 39] ++ hex_text dig (gtrid x)) r2 [39; 44; 88; 39]) as (r3 & E3 & L3); [cbn [length]; lia |].
  cbn [length] in L3. rewrite E3. cbn [mbind option_bind]. rewrite swrap_sum by done.
  replace (Z.to_nat (gtrid_length x + bqual_length x - Z.max 0 (gtrid_length x))) with (Z.to_nat (bqual_length x)) by lia.
  destruct (hex_loop_ok dig (data x) (Z.to_nat (bqual_length x)) (Z.to_nat (gtrid_length x)) (([88; 39] ++ hex_text dig (gtrid x)) ++ [39; 44; 88; 39]) r3) as (r4 & E4 & L4);
    [lia | lia |]. rewrite E4. cbn [mbind option_bind fst snd]. fold (bqual x).
  set (t := (([88; 39] ++ hex_text dig (gtrid x)) ++ [39; 44; 88; 39]) ++ hex_text dig (bqual x)).
  destruct (write_at_behind t r4 [39]) as (r5 & E5 & L5); [cbn [length]; lia |]. cbn [length] in L5. rewrite E5. cbn [mbind option_bind]. rewrite Eds. cbn [mbind option_bind].
  replace (Z.of_nat (length t) + 1) with (Z.of_nat (length (t ++ [39]))) by (rewrite length_app; cbn; lia).
  destruct (write_at_behind (t ++ [39]) r5 (44 :: ds ++ [0])) as (r6 & E6 & L6); [cbn [length]; rewrite length_app; cbn; lia |].
  rewrite E6. exists r6. split; [done |].
  assert (ET : ((t ++ [39]) ++ 44 :: ds ++ [0]) ++ r6 = xid_text dig x ds ++ 0 :: r6).
  { unfold t, xid_text. rewrite <- !app_assoc. cbn [app]. by rewrite <- !app_assoc. }
  rewrite ET. split; [done |]. rewrite <- ET, !length_app. cbn [length] in *. unfold t. rewrite !length_app, !hex_text_length. cbn [length].
  rewrite length_app in L6. cbn in L6. lia.
Qed.

Lemma xid_text_chars W dig x ds : hex_table dig -> xid_ok W x -> Forall (fun d => 48 <= d < 58) ds -> Forall (fun c => 0 < c) (xid_text dig x ds).
Proof.
  intros Hdig [] Hds. unfold xid_text, gtrid, bqual.
  assert (H1 : Forall (fun c => 0 < c) (hex_text dig (take (Z.to_nat (gtrid_length x)) (data x)))).
  { eapply Forall_impl; [apply hex_text_chars; [done |]; by apply Forall_take | cbn; lia]. }
  assert (H2 : Forall (fun c => 0 < c) (hex_text dig (take (Z.to_nat (bqual_length x)) (drop (Z.to_nat (gtrid_length x)) (data x))))).
  { eapply Forall_impl; [apply hex_text_chars; [done |]; by apply Forall_take, Forall_drop | cbn; lia]. }
  assert (H3 : Forall (fun c => 0 < c) ds) by (eapply Forall_impl; [done | cbn; lia]).
  repeat (apply Forall_app; split); try done; repeat (apply Forall_cons; split; [lia |]); apply Forall_nil_2.
Qed.

Lemma xid_text_inj W dig x y dx dy : hex_table dig -> is_long_size W -> xid_ok W x -> xid_ok W y ->
  number dx = wrap W (formatID x) -> number dy = wrap W (formatID y) ->
  xid_text dig x dx = xid_text dig y dy -> ids x = ids y /\ formatID x = formatID y.
Proof.
  intros Hdig HW [F1 _ _ _ _ B1] [F2 _ _ _ _ B2] Nx Ny E. unfold xid_text in E. cbn [app] in E. injection E as E.
  apply split_quote in E as [Eg E]; [| apply hex_text_chars; [done |]; by apply Forall_take ..]. injection E as E.
  apply split_quote in E as [Eb E]; [| apply hex_text_chars; [done |]; by apply Forall_take, Forall_drop ..]. injection E as Ed.
  apply (hex_text_inj dig Hdig) in Eg; [| by apply Forall_take ..]. apply (hex_text_inj dig Hdig) in Eb; [| by apply Forall_take, Forall_drop ..].
  split; [unfold ids; congruence |]. assert (EW : wrap W (formatID x) = wrap W (formatID y)) by congruence.
  apply (f_equal (swrap W)) in EW. assert (HS : forall z, swrap W (wrap W z) = swrap W z).
  { intros z. unfold swrap, wrap. by rewrite Zplus_mod_idemp_l. }
  rewrite !HS in EW. by rewrite !swrap_small in EW by (done || (destruct HW as [-> | ->]; lia)).
Qed.

(** the text of an identifier always fits into the buffer of [ser_buf_size] bytes, its
    terminating zero included, and the query built from it into the member [query], so neither
    [serialize] nor [get_query] writes outside; and the text says it all: events whose texts
    are equal hold the same global transaction, the same branch and the same format. *)
Theorem xid_text_safe W dig e f q one : is_long_size W -> hex_table dig -> xid_ok W (ev_xid e) -> xid_ok W (ev_xid f) ->
  Z.of_nat (length (ev_buf e)) = ser_buf_size W -> Z.of_nat (length (ev_buf f)) = ser_buf_size W -> Z.of_nat (length q) = query_size W ->
  exists be bf qe, serialize W dig e = Some be /\ serialize W dig f = Some bf /\ get_query W dig q one e = Some qe /\
    length be = length (ev_buf e) /\ length qe = length q /\
    c_string qe = (if one then XA_COMMIT ++ c_string be ++ ONE_PHASE else XA_PREPARE ++ c_string be) /\
    (c_string be = c_string bf -> ids (ev_xid e) = ids (ev_xid f) /\ formatID (ev_xid e) = formatID (ev_xid f)).
Proof.
  intros HW Hdig He Hf Le Lf Lq.
  destruct (digits_fit W (formatID (ev_xid e)) HW) as (de & Ede & Ne & _ & De). destruct (digits_fit W (formatID (ev_xid f)) HW) as (df & Edf & Nf & _ & Df).
  destruct (serialize_ok W dig (ev_buf e) (ev_xid e) HW He Le) as (de' & re & Ede' & Se & Lse). destruct (serialize_ok W dig (ev_buf f) (ev_xid f) HW Hf Lf) as (df' & rf & Edf' & Sf & _).
  assert (de' = de) as -> by congruence. assert (df' = df) as -> by congruence.
  pose proof (xid_text_chars W dig _ _ Hdig He De) as Ce. pose proof (xid_text_chars W dig _ _ Hdig Hf Df) as Cf.
  set (te := xid_text dig (ev_xid e) de) in *. set (tq := if one then XA_COMMIT ++ te ++ ONE_PHASE else XA_PREPARE ++ te).
  assert (Hq : exists r, write_at q 0 (tq ++ [0]) = Some (tq ++ 0 :: r) /\ length (tq ++ 0 :: r) = length q).
  { unfold query_size in Lq. assert (HT : Z.of_nat (length te) + 1 <= ser_buf_size W) by (rewrite length_app in Lse; cbn [length] in Lse; lia).
    destruct (write_at_behind [] q (tq ++ [0])) as (r & Er & Lr); [unfold tq; destruct one; rewrite !length_app;
      change (length XA_COMMIT) with 10%nat || change (length XA_PREPARE) with 11%nat; try change (length ONE_PHASE) with 10%nat; cbn [length]; lia |].
    exists r. rewrite !app_nil_l in Er. change (Z.of_nat (length [])) with 0 in Er. rewrite Er, <- app_assoc. cbn [app]. split; [done |]. rewrite Lr, !length_app. cbn. lia. }
  destruct Hq as (r & Eq & Lqr). exists (te ++ 0 :: re), (xid_text dig (ev_xid f) df ++ 0 :: rf), (tq ++ 0 :: r).
  split; [exact Se |]. split; [exact Sf |]. rewrite (c_string_text te re Ce), (c_string_text _ rf Cf). split.
  - unfold get_query, serialize, serialize_to. rewrite Se. cbn [mbind option_bind]. rewrite (c_string_text te re Ce). exact Eq.
  - split; [exact Lse |]. split; [exact Lqr |]. split; [| intros E; exact (xid_text_inj W dig _ _ de df Hdig HW He Hf Ne Nf E)].
    apply c_string_text. unfold tq. destruct one; [apply Forall_app; split; [| apply Forall_app; split; [exact Ce |]] | apply Forall_app; split; [| exact Ce]];
      repeat (apply Forall_cons; split; [lia |]); apply Forall_nil_2.
Qed.

Definition lower_digit (d : Z) : Z := if d <? 10 then 48 + d else 87 + d.

Lemma lower_digit_table : hex_table lower_digit.
Proof. unfold lower_digit. split; intros; repeat case_match; lia. Qed.

Definition demo_event (f : Z) : event_xid_t := Event (demo_xid f) (replicate 297 170).

Lemma xid_text_safe_witness : exists be bf qe, serialize 64 lower_digit (demo_event (-3)) = Some be /\ serialize 64 lower_digit (demo_event 5) = Some bf /\
  get_query 64 lower_digit (replicate 318 170) true (demo_event (-3)) = Some qe /\ c_string be <> c_string bf.
Proof.
  destruct (xid_text_safe 64 lower_digit (demo_event (-3)) (demo_event 5) (replicate 318 170) true (or_intror eq_refl) lower_digit_table)
    as (be & bf & qe & Ee & Ef & Eq & _ & _ & _ & Hinj); [apply demo_xid_ok; lia | apply demo_xid_ok; lia | done | done | done |].
  exists be, bf, qe. split; [exact Ee |]. split; [exact Ef |]. split; [exact Eq |]. intros E. by apply Hinj in E as [_ E].
Defined.

(** The text of the example: X'0708',X'09',5. *)
Example serialize_demo : (c_string <$> serialize 64 lower_digit (demo_event 5)) =
  Some [88; 39; 48; 55; 48; 56; 39; 44; 88; 39; 48; 57; 39; 44; 53].
Proof. by vm_compute. Qed.
