(* ===== verification/Transaction.v ===== *)
(** * Transaction: the storage engines of a transaction ([handler.h])

    A statement and a transaction each keep a list of the storage engines that take
    part in it ([THD_TRANS::ha_list]).  Its elements are [Ha_trx_info] objects: an
    engine has one for the statement and one for the transaction.  An element
    remembers whether its engine changed anything; at the end of a statement the
    transaction's element learns what the statement did.  Pointers are addresses,
    0 is NULL; reading a member of an object that is not there and a failing
    assertion have no result. *)

From stdpp Require Import base numbers list gmap.
From Stdlib Require Import ZArith Lia.
From S2P Require Import Prelude.

Local Open Scope Z_scope.

(** ** THD_TRANS *)

(* [handler.h:1748-1792 THD_TRANS] *)
Record THD_TRANS := Trans { no_2pc : bool; ha_list : Z; modified_non_trans_table : bool; m_unsafe_rollback_flags : Z }.

(* [handler.h:1799-1799 CREATED_TEMP_TABLE] *)
Definition CREATED_TEMP_TABLE : Z := 2.
(* [handler.h:1800-1800 DROPPED_TEMP_TABLE] *)
Definition DROPPED_TEMP_TABLE : Z := 4.
(* [handler.h:1801-1801 DID_WAIT] *)
Definition DID_WAIT : Z := 8.
(* [handler.h:1802-1802 DID_DDL] *)
Definition DID_DDL : Z := 0x10.

(* [handler.h:1784-1788 THD_TRANS::reset] *)
Definition trans_reset (t : THD_TRANS) : THD_TRANS := Trans false (ha_list t) false 0.
(* [handler.h:1789-1789 THD_TRANS::is_empty] *)
Definition is_empty (t : THD_TRANS) : bool := ha_list t =? 0.

Definition add_flags (t : THD_TRANS) (f : Z) : THD_TRANS :=
  Trans (no_2pc t) (ha_list t) (modified_non_trans_table t) (Z.lor (m_unsafe_rollback_flags t) f).
(* [handler.h:1805-1809 mark_created_temp_table] *)
Definition mark_created_temp_table (t : THD_TRANS) : THD_TRANS := add_flags t CREATED_TEMP_TABLE.
(* [handler.h:1810-1814 mark_dropped_temp_table] *)
Definition mark_dropped_temp_table (t : THD_TRANS) : THD_TRANS := add_flags t DROPPED_TEMP_TABLE.
(* [handler.h:1815-1818 has_created_dropped_temp_table] *)
Definition has_created_dropped_temp_table (t : THD_TRANS) : bool :=
  negb (Z.land (m_unsafe_rollback_flags t) (Z.lor CREATED_TEMP_TABLE DROPPED_TEMP_TABLE) =? 0).
(* [handler.h:1819-1819 mark_trans_did_wait] *)
Definition mark_trans_did_wait (t : THD_TRANS) : THD_TRANS := add_flags t DID_WAIT.
(* [handler.h:1820-1822 trans_did_wait] *)
Definition trans_did_wait (t : THD_TRANS) : bool := negb (Z.land (m_unsafe_rollback_flags t) DID_WAIT =? 0).
(* [handler.h:1824-1824 mark_trans_did_ddl] *)
Definition mark_trans_did_ddl (t : THD_TRANS) : THD_TRANS := add_flags t DID_DDL.
(* [handler.h:1825-1827 trans_did_ddl] *)
Definition trans_did_ddl (t : THD_TRANS) : bool := negb (Z.land (m_unsafe_rollback_flags t) DID_DDL =? 0).

(** ** Ha_trx_info *)

(* [handler.h:1849-1925 Ha_trx_info] *)
Record Ha_trx_info := Info { m_next : Z; m_ht : Z; m_flags : Z }.

(* [handler.h:1910-1910 TRX_READ_ONLY] *)
Definition TRX_READ_ONLY : Z := 0.
(* [handler.h:1910-1910 TRX_READ_WRITE] *)
Definition TRX_READ_WRITE : Z := 1.

(** The objects by their addresses. *)
Abbreviation infos := (gmap Z Ha_trx_info).

(* [handler.h:1867-1872 Ha_trx_info::reset] *)
Definition info_reset : Ha_trx_info := Info 0 0 0.
(* [handler.h:1874-1874 Ha_trx_info()] *)
Definition mk_Ha_trx_info : Ha_trx_info := info_reset.
(* [handler.h:1886-1886 is_started] *)
Definition is_started (i : Ha_trx_info) : bool := negb (m_ht i =? 0).

(* [handler.h:1853-1864 register_ha] *)
Definition register_ha (st : infos) (this : Z) (trans : THD_TRANS) (ht_arg : Z) : option (infos * THD_TRANS) :=
  i ← st !! this;
  if negb (m_flags i =? 0) then None else
  if negb (m_ht i =? 0) then None else
  if negb (m_next i =? 0) then None else
  Some (<[this := Info (ha_list trans) ht_arg TRX_READ_ONLY]> st,
        Trans (no_2pc trans) this (modified_non_trans_table trans) (m_unsafe_rollback_flags trans)).
(* [handler.h:1876-1880 set_trx_read_write] *)
Definition set_trx_read_write (i : Ha_trx_info) : option Ha_trx_info :=
  if is_started i then Some (Info (m_next i) (m_ht i) (u8 (Z.lor (m_flags i) TRX_READ_WRITE))) else None.
(* [handler.h:1881-1885 Ha_trx_info::is_trx_read_write] *)
Definition is_trx_read_write (i : Ha_trx_info) : option bool :=
  if is_started i then Some (negb (Z.land (m_flags i) TRX_READ_WRITE =? 0)) else None.
(* [handler.h:1888-1898 coalesce_trx_with] *)
Definition coalesce_trx_with (i stmt_trx : Ha_trx_info) : option Ha_trx_info :=
  if negb (is_started i) then None else
  rw ← is_trx_read_write stmt_trx;
  if (rw : bool) then set_trx_read_write i else Some i.
(* [handler.h:1899-1903 next] *)
Definition next (i : Ha_trx_info) : option Z := if is_started i then Some (m_next i) else None.
(* [handler.h:1904-1908 ht] *)
Definition ht (i : Ha_trx_info) : option Z := if is_started i then Some (m_ht i) else None.

(** The loop over the list from [ha_info] on. *)
(* [handler.h:1930-1934 THD_TRANS::is_trx_read_write: loop] *)
Fixpoint read_write_from (fuel : nat) (st : infos) (ha_info : Z) : option bool :=
  match fuel with
  | O => None
  | S fuel =>
      if ha_info =? 0 then Some false else
      i ← st !! ha_info;
      rw ← is_trx_read_write i;
      if (rw : bool) then Some true else n ← next i; read_write_from fuel st n
  end.
(* [handler.h:1928-1935 THD_TRANS::is_trx_read_write] *)
Definition trans_is_trx_read_write (fuel : nat) (st : infos) (t : THD_TRANS) : option bool := read_write_from fuel st (ha_list t).

(** ** The list of engines *)

(** An engine that takes part: its object, its handlerton, whether it changed data. *)
Record engine := Engine { e_info : Z; e_ht : Z; e_rw : bool }.

Definition info_of (next : Z) (e : engine) : Ha_trx_info := Info next (e_ht e) (Z.b2z (e_rw e)).

(** The objects from [p] on are the engines [es]. *)
Fixpoint trx_chain (st : infos) (p : Z) (es : list engine) : Prop :=
  match es with
  | [] => p = 0
  | e :: es => p = e_info e /\ p <> 0 /\ e_ht e <> 0 /\ exists n, st !! p = Some (info_of n e) /\ trx_chain st n es
  end.

Record trx_list (st : infos) (t : THD_TRANS) (es : list engine) : Prop := {
  tl_chain : trx_chain st (ha_list t) es;
  tl_nodup : NoDup (e_info <$> es) }.

Lemma trx_chain_frame st st' p es : (forall e, e ∈ es -> st' !! e_info e = st !! e_info e) -> trx_chain st p es -> trx_chain st' p es.
Proof.
  revert p. induction es as [| e es IH]; intros p Hf; [done |]. cbn [trx_chain]. intros (-> & H1 & H2 & n & E & Hc).
  do 3 (split; [done |]). exists n. rewrite Hf by left. split; [done |]. apply IH; [| done]. intros x Hx. apply Hf. by right.
Qed.

Lemma trx_list_frame st st' t es : (forall e, e ∈ es -> st' !! e_info e = st !! e_info e) -> trx_list st t es -> trx_list st' t es.
Proof. intros Hf [Hc Hn]. split; [by eapply trx_chain_frame | done]. Qed.

Lemma not_in_list a (es : list engine) : a ∉ e_info <$> es -> forall e, e ∈ es -> e_info e <> a.
Proof. intros Ha e He <-. apply Ha. by apply list_elem_of_fmap_2. Qed.

Lemma b2z_flags b : negb (Z.land (Z.b2z b) TRX_READ_WRITE =? 0) = b.
Proof. by destruct b. Qed.

Lemma started_info n e : e_ht e <> 0 -> is_started (info_of n e) = true.
Proof. intros H. unfold is_started, info_of. cbn. by rewrite (proj2 (Z.eqb_neq _ _) H). Qed.

Lemma rw_info n e : e_ht e <> 0 -> is_trx_read_write (info_of n e) = Some (e_rw e).
Proof. intros H. unfold is_trx_read_write. rewrite started_info by done. f_equal. apply b2z_flags. Qed.

Lemma set_rw_info n e : e_ht e <> 0 -> set_trx_read_write (info_of n e) = Some (info_of n (Engine (e_info e) (e_ht e) true)).
Proof. intros H. unfold set_trx_read_write. rewrite started_info by done. f_equal. unfold info_of. cbn. f_equal. by destruct (e_rw e). Qed.

Lemma read_write_from_ok st es : forall p fuel, trx_chain st p es -> (length es < fuel)%nat -> read_write_from fuel st p = Some (existsb e_rw es).
Proof.
  induction es as [| e es IH]; intros p [| fuel] Hc Hl; cbn [length] in Hl; [lia | | lia |]; cbn [read_write_from trx_chain existsb] in *.
  - subst p. done.
  - destruct Hc as (-> & Hp & Hh & n & E & Hc). rewrite (proj2 (Z.eqb_neq _ _) Hp), E. cbn [mbind option_bind]. rewrite rw_info by done. cbn [mbind option_bind].
    destruct (e_rw e); [done |]. unfold next. rewrite started_info by done. cbn [mbind option_bind m_next info_of orb]. apply IH; [done | lia].
Qed.

Lemma register_ok st this t es h : trx_list st t es -> st !! this = Some mk_Ha_trx_info -> this <> 0 -> h <> 0 ->
  exists st' t', register_ha st this t h = Some (st', t') /\ trx_list st' t' (Engine this h false :: es) /\
    (forall x, x <> this -> st' !! x = st !! x) /\ modified_non_trans_table t' = modified_non_trans_table t /\ m_unsafe_rollback_flags t' = m_unsafe_rollback_flags t.
Proof.
  intros [Hc Hn] E Ht Hh. unfold register_ha. rewrite E. cbn [mbind option_bind mk_Ha_trx_info info_reset m_flags m_ht m_next Z.eqb negb].
  eexists _, _. split; [reflexivity |]. cbn [ha_list modified_non_trans_table m_unsafe_rollback_flags].
  assert (Hnot : this ∉ e_info <$> es).
  { intros (e & -> & He)%list_elem_of_fmap. clear -Hc E He. revert Hc. generalize (ha_list t). induction es as [| e2 es IH]; [by apply elem_of_nil in He |].
    intros p (-> & Hp & Hh & n & E2 & Hc). apply elem_of_cons in He as [-> | He]; [| by eapply IH].
    rewrite E2 in E. apply (f_equal (fmap m_ht)) in E. cbn in E. congruence. }
  split; [split | split; [intros x Hx; by rewrite lookup_insert_ne | done]].
  - cbn [trx_chain e_info e_ht]. do 3 (split; [done |]). exists (ha_list t). rewrite lookup_insert_eq. split; [done |].
    eapply trx_chain_frame; [| done]. intros e He. apply lookup_insert_ne. pose proof (not_in_list this es Hnot e He). congruence.
  - cbn [fmap list_fmap e_info]. by apply NoDup_cons.
Qed.

Lemma trx_chain_lookup st p es a : trx_chain st p es -> a ∈ e_info <$> es ->
  exists n e, e ∈ es /\ e_info e = a /\ e_ht e <> 0 /\ a <> 0 /\ st !! a = Some (info_of n e).
Proof.
  revert p. induction es as [| e es IH]; intros p; cbn [trx_chain fmap list_fmap]; [by intros _ ?%elem_of_nil |].
  intros (-> & Hp & Hh & n & E & Hc) [-> | Ha]%elem_of_cons.
  - exists n, e. split; [left | done].
  - destruct (IH n Hc Ha) as (k & e2 & He & H). exists k, e2. split; [by right | done].
Qed.

(** The engine at [a] changed data. *)
Definition mark (a : Z) (es : list engine) : list engine :=
  (fun e => if decide (e_info e = a) then Engine (e_info e) (e_ht e) true else e) <$> es.

Lemma mark_infos a es : e_info <$> mark a es = e_info <$> es.
Proof. unfold mark. rewrite <- list_fmap_compose. apply list_fmap_ext. intros i e _. cbn. by destruct (decide (e_info e = a)). Qed.

Lemma mark_absent a es : a ∉ e_info <$> es -> mark a es = es.
Proof.
  intros Ha. unfold mark. rewrite <- (list_fmap_id es) at 2. apply list_fmap_ext. intros i e He%list_elem_of_lookup_2. cbn.
  rewrite decide_False; [done |]. by eapply not_in_list.
Qed.

Lemma mark_chain st p es a n e : trx_chain st p es -> NoDup (e_info <$> es) -> e ∈ es -> e_info e = a -> st !! a = Some (info_of n e) ->
  trx_chain (<[a := info_of n (Engine (e_info e) (e_ht e) true)]> st) p (mark a es).
Proof.
  revert p. induction es as [| e2 es IH]; intros p Hc Hn He Ea E; [by apply elem_of_nil in He |].
  cbn [fmap list_fmap] in Hn. apply NoDup_cons in Hn as [Hn2 Hn]. cbn [trx_chain] in Hc. destruct Hc as (-> & Hp & Hh & k & E2 & Hc).
  destruct (decide (e_info e2 = a)) as [E3 |].
  - apply elem_of_cons in He as [-> | He]; [| exfalso; apply Hn2; rewrite E3, <- Ea; by apply list_elem_of_fmap_2].
    assert (k = n) as -> by (rewrite E3, E in E2; apply (f_equal (fmap m_next)) in E2; cbn in E2; congruence).
    unfold mark. cbn [fmap list_fmap]. rewrite decide_True by done. cbn [trx_chain e_info e_ht]. do 3 (split; [done |]).
    exists n. rewrite E3, lookup_insert_eq. split; [done |]. fold (mark a es). rewrite E3 in Hn2. rewrite mark_absent by done.
    eapply trx_chain_frame; [| exact Hc]. intros x Hx. apply lookup_insert_ne. pose proof (not_in_list a es Hn2 x Hx). congruence.
  - apply elem_of_cons in He as [-> | He]; [done |]. unfold mark. cbn [fmap list_fmap]. rewrite decide_False by done. fold (mark a es).
    cbn [trx_chain]. do 3 (split; [done |]). exists k. rewrite lookup_insert_ne by done. split; [done |]. by apply IH.
Qed.

(** ** A statement inside a transaction *)

Record session := Session { objects : infos; stmt : THD_TRANS; all : THD_TRANS }.

Inductive trx_op :=
  | RegisterStmt (a h : Z)   (** an engine starts to take part in the statement *)
  | RegisterAll (a h : Z)    (** ... in the transaction *)
  | SetReadWrite (a : Z)     (** it changes data *)
  | Coalesce (a b : Z)       (** the statement of [b] ends: the transaction's element [a] learns of it *).

Definition run_op (s : session) (op : trx_op) : option session :=
  match op with
  | RegisterStmt a h => '(st, t) ← register_ha (objects s) a (stmt s) h; Some (Session st t (all s))
  | RegisterAll a h => '(st, t) ← register_ha (objects s) a (all s) h; Some (Session st (stmt s) t)
  | SetReadWrite a => i ← objects s !! a; i ← set_trx_read_write i; Some (Session (<[a := i]> (objects s)) (stmt s) (all s))
  | Coalesce a b => i ← objects s !! a; j ← objects s !! b; i ← coalesce_trx_with i j; Some (Session (<[a := i]> (objects s)) (stmt s) (all s))
  end.

Fixpoint run_ops (s : session) (ops : list trx_op) : option session :=
  match ops with [] => Some s | op :: ops => s ← run_op s op; run_ops s ops end.

(** The engines of the statement, those of the transaction, and the objects not in use. *)
Record model := Model { m_stmt : list engine; m_all : list engine; m_free : list Z }.

Definition is_rw (a : Z) (es : list engine) : bool := existsb (fun e => bool_decide (e_info e = a) && e_rw e) es.

Definition abs_op (m : model) (op : trx_op) : model :=
  match op with
  | RegisterStmt a h => Model (Engine a h false :: m_stmt m) (m_all m) (filter (fun x => x <> a) (m_free m))
  | RegisterAll a h => Model (m_stmt m) (Engine a h false :: m_all m) (filter (fun x => x <> a) (m_free m))
  | SetReadWrite a => Model (mark a (m_stmt m)) (mark a (m_all m)) (m_free m)
  | Coalesce a b => if is_rw b (m_stmt m) then Model (m_stmt m) (mark a (m_all m)) (m_free m) else m
  end.

Definition op_ok (m : model) (op : trx_op) : Prop :=
  match op with
  | RegisterStmt a h | RegisterAll a h => a ∈ m_free m /\ h <> 0
  | SetReadWrite a => a ∈ e_info <$> m_stmt m ++ m_all m
  | Coalesce a b => a ∈ e_info <$> m_all m /\ b ∈ e_info <$> m_stmt m
  end.

Fixpoint ops_ok (m : model) (ops : list trx_op) : Prop :=
  match ops with [] => True | op :: ops => op_ok m op /\ ops_ok (abs_op m op) ops end.

Record represents (s : session) (m : model) : Prop := {
  rp_stmt : trx_list (objects s) (stmt s) (m_stmt m);
  rp_all : trx_list (objects s) (all s) (m_all m);
  rp_free a : a ∈ m_free m -> a <> 0 /\ objects s !! a = Some mk_Ha_trx_info;
  rp_apart : NoDup (e_info <$> m_stmt m ++ m_all m) }.

Lemma free_unused s m a : represents s m -> a ∈ m_free m -> a ∉ e_info <$> m_stmt m ++ m_all m.
Proof.
  intros [[Hs _] [Ha _] Hf _] Hfree Hin. destruct (Hf a Hfree) as [_ E]. rewrite fmap_app, elem_of_app in Hin.
  destruct Hin as [Hin | Hin]; [destruct (trx_chain_lookup _ _ _ a Hs Hin) as (n & e & _ & _ & Hh & _ & E2) | destruct (trx_chain_lookup _ _ _ a Ha Hin) as (n & e & _ & _ & Hh & _ & E2)];
    rewrite E in E2; apply (f_equal (fmap m_ht)) in E2; cbn in E2; congruence.
Qed.

(** Both lists after an engine was added to one of them. *)
Lemma run_register s m op : represents s m -> op_ok m op -> (exists a h, op = RegisterStmt a h \/ op = RegisterAll a h) ->
  exists s', run_op s op = Some s' /\ represents s' (abs_op m op).
Proof.
  intros Hr Hop (a & h & Hcase). pose proof Hr as [Hs Ha Hf Hn].
  assert (Hah : a ∈ m_free m /\ h <> 0) by (destruct Hcase as [-> | ->]; exact Hop). destruct Hah as [Hfree Hh].
  destruct (Hf a Hfree) as [Ha0 E]. pose proof (free_unused s m a Hr Hfree) as Hnot.
  assert (Hfr : forall st' : infos, (forall x, x <> a -> st' !! x = objects s !! x) -> forall x, x ∈ filter (fun x => x <> a) (m_free m) -> x <> 0 /\ st' !! x = Some mk_Ha_trx_info).
  { intros st' Hst x [Hx Hin]%list_elem_of_filter. rewrite Hst by done. by apply Hf. }
  assert (Hne : forall es, es ⊆ m_stmt m ++ m_all m -> forall e, e ∈ es -> e_info e <> a).
  { intros es Hsub e He. apply (not_in_list a (m_stmt m ++ m_all m) Hnot). by apply Hsub. }
  destruct Hcase as [-> | ->]; cbn [run_op abs_op].
  - destruct (register_ok (objects s) a (stmt s) (m_stmt m) h Hs E Ha0 Hh) as (st' & t' & -> & Hl & Hst & _). cbn [mbind option_bind].
    eexists. split; [reflexivity |]. split; cbn [objects stmt all m_stmt m_all m_free]; [done | | by apply Hfr | cbn [app fmap list_fmap e_info]; by apply NoDup_cons].
    eapply trx_list_frame; [| exact Ha]. intros e He. apply Hst, (Hne (m_all m)); [set_solver | done].
  - destruct (register_ok (objects s) a (all s) (m_all m) h Ha E Ha0 Hh) as (st' & t' & -> & Hl & Hst & _). cbn [mbind option_bind].
    eexists. split; [reflexivity |]. split; cbn [objects stmt all m_stmt m_all m_free]; [| done | by apply Hfr |].
    + eapply trx_list_frame; [| exact Hs]. intros e He. apply Hst, (Hne (m_stmt m)); [set_solver | done].
    + rewrite fmap_app. cbn [fmap list_fmap e_info]. rewrite fmap_app in Hn, Hnot. apply NoDup_app in Hn as (N1 & N2 & N3).
      apply NoDup_app. split; [done |]. split; [| apply NoDup_cons; split; [set_solver | done]].
      intros x Hx [-> | Hx2]%elem_of_cons; [set_solver | by apply (N2 x)].
Qed.

(** Marking the element [a] of one of the lists. *)
Lemma run_mark s m a n e : represents s m -> e ∈ m_stmt m ++ m_all m -> e_info e = a -> objects s !! a = Some (info_of n e) ->
  represents (Session (<[a := info_of n (Engine (e_info e) (e_ht e) true)]> (objects s)) (stmt s) (all s)) (Model (mark a (m_stmt m)) (mark a (m_all m)) (m_free m)).
Proof.
  intros Hr He Ea E. pose proof Hr as [[Hs Ns] [Ha Na] Hf Hn].
  assert (HC : forall t es, (es = m_stmt m \/ es = m_all m) -> trx_chain (objects s) t es -> NoDup (e_info <$> es) ->
    trx_list (<[a := info_of n (Engine (e_info e) (e_ht e) true)]> (objects s)) (Trans false t false 0) (mark a es)).
  { intros t es Hes Hc Hnd. split; [| by rewrite mark_infos]. cbn [ha_list]. destruct (decide (a ∈ e_info <$> es)) as [Hin | Hin].
    - destruct (trx_chain_lookup _ _ _ a Hc Hin) as (k & e2 & He2 & Ea2 & _ & _ & _).
      assert (e2 = e) as ->; [| by apply mark_chain]. apply list_elem_of_lookup in He as [i Hi].
      assert (He2' : e2 ∈ m_stmt m ++ m_all m) by (destruct Hes as [-> | ->]; set_solver). apply list_elem_of_lookup in He2' as [j Hj].
      assert (i = j) as ->; [| congruence]. eapply (NoDup_lookup _ i j a Hn); rewrite list_lookup_fmap; [rewrite Hi | rewrite Hj]; cbn; congruence.
    - rewrite mark_absent by done. eapply trx_chain_frame; [| exact Hc]. intros x Hx. apply lookup_insert_ne. pose proof (not_in_list a es Hin x Hx). congruence. }
  split; cbn [objects stmt all m_stmt m_all m_free].
  - destruct (HC (ha_list (stmt s)) (m_stmt m)) as [H1 H2]; [by left | done | done |]. by split.
  - destruct (HC (ha_list (all s)) (m_all m)) as [H1 H2]; [by right | done | done |]. by split.
  - intros x Hx. destruct (Hf x Hx) as [H0 H1]. split; [done |]. rewrite lookup_insert_ne; [done |]. intros <-.
    apply (free_unused s m a Hr Hx). rewrite <- Ea. by apply list_elem_of_fmap_2.
  - rewrite fmap_app, !mark_infos, <- fmap_app. done.
Qed.

Lemma lookup_engine s m a : represents s m -> a ∈ e_info <$> m_stmt m ++ m_all m ->
  exists n e, e ∈ m_stmt m ++ m_all m /\ e_info e = a /\ e_ht e <> 0 /\ objects s !! a = Some (info_of n e).
Proof.
  intros [[Hs _] [Ha _] _ _]. rewrite fmap_app, elem_of_app. intros [H | H].
  - destruct (trx_chain_lookup _ _ _ a Hs H) as (n & e & He & H1 & H2 & _ & H3). exists n, e. rewrite elem_of_app. tauto.
  - destruct (trx_chain_lookup _ _ _ a Ha H) as (n & e & He & H1 & H2 & _ & H3). exists n, e. rewrite elem_of_app. tauto.
Qed.

Lemma is_rw_engine (es : list engine) e : NoDup (e_info <$> es) -> e ∈ es -> is_rw (e_info e) es = e_rw e.
Proof.
  induction es as [| e2 es IH]; intros Hn He; [by apply elem_of_nil in He |]. cbn [fmap list_fmap] in Hn. apply NoDup_cons in Hn as [H1 Hn].
  unfold is_rw in *. cbn [existsb]. apply elem_of_cons in He as [<- | He].
  - rewrite bool_decide_eq_true_2 by done. cbn [andb]. destruct (e_rw e); [done |]. cbn [orb]. apply not_true_is_false.
    intros (x & Hx & Hb)%existsb_exists. apply andb_true_iff in Hb as [Hb%bool_decide_eq_true _]. apply H1. rewrite <- Hb.
    apply list_elem_of_fmap_2. by apply list_elem_of_In.
  - rewrite bool_decide_eq_false_2; [by apply IH |]. intros E. apply H1. rewrite E. by apply list_elem_of_fmap_2.
Qed.

Lemma trx_run_op_ok s m op : represents s m -> op_ok m op -> exists s', run_op s op = Some s' /\ represents s' (abs_op m op).
Proof.
  intros Hr Hop. destruct op as [a h | a h | a | a b]; [apply run_register; eauto.. | |].
  - destruct (lookup_engine s m a Hr Hop) as (n & e & He & Ea & Hh & E). cbn [run_op abs_op]. rewrite E. cbn [mbind option_bind].
    rewrite set_rw_info by done. cbn [mbind option_bind]. eexists. split; [reflexivity |]. by apply run_mark.
  - cbn [op_ok] in Hop. destruct Hop as [Ha Hb]. pose proof (rp_apart _ _ Hr) as Hn. rewrite fmap_app in Hn. pose proof Hn as (N1 & N2 & N3)%NoDup_app.
    destruct (lookup_engine s m a Hr) as (n & e & He & Ea & Hh & E); [rewrite fmap_app; set_solver |].
    destruct (trx_chain_lookup _ _ _ b (tl_chain _ _ _ (rp_stmt _ _ Hr)) Hb) as (k & f & Hf & Eb & Hhf & _ & Ef).
    cbn [run_op abs_op]. rewrite E, Ef. cbn [mbind option_bind]. unfold coalesce_trx_with. rewrite started_info, rw_info by done. cbn [negb mbind option_bind].
    rewrite <- Eb, (is_rw_engine _ f N1 Hf). destruct (e_rw f).
    + rewrite set_rw_info by done. cbn [mbind option_bind]. eexists. split; [reflexivity |].
      pose proof (run_mark s m a n e Hr He Ea E) as HM. rewrite (mark_absent a (m_stmt m)) in HM; [done |]. intros Hin. by apply (N2 a).
    + cbn [mbind option_bind]. eexists. split; [reflexivity |]. rewrite insert_id by done. by destruct s.
Qed.

Lemma run_ops_ok ops : forall s m, represents s m -> ops_ok m ops -> exists s', run_ops s ops = Some s' /\ represents s' (foldl abs_op m ops).
Proof.
  induction ops as [| op ops IH]; intros s m Hr; [by exists s |]. intros [H1 H2]. cbn [run_ops foldl].
  destruct (trx_run_op_ok s m op Hr H1) as (s1 & -> & Hr1). cbn [mbind option_bind]. by apply IH.
Qed.

(** C38: however engines register in the statement and in the transaction, are marked
    read-write, and have the end of a statement coalesced into the transaction's element, no
    assertion fails and the two lists hold exactly the engines that registered, each with what
    it did; in particular [is_trx_read_write] of the statement and of the transaction returns
    (its loop ends) and tells whether some registered engine changed data. *)
Theorem trx_lists_refine s m ops fuel : represents s m -> ops_ok m ops ->
  (length (m_stmt (foldl abs_op m ops)) < fuel)%nat -> (length (m_all (foldl abs_op m ops)) < fuel)%nat ->
  exists s', run_ops s ops = Some s' /\ represents s' (foldl abs_op m ops) /\
    trans_is_trx_read_write fuel (objects s') (stmt s') = Some (existsb e_rw (m_stmt (foldl abs_op m ops))) /\
    trans_is_trx_read_write fuel (objects s') (all s') = Some (existsb e_rw (m_all (foldl abs_op m ops))) /\
    is_empty (all s') = bool_decide (m_all (foldl abs_op m ops) = []).
Proof.
  intros Hr Ho Hf1 Hf2. destruct (run_ops_ok ops s m Hr Ho) as (s' & E & Hr'). exists s'. split; [done |]. split; [done |].
  destruct Hr' as [[Hs _] [Ha _] _ _]. split; [by apply read_write_from_ok |]. split; [by apply read_write_from_ok |].
  unfold is_empty. destruct (m_all (foldl abs_op m ops)) as [| e es]; cbn [trx_chain] in Ha.
  - rewrite Ha. by rewrite bool_decide_eq_true_2.
  - destruct Ha as (_ & H & _). by rewrite (proj2 (Z.eqb_neq _ _) H).
Qed.

Definition demo_session : session :=
  Session (list_to_map ((fun a => (a, mk_Ha_trx_info)) <$> [10; 11; 20; 21])) (Trans false 0 false 0) (Trans false 0 false 0).
Definition demo_model : model := Model [] [] [10; 11; 20; 21].
Definition demo_ops : list trx_op :=
  [RegisterStmt 10 7; RegisterAll 20 7; RegisterStmt 11 8; RegisterAll 21 8; SetReadWrite 11; Coalesce 20 10; Coalesce 21 11].

Lemma demo_represents : represents demo_session demo_model.
Proof.
  split; [by split; [| apply NoDup_nil_2] .. | | apply NoDup_nil_2]. intros a Ha. repeat (apply elem_of_cons in Ha as [-> | Ha]; [done |]).
  by apply elem_of_nil in Ha.
Qed.

Lemma trx_lists_refine_witness : exists s', run_ops demo_session demo_ops = Some s' /\
  trans_is_trx_read_write 3 (objects s') (all s') = Some true /\ (m_flags <$> objects s' !! 20) = Some TRX_READ_ONLY.
Proof.
  destruct (trx_lists_refine demo_session demo_model demo_ops 3 demo_represents) as (s' & E & _ & _ & Hrw & _).
  - cbn; split_and!; first [done | set_solver].
  - by vm_compute.
  - by vm_compute.
  - exists s'. split; [exact E |]. split; [exact Hrw |]. vm_compute in E. by injection E as <-.
Defined.

(** ** Statements that cannot be rolled back *)

Inductive unsafe_mark := MarkCreated | MarkDropped | MarkWait | MarkDDL.
Definition do_mark (t : THD_TRANS) (k : unsafe_mark) : THD_TRANS :=
  match k with
  | MarkCreated => mark_created_temp_table t | MarkDropped => mark_dropped_temp_table t
  | MarkWait => mark_trans_did_wait t | MarkDDL => mark_trans_did_ddl t
  end.

#[export] Instance unsafe_mark_eq : EqDecision unsafe_mark.
Proof. solve_decision. Defined.

(** The flags after the marks [ks]. *)
Definition flags_of (ks : list unsafe_mark) : Z :=
  Z.b2z (bool_decide (MarkCreated ∈ ks)) * 2 + Z.b2z (bool_decide (MarkDropped ∈ ks)) * 4 +
  Z.b2z (bool_decide (MarkWait ∈ ks)) * 8 + Z.b2z (bool_decide (MarkDDL ∈ ks)) * 16.

Lemma flags_step ks k t : m_unsafe_rollback_flags t = flags_of ks -> m_unsafe_rollback_flags (do_mark t k) = flags_of (k :: ks).
Proof.
  intros E. unfold flags_of in *. rewrite !(bool_decide_ext (_ ∈ k :: ks) _ (elem_of_cons _ _ _)).
  destruct k; cbn [do_mark mark_created_temp_table mark_dropped_temp_table mark_trans_did_wait mark_trans_did_ddl add_flags m_unsafe_rollback_flags];
    rewrite E; rewrite !bool_decide_or; repeat case_bool_decide; try congruence; reflexivity.
Qed.

(** after a reset, a transaction counts as having created or dropped a temporary table,
    waited, or run DDL exactly when it was marked so since, whatever else it was marked with
    and in whatever order. *)
Theorem unsafe_rollback_marks t ks :
  let t' := foldl do_mark (trans_reset t) ks in
  has_created_dropped_temp_table t' = bool_decide (MarkCreated ∈ ks \/ MarkDropped ∈ ks) /\
  trans_did_wait t' = bool_decide (MarkWait ∈ ks) /\ trans_did_ddl t' = bool_decide (MarkDDL ∈ ks) /\
  ha_list t' = ha_list t /\ modified_non_trans_table t' = false.
Proof.
  assert (H : forall ks t0 k0, m_unsafe_rollback_flags t0 = flags_of k0 ->
    m_unsafe_rollback_flags (foldl do_mark t0 ks) = flags_of (reverse ks ++ k0) /\
    ha_list (foldl do_mark t0 ks) = ha_list t0 /\ modified_non_trans_table (foldl do_mark t0 ks) = modified_non_trans_table t0).
  { clear. intros ks. induction ks as [| k ks IH]; intros t0 k0 E; [done |]. cbn [foldl]. rewrite reverse_cons, <- app_assoc.
    destruct (IH (do_mark t0 k) (k :: k0)) as (H1 & H2 & H3); [by apply flags_step |]. rewrite H1, H2, H3. by destruct k. }
  cbn zeta. destruct (H ks (trans_reset t) []) as (E & -> & ->); [done |]. rewrite app_nil_r in E.
  unfold has_created_dropped_temp_table, trans_did_wait, trans_did_ddl. rewrite E, bool_decide_or. unfold flags_of.
  rewrite !(bool_decide_ext (_ ∈ reverse ks) _ (elem_of_reverse _ _)).
  repeat case_bool_decide; done.
Qed.
