(* ===== verification/Handler.v ===== *)
(** * Handler: the server's side of a table handler ([handler.h])

    A [handler] is a table opened through a storage engine.  Its [ha_...] functions
    wrap the virtual functions of the engine and keep track of the scan that is
    open: on an index, on the rows, or none.  They also remember the auto-increment
    value of the row being inserted.

    The virtual functions are compiled into the engines: the class [StorageEngine]
    has one operation for each that the inline functions call, on a state of the
    engine's own; nothing is assumed of them.  A failing assertion has no result.
    [dbug] is the failure that a debug build can inject into the init functions. *)

From stdpp Require Import base numbers option list.
From Stdlib Require Import ZArith Lia.
From S2P Require Import Prelude.

Local Open Scope Z_scope.

(** ** Constants *)

(* [sql_const.h:34-34 MAX_KEY] *)
Definition MAX_KEY : Z := 64.
(* [sql_const.h:35-35 MAX_REF_PARTS] *)
Definition MAX_REF_PARTS : Z := 32.
(* [sql_const.h:46-46 MAX_DATA_LENGTH_FOR_KEY] *)
Definition MAX_DATA_LENGTH_FOR_KEY : Z := 3072.
(* [handler.h:460-460 HA_MAX_REC_LENGTH] *)
Definition HA_MAX_REC_LENGTH : Z := 65535.
(* [handler.h:95-95 HA_NO_TRANSACTIONS] *)
Definition HA_NO_TRANSACTIONS : Z := 2 ^ 0.
(* [handler.h:150-150 HA_PRIMARY_KEY_REQUIRED_FOR_POSITION] *)
Definition HA_PRIMARY_KEY_REQUIRED_FOR_POSITION : Z := 2 ^ 16.
(* [handler.h:298-298 HA_PERSISTENT_TABLE] *)
Definition HA_PERSISTENT_TABLE : Z := 2 ^ 48.
(* [handler.h:333-334 HA_LAST_TABLE_FLAG] *)
Definition HA_LAST_TABLE_FLAG : Z := 2 ^ 58.
(* [handler.h:354-354 HA_CLUSTERED_INDEX] *)
Definition HA_CLUSTERED_INDEX : Z := 512.
(* [handler.h:488-488 HA_CHECK_DUP_KEY] *)
Definition HA_CHECK_DUP_KEY : Z := 1.
(* [handler.h:490-490 HA_CHECK_FK_ERROR] *)
Definition HA_CHECK_FK_ERROR : Z := 4.
(* [my_base.h:124-124 HA_EXTRA_KEYREAD] *)
Definition HA_EXTRA_KEYREAD : Z := 7.
(* [my_base.h:125-125 HA_EXTRA_NO_KEYREAD] *)
Definition HA_EXTRA_NO_KEYREAD : Z := 8.
(* [my_base.h:439-439 HA_ERR_FOUND_DUPP_KEY] *)
Definition HA_ERR_FOUND_DUPP_KEY : Z := 121.
(* [my_base.h:457-457 HA_ERR_FOUND_DUPP_UNIQUE] *)
Definition HA_ERR_FOUND_DUPP_UNIQUE : Z := 141.
(* [my_base.h:467-467 HA_ERR_NO_REFERENCED_ROW] *)
Definition HA_ERR_NO_REFERENCED_ROW : Z := 151.
(* [my_base.h:468-468 HA_ERR_ROW_IS_REFERENCED] *)
Definition HA_ERR_ROW_IS_REFERENCED : Z := 152.
(* [my_base.h:476-476 HA_ERR_TABLE_DEF_CHANGED] *)
Definition HA_ERR_TABLE_DEF_CHANGED : Z := 159.
(* [my_base.h:491-491 HA_ERR_AUTOINC_ERANGE] *)
Definition HA_ERR_AUTOINC_ERANGE : Z := 167.

(* [handler.h:3068-3068 init_stat] *)
Inductive init_stat := NONE | INDEX | RND.

#[export] Instance init_stat_eq : EqDecision init_stat.
Proof. solve_decision. Defined.

(** ** The engine *)

(** The virtual functions that the wrappers call.  [ha_rnd_pos] is a member of
    [handler] that is compiled elsewhere. *)
Class StorageEngine (E : Type) := {
  index_init : E -> Z -> bool -> Z * E;
  index_end : E -> Z * E;
  rnd_init : E -> bool -> Z * E;
  rnd_end : E -> Z * E;
  pre_index_init : E -> Z -> bool -> Z * E;
  pre_index_end : E -> Z * E;
  pre_rnd_init : E -> bool -> Z * E;
  pre_rnd_end : E -> Z * E;
  extra : E -> Z -> Z * E;
  extra_opt : E -> Z -> Z -> Z * E;
  position : E -> Z -> E;
  ha_rnd_pos : E -> Z -> Z * E;
  delete_all_rows : E -> Z * E;
  reset_auto_increment : E -> Z -> Z * E;
  start_bulk_insert : E -> Z -> Z -> E;
  end_bulk_insert : E -> Z * E;
  mark_trx_read_write_internal : E -> E;
  table_flags : E -> Z;
  index_flags : E -> Z -> Z -> bool -> Z;
  max_supported_record_length : E -> Z;
  max_supported_keys : E -> Z;
  max_supported_key_parts : E -> Z;
  max_supported_key_length : E -> Z;
  max_supported_key_part_length : E -> Z
}.

(* [handler.h:3063-3088 handler] *)
Record handler (E : Type) := Handler {
  engine : E;
  inited : init_stat; active_index : Z; end_range : Z; pre_inited : init_stat; keyread : Z;
  next_insert_id : Z; insert_id_for_cur_row : Z; m_prev_insert_id : Z;
  estimation_rows_to_insert : Z; mark_trx_read_write_done : bool; cached_table_flags : Z; m_lock_unlocked : bool }.
Arguments Handler {E}.
Arguments engine {E}. Arguments inited {E}. Arguments active_index {E}. Arguments end_range {E}. Arguments pre_inited {E}.
Arguments keyread {E}. Arguments next_insert_id {E}. Arguments insert_id_for_cur_row {E}. Arguments m_prev_insert_id {E}.
Arguments estimation_rows_to_insert {E}. Arguments mark_trx_read_write_done {E}. Arguments cached_table_flags {E}. Arguments m_lock_unlocked {E}.

Section code.
Context {E : Type} `{StorageEngine E}.
Abbreviation handler := (handler E).

Definition set_scan (h : handler) (e : E) (s : init_stat) (idx er : Z) : handler :=
  Handler e s idx er (pre_inited h) (keyread h) (next_insert_id h) (insert_id_for_cur_row h) (m_prev_insert_id h)
    (estimation_rows_to_insert h) (mark_trx_read_write_done h) (cached_table_flags h) (m_lock_unlocked h).
Definition set_pre (h : handler) (e : E) (s : init_stat) : handler :=
  Handler e (inited h) (active_index h) (end_range h) s (keyread h) (next_insert_id h) (insert_id_for_cur_row h) (m_prev_insert_id h)
    (estimation_rows_to_insert h) (mark_trx_read_write_done h) (cached_table_flags h) (m_lock_unlocked h).
Definition set_keyread (h : handler) (e : E) (k : Z) : handler :=
  Handler e (inited h) (active_index h) (end_range h) (pre_inited h) k (next_insert_id h) (insert_id_for_cur_row h) (m_prev_insert_id h)
    (estimation_rows_to_insert h) (mark_trx_read_write_done h) (cached_table_flags h) (m_lock_unlocked h).
Definition set_ids (h : handler) (next cur prev : Z) : handler :=
  Handler (engine h) (inited h) (active_index h) (end_range h) (pre_inited h) (keyread h) next cur prev
    (estimation_rows_to_insert h) (mark_trx_read_write_done h) (cached_table_flags h) (m_lock_unlocked h).
Definition set_rest (h : handler) (e : E) (rows : Z) (marked : bool) (flags : Z) : handler :=
  Handler e (inited h) (active_index h) (end_range h) (pre_inited h) (keyread h) (next_insert_id h) (insert_id_for_cur_row h) (m_prev_insert_id h)
    rows marked flags (m_lock_unlocked h).

(** A new handler; [rows] and [flags] are not initialised by the constructor. *)
(* [handler.h:3222-3255 handler::handler] *)
Definition mk_handler (e : E) (flags : Z) : handler := Handler e NONE MAX_KEY 0 NONE MAX_KEY 0 0 0 0 false flags true.
(* [handler.h:3256-3260 handler::~handler] *)
Definition destroy (h : handler) : option unit :=
  if negb (m_lock_unlocked h) then None else if negb (bool_decide (inited h = NONE)) then None else Some tt.
(* [handler.h:3265-3268 handler::init] *)
Definition init (h : handler) : handler :=
  set_rest h (engine h) (estimation_rows_to_insert h) (mark_trx_read_write_done h) (table_flags (engine h)).

(** ** Scans *)

(* [handler.h:3273-3286 ha_index_init] *)
Definition ha_index_init (dbug : bool) (h : handler) (idx : Z) (sorted : bool) : option (Z * handler) :=
  if dbug then Some (HA_ERR_TABLE_DEF_CHANGED, h) else
  if negb (bool_decide (inited h = NONE)) then None else
  let '(result, e) := index_init (engine h) idx sorted in
  if result =? 0 then Some (result, set_scan h e INDEX idx 0) else Some (result, set_scan h e (inited h) (active_index h) (end_range h)).
(* [handler.h:3287-3295 ha_index_end] *)
Definition ha_index_end (h : handler) : option (Z * handler) :=
  if negb (bool_decide (inited h = INDEX)) then None else
  let '(result, e) := index_end (engine h) in Some (result, set_scan h e NONE MAX_KEY 0).
(* [handler.h:3308-3317 ha_rnd_init] *)
Definition ha_rnd_init (dbug : bool) (h : handler) (scan : bool) : option (Z * handler) :=
  if dbug then Some (HA_ERR_TABLE_DEF_CHANGED, h) else
  if negb (bool_decide (inited h = NONE) || (bool_decide (inited h = RND) && scan)) then None else
  let '(result, e) := rnd_init (engine h) scan in
  Some (result, set_scan h e (if negb (result =? 0) then NONE else RND) (active_index h) 0).
(* [handler.h:3318-3325 ha_rnd_end] *)
Definition ha_rnd_end (h : handler) : option (Z * handler) :=
  if negb (bool_decide (inited h = RND)) then None else
  let '(result, e) := rnd_end (engine h) in Some (result, set_scan h e NONE (active_index h) 0).
(* [handler.h:3329-3332 ha_index_or_rnd_end] *)
Definition ha_index_or_rnd_end (h : handler) : option (Z * handler) :=
  match inited h with INDEX => ha_index_end h | RND => ha_rnd_end h | NONE => Some (0, h) end.
(* [handler.h:3574-3575 get_index] *)
Definition get_index (h : handler) : Z := if bool_decide (inited h = INDEX) then active_index h else MAX_KEY.

(* [handler.h:3651-3658 ha_pre_rnd_init] *)
Definition ha_pre_rnd_init (h : handler) (scan : bool) : option (Z * handler) :=
  if negb (bool_decide (pre_inited h = NONE) || (bool_decide (pre_inited h = RND) && scan)) then None else
  let '(result, e) := pre_rnd_init (engine h) scan in Some (result, set_pre h e (if negb (result =? 0) then NONE else RND)).
(* [handler.h:3659-3665 ha_pre_rnd_end] *)
Definition ha_pre_rnd_end (h : handler) : option (Z * handler) :=
  if negb (bool_decide (pre_inited h = RND)) then None else
  let '(result, e) := pre_rnd_end (engine h) in Some (result, set_pre h e NONE).
(* [handler.h:3670-3678 ha_pre_index_init] *)
Definition ha_pre_index_init (h : handler) (idx : Z) (sorted : bool) : option (Z * handler) :=
  if negb (bool_decide (pre_inited h = NONE)) then None else
  let '(result, e) := pre_index_init (engine h) idx sorted in
  Some (result, set_pre h e (if result =? 0 then INDEX else pre_inited h)).
(* [handler.h:3679-3685 ha_pre_index_end] *)
Definition ha_pre_index_end (h : handler) : option (Z * handler) :=
  if negb (bool_decide (pre_inited h = INDEX)) then None else
  let '(result, e) := pre_index_end (engine h) in Some (result, set_pre h e NONE).
(* [handler.h:3686-3691 ha_pre_index_or_rnd_end] *)
Definition ha_pre_index_or_rnd_end (h : handler) : option (Z * handler) :=
  match pre_inited h with INDEX => ha_pre_index_end h | RND => ha_pre_rnd_end h | NONE => Some (0, h) end.

(** [ref] is the member in which the engine stores the position. *)
(* [handler.h:3831-3844 rnd_pos_by_record] *)
Definition rnd_pos_by_record (dbug : bool) (h : handler) (record : Z) : option (Z * handler) :=
  if Z.land (table_flags (engine h)) HA_PRIMARY_KEY_REQUIRED_FOR_POSITION =? 0 then None else
  '(error, h) ← ha_rnd_init dbug h false;
  if negb (error =? 0) then Some (error, h) else
  let e := position (engine h) record in
  let '(error, e) := ha_rnd_pos e record in
  '(_, h) ← ha_rnd_end (set_scan h e (inited h) (active_index h) (end_range h));
  Some (error, h).

(** ** Reading keys only, bulk inserts, flags *)

(* [handler.h:3353-3353 keyread_enabled] *)
Definition keyread_enabled (h : handler) : bool := keyread h <? MAX_KEY.
(* [handler.h:3354-3359 ha_start_keyread] *)
Definition ha_start_keyread (h : handler) (idx : Z) : Z * handler :=
  let '(res, e) := if keyread_enabled h then (0, engine h) else extra_opt (engine h) HA_EXTRA_KEYREAD idx in (res, set_keyread h e idx).
(* [handler.h:3360-3366 ha_end_keyread] *)
Definition ha_end_keyread (h : handler) : Z * handler :=
  if negb (keyread_enabled h) then (0, h) else
  let h := set_keyread h (engine h) MAX_KEY in
  let '(res, e) := extra (engine h) HA_EXTRA_NO_KEYREAD in (res, set_keyread h e (keyread h)).
(* [handler.h:3373-3380 ha_start_bulk_insert] *)
Definition ha_start_bulk_insert (h : handler) (rows flags : Z) : handler :=
  set_rest h (start_bulk_insert (engine h) rows flags) rows (mark_trx_read_write_done h) (cached_table_flags h).
(* [handler.h:3381-3387 ha_end_bulk_insert] *)
Definition ha_end_bulk_insert (h : handler) : Z * handler :=
  let '(ret, e) := end_bulk_insert (engine h) in (ret, set_rest h e 0 (mark_trx_read_write_done h) (cached_table_flags h)).
(* [handler.h:3336-3340 ha_table_flags] *)
Definition ha_table_flags (h : handler) : option Z :=
  if cached_table_flags h <? u64 (HA_LAST_TABLE_FLAG * 2) then Some (cached_table_flags h) else None.
(* [handler.h:3501-3505 has_transactions] *)
Definition has_transactions (h : handler) : option bool :=
  f ← ha_table_flags h; Some (Z.land f (Z.lor HA_NO_TRANSACTIONS HA_PERSISTENT_TABLE) =? 0).
(* [handler.h:3509-3512 has_transaction_manager] *)
Definition has_transaction_manager (h : handler) : option bool := f ← ha_table_flags h; Some (Z.land f HA_NO_TRANSACTIONS =? 0).
(* [handler.h:3524-3535 is_fatal_error] *)
Definition is_fatal_error (error flags : Z) : bool :=
  if (error =? 0) ||
     (negb (Z.land flags HA_CHECK_DUP_KEY =? 0) && ((error =? HA_ERR_FOUND_DUPP_KEY) || (error =? HA_ERR_FOUND_DUPP_UNIQUE))) ||
     (error =? HA_ERR_AUTOINC_ERANGE) ||
     (negb (Z.land flags HA_CHECK_FK_ERROR =? 0) && ((error =? HA_ERR_ROW_IS_REFERENCED) || (error =? HA_ERR_NO_REFERENCED_ROW)))
  then false else true.
(* [handler.h:4642-4649 mark_trx_read_write] *)
Definition mark_trx_read_write (h : handler) : handler :=
  if negb (mark_trx_read_write_done h) then
    set_rest h (mark_trx_read_write_internal (engine h)) (estimation_rows_to_insert h) true (cached_table_flags h)
  else h.
(* [handler.h:4867-4871 truncate] *)
Definition truncate (h : handler) : Z * handler :=
  let '(error, e) := delete_all_rows (engine h) in
  let '(res, e) := if negb (error =? 0) then (error, e) else reset_auto_increment e 0 in
  (res, set_rest h e (estimation_rows_to_insert h) (mark_trx_read_write_done h) (cached_table_flags h)).
(* [handler.h:4212-4216 is_clustering_key] *)
Definition is_clustering_key (h : handler) (index : Z) : option bool :=
  if index =? MAX_KEY then None else Some (negb (Z.land (index_flags (engine h) index 0 true) HA_CLUSTERED_INDEX =? 0)).
(* [handler.h:4203-4210 pk_is_clustering_key] *)
Definition pk_is_clustering_key (h : handler) (index : Z) : option bool :=
  if index =? MAX_KEY then Some false else is_clustering_key h index.

(* [handler.h:4035-4036 max_record_length] *)
Definition max_record_length (h : handler) : Z := Z.min HA_MAX_REC_LENGTH (max_supported_record_length (engine h)).
(* [handler.h:4037-4038 max_keys] *)
Definition max_keys (h : handler) : Z := Z.min MAX_KEY (max_supported_keys (engine h)).
(* [handler.h:4039-4040 max_key_parts] *)
Definition max_key_parts (h : handler) : Z := Z.min MAX_REF_PARTS (max_supported_key_parts (engine h)).
(* [handler.h:4041-4042 max_key_length] *)
Definition max_key_length (h : handler) : Z := Z.min MAX_DATA_LENGTH_FOR_KEY (max_supported_key_length (engine h)).
(* [handler.h:4043-4044 max_key_part_length] *)
Definition max_key_part_length (h : handler) : Z := Z.min MAX_DATA_LENGTH_FOR_KEY (max_supported_key_part_length (engine h)).

(** ** Auto-increment values *)

(* [handler.h:3917-3921 set_next_insert_id] *)
Definition set_next_insert_id (h : handler) (id : Z) : handler := set_ids h id (insert_id_for_cur_row h) (m_prev_insert_id h).
(* [handler.h:3922-3936 restore_auto_increment(ulonglong)] *)
Definition restore_auto_increment_to (h : handler) (prev_insert_id : Z) : handler :=
  set_ids h (if 0 <? prev_insert_id then prev_insert_id else insert_id_for_cur_row h) (insert_id_for_cur_row h) (m_prev_insert_id h).
(* [handler.h:3939-3942 store_auto_increment] *)
Definition store_auto_increment (h : handler) : handler := set_ids h (next_insert_id h) (insert_id_for_cur_row h) (next_insert_id h).
(* [handler.h:3943-3946 restore_auto_increment()] *)
Definition restore_auto_increment (h : handler) : handler := restore_auto_increment_to h (m_prev_insert_id h).
End code.

(** ** The protocol of scans *)

(** What an engine is asked to do with its cursors, and its answer. *)
Inductive event :=
  | IndexInit (idx : Z) (sorted : bool) (result : Z) | IndexEnd
  | RndInit (scan : bool) (result : Z) | RndEnd.

(** Any engine, writing down the calls of its scan functions. *)
#[export] Instance traced {E} `{StorageEngine E} : StorageEngine (E * list event) := {|
  index_init e idx sorted := let '(r, e') := index_init e.1 idx sorted in (r, (e', e.2 ++ [IndexInit idx sorted r]));
  index_end e := let '(r, e') := index_end e.1 in (r, (e', e.2 ++ [IndexEnd]));
  rnd_init e scan := let '(r, e') := rnd_init e.1 scan in (r, (e', e.2 ++ [RndInit scan r]));
  rnd_end e := let '(r, e') := rnd_end e.1 in (r, (e', e.2 ++ [RndEnd]));
  pre_index_init e idx sorted := let '(r, e') := pre_index_init e.1 idx sorted in (r, (e', e.2));
  pre_index_end e := let '(r, e') := pre_index_end e.1 in (r, (e', e.2));
  pre_rnd_init e scan := let '(r, e') := pre_rnd_init e.1 scan in (r, (e', e.2));
  pre_rnd_end e := let '(r, e') := pre_rnd_end e.1 in (r, (e', e.2));
  extra e op := let '(r, e') := extra e.1 op in (r, (e', e.2));
  extra_opt e op a := let '(r, e') := extra_opt e.1 op a in (r, (e', e.2));
  position e r := (position e.1 r, e.2);
  ha_rnd_pos e r := let '(r, e') := ha_rnd_pos e.1 r in (r, (e', e.2));
  delete_all_rows e := let '(r, e') := delete_all_rows e.1 in (r, (e', e.2));
  reset_auto_increment e v := let '(r, e') := reset_auto_increment e.1 v in (r, (e', e.2));
  start_bulk_insert e a b := (start_bulk_insert e.1 a b, e.2);
  end_bulk_insert e := let '(r, e') := end_bulk_insert e.1 in (r, (e', e.2));
  mark_trx_read_write_internal e := (mark_trx_read_write_internal e.1, e.2);
  table_flags e := table_flags e.1;
  index_flags e := index_flags e.1;
  max_supported_record_length e := max_supported_record_length e.1;
  max_supported_keys e := max_supported_keys e.1;
  max_supported_key_parts e := max_supported_key_parts e.1;
  max_supported_key_length e := max_supported_key_length e.1;
  max_supported_key_part_length e := max_supported_key_part_length e.1 |}.

(** What the engine may rely on: one cursor at a time, ended exactly when its
    initialisation succeeded; only a full scan may be initialised again. *)
Inductive engine_step : init_stat -> event -> init_stat -> Prop :=
  | step_index_init idx sorted : engine_step NONE (IndexInit idx sorted 0) INDEX
  | step_index_fail idx sorted r : r <> 0 -> engine_step NONE (IndexInit idx sorted r) NONE
  | step_index_end : engine_step INDEX IndexEnd NONE
  | step_rnd_init scan : engine_step NONE (RndInit scan 0) RND
  | step_rnd_again : engine_step RND (RndInit true 0) RND
  | step_rnd_fail s scan r : r <> 0 -> s = NONE \/ (s = RND /\ scan = true) -> engine_step s (RndInit scan r) NONE
  | step_rnd_end : engine_step RND RndEnd NONE.

Inductive engine_trace : init_stat -> list event -> init_stat -> Prop :=
  | trace_nil s : engine_trace s [] s
  | trace_snoc s es s1 e s2 : engine_trace s es s1 -> engine_step s1 e s2 -> engine_trace s (es ++ [e]) s2.

(** The calls that users of a handler make. *)
Inductive call :=
  | CIndexInit (idx : Z) (sorted : bool) | CIndexEnd | CRndInit (scan : bool) | CRndEnd | CEndAny | CRndPosByRecord (record : Z)
  | CPreIndexInit (idx : Z) (sorted : bool) | CPreIndexEnd | CPreRndInit (scan : bool) | CPreRndEnd | CPreEndAny
  | CStartKeyread (idx : Z) | CEndKeyread.

Section protocol.
Context {E : Type} `{StorageEngine E}.

Definition run_call (dbug : bool) (h : handler E) (c : call) : option (Z * handler E) :=
  match c with
  | CIndexInit idx sorted => ha_index_init dbug h idx sorted
  | CIndexEnd => ha_index_end h
  | CRndInit scan => ha_rnd_init dbug h scan
  | CRndEnd => ha_rnd_end h
  | CEndAny => ha_index_or_rnd_end h
  | CRndPosByRecord r => rnd_pos_by_record dbug h r
  | CPreIndexInit idx sorted => ha_pre_index_init h idx sorted
  | CPreIndexEnd => ha_pre_index_end h
  | CPreRndInit scan => ha_pre_rnd_init h scan
  | CPreRndEnd => ha_pre_rnd_end h
  | CPreEndAny => ha_pre_index_or_rnd_end h
  | CStartKeyread idx => Some (ha_start_keyread h idx)
  | CEndKeyread => Some (ha_end_keyread h)
  end.

(** The results of a sequence of calls; [dbug] says which calls get an injected failure. *)
Fixpoint run_calls (h : handler E) (cs : list (bool * call)) : option (list Z * handler E) :=
  match cs with
  | [] => Some ([], h)
  | (dbug, c) :: cs => '(r, h) ← run_call dbug h c; '(rs, h) ← run_calls h cs; Some (r :: rs, h)
  end.

(** What a caller must know to call [c]: the scan that is open, the one prepared, and
    whether rows can be found by their contents. *)
Definition allowed (s p : init_stat) (by_pk : bool) (dbug : bool) (c : call) : bool :=
  match c with
  | CIndexInit _ _ => dbug || bool_decide (s = NONE)
  | CIndexEnd => bool_decide (s = INDEX)
  | CRndInit scan => dbug || bool_decide (s = NONE) || (bool_decide (s = RND) && scan)
  | CRndEnd => bool_decide (s = RND)
  | CRndPosByRecord _ => by_pk && (dbug || bool_decide (s = NONE))
  | CPreIndexInit _ _ => bool_decide (p = NONE)
  | CPreIndexEnd => bool_decide (p = INDEX)
  | CPreRndInit scan => bool_decide (p = NONE) || (bool_decide (p = RND) && scan)
  | CPreRndEnd => bool_decide (p = RND)
  | CEndAny | CPreEndAny | CStartKeyread _ | CEndKeyread => true
  end.

Definition by_pk (h : handler E) : bool := negb (Z.land (table_flags (engine h)) HA_PRIMARY_KEY_REQUIRED_FOR_POSITION =? 0).

Ltac calls := unfold rnd_pos_by_record, ha_index_or_rnd_end, ha_pre_index_or_rnd_end, ha_index_init, ha_index_end, ha_rnd_init, ha_rnd_end,
    ha_pre_index_init, ha_pre_index_end, ha_pre_rnd_init, ha_pre_rnd_end.

(** A call has a result exactly when it is allowed. *)
Lemma call_allowed dbug h c : is_Some (run_call dbug h c) <-> allowed (inited h) (pre_inited h) (by_pk h) dbug c = true.
Proof using.
  destruct c; cbn [run_call allowed]; unfold by_pk; calls; destruct (inited h) eqn:Es, (pre_inited h) eqn:Ep; try destruct dbug; try destruct scan; cbn;
    repeat (case_match; cbn; rewrite ?Es; cbn); simplify_eq; split; try done; by intros [? ?].
Qed.
End protocol.

Section trace.
Context {E : Type} `{StorageEngine E}.
Abbreviation thandler := (handler (E * list event)).

(** The calls the engine has received are a sequence of the protocol, and the handler
    knows where it stands; an open index scan is the last thing that happened. *)
Record in_step (h : thandler) : Prop := {
  is_trace : engine_trace NONE (engine h).2 (inited h);
  is_index : inited h = INDEX -> exists es sorted, (engine h).2 = es ++ [IndexInit (active_index h) sorted 0] }.

Lemma in_step_same h h' : in_step h -> (engine h').2 = (engine h).2 -> inited h' = inited h -> active_index h' = active_index h -> in_step h'.
Proof using. intros [H1 H2] E1 E2 E3. split; rewrite E1, ?E2, ?E3; done. Qed.

Lemma index_init_step dbug h idx sorted r h' : in_step h -> ha_index_init dbug h idx sorted = Some (r, h') -> in_step h'.
Proof using.
  intros Hs. unfold ha_index_init. destruct dbug; [by intros [= _ <-] |]. case_bool_decide as Hn; [| done]. cbn [negb].
  cbn [index_init traced]. destruct (index_init (engine h).1 idx sorted) as [result e]. destruct (Z.eqb_spec result 0) as [-> | Hr]; intros [= _ <-]; split;
    cbn [set_scan engine inited active_index snd]; try done.
  - eapply trace_snoc; [apply Hs |]. rewrite Hn. constructor.
  - intros _. by eexists _, _.
  - eapply trace_snoc; [apply Hs |]. rewrite Hn. by constructor.
  - rewrite Hn. done.
Qed.

Lemma index_end_step h r h' : in_step h -> ha_index_end h = Some (r, h') -> in_step h' /\ inited h' = NONE.
Proof using.
  intros Hs. unfold ha_index_end. case_bool_decide as Hn; [| done]. cbn [negb index_end traced]. destruct (index_end (engine h).1) as [result e].
  intros [= _ <-]. split; [split |]; cbn [set_scan engine inited snd]; try done. eapply trace_snoc; [apply Hs |]. rewrite Hn. constructor.
Qed.

Lemma rnd_init_step dbug h scan r h' : in_step h -> ha_rnd_init dbug h scan = Some (r, h') -> in_step h' /\ (dbug = false -> r = 0 -> inited h' = RND).
Proof using.
  intros Hs. unfold ha_rnd_init. destruct dbug; [by intros [= _ <-] |]. intros Hc.
  assert (Hok : inited h = NONE \/ (inited h = RND /\ scan = true)) by (destruct (inited h), scan; cbn in Hc; tauto || done).
  destruct (negb _) eqn:Eb in Hc; [done |]. clear Eb. cbn [rnd_init traced] in Hc.
  destruct (rnd_init (engine h).1 scan) as [result e]. injection Hc as <- <-. destruct (Z.eqb_spec result 0) as [-> | Hr]; cbn [negb].
  - split; [| done]. split; cbn [set_scan engine inited snd]; [| done]. eapply trace_snoc; [apply Hs |]. destruct Hok as [-> | [-> ->]]; constructor.
  - split; [| done]. split; cbn [set_scan engine inited snd]; [| done]. eapply trace_snoc; [apply Hs |]. by constructor.
Qed.

Lemma rnd_end_step h r h' : in_step h -> ha_rnd_end h = Some (r, h') -> in_step h' /\ inited h' = NONE.
Proof using.
  intros Hs. unfold ha_rnd_end. case_bool_decide as Hn; [| done]. cbn [negb rnd_end traced]. destruct (rnd_end (engine h).1) as [result e].
  intros [= _ <-]. split; [split |]; cbn [set_scan engine inited snd]; try done. eapply trace_snoc; [apply Hs |]. rewrite Hn. constructor.
Qed.

Lemma end_any_step h r h' : in_step h -> ha_index_or_rnd_end h = Some (r, h') -> in_step h' /\ inited h' = NONE.
Proof using.
  intros Hs. unfold ha_index_or_rnd_end. destruct (inited h) eqn:En; [by intros [= _ <-] | by apply index_end_step | by apply rnd_end_step].
Qed.

Lemma pos_by_record_step dbug h rec r h' : in_step h -> rnd_pos_by_record dbug h rec = Some (r, h') -> in_step h'.
Proof using.
  intros Hs. unfold rnd_pos_by_record. destruct (_ =? 0); [done |].
  destruct (ha_rnd_init dbug h false) as [[r1 h1] |] eqn:E1; [| done]. cbn [mbind option_bind]. apply rnd_init_step in E1 as [Hs1 _]; [| done].
  destruct (Z.eqb_spec r1 0); cbn [negb]; [| by intros [= _ <-]]. cbn [position ha_rnd_pos traced fst snd].
  destruct (ha_rnd_pos (position (engine h1).1 rec) rec) as [r2 e2].
  set (h2 := set_scan h1 (e2, (engine h1).2) (inited h1) (active_index h1) (end_range h1)).
  destruct (ha_rnd_end h2) as [[r3 h3] |] eqn:E3; [| done]. intros [= _ <-]. apply rnd_end_step in E3; [tauto |]. by apply (in_step_same h1).
Qed.

Lemma run_call_step dbug h c r h' : in_step h -> run_call dbug h c = Some (r, h') -> in_step h'.
Proof using.
  intros Hs. destruct c; cbn [run_call].
  - by apply index_init_step.
  - by intros [? _]%index_end_step.
  - by intros [? _]%rnd_init_step.
  - by intros [? _]%rnd_end_step.
  - by intros [? _]%end_any_step.
  - by apply pos_by_record_step.
  - unfold ha_pre_index_init. destruct (negb _); [done |]. cbn. destruct (pre_index_init _ _ _). intros [= _ <-]. by apply (in_step_same h).
  - unfold ha_pre_index_end. destruct (negb _); [done |]. cbn. destruct (pre_index_end _). intros [= _ <-]. by apply (in_step_same h).
  - unfold ha_pre_rnd_init. destruct (negb _); [done |]. cbn. destruct (pre_rnd_init _ _). intros [= _ <-]. by apply (in_step_same h).
  - unfold ha_pre_rnd_end. destruct (negb _); [done |]. cbn. destruct (pre_rnd_end _). intros [= _ <-]. by apply (in_step_same h).
  - unfold ha_pre_index_or_rnd_end, ha_pre_index_end, ha_pre_rnd_end. destruct (pre_inited h); cbn.
    + by intros [= _ <-].
    + destruct (pre_index_end _). intros [= _ <-]. by apply (in_step_same h).
    + destruct (pre_rnd_end _). intros [= _ <-]. by apply (in_step_same h).
  - unfold ha_start_keyread. destruct (keyread_enabled h); cbn; [intros [= _ <-]; by apply (in_step_same h) |].
    destruct (extra_opt _ _ _). intros [= _ <-]. by apply (in_step_same h).
  - unfold ha_end_keyread. destruct (negb _); [by intros [= _ <-] |]. cbn. destruct (extra _ _). intros [= _ <-]. by apply (in_step_same h).
Qed.

Lemma run_calls_step cs : forall h rs h', in_step h -> run_calls h cs = Some (rs, h') -> in_step h'.
Proof using.
  induction cs as [| [dbug c] cs IH]; intros h rs h' Hs; cbn [run_calls]; [by intros [= _ <-] |].
  destruct (run_call dbug h c) as [[r h1] |] eqn:En; [| done]. cbn [mbind option_bind].
  destruct (run_calls h1 cs) as [[rs1 h2] |] eqn:E2; [| done]. intros [= _ <-]. by eapply IH, E2; eapply run_call_step, En.
Qed.

(** A call changes the lock only in code that is compiled elsewhere. *)
Lemma end_any_ok (h : thandler) : exists r h', ha_index_or_rnd_end h = Some (r, h') /\ m_lock_unlocked h' = m_lock_unlocked h.
Proof using.
  unfold ha_index_or_rnd_end, ha_index_end, ha_rnd_end. destruct (inited h) eqn:En; cbn; [by eexists _, _ | |].
  - destruct (index_end (engine h).1). by eexists _, _.
  - destruct (rnd_end (engine h).1). by eexists _, _.
Qed.
End trace.

(** C37: whatever engine a new handler is for and whatever its users call, as long as no
    assertion failed the engine has received its scan calls in the order it may rely on: one
    cursor at a time, ended exactly when its initialisation succeeded, initialised twice in a
    row only for a full scan; [get_index] is the index of the open index scan.  From every
    state reached so, [ha_index_or_rnd_end] closes the scan, so that the handler can be
    destroyed; and any further call has a result exactly when the scans that are open and
    prepared allow it. *)
Theorem scans_can_always_end {E} `{StorageEngine E} (e : E) flags cs rs (h : handler (E * list event)) :
  run_calls (mk_handler (e, []) flags) cs = Some (rs, h) ->
  engine_trace NONE (engine h).2 (inited h) /\
  (inited h = INDEX -> exists es sorted, (engine h).2 = es ++ [IndexInit (get_index h) sorted 0]) /\
  (exists r h', ha_index_or_rnd_end h = Some (r, h') /\ inited h' = NONE /\ engine_trace NONE (engine h').2 NONE /\
     (m_lock_unlocked h = true -> destroy h' = Some tt)) /\
  forall dbug c, is_Some (run_call dbug h c) <-> allowed (inited h) (pre_inited h) (by_pk h) dbug c = true.
Proof.
  intros Hrun. assert (Hs : in_step h) by (eapply run_calls_step, Hrun; split; [constructor | done]).
  split; [apply Hs |]. split; [| split; [| intros; apply call_allowed]].
  - intros Hi. destruct (is_index h Hs Hi) as (es & sorted & Ht). exists es, sorted. rewrite Ht. unfold get_index. by rewrite bool_decide_eq_true_2.
  - destruct (end_any_ok h) as (r & h' & Hend & Hlock). destruct (end_any_step h r h' Hs Hend) as [Hs' Hn].
    exists r, h'. split; [done |]. split; [done |]. split; [pose proof (is_trace _ Hs') as Ht; by rewrite Hn in Ht |]. intros Hl. unfold destroy. by rewrite Hlock, Hl, Hn.
Qed.

(** An engine for the examples: its state is the number of calls; initialisations fail every third time. *)
#[export] Instance demo_engine : StorageEngine Z := {|
  index_init e _ _ := (if e mod 3 =? 2 then 122 else 0, e + 1); index_end e := (0, e + 1);
  rnd_init e _ := (if e mod 3 =? 2 then 122 else 0, e + 1); rnd_end e := (0, e + 1);
  pre_index_init e _ _ := (0, e); pre_index_end e := (0, e); pre_rnd_init e _ := (0, e); pre_rnd_end e := (0, e);
  extra e _ := (0, e); extra_opt e _ _ := (0, e); position e _ := e; ha_rnd_pos e _ := (0, e);
  delete_all_rows e := (0, e); reset_auto_increment e _ := (0, e); start_bulk_insert e _ _ := e; end_bulk_insert e := (0, e);
  mark_trx_read_write_internal e := e; table_flags _ := HA_PRIMARY_KEY_REQUIRED_FOR_POSITION; index_flags _ _ _ _ := 0;
  max_supported_record_length _ := 70000; max_supported_keys _ := 70; max_supported_key_parts _ := 16;
  max_supported_key_length _ := 1000; max_supported_key_part_length _ := 255 |}.

Definition demo_calls : list (bool * call) :=
  [(false, CRndPosByRecord 5); (false, CIndexInit 3 true); (true, CRndInit true); (false, CRndInit true); (false, CStartKeyread 2); (false, CRndInit true)].

Lemma scans_can_always_end_witness : exists h : handler (Z * list event), run_calls (mk_handler (0, []) 0) demo_calls = Some ([0; 122; 159; 0; 0; 0], h) /\
  engine_trace NONE [RndInit false 0; RndEnd; IndexInit 3 true 122; RndInit true 0; RndInit true 0] RND /\ exists r h', ha_index_or_rnd_end h = Some (r, h').
Proof.
  eassert (Hr : run_calls (mk_handler (0, []) 0) demo_calls = Some ([0; 122; 159; 0; 0; 0], _)) by (vm_compute; reflexivity).
  eexists. split; [exact Hr |].
  destruct (scans_can_always_end 0 0 demo_calls _ _ Hr) as (Ht & _ & (r & h' & Hend & _) & _). split; [exact Ht |]. exists r, h'. exact Hend.
Defined.

(** [store_auto_increment] before a row and [restore_auto_increment] after a failed attempt
    bring [next_insert_id] back, whatever values were generated in between, unless it was still
    0: then the value generated for the failed first row, if any, is used again; restoring
    twice is restoring once, and the scan and the engine are not touched. *)
Theorem auto_increment_restored {E} `{StorageEngine E} (h : handler E) next cur :
  0 <= next_insert_id h -> 0 <= cur ->
  let failed := set_ids (store_auto_increment h) next cur (m_prev_insert_id (store_auto_increment h)) in
  let h' := restore_auto_increment failed in
  (0 < next_insert_id h -> next_insert_id h' = next_insert_id h) /\ (next_insert_id h = 0 -> next_insert_id h' = cur) /\
  restore_auto_increment h' = h' /\ engine h' = engine h /\ inited h' = inited h.
Proof.
  intros Hn Hc. cbn. destruct (Z.ltb_spec 0 (next_insert_id h)) as [Hp | Hz].
  - split; [done |]. split; [lia |]. split; [| done]. unfold restore_auto_increment, restore_auto_increment_to. cbn. by rewrite (proj2 (Z.ltb_lt _ _) Hp).
  - split; [lia |]. split; [done |]. split; [| done]. unfold restore_auto_increment, restore_auto_increment_to. cbn. by rewrite (proj2 (Z.ltb_ge _ _) Hz).
Qed.

Lemma auto_increment_restored_witness :
  next_insert_id (restore_auto_increment (set_ids (store_auto_increment (set_next_insert_id (mk_handler 0 0) 7)) 9 8 7)) = 7.
Proof. apply (auto_increment_restored (set_next_insert_id (mk_handler 0 0) 7) 9 8); cbn; lia. Defined.

(** The limits an engine reports are never used beyond those of the server. *)
Lemma limits_bounded {E} `{StorageEngine E} (h : handler E) :
  max_record_length h <= HA_MAX_REC_LENGTH /\ max_keys h <= MAX_KEY /\ max_key_parts h <= MAX_REF_PARTS /\
  max_key_length h <= MAX_DATA_LENGTH_FOR_KEY /\ max_key_part_length h <= MAX_DATA_LENGTH_FOR_KEY.
Proof. unfold max_record_length, max_keys, max_key_parts, max_key_length, max_key_part_length. lia. Qed.

(** Which errors a statement may ignore. *)
Lemma is_fatal_error_spec error flags :
  is_fatal_error error flags = false <->
  error = 0 \/ error = HA_ERR_AUTOINC_ERANGE \/
  (Z.testbit flags 0 = true /\ (error = HA_ERR_FOUND_DUPP_KEY \/ error = HA_ERR_FOUND_DUPP_UNIQUE)) \/
  (Z.testbit flags 2 = true /\ (error = HA_ERR_ROW_IS_REFERENCED \/ error = HA_ERR_NO_REFERENCED_ROW)).
Proof.
  assert (HB : forall k, 0 <= k -> negb (Z.land flags (2 ^ k) =? 0) = Z.testbit flags k).
  { intros k Hk. destruct (Z.testbit flags k) eqn:Eb.
    - apply negb_true_iff, Z.eqb_neq. intros E0. apply (f_equal (fun z => Z.testbit z k)) in E0.
      rewrite Z.land_spec, Z.pow2_bits_true, Eb, Z.bits_0 in E0 by lia. done.
    - apply negb_false_iff, Z.eqb_eq. apply Z.bits_inj_0. intros i. rewrite Z.land_spec.
      destruct (decide (i = k)) as [-> |]; [by rewrite Eb | by rewrite Z.pow2_bits_false, andb_false_r by lia]. }
  unfold is_fatal_error. change HA_CHECK_DUP_KEY with (2 ^ 0). change HA_CHECK_FK_ERROR with (2 ^ 2). rewrite !HB by lia.
  destruct (Z.testbit flags 0), (Z.testbit flags 2); cbn [andb]; rewrite ?orb_false_r;
    repeat match goal with |- context [?a =? ?b] => destruct (Z.eqb_spec a b) end; cbn; intuition congruence.
Qed.
