(* ===== verification/IntervalList.v ===== *)
(** * IntervalList: auto-increment intervals and LAST_INSERT_ID ([structs.h], [sql_class.h])

    A statement that generates auto-increment values reserves them in intervals.
    The list of the reserved intervals goes to the binary log; the list of forced
    ones comes from there (or from SET INSERT_ID) and is consumed by the statement.
    An interval knows its first value, how many values it has and the value behind
    the last; the increment is known to the users of the class.

    Objects are at addresses, 0 is NULL; a freed object is gone.  [append] is
    compiled elsewhere: the class [IntervalsAppend] has the two laws that the
    inline code and its users rely on. *)

From stdpp Require Import base numbers list gmap.
From Stdlib Require Import ZArith Lia.
From S2P Require Import Prelude.

Local Open Scope Z_scope.

(* [my_global.h:812-812 ULONGLONG_MAX] *)
Definition ULONGLONG_MAX : Z := 2 ^ 64 - 1.

(** ** Discrete_interval *)

(* [structs.h:393-399 Discrete_interval] *)
Record Discrete_interval := Interval { interval_min : Z; interval_values : Z; interval_max : Z; next : Z }.

(* [structs.h:400-405 replace] *)
Definition replace (i : Discrete_interval) (start val incr : Z) : Discrete_interval :=
  Interval start val (if val =? ULONGLONG_MAX then val else u64 (start + u64 (val * incr))) (next i).
(* [structs.h:406-407 Discrete_interval(start, val, incr)] *)
Definition mk_interval (start val incr : Z) : Discrete_interval := replace (Interval 0 0 0 0) start val incr.
(* [structs.h:408-408 Discrete_interval()] *)
Definition mk_empty_interval : Discrete_interval := replace (Interval 0 0 0 0) 0 0 0.
(* [structs.h:409-409 Discrete_interval::minimum] *)
Definition minimum (i : Discrete_interval) : Z := interval_min i.
(* [structs.h:410-410 values] *)
Definition values (i : Discrete_interval) : Z := interval_values i.
(* [structs.h:411-411 Discrete_interval::maximum] *)
Definition maximum (i : Discrete_interval) : Z := interval_max i.
(* [structs.h:417-433 merge_if_contiguous] *)
Definition merge_if_contiguous (i : Discrete_interval) (start val incr : Z) : bool * Discrete_interval :=
  if interval_max i =? start then
    (false,
     if val =? ULONGLONG_MAX then Interval (interval_min i) val val (next i)
     else Interval (interval_min i) (u64 (interval_values i + val)) (u64 (start + u64 (val * incr))) (next i))
  else (true, i).

(** ** Discrete_intervals_list *)

Abbreviation intervals := (gmap Z Discrete_interval).

(* [structs.h:437-448 Discrete_intervals_list] *)
Record Discrete_intervals_list := Ilist { head : Z; tail : Z; current : Z; elements : Z }.

(* [structs.h:449-456 set_members] *)
Definition set_members (h t c el : Z) : Discrete_intervals_list := Ilist h t c el.
(** [tail] is left as it was in memory. *)
(* [structs.h:461-461 Discrete_intervals_list()] *)
Definition mk_list (junk : Z) : Discrete_intervals_list := Ilist 0 junk 0 0.
(* [structs.h:462-465 empty_no_free] *)
Definition empty_no_free (l : Discrete_intervals_list) : Discrete_intervals_list := set_members 0 0 0 0.
(** The loop of [empty] from [i] on: the objects are deleted one after the other. *)
(* [structs.h:468-473 empty: loop] *)
Fixpoint delete_from (fuel : nat) (st : intervals) (i : Z) : option intervals :=
  match fuel with
  | O => None
  | S fuel => if i =? 0 then Some st else n ← st !! i; delete_from fuel (delete i st) (next n)
  end.
(* [structs.h:466-475 empty] *)
Definition empty (fuel : nat) (st : intervals) (l : Discrete_intervals_list) : option (intervals * Discrete_intervals_list) :=
  st ← delete_from fuel st (head l); Some (st, empty_no_free l).
(* [structs.h:501-501 ~Discrete_intervals_list] *)
Definition destroy (fuel : nat) (st : intervals) (l : Discrete_intervals_list) : option intervals := fst <$> empty fuel st l.
(* [structs.h:509-509 get_current] *)
Definition get_current (l : Discrete_intervals_list) : Z := current l.
(* [structs.h:476-482 copy_shallow] *)
Definition copy_shallow (l dli : Discrete_intervals_list) : Discrete_intervals_list := Ilist (head dli) (tail dli) (get_current dli) (elements dli).
(* [structs.h:483-493 swap] *)
Definition swap (this dli : Discrete_intervals_list) : Discrete_intervals_list * Discrete_intervals_list :=
  let h := head dli in let t := tail dli in let c := get_current dli in let el := elements dli in
  let dli := copy_shallow dli this in (set_members h t c el, dli).
(* [structs.h:494-500 get_next] *)
Definition get_next (st : intervals) (l : Discrete_intervals_list) : option (Z * Discrete_intervals_list) :=
  let tmp := current l in
  if negb (current l =? 0) then n ← st !! current l; Some (tmp, Ilist (head l) (tail l) (next n) (elements l)) else Some (tmp, l).
(* [structs.h:504-504 Discrete_intervals_list::minimum] *)
Definition list_minimum (st : intervals) (l : Discrete_intervals_list) : option Z :=
  if negb (head l =? 0) then i ← st !! head l; Some (minimum i) else Some 0.
(* [structs.h:505-505 Discrete_intervals_list::maximum] *)
Definition list_maximum (st : intervals) (l : Discrete_intervals_list) : option Z :=
  if negb (head l =? 0) then i ← st !! tail l; Some (maximum i) else Some 0.

(** ** Intervals as sets of values *)

(** The values that an interval stands for. *)
Definition in_interval (incr : Z) (i : Discrete_interval) (x : Z) : Prop := exists k, 0 <= k < interval_values i /\ x = interval_min i + k * incr.

(** A finite interval: the value behind the last is the redundant bound. *)
Record interval_ok (incr : Z) (i : Discrete_interval) : Prop := {
  io_min : 0 <= interval_min i;
  io_values : 0 <= interval_values i < ULONGLONG_MAX;
  io_max : interval_max i = interval_min i + interval_values i * incr;
  io_word : interval_max i < 2 ^ 64 }.

Lemma mk_interval_ok start val incr : 0 <= start -> 0 <= val < ULONGLONG_MAX -> 0 <= incr -> start + val * incr < 2 ^ 64 ->
  interval_ok incr (mk_interval start val incr) /\ interval_max (mk_interval start val incr) = start + val * incr.
Proof.
  intros Hs Hv Hi Hb. unfold mk_interval, replace. assert (H0 : 0 <= val * incr) by nia.
  destruct (Z.eqb_spec val ULONGLONG_MAX); [lia |]. rewrite (u64_small (val * incr)), u64_small by lia. split; [split; cbn; lia | done].
Qed.

(** Merging a finite interval: the union of the values when the new one starts where the old one ends. *)
Lemma merge_ok incr i start val : interval_ok incr i -> 0 <= val < ULONGLONG_MAX -> 0 < incr -> 0 <= start -> start + val * incr < 2 ^ 64 ->
  interval_values i + val < ULONGLONG_MAX ->
  let '(failed, j) := merge_if_contiguous i start val incr in
  failed = negb (start =? interval_max i) /\ next j = next i /\
  (failed = true -> j = i) /\
  (failed = false -> interval_ok incr j /\ interval_max j = start + val * incr /\ interval_min j = interval_min i /\
     forall x, in_interval incr j x <-> in_interval incr i x \/ in_interval incr (mk_interval start val incr) x).
Proof.
  intros [Hm Hv Hx Hw] Hval Hi Hs Hb Hsum. unfold merge_if_contiguous. rewrite (Z.eqb_sym start). destruct (Z.eqb_spec (interval_max i) start) as [<- |]; [| done].
  cbn [negb]. destruct (Z.eqb_spec val ULONGLONG_MAX); [lia |]. rewrite (u64_small (val * incr)), !u64_small by nia. split; [done |]. split; [done |]. split; [done |]. intros _.
  split; [split; cbn; nia |]. split; [done |]. split; [done |]. intros x. unfold in_interval, mk_interval, replace. cbn [interval_values interval_min].
  split.
  - intros (k & Hk & ->). destruct (decide (k < interval_values i)); [left; exists k; lia | right; exists (k - interval_values i)]. split; [lia | rewrite Hx; ring].
  - intros [(k & Hk & ->) | (k & Hk & ->)]; [exists k; lia | exists (interval_values i + k)]. split; [lia | rewrite Hx; ring].
Qed.

(** ** The list *)

(** The objects [ls] are chained from [p] on. *)
Fixpoint chained (st : intervals) (p : Z) (ls : list Z) : Prop :=
  match ls with
  | [] => p = 0
  | a :: ls => p = a /\ a <> 0 /\ exists i, st !! a = Some i /\ chained st (next i) ls
  end.

(** The list has these objects; the first [done_] of them have been consumed. *)
Record list_ok (st : intervals) (l : Discrete_intervals_list) (used rest : list Z) : Prop := {
  lk_chain : chained st (head l) (used ++ rest);
  lk_nodup : NoDup (used ++ rest);
  lk_tail : forall a, last (used ++ rest) = Some a -> tail l = a;
  lk_current : current l = default 0 (list.head rest);
  lk_count : elements l = Z.of_nat (length (used ++ rest)) }.

Lemma chained_frame st st' p ls : (forall a, a ∈ ls -> st' !! a = st !! a) -> chained st p ls -> chained st' p ls.
Proof.
  revert p. induction ls as [| a ls IH]; intros p Hf; [done |]. cbn [chained]. intros (-> & H & i & E & Hc). do 2 (split; [done |]).
  exists i. rewrite Hf by left. split; [done |]. apply IH; [| done]. intros b Hb. apply Hf. by right.
Qed.

Lemma chained_app st p ls1 ls2 : chained st p (ls1 ++ ls2) -> exists q, chained st q ls2 /\ (forall a ls, ls1 = ls ++ [a] -> (next <$> st !! a) = Some q) /\ (ls1 = [] -> p = q).
Proof.
  revert p. induction ls1 as [| a ls1 IH]; intros p; cbn [app chained]; [intros H; exists p; split; [done | split; [by intros a [] | done]] |].
  intros (-> & Ha & i & E & Hc). destruct (IH _ Hc) as (q & Hq & H1 & H2). exists q. split; [done |]. split; [| done].
  intros b [| c ls] [= -> E2].
  - rewrite E. cbn. f_equal. by apply H2.
  - by eapply H1.
Qed.

Lemma delete_from_ok ls : forall st p fuel, chained st p ls -> NoDup ls -> (length ls < fuel)%nat ->
  exists st', delete_from fuel st p = Some st' /\ forall x, st' !! x = if decide (x ∈ ls) then None else st !! x.
Proof.
  induction ls as [| a ls IH]; intros st p [| fuel] Hc Hn Hf; cbn [length] in Hf; [lia | | lia |]; cbn [delete_from chained] in *.
  - subst p. exists st. split; [done |]. intros x. by rewrite decide_False by by intros ?%elem_of_nil.
  - destruct Hc as (-> & Ha & i & E & Hc). apply NoDup_cons in Hn as [Hna Hn]. rewrite (proj2 (Z.eqb_neq a 0) Ha), E. cbn [mbind option_bind].
    destruct (IH (delete a st) (next i) fuel) as (st' & -> & H); [| done | lia |].
    { eapply chained_frame; [| done]. intros b Hb. apply lookup_delete_ne. by intros ->. }
    exists st'. split; [done |]. intros x. rewrite H. destruct (decide (x = a)) as [-> | Hx].
    + rewrite (decide_True (P := a ∈ a :: ls)) by left. by rewrite decide_False, lookup_delete_eq by done.
    + rewrite lookup_delete_ne by done. destruct (decide (x ∈ ls)); [by rewrite decide_True by by right |]. rewrite decide_False; [done |].
      by intros [? | ?]%elem_of_cons.
Qed.

Lemma get_next_ok st l used a rest : list_ok st l used (a :: rest) ->
  exists l', get_next st l = Some (a, l') /\ list_ok st l' (used ++ [a]) rest.
Proof.
  intros [Hc Hn Ht Hcur Hcnt]. cbn in Hcur. unfold get_next. pose proof Hc as Hc'. apply chained_app in Hc' as (q & Hq & _).
  cbn [chained] in Hq. destruct Hq as (-> & Ha & i & E & Hrest). rewrite Hcur, (proj2 (Z.eqb_neq a 0) Ha). cbn [negb]. rewrite E. cbn [mbind option_bind].
  eexists. split; [reflexivity |]. split; cbn [head tail current elements]; rewrite <- ?app_assoc; try done.
  destruct rest as [| b rest]; cbn [chained] in Hrest; [done | by destruct Hrest].
Qed.

Lemma get_next_end st l used : list_ok st l used [] -> get_next st l = Some (0, l).
Proof. intros [_ _ _ Hcur _]. unfold get_next. cbn in Hcur. by rewrite Hcur. Qed.

Fixpoint take_next (st : intervals) (l : Discrete_intervals_list) (n : nat) : option (list Z * Discrete_intervals_list) :=
  match n with O => Some ([], l) | S n => '(a, l) ← get_next st l; '(ls, l) ← take_next st l n; Some (a :: ls, l) end.

Lemma take_next_ok st rest : forall l used, list_ok st l used rest -> exists l', take_next st l (length rest) = Some (rest, l') /\ list_ok st l' (used ++ rest) [].
Proof.
  induction rest as [| a rest IH]; intros l used Hl; [exists l; by rewrite app_nil_r |]. cbn [length take_next].
  destruct (get_next_ok st l used a rest Hl) as (l1 & -> & Hl1). cbn [mbind option_bind].
  destruct (IH l1 (used ++ [a]) Hl1) as (l2 & -> & Hl2). cbn [mbind option_bind]. exists l2. rewrite <- app_assoc in Hl2. done.
Qed.

(** merging an interval with the values that follow it is exact: it succeeds only when the
    new values start at the bound of the old ones, then the result stands for both sets of
    values (whatever the increment), its bound is again exact and its place in a list is kept;
    otherwise the interval is unchanged and the caller is told. *)
Theorem merge_is_union incr i start val : interval_ok incr i -> 0 <= val < ULONGLONG_MAX -> 0 < incr -> 0 <= start -> start + val * incr < 2 ^ 64 ->
  interval_values i + val < ULONGLONG_MAX ->
  (merge_if_contiguous i start val incr).1 = negb (start =? interval_max i) /\ next (merge_if_contiguous i start val incr).2 = next i /\
  (start <> interval_max i -> (merge_if_contiguous i start val incr).2 = i) /\
  (start = interval_max i -> interval_ok incr (merge_if_contiguous i start val incr).2 /\
     forall x, in_interval incr (merge_if_contiguous i start val incr).2 x <-> in_interval incr i x \/ in_interval incr (mk_interval start val incr) x).
Proof.
  intros H1 H2 H3 H4 H5 H6. pose proof (merge_ok incr i start val H1 H2 H3 H4 H5 H6) as H. destruct (merge_if_contiguous i start val incr) as [failed j].
  cbn [fst snd]. destruct H as (-> & Hn & Hf & Ht). split; [done |]. split; [done |]. split.
  - intros Hne. apply Hf. by rewrite (proj2 (Z.eqb_neq _ _) Hne).
  - intros ->. rewrite Z.eqb_refl in Ht. destruct (Ht eq_refl) as (Ho & _ & _ & Hx). done.
Qed.

Lemma merge_is_union_witness : in_interval 10 (merge_if_contiguous (mk_interval 1 2 10) 21 3 10).2 31.
Proof.
  destruct (merge_is_union 10 (mk_interval 1 2 10) 21 3) as (_ & _ & _ & H); [by apply mk_interval_ok | done | done | done | done | done |].
  apply (proj2 (H eq_refl)). right. exists 1. split; [by vm_compute | done].
Defined.

Lemma head_chained st p ls : chained st p ls -> p = default 0 (list.head ls).
Proof. destruct ls; cbn [chained]; [done | by intros []]. Qed.

(** taking intervals from a list until it gives NULL visits each of them once, in order, and
    from then on it only gives NULL; [minimum] and [maximum] are the first value of the first
    interval and the bound of the last; [swap] exchanges two lists; [empty] (and with it the
    destructor) terminates, frees exactly the objects of the list, each once, and leaves a
    list that can be used again. *)
Theorem interval_list_life st l used rest l2 used2 rest2 fuel :
  list_ok st l used rest -> list_ok st l2 used2 rest2 -> (length (used ++ rest) < fuel)%nat ->
  (exists l', take_next st l (length rest) = Some (rest, l') /\ list_ok st l' (used ++ rest) [] /\ get_next st l' = Some (0, l')) /\
  (forall a b i j, list.head (used ++ rest) = Some a -> st !! a = Some i -> last (used ++ rest) = Some b -> st !! b = Some j ->
     list_minimum st l = Some (interval_min i) /\ list_maximum st l = Some (interval_max j)) /\
  (list_ok st (swap l l2).1 used2 rest2 /\ list_ok st (swap l l2).2 used rest) /\
  exists st' l', empty fuel st l = Some (st', l') /\ list_ok st' l' [] [] /\
    forall x, st' !! x = if decide (x ∈ used ++ rest) then None else st !! x.
Proof.
  intros Hl Hl2 Hf. split; [| split; [| split]].
  - destruct (take_next_ok st rest l used Hl) as (l' & E & Hl'). exists l'. split; [done |]. split; [done |]. by eapply get_next_end.
  - intros a b i j Ha Ei Hb Ej. pose proof Hl as [Hc _ Ht _ _]. unfold list_minimum, list_maximum.
    rewrite (head_chained _ _ _ Hc), (Ht b Hb), Ha. cbn [default from_option id]. rewrite Ei, Ej.
    destruct (used ++ rest) as [| a' ls]; [done |]. injection Ha as ->. destruct Hc as (_ & Hne & _). cbn. by rewrite (proj2 (Z.eqb_neq a 0) Hne).
  - unfold swap, copy_shallow, set_members, get_current. destruct l, l2. done.
  - pose proof Hl as [Hc Hn _ _ _]. destruct (delete_from_ok _ st (head l) fuel Hc Hn Hf) as (st' & E & Hst). unfold empty. rewrite E. cbn [mbind option_bind].
    eexists _, _. split; [reflexivity |]. split; [split; done || apply NoDup_nil_2 | done].
Qed.

Definition demo_intervals : intervals := {[ 10 := Interval 1 2 3 20; 20 := Interval 7 3 10 30; 30 := Interval 50 1 51 0 ]}.
Definition demo_list : Discrete_intervals_list := Ilist 10 30 10 3.

Lemma demo_list_ok : list_ok demo_intervals demo_list [] [10; 20; 30].
Proof.
  split; [| compute_done | by intros a [= <-] | done | done]. cbn [app chained]. repeat (split; [done |]; split; [done |]; eexists; split; [by vm_compute |]). done.
Qed.

Lemma interval_list_life_witness : (fst <$> take_next demo_intervals demo_list 3) = Some [10; 20; 30] /\
  list_maximum demo_intervals demo_list = Some 51 /\ exists st' l', empty 4 demo_intervals demo_list = Some (st', l') /\ st' !! 20 = None.
Proof.
  destruct (interval_list_life demo_intervals demo_list [] [10; 20; 30] (mk_list 0) [] [] 4 demo_list_ok) as ((l' & E & _) & Hm & _ & (st' & l2 & E2 & _ & Hst)).
  - split; done || apply NoDup_nil_2.
  - cbn. lia.
  - split; [change 3%nat with (length [10; 20; 30]); by rewrite E |]. split; [by apply (Hm 10 30 (Interval 1 2 3 20) (Interval 50 1 51 0)) |]. exists st', l2. split; [exact E2 |]. by rewrite Hst.
Defined.

(** ** LAST_INSERT_ID in a statement *)

(* [sql_class.h:2789-2848 THD] *)
Record insert_ids := Ids {
  first_successful_insert_id_in_prev_stmt : Z; first_successful_insert_id_in_prev_stmt_for_binlog : Z;
  first_successful_insert_id_in_cur_stmt : Z; stmt_depends_on_first_successful_insert_id_in_prev_stmt : bool;
  auto_inc_intervals_forced : Discrete_intervals_list }.

(* [sql_class.h:2885-2889 record_first_successful_insert_id_in_cur_stmt] *)
Definition record_first_successful_insert_id_in_cur_stmt (t : insert_ids) (id_arg : Z) : insert_ids :=
  if first_successful_insert_id_in_cur_stmt t =? 0 then
    Ids (first_successful_insert_id_in_prev_stmt t) (first_successful_insert_id_in_prev_stmt_for_binlog t) id_arg
      (stmt_depends_on_first_successful_insert_id_in_prev_stmt t) (auto_inc_intervals_forced t)
  else t.
(* [sql_class.h:2890-2900 read_first_successful_insert_id_in_prev_stmt] *)
Definition read_first_successful_insert_id_in_prev_stmt (t : insert_ids) : Z * insert_ids :=
  let t :=
    if negb (stmt_depends_on_first_successful_insert_id_in_prev_stmt t) then
      Ids (first_successful_insert_id_in_prev_stmt t) (first_successful_insert_id_in_prev_stmt t) (first_successful_insert_id_in_cur_stmt t) true
        (auto_inc_intervals_forced t)
    else t in
  (first_successful_insert_id_in_prev_stmt t, t).

(** [append] gives whether it failed, the objects and the list.  On an empty list a
    successful call makes a list of one new interval. *)
Class IntervalsAppend := {
  append : intervals -> Discrete_intervals_list -> Z -> Z -> Z -> bool * intervals * Discrete_intervals_list;
  append_empty st l start val incr st' l' : list_ok st l [] [] -> append st l start val incr = (false, st', l') ->
    exists a i, list_ok st' l' [] [a] /\ st' !! a = Some i /\ i = mk_interval start val incr /\ forall x, x <> a -> st' !! x = st !! x
}.

(* [sql_class.h:2906-2910 force_one_auto_inc_interval] *)
Definition force_one_auto_inc_interval `{IntervalsAppend} (fuel : nat) (st : intervals) (t : insert_ids) (next_id : Z) : option (intervals * insert_ids) :=
  '(st, l) ← empty fuel st (auto_inc_intervals_forced t);
  let '(_, st, l) := append st l next_id ULONGLONG_MAX 0 in
  Some (st, Ids (first_successful_insert_id_in_prev_stmt t) (first_successful_insert_id_in_prev_stmt_for_binlog t) (first_successful_insert_id_in_cur_stmt t)
    (stmt_depends_on_first_successful_insert_id_in_prev_stmt t) l).

(** What happens to the identifiers during a statement: a row with a generated value
    was inserted, LAST_INSERT_ID() was read, or LAST_INSERT_ID was set. *)
Inductive id_event := Inserted (id : Z) | ReadLast | SetLast (id : Z).

Definition id_step (t : insert_ids) (e : id_event) : insert_ids :=
  match e with
  | Inserted id => record_first_successful_insert_id_in_cur_stmt t id
  | ReadLast => (read_first_successful_insert_id_in_prev_stmt t).2
  | SetLast id => Ids id (first_successful_insert_id_in_prev_stmt_for_binlog t) (first_successful_insert_id_in_cur_stmt t)
      (stmt_depends_on_first_successful_insert_id_in_prev_stmt t) (auto_inc_intervals_forced t)
  end.

(** The first identifier that is not 0; the value of LAST_INSERT_ID when it is first read. *)
Definition first_id (es : list id_event) : Z :=
  default 0 (list.head (filter (fun id => id <> 0) (omap (fun e => match e with Inserted id => Some id | _ => None end) es))).
Fixpoint value_at_first_read (last_id : Z) (es : list id_event) : option Z :=
  match es with
  | [] => None
  | ReadLast :: _ => Some last_id
  | SetLast id :: es => value_at_first_read id es
  | Inserted _ :: es => value_at_first_read last_id es
  end.

(** at the end of a statement that started with nothing recorded, the identifier kept for
    the next statement is the first generated one (0 when there was none); the statement
    counts as depending on LAST_INSERT_ID exactly when it read it, and then the value for the
    binary log is the one of the first read, however it was set later. *)
Theorem insert_ids_of_statement t es :
  first_successful_insert_id_in_cur_stmt t = 0 -> stmt_depends_on_first_successful_insert_id_in_prev_stmt t = false ->
  let t' := foldl id_step t es in
  first_successful_insert_id_in_cur_stmt t' = first_id es /\
  stmt_depends_on_first_successful_insert_id_in_prev_stmt t' = bool_decide (is_Some (value_at_first_read (first_successful_insert_id_in_prev_stmt t) es)) /\
  first_successful_insert_id_in_prev_stmt_for_binlog t' =
    default (first_successful_insert_id_in_prev_stmt_for_binlog t) (value_at_first_read (first_successful_insert_id_in_prev_stmt t) es).
Proof.
  assert (Hcur : forall es t, first_successful_insert_id_in_cur_stmt (foldl id_step t es) =
    if first_successful_insert_id_in_cur_stmt t =? 0 then first_id es else first_successful_insert_id_in_cur_stmt t).
  { clear. induction es as [| e es IH]; intros t; cbn [foldl].
    - by destruct (Z.eqb_spec (first_successful_insert_id_in_cur_stmt t) 0) as [-> |].
    - rewrite IH. destruct e as [id | | id]; cbn [id_step].
      + unfold record_first_successful_insert_id_in_cur_stmt. destruct (Z.eqb_spec (first_successful_insert_id_in_cur_stmt t) 0) as [E |]; cbn [first_successful_insert_id_in_cur_stmt].
        * unfold first_id at 2. cbn [omap list_omap]. rewrite filter_cons. destruct (Z.eqb_spec id 0); case_decide; done.
        * by rewrite (proj2 (Z.eqb_neq _ _)).
      + unfold read_first_successful_insert_id_in_prev_stmt. cbn [snd]. by destruct (stmt_depends_on_first_successful_insert_id_in_prev_stmt t).
      + done. }
  assert (Hdep : forall es t, stmt_depends_on_first_successful_insert_id_in_prev_stmt t = true ->
    stmt_depends_on_first_successful_insert_id_in_prev_stmt (foldl id_step t es) = true /\
    first_successful_insert_id_in_prev_stmt_for_binlog (foldl id_step t es) = first_successful_insert_id_in_prev_stmt_for_binlog t).
  { clear. induction es as [| e es IH]; intros t Ht; [done |]. cbn [foldl]. destruct e as [id | | id]; cbn [id_step].
    - unfold record_first_successful_insert_id_in_cur_stmt. destruct (_ =? 0); [| by apply IH]. by apply (IH (Ids _ _ id _ _)).
    - unfold read_first_successful_insert_id_in_prev_stmt. cbn [snd]. rewrite Ht. by apply IH.
    - by apply (IH (Ids id _ _ _ _)). }
  intros Hc Hd. cbn zeta. split; [rewrite Hcur, Hc; done |]. clear Hc Hcur. revert t Hd. induction es as [| e es IH]; intros t Hd; [by rewrite bool_decide_eq_false_2 by by intros [? ?] |].
  cbn [foldl value_at_first_read]. destruct e as [id | | id]; cbn [id_step].
  - unfold record_first_successful_insert_id_in_cur_stmt. destruct (_ =? 0); [by apply (IH (Ids _ _ id _ _)) | by apply IH].
  - unfold read_first_successful_insert_id_in_prev_stmt. rewrite Hd. cbn [negb snd].
    destruct (Hdep es (Ids (first_successful_insert_id_in_prev_stmt t) (first_successful_insert_id_in_prev_stmt t) (first_successful_insert_id_in_cur_stmt t) true (auto_inc_intervals_forced t)) eq_refl) as [-> ->].
    by rewrite bool_decide_eq_true_2 by done.
  - by apply (IH (Ids id _ _ _ _)).
Qed.

Lemma insert_ids_of_statement_witness :
  let t' := foldl id_step (Ids 5 0 0 false (mk_list 0)) [Inserted 0; ReadLast; Inserted 8; SetLast 6; ReadLast; Inserted 9] in
  first_successful_insert_id_in_cur_stmt t' = 8 /\ first_successful_insert_id_in_prev_stmt_for_binlog t' = 5.
Proof.
  destruct (insert_ids_of_statement (Ids 5 0 0 false (mk_list 0)) [Inserted 0; ReadLast; Inserted 8; SetLast 6; ReadLast; Inserted 9] eq_refl eq_refl) as (H1 & _ & H3).
  split; [exact H1 | exact H3].
Defined.

(** SET INSERT_ID: the objects of the old list are gone and the forced list gives the one
    value, then NULL. *)
Lemma force_one_ok `{IntervalsAppend} fuel st t id used rest : list_ok st (auto_inc_intervals_forced t) used rest -> (length (used ++ rest) < fuel)%nat ->
  (forall st l, list_ok st l [] [] -> (append st l id ULONGLONG_MAX 0).1.1 = false) ->
  exists st' t' a, force_one_auto_inc_interval fuel st t id = Some (st', t') /\ list_ok st' (auto_inc_intervals_forced t') [] [a] /\
    list_minimum st' (auto_inc_intervals_forced t') = Some id /\
    forall x, x <> a -> st' !! x = if decide (x ∈ used ++ rest) then None else st !! x.
Proof.
  intros Hl Hf Ha. unfold force_one_auto_inc_interval, empty. pose proof Hl as [Hc Hn _ _ _].
  destruct (delete_from_ok _ st _ fuel Hc Hn Hf) as (st1 & -> & Hst1). cbn [mbind option_bind].
  assert (Hempty : list_ok st1 (empty_no_free (auto_inc_intervals_forced t)) [] []) by (split; done || apply NoDup_nil_2).
  specialize (Ha st1 _ Hempty). destruct (append _ _ _ _ _) as [[err st2] l2] eqn:Eapp. cbn in Ha. subst err.
  destruct (append_empty _ _ _ _ _ _ _ Hempty Eapp) as (a & i & Hl2 & Ei & Hi & Hrest). eexists st2, _, a. split; [reflexivity |]. cbn [auto_inc_intervals_forced].
  split; [done |]. split; [| intros x Hx; by rewrite Hrest, Hst1].
  pose proof (lk_chain _ _ _ _ Hl2) as (Hh & Hne & _). unfold list_minimum. rewrite Hh, (proj2 (Z.eqb_neq a 0) Hne). cbn [negb].
  by rewrite Ei, Hi.
Qed.

(** An [append] for lists without objects: the new interval gets an unused address. *)
#[local] Program Instance append_fresh : IntervalsAppend := {
  append st l start val incr :=
    let a := fresh (dom st ∪ {[0]} : gset Z) in
    if head l =? 0 then (false, <[a := mk_interval start val incr]> st, Ilist a a a 1) else (true, st, l) }.
Next Obligation.
  intros st l start val incr st' l' Hl. cbn zeta beta. rewrite (lk_chain _ _ _ _ Hl : head l = 0). set (a := fresh (dom st ∪ {[0]} : gset Z)). cbn [Z.eqb]. intros [= <- <-].
  assert (Ha : a ∉ (dom st ∪ {[0]} : gset Z)) by apply is_fresh. exists a, (mk_interval start val incr). split; [| split; [by rewrite lookup_insert_eq | split; [done |]]].
  - split; [| apply NoDup_singleton | by intros b [= <-] | done | done]. cbn [app chained head]. split; [done |]. split; [set_solver |].
    eexists. split; [by rewrite lookup_insert_eq |]. unfold mk_interval, replace. done.
  - intros x Hx. by apply lookup_insert_ne.
Qed.

Example force_one_demo : (fun r => list_minimum r.1 (auto_inc_intervals_forced r.2)) <$>
  force_one_auto_inc_interval 5 demo_intervals (Ids 5 0 0 false demo_list) 77 = Some (Some 77).
Proof. vm_compute. reflexivity. Qed.
