(* ===== verification/SqlInt.v ===== *)
(** * SqlInt: integers that are signed or unsigned ([sql_type_int.h])

    A [Longlong_hybrid] keeps the 64 bits of the result of an SQL expression
    and a flag that says how to read them.  The machine value is a signed
    64-bit number [m_value]; its mathematical value [hybrid_value] reads it as
    unsigned when the flag is set.  Signed negation of the least value is
    undefined in C, and is [None] here. *)

From stdpp Require Import base numbers list.
From Stdlib Require Import ZArith Lia.
From S2P Require Import Prelude.

Local Open Scope Z_scope.

(** ** The classes *)

Definition LONGLONG_MIN : Z := - 2 ^ 63.
Definition LONGLONG_MAX : Z := 2 ^ 63 - 1.

(* [sql_type_int.h:20-27 Null_flag] *)
Record Null_flag := { is_null : bool }.

(* [sql_type_int.h:30-37 Longlong] *)
Record Longlong := { m_value : Z }.

(* [sql_type_int.h:40-46 Longlong_null] *)
Record Longlong_null := { null_value : Longlong; null_flag : Null_flag }.

(* [sql_type_int.h:43-45 Longlong_null::Longlong_null] *)
Definition mk_Longlong_null (nr : Z) (isnull : bool) : Longlong_null :=
  {| null_value := {| m_value := nr |}; null_flag := {| is_null := isnull |} |}.

(* [sql_type_int.h:50-66 Longlong_hybrid] *)
Record Longlong_hybrid := { base_value : Longlong; m_unsigned : bool }.

(* [sql_type_int.h:64-66 Longlong_hybrid::Longlong_hybrid] *)
Definition mk_Longlong_hybrid (nr : Z) (unsigned_flag : bool) : Longlong_hybrid :=
  {| base_value := {| m_value := nr |}; m_unsigned := unsigned_flag |}.

(* [sql_type_int.h:35-35 Longlong::value] *)
Definition value (l : Longlong) : Z := m_value l.

(* [sql_type_int.h:54-57 Longlong_hybrid::cmp_signed] *)
Definition cmp_signed (this other : Longlong_hybrid) : Z :=
  let v := m_value (base_value this) in let o := m_value (base_value other) in
  if v <? o then -1 else if v =? o then 0 else 1.

(* [sql_type_int.h:58-62 Longlong_hybrid::cmp_unsigned] *)
Definition cmp_unsigned (this other : Longlong_hybrid) : Z :=
  let v := m_value (base_value this) in let o := m_value (base_value other) in
  if u64 v <? u64 o then -1 else if v =? o then 0 else 1.

(* [sql_type_int.h:67-67 Longlong_hybrid::is_unsigned] *)
Definition is_unsigned (h : Longlong_hybrid) : bool := m_unsigned h.

(* [sql_type_int.h:68-71 Longlong_hybrid::is_unsigned_outside_of_signed_range] *)
Definition is_unsigned_outside_of_signed_range (h : Longlong_hybrid) : bool :=
  m_unsigned h && (u64 LONGLONG_MAX <? u64 (m_value (base_value h))).

(* [sql_type_int.h:72-72 Longlong_hybrid::neg] *)
Definition neg (h : Longlong_hybrid) : bool :=
  (m_value (base_value h) <? 0) && negb (m_unsigned h).

(** [- z] on a signed 64-bit number, undefined when it overflows. *)
Definition longlong_opp (z : Z) : option Z :=
  if (LONGLONG_MIN <=? - z) && (- z <=? LONGLONG_MAX) then Some (- z) else None.

(* [sql_type_int.h:73-80 Longlong_hybrid::abs] *)
Definition abs (h : Longlong_hybrid) : option Z :=
  let v := m_value (base_value h) in
  if m_unsigned h then Some (u64 v)
  else if v =? LONGLONG_MIN then Some (u64 (u64 LONGLONG_MAX + 1))
  else if v <? 0 then u64 <$> longlong_opp v
  else Some (u64 v).

(* [sql_type_int.h:81-92 Longlong_hybrid::to_ulonglong] *)
Definition to_ulonglong (h : Longlong_hybrid) (upper_bound : Z) : Z :=
  let v := m_value (base_value h) in
  if neg h then 0 else if upper_bound <? u64 v then upper_bound else u64 v.

(* [sql_type_int.h:93-96 Longlong_hybrid::to_uint] *)
Definition to_uint (h : Longlong_hybrid) (upper_bound : Z) : Z :=
  u32 (to_ulonglong h upper_bound).

(* [sql_type_int.h:97-111 Longlong_hybrid::cmp] *)
Definition cmp (this other : Longlong_hybrid) : Z :=
  if Bool.eqb (m_unsigned this) (m_unsigned other) then
    if m_unsigned this then cmp_unsigned this other else cmp_signed this other
  else if is_unsigned_outside_of_signed_range this then 1
  else if is_unsigned_outside_of_signed_range other then -1
  else cmp_signed this other.

(* [sql_type_int.h:112-115 Longlong_hybrid::operator==] *)
Definition eq_hybrid (this nr : Longlong_hybrid) : bool := cmp this nr =? 0.

(* [sql_type_int.h:116-119 Longlong_hybrid::operator==(ulonglong)] *)
Definition eq_ulonglong (this : Longlong_hybrid) (nr : Z) : bool :=
  cmp this (mk_Longlong_hybrid (s64 nr) true) =? 0.

(* [sql_type_int.h:120-123 Longlong_hybrid::operator==(uint)] *)
Definition eq_uint (this : Longlong_hybrid) (nr : Z) : bool :=
  cmp this (mk_Longlong_hybrid (s64 nr) true) =? 0.

(* [sql_type_int.h:124-127 Longlong_hybrid::operator==(longlong)] *)
Definition eq_longlong (this : Longlong_hybrid) (nr : Z) : bool :=
  cmp this (mk_Longlong_hybrid nr false) =? 0.

(* [sql_type_int.h:128-131 Longlong_hybrid::operator==(int)] *)
Definition eq_int (this : Longlong_hybrid) (nr : Z) : bool :=
  cmp this (mk_Longlong_hybrid nr false) =? 0.

(* [sql_type_int.h:135-143 Longlong_hybrid_null] *)
Record Longlong_hybrid_null := { hn_hybrid : Longlong_hybrid; hn_flag : Null_flag }.

(* [sql_type_int.h:139-142 Longlong_hybrid_null::Longlong_hybrid_null] *)
Definition mk_Longlong_hybrid_null (nr : Longlong_null) (unsigned_flag : bool) : Longlong_hybrid_null :=
  {| hn_hybrid := mk_Longlong_hybrid (value (null_value nr)) unsigned_flag;
     hn_flag := {| is_null := is_null (null_flag nr) |} |}.

(** ** What they mean *)

(** The machine value fits a [longlong]. *)
Definition longlong_wf (h : Longlong_hybrid) : Prop :=
  LONGLONG_MIN <= m_value (base_value h) <= LONGLONG_MAX.

(** The number a hybrid stands for. *)
Definition hybrid_value (h : Longlong_hybrid) : Z :=
  if m_unsigned h then u64 (m_value (base_value h)) else m_value (base_value h).

(** The result of a three-way comparison as C writes it. *)
Definition sign_of (c : comparison) : Z := match c with Lt => -1 | Eq => 0 | Gt => 1 end.

Create HintDb hybrid.

Lemma u64_cases z : LONGLONG_MIN <= z <= LONGLONG_MAX ->
  u64 z = if z <? 0 then z + 2 ^ 64 else z.
Proof.
  unfold LONGLONG_MIN, LONGLONG_MAX, u64, wrap. intros Hz. destruct (Z.ltb_spec z 0).
  - symmetry. apply (Z.mod_unique z (2 ^ 64) (-1)); lia.
  - apply Z.mod_small. lia.
Qed.

Lemma s64_u64 z : is_word 64 z -> u64 (s64 z) = z /\ LONGLONG_MIN <= s64 z <= LONGLONG_MAX.
Proof.
  intros Hz. assert (E : s64 z = if z <? 2 ^ 63 then z else z - 2 ^ 64).
  { unfold s64, swrap, is_word in *. change (2 ^ (64 - 1)) with (2 ^ 63). destruct (Z.ltb_spec z (2 ^ 63)).
    - rewrite Z.mod_small; lia.
    - rewrite (Zmod_eq_full) by lia. rewrite <- (Z.div_unique (z + 2 ^ 63) (2 ^ 64) 1 (z - 2 ^ 63)); lia. }
  assert (Hr : LONGLONG_MIN <= s64 z <= LONGLONG_MAX).
  { rewrite E. unfold LONGLONG_MIN, LONGLONG_MAX, is_word in *. destruct (Z.ltb_spec z (2 ^ 63)); lia. }
  split; [| done]. rewrite u64_cases by done. rewrite E in *. unfold is_word in Hz.
  destruct (Z.ltb_spec z (2 ^ 63)); [destruct (Z.ltb_spec z 0) | destruct (Z.ltb_spec (z - 2 ^ 64) 0)]; lia.
Qed.

(** [hybrid_solve] reads every comparison of a hybrid as one of numbers. *)
Ltac hybrid_solve :=
  unfold hybrid_value, longlong_wf, is_word in *; simpl in *;
  change (u64 LONGLONG_MAX) with LONGLONG_MAX;
  rewrite ?u64_cases in * by (unfold LONGLONG_MIN, LONGLONG_MAX in *; lia);
  unfold LONGLONG_MIN, LONGLONG_MAX in *;
  repeat (match goal with
    | |- context [?x <? ?y] => destruct (Z.ltb_spec x y)
    | |- context [?x =? ?y] => destruct (Z.eqb_spec x y)
    | |- context [Z.compare ?x ?y] => destruct (Z.compare_spec x y)
    end; simpl); try lia; try done.

Lemma cmp_sign a b : longlong_wf a -> longlong_wf b ->
  cmp a b = sign_of (hybrid_value a ?= hybrid_value b).
Proof.
  destruct a as [[va] [|]], b as [[vb] [|]]; intros Ha Hb;
    unfold cmp, cmp_unsigned, cmp_signed, is_unsigned_outside_of_signed_range; hybrid_solve.
Qed.

Lemma eq_hybrid_value a b : longlong_wf a -> longlong_wf b ->
  eq_hybrid a b = (hybrid_value a =? hybrid_value b).
Proof.
  intros Ha Hb. unfold eq_hybrid. rewrite cmp_sign, (Z.eqb_compare (hybrid_value a)) by done.
  by destruct (hybrid_value a ?= hybrid_value b).
Qed.

Lemma longlong_opp_ok z : LONGLONG_MIN < z <= LONGLONG_MAX -> longlong_opp z = Some (- z).
Proof.
  intros Hz. unfold longlong_opp. rewrite (proj2 (andb_true_iff _ _)); [done |].
  unfold LONGLONG_MIN, LONGLONG_MAX in *. split; apply Z.leb_le; lia.
Qed.

Lemma abs_value h : longlong_wf h -> abs h = Some (Z.abs (hybrid_value h)).
Proof.
  destruct h as [[v] [|]]; unfold longlong_wf, abs, hybrid_value; simpl; intros Hh.
  - rewrite u64_cases by done. f_equal. unfold LONGLONG_MIN, LONGLONG_MAX in *. destruct (Z.ltb_spec v 0); lia.
  - destruct (Z.eqb_spec v LONGLONG_MIN) as [-> |]; [reflexivity |].
    destruct (Z.ltb_spec v 0); [rewrite longlong_opp_ok by lia; simpl |];
      rewrite u64_small by (unfold LONGLONG_MIN, LONGLONG_MAX in *; lia); f_equal; lia.
Qed.

(** ** Properties *)

(** comparing two integers of either signedness is comparing the numbers
    they stand for, in every combination of flags, and each [operator==] is
    equality of those numbers: with an [ulonglong] or [uint] read as unsigned,
    with a [longlong] or [int] read as signed. *)
Theorem hybrid_comparisons a b u s : longlong_wf a -> longlong_wf b ->
  is_word 64 u -> LONGLONG_MIN <= s <= LONGLONG_MAX ->
  cmp a b = sign_of (hybrid_value a ?= hybrid_value b) /\
  eq_hybrid a b = (hybrid_value a =? hybrid_value b) /\
  eq_ulonglong a u = (hybrid_value a =? u) /\
  (u < 2 ^ 32 -> eq_uint a u = (hybrid_value a =? u)) /\
  eq_longlong a s = (hybrid_value a =? s) /\
  (- 2 ^ 31 <= s < 2 ^ 31 -> eq_int a s = (hybrid_value a =? s)).
Proof.
  intros Ha Hb Hu Hs. destruct (s64_u64 u Hu) as [Eu Ru].
  assert (Hul : eq_ulonglong a u = (hybrid_value a =? u)).
  { change (eq_ulonglong a u) with (eq_hybrid a (mk_Longlong_hybrid (s64 u) true)).
    rewrite eq_hybrid_value by done. unfold hybrid_value at 2. simpl. by rewrite Eu. }
  assert (Hl : eq_longlong a s = (hybrid_value a =? s)).
  { change (eq_longlong a s) with (eq_hybrid a (mk_Longlong_hybrid s false)). by rewrite eq_hybrid_value. }
  split_and!; [by apply cmp_sign | by apply eq_hybrid_value | done | by intros _ | done | by intros _].
Qed.

Lemma hybrid_comparisons_witness :
  cmp (mk_Longlong_hybrid (-1) true) (mk_Longlong_hybrid (-1) false) = 1 /\
  cmp (mk_Longlong_hybrid (-1) true) (mk_Longlong_hybrid (-1) false) = sign_of (2 ^ 64 - 1 ?= -1).
Proof.
  split; [reflexivity |].
  apply (hybrid_comparisons (mk_Longlong_hybrid (-1) true) (mk_Longlong_hybrid (-1) false) 0 0);
    [split; vm_compute; discriminate | split; vm_compute; discriminate | split; [vm_compute; discriminate | reflexivity] | split; vm_compute; discriminate].
Defined.

(** [abs] is the absolute value for every input, the least [longlong]
    included, without a signed overflow, and its result fits an [ulonglong];
    [to_ulonglong] cuts the number to the interval from 0 to the bound, as does
    [to_uint] to its 32-bit bound; [neg] tells the negative numbers. *)
Theorem hybrid_conversions h b : longlong_wf h -> is_word 64 b ->
  abs h = Some (Z.abs (hybrid_value h)) /\ is_word 64 (Z.abs (hybrid_value h)) /\
  to_ulonglong h b = Z.max 0 (Z.min (hybrid_value h) b) /\
  (b < 2 ^ 32 -> to_uint h b = Z.max 0 (Z.min (hybrid_value h) b)) /\
  neg h = (hybrid_value h <? 0) /\
  is_unsigned_outside_of_signed_range h = (LONGLONG_MAX <? hybrid_value h).
Proof.
  destruct h as [[v] sg]. intros Hh Hb.
  assert (Hto : to_ulonglong {| base_value := {| m_value := v |}; m_unsigned := sg |} b =
    Z.max 0 (Z.min (hybrid_value {| base_value := {| m_value := v |}; m_unsigned := sg |}) b))
    by (destruct sg; unfold to_ulonglong, neg; hybrid_solve).
  split_and!; [| | exact Hto | | |].
  - by apply abs_value.
  - destruct sg; hybrid_solve.
  - intros Hb32. unfold to_uint. rewrite Hto. apply u32_small. unfold is_word in Hb. lia.
  - destruct sg; unfold neg; hybrid_solve.
  - destruct sg; unfold is_unsigned_outside_of_signed_range; hybrid_solve.
Qed.

Lemma hybrid_conversions_witness :
  abs (mk_Longlong_hybrid LONGLONG_MIN false) = Some (2 ^ 63) /\
  to_ulonglong (mk_Longlong_hybrid LONGLONG_MIN false) 7 = 0.
Proof.
  pose proof (hybrid_conversions (mk_Longlong_hybrid LONGLONG_MIN false) 7) as H.
  destruct H as (Ha & _ & Ht & _); [split; vm_compute; discriminate | split; [vm_compute; discriminate | reflexivity] |].
  split; [exact Ha | exact Ht].
Defined.
