(* ===== verification/DateMode.v ===== *)
(** * DateMode: the flag classes of temporal conversions ([sql_basic_types.h])

    Three classes wrap an enum of flags: [date_conv_mode_t] (how a value is
    converted to a date), [time_round_mode_t] (what happens to the fraction)
    and [date_mode_t], a mixture of both.  The type of the enums is [int] or
    [unsigned int], as the compiler chooses; [enum_signed] says which, and the
    theorems hold for both.  A debug assertion that fails is [None]. *)

From stdpp Require Import base numbers list.
From Stdlib Require Import ZArith Lia.
From S2P Require Import Prelude.

Local Open Scope Z_scope.
Local Open Scope cxx_scope.

(** ** The classes *)

Module date_conv_mode_t.
(* [sql_basic_types.h:39-39 date_conv_mode_t::CONV_NONE] *)
Definition CONV_NONE : Z := 0.
(* [sql_basic_types.h:40-44 date_conv_mode_t::FUZZY_DATES] *)
Definition FUZZY_DATES : Z := 1.
(* [sql_basic_types.h:45-45 date_conv_mode_t::TIME_ONLY] *)
Definition TIME_ONLY : Z := 4.
(* [sql_basic_types.h:46-46 date_conv_mode_t::INTERVAL_hhmmssff] *)
Definition INTERVAL_hhmmssff : Z := 8.
(* [sql_basic_types.h:47-47 date_conv_mode_t::INTERVAL_DAY] *)
Definition INTERVAL_DAY : Z := 16.
(* [sql_basic_types.h:48-48 date_conv_mode_t::RANGE0_LAST] *)
Definition RANGE0_LAST : Z := INTERVAL_DAY.
(* [sql_basic_types.h:49-49 date_conv_mode_t::NO_ZERO_IN_DATE] *)
Definition NO_ZERO_IN_DATE : Z := 1 <<< 23.
(* [sql_basic_types.h:50-50 date_conv_mode_t::NO_ZERO_DATE] *)
Definition NO_ZERO_DATE : Z := 1 <<< 24.
(* [sql_basic_types.h:51-51 date_conv_mode_t::INVALID_DATES] *)
Definition INVALID_DATES : Z := 1 <<< 25.
(* [sql_basic_types.h:54-68 date_conv_mode_t::KNOWN_MODES] *)
Definition KNOWN_MODES : Z :=
  FUZZY_DATES ||| TIME_ONLY ||| INTERVAL_hhmmssff ||| INTERVAL_DAY |||
  NO_ZERO_IN_DATE ||| NO_ZERO_DATE ||| INVALID_DATES.

(* [sql_basic_types.h:34-37 date_conv_mode_t] *)
Record t := { m_mode : Z }.
End date_conv_mode_t.
Abbreviation conv_t := date_conv_mode_t.t.
Abbreviation conv_mode := date_conv_mode_t.m_mode.

Module time_round_mode_t.
(* [sql_basic_types.h:132-137 time_round_mode_t::FRAC_NONE] *)
Definition FRAC_NONE : Z := 0.
(* [sql_basic_types.h:138-138 time_round_mode_t::FRAC_TRUNCATE] *)
Definition FRAC_TRUNCATE : Z := date_conv_mode_t.RANGE0_LAST <<< 1.
(* [sql_basic_types.h:139-139 time_round_mode_t::FRAC_ROUND] *)
Definition FRAC_ROUND : Z := date_conv_mode_t.RANGE0_LAST <<< 2.
(* [sql_basic_types.h:141-145 time_round_mode_t::KNOWN_MODES] *)
Definition KNOWN_MODES : Z := FRAC_TRUNCATE ||| FRAC_ROUND.

(* [sql_basic_types.h:127-131 time_round_mode_t] *)
Record t := { m_mode : Z }.
End time_round_mode_t.
Abbreviation round_t := time_round_mode_t.t.
Abbreviation round_mode := time_round_mode_t.m_mode.

Module date_mode_t.
(* [sql_basic_types.h:186-186 date_mode_t::CONV_NONE] *)
Definition CONV_NONE : Z := date_conv_mode_t.CONV_NONE.
(* [sql_basic_types.h:187-187 date_mode_t::FUZZY_DATES] *)
Definition FUZZY_DATES : Z := date_conv_mode_t.FUZZY_DATES.
(* [sql_basic_types.h:188-188 date_mode_t::TIME_ONLY] *)
Definition TIME_ONLY : Z := date_conv_mode_t.TIME_ONLY.
(* [sql_basic_types.h:189-189 date_mode_t::INTERVAL_hhmmssff] *)
Definition INTERVAL_hhmmssff : Z := date_conv_mode_t.INTERVAL_hhmmssff.
(* [sql_basic_types.h:190-190 date_mode_t::INTERVAL_DAY] *)
Definition INTERVAL_DAY : Z := date_conv_mode_t.INTERVAL_DAY.
(* [sql_basic_types.h:191-191 date_mode_t::FRAC_TRUNCATE] *)
Definition FRAC_TRUNCATE : Z := time_round_mode_t.FRAC_TRUNCATE.
(* [sql_basic_types.h:192-192 date_mode_t::FRAC_ROUND] *)
Definition FRAC_ROUND : Z := time_round_mode_t.FRAC_ROUND.
(* [sql_basic_types.h:193-193 date_mode_t::NO_ZERO_IN_DATE] *)
Definition NO_ZERO_IN_DATE : Z := date_conv_mode_t.NO_ZERO_IN_DATE.
(* [sql_basic_types.h:194-194 date_mode_t::NO_ZERO_DATE] *)
Definition NO_ZERO_DATE : Z := date_conv_mode_t.NO_ZERO_DATE.
(* [sql_basic_types.h:195-195 date_mode_t::INVALID_DATES] *)
Definition INVALID_DATES : Z := date_conv_mode_t.INVALID_DATES.

(* [sql_basic_types.h:181-185 date_mode_t] *)
Record t := { m_mode : Z }.
End date_mode_t.
Abbreviation date_t := date_mode_t.t.
Abbreviation date_mode := date_mode_t.m_mode.

Section modes.
Variable enum_signed : bool.

(** The cast of an integer to the 32-bit type of the enum. *)
Definition enum_cast (z : Z) : Z := if enum_signed then s32 z else u32 z.

(** [~] on the type of the enum, then the conversion to [ulonglong]. *)
Definition enum_not (z : Z) : Z := u64 (if enum_signed then Z.lnot z else wnot 32 z).

(* [sql_basic_types.h:73-76 date_conv_mode_t::date_conv_mode_t] *)
Definition mk_conv (fuzzydate : Z) : conv_t := {| date_conv_mode_t.m_mode := enum_cast fuzzydate |}.
(* [sql_basic_types.h:78-82 date_conv_mode_t::operator ulonglong] *)
Definition conv_ulonglong (a : conv_t) : Z := u64 (conv_mode a).
(* [sql_basic_types.h:83-86 date_conv_mode_t::operator bool] *)
Definition conv_bool (a : conv_t) : bool := negb (conv_mode a =? 0).
(* [sql_basic_types.h:88-92 date_conv_mode_t::operator~] *)
Definition conv_not (a : conv_t) : Z := enum_not (conv_mode a).
(* [sql_basic_types.h:94-98 date_conv_mode_t::operator&] *)
Definition conv_and (a b : conv_t) : conv_t := mk_conv (u64 (conv_mode a &&& conv_mode b)).
(* [sql_basic_types.h:99-102 date_conv_mode_t::operator&(ulonglong)] *)
Definition conv_and_ulonglong (a : conv_t) (other : Z) : conv_t := mk_conv (u64 (conv_mode a) &&& other).
(* [sql_basic_types.h:104-107 date_conv_mode_t::operator|] *)
Definition conv_or (a b : conv_t) : conv_t := mk_conv (u64 (conv_mode a ||| conv_mode b)).
(* [sql_basic_types.h:109-114 date_conv_mode_t::operator&=] *)
Definition conv_and_assign (a b : conv_t) : conv_t :=
  {| date_conv_mode_t.m_mode := enum_cast (conv_mode a &&& conv_mode b) |}.
(* [sql_basic_types.h:116-120 date_conv_mode_t::operator|=] *)
Definition conv_or_assign (a b : conv_t) : conv_t :=
  {| date_conv_mode_t.m_mode := enum_cast (conv_mode a ||| conv_mode b) |}.

(* [sql_basic_types.h:149-156 time_round_mode_t::time_round_mode_t] *)
Definition mk_round (mode : Z) : option round_t :=
  if (mode =? time_round_mode_t.FRAC_NONE) || (mode =? time_round_mode_t.FRAC_TRUNCATE) ||
     (mode =? time_round_mode_t.FRAC_ROUND)
  then Some {| time_round_mode_t.m_mode := enum_cast mode |} else None.
(* [sql_basic_types.h:157-161 time_round_mode_t::operator ulonglong] *)
Definition round_ulonglong (a : round_t) : Z := u64 (round_mode a).
(* [sql_basic_types.h:162-165 time_round_mode_t::mode] *)
Definition mode (a : round_t) : Z := round_mode a.
(* [sql_basic_types.h:166-170 time_round_mode_t::operator==] *)
Definition round_eq (a other : round_t) : bool := round_mode a =? round_mode other.

(* [sql_basic_types.h:201-204 date_mode_t::date_mode_t] *)
Definition mk_date (fuzzydate : Z) : date_t := {| date_mode_t.m_mode := enum_cast fuzzydate |}.
(* [sql_basic_types.h:206-210 date_mode_t::operator ulonglong] *)
Definition date_ulonglong (a : date_t) : Z := u64 (date_mode a).
(* [sql_basic_types.h:211-214 date_mode_t::operator bool] *)
Definition date_bool (a : date_t) : bool := negb (date_mode a =? 0).
(* [sql_basic_types.h:215-218 date_mode_t::operator date_conv_mode_t] *)
Definition date_to_conv (a : date_t) : conv_t := mk_conv (u64 (date_mode a) &&& date_conv_mode_t.KNOWN_MODES).
(* [sql_basic_types.h:219-222 date_mode_t::operator time_round_mode_t] *)
Definition date_to_round (a : date_t) : option round_t := mk_round (u64 (date_mode a) &&& time_round_mode_t.KNOWN_MODES).
(* [sql_basic_types.h:223-227 date_mode_t::operator~] *)
Definition date_not (a : date_t) : Z := enum_not (date_mode a).
(* [sql_basic_types.h:228-231 date_mode_t::operator!] *)
Definition date_lnot (a : date_t) : bool := date_mode a =? 0.
(* [sql_basic_types.h:233-237 date_mode_t::operator&] *)
Definition date_and (a b : date_t) : date_t := mk_date (u64 (date_mode a &&& date_mode b)).
(* [sql_basic_types.h:238-241 date_mode_t::operator&(ulonglong)] *)
Definition date_and_ulonglong (a : date_t) (other : Z) : date_t := mk_date (u64 (date_mode a) &&& other).
(* [sql_basic_types.h:243-246 date_mode_t::operator|] *)
Definition date_or (a b : date_t) : date_t := mk_date (u64 (date_mode a ||| date_mode b)).
(* [sql_basic_types.h:248-253 date_mode_t::operator&=] *)
Definition date_and_assign (a b : date_t) : date_t :=
  {| date_mode_t.m_mode := enum_cast (date_mode a &&& date_mode b) |}.
(* [sql_basic_types.h:255-259 date_mode_t::operator|=] *)
Definition date_or_assign (a b : date_t) : date_t :=
  {| date_mode_t.m_mode := enum_cast (date_mode a ||| date_mode b) |}.
(* [sql_basic_types.h:261-265 date_mode_t::operator|=(date_conv_mode_t)] *)
Definition date_or_assign_conv (a : date_t) (b : conv_t) : date_t :=
  {| date_mode_t.m_mode := enum_cast (u64 (date_mode a) ||| conv_ulonglong b) |}.

(* [sql_basic_types.h:269-274 operator|(date_mode_t,date_conv_mode_t)] *)
Definition or_date_conv (a : date_t) (b : conv_t) : date_t := mk_date (date_ulonglong a ||| conv_ulonglong b).
(* [sql_basic_types.h:276-280 operator|(date_conv_mode_t,time_round_mode_t)] *)
Definition or_conv_round (a : conv_t) (b : round_t) : date_t := mk_date (conv_ulonglong a ||| round_ulonglong b).
(* [sql_basic_types.h:283-287 operator|(date_conv_mode_t,date_mode_t)] *)
Definition or_conv_date (a : conv_t) (b : date_t) : date_t := mk_date (conv_ulonglong a ||| date_ulonglong b).
(* [sql_basic_types.h:290-295 operator&(date_mode_t,date_conv_mode_t)] *)
Definition and_date_conv (a : date_t) (b : conv_t) : conv_t := mk_conv (date_ulonglong a &&& conv_ulonglong b).
(* [sql_basic_types.h:297-301 operator&(date_conv_mode_t,date_mode_t)] *)
Definition and_conv_date (a : conv_t) (b : date_t) : conv_t := mk_conv (conv_ulonglong a &&& date_ulonglong b).
(* [sql_basic_types.h:303-307 operator&(sql_mode_t,date_conv_mode_t)] *)
Definition and_sql_mode_conv (a : Z) (b : conv_t) : conv_t := mk_conv (a &&& conv_ulonglong b).

(* [sql_basic_types.h:311-311 TIME_CONV_NONE] *)
Definition TIME_CONV_NONE : conv_t := mk_conv date_conv_mode_t.CONV_NONE.
(* [sql_basic_types.h:312-312 TIME_FUZZY_DATES] *)
Definition TIME_FUZZY_DATES : conv_t := mk_conv date_conv_mode_t.FUZZY_DATES.
(* [sql_basic_types.h:313-313 TIME_TIME_ONLY] *)
Definition TIME_TIME_ONLY : conv_t := mk_conv date_conv_mode_t.TIME_ONLY.
(* [sql_basic_types.h:314-314 TIME_INTERVAL_hhmmssff] *)
Definition TIME_INTERVAL_hhmmssff : conv_t := mk_conv date_conv_mode_t.INTERVAL_hhmmssff.
(* [sql_basic_types.h:315-315 TIME_INTERVAL_DAY] *)
Definition TIME_INTERVAL_DAY : conv_t := mk_conv date_conv_mode_t.INTERVAL_DAY.
(* [sql_basic_types.h:316-316 TIME_NO_ZERO_IN_DATE] *)
Definition TIME_NO_ZERO_IN_DATE : conv_t := mk_conv date_conv_mode_t.NO_ZERO_IN_DATE.
(* [sql_basic_types.h:317-317 TIME_NO_ZERO_DATE] *)
Definition TIME_NO_ZERO_DATE : conv_t := mk_conv date_conv_mode_t.NO_ZERO_DATE.
(* [sql_basic_types.h:318-318 TIME_INVALID_DATES] *)
Definition TIME_INVALID_DATES : conv_t := mk_conv date_conv_mode_t.INVALID_DATES.
(* [sql_basic_types.h:320-323 TIME_NO_ZEROS] *)
Definition TIME_NO_ZEROS : conv_t := mk_conv (date_conv_mode_t.NO_ZERO_DATE ||| date_conv_mode_t.NO_ZERO_IN_DATE).
(* [sql_basic_types.h:325-329 TIME_MODE_FOR_XXX_TO_DATE] *)
Definition TIME_MODE_FOR_XXX_TO_DATE : conv_t :=
  mk_conv (date_mode_t.NO_ZERO_IN_DATE ||| date_mode_t.NO_ZERO_DATE ||| date_mode_t.INVALID_DATES).
(* [sql_basic_types.h:332-332 TIME_FRAC_NONE] *)
Definition TIME_FRAC_NONE : option round_t := mk_round time_round_mode_t.FRAC_NONE.
(* [sql_basic_types.h:333-333 TIME_FRAC_TRUNCATE] *)
Definition TIME_FRAC_TRUNCATE : option round_t := mk_round time_round_mode_t.FRAC_TRUNCATE.
(* [sql_basic_types.h:334-334 TIME_FRAC_ROUND] *)
Definition TIME_FRAC_ROUND : option round_t := mk_round time_round_mode_t.FRAC_ROUND.

(** ** Bits of a mode *)

Lemma testbit_swrap_low w z i : 0 < w -> 0 <= i < w -> Z.testbit (swrap w z) i = Z.testbit z i.
Proof.
  intros Hw Hi. rewrite <- (Z.mod_pow2_bits_low (swrap w z) w i), <- (Z.mod_pow2_bits_low z w i) by lia.
  f_equal. unfold swrap. rewrite Zminus_mod_idemp_l. f_equal. lia.
Qed.

Lemma testbit_enum_cast z i : 0 <= i < 32 -> Z.testbit (enum_cast z) i = Z.testbit z i.
Proof.
  intros Hi. unfold enum_cast, s32, u32. destruct enum_signed; [by apply testbit_swrap_low |].
  rewrite testbit_wrap by lia. destruct (Z.ltb_spec i 32); [done | lia].
Qed.

Lemma testbit_u64 z i : 0 <= i < 32 -> Z.testbit (u64 z) i = Z.testbit z i.
Proof. intros Hi. unfold u64. rewrite testbit_wrap by lia. destruct (Z.ltb_spec i 64); [done | lia]. Qed.

Lemma testbit_enum_not z i : 0 <= i < 32 -> Z.testbit (enum_not z) i = negb (Z.testbit z i).
Proof.
  intros Hi. unfold enum_not. rewrite testbit_u64 by done. destruct enum_signed.
  - apply Z.lnot_spec. lia.
  - rewrite testbit_wnot by lia. destruct (Z.ltb_spec i 32); [done | lia].
Qed.

Lemma enum_cast_u64 z : enum_cast (u64 z) = enum_cast z.
Proof.
  assert (Hm : forall k, (u64 z + k) mod 2 ^ 32 = (z + k) mod 2 ^ 32).
  { intros k. unfold u64, wrap. rewrite (Z.div_mod z (2 ^ 64)) at 2 by lia.
    replace (2 ^ 64 * (z `div` 2 ^ 64) + z mod 2 ^ 64 + k) with (z mod 2 ^ 64 + k + (2 ^ 32 * (z `div` 2 ^ 64)) * 2 ^ 32) by lia.
    by rewrite Z_mod_plus_full. }
  unfold enum_cast, s32, swrap, u32, wrap. destruct enum_signed; [by rewrite Hm |].
  specialize (Hm 0). by rewrite !Z.add_0_r in Hm.
Qed.

Lemma enum_cast_small z : 0 <= z < 2 ^ 31 -> enum_cast z = z.
Proof.
  intros Hz. unfold enum_cast, s32. destruct enum_signed; [apply swrap_small; lia | apply u32_small; lia].
Qed.

(** [mode_bits] reads a bit of every operator. *)
Ltac mode_bits :=
  unfold date_and, date_or, date_and_ulonglong, date_and_assign, date_or_assign, date_or_assign_conv,
    or_date_conv, or_conv_date, and_date_conv, and_conv_date, and_sql_mode_conv, date_ulonglong,
    conv_and, conv_or, conv_and_ulonglong, conv_and_assign, conv_or_assign, conv_ulonglong,
    conv_not, date_not, mk_date, mk_conv; simpl;
  repeat first [rewrite testbit_enum_cast by done | rewrite testbit_u64 by done
    | rewrite testbit_enum_not by done | rewrite Z.land_spec | rewrite Z.lor_spec]; try done.

(** ** Properties *)

(** A conversion mode that has known flags only. *)
Definition conv_known (c : conv_t) : Prop :=
  0 <= conv_mode c /\ conv_mode c &&& date_conv_mode_t.KNOWN_MODES = conv_mode c.

(** The constructor's assertion holds of a rounding mode. *)
Definition round_known (r : round_t) : Prop := mk_round (round_mode r) = Some r.

Lemma known_lt c : conv_known c -> 0 <= conv_mode c < 2 ^ 26.
Proof.
  intros [H0 Hc]. rewrite <- Hc.
  apply is_word_land_r; [done |]. split; [vm_compute; discriminate | reflexivity].
Qed.

Lemma round_known_cases r : round_known r -> round_mode r = 0 \/ round_mode r = 32 \/ round_mode r = 64.
Proof.
  unfold round_known, mk_round. intros H.
  destruct (Z.eqb_spec (round_mode r) time_round_mode_t.FRAC_NONE); [by left |].
  destruct (Z.eqb_spec (round_mode r) time_round_mode_t.FRAC_TRUNCATE); [by right; left |].
  destruct (Z.eqb_spec (round_mode r) time_round_mode_t.FRAC_ROUND); [by right; right | done].
Qed.

(** a mixture of a conversion mode and a rounding mode gives both back: the
    conversion flags and the rounding flags of [date_mode_t] do not overlap,
    the conversion to [time_round_mode_t] meets its assertion, and putting the
    two parts together again is the mixture. *)
Theorem date_mode_roundtrip c r : conv_known c -> round_known r ->
  date_to_conv (or_conv_round c r) = c /\
  date_to_round (or_conv_round c r) = Some r /\
  or_date_conv (mk_date (round_ulonglong r)) c = or_conv_round c r.
Proof.
  intros Hc Hr. pose proof (known_lt c Hc) as Hlt. destruct Hc as [_ Hc].
  pose proof (round_known_cases r Hr) as Hrc. unfold round_known in Hr. destruct c as [c], r as [r]. simpl in *.
  assert (Hw : is_word 26 (c ||| r)).
  { apply is_word_lor; [lia | done |]. unfold is_word. lia. }
  assert (Hd : or_conv_round {| date_conv_mode_t.m_mode := c |} {| time_round_mode_t.m_mode := r |}
               = {| date_mode_t.m_mode := c ||| r |}).
  { unfold or_conv_round, mk_date, conv_ulonglong, round_ulonglong. simpl. unfold is_word in Hw.
    by rewrite !u64_small, enum_cast_small by lia. }
  rewrite Hd. unfold date_to_conv, date_to_round, mk_conv, or_date_conv, mk_date, date_ulonglong, round_ulonglong, conv_ulonglong. simpl.
  unfold is_word in Hw. rewrite (u64_small (c ||| r)), !Z.land_lor_distr_l by lia. split_and!.
  - rewrite Hc. f_equal. replace (r &&& date_conv_mode_t.KNOWN_MODES) with 0 by (destruct Hrc as [-> | [-> | ->]]; reflexivity).
    rewrite Z.lor_0_r. apply enum_cast_small. lia.
  - rewrite <- Hc, <- Z.land_assoc. change (date_conv_mode_t.KNOWN_MODES &&& time_round_mode_t.KNOWN_MODES) with 0.
    rewrite Z.land_0_r, Z.lor_0_l.
    replace (r &&& time_round_mode_t.KNOWN_MODES) with r by (destruct Hrc as [-> | [-> | ->]]; reflexivity). done.
  - f_equal. rewrite (u64_small r), (u64_small c), (enum_cast_small r), (u64_small r), (Z.lor_comm r c) by lia.
    apply enum_cast_small. lia.
Qed.

(** the operators on modes are those of sets of flags: [&] keeps the common
    ones, [|] joins them, the compound assignments agree, and a mode masked
    with [~] of another loses exactly the flags of the other, although [~] has
    64 bits and a mode 32. *)
Theorem mode_operators (a b : date_t) (c d : conv_t) (x i : Z) : 0 <= i < 32 ->
  let bit z := Z.testbit z i in
  bit (date_mode (date_and a b)) = bit (date_mode a) && bit (date_mode b) /\
  bit (date_mode (date_or a b)) = bit (date_mode a) || bit (date_mode b) /\
  bit (date_mode (date_and_ulonglong a (date_not b))) = bit (date_mode a) && negb (bit (date_mode b)) /\
  bit (date_mode (date_and_ulonglong a (conv_not c))) = bit (date_mode a) && negb (bit (conv_mode c)) /\
  bit (conv_mode (conv_and c d)) = bit (conv_mode c) && bit (conv_mode d) /\
  bit (conv_mode (conv_or c d)) = bit (conv_mode c) || bit (conv_mode d) /\
  bit (conv_mode (conv_and_ulonglong c (conv_not d))) = bit (conv_mode c) && negb (bit (conv_mode d)) /\
  bit (date_mode (date_or_assign_conv a c)) = bit (date_mode a) || bit (conv_mode c) /\
  bit (conv_mode (and_date_conv a c)) = bit (date_mode a) && bit (conv_mode c) /\
  bit (conv_mode (and_sql_mode_conv x c)) = bit x && bit (conv_mode c) /\
  date_and_assign a b = date_and a b /\ date_or_assign a b = date_or a b /\
  conv_and_assign c d = conv_and c d /\ conv_or_assign c d = conv_or c d /\
  or_date_conv a c = or_conv_date c a /\ and_date_conv a c = and_conv_date c a.
Proof.
  intros Hi bit. unfold bit. split_and!; try solve [mode_bits].
  - unfold date_and_assign, date_and, mk_date. by rewrite enum_cast_u64.
  - unfold date_or_assign, date_or, mk_date. by rewrite enum_cast_u64.
  - unfold conv_and_assign, conv_and, mk_conv. by rewrite enum_cast_u64.
  - unfold conv_or_assign, conv_or, mk_conv. by rewrite enum_cast_u64.
  - unfold or_date_conv, or_conv_date. by rewrite Z.lor_comm.
  - unfold and_date_conv, and_conv_date. by rewrite Z.land_comm.
Qed.
End modes.

Lemma date_mode_roundtrip_witness :
  date_to_conv true (or_conv_round true (TIME_NO_ZEROS true) {| time_round_mode_t.m_mode := 64 |}) = TIME_NO_ZEROS true.
Proof.
  apply (date_mode_roundtrip true (TIME_NO_ZEROS true) {| time_round_mode_t.m_mode := 64 |});
    [split; vm_compute; [discriminate | reflexivity] | reflexivity].
Defined.

Lemma mode_operators_witness :
  Z.testbit (date_mode_t.m_mode (date_and_ulonglong true (mk_date true 5) (date_not true (mk_date true 1)))) 0 = false.
Proof. apply (mode_operators true (mk_date true 5) (mk_date true 1) (TIME_NO_ZEROS true) (TIME_NO_ZEROS true) 0 0). lia. Defined.
