(* ===== verification/SelectLimit.v ===== *)
(** * SelectLimit: LIMIT and OFFSET counters ([sql_limit.h])

    [Select_limit_counters] keeps the offset and the number of rows to read, the
    offset included, as 64-bit row counts; all ones ([HA_POS_ERROR]) stands for no limit. *)

From stdpp Require Import base numbers list.
From Stdlib Require Import ZArith Lia.
From S2P Require Import Prelude.

Local Open Scope Z_scope.

(* [my_base.h:648-648 HA_POS_ERROR] *)
Definition HA_POS_ERROR : Z := wnot 64 0.

(* [sql_limit.h:23-25 Select_limit_counters] *)
Record Select_limit_counters := Counters { select_limit_cnt : Z; offset_limit_cnt : Z }.

(* [sql_limit.h:28-30 Select_limit_counters] *)
Definition counters_init : Select_limit_counters := Counters 0 0.
(* [sql_limit.h:31-34 Select_limit_counters] *)
Definition counters_copy (orig : Select_limit_counters) : Select_limit_counters :=
  Counters (select_limit_cnt orig) (offset_limit_cnt orig).

(* [sql_limit.h:36-45 set_limit] *)
Definition set_limit (c : Select_limit_counters) (limit offset : Z) : Select_limit_counters :=
  if limit <=? u64 (limit + offset) then Counters (u64 (limit + offset)) offset else Counters HA_POS_ERROR offset.

(* [sql_limit.h:47-51 set_single_row] *)
Definition set_single_row (c : Select_limit_counters) : Select_limit_counters := Counters 1 0.
(* [sql_limit.h:53-54 is_unlimited] *)
Definition is_unlimited (c : Select_limit_counters) : bool := select_limit_cnt c =? HA_POS_ERROR.
(* [sql_limit.h:55-56 is_unrestricted] *)
Definition is_unrestricted (c : Select_limit_counters) : bool := (select_limit_cnt c =? HA_POS_ERROR) && (offset_limit_cnt c =? 0).
(* [sql_limit.h:57-58 set_unlimited] *)
Definition set_unlimited (c : Select_limit_counters) : Select_limit_counters := Counters HA_POS_ERROR 0.
(* [sql_limit.h:60-63 check_offset] *)
Definition check_offset (c : Select_limit_counters) (sent : Z) : bool := sent <? offset_limit_cnt c.
(* [sql_limit.h:64-64 remove_offset] *)
Definition remove_offset (c : Select_limit_counters) : Select_limit_counters := Counters (select_limit_cnt c) 0.
(* [sql_limit.h:66-67 get_select_limit] *)
Definition get_select_limit (c : Select_limit_counters) : Z := select_limit_cnt c.
(* [sql_limit.h:68-69 get_offset_limit] *)
Definition get_offset_limit (c : Select_limit_counters) : Z := offset_limit_cnt c.

(** The rows, counted from 0, that a reader of the counters sends: it reads
    [get_select_limit] rows and skips those [check_offset] rejects. *)
Definition sends (c : Select_limit_counters) (row : Z) : bool := (row <? get_select_limit c) && negb (check_offset c row).

Lemma set_limit_counts c limit offset : is_word 64 limit -> is_word 64 offset ->
  set_limit c limit offset = Counters (Z.min (limit + offset) HA_POS_ERROR) offset.
Proof.
  unfold is_word, set_limit. intros Hl Ho. change HA_POS_ERROR with (2 ^ 64 - 1).
  assert (E : u64 (limit + offset) = if limit + offset <? 2 ^ 64 then limit + offset else limit + offset - 2 ^ 64).
  { unfold u64, wrap. destruct (Z.ltb_spec (limit + offset) (2 ^ 64)); [apply Z.mod_small; lia |].
    symmetry. apply (Z.mod_unique _ _ 1); lia. }
  rewrite E. destruct (Z.ltb_spec (limit + offset) (2 ^ 64)); [destruct (Z.leb_spec limit (limit + offset)) | destruct (Z.leb_spec limit (limit + offset - 2 ^ 64))];
    (f_equal; lia) || lia.
Qed.

(** LIMIT and OFFSET send exactly the rows from [offset] to [offset + limit - 1],
    whatever the counters held before and also where the sum of two 64-bit
    counts overflows (the limit saturates at no limit, beyond every row that
    can be counted); without the offset the same number of rows is read from
    the first one. *)
Theorem limit_offset_rows c limit offset row : is_word 64 limit -> is_word 64 offset -> 0 <= row < HA_POS_ERROR ->
  sends (set_limit c limit offset) row = (offset <=? row) && (row <? offset + limit) /\
  sends (remove_offset (set_limit c limit offset)) row = (row <? offset + limit) /\
  is_unlimited (set_limit c limit offset) = (HA_POS_ERROR <=? limit + offset) /\
  sends (set_unlimited c) row = true /\ sends (set_single_row c) row = (row =? 0).
Proof.
  intros Hl Ho Hr. rewrite !set_limit_counts by done. unfold is_word in *. change HA_POS_ERROR with (2 ^ 64 - 1) in *.
  unfold sends, check_offset, get_select_limit, is_unlimited, remove_offset, set_unlimited, set_single_row.
  change HA_POS_ERROR with (2 ^ 64 - 1). cbn [select_limit_cnt offset_limit_cnt]. split_and!; lia.
Qed.

(** A limit whose sum with the offset wraps. *)
Lemma limit_offset_rows_witness :
  set_limit counters_init (2 ^ 64 - 2) 5 = Counters HA_POS_ERROR 5 /\ sends (set_limit counters_init (2 ^ 64 - 2) 5) 4 = false.
Proof.
  split; [reflexivity |].
  destruct (limit_offset_rows counters_init (2 ^ 64 - 2) 5 4) as [H _];
    [split; [discriminate | reflexivity] | split; [discriminate | reflexivity] | split; [discriminate | reflexivity] | exact H].
Defined.
