(* ===== verification/MyTime.v ===== *)
(** * MyTime: limits and fractions of temporal values ([my_time.h])

    The inline functions of the header.  The table [log_10_int] is defined in the
    string library; what is used of it is that it holds the powers of ten. *)

From stdpp Require Import base numbers list.
From Stdlib Require Import ZArith Lia.
From S2P Require Import Prelude.

Local Open Scope Z_scope.

(* [my_time.h:43-43 YY_PART_YEAR] *)
Definition YY_PART_YEAR : Z := 70.
(* [my_time.h:37-37 TIMESTAMP_MAX_YEAR] *)
Definition TIMESTAMP_MAX_YEAR : Z := 2038.
(* [my_time.h:38-38 TIMESTAMP_MIN_YEAR] *)
Definition TIMESTAMP_MIN_YEAR : Z := 1900 + YY_PART_YEAR - 1.
(* [my_time.h:39-39 TIMESTAMP_MAX_VALUE] *)
Definition TIMESTAMP_MAX_VALUE : Z := 0x7FFFFFFF.
(* [my_time.h:40-40 TIMESTAMP_MIN_VALUE] *)
Definition TIMESTAMP_MIN_VALUE : Z := 0.
(* [my_time.h:50-52 IS_TIME_T_VALID_FOR_TIMESTAMP] *)
Definition IS_TIME_T_VALID_FOR_TIMESTAMP (x : Z) : bool := (x <=? TIMESTAMP_MAX_VALUE) && (TIMESTAMP_MIN_VALUE <=? x).
(* [my_time.h:93-93 TIME_MAX_HOUR] *)
Definition TIME_MAX_HOUR : Z := 838.
(* [my_time.h:94-94 TIME_MAX_MINUTE] *)
Definition TIME_MAX_MINUTE : Z := 59.
(* [my_time.h:95-95 TIME_MAX_SECOND] *)
Definition TIME_MAX_SECOND : Z := 59.
(* [my_time.h:96-96 TIME_MAX_SECOND_PART] *)
Definition TIME_MAX_SECOND_PART : Z := 999999.
(* [my_time.h:97-97 TIME_SECOND_PART_FACTOR] *)
Definition TIME_SECOND_PART_FACTOR : Z := TIME_MAX_SECOND_PART + 1.
(* [my_time.h:98-98 TIME_SECOND_PART_DIGITS] *)
Definition TIME_SECOND_PART_DIGITS : Z := 6.
(* [my_time.h:99-99 TIME_MAX_VALUE] *)
Definition TIME_MAX_VALUE : Z := TIME_MAX_HOUR * 10000 + TIME_MAX_MINUTE * 100 + TIME_MAX_SECOND.
(* [my_time.h:100-101 TIME_MAX_VALUE_SECONDS] *)
Definition TIME_MAX_VALUE_SECONDS : Z := TIME_MAX_HOUR * 3600 + TIME_MAX_MINUTE * 60 + TIME_MAX_SECOND.

(* [my_time.h:64-64 MYSQL_TIME_WARN_TRUNCATED] *)
Definition MYSQL_TIME_WARN_TRUNCATED : Z := 1.
(* [my_time.h:65-65 MYSQL_TIME_WARN_OUT_OF_RANGE] *)
Definition MYSQL_TIME_WARN_OUT_OF_RANGE : Z := 2.
(* [my_time.h:66-66 MYSQL_TIME_WARN_EDOM] *)
Definition MYSQL_TIME_WARN_EDOM : Z := 4.
(* [my_time.h:67-67 MYSQL_TIME_WARN_ZERO_DATE] *)
Definition MYSQL_TIME_WARN_ZERO_DATE : Z := 8.
(* [my_time.h:68-68 MYSQL_TIME_NOTE_TRUNCATED] *)
Definition MYSQL_TIME_NOTE_TRUNCATED : Z := 16.
(* [my_time.h:70-73 MYSQL_TIME_WARN_WARNINGS] *)
Definition MYSQL_TIME_WARN_WARNINGS : Z :=
  Z.lor (Z.lor (Z.lor MYSQL_TIME_WARN_TRUNCATED MYSQL_TIME_WARN_OUT_OF_RANGE) MYSQL_TIME_WARN_EDOM) MYSQL_TIME_WARN_ZERO_DATE.
(* [my_time.h:74-74 MYSQL_TIME_WARN_NOTES] *)
Definition MYSQL_TIME_WARN_NOTES : Z := MYSQL_TIME_NOTE_TRUNCATED.
(* [my_time.h:76-76 MYSQL_TIME_WARN_HAVE_WARNINGS] *)
Definition MYSQL_TIME_WARN_HAVE_WARNINGS (x : Z) : bool := negb (Z.land x MYSQL_TIME_WARN_WARNINGS =? 0).
(* [my_time.h:77-77 MYSQL_TIME_WARN_HAVE_NOTES] *)
Definition MYSQL_TIME_WARN_HAVE_NOTES (x : Z) : bool := negb (Z.land x MYSQL_TIME_WARN_NOTES =? 0).
(* [my_time.h:80-80 SECONDS_IN_24H] *)
Definition SECONDS_IN_24H : Z := 86400.
(* [my_time.h:85-85 TIME_MAX_INTERVAL_HOUR] *)
Definition TIME_MAX_INTERVAL_HOUR : Z := 87649415.
(* [my_time.h:86-86 TIME_MAX_INTERVAL_HOUR_CHAR_LENGTH] *)
Definition TIME_MAX_INTERVAL_HOUR_CHAR_LENGTH : Z := 8.
(* [my_time.h:89-89 TIME_MAX_INTERVAL_DAY] *)
Definition TIME_MAX_INTERVAL_DAY : Z := 3652058.
(* [my_time.h:90-90 TIME_MAX_INTERVAL_DAY_CHAR_LENGTH] *)
Definition TIME_MAX_INTERVAL_DAY_CHAR_LENGTH : Z := 7.

(* [my_time.h:107-112 st_mysql_time_status] *)
Record MYSQL_TIME_STATUS := Status { warnings : Z; precision : Z; nanoseconds : Z }.

(* [my_time.h:114-119 my_time_status_init] *)
Definition my_time_status_init (status : MYSQL_TIME_STATUS) : MYSQL_TIME_STATUS := Status 0 0 0.

(* [mysql_time.h:40-44 enum_mysql_timestamp_type] *)
Inductive timestamp_type :=
  | MYSQL_TIMESTAMP_NONE | MYSQL_TIMESTAMP_ERROR | MYSQL_TIMESTAMP_DATE | MYSQL_TIMESTAMP_DATETIME | MYSQL_TIMESTAMP_TIME.
#[export] Instance timestamp_type_eq_dec : EqDecision timestamp_type := ltac:(solve_decision).

(* [mysql_time.h:59-65 st_mysql_time] *)
Record MYSQL_TIME := Time {
  year : Z; month : Z; day : Z; hour : Z; minute : Z; second : Z; second_part : Z; neg : bool; time_type : timestamp_type }.

(* [my_time.h:168-189 validate_timestamp_range] *)
Definition validate_timestamp_range (t : MYSQL_TIME) : bool :=
  if ((TIMESTAMP_MAX_YEAR <? year t) || (year t <? TIMESTAMP_MIN_YEAR)) ||
     ((year t =? TIMESTAMP_MAX_YEAR) && ((1 <? month t) || (19 <? day t))) ||
     ((year t =? TIMESTAMP_MIN_YEAR) && ((month t <? 12) || (day t <? 31)))
  then false else true.

Section fractions.
Variable log_10_int : Z -> Z.

(* [my_time.h:221-224 sec_part_shift] *)
Definition sec_part_shift (second_part digits : Z) : Z :=
  second_part ÷ s64 (log_10_int (u32 (TIME_SECOND_PART_DIGITS - digits))).
(* [my_time.h:225-228 sec_part_unshift] *)
Definition sec_part_unshift (second_part digits : Z) : Z :=
  s64 (second_part * s64 (log_10_int (u32 (TIME_SECOND_PART_DIGITS - digits)))).
(** [long] has [W] bits. *)
Variable W : Z.
(* [my_time.h:231-235 my_time_fraction_remainder] *)
Definition my_time_fraction_remainder (nr decimals : Z) : option Z :=
  if decimals <=? TIME_SECOND_PART_DIGITS
  then Some (Z.rem nr (swrap W (log_10_int (u32 (TIME_SECOND_PART_DIGITS - decimals))))) else None.
(* [my_time.h:236-239 my_time_trunc] *)
Definition my_time_trunc (ltime : MYSQL_TIME) (decimals : Z) : option MYSQL_TIME :=
  r ← my_time_fraction_remainder (swrap W (second_part ltime)) decimals;
  Some (Time (year ltime) (month ltime) (day ltime) (hour ltime) (minute ltime) (second ltime) (wrap W (second_part ltime - r)) (neg ltime) (time_type ltime)).
(** [tv_usec] of a [struct timeval]. *)
(* [my_time.h:240-243 my_timeval_trunc] *)
Definition my_timeval_trunc (tv_usec decimals : Z) : option Z :=
  r ← my_time_fraction_remainder tv_usec decimals; Some (tv_usec - r).
End fractions.

(** ** Properties *)

(** Dates in order. *)
Definition date_le (t : Z * Z * Z) (u : Z * Z * Z) : Prop :=
  let '(y1, m1, d1) := t in let '(y2, m2, d2) := u in
  y1 < y2 \/ y1 = y2 /\ (m1 < m2 \/ m1 = m2 /\ d1 <= d2).

(** The days from 0000-03-01 of the Gregorian calendar to a date. *)
Definition day_number (y m d : Z) : Z :=
  let y' := if m <=? 2 then y - 1 else y in
  365 * y' + y' `div` 4 - y' `div` 100 + y' `div` 400 + (153 * ((m + 9) mod 12) + 2) `div` 5 + d - 1.

(** The seconds since the epoch of a time of the clock that is [offset] seconds ahead of UTC. *)
Definition utc_seconds (t : MYSQL_TIME) (offset : Z) : Z :=
  86400 * (day_number (year t) (month t) (day t) - day_number 1970 1 1) + 3600 * hour t + 60 * minute t + second t - offset.

(** A day that the calendar of the month has. *)
Definition month_length (y m : Z) : Z :=
  if m =? 2 then (if (y mod 4 =? 0) && (negb (y mod 100 =? 0) || (y mod 400 =? 0)) then 29 else 28)
  else if (m =? 4) || (m =? 6) || (m =? 9) || (m =? 11) then 30 else 31.

Definition time_ok (t : MYSQL_TIME) : Prop :=
  0 <= year t <= 9999 /\ 1 <= month t <= 12 /\ 1 <= day t <= month_length (year t) (month t) /\
  0 <= hour t <= 23 /\ 0 <= minute t <= 59 /\ 0 <= second t <= 59.

Lemma validate_dates t : 1 <= month t <= 12 -> 1 <= day t <= 31 ->
  validate_timestamp_range t = true <-> date_le (1969, 12, 31) (year t, month t, day t) /\ date_le (year t, month t, day t) (2038, 1, 19).
Proof.
  intros Hm Hd. unfold validate_timestamp_range, date_le, TIMESTAMP_MAX_YEAR.
  change TIMESTAMP_MIN_YEAR with 1969.
  destruct (_ || _ || _) eqn:E; split; intros H; try done; lia.
Qed.

(** Seconds of the clock since the epoch. *)
Definition local_seconds (t : MYSQL_TIME) : Z := utc_seconds t 0.

(** The months of a year that begins in March. *)
Lemma day_number_month y m d : 1 <= m <= 12 ->
  exists y' f, day_number y m d = 365 * y' + y' `div` 4 - y' `div` 100 + y' `div` 400 + f + d - 1 /\
    In (m, f, y - y') [(1, 306, 1); (2, 337, 1); (3, 0, 0); (4, 31, 0); (5, 61, 0); (6, 92, 0); (7, 122, 0); (8, 153, 0);
                       (9, 184, 0); (10, 214, 0); (11, 245, 0); (12, 275, 0)].
Proof.
  intros Hm. unfold day_number. exists (if m <=? 2 then y - 1 else y), ((153 * ((m + 9) mod 12) + 2) `div` 5). split; [done |].
  assert (H : m = 1 \/ m = 2 \/ m = 3 \/ m = 4 \/ m = 5 \/ m = 6 \/ m = 7 \/ m = 8 \/ m = 9 \/ m = 10 \/ m = 11 \/ m = 12) by lia.
  destruct H as [-> | [-> | [-> | [-> | [-> | [-> | [-> | [-> | [-> | [-> | [-> | ->]]]]]]]]]]];
    match goal with |- In (_, _, ?e) _ => first [replace e with 1 by (cbn; lia) | replace e with 0 by (cbn; lia)] end;
    vm_compute; tauto.
Qed.

Lemma day_number_bounds y m d : 0 <= y -> 1 <= m <= 12 -> 1 <= d <= 31 ->
  (date_le (1969, 12, 31) (y, m, d) <-> day_number 1969 12 31 <= day_number y m d) /\
  (date_le (y, m, d) (2038, 1, 19) <-> day_number y m d <= day_number 2038 1 19).
Proof.
  intros Hy Hm Hd. destruct (day_number_month y m d Hm) as (y' & f & -> & Hin).
  change (day_number 1969 12 31) with 719467. change (day_number 2038 1 19) with 744323. unfold date_le.
  cbn [In] in Hin. repeat (destruct Hin as [Hin | Hin]; [injection Hin as <- <- E; Z.div_mod_to_equations; lia |]). done.
Qed.

Lemma month_length_bound y m : month_length y m <= 31.
Proof. unfold month_length. repeat case_match; lia. Qed.

(** the rough check of TIMESTAMP values accepts a valid time of the clock exactly
    when it lies in the days 1969-12-31 to 2038-01-19; hence it never rejects a
    time whose instant fits a TIMESTAMP, for a clock at most 20 hours, 45 minutes
    and 52 seconds ahead of UTC and at most a day behind, and the instant of an
    accepted time is out of range by less than two days. *)
Theorem timestamp_check_is_safe t offset : time_ok t -> -86400 <= offset <= 74752 ->
  (validate_timestamp_range t = true <-> -86400 <= local_seconds t <= TIMESTAMP_MAX_VALUE + 74752) /\
  (IS_TIME_T_VALID_FOR_TIMESTAMP (utc_seconds t offset) = true -> validate_timestamp_range t = true) /\
  (validate_timestamp_range t = true -> -172800 < utc_seconds t offset < TIMESTAMP_MAX_VALUE + 172800).
Proof.
  intros (Hy & Hm & Hd & Hh & Hi & Hs) Ho. pose proof (month_length_bound (year t) (month t)) as Hl.
  destruct (day_number_bounds (year t) (month t) (day t)) as [E1 E2]; [lia | done | lia |].
  assert (Hv : validate_timestamp_range t = true <-> -86400 <= local_seconds t <= TIMESTAMP_MAX_VALUE + 74752).
  { rewrite validate_dates, E1, E2 by lia. unfold local_seconds, utc_seconds, TIMESTAMP_MAX_VALUE.
    change (day_number 1970 1 1) with 719468. change (day_number 1969 12 31) with 719467. change (day_number 2038 1 19) with 744323. lia. }
  assert (El : local_seconds t = utc_seconds t offset + offset) by (unfold local_seconds, utc_seconds; lia).
  split; [done |]. rewrite Hv, El. unfold IS_TIME_T_VALID_FOR_TIMESTAMP, TIMESTAMP_MAX_VALUE, TIMESTAMP_MIN_VALUE.
  split; [rewrite andb_true_iff, !Z.leb_le |]; lia.
Qed.

(** 2038-01-19 05:14:07 on a clock two hours ahead of UTC: the last second. *)
Lemma timestamp_check_is_safe_witness :
  let t := Time 2038 1 19 5 14 7 0 false MYSQL_TIMESTAMP_DATETIME in utc_seconds t 7200 = TIMESTAMP_MAX_VALUE /\ validate_timestamp_range t = true.
Proof.
  intros t. split; [reflexivity |].
  destruct (timestamp_check_is_safe t 7200) as (_ & H & _); [vm_compute; intuition discriminate | lia |]. apply H. reflexivity.
Defined.

(** [log_10_int] holds the powers of ten, as far as they are used. *)
Definition powers_of_ten (log_10_int : Z -> Z) : Prop := forall i, 0 <= i <= 6 -> log_10_int i = 10 ^ i.

Lemma fraction_unit l d W : powers_of_ten l -> 0 <= d <= 6 -> 32 <= W ->
  l (u32 (TIME_SECOND_PART_DIGITS - d)) = 10 ^ (6 - d) /\ s64 (10 ^ (6 - d)) = 10 ^ (6 - d) /\
  swrap W (10 ^ (6 - d)) = 10 ^ (6 - d) /\ 1 <= 10 ^ (6 - d) <= 1000000.
Proof.
  intros Hp Hd HW. unfold TIME_SECOND_PART_DIGITS. rewrite u32_small by lia. rewrite Hp by lia.
  assert (H : 1 <= 10 ^ (6 - d) <= 1000000).
  { split; [pose proof (Z.pow_pos_nonneg 10 (6 - d)); lia |]. change 1000000 with (10 ^ 6). apply Z.pow_le_mono_r; lia. }
  assert (2 ^ 31 <= 2 ^ (W - 1)) by (apply Z.pow_le_mono_r; lia).
  split_and!; [done | apply swrap_small; lia | apply swrap_small; lia | lia | lia].
Qed.

Lemma ulong_second_part W z : 32 <= W -> 0 <= z <= TIME_MAX_SECOND_PART -> swrap W z = z /\ wrap W z = z.
Proof.
  unfold TIME_MAX_SECOND_PART. intros HW Hz. assert (2 ^ 31 <= 2 ^ (W - 1) /\ 2 ^ 32 <= 2 ^ W) as [? ?] by (split; apply Z.pow_le_mono_r; lia).
  split; [apply swrap_small | apply wrap_small; unfold is_word]; lia.
Qed.

(** Only the fraction of a second changes. *)
Definition set_second_part (t : MYSQL_TIME) (u : Z) : MYSQL_TIME :=
  Time (year t) (month t) (day t) (hour t) (minute t) (second t) u (neg t) (time_type t).

Lemma my_time_trunc_value l W t d : powers_of_ten l -> 32 <= W -> 0 <= d <= 6 -> 0 <= second_part t <= TIME_MAX_SECOND_PART ->
  my_time_fraction_remainder l W (second_part t) d = Some (second_part t mod 10 ^ (6 - d)) /\
  my_time_trunc l W t d = Some (set_second_part t (second_part t - second_part t mod 10 ^ (6 - d))).
Proof.
  intros Hp HW Hd Hs. destruct (fraction_unit l d W Hp Hd HW) as (El & E64 & EW & Hu).
  pose proof (Z.mod_pos_bound (second_part t) (10 ^ (6 - d))) as Hr. pose proof (Z.mod_le (second_part t) (10 ^ (6 - d))) as Hl.
  assert (Ef : my_time_fraction_remainder l W (second_part t) d = Some (second_part t mod 10 ^ (6 - d))).
  { unfold my_time_fraction_remainder. rewrite El, EW, Z.rem_mod_nonneg by lia.
    destruct (Z.leb_spec d TIME_SECOND_PART_DIGITS); [done | unfold TIME_SECOND_PART_DIGITS in *; lia]. }
  split; [done |]. destruct (ulong_second_part W (second_part t)) as [Es _]; [done.. |].
  unfold my_time_trunc. rewrite Es, Ef. cbn [mbind option_bind]. unfold set_second_part. repeat f_equal.
  apply (ulong_second_part W); lia.
Qed.

(** truncating a fraction of a second to [d] digits keeps those digits and
    clears the rest: it is the largest multiple of the unit not above it, stays
    a valid fraction, does not change when truncated again, and is what shifting
    the digits out and back in gives; shifting in and out is the identity.  Only
    the fraction changes.  More than six digits fail the assertion. *)
Theorem fraction_truncation l W t d : powers_of_ten l -> 32 <= W -> 0 <= d <= 6 -> 0 <= second_part t <= TIME_MAX_SECOND_PART ->
  exists t', my_time_trunc l W t d = Some t' /\
    let u := 10 ^ (6 - d) in
    second_part t' = second_part t - second_part t mod u /\ 0 <= second_part t' <= second_part t /\
    (exists k, second_part t' = k * u) /\ second_part t < second_part t' + u /\
    my_timeval_trunc l W (second_part t) d = Some (second_part t') /\
    my_time_trunc l W t' d = Some t' /\
    sec_part_unshift l (sec_part_shift l (second_part t) d) d = second_part t' /\
    (forall n, 0 <= n < 10 ^ d -> sec_part_shift l (sec_part_unshift l n d) d = n) /\
    (year t', month t', day t', hour t', minute t', second t', neg t', time_type t') =
    (year t, month t, day t, hour t, minute t, second t, neg t, time_type t).
Proof.
  intros Hp HW Hd Hs. destruct (fraction_unit l d W Hp Hd HW) as (El & E64 & EW & Hu).
  destruct (my_time_trunc_value l W t d) as [Er ->]; [done.. |]. eexists. split; [reflexivity |].
  cbn [set_second_part second_part year month day hour minute second neg time_type].
  unfold my_timeval_trunc, sec_part_shift, sec_part_unshift. rewrite Er, !El, E64. unfold TIME_MAX_SECOND_PART in Hs.
  set (u := 10 ^ (6 - d)) in *. set (s := second_part t) in *. rewrite (Z.quot_div_nonneg s u) by lia.
  pose proof (Z.div_mod s u) as Ed. pose proof (Z.mod_pos_bound s u) as Hr. pose proof (Z.div_pos s u) as Hq.
  assert (Et : s - s mod u = s `div` u * u) by lia. split_and!; try done; try nia.
  - exists (s `div` u). exact Et.
  - destruct (my_time_trunc_value l W (set_second_part t (s - s mod u)) d) as [_ ->]; cbn [set_second_part second_part];
      unfold TIME_MAX_SECOND_PART; [done.. | nia |].
    fold u. by rewrite Et, Z_mod_mult, Z.sub_0_r.
  - rewrite Et. apply swrap_small; nia.
  - intros n Hn. assert (Hmul : 10 ^ d * u = 1000000) by (unfold u; rewrite <- Z.pow_add_r by lia; by replace (d + (6 - d)) with 6 by lia).
    replace (s64 (n * u)) with (n * u) by (symmetry; apply swrap_small; nia). apply Z.quot_mul. lia.
Qed.

(** 0.123456 seconds to three digits; [long] has 32 bits. *)
Lemma fraction_truncation_witness :
  exists t', my_time_trunc (fun i => 10 ^ i) 32 (Time 2024 1 1 0 0 0 123456 false MYSQL_TIMESTAMP_DATETIME) 3 = Some t' /\ second_part t' = 123000.
Proof.
  destruct (fraction_truncation (fun i => 10 ^ i) 32 (Time 2024 1 1 0 0 0 123456 false MYSQL_TIMESTAMP_DATETIME) 3) as (t' & H & E & _);
    [intros i _; reflexivity | lia | lia | vm_compute; split; discriminate |].
  exists t'. split; [exact H | rewrite E; reflexivity].
Defined.
