(* ===== verification/Calendar.v ===== *)
(** * Calendar: the numbers of days in the Gregorian calendar

    [day_number] of MyTime.v counts days with a formula; here it is related to the
    lengths of the months, and shown to keep the order of days.  There is no code
    of the program in this file. *)

From stdpp Require Import base numbers list.
From Stdlib Require Import ZArith Lia.
From S2P Require Import Prelude MyTime.

Local Open Scope Z_scope.

(** The days of the months of a year before month [m]. *)
Definition days_before (y m : Z) : Z := foldr Z.add 0 (month_length y <$> seqZ 1 (m - 1)).

(** The order of days. *)
Definition day_lt (t u : Z * Z * Z) : Prop :=
  let '(y1, m1, d1) := t in let '(y2, m2, d2) := u in y1 < y2 \/ y1 = y2 /\ (m1 < m2 \/ m1 = m2 /\ d1 < d2).

Definition day_ok (t : Z * Z * Z) : Prop := let '(y, m, d) := t in 1 <= m <= 12 /\ 1 <= d <= month_length y m.

Lemma february y : 28 <= month_length y 2 <= 29 /\
  month_length y 2 - 28 = (y `div` 4 - y `div` 100 + y `div` 400) - ((y - 1) `div` 4 - (y - 1) `div` 100 + (y - 1) `div` 400).
Proof.
  unfold month_length. cbn [Z.eqb Pos.eqb].
  destruct (Z.eqb_spec (y mod 4) 0), (Z.eqb_spec (y mod 100) 0), (Z.eqb_spec (y mod 400) 0); cbn [negb andb orb];
    (split; [lia | Z.div_mod_to_equations; lia]).
Qed.

(** The lengths of the months before [m], for a February of [f] days. *)
Definition months_before (f m : Z) : Z :=
  nth (Z.to_nat m) [0; 0; 31; 31 + f; 62 + f; 92 + f; 123 + f; 153 + f; 184 + f; 215 + f; 245 + f; 276 + f; 306 + f; 337 + f] 0.

(** Lists the months before a given one, with their lengths. *)
Ltac months_step y :=
  match goal with |- context [seqZ 1 ?k] => let l := eval vm_compute in (seqZ 1 k) in change (seqZ 1 k) with l end;
  cbn [fmap list_fmap foldr];
  repeat match goal with |- context [month_length y ?k] =>
    lazymatch k with 2 => fail | _ => let v := eval vm_compute in (month_length y k) in change (month_length y k) with v end end;
  set (f := month_length y 2); clearbody f;
  match goal with |- context [Z.to_nat ?k] => let v := eval vm_compute in (Z.to_nat k) in change (Z.to_nat k) with v end; cbn [nth].

Lemma month_cases (P : Z -> Prop) : (forall i, In i [1; 2; 3; 4; 5; 6; 7; 8; 9; 10; 11; 12; 13] -> P i) -> forall m, 1 <= m <= 13 -> P m.
Proof. intros H m Hm. apply H. cbn. lia. Qed.

Lemma days_before_months y m : 1 <= m <= 13 -> days_before y m = months_before (month_length y 2) m.
Proof.
  apply (month_cases (fun m => days_before y m = months_before (month_length y 2) m)). intros i Hi.
  cbn in Hi. repeat (destruct Hi as [<- | Hi]; [unfold days_before, months_before; months_step y; lia |]). done.
Qed.
(** The number of a day: the days before its year, before its month, in its month. *)
Lemma day_number_in_year y m d : 1 <= m <= 12 -> day_number y m d = day_number y 1 1 + days_before y m + d - 1.
Proof.
  intros Hm. rewrite days_before_months by lia. destruct (february y) as [Hf El]. set (f := month_length y 2) in *. clearbody f.
  assert (Hi : In m [1; 2; 3; 4; 5; 6; 7; 8; 9; 10; 11; 12]) by (cbn; lia). cbn in Hi. unfold day_number, months_before.
  repeat (destruct Hi as [<- | Hi]; [
    repeat match goal with
    | |- context [(153 * ?a + 2) `div` 5] => let v := eval vm_compute in ((153 * a + 2) `div` 5) in change ((153 * a + 2) `div` 5) with v
    | |- context [Z.to_nat ?k] => let v := eval vm_compute in (Z.to_nat k) in change (Z.to_nat k) with v
    end; cbn [nth Z.leb Z.compare Pos.compare Pos.compare_cont]; lia |]).
  done.
Qed.

Lemma next_year y : day_number (y + 1) 1 1 = day_number y 1 1 + days_before y 13.
Proof.
  rewrite days_before_months by lia. destruct (february y) as [Hf El]. set (f := month_length y 2) in *. clearbody f.
  unfold day_number, months_before. cbn [Z.leb Z.compare Pos.compare Pos.compare_cont]. replace (y + 1 - 1) with y by lia.
  change (Z.to_nat 13) with 13%nat. cbn [nth]. lia.
Qed.

Lemma month_length_pos y m : 28 <= month_length y m.
Proof. unfold month_length. repeat case_match; lia. Qed.

Lemma days_before_step y m : 1 <= m <= 12 -> days_before y (m + 1) = days_before y m + month_length y m.
Proof.
  intros Hm. rewrite !days_before_months by lia. assert (Hi : In m [1; 2; 3; 4; 5; 6; 7; 8; 9; 10; 11; 12]) by (cbn; lia). cbn in Hi.
  repeat (destruct Hi as [<- | Hi]; [
    repeat match goal with
    | |- context [month_length y ?k] =>
        lazymatch k with 2 => fail | _ => let v := eval vm_compute in (month_length y k) in change (month_length y k) with v end
    end; set (f := month_length y 2); clearbody f; unfold months_before;
    repeat match goal with |- context [Z.to_nat ?k] => let v := eval vm_compute in (Z.to_nat k) in change (Z.to_nat k) with v end;
    cbn [nth]; lia |]).
  done.
Qed.

Lemma days_before_mono y m n : 1 <= m < n -> n <= 13 -> days_before y m + month_length y m <= days_before y n.
Proof.
  intros Hm Hn. rewrite <- days_before_step by lia.
  assert (H : forall k : nat, m + 1 + Z.of_nat k <= 13 -> days_before y (m + 1) <= days_before y (m + 1 + Z.of_nat k)).
  { induction k as [| k IH]; intros Hk; [by rewrite Z.add_0_r |].
    replace (m + 1 + Z.of_nat (S k)) with (m + 1 + Z.of_nat k + 1) by lia.
    rewrite (days_before_step y (m + 1 + Z.of_nat k)) by lia.
    pose proof (month_length_pos y (m + 1 + Z.of_nat k)). specialize (IH ltac:(lia)). lia. }
  specialize (H (Z.to_nat (n - m - 1)) ltac:(lia)). by replace (m + 1 + Z.of_nat (Z.to_nat (n - m - 1))) with n in H by lia.
Qed.

Lemma year_start_mono y z : y < z -> day_number (y + 1) 1 1 <= day_number z 1 1.
Proof.
  intros H. assert (Hk : forall k : nat, day_number (y + 1) 1 1 <= day_number (y + 1 + Z.of_nat k) 1 1).
  { induction k as [| k IH]; [by rewrite Z.add_0_r |]. replace (y + 1 + Z.of_nat (S k)) with (y + 1 + Z.of_nat k + 1) by lia.
    rewrite (next_year (y + 1 + Z.of_nat k)). rewrite days_before_months by lia. destruct (february (y + 1 + Z.of_nat k)) as [Hf _].
    set (f := month_length _ _) in *. clearbody f. unfold months_before. change (Z.to_nat 13) with 13%nat. cbn [nth]. lia. }
  specialize (Hk (Z.to_nat (z - y - 1))). by replace (y + 1 + Z.of_nat (Z.to_nat (z - y - 1))) with z in Hk by lia.
Qed.

(** Days are numbered in their order. *)
Lemma day_number_lt y m d z n e : day_ok (y, m, d) -> day_ok (z, n, e) -> day_lt (y, m, d) (z, n, e) ->
  day_number y m d < day_number z n e.
Proof.
  intros [Hm Hd] [Hn He] Hlt.
  rewrite (day_number_in_year y m d), (day_number_in_year z n e) by done. destruct Hlt as [Hy | [-> [Hmn | [-> Hde]]]]; [| | lia].
  - pose proof (year_start_mono y z Hy) as H1. rewrite next_year in H1. pose proof (days_before_mono y m 13 ltac:(lia) ltac:(lia)).
    assert (H0 : 0 <= days_before z n).
    { destruct (decide (n = 1)) as [-> | Hn1]; [done |]. pose proof (days_before_mono z 1 n ltac:(lia) ltac:(lia)) as H2.
      pose proof (month_length_pos z 1). change (days_before z 1) with 0 in H2. lia. }
    lia.
  - pose proof (days_before_mono z m n ltac:(lia) ltac:(lia)). lia.
Qed.

Lemma days_before_bounds y m : 1 <= m <= 12 -> 0 <= days_before y m <= 337.
Proof.
  intros Hm. assert (Hf := february y). rewrite days_before_months by lia. set (f := month_length y 2) in *. clearbody f.
  assert (Hi : In m [1; 2; 3; 4; 5; 6; 7; 8; 9; 10; 11; 12]) by (cbn; lia). cbn in Hi. unfold months_before.
  repeat (destruct Hi as [<- | Hi]; [
    match goal with |- context [Z.to_nat ?k] => let v := eval vm_compute in (Z.to_nat k) in change (Z.to_nat k) with v end; cbn [nth]; lia |]).
  done.
Qed.

Lemma day_trichotomy t u : day_lt t u \/ t = u \/ day_lt u t.
Proof.
  destruct t as [[y m] d], u as [[z n] e]. cbn.
  destruct (Z.lt_trichotomy y z) as [H | [-> | H]]; [by left; left | | by right; right; left].
  destruct (Z.lt_trichotomy m n) as [H | [-> | H]]; [left; right; by split; [| left] | | right; right; right; by split; [| left]].
  destruct (Z.lt_trichotomy d e) as [H | [-> | H]]; [left; right; split; [done | by right] | by right; left | right; right; right; split; [done | by right]].
Qed.

Lemma day_lt_irrefl t : ~ day_lt t t.
Proof. destruct t as [[y m] d]. cbn. lia. Qed.

Lemma day_lt_asym t u : day_lt t u -> ~ day_lt u t.
Proof. destruct t as [[y m] d], u as [[z n] e]. cbn. lia. Qed.
