(* ===== verification/TimeLib.v ===== *)
(** * TimeLib: what temporal values use of the time library ([my_time.h], [sql_time.h])

    The classes of [sql_type.h] call functions that are compiled into the server
    and only declared in the headers.  [TimeLib] has them as operations, together
    with the types of session, item, double and decimal values that are passed
    through, and the choices of the platform.  A function that writes through a
    pointer returns what it writes; what was there before is an argument.
    [TimeLaws] is what is relied on.  [civil_lib] is an instance of both.

    The inline functions of [sql_time.h] are at the end. *)

From stdpp Require Import base numbers list option.
From Stdlib Require Import ZArith Lia.
From S2P Require Import Prelude DateMode MyTime.

Local Open Scope Z_scope.

Declare Scope dbug_scope.
Delimit Scope dbug_scope with dbug.

(** The debug assertion [b], then the rest. *)
Definition dbug_assert {A} (b : bool) (k : option A) : option A := if b then k else None.
Notation "'ASSERT' b ;; k" := (dbug_assert b k) (at level 100, b at next level, k at level 200, right associativity) : dbug_scope.

(** A step that may have no result, with its parts. *)
Notation "'DO' p <- x ;; k" := (match x with Some p => k | None => None end)
  (at level 100, p pattern, x at next level, k at level 200, right associativity) : dbug_scope.

(** ** The operations *)

Class TimeLib := {
  THD : Type; Item : Type; double : Type; my_decimal : Type; text : Type;
  (** the signedness of the type of an enum, the width of [long] *)
  enum_signed : bool; long_bits : Z;
  log_10_int : Z -> Z;
  double_of : Z -> double; double_add : double -> double -> double;
  double_div : double -> double -> double; double_neg : double -> double;
  set_zero_time : MYSQL_TIME -> timestamp_type -> MYSQL_TIME;
  (** sign, number, microseconds, limit of the hour, target, warnings: the return value, the target, the warnings *)
  number_to_time_only : bool -> Z -> Z -> Z -> MYSQL_TIME -> Z -> bool * MYSQL_TIME * Z;
  (** number, microseconds, target, flags, warnings *)
  number_to_datetime_or_date : Z -> Z -> MYSQL_TIME -> Z -> Z -> Z * MYSQL_TIME * Z;
  (** text, target, flags, status, two limits of the hour *)
  str_to_datetime_or_date_or_time : text -> MYSQL_TIME -> Z -> MYSQL_TIME_STATUS -> Z -> Z -> bool * MYSQL_TIME * MYSQL_TIME_STATUS;
  str_to_datetime_or_date_or_interval_hhmmssff : text -> MYSQL_TIME -> Z -> MYSQL_TIME_STATUS -> Z -> Z -> bool * MYSQL_TIME * MYSQL_TIME_STATUS;
  str_to_datetime_or_date_or_interval_day : text -> MYSQL_TIME -> Z -> MYSQL_TIME_STATUS -> Z -> Z -> bool * MYSQL_TIME * MYSQL_TIME_STATUS;
  str_to_datetime_or_date : text -> MYSQL_TIME -> Z -> MYSQL_TIME_STATUS -> bool * MYSQL_TIME * MYSQL_TIME_STATUS;
  (** value, decimals, warnings *)
  check_time_range : MYSQL_TIME -> Z -> Z -> bool * MYSQL_TIME * Z;
  check_datetime_range : MYSQL_TIME -> bool;
  (** value, whether it is not zero, flags, warnings *)
  check_date : MYSQL_TIME -> bool -> Z -> Z -> bool * Z;
  check_date_with_warn : THD -> MYSQL_TIME -> conv_t -> timestamp_type -> bool;
  (** minuend, subtrahend, sign: whether the result is negative, seconds, microseconds *)
  calc_time_diff : MYSQL_TIME -> MYSQL_TIME -> Z -> bool * Z * Z;
  calc_time_diff_time : MYSQL_TIME -> MYSQL_TIME -> Z -> MYSQL_TIME -> date_t -> bool * MYSQL_TIME;
  calc_time_from_sec : MYSQL_TIME -> Z -> Z -> MYSQL_TIME;
  adjust_time_range_with_warn : THD -> MYSQL_TIME -> Z -> bool * MYSQL_TIME;
  (** number of a day, the old year, month and day: the new ones *)
  get_date_from_daynr : Z -> Z * Z * Z -> bool * (Z * Z * Z);
  set_current_date : THD -> MYSQL_TIME -> MYSQL_TIME;
  calc_daynr : Z -> Z -> Z -> Z;
  calc_weekday : Z -> bool -> Z;
  (** value, behaviour, the old year: the week and the year *)
  calc_week : MYSQL_TIME -> Z -> Z -> Z * Z;
  pack_time : MYSQL_TIME -> Z;
  TIME_to_ulonglong : MYSQL_TIME -> Z;
  TIME_to_ulonglong_date : MYSQL_TIME -> Z;
  TIME_to_ulonglong_datetime : MYSQL_TIME -> Z;
  TIME_to_ulonglong_time : MYSQL_TIME -> Z;
  TIME_to_double : MYSQL_TIME -> double }.

(** ** Values *)

(** Linear arithmetic that knows the limits. *)
Ltac time_lia :=
  unfold TIME_MAX_HOUR, TIME_MAX_MINUTE, TIME_MAX_SECOND, TIME_MAX_SECOND_PART, TIME_SECOND_PART_DIGITS in *; lia.

(** A fraction, seconds and minutes in their ranges. *)
Record mmssff_ok (t : MYSQL_TIME) : Prop := {
  ok_minute : 0 <= minute t <= TIME_MAX_MINUTE; ok_second : 0 <= second t <= TIME_MAX_SECOND;
  ok_second_part : 0 <= second_part t <= TIME_MAX_SECOND_PART }.

(** A TIME value of at most [max_hour] hours. *)
Record is_TIME (max_hour : Z) (t : MYSQL_TIME) : Prop := {
  TIME_type : time_type t = MYSQL_TIMESTAMP_TIME;
  TIME_no_date : year t = 0 /\ month t = 0 /\ day t = 0;
  TIME_hour : 0 <= hour t <= max_hour;
  TIME_mmssff : mmssff_ok t }.

(** The members of a DATE or DATETIME in the ranges that [mysql_time.h] documents. *)
Record date_members_ok (t : MYSQL_TIME) : Prop := {
  date_year : 0 <= year t <= 9999; date_month : 0 <= month t <= 12; date_day : 0 <= day t <= 31;
  date_hour : 0 <= hour t <= 23; date_mmssff : mmssff_ok t }.

(** A DATE or a DATETIME. *)
Record is_DATE (t : MYSQL_TIME) : Prop := {
  DATE_type : time_type t = MYSQL_TIMESTAMP_DATE \/ time_type t = MYSQL_TIMESTAMP_DATETIME;
  DATE_neg : neg t = false;
  DATE_members : date_members_ok t }.

(** The members are unsigned. *)
Record members_nonneg (t : MYSQL_TIME) : Prop := {
  nn_year : 0 <= year t; nn_month : 0 <= month t; nn_day : 0 <= day t; nn_hour : 0 <= hour t;
  nn_minute : 0 <= minute t; nn_second : 0 <= second t; nn_second_part : 0 <= second_part t }.

(** The seconds of hours, minutes and seconds; the microseconds of the value without its sign. *)
Definition hms_seconds (t : MYSQL_TIME) : Z := 3600 * hour t + 60 * minute t + second t.
Definition daytime_us (days : Z) (t : MYSQL_TIME) : Z := (86400 * days + hms_seconds t) * 1000000 + second_part t.

(** The largest TIME whose fraction has [dec] digits. *)
Definition max_TIME (dec : Z) (ng : bool) : MYSQL_TIME :=
  Time 0 0 0 TIME_MAX_HOUR TIME_MAX_MINUTE TIME_MAX_SECOND (1000000 - 10 ^ (6 - dec)) ng MYSQL_TIMESTAMP_TIME.

(** The value with days, as TIME or DATETIME, that [calc_time_diff] measures. *)
Definition abs_us `{TimeLib} (t : MYSQL_TIME) : Z :=
  daytime_us (if decide (time_type t = MYSQL_TIMESTAMP_TIME) then day t else calc_daynr (year t) (month t) (day t)) t.

(** ** What is relied on *)

Class TimeLaws (L : TimeLib) : Prop := {
  long_width : long_bits = 32 \/ long_bits = 64;
  log_10_powers : powers_of_ten log_10_int;
  set_zero_time_spec t ty : set_zero_time t ty = Time 0 0 0 0 0 0 0 false ty;
  (** a success is a TIME with at most the given hours, an error is warned of *)
  number_to_time_only_spec ng nr us mh to w : 0 <= nr < 2 ^ 64 -> 0 <= us <= TIME_MAX_SECOND_PART -> 0 <= mh ->
    let '(rc, t, w') := number_to_time_only ng nr us mh to w in if rc : bool then w' <> 0 else is_TIME mh t /\ neg t = ng;
  (** -1 is an error, and warned of; anything else is not negative and comes with a DATE or DATETIME *)
  number_to_datetime_or_date_spec nr us to fl w : 0 <= us <= TIME_MAX_SECOND_PART ->
    let '(rc, t, w') := number_to_datetime_or_date nr us to fl w in rc = -1 /\ w' <> 0 \/ 0 <= rc /\ is_DATE t;
  (** a value over 838 hours becomes the largest TIME with [dec] digits; one below stays *)
  check_time_range_spec t dec w : is_TIME (2 ^ 32 - 1) t -> 0 <= dec <= 6 ->
    let '(rc, t', w') := check_time_range t dec w in
    rc = false /\ is_TIME TIME_MAX_HOUR t' /\ neg t' = neg t /\ (hour t < TIME_MAX_HOUR -> t' = t) /\
    (TIME_MAX_HOUR < hour t -> t' = max_TIME dec (neg t));
  check_datetime_range_spec t : members_nonneg t -> time_type t <> MYSQL_TIMESTAMP_TIME ->
    check_datetime_range t = false <-> date_members_ok t;
  (** absolute values are subtracted ([sign] is 1) or added ([sign] is -1) *)
  calc_time_diff_spec t u sign : sign = 1 \/ sign = -1 ->
    let '(ng, s, us) := calc_time_diff t u sign in
    let d := abs_us t - sign * abs_us u in
    ng = bool_decide (d < 0) /\ s = Z.abs d / 1000000 /\ us = Z.abs d mod 1000000;
  (** the difference of two dates is a TIME, of any size *)
  calc_time_diff_time_spec t u t3 fl : is_DATE t -> is_DATE u -> is_TIME (2 ^ 32 - 1) (calc_time_diff_time t u 1 t3 fl).2;
  set_current_date_spec thd t : is_DATE (set_current_date thd t);
  (** days are counted as in the Gregorian calendar *)
  calc_daynr_spec y m d : 1 <= y <= 9999 -> 1 <= m <= 12 -> 1 <= d <= 31 -> calc_daynr y m d = day_number y m d + 60;
  (** the sign of the target is kept *)
  calc_time_from_sec_spec t s us : 0 <= s < 86400 ->
    calc_time_from_sec t s us = Time 0 0 0 (s / 3600) (s mod 3600 / 60) (s mod 60) us (neg t) MYSQL_TIMESTAMP_TIME }.

(** ** [sql_time.h] *)

(* [sql_time.h:62-69 datetime_to_date] *)
Definition datetime_to_date (t : MYSQL_TIME) : option MYSQL_TIME :=
  match time_type t with
  | MYSQL_TIMESTAMP_DATE | MYSQL_TIMESTAMP_DATETIME =>
      if neg t then None else Some (Time (year t) (month t) (day t) 0 0 0 0 (neg t) MYSQL_TIMESTAMP_DATE)
  | _ => None
  end.

(** A value with another type. *)
Definition set_time_type (t : MYSQL_TIME) (ty : timestamp_type) : MYSQL_TIME :=
  Time (year t) (month t) (day t) (hour t) (minute t) (second t) (second_part t) (neg t) ty.

(* [sql_time.h:70-76 date_to_datetime] *)
Definition date_to_datetime (t : MYSQL_TIME) : option MYSQL_TIME :=
  match time_type t with
  | MYSQL_TIMESTAMP_DATE | MYSQL_TIMESTAMP_DATETIME =>
      if neg t then None else Some (set_time_type t MYSQL_TIMESTAMP_DATETIME)
  | _ => None
  end.

(* [sql_time.h:152-156 non_zero_hhmmssuu] *)
Definition non_zero_hhmmssuu (t : MYSQL_TIME) : bool :=
  negb (hour t =? 0) || negb (minute t =? 0) || negb (second t =? 0) || negb (second_part t =? 0).
(* [sql_time.h:157-161 non_zero_YYMMDD] *)
Definition non_zero_YYMMDD (t : MYSQL_TIME) : bool :=
  negb (year t =? 0) || negb (month t =? 0) || negb (day t =? 0).
(* [sql_time.h:162-168 non_zero_date] *)
Definition non_zero_date (t : MYSQL_TIME) : bool :=
  non_zero_YYMMDD t || (bool_decide (time_type t = MYSQL_TIMESTAMP_DATETIME) && non_zero_hhmmssuu t).

Section sql_time.
Context `{L : TimeLib}.

(** The flags of a conversion that dates look at. *)
Definition date_flags (flags : conv_t) : Z :=
  conv_ulonglong (conv_and enum_signed flags (TIME_MODE_FOR_XXX_TO_DATE enum_signed)).

(* [sql_time.h:169-174 check_date(date_conv_mode_t)] *)
Definition check_date_conv (t : MYSQL_TIME) (flags : conv_t) (was_cut : Z) : bool * Z :=
  check_date t (non_zero_date t) (date_flags flags) was_cut.
(* [sql_time.h:177-182 check_date_with_warn(date_mode_t)] *)
Definition check_date_with_warn_mode (thd : THD) (t : MYSQL_TIME) (fuzzydate : date_t) (ts_type : timestamp_type) : bool :=
  check_date_with_warn thd t (date_to_conv enum_signed fuzzydate) ts_type.
End sql_time.

(** ** An instance *)

(** Numbers are read as hhmmss and yyyymmddhhmmss; a text is such a number. *)
Definition civil_time (ng : bool) (nr us mh : Z) (to : MYSQL_TIME) (w : Z) : bool * MYSQL_TIME * Z :=
  let h := nr / 10000 in let i := nr / 100 mod 100 in let s := nr mod 100 in
  if (TIME_MAX_MINUTE <? i) || (TIME_MAX_SECOND <? s) then (true, to, MYSQL_TIME_WARN_TRUNCATED)
  else if mh <? h then (false, Time 0 0 0 mh TIME_MAX_MINUTE TIME_MAX_SECOND TIME_MAX_SECOND_PART ng MYSQL_TIMESTAMP_TIME, MYSQL_TIME_WARN_OUT_OF_RANGE)
  else (false, Time 0 0 0 h i s us ng MYSQL_TIMESTAMP_TIME, 0).

Definition members_in_range (t : MYSQL_TIME) : bool :=
  (year t <=? 9999) && (month t <=? 12) && (day t <=? 31) && (hour t <=? 23) && (minute t <=? 59) && (second t <=? 59) &&
  (second_part t <=? 999999).

Definition civil_datetime (nr us : Z) (to : MYSQL_TIME) (fl w : Z) : Z * MYSQL_TIME * Z :=
  let t := Time (nr / 10000000000) (nr / 100000000 mod 100) (nr / 1000000 mod 100) (nr / 10000 mod 100) (nr / 100 mod 100)
                (nr mod 100) us false MYSQL_TIMESTAMP_DATETIME in
  if (nr <? 0) || negb (members_in_range t) then (-1, to, MYSQL_TIME_WARN_TRUNCATED) else (nr, t, 0).

Definition civil_range (t : MYSQL_TIME) (dec w : Z) : bool * MYSQL_TIME * Z :=
  if hour t <=? TIME_MAX_HOUR then (false, t, w) else (false, max_TIME dec (neg t), Z.lor w MYSQL_TIME_WARN_OUT_OF_RANGE).

Definition civil_daynr (y m d : Z) : Z := day_number y m d + 60.

Definition civil_diff (t u : MYSQL_TIME) (sign : Z) : bool * Z * Z :=
  let v t := daytime_us (if decide (time_type t = MYSQL_TIMESTAMP_TIME) then day t else civil_daynr (year t) (month t) (day t)) t in
  let d := v t - sign * v u in (bool_decide (d < 0), Z.abs d / 1000000, Z.abs d mod 1000000).

Definition civil_hhmmss (t : MYSQL_TIME) : Z := 10000 * hour t + 100 * minute t + second t.
Definition civil_yyyymmdd (t : MYSQL_TIME) : Z := 10000 * year t + 100 * month t + day t.
Definition civil_pack (t : MYSQL_TIME) : Z :=
  let v := daytime_us (372 * year t + 31 * month t + day t) t in if neg t then - v else v.

Definition civil_lib : TimeLib := {|
  THD := unit; Item := MYSQL_TIME; double := Z * Z; my_decimal := Z * Z; text := Z;
  enum_signed := true; long_bits := 32; log_10_int := fun i => 10 ^ i;
  double_of := fun z => (z, 1); double_add := fun a b => (a.1 * b.2 + b.1 * a.2, a.2 * b.2);
  double_div := fun a b => (a.1 * b.2, a.2 * b.1); double_neg := fun a => (- a.1, a.2);
  set_zero_time := fun _ ty => Time 0 0 0 0 0 0 0 false ty;
  number_to_time_only := civil_time;
  number_to_datetime_or_date := civil_datetime;
  str_to_datetime_or_date_or_time := fun s to fl st mh eh => let '(rc, t, w) := civil_time false s 0 mh to 0 in (rc, t, Status w 0 0);
  str_to_datetime_or_date_or_interval_hhmmssff := fun s to fl st mh eh =>
    let '(rc, t, w) := civil_time false s 0 mh to 0 in (rc, t, Status w 0 0);
  str_to_datetime_or_date_or_interval_day := fun s to fl st mh eh => let '(rc, t, w) := civil_time false s 0 mh to 0 in (rc, t, Status w 0 0);
  str_to_datetime_or_date := fun s to fl st => let '(rc, t, w) := civil_datetime s 0 to fl 0 in (rc =? -1, t, Status w 0 0);
  check_time_range := civil_range;
  check_datetime_range := fun t => negb (members_in_range t);
  check_date := fun t nz fl w => (false, w);
  check_date_with_warn := fun _ t fl ty => false;
  calc_time_diff := civil_diff;
  calc_time_diff_time := fun t u sign to fl =>
    let '(ng, s, us) := civil_diff t u sign in (false, Time 0 0 0 (s / 3600) (s mod 3600 / 60) (s mod 60) us ng MYSQL_TIMESTAMP_TIME);
  calc_time_from_sec := fun t s us => Time 0 0 0 (s / 3600) (s mod 3600 / 60) (s mod 60) us (neg t) MYSQL_TIMESTAMP_TIME;
  adjust_time_range_with_warn := fun _ t dec => (civil_range t dec 0).1;
  get_date_from_daynr := fun n ymd => (false, ymd);
  set_current_date := fun _ _ => Time 2020 7 1 0 0 0 0 false MYSQL_TIMESTAMP_DATE;
  calc_daynr := civil_daynr;
  calc_weekday := fun n sunday => (n + 5 + (if sunday then 1 else 0)) mod 7;
  calc_week := fun t b y => ((civil_daynr (year t) (month t) (day t) - civil_daynr (year t) 1 1) / 7, year t);
  pack_time := civil_pack;
  TIME_to_ulonglong := fun t => if decide (time_type t = MYSQL_TIMESTAMP_TIME) then civil_hhmmss t else 1000000 * civil_yyyymmdd t + civil_hhmmss t;
  TIME_to_ulonglong_date := civil_yyyymmdd;
  TIME_to_ulonglong_datetime := fun t => 1000000 * civil_yyyymmdd t + civil_hhmmss t;
  TIME_to_ulonglong_time := civil_hhmmss;
  TIME_to_double := fun t => (civil_hhmmss t, 1) |}.

Lemma civil_time_ok ng nr us mh to w : 0 <= nr -> 0 <= us <= TIME_MAX_SECOND_PART -> 0 <= mh ->
  let '(rc, t, w') := civil_time ng nr us mh to w in if rc : bool then w' <> 0 else is_TIME mh t /\ neg t = ng.
Proof.
  intros Hn Hu Hm. unfold civil_time. destruct (_ || _) eqn:E; [done |].
  pose proof (Z.mod_pos_bound (nr / 100) 100). pose proof (Z.mod_pos_bound nr 100). pose proof (Z.div_pos nr 10000).
  apply orb_false_iff in E as [?%Z.ltb_ge ?%Z.ltb_ge].
  destruct (mh <? nr / 10000) eqn:E; (split; [| done]); constructor; cbn; try done; try (constructor; cbn); time_lia.
Qed.

Lemma members_in_range_spec t : members_nonneg t -> members_in_range t = true <-> date_members_ok t.
Proof.
  intros []. unfold members_in_range. rewrite !andb_true_iff, !Z.leb_le.
  split; [intros ((((((? & ?) & ?) & ?) & ?) & ?) & ?) | intros [? ? ? ? []]; time_lia].
  constructor; [lia.. | constructor; time_lia].
Qed.

Lemma civil_datetime_ok nr us to fl w : 0 <= us <= TIME_MAX_SECOND_PART ->
  let '(rc, t, w') := civil_datetime nr us to fl w in rc = -1 /\ w' <> 0 \/ 0 <= rc /\ is_DATE t.
Proof.
  intros Hu. unfold civil_datetime. destruct (_ || _) eqn:E; [by left |]. right.
  apply orb_false_iff in E as [Hn%Z.ltb_ge E%negb_false_iff]. split; [done |]. constructor; [by right | done |].
  apply members_in_range_spec; [| done]. constructor; cbn; try apply Z.mod_pos_bound; try apply Z.div_pos; lia.
Qed.

Lemma civil_range_ok t dec w : is_TIME (2 ^ 32 - 1) t -> 0 <= dec <= 6 ->
  let '(rc, t', w') := civil_range t dec w in
  rc = false /\ is_TIME TIME_MAX_HOUR t' /\ neg t' = neg t /\ (hour t < TIME_MAX_HOUR -> t' = t) /\
  (TIME_MAX_HOUR < hour t -> t' = max_TIME dec (neg t)).
Proof.
  intros [Ht Hd Hh Hm] Hdec. unfold civil_range.
  destruct (hour t <=? TIME_MAX_HOUR) eqn:E; [apply Z.leb_le in E | apply Z.leb_gt in E];
    (split; [done |]); (split; [| split; [done |]]).
  - constructor; [done.. | lia | done].
  - split; intros H; [done | lia].
  - assert (1 <= 10 ^ (6 - dec) <= 1000000).
    { pose proof (Z.pow_pos_nonneg 10 (6 - dec)). split; [lia |]. change 1000000 with (10 ^ 6). apply Z.pow_le_mono_r; lia. }
    constructor; cbn; try done. constructor; cbn; time_lia.
  - split; intros H; [lia | done].
Qed.

Lemma civil_daynr_bounds y m d : 0 <= y <= 9999 -> 0 <= m <= 12 -> 0 <= d <= 31 -> -400 <= civil_daynr y m d <= 3660000.
Proof.
  intros Hy Hm Hd. unfold civil_daynr, day_number. cbv zeta. pose proof (Z.mod_pos_bound (m + 9) 12).
  set (k := (m + 9) mod 12) in *. clearbody k. set (y' := if m <=? 2 then y - 1 else y).
  assert (-1 <= y' <= 9999) by (unfold y'; destruct (m <=? 2); lia). clearbody y'. Z.div_mod_to_equations. lia.
Qed.

Lemma civil_difference_ok t u : is_DATE t -> is_DATE u ->
  let '(ng, s, us) := civil_diff t u 1 in
  is_TIME (2 ^ 32 - 1) (Time 0 0 0 (s / 3600) (s mod 3600 / 60) (s mod 60) us ng MYSQL_TIMESTAMP_TIME).
Proof.
  intros [T1 T2 [T3 T4 T5 T6 [T7 T8 T9]]] [U1 U2 [U3 U4 U5 U6 [U7 U8 U9]]]. unfold civil_diff.
  rewrite !decide_False by (destruct T1, U1; congruence).
  pose proof (civil_daynr_bounds (year t) (month t) (day t) T3 T4 T5). pose proof (civil_daynr_bounds (year u) (month u) (day u) U3 U4 U5).
  assert (Hd : forall d x, -400 <= d <= 3660000 -> 0 <= hour x <= 23 -> 0 <= minute x <= TIME_MAX_MINUTE -> 0 <= second x <= TIME_MAX_SECOND ->
    0 <= second_part x <= TIME_MAX_SECOND_PART -> Z.abs (daytime_us d x) < 400000000000 * 1000000) by (unfold daytime_us, hms_seconds; intros; time_lia).
  pose proof (Hd _ t H T6 T7 T8 T9) as Ht. pose proof (Hd _ u H0 U6 U7 U8 U9) as Hu.
  set (x := daytime_us _ t - 1 * daytime_us _ u). assert (Hx : 0 <= Z.abs x < 800000000000 * 1000000) by lia. clearbody x.
  set (a := Z.abs x) in *. clearbody a. assert (Hs : 0 <= a / 1000000 < 800000000000) by (Z.div_mod_to_equations; lia).
  pose proof (Z.mod_pos_bound a 1000000). set (s := a / 1000000) in *. clearbody s.
  constructor; cbn; [done | done | Z.div_mod_to_equations; lia |]. constructor; cbn; [| | time_lia]; Z.div_mod_to_equations; time_lia.
Qed.

#[export] Instance civil_laws : TimeLaws civil_lib.
Proof.
  constructor; cbn.
  - by left.
  - by intros i _.
  - done.
  - intros ng nr us mh to w Hn. apply civil_time_ok. lia.
  - intros nr us to fl w. apply civil_datetime_ok.
  - apply civil_range_ok.
  - intros t Hn _. by rewrite negb_false_iff, members_in_range_spec.
  - intros t u sign _. by unfold civil_diff, abs_us.
  - intros t u t3 fl Ht Hu. exact (civil_difference_ok t u Ht Hu).
  - intros _ _. constructor; cbn; [by left | done |]. constructor; cbn; try lia. constructor; cbn; time_lia.
  - done.
  - done.
Qed.
