(* ===== verification/SecValue.v ===== *)
(** * SecValue: seconds with a fraction ([Sec6], [Sec9], [VSec9], [Sec6_add] of [sql_type.h])

    A [Sec6] is a sign, seconds and microseconds; a [Sec9] has nanoseconds beyond
    them.  Decimal and double values become such numbers in functions that are
    compiled into the server: [SecMembers].  A failing assertion has no result. *)

From stdpp Require Import base numbers list option.
From Stdlib Require Import ZArith Lia.
From S2P Require Import Prelude SqlInt DateMode MyTime TimeLib.

Local Open Scope Z_scope.
Local Open Scope dbug_scope.

(** [long] and [unsigned long]. *)
Definition long `{TimeLib} (z : Z) : Z := swrap long_bits z.
Definition ulong `{TimeLib} (z : Z) : Z := wrap long_bits z.

Module Sec6.
(* [sql_type.h:437-443 Sec6] *)
Record t := Mk { m_sec : Z; m_usec : Z; m_neg : bool; m_truncated : bool }.

Definition set_usec (this : t) (u : Z) : t := Mk (m_sec this) u (m_neg this) (m_truncated this).

(* [sql_type.h:446-452 Sec6::make_from_int] *)
Definition make_from_int (nr : Longlong_hybrid) : option t :=
  s ← SqlInt.abs nr; Some (Mk s 0 (SqlInt.neg nr) false).
(* [sql_type.h:453-456 Sec6::reset] *)
Definition reset : t := Mk 0 0 false false.
(* [sql_type.h:480-483 Sec6::Sec6(Longlong_hybrid)] *)
Definition of_longlong_hybrid (nr : Longlong_hybrid) : option t := make_from_int nr.
(* [sql_type.h:484-487 Sec6::Sec6(longlong, bool)] *)
Definition of_longlong (nr : Z) (unsigned_val : bool) : option t := make_from_int (mk_Longlong_hybrid nr unsigned_val).
(* [sql_type.h:488-488 Sec6::neg] *)
Definition neg (this : t) : bool := m_neg this.
(* [sql_type.h:489-489 Sec6::truncated] *)
Definition truncated (this : t) : bool := m_truncated this.
(* [sql_type.h:490-490 Sec6::sec] *)
Definition sec (this : t) : Z := m_sec this.
End Sec6.

Module Sec9.
(* [sql_type.h:608-611 Sec9] *)
Record t := Mk { base : Sec6.t; m_nsec : Z }.
(* [sql_type.h:612-616 Sec9::make_from_int] *)
Definition make_from_int (nr : Longlong_hybrid) : option t := b ← Sec6.make_from_int nr; Some (Mk b 0).
(* [sql_type.h:627-627 Sec9::nsec] *)
Definition nsec (this : t) : Z := m_nsec this.
End Sec9.

(** The members that are compiled elsewhere: number and nanoseconds of a decimal
    and of a double; the conversion of a number, with the warnings and the target;
    rounding. *)
Class SecMembers (L : TimeLib) := {
  make_from_decimal : my_decimal -> Sec6.t * Z;
  make_from_double : double -> Sec6.t * Z;
  convert_to_mysql_time : Sec6.t -> THD -> Z -> MYSQL_TIME -> date_t -> bool * Z * MYSQL_TIME;
  Sec9_round : Sec9.t -> Z -> Sec9.t }.

(** A fraction of microseconds and one of nanoseconds in their ranges. *)
Record sec6_ok (s : Sec6.t) : Prop := {
  ok_sec : 0 <= Sec6.m_sec s < 2 ^ 64; ok_usec : 0 <= Sec6.m_usec s <= TIME_MAX_SECOND_PART }.
Definition nsec_ok (n : Z) : Prop := 0 <= n <= 999.

Class SecLaws {L : TimeLib} (M : SecMembers L) : Prop := {
  make_from_decimal_spec d : sec6_ok (make_from_decimal d).1 /\ nsec_ok (make_from_decimal d).2;
  make_from_double_spec d : sec6_ok (make_from_double d).1 /\ nsec_ok (make_from_double d).2;
  Sec9_round_spec s dec : sec6_ok (Sec9.base s) -> sec6_ok (Sec9.base (Sec9_round s dec));
  convert_to_mysql_time_spec s thd w to md : sec6_ok s ->
    let '(rc, w', t) := convert_to_mysql_time s thd w to md in
    if rc : bool then w' <> 0 else is_DATE t \/ is_TIME TIME_MAX_INTERVAL_HOUR t }.

Section sec.
Context `{M : SecMembers}.
Abbreviation Sec6_t := Sec6.t.

(* [sql_type.h:458-468 Sec6::add_nanoseconds] *)
Definition add_nanoseconds (this : Sec6_t) (nanoseconds : Z) : option (bool * Sec6_t) :=
  ASSERT (nanoseconds <=? 1000000000) ;;
  if nanoseconds <? 500 then Some (false, this) else
  let u := ulong (Sec6.m_usec this + u32 (nanoseconds + 500) / 1000) in
  if u <? 1000000 then Some (false, Sec6.set_usec this u) else Some (true, Sec6.set_usec this (u mod 1000000)).

(* [sql_type.h:470-474 Sec6::Sec6(double)] *)
Definition Sec6_of_double (nr : double) : Sec6_t := fst (make_from_double nr).
(* [sql_type.h:475-479 Sec6::Sec6(my_decimal)] *)
Definition Sec6_of_decimal (d : my_decimal) : Sec6_t := fst (make_from_decimal d).
(* [sql_type.h:491-491 Sec6::usec] *)
Definition usec (this : Sec6_t) : Z := long (Sec6.m_usec this).

(* [sql_type.h:507-511 Sec6::to_interval_hhmmssff_only] *)
Definition to_interval_hhmmssff_only (this : Sec6_t) (to : MYSQL_TIME) (warn : Z) : bool * MYSQL_TIME * Z :=
  number_to_time_only (Sec6.m_neg this) (Sec6.m_sec this) (Sec6.m_usec this) TIME_MAX_INTERVAL_HOUR to warn.

(* [sql_type.h:558-571 Sec6::to_datetime_or_date] *)
Definition to_datetime_or_date (this : Sec6_t) (to : MYSQL_TIME) (warn : Z) (flags : conv_t) : option (bool * MYSQL_TIME * Z) :=
  if Sec6.m_neg this then Some (true, to, MYSQL_TIME_WARN_OUT_OF_RANGE) else
  let '(r, to, warn) := number_to_datetime_or_date (s64 (Sec6.m_sec this)) (Sec6.m_usec this) to (date_flags flags) warn in
  let rc := r =? -1 in
  ASSERT (negb (warn =? 0) || negb rc) ;; Some (rc, to, warn).

(* [sql_type.h:512-541 Sec6::to_datetime_or_to_interval_hhmmssff] *)
Definition to_datetime_or_to_interval_hhmmssff (this : Sec6_t) (to : MYSQL_TIME) (warn : Z) : option (bool * MYSQL_TIME * Z) :=
  ASSERT (TIME_MAX_INTERVAL_HOUR <=? 999999995959) ;;
  if (999999995959 <? Sec6.m_sec this) && (Sec6.m_sec this <=? 99991231235959) && negb (Sec6.m_neg this)
  then to_datetime_or_date this to warn (TIME_INVALID_DATES enum_signed)
  else if TIME_MAX_INTERVAL_HOUR <? Sec6.m_sec this / 10000 then Some (true, to, MYSQL_TIME_WARN_OUT_OF_RANGE)
  else Some (to_interval_hhmmssff_only this to warn).

(* [sql_type.h:544-553 Sec6::to_datetime_or_time] *)
Definition to_datetime_or_time (this : Sec6_t) (to : MYSQL_TIME) (warn : Z) (mode : conv_t) : option (bool * MYSQL_TIME * Z) :=
  let '(rc, to, warn) :=
    if (9999999 <? Sec6.m_sec this) && (Sec6.m_sec this <=? 99991231235959) && negb (Sec6.m_neg this)
    then let '(r, to, warn) := number_to_datetime_or_date (s64 (Sec6.m_sec this)) (Sec6.m_usec this) to (date_flags mode) warn in
         (r <? 0, to, warn)
    else number_to_time_only (Sec6.m_neg this) (Sec6.m_sec this) (Sec6.m_usec this) TIME_MAX_HOUR to warn in
  ASSERT (negb (warn =? 0) || negb rc) ;; Some (rc, to, warn).

(** [unused] is what the local variable of that name holds. *)
(* [sql_type.h:573-591 Sec6::sec_to_time] *)
Definition sec_to_time (this : Sec6_t) (ltime : MYSQL_TIME) (dec unused : Z) : option (bool * MYSQL_TIME) :=
  let z := set_zero_time ltime MYSQL_TIMESTAMP_TIME in
  if TIME_MAX_VALUE_SECONDS <? Sec6.m_sec this then
    let z := Time (year z) (month z) (day z) (TIME_MAX_HOUR + 1) (minute z) (second z) (second_part z) (Sec6.m_neg this) (time_type z) in
    Some (true, (check_time_range z dec unused).1.2)
  else
    ASSERT (usec this <=? TIME_MAX_SECOND_PART) ;;
    Some (false, Time (year z) (month z) (day z) (u32 (Sec6.m_sec this / 3600)) (u32 (Sec6.m_sec this mod 3600) / 60)
      (u32 (Sec6.m_sec this) mod 60) (Sec6.m_usec this) (Sec6.m_neg this) (time_type z)).

(* [sql_type.h:592-596 Sec6::trunc] *)
Definition trunc (this : Sec6_t) (dec : Z) : option Sec6_t :=
  r ← my_time_fraction_remainder log_10_int long_bits (long (Sec6.m_usec this)) dec;
  Some (Sec6.set_usec this (ulong (Sec6.m_usec this - r))).

(** ** [Sec9] and [VSec9] *)

(* [sql_type.h:619-622 Sec9::Sec9(my_decimal)] *)
Definition Sec9_of_decimal (d : my_decimal) : Sec9.t := let '(b, n) := make_from_decimal d in Sec9.Mk b n.
(* [sql_type.h:623-626 Sec9::Sec9(double)] *)
Definition Sec9_of_double (d : double) : Sec9.t := let '(b, n) := make_from_double d in Sec9.Mk b n.
(* [sql_type.h:628-633 Sec9::trunc] *)
Definition Sec9_trunc (this : Sec9.t) (dec : Z) : option Sec9.t := b ← trunc (Sec9.base this) dec; Some (Sec9.Mk b 0).
(* [sql_type.h:635-638 Sec9::round(uint, time_round_mode_t)] *)
Definition Sec9_round_mode (this : Sec9.t) (dec : Z) (mode : round_t) : option Sec9.t :=
  tr ← TIME_FRAC_TRUNCATE enum_signed; if round_eq mode tr then Sec9_trunc this dec else Some (Sec9_round this dec).

(* [sql_type.h:642-644 VSec9] *)
Record VSec9 := { v_sec9 : Sec9.t; v_is_null : bool }.
(* [sql_type.h:645-649 VSec9::to_sec9] *)
Definition to_sec9 (v : VSec9) : option Sec9.t := ASSERT (negb (v_is_null v)) ;; Some (v_sec9 v).
(* [sql_type.h:653-657 VSec9::to_const_sec9] *)
Definition to_const_sec9 (v : VSec9) : option Sec9.t := ASSERT (negb (v_is_null v)) ;; Some (v_sec9 v).
(* [sql_type.h:658-658 VSec9::neg] *)
Definition VSec9_neg (v : VSec9) : option bool := s ← to_const_sec9 v; Some (Sec6.neg (Sec9.base s)).
(* [sql_type.h:659-659 VSec9::truncated] *)
Definition VSec9_truncated (v : VSec9) : option bool := s ← to_const_sec9 v; Some (Sec6.truncated (Sec9.base s)).
(* [sql_type.h:660-660 VSec9::sec] *)
Definition VSec9_sec (v : VSec9) : option Z := s ← to_const_sec9 v; Some (Sec6.sec (Sec9.base s)).
(* [sql_type.h:661-661 VSec9::usec] *)
Definition VSec9_usec (v : VSec9) : option Z := s ← to_const_sec9 v; Some (usec (Sec9.base s)).
(* [sql_type.h:662-665 VSec9::sec_to_time] *)
Definition VSec9_sec_to_time (v : VSec9) (ltime : MYSQL_TIME) (dec unused : Z) : option (bool * MYSQL_TIME) :=
  s ← to_const_sec9 v; sec_to_time (Sec9.base s) ltime dec unused.
(* [sql_type.h:670-673 VSec9::round] *)
Definition VSec9_round (v : VSec9) (dec : Z) : option Sec9.t := s ← to_sec9 v; Some (Sec9_round s dec).
(* [sql_type.h:674-677 VSec9::round(uint, time_round_mode_t)] *)
Definition VSec9_round_mode (v : VSec9) (dec : Z) (mode : round_t) : option Sec9.t := s ← to_sec9 v; Sec9_round_mode s dec mode.

(** ** [Sec6_add] *)

(* [sql_type.h:686-691 Sec6_add] *)
Record Sec6_add := Add { a_sec : Z; a_usec : Z; a_neg : bool; a_error : bool }.

(** [u] is the uninitialised object; [sign] is 1 or -1. *)
(* [sql_type.h:706-718 Sec6_add::Sec6_add] *)
Definition mk_Sec6_add (ltime1 ltime2 : MYSQL_TIME) (sign : Z) (u : Sec6_add) : option Sec6_add :=
  ASSERT (sign =? -1) || (sign =? 1) ;;
  ASSERT negb (neg ltime1) || bool_decide (time_type ltime1 = MYSQL_TIMESTAMP_TIME) ;;
  let m_error := negb (bool_decide (time_type ltime2 = MYSQL_TIMESTAMP_TIME)) in
  if negb m_error then
    let sign := if negb (Bool.eqb (neg ltime1) (neg ltime2)) then - sign else sign in
    let '(m_neg, m_sec, m_usec) := calc_time_diff ltime1 ltime2 (- sign) in
    let m_neg := if neg ltime1 && (negb (m_sec =? 0) || negb (m_usec =? 0)) then negb m_neg else m_neg in
    Some (Add m_sec m_usec m_neg m_error)
  else Some (Add (a_sec u) (a_usec u) (a_neg u) m_error).

(* [sql_type.h:736-736 Sec6_add::to_days_abs] *)
Definition to_days_abs (this : Sec6_add) : Z := long (a_sec this / SECONDS_IN_24H).

(* [sql_type.h:692-698 Sec6_add::to_hh24mmssff] *)
Definition to_hh24mmssff (this : Sec6_add) (tstype : timestamp_type) : MYSQL_TIME :=
  let z := Time 0 0 0 0 0 0 0 (a_neg this) MYSQL_TIMESTAMP_DATE in
  set_time_type (calc_time_from_sec z (ulong (a_sec this mod SECONDS_IN_24H)) (a_usec this)) tstype.

(* [sql_type.h:719-726 Sec6_add::to_time] *)
Definition to_time (this : Sec6_add) (thd : THD) (ltime : MYSQL_TIME) (decimals : Z) : bool * MYSQL_TIME :=
  if a_error this then (true, ltime) else
  let t := to_hh24mmssff this MYSQL_TIMESTAMP_TIME in
  let t := Time (year t) (month t) (day t) (u32 (hour t + u32 (long (to_days_abs this * 24)))) (minute t) (second t)
                (second_part t) (neg t) (time_type t) in
  adjust_time_range_with_warn thd t decimals.

(* [sql_type.h:727-735 Sec6_add::to_datetime] *)
Definition to_datetime (this : Sec6_add) (ltime : MYSQL_TIME) : bool * MYSQL_TIME :=
  if a_error this || a_neg this then (true, ltime) else
  let t := to_hh24mmssff this MYSQL_TIMESTAMP_DATETIME in
  let '(err, (y, m, d)) := get_date_from_daynr (to_days_abs this) (year t, month t, day t) in
  (err || (d =? 0), Time y m d (hour t) (minute t) (second t) (second_part t) (neg t) (time_type t)).
End sec.

(** ** What they compute *)

(** A value with a sign. *)
Definition signed (ng : bool) (v : Z) : Z := if ng then - v else v.

(** The microseconds of a time with its sign, of a sum. *)
Definition time_us `{TimeLib} (t : MYSQL_TIME) : Z := signed (neg t) (abs_us t).
Definition add_us (a : Sec6_add) : Z := signed (a_neg a) (1000000 * a_sec a + a_usec a).

(** What a conversion of a number leaves: an error was warned of, a success is of the type [P]. *)
Definition converted (P : MYSQL_TIME -> Prop) (r : option (bool * MYSQL_TIME * Z)) : Prop :=
  exists rc t w, r = Some (rc, t, w) /\ if rc : bool then w <> 0 else P t.

Lemma converted_assert P rc t w : (if rc : bool then w <> 0 else P t) ->
  converted P (dbug_assert (negb (w =? 0) || negb rc) (Some (rc, t, w))).
Proof.
  intros H. exists rc, t, w. destruct rc; [| by rewrite orb_true_r].
  by apply Z.eqb_neq in H as E; rewrite E.
Qed.

Section laws.
Context {L : TimeLib} {TL : TimeLaws L} {M : SecMembers L} {SL : SecLaws M}.

Lemma long_small z : - 2 ^ 31 <= z < 2 ^ 31 -> long z = z.
Proof. intros H. unfold long. destruct long_width as [-> | ->]; apply swrap_small; lia. Qed.
Lemma ulong_small z : 0 <= z < 2 ^ 32 -> ulong z = z.
Proof. intros H. unfold ulong. destruct long_width as [-> | ->]; apply wrap_small; unfold is_word; lia. Qed.

Lemma add_nanoseconds_ok s ns : sec6_ok s -> 0 <= ns <= 1000000000 ->
  exists carry s', add_nanoseconds s ns = Some (carry, s') /\ sec6_ok s' /\
    Sec6.m_sec s' = Sec6.m_sec s /\ Sec6.m_neg s' = Sec6.m_neg s /\
    Sec6.m_usec s' + 1000000 * Z.b2z carry = Sec6.m_usec s + (ns + 500) / 1000.
Proof.
  intros [Hs Hu] Hn. unfold add_nanoseconds, dbug_assert. destruct (Z.leb_spec ns 1000000000); [| lia].
  assert (0 <= (ns + 500) / 1000 <= 1000000) by (Z.div_mod_to_equations; lia).
  destruct (Z.ltb_spec ns 500).
  - exists false, s. repeat (split; [done |]). rewrite Z.div_small by lia. cbn. lia.
  - rewrite u32_small, ulong_small by time_lia. set (u := Sec6.m_usec s + (ns + 500) / 1000).
    destruct (Z.ltb_spec u 1000000); eexists _, _; (split; [reflexivity |]); cbn; (split; [| split; [done | split; [done |]]]); try (constructor; cbn).
    all: subst u; Z.div_mod_to_equations; time_lia.
Qed.

Lemma sec6_trunc_ok s dec : sec6_ok s -> 0 <= dec <= 6 ->
  trunc s dec = Some (Sec6.set_usec s (Sec6.m_usec s - Sec6.m_usec s mod 10 ^ (6 - dec))).
Proof.
  intros [Hs Hu] Hd. unfold trunc. rewrite long_small by time_lia.
  assert (HW : 32 <= long_bits) by (destruct long_width as [-> | ->]; lia).
  set (t := Time 0 0 0 0 0 0 (Sec6.m_usec s) false MYSQL_TIMESTAMP_TIME).
  destruct (my_time_trunc_value log_10_int long_bits t dec) as [E _]; [apply log_10_powers | done.. |].
  cbn [t second_part] in E. rewrite E. cbn [mbind option_bind].
  pose proof (Z.mod_pos_bound (Sec6.m_usec s) (10 ^ (6 - dec))). pose proof (Z.mod_le (Sec6.m_usec s) (10 ^ (6 - dec))).
  pose proof (Z.pow_pos_nonneg 10 (6 - dec)). rewrite ulong_small by time_lia. done.
Qed.

Lemma to_datetime_or_date_ok s to w fl : sec6_ok s -> converted is_DATE (to_datetime_or_date s to w fl).
Proof.
  intros [_ Hu]. unfold to_datetime_or_date. destruct (Sec6.m_neg s).
  - exists true, to, MYSQL_TIME_WARN_OUT_OF_RANGE. done.
  - pose proof (number_to_datetime_or_date_spec (s64 (Sec6.m_sec s)) (Sec6.m_usec s) to (date_flags fl) w Hu) as Hn.
    destruct (number_to_datetime_or_date _ _ _ _ _) as [[r t] w']. apply converted_assert.
    destruct Hn as [[-> ?] | [? ?]]; [done |]. by destruct (Z.eqb_spec r (-1)); [lia |].
Qed.

Lemma to_datetime_or_time_ok s to w md : sec6_ok s ->
  converted (fun t => is_DATE t \/ is_TIME TIME_MAX_HOUR t) (to_datetime_or_time s to w md).
Proof.
  intros [Hs Hu]. unfold to_datetime_or_time. destruct (_ && _).
  - pose proof (number_to_datetime_or_date_spec (s64 (Sec6.m_sec s)) (Sec6.m_usec s) to (date_flags md) w Hu) as Hn.
    destruct (number_to_datetime_or_date _ _ _ _ _) as [[r t] w']. apply converted_assert.
    destruct Hn as [[-> ?] | [? ?]]; [done |]. destruct (Z.ltb_spec r 0); [lia | by left].
  - pose proof (number_to_time_only_spec (Sec6.m_neg s) (Sec6.m_sec s) (Sec6.m_usec s) TIME_MAX_HOUR to w Hs Hu) as Hn.
    destruct (number_to_time_only _ _ _ _ _ _) as [[rc t] w']. apply converted_assert.
    destruct rc; [by apply Hn | by right; apply Hn].
Qed.

Lemma to_interval_ok s to w : sec6_ok s ->
  converted (fun t => is_DATE t \/ is_TIME TIME_MAX_INTERVAL_HOUR t) (to_datetime_or_to_interval_hhmmssff s to w).
Proof.
  intros Hok. pose proof Hok as [Hs Hu]. unfold to_datetime_or_to_interval_hhmmssff. cbn [dbug_assert]. destruct (_ && _).
  - destruct (to_datetime_or_date_ok s to w (TIME_INVALID_DATES enum_signed) Hok) as (rc & t & w' & -> & H).
    exists rc, t, w'. split; [done |]. destruct rc; [done | by left].
  - destruct (_ <? _); [by exists true, to, MYSQL_TIME_WARN_OUT_OF_RANGE |].
    pose proof (number_to_time_only_spec (Sec6.m_neg s) (Sec6.m_sec s) (Sec6.m_usec s) TIME_MAX_INTERVAL_HOUR to w Hs Hu) as Hn.
    unfold to_interval_hhmmssff_only. destruct (number_to_time_only _ _ _ _ _ _) as [[rc t] w'].
    exists rc, t, w'. split; [done |]. destruct rc; [by apply Hn | by right; apply Hn].
Qed.

Lemma hybrid_sign nr : longlong_wf nr ->
  SqlInt.neg nr = bool_decide (hybrid_value nr < 0) /\ 0 <= Z.abs (hybrid_value nr) < 2 ^ 64.
Proof.
  unfold longlong_wf, SqlInt.neg, hybrid_value, LONGLONG_MIN, LONGLONG_MAX. set (v := m_value (base_value nr)). intros Hv.
  destruct (m_unsigned nr).
  - pose proof (is_word_wrap 64 v) as Hw. unfold is_word in Hw. rewrite andb_false_r, bool_decide_false; unfold u64; lia.
  - rewrite andb_true_r. split; [| lia]. destruct (Z.ltb_spec v 0); symmetry; [apply bool_decide_true | apply bool_decide_false]; lia.
Qed.

(** An integer as seconds: sign and absolute value, no fraction. *)
Lemma make_from_int_ok nr : longlong_wf nr ->
  exists s, Sec6.make_from_int nr = Some s /\ sec6_ok s /\ Sec6.m_usec s = 0 /\ Sec6.m_truncated s = false /\
    Sec6.m_neg s = bool_decide (hybrid_value nr < 0) /\ signed (Sec6.m_neg s) (Sec6.m_sec s) = hybrid_value nr.
Proof.
  intros Hw. unfold Sec6.make_from_int. rewrite abs_value by done. cbn [mbind option_bind].
  destruct (hybrid_sign nr Hw) as [Hn Hr]. eexists. split; [reflexivity |]. cbn.
  split; [constructor; cbn; [lia | time_lia] |]. rewrite Hn.
  destruct (bool_decide_reflect (hybrid_value nr < 0)); cbn; repeat (split; [done |]); lia.
Qed.

(** seconds become a TIME: up to 838:59:59 the hours, minutes, seconds and
    the fraction of the result add up to the number of seconds that was given,
    with its sign; beyond that the result is reported as too large and is the
    largest TIME with the digits asked for.  No assertion fails. *)
Theorem sec_to_time_spec s lt dec unused : sec6_ok s -> 0 <= dec <= 6 ->
  exists over t, sec_to_time s lt dec unused = Some (over, t) /\ is_TIME TIME_MAX_HOUR t /\ neg t = Sec6.m_neg s /\
    over = bool_decide (TIME_MAX_VALUE_SECONDS < Sec6.m_sec s) /\
    (over = false -> hms_seconds t = Sec6.m_sec s /\ second_part t = Sec6.m_usec s) /\
    (over = true -> t = max_TIME dec (Sec6.m_neg s)).
Proof.
  intros [Hs Hu] Hd. unfold sec_to_time. rewrite set_zero_time_spec. cbn [year month day hour minute second second_part time_type].
  case_bool_decide as Ho; destruct (Z.ltb_spec TIME_MAX_VALUE_SECONDS (Sec6.m_sec s)); try lia.
  - pose proof (check_time_range_spec (Time 0 0 0 (TIME_MAX_HOUR + 1) 0 0 0 (Sec6.m_neg s) MYSQL_TIMESTAMP_TIME) dec unused) as Hc.
    destruct (check_time_range _ _ _) as [[rc t] w]. destruct Hc as (_ & Ht & Hn & _ & Hm); [| done |].
    { constructor; cbn; [done.. | time_lia | constructor; cbn; time_lia]. }
    exists true, t. repeat (split; [done |]). intros _. apply Hm. cbn. lia.
  - unfold usec. rewrite long_small by time_lia. change TIME_MAX_VALUE_SECONDS with 3020399 in *.
    assert (0 <= Sec6.m_sec s / 3600 <= 838 /\ 0 <= Sec6.m_sec s mod 3600 < 3600 /\ 0 <= Sec6.m_sec s mod 60 < 60 /\
            0 <= Sec6.m_sec s mod 3600 / 60 < 60) as (H1 & H2 & H3 & H4) by (Z.div_mod_to_equations; lia).
    unfold dbug_assert. destruct (Z.leb_spec (Sec6.m_usec s) TIME_MAX_SECOND_PART); [| lia].
    rewrite !u32_small by lia. eexists false, _. split; [reflexivity |].
    split; [constructor; cbn; [done.. | time_lia | constructor; cbn; time_lia] |]. cbn. repeat (split; [done |]).
    split; [intros _ | done]. unfold hms_seconds. cbn. split; [Z.div_mod_to_equations; lia | done].
Qed.

Lemma calc_time_from_sec_day t s us : 0 <= s -> calc_time_from_sec t (ulong (s mod SECONDS_IN_24H)) us =
  Time 0 0 0 (s mod 86400 / 3600) (s mod 86400 mod 3600 / 60) (s mod 86400 mod 60) us (neg t) MYSQL_TIMESTAMP_TIME.
Proof.
  intros Hs. pose proof (Z.mod_pos_bound s 86400). unfold SECONDS_IN_24H. rewrite ulong_small by lia. apply calc_time_from_sec_spec. lia.
Qed.

Lemma mk_Sec6_add_ok t1 t2 sign u : sign = 1 \/ sign = -1 -> (neg t1 = true -> time_type t1 = MYSQL_TIMESTAMP_TIME) ->
  0 <= abs_us t1 -> 0 <= abs_us t2 -> time_type t2 = MYSQL_TIMESTAMP_TIME ->
  let sum := time_us t1 + sign * time_us t2 in
  exists a, mk_Sec6_add t1 t2 sign u = Some a /\ a_error a = false /\ add_us a = sum /\ a_neg a = bool_decide (sum < 0) /\
    0 <= a_sec a /\ 0 <= a_usec a < 1000000.
Proof.
  intros Hsign Hn1 H1 H2 Ht2 sum. unfold mk_Sec6_add, dbug_assert.
  assert (Es : (sign =? -1) || (sign =? 1) = true) by (destruct Hsign as [-> | ->]; done).
  assert (En : negb (neg t1) || bool_decide (time_type t1 = MYSQL_TIMESTAMP_TIME) = true).
  { destruct (neg t1); [by rewrite bool_decide_true by auto | done]. }
  rewrite Es, En, (bool_decide_true _ Ht2). cbn [negb].
  set (sg := if negb (Bool.eqb (neg t1) (neg t2)) then - sign else sign).
  pose proof (calc_time_diff_spec t1 t2 (- sg)) as Hc. destruct (calc_time_diff t1 t2 (- sg)) as [[ng s] us].
  destruct Hc as (-> & -> & ->); [subst sg; destruct Hsign as [-> | ->], (neg t1), (neg t2); auto |].
  set (d := abs_us t1 - - sg * abs_us t2).
  assert (Hd : sum = signed (neg t1) d) by (unfold sum, d, sg, time_us; destruct (neg t1), (neg t2); cbn; lia).
  clearbody d sum. clear En. subst sum. eexists. split; [reflexivity |]. unfold add_us. cbn [a_neg a_sec a_usec a_error].
  split; [done |]. rewrite <- Z.div_mod by lia. split; [| split; [| Z.div_mod_to_equations; lia]].
  all: assert (Ez : negb (Z.abs d / 1000000 =? 0) || negb (Z.abs d mod 1000000 =? 0) = negb (d =? 0)) by
    (repeat case (Z.eqb_spec _ 0); cbn [negb orb]; Z.div_mod_to_equations; lia || done).
  all: rewrite Ez; destruct (neg t1), (Z.eqb_spec d 0), (bool_decide_reflect (d < 0)); cbn [andb negb signed];
    first [lia | symmetry; first [apply bool_decide_true | apply bool_decide_false]; lia].
Qed.

(** The time of the day of a sum. *)
Lemma to_hh24mmssff_ok a ty : 0 <= a_sec a -> 0 <= a_usec a < 1000000 ->
  let t := to_hh24mmssff a ty in
  (year t, month t, day t) = (0, 0, 0) /\ neg t = a_neg a /\ time_type t = ty /\ 0 <= hour t <= 23 /\ mmssff_ok t /\
  hms_seconds t = a_sec a mod 86400 /\ second_part t = a_usec a.
Proof.
  intros Hs Hu. cbv zeta. unfold to_hh24mmssff. rewrite calc_time_from_sec_day by done. unfold set_time_type, hms_seconds. cbn.
  set (r := a_sec a mod 86400). assert (0 <= r < 86400) by (apply Z.mod_pos_bound; lia).
  repeat (split; [first [done | Z.div_mod_to_equations; lia] |]). split; [| split; [Z.div_mod_to_equations; lia | done]].
  constructor; cbn; try time_lia; Z.div_mod_to_equations; time_lia.
Qed.

Lemma to_time_ok a thd lt dec : a_error a = false -> 0 <= a_sec a < 3600 * 2 ^ 31 -> 0 <= a_usec a < 1000000 ->
  exists t, to_time a thd lt dec = adjust_time_range_with_warn thd t dec /\ is_TIME (2 ^ 31) t /\
    signed (neg t) (1000000 * hms_seconds t + second_part t) = add_us a.
Proof.
  intros He Hs Hu. unfold to_time. rewrite He.
  destruct (to_hh24mmssff_ok a MYSQL_TIMESTAMP_TIME) as (Hd & Hn & Ht & Hh & Hm & Hms & Hf); [lia.. |].
  set (t := to_hh24mmssff a MYSQL_TIMESTAMP_TIME) in *. clearbody t. injection Hd as Hy Hmo Hda.
  assert (Hq : 0 <= a_sec a / 86400 * 24 < 2 ^ 31) by (Z.div_mod_to_equations; lia).
  assert (Eh : u32 (hour t + u32 (long (to_days_abs a * 24))) = hour t + a_sec a / 86400 * 24).
  { unfold to_days_abs, SECONDS_IN_24H. rewrite (long_small (a_sec a / 86400)), long_small by lia.
    rewrite (u32_small (a_sec a / 86400 * 24)), u32_small by lia. done. }
  rewrite Eh. eexists. split; [reflexivity |].
  split; [constructor; cbn; [done.. | |]; [| by destruct Hm; constructor] |].
  - unfold hms_seconds in Hms. destruct Hm. Z.div_mod_to_equations. lia.
  - unfold add_us. cbn [neg second_part]. rewrite Hn, Hf. f_equal. unfold hms_seconds in *. cbn [hour minute second].
    pose proof (Z.div_mod (a_sec a) 86400). lia.
Qed.

(** the sum and the difference of two times: for a TIME, DATE or DATETIME and
    a TIME the object holds exactly the first value plus or minus the second one,
    as sign, seconds and microseconds, whatever the four signs are; as a TIME, what
    goes into the check of the range has the hours, minutes, seconds and fraction
    of that sum; a negative sum is no DATETIME, another one is the date of its
    number of days and the time of the day that is left. *)
Theorem sec6_add_spec t1 t2 sign u thd lt dec : sign = 1 \/ sign = -1 -> (neg t1 = true -> time_type t1 = MYSQL_TIMESTAMP_TIME) ->
  0 <= abs_us t1 -> 0 <= abs_us t2 -> time_type t2 = MYSQL_TIMESTAMP_TIME ->
  let sum := time_us t1 + sign * time_us t2 in
  exists a, mk_Sec6_add t1 t2 sign u = Some a /\ add_us a = sum /\
    (Z.abs sum < 3600000000 * 2 ^ 31 -> exists t, to_time a thd lt dec = adjust_time_range_with_warn thd t dec /\
      is_TIME (2 ^ 31) t /\ signed (neg t) (1000000 * hms_seconds t + second_part t) = sum) /\
    (sum < 0 -> to_datetime a lt = (true, lt)) /\
    (0 <= sum < 86400000000 * 2 ^ 31 -> exists days t, (to_datetime a lt).2 = t /\ time_type t = MYSQL_TIMESTAMP_DATETIME /\
      neg t = false /\ (year t, month t, day t) = (get_date_from_daynr days (0, 0, 0)).2 /\ mmssff_ok t /\ 0 <= hour t <= 23 /\
      daytime_us days t = sum).
Proof.
  intros Hsign Hn1 H1 H2 Ht2 sum. destruct (mk_Sec6_add_ok t1 t2 sign u Hsign Hn1 H1 H2 Ht2) as (a & Ha & He & Es & Hn0 & Hs & Hu).
  fold sum in Es, Hn0. exists a. split; [done |]. split; [done |]. split; [| split].
  - intros Hb. rewrite <- Es. apply to_time_ok; [done | | done]. unfold add_us, signed in Es. destruct (a_neg a); lia.
  - intros Hb. unfold to_datetime. rewrite He. by rewrite Hn0, bool_decide_true.
  - intros Hb. assert (Hng : a_neg a = false) by (rewrite Hn0; apply bool_decide_false; lia).
    unfold add_us in Es. rewrite Hng in Es. cbn [signed] in Es. unfold to_datetime. rewrite He, Hng. cbn [orb].
    destruct (to_hh24mmssff_ok a MYSQL_TIMESTAMP_DATETIME) as (Hd & Hn & Ht & Hh & Hm & Hms & Hf); [lia.. |].
    set (t := to_hh24mmssff a MYSQL_TIMESTAMP_DATETIME) in *. clearbody t. rewrite Hd.
    exists (to_days_abs a). destruct (get_date_from_daynr _ _) as [err [[y m] d]]. eexists. split; [reflexivity |]. cbn.
    split; [done |]. split; [congruence |]. split; [done |]. split; [by destruct Hm; constructor |]. split; [done |].
    unfold to_days_abs, SECONDS_IN_24H. rewrite long_small by (Z.div_mod_to_equations; lia).
    unfold daytime_us, hms_seconds in *. cbn [hour minute second second_part]. pose proof (Z.div_mod (a_sec a) 86400). lia.
Qed.
End laws.

(** ** Evaluation *)

(** A decimal or double of the instance is a number of seconds and nanoseconds. *)
Definition civil_sec (d : Z * Z) : Sec6.t * Z :=
  (Sec6.Mk (u64 (Z.abs d.1)) (Z.abs d.2 / 1000 mod 1000000) (d.1 <? 0) false, Z.abs d.2 mod 1000).
#[export] Instance civil_members : SecMembers civil_lib :=
  Build_SecMembers civil_lib civil_sec civil_sec
    (fun s thd w to md =>
      match to_datetime_or_date (L := civil_lib) s to w (date_to_conv true md) with Some (rc, t, w') => (rc, w', t) | None => (true, 1, to) end)
    (fun s dec => s).

Lemma civil_sec_ok d : sec6_ok (civil_sec d).1 /\ nsec_ok (civil_sec d).2.
Proof.
  pose proof (is_word_wrap 64 (Z.abs d.1)) as Hw. unfold is_word in Hw. unfold nsec_ok.
  split; [constructor |]; cbn; [apply Hw; done | |]; Z.div_mod_to_equations; time_lia.
Qed.

#[export] Instance civil_sec_laws : SecLaws civil_members.
Proof.
  constructor; cbn; try apply civil_sec_ok; [done |]. intros s thd w to md Hs.
  destruct (to_datetime_or_date_ok (L := civil_lib) s to w (date_to_conv true md) Hs) as (rc & t & w' & -> & H).
  destruct rc; [done | by left].
Qed.

(** 5025.25 seconds are 01:23:45.25; five million seconds are too many. *)
Lemma sec_to_time_spec_witness :
  (exists t, sec_to_time (L := civil_lib) (Sec6.Mk 5025 250000 true false) (Time 1 1 1 1 1 1 1 false MYSQL_TIMESTAMP_DATE) 2 0 = Some (false, t) /\
     t = Time 0 0 0 1 23 45 250000 true MYSQL_TIMESTAMP_TIME /\ hms_seconds t = 5025) /\
  (exists t, sec_to_time (L := civil_lib) (Sec6.Mk 5000000 250000 true false) (Time 1 1 1 1 1 1 1 false MYSQL_TIMESTAMP_DATE) 2 0 = Some (true, t) /\
     t = Time 0 0 0 838 59 59 990000 true MYSQL_TIMESTAMP_TIME).
Proof.
  split.
  - destruct (sec_to_time_spec (L := civil_lib) (Sec6.Mk 5025 250000 true false) (Time 1 1 1 1 1 1 1 false MYSQL_TIMESTAMP_DATE) 2 0)
      as (o & t & E & _ & _ & Eo & H & _); [constructor; vm_compute; intuition discriminate | lia |].
    assert (o = false) as -> by exact Eo. exists t. split; [exact E |]. split; [vm_compute in E; congruence | apply (H eq_refl)].
  - destruct (sec_to_time_spec (L := civil_lib) (Sec6.Mk 5000000 250000 true false) (Time 1 1 1 1 1 1 1 false MYSQL_TIMESTAMP_DATE) 2 0)
      as (o & t & E & _ & _ & Eo & _ & H); [constructor; vm_compute; intuition discriminate | lia |].
    assert (o = true) as -> by exact Eo. exists t. split; [exact E |]. rewrite (H eq_refl). reflexivity.
Defined.

(** -01:00:00 minus 23:30:00.5 is -24:30:00.5. *)
Lemma sec6_add_spec_witness :
  let t1 := Time 0 0 0 1 0 0 0 true MYSQL_TIMESTAMP_TIME in let t2 := Time 0 0 0 23 30 0 500000 false MYSQL_TIMESTAMP_TIME in
  exists a, mk_Sec6_add (L := civil_lib) t1 t2 (-1) (Add 0 0 false false) = Some a /\ add_us a = -88200500000 /\
    to_time (L := civil_lib) a tt t1 6 = (false, Time 0 0 0 24 30 0 500000 true MYSQL_TIMESTAMP_TIME).
Proof.
  intros t1 t2. destruct (sec6_add_spec (L := civil_lib) t1 t2 (-1) (Add 0 0 false false) tt t1 6) as (a & E & Es & _);
    [by right | done | vm_compute; discriminate.. | done |].
  exists a. split; [exact E |]. split; [rewrite Es; reflexivity |]. vm_compute in E. injection E as <-. reflexivity.
Defined.
