(* ===== verification/Temporal.v ===== *)
(** * Temporal: the base class of temporal values ([Temporal], [Temporal_hybrid],
      [Extract_source], [Interval_DDhhmmssff] of [sql_type.h])

    These classes have no members of their own: an object is a [MYSQL_TIME].  A
    method that changes it returns the new value.  Members that are compiled into
    the server are in [TemporalMembers].  A failing assertion and the overflow of a
    signed number have no result. *)

From stdpp Require Import base numbers list option strings.
From Stdlib Require Import ZArith Lia.
From S2P Require Import Prelude SqlInt DateMode MyTime TimeLib SecValue.

Local Open Scope Z_scope.
Local Open Scope dbug_scope.

(** A result of type [int], of type [longlong]. *)
Definition int_ (z : Z) : option Z := if (- 2 ^ 31 <=? z) && (z <? 2 ^ 31) then Some z else None.
Definition longlong_ (z : Z) : option Z := if (LONGLONG_MIN <=? z) && (z <=? LONGLONG_MAX) then Some z else None.

(** What was not converted, kept for the text of a warning. *)
Inductive err_value `{TimeLib} : Type := ErrNone | ErrDouble (d : double) | ErrLonglong (n : Longlong_hybrid) | ErrDecimal (d : my_decimal).

(* [sql_type.h:800-802 Temporal::Warn] *)
Record Warn `{TimeLib} := { w_status : MYSQL_TIME_STATUS; w_err : err_value }.

Definition set_warnings (st : MYSQL_TIME_STATUS) (w : Z) : MYSQL_TIME_STATUS := Status w (precision st) (nanoseconds st).

(** Members that are compiled elsewhere: value, session, warnings, flags and
    nanoseconds; text with a character set, target, status, flags; the value of an item. *)
Class TemporalMembers (L : TimeLib) := {
  add_nanoseconds_with_round : MYSQL_TIME -> THD -> Z -> conv_t -> Z -> bool * MYSQL_TIME * Z;
  hybrid_of_item : THD -> Item -> date_t -> MYSQL_TIME;
  sql_mode_for_dates : THD -> conv_t;
  default_round_mode : THD -> round_t }.

(** A valid hybrid: nothing, a DATE, a DATETIME, or a TIME in the range of intervals. *)
Definition hybrid_ok (t : MYSQL_TIME) : Prop :=
  time_type t = MYSQL_TIMESTAMP_NONE \/ is_DATE t \/ is_TIME TIME_MAX_INTERVAL_HOUR t.

Class TemporalLaws {L : TimeLib} (M : TemporalMembers L) : Prop := {
  add_nanoseconds_with_round_spec t thd w md ns : nsec_ok ns -> is_DATE t \/ is_TIME TIME_MAX_INTERVAL_HOUR t ->
    let '(rc, t', w') := add_nanoseconds_with_round t thd w md ns in
    rc = false -> is_DATE t' \/ is_TIME TIME_MAX_INTERVAL_HOUR t';
  hybrid_of_item_spec thd item md : hybrid_ok (hybrid_of_item thd item md) }.

Section temporal.
Context {L : TimeLib} {M : TemporalMembers L} {SM : SecMembers L}.

(** [mode & flag], as a condition. *)
Definition has_flag (mode : date_t) (flag : conv_t) : bool := conv_bool (and_date_conv enum_signed mode flag).
Definition conv_has (mode flag : conv_t) : bool := conv_bool (conv_and enum_signed mode flag).

(** ** [Temporal] *)

(* [sql_type.h:797-797 Temporal::Status::Status] *)
Definition mk_Status (st : MYSQL_TIME_STATUS) : MYSQL_TIME_STATUS := my_time_status_init st.

(* [sql_type.h:843-845 Temporal::Options::Options] *)
Definition mk_Options (flags : date_t) : date_t := flags.
(* [sql_type.h:846-850 Temporal::Options::Options(date_conv_mode_t, time_round_mode_t)] *)
Definition mk_Options_round (flags : conv_t) (round_mode : round_t) : option date_t :=
  let m := or_conv_round enum_signed flags round_mode in ASSERT (conv_ulonglong flags <=? 2 ^ 32 - 1) ;; Some m.
(* [sql_type.h:851-853 Temporal::Options::Options(date_conv_mode_t, THD)] *)
Definition mk_Options_thd (flags : conv_t) (thd : THD) : option date_t := mk_Options_round flags (default_round_mode thd).

(* [sql_type.h:856-860 Temporal::is_valid_temporal] *)
Definition is_valid_temporal (t : MYSQL_TIME) : option bool :=
  ASSERT negb (bool_decide (time_type t = MYSQL_TIMESTAMP_ERROR)) ;; Some (negb (bool_decide (time_type t = MYSQL_TIMESTAMP_NONE))).

(* [sql_type.h:861-871 Temporal::type_name_by_timestamp_type] *)
Definition type_name_by_timestamp_type (ty : timestamp_type) : string :=
  match ty with MYSQL_TIMESTAMP_DATE => "date" | MYSQL_TIMESTAMP_TIME => "time" | _ => "datetime" end.

(** The name of the type that [Warn::push_conversion_warnings] passes on. *)
(* [sql_type.h:804-814 Temporal::Warn::push_conversion_warnings] *)
Definition conversion_type_name (mode : date_t) (tstype : timestamp_type) : string :=
  match tstype with
  | MYSQL_TIMESTAMP_NONE | MYSQL_TIMESTAMP_ERROR =>
      if conv_bool (and_date_conv enum_signed mode (conv_or enum_signed (TIME_INTERVAL_hhmmssff enum_signed) (TIME_INTERVAL_DAY enum_signed))) then "interval"
      else if has_flag mode (TIME_TIME_ONLY enum_signed) then "time" else "datetime"
  | ty => type_name_by_timestamp_type ty
  end.

(* [sql_type.h:882-902 Temporal::make_fuzzy_date] *)
Definition make_fuzzy_date (t : MYSQL_TIME) (fuzzydate : conv_t) : MYSQL_TIME :=
  set_zero_time t (if negb (conv_has fuzzydate (TIME_FUZZY_DATES enum_signed)) then MYSQL_TIMESTAMP_NONE
                   else if conv_has fuzzydate (TIME_TIME_ONLY enum_signed) then MYSQL_TIMESTAMP_TIME else MYSQL_TIMESTAMP_DATETIME).

(* [sql_type.h:907-912 Temporal::to_double] *)
Definition Temporal_to_double (negate : bool) (num frac : Z) : double :=
  let d := double_add (double_of num) (double_div (double_of frac) (double_of TIME_SECOND_PART_FACTOR)) in
  if negate then double_neg d else d.

(* [sql_type.h:913-913 Temporal::to_packed] *)
Definition Temporal_to_packed (t : MYSQL_TIME) : Z := pack_time t.

(* [sql_type.h:914-918 Temporal::make_from_out_of_range] *)
Definition make_from_out_of_range (t : MYSQL_TIME) (warn : Z) : MYSQL_TIME * Z :=
  (set_time_type t MYSQL_TIMESTAMP_NONE, MYSQL_TIME_WARN_OUT_OF_RANGE).

(* [sql_type.h:1089-1094 Temporal::add_nanoseconds] *)
Definition Temporal_add_nanoseconds (t : MYSQL_TIME) (thd : THD) (warn : Z) (mode : date_t) (nsec : Z) : option (bool * MYSQL_TIME * Z) :=
  let cmode := date_to_conv enum_signed mode in
  m ← date_to_round enum_signed mode; r ← TIME_FRAC_ROUND enum_signed;
  Some (if round_eq m r then add_nanoseconds_with_round t thd warn cmode nsec else (false, t, warn)).

(* [sql_type.h:919-924 Temporal::make_from_sec6] *)
Definition make_from_sec6 (t : MYSQL_TIME) (thd : THD) (st : MYSQL_TIME_STATUS) (nr : Sec6.t) (mode : date_t) : MYSQL_TIME * MYSQL_TIME_STATUS :=
  let '(rc, w, t) := convert_to_mysql_time nr thd (warnings st) t mode in
  (if rc then make_fuzzy_date t (date_to_conv enum_signed mode) else t, set_warnings st w).

(* [sql_type.h:925-931 Temporal::make_from_sec9] *)
Definition make_from_sec9 (t : MYSQL_TIME) (thd : THD) (st : MYSQL_TIME_STATUS) (nr : Sec9.t) (mode : date_t)
    : option (MYSQL_TIME * MYSQL_TIME_STATUS) :=
  let '(rc, w, t) := convert_to_mysql_time (Sec9.base nr) thd (warnings st) t mode in
  DO (rc, t, w) <- (if rc then Some (true, t, w) else Temporal_add_nanoseconds t thd w mode (Sec9.nsec nr)) ;;
  Some (if rc then make_fuzzy_date t (date_to_conv enum_signed mode) else t, set_warnings st w).

(* [sql_type.h:935-940 Temporal::make_from_double] *)
Definition Temporal_make_from_double (t : MYSQL_TIME) (thd : THD) (warn : Warn) (nr : double) (mode : date_t) : option (MYSQL_TIME * Warn) :=
  DO (t, st) <- make_from_sec9 t thd (w_status warn) (Sec9_of_double nr) mode ;;
  Some (t, {| w_status := st; w_err := if negb (warnings st =? 0) then ErrDouble nr else w_err warn |}).

(* [sql_type.h:941-951 Temporal::make_from_longlong_hybrid] *)
Definition make_from_longlong_hybrid (t : MYSQL_TIME) (thd : THD) (warn : Warn) (nr : Longlong_hybrid) (mode : date_t) : option (MYSQL_TIME * Warn) :=
  s ← Sec6.of_longlong_hybrid nr;
  let '(t, st) := make_from_sec6 t thd (w_status warn) s mode in
  Some (t, {| w_status := st; w_err := if negb (warnings st =? 0) then ErrLonglong nr else w_err warn |}).

(* [sql_type.h:952-958 Temporal::make_from_decimal] *)
Definition Temporal_make_from_decimal (t : MYSQL_TIME) (thd : THD) (warn : Warn) (nr : my_decimal) (mode : date_t) : option (MYSQL_TIME * Warn) :=
  DO (t, st) <- make_from_sec9 t thd (w_status warn) (Sec9_of_decimal nr) mode ;;
  Some (t, {| w_status := st; w_err := if negb (warnings st =? 0) then ErrDecimal nr else w_err warn |}).

(** The flags that a conversion of a text looks at. *)
Definition text_flags (mode : date_t) : Z := conv_ulonglong (and_date_conv enum_signed mode (TIME_MODE_FOR_XXX_TO_DATE enum_signed)).

(* [sql_type.h:970-986 Temporal::ascii_to_datetime_or_date_or_interval_DDhhmmssff] *)
Definition ascii_to_datetime_or_date_or_interval_DDhhmmssff (t : MYSQL_TIME) (st : MYSQL_TIME_STATUS) (str : text) (mode : date_t)
    : option (bool * MYSQL_TIME * MYSQL_TIME_STATUS) :=
  let cflags := text_flags mode in
  let '(rc, t, st) :=
    if has_flag mode (TIME_INTERVAL_DAY enum_signed)
    then str_to_datetime_or_date_or_interval_day str t cflags st TIME_MAX_INTERVAL_HOUR TIME_MAX_INTERVAL_HOUR
    else str_to_datetime_or_date_or_interval_hhmmssff str t cflags st TIME_MAX_INTERVAL_HOUR TIME_MAX_INTERVAL_HOUR in
  ASSERT negb rc || negb (warnings st =? 0) ;; Some (rc, t, st).

(* [sql_type.h:987-997 Temporal::ascii_to_datetime_or_date_or_time] *)
Definition ascii_to_datetime_or_date_or_time (t : MYSQL_TIME) (st : MYSQL_TIME_STATUS) (str : text) (fuzzydate : date_t)
    : option (bool * MYSQL_TIME * MYSQL_TIME_STATUS) :=
  let '(rc, t, st) := str_to_datetime_or_date_or_time str t (text_flags fuzzydate) st TIME_MAX_HOUR (2 ^ 32 - 1) in
  ASSERT negb rc || negb (warnings st =? 0) ;; Some (rc, t, st).

(* [sql_type.h:998-1008 Temporal::ascii_to_datetime_or_date] *)
Definition ascii_to_datetime_or_date (t : MYSQL_TIME) (st : MYSQL_TIME_STATUS) (str : text) (fuzzydate : date_t)
    : option (bool * MYSQL_TIME * MYSQL_TIME_STATUS) :=
  ASSERT negb (has_flag fuzzydate (TIME_TIME_ONLY enum_signed)) ;;
  let '(rc, t, st) := str_to_datetime_or_date str t (text_flags fuzzydate) st in
  ASSERT negb rc || negb (warnings st =? 0) ;; Some (rc, t, st).

(* [sql_type.h:959-969 Temporal::ascii_to_temporal] *)
Definition ascii_to_temporal (t : MYSQL_TIME) (st : MYSQL_TIME_STATUS) (str : text) (mode : date_t)
    : option (bool * MYSQL_TIME * MYSQL_TIME_STATUS) :=
  if conv_bool (and_date_conv enum_signed mode (conv_or enum_signed (TIME_INTERVAL_hhmmssff enum_signed) (TIME_INTERVAL_DAY enum_signed)))
  then ascii_to_datetime_or_date_or_interval_DDhhmmssff t st str mode
  else if has_flag mode (TIME_TIME_ONLY enum_signed) then ascii_to_datetime_or_date_or_time t st str mode
  else ascii_to_datetime_or_date t st str mode.

(* [sql_type.h:1020-1025 Temporal::has_valid_mmssff] *)
Definition has_valid_mmssff (t : MYSQL_TIME) : bool :=
  (minute t <=? TIME_MAX_MINUTE) && (second t <=? TIME_MAX_SECOND) && (second_part t <=? TIME_MAX_SECOND_PART).
(* [sql_type.h:1026-1029 Temporal::has_zero_YYYYMM] *)
Definition has_zero_YYYYMM (t : MYSQL_TIME) : bool := (year t =? 0) && (month t =? 0).
(* [sql_type.h:1030-1033 Temporal::has_zero_YYYYMMDD] *)
Definition has_zero_YYYYMMDD (t : MYSQL_TIME) : bool := (year t =? 0) && (month t =? 0) && (day t =? 0).
(* [sql_type.h:1034-1037 Temporal::check_date] *)
Definition Temporal_check_date (t : MYSQL_TIME) (flags : conv_t) (warn : Z) : bool * Z := check_date_conv t flags warn.
(* [sql_type.h:1038-1044 Temporal::time_hhmmssff_set_max] *)
Definition time_hhmmssff_set_max (t : MYSQL_TIME) (max_hour : Z) : MYSQL_TIME :=
  Time (year t) (month t) (day t) max_hour TIME_MAX_MINUTE TIME_MAX_SECOND TIME_MAX_SECOND_PART (neg t) (time_type t).

Definition set_second (t : MYSQL_TIME) (s : Z) : MYSQL_TIME :=
  Time (year t) (month t) (day t) (hour t) (minute t) s (second_part t) (neg t) (time_type t).
Definition set_minute (t : MYSQL_TIME) (m : Z) : MYSQL_TIME :=
  Time (year t) (month t) (day t) (hour t) m (second t) (second_part t) (neg t) (time_type t).

(* [sql_type.h:1050-1066 Temporal::add_nanoseconds_ssff] *)
Definition add_nanoseconds_ssff (t : MYSQL_TIME) (nanoseconds : Z) : option (bool * MYSQL_TIME) :=
  ASSERT (nanoseconds <=? 1000000000) ;;
  if nanoseconds <? 500 then Some (false, t) else
  let t := set_second_part t (ulong (second_part t + u32 (nanoseconds + 500) / 1000)) in
  if second_part t <? 1000000 then Some (false, t) else
  let t := set_second_part t (second_part t mod 1000000) in
  if second t <? 59 then Some (false, set_second t (u32 (second t + 1))) else Some (true, set_second t 0).

(* [sql_type.h:1072-1083 Temporal::add_nanoseconds_mmssff] *)
Definition add_nanoseconds_mmssff (t : MYSQL_TIME) (nanoseconds : Z) : option (bool * MYSQL_TIME) :=
  DO (over, t) <- add_nanoseconds_ssff t nanoseconds ;;
  if negb over then Some (false, t) else
  if minute t <? 59 then Some (false, set_minute t (u32 (minute t + 1))) else Some (true, set_minute t 0).

(* [sql_type.h:1103-1106 Temporal::fraction_remainder] *)
Definition Temporal_fraction_remainder (t : MYSQL_TIME) (dec : Z) : option Z :=
  my_time_fraction_remainder log_10_int long_bits (long (second_part t)) dec.

(** ** [Temporal_hybrid] *)

(** The object before construction is [t0]. *)
(* [sql_type.h:1152-1156 Temporal_hybrid::Temporal_hybrid(Longlong_hybrid)] *)
Definition hybrid_of_longlong (t0 : MYSQL_TIME) (thd : THD) (warn : Warn) (nr : Longlong_hybrid) (fuzzydate : date_t) : option (MYSQL_TIME * Warn) :=
  make_from_longlong_hybrid t0 thd warn nr fuzzydate.
(* [sql_type.h:1157-1160 Temporal_hybrid::Temporal_hybrid(double)] *)
Definition hybrid_of_double (t0 : MYSQL_TIME) (thd : THD) (warn : Warn) (nr : double) (fuzzydate : date_t) : option (MYSQL_TIME * Warn) :=
  Temporal_make_from_double t0 thd warn nr fuzzydate.
(* [sql_type.h:1170-1177 Temporal_hybrid::Temporal_hybrid(Longlong_hybrid_null)] *)
Definition hybrid_of_longlong_null (t0 : MYSQL_TIME) (thd : THD) (warn : Warn) (nr : Longlong_hybrid_null) (fuzzydate : date_t) : option (MYSQL_TIME * Warn) :=
  if is_null (hn_flag nr) then Some (set_time_type t0 MYSQL_TIMESTAMP_NONE, warn)
  else make_from_longlong_hybrid t0 thd warn (hn_hybrid nr) fuzzydate.
(** A nullable double is [None] or its value. *)
(* [sql_type.h:1178-1184 Temporal_hybrid::Temporal_hybrid(Double_null)] *)
Definition hybrid_of_double_null (t0 : MYSQL_TIME) (thd : THD) (warn : Warn) (nr : option double) (mode : date_t) : option (MYSQL_TIME * Warn) :=
  match nr with
  | None => Some (set_time_type t0 MYSQL_TIMESTAMP_NONE, warn)
  | Some d => Temporal_make_from_double t0 thd warn d mode
  end.
(** A null pointer is [None]. *)
(* [sql_type.h:1185-1191 Temporal_hybrid::Temporal_hybrid(my_decimal)] *)
Definition hybrid_of_decimal (t0 : MYSQL_TIME) (thd : THD) (warn : Warn) (nr : option my_decimal) (mode : date_t) : option (MYSQL_TIME * Warn) :=
  match nr with
  | None => Some (set_time_type t0 MYSQL_TIMESTAMP_NONE, warn)
  | Some d => Temporal_make_from_decimal t0 thd warn d mode
  end.

(* [sql_type.h:1194-1200 Temporal_hybrid::to_longlong] *)
Definition hybrid_to_longlong (t : MYSQL_TIME) : option Z :=
  DO v <- is_valid_temporal t ;;
  if negb v then Some 0 else
  let v := TIME_to_ulonglong t in if neg t then longlong_ (- s64 v) else Some (s64 v).
(* [sql_type.h:1201-1204 Temporal_hybrid::to_double] *)
Definition hybrid_to_double (t : MYSQL_TIME) : option double :=
  DO v <- is_valid_temporal t ;; Some (if v then TIME_to_double t else double_of 0).
(* [sql_type.h:1218-1222 Temporal_hybrid::get_mysql_time] *)
Definition hybrid_get_mysql_time (t : MYSQL_TIME) : option MYSQL_TIME := DO v <- is_valid_temporal t ;; ASSERT v ;; Some t.

(** ** [Extract_source] *)

(* [sql_type.h:1240-1246 Extract_source::time_to_daytime_interval] *)
Definition time_to_daytime_interval (t : MYSQL_TIME) : option MYSQL_TIME :=
  ASSERT bool_decide (time_type t = MYSQL_TIMESTAMP_TIME) ;;
  ASSERT has_zero_YYYYMMDD t ;;
  Some (Time (year t) (month t) (hour t / 24) (hour t mod 24) (minute t) (second t) (second_part t) (neg t) (time_type t)).

(* [sql_type.h:1247-1251 Extract_source::is_valid_extract_source_slow] *)
Definition is_valid_extract_source_slow (t : MYSQL_TIME) : option bool :=
  DO v <- is_valid_temporal t ;;
  Some (v && (hour t <? 24) && (has_zero_YYYYMM t || negb (bool_decide (time_type t = MYSQL_TIMESTAMP_TIME)))).
(* [sql_type.h:1252-1255 Extract_source::is_valid_value_slow] *)
Definition extract_is_valid_value_slow (t : MYSQL_TIME) : option bool :=
  if bool_decide (time_type t = MYSQL_TIMESTAMP_NONE) then Some true else is_valid_extract_source_slow t.
(* [sql_type.h:1257-1263 Extract_source::Extract_source] *)
Definition mk_Extract_source (thd : THD) (item : Item) (mode : date_t) : option MYSQL_TIME :=
  let t := hybrid_of_item thd item mode in
  DO t <- (if bool_decide (time_type t = MYSQL_TIMESTAMP_TIME) then time_to_daytime_interval t else Some t) ;;
  ok ← extract_is_valid_value_slow t; ASSERT ok ;; Some t.
(* [sql_type.h:1264-1268 Extract_source::get_mysql_time] *)
Definition extract_get (t : MYSQL_TIME) : option MYSQL_TIME := ok ← is_valid_extract_source_slow t; ASSERT ok ;; Some t.
(* [sql_type.h:1269-1269 Extract_source::is_valid_extract_source] *)
Definition is_valid_extract_source (t : MYSQL_TIME) : option bool := is_valid_temporal t.
(* [sql_type.h:1270-1270 Extract_source::sign] *)
Definition sign (t : MYSQL_TIME) : option Z := t ← extract_get t; Some (if neg t then -1 else 1).
(* [sql_type.h:1271-1271 Extract_source::year] *)
Definition extract_year (t : MYSQL_TIME) : option Z := t ← extract_get t; Some (year t).
(* [sql_type.h:1272-1272 Extract_source::month] *)
Definition extract_month (t : MYSQL_TIME) : option Z := t ← extract_get t; Some (month t).
(** A member cast to [int], with the sign. *)
Definition signed_member (f : MYSQL_TIME -> Z) (t : MYSQL_TIME) : option Z := u ← extract_get t; s ← sign t; int_ (s32 (f u) * s).
(* [sql_type.h:1273-1273 Extract_source::day] *)
Definition extract_day : MYSQL_TIME -> option Z := signed_member day.
(* [sql_type.h:1274-1274 Extract_source::hour] *)
Definition extract_hour : MYSQL_TIME -> option Z := signed_member hour.
(* [sql_type.h:1275-1275 Extract_source::minute] *)
Definition extract_minute : MYSQL_TIME -> option Z := signed_member minute.
(* [sql_type.h:1276-1276 Extract_source::second] *)
Definition extract_second : MYSQL_TIME -> option Z := signed_member second.
(* [sql_type.h:1277-1277 Extract_source::microsecond] *)
Definition extract_microsecond : MYSQL_TIME -> option Z := signed_member second_part.
(* [sql_type.h:1279-1279 Extract_source::year_month] *)
Definition year_month (t : MYSQL_TIME) : option Z := y ← extract_year t; m ← extract_month t; Some (u32 (u32 (y * 100) + m)).
(* [sql_type.h:1280-1280 Extract_source::quarter] *)
Definition extract_quarter (t : MYSQL_TIME) : option Z := m ← extract_month t; Some (u32 (m + 2) / 3).

(** [a * k + b], on [longlong] and on [int]. *)
Definition llcat (a : option Z) (k : Z) (b : option Z) : option Z := x ← a; p ← longlong_ (x * k); y ← b; longlong_ (p + y).
Definition intcat (a : option Z) (k : Z) (b : option Z) : option Z := x ← a; p ← int_ (x * k); y ← b; int_ (p + y).

(* [sql_type.h:1283-1286 Extract_source::second_microsecond] *)
Definition second_microsecond (t : MYSQL_TIME) : option Z := llcat (extract_second t) 1000000 (extract_microsecond t).
(* [sql_type.h:1289-1292 Extract_source::day_hour] *)
Definition day_hour (t : MYSQL_TIME) : option Z := llcat (extract_day t) 100 (extract_hour t).
(* [sql_type.h:1293-1296 Extract_source::day_minute] *)
Definition day_minute (t : MYSQL_TIME) : option Z := llcat (day_hour t) 100 (extract_minute t).
(* [sql_type.h:1297-1300 Extract_source::day_second] *)
Definition day_second (t : MYSQL_TIME) : option Z := llcat (day_minute t) 100 (extract_second t).
(* [sql_type.h:1301-1304 Extract_source::day_microsecond] *)
Definition day_microsecond (t : MYSQL_TIME) : option Z := llcat (day_second t) 1000000 (extract_microsecond t).
(* [sql_type.h:1307-1310 Extract_source::hour_minute] *)
Definition hour_minute (t : MYSQL_TIME) : option Z := intcat (extract_hour t) 100 (extract_minute t).
(* [sql_type.h:1311-1314 Extract_source::hour_second] *)
Definition hour_second (t : MYSQL_TIME) : option Z := intcat (hour_minute t) 100 (extract_second t).
(* [sql_type.h:1315-1318 Extract_source::hour_microsecond] *)
Definition hour_microsecond (t : MYSQL_TIME) : option Z := llcat (hour_second t) 1000000 (extract_microsecond t).
(* [sql_type.h:1321-1324 Extract_source::minute_second] *)
Definition minute_second (t : MYSQL_TIME) : option Z := intcat (extract_minute t) 100 (extract_second t).
(* [sql_type.h:1325-1328 Extract_source::minute_microsecond] *)
Definition minute_microsecond (t : MYSQL_TIME) : option Z := llcat (minute_second t) 1000000 (extract_microsecond t).

(** ** [Interval_DDhhmmssff] *)

(* [sql_type.h:1349-1353 Interval_DDhhmmssff::is_valid_interval_DDhhmmssff_slow] *)
Definition is_valid_interval_DDhhmmssff_slow (t : MYSQL_TIME) : bool :=
  bool_decide (time_type t = MYSQL_TIMESTAMP_TIME) && has_zero_YYYYMMDD t && has_valid_mmssff t.
(* [sql_type.h:1354-1358 Interval_DDhhmmssff::is_valid_value_slow] *)
Definition interval_is_valid_value_slow (t : MYSQL_TIME) : bool :=
  bool_decide (time_type t = MYSQL_TIMESTAMP_NONE) || is_valid_interval_DDhhmmssff_slow t.
(* [sql_type.h:1369-1372 Interval_DDhhmmssff::max_useful_hour] *)
Definition max_useful_hour : Z := TIME_MAX_INTERVAL_HOUR.
(* [sql_type.h:1373-1377 Interval_DDhhmmssff::max_int_part_char_length] *)
Definition max_int_part_char_length : Z := 1 + TIME_MAX_INTERVAL_DAY_CHAR_LENGTH + 1 + 8.
(* [sql_type.h:1378-1382 Interval_DDhhmmssff::max_char_length] *)
Definition max_char_length (fsp : Z) : option Z :=
  ASSERT (fsp <=? TIME_SECOND_PART_DIGITS) ;; Some (u32 (max_int_part_char_length + (if fsp =? 0 then 0 else 1) + fsp)).
(* [sql_type.h:1397-1401 Interval_DDhhmmssff::get_mysql_time] *)
Definition interval_get_mysql_time (t : MYSQL_TIME) : option MYSQL_TIME := ASSERT is_valid_interval_DDhhmmssff_slow t ;; Some t.
(* [sql_type.h:1402-1405 Interval_DDhhmmssff::is_valid_interval_DDhhmmssff] *)
Definition is_valid_interval_DDhhmmssff (t : MYSQL_TIME) : bool := bool_decide (time_type t = MYSQL_TIMESTAMP_TIME).
(* [sql_type.h:1406-1409 Interval_DDhhmmssff::is_valid_value] *)
Definition interval_is_valid_value (t : MYSQL_TIME) : bool :=
  bool_decide (time_type t = MYSQL_TIMESTAMP_NONE) || is_valid_interval_DDhhmmssff t.
End temporal.

(** ** What they compute *)

(** Minutes, seconds and the fraction in microseconds. *)
Definition mmssff_us (t : MYSQL_TIME) : Z := (60 * minute t + second t) * 1000000 + second_part t.

(** The members that adding nanoseconds leaves alone. *)
Definition date_hour_sign (t : MYSQL_TIME) := (year t, month t, day t, hour t, neg t, time_type t).

Lemma has_valid_mmssff_ok t : mmssff_ok t -> has_valid_mmssff t = true.
Proof. intros [[_ ?] [_ ?] [_ ?]]. unfold has_valid_mmssff. rewrite !andb_true_iff, !Z.leb_le. done. Qed.

Lemma has_zero_ok t : year t = 0 /\ month t = 0 /\ day t = 0 -> has_zero_YYYYMMDD t = true /\ has_zero_YYYYMM t = true.
Proof. unfold has_zero_YYYYMMDD, has_zero_YYYYMM. by intros (-> & -> & ->). Qed.

(** The rounding mode in the flags is one of the three. *)
Definition mode_ok `{TimeLib} (m : date_t) : Prop := is_Some (date_to_round enum_signed m).

Lemma TIME_FRAC_ROUND_some es : is_Some (TIME_FRAC_ROUND es).
Proof. by destruct es; eexists. Qed.
Lemma TIME_FRAC_TRUNCATE_some es : is_Some (TIME_FRAC_TRUNCATE es).
Proof. by destruct es; eexists. Qed.

Section temporal_laws.
Context {L : TimeLib} {TL : TimeLaws L} {M : TemporalMembers L} {ML : TemporalLaws M} {SM : SecMembers L} {SL : SecLaws SM}.

Lemma add_nanoseconds_ssff_ok t ns : mmssff_ok t -> 0 <= ns <= 1000000000 ->
  exists over t', add_nanoseconds_ssff t ns = Some (over, t') /\ mmssff_ok t' /\ date_hour_sign t' = date_hour_sign t /\
    minute t' = minute t /\
    1000000 * second t' + second_part t' + 60000000 * Z.b2z over = 1000000 * second t + second_part t + (ns + 500) / 1000.
Proof.
  intros [Hm Hs Hp] Hn. unfold add_nanoseconds_ssff, dbug_assert. destruct (Z.leb_spec ns 1000000000); [| lia].
  assert (Hq : 0 <= (ns + 500) / 1000 <= 1000000) by (Z.div_mod_to_equations; lia).
  destruct (Z.ltb_spec ns 500).
  { exists false, t. split; [done |]. split; [by constructor |]. repeat (split; [done |]). rewrite Z.div_small by lia. cbn. lia. }
  rewrite u32_small, ulong_small by time_lia. set (q := (ns + 500) / 1000) in *. cbn [set_second_part second_part second].
  destruct (Z.ltb_spec (second_part t + q) 1000000); [| destruct (Z.ltb_spec (second t) 59)];
    eexists _, _; (split; [reflexivity |]); cbn; (split; [constructor; cbn | repeat (split; [done |])]); try rewrite u32_small by lia;
    clearbody q; Z.div_mod_to_equations; time_lia.
Qed.

(** adding nanoseconds to minutes, seconds and the fraction: the nanoseconds
    are rounded half up to microseconds and added exactly, with an hour to carry
    when the sum reaches one; the members stay in their ranges, date, hour, sign
    and type stay, no assertion fails and nothing wraps around.  The same sum is
    what [Sec6::add_nanoseconds] computes on the fraction of a number. *)
Theorem add_nanoseconds_mmssff_spec t s ns : mmssff_ok t -> sec6_ok s -> 0 <= ns <= 1000000000 ->
  (exists over t', add_nanoseconds_mmssff t ns = Some (over, t') /\ mmssff_ok t' /\ date_hour_sign t' = date_hour_sign t /\
    mmssff_us t' + 3600000000 * Z.b2z over = mmssff_us t + (ns + 500) / 1000 /\
    over = bool_decide (3600000000 <= mmssff_us t + (ns + 500) / 1000)) /\
  (exists over s', add_nanoseconds s ns = Some (over, s') /\ sec6_ok s' /\ Sec6.m_sec s' = Sec6.m_sec s /\
    Sec6.m_usec s' + 1000000 * Z.b2z over = Sec6.m_usec s + (ns + 500) / 1000).
Proof.
  intros Ht Hs Hn. split.
  - destruct (add_nanoseconds_ssff_ok t ns Ht Hn) as (o & u & E & Hu & Hd & Hm & Hsum).
    unfold add_nanoseconds_mmssff. rewrite E. destruct Hu as [Um Us Up], Ht as [Tm Ts Tp].
    cut (exists over t', (if negb o then Some (false, u) else if minute u <? 59 then Some (false, set_minute u (u32 (minute u + 1))) else Some (true, set_minute u 0))
           = Some (over, t') /\ mmssff_ok t' /\ date_hour_sign t' = date_hour_sign t /\
           mmssff_us t' + 3600000000 * Z.b2z over = mmssff_us t + (ns + 500) / 1000).
    { intros (ov & t' & E' & [Rm Rs Rp] & Hd' & Hsum'). exists ov, t'. split; [done |]. split; [done |]. split; [done |]. split; [done |].
      unfold mmssff_us in *. destruct ov; cbn in Hsum'; symmetry; [apply bool_decide_true | apply bool_decide_false]; time_lia. }
    unfold mmssff_us. destruct o; cbn [negb Z.b2z] in *; [destruct (Z.ltb_spec (minute u) 59) |]; eexists _, _; (split; [reflexivity |]);
      try rewrite u32_small by lia; (split; [constructor; cbn; time_lia | split; [done | cbn [set_minute minute second second_part Z.b2z]; time_lia]]).
  - destruct (add_nanoseconds_ok s ns Hs Hn) as (o & s' & ? & ? & ? & ? & ?). by exists o, s'.
Qed.

Lemma make_fuzzy_date_ok t f : hybrid_ok (make_fuzzy_date t f).
Proof.
  unfold make_fuzzy_date. rewrite set_zero_time_spec. destruct (negb _); [by left |]. right. destruct (conv_has _ _); [right | left].
  - constructor; cbn; done.
  - constructor; cbn; [by right | done |]. constructor; cbn; try lia. constructor; cbn; time_lia.
Qed.

Lemma make_from_sec9_ok t thd st s md : sec6_ok (Sec9.base s) -> nsec_ok (Sec9.m_nsec s) -> mode_ok md ->
  exists r st', make_from_sec9 t thd st s md = Some (r, st') /\ hybrid_ok r.
Proof.
  intros Hs Hn [m Hm]. destruct (TIME_FRAC_ROUND_some enum_signed) as [rd Hrd]. unfold make_from_sec9.
  pose proof (convert_to_mysql_time_spec (Sec9.base s) thd (warnings st) t md Hs) as Hc.
  destruct (convert_to_mysql_time _ _ _ _ _) as [[rc w] u]. destruct rc.
  - eexists _, _. split; [reflexivity |]. apply make_fuzzy_date_ok.
  - unfold Temporal_add_nanoseconds. rewrite Hm, Hrd. cbn [mbind option_bind].
    destruct (round_eq m rd); [| eexists _, _; split; [reflexivity | by right]].
    pose proof (add_nanoseconds_with_round_spec u thd w (date_to_conv enum_signed md) (Sec9.nsec s) Hn Hc) as Ha.
    destruct (add_nanoseconds_with_round _ _ _ _ _) as [[rc u'] w']. eexists _, _. split; [reflexivity |].
    destruct rc; [apply make_fuzzy_date_ok | right; by apply Ha].
Qed.

Lemma make_from_longlong_ok t thd warn nr md : longlong_wf nr ->
  exists r warn', make_from_longlong_hybrid t thd warn nr md = Some (r, warn') /\ hybrid_ok r.
Proof.
  intros Hw. destruct (make_from_int_ok nr Hw) as (s & Hs & Hok & _). unfold make_from_longlong_hybrid, Sec6.of_longlong_hybrid. rewrite Hs.
  cbn [mbind option_bind]. unfold make_from_sec6. pose proof (convert_to_mysql_time_spec s thd (warnings (w_status warn)) t md Hok) as Hc.
  destruct (convert_to_mysql_time _ _ _ _ _) as [[rc w] u]. eexists _, _. split; [reflexivity |].
  destruct rc; [apply make_fuzzy_date_ok | by right].
Qed.

Lemma make_from_double_ok t thd warn d md : mode_ok md ->
  exists r warn', Temporal_make_from_double t thd warn d md = Some (r, warn') /\ hybrid_ok r.
Proof.
  intros Hm. unfold Temporal_make_from_double, Sec9_of_double. destruct (make_from_double_spec d) as [H1 H2].
  destruct (make_from_double d) as [b n]. destruct (make_from_sec9_ok t thd (w_status warn) (Sec9.Mk b n) md H1 H2 Hm) as (r & st & -> & H).
  by eexists _, _.
Qed.

Lemma make_from_decimal_ok t thd warn d md : mode_ok md ->
  exists r warn', Temporal_make_from_decimal t thd warn d md = Some (r, warn') /\ hybrid_ok r.
Proof.
  intros Hm. unfold Temporal_make_from_decimal, Sec9_of_decimal. destruct (make_from_decimal_spec d) as [H1 H2].
  destruct (make_from_decimal d) as [b n]. destruct (make_from_sec9_ok t thd (w_status warn) (Sec9.Mk b n) md H1 H2 Hm) as (r & st & -> & H).
  by eexists _, _.
Qed.

(** every constructor of a temporal value of a number, signed or unsigned
    integer, double or decimal, NULL or not, succeeds without a failing assertion
    and leaves nothing (for NULL always), a DATE or DATETIME whose members are in
    their ranges, or a TIME of at most the largest interval; the accessors that
    assert validity then have a result. *)
Theorem temporal_hybrid_valid t0 thd warn md nr d x : longlong_wf (hn_hybrid nr) -> mode_ok md ->
  (exists r w, hybrid_of_longlong t0 thd warn (hn_hybrid nr) md = Some (r, w) /\ hybrid_ok r) /\
  (exists r w, hybrid_of_longlong_null t0 thd warn nr md = Some (r, w) /\ hybrid_ok r /\
    (is_null (hn_flag nr) = true -> time_type r = MYSQL_TIMESTAMP_NONE /\ w = warn)) /\
  (exists r w, hybrid_of_double_null t0 thd warn d md = Some (r, w) /\ hybrid_ok r /\ (d = None -> time_type r = MYSQL_TIMESTAMP_NONE /\ w = warn)) /\
  (exists r w, hybrid_of_decimal t0 thd warn x md = Some (r, w) /\ hybrid_ok r /\ (x = None -> time_type r = MYSQL_TIMESTAMP_NONE /\ w = warn)) /\
  (forall r, hybrid_ok r -> is_valid_temporal r = Some (bool_decide (time_type r <> MYSQL_TIMESTAMP_NONE)) /\
    is_Some (hybrid_to_double r) /\ (time_type r <> MYSQL_TIMESTAMP_NONE -> hybrid_get_mysql_time r = Some r)).
Proof.
  intros Hw Hm. split; [by apply make_from_longlong_ok |].
  split; [| split; [| split]].
  - unfold hybrid_of_longlong_null. destruct (is_null _).
    + eexists _, _. split; [reflexivity |]. split; [by left | done].
    + destruct (make_from_longlong_ok t0 thd warn (hn_hybrid nr) md Hw) as (r & w & E & H). by exists r, w.
  - destruct d as [d |]; cbn; [| eexists _, _; split; [reflexivity |]; split; [by left | done]].
    destruct (make_from_double_ok t0 thd warn d md Hm) as (r & w & E & H). by exists r, w.
  - destruct x as [x |]; cbn; [| eexists _, _; split; [reflexivity |]; split; [by left | done]].
    destruct (make_from_decimal_ok t0 thd warn x md Hm) as (r & w & E & H). by exists r, w.
  - intros r Hr. assert (Hne : time_type r <> MYSQL_TIMESTAMP_ERROR).
    { destruct Hr as [-> | [[[-> | ->] _ _] | [-> _ _ _]]]; done. }
    unfold hybrid_to_double, hybrid_get_mysql_time, is_valid_temporal. rewrite (bool_decide_false _ Hne). cbn [negb dbug_assert].
    split; [by destruct (time_type r) |]. split; [by eexists |]. intros Hn. by rewrite (bool_decide_false _ Hn).
Qed.

(** An extract source that has a value. *)
Record extract_ok (x : MYSQL_TIME) : Prop := {
  extract_valid : is_valid_extract_source_slow x = Some true;
  extract_day_ok : 0 <= day x <= TIME_MAX_INTERVAL_DAY;
  extract_hour_ok : 0 <= hour x < 24;
  extract_mmssff : mmssff_ok x }.

Lemma extract_of_item_ok thd item md : let t := hybrid_of_item thd item md in
  exists x, mk_Extract_source thd item md = Some x /\ time_type x = time_type t /\ neg x = neg t /\
    (time_type t <> MYSQL_TIMESTAMP_NONE -> extract_ok x) /\
    (time_type t = MYSQL_TIMESTAMP_TIME -> 24 * day x + hour x = hour t /\ mmssff_us x = mmssff_us t) /\
    (time_type t <> MYSQL_TIMESTAMP_TIME -> x = t).
Proof.
  cbv zeta. unfold mk_Extract_source. pose proof (hybrid_of_item_spec thd item md) as Hok. set (t := hybrid_of_item thd item md) in *. clearbody t.
  destruct Hok as [E | [[Hty _ [_ _ Hd Hh Hm]] | [Hty Hz Hh Hm]]].
  - rewrite bool_decide_false by congruence. unfold extract_is_valid_value_slow. rewrite bool_decide_true by done. exists t.
    split; [done |]. split; [done |]. split; [done |]. split; [intros H; congruence | split; [congruence | done]].
  - rewrite bool_decide_false by (destruct Hty; congruence).
    assert (Hv : is_valid_extract_source_slow t = Some true).
    { unfold is_valid_extract_source_slow, is_valid_temporal, dbug_assert. rewrite !bool_decide_false by (destruct Hty; congruence). cbn.
      destruct (Z.ltb_spec (hour t) 24); [| lia]. by rewrite orb_true_r. }
    unfold extract_is_valid_value_slow. rewrite bool_decide_false, Hv by (destruct Hty; congruence). cbn. exists t.
    split; [done |]. split; [done |]. split; [done |]. split; [| by destruct Hty; split; intros; congruence].
    intros _. constructor; [done | unfold TIME_MAX_INTERVAL_DAY; lia | lia | done].
  - rewrite bool_decide_true by done. unfold time_to_daytime_interval. rewrite bool_decide_true by done.
    destruct (has_zero_ok t Hz) as [Z1 Z2]. rewrite Z1. cbn [dbug_assert].
    set (x := Time _ _ _ _ _ _ _ _ _). unfold TIME_MAX_INTERVAL_HOUR in Hh.
    assert (Hx : 0 <= day x <= TIME_MAX_INTERVAL_DAY /\ 0 <= hour x < 24 /\ 24 * day x + hour x = hour t).
    { unfold TIME_MAX_INTERVAL_DAY. cbn. Z.div_mod_to_equations. lia. }
    assert (Hv : is_valid_extract_source_slow x = Some true).
    { unfold is_valid_extract_source_slow, is_valid_temporal, dbug_assert. change (time_type x) with (time_type t). rewrite Hty.
      change (has_zero_YYYYMM x) with (has_zero_YYYYMM t). rewrite Z2. rewrite !bool_decide_false by done. destruct (Z.ltb_spec (hour x) 24); [done | lia]. }
    unfold extract_is_valid_value_slow. change (time_type x) with (time_type t) at 1. rewrite bool_decide_false, Hv by congruence. cbn [mbind option_bind dbug_assert].
    exists x. split; [done |]. split; [done |]. split; [done |]. split; [| split; [intros _; split; [apply Hx | done] | done]].
    intros _. constructor; [done | apply Hx | apply Hx | by destruct Hm].
Qed.

Lemma extract_get_ok x : extract_ok x -> extract_get x = Some x.
Proof. intros [Hv _ _ _]. unfold extract_get. by rewrite Hv. Qed.

(** The sign of the extracted fields; the number whose decimal digits they are. *)
Definition extract_sign (x : MYSQL_TIME) : Z := if neg x then -1 else 1.
Definition extract_digits (x : MYSQL_TIME) : Z :=
  (((day x * 100 + hour x) * 100 + minute x) * 100 + second x) * 1000000 + second_part x.

Lemma signed_member_ok f x : extract_ok x -> 0 <= f x < 2 ^ 31 -> signed_member f x = Some (extract_sign x * f x).
Proof.
  intros Hx Hf. unfold signed_member, sign. rewrite extract_get_ok by done. cbn [mbind option_bind].
  change (if neg x then -1 else 1) with (extract_sign x). unfold s32. rewrite swrap_small by lia. unfold int_.
  replace (f x * extract_sign x) with (extract_sign x * f x) by lia.
  destruct (Z.leb_spec (- 2 ^ 31) (extract_sign x * f x)), (Z.ltb_spec (extract_sign x * f x) (2 ^ 31)); unfold extract_sign in *; destruct (neg x); done || lia.
Qed.

Lemma llcat_ok s a k b : s = 1 \/ s = -1 -> 0 <= a -> 0 <= k -> 0 <= b -> a * k + b < 2 ^ 63 ->
  llcat (Some (s * a)) k (Some (s * b)) = Some (s * (a * k + b)).
Proof.
  intros Hs Ha Hk Hb Hl. unfold llcat, longlong_, LONGLONG_MIN, LONGLONG_MAX. cbn [mbind option_bind].
  assert (0 <= a * k) by nia. replace (s * a * k) with (s * (a * k)) by lia. set (p := a * k) in *. clearbody p.
  destruct (Z.leb_spec (- 2 ^ 63) (s * p)), (Z.leb_spec (s * p) (2 ^ 63 - 1)); cbn [andb mbind option_bind]; try (destruct Hs; subst; lia).
  replace (s * p + s * b) with (s * (p + b)) by lia.
  destruct (Z.leb_spec (- 2 ^ 63) (s * (p + b))), (Z.leb_spec (s * (p + b)) (2 ^ 63 - 1)); destruct Hs; subst; done || lia.
Qed.

Lemma intcat_ok s a k b : s = 1 \/ s = -1 -> 0 <= a -> 0 <= k -> 0 <= b -> a * k + b < 2 ^ 31 ->
  intcat (Some (s * a)) k (Some (s * b)) = Some (s * (a * k + b)).
Proof.
  intros Hs Ha Hk Hb Hl. unfold intcat, int_. cbn [mbind option_bind].
  assert (0 <= a * k) by nia. replace (s * a * k) with (s * (a * k)) by lia. set (p := a * k) in *. clearbody p.
  destruct (Z.leb_spec (- 2 ^ 31) (s * p)), (Z.ltb_spec (s * p) (2 ^ 31)); cbn [andb mbind option_bind]; try (destruct Hs; subst; lia).
  replace (s * p + s * b) with (s * (p + b)) by lia.
  destruct (Z.leb_spec (- 2 ^ 31) (s * (p + b))), (Z.ltb_spec (s * (p + b)) (2 ^ 31)); destruct Hs; subst; done || lia.
Qed.

(** The combined fields, written with the single ones. *)
Lemma extract_fields x : extract_ok x ->
  let s := extract_sign x in let d := day x in let h := hour x in let i := minute x in let c := second x in let u := second_part x in
  (extract_day x, extract_hour x, extract_minute x, extract_second x, extract_microsecond x) =
    (Some (s * d), Some (s * h), Some (s * i), Some (s * c), Some (s * u)) /\
  (day_hour x, day_minute x, day_second x, day_microsecond x) =
    (Some (s * (d * 100 + h)), Some (s * ((d * 100 + h) * 100 + i)), Some (s * (((d * 100 + h) * 100 + i) * 100 + c)), Some (s * extract_digits x)) /\
  (hour_minute x, hour_second x, hour_microsecond x) =
    (Some (s * (h * 100 + i)), Some (s * ((h * 100 + i) * 100 + c)), Some (s * (((h * 100 + i) * 100 + c) * 1000000 + u))) /\
  (minute_second x, minute_microsecond x, second_microsecond x) =
    (Some (s * (i * 100 + c)), Some (s * ((i * 100 + c) * 1000000 + u)), Some (s * (c * 1000000 + u))).
Proof.
  intros Hx. pose proof Hx as [_ Hd Hh [Hi Hc Hu]]. unfold TIME_MAX_INTERVAL_DAY in Hd. cbv zeta.
  assert (Hs : extract_sign x = 1 \/ extract_sign x = -1) by (unfold extract_sign; destruct (neg x); auto).
  assert (Ed : extract_day x = Some (extract_sign x * day x)) by (apply signed_member_ok; [done | lia]).
  assert (Eh : extract_hour x = Some (extract_sign x * hour x)) by (apply signed_member_ok; [done | lia]).
  assert (Ei : extract_minute x = Some (extract_sign x * minute x)) by (apply signed_member_ok; [done | time_lia]).
  assert (Ec : extract_second x = Some (extract_sign x * second x)) by (apply signed_member_ok; [done | time_lia]).
  assert (Eu : extract_microsecond x = Some (extract_sign x * second_part x)) by (apply signed_member_ok; [done | time_lia]).
  split; [by rewrite Ed, Eh, Ei, Ec, Eu |].
  unfold day_microsecond, day_second, day_minute, day_hour, hour_microsecond, hour_second, hour_minute, minute_microsecond, minute_second, second_microsecond.
  rewrite Ed, Eh, Ei, Ec, Eu. split; [| split]; repeat first [rewrite llcat_ok by (done || time_lia) | rewrite intcat_ok by (done || time_lia)]; done.
Qed.

(** extracting fields from a value: the source of an EXTRACT is made without a
    failing assertion; a TIME keeps its value, with the full days moved out of the
    hours, and other values stay as they are.  Every field and every combined
    field (DAY_HOUR to SECOND_MICROSECOND) is then defined, without overflow, and
    is, up to the common sign, a group of decimal digits of one number: the one
    that DAY_MICROSECOND gives. *)
Theorem extract_fields_spec thd item md : let t := hybrid_of_item thd item md in
  exists x, mk_Extract_source thd item md = Some x /\ time_type x = time_type t /\ neg x = neg t /\
    (time_type t = MYSQL_TIMESTAMP_TIME -> 24 * day x + hour x = hour t /\ 0 <= hour x < 24 /\ mmssff_us x = mmssff_us t) /\
    (time_type t <> MYSQL_TIMESTAMP_TIME -> x = t) /\
    (time_type t <> MYSQL_TIMESTAMP_NONE ->
      let s := if neg x then -1 else 1 in
      exists n, 0 <= n /\ day_microsecond x = Some (s * n) /\ sign x = Some s /\
        let digits from to := Some (s * (n / 10 ^ from mod 10 ^ (to - from))) in
        (day_second x, day_minute x, day_hour x, extract_day x) = (digits 6 19, digits 8 19, digits 10 19, digits 12 19) /\
        (hour_microsecond x, hour_second x, hour_minute x, extract_hour x) = (digits 0 12, digits 6 12, digits 8 12, digits 10 12) /\
        (minute_microsecond x, minute_second x, extract_minute x) = (digits 0 10, digits 6 10, digits 8 10) /\
        (second_microsecond x, extract_second x, extract_microsecond x) = (digits 0 8, digits 6 8, digits 0 6)).
Proof.
  cbv zeta. destruct (extract_of_item_ok thd item md) as (x & Hx & Ht & Hn & Hok & Htime & Hother). exists x.
  split; [done |]. split; [done |]. split; [done |].
  split; [intros E; destruct (Htime E); split; [done | split; [| done]]; apply Hok; congruence |]. split; [done |].
  intros Hne. specialize (Hok Hne). destruct (extract_fields x Hok) as (E1 & E2 & E3 & E4).
  pose proof Hok as [_ Hd Hh [Hi Hc Hu]]. unfold TIME_MAX_INTERVAL_DAY in Hd.
  change (if neg x then -1 else 1) with (extract_sign x).
  injection E1 as -> -> -> -> ->. injection E2 as -> -> -> ->. injection E3 as -> -> ->. injection E4 as -> -> ->.
  exists (extract_digits x). unfold extract_digits. split; [time_lia |]. split; [done |].
  split; [unfold sign; by rewrite extract_get_ok |].
  split; [| split; [| split]]; repeat f_equal; cbn; Z.div_mod_to_equations; time_lia.
Qed.
End temporal_laws.

(** ** Evaluation *)

Definition civil_valid (t : MYSQL_TIME) : bool :=
  (0 <=? minute t) && (minute t <=? 59) && (0 <=? second t) && (second t <=? 59) && (0 <=? second_part t) && (second_part t <=? 999999) &&
  (0 <=? hour t) &&
  match time_type t with
  | MYSQL_TIMESTAMP_TIME => (year t =? 0) && (month t =? 0) && (day t =? 0) && (hour t <=? TIME_MAX_INTERVAL_HOUR)
  | MYSQL_TIMESTAMP_DATE | MYSQL_TIMESTAMP_DATETIME =>
      negb (neg t) && (0 <=? year t) && (year t <=? 9999) && (0 <=? month t) && (month t <=? 12) && (0 <=? day t) && (day t <=? 31) && (hour t <=? 23)
  | _ => false
  end.

Definition civil_item (item : MYSQL_TIME) : MYSQL_TIME :=
  if civil_valid item then item else Time 0 0 0 0 0 0 0 false MYSQL_TIMESTAMP_NONE.

Definition civil_round (t : MYSQL_TIME) (w ns : Z) : bool * MYSQL_TIME * Z :=
  match add_nanoseconds_ssff (L := civil_lib) t ns with Some (false, t') => (false, t', w) | _ => (false, t, w) end.

#[export] Instance civil_temporal : TemporalMembers civil_lib :=
  Build_TemporalMembers civil_lib (fun t thd w md ns => civil_round t w ns) (fun thd item md => civil_item item)
    (fun thd => TIME_CONV_NONE true) (fun thd => {| time_round_mode_t.m_mode := 0 |}).

(** Values that only differ below the hour. *)
Lemma same_hour_ok t t' : date_hour_sign t' = date_hour_sign t -> mmssff_ok t' ->
  (is_DATE t -> is_DATE t') /\ (forall mh, is_TIME mh t -> is_TIME mh t').
Proof.
  intros Hd Hm. injection Hd as Hy Hmo Hda Hh Hng Hty. split.
  - intros [Et En []]. constructor; [by rewrite Hty | by rewrite Hng |].
    constructor; [by rewrite Hy | by rewrite Hmo | by rewrite Hda | by rewrite Hh | done].
  - intros mh [Et Ez Eh _]. constructor; [by rewrite Hty | by rewrite Hy, Hmo, Hda | by rewrite Hh | done].
Qed.

Lemma civil_round_ok t w ns : nsec_ok ns -> mmssff_ok t ->
  let '(rc, t', w') := civil_round t w ns in rc = false /\ mmssff_ok t' /\ date_hour_sign t' = date_hour_sign t.
Proof.
  intros Hn Hm. unfold civil_round. unfold nsec_ok in Hn.
  destruct (add_nanoseconds_ssff_ok (L := civil_lib) t ns Hm) as (o & t' & -> & Hm' & Hd & _); [lia |]. by destruct o.
Qed.

Lemma civil_item_ok item : hybrid_ok (civil_item item).
Proof.
  unfold civil_item. destruct (civil_valid item) eqn:E; [| by left]. right. unfold civil_valid in E.
  rewrite !andb_true_iff, !Z.leb_le in E. destruct E as [[[[[[[? ?] ?] ?] ?] ?] ?] E].
  assert (mmssff_ok item) by (constructor; time_lia).
  destruct (time_type item) eqn:Et; try done; rewrite !andb_true_iff, ?Z.leb_le, ?Z.eqb_eq, ?negb_true_iff in E.
  - left. constructor; [tauto | tauto | constructor; [lia.. | done]].
  - left. constructor; [tauto | tauto | constructor; [lia.. | done]].
  - right. constructor; [done | tauto | lia | done].
Qed.

#[export] Instance civil_temporal_laws : TemporalLaws civil_temporal.
Proof.
  constructor; cbn; [| intros; apply civil_item_ok].
  intros t thd w md ns Hn Ht. assert (Hm : mmssff_ok t) by (destruct Ht as [[_ _ []] | []]; done).
  pose proof (civil_round_ok t w ns Hn Hm) as H. destruct (civil_round t w ns) as [[rc t'] w']. destruct H as (_ & Hm' & Hd).
  destruct (same_hour_ok t t' Hd Hm') as [H1 H2]. intros _. destruct Ht; [left | right]; auto.
Qed.

(** 59:59.9999996 carries an hour; so does the fraction of a number. *)
Lemma add_nanoseconds_mmssff_spec_witness :
  let t := Time 0 0 0 7 59 59 999999 false MYSQL_TIMESTAMP_TIME in
  exists t', add_nanoseconds_mmssff (L := civil_lib) t 600 = Some (true, t') /\ mmssff_us t' = 0 /\ hour t' = 7.
Proof.
  intros t. destruct (add_nanoseconds_mmssff_spec (L := civil_lib) t (Sec6.Mk 5 999999 false false) 600)
    as [(o & t' & E & _ & Hd & Hs & Ho) _]; [constructor; vm_compute; intuition discriminate | constructor; vm_compute; intuition discriminate | lia |].
  assert (o = true) as -> by exact Ho. exists t'. split; [exact E |]. split; [| injection Hd; intros; congruence].
  change (mmssff_us t' + 3600000000 * 1 = 3600000000) in Hs. lia.
Defined.

(** NULL, the integer 20240229101530 and a decimal. *)
Lemma temporal_hybrid_valid_witness :
  let thd : @THD civil_lib := tt in let md := mk_date true 0 in
  let w : @Warn civil_lib := {| w_status := Status 0 0 0; w_err := ErrNone |} in
  let nr := mk_Longlong_hybrid_null (mk_Longlong_null 20240229101530 false) false in
  exists r w', hybrid_of_longlong_null (L := civil_lib) (Time 9 9 9 9 9 9 9 true MYSQL_TIMESTAMP_ERROR) thd w nr md = Some (r, w') /\
    hybrid_ok r /\ r = Time 2024 2 29 10 15 30 0 false MYSQL_TIMESTAMP_DATETIME.
Proof.
  intros thd md w nr.
  destruct (temporal_hybrid_valid (L := civil_lib) (Time 9 9 9 9 9 9 9 true MYSQL_TIMESTAMP_ERROR) thd w md nr None None)
    as (_ & (r & w' & E & Hok & _) & _); [vm_compute; intuition discriminate | by eexists |].
  exists r, w'. split; [exact E |]. split; [exact Hok |].
  apply (f_equal (fmap fst)) in E. vm_compute in E. congruence.
Defined.

(** -50:12:34.000567 is 2 days 2 hours ago. *)
Lemma extract_fields_spec_witness :
  let t := Time 0 0 0 50 12 34 567 true MYSQL_TIMESTAMP_TIME in
  exists x, mk_Extract_source (L := civil_lib) tt t (mk_date true 0) = Some x /\ 24 * day x + hour x = 50 /\
    day_microsecond x = Some (-2021234000567) /\ hour_minute x = Some (-212).
Proof.
  intros t. destruct (extract_fields_spec (L := civil_lib) tt t (mk_date true 0)) as (x & E & _ & _ & Ht & _ & _).
  exists x. split; [exact E |]. split; [apply (Ht eq_refl) |]. vm_compute in E. injection E as <-. done.
Defined.
