(* ===== verification/TimeValue.v ===== *)
(** * TimeValue: the class [Time] of [sql_type.h]

    A [Time] is a [MYSQL_TIME] that is a TIME in the supported range or nothing;
    in between, while it is constructed, it may be anything.  What a local variable
    or an object holds before it is written is an argument ([t0], [junk]).
    Members that are compiled into the server are in [TimeMembers].  A failing
    assertion has no result. *)

From stdpp Require Import base numbers list option.
From Stdlib Require Import ZArith Lia.
From S2P Require Import Prelude SqlInt DateMode MyTime TimeLib SecValue Temporal.

Local Open Scope Z_scope.
Local Open Scope dbug_scope.

(* [sql_type.h:1445-1452 Time::datetime_to_time_mode_t] *)
Inductive datetime_to_time_mode_t :=
  | DATETIME_TO_TIME_DISALLOW
  | DATETIME_TO_TIME_YYYYMMDD_000000DD_MIX_TO_HOURS
  | DATETIME_TO_TIME_YYYYMMDD_TRUNCATE
  | DATETIME_TO_TIME_YYYYMMDD_00000000_ONLY
  | DATETIME_TO_TIME_MINUS_CURRENT_DATE.
#[export] Instance datetime_to_time_mode_eq_dec : EqDecision datetime_to_time_mode_t := ltac:(solve_decision).

(* [sql_type.h:1453-1455 Time::Options] *)
Record Time_Options := TimeOpt { opt_mode : date_t; m_datetime_to_time_mode : datetime_to_time_mode_t }.

(** A valid object: nothing, or a TIME in the supported range. *)
Definition time_value_ok (t : MYSQL_TIME) : Prop := time_type t = MYSQL_TIMESTAMP_NONE \/ is_TIME TIME_MAX_HOUR t.

(** Members that are compiled elsewhere: an item; decimals, warnings, nanoseconds;
    decimals, warnings; text; sign, hours, minutes, seconds; a value and the current day. *)
Class TimeMembers (L : TimeLib) := {
  Time_make_from_item : MYSQL_TIME -> THD -> Z -> Item -> Time_Options -> MYSQL_TIME * Z;
  round_or_set_max_nsec : MYSQL_TIME -> Z -> Z -> Z -> MYSQL_TIME * Z;
  round_or_set_max : MYSQL_TIME -> Z -> Z -> MYSQL_TIME * Z;
  str_to_datetime_or_date_or_time_cs : MYSQL_TIME -> THD -> MYSQL_TIME_STATUS -> text -> date_t -> bool * MYSQL_TIME * MYSQL_TIME_STATUS;
  Time_of_parts : MYSQL_TIME -> Z -> bool -> Z -> Z -> Sec6.t -> MYSQL_TIME * Z;
  Time_of_MYSQL_TIME : MYSQL_TIME -> Z -> MYSQL_TIME -> Z -> MYSQL_TIME * Z }.

(** The fraction has [dec] digits. *)
Definition has_digits (dec : Z) (t : MYSQL_TIME) : Prop := second_part t mod 10 ^ (6 - dec) = 0.

(** What the comments of the class promise for them. *)
Class TimeMemberLaws {L : TimeLib} (M : TimeMembers L) : Prop := {
  round_or_set_max_nsec_spec t dec w ns : is_TIME TIME_MAX_HOUR t -> 0 <= dec <= 6 -> nsec_ok ns ->
    is_TIME TIME_MAX_HOUR (round_or_set_max_nsec t dec w ns).1;
  round_or_set_max_spec t dec w : is_TIME TIME_MAX_HOUR t -> 0 <= dec <= 6 ->
    is_TIME TIME_MAX_HOUR (round_or_set_max t dec w).1 /\ has_digits dec (round_or_set_max t dec w).1;
  str_to_time_spec t thd st str md :
    let '(rc, t', st') := str_to_datetime_or_date_or_time_cs t thd st str md in rc = false -> is_DATE t' \/ is_TIME TIME_MAX_HOUR t' }.

Section time.
Context {L : TimeLib} {M : TimeMembers L} {TM : TemporalMembers L} {SM : SecMembers L}.
Variable junk : MYSQL_TIME.

(** ** Options *)

(* [sql_type.h:1765-1766 Time::default_flags_for_get_date] *)
Definition default_flags_for_get_date : conv_t := conv_or enum_signed (TIME_TIME_ONLY enum_signed) (TIME_INVALID_DATES enum_signed).
(* [sql_type.h:1767-1768 Time::comparison_flags_for_get_date] *)
Definition comparison_flags_for_get_date : conv_t :=
  conv_or enum_signed (conv_or enum_signed (TIME_TIME_ONLY enum_signed) (TIME_INVALID_DATES enum_signed)) (TIME_FUZZY_DATES enum_signed).
(* [sql_type.h:1478-1481 Time::Options::default_datetime_to_time_mode] *)
Definition default_datetime_to_time_mode : datetime_to_time_mode_t := DATETIME_TO_TIME_YYYYMMDD_000000DD_MIX_TO_HOURS.
(* [sql_type.h:1475-1476 Time::Options::datetime_to_time_mode] *)
Definition datetime_to_time_mode (o : Time_Options) : datetime_to_time_mode_t := m_datetime_to_time_mode o.
(* [sql_type.h:1469-1473 Time::Options::Options(date_conv_mode_t, time_round_mode_t, datetime_to_time_mode_t)] *)
Definition mk_TimeOpt (fuzzydate : conv_t) (round_mode : round_t) (dm : datetime_to_time_mode_t) : option Time_Options :=
  m ← mk_Options_round fuzzydate round_mode; Some (TimeOpt m dm).
(* [sql_type.h:1465-1468 Time::Options::Options(date_conv_mode_t, THD, datetime_to_time_mode_t)] *)
Definition mk_TimeOpt_thd_mode (flags : conv_t) (thd : THD) (dm : datetime_to_time_mode_t) : option Time_Options :=
  mk_TimeOpt flags (default_round_mode thd) dm.
(* [sql_type.h:1461-1464 Time::Options::Options(date_conv_mode_t, THD)] *)
Definition mk_TimeOpt_thd (flags : conv_t) (thd : THD) : option Time_Options :=
  mk_TimeOpt flags (default_round_mode thd) default_datetime_to_time_mode.
(* [sql_type.h:1457-1460 Time::Options::Options(THD)] *)
Definition mk_TimeOpt_default (thd : THD) : option Time_Options :=
  mk_TimeOpt default_flags_for_get_date (default_round_mode thd) default_datetime_to_time_mode.
(* [sql_type.h:1491-1494 Time::Options_for_cast::Options_for_cast(THD)] *)
Definition Options_for_cast (thd : THD) : option Time_Options :=
  mk_TimeOpt default_flags_for_get_date (default_round_mode thd) DATETIME_TO_TIME_YYYYMMDD_TRUNCATE.
(* [sql_type.h:1495-1499 Time::Options_for_cast::Options_for_cast(date_mode_t, THD)] *)
Definition Options_for_cast_mode (mode : date_t) (thd : THD) : option Time_Options :=
  mk_TimeOpt (conv_or enum_signed default_flags_for_get_date (and_date_conv enum_signed mode (TIME_FUZZY_DATES enum_signed)))
    (default_round_mode thd) DATETIME_TO_TIME_YYYYMMDD_TRUNCATE.
(* [sql_type.h:1505-1507 Time::Options_cmp::Options_cmp(THD)] *)
Definition Options_cmp (thd : THD) : option Time_Options := mk_TimeOpt_thd comparison_flags_for_get_date thd.
(* [sql_type.h:1508-1511 Time::Options_cmp::Options_cmp(THD, datetime_to_time_mode_t)] *)
Definition Options_cmp_mode (thd : THD) (dm : datetime_to_time_mode_t) : option Time_Options :=
  mk_TimeOpt comparison_flags_for_get_date (default_round_mode thd) dm.

(** ** Validity and conversion to TIME *)

(* [sql_type.h:1518-1522 Time::is_valid_time_slow] *)
Definition is_valid_time_slow (t : MYSQL_TIME) : bool :=
  bool_decide (time_type t = MYSQL_TIMESTAMP_TIME) && has_zero_YYYYMMDD t && has_valid_mmssff t.
(* [sql_type.h:1514-1517 Time::is_valid_value_slow] *)
Definition is_valid_value_slow (t : MYSQL_TIME) : bool := bool_decide (time_type t = MYSQL_TIMESTAMP_NONE) || is_valid_time_slow t.
(* [sql_type.h:1769-1773 Time::is_valid_time] *)
Definition is_valid_time (t : MYSQL_TIME) : option bool :=
  ASSERT is_valid_value_slow t ;; Some (bool_decide (time_type t = MYSQL_TIMESTAMP_TIME)).

(* [sql_type.h:1523-1529 Time::hhmmssff_copy] *)
Definition hhmmssff_copy (t from : MYSQL_TIME) : MYSQL_TIME :=
  Time (year t) (month t) (day t) (hour from) (minute from) (second from) (second_part from) (neg t) (time_type t).

(* [sql_type.h:1530-1539 Time::datetime_to_time_YYYYMMDD_000000DD_mix_to_hours] *)
Definition datetime_to_time_YYYYMMDD_000000DD_mix_to_hours (t : MYSQL_TIME) (warn from_year from_month from_day : Z) : MYSQL_TIME * Z :=
  if negb (from_year =? 0) || negb (from_month =? 0) then (t, Z.lor warn MYSQL_TIME_NOTE_TRUNCATED)
  else (Time (year t) (month t) (day t) (u32 (hour t + u32 (from_day * 24))) (minute t) (second t) (second_part t) (neg t) (time_type t), warn).

(* [sql_type.h:1545-1554 Time::datetime_to_time_minus_current_date] *)
Definition datetime_to_time_minus_current_date (t : MYSQL_TIME) (thd : THD) : option MYSQL_TIME :=
  let current_date := set_current_date thd junk in
  let '(_, tmp) := calc_time_diff_time t current_date 1 junk (mk_date enum_signed 0) in
  let '(_, t, _) := check_time_range tmp TIME_SECOND_PART_DIGITS 0 in
  DO ok <- is_valid_time t ;; ASSERT ok ;; Some t.

(* [sql_type.h:1561-1589 Time::valid_datetime_to_valid_time] *)
Definition valid_datetime_to_valid_time (t : MYSQL_TIME) (thd : THD) (warn : Z) (opt : Time_Options) : option (MYSQL_TIME * Z) :=
  ASSERT bool_decide (time_type t = MYSQL_TIMESTAMP_DATE) || bool_decide (time_type t = MYSQL_TIMESTAMP_DATETIME) ;;
  ASSERT (day t <? 32) ;;
  ASSERT (hour t <? 24) ;;
  DO (t, warn) <-
    (if decide (datetime_to_time_mode opt = DATETIME_TO_TIME_MINUS_CURRENT_DATE) then
       t ← datetime_to_time_minus_current_date t thd; Some (t, warn)
     else
       let '(t, warn) :=
         if decide (datetime_to_time_mode opt = DATETIME_TO_TIME_YYYYMMDD_000000DD_MIX_TO_HOURS)
         then datetime_to_time_YYYYMMDD_000000DD_mix_to_hours t warn (year t) (month t) (day t) else (t, warn) in
       Some (Time 0 0 0 (hour t) (minute t) (second t) (second_part t) (neg t) MYSQL_TIMESTAMP_TIME, warn)) ;;
  ASSERT is_valid_time_slow t ;; Some (t, warn).

(* [sql_type.h:1603-1626 Time::valid_MYSQL_TIME_to_valid_value] *)
Definition valid_MYSQL_TIME_to_valid_value (t : MYSQL_TIME) (thd : THD) (warn : Z) (opt : Time_Options) : option (MYSQL_TIME * Z) :=
  match time_type t with
  | MYSQL_TIMESTAMP_DATE | MYSQL_TIMESTAMP_DATETIME =>
      if decide (datetime_to_time_mode opt = DATETIME_TO_TIME_YYYYMMDD_00000000_ONLY /\ non_zero_YYMMDD t = true) then Some (make_from_out_of_range t warn)
      else if decide (datetime_to_time_mode opt = DATETIME_TO_TIME_DISALLOW) then Some (make_from_out_of_range t warn)
      else valid_datetime_to_valid_time t thd warn opt
  | MYSQL_TIMESTAMP_NONE => Some (t, warn)
  | MYSQL_TIMESTAMP_ERROR => Some (set_zero_time t MYSQL_TIMESTAMP_TIME, warn)
  | MYSQL_TIMESTAMP_TIME => ASSERT is_valid_time_slow t ;; Some (t, warn)
  end.

(* [sql_type.h:1634-1639 Time::xxx_to_time_result_to_valid_value] *)
Definition xxx_to_time_result_to_valid_value (t : MYSQL_TIME) (thd : THD) (warn : Z) (opt : Time_Options) : option (MYSQL_TIME * Z) :=
  ASSERT negb (bool_decide (time_type t = MYSQL_TIMESTAMP_ERROR)) ;; valid_MYSQL_TIME_to_valid_value t thd warn opt.

(* [sql_type.h:1640-1645 Time::adjust_time_range_or_invalidate] *)
Definition adjust_time_range_or_invalidate (t : MYSQL_TIME) (warn : Z) : option (MYSQL_TIME * Z) :=
  let '(rc, t, warn) := check_time_range t TIME_SECOND_PART_DIGITS warn in
  let t := if rc then set_time_type t MYSQL_TIMESTAMP_NONE else t in
  ASSERT is_valid_value_slow t ;; Some (t, warn).

(** ** Rounding *)

(* [sql_type.h:1840-1844 Time::fraction_remainder] *)
Definition Time_fraction_remainder (t : MYSQL_TIME) (dec : Z) : option Z :=
  DO ok <- is_valid_time t ;; ASSERT ok ;; Temporal_fraction_remainder t dec.
(* [sql_type.h:1846-1852 Time::trunc] *)
Definition Time_trunc (t : MYSQL_TIME) (dec : Z) : option MYSQL_TIME :=
  DO ok <- is_valid_time t ;;
  DO t <- (if ok then my_time_trunc log_10_int long_bits t dec else Some t) ;;
  ASSERT is_valid_value_slow t ;; Some t.
(* [sql_type.h:1853-1859 Time::round(uint, int)] *)
Definition Time_round (t : MYSQL_TIME) (dec warn : Z) : option (MYSQL_TIME * Z) :=
  DO ok <- is_valid_time t ;;
  let '(t, warn) := if ok then round_or_set_max t dec warn else (t, warn) in
  ASSERT is_valid_value_slow t ;; Some (t, warn).
(* [sql_type.h:1860-1872 Time::round(uint, time_round_mode_t, int)] *)
Definition Time_round_mode (t : MYSQL_TIME) (dec : Z) (md : round_t) (warn : Z) : option (MYSQL_TIME * Z) :=
  if mode md =? time_round_mode_t.FRAC_NONE then
    r ← Time_fraction_remainder t dec; ASSERT (r =? 0) ;; t ← Time_trunc t dec; Some (t, warn)
  else if mode md =? time_round_mode_t.FRAC_TRUNCATE then t ← Time_trunc t dec; Some (t, warn)
  else if mode md =? time_round_mode_t.FRAC_ROUND then Time_round t dec warn
  else Some (t, warn).
(* [sql_type.h:1873-1877 Time::round(uint, time_round_mode_t)] *)
Definition Time_round_quiet (t : MYSQL_TIME) (dec : Z) (md : round_t) : option MYSQL_TIME := DO (t, _) <- Time_round_mode t dec md 0 ;; Some t.

(** ** Constructors *)

(* [sql_type.h:1667-1667 Time::Time()] *)
Definition mk_Time (t0 : MYSQL_TIME) : MYSQL_TIME := set_time_type t0 MYSQL_TIMESTAMP_NONE.
(** The local [warn] is uninitialised: [w0]. *)
(* [sql_type.h:1671-1675 Time::Time(THD, Item, Options)] *)
Definition Time_of_item (t0 : MYSQL_TIME) (thd : THD) (w0 : Z) (item : Item) (opt : Time_Options) : MYSQL_TIME :=
  fst (Time_make_from_item t0 thd w0 item opt).
(* [sql_type.h:1676-1678 Time::Time(THD, Item)] *)
Definition Time_of_item_default (t0 : MYSQL_TIME) (thd : THD) (w0 : Z) (item : Item) : option MYSQL_TIME :=
  opt ← mk_TimeOpt_default thd; Some (Time_of_item t0 thd w0 item opt).
(* [sql_type.h:1680-1689 Time::Time(THD, MYSQL_TIME_STATUS, str, Options)] *)
Definition Time_of_str (t0 : MYSQL_TIME) (thd : THD) (st : MYSQL_TIME_STATUS) (str : text) (opt : Time_Options) : option (MYSQL_TIME * MYSQL_TIME_STATUS) :=
  let '(rc, t, st) := str_to_datetime_or_date_or_time_cs t0 thd st str (opt_mode opt) in
  if rc : bool then Some (set_time_type t MYSQL_TIMESTAMP_NONE, st)
  else DO (t, w) <- xxx_to_time_result_to_valid_value t thd (warnings st) opt ;; Some (t, set_warnings st w).
(* [sql_type.h:1692-1697 Time::Time(THD, int, Sec6, Options)] *)
Definition Time_of_sec6 (t0 : MYSQL_TIME) (thd : THD) (warn : Z) (nr : Sec6.t) (opt : Time_Options) : option (MYSQL_TIME * Z) :=
  DO (rc, t, warn) <- to_datetime_or_time nr t0 warn (TIME_INVALID_DATES enum_signed) ;;
  let t := if rc then set_time_type t MYSQL_TIMESTAMP_NONE else t in
  xxx_to_time_result_to_valid_value t thd warn opt.
(* [sql_type.h:1698-1703 Time::Time(THD, int, Sec9, Options)] *)
Definition Time_of_sec9 (t0 : MYSQL_TIME) (thd : THD) (warn : Z) (nr : Sec9.t) (opt : Time_Options) : option (MYSQL_TIME * Z) :=
  DO (t, warn) <- Time_of_sec6 t0 thd warn (Sec9.base nr) opt ;;
  DO ok <- is_valid_time t ;;
  if ok then
    DO m <- date_to_round enum_signed (opt_mode opt) ;; DO r <- TIME_FRAC_ROUND enum_signed ;;
    Some (if round_eq m r then round_or_set_max_nsec t 6 warn (Sec9.nsec nr) else (t, warn))
  else Some (t, warn).
(* [sql_type.h:1706-1708 Time::Time(THD, int, Longlong_hybrid, Options)] *)
Definition Time_of_longlong (t0 : MYSQL_TIME) (thd : THD) (warn : Z) (nr : Longlong_hybrid) (opt : Time_Options) : option (MYSQL_TIME * Z) :=
  DO s <- Sec6.of_longlong_hybrid nr ;; Time_of_sec6 t0 thd warn s opt.
(* [sql_type.h:1709-1711 Time::Time(THD, int, double, Options)] *)
Definition Time_of_double (t0 : MYSQL_TIME) (thd : THD) (warn : Z) (nr : double) (opt : Time_Options) : option (MYSQL_TIME * Z) :=
  Time_of_sec9 t0 thd warn (Sec9_of_double nr) opt.
(* [sql_type.h:1712-1714 Time::Time(THD, int, my_decimal, Options)] *)
Definition Time_of_decimal (t0 : MYSQL_TIME) (thd : THD) (warn : Z) (d : my_decimal) (opt : Time_Options) : option (MYSQL_TIME * Z) :=
  Time_of_sec9 t0 thd warn (Sec9_of_decimal d) opt.

(** The rounding mode of the options, then [round]. *)
Definition round_with (r : option (MYSQL_TIME * Z)) (dec : Z) (opt : date_t) : option (MYSQL_TIME * Z) :=
  DO (t, warn) <- r ;; DO m <- date_to_round enum_signed opt ;; Time_round_mode t dec m warn.

(* [sql_type.h:1716-1720 Time::Time(THD, Item, Options, uint)] *)
Definition Time_of_item_dec (t0 : MYSQL_TIME) (thd : THD) (w0 : Z) (item : Item) (opt : Time_Options) (dec : Z) : option MYSQL_TIME :=
  DO m <- date_to_round enum_signed (opt_mode opt) ;; Time_round_quiet (Time_of_item t0 thd w0 item opt) dec m.
(* [sql_type.h:1721-1726 Time::Time(int, MYSQL_TIME, long, Options, uint)] *)
Definition Time_of_MYSQL_TIME_dec (t0 : MYSQL_TIME) (warn : Z) (from : MYSQL_TIME) (curdays : Z) (opt : Time_Options) (dec : Z) : option (MYSQL_TIME * Z) :=
  round_with (Some (Time_of_MYSQL_TIME t0 warn from curdays)) dec (opt_mode opt).
(* [sql_type.h:1727-1735 Time::Time(int, bool, ulonglong, uint, Sec9, time_round_mode_t, uint)] *)
Definition Time_of_parts_dec (t0 : MYSQL_TIME) (warn : Z) (ng : bool) (h m : Z) (s : Sec9.t) (md : round_t) (dec : Z) : option (MYSQL_TIME * Z) :=
  let '(t, warn) := Time_of_parts t0 warn ng h m (Sec9.base s) in
  DO ok <- is_valid_time t ;; ASSERT ok ;;
  DO r <- TIME_FRAC_ROUND enum_signed ;;
  let '(t, warn) := if round_ulonglong md =? round_ulonglong r then round_or_set_max_nsec t 6 warn (Sec9.nsec s) else (t, warn) in
  Time_round_mode t dec md warn.
(* [sql_type.h:1736-1742 Time::Time(THD, MYSQL_TIME_STATUS, str, Options, uint)] *)
Definition Time_of_str_dec (t0 : MYSQL_TIME) (thd : THD) (st : MYSQL_TIME_STATUS) (str : text) (opt : Time_Options) (dec : Z)
    : option (MYSQL_TIME * MYSQL_TIME_STATUS) :=
  DO (t, st) <- Time_of_str t0 thd st str opt ;;
  DO (t, w) <- round_with (Some (t, warnings st)) dec (opt_mode opt) ;; Some (t, set_warnings st w).
(* [sql_type.h:1743-1753 Time::Time(THD, int, Longlong_hybrid, Options, uint)] *)
Definition Time_of_longlong_dec (t0 : MYSQL_TIME) (thd : THD) (warn : Z) (nr : Longlong_hybrid) (opt : Time_Options) (dec : Z) : option (MYSQL_TIME * Z) :=
  DO (t, warn) <- Time_of_longlong t0 thd warn nr opt ;; DO t <- Time_trunc t dec ;; Some (t, warn).
(* [sql_type.h:1754-1758 Time::Time(THD, int, double, Options, uint)] *)
Definition Time_of_double_dec (t0 : MYSQL_TIME) (thd : THD) (warn : Z) (nr : double) (opt : Time_Options) (dec : Z) : option (MYSQL_TIME * Z) :=
  round_with (Time_of_double t0 thd warn nr opt) dec (opt_mode opt).
(* [sql_type.h:1759-1763 Time::Time(THD, int, my_decimal, Options, uint)] *)
Definition Time_of_decimal_dec (t0 : MYSQL_TIME) (thd : THD) (warn : Z) (d : my_decimal) (opt : Time_Options) (dec : Z) : option (MYSQL_TIME * Z) :=
  round_with (Time_of_decimal t0 thd warn d opt) dec (opt_mode opt).

(** ** Accessors *)

(* [sql_type.h:1774-1778 Time::get_mysql_time] *)
Definition Time_get_mysql_time (t : MYSQL_TIME) : option MYSQL_TIME := ASSERT is_valid_time_slow t ;; Some t.
(* [sql_type.h:1779-1789 Time::copy_to_mysql_time] *)
Definition Time_copy_to_mysql_time (t ltime : MYSQL_TIME) : option (bool * MYSQL_TIME) :=
  if bool_decide (time_type t = MYSQL_TIMESTAMP_NONE) then Some (true, set_time_type ltime MYSQL_TIMESTAMP_NONE)
  else ASSERT is_valid_time_slow t ;; Some (false, t).
(* [sql_type.h:1836-1839 Time::to_packed] *)
Definition Time_to_packed (t : MYSQL_TIME) : option Z := DO ok <- is_valid_time t ;; Some (if ok then Temporal_to_packed t else 0).
(* [sql_type.h:1790-1801 Time::cmp] *)
Definition Time_cmp (t other : MYSQL_TIME) : option Z :=
  ASSERT is_valid_time_slow t ;; ASSERT is_valid_time_slow other ;;
  DO p0 <- Time_to_packed t ;; DO p1 <- Time_to_packed other ;;
  Some (if p0 <? p1 then -1 else if p1 <? p0 then 1 else 0).

(** An operation between [unsigned int] and [long]. *)
Definition uint_long (z : Z) : Z := if 32 <? long_bits then long z else ulong z.
(** [hour * 3600L + minute * 60 + second]. *)
Definition hhmmss_seconds (t : MYSQL_TIME) : Z :=
  uint_long (uint_long (uint_long (hour t * 3600) + u32 (minute t * 60)) + second t).
(* [sql_type.h:1802-1806 Time::to_seconds_abs] *)
Definition to_seconds_abs (t : MYSQL_TIME) : option Z := ASSERT is_valid_time_slow t ;; Some (hhmmss_seconds t).
(* [sql_type.h:1807-1810 Time::to_seconds] *)
Definition to_seconds (t : MYSQL_TIME) : option Z := DO s <- to_seconds_abs t ;; Some (if neg t then - s else s).
(* [sql_type.h:1811-1817 Time::to_longlong] *)
Definition Time_to_longlong (t : MYSQL_TIME) : option Z :=
  DO ok <- is_valid_time t ;;
  if negb ok then Some 0 else
  let v := TIME_to_ulonglong_time t in if neg t then longlong_ (- s64 v) else Some (s64 v).
(* [sql_type.h:1818-1822 Time::to_double] *)
Definition Time_to_double (t : MYSQL_TIME) : option double :=
  DO ok <- is_valid_time t ;;
  Some (if negb ok then double_of 0 else Temporal_to_double (neg t) (TIME_to_ulonglong_time t) (second_part t)).
End time.

(** ** What they compute *)

(** What the mode makes of the value [t] of a DATE or DATETIME and of the warnings [w]. *)
Definition converted_by_mode (opt : Time_Options) (t : MYSQL_TIME) (w : Z) (t' : MYSQL_TIME) (w' : Z) : Prop :=
  match m_datetime_to_time_mode opt with
  | DATETIME_TO_TIME_DISALLOW => time_type t' = MYSQL_TIMESTAMP_NONE /\ w' = MYSQL_TIME_WARN_OUT_OF_RANGE
  | DATETIME_TO_TIME_YYYYMMDD_00000000_ONLY =>
      if non_zero_YYMMDD t then time_type t' = MYSQL_TIMESTAMP_NONE /\ w' = MYSQL_TIME_WARN_OUT_OF_RANGE
      else is_TIME TIME_MAX_HOUR t' /\ w' = w /\ neg t' = false /\ daytime_us 0 t' = daytime_us 0 t
  | DATETIME_TO_TIME_YYYYMMDD_TRUNCATE => is_TIME TIME_MAX_HOUR t' /\ w' = w /\ neg t' = false /\ daytime_us 0 t' = daytime_us 0 t
  | DATETIME_TO_TIME_YYYYMMDD_000000DD_MIX_TO_HOURS => is_TIME TIME_MAX_HOUR t' /\ neg t' = false /\
      if non_zero_YYMMDD (Time (year t) (month t) 0 0 0 0 0 false MYSQL_TIMESTAMP_DATE)
      then w' = Z.lor w MYSQL_TIME_NOTE_TRUNCATED /\ daytime_us 0 t' = daytime_us 0 t
      else w' = w /\ daytime_us 0 t' = daytime_us (day t) t
  | DATETIME_TO_TIME_MINUS_CURRENT_DATE => is_TIME TIME_MAX_HOUR t' /\ w' = w
  end.

Section time_laws.
Context {L : TimeLib} {TL : TimeLaws L} {M : TimeMembers L} {ML : TimeMemberLaws M}.
Context {TM : TemporalMembers L} {SM : SecMembers L} {SL : SecLaws SM}.
Variable junk : MYSQL_TIME.

Lemma valid_time_slow mh t : is_TIME mh t -> is_valid_time_slow t = true.
Proof.
  intros [Ht Hz _ Hm]. unfold is_valid_time_slow. rewrite bool_decide_true by done.
  by rewrite (proj1 (has_zero_ok t Hz)), has_valid_mmssff_ok.
Qed.

Lemma valid_value_slow t : time_value_ok t -> is_valid_value_slow t = true.
Proof.
  unfold is_valid_value_slow. intros [H | H]; [by rewrite bool_decide_true |]. by rewrite (valid_time_slow _ _ H), orb_true_r.
Qed.

Lemma is_valid_time_ok t : time_value_ok t -> is_valid_time t = Some (bool_decide (time_type t = MYSQL_TIMESTAMP_TIME)).
Proof. intros H. unfold is_valid_time. by rewrite valid_value_slow. Qed.

Lemma time_value_none t : time_value_ok (set_time_type t MYSQL_TIMESTAMP_NONE).
Proof. by left. Qed.

(** A TIME made of the clock of a date. *)
Lemma clock_TIME t h : mmssff_ok t -> 0 <= h <= TIME_MAX_HOUR ->
  is_TIME TIME_MAX_HOUR (Time 0 0 0 h (minute t) (second t) (second_part t) (neg t) MYSQL_TIMESTAMP_TIME).
Proof. intros [] Hh. by constructor; cbn; [| | | constructor]. Qed.

Lemma minus_current_date_ok t thd : is_DATE t ->
  exists t', datetime_to_time_minus_current_date junk t thd = Some t' /\ is_TIME TIME_MAX_HOUR t'.
Proof.
  intros Ht. unfold datetime_to_time_minus_current_date. pose proof (set_current_date_spec thd junk) as Hc.
  pose proof (calc_time_diff_time_spec t (set_current_date thd junk) junk (mk_date enum_signed 0) Ht Hc) as Hd.
  destruct (calc_time_diff_time _ _ _ _ _) as [b d].
  pose proof (check_time_range_spec d TIME_SECOND_PART_DIGITS 0 Hd) as Hr.
  destruct (check_time_range d _ _) as [[rc t'] w]. destruct Hr as (_ & Hr & _); [time_lia |].
  exists t'. split; [| done]. rewrite is_valid_time_ok by (by right). by rewrite bool_decide_true by apply Hr.
Qed.

(** The value of a DATE or DATETIME as a TIME, for each mode. *)
Lemma datetime_to_time_ok t thd w opt : is_DATE t ->
  exists t' w', valid_MYSQL_TIME_to_valid_value junk t thd w opt = Some (t', w') /\ time_value_ok t' /\
    converted_by_mode opt t w t' w'.
Proof.
  unfold converted_by_mode. intros Ht. pose proof Ht as [Hty Hng [_ _ Hd Hh Hm]]. unfold valid_MYSQL_TIME_to_valid_value.
  assert (Hcase : forall r, (match time_type t with
      | MYSQL_TIMESTAMP_DATE | MYSQL_TIMESTAMP_DATETIME => r | MYSQL_TIMESTAMP_NONE => Some (t, w)
      | MYSQL_TIMESTAMP_ERROR => Some (set_zero_time t MYSQL_TIMESTAMP_TIME, w)
      | MYSQL_TIMESTAMP_TIME => dbug_assert (is_valid_time_slow t) (Some (t, w)) end) = r) by (intros r; by destruct Hty as [-> | ->]).
  rewrite Hcase. clear Hcase. unfold valid_datetime_to_valid_time, datetime_to_time_mode.
  assert (E1 : bool_decide (time_type t = MYSQL_TIMESTAMP_DATE) || bool_decide (time_type t = MYSQL_TIMESTAMP_DATETIME) = true)
    by (by destruct Hty as [-> | ->]).
  assert (E2 : (day t <? 32) = true) by (apply Z.ltb_lt; lia). assert (E3 : (hour t <? 24) = true) by (apply Z.ltb_lt; lia).
  rewrite E1, E2, E3. cbn [dbug_assert].
  assert (Hclock : forall h, 0 <= h <= TIME_MAX_HOUR ->
    is_TIME TIME_MAX_HOUR (Time 0 0 0 h (minute t) (second t) (second_part t) (neg t) MYSQL_TIMESTAMP_TIME)) by (intros; by apply clock_TIME).
  destruct (m_datetime_to_time_mode opt).
  - rewrite decide_False by (by intros [? _]). rewrite decide_True by done. eexists _, _. split; [reflexivity |]. by split; [left |].
  - rewrite !decide_False by (by intros [? _]). rewrite !decide_False, decide_True by done.
    unfold datetime_to_time_YYYYMMDD_000000DD_mix_to_hours, non_zero_YYMMDD. cbn [year month day]. rewrite Z.eqb_refl, orb_false_r.
    rewrite (u32_small (day t * 24)), u32_small by lia.
    destruct (negb _ || negb _); cbn [hour minute second second_part neg]; (rewrite (valid_time_slow TIME_MAX_HOUR) by (apply Hclock; time_lia)); eexists _, _; (split; [reflexivity |]);
      (split; [right; apply Hclock; time_lia |]); (split; [apply Hclock; time_lia |]); (split; [done |]); (split; [done |]);
      unfold daytime_us, hms_seconds; cbn; lia.
  - rewrite !decide_False by (by intros [? _]). rewrite !decide_False by done.
    rewrite (valid_time_slow TIME_MAX_HOUR) by (apply Hclock; time_lia). eexists _, _. split; [reflexivity |].
    split; [right; apply Hclock; time_lia |]. by split; [apply Hclock; time_lia |].
  - destruct (non_zero_YYMMDD t) eqn:En.
    + rewrite decide_True by done. eexists _, _. split; [reflexivity |]. by split; [left |].
    + rewrite !decide_False by (by intros [? ?]). rewrite !decide_False by done.
      rewrite (valid_time_slow TIME_MAX_HOUR) by (apply Hclock; time_lia). eexists _, _. split; [reflexivity |].
      split; [right; apply Hclock; time_lia |]. by split; [apply Hclock; time_lia |].
  - rewrite !decide_False by (by intros [? _]). rewrite decide_False, decide_True by done.
    destruct (minus_current_date_ok t thd Ht) as (t' & -> & Ht'). cbn [mbind option_bind].
    rewrite (valid_time_slow _ _ Ht'). exists t', w. split; [done |]. by split; [right |].
Qed.

Lemma Temporal_remainder_ok t dec : 0 <= second_part t <= TIME_MAX_SECOND_PART -> 0 <= dec <= 6 ->
  Temporal_fraction_remainder t dec = Some (second_part t mod 10 ^ (6 - dec)) /\
  my_time_trunc log_10_int long_bits t dec = Some (set_second_part t (second_part t - second_part t mod 10 ^ (6 - dec))).
Proof.
  intros Ht Hd. assert (HW : 32 <= long_bits) by (destruct long_width as [-> | ->]; lia).
  unfold Temporal_fraction_remainder. rewrite long_small by time_lia. apply my_time_trunc_value; [apply log_10_powers | done..].
Qed.

Lemma truncated_ok z dec : 0 <= z <= TIME_MAX_SECOND_PART -> 0 <= dec <= 6 ->
  0 <= z - z mod 10 ^ (6 - dec) <= z /\ (z - z mod 10 ^ (6 - dec)) mod 10 ^ (6 - dec) = 0.
Proof.
  intros Hz Hd. pose proof (Z.pow_pos_nonneg 10 (6 - dec)). set (u := 10 ^ (6 - dec)) in *.
  pose proof (Z.mod_pos_bound z u). pose proof (Z.mod_le z u). split; [lia |].
  replace (z - z mod u) with (z / u * u) by (pose proof (Z.div_mod z u); lia). apply Z_mod_mult.
Qed.

(** [t] is valid, and a TIME has [dec] digits. *)
Definition rounded_ok (dec : Z) (t : MYSQL_TIME) : Prop :=
  time_type t = MYSQL_TIMESTAMP_NONE \/ is_TIME TIME_MAX_HOUR t /\ has_digits dec t.

Lemma rounded_value dec t : rounded_ok dec t -> time_value_ok t.
Proof. intros [H | [H _]]; [by left | by right]. Qed.

Lemma Time_trunc_ok t dec : time_value_ok t -> 0 <= dec <= 6 -> exists t', Time_trunc t dec = Some t' /\ rounded_ok dec t'.
Proof.
  intros Hv Hd. unfold Time_trunc. rewrite is_valid_time_ok by done. destruct Hv as [Ht | Ht].
  - rewrite bool_decide_false by congruence. unfold is_valid_value_slow. rewrite bool_decide_true by done. exists t. by split; [| left].
  - rewrite bool_decide_true by apply Ht. pose proof Ht as [Hty Hz Hh [Hm Hs Hp]]. rewrite (proj2 (Temporal_remainder_ok t dec Hp Hd)).
    destruct (truncated_ok (second_part t) dec Hp Hd) as [H1 H2]. set (t' := set_second_part t _).
    assert (Ht' : is_TIME TIME_MAX_HOUR t') by (constructor; [done.. | constructor; cbn; time_lia]).
    rewrite valid_value_slow by (by right). exists t'. split; [done |]. right. by split.
Qed.

Lemma Time_round_ok t dec w : time_value_ok t -> 0 <= dec <= 6 -> exists t' w', Time_round t dec w = Some (t', w') /\ rounded_ok dec t'.
Proof.
  intros Hv Hd. unfold Time_round. rewrite is_valid_time_ok by done. destruct Hv as [Ht | Ht].
  - rewrite bool_decide_false by congruence. unfold is_valid_value_slow. rewrite bool_decide_true by done. exists t, w. by split; [| left].
  - rewrite bool_decide_true by apply Ht. destruct (round_or_set_max_spec t dec w Ht Hd) as [H1 H2].
    destruct (round_or_set_max t dec w) as [t' w']. rewrite valid_value_slow by (by right). exists t', w'. split; [done |]. by right.
Qed.

(** A rounding mode that a date mode can hold, and that is not NONE. *)
Definition rounds (m : round_t) : Prop :=
  mode m = time_round_mode_t.FRAC_TRUNCATE \/ mode m = time_round_mode_t.FRAC_ROUND.

Lemma Time_round_mode_ok t dec m w : time_value_ok t -> 0 <= dec <= 6 -> rounds m ->
  exists t' w', Time_round_mode t dec m w = Some (t', w') /\ rounded_ok dec t'.
Proof.
  intros Hv Hd Hm. unfold Time_round_mode. destruct Hm as [-> | ->].
  - change (time_round_mode_t.FRAC_TRUNCATE =? time_round_mode_t.FRAC_NONE) with false. rewrite Z.eqb_refl.
    destruct (Time_trunc_ok t dec Hv Hd) as (t' & -> & H). by exists t', w.
  - change (time_round_mode_t.FRAC_ROUND =? time_round_mode_t.FRAC_NONE) with false.
    change (time_round_mode_t.FRAC_ROUND =? time_round_mode_t.FRAC_TRUNCATE) with false. rewrite Z.eqb_refl. by apply Time_round_ok.
Qed.

(** The rounding mode of the options is TRUNCATE or ROUND. *)
Definition options_round (opt : date_t) : Prop := exists m, date_to_round enum_signed opt = Some m /\ rounds m.

Lemma options_round_mode_ok opt : options_round opt -> mode_ok opt.
Proof. intros (m & H & _). by exists m. Qed.

(** A DATE, DATETIME or TIME in its range, or nothing, becomes a valid object. *)
Lemma xxx_to_time_ok t thd w opt : time_type t = MYSQL_TIMESTAMP_NONE \/ is_DATE t \/ is_TIME TIME_MAX_HOUR t ->
  exists t' w', xxx_to_time_result_to_valid_value junk t thd w opt = Some (t', w') /\ time_value_ok t'.
Proof.
  intros Ht. unfold xxx_to_time_result_to_valid_value.
  rewrite bool_decide_false by (destruct Ht as [-> | [[[-> | ->] _ _] | [-> _ _ _]]]; done). cbn [negb dbug_assert].
  destruct Ht as [E | [H | H]].
  - unfold valid_MYSQL_TIME_to_valid_value. rewrite E. exists t, w. by split; [| left].
  - destruct (datetime_to_time_ok t thd w opt H) as (t' & w' & E & Hv & _). by exists t', w'.
  - unfold valid_MYSQL_TIME_to_valid_value. rewrite (TIME_type _ _ H), (valid_time_slow _ _ H). exists t, w. by split; [| right].
Qed.

Lemma Time_of_sec6_ok t0 thd w s opt : sec6_ok s -> exists t' w', Time_of_sec6 junk t0 thd w s opt = Some (t', w') /\ time_value_ok t'.
Proof.
  intros Hs. unfold Time_of_sec6. destruct (to_datetime_or_time_ok s t0 w (TIME_INVALID_DATES enum_signed) Hs) as (rc & t & w' & -> & H).
  apply xxx_to_time_ok. destruct rc; [by left | by right].
Qed.

Lemma Time_of_sec9_ok t0 thd w s opt : sec6_ok (Sec9.base s) -> nsec_ok (Sec9.m_nsec s) -> mode_ok (opt_mode opt) ->
  exists t' w', Time_of_sec9 junk t0 thd w s opt = Some (t', w') /\ time_value_ok t'.
Proof.
  intros Hs Hn [m Hm]. unfold Time_of_sec9. destruct (Time_of_sec6_ok t0 thd w (Sec9.base s) opt Hs) as (t & w' & -> & Ht).
  destruct (TIME_FRAC_ROUND_some enum_signed) as [r Hr].
  rewrite is_valid_time_ok by done. case_bool_decide as E; [| by exists t, w']. rewrite Hm, Hr.
  destruct (round_eq m r); [| by exists t, w']. destruct Ht as [? | Ht]; [congruence |].
  pose proof (round_or_set_max_nsec_spec t 6 w' (Sec9.nsec s) Ht) as H. destruct (round_or_set_max_nsec _ _ _ _) as [t' w2].
  exists t', w2. split; [done |]. right. apply H; [lia | done].
Qed.

Lemma Time_of_number_ok t0 thd w nr d x opt : longlong_wf nr -> mode_ok (opt_mode opt) ->
  (exists t' w', Time_of_longlong junk t0 thd w nr opt = Some (t', w') /\ time_value_ok t') /\
  (exists t' w', Time_of_double junk t0 thd w d opt = Some (t', w') /\ time_value_ok t') /\
  (exists t' w', Time_of_decimal junk t0 thd w x opt = Some (t', w') /\ time_value_ok t').
Proof.
  intros Hw Hm. split; [| split].
  - unfold Time_of_longlong, Sec6.of_longlong_hybrid. destruct (make_from_int_ok nr Hw) as (s & -> & Hs & _). by apply Time_of_sec6_ok.
  - unfold Time_of_double, Sec9_of_double. destruct (make_from_double_spec d) as [H1 H2]. destruct (make_from_double d) as [b n].
    by apply Time_of_sec9_ok.
  - unfold Time_of_decimal, Sec9_of_decimal. destruct (make_from_decimal_spec x) as [H1 H2]. destruct (make_from_decimal x) as [b n].
    by apply Time_of_sec9_ok.
Qed.

Lemma Time_of_str_ok t0 thd st str opt : exists t st', Time_of_str junk t0 thd st str opt = Some (t, st') /\ time_value_ok t.
Proof.
  unfold Time_of_str. pose proof (str_to_time_spec t0 thd st str (opt_mode opt)) as H.
  destruct (str_to_datetime_or_date_or_time_cs _ _ _ _ _) as [[rc t] st']. destruct rc.
  - eexists _, _. split; [reflexivity |]. by left.
  - destruct (xxx_to_time_ok t thd (warnings st') opt) as (t' & w' & -> & Ht'); [right; by apply H |]. by eexists _, _.
Qed.

(** The value with its fraction cut to [dec] digits. *)
Definition truncated (dec : Z) (t : MYSQL_TIME) : MYSQL_TIME :=
  if bool_decide (time_type t = MYSQL_TIMESTAMP_TIME) then set_second_part t (second_part t - second_part t mod 10 ^ (6 - dec)) else t.

(** What [round] with the mode [m] makes of the valid value [t], for each mode:
    a fraction that may not be rounded must have no more digits, and there must be
    a TIME; a truncated fraction is cut; a rounded one has the digits asked for. *)
Definition round_result (m : round_t) (dec : Z) (t : MYSQL_TIME) (r : option MYSQL_TIME) : Prop :=
  (mode m = time_round_mode_t.FRAC_NONE ->
     r = if bool_decide (time_type t = MYSQL_TIMESTAMP_TIME) && (second_part t mod 10 ^ (6 - dec) =? 0) then Some t else None) /\
  (mode m = time_round_mode_t.FRAC_TRUNCATE -> r = Some (truncated dec t)) /\
  (mode m = time_round_mode_t.FRAC_ROUND -> exists t', r = Some t' /\ (time_type t = MYSQL_TIMESTAMP_NONE -> t' = t)) /\
  (forall t', r = Some t' -> rounded_ok dec t').

Lemma Time_trunc_is_truncated t dec : time_value_ok t -> 0 <= dec <= 6 -> Time_trunc t dec = Some (truncated dec t) /\ rounded_ok dec (truncated dec t).
Proof.
  intros Hv Hd. destruct (Time_trunc_ok t dec Hv Hd) as (t' & E & Hr).
  assert (Hg : Time_trunc t dec = Some (truncated dec t)); [| split; [done | congruence]].
  clear Hr. revert E. unfold Time_trunc, truncated. rewrite is_valid_time_ok by done. case_bool_decide as Ht.
  - destruct Hv as [? | Hv]; [congruence |]. rewrite (proj2 (Temporal_remainder_ok t dec ltac:(by apply Hv) Hd)).
    destruct (is_valid_value_slow _); [done | by intros].
  - by rewrite valid_value_slow.
Qed.

(** The three modes. *)
Definition known_mode (m : round_t) : Prop := mode m = time_round_mode_t.FRAC_NONE \/ rounds m.

Lemma date_to_round_known opt m : date_to_round enum_signed opt = Some m -> known_mode m.
Proof.
  unfold date_to_round, mk_round, known_mode, rounds, mode. set (z := Z.land _ _).
  destruct (Z.eqb_spec z time_round_mode_t.FRAC_NONE) as [-> |]; [intros [= <-]; left; by destruct enum_signed |].
  destruct (Z.eqb_spec z time_round_mode_t.FRAC_TRUNCATE) as [-> |]; [intros [= <-]; right; left; by destruct enum_signed |].
  destruct (Z.eqb_spec z time_round_mode_t.FRAC_ROUND) as [-> |]; [intros [= <-]; right; right; by destruct enum_signed | done].
Qed.

Lemma Time_round_mode_result t dec m w : time_value_ok t -> 0 <= dec <= 6 -> known_mode m ->
  round_result m dec t (fst <$> Time_round_mode t dec m w).
Proof.
  intros Hv Hd Hm. destruct (Time_trunc_is_truncated t dec Hv Hd) as [Etr Htr]. unfold round_result.
  assert (Hnone : mode m = time_round_mode_t.FRAC_NONE -> fst <$> Time_round_mode t dec m w =
    if bool_decide (time_type t = MYSQL_TIMESTAMP_TIME) && (second_part t mod 10 ^ (6 - dec) =? 0) then Some t else None).
  { intros E. unfold Time_round_mode. rewrite E, Z.eqb_refl. unfold Time_fraction_remainder. rewrite is_valid_time_ok, Etr by done.
    unfold truncated. case_bool_decide as Ht; [| done]. cbn [andb dbug_assert].
    destruct Hv as [? | Hv]; [congruence |]. rewrite (proj1 (Temporal_remainder_ok t dec ltac:(by apply Hv) Hd)). cbn [mbind option_bind].
    destruct (Z.eqb_spec (second_part t mod 10 ^ (6 - dec)) 0) as [-> | _]; [| done]. cbn. by destruct t; rewrite Z.sub_0_r. }
  split; [exact Hnone |]. split.
  { intros E. unfold Time_round_mode. by rewrite E, Etr. }
  split.
  { intros E. unfold Time_round_mode. rewrite E.
    destruct (Time_round_ok t dec w Hv Hd) as (t' & w' & Er & _). exists t'. cbn. rewrite Er. split; [done |]. intros Ht. revert Er.
    unfold Time_round. rewrite is_valid_time_ok, bool_decide_false, valid_value_slow by (done || congruence). by intros [= <- _]. }
  intros t' E. destruct (decide (mode m = time_round_mode_t.FRAC_NONE)) as [Hn | Hn].
  - rewrite (Hnone Hn) in E. destruct Hv as [Hv | Hv]; [by rewrite bool_decide_false in E by congruence |].
    destruct (Z.eqb_spec (second_part t mod 10 ^ (6 - dec)) 0); [| by rewrite andb_false_r in E].
    rewrite bool_decide_true in E by apply Hv. injection E as <-. by right.
  - destruct (Time_round_mode_ok t dec m w Hv Hd) as (t2 & w2 & E2 & H2); [| by rewrite E2 in E; injection E as <-].
    by destruct Hm.
Qed.

(** The constructors of an item, of a DATE or DATETIME with the current day, and of
    sign, hours, minutes and seconds: when the member compiled elsewhere leaves a
    valid value (a TIME in the last case), the digits are cut or rounded as the mode
    says. *)
Lemma Time_of_members_dec t0 thd w item opt from cur ng h mi s m dec :
  date_to_round enum_signed (opt_mode opt) = Some m -> 0 <= dec <= 6 -> nsec_ok (Sec9.m_nsec s) ->
  (time_value_ok (Time_of_item t0 thd w item opt) ->
    round_result m dec (Time_of_item t0 thd w item opt) (Time_of_item_dec t0 thd w item opt dec)) /\
  (time_value_ok (Time_of_MYSQL_TIME t0 w from cur).1 ->
    round_result m dec (Time_of_MYSQL_TIME t0 w from cur).1 (fst <$> Time_of_MYSQL_TIME_dec t0 w from cur opt dec)) /\
  (is_TIME TIME_MAX_HOUR (Time_of_parts t0 w ng h mi (Sec9.base s)).1 ->
    exists t, is_TIME TIME_MAX_HOUR t /\ round_result m dec t (fst <$> Time_of_parts_dec t0 w ng h mi s m dec)).
Proof.
  intros Hm Hd Hn. pose proof (date_to_round_known _ _ Hm) as Hk. split; [| split]; intros Hv.
  - unfold Time_of_item_dec, Time_round_quiet. rewrite Hm. pose proof (Time_round_mode_result _ dec m 0 Hv Hd Hk) as H.
    by destruct (Time_round_mode _ _ _ _) as [[]|].
  - unfold Time_of_MYSQL_TIME_dec, round_with. rewrite Hm. destruct (Time_of_MYSQL_TIME _ _ _ _) as [t w']. by apply Time_round_mode_result.
  - unfold Time_of_parts_dec. destruct (Time_of_parts _ _ _ _ _ _) as [t w']. cbn [fst] in Hv. rewrite is_valid_time_ok by (by right).
    rewrite bool_decide_true by apply Hv. destruct (TIME_FRAC_ROUND_some enum_signed) as [r Hr]. rewrite Hr. cbn [dbug_assert].
    pose proof (round_or_set_max_nsec_spec t 6 w' (Sec9.nsec s) Hv ltac:(lia) Hn) as H.
    destruct (_ =? _); [| by exists t; split; [| apply Time_round_mode_result; [right | |]]].
    destruct (round_or_set_max_nsec _ _ _ _) as [t2 w2]. exists t2. split; [done |]. by apply Time_round_mode_result; [right | |].
Qed.

(** C36: the constructors of TIME from integers of either signedness, doubles,
    decimals and texts.  Without a number of digits they succeed, no assertion
    fails, and what they leave is nothing or a TIME in the supported range.  With a
    number of digits, an integer is cut to these digits, whatever the mode.  The
    others are rounded as the mode of the options says: cut when it is to truncate;
    when it is to round, they succeed, a value that is nothing stays as it is and a
    TIME has no more digits; but when the mode says that there is nothing to round,
    they succeed exactly when the value is a TIME without further digits: for more
    digits, and for a value that is nothing, an assertion fails.  Assumed are a
    known rounding mode in the options, at most six digits, and what the header
    relies on in [number_to_time], [round_or_set_max] and [str_to_datetime]. *)
Theorem time_constructors_valid t0 thd w nr d x st str opt m dec :
  longlong_wf nr -> date_to_round enum_signed (opt_mode opt) = Some m -> 0 <= dec <= 6 ->
  let valid r := exists t w', r = Some (t, w') /\ time_value_ok t in
  let with_digits base r := exists t w', base = Some (t, w') /\ round_result m dec t (fst <$> r) in
  valid (Time_of_longlong junk t0 thd w nr opt) /\ valid (Time_of_double junk t0 thd w d opt) /\
  valid (Time_of_decimal junk t0 thd w x opt) /\
  (exists t st', Time_of_str junk t0 thd st str opt = Some (t, st') /\ time_value_ok t /\
    round_result m dec t (fst <$> Time_of_str_dec junk t0 thd st str opt dec)) /\
  (exists t w', Time_of_longlong junk t0 thd w nr opt = Some (t, w') /\
    Time_of_longlong_dec junk t0 thd w nr opt dec = Some (truncated dec t, w') /\ rounded_ok dec (truncated dec t)) /\
  with_digits (Time_of_double junk t0 thd w d opt) (Time_of_double_dec junk t0 thd w d opt dec) /\
  with_digits (Time_of_decimal junk t0 thd w x opt) (Time_of_decimal_dec junk t0 thd w x opt dec).
Proof.
  intros Hw Hm Hd valid with_digits. pose proof (date_to_round_known _ _ Hm) as Hk.
  destruct (Time_of_number_ok t0 thd w nr d x opt Hw) as (H1 & H2 & H3); [by exists m |].
  assert (Hdig : forall base, valid base -> with_digits base (round_with base dec (opt_mode opt))).
  { intros base (t & w' & -> & Hv). exists t, w'. split; [done |]. unfold round_with. rewrite Hm. by apply Time_round_mode_result. }
  split; [done |]. split; [done |]. split; [done |]. split.
  { destruct (Time_of_str_ok t0 thd st str opt) as (t & st' & E & Hv). exists t, st'. split; [done |]. split; [done |].
    unfold Time_of_str_dec, round_with. rewrite E, Hm. pose proof (Time_round_mode_result t dec m (warnings st') Hv Hd Hk) as H.
    by destruct (Time_round_mode _ _ _ _) as [[]|]. }
  split; [| split; by apply Hdig].
  destruct H1 as (t & w' & E & Hv). exists t, w'. unfold Time_of_longlong_dec. rewrite E.
  by destruct (Time_trunc_is_truncated t dec Hv Hd) as [-> ?].
Qed.

(** how any value becomes a TIME: nothing stays nothing, the error becomes
    00:00:00, a TIME stays.  A DATE or DATETIME follows the mode: disallowed is
    nothing with a warning that it is out of range; with a zero date required, so
    is one whose date is not zero; truncation keeps the time of the day; mixing
    adds the days to the hours when year and month are zero and notes a truncation
    otherwise; or the current date is subtracted.  The sum of days and hours stays
    in the range, no assertion fails, and the microseconds are kept exactly. *)
Theorem conversion_to_time t thd w opt : time_type t <> MYSQL_TIMESTAMP_TIME \/ is_TIME TIME_MAX_HOUR t ->
  (time_type t = MYSQL_TIMESTAMP_DATE \/ time_type t = MYSQL_TIMESTAMP_DATETIME -> is_DATE t) ->
  exists t' w', valid_MYSQL_TIME_to_valid_value junk t thd w opt = Some (t', w') /\ time_value_ok t' /\
    match time_type t with
    | MYSQL_TIMESTAMP_NONE | MYSQL_TIMESTAMP_TIME => t' = t /\ w' = w
    | MYSQL_TIMESTAMP_ERROR => t' = Time 0 0 0 0 0 0 0 false MYSQL_TIMESTAMP_TIME /\ w' = w
    | _ => converted_by_mode opt t w t' w'
    end.
Proof.
  intros Ht Hd. destruct (time_type t) eqn:E;
    try (destruct (datetime_to_time_ok t thd w opt (Hd ltac:(auto))) as (t' & w' & E' & H1 & H2); by exists t', w').
  - unfold valid_MYSQL_TIME_to_valid_value. rewrite E. exists t, w. by split; [| split; [left |]].
  - unfold valid_MYSQL_TIME_to_valid_value. rewrite E, set_zero_time_spec. eexists _, _. split; [reflexivity |]. split; [| done].
    right. constructor; cbn; [done.. | time_lia | constructor; cbn; time_lia].
  - destruct Ht as [? | Ht]; [done |]. unfold valid_MYSQL_TIME_to_valid_value. rewrite E, (valid_time_slow _ _ Ht). exists t, w.
    by split; [| split; [right |]].
Qed.

Lemma hhmmss_seconds_ok t mh : is_TIME mh t -> mh < 500000 -> hhmmss_seconds t = hms_seconds t.
Proof.
  intros [_ _ Hh [Hm Hs _]] Hb. unfold hhmmss_seconds, hms_seconds. rewrite u32_small by time_lia.
  assert (Hu : forall z, 0 <= z < 2 ^ 31 -> uint_long z = z).
  { intros z Hz. unfold uint_long. destruct (32 <? long_bits); [apply long_small | apply ulong_small]; lia. }
  rewrite (Hu (hour t * 3600)), (Hu (hour t * 3600 + minute t * 60)), Hu by time_lia. lia.
Qed.

Lemma to_seconds_ok t mh : is_TIME mh t -> mh < 500000 -> to_seconds t = Some (signed (neg t) (hms_seconds t)).
Proof.
  intros Ht Hb. unfold to_seconds, to_seconds_abs. rewrite (valid_time_slow _ _ Ht). cbn [dbug_assert].
  by rewrite (hhmmss_seconds_ok t mh).
Qed.

(** a TIME and its number of seconds determine each other.  The seconds of a
    TIME in the range are at most those of 838:59:59, computed without a wrap of
    [long] (32 or 64 bits), and making a TIME of sign, seconds and fraction gives
    it back; the other way round, a number of seconds in the range becomes a TIME
    that has exactly these seconds. *)
Theorem time_seconds_roundtrip t s lt dec unused : is_TIME TIME_MAX_HOUR t -> sec6_ok s -> 0 <= dec <= 6 ->
  Sec6.m_sec s <= TIME_MAX_VALUE_SECONDS ->
  (exists n, to_seconds_abs t = Some n /\ to_seconds t = Some (signed (neg t) n) /\ 0 <= n <= TIME_MAX_VALUE_SECONDS /\
    sec_to_time (Sec6.Mk n (second_part t) (neg t) false) lt dec unused = Some (false, t)) /\
  (exists u, sec_to_time s lt dec unused = Some (false, u) /\ is_TIME TIME_MAX_HOUR u /\
    to_seconds u = Some (signed (Sec6.m_neg s) (Sec6.m_sec s)) /\ second_part u = Sec6.m_usec s).
Proof.
  intros Ht [Hs Hu] Hd Hmax. split.
  - exists (hms_seconds t). pose proof Ht as [Hty (Hy & Hmo & Hda) Hh [Hm Hsec Hp]].
    assert (Hn : 0 <= hms_seconds t <= TIME_MAX_VALUE_SECONDS) by (unfold hms_seconds; change TIME_MAX_VALUE_SECONDS with 3020399; time_lia).
    split; [unfold to_seconds_abs; rewrite (valid_time_slow _ _ Ht), (hhmmss_seconds_ok t _ Ht) by time_lia; done |].
    split; [apply (to_seconds_ok t _ Ht); time_lia |]. split; [done |].
    unfold sec_to_time. rewrite set_zero_time_spec. cbn [Sec6.m_sec Sec6.m_usec Sec6.m_neg year month day time_type].
    destruct (Z.ltb_spec TIME_MAX_VALUE_SECONDS (hms_seconds t)); [lia |]. unfold usec. cbn [Sec6.m_usec]. rewrite long_small by time_lia.
    destruct (Z.leb_spec (second_part t) TIME_MAX_SECOND_PART); [| lia]. cbn [dbug_assert].
    change TIME_MAX_VALUE_SECONDS with 3020399 in *. rewrite !u32_small by (Z.div_mod_to_equations; lia).
    do 2 f_equal. destruct t as [y mo d h i c f ng ty]. unfold hms_seconds in *. cbn in *. subst.
    f_equal; Z.div_mod_to_equations; time_lia.
  - unfold sec_to_time. rewrite set_zero_time_spec. cbn [year month day time_type].
    destruct (Z.ltb_spec TIME_MAX_VALUE_SECONDS (Sec6.m_sec s)); [lia |]. unfold usec. rewrite long_small by time_lia.
    destruct (Z.leb_spec (Sec6.m_usec s) TIME_MAX_SECOND_PART); [| lia]. cbn [dbug_assert].
    change TIME_MAX_VALUE_SECONDS with 3020399 in *. rewrite !u32_small by (Z.div_mod_to_equations; lia).
    set (u := Time _ _ _ _ _ _ _ _ _). exists u.
    assert (Hok : is_TIME TIME_MAX_HOUR u /\ hms_seconds u = Sec6.m_sec s).
    { split; [constructor; cbn; [done.. | |]; [| constructor; cbn; [| | done]] |]; unfold hms_seconds; cbn; Z.div_mod_to_equations; time_lia. }
    destruct Hok as [Hok Hsec]. split; [done |]. split; [done |]. split; [| done]. rewrite (to_seconds_ok u _ Hok) by time_lia. by rewrite Hsec.
Qed.

(** rounding an undefined value: with the mode to truncate or to round it stays
    as it is, but with the mode that says there is nothing to round the assertion
    on the fraction is evaluated first, and it fails. *)
Theorem round_of_undefined t dec w m : time_type t = MYSQL_TIMESTAMP_NONE -> 0 <= dec <= 6 ->
  (mode m = time_round_mode_t.FRAC_NONE -> Time_round_mode t dec m w = None) /\
  (rounds m -> Time_round_mode t dec m w = Some (t, w)) /\ Time_trunc t dec = Some t.
Proof.
  intros Ht Hd. assert (Hv : time_value_ok t) by (by left).
  assert (Htr : Time_trunc t dec = Some t).
  { unfold Time_trunc. rewrite is_valid_time_ok by done. rewrite bool_decide_false by congruence. by rewrite valid_value_slow. }
  assert (Hro : Time_round t dec w = Some (t, w)).
  { unfold Time_round. rewrite is_valid_time_ok by done. rewrite bool_decide_false by congruence. by rewrite valid_value_slow. }
  split; [| split; [| done]]; unfold Time_round_mode.
  - intros ->. rewrite Z.eqb_refl. unfold Time_fraction_remainder. rewrite is_valid_time_ok by done. by rewrite bool_decide_false by congruence.
  - intros [-> | ->]; [| by rewrite Hro]. change (time_round_mode_t.FRAC_TRUNCATE =? time_round_mode_t.FRAC_NONE) with false.
    by rewrite Z.eqb_refl, Htr.
Qed.
End time_laws.

(** ** Evaluation *)

Definition civil_Time (t : MYSQL_TIME) : MYSQL_TIME :=
  if civil_valid t && bool_decide (time_type t = MYSQL_TIMESTAMP_TIME) && (hour t <=? TIME_MAX_HOUR) then t else set_time_type t MYSQL_TIMESTAMP_NONE.
Definition civil_trunc (t : MYSQL_TIME) (dec w : Z) : MYSQL_TIME * Z :=
  (set_second_part t (second_part t - second_part t mod 10 ^ (6 - dec)), w).
Definition civil_parts (ng : bool) (h m : Z) (s : Sec6.t) : MYSQL_TIME :=
  if (0 <=? h) && (h <=? TIME_MAX_HOUR) && (0 <=? m) && (m <=? 59) && (Sec6.m_sec s <=? 59)
  then Time 0 0 0 h m (Sec6.m_sec s) (Sec6.m_usec s) ng MYSQL_TIMESTAMP_TIME else max_TIME 6 ng.

#[export] Instance civil_time_members : TimeMembers civil_lib :=
  Build_TimeMembers civil_lib (fun t thd w item opt => (civil_Time item, w))
    (fun t dec w ns => let '(_, t', w') := civil_round t w ns in (t', w'))
    civil_trunc
    (fun t thd st str md => let '(rc, t', w) := civil_time false (Z.abs str) 0 TIME_MAX_HOUR t 0 in (rc, t', Status w 0 0))
    (fun t w ng h m s => (civil_parts ng h m s, w))
    (fun t w from cur => (civil_Time from, w)).

Lemma civil_Time_ok t : time_value_ok (civil_Time t).
Proof.
  unfold civil_Time. destruct (_ && _) eqn:E; [| by left]. right. unfold civil_valid in E.
  rewrite !andb_true_iff, bool_decide_eq_true in E. destruct E as [[[[[[[[[? ?] ?] ?] ?] ?] ?] E] Et] ?]. rewrite Et in E.
  rewrite !andb_true_iff, !Z.eqb_eq in E. constructor; [done | tauto | time_lia | constructor; time_lia].
Qed.

#[export] Instance civil_time_laws : TimeMemberLaws civil_time_members.
Proof.
  constructor; cbn.
  - intros t dec w ns Ht Hd Hn. pose proof (civil_round_ok t w ns Hn (TIME_mmssff _ _ Ht)) as H.
    destruct (civil_round t w ns) as [[rc t'] w']. destruct H as (_ & Hm & Hs). by apply (same_hour_ok t t' Hs Hm).
  - intros t dec w [Hty Hz Hh [Hm Hs Hp]] Hd. destruct (truncated_ok (second_part t) dec Hp Hd) as [H1 H2].
    split; [constructor; cbn; [done.. | constructor; cbn; time_lia] | exact H2].
  - intros t thd st str md. pose proof (civil_time_ok false (Z.abs str) 0 TIME_MAX_HOUR t 0) as H.
    destruct (civil_time _ _ _ _ _ _) as [[rc t'] w]. intros ->. right. apply H; time_lia.
Qed.

Definition no_time : MYSQL_TIME := Time 7 7 7 7 7 7 7 true MYSQL_TIMESTAMP_ERROR.

(** Thirty-one days and 23:59:59.5 in hours. *)
Lemma conversion_to_time_witness :
  let t := Time 0 0 31 23 59 59 500000 false MYSQL_TIMESTAMP_DATETIME in
  exists t', valid_MYSQL_TIME_to_valid_value (L := civil_lib) no_time t tt 0
      (TimeOpt (mk_date true 0) DATETIME_TO_TIME_YYYYMMDD_000000DD_MIX_TO_HOURS) = Some (t', 0) /\
    is_TIME TIME_MAX_HOUR t' /\ hour t' = 767 /\ daytime_us 0 t' = daytime_us 31 t.
Proof.
  intros t. destruct (conversion_to_time (L := civil_lib) no_time t tt 0 (TimeOpt (mk_date true 0) DATETIME_TO_TIME_YYYYMMDD_000000DD_MIX_TO_HOURS))
    as (t' & w' & E & _ & H).
  - by left.
  - intros _. constructor; [by right | done |]. constructor; cbn; try lia. constructor; cbn; time_lia.
  - destruct H as (H1 & H2 & H3 & H4). exists t'. split; [rewrite H3 in E; exact E |]. split; [exact H1 |]. split; [| exact H4].
    apply (f_equal (fmap fst)) in E. vm_compute in E. injection E as <-. reflexivity.
Defined.

(** 838:59:59.9 as seconds, and -3661.5 seconds as a TIME. *)
Lemma time_seconds_roundtrip_witness :
  let t := Time 0 0 0 838 59 59 900000 true MYSQL_TIMESTAMP_TIME in
  to_seconds (L := civil_lib) t = Some (-3020399) /\
  exists u, sec_to_time (L := civil_lib) (Sec6.Mk 3661 500000 true false) no_time 1 0 = Some (false, u) /\
    to_seconds (L := civil_lib) u = Some (-3661) /\ u = Time 0 0 0 1 1 1 500000 true MYSQL_TIMESTAMP_TIME.
Proof.
  intros t. destruct (time_seconds_roundtrip (L := civil_lib) t (Sec6.Mk 3661 500000 true false) no_time 1 0) as [(n & _ & E & _) (u & E1 & _ & E2 & _)].
  - constructor; cbn; [done | done | time_lia | constructor; cbn; time_lia].
  - constructor; cbn; time_lia.
  - lia.
  - vm_compute; discriminate.
  - split; [vm_compute; reflexivity |]. exists u. split; [exact E1 |]. split; [exact E2 |]. vm_compute in E1. congruence.
Defined.

(** The text 101530 and the unsigned integer 20240229101530 with three digits; a DATE
    is nothing as a TIME when that is disallowed, and with the mode that says there is
    nothing to round the constructor of a double stops. *)
Lemma time_constructors_valid_witness :
  let opt md dm := TimeOpt (mk_date true md) dm in
  let nr := mk_Longlong_hybrid 20240229101530 true in
  (exists t w, Time_of_longlong_dec (L := civil_lib) no_time no_time tt 0 nr (opt 64 DATETIME_TO_TIME_YYYYMMDD_TRUNCATE) 3 = Some (t, w) /\
    rounded_ok 3 t /\ t = Time 0 0 0 10 15 30 0 false MYSQL_TIMESTAMP_TIME) /\
  (exists t w, Time_of_double (L := civil_lib) no_time no_time tt 0 (20240229101530, 0) (opt 0 DATETIME_TO_TIME_DISALLOW) = Some (t, w) /\
    time_type t = MYSQL_TIMESTAMP_NONE) /\
  Time_of_double_dec (L := civil_lib) no_time no_time tt 0 (20240229101530, 0) (opt 0 DATETIME_TO_TIME_DISALLOW) 3 = None.
Proof.
  intros opt nr.
  assert (Hw : longlong_wf nr) by (vm_compute; intuition discriminate).
  split.
  { destruct (time_constructors_valid (L := civil_lib) no_time no_time tt 0 nr (5, 0) (5, 0) (Status 0 0 0) 101530
      (opt 64 DATETIME_TO_TIME_YYYYMMDD_TRUNCATE) {| time_round_mode_t.m_mode := 64 |} 3 Hw) as (_ & _ & _ & _ & (t & w & _ & E & Ht) & _);
      [reflexivity | lia |].
    set (u := truncated 3 t) in *. clearbody u. exists u, w. split; [exact E |]. split; [exact Ht |]. apply (f_equal (fmap fst)) in E. vm_compute in E. congruence. }
  destruct (time_constructors_valid (L := civil_lib) no_time no_time tt 0 nr (20240229101530, 0) (5, 0) (Status 0 0 0) 101530
    (opt 0 DATETIME_TO_TIME_DISALLOW) {| time_round_mode_t.m_mode := 0 |} 3 Hw) as (_ & _ & _ & _ & _ & (t & w & E & Hr & _) & _);
    [reflexivity | lia |].
  assert (Ht : time_type t = MYSQL_TIMESTAMP_NONE).
  { apply (f_equal (fmap (time_type ∘ fst))) in E. vm_compute in E. injection E as E. symmetry. exact E. }
  split; [by exists t, w |]. specialize (Hr eq_refl). rewrite bool_decide_false in Hr by congruence.
  destruct (Time_of_double_dec _ _ _ _ _ _ _); [discriminate Hr | reflexivity].
Defined.

Lemma round_of_undefined_witness :
  let t := Time 0 0 0 1 2 3 456 false MYSQL_TIMESTAMP_NONE in
  Time_round_mode (L := civil_lib) t 3 {| time_round_mode_t.m_mode := 0 |} 0 = None /\
  Time_round_mode (L := civil_lib) t 3 {| time_round_mode_t.m_mode := 64 |} 0 = Some (t, 0).
Proof.
  intros t. split.
  - apply (proj1 (round_of_undefined (L := civil_lib) t 3 0 {| time_round_mode_t.m_mode := 0 |} eq_refl ltac:(lia))). reflexivity.
  - apply (proj1 (proj2 (round_of_undefined (L := civil_lib) t 3 0 {| time_round_mode_t.m_mode := 64 |} eq_refl ltac:(lia)))). by right.
Defined.
