(* ===== verification/DatetimeValue.v ===== *)
(** * DatetimeValue: the classes [Temporal_with_date], [Date] and [Datetime] of [sql_type.h]

    A valid [Date] is a DATE or nothing, a valid [Datetime] a DATETIME or nothing,
    with the members in their ranges.  Members that are compiled into the server are
    in [DateMembers].  A failing assertion has no result. *)

From stdpp Require Import base numbers list option.
From Stdlib Require Import ZArith Lia.
From S2P Require Import Prelude SqlInt DateMode MyTime Calendar TimeLib SecValue Temporal TimeValue.

Local Open Scope Z_scope.
Local Open Scope dbug_scope.

(** A DATE, DATETIME or nothing; a [Date]; a [Datetime]. *)
Definition dated_ok (t : MYSQL_TIME) : Prop := time_type t = MYSQL_TIMESTAMP_NONE \/ is_DATE t.
Definition date_value_ok (t : MYSQL_TIME) : Prop := time_type t = MYSQL_TIMESTAMP_NONE \/ is_DATE t /\ time_type t = MYSQL_TIMESTAMP_DATE.
Definition datetime_value_ok (t : MYSQL_TIME) : Prop :=
  time_type t = MYSQL_TIMESTAMP_NONE \/ is_DATE t /\ time_type t = MYSQL_TIMESTAMP_DATETIME.

(** Members that are compiled elsewhere: an item; a text; nanoseconds; digits and
    nanoseconds; digits; a value with its flags. *)
Class DateMembers (L : TimeLib) := {
  make_from_item : MYSQL_TIME -> THD -> Item -> date_t -> MYSQL_TIME;
  str_to_datetime_or_date_cs : MYSQL_TIME -> THD -> MYSQL_TIME_STATUS -> text -> date_t -> bool * MYSQL_TIME * MYSQL_TIME_STATUS;
  datetime_add_nanoseconds_or_invalidate : MYSQL_TIME -> THD -> Z -> Z -> bool * MYSQL_TIME * Z;
  datetime_round_or_invalidate : MYSQL_TIME -> THD -> Z -> Z -> Z -> bool * MYSQL_TIME * Z;
  round_or_invalidate_dec : MYSQL_TIME -> THD -> Z -> Z -> bool * MYSQL_TIME * Z;
  Datetime_of_MYSQL_TIME : MYSQL_TIME -> THD -> Z -> MYSQL_TIME -> conv_t -> MYSQL_TIME * Z }.

(** What the comments of the classes promise for them. *)
Class DateMemberLaws {L : TimeLib} (M : DateMembers L) : Prop := {
  make_from_item_spec t thd item md : dated_ok (make_from_item t thd item md);
  str_to_datetime_or_date_spec t thd st str md :
    let '(rc, t', st') := str_to_datetime_or_date_cs t thd st str md in rc = false -> is_DATE t';
  datetime_add_nanoseconds_spec t thd w ns : is_DATE t -> time_type t = MYSQL_TIMESTAMP_DATETIME -> nsec_ok ns ->
    datetime_value_ok (datetime_add_nanoseconds_or_invalidate t thd w ns).1.2;
  datetime_round_spec t thd dec w ns : is_DATE t -> time_type t = MYSQL_TIMESTAMP_DATETIME -> 0 <= dec <= 6 -> nsec_ok ns ->
    datetime_value_ok (datetime_round_or_invalidate t thd dec w ns).1.2;
  round_or_invalidate_spec t thd dec w : is_DATE t -> time_type t = MYSQL_TIMESTAMP_DATETIME -> 0 <= dec <= 6 ->
    let t' := (round_or_invalidate_dec t thd dec w).1.2 in
    time_type t' = MYSQL_TIMESTAMP_NONE \/ is_DATE t' /\ time_type t' = MYSQL_TIMESTAMP_DATETIME /\ has_digits dec t';
  Datetime_of_MYSQL_TIME_spec t thd w from fl : datetime_value_ok (Datetime_of_MYSQL_TIME t thd w from fl).1 }.

Section dates.
Context {L : TimeLib} {M : DateMembers L} {TM : TemporalMembers L} {SM : SecMembers L}.

(** ** [Temporal_with_date] *)

(* [sql_type.h:1911-1913 Temporal_with_date::Options::Options(date_conv_mode_t, time_round_mode_t)] *)
Definition mk_DateOpt (fuzzydate : conv_t) (md : round_t) : option date_t := mk_Options_round fuzzydate md.
(* [sql_type.h:1925-1928 Temporal_with_date::daynr] *)
Definition daynr (t : MYSQL_TIME) : Z := ulong (calc_daynr (year t) (month t) (day t)).
(* [sql_type.h:1929-1932 Temporal_with_date::weekday] *)
Definition weekday (t : MYSQL_TIME) (sunday_first_day_of_week : bool) : Z := calc_weekday (long (daynr t)) sunday_first_day_of_week.
(* [sql_type.h:1933-1936 Temporal_with_date::dayofyear] *)
Definition dayofyear (t : MYSQL_TIME) : Z := ulong (ulong (daynr t - ulong (calc_daynr (year t) 1 1)) + 1).
(* [sql_type.h:1937-1940 Temporal_with_date::quarter] *)
Definition quarter (t : MYSQL_TIME) : Z := u32 (month t + 2) / 3.
(** The local variable [year] is uninitialised: [y0]. *)
(* [sql_type.h:1941-1945 Temporal_with_date::week] *)
Definition week (t : MYSQL_TIME) (y0 week_behaviour : Z) : Z := fst (calc_week t week_behaviour y0).
(* [sql_type.h:1946-1951 Temporal_with_date::yearweek] *)
Definition yearweek (t : MYSQL_TIME) (y0 week_behaviour : Z) : Z :=
  let '(week, year) := calc_week t week_behaviour y0 in u32 (week + u32 (year * 100)).
(* [sql_type.h:1953-1956 Temporal_with_date::Temporal_with_date()] *)
Definition mk_dated (t0 : MYSQL_TIME) : MYSQL_TIME := set_time_type t0 MYSQL_TIMESTAMP_NONE.
(* [sql_type.h:1957-1960 Temporal_with_date::Temporal_with_date(THD, Item, date_mode_t)] *)
Definition dated_of_item (t0 : MYSQL_TIME) (thd : THD) (item : Item) (fuzzydate : date_t) : MYSQL_TIME := make_from_item t0 thd item fuzzydate.
(* [sql_type.h:1961-1966 Temporal_with_date::Temporal_with_date(int, Sec6, date_mode_t)] *)
Definition dated_of_sec6 (t0 : MYSQL_TIME) (warn : Z) (nr : Sec6.t) (flags : date_t) : option (MYSQL_TIME * Z) :=
  ASSERT negb (has_flag flags (TIME_TIME_ONLY enum_signed)) ;;
  DO (rc, t, warn) <- to_datetime_or_date nr t0 warn (date_to_conv enum_signed flags) ;;
  Some (if rc then set_time_type t MYSQL_TIMESTAMP_NONE else t, warn).
(* [sql_type.h:1967-1974 Temporal_with_date::Temporal_with_date(THD, MYSQL_TIME_STATUS, str, date_mode_t)] *)
Definition dated_of_str (t0 : MYSQL_TIME) (thd : THD) (st : MYSQL_TIME_STATUS) (str : text) (flags : date_t) : option (MYSQL_TIME * MYSQL_TIME_STATUS) :=
  ASSERT negb (has_flag flags (TIME_TIME_ONLY enum_signed)) ;;
  let '(rc, t, st) := str_to_datetime_or_date_cs t0 thd st str flags in
  Some (if rc : bool then set_time_type t MYSQL_TIMESTAMP_NONE else t, st).
(* [sql_type.h:1976-1979 Temporal_with_date::check_date_with_warn] *)
Definition dated_check_date_with_warn (t : MYSQL_TIME) (thd : THD) (flags : conv_t) : bool := check_date_with_warn thd t flags MYSQL_TIMESTAMP_ERROR.
(* [sql_type.h:1980-1981 Temporal_with_date::comparison_flags_for_get_date] *)
Definition date_comparison_flags : conv_t := conv_or enum_signed (TIME_INVALID_DATES enum_signed) (TIME_FUZZY_DATES enum_signed).

(** ** [Date] *)

(* [sql_type.h:2000-2004 Date::is_valid_date_slow] *)
Definition is_valid_date_slow (t : MYSQL_TIME) : option bool :=
  ASSERT bool_decide (time_type t = MYSQL_TIMESTAMP_DATE) ;; Some (negb (check_datetime_range t)).
(* [sql_type.h:1996-1999 Date::is_valid_value_slow] *)
Definition date_is_valid_value_slow (t : MYSQL_TIME) : option bool :=
  if bool_decide (time_type t = MYSQL_TIMESTAMP_NONE) then Some true else is_valid_date_slow t.
(** An assertion whose condition has assertions of its own. *)
Definition assert_ok {A} (b : option bool) (k : option A) : option A := DO ok <- b ;; dbug_assert ok k.

(* [sql_type.h:2009-2011 Date::Options::Options(date_conv_mode_t)] *)
Definition Date_Options (fuzzydate : conv_t) : option date_t := DO r <- TIME_FRAC_TRUNCATE enum_signed ;; mk_DateOpt fuzzydate r.
(* [sql_type.h:2012-2014 Date::Options::Options(THD, time_round_mode_t)] *)
Definition Date_Options_thd_mode (thd : THD) (md : round_t) : option date_t := mk_DateOpt (sql_mode_for_dates thd) md.
(* [sql_type.h:2015-2017 Date::Options::Options(THD)] *)
Definition Date_Options_thd (thd : THD) : option date_t := Date_Options (sql_mode_for_dates thd).

(* [sql_type.h:2026-2032 Date::Date(THD, Item, date_mode_t)] *)
Definition Date_of_item (t0 : MYSQL_TIME) (thd : THD) (item : Item) (fuzzydate : date_t) : option MYSQL_TIME :=
  let t := dated_of_item t0 thd item fuzzydate in
  DO t <- (if bool_decide (time_type t = MYSQL_TIMESTAMP_DATETIME) then datetime_to_date t else Some t) ;;
  assert_ok (date_is_valid_value_slow t) (Some t).
(* [sql_type.h:2033-2035 Date::Date(THD, Item, date_conv_mode_t)] *)
Definition Date_of_item_conv (t0 : MYSQL_TIME) (thd : THD) (item : Item) (fuzzydate : conv_t) : option MYSQL_TIME :=
  DO o <- Date_Options fuzzydate ;; Date_of_item t0 thd item o.
(* [sql_type.h:2036-2038 Date::Date(THD, Item)] *)
Definition Date_of_item_default (t0 : MYSQL_TIME) (thd : THD) (item : Item) : option MYSQL_TIME :=
  DO o <- Date_Options_thd thd ;; Date_of_item t0 thd item o.
(* [sql_type.h:2042-2047 Date::Date(Temporal_with_date)] *)
Definition Date_of_dated (d : MYSQL_TIME) : option MYSQL_TIME :=
  DO t <- datetime_to_date d ;; assert_ok (is_valid_date_slow t) (Some t).
(* [sql_type.h:2048-2052 Date::is_valid_date] *)
Definition is_valid_date (t : MYSQL_TIME) : option bool :=
  assert_ok (date_is_valid_value_slow t) (Some (bool_decide (time_type t = MYSQL_TIMESTAMP_DATE))).
(* [sql_type.h:2053-2057 Date::get_mysql_time] *)
Definition Date_get_mysql_time (t : MYSQL_TIME) : option MYSQL_TIME := assert_ok (is_valid_date_slow t) (Some t).
(* [sql_type.h:2058-2068 Date::copy_to_mysql_time] *)
Definition Date_copy_to_mysql_time (t ltime : MYSQL_TIME) : option (bool * MYSQL_TIME) :=
  if bool_decide (time_type t = MYSQL_TIMESTAMP_NONE) then Some (true, set_time_type ltime MYSQL_TIMESTAMP_NONE)
  else assert_ok (is_valid_date_slow t) (Some (false, t)).
(* [sql_type.h:2069-2073 Date::daynr] *)
Definition Date_daynr (t : MYSQL_TIME) : option Z := assert_ok (is_valid_date_slow t) (Some (daynr t)).
(* [sql_type.h:2074-2078 Date::dayofyear] *)
Definition Date_dayofyear (t : MYSQL_TIME) : option Z := assert_ok (is_valid_date_slow t) (Some (dayofyear t)).
(* [sql_type.h:2079-2083 Date::quarter] *)
Definition Date_quarter (t : MYSQL_TIME) : option Z := assert_ok (is_valid_date_slow t) (Some (quarter t)).
(* [sql_type.h:2084-2088 Date::week] *)
Definition Date_week (t : MYSQL_TIME) (y0 b : Z) : option Z := assert_ok (is_valid_date_slow t) (Some (week t y0 b)).
(* [sql_type.h:2089-2093 Date::yearweek] *)
Definition Date_yearweek (t : MYSQL_TIME) (y0 b : Z) : option Z := assert_ok (is_valid_date_slow t) (Some (yearweek t y0 b)).
(* [sql_type.h:2095-2098 Date::to_longlong] *)
Definition Date_to_longlong (t : MYSQL_TIME) : option Z := DO ok <- is_valid_date t ;; Some (if ok then s64 (TIME_to_ulonglong_date t) else 0).
(* [sql_type.h:2099-2102 Date::to_double] *)
Definition Date_to_double (t : MYSQL_TIME) : option double := DO n <- Date_to_longlong t ;; Some (double_of n).

(** ** [Datetime] *)

(* [sql_type.h:2135-2139 Datetime::is_valid_datetime_slow] *)
Definition is_valid_datetime_slow (t : MYSQL_TIME) : option bool :=
  ASSERT bool_decide (time_type t = MYSQL_TIMESTAMP_DATETIME) ;; Some (negb (check_datetime_range t)).
(* [sql_type.h:2131-2134 Datetime::is_valid_value_slow] *)
Definition datetime_is_valid_value_slow (t : MYSQL_TIME) : option bool :=
  if bool_decide (time_type t = MYSQL_TIMESTAMP_NONE) then Some true else is_valid_datetime_slow t.
(* [sql_type.h:2282-2290 Datetime::is_valid_datetime] *)
Definition is_valid_datetime (t : MYSQL_TIME) : option bool :=
  assert_ok (datetime_is_valid_value_slow t) (Some (bool_decide (time_type t = MYSQL_TIMESTAMP_DATETIME))).

(* [sql_type.h:2140-2146 Datetime::add_nanoseconds_or_invalidate] *)
Definition add_nanoseconds_or_invalidate (t : MYSQL_TIME) (thd : THD) (warn nsec : Z) : option (bool * MYSQL_TIME * Z) :=
  assert_ok (is_valid_datetime_slow t)
    (let '(rc, t, warn) := datetime_add_nanoseconds_or_invalidate t thd warn nsec in
     assert_ok (datetime_is_valid_value_slow t) (Some (rc, t, warn))).
(* [sql_type.h:2147-2151 Datetime::date_to_datetime_if_needed] *)
Definition date_to_datetime_if_needed (t : MYSQL_TIME) : option MYSQL_TIME :=
  if bool_decide (time_type t = MYSQL_TIMESTAMP_DATE) then date_to_datetime t else Some t.
(* [sql_type.h:2157-2163 Datetime::round_or_invalidate] *)
Definition round_or_invalidate (t : MYSQL_TIME) (thd : THD) (dec warn nsec : Z) : option (bool * MYSQL_TIME * Z) :=
  assert_ok (is_valid_datetime_slow t)
    (let '(rc, t, warn) := datetime_round_or_invalidate t thd dec warn nsec in
     assert_ok (datetime_is_valid_value_slow t) (Some (rc, t, warn))).

(* [sql_type.h:2169-2171 Datetime::Options::Options(date_conv_mode_t, time_round_mode_t)] *)
Definition Datetime_Options (fuzzydate : conv_t) (nanosecond_rounding : round_t) : option date_t := mk_DateOpt fuzzydate nanosecond_rounding.
(* [sql_type.h:2172-2174 Datetime::Options::Options(THD)] *)
Definition Datetime_Options_thd (thd : THD) : option date_t := mk_DateOpt (sql_mode_for_dates thd) (default_round_mode thd).
(* [sql_type.h:2175-2177 Datetime::Options::Options(THD, time_round_mode_t)] *)
Definition Datetime_Options_thd_mode (thd : THD) (md : round_t) : option date_t := mk_DateOpt (sql_mode_for_dates thd) md.
(* [sql_type.h:2178-2180 Datetime::Options::Options(date_conv_mode_t, THD)] *)
Definition Datetime_Options_conv (fuzzydate : conv_t) (thd : THD) : option date_t := mk_DateOpt fuzzydate (default_round_mode thd).
(* [sql_type.h:2186-2188 Datetime::Options_cmp::Options_cmp] *)
Definition Datetime_Options_cmp (thd : THD) : option date_t := Datetime_Options_conv date_comparison_flags thd.

(** The end of a constructor. *)
Definition as_datetime (t : MYSQL_TIME) : option MYSQL_TIME :=
  DO t <- date_to_datetime_if_needed t ;; assert_ok (datetime_is_valid_value_slow t) (Some t).

(* [sql_type.h:2198-2200 Datetime::Datetime()] *)
Definition mk_Datetime (t0 : MYSQL_TIME) : MYSQL_TIME := mk_dated t0.
(* [sql_type.h:2201-2206 Datetime::Datetime(THD, Item, date_mode_t)] *)
Definition Datetime_of_item (t0 : MYSQL_TIME) (thd : THD) (item : Item) (fuzzydate : date_t) : option MYSQL_TIME :=
  as_datetime (dated_of_item t0 thd item fuzzydate).
(* [sql_type.h:2207-2209 Datetime::Datetime(THD, Item)] *)
Definition Datetime_of_item_default (t0 : MYSQL_TIME) (thd : THD) (item : Item) : option MYSQL_TIME :=
  DO o <- Datetime_Options_thd thd ;; Datetime_of_item t0 thd item o.
(* [sql_type.h:2215-2222 Datetime::Datetime(THD, MYSQL_TIME_STATUS, str, date_mode_t)] *)
Definition Datetime_of_str (t0 : MYSQL_TIME) (thd : THD) (st : MYSQL_TIME_STATUS) (str : text) (fuzzydate : date_t) : option (MYSQL_TIME * MYSQL_TIME_STATUS) :=
  DO (t, st) <- dated_of_str t0 thd st str fuzzydate ;; DO t <- as_datetime t ;; Some (t, st).
(* [sql_type.h:2225-2230 Datetime::Datetime(int, Sec6, date_mode_t)] *)
Definition Datetime_of_sec6 (t0 : MYSQL_TIME) (warn : Z) (nr : Sec6.t) (flags : date_t) : option (MYSQL_TIME * Z) :=
  DO (t, warn) <- dated_of_sec6 t0 warn nr flags ;; DO t <- as_datetime t ;; Some (t, warn).
(* [sql_type.h:2231-2238 Datetime::Datetime(THD, int, Sec9, date_mode_t)] *)
Definition Datetime_of_sec9 (t0 : MYSQL_TIME) (thd : THD) (warn : Z) (nr : Sec9.t) (fuzzydate : date_t) : option (MYSQL_TIME * Z) :=
  DO (t, warn) <- Datetime_of_sec6 t0 warn (Sec9.base nr) fuzzydate ;;
  DO ok <- is_valid_datetime t ;;
  DO (t, warn) <-
    (if ok then
       DO m <- date_to_round enum_signed fuzzydate ;; DO r <- TIME_FRAC_ROUND enum_signed ;;
       if round_eq m r then DO (_, t, warn) <- round_or_invalidate t thd 6 warn (Sec9.nsec nr) ;; Some (t, warn) else Some (t, warn)
     else Some (t, warn)) ;;
  assert_ok (datetime_is_valid_value_slow t) (Some (t, warn)).
(* [sql_type.h:2241-2243 Datetime::Datetime(int, Longlong_hybrid, date_mode_t)] *)
Definition Datetime_of_longlong (t0 : MYSQL_TIME) (warn : Z) (nr : Longlong_hybrid) (md : date_t) : option (MYSQL_TIME * Z) :=
  DO s <- Sec6.of_longlong_hybrid nr ;; Datetime_of_sec6 t0 warn s md.
(* [sql_type.h:2244-2246 Datetime::Datetime(THD, int, double, date_mode_t)] *)
Definition Datetime_of_double (t0 : MYSQL_TIME) (thd : THD) (warn : Z) (nr : double) (fuzzydate : date_t) : option (MYSQL_TIME * Z) :=
  Datetime_of_sec9 t0 thd warn (Sec9_of_double nr) fuzzydate.
(* [sql_type.h:2247-2249 Datetime::Datetime(THD, int, my_decimal, date_mode_t)] *)
Definition Datetime_of_decimal (t0 : MYSQL_TIME) (thd : THD) (warn : Z) (d : my_decimal) (fuzzydate : date_t) : option (MYSQL_TIME * Z) :=
  Datetime_of_sec9 t0 thd warn (Sec9_of_decimal d) fuzzydate.
(* [sql_type.h:2191-2196 Datetime::zero] *)
Definition Datetime_zero (t0 : MYSQL_TIME) (w0 : Z) : option MYSQL_TIME :=
  DO (t, _) <- Datetime_of_longlong t0 w0 (mk_Longlong_hybrid 0 false) (mk_date enum_signed 0) ;; Some t.

(** ** Rounding of a [Datetime] *)

(* [sql_type.h:2411-2415 Datetime::fraction_remainder] *)
Definition Datetime_fraction_remainder (t : MYSQL_TIME) (dec : Z) : option Z :=
  assert_ok (is_valid_datetime t) (Temporal_fraction_remainder t dec).
(* [sql_type.h:2417-2423 Datetime::trunc] *)
Definition Datetime_trunc (t : MYSQL_TIME) (dec : Z) : option MYSQL_TIME :=
  DO ok <- is_valid_datetime t ;;
  DO t <- (if ok then my_time_trunc log_10_int long_bits t dec else Some t) ;;
  assert_ok (datetime_is_valid_value_slow t) (Some t).
(* [sql_type.h:2424-2430 Datetime::round(THD, uint, int)] *)
Definition Datetime_round (t : MYSQL_TIME) (thd : THD) (dec warn : Z) : option (MYSQL_TIME * Z) :=
  DO ok <- is_valid_datetime t ;;
  let '(t, warn) := if ok then let '(_, t, warn) := round_or_invalidate_dec t thd dec warn in (t, warn) else (t, warn) in
  assert_ok (datetime_is_valid_value_slow t) (Some (t, warn)).
(* [sql_type.h:2431-2443 Datetime::round(THD, uint, time_round_mode_t, int)] *)
Definition Datetime_round_mode (t : MYSQL_TIME) (thd : THD) (dec : Z) (md : round_t) (warn : Z) : option (MYSQL_TIME * Z) :=
  if mode md =? time_round_mode_t.FRAC_NONE then
    DO r <- Datetime_fraction_remainder t dec ;; ASSERT (r =? 0) ;; DO t <- Datetime_trunc t dec ;; Some (t, warn)
  else if mode md =? time_round_mode_t.FRAC_TRUNCATE then DO t <- Datetime_trunc t dec ;; Some (t, warn)
  else if mode md =? time_round_mode_t.FRAC_ROUND then Datetime_round t thd dec warn
  else Some (t, warn).
(* [sql_type.h:2444-2448 Datetime::round(THD, uint, time_round_mode_t)] *)
Definition Datetime_round_quiet (t : MYSQL_TIME) (thd : THD) (dec : Z) (md : round_t) : option MYSQL_TIME :=
  DO (t, _) <- Datetime_round_mode t thd dec md 0 ;; Some t.

(** The rounding mode of the flags, then [round]. *)
Definition datetime_round_with (r : option (MYSQL_TIME * Z)) (thd : THD) (dec : Z) (fuzzydate : date_t) : option (MYSQL_TIME * Z) :=
  DO (t, warn) <- r ;; DO m <- date_to_round enum_signed fuzzydate ;; Datetime_round_mode t thd dec m warn.

(* [sql_type.h:2252-2257 Datetime::Datetime(THD, Item, date_mode_t, uint)] *)
Definition Datetime_of_item_dec (t0 : MYSQL_TIME) (thd : THD) (item : Item) (fuzzydate : date_t) (dec : Z) : option MYSQL_TIME :=
  DO t <- Datetime_of_item t0 thd item fuzzydate ;; DO (t, _) <- datetime_round_with (Some (t, 0)) thd dec fuzzydate ;; Some t.
(* [sql_type.h:2258-2264 Datetime::Datetime(THD, MYSQL_TIME_STATUS, str, date_mode_t, uint)] *)
Definition Datetime_of_str_dec (t0 : MYSQL_TIME) (thd : THD) (st : MYSQL_TIME_STATUS) (str : text) (fuzzydate : date_t) (dec : Z)
    : option (MYSQL_TIME * MYSQL_TIME_STATUS) :=
  DO (t, st) <- Datetime_of_str t0 thd st str fuzzydate ;;
  DO (t, w) <- datetime_round_with (Some (t, warnings st)) thd dec fuzzydate ;; Some (t, set_warnings st w).
(* [sql_type.h:2265-2269 Datetime::Datetime(THD, int, double, date_mode_t, uint)] *)
Definition Datetime_of_double_dec (t0 : MYSQL_TIME) (thd : THD) (warn : Z) (nr : double) (fuzzydate : date_t) (dec : Z) : option (MYSQL_TIME * Z) :=
  datetime_round_with (Datetime_of_double t0 thd warn nr fuzzydate) thd dec fuzzydate.
(* [sql_type.h:2270-2274 Datetime::Datetime(THD, int, my_decimal, date_mode_t, uint)] *)
Definition Datetime_of_decimal_dec (t0 : MYSQL_TIME) (thd : THD) (warn : Z) (d : my_decimal) (fuzzydate : date_t) (dec : Z) : option (MYSQL_TIME * Z) :=
  datetime_round_with (Datetime_of_decimal t0 thd warn d fuzzydate) thd dec fuzzydate.
(* [sql_type.h:2275-2280 Datetime::Datetime(THD, int, MYSQL_TIME, date_mode_t, uint)] *)
Definition Datetime_of_MYSQL_TIME_dec (t0 : MYSQL_TIME) (thd : THD) (warn : Z) (from : MYSQL_TIME) (fuzzydate : date_t) (dec : Z) : option (MYSQL_TIME * Z) :=
  let flags := conv_and_ulonglong enum_signed (date_to_conv enum_signed fuzzydate) (conv_not enum_signed (TIME_TIME_ONLY enum_signed)) in
  datetime_round_with (Some (Datetime_of_MYSQL_TIME t0 thd warn from flags)) thd dec fuzzydate.

(** ** Accessors of a [Datetime] *)

(* [sql_type.h:2291-2297 Datetime::check_date(date_conv_mode_t, int)] *)
Definition Datetime_check_date (t : MYSQL_TIME) (flags : conv_t) (warnings : Z) : option (bool * Z) :=
  assert_ok (is_valid_datetime_slow t) (Some (check_date t (non_zero_YYMMDD t) (date_flags flags) warnings)).
(* [sql_type.h:2298-2302 Datetime::check_date(date_conv_mode_t)] *)
Definition Datetime_check_date_quiet (t : MYSQL_TIME) (flags : conv_t) (dummy : Z) : option bool :=
  DO (rc, _) <- Datetime_check_date t flags dummy ;; Some rc.
(* [sql_type.h:2303-2307 Datetime::hhmmssff_is_zero] *)
Definition hhmmssff_is_zero (t : MYSQL_TIME) : option bool :=
  assert_ok (is_valid_datetime_slow t) (Some ((hour t =? 0) && (minute t =? 0) && (second t =? 0) && (second_part t =? 0))).
(* [sql_type.h:2308-2312 Datetime::daynr] *)
Definition Datetime_daynr (t : MYSQL_TIME) : option Z := assert_ok (is_valid_datetime_slow t) (Some (daynr t)).
(* [sql_type.h:2313-2317 Datetime::weekday] *)
Definition Datetime_weekday (t : MYSQL_TIME) (s : bool) : option Z := assert_ok (is_valid_datetime_slow t) (Some (weekday t s)).
(* [sql_type.h:2318-2322 Datetime::dayofyear] *)
Definition Datetime_dayofyear (t : MYSQL_TIME) : option Z := assert_ok (is_valid_datetime_slow t) (Some (dayofyear t)).
(* [sql_type.h:2323-2327 Datetime::quarter] *)
Definition Datetime_quarter (t : MYSQL_TIME) : option Z := assert_ok (is_valid_datetime_slow t) (Some (quarter t)).
(* [sql_type.h:2328-2332 Datetime::week] *)
Definition Datetime_week (t : MYSQL_TIME) (y0 b : Z) : option Z := assert_ok (is_valid_datetime_slow t) (Some (week t y0 b)).
(* [sql_type.h:2333-2337 Datetime::yearweek] *)
Definition Datetime_yearweek (t : MYSQL_TIME) (y0 b : Z) : option Z := assert_ok (is_valid_datetime_slow t) (Some (yearweek t y0 b)).
(* [sql_type.h:2339-2343 Datetime::hhmmss_to_seconds_abs] *)
Definition hhmmss_to_seconds_abs (t : MYSQL_TIME) : option Z := assert_ok (is_valid_datetime_slow t) (Some (hhmmss_seconds t)).
(* [sql_type.h:2344-2347 Datetime::hhmmss_to_seconds] *)
Definition hhmmss_to_seconds (t : MYSQL_TIME) : option Z := DO s <- hhmmss_to_seconds_abs t ;; Some (if neg t then - s else s).
(* [sql_type.h:2348-2351 Datetime::to_seconds] *)
Definition Datetime_to_seconds (t : MYSQL_TIME) : option Z :=
  DO s <- hhmmss_to_seconds t ;; DO d <- Datetime_daynr t ;;
  DO p <- longlong_ (d * 24) ;; DO p <- longlong_ (p * 3600) ;; longlong_ (s + p).
(* [sql_type.h:2353-2357 Datetime::get_mysql_time] *)
Definition Datetime_get_mysql_time (t : MYSQL_TIME) : option MYSQL_TIME := assert_ok (is_valid_datetime_slow t) (Some t).
(* [sql_type.h:2358-2368 Datetime::copy_to_mysql_time] *)
Definition Datetime_copy_to_mysql_time (t ltime : MYSQL_TIME) : option (bool * MYSQL_TIME) :=
  if bool_decide (time_type t = MYSQL_TIMESTAMP_NONE) then Some (true, set_time_type ltime MYSQL_TIMESTAMP_NONE)
  else assert_ok (is_valid_datetime_slow t) (Some (false, t)).
(* [sql_type.h:2374-2383 Datetime::copy_to_mysql_time(MYSQL_TIME, timestamp_type)] *)
Definition Datetime_copy_as (t ltime : MYSQL_TIME) (ty : timestamp_type) : option (bool * MYSQL_TIME) :=
  ASSERT bool_decide (ty = MYSQL_TIMESTAMP_DATE) || bool_decide (ty = MYSQL_TIMESTAMP_DATETIME) ;;
  DO (rc, ltime) <- Datetime_copy_to_mysql_time t ltime ;;
  if rc then Some (true, ltime) else
  assert_ok (if bool_decide (ty = MYSQL_TIMESTAMP_DATE) then hhmmssff_is_zero t else Some true) (Some (false, set_time_type ltime ty)).
(* [sql_type.h:2384-2388 Datetime::to_longlong] *)
Definition Datetime_to_longlong (t : MYSQL_TIME) : option Z :=
  DO ok <- is_valid_datetime t ;; Some (if ok then s64 (TIME_to_ulonglong_datetime t) else 0).
(* [sql_type.h:2389-2393 Datetime::to_double] *)
Definition Datetime_to_double (t : MYSQL_TIME) : option double :=
  DO ok <- is_valid_datetime t ;;
  Some (if negb ok then double_of 0 else Temporal_to_double (neg t) (TIME_to_ulonglong_datetime t) (second_part t)).
(* [sql_type.h:2407-2410 Datetime::to_packed] *)
Definition Datetime_to_packed (t : MYSQL_TIME) : option Z := DO ok <- is_valid_datetime t ;; Some (if ok then Temporal_to_packed t else 0).
End dates.

(** ** What they compute *)

Section date_laws.
Context {L : TimeLib} {TL : TimeLaws L} {M : DateMembers L} {ML : DateMemberLaws M}.
Context {TM : TemporalMembers L} {SM : SecMembers L} {SL : SecLaws SM}.

Lemma date_in_range t : is_DATE t -> check_datetime_range t = false.
Proof.
  intros [Hty _ Hm]. apply check_datetime_range_spec; [| by destruct Hty; congruence | done].
  destruct Hm as [? ? ? ? []]. constructor; lia.
Qed.

Lemma date_value_slow t : date_value_ok t -> date_is_valid_value_slow t = Some true.
Proof.
  unfold date_is_valid_value_slow, is_valid_date_slow. intros [H | [H E]]; [by rewrite bool_decide_true |].
  rewrite bool_decide_false, bool_decide_true by congruence. cbn. by rewrite date_in_range.
Qed.

Lemma valid_date_slow t : is_DATE t -> time_type t = MYSQL_TIMESTAMP_DATE -> is_valid_date_slow t = Some true.
Proof. intros H E. unfold is_valid_date_slow. rewrite bool_decide_true by done. cbn. by rewrite date_in_range. Qed.

Lemma valid_datetime_slow t : is_DATE t -> time_type t = MYSQL_TIMESTAMP_DATETIME -> is_valid_datetime_slow t = Some true.
Proof. intros H E. unfold is_valid_datetime_slow. rewrite bool_decide_true by done. cbn. by rewrite date_in_range. Qed.

Lemma datetime_value_slow t : datetime_value_ok t -> datetime_is_valid_value_slow t = Some true.
Proof.
  unfold datetime_is_valid_value_slow. intros [H | [H E]]; [by rewrite bool_decide_true |].
  rewrite bool_decide_false by congruence. by apply valid_datetime_slow.
Qed.

Lemma is_valid_datetime_ok t : datetime_value_ok t -> is_valid_datetime t = Some (bool_decide (time_type t = MYSQL_TIMESTAMP_DATETIME)).
Proof. intros H. unfold is_valid_datetime. by rewrite datetime_value_slow. Qed.

(** A DATE or DATETIME without its clock, and with another type. *)
Lemma datetime_to_date_ok t : is_DATE t ->
  exists u, datetime_to_date t = Some u /\ is_DATE u /\ time_type u = MYSQL_TIMESTAMP_DATE /\ (year u, month u, day u) = (year t, month t, day t) /\
    daytime_us 0 u = 0.
Proof.
  intros [Hty Hng [Hy Hm Hd Hh Hmm]]. unfold datetime_to_date. rewrite Hng. exists (Time (year t) (month t) (day t) 0 0 0 0 false MYSQL_TIMESTAMP_DATE).
  split; [by destruct Hty as [-> | ->] |]. split; [| done]. constructor; cbn; [by left | done |]. constructor; cbn; [done.. | lia | constructor; cbn; time_lia].
Qed.

Lemma date_to_datetime_ok t : is_DATE t ->
  exists u, date_to_datetime t = Some u /\ is_DATE u /\ u = set_time_type t MYSQL_TIMESTAMP_DATETIME.
Proof.
  intros [Hty Hng Hm]. unfold date_to_datetime. rewrite Hng. eexists. split; [by destruct Hty as [-> | ->] |]. split; [| done].
  constructor; [by right | done |]. destruct Hm as [? ? ? ? []]. by constructor; [.. | constructor].
Qed.

Lemma as_datetime_ok t : dated_ok t -> exists u, as_datetime t = Some u /\ datetime_value_ok u.
Proof.
  intros Ht. unfold as_datetime, date_to_datetime_if_needed. destruct Ht as [Ht | Ht].
  - rewrite bool_decide_false by congruence. rewrite datetime_value_slow by (by left). exists t. by split; [| left].
  - case_bool_decide as E.
    + destruct (date_to_datetime_ok t Ht) as (u & -> & Hu & ->). rewrite datetime_value_slow by (by right). eexists. by split; [| right].
    + assert (datetime_value_ok t) by (right; split; [done | by destruct (DATE_type t Ht)]). rewrite datetime_value_slow by done. by exists t.
Qed.

Lemma dated_of_sec6_ok t0 w s fl : sec6_ok s -> has_flag fl (TIME_TIME_ONLY enum_signed) = false ->
  exists t w', dated_of_sec6 t0 w s fl = Some (t, w') /\ dated_ok t.
Proof.
  intros Hs Hf. unfold dated_of_sec6. rewrite Hf. cbn [negb dbug_assert].
  destruct (to_datetime_or_date_ok s t0 w (date_to_conv enum_signed fl) Hs) as (rc & t & w' & -> & H).
  eexists _, _. split; [reflexivity |]. destruct rc; [by left | by right].
Qed.

Lemma Datetime_of_sec6_ok t0 w s fl : sec6_ok s -> has_flag fl (TIME_TIME_ONLY enum_signed) = false ->
  exists t w', Datetime_of_sec6 t0 w s fl = Some (t, w') /\ datetime_value_ok t.
Proof.
  intros Hs Hf. unfold Datetime_of_sec6. destruct (dated_of_sec6_ok t0 w s fl Hs Hf) as (t & w' & -> & Ht).
  destruct (as_datetime_ok t Ht) as (u & -> & Hu). by eexists _, _.
Qed.

Lemma Datetime_of_sec9_ok t0 thd w s fl : sec6_ok (Sec9.base s) -> nsec_ok (Sec9.m_nsec s) -> has_flag fl (TIME_TIME_ONLY enum_signed) = false ->
  mode_ok fl -> exists t w', Datetime_of_sec9 t0 thd w s fl = Some (t, w') /\ datetime_value_ok t.
Proof.
  intros Hs Hn Hf [m Hm]. unfold Datetime_of_sec9. destruct (Datetime_of_sec6_ok t0 w (Sec9.base s) fl Hs Hf) as (t & w' & -> & Ht).
  destruct (TIME_FRAC_ROUND_some enum_signed) as [r Hr]. rewrite is_valid_datetime_ok by done. case_bool_decide as E.
  - rewrite Hm, Hr. destruct (round_eq m r); [| rewrite datetime_value_slow by done; by exists t, w'].
    destruct Ht as [? | [Ht _]]; [congruence |]. unfold round_or_invalidate. rewrite valid_datetime_slow by done.
    pose proof (datetime_round_spec t thd 6 w' (Sec9.nsec s) Ht E) as H. destruct (datetime_round_or_invalidate _ _ _ _ _) as [[rc t2] w2].
    cbn [fst snd] in H. specialize (H ltac:(lia) Hn). cbn [assert_ok dbug_assert]. unfold assert_ok. rewrite datetime_value_slow by done. cbn. rewrite datetime_value_slow by done. by exists t2, w2.
  - unfold assert_ok. rewrite datetime_value_slow by done. by exists t, w'.
Qed.

Lemma Datetime_of_number_ok t0 thd w nr d x fl : longlong_wf nr -> has_flag fl (TIME_TIME_ONLY enum_signed) = false -> mode_ok fl ->
  (exists t w', Datetime_of_longlong t0 w nr fl = Some (t, w') /\ datetime_value_ok t) /\
  (exists t w', Datetime_of_double t0 thd w d fl = Some (t, w') /\ datetime_value_ok t) /\
  (exists t w', Datetime_of_decimal t0 thd w x fl = Some (t, w') /\ datetime_value_ok t).
Proof.
  intros Hw Hf Hm. split; [| split].
  - unfold Datetime_of_longlong, Sec6.of_longlong_hybrid. destruct (make_from_int_ok nr Hw) as (s & -> & Hs & _). by apply Datetime_of_sec6_ok.
  - unfold Datetime_of_double, Sec9_of_double. destruct (make_from_double_spec d) as [H1 H2]. destruct (make_from_double d) as [b n].
    by apply Datetime_of_sec9_ok.
  - unfold Datetime_of_decimal, Sec9_of_decimal. destruct (make_from_decimal_spec x) as [H1 H2]. destruct (make_from_decimal x) as [b n].
    by apply Datetime_of_sec9_ok.
Qed.

(** [t] is valid, and a DATETIME has [dec] digits. *)
Definition datetime_rounded_ok (dec : Z) (t : MYSQL_TIME) : Prop :=
  time_type t = MYSQL_TIMESTAMP_NONE \/ is_DATE t /\ time_type t = MYSQL_TIMESTAMP_DATETIME /\ has_digits dec t.

Lemma datetime_rounded_value dec t : datetime_rounded_ok dec t -> datetime_value_ok t.
Proof. intros [H | (H & E & _)]; [by left | by right]. Qed.

Lemma Datetime_trunc_ok t dec : datetime_value_ok t -> 0 <= dec <= 6 -> exists t', Datetime_trunc t dec = Some t' /\ datetime_rounded_ok dec t'.
Proof.
  intros Hv Hd. unfold Datetime_trunc. rewrite is_valid_datetime_ok by done. destruct Hv as [Ht | [Ht E]].
  - rewrite bool_decide_false by congruence. unfold assert_ok. rewrite datetime_value_slow by (by left). exists t. by split; [| left].
  - rewrite bool_decide_true by done. pose proof Ht as [Hty Hng [Hy Hm Hda Hh [Hi Hs Hp]]].
    rewrite (proj2 (Temporal_remainder_ok t dec Hp Hd)). destruct (truncated_ok (second_part t) dec Hp Hd) as [H1 H2].
    set (t' := set_second_part t _).
    assert (Ht' : is_DATE t') by (constructor; [done | done |]; constructor; [done.. | constructor; cbn; time_lia]).
    unfold assert_ok. rewrite datetime_value_slow by (by right). exists t'. split; [done |]. by right.
Qed.

Lemma Datetime_round_mode_ok t thd dec m w : datetime_value_ok t -> 0 <= dec <= 6 -> rounds m ->
  exists t' w', Datetime_round_mode t thd dec m w = Some (t', w') /\ datetime_rounded_ok dec t'.
Proof.
  intros Hv Hd Hm. unfold Datetime_round_mode. destruct Hm as [-> | ->].
  - change (time_round_mode_t.FRAC_TRUNCATE =? time_round_mode_t.FRAC_NONE) with false. rewrite Z.eqb_refl.
    destruct (Datetime_trunc_ok t dec Hv Hd) as (t' & -> & H). by exists t', w.
  - change (time_round_mode_t.FRAC_ROUND =? time_round_mode_t.FRAC_NONE) with false.
    change (time_round_mode_t.FRAC_ROUND =? time_round_mode_t.FRAC_TRUNCATE) with false. rewrite Z.eqb_refl.
    unfold Datetime_round. rewrite is_valid_datetime_ok by done. unfold assert_ok. destruct Hv as [Ht | [Ht E]].
    + rewrite bool_decide_false by congruence. rewrite datetime_value_slow by (by left). exists t, w. by split; [| left].
    + rewrite bool_decide_true by done. pose proof (round_or_invalidate_spec t thd dec w Ht E Hd) as H.
      destruct (round_or_invalidate_dec t thd dec w) as [[rc t'] w']. cbn in H. rewrite (datetime_value_slow t') by (by apply (datetime_rounded_value dec)).
      by exists t', w'.
Qed.

Lemma datetime_round_with_ok r thd dec fl : options_round fl -> 0 <= dec <= 6 ->
  (exists t w, r = Some (t, w) /\ datetime_value_ok t) -> exists t w, datetime_round_with r thd dec fl = Some (t, w) /\ datetime_rounded_ok dec t.
Proof.
  intros (m & Hm & Hr) Hd (t & w & -> & Hv). unfold datetime_round_with. rewrite Hm. by apply Datetime_round_mode_ok.
Qed.

Lemma Datetime_of_str_ok t0 thd st str fl : has_flag fl (TIME_TIME_ONLY enum_signed) = false ->
  exists t st', Datetime_of_str t0 thd st str fl = Some (t, st') /\ datetime_value_ok t.
Proof.
  intros Hf. unfold Datetime_of_str, dated_of_str. rewrite Hf. cbn [negb dbug_assert].
  pose proof (str_to_datetime_or_date_spec t0 thd st str fl) as H. destruct (str_to_datetime_or_date_cs _ _ _ _ _) as [[rc t] st'].
  destruct (as_datetime_ok (if rc then set_time_type t MYSQL_TIMESTAMP_NONE else t)) as (u & -> & Hu); [| by eexists _, _].
  destruct rc; [by left | right; by apply H].
Qed.

(** every way to construct a DATE or DATETIME, without the flag that asks for a
    TIME, succeeds without a failing assertion and leaves nothing or a value of
    the type whose members are in their ranges; the constructors that take a number
    of digits leave a fraction with no more digits when the mode is to truncate or
    to round. *)
Theorem date_constructors_valid t0 thd w nr d x st str item from fl dec : longlong_wf nr ->
  has_flag fl (TIME_TIME_ONLY enum_signed) = false -> options_round fl -> 0 <= dec <= 6 ->
  let valid r := exists t w', r = Some (t, w') /\ datetime_value_ok t in
  let rounded r := exists t w', r = Some (t, w') /\ datetime_rounded_ok dec t in
  valid (Datetime_of_longlong t0 w nr fl) /\ valid (Datetime_of_double t0 thd w d fl) /\ valid (Datetime_of_decimal t0 thd w x fl) /\
  rounded (Datetime_of_double_dec t0 thd w d fl dec) /\ rounded (Datetime_of_decimal_dec t0 thd w x fl dec) /\
  rounded (Datetime_of_MYSQL_TIME_dec t0 thd w from fl dec) /\
  (exists t st', Datetime_of_str t0 thd st str fl = Some (t, st') /\ datetime_value_ok t) /\
  (exists t st', Datetime_of_str_dec t0 thd st str fl dec = Some (t, st') /\ datetime_rounded_ok dec t) /\
  (exists t, Datetime_of_item t0 thd item fl = Some t /\ datetime_value_ok t) /\
  (exists t, Datetime_of_item_dec t0 thd item fl dec = Some t /\ datetime_rounded_ok dec t) /\
  (exists t, Date_of_item t0 thd item fl = Some t /\ date_value_ok t).
Proof.
  intros Hw Hf Ho Hd valid rounded. pose proof (options_round_mode_ok _ Ho) as Hm.
  destruct (Datetime_of_number_ok t0 thd w nr d x fl Hw Hf Hm) as (H1 & H2 & H3).
  split; [done |]. split; [done |]. split; [done |]. split; [by apply datetime_round_with_ok |]. split; [by apply datetime_round_with_ok |].
  split. { unfold Datetime_of_MYSQL_TIME_dec. apply datetime_round_with_ok; [done.. |].
    set (cf := conv_and_ulonglong _ _ _). pose proof (Datetime_of_MYSQL_TIME_spec t0 thd w from cf) as H.
    destruct (Datetime_of_MYSQL_TIME _ _ _ _ _) as [t w']. by exists t, w'. }
  split; [by apply Datetime_of_str_ok |].
  assert (Hi : exists t, Datetime_of_item t0 thd item fl = Some t /\ datetime_value_ok t) by (apply as_datetime_ok, make_from_item_spec).
  split. { destruct (Datetime_of_str_ok t0 thd st str fl Hf) as (t & st' & E & Ht). unfold Datetime_of_str_dec. rewrite E.
    destruct (datetime_round_with_ok (Some (t, warnings st')) thd dec fl Ho Hd) as (t' & w' & -> & Ht'); [by eexists _, _ | by eexists _, _]. }
  split; [done |]. split.
  - destruct Hi as (t & E & Ht). unfold Datetime_of_item_dec. rewrite E.
    destruct (datetime_round_with_ok (Some (t, 0)) thd dec fl Ho Hd) as (t' & w' & -> & Ht'); [by eexists _, _ | by eexists].
  - unfold Date_of_item, dated_of_item. pose proof (make_from_item_spec t0 thd item fl) as Hd0. set (t := make_from_item t0 thd item fl) in *. clearbody t.
    unfold assert_ok. destruct Hd0 as [E | Ht].
    + rewrite bool_decide_false by congruence. rewrite date_value_slow by (by left). exists t. by split; [| left].
    + case_bool_decide as E.
      * destruct (datetime_to_date_ok t Ht) as (u & -> & Hu & Eu & _). rewrite date_value_slow by (by right). exists u. by split; [| right].
      * assert (date_value_ok t) by (right; split; [done | by destruct (DATE_type t Ht)]). rewrite date_value_slow by done. by exists t.
Qed.

(** A day of the calendar, as a value that is not before the year 1. *)
Definition calendar_ok (t : MYSQL_TIME) : Prop := 1 <= year t /\ day_ok (year t, month t, day t).

Lemma daynr_ok t : is_DATE t -> calendar_ok t -> daynr t = day_number (year t) (month t) (day t) + 60 /\ 0 <= daynr t < 2 ^ 22.
Proof.
  intros [_ _ [Hy _ Hd _ _]] (Hy1 & Hm & Hd1). pose proof (month_length_bound (year t) (month t)). unfold daynr.
  rewrite calc_daynr_spec by lia.
  assert (Hb : 0 <= day_number (year t) (month t) (day t) + 60 < 2 ^ 22).
  { destruct (day_number_month (year t) (month t) (day t) Hm) as (y' & f & -> & Hin).
    assert (0 <= f <= 337 /\ 0 <= y' <= 9999) by (cbn in Hin; repeat (destruct Hin as [Hin | Hin]; [injection Hin; lia |]); done).
    clear Hin. Z.div_mod_to_equations. lia. }
  rewrite ulong_small by lia. done.
Qed.

Lemma datetime_to_seconds_ok t : is_DATE t -> time_type t = MYSQL_TIMESTAMP_DATETIME -> calendar_ok t ->
  Datetime_to_seconds t = Some (86400 * daynr t + hms_seconds t) /\ 0 <= hms_seconds t < 86400.
Proof.
  intros Ht E Hc. destruct (daynr_ok t Ht Hc) as [_ Hb]. pose proof Ht as [_ Hng [_ _ _ Hh [Hi Hs Hp]]].
  assert (Hms : hhmmss_seconds t = hms_seconds t).
  { pose proof (hhmmss_seconds_ok (Time 0 0 0 (hour t) (minute t) (second t) (second_part t) false MYSQL_TIMESTAMP_TIME) 23) as H.
    unfold hhmmss_seconds, hms_seconds in *. cbn [hour minute second] in H. apply H; [| lia].
    constructor; cbn; [done | done | done | by constructor]. }
  assert (Hr : 0 <= hms_seconds t < 86400) by (unfold hms_seconds; time_lia). split; [| done].
  unfold Datetime_to_seconds, hhmmss_to_seconds, hhmmss_to_seconds_abs, Datetime_daynr, assert_ok. rewrite valid_datetime_slow by done.
  cbn [dbug_assert]. rewrite Hms, Hng. unfold longlong_, LONGLONG_MIN, LONGLONG_MAX.
  assert (Hll : forall z, 0 <= z < 2 ^ 60 -> (- 2 ^ 63 <=? z) && (z <=? 2 ^ 63 - 1) = true)
    by (intros; rewrite andb_true_iff, !Z.leb_le; lia).
  rewrite !Hll by lia. f_equal. lia.
Qed.

(** days of the year and seconds of DATETIMEs of the calendar: the day of the
    year is the sum of the lengths of the months before plus the day, from 1 up to
    365 or 366; the seconds are computed without overflow, are 86400 for every day
    before plus those of the clock, and compare like the values: year, month, day,
    then hour, minute and second. *)
Theorem datetime_seconds_order t u : is_DATE t -> is_DATE u -> calendar_ok t -> calendar_ok u ->
  time_type t = MYSQL_TIMESTAMP_DATETIME -> time_type u = MYSQL_TIMESTAMP_DATETIME ->
  (exists n, Datetime_dayofyear t = Some n /\ n = days_before (year t) (month t) + day t /\
    1 <= n <= days_before (year t) 13 /\ days_before (year t) 13 = 337 + month_length (year t) 2) /\
  exists a b, Datetime_to_seconds t = Some a /\ Datetime_to_seconds u = Some b /\
    a = 86400 * (day_number (year t) (month t) (day t) + 60) + hms_seconds t /\
    (a < b <-> day_lt (year t, month t, day t) (year u, month u, day u) \/
               (year t, month t, day t) = (year u, month u, day u) /\ hms_seconds t < hms_seconds u).
Proof.
  intros Ht Hu Ct Cu Et Eu. destruct (daynr_ok t Ht Ct) as [Nt Bt], (daynr_ok u Hu Cu) as [Nu _].
  pose proof Ct as (Hy & Hm & Hd). pose proof Cu as (_ & Hm' & Hd'). split.
  - unfold Datetime_dayofyear, assert_ok. rewrite valid_datetime_slow by done. cbn [dbug_assert]. eexists. split; [reflexivity |].
    assert (Hn : dayofyear t = days_before (year t) (month t) + day t).
    { unfold dayofyear. rewrite Nt. rewrite calc_daynr_spec by (destruct Ht as [_ _ []]; lia).
      assert (H1 : 0 <= day_number (year t) 1 1 + 60 < 2 ^ 31).
      { unfold day_number. cbn [Z.leb Z.compare Pos.compare Pos.compare_cont]. change (_ `div` 5) with 306 at 1.
        destruct Ht as [_ _ []]. Z.div_mod_to_equations. lia. }
      rewrite (ulong_small (_ + 60)) by lia. rewrite (day_number_in_year _ _ (day t) Hm).
      pose proof (days_before_bounds (year t) (month t) Hm). pose proof (month_length_bound (year t) (month t)).
      rewrite (ulong_small (_ - _)), ulong_small by lia. lia. }
    rewrite Hn. split; [done |]. pose proof (days_before_bounds (year t) (month t) Hm).
    pose proof (days_before_mono (year t) (month t) 13 ltac:(lia) ltac:(lia)). split; [lia |]. by rewrite days_before_months.
  - destruct (datetime_to_seconds_ok t Ht Et Ct) as [-> Hc], (datetime_to_seconds_ok u Hu Eu Cu) as [-> Hc'].
    eexists _, _. split; [reflexivity |]. split; [reflexivity |]. rewrite Nt, Nu. split; [done |].
    destruct (day_trichotomy (year t, month t, day t) (year u, month u, day u)) as [H | [H | H]].
    + pose proof (day_number_lt _ _ _ _ _ _ (conj Hm Hd) (conj Hm' Hd') H). split; [by left | lia].
    + injection H as -> -> ->. split; [right; split; [done | lia] | intros [H | [_ H]]; [by apply day_lt_irrefl in H | lia]].
    + pose proof (day_number_lt _ _ _ _ _ _ (conj Hm' Hd') (conj Hm Hd) H) as Hlt. split; [lia |].
      intros [H' | [E _]]; [by apply (day_lt_asym _ _ H) in H' | rewrite E in H; by apply day_lt_irrefl in H].
Qed.
End date_laws.

(** ** Evaluation *)

Definition civil_dated (t : MYSQL_TIME) : MYSQL_TIME :=
  if civil_valid t && negb (bool_decide (time_type t = MYSQL_TIMESTAMP_TIME)) then t else set_time_type t MYSQL_TIMESTAMP_NONE.
Definition civil_Datetime (t : MYSQL_TIME) : MYSQL_TIME :=
  let u := civil_dated t in if bool_decide (time_type u = MYSQL_TIMESTAMP_NONE) then u else set_time_type u MYSQL_TIMESTAMP_DATETIME.

#[export] Instance civil_date_members : DateMembers civil_lib :=
  Build_DateMembers civil_lib (fun t thd item md => civil_dated item)
    (fun t thd st str md => let '(r, t', w) := civil_datetime (Z.abs str) 0 t 0 0 in (r =? -1, t', Status w 0 0))
    (fun t thd w ns => civil_round t w ns)
    (fun t thd dec w ns => civil_round t w ns)
    (fun t thd dec w => (false, (civil_trunc t dec w).1, w))
    (fun t thd w from fl => (civil_Datetime from, w)).

Lemma civil_dated_ok t : dated_ok (civil_dated t).
Proof.
  unfold civil_dated. destruct (_ && _) eqn:E; [| by left]. right. apply andb_true_iff in E as [E Et%negb_true_iff%bool_decide_eq_false].
  pose proof (civil_item_ok t) as H. unfold civil_item in H. rewrite E in H.
  destruct H as [H | [H | [H _ _ _]]]; [| done | done]. unfold civil_valid in E. rewrite H in E. by rewrite andb_false_r in E.
Qed.

Lemma civil_Datetime_ok t : datetime_value_ok (civil_Datetime t).
Proof.
  unfold civil_Datetime. destruct (civil_dated_ok t) as [E | [Hty Hng Hm]].
  - rewrite bool_decide_true by done. by left.
  - rewrite bool_decide_false by (destruct Hty; congruence). right. split; [| done]. constructor; [by right | done |].
    destruct Hm as [? ? ? ? []]. by constructor; [.. | constructor].
Qed.

#[export] Instance civil_date_laws : DateMemberLaws civil_date_members.
Proof.
  assert (Hr : forall t w ns, is_DATE t -> time_type t = MYSQL_TIMESTAMP_DATETIME -> nsec_ok ns -> datetime_value_ok (civil_round t w ns).1.2).
  { intros t w ns Ht E Hn. pose proof (civil_round_ok t w ns Hn (date_mmssff _ (DATE_members _ Ht))) as H.
    destruct (civil_round t w ns) as [[rc t'] w']. destruct H as (_ & Hm & Hs). right. split; [by apply (same_hour_ok t t' Hs Hm) |].
    injection Hs as _ _ _ _ _ Ety. cbn. congruence. }
  constructor; cbn; try (intros; by apply Hr).
  - intros; apply civil_dated_ok.
  - intros t thd st str md. pose proof (civil_datetime_ok (Z.abs str) 0 t 0 0) as H.
    destruct (civil_datetime _ _ _ _ _) as [[r t'] w]. intros Er%Z.eqb_neq. destruct H as [[? _] | [_ ?]]; [time_lia | done | done].
  - intros t thd dec w [Hty Hng [Hy Hm Hd Hh [Hi Hs Hp]]] E Hdec. right. destruct (truncated_ok (second_part t) dec Hp Hdec) as [H1 H2].
    split; [| by split]. constructor; [by right | done |]. constructor; cbn; [done.. | constructor; cbn; time_lia].
  - intros; apply civil_Datetime_ok.
Qed.

(** A decimal with two digits, the date of a DATETIME. *)
Lemma date_constructors_valid_witness :
  let fl := mk_date true 32 in
  exists t w, Datetime_of_decimal_dec (L := civil_lib) no_time tt 0 (20240229101530, 987654321) fl 2 = Some (t, w) /\ datetime_rounded_ok 2 t /\
    t = Time 2024 2 29 10 15 30 980000 false MYSQL_TIMESTAMP_DATETIME.
Proof.
  intros fl.
  destruct (date_constructors_valid (L := civil_lib) no_time tt 0 (mk_Longlong_hybrid 7 false) (5, 0) (20240229101530, 987654321)
    (Status 0 0 0) 20240229 no_time no_time fl 2) as (_ & _ & _ & _ & (t & w & E & Ht) & _).
  - vm_compute; intuition discriminate.
  - reflexivity.
  - exists {| time_round_mode_t.m_mode := 32 |}. split; [reflexivity | by left].
  - lia.
  - exists t, w. split; [exact E |]. split; [exact Ht |]. apply (f_equal (fmap fst)) in E. vm_compute in E. injection E as <-. reflexivity.
Defined.

(** The last second of February 2024 and the first one of March. *)
Lemma datetime_seconds_order_witness :
  let t := Time 2024 2 29 23 59 59 0 false MYSQL_TIMESTAMP_DATETIME in let u := Time 2024 3 1 0 0 0 0 false MYSQL_TIMESTAMP_DATETIME in
  Datetime_dayofyear (L := civil_lib) t = Some 60 /\
  exists a b, Datetime_to_seconds (L := civil_lib) t = Some a /\ Datetime_to_seconds (L := civil_lib) u = Some b /\ a < b.
Proof.
  intros t u.
  destruct (datetime_seconds_order (L := civil_lib) t u) as [(n & E & En & _) (a & b & Ea & Eb & _ & Hab)].
  - constructor; [by right | done |]. constructor; cbn; try lia. constructor; cbn; time_lia.
  - constructor; [by right | done |]. constructor; cbn; try lia. constructor; cbn; time_lia.
  - split; [cbn; lia | vm_compute; intuition discriminate].
  - split; [cbn; lia | vm_compute; intuition discriminate].
  - reflexivity.
  - reflexivity.
  - split; [rewrite E, En; reflexivity |]. exists a, b. split; [exact Ea |]. split; [exact Eb |]. apply Hab. left. cbn. lia.
Defined.
