(* ===== verification/Timestamp.v ===== *)
(** * Timestamp: points in time ([Timestamp], [Timestamp_or_zero_datetime] of [sql_type.h])

    A [Timestamp] is a number of seconds and microseconds since the epoch; the other
    classes add the zero DATETIME, as a flag or as an empty native value.  A native
    value is a list of bytes.  Members that are compiled into the server are in
    [TimestampMembers].  A failing assertion has no result. *)

From stdpp Require Import base numbers list option.
From Stdlib Require Import ZArith Lia.
From S2P Require Import Prelude SqlInt DateMode MyTime TimeLib SecValue Temporal TimeValue DatetimeValue.

Local Open Scope Z_scope.
Local Open Scope dbug_scope.

(* [structs.h:864-877 Timeval] *)
Record Timeval := Tv { tv_sec : Z; tv_usec : Z }.

Abbreviation Native := (list Z).

(* [sql_type.h:2574-2576 Timestamp_or_zero_datetime] *)
Record Timestamp_or_zero := TsZ { ts_base : Timeval; m_is_zero_datetime : bool }.

(** Members that are compiled elsewhere: rounding; from and to a native value; to a
    MYSQL_TIME; a DATETIME of a point in time; flags and rounding mode of a session. *)
Class TimestampMembers (L : TimeLib) := {
  Timestamp_round_or_set_max : Timeval -> Z -> Z -> Timeval * Z;
  Timestamp_of_native : Native -> Timeval;
  ts_to_native : Timestamp_or_zero -> Native -> Z -> bool * Native;
  ts_to_TIME : Timestamp_or_zero -> THD -> MYSQL_TIME -> date_t -> bool * MYSQL_TIME;
  Datetime_of_timeval : MYSQL_TIME -> THD -> Timeval -> MYSQL_TIME;
  sql_mode_for_timestamp : THD -> conv_t;
  timestamp_round_mode : THD -> round_t }.

Section timestamp.
Context {L : TimeLib} {M : TimestampMembers L}.

(** ** [Timestamp] *)

(* [sql_type.h:2487-2497 Timestamp::add_nanoseconds_usec] *)
Definition add_nanoseconds_usec (t : Timeval) (nanoseconds : Z) : option (bool * Timeval) :=
  ASSERT (nanoseconds <=? 1000000000) ;;
  if nanoseconds <? 500 then Some (false, t) else
  let u := long (uint_long (tv_usec t + u32 (nanoseconds + 500) / 1000)) in
  if u <? 1000000 then Some (false, Tv (tv_sec t) u) else Some (true, Tv (tv_sec t) (Z.rem u 1000000)).
(* [sql_type.h:2504-2506 Timestamp::DatetimeOptions::DatetimeOptions(date_conv_mode_t, time_round_mode_t)] *)
Definition DatetimeOptions (fuzzydate : conv_t) (round_mode : round_t) : date_t := or_conv_round enum_signed fuzzydate round_mode.
(* [sql_type.h:2507-2509 Timestamp::DatetimeOptions::DatetimeOptions(THD)] *)
Definition DatetimeOptions_thd (thd : THD) : date_t := DatetimeOptions (sql_mode_for_timestamp thd) (timestamp_round_mode thd).
(** The seconds are a [my_time_t], the microseconds an [unsigned long]. *)
(* [sql_type.h:2512-2514 Timestamp::Timestamp(my_time_t, ulong)] *)
Definition mk_Timestamp (timestamp sec_part : Z) : Timeval := Tv timestamp (long sec_part).
(* [sql_type.h:2515-2517 Timestamp::Timestamp(timeval)] *)
Definition Timestamp_of_timeval (tv : Timeval) : Timeval := tv.
(* [sql_type.h:2520-2520 Timestamp::tv] *)
Definition tv (t : Timeval) : Timeval := t.
(* [sql_type.h:2521-2527 Timestamp::cmp] *)
Definition Timestamp_cmp (t other : Timeval) : Z :=
  if tv_sec t <? tv_sec other then -1 else if tv_sec other <? tv_sec t then 1 else
  if tv_usec t <? tv_usec other then -1 else if tv_usec other <? tv_usec t then 1 else 0.
(* [sql_type.h:2530-2533 Timestamp::to_datetime] *)
Definition Timestamp_to_datetime (t0 : MYSQL_TIME) (t : Timeval) (thd : THD) : MYSQL_TIME := Datetime_of_timeval t0 thd t.
(* [sql_type.h:2534-2537 Timestamp::fraction_remainder] *)
Definition Timestamp_fraction_remainder (t : Timeval) (dec : Z) : option Z := my_time_fraction_remainder log_10_int long_bits (tv_usec t) dec.
(* [sql_type.h:2538-2542 Timestamp::trunc] *)
Definition Timestamp_trunc (t : Timeval) (dec : Z) : option Timeval :=
  u ← my_timeval_trunc log_10_int long_bits (tv_usec t) dec; Some (Tv (tv_sec t) u).
(* [sql_type.h:2543-2547 Timestamp::round(uint, int)] *)
Definition Timestamp_round (t : Timeval) (dec warn : Z) : Timeval * Z := Timestamp_round_or_set_max t dec warn.
(* [sql_type.h:2548-2560 Timestamp::round(uint, time_round_mode_t, int)] *)
Definition Timestamp_round_mode (t : Timeval) (dec : Z) (md : round_t) (warn : Z) : option (Timeval * Z) :=
  if mode md =? time_round_mode_t.FRAC_NONE then
    DO r <- Timestamp_fraction_remainder t dec ;; ASSERT (r =? 0) ;; DO t <- Timestamp_trunc t dec ;; Some (t, warn)
  else if mode md =? time_round_mode_t.FRAC_TRUNCATE then DO t <- Timestamp_trunc t dec ;; Some (t, warn)
  else if mode md =? time_round_mode_t.FRAC_ROUND then Some (Timestamp_round t dec warn)
  else Some (t, warn).
(* [sql_type.h:2561-2565 Timestamp::round(uint, time_round_mode_t)] *)
Definition Timestamp_round_quiet (t : Timeval) (dec : Z) (md : round_t) : option Timeval := DO (t, _) <- Timestamp_round_mode t dec md 0 ;; Some t.

(** ** [Timestamp_or_zero_datetime] *)

(* [sql_type.h:2578-2580 Timestamp_or_zero_datetime::Timestamp_or_zero_datetime()] *)
Definition mk_ts_zero : Timestamp_or_zero := TsZ (mk_Timestamp 0 0) true.
(* [sql_type.h:2581-2584 Timestamp_or_zero_datetime::Timestamp_or_zero_datetime(Native)] *)
Definition ts_of_native (native : Native) : Timestamp_or_zero :=
  TsZ (if Nat.eqb (length native) 0 then mk_Timestamp 0 0 else Timestamp_of_native native) (Nat.eqb (length native) 0).
(* [sql_type.h:2585-2587 Timestamp_or_zero_datetime::Timestamp_or_zero_datetime(Timestamp, bool)] *)
Definition mk_ts (tm : Timeval) (is_zero_datetime : bool) : Timestamp_or_zero := TsZ tm is_zero_datetime.
(* [sql_type.h:2595-2595 Timestamp_or_zero_datetime::is_zero_datetime] *)
Definition is_zero_datetime (t : Timestamp_or_zero) : bool := m_is_zero_datetime t.
(* [sql_type.h:2589-2594 Timestamp_or_zero_datetime::to_datetime] *)
Definition ts_to_datetime (t0 : MYSQL_TIME) (w0 : Z) (t : Timestamp_or_zero) (thd : THD) : option MYSQL_TIME :=
  if is_zero_datetime t then Datetime_zero t0 w0 else Some (Timestamp_to_datetime t0 (ts_base t) thd).
(* [sql_type.h:2596-2600 Timestamp_or_zero_datetime::trunc] *)
Definition ts_trunc (t : Timestamp_or_zero) (decimals : Z) : option Timestamp_or_zero :=
  if negb (is_zero_datetime t) then DO b <- Timestamp_trunc (ts_base t) decimals ;; Some (TsZ b (m_is_zero_datetime t)) else Some t.
(* [sql_type.h:2601-2608 Timestamp_or_zero_datetime::cmp] *)
Definition ts_cmp (t other : Timestamp_or_zero) : Z :=
  if is_zero_datetime t then (if is_zero_datetime other then 0 else -1)
  else if is_zero_datetime other then 1 else Timestamp_cmp (ts_base t) (ts_base other).

(** ** [Timestamp_or_zero_datetime_native] *)

(* [sql_type.h:2630-2635 Timestamp_or_zero_datetime_native::Timestamp_or_zero_datetime_native] *)
Definition native_of_ts (buf : Native) (ts : Timestamp_or_zero) (decimals : Z) : Native :=
  let '(err, n) := ts_to_native ts buf decimals in if err : bool then [] else n.
(* [sql_type.h:2643-2646 Timestamp_or_zero_datetime_native::is_zero_datetime] *)
Definition native_is_zero (n : Native) : bool := Nat.eqb (length n) 0.
(* [sql_type.h:2637-2642 Timestamp_or_zero_datetime_native::to_datetime] *)
Definition native_to_datetime (t0 : MYSQL_TIME) (w0 : Z) (n : Native) (thd : THD) : option MYSQL_TIME :=
  if native_is_zero n then Datetime_zero t0 w0 else Some (Datetime_of_timeval t0 thd (tv (Timestamp_of_native n))).
(** A nullable native value is [None] when it is NULL. *)
(* [sql_type.h:2664-2668 Timestamp_or_zero_datetime_native_null::to_datetime] *)
Definition native_null_to_datetime (t0 : MYSQL_TIME) (w0 : Z) (n : option Native) (thd : THD) : option MYSQL_TIME :=
  match n with None => Some (mk_Datetime t0) | Some n => native_to_datetime t0 w0 n thd end.
(* [sql_type.h:2669-2674 Timestamp_or_zero_datetime_native_null::to_TIME] *)
Definition native_null_to_TIME (n : option Native) (thd : THD) (to : MYSQL_TIME) : option MYSQL_TIME :=
  match n with
  | None => None
  | Some n =>
      DO r <- TIME_FRAC_NONE enum_signed ;; DO opt <- Datetime_Options (TIME_CONV_NONE enum_signed) r ;;
      Some (snd (ts_to_TIME (ts_of_native n) thd to opt))
  end.
(* [sql_type.h:2675-2679 Timestamp_or_zero_datetime_native_null::is_zero_datetime] *)
Definition native_null_is_zero (n : option Native) : option bool := match n with None => None | Some n => Some (native_is_zero n) end.
End timestamp.

(** ** What they compute *)

Definition usec_ok (t : Timeval) : Prop := 0 <= tv_usec t <= TIME_MAX_SECOND_PART.

(** The microseconds since the epoch; with the zero DATETIME, which comes first. *)
Definition ts_us (t : Timeval) : Z := 1000000 * tv_sec t + tv_usec t.
Definition ts_key (t : Timestamp_or_zero) : option Z := if m_is_zero_datetime t then None else Some (ts_us (ts_base t)).
Definition compare_keys (a b : option Z) : comparison :=
  match a, b with None, None => Eq | None, Some _ => Lt | Some _, None => Gt | Some x, Some y => x ?= y end.

Section timestamp_laws.
Context {L : TimeLib} {TL : TimeLaws L} {M : TimestampMembers L}.

Lemma Timestamp_cmp_ok t u : usec_ok t -> usec_ok u -> Timestamp_cmp t u = sign_of (ts_us t ?= ts_us u).
Proof.
  unfold usec_ok, Timestamp_cmp, ts_us. intros Ht Hu.
  destruct (Z.compare_spec (1000000 * tv_sec t + tv_usec t) (1000000 * tv_sec u + tv_usec u));
    repeat match goal with |- context [?a <? ?b] => destruct (Z.ltb_spec a b) end; cbn; time_lia.
Qed.

Lemma Timestamp_trunc_ok t dec : usec_ok t -> 0 <= dec <= 6 ->
  Timestamp_fraction_remainder t dec = Some (tv_usec t mod 10 ^ (6 - dec)) /\
  Timestamp_trunc t dec = Some (Tv (tv_sec t) (tv_usec t - tv_usec t mod 10 ^ (6 - dec))).
Proof.
  intros Ht Hd. unfold Timestamp_trunc, my_timeval_trunc, Timestamp_fraction_remainder.
  assert (HW : 32 <= long_bits) by (destruct long_width as [-> | ->]; lia).
  destruct (my_time_trunc_value log_10_int long_bits (Time 0 0 0 0 0 0 (tv_usec t) false MYSQL_TIMESTAMP_TIME) dec) as [E _];
    [apply log_10_powers | done.. |]. cbn [second_part] in E. by rewrite E.
Qed.

(** The unit of [dec] digits divides a second, so truncating is rounding the whole number of microseconds down. *)
Lemma trunc_us t dec : 0 <= dec <= 6 -> ts_us (Tv (tv_sec t) (tv_usec t - tv_usec t mod 10 ^ (6 - dec))) = ts_us t / 10 ^ (6 - dec) * 10 ^ (6 - dec).
Proof.
  intros Hd. unfold ts_us. cbn [tv_sec tv_usec]. pose proof (Z.pow_pos_nonneg 10 (6 - dec) ltac:(lia) ltac:(lia)).
  assert (E : 1000000 = 10 ^ dec * 10 ^ (6 - dec)) by (rewrite <- Z.pow_add_r by lia; by replace (dec + (6 - dec)) with 6 by lia).
  set (u := 10 ^ (6 - dec)) in *. set (v := 10 ^ dec) in *. clearbody u v.
  pose proof (Z.div_mod (tv_usec t) u ltac:(lia)) as Ed. rewrite E.
  replace (v * u * tv_sec t + tv_usec t) with (tv_usec t + (v * tv_sec t) * u) by ring. rewrite Z.div_add by lia. lia.
Qed.

(** the order of timestamps: comparing two of them, zero DATETIMEs included, is
    comparing microseconds since the epoch with the zero DATETIME first; so it is
    a total order.  Truncating to some digits never fails, rounds the number of
    microseconds down to a multiple of the unit, keeps a zero DATETIME, and keeps
    the order. *)
Theorem timestamp_order t u dec : usec_ok (ts_base t) -> usec_ok (ts_base u) -> 0 <= dec <= 6 ->
  ts_cmp t u = sign_of (compare_keys (ts_key t) (ts_key u)) /\ ts_cmp u t = - ts_cmp t u /\
  (exists t' u', ts_trunc t dec = Some t' /\ ts_trunc u dec = Some u' /\ usec_ok (ts_base t') /\
    ts_key t' = (fun n => n / 10 ^ (6 - dec) * 10 ^ (6 - dec)) <$> ts_key t /\
    ts_trunc t' dec = Some t' /\
    (ts_cmp t u <= 0 -> ts_cmp t' u' <= 0)).
Proof.
  intros Ht Hu Hd.
  assert (Hcmp : forall a b, usec_ok (ts_base a) -> usec_ok (ts_base b) -> ts_cmp a b = sign_of (compare_keys (ts_key a) (ts_key b))).
  { intros [a za] [b zb] Ha Hb. unfold ts_cmp, ts_key, is_zero_datetime. cbn in *. destruct za, zb; try done. by apply Timestamp_cmp_ok. }
  assert (Htr : forall a, usec_ok (ts_base a) -> exists a', ts_trunc a dec = Some a' /\ usec_ok (ts_base a') /\
    ts_key a' = (fun n => n / 10 ^ (6 - dec) * 10 ^ (6 - dec)) <$> ts_key a /\ ts_trunc a' dec = Some a').
  { intros [a za] Ha. unfold ts_trunc, ts_key, is_zero_datetime in *. cbn [m_is_zero_datetime ts_base] in *.
    destruct za; [by exists (TsZ a true) |]. cbn [negb]. rewrite (proj2 (Timestamp_trunc_ok a dec Ha Hd)).
    destruct (truncated_ok (tv_usec a) dec Ha Hd) as [H1 H2]. set (b := Tv _ _).
    assert (Hb : usec_ok b) by (unfold usec_ok, b in *; cbn; time_lia). exists (TsZ b false). split; [done |]. split; [done |].
    split; [cbn; f_equal; by apply trunc_us |]. cbn [ts_base m_is_zero_datetime negb]. rewrite (proj2 (Timestamp_trunc_ok b dec Hb Hd)).
    assert (Eb : tv_usec b mod 10 ^ (6 - dec) = 0) by exact H2. rewrite Eb, Z.sub_0_r. done. }
  rewrite !Hcmp by done. split; [done |].
  split. { destruct (ts_key t) as [x |], (ts_key u) as [y |]; cbn; try done. rewrite Z.compare_antisym. by destruct (x ?= y). }
  destruct (Htr t Ht) as (t' & E1 & O1 & K1 & I1), (Htr u Hu) as (u' & E2 & O2 & K2 & I2).
  exists t', u'. split; [done |]. split; [done |]. split; [done |]. split; [done |]. split; [done |].
  rewrite Hcmp, K1, K2 by done. destruct (ts_key t) as [x |], (ts_key u) as [y |]; cbn; try done.
  pose proof (Z.pow_pos_nonneg 10 (6 - dec)) as Hpow. set (k := 10 ^ (6 - dec)) in *. clearbody k.
  pose proof (Z.div_le_mono x y k ltac:(lia)) as Hmono.
  destruct (Z.compare_spec x y) as [-> | H | H]; cbn; [by rewrite Z.compare_refl | | lia].
  intros _. destruct (Z.compare_spec (x / k * k) (y / k * k)); cbn; nia.
Qed.

(** adding nanoseconds to a timestamp rounds them half up to microseconds and
    adds them exactly, with a second to carry; the microseconds stay in range, and
    neither [long] nor [unsigned long] wraps around. *)
Theorem timestamp_add_nanoseconds t ns : usec_ok t -> 0 <= ns <= 1000000000 ->
  exists over t', add_nanoseconds_usec t ns = Some (over, t') /\ usec_ok t' /\ tv_sec t' = tv_sec t /\
    ts_us t' + 1000000 * Z.b2z over = ts_us t + (ns + 500) / 1000.
Proof.
  unfold usec_ok. intros Ht Hn. unfold add_nanoseconds_usec, dbug_assert, ts_us. destruct (Z.leb_spec ns 1000000000); [| lia].
  assert (0 <= (ns + 500) / 1000 <= 1000000) by (Z.div_mod_to_equations; lia).
  destruct (Z.ltb_spec ns 500); [exists false, t; rewrite (Z.div_small (ns + 500)) by lia; cbn; repeat (split; [done |]); lia |].
  rewrite u32_small by lia. set (q := (ns + 500) / 1000) in *. clearbody q.
  assert (Eu : long (uint_long (tv_usec t + q)) = tv_usec t + q).
  { unfold uint_long. destruct (32 <? long_bits); [rewrite (long_small (tv_usec t + q)) | rewrite (ulong_small (tv_usec t + q))]; rewrite ?long_small; time_lia. }
  rewrite Eu. destruct (Z.ltb_spec (tv_usec t + q) 1000000); eexists _, _; (split; [reflexivity |]); cbn [tv_sec tv_usec Z.b2z];
    rewrite ?Z.rem_mod_nonneg by time_lia; (split; [| split; [done |]]); Z.div_mod_to_equations; time_lia.
Qed.
End timestamp_laws.

(** ** Evaluation *)

#[export] Instance civil_timestamp_members : TimestampMembers civil_lib :=
  Build_TimestampMembers civil_lib (fun t dec w => (t, w)) (fun n => Tv (nth 0 n 0) 0)
    (fun ts buf dec => (false, if m_is_zero_datetime ts then [] else [tv_sec (ts_base ts)]))
    (fun ts thd to opt => (false, to)) (fun t0 thd t => t0) (fun thd => TIME_CONV_NONE true) (fun thd => {| time_round_mode_t.m_mode := 0 |}).

(** A point in time, a later one, truncated to three digits; the zero DATETIME is before them. *)
Lemma timestamp_order_witness :
  let t := mk_ts (Tv 1600000000 123456) false in let u := mk_ts (Tv 1600000000 123987) false in
  ts_cmp t u = -1 /\ ts_cmp (mk_ts_zero (L := civil_lib)) t = -1 /\
  exists t' u', ts_trunc (L := civil_lib) t 3 = Some t' /\ ts_trunc (L := civil_lib) u 3 = Some u' /\ ts_cmp t' u' <= 0 /\
    ts_key t' = Some 1600000000123000.
Proof.
  intros t u. destruct (timestamp_order (L := civil_lib) t u 3) as (Hc & _ & t' & u' & E1 & E2 & _ & K & _ & Hm);
    [unfold usec_ok; cbn; time_lia.. | lia |].
  split; [rewrite Hc; reflexivity |]. split; [reflexivity |]. exists t', u'. split; [exact E1 |]. split; [exact E2 |].
  split; [apply Hm; rewrite Hc; vm_compute; discriminate | rewrite K; reflexivity].
Defined.

(** 0.9999995 seconds carry. *)
Lemma timestamp_add_nanoseconds_witness :
  exists t', add_nanoseconds_usec (L := civil_lib) (Tv 7 999999) 500 = Some (true, t') /\ ts_us t' + 1000000 = 8000000.
Proof.
  destruct (timestamp_add_nanoseconds (L := civil_lib) (Tv 7 999999) 500) as (o & t' & E & _ & Hs & Hsum);
    [unfold usec_ok; cbn; time_lia | lia |].
  vm_compute in E. injection E as <- <-. eexists. split; [reflexivity | exact Hsum].
Defined.
