(* ===== verification/SqlState.v ===== *)
(** * SqlState: SQL conditions and the texts in their messages ([sql_error.h])

    A condition is identified by its SQLSTATE (five characters and a zero), its error
    number, its level and, for exceptions declared by the user, the declaration.
    The first two characters of the SQLSTATE are its class.  A condition also has
    ten named items and a message.

    [ErrBuff] prints a value into a buffer of its own, so that it can be put into
    a message; [ErrConv] is the hierarchy of the kinds of value.

    Strings are bytes; a [String] is known by its contents.  Code that is not in
    the header (the printing functions, [set_builtin_message_text]) is a parameter.
    Reading behind the end of a text and a failing assertion have no result. *)

From stdpp Require Import base numbers option list.
From Stdlib Require Import ZArith Lia.
From S2P Require Import Prelude ByteOrder ByteMem SqlInt MyTime.

Local Open Scope Z_scope.

(** ** Sql_state *)

(* [mysql_com.h:65-65 SQLSTATE_LENGTH] *)
Definition SQLSTATE_LENGTH : nat := 5.

(* [sql_error.h:34-40 Sql_state] *)
Record Sql_state := State { m_sqlstate : bytes }.

(* [sql_error.h:42-45 Sql_state()] *)
Definition mk_Sql_state : Sql_state := State (replicate (SQLSTATE_LENGTH + 1) 0).
(* [sql_error.h:59-63 set_sqlstate(const char)] *)
Definition set_sqlstate (sqlstate : bytes) : option Sql_state :=
  if Nat.ltb (length sqlstate) SQLSTATE_LENGTH then None else Some (State (take SQLSTATE_LENGTH sqlstate ++ [0])).
(* [sql_error.h:47-50 Sql_state(const char)] *)
Definition mk_Sql_state_of (sqlstate : bytes) : option Sql_state := set_sqlstate sqlstate.
(* [sql_error.h:52-53 get_sqlstate] *)
Definition get_sqlstate (s : Sql_state) : bytes := m_sqlstate s.
(* [sql_error.h:55-58 set_sqlstate(const Sql_state)] *)
Definition set_sqlstate_from (this other : Sql_state) : Sql_state := other.
(* [sql_error.h:64-67 eq] *)
Definition eq (this other : Sql_state) : option bool := strcmp_eq (m_sqlstate this) (m_sqlstate other).

(** The character at [i] as a [char], which is signed. *)
Definition char_at (s : bytes) (i : nat) : option Z := swrap 8 <$> s !! i.

(* [sql_error.h:69-69 has_sql_state] *)
Definition has_sql_state (s : Sql_state) : option bool := c ← char_at (m_sqlstate s) 0; Some (negb (c =? 0)).
(* [sql_error.h:78-79 is_warning] *)
Definition is_warning (s : Sql_state) : option bool :=
  a ← char_at (m_sqlstate s) 0; if a =? 48 then b ← char_at (m_sqlstate s) 1; Some (b =? 49) else Some false.
(* [sql_error.h:89-90 is_not_found] *)
Definition is_not_found (s : Sql_state) : option bool :=
  a ← char_at (m_sqlstate s) 0; if a =? 48 then b ← char_at (m_sqlstate s) 1; Some (b =? 50) else Some false.
(* [sql_error.h:100-101 is_exception] *)
Definition is_exception (s : Sql_state) : option bool :=
  a ← char_at (m_sqlstate s) 0; if negb (a =? 48) then Some true else b ← char_at (m_sqlstate s) 1; Some (50 <? b).
(* [sql_error.h:1290-1291 is_sqlstate_completion] *)
Definition is_sqlstate_completion (s : bytes) : option bool :=
  a ← char_at s 0; if a =? 48 then b ← char_at s 1; Some (b =? 48) else Some false.

(** ** Sql_state_errno and Sql_state_errno_level *)

(* [sql_error.h:106-114 Sql_state_errno] *)
Record Sql_state_errno := StateErrno { errno_state :> Sql_state; m_sql_errno : Z }.

(* [sql_error.h:117-119 Sql_state_errno()] *)
Definition mk_Sql_state_errno : Sql_state_errno := StateErrno mk_Sql_state 0.
(* [sql_error.h:120-122 Sql_state_errno(uint)] *)
Definition mk_Sql_state_errno_of (sql_errno : Z) : Sql_state_errno := StateErrno mk_Sql_state sql_errno.
(* [sql_error.h:123-126 Sql_state_errno(uint, const char)] *)
Definition mk_Sql_state_errno_state (sql_errno : Z) (sql_state : bytes) : option Sql_state_errno :=
  s ← mk_Sql_state_of sql_state; Some (StateErrno s sql_errno).
(* [sql_error.h:131-132 get_sql_errno] *)
Definition get_sql_errno (s : Sql_state_errno) : Z := m_sql_errno s.
(* [sql_error.h:134-138 Sql_state_errno::set] *)
Definition errno_set (sql_errno : Z) (sqlstate : bytes) : option Sql_state_errno :=
  s ← set_sqlstate sqlstate; Some (StateErrno s sql_errno).
(* [sql_error.h:139-142 Sql_state_errno::clear] *)
Definition errno_clear (s : Sql_state_errno) : Sql_state_errno := StateErrno (errno_state s) 0.

(* [sql_error.h:155-156 enum_warning_level] *)
Inductive enum_warning_level := WARN_LEVEL_NOTE | WARN_LEVEL_WARN | WARN_LEVEL_ERROR | WARN_LEVEL_END.

#[export] Instance enum_warning_level_eq : EqDecision enum_warning_level.
Proof. solve_decision. Defined.

(* [sql_error.h:146-160 Sql_state_errno_level] *)
Record Sql_state_errno_level := StateErrnoLevel { level_errno :> Sql_state_errno; m_level : enum_warning_level }.

(* [sql_error.h:169-170 get_level] *)
Definition get_level (s : Sql_state_errno_level) : enum_warning_level := m_level s.
(* [sql_error.h:172-174 Sql_state_errno_level()] *)
Definition mk_Sql_state_errno_level : Sql_state_errno_level := StateErrnoLevel mk_Sql_state_errno WARN_LEVEL_ERROR.
(* [sql_error.h:176-180 Sql_state_errno_level(uint, const char, enum_warning_level)] *)
Definition mk_Sql_state_errno_level_state (sqlerrno : Z) (sqlstate : bytes) (level : enum_warning_level) : option Sql_state_errno_level :=
  s ← mk_Sql_state_errno_state sqlerrno sqlstate; Some (StateErrnoLevel s level).
(* [sql_error.h:181-185 Sql_state_errno_level(const Sql_state_errno, enum_warning_level)] *)
Definition mk_Sql_state_errno_level_of (state_errno : Sql_state_errno) (level : enum_warning_level) : Sql_state_errno_level :=
  StateErrnoLevel state_errno level.
(* [sql_error.h:186-190 Sql_state_errno_level::clear] *)
Definition level_clear (s : Sql_state_errno_level) : Sql_state_errno_level := StateErrnoLevel (errno_clear s) WARN_LEVEL_ERROR.

(** ** Sql_user_condition_identity and Sql_condition_identity *)

(** The declaration of a user's exception is an address, 0 is NULL. *)
(* [sql_error.h:212-215 Sql_user_condition_identity] *)
Record Sql_user_condition_identity := UserIdentity { m_user_condition_value : Z }.

(* [sql_error.h:217-219 Sql_user_condition_identity()] *)
Definition mk_Sql_user_condition_identity : Sql_user_condition_identity := UserIdentity 0.
(* [sql_error.h:220-222 Sql_user_condition_identity(const sp_condition_value)] *)
Definition mk_Sql_user_condition_identity_of (value : Z) : Sql_user_condition_identity := UserIdentity value.
(* [sql_error.h:223-224 get_user_condition_value] *)
Definition get_user_condition_value (u : Sql_user_condition_identity) : Z := m_user_condition_value u.
(* [sql_error.h:226-229 Sql_user_condition_identity::set] *)
Definition user_set (this identity : Sql_user_condition_identity) : Sql_user_condition_identity := identity.
(* [sql_error.h:230-233 Sql_user_condition_identity::clear] *)
Definition user_clear (u : Sql_user_condition_identity) : Sql_user_condition_identity := UserIdentity 0.

(* [sql_error.h:244-245 Sql_condition_identity] *)
Record Sql_condition_identity := Identity { ci_level :> Sql_state_errno_level; ci_user :> Sql_user_condition_identity }.

(* [sql_error.h:248-249 Sql_condition_identity()] *)
Definition mk_Sql_condition_identity : Sql_condition_identity := Identity mk_Sql_state_errno_level mk_Sql_user_condition_identity.
(* [sql_error.h:250-254 Sql_condition_identity(const Sql_state_errno_level, const Sql_user_condition_identity)] *)
Definition mk_Sql_condition_identity_level (st : Sql_state_errno_level) (ucid : Sql_user_condition_identity) : Sql_condition_identity :=
  Identity st ucid.
(* [sql_error.h:255-260 Sql_condition_identity(const Sql_state_errno, enum_warning_level, const Sql_user_condition_identity)] *)
Definition mk_Sql_condition_identity_errno (st : Sql_state_errno) (level : enum_warning_level) (ucid : Sql_user_condition_identity) :
  Sql_condition_identity := Identity (mk_Sql_state_errno_level_of st level) ucid.
(* [sql_error.h:261-267 Sql_condition_identity(uint, const char, enum_warning_level, const Sql_user_condition_identity)] *)
Definition mk_Sql_condition_identity_state (sqlerrno : Z) (sqlstate : bytes) (level : enum_warning_level) (ucid : Sql_user_condition_identity) :
  option Sql_condition_identity := s ← mk_Sql_state_errno_level_state sqlerrno sqlstate level; Some (Identity s ucid).
(* [sql_error.h:268-272 Sql_condition_identity::clear] *)
Definition identity_clear (c : Sql_condition_identity) : Sql_condition_identity := Identity (level_clear c) (user_clear c).

(** ** Sql_condition *)

(* [sql_error.h:276-307 Sql_condition_items] *)
Record Sql_condition_items := Items {
  m_class_origin : bytes; m_subclass_origin : bytes; m_constraint_catalog : bytes; m_constraint_schema : bytes; m_constraint_name : bytes;
  m_catalog_name : bytes; m_schema_name : bytes; m_table_name : bytes; m_column_name : bytes; m_cursor_name : bytes }.

(* [sql_error.h:309-320 Sql_condition_items()] *)
Definition mk_Sql_condition_items : Sql_condition_items := Items [] [] [] [] [] [] [] [] [] [].
(** [length(0)] leaves no contents. *)
(* [sql_error.h:322-334 Sql_condition_items::clear] *)
Definition items_clear (i : Sql_condition_items) : Sql_condition_items := Items [] [] [] [] [] [] [] [] [] [].

(** The pointers of the list of conditions are those of PList.v. *)
(* [sql_error.h:343-345 Sql_condition] *)
Record Sql_condition := Condition {
  cond_identity :> Sql_condition_identity; cond_items :> Sql_condition_items; m_message_text : bytes; m_mem_root : Z }.

(* [my_time.h:76-76 MYSQL_TIME_WARN_HAVE_WARNINGS] *)
Definition MYSQL_TIME_WARN_HAVE_WARNINGS (x : Z) : bool := negb (Z.land x MYSQL_TIME_WARN_WARNINGS =? 0).
(* [sql_error.h:353-357 time_warn_level] *)
Definition time_warn_level (warnings : Z) : enum_warning_level :=
  if MYSQL_TIME_WARN_HAVE_WARNINGS warnings then WARN_LEVEL_WARN else WARN_LEVEL_NOTE.

(* [sql_error.h:397-399 Sql_condition()] *)
Definition mk_Sql_condition : Sql_condition := Condition mk_Sql_condition_identity mk_Sql_condition_items [] 0.
(* [sql_error.h:406-411 init] *)
Definition init (c : Sql_condition) (mem_root : Z) : option Sql_condition :=
  if mem_root =? 0 then None else if negb (m_mem_root c =? 0) then None else Some (Condition c c (m_message_text c) mem_root).
(* [sql_error.h:418-422 Sql_condition(MEM_ROOT)] *)
Definition mk_Sql_condition_on (mem_root : Z) : option Sql_condition :=
  if mem_root =? 0 then None else Some (Condition mk_Sql_condition_identity mk_Sql_condition_items [] mem_root).
(* [sql_error.h:424-429 Sql_condition(MEM_ROOT, const Sql_user_condition_identity)] *)
Definition mk_Sql_condition_user (mem_root : Z) (ucid : Sql_user_condition_identity) : option Sql_condition :=
  if mem_root =? 0 then None
  else Some (Condition (mk_Sql_condition_identity_level mk_Sql_state_errno_level ucid) mk_Sql_condition_items [] mem_root).
(** [set_builtin_message_text] gives the message that is stored; [msg] is NULL or a text. *)
(* [sql_error.h:437-447 Sql_condition(MEM_ROOT, const Sql_condition_identity, const char)] *)
Definition mk_Sql_condition_msg (set_builtin_message_text : bytes -> bytes) (mem_root : Z) (value : Sql_condition_identity) (msg : option bytes) :
  option Sql_condition :=
  if mem_root =? 0 then None else if get_sql_errno value =? 0 then None else
  msg ← msg; Some (Condition value mk_Sql_condition_items (set_builtin_message_text msg) mem_root).
(* [sql_error.h:483-488 Sql_condition::clear] *)
Definition clear (c : Sql_condition) : Sql_condition := Condition (identity_clear c) (items_clear c) [] (m_mem_root c).

(** ** ErrBuff *)

(* [mysql_com.h:440-440 MYSQL_ERRMSG_SIZE] *)
Definition MYSQL_ERRMSG_SIZE : nat := 512.
(* [sql_error.h:817-820 ErrBuff] *)
Record ErrBuff := Buff { err_buffer : bytes }.

(** The contents of a new object but for the first byte are what was in memory. *)
(* [sql_error.h:822-825 ErrBuff()] *)
Definition mk_ErrBuff (junk : bytes) : option ErrBuff := Buff <$> write_at junk 0 [0].
(* [sql_error.h:826-826 ErrBuff::ptr] *)
Definition buff_ptr (b : ErrBuff) : bytes := err_buffer b.

(** The functions of mysys and of the server that print.  The numbers are written
    into the buffer and end there with a zero; the others get its size. *)
Class Printers (double decimal_t mysql_time charset : Type) := {
  ullstr : Z -> bytes;
  llstr : Z -> bytes;
  my_gcvt : double -> Z -> bytes;
  decimal2string : decimal_t -> Z -> bytes;
  err_conv : Z -> bytes -> Z -> charset -> bytes;
  my_TIME_to_str : mysql_time -> bytes
}.

Section printing.
Context {double decimal_t mysql_time charset : Type} `{P : Printers double decimal_t mysql_time charset}.

(** Text put at the beginning of the buffer. *)
Definition put_text (b : ErrBuff) (text : bytes) : option ErrBuff := Buff <$> write_at (err_buffer b) 0 (text ++ [0]).

(* [sql_error.h:827-831 set_longlong] *)
Definition set_longlong (b : ErrBuff) (nr : Longlong_hybrid) : option ErrBuff :=
  if is_unsigned nr then put_text b (ullstr (u64 (value (base_value nr)))) else put_text b (llstr (value (base_value nr))).
(* [sql_error.h:832-836 set_double] *)
Definition set_double (b : ErrBuff) (nr : double) : option ErrBuff := put_text b (my_gcvt nr (Z.of_nat MYSQL_ERRMSG_SIZE)).
(* [sql_error.h:837-842 set_decimal] *)
Definition set_decimal (b : ErrBuff) (d : decimal_t) : option ErrBuff := put_text b (decimal2string d (Z.of_nat MYSQL_ERRMSG_SIZE)).
(* [sql_error.h:843-847 set_str] *)
Definition set_str (b : ErrBuff) (str : bytes) (len : Z) (cs : charset) : option ErrBuff :=
  if len <? 2 ^ 32 - 1 then put_text b (err_conv (Z.of_nat MYSQL_ERRMSG_SIZE) str (u32 len) cs) else None.
(* [sql_error.h:848-852 set_mysql_time] *)
Definition set_mysql_time (b : ErrBuff) (ltime : mysql_time) : option ErrBuff := put_text b (my_TIME_to_str ltime).

(* [sql_error.h:856-924 ErrConv] *)
Inductive ErrConv :=
  | ErrConvString (str : bytes) (len : Z) (cs : charset)
  | ErrConvInteger (nr : Longlong_hybrid)
  | ErrConvDouble (num : double)
  | ErrConvTime (ltime : mysql_time)
  | ErrConvDecimal (d : decimal_t).

(* [sql_error.h:872-873 ErrConvString(const char, CHARSET_INFO)] *)
Definition mk_ErrConvString (str_arg : bytes) (cs_arg : charset) : option ErrConv :=
  if bool_decide (0 ∈ str_arg) then Some (ErrConvString str_arg (Z.of_nat (length (c_string str_arg))) cs_arg) else None.
(* [sql_error.h:874-875 ErrConvString(const String)] *)
Definition mk_ErrConvString_of (contents : bytes) (cs : charset) : ErrConv := ErrConvString contents (Z.of_nat (length contents)) cs.

(** The virtual function of the five classes. *)
(* [sql_error.h:876-923 ptr] *)
Definition ptr (e : ErrConv) (b : ErrBuff) : option bytes :=
  buff_ptr <$>
  match e with
  | ErrConvString str len cs => set_str b str len cs
  | ErrConvInteger nr => set_longlong b nr
  | ErrConvDouble num => set_double b num
  | ErrConvTime ltime => set_mysql_time b ltime
  | ErrConvDecimal d => set_decimal b d
  end.
End printing.

(** ** What an SQLSTATE means *)

(** Digits and capital letters. *)
Definition is_state_char (c : Z) : bool := (48 <=? c) && (c <=? 57) || (65 <=? c) && (c <=? 90).
Definition is_state (s : bytes) : Prop := length s = SQLSTATE_LENGTH /\ Forall is_state_char s.

#[export] Instance is_state_dec s : Decision (is_state s).
Proof. unfold is_state. apply _. Defined.

(** The category of an SQLSTATE by its class, the first two characters. *)
Inductive category := Completion | Warning | NotFound | Exception.

#[export] Instance category_eq : EqDecision category.
Proof. solve_decision. Defined.

Definition category_of (s : bytes) : category :=
  if decide (take 2 s = [48; 48]) then Completion else
  if decide (take 2 s = [48; 49]) then Warning else
  if decide (take 2 s = [48; 50]) then NotFound else Exception.

Lemma state_char_range c : is_state_char c -> 48 <= c < 128.
Proof. unfold is_state_char. intros H. apply Is_true_true, orb_true_iff in H as [H | H]; apply andb_true_iff in H as [?%Z.leb_le ?%Z.leb_le]; lia. Qed.

Lemma state_positive s : is_state s -> Forall (fun c => 0 < c) s.
Proof. intros [_ H]. eapply Forall_impl; [exact H |]. intros c Hc%state_char_range. lia. Qed.

Lemma set_sqlstate_ok s more : is_state s -> set_sqlstate (s ++ more) = Some (State (s ++ [0])).
Proof.
  intros [Hl _]. unfold set_sqlstate. rewrite (proj2 (Nat.ltb_ge _ _)) by (rewrite length_app; lia). by rewrite take_app_length'.
Qed.

Lemma char_of_state c : is_state_char c -> swrap 8 c = c.
Proof. intros H%state_char_range. apply swrap_small; lia. Qed.

(** The first two characters as the code reads them. *)
Lemma first_chars s : is_state s -> exists a b rest, s = a :: b :: rest /\
  48 <= a /\ 48 <= b /\ char_at (s ++ [0]) 0 = Some a /\ char_at (s ++ [0]) 1 = Some b.
Proof.
  intros [Hl Hs]. destruct s as [| a [| b rest]]; try done. apply Forall_cons in Hs as [Ha Hs]. apply Forall_cons in Hs as [Hb _].
  exists a, b, rest. pose proof (state_char_range _ Ha). pose proof (state_char_range _ Hb). split; [done |]. do 2 (split; [lia |]).
  unfold char_at. cbn. by rewrite !char_of_state.
Qed.

(** the text of an SQLSTATE is stored whatever follows it in memory and [eq] compares the
    texts; of the four tests for completion, warning, not found and exception exactly the one
    of the category of the first two characters holds. *)
Theorem sqlstate_categories s more s2 st st2 : is_state s -> is_state s2 ->
  set_sqlstate (s ++ more) = Some st -> set_sqlstate s2 = Some st2 ->
  c_string (get_sqlstate st) = s /\ has_sql_state st = Some true /\ eq st st2 = Some (bool_decide (s = s2)) /\
  is_sqlstate_completion (get_sqlstate st) = Some (bool_decide (category_of s = Completion)) /\
  is_warning st = Some (bool_decide (category_of s = Warning)) /\
  is_not_found st = Some (bool_decide (category_of s = NotFound)) /\
  is_exception st = Some (bool_decide (category_of s = Exception)).
Proof.
  intros Hs Hs2 E E2. rewrite set_sqlstate_ok in E by done. injection E as <-.
  rewrite <- (app_nil_r s2), set_sqlstate_ok in E2 by done. injection E2 as <-.
  split; [apply c_string_text, state_positive, Hs |]. destruct (first_chars s Hs) as (a & b & rest & -> & Ha & Hb & Ca & Cb).
  unfold has_sql_state, is_sqlstate_completion, is_warning, is_not_found, is_exception, get_sqlstate, eq. cbn [m_sqlstate].
  split; [rewrite Ca; cbn; destruct (Z.eqb_spec a 0); [lia | done] |]. split; [apply strcmp_eq_text; by apply state_positive |].
  assert (HC : category_of (a :: b :: rest) = if a =? 48 then if b =? 48 then Completion else if b =? 49 then Warning else if b =? 50 then NotFound else Exception
    else Exception).
  { unfold category_of. cbn [take]. repeat case_decide; repeat (case_match; rewrite ?Z.eqb_eq, ?Z.eqb_neq in *); naive_solver. }
  rewrite HC, Ca. cbn [mbind option_bind]. destruct (Z.eqb_spec a 48); cbn [negb]; rewrite ?Cb; cbn [mbind option_bind]; [| done].
  destruct (Z.eqb_spec b 48), (Z.eqb_spec b 49), (Z.eqb_spec b 50), (Z.ltb_spec 50 b); try lia; done.
Qed.

Lemma sqlstate_categories_witness :
  exists st, set_sqlstate [52; 50; 83; 48; 50; 32; 33] = Some st /\ is_exception st = Some true /\ is_not_found st = Some false.
Proof.
  destruct (sqlstate_categories [52; 50; 83; 48; 50] [32; 33] [48; 50; 48; 48; 48] (State [52; 50; 83; 48; 50; 0]) (State [48; 50; 48; 48; 48; 0]))
    as (_ & _ & _ & _ & _ & H1 & H2); [by apply (bool_decide_unpack _) | by apply (bool_decide_unpack _) | done | done |].
  eexists. split; [done |]. split; [exact H2 | exact H1].
Defined.

(** A cleared condition is a new one with its old memory root, except that it keeps its SQLSTATE. *)
Lemma clear_keeps_sqlstate c : clear c =
  Condition (Identity (StateErrnoLevel (StateErrno (errno_state c) 0) WARN_LEVEL_ERROR) mk_Sql_user_condition_identity) mk_Sql_condition_items [] (m_mem_root c).
Proof. done. Qed.

(** [init] and the constructors leave no condition without a memory root. *)
Lemma constructed_on set mem_root (value : Sql_condition_identity) msg c ucid : mem_root <> 0 -> get_sql_errno value <> 0 ->
  (mk_Sql_condition_msg set mem_root value (Some msg) = Some c -> m_mem_root c = mem_root /\ m_message_text c = set msg /\ cond_identity c = value) /\
  init mk_Sql_condition mem_root = mk_Sql_condition_on mem_root /\
  mk_Sql_condition_user mem_root mk_Sql_user_condition_identity = mk_Sql_condition_on mem_root /\
  init mk_Sql_condition 0 = None /\ mk_Sql_condition_on 0 = None /\ mk_Sql_condition_user 0 ucid = None.
Proof.
  intros Hm He. unfold mk_Sql_condition_msg, init, mk_Sql_condition_on, mk_Sql_condition_user.
  rewrite (proj2 (Z.eqb_neq _ _) Hm), (proj2 (Z.eqb_neq _ _) He). split; [by intros [= <-] |]. done.
Qed.

(** ** Numbers in messages *)

(** The number that a decimal text with a sign denotes. *)
Definition text_value (t : bytes) : Z := match t with 45 :: t => - number t | _ => number t end.

(** What the printing of integers promises: the text of the number, in at most 20 characters. *)
Class IntegerText {double decimal_t mysql_time charset : Type} (P : Printers double decimal_t mysql_time charset) := {
  ullstr_text z : 0 <= z < 2 ^ 64 -> text_value (ullstr z) = z /\ Forall (fun c => 0 < c) (ullstr z) /\ (length (ullstr z) <= 20)%nat;
  llstr_text z : LONGLONG_MIN <= z <= LONGLONG_MAX -> text_value (llstr z) = z /\ Forall (fun c => 0 < c) (llstr z) /\ (length (llstr z) <= 20)%nat
}.

Section numbers.
Context {double decimal_t mysql_time charset : Type} {P : Printers double decimal_t mysql_time charset} `{!IntegerText P}.

Lemma put_text_ok b t : (length t < length (err_buffer b))%nat -> Forall (fun c => 0 < c) t ->
  exists b', put_text b t = Some b' /\ c_string (err_buffer b') = t /\ length (err_buffer b') = length (err_buffer b).
Proof using.
  intros Hl Ht. unfold put_text. destruct (write_at_behind [] (err_buffer b) (t ++ [0])) as (r & E & Hr); [rewrite length_app; cbn; lia |].
  cbn [app length] in E. change (Z.of_nat 0) with 0 in E. rewrite E. eexists. split; [done |]. cbn [err_buffer]. rewrite <- app_assoc.
  split; [by apply c_string_text |]. rewrite !length_app in *. cbn in *. lia.
Qed.

(** an integer of either signedness in a message has the text of its mathematical value:
    the sign in the type decides which function prints it, and the text fits into the buffer. *)
Theorem integer_in_message (nr : Longlong_hybrid) (b : ErrBuff) : longlong_wf nr -> length (err_buffer b) = MYSQL_ERRMSG_SIZE ->
  exists t, (ptr (ErrConvInteger nr) b : option bytes) = Some t /\ text_value (c_string t) = hybrid_value nr /\ length t = MYSQL_ERRMSG_SIZE.
Proof.
  intros Hw Hl. unfold ptr, set_longlong, hybrid_value, is_unsigned, value. destruct (m_unsigned nr).
  - destruct (ullstr_text (u64 (m_value (base_value nr)))) as (Hv & Hp & Hn); [apply is_word_wrap; lia |].
    destruct (put_text_ok b (ullstr (u64 (m_value (base_value nr))))) as (b' & -> & Hc & Hl'); [rewrite Hl; unfold MYSQL_ERRMSG_SIZE; lia | done |].
    eexists. split; [done |]. unfold buff_ptr. rewrite Hc. split; [done | congruence].
  - destruct (llstr_text (m_value (base_value nr)) Hw) as (Hv & Hp & Hn).
    destruct (put_text_ok b (llstr (m_value (base_value nr)))) as (b' & -> & Hc & Hl'); [rewrite Hl; unfold MYSQL_ERRMSG_SIZE; lia | done |].
    eexists. split; [done |]. unfold buff_ptr. rewrite Hc. split; [done | congruence].
Qed.
End numbers.

(** Printing in decimal; the other kinds of value are not needed for numbers. *)
#[local] Instance decimal_printers : Printers unit unit unit unit := {|
  ullstr z := default [] (decimal 20 z);
  llstr z := if z <? 0 then 45 :: default [] (decimal 20 (- z)) else default [] (decimal 20 z);
  my_gcvt _ _ := []; decimal2string _ _ := []; err_conv _ t n _ := take (Z.to_nat n) t; my_TIME_to_str _ := [] |}.

Lemma digits_text k z : (1 <= k <= 20)%nat -> 0 <= z < 10 ^ Z.of_nat k ->
  let t := default [] (decimal 20 z) in text_value t = z /\ number t = z /\ Forall (fun c => 0 < c) t /\ (length t <= k)%nat.
Proof.
  intros Hk Hz. destruct (decimal_ok 20 z k Hk Hz) as (ds & -> & Hv & Hl & Hd). cbn. split; [| split; [done |]].
  - unfold text_value. destruct Hd as [| d ds Hd _]; [done |]. destruct (decide (d = 45)); [lia |]. repeat case_match; done || lia.
  - split; [| done]. eapply Forall_impl; [exact Hd |]. cbn. lia.
Qed.

#[local] Instance decimal_text : IntegerText decimal_printers.
Proof.
  split; intros z Hz; cbn [ullstr llstr decimal_printers].
  - destruct (digits_text 20 z) as (? & _ & ? & ?); [lia | lia | done].
  - unfold LONGLONG_MIN, LONGLONG_MAX in Hz. destruct (Z.ltb_spec z 0).
    + destruct (digits_text 19 (- z)) as (_ & Hn & Hp & Hl); [lia | lia |]. split; [| split; [by apply Forall_cons | cbn [length]; lia]].
      unfold text_value. rewrite Hn. lia.
    + destruct (digits_text 19 z) as (? & _ & ? & ?); [lia | lia |]. split; [done | split; [done | lia]].
Qed.

Lemma integer_in_message_witness : exists t, (ptr (ErrConvInteger (mk_Longlong_hybrid (-1) true)) (Buff (replicate MYSQL_ERRMSG_SIZE 170)) : option bytes) = Some t /\
  text_value (c_string t) = 18446744073709551615.
Proof.
  destruct (integer_in_message (mk_Longlong_hybrid (-1) true) (Buff (replicate MYSQL_ERRMSG_SIZE 170))) as (t & E & Hv & _);
    [split; by vm_compute | by vm_compute |]. exists t. split; [exact E | exact Hv].
Defined.

Example negative_in_message : (c_string <$> ptr (ErrConvInteger (mk_Longlong_hybrid (-120) false)) (Buff (replicate MYSQL_ERRMSG_SIZE 170))) = Some [45; 49; 50; 48].
Proof. vm_compute. reflexivity. Qed.
