(* ===== verification/Diagnostics.v ===== *)
(** * Diagnostics: the diagnostics area of a session ([sql_error.h])

    A [Warning_info] collects the conditions of statements; a [Diagnostics_area] has
    the status of the current statement and a stack of [Warning_info] objects: what
    a stored routine or a handler raises goes to the innermost one.

    The stack is an [I_P_List] (PList.v) on the store of Heap.v, linked through hook 0
    of the [Warning_info] objects; their other members are a record, kept by address.
    The list of conditions inside one is the sequence of their addresses.  What
    is compiled elsewhere is the class [WarningMembers]; a NULL front that is used,
    an index behind an array and a failing assertion have no result. *)

From stdpp Require Import base numbers option gmap list.
From Stdlib Require Import ZArith Lia.
From S2P Require Import Prelude ByteOrder ByteMem SqlInt MyTime SqlState Heap DList PList.

Local Open Scope Z_scope.

(** ** Warning_info *)

(** Without the links of the stack and the memory root. *)
(* [sql_error.h:507-571 Warning_info] *)
Record Warning_info := Info {
  m_warn_list : list loc; m_warn_count : list Z; m_current_statement_warn_count : Z; m_current_row_for_warning : Z;
  m_warn_id : Z; m_error_condition : option loc; m_allow_unlimited_warnings : bool; initialized : bool; m_read_only : bool;
  m_marked_sql_conditions : list loc }.

(** The enumeration as an index. *)
(* [sql_error.h:155-156 enum_warning_level] *)
Definition level_index (l : enum_warning_level) : nat :=
  match l with WARN_LEVEL_NOTE => 0 | WARN_LEVEL_WARN => 1 | WARN_LEVEL_ERROR => 2 | WARN_LEVEL_END => 3 end.

(** The members that are defined in the server. *)
Class WarningMembers := {
  clear : Warning_info -> Z -> Warning_info;
  append_warning_info : Warning_info -> Warning_info -> Warning_info;
  mark_all : Warning_info -> Warning_info;
  remove_marked : Warning_info -> Warning_info;
  reserve : Warning_info -> Z -> Warning_info;
  push_identity : Warning_info -> Sql_condition_identity -> bytes -> option loc * Warning_info;
  push_condition : Warning_info -> Sql_condition -> option loc * Warning_info;
  has_condition : Warning_info -> bytes -> Z -> bool
}.

Module Wi.

Section code.
Context `{WarningMembers}.
(** The number of bits of [ulong]. *)
Variable W : Z.

Definition with_counts (w : Warning_info) (stmt row id : Z) : Warning_info :=
  Info (m_warn_list w) (m_warn_count w) stmt row id (m_error_condition w) (m_allow_unlimited_warnings w) (initialized w) (m_read_only w)
    (m_marked_sql_conditions w).
Definition with_marks (w : Warning_info) (marks : list loc) : Warning_info :=
  Info (m_warn_list w) (m_warn_count w) (m_current_statement_warn_count w) (m_current_row_for_warning w) (m_warn_id w) (m_error_condition w)
    (m_allow_unlimited_warnings w) (initialized w) (m_read_only w) marks.
Definition with_error (w : Warning_info) (e : option loc) (ro : bool) : Warning_info :=
  Info (m_warn_list w) (m_warn_count w) (m_current_statement_warn_count w) (m_current_row_for_warning w) (m_warn_id w) e
    (m_allow_unlimited_warnings w) (initialized w) ro (m_marked_sql_conditions w).

(* [sql_error.h:616-620 opt_clear] *)
Definition opt_clear (w : Warning_info) (query_id : Z) : Warning_info := if negb (query_id =? m_warn_id w) then clear w query_id else w.
(* [sql_error.h:639-640 reset_for_next_command] *)
Definition reset_for_next_command (w : Warning_info) : Warning_info := with_counts w 0 (m_current_row_for_warning w) (m_warn_id w).
(* [sql_error.h:652-653 unmark_sql_conditions_from_removal] *)
Definition unmark_sql_conditions_from_removal (w : Warning_info) : Warning_info := with_marks w [].
(** When there is memory for the node. *)
(* [sql_error.h:677-678 mark_condition_for_removal] *)
Definition mark_condition_for_removal (w : Warning_info) (cond : loc) : Warning_info := with_marks w (m_marked_sql_conditions w ++ [cond]).
(* [sql_error.h:684-693 warn_count] *)
Definition warn_count (w : Warning_info) : option Z :=
  note ← m_warn_count w !! level_index WARN_LEVEL_NOTE;
  error ← m_warn_count w !! level_index WARN_LEVEL_ERROR;
  warn ← m_warn_count w !! level_index WARN_LEVEL_WARN;
  Some (u32 (u32 (note + error) + warn)).
(* [sql_error.h:699-700 error_count] *)
Definition error_count (w : Warning_info) : option Z := m_warn_count w !! level_index WARN_LEVEL_ERROR.
(* [sql_error.h:705-708 cond_count] *)
Definition cond_count (w : Warning_info) : Z := u32 (Z.of_nat (length (m_warn_list w))).
(* [sql_error.h:711-711 id] *)
Definition id (w : Warning_info) : Z := m_warn_id w.
(* [sql_error.h:714-714 id(ulonglong)] *)
Definition set_id (w : Warning_info) (id_arg : Z) : Warning_info :=
  with_counts w (m_current_statement_warn_count w) (m_current_row_for_warning w) id_arg.
(* [sql_error.h:717-717 is_empty] *)
Definition is_empty (w : Warning_info) : bool := match m_warn_list w with [] => true | _ => false end.
(* [sql_error.h:720-720 inc_current_row_for_warning] *)
Definition inc_current_row_for_warning (w : Warning_info) : Warning_info :=
  with_counts w (m_current_statement_warn_count w) (wrap W (m_current_row_for_warning w + 1)) (m_warn_id w).
(* [sql_error.h:723-723 reset_current_row_for_warning] *)
Definition reset_current_row_for_warning (w : Warning_info) : Warning_info := with_counts w (m_current_statement_warn_count w) 1 (m_warn_id w).
(* [sql_error.h:726-726 current_row_for_warning] *)
Definition current_row_for_warning (w : Warning_info) : Z := m_current_row_for_warning w.
(* [sql_error.h:729-730 current_statement_warn_count] *)
Definition current_statement_warn_count (w : Warning_info) : Z := m_current_statement_warn_count w.
(* [sql_error.h:771-772 set_read_only] *)
Definition set_read_only (w : Warning_info) (read_only_arg : bool) : Warning_info := with_error w (m_error_condition w) read_only_arg.
(* [sql_error.h:778-779 is_read_only] *)
Definition is_read_only (w : Warning_info) : bool := m_read_only w.
(* [sql_error.h:787-788 get_error_condition] *)
Definition get_error_condition (w : Warning_info) : option loc := m_error_condition w.
(* [sql_error.h:795-796 set_error_condition] *)
Definition set_error_condition (w : Warning_info) (error_condition : option loc) : Warning_info := with_error w error_condition (m_read_only w).
(* [sql_error.h:804-805 clear_error_condition] *)
Definition clear_error_condition (w : Warning_info) : Warning_info := with_error w None (m_read_only w).
End code.
End Wi.

(** ** Diagnostics_area *)

(* [sql_error.h:952-967 enum_diagnostics_status] *)
Inductive enum_diagnostics_status := DA_EMPTY | DA_OK | DA_EOF | DA_OK_BULK | DA_ERROR | DA_DISABLED.

#[export] Instance enum_diagnostics_status_eq : EqDecision enum_diagnostics_status.
Proof. solve_decision. Defined.

(** [m_main_wi] is the address of the object that is part of the area, [m_wi_stack] that
    of the list. *)
(* [sql_error.h:935-943 Diagnostics_area] *)
Record Diagnostics_area := Area {
  da_errno : Sql_state_errno; da_user : Sql_user_condition_identity;
  m_is_sent : bool; m_can_overwrite_status : bool; m_skip_flush : bool; m_message : bytes; m_affected_rows : Z; m_last_insert_id : Z;
  m_statement_warn_count : Z; m_status : enum_diagnostics_status; is_bulk_execution : bool; m_main_wi : loc; m_wi_stack : loc }.

(** The policies of [Warning_info_list]. *)
(* [sql_error.h:940-945 Warning_info_list] *)
Definition wi_policy : policy := Policy true true.

(** The session: the store with the list, the objects on it, the area. *)
Record session := Session { heap : mem; infos : gmap loc Warning_info; area : Diagnostics_area }.

Definition comp (A : Type) : Type := session -> option (A * session).

#[export] Instance comp_ret : MRet comp := fun A x s => Some (x, s).
#[export] Instance comp_bind : MBind comp := fun A B k p s => '(x, s) ← p s; k x s.

Definition fail {A} : comp A := fun _ => None.
Definition on_heap {A} (p : prog A) : comp A := fun s => '(x, m) ← p (heap s); Some (x, Session m (infos s) (area s)).
(** The counter of a list, and its front used as a reference. *)
Definition elements (l : loc) : prog Z := v ← load (l, F_elements); as_int v.
Definition front_obj (l : loc) : prog loc := f ← front l; as_obj f.
Definition get_info (w : loc) : comp Warning_info := fun s => i ← infos s !! w; Some (i, s).
Definition set_info (w : loc) (i : Warning_info) : comp unit := fun s => Some (tt, Session (heap s) (<[w := i]> (infos s)) (area s)).
Definition get_area : comp Diagnostics_area := fun s => Some (area s, s).
Definition set_area (a : Diagnostics_area) : comp unit := fun s => Some (tt, Session (heap s) (infos s) a).
Definition assert (b : bool) : comp unit := if b then mret tt else fail.

Section code.
Context `{WarningMembers}.
Variable W : Z.

(** *** The status *)

Definition with_status (a : Diagnostics_area) (sent overwrite flush : bool) (count : Z) (bulk : bool) : Diagnostics_area :=
  Area (da_errno a) (da_user a) sent overwrite flush (m_message a) (m_affected_rows a) (m_last_insert_id a) count (m_status a) bulk
    (m_main_wi a) (m_wi_stack a).

(* [sql_error.h:969-970 set_overwrite_status] *)
Definition set_overwrite_status (a : Diagnostics_area) (b : bool) : Diagnostics_area :=
  with_status a (m_is_sent a) b (m_skip_flush a) (m_statement_warn_count a) (is_bulk_execution a).
(* [sql_error.h:973-973 is_sent] *)
Definition is_sent (a : Diagnostics_area) : bool := m_is_sent a.
(* [sql_error.h:975-975 set_is_sent] *)
Definition set_is_sent (a : Diagnostics_area) (b : bool) : Diagnostics_area :=
  with_status a b (m_can_overwrite_status a) (m_skip_flush a) (m_statement_warn_count a) (is_bulk_execution a).
(** [set_error_status] with five arguments is defined in the server. *)
(* [sql_error.h:991-999 set_error_status(uint, const char, const char, const Sql_condition)] *)
Definition set_error_status_no_user
  (set_error_status : Diagnostics_area -> Z -> bytes -> bytes -> Sql_user_condition_identity -> option loc -> Diagnostics_area)
  (a : Diagnostics_area) (sql_errno : Z) (message sqlstate : bytes) (error_condition : option loc) : Diagnostics_area :=
  set_error_status a sql_errno message sqlstate mk_Sql_user_condition_identity error_condition.
(* [sql_error.h:1005-1005 is_set] *)
Definition is_set (a : Diagnostics_area) : bool := negb (bool_decide (m_status a = DA_EMPTY)).
(* [sql_error.h:1007-1007 is_error] *)
Definition is_error (a : Diagnostics_area) : bool := bool_decide (m_status a = DA_ERROR).
(* [sql_error.h:1009-1009 is_eof] *)
Definition is_eof (a : Diagnostics_area) : bool := bool_decide (m_status a = DA_EOF).
(* [sql_error.h:1011-1011 is_ok] *)
Definition is_ok (a : Diagnostics_area) : bool := bool_decide (m_status a = DA_OK).
(* [sql_error.h:1013-1013 is_disabled] *)
Definition is_disabled (a : Diagnostics_area) : bool := bool_decide (m_status a = DA_DISABLED).
(* [sql_error.h:1015-1015 set_bulk_execution] *)
Definition set_bulk_execution (a : Diagnostics_area) (bulk : bool) : Diagnostics_area :=
  with_status a (m_is_sent a) (m_can_overwrite_status a) (m_skip_flush a) (m_statement_warn_count a) bulk.
(* [sql_error.h:1017-1017 is_bulk_op] *)
Definition is_bulk_op (a : Diagnostics_area) : bool := is_bulk_execution a.
(* [sql_error.h:1019-1019 status] *)
Definition status (a : Diagnostics_area) : enum_diagnostics_status := m_status a.
(* [sql_error.h:1021-1023 message] *)
Definition message (a : Diagnostics_area) : option bytes :=
  if bool_decide (m_status a = DA_ERROR) || bool_decide (m_status a = DA_OK) || bool_decide (m_status a = DA_OK_BULK) then Some (m_message a) else None.
(* [sql_error.h:1025-1029 skip_flush] *)
Definition skip_flush (a : Diagnostics_area) : option bool :=
  if bool_decide (m_status a = DA_OK) || bool_decide (m_status a = DA_OK_BULK) then Some (m_skip_flush a) else None.
(* [sql_error.h:1031-1032 set_skip_flush] *)
Definition set_skip_flush (a : Diagnostics_area) : Diagnostics_area :=
  with_status a (m_is_sent a) (m_can_overwrite_status a) true (m_statement_warn_count a) (is_bulk_execution a).
(* [sql_error.h:1034-1038 sql_errno] *)
Definition sql_errno (a : Diagnostics_area) : option Z := if bool_decide (m_status a = DA_ERROR) then Some (get_sql_errno (da_errno a)) else None.
(* [sql_error.h:1040-1041 get_sqlstate] *)
Definition area_sqlstate (a : Diagnostics_area) : option bytes := if bool_decide (m_status a = DA_ERROR) then Some (get_sqlstate (da_errno a)) else None.
(* [sql_error.h:1043-1047 affected_rows] *)
Definition affected_rows (a : Diagnostics_area) : option Z :=
  if bool_decide (m_status a = DA_OK) || bool_decide (m_status a = DA_OK_BULK) then Some (m_affected_rows a) else None.
(* [sql_error.h:1049-1053 last_insert_id] *)
Definition last_insert_id (a : Diagnostics_area) : option Z :=
  if bool_decide (m_status a = DA_OK) || bool_decide (m_status a = DA_OK_BULK) then Some (m_last_insert_id a) else None.
(* [sql_error.h:1055-1060 statement_warn_count] *)
Definition statement_warn_count (a : Diagnostics_area) : option Z :=
  if bool_decide (m_status a = DA_OK) || bool_decide (m_status a = DA_OK_BULK) || bool_decide (m_status a = DA_EOF)
  then Some (m_statement_warn_count a) else None.
(* [sql_error.h:1066-1072 get_error_condition_identity] *)
Definition get_error_condition_identity (a : Diagnostics_area) : option Sql_condition_identity :=
  if bool_decide (m_status a = DA_ERROR) then Some (mk_Sql_condition_identity_errno (da_errno a) WARN_LEVEL_ERROR (da_user a)) else None.
(* [sql_error.h:1075-1079 increment_warning] *)
Definition increment_warning (a : Diagnostics_area) : Diagnostics_area :=
  if negb (bool_decide (m_status a = DA_EMPTY)) then
    with_status a (m_is_sent a) (m_can_overwrite_status a) (m_skip_flush a) (u32 (m_statement_warn_count a + 1)) (is_bulk_execution a)
  else a.

(** *** The stack *)

(* [sql_error.h:1087-1088 push_warning_info] *)
Definition push_warning_info (wi : loc) : comp unit := a ← get_area; on_heap (push_front 0 wi_policy (m_wi_stack a) wi).
(* [sql_error.h:1090-1094 pop_warning_info] *)
Definition pop_warning_info : comp unit :=
  a ← get_area; n ← on_heap (elements (m_wi_stack a));
  assert (0 <? n);;
  f ← on_heap (front_obj (m_wi_stack a));
  on_heap (remove 0 wi_policy (m_wi_stack a) f).
(* [sql_error.h:1207-1209 get_warning_info] *)
Definition get_warning_info : comp val := a ← get_area; on_heap (front (m_wi_stack a)).

(** The object behind a pointer. *)
Definition deref (p : val) : comp (loc * Warning_info) :=
  w ← on_heap (as_obj p); i ← get_info w; mret (w, i).
(** A call of a member function on the object that [get_warning_info] gives. *)
Definition ask {A} (f : Warning_info -> A) : comp A := p ← get_warning_info; '(_, i) ← deref p; mret (f i).
Definition try_ask {A} (f : Warning_info -> option A) : comp A := p ← get_warning_info; '(_, i) ← deref p; match f i with Some x => mret x | None => fail end.
Definition update {A} (f : Warning_info -> A * Warning_info) : comp A :=
  p ← get_warning_info; '(w, i) ← deref p;
  set_info w (f i).2;; mret (f i).1.
Definition modify (f : Warning_info -> Warning_info) : comp unit := update (fun i => (tt, f i)).

(* [sql_error.h:1096-1097 set_warning_info_id] *)
Definition set_warning_info_id (id : Z) : comp unit := modify (fun i => Wi.set_id i id).
(* [sql_error.h:1099-1100 warning_info_id] *)
Definition warning_info_id : comp Z := ask Wi.id.
(* [sql_error.h:1112-1113 warning_info_changed] *)
Definition warning_info_changed (wi : loc) : comp bool :=
  a ← ask Wi.id; '(_, i) ← deref (VObj wi); mret (negb (a =? Wi.id i)).
(* [sql_error.h:1115-1116 is_warning_info_empty] *)
Definition is_warning_info_empty : comp bool := ask Wi.is_empty.
(* [sql_error.h:1118-1119 current_statement_warn_count] *)
Definition current_statement_warn_count : comp Z := ask Wi.current_statement_warn_count.
(* [sql_error.h:1121-1122 has_sql_condition] *)
Definition has_sql_condition (message_str : bytes) (message_length : Z) : comp bool := ask (fun i => has_condition i message_str message_length).
(* [sql_error.h:1124-1125 reset_for_next_command] *)
Definition reset_for_next_command : comp unit := modify Wi.reset_for_next_command.
(* [sql_error.h:1127-1128 clear_warning_info] *)
Definition clear_warning_info (id : Z) : comp unit := modify (fun i => clear i id).
(* [sql_error.h:1130-1131 opt_clear_warning_info] *)
Definition opt_clear_warning_info (query_id : Z) : comp unit := modify (fun i => Wi.opt_clear i query_id).
(* [sql_error.h:1133-1134 current_row_for_warning] *)
Definition current_row_for_warning : comp Z := ask Wi.current_row_for_warning.
(* [sql_error.h:1136-1137 inc_current_row_for_warning] *)
Definition inc_current_row_for_warning : comp unit := modify (Wi.inc_current_row_for_warning W).
(* [sql_error.h:1139-1140 reset_current_row_for_warning] *)
Definition reset_current_row_for_warning : comp unit := modify Wi.reset_current_row_for_warning.
(* [sql_error.h:1142-1143 is_warning_info_read_only] *)
Definition is_warning_info_read_only : comp bool := ask Wi.is_read_only.
(* [sql_error.h:1145-1146 set_warning_info_read_only] *)
Definition set_warning_info_read_only (read_only_arg : bool) : comp unit := modify (fun i => Wi.set_read_only i read_only_arg).
(* [sql_error.h:1148-1149 error_count] *)
Definition error_count : comp Z := try_ask Wi.error_count.
(* [sql_error.h:1151-1152 warn_count] *)
Definition warn_count : comp Z := try_ask Wi.warn_count.
(* [sql_error.h:1154-1155 cond_count] *)
Definition cond_count : comp Z := ask Wi.cond_count.
(* [sql_error.h:1157-1158 sql_conditions] *)
Definition sql_conditions : comp (list loc) := ask m_warn_list.
(* [sql_error.h:1160-1161 reserve_space] *)
Definition reserve_space (count : Z) : comp unit := modify (fun i => reserve i count).
(* [sql_error.h:1163-1164 push_warning(THD, const Sql_condition)] *)
Definition push_warning_condition (sql_condition : Sql_condition) : comp (option loc) := update (fun i => push_condition i sql_condition).
(* [sql_error.h:1166-1175 push_warning(THD, uint, const char, enum_warning_level, const Sql_user_condition_identity, const char)] *)
Definition push_warning_user (sql_errno_arg : Z) (sqlstate : bytes) (level : enum_warning_level) (ucid : Sql_user_condition_identity) (msg : bytes) :
  comp (option loc) :=
  match mk_Sql_condition_identity_state sql_errno_arg sqlstate level ucid with
  | Some tmp => update (fun i => push_identity i tmp msg)
  | None => fail
  end.
(* [sql_error.h:1177-1185 push_warning(THD, uint, const char, enum_warning_level, const char)] *)
Definition push_warning (sqlerrno : Z) (sqlstate : bytes) (level : enum_warning_level) (msg : bytes) : comp (option loc) :=
  push_warning_user sqlerrno sqlstate level mk_Sql_user_condition_identity msg.
(* [sql_error.h:1186-1187 mark_sql_conditions_for_removal] *)
Definition mark_sql_conditions_for_removal : comp unit := modify mark_all.
(* [sql_error.h:1189-1190 unmark_sql_conditions_from_removal] *)
Definition unmark_sql_conditions_from_removal : comp unit := modify Wi.unmark_sql_conditions_from_removal.
(* [sql_error.h:1192-1193 remove_marked_sql_conditions] *)
Definition remove_marked_sql_conditions : comp unit := modify remove_marked.
(* [sql_error.h:1195-1196 get_error_condition] *)
Definition get_error_condition : comp (option loc) := ask Wi.get_error_condition.
(* [sql_error.h:1198-1199 copy_sql_conditions_to_wi] *)
Definition copy_sql_conditions_to_wi (dst_wi : loc) : comp unit :=
  src ← ask (fun i => i); '(w, i) ← deref (VObj dst_wi);
  set_info w (append_warning_info i src).
(* [sql_error.h:1201-1202 copy_sql_conditions_from_wi] *)
Definition copy_sql_conditions_from_wi (src_wi : loc) : comp unit :=
  '(_, src) ← deref (VObj src_wi); modify (fun i => append_warning_info i src).
End code.

(** ** What the getters answer *)

(** What a statement has to tell depends on its status, and the assertions say so. *)
Lemma getters_by_status a :
  (is_Some (message a) <-> m_status a ∈ [DA_ERROR; DA_OK; DA_OK_BULK]) /\
  (is_Some (affected_rows a) <-> m_status a ∈ [DA_OK; DA_OK_BULK]) /\ (is_Some (last_insert_id a) <-> m_status a ∈ [DA_OK; DA_OK_BULK]) /\
  (is_Some (skip_flush a) <-> m_status a ∈ [DA_OK; DA_OK_BULK]) /\ (is_Some (statement_warn_count a) <-> m_status a ∈ [DA_OK; DA_OK_BULK; DA_EOF]) /\
  (is_Some (sql_errno a) <-> is_error a) /\ (is_Some (area_sqlstate a) <-> is_error a) /\ (is_Some (get_error_condition_identity a) <-> is_error a) /\
  (is_set a = false -> increment_warning a = a).
Proof.
  unfold message, affected_rows, last_insert_id, skip_flush, statement_warn_count, sql_errno, area_sqlstate, get_error_condition_identity, is_error,
    is_set, increment_warning.
  destruct (m_status a); cbn; repeat split; try done; try (intros []; done); try (rewrite !elem_of_cons, elem_of_nil; naive_solver); eauto.
Qed.

(** ** The stack of warning infos *)

(** The stack has these objects; [U] are the objects there are. *)
Record session_ok (U : list loc) (s : session) (stack : list loc) : Prop := {
  so_list : is_plist 0 wi_policy (heap s) (m_wi_stack (area s)) stack;
  so_hooked w : w ∈ U -> hooked 0 (heap s) w;
  so_info w : w ∈ U -> is_Some (infos s !! w);
  so_sub : stack ⊆ U }.

Lemma run_comp {A B} (p : comp A) (k : A -> comp B) s x s' : p s = Some (x, s') -> (p ≫= k) s = k x s'.
Proof. intros E. unfold mbind, comp_bind. by rewrite E. Qed.

Lemma session_eta s : Session (heap s) (infos s) (area s) = s.
Proof. by destruct s. Qed.

Lemma run_on_heap {A} (p : prog A) s x : p (heap s) = Some (x, heap s) -> on_heap p s = Some (x, s).
Proof. intros E. unfold on_heap. rewrite E. cbn. by rewrite session_eta. Qed.

Lemma front_top U s w stack : session_ok U s (w :: stack) -> heap s !! (m_wi_stack (area s), F_first) = Some (VObj w).
Proof. intros [[[Hc _ _ _] _ _] _ _ _]. by apply chain_head in Hc. Qed.

Lemma get_warning_info_top U s w stack : session_ok U s (w :: stack) -> get_warning_info s = Some (VObj w, s).
Proof. intros Hs. unfold get_warning_info, get_area, mbind, comp_bind. apply run_on_heap, run_load_ret. by eapply front_top. Qed.

Lemma deref_ok s w i : infos s !! w = Some i -> deref (VObj w) s = Some ((w, i), s).
Proof.
  intros E. unfold deref. rewrite (run_comp _ _ s w s) by (by apply run_on_heap). unfold get_info, mbind, comp_bind. by rewrite E.
Qed.

Lemma ask_top {A} (f : Warning_info -> A) U s w stack i : session_ok U s (w :: stack) -> infos s !! w = Some i -> ask f s = Some (f i, s).
Proof. intros Hs E. unfold ask. rewrite (run_comp _ _ _ _ _ (get_warning_info_top _ _ _ _ Hs)), (run_comp _ _ _ _ _ (deref_ok _ _ _ E)). done. Qed.

Lemma update_top {A} (f : Warning_info -> A * Warning_info) U s w stack i : session_ok U s (w :: stack) -> infos s !! w = Some i ->
  update f s = Some ((f i).1, Session (heap s) (<[w := (f i).2]> (infos s)) (area s)).
Proof. intros Hs E. unfold update. rewrite (run_comp _ _ _ _ _ (get_warning_info_top _ _ _ _ Hs)), (run_comp _ _ _ _ _ (deref_ok _ _ _ E)). done. Qed.

Lemma info_replaced U s stack w i : session_ok U s stack -> session_ok U (Session (heap s) (<[w := i]> (infos s)) (area s)) stack.
Proof.
  intros [H1 H2 H3 H4]. split; cbn [heap infos area]; [done | done | | done]. intros x Hx. destruct (decide (x = w)) as [-> |].
  - rewrite lookup_insert_eq. eauto.
  - rewrite lookup_insert_ne by done. by apply H3.
Qed.

Lemma stack_bound (stack U : list loc) : NoDup stack -> stack ⊆ U -> (length stack <= length U)%nat.
Proof. intros Hn Hs. apply submseteq_length, NoDup_submseteq; [done |]. exact Hs. Qed.

(** Objects keep their link members when others are linked. *)
Lemma hooked_same_outside (P : addr -> Prop) m m' a : same_outside P m m' -> ~ P (next_ptr 0 a) -> ~ P (prev_ptr 0 a) -> hooked 0 m a -> hooked 0 m' a.
Proof. intros Hs H1 H2 [? ?]. unfold hooked. by rewrite !Hs. Qed.

Lemma pfoot_link l ns a : pfoot 0 l ns (next_ptr 0 a) \/ pfoot 0 l ns (prev_ptr 0 a) -> a ∈ ns.
Proof.
  unfold pfoot, next_ptr, prev_ptr.
  intros [[E | [E | [E | (n & Hn & [E | E])]]] | [E | [E | [E | (n & Hn & [E | E])]]]]; congruence.
Qed.

Lemma push_info_ok U s w stack : Z.of_nat (length U) < 2 ^ 32 -> session_ok U s stack -> w ∈ U -> w ∉ stack ->
  exists m, push_warning_info w s = Some (tt, Session m (infos s) (area s)) /\ session_ok U (Session m (infos s) (area s)) (w :: stack).
Proof.
  intros HU [H1 H2 H3 H4] Hw Hn. pose proof H1 as [[_ _ _ Hnd] _ _].
  assert (Hb : (length (w :: stack) <= length U)%nat) by (apply stack_bound; [by apply NoDup_cons | set_solver]). cbn [length] in Hb.
  destruct (plist_push_front_ok 0 wi_policy (heap s) (m_wi_stack (area s)) stack w) as (m & R & Hl & Hs); [done | done | by apply H2 | lia |].
  exists m. unfold push_warning_info. rewrite (run_comp _ _ s (area s) s) by done. unfold on_heap. rewrite R. split; [done |]. split; cbn [heap infos area]; [done | | done | set_solver].
  intros a Ha. destruct (decide (a ∈ w :: stack)) as [Hin |]; [by eapply is_plist_hooked |].
  eapply hooked_same_outside; [exact Hs | | | by apply H2]; intros Hp; pose proof (pfoot_link (m_wi_stack (area s)) (w :: stack) a); tauto.
Qed.

Lemma pop_info_ok U s w stack : session_ok U s (w :: stack) ->
  exists m, pop_warning_info s = Some (tt, Session m (infos s) (area s)) /\ session_ok U (Session m (infos s) (area s)) stack.
Proof.
  intros Hok. pose proof (front_top _ _ _ _ Hok) as Hf. destruct Hok as [H1 H2 H3 H4]. pose proof H1 as [_ Hc _]. specialize (Hc eq_refl).
  destruct (remove_ok 0 wi_policy (heap s) (m_wi_stack (area s)) [] w stack H1) as (m & R & Hl & Hs). exists m.
  unfold pop_warning_info. rewrite (run_comp _ _ s (area s) s) by done.
  rewrite (run_comp _ _ s (Z.of_nat (length (w :: stack))) s) by (apply run_on_heap; unfold elements; by rewrite (run_load _ _ _ _ Hc)).
  rewrite (run_comp _ _ s tt s) by (unfold assert; rewrite (proj2 (Z.ltb_lt _ _)) by (cbn [length]; lia); done).
  rewrite (run_comp _ _ s w s) by (apply run_on_heap; unfold front_obj, front; by rewrite (run_load _ _ _ _ Hf)).
  unfold on_heap. rewrite R. split; [done |]. split; cbn [heap infos area]; [done | | done | set_solver].
  intros a Ha. unfold hooked. destruct (decide (a = w)) as [-> |].
  - destruct (H2 w Ha). rewrite !Hs; [done | tauto | tauto].
  - destruct (decide (a ∈ stack)) as [Hin |]; [by apply (is_plist_hooked 0 wi_policy m (m_wi_stack (area s)) stack a Hl) |].
    eapply hooked_same_outside; [exact Hs | | | by apply H2]; intros [Hp _]; pose proof (pfoot_link (m_wi_stack (area s)) (w :: stack) a) as Hq;
      cbn [app] in Hp; (assert (a ∈ w :: stack) by tauto); set_solver.
Qed.

(** ** Calls of the area *)

Inductive call :=
  | PushInfo (w : loc) | PopInfo | SetId (id : Z) | ResetForNext | ClearInfo (id : Z) | OptClear (query_id : Z)
  | IncRow | ResetRow | SetReadOnly (b : bool) | Reserve (n : Z) | PushCondition (c : Sql_condition)
  | PushWarning (errno : Z) (sqlstate : bytes) (level : enum_warning_level) (ucid : Sql_user_condition_identity) (msg : bytes)
  | MarkAll | UnmarkAll | RemoveMarked | CopyFrom (src : loc).

Section calls.
Context `{WarningMembers}.
Variable W : Z.

Definition run_call (c : call) : comp unit :=
  match c with
  | PushInfo w => push_warning_info w
  | PopInfo => pop_warning_info
  | SetId id => set_warning_info_id id
  | ResetForNext => reset_for_next_command
  | ClearInfo id => clear_warning_info id
  | OptClear id => opt_clear_warning_info id
  | IncRow => inc_current_row_for_warning W
  | ResetRow => reset_current_row_for_warning
  | SetReadOnly b => set_warning_info_read_only b
  | Reserve n => reserve_space n
  | PushCondition c => push_warning_condition c;; mret tt
  | PushWarning errno sqlstate level ucid msg => push_warning_user errno sqlstate level ucid msg;; mret tt
  | MarkAll => mark_sql_conditions_for_removal
  | UnmarkAll => unmark_sql_conditions_from_removal
  | RemoveMarked => remove_marked_sql_conditions
  | CopyFrom src => copy_sql_conditions_from_wi src
  end.
Fixpoint run_calls (cs : list call) : comp unit := match cs with [] => mret tt | c :: cs => run_call c;; run_calls cs end.

(** What a call means for one [Warning_info], with the others at hand. *)
Definition effect (m : gmap loc Warning_info) (c : call) (i : Warning_info) : option Warning_info :=
  match c with
  | PushInfo _ | PopInfo => None
  | SetId id => Some (Wi.set_id i id)
  | ResetForNext => Some (Wi.reset_for_next_command i)
  | ClearInfo id => Some (clear i id)
  | OptClear id => Some (Wi.opt_clear i id)
  | IncRow => Some (Wi.inc_current_row_for_warning W i)
  | ResetRow => Some (Wi.reset_current_row_for_warning i)
  | SetReadOnly b => Some (Wi.set_read_only i b)
  | Reserve n => Some (reserve i n)
  | PushCondition c => Some (push_condition i c).2
  | PushWarning errno sqlstate level ucid msg => tmp ← mk_Sql_condition_identity_state errno sqlstate level ucid; Some (push_identity i tmp msg).2
  | MarkAll => Some (mark_all i)
  | UnmarkAll => Some (Wi.unmark_sql_conditions_from_removal i)
  | RemoveMarked => Some (remove_marked i)
  | CopyFrom src => src ← m !! src; Some (append_warning_info i src)
  end.

(** The same calls on a stack as a list, above the objects [base]: an object is only
    pushed when it is not on the stack, and only what was pushed is popped or used. *)
Definition spec_call (U base : list loc) (c : call) (st : list loc * gmap loc Warning_info) : option (list loc * gmap loc Warning_info) :=
  let '(inner, m) := st in
  match c, inner with
  | PushInfo w, _ => if decide (w ∈ U /\ w ∉ inner ++ base) then Some (w :: inner, m) else None
  | PopInfo, _ :: inner => Some (inner, m)
  | _, w :: _ => i ← m !! w; i' ← effect m c i; Some (inner, <[w := i']> m)
  | _, [] => None
  end.
Fixpoint spec_calls (U base : list loc) (cs : list call) (st : list loc * gmap loc Warning_info) : option (list loc * gmap loc Warning_info) :=
  match cs with [] => Some st | c :: cs => st ← spec_call U base c st; spec_calls U base cs st end.

Lemma modify_top (f : Warning_info -> Warning_info) U s w stack i : session_ok U s (w :: stack) -> infos s !! w = Some i ->
  modify f s = Some (tt, Session (heap s) (<[w := f i]> (infos s)) (area s)).
Proof using. intros Hs E. unfold modify. by rewrite (update_top _ U s w stack i). Qed.

Lemma effect_ok U c s w stack i i' : session_ok U s (w :: stack) -> infos s !! w = Some i -> effect (infos s) c i = Some i' ->
  run_call c s = Some (tt, Session (heap s) (<[w := i']> (infos s)) (area s)).
Proof using.
  intros Hs Ei E. destruct c; cbn [effect run_call] in *; try done;
    try (injection E as <-; unfold set_warning_info_id, clear_warning_info, opt_clear_warning_info, set_warning_info_read_only, reserve_space, reset_for_next_command,
      inc_current_row_for_warning, reset_current_row_for_warning, mark_sql_conditions_for_removal, unmark_sql_conditions_from_removal, remove_marked_sql_conditions;
      by rewrite (modify_top _ U s w stack i Hs Ei)).
  - injection E as <-. unfold push_warning_condition. by rewrite (run_comp _ _ _ _ _ (update_top _ _ _ _ _ _ Hs Ei)).
  - unfold push_warning_user. destruct (mk_Sql_condition_identity_state errno sqlstate level ucid); [| done]. injection E as <-.
    by rewrite (run_comp _ _ _ _ _ (update_top _ _ _ _ _ _ Hs Ei)).
  - destruct (infos s !! src) as [j |] eqn:Ej; [| done]. injection E as <-. unfold copy_sql_conditions_from_wi.
    rewrite (run_comp _ _ _ _ _ (deref_ok _ _ _ Ej)). by rewrite (modify_top _ U s w stack i Hs Ei).
Qed.

Lemma spec_call_ok U base c s inner st' : Z.of_nat (length U) < 2 ^ 32 -> session_ok U s (inner ++ base) ->
  spec_call U base c (inner, infos s) = Some st' ->
  exists s', run_call c s = Some (tt, s') /\ session_ok U s' (st'.1 ++ base) /\ infos s' = st'.2 /\ area s' = area s /\
    forall w, w ∈ base -> w ∉ inner -> st'.2 !! w = infos s !! w.
Proof using.
  intros HU Hs E.
  assert (Htop : forall w r, inner = w :: r -> (i ← infos s !! w; i' ← effect (infos s) c i; Some (inner, <[w := i']> (infos s))) = Some st' ->
    exists s', run_call c s = Some (tt, s') /\ session_ok U s' (st'.1 ++ base) /\ infos s' = st'.2 /\ area s' = area s /\
      forall w, w ∈ base -> w ∉ inner -> st'.2 !! w = infos s !! w).
  { intros w r -> E'. destruct (infos s !! w) as [i |] eqn:Ei; [| done]. cbn [mbind option_bind] in E'.
    destruct (effect (infos s) c i) as [i' |] eqn:Ef; [| done]. cbn [mbind option_bind] in E'. injection E' as <-. cbn [fst snd].
    eexists. split; [eapply effect_ok; [exact Hs | exact Ei | exact Ef] |]. split; [by apply info_replaced |]. do 2 (split; [done |]).
    intros x _ Hx. apply lookup_insert_ne. intros ->. apply Hx. left. }
  destruct c, inner as [| w0 r]; cbn [spec_call] in E; try done; try (by eapply Htop).
  - case_decide as Hd; [| done]. injection E as <-. destruct (push_info_ok U s w base) as (m & R & Hok); [done | done | tauto | tauto |].
    eexists. split; [exact R |]. done.
  - case_decide as Hd; [| done]. injection E as <-. destruct (push_info_ok U s w ((w0 :: r) ++ base)) as (m & R & Hok); [done | done | tauto | tauto |].
    eexists. split; [exact R |]. done.
  - injection E as <-. destruct (pop_info_ok U s w0 (r ++ base) Hs) as (m & R & Hok). eexists. split; [exact R |]. done.
Qed.

Lemma inner_disjoint U s inner base w : session_ok U s (inner ++ base) -> w ∈ base -> w ∉ inner.
Proof using. intros [[[_ _ _ (_ & Hd & _)%NoDup_app] _ _] _ _ _] Hb Hi. by apply (Hd w). Qed.

Lemma spec_calls_ok U base cs : forall s inner st', Z.of_nat (length U) < 2 ^ 32 -> session_ok U s (inner ++ base) ->
  spec_calls U base cs (inner, infos s) = Some st' ->
  exists s', run_calls cs s = Some (tt, s') /\ session_ok U s' (st'.1 ++ base) /\ infos s' = st'.2 /\ area s' = area s /\
    forall w, w ∈ base -> st'.2 !! w = infos s !! w.
Proof using.
  induction cs as [| c cs IH]; intros s inner st' HU Hs E; cbn [spec_calls run_calls] in *.
  - injection E as <-. exists s. done.
  - destruct (spec_call U base c (inner, infos s)) as [[inner1 m1] |] eqn:E1; [| done]. cbn [mbind option_bind] in E.
    destruct (spec_call_ok U base c s inner _ HU Hs E1) as (s1 & R1 & Hs1 & Hm1 & Ha1 & Hb1). cbn [fst snd] in *. subst m1.
    destruct (IH s1 inner1 st' HU Hs1 E) as (s2 & R2 & Hs2 & Hm2 & Ha2 & Hb2). exists s2. rewrite (run_comp _ _ _ _ _ R1), R2.
    split; [done |]. split; [done |]. split; [done |]. split; [congruence |]. intros w Hw. rewrite Hb2 by done. apply Hb1; [done |].
    by eapply inner_disjoint.
Qed.
End calls.


(** ** The warnings of a query *)

(** What the comments of the header promise of the members compiled elsewhere: [clear] removes
    everything and takes the new id, [push_warning] increments the counter of the level, except that an area
    which is read only is left untouched; none of them writes the read-only flag. *)
Class WarningLaws `(WarningMembers) := {
  clear_id w id : m_read_only w = false -> m_warn_id (clear w id) = id;
  clear_counts w id : m_read_only w = false -> m_warn_count (clear w id) = [0; 0; 0];
  clear_read_only w id : m_read_only (clear w id) = m_read_only w;
  push_identity_id w (c : Sql_condition_identity) msg : m_warn_id (push_identity w c msg).2 = m_warn_id w;
  push_identity_read_only w (c : Sql_condition_identity) msg : m_read_only (push_identity w c msg).2 = m_read_only w;
  push_identity_count w (c : Sql_condition_identity) msg : get_level c <> WARN_LEVEL_END ->
    m_warn_count (push_identity w c msg).2 = if m_read_only w then m_warn_count w else alter (fun n => u32 (n + 1)) (level_index (get_level c)) (m_warn_count w);
  push_condition_id w (c : Sql_condition) : m_warn_id (push_condition w c).2 = m_warn_id w;
  push_condition_read_only w (c : Sql_condition) : m_read_only (push_condition w c).2 = m_read_only w;
  push_condition_count w (c : Sql_condition) : get_level c <> WARN_LEVEL_END ->
    m_warn_count (push_condition w c).2 = if m_read_only w then m_warn_count w else alter (fun n => u32 (n + 1)) (level_index (get_level c)) (m_warn_count w)
}.

Section query.
Context `{WarningLaws}.
Variable W : Z.

Fixpoint effects (m : gmap loc Warning_info) (cs : list call) (i : Warning_info) : option Warning_info :=
  match cs with [] => Some i | c :: cs => i ← effect W m c i; effects m cs i end.

(** The level a call raises a condition with. *)
Definition raised (c : call) : option enum_warning_level :=
  match c with PushCondition c => Some (get_level c) | PushWarning _ _ level _ _ => Some level | _ => None end.
(** A call that a query [q] makes while it runs. *)
Definition during (q : Z) (c : call) : Prop :=
  match c with
  | OptClear id => id = q
  | PushCondition _ => raised c <> Some WARN_LEVEL_END
  | PushWarning _ sqlstate _ _ _ => raised c <> Some WARN_LEVEL_END /\ (SQLSTATE_LENGTH <= length sqlstate)%nat
  | IncRow | ResetRow | ResetForNext | SetReadOnly _ | UnmarkAll => True
  | _ => False
  end.
Definition is_opt_clear (c : call) : bool := match c with OptClear _ => true | _ => false end.
Definition raises_error (c : call) : bool := bool_decide (raised c = Some WARN_LEVEL_ERROR).
Definition raises (c : call) : bool := bool_decide (is_Some (raised c)).
(** The calls that are made while the area is not read only. *)
Definition read_only_after (ro : bool) (c : call) : bool := match c with SetReadOnly b => b | _ => ro end.
Fixpoint recorded (ro : bool) (cs : list call) : list call :=
  match cs with [] => [] | c :: cs => (if ro then [] else [c]) ++ recorded (read_only_after ro c) cs end.
Fixpoint number_of (p : call -> bool) (cs : list call) : Z := match cs with [] => 0 | c :: cs => (if p c then 1 else 0) + number_of p cs end.

Lemma raised_level errno sqlstate level ucid tmp : mk_Sql_condition_identity_state errno sqlstate level ucid = Some tmp -> get_level tmp = level.
Proof using.
  unfold mk_Sql_condition_identity_state, mk_Sql_state_errno_level_state. destruct (mk_Sql_state_errno_state _ _); [| done]. by intros [= <-].
Qed.

Lemma effect_id q m c i i' : during q c -> m_warn_id i = q -> effect W m c i = Some i' -> m_warn_id i' = q.
Proof using H0.
  intros Hd Hi. destruct c; cbn [during effect] in *; try done; try (by intros [= <-]).
  - intros [= <-]. unfold Wi.opt_clear. subst. by rewrite Z.eqb_refl.
  - intros [= <-]. by rewrite push_condition_id.
  - destruct (mk_Sql_condition_identity_state errno sqlstate level ucid); [| done]. intros [= <-]. by rewrite push_identity_id.
Qed.

Lemma effect_read_only q m c i i' : during q c -> m_warn_id i = q -> effect W m c i = Some i' -> m_read_only i' = read_only_after (m_read_only i) c.
Proof using H0.
  intros Hd Hi. destruct c; cbn [during effect read_only_after] in *; try done; try (by intros [= <-]).
  - intros [= <-]. unfold Wi.opt_clear. subst. by rewrite Z.eqb_refl.
  - intros [= <-]. by rewrite push_condition_read_only.
  - destruct (mk_Sql_condition_identity_state errno sqlstate level ucid); [| done]. intros [= <-]. by rewrite push_identity_read_only.
Qed.

Lemma opt_clear_again q m cs : forall i, Forall (during q) cs -> m_warn_id i = q -> effects m cs i = effects m (filter (fun c => is_opt_clear c = false) cs) i.
Proof using H0.
  induction cs as [| c cs IH]; intros i Hd Hi; [done |]. apply Forall_cons in Hd as [Hc Hd]. cbn [effects]. rewrite filter_cons.
  destruct (is_opt_clear c) eqn:E.
  - destruct c; try done. cbn [during] in Hc. subst. cbn [effect mbind option_bind]. unfold Wi.opt_clear. rewrite Z.eqb_refl. cbn [negb].
    by rewrite IH.
  - rewrite decide_True by done. cbn [effects]. destruct (effect W m c i) as [i1 |] eqn:E1; [| done]. cbn [mbind option_bind].
    apply IH; [done |]. by eapply effect_id.
Qed.

(** The counters by level: notes, warnings, errors. *)
Definition counted (i : Warning_info) (n w e : Z) : Prop := m_warn_count i = [u32 n; u32 w; u32 e].

Lemma counted_raise i j l n w e : counted i n w e -> l <> WARN_LEVEL_END ->
  m_warn_count j = alter (fun n => u32 (n + 1)) (level_index l) (m_warn_count i) ->
  exists n' w', counted j n' w' (if bool_decide (l = WARN_LEVEL_ERROR) then e + 1 else e) /\
    n' + w' + (if bool_decide (l = WARN_LEVEL_ERROR) then e + 1 else e) = n + w + e + 1.
Proof using.
  unfold counted. intros -> Hl ->. assert (Hu : forall x, u32 (u32 x + 1) = u32 (x + 1)) by (intros; unfold u32, wrap; by rewrite Zplus_mod_idemp_l).
  destruct l; try done; case_bool_decide; try done; cbn.
  - exists (n + 1), w. rewrite Hu. split; [done | lia].
  - exists n, (w + 1). rewrite Hu. split; [done | lia].
  - exists n, w. rewrite Hu. split; [done | lia].
Qed.

(** One call: what it adds to the counters. *)
Definition adds (ro : bool) (p : call -> bool) (c : call) : Z := number_of p (if ro then [] else [c]).

Lemma call_counted q m c i i' n w e : during q c -> m_warn_id i = q -> counted i n w e -> effect W m c i = Some i' ->
  exists n' w', let e' := e + adds (m_read_only i) raises_error c in
    counted i' n' w' e' /\ n' + w' + e' = n + w + e + adds (m_read_only i) raises c.
Proof using H0.
  intros Hdc Hi Hc E.
  assert (Hsame : raised c = None \/ m_read_only i = true -> m_warn_count i' = m_warn_count i -> exists n1 w1, let e1 := e + adds (m_read_only i) raises_error c in
      counted i' n1 w1 e1 /\ n1 + w1 + e1 = n + w + e + adds (m_read_only i) raises c).
  { intros Hn Hm. exists n, w. unfold adds, counted in *. rewrite Hm. destruct (m_read_only i); cbn [number_of]; [rewrite Z.add_0_r; split; [done | lia] |].
    destruct Hn as [Hn |]; [| done]. unfold raises_error, raises. rewrite Hn, !bool_decide_eq_false_2 by (done || by intros []). rewrite !Z.add_0_r. done. }
  assert (Hpush : forall l, raised c = Some l -> l <> WARN_LEVEL_END ->
      m_warn_count i' = (if m_read_only i then m_warn_count i else alter (fun n => u32 (n + 1)) (level_index l) (m_warn_count i)) ->
      exists n1 w1, let e1 := e + adds (m_read_only i) raises_error c in counted i' n1 w1 e1 /\ n1 + w1 + e1 = n + w + e + adds (m_read_only i) raises c).
  { intros l Hr Hl Hm. destruct (m_read_only i); [apply Hsame; by auto |]. destruct (counted_raise i i' l n w e Hc Hl Hm) as (n1 & w1 & H1 & H2). exists n1, w1.
    unfold adds, raises_error, raises. cbn [number_of]. rewrite Hr, (bool_decide_eq_true_2 (is_Some _)) by done.
    destruct (bool_decide_reflect (l = WARN_LEVEL_ERROR)) as [-> | Hne].
    - rewrite bool_decide_eq_true_2 by done. rewrite !Z.add_0_r. split; [done | lia].
    - rewrite bool_decide_eq_false_2 by congruence. rewrite !Z.add_0_r. split; [done | lia]. }
  destruct c; cbn [during effect raised] in *; try done; try (injection E as <-; apply Hsame; [by left | done]).
  - apply Hsame; [by left |]. injection E as <-. unfold Wi.opt_clear. subst. by rewrite Z.eqb_refl.
  - injection E as <-. eapply Hpush; [done | congruence |]. apply push_condition_count. congruence.
  - destruct (mk_Sql_condition_identity_state errno sqlstate level ucid) as [tmp |] eqn:Et; [| done]. injection E as <-.
    pose proof (raised_level _ _ _ _ _ Et) as El. destruct Hdc as [Hdc _]. eapply Hpush; [done | congruence |]. rewrite <- El. apply push_identity_count. congruence.
Qed.

Lemma number_of_recorded p ro c cs : number_of p (recorded ro (c :: cs)) = adds ro p c + number_of p (recorded (read_only_after ro c) cs).
Proof using. unfold adds. destruct ro; cbn [recorded app number_of]; lia. Qed.

Lemma effects_counted q m cs : forall i i' n w e, Forall (during q) cs -> m_warn_id i = q -> counted i n w e -> effects m cs i = Some i' ->
  exists n' w', let e' := e + number_of raises_error (recorded (m_read_only i) cs) in
    counted i' n' w' e' /\ n' + w' + e' = n + w + e + number_of raises (recorded (m_read_only i) cs).
Proof using H0.
  induction cs as [| c cs IH]; intros i i' n w e Hd Hi Hc E; cbn [effects] in E.
  - injection E as <-. exists n, w. cbn [recorded number_of]. rewrite Z.add_0_r. split; [done | lia].
  - apply Forall_cons in Hd as [Hdc Hd]. destruct (effect W m c i) as [i1 |] eqn:E1; [| done]. cbn [mbind option_bind] in E.
    destruct (call_counted q m c i i1 n w e Hdc Hi Hc E1) as (n1 & w1 & Hc1 & Hs1).
    destruct (IH i1 i' n1 w1 _ Hd (effect_id q m c i i1 Hdc Hi E1) Hc1 E) as (n2 & w2 & Hc2 & Hs2). exists n2, w2.
    rewrite (effect_read_only q m c i i1 Hdc Hi E1) in Hc2, Hs2. rewrite !number_of_recorded. cbn zeta in *. rewrite Z.add_assoc. split; [done | lia].
Qed.

Lemma effects_defined q m cs : forall i, Forall (during q) cs -> is_Some (effects m cs i).
Proof using.
  induction cs as [| c cs IH]; intros i Hd; [by eexists |]. apply Forall_cons in Hd as [Hc Hd]. cbn [effects].
  assert (Hi : is_Some (effect W m c i)).
  { destruct c; cbn [during effect] in *; try done. destruct Hc as [_ Hl]. unfold mk_Sql_condition_identity_state, mk_Sql_state_errno_level_state,
      mk_Sql_state_errno_state, mk_Sql_state_of, set_sqlstate. by rewrite (proj2 (Nat.ltb_ge _ _)). }
  destruct Hi as [i1 ->]. cbn [mbind option_bind]. by apply IH.
Qed.
End query.

Lemma three_counters n w e : u32 (u32 (u32 n + u32 e) + u32 w) = u32 (n + w + e).
Proof. unfold u32, wrap. rewrite <- (Zplus_mod n e), <- Zplus_mod. f_equal. lia. Qed.


(** ** An implementation *)

Definition raise_level (w : Warning_info) (l : enum_warning_level) (a : loc) : Warning_info :=
  Info (m_warn_list w ++ [a]) (alter (fun n => u32 (n + 1)) (level_index l) (m_warn_count w)) (u32 (m_current_statement_warn_count w + 1))
    (m_current_row_for_warning w) (m_warn_id w) (m_error_condition w) (m_allow_unlimited_warnings w) (initialized w) (m_read_only w)
    (m_marked_sql_conditions w).

(** A condition is counted unless the area is read only. *)
Definition push_level (w : Warning_info) (l : enum_warning_level) : option loc * Warning_info :=
  let a := Pos.of_succ_nat (length (m_warn_list w)) in if m_read_only w then (None, w) else (Some a, raise_level w l a).

(** New conditions are numbered. *)
#[local] Instance demo_members : WarningMembers := {|
  clear w id := Info [] [0; 0; 0] 0 1 id None (m_allow_unlimited_warnings w) (initialized w) (m_read_only w) [];
  append_warning_info w src := Info (m_warn_list w ++ m_warn_list src) (zip_with Z.add (m_warn_count w) (m_warn_count src))
    (m_current_statement_warn_count w) (m_current_row_for_warning w) (m_warn_id w) (m_error_condition w) (m_allow_unlimited_warnings w) (initialized w)
    (m_read_only w) (m_marked_sql_conditions w);
  mark_all w := Wi.with_marks w (m_warn_list w);
  remove_marked w := w;
  reserve w _ := w;
  push_identity w c _ := push_level w (get_level c);
  push_condition w c := push_level w (get_level c);
  has_condition _ _ _ := false |}.

#[local] Instance demo_laws : WarningLaws demo_members.
Proof. split; try done; intros; cbn; unfold push_level; destruct (m_read_only w) eqn:E; cbn; congruence. Qed.

Definition demo_info (id : Z) : Warning_info := Info [7%positive] [1; 0; 0] 1 4 id None false true false [].
(** One object (4) on the stack at 2, another (6) beside it. *)
Definition demo_session : session :=
  Session demo_mem {[ 4%positive := demo_info 1; 5%positive := demo_info 2; 6%positive := demo_info 3 ]}
    (Area mk_Sql_state_errno mk_Sql_user_condition_identity false false false [] 0 0 0 DA_EMPTY false 4 2).
Definition demo_calls : list call :=
  [PushInfo 6; OptClear 9; PushWarning 1365 [50; 50; 48; 49; 50] WARN_LEVEL_ERROR mk_Sql_user_condition_identity []; IncRow; OptClear 9].

Lemma demo_session_ok : session_ok [4%positive; 5%positive; 6%positive] demo_session [4%positive; 5%positive].
Proof.
  split; [apply plist_demo_lists | apply demo_hooked | | set_solver]. intros w. rewrite !elem_of_cons, elem_of_nil.
  intros [-> | [-> | [-> | []]]]; eexists; by vm_compute.
Qed.


(** A warning is pushed to an area that is read only. *)
Definition quiet_calls : list call := tail demo_calls ++ [SetReadOnly true; PushWarning 1365 [50; 50; 48; 49; 50] WARN_LEVEL_WARN mk_Sql_user_condition_identity []].

