(* ===== verification/KeySeg.v ===== *)
(** * KeySeg: lengths and bits inside index keys ([my_compare.h])

    A part of a key with variable length begins with that length, in one byte when
    it is below 255 and in three otherwise.  A BIT column keeps its odd bits among
    the NULL bits of the record: [len] bits from bit [ofs] of a byte on, running over into
    the next byte.

    A pointer into a buffer is the list of the bytes behind it; what is not there
    cannot be read or written. *)

From stdpp Require Import base numbers option list.
From Stdlib Require Import ZArith Lia.
From S2P Require Import Prelude ByteOrder ByteMem.

Local Open Scope Z_scope.
Local Open Scope cxx_scope.

(* [my_compare.h:37-37 HA_MAX_POSSIBLE_KEY] *)
Definition HA_MAX_POSSIBLE_KEY : Z := 255.
(* [my_compare.h:43-43 HA_MAX_KEY_LENGTH] *)
Definition HA_MAX_KEY_LENGTH : Z := 1000.
(* [my_compare.h:44-44 HA_MAX_KEY_SEG] *)
Definition HA_MAX_KEY_SEG : Z := 32.
(* [my_compare.h:46-46 HA_MAX_POSSIBLE_KEY_BUFF] *)
Definition HA_MAX_POSSIBLE_KEY_BUFF : Z := HA_MAX_KEY_LENGTH + 24 + 6 + 6.
(* [my_compare.h:47-47 HA_MAX_KEY_BUFF] *)
Definition HA_MAX_KEY_BUFF : Z := HA_MAX_KEY_LENGTH + HA_MAX_KEY_SEG * 6 + 8 + 8.

(** ** Lengths *)

(** [*key++] and [mi_uint2korr(key + 1)], if the bytes are there. *)
Definition first_byte (key : bytes) : option Z := key !! 0%nat.
Definition long_length (key : bytes) : option Z := if Nat.ltb (length key) 3 then None else Some (Mi.mi_uint2korr (drop 1 key)).

(** The length, and where the key goes on. *)
(* [my_compare.h:64-69 get_key_length] *)
Definition get_key_length (key : bytes) : option (Z * bytes) :=
  b ← first_byte key;
  if negb (b =? 255) then Some (b, drop 1 key) else l ← long_length key; Some (l, drop 3 key).
(* [my_compare.h:71-76 get_key_length_rdonly] *)
Definition get_key_length_rdonly (key : bytes) : option Z :=
  b ← first_byte key; if negb (b =? 255) then Some b else long_length key.
(* [my_compare.h:78-83 get_key_pack_length] *)
Definition get_key_pack_length (key : bytes) : option (Z * Z * bytes) :=
  b ← first_byte key;
  if negb (b =? 255) then Some (b, 1, drop 1 key) else l ← long_length key; Some (l, 3, drop 3 key).
(** The buffer afterwards and the distance that [key] moved. *)
(* [my_compare.h:85-90 store_key_length_inc] *)
Definition store_key_length_inc (key : bytes) (len : Z) : option (bytes * Z) :=
  if len <? 255 then k ← write_at key 0 [u8 len]; Some (k, 1)
  else k ← write_at key 0 [255]; k ← write_at k 1 (Mi.mi_int2store len); Some (k, 3).
(* [my_compare.h:92-92 size_to_store_key_length] *)
Definition size_to_store_key_length (len : Z) : Z := if len <? 255 then 1 else 3.

Lemma mi_int2store_length z : length (Mi.mi_int2store z) = 2%nat.
Proof. done. Qed.

Lemma mi_uint2_stored z rest : Mi.mi_uint2korr (Mi.mi_int2store z ++ rest) = u16 z.
Proof.
  unfold Mi.mi_uint2korr, Mi.mi_int2store. cbn [app ub nth]. apply Z.bits_inj'. intros i Hi. unfold u16, u8, u32. word_spec.
  destruct (Z.ltb_spec i 16); [| done]. cbn [andb].
  destruct (Z.ltb_spec i 8); cbn [andb orb].
  - rewrite (Z.testbit_neg_r _ (i - 8)) by lia. rewrite andb_false_r, orb_false_r. destruct (Z.ltb_spec i 32); [done | lia].
  - destruct (Z.ltb_spec (i - 8) 8); [| lia]. word_spec. cbn [andb]. replace (i - 8 + 8) with i by lia. destruct (Z.ltb_spec i 32); [done | lia].
Qed.

(** a stored length is read back by all three readers, [size_to_store_key_length] is the
    room it took, and the bytes behind it are kept; only the low 16 bits of a length that does
    not fit are stored. *)
Theorem key_length_roundtrip len old rest : 0 <= len -> Z.of_nat (length old) = size_to_store_key_length len ->
  exists key, store_key_length_inc (old ++ rest) len = Some (key, size_to_store_key_length len) /\
    drop (length old) key = rest /\ length key = length (old ++ rest) /\
    let v := if len <? 255 then len else len mod 2 ^ 16 in
    get_key_length key = Some (v, rest) /\ get_key_length_rdonly key = Some v /\
    get_key_pack_length key = Some (v, size_to_store_key_length len, rest).
Proof.
  unfold size_to_store_key_length, store_key_length_inc. intros Hl. destruct (Z.ltb_spec len 255) as [Hs | Hs]; intros Ho.
  - destruct old as [| o [| ? ?]]; cbn [length] in Ho; [lia | | lia].
    pose proof (write_at_app [] [o] rest [u8 len] eq_refl) as E. cbn in E. change (Z.of_nat 0) with 0 in E. cbn [app]. rewrite E. cbn [mbind option_bind].
    assert (Hu : u8 len = len) by (apply (wrap_small 8); unfold is_word; lia). rewrite Hu.
    eexists. split; [reflexivity |]. split; [done |]. split; [done |].
    unfold get_key_length, get_key_length_rdonly, get_key_pack_length, first_byte. cbn. by rewrite (proj2 (Z.eqb_neq len 255)) by lia.
  - destruct old as [| o1 [| o2 [| o3 [| ? ?]]]]; cbn [length] in Ho; try lia.
    pose proof (write_at_app [] [o1] (o2 :: o3 :: rest) [255] eq_refl) as E. cbn in E. change (Z.of_nat 0) with 0 in E. cbn [app]. rewrite E. cbn [mbind option_bind].
    pose proof (write_at_app [255] [o2; o3] rest (Mi.mi_int2store len) eq_refl) as E2. cbn [app length] in E2. change (Z.of_nat 1) with 1 in E2. rewrite E2.
    cbn [mbind option_bind]. eexists. split; [reflexivity |]. split; [done |]. split; [done |]. cbn zeta.
    assert (HL : long_length (255 :: Mi.mi_int2store len ++ rest) = Some (u16 len)).
    { unfold long_length. cbn [length]. rewrite length_app, mi_int2store_length. change (Nat.ltb (S (2 + length rest)) 3) with false. cbn iota. rewrite skipn_cons. by rewrite skipn_O, mi_uint2_stored. }
    unfold get_key_length, get_key_length_rdonly, get_key_pack_length, first_byte. cbn [lookup list_lookup mbind option_bind].
    change (255 =? 255) with true. cbn [negb]. change ([255] ++ Mi.mi_int2store len ++ rest) with (255 :: Mi.mi_int2store len ++ rest). rewrite HL. done.
Qed.

Lemma key_length_roundtrip_witness : exists key, store_key_length_inc [7; 7; 7; 1; 2] 700 = Some (key, 3) /\ get_key_length key = Some (700, [1; 2]).
Proof.
  destruct (key_length_roundtrip 700 [7; 7; 7] [1; 2]) as (key & E & _ & _ & H & _); [lia | by vm_compute |]. exists key. split; [exact E | exact H].
Defined.

(** ** Bits *)

(* [my_compare.h:94-100 get_rec_bits] *)
Definition get_rec_bits (ptr : bytes) (ofs len : Z) : option Z :=
  p0 ← ptr !! 0%nat;
  val ← (if 8 <? ofs + len then p1 ← ptr !! 1%nat; Some (u16 (p0 ||| u16 (p1 <<< 8))) else Some (u16 p0));
  Some (u8 ((val >>> ofs) &&& ((1 <<< len) - 1))).
(* [my_compare.h:102-108 set_rec_bits] *)
Definition set_rec_bits (bits : Z) (ptr : bytes) (ofs len : Z) : option bytes :=
  p0 ← ptr !! 0%nat;
  let ptr := <[0%nat := u8 ((p0 &&& Z.lnot (((1 <<< len) - 1) <<< ofs)) ||| (bits <<< ofs))]> ptr in
  if 8 <? ofs + len then
    p1 ← ptr !! 1%nat;
    Some (<[1%nat := u8 ((p1 &&& Z.lnot ((1 <<< (len - 8 + ofs)) - 1)) ||| (bits >>> (8 - ofs)))]> ptr)
  else Some ptr.
(* [my_compare.h:110-111 clr_rec_bits] *)
Definition clr_rec_bits (bit_ptr : bytes) (bit_ofs bit_len : Z) : option bytes := set_rec_bits 0 bit_ptr bit_ofs bit_len.

(** Bit [i] of a record, the low bit of its first byte being bit 0. *)
Definition rec_bit (ptr : bytes) (i : Z) : bool := Z.testbit (nth (Z.to_nat (i / 8)) ptr 0) (i mod 8).

(** The bits of a part of a column: at most eight, beginning in the first byte, in the record. *)
Record bits_ok (ptr : bytes) (ofs len : Z) : Prop := {
  bo_bytes : is_bytes ptr;
  bo_ofs : 0 <= ofs < 8;
  bo_len : 1 <= len <= 8;
  bo_room : ofs + len <= 8 * Z.of_nat (length ptr) }.

Lemma mask_bit len i : 0 <= len -> 0 <= i -> Z.testbit ((1 <<< len) - 1) i = (i <? len).
Proof. intros Hl Hi. rewrite Z.shiftl_1_l, <- ones_pow2, Z.testbit_ones by lia. by rewrite (proj2 (Z.leb_le 0 i)). Qed.

(** The first byte after a store. *)
Lemma low_part p0 bits ofs len i : 0 <= ofs < 8 -> 0 <= len -> 0 <= bits < 2 ^ len -> 0 <= i < 8 ->
  Z.testbit (u8 ((p0 &&& Z.lnot (((1 <<< len) - 1) <<< ofs)) ||| (bits <<< ofs))) i =
    if (ofs <=? i) && (i <? ofs + len) then Z.testbit bits (i - ofs) else Z.testbit p0 i.
Proof.
  intros Ho Hl Hb Hi. unfold u8. rewrite testbit_wrap by lia. rewrite (proj2 (Z.ltb_lt i 8)) by lia. cbn [andb].
  rewrite Z.lor_spec, Z.land_spec, Z.lnot_spec, !Z.shiftl_spec by lia. destruct (Z.leb_spec ofs i); cbn [andb].
  - rewrite mask_bit by lia. destruct (Z.ltb_spec (i - ofs) len), (Z.ltb_spec i (ofs + len)); try lia; cbn [negb].
    + by rewrite andb_false_r.
    + rewrite andb_true_r, (testbit_word_high len bits) by (done || lia). by rewrite orb_false_r.
  - rewrite !(Z.testbit_neg_r _ (i - ofs)) by lia. by rewrite andb_true_r, orb_false_r.
Qed.

(** The second byte after a store that reaches it. *)
Lemma high_part p1 bits ofs len i : 0 <= ofs < 8 -> 8 < ofs + len -> 0 <= bits < 2 ^ len -> 0 <= i < 8 ->
  Z.testbit (u8 ((p1 &&& Z.lnot ((1 <<< (len - 8 + ofs)) - 1)) ||| (bits >>> (8 - ofs)))) i =
    if i <? ofs + len - 8 then Z.testbit bits (i + 8 - ofs) else Z.testbit p1 i.
Proof.
  intros Ho Hl Hb Hi. unfold u8. rewrite testbit_wrap by lia. rewrite (proj2 (Z.ltb_lt i 8)) by lia. cbn [andb].
  rewrite Z.lor_spec, Z.land_spec, Z.lnot_spec, Z.shiftr_spec, mask_bit by lia. replace (i + (8 - ofs)) with (i + 8 - ofs) by lia.
  destruct (Z.ltb_spec i (len - 8 + ofs)), (Z.ltb_spec i (ofs + len - 8)); try lia; cbn [negb].
  - by rewrite andb_false_r.
  - rewrite andb_true_r, (testbit_word_high len bits) by (done || lia). by rewrite orb_false_r.
Qed.

Lemma set_bits_ok bits ptr ofs len : bits_ok ptr ofs len -> 0 <= bits < 2 ^ len ->
  exists ptr', set_rec_bits bits ptr ofs len = Some ptr' /\ length ptr' = length ptr /\ is_bytes ptr' /\
    forall i, 0 <= i -> rec_bit ptr' i = if (ofs <=? i) && (i <? ofs + len) then Z.testbit bits (i - ofs) else rec_bit ptr i.
Proof.
  intros [Hp Ho Hl Hr] Hb. unfold set_rec_bits. destruct ptr as [| p0 ptr]; [cbn in Hr; lia |].
  pose proof Hp as HP. apply Forall_cons in Hp as [Hp0 Hp]. cbn [lookup list_lookup mbind option_bind]. cbn [insert list_insert].
  set (q0 := u8 ((p0 &&& _) ||| _)). assert (Hq0 : is_word 8 q0) by (apply is_word_wrap; lia).
  destruct (Z.ltb_spec 8 (ofs + len)) as [H8 | H8].
  - destruct ptr as [| p1 ptr]; [cbn [length] in Hr; lia |]. apply Forall_cons in Hp as [Hp1 Hp]. cbn [lookup list_lookup mbind option_bind].
    set (q1 := u8 ((p1 &&& _) ||| _)). assert (Hq1 : is_word 8 q1) by (apply is_word_wrap; lia).
    eexists. split; [reflexivity |]. cbn [insert list_insert]. split; [done |]. split; [by repeat (apply Forall_cons; split) |].
    intros i Hi. unfold rec_bit. destruct (decide (i < 8)) as [Hi8 |].
    + rewrite Z.div_small, Z.mod_small by lia. cbn [Z.to_nat nth]. by apply low_part; lia.
    + destruct (decide (i < 16)) as [Hi16 |].
      * replace (i / 8) with 1 by (apply (Z.div_unique i 8 1 (i - 8)); lia). replace (i mod 8) with (i - 8) by (apply (Z.mod_unique i 8 1 (i - 8)); lia).
        change (Z.to_nat 1) with 1%nat. cbn [nth]. unfold q1. rewrite high_part by lia.
        replace (i - 8 + 8 - ofs) with (i - ofs) by lia.
        destruct (Z.leb_spec ofs i), (Z.ltb_spec (i - 8) (ofs + len - 8)), (Z.ltb_spec i (ofs + len)); done || lia.
      * destruct (Z.ltb_spec i (ofs + len)); [lia |]. rewrite andb_false_r.
        assert (H2 : 2 <= i / 8) by (apply Z.div_le_lower_bound; lia). destruct (Z.to_nat (i / 8)) as [| [| k]] eqn:Ek; [lia | lia | done].
  - eexists. split; [reflexivity |]. split; [done |]. split; [by apply Forall_cons |]. intros i Hi. unfold rec_bit.
    destruct (decide (i < 8)) as [Hi8 |].
    + rewrite Z.div_small, Z.mod_small by lia. cbn [Z.to_nat nth]. by apply low_part; lia.
    + destruct (Z.ltb_spec i (ofs + len)); [lia |]. rewrite andb_false_r.
      assert (H2 : 1 <= i / 8) by (apply Z.div_le_lower_bound; lia). destruct (Z.to_nat (i / 8)) as [| k] eqn:Ek; [lia | done].
Qed.

Lemma get_bits_ok ptr ofs len : bits_ok ptr ofs len ->
  exists v, get_rec_bits ptr ofs len = Some v /\ 0 <= v < 2 ^ len /\ forall j, 0 <= j < len -> Z.testbit v j = rec_bit ptr (j + ofs).
Proof.
  intros [Hp Ho Hl Hr]. unfold get_rec_bits. destruct ptr as [| p0 ptr]; [cbn in Hr; lia |].
  apply Forall_cons in Hp as [Hp0 Hp]. change ((p0 :: ptr) !! 0%nat) with (Some p0). change ((p0 :: ptr) !! 1%nat) with (ptr !! 0%nat). cbn [mbind option_bind].
  assert (Hval : exists val, (if 8 <? ofs + len then p1 ← ptr !! 0%nat; Some (u16 (p0 ||| u16 (p1 <<< 8))) else Some (u16 p0)) = Some val /\
    forall i, 0 <= i < ofs + len -> Z.testbit val i = rec_bit (p0 :: ptr) i).
  { destruct (Z.ltb_spec 8 (ofs + len)).
    - destruct ptr as [| p1 ptr]; [cbn [length] in Hr; lia |]. eexists. split; [reflexivity |].
      intros i Hi. unfold rec_bit, u16. word_spec. rewrite (proj2 (Z.ltb_lt i 16)) by lia. cbn [andb]. destruct (decide (i < 8)).
      + rewrite Z.div_small, Z.mod_small, (Z.testbit_neg_r _ (i - 8)), orb_false_r by lia. done.
      + rewrite (testbit_word_high 8 p0) by (unfold is_word; lia).
        replace (i / 8) with 1 by (apply (Z.div_unique i 8 1 (i - 8)); lia). by replace (i mod 8) with (i - 8) by (apply (Z.mod_unique i 8 1 (i - 8)); lia).
    - eexists. split; [reflexivity |]. intros i Hi. unfold rec_bit, u16. word_spec. rewrite (proj2 (Z.ltb_lt i 16)), Z.div_small, Z.mod_small by lia. done. }
  destruct Hval as (val & -> & Hv). cbn [mbind option_bind].
  assert (Hbit : forall j, 0 <= j -> Z.testbit (u8 ((val >>> ofs) &&& ((1 <<< len) - 1))) j = (j <? len) && rec_bit (p0 :: ptr) (j + ofs)).
  { intros j Hj. unfold u8. rewrite testbit_wrap, Z.land_spec, Z.shiftr_spec, mask_bit by lia.
    destruct (Z.ltb_spec j len); [| by rewrite !andb_false_r]. rewrite (proj2 (Z.ltb_lt j 8)), Hv by lia. by rewrite andb_true_r. }
  eexists. split; [reflexivity |]. split.
  - apply is_word_bits; [lia |]. split; [apply is_word_wrap; lia |]. intros i Hi. rewrite Hbit by lia. destruct (Z.ltb_spec i len); [lia | done].
  - intros j Hj. rewrite Hbit by lia. by rewrite (proj2 (Z.ltb_lt j len)) by lia.
Qed.

(** bits written into a record are read back, whether or not they run over into the next
    byte; no other bit of the record changes, the second byte is only touched when the bits
    reach it, and clearing leaves zeros. *)
Theorem rec_bits_roundtrip bits ptr ofs len : bits_ok ptr ofs len -> 0 <= bits < 2 ^ len ->
  exists ptr', set_rec_bits bits ptr ofs len = Some ptr' /\ get_rec_bits ptr' ofs len = Some bits /\
    (forall i, 0 <= i -> ~ (ofs <= i < ofs + len) -> rec_bit ptr' i = rec_bit ptr i) /\ bits_ok ptr' ofs len /\
    exists cleared, clr_rec_bits ptr' ofs len = Some cleared /\ get_rec_bits cleared ofs len = Some 0.
Proof.
  assert (Hgen : forall b p, bits_ok p ofs len -> 0 <= b < 2 ^ len -> exists p', set_rec_bits b p ofs len = Some p' /\ get_rec_bits p' ofs len = Some b /\
    (forall i, 0 <= i -> rec_bit p' i = if (ofs <=? i) && (i <? ofs + len) then Z.testbit b (i - ofs) else rec_bit p i) /\ bits_ok p' ofs len /\ length p' = length p).
  { intros b p Hp Hb. destruct (set_bits_ok b p ofs len Hp Hb) as (p' & E & Hl & Hby & Hbit). exists p'. split; [done |].
    assert (Hp' : bits_ok p' ofs len) by (destruct Hp; split; [done | done | done | by rewrite Hl]).
    split; [| done]. destruct (get_bits_ok p' ofs len Hp') as (v & -> & Hv & Hvb). f_equal. apply (word_bits_eq len); [done | done |].
    intros j Hj. destruct Hp as [_ Ho _ _]. rewrite Hvb, Hbit by lia. rewrite (proj2 (Z.leb_le ofs (j + ofs))), (proj2 (Z.ltb_lt (j + ofs) (ofs + len))) by lia.
    cbn [andb]. f_equal. lia. }
  intros Hp Hb. destruct (Hgen bits ptr Hp Hb) as (p1 & E1 & G1 & B1 & O1 & L1). exists p1. split; [done |]. split; [done |]. split.
  { intros i Hi Hn. rewrite B1 by done. destruct (Z.leb_spec ofs i), (Z.ltb_spec i (ofs + len)); done || lia. }
  split; [done |]. assert (Hz : 0 <= 0 < 2 ^ len) by lia. destruct (Hgen 0 p1 O1 Hz) as (p2 & E2 & G2 & B2 & O2 & L2). exists p2.
  split; [done | done].
Qed.

Lemma rec_bits_roundtrip_witness : exists ptr', set_rec_bits 21 [255; 0; 9] 6 5 = Some ptr' /\ get_rec_bits ptr' 6 5 = Some 21 /\ rec_bit ptr' 5 = true.
Proof.
  destruct (rec_bits_roundtrip 21 [255; 0; 9] 6 5) as (p & E & G & B & _ & _); [split; [repeat constructor; lia | lia | lia | cbn; lia] | lia |].
  exists p. split; [exact E |]. split; [exact G |]. rewrite B by lia. done.
Defined.
