(* ===== verification/Sequence.v ===== *)
(** * Sequence: the values of a SQL sequence ([sql_sequence.h])

    A sequence goes up or down by a fixed increment between two bounds; the value
    behind the bound says that there are no more.  Bounds and values are
    [longlong]s, so sums can overflow: every sum and difference of the code
    goes through [arith], which is either [checked] (C's rule: an overflow is
    undefined) or [wrapping] (a machine, or a compiler option, with wrap-around). *)

From stdpp Require Import base numbers option list.
From Stdlib Require Import ZArith Lia.
From S2P Require Import Prelude SqlInt.

Local Open Scope Z_scope.

(* [sql_sequence.h:20-20 seq_field_used_min_value] *)
Definition seq_field_used_min_value : Z := 1.
(* [sql_sequence.h:21-21 seq_field_used_max_value] *)
Definition seq_field_used_max_value : Z := 2.
(* [sql_sequence.h:22-22 seq_field_used_start] *)
Definition seq_field_used_start : Z := 4.
(* [sql_sequence.h:23-23 seq_field_used_increment] *)
Definition seq_field_used_increment : Z := 8.
(* [sql_sequence.h:24-24 seq_field_used_cache] *)
Definition seq_field_used_cache : Z := 16.
(* [sql_sequence.h:25-25 seq_field_used_cycle] *)
Definition seq_field_used_cycle : Z := 32.
(* [sql_sequence.h:26-26 seq_field_used_restart] *)
Definition seq_field_used_restart : Z := 64.
(* [sql_sequence.h:27-27 seq_field_used_restart_value] *)
Definition seq_field_used_restart_value : Z := 128.

(** ** The arithmetic of [longlong] *)

Definition in_longlong (z : Z) : bool := (LONGLONG_MIN <=? z) && (z <=? LONGLONG_MAX).
Definition checked (z : Z) : option Z := if in_longlong z then Some z else None.
Definition wrapping (z : Z) : option Z := Some (s64 z).

(** ** The classes *)

(* [sql_sequence.h:38-80 sequence_definition] *)
Record sequence_definition := Def {
  reserved_until : Z; min_value : Z; max_value : Z; start : Z; increment : Z; cache : Z; round : Z; restart : Z; cycle : bool; used_fields : Z;
  real_increment : Z; next_free_value : Z }.

(** The three members that the constructor leaves alone are as in memory. *)
(* [sql_sequence.h:41-44 sequence_definition()] *)
Definition mk_sequence_definition (reserved real next : Z) : sequence_definition :=
  Def reserved 1 (LONGLONG_MAX - 1) 1 1 1000 0 0 false 0 real next.

(* [sql_sequence.h:95-96 seq_init] *)
Inductive seq_init := SEQ_UNINTIALIZED | SEQ_IN_PREPARE | SEQ_IN_ALTER | SEQ_READY_TO_USE.

(* [sql_sequence.h:92-134 SEQUENCE] *)
Record SEQUENCE := Seq { def : sequence_definition; all_values_used : bool; initialized : seq_init }.

Section code.
Variable arith : Z -> option Z.
(** [adjust_values] is compiled elsewhere. *)
Variable adjust_values : sequence_definition -> Z -> sequence_definition.

(* [sql_sequence.h:105-110 copy] *)
Definition copy (this : SEQUENCE) (seq : sequence_definition) : SEQUENCE :=
  Seq (adjust_values seq (reserved_until seq)) false (initialized this).

(** [||] evaluates its right side only when the left is false. *)
(* [sql_sequence.h:114-133 increment_value] *)
Definition increment_value (d : sequence_definition) (value : Z) : option Z :=
  if 0 <? real_increment d then
    sum ← arith (value + real_increment d);
    over ← (if max_value d <? sum then Some true else lim ← arith (max_value d - real_increment d); Some (lim <? value));
    if (over : bool) then arith (max_value d + 1) else arith (value + real_increment d)
  else
    sum ← arith (value + real_increment d);
    under ← (if sum <? min_value d then Some true else lim ← arith (min_value d - real_increment d); Some (value <? lim));
    if (under : bool) then arith (min_value d - 1) else arith (value + real_increment d).

Fixpoint increments (d : sequence_definition) (n : nat) (value : Z) : option Z :=
  match n with O => Some value | S n => v ← increment_value d value; increments d n v end.
End code.

(** ** What a sequence is *)

(** There is room for the value behind each bound; a value is between the bounds or
    behind one of them. *)
Record definition_ok (d : sequence_definition) : Prop := {
  do_min : LONGLONG_MIN < min_value d;
  do_order : min_value d <= max_value d;
  do_max : max_value d < LONGLONG_MAX;
  do_increment : LONGLONG_MIN < real_increment d <= LONGLONG_MAX;
  do_nonzero : real_increment d <> 0 }.

Definition value_ok (d : sequence_definition) (v : Z) : Prop := min_value d - 1 <= v <= max_value d + 1.

(** The next value without any limit of the machine. *)
Definition next (d : sequence_definition) (v : Z) : Z :=
  if 0 <? real_increment d then Z.min (v + real_increment d) (max_value d + 1) else Z.max (v + real_increment d) (min_value d - 1).

(** The value after [n] steps. *)
Definition after (d : sequence_definition) (n v : Z) : Z :=
  if 0 <? real_increment d then Z.min (v + n * real_increment d) (max_value d + 1) else Z.max (v + n * real_increment d) (min_value d - 1).

Lemma s64_cases z : LONGLONG_MIN + LONGLONG_MIN <= z <= LONGLONG_MAX + LONGLONG_MAX ->
  s64 z = if z <? LONGLONG_MIN then z + 2 ^ 64 else if LONGLONG_MAX <? z then z - 2 ^ 64 else z.
Proof.
  unfold s64, swrap, LONGLONG_MIN, LONGLONG_MAX. intros Hz. change (2 ^ (64 - 1)) with (2 ^ 63).
  destruct (Z.ltb_spec z (- 2 ^ 63)); [| destruct (Z.ltb_spec (2 ^ 63 - 1) z)].
  - rewrite <- (Z.mod_unique (z + 2 ^ 63) (2 ^ 64) (-1) (z + 2 ^ 63 + 2 ^ 64)); lia.
  - rewrite <- (Z.mod_unique (z + 2 ^ 63) (2 ^ 64) 1 (z + 2 ^ 63 - 2 ^ 64)); lia.
  - rewrite Z.mod_small; lia.
Qed.

Lemma limits : LONGLONG_MIN = - 9223372036854775808 /\ LONGLONG_MAX = 9223372036854775807.
Proof. done. Qed.

Lemma wrapping_in z : in_longlong z = true -> wrapping z = Some z.
Proof.
  unfold in_longlong, wrapping. intros [H1%Z.leb_le H2%Z.leb_le]%andb_true_iff. pose proof limits as [Em EM].
  rewrite s64_cases by lia. destruct (Z.ltb_spec z LONGLONG_MIN), (Z.ltb_spec LONGLONG_MAX z); done || lia.
Qed.

Lemma in_longlong_iff z : in_longlong z = true <-> LONGLONG_MIN <= z <= LONGLONG_MAX.
Proof. unfold in_longlong. rewrite andb_true_iff, !Z.leb_le. done. Qed.

(** As long as the sum is in range, any arithmetic that is exact in range gives the next value. *)
Lemma increment_in_range arith d v : (forall z, in_longlong z = true -> arith z = Some z) -> definition_ok d -> value_ok d v ->
  in_longlong (v + real_increment d) = true -> increment_value arith d v = Some (next d v).
Proof.
  intros Ha [] Hv Hs. pose proof limits as [Em EM]. unfold value_ok, increment_value, next in *. rewrite (Ha _ Hs). cbn [mbind option_bind].
  destruct (Z.ltb_spec 0 (real_increment d)).
  - destruct (Z.ltb_spec (max_value d) (v + real_increment d)); cbn [mbind option_bind].
    + rewrite Ha by (apply in_longlong_iff; lia). f_equal. lia.
    + rewrite (Ha (max_value d - real_increment d)) by (apply in_longlong_iff; lia). cbn [mbind option_bind]. destruct (Z.ltb_spec (max_value d - real_increment d) v); [lia |]. cbn iota. f_equal. lia.
  - destruct (Z.ltb_spec (v + real_increment d) (min_value d)); cbn [mbind option_bind].
    + rewrite Ha by (apply in_longlong_iff; lia). f_equal. lia.
    + rewrite (Ha (min_value d - real_increment d)) by (apply in_longlong_iff; lia). cbn [mbind option_bind]. destruct (Z.ltb_spec v (min_value d - real_increment d)); [lia |]. cbn iota. f_equal. lia.
Qed.

(** A sum that overflows wraps to the wrong side of the bound, and the second test sees it. *)
Lemma increment_overflow d v : definition_ok d -> value_ok d v -> in_longlong (v + real_increment d) = false -> increment_value wrapping d v = Some (next d v).
Proof.
  intros [] Hv Hs. pose proof limits as [Em EM]. unfold value_ok in Hv.
  assert (Ho : LONGLONG_MAX < v + real_increment d \/ v + real_increment d < LONGLONG_MIN).
  { destruct (decide (LONGLONG_MIN <= v + real_increment d <= LONGLONG_MAX)) as [Hin |]; [| lia]. apply in_longlong_iff in Hin. congruence. }
  assert (Hw : wrapping (v + real_increment d) = Some (if 0 <? real_increment d then v + real_increment d - 2 ^ 64 else v + real_increment d + 2 ^ 64)).
  { unfold wrapping. rewrite s64_cases by lia. f_equal.
    destruct (Z.ltb_spec (v + real_increment d) LONGLONG_MIN), (Z.ltb_spec LONGLONG_MAX (v + real_increment d)), (Z.ltb_spec 0 (real_increment d)); lia. }
  unfold increment_value, next. rewrite Hw. cbn [mbind option_bind]. destruct (Z.ltb_spec 0 (real_increment d)).
  - destruct (Z.ltb_spec (max_value d) (v + real_increment d - 2 ^ 64)); [lia |].
    rewrite (wrapping_in (max_value d - real_increment d)) by (apply in_longlong_iff; lia). cbn [mbind option_bind].
    destruct (Z.ltb_spec (max_value d - real_increment d) v); [| lia]. cbn iota. rewrite wrapping_in by (apply in_longlong_iff; lia). f_equal. lia.
  - destruct (Z.ltb_spec (v + real_increment d + 2 ^ 64) (min_value d)); [lia |].
    rewrite (wrapping_in (min_value d - real_increment d)) by (apply in_longlong_iff; lia). cbn [mbind option_bind].
    destruct (Z.ltb_spec v (min_value d - real_increment d)); [| lia]. cbn iota. rewrite wrapping_in by (apply in_longlong_iff; lia). f_equal. lia.
Qed.

Lemma next_in_range d v : definition_ok d -> value_ok d v -> value_ok d (next d v).
Proof. intros [] Hv. unfold value_ok, next in *. destruct (Z.ltb_spec 0 (real_increment d)); lia. Qed.

(** with wrap-around, one step gives the exact next value, or the value behind the bound when
    the bound would be passed, for every increment and however close bounds and values are to
    the limits of the type.  By C's own rule the step has this result exactly when the sum does
    not overflow; when it does the code is undefined, although its second test is there
    to prevent the overflow. *)
Theorem increment_value_exact d v : definition_ok d -> value_ok d v ->
  increment_value wrapping d v = Some (next d v) /\ value_ok d (next d v) /\
  increment_value checked d v = (if in_longlong (v + real_increment d) then Some (next d v) else None).
Proof.
  intros Hd Hv. destruct (in_longlong (v + real_increment d)) eqn:E.
  - split; [apply increment_in_range; [apply wrapping_in | done ..] |]. split; [by apply next_in_range |].
    apply increment_in_range; [| done ..]. intros z Hz. unfold checked. by rewrite Hz.
  - split; [by apply increment_overflow |]. split; [by apply next_in_range |]. unfold increment_value, checked. rewrite E. by destruct (0 <? real_increment d).
Qed.

(** [n] steps from a value of the sequence: the values go up (or down) by the increment, all of
    them between the bounds, until the value behind the bound, which then stays: no
    value is given out twice or skipped, and the end is reached. *)
Theorem increments_run d n v : definition_ok d -> min_value d <= v <= max_value d ->
  increments wrapping d n v = Some (after d (Z.of_nat n) v) /\
  (forall m, (m < n)%nat -> min_value d <= after d (Z.of_nat n) v <= max_value d -> after d (Z.of_nat m) v <> after d (Z.of_nat n) v) /\
  (max_value d - min_value d < Z.of_nat n -> after d (Z.of_nat n) v = if 0 <? real_increment d then max_value d + 1 else min_value d - 1).
Proof.
  intros Hd Hv. assert (Hgen : forall n w, value_ok d w -> increments wrapping d n w = Some (after d (Z.of_nat n) w)).
  { clear n v Hv. induction n as [| n IH]; intros w Hw; cbn [increments].
    - f_equal. unfold after, value_ok in *. destruct (0 <? real_increment d); lia.
    - destruct (increment_value_exact d w Hd Hw) as (-> & Hn & _). cbn [mbind option_bind]. rewrite IH by done. f_equal.
      unfold after, next, value_ok in *. destruct (Z.ltb_spec 0 (real_increment d)); nia. }
  split; [apply Hgen; unfold value_ok; lia |]. destruct Hd. unfold after. destruct (Z.ltb_spec 0 (real_increment d)); split; intros; nia.
Qed.

(** The odd numbers up to nearly the end of the type. *)
Definition demo_sequence : sequence_definition := Def 0 1 (LONGLONG_MAX - 1) 1 2 1000 0 0 false 0 2 0.

Lemma demo_sequence_ok : definition_ok demo_sequence.
Proof. split; cbn; unfold LONGLONG_MIN, LONGLONG_MAX; lia. Qed.

Lemma increment_value_exact_witness :
  increment_value wrapping demo_sequence (LONGLONG_MAX - 1) = Some LONGLONG_MAX /\ increment_value checked demo_sequence (LONGLONG_MAX - 1) = None.
Proof.
  destruct (increment_value_exact demo_sequence (LONGLONG_MAX - 1) demo_sequence_ok) as (H1 & _ & H2); [unfold value_ok; cbn; unfold LONGLONG_MAX; lia |].
  split; [exact H1 | exact H2].
Defined.

Lemma increments_run_witness : increments wrapping demo_sequence 3 5 = Some 11.
Proof. destruct (increments_run demo_sequence 3 5 demo_sequence_ok) as [H _]; [cbn; unfold LONGLONG_MAX; lia | exact H]. Defined.
