(* ===== verification/BoundedQueue.v ===== *)
(** * BoundedQueue: the queue that keeps the best keys ([bounded_queue.h], [queues.h])

    Filesort with a LIMIT pushes every row and keeps the first [n].  A
    [Bounded_queue] wraps a heap ([QUEUE]) with room for one element more: when it is full,
    the key of the next element replaces the one at the top, the worst.  The elements
    of the heap are places in the array of keys; the keymaker writes into them.

    The heap functions are compiled into mysys: the class [QueueFunctions] has them,
    [QueueLaws] what a heap promises (the first element ranks last, and inserting,
    sifting down and removing rearrange the elements); [scan_queue] is an instance.
    A failing assertion and a place that is not there have no result. *)

From stdpp Require Import base numbers option list.
From Stdlib Require Import ZArith Lia.
From S2P Require Import Prelude.

Local Open Scope Z_scope.

(** ** QUEUE *)

(** [root] has the elements from index 1 on; they are places in the array of keys. *)
(* [queues.h:38-48 st_queue] *)
Record QUEUE := Queue { root : list nat; max_elements : Z; max_at_top : bool }.

Definition elements (q : QUEUE) : Z := Z.of_nat (length (root q)).

(* [queues.h:50-50 queue_first_element] *)
Definition queue_first_element (q : QUEUE) : Z := 1.
(* [queues.h:51-51 queue_last_element] *)
Definition queue_last_element (q : QUEUE) : Z := elements q.
(* [queues.h:52-52 queue_empty] *)
Definition queue_empty (q : QUEUE) : bool := elements q =? 0.
(* [queues.h:54-54 queue_element] *)
Definition queue_element (q : QUEUE) (index : Z) : option nat := if index <? 1 then None else root q !! Z.to_nat (index - 1).
(* [queues.h:53-53 queue_top] *)
Definition queue_top (q : QUEUE) : option nat := queue_element q 1.
(* [queues.h:55-55 queue_end] *)
Definition queue_end (q : QUEUE) : option nat := queue_element q (elements q).
(* [queues.h:58-59 queue_set_max_at_top] *)
Definition queue_set_max_at_top (q : QUEUE) (set_arg : bool) : QUEUE := Queue (root q) (max_elements q) set_arg.
(* [queues.h:78-78 queue_remove_all] *)
Definition queue_remove_all (q : QUEUE) : QUEUE := Queue [] (max_elements q) (max_at_top q).
(* [queues.h:79-79 queue_is_full] *)
Definition queue_is_full (q : QUEUE) : bool := elements q =? max_elements q.

(** The functions of mysys.  [keys] is the array that comparisons look at. *)
Class QueueFunctions (K : Type) := {
  init_queue : Z -> bool -> Z * QUEUE;
  queue_insert : QUEUE -> list K -> nat -> QUEUE;
  downheap : QUEUE -> list K -> Z -> nat -> QUEUE;
  queue_remove : QUEUE -> list K -> Z -> option nat * QUEUE
}.

(* [queues.h:56-56 queue_replace_top] *)
Definition queue_replace_top {K} `{QueueFunctions K} (q : QUEUE) (keys : list K) : option QUEUE :=
  t ← queue_element q 1; Some (downheap q keys 1 t).
(* [queues.h:60-60 queue_remove_top] *)
Definition queue_remove_top {K} `{QueueFunctions K} (q : QUEUE) (keys : list K) : option nat * QUEUE :=
  queue_remove q keys (queue_first_element q).

(** ** Bounded_queue *)

(* [bounded_queue.h:41-145 Bounded_queue] *)
Record Bounded_queue (K : Type) := Bounded { m_sort_keys : list K; m_queue : QUEUE }.
Arguments Bounded {K}. Arguments m_sort_keys {K}. Arguments m_queue {K}.

Definition UINT_MAX : Z := 2 ^ 32 - 1.

Section code.
Context {E K : Type} `{QueueFunctions K}.
(** The key of an element, which the keymaker writes. *)
Variable keymaker : E -> K.

(** The array of keys is not set by the constructor. *)
(* [bounded_queue.h:44-47 Bounded_queue()] *)
Definition mk_Bounded_queue (junk : list K) : Bounded_queue K := Bounded junk (Queue [] 0 false).
(* [bounded_queue.h:149-174 init] *)
Definition init (b : Bounded_queue K) (max_elements : Z) (max_at_top : bool) (sort_keys : option (list K)) : option (Z * Bounded_queue K) :=
  sort_keys ← sort_keys;
  if UINT_MAX - 1 <=? max_elements then Some (1, Bounded sort_keys (m_queue b)) else
  let '(r, q) := init_queue (u32 max_elements + 1) max_at_top in Some (r, Bounded sort_keys q).
(* [bounded_queue.h:132-132 num_elements] *)
Definition num_elements (b : Bounded_queue K) : Z := elements (m_queue b).
(* [bounded_queue.h:137-137 is_initialized] *)
Definition is_initialized (b : Bounded_queue K) : bool := 0 <? max_elements (m_queue b).

Definition write_key (keys : list K) (i : nat) (k : K) : option (list K) := if Nat.ltb i (length keys) then Some (<[i := k]> keys) else None.

(* [bounded_queue.h:178-194 push] *)
Definition push (b : Bounded_queue K) (element : E) : option (Bounded_queue K) :=
  if negb (is_initialized b) then None else
  if queue_is_full (m_queue b) then
    pq_top ← queue_top (m_queue b);
    keys ← write_key (m_sort_keys b) pq_top (keymaker element);
    q ← queue_replace_top (m_queue b) keys; Some (Bounded keys q)
  else
    let i := length (root (m_queue b)) in
    keys ← write_key (m_sort_keys b) i (keymaker element);
    Some (Bounded keys (queue_insert (m_queue b) keys i)).
(* [bounded_queue.h:118-127 pop] *)
Definition pop (b : Bounded_queue K) : option (option nat * Bounded_queue K) :=
  let q := if queue_is_full (m_queue b) then (queue_remove (m_queue b) (m_sort_keys b) 0).2 else m_queue b in
  if negb (0 <? elements q) then None else
  if elements q =? 0 then Some (None, Bounded (m_sort_keys b) q) else
  let '(e, q) := queue_remove q (m_sort_keys b) 0 in Some (e, Bounded (m_sort_keys b) q).

Fixpoint push_all (b : Bounded_queue K) (es : list E) : option (Bounded_queue K) :=
  match es with [] => Some b | e :: es => b ← push b e; push_all b es end.
End code.

(** ** Order and laws *)

Section order.
Context {K : Type} `{Inhabited K} (le : K -> K -> bool).

(** [a] is kept rather than [b]. *)
Definition ranks (max : bool) (a b : K) : Prop := if max then le a b else le b a.

(** The comparison function orders the keys. *)
Record total_preorder : Prop := {
  tp_trans a b c : le a b -> le b c -> le a c;
  tp_total a b : le a b \/ le b a }.

(** [heap q keys]: [q] is a heap with respect to these keys. *)
Class QueueLaws `{QueueFunctions K} := {
  heap : QUEUE -> list K -> Prop;
  heap_top q keys t r i : heap q keys -> root q = t :: r -> i ∈ root q -> ranks (max_at_top q) (keys !!! i) (keys !!! t);
  heap_frame q keys keys' : heap q keys -> (forall i, i ∈ root q -> keys' !!! i = keys !!! i) -> heap q keys';
  init_queue_ok n m q : init_queue n m = (0, q) -> root q = [] /\ max_elements q = n /\ max_at_top q = m /\ forall keys, heap q keys;
  queue_insert_ok q keys i : heap q keys -> elements q < max_elements q -> i ∉ root q ->
    let q' := queue_insert q keys i in
    heap q' keys /\ root q' ≡ₚ i :: root q /\ max_elements q' = max_elements q /\ max_at_top q' = max_at_top q;
  downheap_ok q keys keys' t r : heap q keys -> root q = t :: r -> (forall i, i ∈ r -> keys' !!! i = keys !!! i) ->
    let q' := downheap q keys' 1 t in
    heap q' keys' /\ root q' ≡ₚ root q /\ max_elements q' = max_elements q /\ max_at_top q' = max_at_top q
}.
End order.

Section best.
Context {E K : Type} `{Inhabited K} (le : K -> K -> bool) `{QueueFunctions K} `{!QueueLaws le}.
Context (Hle : total_preorder le) (keymaker : E -> K).

Lemma ranks_trans m a b c : ranks le m a b -> ranks le m b c -> ranks le m a c.
Proof using Hle. destruct Hle as [Ht _]. unfold ranks. destruct m; eauto. Qed.

Lemma ranks_refl m a : ranks le m a a.
Proof using Hle. destruct Hle as [_ Ht]. unfold ranks. destruct m, (Ht a a); done. Qed.

(** The keys in the heap. *)
Definition kept (b : Bounded_queue K) : list K := (fun i => m_sort_keys b !!! i) <$> root (m_queue b).

(** After the elements [es]: the places in use are the first ones, and what is not kept ranks
    behind everything kept but the top. *)
Record holds (n : Z) (m : bool) (b : Bounded_queue K) (es : list E) (dropped : list K) : Prop := {
  h_heap : heap le (m_queue b) (m_sort_keys b);
  h_max : max_elements (m_queue b) = n + 1;
  h_mode : max_at_top (m_queue b) = m;
  h_places : root (m_queue b) ≡ₚ seq 0 (length (root (m_queue b)));
  h_room : n + 1 <= Z.of_nat (length (m_sort_keys b));
  h_count : Z.of_nat (length (root (m_queue b))) = Z.min (n + 1) (Z.of_nat (length es));
  h_all : keymaker <$> es ≡ₚ kept b ++ dropped;
  h_dropped : dropped <> [] -> elements (m_queue b) = n + 1;
  h_best t r k d : root (m_queue b) = t :: r -> k ∈ (fun i => m_sort_keys b !!! i) <$> r -> d ∈ dropped -> ranks le m k d }.

Lemma write_key_ok (keys : list K) i k : (i < length keys)%nat -> write_key keys i k = Some (<[i := k]> keys).
Proof using. intros Hi. unfold write_key. by rewrite (proj2 (Nat.ltb_lt _ _)). Qed.

Lemma lookup_written (keys : list K) i j k : (i < length keys)%nat -> <[i := k]> keys !!! j = if decide (j = i) then k else keys !!! j.
Proof using. intros Hi. destruct (decide (j = i)) as [-> |]; [by apply list_lookup_total_insert_eq | by apply list_lookup_total_insert_ne]. Qed.

Lemma fmap_written (keys : list K) i k (js : list nat) : (i < length keys)%nat -> i ∉ js -> (fun j => <[i := k]> keys !!! j) <$> js = (fun j => keys !!! j) <$> js.
Proof using.
  intros Hi Hn. apply list_fmap_ext. intros x j Hj. rewrite lookup_written by done. rewrite decide_False; [done |]. intros ->.
  apply Hn. by eapply list_elem_of_lookup_2.
Qed.

Lemma places_nodup (r : list nat) : r ≡ₚ seq 0 (length r) -> NoDup r.
Proof using. intros ->. apply NoDup_seq. Qed.

Lemma place_bound (r : list nat) i : r ≡ₚ seq 0 (length r) -> i ∈ r -> (i < length r)%nat.
Proof using. intros Hp Hi. rewrite Hp in Hi. apply elem_of_seq in Hi. lia. Qed.

(** While there is room. *)
Lemma push_with_room n m b es e : 0 <= n -> holds n m b es [] -> Z.of_nat (length (root (m_queue b))) < n + 1 ->
  exists b', push keymaker b e = Some b' /\ holds n m b' (es ++ [e]) [].
Proof using Hle.
  intros Hn [] Hroom. unfold push, is_initialized, queue_is_full, elements. rewrite h_max0.
  rewrite (proj2 (Z.ltb_lt _ _)), (proj2 (Z.eqb_neq _ _)) by lia. cbn [negb].
  set (i := length (root (m_queue b))). assert (Hi : (i < length (m_sort_keys b))%nat) by lia.
  assert (Hni : i ∉ root (m_queue b)) by (rewrite h_places0; intros ?%elem_of_seq; lia).
  rewrite write_key_ok by done. cbn [mbind option_bind]. set (keys := <[i := keymaker e]> (m_sort_keys b)).
  assert (Hh : heap le (m_queue b) keys).
  { eapply heap_frame; [done |]. intros j Hj. unfold keys. rewrite lookup_written by done. rewrite decide_False; [done |]. by intros ->. }
  destruct (queue_insert_ok le (m_queue b) keys i Hh) as (H1 & H2 & H3 & H4); [unfold elements; lia | done |].
  assert (Hlen : length (root (queue_insert (m_queue b) keys i)) = S i) by (by rewrite H2).
  eexists. split; [reflexivity |]. split; cbn [m_sort_keys m_queue]; try done; try congruence.
  - rewrite H2 at 1. rewrite Hlen, h_places0. fold i. rewrite seq_S. cbn. by rewrite Permutation_app_comm.
  - unfold keys. by rewrite length_insert.
  - rewrite Hlen, length_app. cbn. lia.
  - rewrite fmap_app, h_all0, !app_nil_r. unfold kept. cbn [m_sort_keys m_queue]. rewrite H2. cbn [fmap list_fmap].
    unfold keys. rewrite lookup_written, decide_True by done. rewrite (fmap_written _ _ _ _ Hi Hni). by rewrite Permutation_app_comm.
  - intros ? ? ? d _ _ Hd. by apply not_elem_of_nil in Hd.
Qed.

(** When it is full the top is dropped. *)
Lemma push_full n m b es e dropped : 0 <= n -> holds n m b es dropped -> Z.of_nat (length (root (m_queue b))) = n + 1 ->
  exists b' dropped', push keymaker b e = Some b' /\ holds n m b' (es ++ [e]) dropped'.
Proof using Hle.
  intros Hn [] Hfull. unfold push, is_initialized, queue_is_full, queue_top, queue_replace_top, queue_element, elements. rewrite h_max0.
  rewrite (proj2 (Z.ltb_lt 0 _)), (proj2 (Z.eqb_eq _ _)) by lia. cbn [negb]. change (1 <? 1) with false. change (Z.to_nat (1 - 1)) with 0%nat.
  destruct (root (m_queue b)) as [| t r] eqn:Er; [cbn in Hfull; lia |]. cbn [lookup list_lookup mbind option_bind].
  pose proof (places_nodup _ h_places0) as Hnd. apply NoDup_cons in Hnd as [Htr Hnd].
  assert (Ht : (t < length (m_sort_keys b))%nat) by (pose proof (place_bound _ t h_places0 ltac:(left)); lia).
  rewrite write_key_ok by done. cbn [mbind option_bind]. set (keys := <[t := keymaker e]> (m_sort_keys b)).
  assert (Hkeep : forall j, j ∈ r -> keys !!! j = m_sort_keys b !!! j).
  { intros j Hj. unfold keys. rewrite lookup_written by done. rewrite decide_False; [done |]. by intros ->. }
  destruct (downheap_ok le (m_queue b) (m_sort_keys b) keys t r h_heap0 Er Hkeep) as (H1 & H2 & H3 & H4). rewrite Er in H2.
  set (q' := downheap (m_queue b) keys 1 t) in *. set (kt := m_sort_keys b !!! t).
  eexists _, (kt :: dropped). split; [reflexivity |].
  assert (Hkr : (fun i => keys !!! i) <$> r = (fun i => m_sort_keys b !!! i) <$> r) by (unfold keys; by apply fmap_written).
  assert (Hlen : length (root q') = length (t :: r)) by (by rewrite H2).
  assert (Htop : forall k, k ∈ (fun i => m_sort_keys b !!! i) <$> r -> ranks le m k kt).
  { intros k (i & -> & Hi)%list_elem_of_fmap. rewrite <- h_mode0. apply (heap_top le _ _ t r i h_heap0 Er). rewrite Er. by right. }
  assert (Hmem : forall i, i ∈ r -> m_sort_keys b !!! i ∈ (fun i => m_sort_keys b !!! i) <$> r).
  { intros i Hi. by apply (list_elem_of_fmap_2 (fun i => m_sort_keys b !!! i)). }
  split; cbn [m_sort_keys m_queue]; try done; try congruence.
  - rewrite H2 at 1. by rewrite Hlen.
  - unfold keys. by rewrite length_insert.
  - rewrite Hlen, length_app. cbn [length] in *. lia.
  - rewrite fmap_app, h_all0. unfold kept. cbn [m_sort_keys m_queue]. rewrite H2, Er. cbn [fmap list_fmap].
    rewrite Hkr. unfold keys at 1. rewrite lookup_written, decide_True by done. fold kt. cbn [app]. solve_Permutation.
  - intros _. unfold elements. rewrite Hlen. exact Hfull.
  - intros t' r' k d Er' Hk Hd. apply list_elem_of_fmap in Hk as (i & -> & Hi).
    assert (Hnd' : NoDup (t' :: r')) by (rewrite <- Er', H2; by apply NoDup_cons). apply NoDup_cons in Hnd' as [Ht' _].
    assert (Hin : i ∈ t :: r) by (rewrite <- H2, Er'; by right).
    assert (Hold : i ∈ r -> ranks le m (keys !!! i) d).
    { intros Hir. rewrite Hkeep by done. apply elem_of_cons in Hd as [-> | Hd]; [by apply Htop, Hmem |].
      eapply h_best0; [reflexivity | by apply Hmem | done]. }
    apply elem_of_cons in Hin as [-> | Hir]; [| by apply Hold].
    (* the new key is not at the top, so an old one is, and ranks behind it *)
    assert (Htt : t' ∈ r).
    { assert (Hx : t' ∈ t :: r) by (rewrite <- H2, Er'; left). apply elem_of_cons in Hx as [-> |]; done. }
    apply (ranks_trans m _ (keys !!! t')).
    + rewrite <- h_mode0, <- H4. apply (heap_top le q' keys t' r' t H1 Er'). rewrite Er'. by right.
    + rewrite Hkeep by done. apply elem_of_cons in Hd as [-> | Hd]; [by apply Htop, Hmem |].
      eapply h_best0; [reflexivity | by apply Hmem | done].
Qed.

Lemma push_all_ok n m es2 : forall b es1 dropped, 0 <= n -> holds n m b es1 dropped ->
  exists b' dropped', push_all keymaker b es2 = Some b' /\ holds n m b' (es1 ++ es2) dropped'.
Proof using Hle.
  induction es2 as [| e es2 IH]; intros b es1 dropped Hn Hb; cbn [push_all].
  - exists b, dropped. by rewrite app_nil_r.
  - assert (Hs : exists b1 d1, push keymaker b e = Some b1 /\ holds n m b1 (es1 ++ [e]) d1).
    { pose proof Hb as [_ _ _ _ _ Hc _ Hd _]. unfold elements in Hd. destruct (decide (Z.of_nat (length (root (m_queue b))) = n + 1)) as [Hf |].
      - by eapply push_full.
      - destruct dropped as [| d ds]; [| exfalso; apply n0, Hd; done]. destruct (push_with_room n m b es1 e Hn Hb) as (b1 & ? & ?); [lia |]. eauto. }
    destruct Hs as (b1 & d1 & -> & H1). cbn [mbind option_bind]. destruct (IH b1 (es1 ++ [e]) d1 Hn H1) as (b2 & d2 & -> & H2).
    exists b2, d2. by rewrite <- app_assoc in H2.
Qed.
End best.

(** C18: a queue for [n] elements, given keys for one more, takes any number of elements: it holds
    all of them while there are at most [n + 1], and then, but for the one at its top,
    [n] whose keys rank before (or like) those of everything dropped: the [n] smallest
    with the largest at the top, the [n] largest otherwise. *)
Theorem bounded_queue_keeps_best {E K : Type} `{Inhabited K} (le : K -> K -> bool) `{QueueFunctions K} `{!QueueLaws le}
    (keymaker : E -> K) b n m keys b1 es :
  total_preorder le -> 0 <= n -> n + 1 <= Z.of_nat (length keys) -> init b n m (Some keys) = Some (0, b1) ->
  exists b2 dropped, push_all keymaker b1 es = Some b2 /\ num_elements b2 = Z.min (n + 1) (Z.of_nat (length es)) /\
    keymaker <$> es ≡ₚ kept b2 ++ dropped /\ (Z.of_nat (length es) <= n + 1 -> dropped = []) /\
    forall t r k d, kept b2 = t :: r -> k ∈ r -> d ∈ dropped -> ranks le m k d.
Proof.
  intros Hle Hn Hk Hinit. unfold init in Hinit. cbn [mbind option_bind] in Hinit. destruct (Z.leb_spec (UINT_MAX - 1) n) as [| Hmax]; [done |].
  unfold UINT_MAX in Hmax. rewrite u32_small in Hinit by lia. destruct (init_queue (n + 1) m) as [r0 q] eqn:Eq. injection Hinit as -> <-.
  destruct (init_queue_ok le (n + 1) m q Eq) as (Hr & Hm & Hmode & Hh).
  assert (Hb : holds le keymaker n m (Bounded keys q) [] []).
  { split; cbn [m_queue m_sort_keys]; rewrite ?Hr; try done; cbn; [lia |]. unfold kept. cbn. by rewrite Hr. }
  destruct (push_all_ok le Hle keymaker n m es _ [] [] Hn Hb) as (b2 & dropped & R & []). exists b2, dropped. cbn [app] in *.
  split; [done |]. split; [done |]. split; [done |]. split.
  - intros Hs. destruct dropped as [| d ds]; [done |]. exfalso. apply Permutation_length in h_all0. unfold kept in h_all0.
    rewrite length_app, !length_fmap in h_all0. cbn in h_all0. lia.
  - intros t r k d Ek Hkr Hd. unfold kept in Ek. destruct (root (m_queue b2)) as [| t0 r0'] eqn:Er; [done |]. cbn in Ek. injection Ek as <- <-.
    by eapply h_best0.
Qed.

(** ** A queue that looks for its top *)

Definition ranksb (m : bool) (a b : Z) : bool := if m then a <=? b else b <=? a.
(** A place put on a list whose first element ranks last. *)
Definition put_place (m : bool) (keys : list Z) (i : nat) (r : list nat) : list nat :=
  match r with [] => [i] | t :: r => if ranksb m (keys !!! t) (keys !!! i) then i :: t :: r else t :: i :: r end.
Definition arrange (m : bool) (keys : list Z) (r : list nat) : list nat := foldr (put_place m keys) [] r.

#[local] Instance scan_queue : QueueFunctions Z := {|
  init_queue n m := (0, Queue [] n m);
  queue_insert q keys i := Queue (put_place (max_at_top q) keys i (root q)) (max_elements q) (max_at_top q);
  downheap q keys _ _ := Queue (arrange (max_at_top q) keys (root q)) (max_elements q) (max_at_top q);
  queue_remove q keys idx := match queue_element q idx with
    | Some e => (Some e, Queue (arrange (max_at_top q) keys (delete (Z.to_nat (idx - 1)) (root q))) (max_elements q) (max_at_top q))
    | None => (None, q) end |}.

Lemma leb_preorder : total_preorder Z.leb.
Proof. split; intros a b; [intros c ?%Is_true_true%Z.leb_le ?%Is_true_true%Z.leb_le; apply Is_true_true, Z.leb_le; lia |]. rewrite !Is_true_true, !Z.leb_le. lia. Qed.

Definition top_last (m : bool) (keys : list Z) (r : list nat) : Prop := forall t, head r = Some t -> forall i, i ∈ r -> ranks Z.leb m (keys !!! i) (keys !!! t).

Lemma put_place_ok m keys i r : top_last m keys r -> top_last m keys (put_place m keys i r) /\ put_place m keys i r ≡ₚ i :: r.
Proof.
  intros Hr. destruct r as [| t r]; cbn [put_place].
  - split; [| done]. intros t [= <-] j ->%list_elem_of_singleton. apply (ranks_refl Z.leb leb_preorder).
  - specialize (Hr t eq_refl). unfold ranksb. destruct (if m then _ else _) eqn:E.
    + split; [| done]. intros u [= <-] j [-> | Hj]%elem_of_cons; [apply (ranks_refl Z.leb leb_preorder) |].
      apply (ranks_trans Z.leb leb_preorder m _ (keys !!! t)); [by apply Hr |]. unfold ranks. destruct m; by rewrite E.
    + split; [| apply Permutation_swap]. intros u [= <-] j. rewrite !elem_of_cons. intros [-> | [-> | Hj]]; [apply Hr; left | | apply Hr; by right].
      unfold ranks. destruct m; apply Is_true_true, Z.leb_le; apply Z.leb_gt in E; lia.
Qed.

Lemma arrange_ok m keys r : top_last m keys (arrange m keys r) /\ arrange m keys r ≡ₚ r.
Proof.
  induction r as [| i r [IH1 IH2]]; cbn [arrange foldr]; [by split; [intros t [=] |] |]. fold (arrange m keys r).
  destruct (put_place_ok m keys i _ IH1) as [H1 H2]. split; [done |]. by rewrite H2, IH2.
Qed.

#[local] Instance scan_laws : QueueLaws Z.leb.
Proof.
  refine {| heap q keys := top_last (max_at_top q) keys (root q) |}.
  - intros q keys t r i Hh Er Hi. apply (Hh t); [by rewrite Er | done].
  - intros q keys keys' Hh Hk t Ht i Hi. rewrite !Hk; [by apply Hh | | done]. by apply head_Some_elem_of.
  - intros n m q [= <-]. cbn. split; [done |]. split; [done |]. split; [done |]. by intros keys t [=].
  - intros q keys i Hh _ _. cbn. destruct (put_place_ok (max_at_top q) keys i (root q) Hh). done.
  - intros q keys keys' t r _ _ _. cbn. destruct (arrange_ok (max_at_top q) keys' (root q)). done.
Defined.

Lemma bounded_queue_keeps_best_witness :
  exists b2 dropped, push_all (fun e : Z => e) (Bounded [0; 0; 0] (Queue [] 3 true)) [5; 1; 4; 2; 3] = Some b2 /\ num_elements b2 = 3 /\
    [5; 1; 4; 2; 3] ≡ₚ kept b2 ++ dropped.
Proof.
  destruct (bounded_queue_keeps_best Z.leb (fun e : Z => e) (mk_Bounded_queue []) 2 true [0; 0; 0] (Bounded [0; 0; 0] (Queue [] 3 true)) [5; 1; 4; 2; 3])
    as (b2 & dropped & H1 & H2 & H3 & _); [apply leb_preorder | lia | cbn; lia | done |].
  exists b2, dropped. split; [exact H1 |]. split; [exact H2 | exact H3].
Defined.

Example best_two : (fun b => tail (kept b)) <$> push_all (fun e : Z => e) (Bounded [0; 0; 0] (Queue [] 3 true)) [5; 1; 4; 2; 3] = Some [2; 1].
Proof. vm_compute. reflexivity. Qed.

(** The last element of a queue that is not full cannot be taken out with [pop]: it asks for element 0, and
    the elements begin at 1. *)
Lemma pop_asks_for_element_0 : queue_element (Queue [0%nat; 1%nat] 3 true) 0 = None /\
  (pop (Bounded [7; 8; 0] (Queue [0%nat; 1%nat] 3 true))) = Some (None, Bounded [7; 8; 0] (Queue [0%nat; 1%nat] 3 true)).
Proof. done. Qed.
