(* ===== verification/ItemTree.v ===== *)
(** * ItemTree: expressions as trees of items ([item.h], [item_func.h], [item_row.h])

    An expression is a tree (a graph without cycles: items are shared) of [Item]
    objects.  A function or a row has its arguments in an [Item_args], and keeps in
    [Used_tables_and_const_cache] which tables its value depends on and whether it is
    constant; [update_used_tables] computes both from the leaves, [walk] visits the tree.

    The items are in a store, by address; virtual functions are functions on the store
    that look at the class of the object.  [Item_other] is any class without arguments
    of its own whose functions are compiled elsewhere (a column, for one): class
    [LeafItem].  A function that follows a NULL pointer, or reads an argument
    that was never written, has no result. *)

From stdpp Require Import base numbers option gmap list sets.
From Stdlib Require Import ZArith Lia.
From S2P Require Import Prelude Heap BaseList ListIter.

Local Open Scope Z_scope.
Local Open Scope cxx_scope.

(** ** The code *)

(** [args] is NULL or an array whose cells may not have been written. *)
(* [item.h:2520-2522 Item_args] *)
Record Item_args := Args { args : option (list (option loc)); arg_count : Z }.

(** What [Item_func] and [Item_row] have in common: [Item_args], [Used_tables_and_const_cache],
    [With_subquery_cache] and [With_sum_func_cache]. *)
(* [item_row.h:38-40 Item_row] *)
Record func := Func {
  func_args : Item_args; used_tables_cache : Z; const_item_cache : bool; m_with_subquery : bool; m_with_sum_func : bool }.

Inductive item_class (T : Type) :=
  | Item_literal
  | Item_param (no_value : bool)
  | Item_result_field
  | Item_copy (item : loc)
  | Item_cache_wrapper (orig_item : loc) (with_subquery with_sum_func : bool)
  | Item_func (f : func)
  | Item_row (f : func)
  | Item_other (o : T).
Arguments Item_literal {T}.
Arguments Item_param {T} _.
Arguments Item_result_field {T}.
Arguments Item_copy {T} _.
Arguments Item_cache_wrapper {T} _ _ _.
Arguments Item_func {T} _.
Arguments Item_row {T} _.
Arguments Item_other {T} _.

Record Item (T : Type) := MkItem { with_field : bool; with_param : bool; is_expensive_cache : Z; item_class_of : item_class T }.
Arguments MkItem {T} _ _ _ _.
Arguments with_field {T} _.
Arguments with_param {T} _.
Arguments is_expensive_cache {T} _.
Arguments item_class_of {T} _.

(** Updating a leaf twice is updating it once; a [table_map] has 64 bits. *)
Class LeafItem (T : Type) := {
  leaf_used_tables : T -> Z;
  leaf_const_item : T -> bool;
  leaf_with_sum_func : T -> bool;
  leaf_excl_dep_on_table : T -> Z -> bool;
  leaf_update_used_tables : T -> T;
  leaf_update_idemp o : leaf_update_used_tables (leaf_update_used_tables o) = leaf_update_used_tables o
}.

(* [sql_const.h:88-88 PARAM_TABLE_BIT] *)
Definition PARAM_TABLE_BIT : Z := 1 <<< (8 * 8 - 3).
(* [sql_const.h:89-89 OUTER_REF_TABLE_BIT] *)
Definition OUTER_REF_TABLE_BIT : Z := 1 <<< (8 * 8 - 2).
(* [sql_const.h:90-90 RAND_TABLE_BIT] *)
Definition RAND_TABLE_BIT : Z := 1 <<< (8 * 8 - 1).

(** [||] does not look at its right operand when the left one is true. *)
Definition or_else (x y : option bool) : option bool := b ← x; if (b : bool) then Some true else y.

Section code.
Context {T : Type} `{LeafItem T}.
Abbreviation items := (gmap loc (Item T)).

(** [args[i]]. *)
Definition arg_at (a : Item_args) (i : Z) : option loc :=
  if i <? 0 then None else l ← args a; o ← l !! Z.to_nat i; o.

(** The arguments of the object at [this], for the classes that have them. *)
Definition func_of (it : Item T) : option func :=
  match item_class_of it with Item_func f | Item_row f => Some f | _ => None end.
Definition args_of (s : items) (this : loc) : option Item_args := it ← s !! this; f ← func_of it; Some (func_args f).

Definition set_class (it : Item T) (c : item_class T) : Item T := MkItem (with_field it) (with_param it) (is_expensive_cache it) c.
Definition set_caches (f : func) (t : Z) (c : bool) : func := Func (func_args f) t c (m_with_subquery f) (m_with_sum_func f).
(** The assignment to [used_tables_cache] and [const_item_cache] of the object at [this]. *)
Definition put_caches (s : items) (this : loc) (t : Z) (c : bool) : option items :=
  it ← s !! this;
  match item_class_of it with
  | Item_func f => Some (<[this := set_class it (Item_func (set_caches f t c))]> s)
  | Item_row f => Some (<[this := set_class it (Item_row (set_caches f t c))]> s)
  | _ => None
  end.

(** *** The virtual functions that only read *)

(* [item.h:1576-1576 used_tables] *)
Definition Item_used_tables : Z := 0.
(* [item.h:4018-4021 used_tables] *)
Definition Item_param_used_tables (no_value : bool) : Z := if negb no_value then 0 else PARAM_TABLE_BIT.
(* [item.h:3219-3219 used_tables] *)
Definition Item_result_field_used_tables : Z := 1.
(* [item.h:6014-6014 used_tables] *)
Definition Item_copy_used_tables : Z := 1.
(* [item.h:5102-5102 used_tables] *)
Definition Item_func_used_tables (f : func) : Z := used_tables_cache f.
(* [item_row.h:106-106 used_tables] *)
Definition Item_row_used_tables (f : func) : Z := used_tables_cache f.

(** The dispatch on the class; a wrapper asks its item. *)
(* [item.h:5564-5564 used_tables] *)
Fixpoint used_tables (fuel : nat) (s : items) (this : loc) : option Z :=
  match fuel with
  | O => None
  | S fuel =>
    it ← s !! this;
    match item_class_of it with
    | Item_literal => Some Item_used_tables
    | Item_param no_value => Some (Item_param_used_tables no_value)
    | Item_result_field => Some Item_result_field_used_tables
    | Item_copy _ => Some Item_copy_used_tables
    | Item_cache_wrapper orig_item _ _ => used_tables fuel s orig_item
    | Item_func f => Some (Item_func_used_tables f)
    | Item_row f => Some (Item_row_used_tables f)
    | Item_other o => Some (leaf_used_tables o)
    end
  end.

(** Of an item whose [used_tables()] is [t]. *)
(* [item.h:1668-1668 const_item] *)
Definition Item_const_item (t : Z) : bool := t =? 0.
(* [item.h:3169-3169 const_item] *)
Definition Item_literal_const_item : bool := true.
(* [item.h:4014-4017 const_item] *)
Definition Item_param_const_item (no_value : bool) : bool := negb no_value.
(* [item.h:6015-6015 const_item] *)
Definition Item_copy_const_item : bool := false.
(* [item.h:5101-5101 const_item] *)
Definition Item_func_const_item (f : func) : bool := const_item_cache f.
(* [item_row.h:107-107 const_item] *)
Definition Item_row_const_item (f : func) : bool := const_item_cache f.

(* [item.h:5569-5569 const_item] *)
Fixpoint const_item (fuel : nat) (s : items) (this : loc) : option bool :=
  match fuel with
  | O => None
  | S fuel =>
    it ← s !! this;
    match item_class_of it with
    | Item_literal => Some Item_literal_const_item
    | Item_param no_value => Some (Item_param_const_item no_value)
    | Item_result_field => Some (Item_const_item Item_result_field_used_tables)
    | Item_copy _ => Some Item_copy_const_item
    | Item_cache_wrapper orig_item _ _ => const_item fuel s orig_item
    | Item_func f => Some (Item_func_const_item f)
    | Item_row f => Some (Item_row_const_item f)
    | Item_other o => Some (leaf_const_item o)
    end
  end.

(* [item.h:2325-2325 with_sum_func] *)
Definition Item_with_sum_func : bool := false.
(* [item_func.h:397-397 with_sum_func] *)
Definition Item_func_with_sum_func (f : func) : bool := m_with_sum_func f.
(* [item_row.h:104-104 with_sum_func] *)
Definition Item_row_with_sum_func (f : func) : bool := m_with_sum_func f.

(* [item.h:5514-5514 with_sum_func] *)
Definition with_sum_func (s : items) (this : loc) : option bool :=
  it ← s !! this;
  match item_class_of it with
  | Item_literal | Item_param _ | Item_result_field | Item_copy _ => Some Item_with_sum_func
  | Item_cache_wrapper _ _ m_with_sum_func => Some m_with_sum_func
  | Item_func f => Some (Item_func_with_sum_func f)
  | Item_row f => Some (Item_row_with_sum_func f)
  | Item_other o => Some (leaf_with_sum_func o)
  end.

(* [item_func.h:329-332 has_rand_bit] *)
Definition has_rand_bit (f : func) : bool := negb (used_tables_cache f &&& RAND_TABLE_BIT =? 0).

(** *** Used_tables_and_const_cache *)

(* [item.h:4944-4948 used_tables_and_const_cache_init] *)
Definition used_tables_and_const_cache_init (s : items) (this : loc) : option items := put_caches s this 0 true.

(* [item.h:4949-4953 used_tables_and_const_cache_join] *)
Definition used_tables_and_const_cache_join (fuel : nat) (s : items) (this item : loc) : option items :=
  it ← s !! this; f ← func_of it;
  t ← used_tables fuel s item; c ← const_item fuel s item;
  put_caches s this (used_tables_cache f ||| t) (const_item_cache f && c).

(** [update] is the virtual function that the calls below dispatch to. *)
Section join.
Variable update : items -> loc -> option items.
Variable fuel : nat.

(* [item.h:4954-4958 used_tables_and_const_cache_update_and_join] *)
Definition used_tables_and_const_cache_update_and_join (s : items) (this item : loc) : option items :=
  s ← update s item;
  used_tables_and_const_cache_join fuel s this item.

(** [argv] is the array of the object itself; [k] iterations are left. *)
(* [item.h:4967-4968 used_tables_and_const_cache_update_and_join] *)
Fixpoint update_and_join_loop (k : nat) (s : items) (this : loc) (i : Z) : option items :=
  match k with
  | O => Some s
  | S k =>
    argv ← args_of s this; item ← arg_at argv i;
    s ← used_tables_and_const_cache_update_and_join s this item;
    update_and_join_loop k s this (i + 1)
  end.

(* [item.h:4965-4969 used_tables_and_const_cache_update_and_join] *)
Definition update_and_join_args (s : items) (this : loc) (argc : Z) : option items := update_and_join_loop (Z.to_nat argc) s this 0.

(** The same for a [List<Item>] in the store [m] of lists: [k] bounds the length. *)
(* [item.h:4978-4981 used_tables_and_const_cache_update_and_join] *)
Fixpoint update_and_join_list_loop (k : nat) (s : items) (this : loc) (li : iter) (m : mem) : option items :=
  match k with
  | O => None
  | S k =>
    '((item, li), m) ← iter_next_fast li m;
    match item with
    | VNull => Some s
    | VObj item => s ← used_tables_and_const_cache_update_and_join s this item; update_and_join_list_loop k s this li m
    | _ => None
    end
  end.
(* [item.h:4976-4982 used_tables_and_const_cache_update_and_join] *)
Definition update_and_join_list (k : nat) (s : items) (this : loc) (l : loc) (m : mem) : option items :=
  update_and_join_list_loop k s this (iter_init l) m.
End join.

(* [item.h:1722-1722 update_used_tables] *)
Definition Item_update_used_tables (s : items) : items := s.
(* [item_func.h:157-161 update_used_tables] *)
Definition Item_func_update_used_tables (update : items -> loc -> option items) (fuel : nat) (s : items) (this : loc) (f : func) : option items :=
  s ← used_tables_and_const_cache_init s this;
  update_and_join_args update fuel s this (arg_count (func_args f)).
(* [item_row.h:108-112 update_used_tables] *)
Definition Item_row_update_used_tables (update : items -> loc -> option items) (fuel : nat) (s : items) (this : loc) (f : func) : option items :=
  s ← used_tables_and_const_cache_init s this;
  update_and_join_args update fuel s this (arg_count (func_args f)).

(* [item.h:5565-5568 update_used_tables] *)
Fixpoint update_used_tables (fuel : nat) (s : items) (this : loc) : option items :=
  match fuel with
  | O => None
  | S fuel =>
    it ← s !! this;
    match item_class_of it with
    | Item_literal | Item_param _ | Item_result_field | Item_copy _ => Some (Item_update_used_tables s)
    | Item_cache_wrapper orig_item _ _ => update_used_tables fuel s orig_item
    | Item_func f => Item_func_update_used_tables (update_used_tables fuel) fuel s this f
    | Item_row f => Item_row_update_used_tables (update_used_tables fuel) fuel s this f
    | Item_other o => Some (<[this := set_class it (Item_other (leaf_update_used_tables o))]> s)
    end
  end.

(** *** Item_args *)

(* [item.h:2528-2532 walk_args] *)
Fixpoint walk_args_loop {A} (walk : items -> A -> loc -> option (bool * items * A)) (k : nat) (this : loc) (i : Z) (s : items) (arg : A) :
    option (bool * items * A) :=
  match k with
  | O => None
  | S k =>
    a ← args_of s this;
    if i <? arg_count a then
      item ← arg_at a i;
      '(found, s, arg) ← walk s arg item;
      if (found : bool) then Some (true, s, arg) else walk_args_loop walk k this (i + 1) s arg
    else Some (false, s, arg)
  end.

(** The loop ends because the number of arguments is fixed: a [processor] that adds
    arguments to an item whose arguments are being visited is not followed. *)
(* [item.h:2526-2534 walk_args] *)
Definition walk_args {A} (walk : items -> A -> loc -> option (bool * items * A)) (this : loc) (s : items) (arg : A) : option (bool * items * A) :=
  a ← args_of s this;
  walk_args_loop walk (S (Z.to_nat (arg_count a))) this 0 s arg.

Section walk.
Context {A : Type}.
(** [(this->*processor)(arg)]. *)
Variable processor : loc -> items -> A -> option (bool * items * A).

(* [item.h:1855-1858 walk] *)
Definition Item_walk (s : items) (arg : A) (this : loc) : option (bool * items * A) := processor this s arg.

Section children.
(** The virtual function. *)
Variable walk : items -> A -> loc -> option (bool * items * A).
(* [item.h:5571-5575 walk] *)
Definition Item_cache_wrapper_walk (s : items) (arg : A) (this orig_item : loc) : option (bool * items * A) :=
  '(found, s, arg) ← walk s arg orig_item;
  if (found : bool) then Some (true, s, arg) else processor this s arg.
(* [item.h:6032-6036 walk] *)
Definition Item_copy_walk (s : items) (arg : A) (this item : loc) : option (bool * items * A) :=
  '(found, s, arg) ← walk s arg item;
  if (found : bool) then Some (true, s, arg) else processor this s arg.
(* [item.h:5077-5082 walk] *)
Definition Item_func_walk (s : items) (arg : A) (this : loc) : option (bool * items * A) :=
  '(found, s, arg) ← walk_args walk this s arg;
  if (found : bool) then Some (true, s, arg) else processor this s arg.
(* [item_row.h:116-121 walk] *)
Definition Item_row_walk (s : items) (arg : A) (this : loc) : option (bool * items * A) :=
  '(found, s, arg) ← walk_args walk this s arg;
  if (found : bool) then Some (true, s, arg) else processor this s arg.
End children.

Fixpoint walk (fuel : nat) (s : items) (arg : A) (this : loc) : option (bool * items * A) :=
  match fuel with
  | O => None
  | S fuel =>
    it ← s !! this;
    match item_class_of it with
    | Item_literal | Item_param _ | Item_result_field | Item_other _ => Item_walk s arg this
    | Item_copy item => Item_copy_walk (walk fuel) s arg this item
    | Item_cache_wrapper orig_item _ _ => Item_cache_wrapper_walk (walk fuel) s arg this orig_item
    | Item_func _ => Item_func_walk (walk fuel) s arg this
    | Item_row _ => Item_row_walk (walk fuel) s arg this
    end
  end.
End walk.

(* [item.h:1927-1931 cleanup_is_expensive_cache_processor] *)
Definition cleanup_is_expensive_cache_processor (this : loc) (s : items) (arg : unit) : option (bool * items * unit) :=
  it ← s !! this;
  Some (false, <[this := MkItem (with_field it) (with_param it) (-1) (item_class_of it)]> s, arg).

(** [is_expensive_processor] is virtual; the result of the walk is kept in an [int8]. *)
(* [item.h:2294-2299 is_expensive] *)
Definition is_expensive (is_expensive_processor : loc -> bool) (fuel : nat) (s : items) (this : loc) : option (bool * items) :=
  it ← s !! this;
  if is_expensive_cache it <? 0 then
    '(b, s, _) ← walk (fun l s (arg : unit) => Some (is_expensive_processor l, s, arg)) fuel s tt this;
    it ← s !! this;
    let it := MkItem (with_field it) (with_param it) (if (b : bool) then 1 else 0) (item_class_of it) in
    Some (negb (is_expensive_cache it =? 0), <[this := it]> s)
  else Some (negb (is_expensive_cache it =? 0), s).

Section excl.
(** The virtual function on an argument. *)
Variable excl_dep : loc -> option bool.
Variables (fuel : nat) (s : items) (a : Item_args).
(* [item.h:2539-2545 excl_dep_on_table] *)
Fixpoint excl_dep_loop (k : nat) (i : Z) : option bool :=
  match k with
  | O => Some true
  | S k =>
    item ← arg_at a i;
    c ← const_item fuel s item;
    if (c : bool) then excl_dep_loop k (i + 1) else
    e ← excl_dep item;
    if negb e then Some false else excl_dep_loop k (i + 1)
  end.
(* [item.h:2537-2547 excl_dep_on_table] *)
Definition args_excl_dep_on_table : option bool := excl_dep_loop (Z.to_nat (arg_count a)) 0.
(* [item.h:2560-2566 excl_dep_on_in_subq_left_part] *)
Fixpoint excl_dep_subq_loop (k : nat) (i : Z) : option bool :=
  match k with
  | O => Some true
  | S k =>
    item ← arg_at a i;
    c ← const_item fuel s item;
    if (c : bool) then excl_dep_subq_loop k (i + 1) else
    e ← excl_dep item;
    if negb e then Some false else excl_dep_subq_loop k (i + 1)
  end.
(* [item.h:2558-2568 excl_dep_on_in_subq_left_part] *)
Definition args_excl_dep_on_in_subq_left_part : option bool := excl_dep_subq_loop (Z.to_nat (arg_count a)) 0.
End excl.

(* [item.h:1938-1938 excl_dep_on_table] *)
Definition Item_excl_dep_on_table : bool := false.
(** [excl_dep] is the virtual function with this [tab_map]. *)
(* [item_func.h:334-340 excl_dep_on_table] *)
Definition Item_func_excl_dep_on_table (excl_dep : loc -> option bool) (fuel : nat) (s : items) (f : func) (tab_map : Z) : option bool :=
  if negb (Item_func_used_tables f &&& OUTER_REF_TABLE_BIT =? 0) then Some false else
  or_else (Some (Item_func_used_tables f &&& wnot 64 tab_map =? 0)) (args_excl_dep_on_table excl_dep fuel s (func_args f)).
(* [item_row.h:139-142 excl_dep_on_table] *)
Definition Item_row_excl_dep_on_table (excl_dep : loc -> option bool) (fuel : nat) (s : items) (f : func) : option bool :=
  args_excl_dep_on_table excl_dep fuel s (func_args f).

Fixpoint excl_dep_on_table (fuel : nat) (tab_map : Z) (s : items) (this : loc) : option bool :=
  match fuel with
  | O => None
  | S fuel =>
    it ← s !! this;
    match item_class_of it with
    | Item_literal | Item_param _ | Item_result_field | Item_copy _ | Item_cache_wrapper _ _ _ => Some Item_excl_dep_on_table
    | Item_func f => Item_func_excl_dep_on_table (excl_dep_on_table fuel tab_map s) fuel s f tab_map
    | Item_row f => Item_row_excl_dep_on_table (excl_dep_on_table fuel tab_map s) fuel s f
    | Item_other o => Some (leaf_excl_dep_on_table o tab_map)
    end
  end.

(** [Item::eq] is virtual. *)
(* [item.h:2551-2555 eq] *)
Fixpoint args_eq_loop (eq : loc -> loc -> bool -> bool) (k : nat) (a other : Item_args) (binary_cmp : bool) (i : Z) : option bool :=
  match k with
  | O => Some true
  | S k =>
    x ← arg_at a i; y ← arg_at other i;
    if negb (eq x y binary_cmp) then Some false else args_eq_loop eq k a other binary_cmp (i + 1)
  end.
(* [item.h:2549-2557 eq] *)
Definition args_eq (eq : loc -> loc -> bool -> bool) (a other : Item_args) (binary_cmp : bool) : option bool :=
  args_eq_loop eq (Z.to_nat (arg_count a)) a other binary_cmp 0.

(* [item.h:2570-2572 Item_args] *)
Definition Item_args_0 : Item_args := Args None 0.
(* [item.h:2573-2577 Item_args] *)
Definition Item_args_1 (a : loc) : Item_args := Args (Some [Some a; None]) 1.
(* [item.h:2578-2582 Item_args] *)
Definition Item_args_2 (a b : loc) : Item_args := Args (Some [Some a; Some b]) 2.
(** [ok] is whether [thd_alloc] gave memory. *)
(* [item.h:2583-2591 Item_args] *)
Definition Item_args_3 (ok : bool) (a b c : loc) : Item_args := if ok then Args (Some [Some a; Some b; Some c]) 3 else Args None 0.
(* [item.h:2592-2600 Item_args] *)
Definition Item_args_4 (ok : bool) (a b c d : loc) : Item_args :=
  if ok then Args (Some [Some a; Some b; Some c; Some d]) 4 else Args None 0.
(* [item.h:2601-2609 Item_args] *)
Definition Item_args_5 (ok : bool) (a b c d e : loc) : Item_args :=
  if ok then Args (Some [Some a; Some b; Some c; Some d; Some e]) 5 else Args None 5.

(** The array keeps its length: writing behind it is not defined. *)
(* [item.h:2616-2619 add_argument] *)
Definition add_argument (a : Item_args) (item : loc) : option Item_args :=
  l ← args a;
  if (0 <=? arg_count a) && (arg_count a <? Z.of_nat (length l)) then
    Some (Args (Some (<[Z.to_nat (arg_count a) := Some item]> l)) (u32 (arg_count a + 1)))
  else None.
(* [item.h:2644-2644 arguments] *)
Definition arguments (a : Item_args) : option (list (option loc)) := args a.
(* [item.h:2645-2645 argument_count] *)
Definition argument_count (a : Item_args) : Z := arg_count a.
(* [item.h:2646-2646 remove_arguments] *)
Definition remove_arguments (a : Item_args) : Item_args := Args (args a) 0.

(* [item_row.h:126-126 cols] *)
Definition Item_row_cols (f : func) : Z := arg_count (func_args f).
(* [item_row.h:127-127 element_index] *)
Definition Item_row_element_index (f : func) (i : Z) : option loc := arg_at (func_args f) i.
(** What is not a row has one column, itself. The classes that forward to another item
    or are compiled elsewhere are not asked. *)
(* [item.h:2140-2140 element_index] *)
Definition element_index (s : items) (this : loc) (i : Z) : option loc :=
  it ← s !! this;
  match item_class_of it with
  | Item_row f => Item_row_element_index f i
  | Item_literal | Item_param _ | Item_result_field | Item_func _ => Some this
  | _ => None
  end.
(* [item.h:2139-2139 cols] *)
Definition cols (s : items) (this : loc) : option Z :=
  it ← s !! this;
  match item_class_of it with
  | Item_row f => Some (Item_row_cols f)
  | Item_literal | Item_param _ | Item_result_field | Item_func _ => Some 1
  | _ => None
  end.

(* [item.h:2635-2640 alloc_and_extract_row_elements] *)
Fixpoint extract_loop (k : nat) (s : items) (rows : Item_args) (pos i : Z) (this : Item_args) : option Item_args :=
  match k with
  | O => Some this
  | S k =>
    row ← arg_at rows i;
    arg ← element_index s row pos;
    this ← add_argument this arg;
    extract_loop k s rows pos (i + 1) this
  end.
(** [alloc_arguments] returns true when there is no memory. *)
(* [item.h:2629-2643 alloc_and_extract_row_elements] *)
Definition alloc_and_extract_row_elements (alloc_arguments : Item_args -> Z -> bool * Item_args) (this : Item_args) (s : items)
    (rows : Item_args) (pos : Z) : option (bool * Item_args) :=
  let '(failed, this) := alloc_arguments this (argument_count rows) in
  if (failed : bool) then Some (true, this) else
  this ← extract_loop (Z.to_nat (argument_count rows)) s rows pos 0 this;
  Some (false, this).

(** *** With_sum_func_cache and the constructors of Item_func *)

(* [item.h:2461-2463 With_sum_func_cache] *)
Definition With_sum_func_cache_1 (s : items) (a : loc) : option bool := with_sum_func s a.
(* [item.h:2464-2466 With_sum_func_cache] *)
Definition With_sum_func_cache_2 (s : items) (a b : loc) : option bool := or_else (with_sum_func s a) (with_sum_func s b).
(* [item.h:2467-2470 With_sum_func_cache] *)
Definition With_sum_func_cache_3 (s : items) (a b c : loc) : option bool :=
  or_else (or_else (with_sum_func s a) (with_sum_func s b)) (with_sum_func s c).
(* [item.h:2471-2475 With_sum_func_cache] *)
Definition With_sum_func_cache_4 (s : items) (a b c d : loc) : option bool :=
  or_else (or_else (or_else (with_sum_func s a) (with_sum_func s b)) (with_sum_func s c)) (with_sum_func s d).
(* [item.h:2476-2481 With_sum_func_cache] *)
Definition With_sum_func_cache_5 (s : items) (a b c d e : loc) : option bool :=
  or_else (or_else (or_else (or_else (with_sum_func s a) (with_sum_func s b)) (with_sum_func s c)) (with_sum_func s d)) (with_sum_func s e).
(* [item.h:2482-2482 set_with_sum_func] *)
Definition set_with_sum_func (f : func) : func := Func (func_args f) (used_tables_cache f) (const_item_cache f) (m_with_subquery f) true.
(* [item.h:2483-2483 reset_with_sum_func] *)
Definition reset_with_sum_func (f : func) : func := Func (func_args f) (used_tables_cache f) (const_item_cache f) (m_with_subquery f) false.
(* [item.h:2484-2487 copy_with_sum_func] *)
Definition copy_with_sum_func (s : items) (f : func) (item : loc) : option func :=
  b ← with_sum_func s item; Some (Func (func_args f) (used_tables_cache f) (const_item_cache f) (m_with_subquery f) b).
(* [item.h:2488-2491 join_with_sum_func] *)
Definition join_with_sum_func (s : items) (f : func) (item : loc) : option func :=
  b ← with_sum_func s item;
  Some (Func (func_args f) (used_tables_cache f) (const_item_cache f) (m_with_subquery f) (m_with_sum_func f || b)).

(** The flag that [Item::Item] starts with. *)
Variable is_expensive_cache_init : Z.

Definition field_of (s : items) (l : loc) : option bool := with_field <$> s !! l.
Definition param_of (s : items) (l : loc) : option bool := with_param <$> s !! l.

(** A new object: [used_tables_cache(0), const_item_cache(true)], [m_with_subquery(false)]. *)
(* [item.h:4936-4939 Used_tables_and_const_cache] *)
Definition new_func (a : Item_args) (sum : bool) : func := Func a 0 true false sum.

(* [item_func.h:99-103 Item_func] *)
Definition Item_func_0 : Item T := MkItem false false is_expensive_cache_init (Item_func (new_func Item_args_0 false)).
(* [item_func.h:104-109 Item_func] *)
Definition Item_func_1 (s : items) (a : loc) : option (Item T) :=
  sum ← With_sum_func_cache_1 s a; p ← param_of s a; f ← field_of s a;
  Some (MkItem f p is_expensive_cache_init (Item_func (new_func (Item_args_1 a) sum))).
(* [item_func.h:110-115 Item_func] *)
Definition Item_func_2 (s : items) (a b : loc) : option (Item T) :=
  sum ← With_sum_func_cache_2 s a b;
  p ← or_else (param_of s a) (param_of s b);
  f ← or_else (field_of s a) (field_of s b);
  Some (MkItem f p is_expensive_cache_init (Item_func (new_func (Item_args_2 a b) sum))).
(* [item_func.h:116-121 Item_func] *)
Definition Item_func_3 (ok : bool) (s : items) (a b c : loc) : option (Item T) :=
  sum ← With_sum_func_cache_3 s a b c;
  f ← or_else (or_else (field_of s a) (field_of s b)) (field_of s c);
  p ← or_else (or_else (param_of s a) (param_of s b)) (param_of s c);
  Some (MkItem f p is_expensive_cache_init (Item_func (new_func (Item_args_3 ok a b c) sum))).
(* [item_func.h:122-129 Item_func] *)
Definition Item_func_4 (ok : bool) (s : items) (a b c d : loc) : option (Item T) :=
  sum ← With_sum_func_cache_4 s a b c d;
  f ← or_else (or_else (or_else (field_of s a) (field_of s b)) (field_of s c)) (field_of s d);
  p ← or_else (or_else (or_else (param_of s a) (param_of s b)) (param_of s c)) (param_of s d);
  Some (MkItem f p is_expensive_cache_init (Item_func (new_func (Item_args_4 ok a b c d) sum))).
(* [item_func.h:130-137 Item_func] *)
Definition Item_func_5 (ok : bool) (s : items) (a b c d e : loc) : option (Item T) :=
  sum ← With_sum_func_cache_5 s a b c d e;
  f ← or_else (or_else (or_else (or_else (field_of s a) (field_of s b)) (field_of s c)) (field_of s d)) (field_of s e);
  p ← or_else (or_else (or_else (or_else (param_of s a) (param_of s b)) (param_of s c)) (param_of s d)) (param_of s e);
  Some (MkItem f p is_expensive_cache_init (Item_func (new_func (Item_args_5 ok a b c d e) sum))).
End code.

(** ** Trees *)

Section trees.
Context {T : Type} `{LeafItem T}.
Abbreviation items := (gmap loc (Item T)).

(** The arguments of an item, all written. *)
Definition has_args (a : Item_args) (xs : list loc) : Prop :=
  arg_count a = Z.of_nat (length xs) /\ forall i x, xs !! i = Some x -> arg_at a (Z.of_nat i) = Some x.

(** The items that the value of [it] is computed from; [copied] adds the item that an
    [Item_copy] took its value from, which [walk] visits and [used_tables] does not. *)
Inductive child (copied : bool) (it : Item T) (x : loc) : Prop :=
  | child_wrapper q m : item_class_of it = Item_cache_wrapper x q m -> child copied it x
  | child_copy : copied = true -> item_class_of it = Item_copy x -> child copied it x
  | child_arg f i : func_of it = Some f -> 0 <= i < arg_count (func_args f) -> arg_at (func_args f) i = Some x -> child copied it x.

(** What is below an item, itself included. *)
Inductive below (copied : bool) (s : items) (l : loc) : loc -> Prop :=
  | below_self : below copied s l l
  | below_child x it y : below copied s l x -> s !! x = Some it -> child copied it y -> below copied s l y.

(** The children exist and there is no cycle: [rank] decreases. *)
Definition wf (rank : loc -> nat) (s : items) : Prop :=
  forall l it, s !! l = Some it ->
    (forall x, child true it x -> is_Some (s !! x) /\ (rank x < rank l)%nat) /\
    (forall f, func_of it = Some f -> exists xs, has_args (func_args f) xs).

(** What [update_used_tables] does not change. *)
Definition shape (it : Item T) : Item T :=
  set_class it (match item_class_of it with
                | Item_func f => Item_func (set_caches f 0 true)
                | Item_row f => Item_row (set_caches f 0 true)
                | Item_other o => Item_other (leaf_update_used_tables o)
                | c => c
                end).
Definition same_shape (s s' : items) : Prop := forall l, shape <$> s !! l = shape <$> s' !! l.

#[export] Instance same_shape_equiv : Equivalence same_shape.
Proof. split; [by intros s l | intros s s' E l; by rewrite E | intros s1 s2 s3 E1 E2 l; by rewrite E1]. Qed.

Lemma shape_lookup s s' l it : same_shape s s' -> s !! l = Some it -> exists it', s' !! l = Some it' /\ shape it = shape it'.
Proof. intros E L. specialize (E l). rewrite L in E. symmetry in E. apply fmap_Some in E as (it' & -> & E). eauto. Qed.

Lemma shape_func it it' f : shape it = shape it' -> func_of it = Some f -> exists f', func_of it' = Some f' /\ func_args f = func_args f'.
Proof.
  destruct it as [? ? ? c], it' as [? ? ? c']. unfold shape, func_of, set_class. cbn.
  destruct c, c'; cbn; intros [=] [=]; subst; eauto.
Qed.

Lemma shape_child copied it it' x : shape it = shape it' -> child copied it x -> child copied it' x.
Proof.
  intros E [q m C | Hc C | f i F Hi A].
  - destruct it as [? ? ? c], it' as [? ? ? c']. cbn in C. subst c. unfold shape, set_class in E. cbn in E. injection E as -> -> -> E.
    destruct c'; try discriminate. injection E as -> -> ->. by eapply child_wrapper.
  - destruct it as [? ? ? c], it' as [? ? ? c']. cbn in C. subst c. unfold shape, set_class in E. cbn in E. injection E as -> -> -> E.
    destruct c'; try discriminate. injection E as ->. by eapply child_copy.
  - destruct (shape_func _ _ _ E F) as (f' & F' & E'). rewrite E' in *. by eapply child_arg.
Qed.

Lemma below_shape copied s s' l x : same_shape s s' -> below copied s l x -> below copied s' l x.
Proof.
  intros E B. induction B as [| x it y B IH L C]; [constructor |].
  destruct (shape_lookup _ _ _ _ E L) as (it' & L' & S). eapply below_child; eauto using shape_child.
Qed.

Lemma below_shape_iff copied s s' l x : same_shape s s' -> below copied s l x <-> below copied s' l x.
Proof. intros E. split; apply below_shape; [done | by symmetry]. Qed.

Lemma below_step copied s l it y x : s !! l = Some it -> child copied it y -> below copied s y x -> below copied s l x.
Proof. intros L C B. induction B; [eapply below_child; eauto; constructor | by eapply below_child]. Qed.

Lemma below_inv copied s l x it : s !! l = Some it -> below copied s l x -> x = l \/ exists y, child copied it y /\ below copied s y x.
Proof.
  intros L B. induction B as [| x it' y B IH L' C]; [by left |]. right. destruct IH as [-> | (z & Cz & Bz)].
  - replace it' with it in C by congruence. exists y. split; [done | constructor].
  - exists z. split; [done |]. by eapply below_child.
Qed.

Lemma child_copied it x : child false it x -> child true it x.
Proof. intros [q m C | Hc C | f i F Hi A]; [by eapply child_wrapper | done | by eapply child_arg]. Qed.

Lemma below_rank rank copied s l x : wf rank s -> below copied s l x -> x = l \/ (rank x < rank l)%nat.
Proof.
  intros W B. induction B as [| x it y B IH L C]; [by left |]. right.
  assert (C' : child true it y) by (destruct copied; [done | by apply child_copied]).
  destruct (W _ _ L) as [Hc _]. destruct (Hc _ C') as [_ Hr]. destruct IH as [-> | ?]; lia.
Qed.

Lemma below_exists rank copied s l x : wf rank s -> is_Some (s !! l) -> below copied s l x -> is_Some (s !! x).
Proof.
  intros W Hl B. induction B as [| x it y B IH L C]; [done |]. destruct (W _ _ L) as [Hc _].
  apply Hc. destruct copied; [done | by apply child_copied].
Qed.

Lemma wf_shape rank s s' : same_shape s s' -> wf rank s -> wf rank s'.
Proof.
  intros E W l it' L'. destruct (shape_lookup s' s l it') as (it & L & S); [by symmetry | done |]. destruct (W _ _ L) as [Hc Ha]. split.
  - intros x C. destruct (Hc x) as [Hx ?]; [by eapply shape_child |]. split; [| done].
    destruct Hx as [ix Lx]. destruct (shape_lookup _ _ _ _ E Lx) as (? & ? & _). eauto.
  - intros f F. destruct (shape_func _ _ _ S F) as (f' & F' & ->). eauto.
Qed.

(** *** What the caches should hold *)

(** The tables and the constancy of the items that do not compute theirs. *)
Definition leaf_tables (it : Item T) : Z :=
  match item_class_of it with
  | Item_literal => 0 | Item_param no_value => Item_param_used_tables no_value
  | Item_result_field | Item_copy _ => 1 | Item_other o => leaf_used_tables (leaf_update_used_tables o) | _ => 0
  end.
Definition leaf_const (it : Item T) : bool :=
  match item_class_of it with
  | Item_param no_value => negb no_value
  | Item_result_field | Item_copy _ => false | Item_other o => leaf_const_item (leaf_update_used_tables o) | _ => true
  end.
Definition is_leaf (it : Item T) : Prop :=
  match item_class_of it with Item_cache_wrapper _ _ _ | Item_func _ | Item_row _ => False | _ => True end.

Definition arg_list (a : Item_args) : list loc := omap (fun i => arg_at a (Z.of_nat i)) (seq 0 (Z.to_nat (arg_count a))).

(** The caches of a function, by recursion on the tree. *)
Fixpoint tree_tables (n : nat) (s : items) (l : loc) : Z :=
  match n with
  | O => 0
  | S n =>
    match s !! l with
    | None => 0
    | Some it =>
      match item_class_of it with
      | Item_cache_wrapper x _ _ => tree_tables n s x
      | Item_func f | Item_row f => foldl (fun t x => t ||| tree_tables n s x) 0 (arg_list (func_args f))
      | _ => leaf_tables it
      end
    end
  end.
Fixpoint tree_const (n : nat) (s : items) (l : loc) : bool :=
  match n with
  | O => true
  | S n =>
    match s !! l with
    | None => true
    | Some it =>
      match item_class_of it with
      | Item_cache_wrapper x _ _ => tree_const n s x
      | Item_func f | Item_row f => foldl (fun c x => c && tree_const n s x) true (arg_list (func_args f))
      | _ => leaf_const it
      end
    end
  end.

(** An item after [update_used_tables]. *)
Definition final (rank : loc -> nat) (s : items) (l : loc) : option (Item T) :=
  it ← s !! l;
  let t := tree_tables (S (rank l)) s l in
  let c := tree_const (S (rank l)) s l in
  Some (set_class it (match item_class_of it with
                      | Item_func f => Item_func (set_caches f t c)
                      | Item_row f => Item_row (set_caches f t c)
                      | Item_other o => Item_other (leaf_update_used_tables o)
                      | c => c
                      end)).

Lemma arg_list_has a xs : has_args a xs -> arg_list a = xs.
Proof.
  intros [E A]. unfold arg_list. rewrite E, Nat2Z.id.
  assert (G : forall k, (forall i x, xs !! i = Some x -> arg_at a (Z.of_nat (k + i)) = Some x) ->
    omap (fun i => arg_at a (Z.of_nat i)) (seq k (length xs)) = xs); [| by apply (G 0%nat)].
  clear E A. induction xs as [| x xs IH]; intros k A; [done |]. cbn [length seq omap]. cbn.
  rewrite <- (Nat.add_0_r k) at 1. rewrite (A 0%nat x eq_refl). f_equal. apply IH. intros i y L. rewrite Nat.add_succ_comm. by apply (A (S i)).
Qed.

Lemma child_of_arg it f xs x copied : func_of it = Some f -> has_args (func_args f) xs -> x ∈ xs -> child copied it x.
Proof.
  intros F [E A] Hx. apply list_elem_of_lookup in Hx as [i L]. eapply (child_arg _ _ _ f (Z.of_nat i)); [done | | by apply A].
  apply lookup_lt_Some in L. lia.
Qed.

Lemma arg_of_child it f xs x copied : func_of it = Some f -> has_args (func_args f) xs -> child copied it x -> x ∈ xs.
Proof.
  intros F [E A] [q m C | Hc C | f' i F' Hi A'].
  - unfold func_of in F. by rewrite C in F.
  - unfold func_of in F. by rewrite C in F.
  - replace f' with f in * by congruence. rewrite E in Hi.
    destruct (lookup_lt_is_Some_2 xs (Z.to_nat i)) as [y L]; [lia |]. pose proof (A _ _ L) as A2. rewrite Z2Nat.id in A2 by lia.
    replace x with y by congruence. by eapply list_elem_of_lookup_2.
Qed.

Ltac same_class E :=
  match type of E with shape ?x = shape ?y =>
    destruct x as [? ? ? []], y as [? ? ? []]; unfold shape, set_class in E; cbn in E; injection E; try discriminate; intros; subst; cbn
  end.

Lemma leaf_shape it it' : shape it = shape it' -> leaf_tables it = leaf_tables it' /\ leaf_const it = leaf_const it'.
Proof. intros E. unfold leaf_tables, leaf_const. same_class E; try done. by match goal with E : _ = _ |- _ => rewrite E end. Qed.

(** The two recursions run alike on stores of one shape. *)
Lemma tree_shape n : forall s s' l, same_shape s s' -> tree_tables n s l = tree_tables n s' l /\ tree_const n s l = tree_const n s' l.
Proof.
  induction n as [| n IH]; intros s s' l E; [done |]. cbn [tree_tables tree_const].
  destruct (s !! l) as [it |] eqn:L.
  - destruct (shape_lookup _ _ _ _ E L) as (it' & -> & S). pose proof (leaf_shape _ _ S) as [E1 E2].
    assert (Ef : forall xs a b, foldl (fun t x => t ||| tree_tables n s x) a xs = foldl (fun t x => t ||| tree_tables n s' x) a xs /\
      foldl (fun c x => c && tree_const n s x) b xs = foldl (fun c x => c && tree_const n s' x) b xs).
    { induction xs as [| x xs IHx]; intros a b; [done |]. cbn. destruct (IH s s' x E) as [-> ->]. apply IHx. }
    same_class S; try (by split); try (by apply IH);
      repeat match goal with F : func |- _ => destruct F end; cbn in *; subst; apply Ef.
  - specialize (E l). rewrite L in E. cbn in E. by destruct (s' !! l).
Qed.

Lemma final_shape rank s s' l : same_shape s s' -> final rank s l = final rank s' l.
Proof.
  intros E. unfold final. destruct (tree_shape (S (rank l)) s s' l E) as [E1 E2]. rewrite E1, E2. destruct (s !! l) as [it |] eqn:L.
  - destruct (shape_lookup _ _ _ _ E L) as (it' & -> & S). cbn [mbind option_bind]. f_equal. clear - S.
    same_class S; unfold set_class; cbn; repeat match goal with F : func |- _ => destruct F end; cbn in *; subst; congruence || reflexivity.
  - specialize (E l). rewrite L in E. cbn in E. by destruct (s' !! l).
Qed.

Lemma shape_final rank s l it' : final rank s l = Some it' -> exists it, s !! l = Some it /\ shape it = shape it'.
Proof.
  unfold final. destruct (s !! l) as [it |]; [| done]. cbn [mbind option_bind]. intros [= <-]. exists it. split; [done |].
  unfold shape, set_class. destruct it as [? ? ? []]; cbn; try done. by rewrite leaf_update_idemp.
Qed.

Lemma foldl_ext_elem {A} (f g : A -> loc -> A) xs : (forall a x, x ∈ xs -> f a x = g a x) -> forall a, foldl f a xs = foldl g a xs.
Proof. induction xs as [| x xs IH]; intros E a; [done |]. cbn. rewrite (E a x), IH by set_solver. done. Qed.

Lemma foldl_lor_bit (f : loc -> Z) k xs : forall a, Z.testbit (foldl (fun t x => t ||| f x) a xs) k = true <->
  Z.testbit a k = true \/ exists x, x ∈ xs /\ Z.testbit (f x) k = true.
Proof.
  induction xs as [| x xs IH]; intros a; cbn.
  - split; [by left | intros [|(? & Hx & _)]; [done | set_solver]].
  - rewrite IH, Z.lor_spec, orb_true_iff. set_solver.
Qed.

Lemma foldl_and (f : loc -> bool) xs : forall a, foldl (fun c x => c && f x) a xs = true <-> a = true /\ forall x, x ∈ xs -> f x = true.
Proof.
  induction xs as [| x xs IH]; intros a; cbn.
  - split; [intros E; split; [done | set_solver] | by intros []].
  - rewrite IH, andb_true_iff. set_solver.
Qed.

Section ranked.
Variables (rank : loc -> nat).

(** More fuel than the rank does not change anything. *)
Lemma tree_fuel s (W : wf rank s) n : forall m l, is_Some (s !! l) -> (rank l < n)%nat -> (rank l < m)%nat ->
  tree_tables n s l = tree_tables m s l /\ tree_const n s l = tree_const m s l.
Proof.
  induction n as [| n IH]; intros [| m] l [it L] Hn Hm; [lia .. |]. cbn [tree_tables tree_const]. rewrite L. destruct (W _ _ L) as [Hc Ha].
  assert (C : forall x, child true it x -> tree_tables n s x = tree_tables m s x /\ tree_const n s x = tree_const m s x).
  { intros x C. destruct (Hc x C). apply IH; [done | lia ..]. }
  assert (F : forall f, func_of it = Some f ->
    foldl (fun t x => t ||| tree_tables n s x) 0 (arg_list (func_args f)) = foldl (fun t x => t ||| tree_tables m s x) 0 (arg_list (func_args f)) /\
    foldl (fun c x => c && tree_const n s x) true (arg_list (func_args f)) = foldl (fun c x => c && tree_const m s x) true (arg_list (func_args f))).
  { intros f F. destruct (Ha f F) as [xs Hxs]. rewrite (arg_list_has _ _ Hxs).
    split; apply foldl_ext_elem; intros a x Hx; by rewrite (proj1 (C x (child_of_arg _ _ _ _ _ F Hxs Hx))) || rewrite (proj2 (C x (child_of_arg _ _ _ _ _ F Hxs Hx))). }
  unfold func_of in F. destruct (item_class_of it) eqn:K; try done; [| by apply F ..].
  apply C. by eapply child_wrapper.
Qed.

(** The value of an item whose caches are final. *)
Lemma read_final s0 s (W : wf rank s0) (E : same_shape s0 s) n : forall l, is_Some (s0 !! l) -> (rank l < n)%nat ->
  (forall x, below false s0 l x -> s !! x = final rank s0 x) ->
  used_tables n s l = Some (tree_tables (S (rank l)) s0 l) /\ const_item n s l = Some (tree_const (S (rank l)) s0 l).
Proof.
  induction n as [| n IH]; intros l [it L] Hn B; [lia |]. cbn [used_tables const_item].
  rewrite (B l (below_self _ _ _)). unfold final. rewrite L. cbn [mbind option_bind].
  destruct (item_class_of it) eqn:K; cbn [set_class item_class_of]; try done;
    try (cbn [tree_tables tree_const]; rewrite L, K; unfold leaf_tables, leaf_const; rewrite K; done).
  assert (C : child false it orig_item) by (by eapply child_wrapper). destruct (W _ _ L) as [Hc _].
  destruct (Hc _ (child_copied _ _ C)) as [Hs Hr]. destruct (IH orig_item Hs) as [-> ->]; [lia | |].
  - intros x Hx. apply B. by eapply below_step.
  - destruct (tree_fuel s0 W (S (rank orig_item)) (rank l) orig_item Hs) as [-> ->]; [lia | lia |].
    cbn [tree_tables tree_const]. by rewrite L, K.
Qed.

(** *** Updating *)

(** The object with new caches. *)
Definition put (it : Item T) (t : Z) (c : bool) : Item T :=
  set_class it (match item_class_of it with Item_func f => Item_func (set_caches f t c) | Item_row f => Item_row (set_caches f t c) | k => k end).

Lemma put_caches_put s l it f t c : s !! l = Some it -> func_of it = Some f -> put_caches s l t c = Some (<[l := put it t c]> s).
Proof. unfold put_caches, put, func_of. intros -> F. cbn. by destruct (item_class_of it). Qed.

Lemma put_func it f t c : func_of it = Some f -> func_of (put it t c) = Some (set_caches f t c).
Proof. unfold func_of, put. destruct it as [? ? ? []]; cbn; congruence. Qed.

Lemma put_put it t c t' c' : put (put it t c) t' c' = put it t' c'.
Proof. by destruct it as [? ? ? []]. Qed.

Lemma put_shape it f t c : func_of it = Some f -> shape (put it t c) = shape it.
Proof. by destruct it as [? ? ? []]. Qed.

Lemma shape_put it it' f t c : func_of it = Some f -> shape it = shape it' -> put it t c = put it' t c.
Proof. intros F S. assert (put (shape it) t c = put (shape it') t c) by (by rewrite S). by destruct it as [? ? ? []], it' as [? ? ? []]. Qed.

Lemma shape_plain it it' : func_of it = None -> (forall o, item_class_of it <> Item_other o) -> shape it = shape it' -> it = it'.
Proof. unfold func_of. intros F No S. same_class S; naive_solver. Qed.

Lemma same_shape_put s0 s l it f t c :
  same_shape s0 s -> s0 !! l = Some it -> func_of it = Some f -> same_shape s0 (<[l := put it t c]> s).
Proof.
  intros E L F x. destruct (decide (x = l)) as [-> |].
  - rewrite L, lookup_insert_eq. cbn. by erewrite put_shape.
  - by rewrite lookup_insert_ne.
Qed.

Section update.
Variable s0 : items.
Hypothesis W : wf rank s0.
Abbreviation tables x := (tree_tables (S (rank x)) s0 x).
Abbreviation consts x := (tree_const (S (rank x)) s0 x).
Abbreviation final := (final rank s0).

(** What [update] does to the items below [l] and to the others. *)
Definition updates (s s' : items) (l : loc) : Prop :=
  same_shape s0 s' /\ (forall x, below false s0 l x -> s' !! x = final x) /\
  (forall x, ~ below false s0 l x -> s' !! x = s !! x) /\ (forall x, s !! x = final x -> s' !! x = final x).

Lemma joined_step n (IH : forall s l, same_shape s0 s -> is_Some (s0 !! l) -> (rank l < n)%nat ->
    exists s', update_used_tables n s l = Some s' /\ updates s s' l) l it f t c x s :
  (rank l <= n)%nat -> s0 !! l = Some it -> func_of it = Some f -> child false it x -> same_shape s0 s -> s !! l = Some (put it t c) ->
  exists s1, used_tables_and_const_cache_update_and_join (update_used_tables n) n s l x = Some (<[l := put it (t ||| tables x) (c && consts x)]> s1) /\
    updates s s1 x /\ s1 !! l = Some (put it t c).
Proof using W.
  intros Hn L F C E Hl. destruct (W _ _ L) as [Hc _]. destruct (Hc _ (child_copied _ _ C)) as [Hx Hr].
  destruct (IH s x E Hx) as (s1 & R & U); [lia |]. pose proof U as (E1 & B & N & _). exists s1.
  assert (Hl1 : s1 !! l = Some (put it t c)).
  { rewrite N; [done |]. intros Hb. apply (below_rank rank) in Hb; [| done]. destruct Hb as [-> |]; lia. }
  split; [| done]. unfold used_tables_and_const_cache_update_and_join. rewrite R. cbn [mbind option_bind].
  unfold used_tables_and_const_cache_join. rewrite Hl1. cbn [mbind option_bind]. rewrite (put_func _ _ _ _ F). cbn [mbind option_bind].
  destruct (read_final s0 s1 W E1 n x Hx) as [-> ->]; [lia | done |]. cbn [mbind option_bind used_tables_cache const_item_cache set_caches].
  rewrite (put_caches_put _ _ _ _ _ _ Hl1 (put_func _ _ _ _ F)). by rewrite put_put.
Qed.

Lemma update_loop_ok n (IH : forall s l, same_shape s0 s -> is_Some (s0 !! l) -> (rank l < n)%nat ->
    exists s', update_used_tables n s l = Some s' /\ updates s s' l) l it f (Hn : (rank l <= n)%nat) (L : s0 !! l = Some it) (F : func_of it = Some f) :
  forall xs i s t c, (forall j x, xs !! j = Some x -> arg_at (func_args f) (i + Z.of_nat j) = Some x) -> Forall (child false it) xs ->
  same_shape s0 s -> s !! l = Some (put it t c) ->
  exists s', update_and_join_loop (update_used_tables n) n (length xs) s l i = Some s' /\ same_shape s0 s' /\
    s' !! l = Some (put it (foldl (fun t x => t ||| tables x) t xs) (foldl (fun c x => c && consts x) c xs)) /\
    (forall y x, y ∈ xs -> below false s0 y x -> s' !! x = final x) /\
    (forall x, x <> l -> (forall y, y ∈ xs -> ~ below false s0 y x) -> s' !! x = s !! x) /\
    (forall x, x <> l -> s !! x = final x -> s' !! x = final x).
Proof using W.
  induction xs as [| x xs IHx]; intros i s t c A C E Hl.
  - exists s. cbn. split_and!; [done.. | set_solver | done | done].
  - apply Forall_cons in C as [C Cs]. destruct (joined_step n IH l it f t c x s Hn L F C E Hl) as (s1 & R & (E1 & B & N & K) & Hl1).
    set (s2 := <[l := put it (t ||| tables x) (c && consts x)]> s1) in *.
    destruct (IHx (i + 1) s2 (t ||| tables x) (c && consts x)) as (s' & R' & E' & Hl' & B' & N' & K').
    + intros j y Lj. rewrite <- (A (S j) y Lj). f_equal. lia.
    + done.
    + by eapply same_shape_put.
    + apply lookup_insert_eq.
    + assert (Hne : forall z, below false s0 x z -> z <> l).
      { intros z Hz ->. destruct (W _ _ L) as [Hc _]. destruct (Hc _ (child_copied _ _ C)). apply (below_rank rank) in Hz; [| done]. destruct Hz as [-> |]; lia. }
      exists s'. cbn [length update_and_join_loop foldl]. unfold args_of. rewrite Hl. cbn [mbind option_bind].
      rewrite (put_func _ _ _ _ F). cbn [mbind option_bind set_caches func_args].
      pose proof (A 0%nat x eq_refl) as A0. rewrite Z.add_0_r in A0. rewrite A0. cbn [mbind option_bind]. rewrite R. cbn [mbind option_bind].
      split; [done |]. split; [done |]. split; [done |]. split_and!.
      * intros y z Hy Hz. apply elem_of_cons in Hy as [-> | Hy]; [| by eapply B'].
        apply K'; [by apply Hne |]. unfold s2. rewrite lookup_insert_ne by (apply not_eq_sym; by apply Hne). by apply B.
      * intros z Hz Hno. rewrite N' by (done || set_solver). unfold s2. rewrite lookup_insert_ne by done. apply N. apply Hno. set_solver.
      * intros z Hz Hf. apply K'; [done |]. unfold s2. rewrite lookup_insert_ne by done. by apply K.
Qed.

(** What is not a function or a row does not change its class, and has no own children but a wrapper. *)
Lemma final_plain l it : s0 !! l = Some it -> func_of it = None -> final l = Some (shape it).
Proof using Type. unfold final, func_of. intros -> F. cbn [mbind option_bind]. unfold shape. by destruct (item_class_of it). Qed.

Lemma final_func l it f : s0 !! l = Some it -> func_of it = Some f -> final l = Some (put it (tables l) (consts l)).
Proof using Type. unfold final, func_of. intros -> F. cbn [mbind option_bind]. unfold put. by destruct (item_class_of it). Qed.

Lemma tree_func l it f xs : s0 !! l = Some it -> func_of it = Some f -> has_args (func_args f) xs ->
  foldl (fun t x => t ||| tables x) 0 xs = tables l /\ foldl (fun c x => c && consts x) true xs = consts l.
Proof using W.
  intros L F Hxs. destruct (W _ _ L) as [Hc _].
  assert (C : forall x, x ∈ xs -> is_Some (s0 !! x) /\ (rank x < rank l)%nat) by (intros x Hx; by apply Hc, (child_of_arg _ f xs)).
  assert (T1 : tables l = foldl (fun t x => t ||| tree_tables (rank l) s0 x) 0 xs).
  { cbn [tree_tables]. rewrite L. rewrite <- (arg_list_has _ _ Hxs). unfold func_of in F. destruct (item_class_of it); by simplify_eq. }
  assert (C1 : consts l = foldl (fun c x => c && tree_const (rank l) s0 x) true xs).
  { cbn [tree_const]. rewrite L. rewrite <- (arg_list_has _ _ Hxs). unfold func_of in F. destruct (item_class_of it); by simplify_eq. }
  rewrite T1, C1. split; apply foldl_ext_elem; intros a x Hx; destruct (C x Hx) as [Hs Hr];
    destruct (tree_fuel s0 W (S (rank x)) (rank l) x Hs) as [E1 E2]; [lia | lia | by rewrite E1 | lia | lia | by rewrite E2].
Qed.

(** The work of a function and of a row. *)
Lemma update_func_ok n (IH : forall s l, same_shape s0 s -> is_Some (s0 !! l) -> (rank l < n)%nat ->
    exists s', update_used_tables n s l = Some s' /\ updates s s' l) s l it f it1 f1 :
  (rank l <= n)%nat -> s0 !! l = Some it -> func_of it = Some f -> same_shape s0 s -> s !! l = Some it1 -> func_of it1 = Some f1 ->
  exists s', Item_func_update_used_tables (update_used_tables n) n s l f1 = Some s' /\ updates s s' l.
Proof using W.
  intros Hn L F E L1 F1. destruct (W _ _ L) as [Hc Ha]. destruct (Ha f F) as [xs Hxs].
  destruct (shape_lookup _ _ _ _ E L) as (it1' & L1' & S). replace it1' with it1 in S by congruence. clear it1' L1'.
  destruct (shape_func _ _ _ S F) as (f1' & F1' & Ef). replace f1' with f1 in Ef by congruence. clear f1' F1'.
  unfold Item_func_update_used_tables, used_tables_and_const_cache_init. rewrite (put_caches_put _ _ _ _ _ _ L1 F1). cbn [mbind option_bind].
  rewrite <- (shape_put it it1 f 0 true F S). unfold update_and_join_args. rewrite <- Ef.
  destruct Hxs as [Hlen Hat] eqn:Hxs'. rewrite Hlen, Nat2Z.id. set (si := <[l := put it 0 true]> s).
  assert (Cs : Forall (child false it) xs) by (apply Forall_forall; intros x Hx; by apply (child_of_arg _ f xs)).
  destruct (update_loop_ok n IH l it f Hn L F xs 0 si 0 true) as (s' & R & E' & Hl & B & N & K).
  - exact Hat.
  - done.
  - by eapply same_shape_put.
  - apply lookup_insert_eq.
  - destruct (tree_func l it f xs L F Hxs) as [T1 C1]. rewrite T1, C1 in Hl.
    exists s'. split; [done |]. split; [done |]. split_and!.
    + intros x Hx. destruct (below_inv _ _ _ _ _ L Hx) as [-> | (y & Cy & By)]; [by rewrite Hl, (final_func _ _ _ L F) |].
      apply (B y); [by apply (arg_of_child it f xs y false) | done].
    + intros x Hx. rewrite N; [unfold si; rewrite lookup_insert_ne; [done |] | |].
      * intros ->. apply Hx. constructor.
      * intros ->. apply Hx. constructor.
      * intros y Hy By. apply Hx. eapply below_step; [done | | done]. by apply (child_of_arg _ f xs).
    + intros x Hx. destruct (decide (x = l)) as [-> | Hne]; [by rewrite Hl, (final_func _ _ _ L F) |].
      apply K; [done |]. unfold si. by rewrite lookup_insert_ne.
Qed.

Lemma update_ok n : forall s l, same_shape s0 s -> is_Some (s0 !! l) -> (rank l < n)%nat ->
  exists s', update_used_tables n s l = Some s' /\ updates s s' l.
Proof using W.
  induction n as [| n IH]; intros s l E [it L] Hn; [lia |]. destruct (shape_lookup _ _ _ _ E L) as (it1 & L1 & S).
  cbn [update_used_tables]. rewrite L1. cbn [mbind option_bind].
  destruct (func_of it) as [f |] eqn:F.
  { destruct (shape_func _ _ _ S F) as (f1 & F1 & _).
    destruct (update_func_ok n IH s l it f it1 f1) as (s' & R & U); [lia | done .. |]. exists s'. split; [| done].
    unfold func_of in F1. destruct (item_class_of it1); try done; by simplify_eq. }
  assert (Leaf : (forall x, ~ child false it x) -> forall s', same_shape s0 s' -> s' !! l = final l -> (forall x, x <> l -> s' !! x = s !! x) -> updates s s' l).
  { intros No s' E' Hl Ho. split; [done |]. split_and!.
    - intros x Hx. destruct (below_inv _ _ _ _ _ L Hx) as [-> | (y & Cy & _)]; [done | by apply No in Cy].
    - intros x Hx. apply Ho. intros ->. apply Hx. constructor.
    - intros x Hx. destruct (decide (x = l)) as [-> |]; [done | by rewrite Ho]. }
  assert (Plain : forall o, item_class_of it1 <> Item_other o -> True) by done. clear Plain.
  destruct (item_class_of it1) as [| nv | | cx | ox q m | f1 | f1 | o] eqn:K1.
  all: try (exfalso; unfold func_of in F; same_class S; simplify_eq; done).
  1-4: assert (it = it1) as -> by (apply shape_plain; [done | | done]; intros o Ko; same_class S; simplify_eq).
  1-4: exists s; split; [done |]; apply Leaf;
    [intros x [? ? C | ? ? | ? ? F' ?]; congruence | done | by rewrite (final_plain _ _ L F), L1; destruct it1; cbn in *; subst | done].
  - assert (it = it1) as -> by (apply shape_plain; [done | | done]; intros o Ko; same_class S; simplify_eq).
    assert (C : child false it1 ox) by (by eapply child_wrapper). destruct (W _ _ L) as [Hc _]. destruct (Hc _ (child_copied _ _ C)) as [Hx Hr].
    destruct (IH s ox E Hx) as (s' & R & (E' & B & N & K)); [lia |]. exists s'. split; [done |]. split; [done |].
    assert (Hl : s !! l = final l) by (rewrite (final_plain _ _ L F), L1; destruct it1; cbn in *; by subst).
    split_and!; [| | done].
    + intros x Hb. destruct (below_inv _ _ _ _ _ L Hb) as [-> | (y & Cy & By)]; [by apply K |]. apply B.
      destruct Cy as [? ? Cy | ? ? | ? ? F' ?]; [| done | congruence]. by replace ox with y by congruence.
    + intros x Hb. apply N. intros Bx. apply Hb. by eapply below_step.
  - eexists. split; [done |]. apply Leaf.
    + intros x [? ? C | ? ? | ? ? F' ?]; [| done | congruence]. same_class S; simplify_eq.
    + intros x. destruct (decide (x = l)) as [-> |]; [| by rewrite lookup_insert_ne]. rewrite L, lookup_insert_eq. cbn. f_equal.
      rewrite S. unfold shape. rewrite K1. destruct it1; cbn. by rewrite leaf_update_idemp.
    + rewrite lookup_insert_eq, (final_plain _ _ L F), S. unfold shape. by rewrite K1.
    + intros x Hx. by rewrite lookup_insert_ne.
Qed.
End update.

(** *** The caches in terms of the leaves *)

Lemma tree_leaves s (W : wf rank s) n : forall l, is_Some (s !! l) -> (rank l < n)%nat ->
  (forall k, Z.testbit (tree_tables n s l) k = true <-> exists x ix, below false s l x /\ s !! x = Some ix /\ Z.testbit (leaf_tables ix) k = true) /\
  (tree_const n s l = true <-> forall x ix, below false s l x -> s !! x = Some ix -> leaf_const ix = true).
Proof using Type.
  induction n as [| n IH]; intros l [it L] Hn; [lia |]. destruct (W _ _ L) as [Hc Ha].
  assert (C : forall y, child false it y -> is_Some (s !! y) /\ (rank y < n)%nat).
  { intros y Cy. destruct (Hc y (child_copied _ _ Cy)). split; [done | lia]. }
  (* one step down *)
  assert (Inner : forall xs : list loc, (forall y, y ∈ xs <-> child false it y) -> leaf_tables it = 0 -> leaf_const it = true ->
    (forall k, (exists x ix, below false s l x /\ s !! x = Some ix /\ Z.testbit (leaf_tables ix) k = true) <->
      exists y, y ∈ xs /\ Z.testbit (tree_tables n s y) k = true) /\
    ((forall x ix, below false s l x -> s !! x = Some ix -> leaf_const ix = true) <-> forall y, y ∈ xs -> tree_const n s y = true)).
  { intros xs Hxs Z0 C0. split; [intros k; split | split].
    - intros (x & ix & B & Lx & Hk). destruct (below_inv _ _ _ _ _ L B) as [-> | (y & Cy & By)].
      + replace ix with it in Hk by congruence. rewrite Z0, Z.bits_0 in Hk. done.
      + exists y. split; [by apply Hxs |]. destruct (C y Cy) as [Hy Hr]. apply (IH y Hy Hr). eauto.
    - intros (y & Hy & Hk). apply Hxs in Hy. destruct (C y Hy) as [Hs Hr]. apply (IH y Hs Hr) in Hk as (x & ix & B & Lx & Hk).
      exists x, ix. split; [by eapply below_step | done].
    - intros Hall y Hy. apply Hxs in Hy. destruct (C y Hy) as [Hs Hr]. apply (IH y Hs Hr). intros x ix B Lx. apply (Hall x ix); [by eapply below_step | done].
    - intros Hall x ix B Lx. destruct (below_inv _ _ _ _ _ L B) as [-> | (y & Cy & By)]; [by replace ix with it by congruence |].
      destruct (C y Cy) as [Hs Hr]. by apply (proj1 (proj2 (IH y Hs Hr)) (Hall y (proj2 (Hxs y) Cy)) x ix). }
  assert (Leaf : (forall y, ~ child false it y) -> forall t c, t = leaf_tables it -> c = leaf_const it ->
    (forall k, Z.testbit t k = true <-> exists x ix, below false s l x /\ s !! x = Some ix /\ Z.testbit (leaf_tables ix) k = true) /\
    (c = true <-> forall x ix, below false s l x -> s !! x = Some ix -> leaf_const ix = true)).
  { intros No t c -> ->. split; [intros k; split | split].
    - intros Hk. exists l, it. split; [constructor | done].
    - intros (x & ix & B & Lx & Hk). destruct (below_inv _ _ _ _ _ L B) as [-> | (y & Cy & _)]; [congruence | by apply No in Cy].
    - intros Hk x ix B Lx. destruct (below_inv _ _ _ _ _ L B) as [-> | (y & Cy & _)]; [congruence | by apply No in Cy].
    - intros Hall. apply (Hall l); [constructor | done]. }
  assert (Fn : forall f, func_of it = Some f -> leaf_tables it = 0 -> leaf_const it = true ->
    (forall k, Z.testbit (foldl (fun t x => t ||| tree_tables n s x) 0 (arg_list (func_args f))) k = true <->
      exists x ix, below false s l x /\ s !! x = Some ix /\ Z.testbit (leaf_tables ix) k = true) /\
    (foldl (fun c x => c && tree_const n s x) true (arg_list (func_args f)) = true <->
      forall x ix, below false s l x -> s !! x = Some ix -> leaf_const ix = true)).
  { intros f F Z0 C0. destruct (Ha f F) as [xs Hxs]. rewrite (arg_list_has _ _ Hxs).
    destruct (Inner xs) as [I1 I2]; [| done | done |].
    - intros y. split; [by apply (child_of_arg _ f xs) | by apply (arg_of_child _ f xs)].
    - split; [intros k; rewrite foldl_lor_bit, I1, Z.bits_0; naive_solver | rewrite foldl_and, I2; naive_solver]. }
  cbn [tree_tables tree_const]. rewrite L. unfold func_of in Fn. destruct (item_class_of it) eqn:K.
  1-4,8: apply Leaf; [intros y [? ? C' | ? ? | ? ? F' ?]; unfold func_of in *; try rewrite K in *; try done; congruence | done | by unfold leaf_const; rewrite K].
  - destruct (Inner [orig_item]) as [I1 I2].
    + intros y. split; [intros ->%list_elem_of_singleton; by eapply child_wrapper |].
      intros [? ? C' | ? ? | ? ? F' ?]; [| done | unfold func_of in F'; by rewrite K in F']. apply list_elem_of_singleton. congruence.
    + unfold leaf_tables. by rewrite K.
    + unfold leaf_const. by rewrite K.
    + split; [intros k; rewrite I1 | rewrite I2]; set_solver.
  - apply Fn; [done | |]; [unfold leaf_tables | unfold leaf_const]; by rewrite K.
  - apply Fn; [done | |]; [unfold leaf_tables | unfold leaf_const]; by rewrite K.
Qed.

Lemma below_dec s (W : wf rank s) x : forall n l, is_Some (s !! l) -> (rank l < n)%nat -> below false s l x \/ ~ below false s l x.
Proof using Type.
  induction n as [| n IH]; intros l [it L] Hn; [lia |]. destruct (decide (x = l)) as [-> | Hne]; [left; constructor |].
  destruct (W _ _ L) as [Hc Ha].
  assert (D : forall ys : list loc, (forall y, y ∈ ys -> child false it y) -> (exists y, y ∈ ys /\ below false s y x) \/ ~ exists y, y ∈ ys /\ below false s y x).
  { induction ys as [| y ys IHy]; intros Cy; [right; set_solver |].
    destruct (Hc y (child_copied _ _ (Cy y ltac:(set_solver)))) as [Hs Hr]. destruct (IH y Hs) as [? |]; [lia | left; set_solver |].
    destruct IHy as [(z & ? & ?) | No]; [set_solver | left; set_solver | right; set_solver]. }
  assert (E : exists ys : list loc, forall y, y ∈ ys <-> child false it y).
  { destruct (func_of it) as [f |] eqn:F.
    - destruct (Ha f eq_refl) as [xs Hxs]. exists xs. intros y. split; [by apply (child_of_arg _ f xs) | by apply (arg_of_child _ f xs)].
    - destruct (item_class_of it) eqn:K; try (exists []; intros y; split; [set_solver | intros [? ? C' | ? ? | ? ? F' ?]; congruence]).
      exists [orig_item]. intros y. split; [intros ->%list_elem_of_singleton; by eapply child_wrapper |].
      intros [? ? C' | ? ? | ? ? F' ?]; [| done | congruence]. apply list_elem_of_singleton. congruence. }
  destruct E as [ys Hys]. destruct (D ys) as [(y & Hy & By) | No]; [intros y; apply Hys | |].
  - left. apply (below_step _ _ _ it y); [done | by apply Hys | done].
  - right. intros B. destruct (below_inv _ _ _ _ _ L B) as [-> | (y & Cy & By)]; [done |]. apply No. exists y. split; [by apply Hys | done].
Qed.
End ranked.

(** C4: [update_used_tables] computes from scratch, whatever the caches held: afterwards
    [used_tables()] of the item is the union of the tables of the leaves below it,
    [const_item()] is whether every one of them is constant; the items that are not below it
    are untouched, and a second call changes nothing. Where leaves are constant exactly
    when they use no table, so is the item. *)
Theorem update_used_tables_spec rank s l n :
  wf rank s -> is_Some (s !! l) -> (rank l < n)%nat ->
  exists s' t c, update_used_tables n s l = Some s' /\ used_tables n s' l = Some t /\ const_item n s' l = Some c /\
    (forall k, Z.testbit t k = true <-> exists x ix, below false s l x /\ s !! x = Some ix /\ Z.testbit (leaf_tables ix) k = true) /\
    (c = true <-> forall x ix, below false s l x -> s !! x = Some ix -> leaf_const ix = true) /\
    (forall x, ~ below false s l x -> s' !! x = s !! x) /\
    update_used_tables n s' l = Some s' /\
    ((forall x ix, below false s l x -> s !! x = Some ix -> leaf_const ix = (leaf_tables ix =? 0)) -> c = (t =? 0)).
Proof.
  intros W Hl Hn. destruct (update_ok rank s W n s l (reflexivity _) Hl Hn) as (s' & R & (E & B & N & K)).
  destruct (update_ok rank s W n s' l E Hl Hn) as (s2 & R2 & (E2 & B2 & N2 & K2)).
  destruct (read_final rank s s' W E n l Hl Hn B) as [Ht Hc]. destruct (tree_leaves rank s W (S (rank l)) l Hl ltac:(lia)) as [Lt Lc].
  exists s', (tree_tables (S (rank l)) s l), (tree_const (S (rank l)) s l). split_and!; try done.
  - rewrite R2. f_equal. apply map_eq. intros x. destruct (below_dec rank s W x n l Hl Hn) as [Hx | Hx].
    + by rewrite B, B2.
    + by rewrite N2.
  - intros Hcons. destruct (Z.eqb_spec (tree_tables (S (rank l)) s l) 0) as [E0 | E0].
    + apply Lc. intros x ix Bx Lx. rewrite (Hcons x ix Bx Lx). apply Z.eqb_eq. apply Z.bits_inj'. intros k _. rewrite Z.bits_0.
      destruct (Z.testbit (leaf_tables ix) k) eqn:Hk; [| done]. assert (Z.testbit (tree_tables (S (rank l)) s l) k = true) as Hk' by (apply Lt; eauto).
      by rewrite E0, Z.bits_0 in Hk'.
    + apply not_true_is_false. rewrite Lc. intros Hall. apply E0. apply Z.bits_inj'. intros k _. rewrite Z.bits_0. apply not_true_is_false. rewrite Lt.
      intros (x & ix & Bx & Lx & Hk). pose proof (Hall x ix Bx Lx) as Hx. rewrite (Hcons x ix Bx Lx) in Hx. apply Z.eqb_eq in Hx. by rewrite Hx, Z.bits_0 in Hk.
Qed.

(** *** Walking *)

Inductive kids := Kleaf | Kone (x : loc) | Kargs (a : Item_args).
Definition kids_of (it : Item T) : kids :=
  match item_class_of it with
  | Item_copy x | Item_cache_wrapper x _ _ => Kone x
  | Item_func f | Item_row f => Kargs (func_args f)
  | _ => Kleaf
  end.

(** What a walk depends on. *)
Definition same_tree (s s' : items) : Prop := forall l, kids_of <$> s !! l = kids_of <$> s' !! l.

#[export] Instance same_tree_equiv : Equivalence same_tree.
Proof. split; [by intros s l | intros s s' E l; by rewrite E | intros s1 s2 s3 E1 E2 l; by rewrite E1]. Qed.

Lemma tree_lookup s s' l it : same_tree s s' -> s !! l = Some it -> exists it', s' !! l = Some it' /\ kids_of it' = kids_of it.
Proof. intros E L. specialize (E l). rewrite L in E. symmetry in E. apply fmap_Some in E as (it' & -> & E). eauto. Qed.

Lemma args_of_kids s l it a : s !! l = Some it -> kids_of it = Kargs a -> args_of s l = Some a.
Proof.
  unfold args_of, kids_of, func_of. intros ->. cbn [mbind option_bind].
  destruct (item_class_of it); try done; cbn [mbind option_bind]; intros [= ->]; done.
Qed.

(** The items below [l], the children before their parent. *)
Fixpoint post (n : nat) (s : items) (l : loc) : list loc :=
  match n with
  | O => []
  | S n =>
    match kids_of <$> s !! l with
    | None => []
    | Some Kleaf => [l]
    | Some (Kone x) => post n s x ++ [l]
    | Some (Kargs a) => mjoin (post n s <$> arg_list a) ++ [l]
    end
  end.

Section visit.
Context {A : Type}.
Variable processor : loc -> items -> A -> option (bool * items * A).

(** The processor on one item after the other until it returns true. *)
Fixpoint visit (ls : list loc) (s : items) (arg : A) : option (bool * items * A) :=
  match ls with
  | [] => Some (false, s, arg)
  | x :: ls => '(found, s, arg) ← processor x s arg; if (found : bool) then Some (true, s, arg) else visit ls s arg
  end.

Lemma visit_app xs ys s arg : visit (xs ++ ys) s arg = '(found, s, arg) ← visit xs s arg; if (found : bool) then Some (true, s, arg) else visit ys s arg.
Proof using Type.
  revert s arg. induction xs as [| x xs IH]; intros s arg; [done |]. cbn. destruct (processor x s arg) as [[[[] s1] a1] |]; [done | apply IH | done].
Qed.

Lemma visit_one x s arg : visit [x] s arg = processor x s arg.
Proof using Type. cbn. by destruct (processor x s arg) as [[[[] s1] a1] |]. Qed.

Hypothesis keeps : forall x s arg r s' arg', processor x s arg = Some (r, s', arg') -> same_tree s s'.

Lemma visit_keeps xs : forall s arg r s' arg', visit xs s arg = Some (r, s', arg') -> same_tree s s'.
Proof using keeps.
  induction xs as [| x xs IH]; intros s arg r s' arg'; cbn; [intros [= <- <- <-]; done |].
  destruct (processor x s arg) as [[[[] s1] a1] |] eqn:P; [intros [= <- <- <-]; by eapply keeps | | done].
  intros V. transitivity s1; [by eapply keeps | by eapply IH].
Qed.

Lemma walk_args_loop_ok n s0 l it a
  (IH : forall s arg x, same_tree s0 s -> child true it x -> walk processor n s arg x = visit (post n s0 x) s arg) :
  s0 !! l = Some it -> kids_of it = Kargs a ->
  forall xs k i s arg, (forall j x, xs !! j = Some x -> arg_at a (i + Z.of_nat j) = Some x) -> 0 <= i -> i + Z.of_nat (length xs) = arg_count a ->
  same_tree s0 s -> (length xs < k)%nat ->
  walk_args_loop (walk processor n) k l i s arg = visit (mjoin (post n s0 <$> xs)) s arg.
Proof using keeps.
  intros L K xs. induction xs as [| x xs IHx]; intros k i s arg At Hi Hlen E Hk; (destruct k as [| k]; [cbn in Hk; lia |]); cbn [walk_args_loop];
    destruct (tree_lookup _ _ _ _ E L) as (it' & L' & K'); rewrite K in K'.
  - rewrite (args_of_kids s l it' a L' K'). cbn [mbind option_bind length] in *. destruct (Z.ltb_spec i (arg_count a)); [lia | done].
  - rewrite (args_of_kids s l it' a L' K'). cbn [mbind option_bind]. cbn [length] in Hlen. destruct (Z.ltb_spec i (arg_count a)) as [Hlt |]; [| lia].
    pose proof (At 0%nat x eq_refl) as A0. rewrite Z.add_0_r in A0. rewrite A0. cbn [mbind option_bind fmap list_fmap mjoin list_join].
    assert (C : child true it x).
    { unfold kids_of in K. destruct (item_class_of it) eqn:Kc; try done; injection K as <-; eapply (child_arg _ _ _ f i); try done; unfold func_of; by rewrite Kc. }
    rewrite (IH s arg x E C), visit_app. destruct (visit (post n s0 x) s arg) as [[[[] s1] a1] |] eqn:V; [done | | done]. cbn [mbind option_bind].
    apply IHx; [| lia | lia | | cbn in Hk; lia].
    + intros j y Lj. rewrite <- (At (S j) y Lj). f_equal. lia.
    + transitivity s; [done | by eapply visit_keeps].
Qed.

Lemma walk_ok rank s0 (W : wf rank s0) n : forall s arg l, same_tree s0 s -> is_Some (s0 !! l) -> (rank l < n)%nat ->
  walk processor n s arg l = visit (post n s0 l) s arg.
Proof using keeps.
  induction n as [| n IH]; intros s arg l E [it L] Hn; [lia |]. destruct (W _ _ L) as [Hc Ha].
  destruct (tree_lookup _ _ _ _ E L) as (it' & L' & K). cbn [walk post]. rewrite L', L. change (kids_of <$> Some it) with (Some (kids_of it)). cbn [mbind option_bind].
  assert (C : forall s arg x, same_tree s0 s -> child true it x -> walk processor n s arg x = visit (post n s0 x) s arg).
  { intros s1 a1 x E1 C. destruct (Hc x C). apply IH; [done .. | lia]. }
  assert (One : forall x, kids_of it = Kone x ->
    ('(found, s, arg) ← walk processor n s arg x; if (found : bool) then Some (true, s, arg) else processor l s arg) = visit (post n s0 x ++ [l]) s arg).
  { intros x Kx. rewrite visit_app, C; [| done |].
    - destruct (visit (post n s0 x) s arg) as [[[[] s1] a1] |]; [done | | done]. cbn [mbind option_bind]. by rewrite visit_one.
    - unfold kids_of in Kx. destruct (item_class_of it) eqn:Kc; try done; injection Kx as <-; [by apply child_copy | by eapply child_wrapper]. }
  assert (Many : forall a, kids_of it = Kargs a ->
    ('(found, s, arg) ← walk_args (walk processor n) l s arg; if (found : bool) then Some (true, s, arg) else processor l s arg) =
    visit (mjoin (post n s0 <$> arg_list a) ++ [l]) s arg).
  { intros a Ka. assert (exists xs, has_args a xs) as [xs Hxs].
    { unfold kids_of in Ka. destruct (item_class_of it) as [| | | | | f | f |] eqn:Kc; try done; injection Ka as <-; apply (Ha f); unfold func_of; by rewrite Kc. }
    rewrite (arg_list_has _ _ Hxs), visit_app. unfold walk_args.
    rewrite (args_of_kids s l it' a L') by congruence. cbn [mbind option_bind]. destruct Hxs as [Hlen Hat].
    rewrite (walk_args_loop_ok n s0 l it a C L Ka xs); [| done | lia | lia | done | lia].
    destruct (visit (mjoin (post n s0 <$> xs)) s arg) as [[[[] s1] a1] |]; [done | | done]. cbn [mbind option_bind]. by rewrite visit_one. }
  unfold kids_of in K, One, Many |- *.
  destruct (item_class_of it') eqn:K1, (item_class_of it) eqn:K2; try discriminate; try injection K as ->;
    solve [unfold Item_walk; by rewrite visit_one | by apply One | by apply Many].
Qed.
End visit.

Lemma elem_of_post rank s (W : wf rank s) n : forall l x, is_Some (s !! l) -> (rank l < n)%nat -> x ∈ post n s l <-> below true s l x.
Proof.
  induction n as [| n IH]; intros l x [it L] Hn; [lia |]. destruct (W _ _ L) as [Hc Ha]. cbn [post]. rewrite L. change (kids_of <$> Some it) with (Some (kids_of it)).
  assert (Step : forall ys, (forall y, y ∈ ys <-> child true it y) -> x ∈ mjoin (post n s <$> ys) ++ [l] <-> below true s l x).
  { intros ys Hys. rewrite elem_of_app, list_elem_of_singleton, list_elem_of_join.
    split.
    - intros [(ps & Hx & Hps) | ->]; [| constructor]. apply list_elem_of_fmap in Hps as (y & -> & Hy). apply Hys in Hy. destruct (Hc y Hy).
      eapply below_step; [done | done |]. apply IH; [done | lia | done].
    - intros B. destruct (below_inv _ _ _ _ _ L B) as [-> | (y & Cy & By)]; [by right |]. left. destruct (Hc y Cy).
      exists (post n s y). split; [apply IH; [done | lia | done] |]. apply list_elem_of_fmap. exists y. split; [done | by apply Hys]. }
  unfold kids_of. destruct (item_class_of it) eqn:K.
  1-3,8: specialize (Step []); cbn in Step; apply Step; intros y; (split; [set_solver | intros [? ? C' | ? ? | ? ? F' ?]; [congruence | congruence | unfold func_of in F'; by rewrite K in F']]).
  - specialize (Step [item]). cbn in Step. rewrite app_nil_r in Step. apply Step. intros y. rewrite list_elem_of_singleton.
    split; [intros ->; by apply child_copy | intros [? ? C' | ? ? | ? ? F' ?]; [congruence | congruence | unfold func_of in F'; by rewrite K in F']].
  - specialize (Step [orig_item]). cbn in Step. rewrite app_nil_r in Step. apply Step. intros y. rewrite list_elem_of_singleton.
    split; [intros ->; by eapply child_wrapper | intros [? ? C' | ? ? | ? ? F' ?]; [congruence | congruence | unfold func_of in F'; by rewrite K in F']].
  - assert (F : func_of it = Some f) by (unfold func_of; by rewrite K). destruct (Ha f F) as [xs Hxs]. rewrite (arg_list_has _ _ Hxs).
    apply Step. intros y. split; [by apply (child_of_arg _ f xs) | by apply (arg_of_child _ f xs)].
  - assert (F : func_of it = Some f) by (unfold func_of; by rewrite K). destruct (Ha f F) as [xs Hxs]. rewrite (arg_list_has _ _ Hxs).
    apply Step. intros y. split; [by apply (child_of_arg _ f xs) | by apply (arg_of_child _ f xs)].
Qed.

(** C26: [walk] is the processor called on the items below the root, the arguments before
    their function, from left to right, until it returns true; exactly the items below the root are
    visited. It may change the items, but not what is below what. *)
Theorem walk_is_postorder {A} (processor : loc -> items -> A -> option (bool * items * A)) rank s l n arg :
  wf rank s -> is_Some (s !! l) -> (rank l < n)%nat ->
  (forall x s arg r s' arg', processor x s arg = Some (r, s', arg') -> same_tree s s') ->
  walk processor n s arg l = visit processor (post n s l) s arg /\ (forall x, x ∈ post n s l <-> below true s l x).
Proof.
  intros W Hl Hn K. split; [| by intros x; eapply elem_of_post]. by apply (walk_ok processor K rank s W n s arg l).
Qed.

Definition with_expensive (it : Item T) (e : Z) : Item T := MkItem (with_field it) (with_param it) e (item_class_of it).

Lemma visit_pure (p : loc -> bool) xs s :
  visit (fun (l : loc) (s : items) (arg : unit) => Some (p l, s, arg)) xs s tt = Some (existsb p xs, s, tt).
Proof. induction xs as [| x xs IH]; [done |]. cbn. by destruct (p x). Qed.

Lemma pure_keeps (p : loc -> bool) (x : loc) (s : items) (arg : unit) r s' arg' : Some (p x, s, arg) = Some (r, s', arg') -> same_tree s s'.
Proof. by intros [= _ <- _]. Qed.

Lemma is_expensive_asks rank (p : loc -> bool) n s l it (W : wf rank s) :
  s !! l = Some it -> is_expensive_cache it < 0 -> (rank l < n)%nat ->
  exists b : bool, is_expensive p n s l = Some (b, <[l := with_expensive it (if b then 1 else 0)]> s) /\
    (b = true <-> exists x, below true s l x /\ p x = true).
Proof.
  intros L Neg Hn. unfold is_expensive. rewrite L. cbn [mbind option_bind]. destruct (Z.ltb_spec (is_expensive_cache it) 0); [| lia].
  rewrite (walk_ok _ (pure_keeps p) rank s W n s tt l (reflexivity s) (mk_is_Some _ _ L) Hn), visit_pure.
  cbn [mbind option_bind]. rewrite L. cbn [mbind option_bind is_expensive_cache]. exists (existsb p (post n s l)). split.
  - by destruct (existsb p (post n s l)).
  - rewrite existsb_exists. split; intros (x & Hx & Hp); exists x; (split; [| done]).
    + eapply (elem_of_post rank s W n l x (mk_is_Some _ _ L) Hn). by apply list_elem_of_In.
    + apply list_elem_of_In. by apply (elem_of_post rank s W n l x (mk_is_Some _ _ L) Hn).
Qed.

(** The items [xs] with the flag cleared. *)
Definition cleared (xs : list loc) (s : items) : items := foldl (fun s x => alter (fun it => with_expensive it (-1)) x s) s xs.

Lemma cleared_lookup xs : forall s x, cleared xs s !! x = (fun it => if decide (x ∈ xs) then with_expensive it (-1) else it) <$> s !! x.
Proof.
  induction xs as [| y xs IH]; intros s x; cbn [cleared foldl].
  - destruct (s !! x); [cbn | done]. by destruct (decide (x ∈ [])) as [[]%not_elem_of_nil |].
  - change (foldl _ (alter ?f y s) xs) with (cleared xs (alter f y s)). rewrite IH. destruct (decide (x = y)) as [-> |].
    + rewrite lookup_alter_eq. destruct (s !! y); [cbn | done]. destruct (decide (y ∈ xs)), (decide (y ∈ y :: xs)); try done; exfalso; set_solver.
    + rewrite lookup_alter_ne by done. destruct (s !! x); [cbn | done]. destruct (decide (x ∈ xs)), (decide (x ∈ y :: xs)); try done; exfalso; set_solver.
Qed.

Lemma visit_cleanup xs : forall s, (forall x, x ∈ xs -> is_Some (s !! x)) ->
  visit cleanup_is_expensive_cache_processor xs s tt = Some (false, cleared xs s, tt).
Proof.
  induction xs as [| x xs IH]; intros s Hx; [done |]. cbn [visit].
  destruct (Hx x) as [it L]; [set_solver |].
  assert (R : cleanup_is_expensive_cache_processor x s tt = Some (false, <[x := with_expensive it (-1)]> s, tt))
    by (unfold cleanup_is_expensive_cache_processor; by rewrite L).
  rewrite R. cbn [mbind option_bind].
  assert (E : <[x := with_expensive it (-1)]> s = alter (fun it => with_expensive it (-1)) x s).
  { apply map_eq. intros y. destruct (decide (y = x)) as [-> |]; [by rewrite lookup_insert_eq, lookup_alter_eq, L | by rewrite lookup_insert_ne, lookup_alter_ne]. }
  rewrite E, IH; [done |]. intros y Hy. destruct (decide (y = x)) as [-> |].
  - rewrite lookup_alter_eq, L. eauto.
  - rewrite lookup_alter_ne by done. apply Hx. set_solver.
Qed.

Lemma cleanup_keeps x s arg r s' arg' : cleanup_is_expensive_cache_processor x s arg = Some (r, s', arg') -> same_tree s s'.
Proof.
  unfold cleanup_is_expensive_cache_processor. destruct (s !! x) as [it |] eqn:L; [| done]. cbn [mbind option_bind]. intros [= _ <- _] y.
  destruct (decide (y = x)) as [-> |]; [by rewrite lookup_insert_eq, L | by rewrite lookup_insert_ne].
Qed.

Lemma with_expensive_tree s l it e : s !! l = Some it -> same_tree s (<[l := with_expensive it e]> s).
Proof. intros L x. destruct (decide (x = l)) as [-> |]; [by rewrite lookup_insert_eq, L | by rewrite lookup_insert_ne]. Qed.

Lemma child_kids it it' x : kids_of it = kids_of it' -> child true it x -> child true it' x.
Proof.
  intros K [q m C | _ C | f i F Hi At]; unfold kids_of in K; [rewrite C in K .. |].
  - destruct (item_class_of it') eqn:C'; try done; injection K as <-; [by apply child_copy | by eapply child_wrapper].
  - destruct (item_class_of it') eqn:C'; try done; injection K as <-; [by apply child_copy | by eapply child_wrapper].
  - unfold func_of in F. destruct (item_class_of it) eqn:C; try done; injection F as ->;
      destruct (item_class_of it') eqn:C'; try done; injection K as K; rewrite K in *; eapply child_arg; try done; unfold func_of; by rewrite C'.
Qed.

Lemma below_tree s s' l x : same_tree s s' -> below true s l x -> below true s' l x.
Proof.
  intros E B. induction B as [| x it y B IH L C]; [constructor |].
  destruct (tree_lookup _ _ _ _ E L) as (it' & L' & K). eapply below_child; eauto using child_kids.
Qed.

Lemma wf_tree rank s s' : same_tree s s' -> wf rank s -> wf rank s'.
Proof.
  intros E W l it' L'. destruct (tree_lookup s' s l it') as (it & L & K); [by symmetry | done |]. destruct (W _ _ L) as [Hc Ha]. split.
  - intros x C. destruct (Hc x) as [[ix Lx] ?]; [by eapply child_kids |]. split; [| done].
    destruct (tree_lookup _ _ _ _ E Lx) as (? & ? & _). eauto.
  - intros f F. unfold func_of, kids_of in *. destruct (item_class_of it'); try done; injection F as ->;
      destruct (item_class_of it) as [| | | | | f' | f' |]; try done; injection K as K; destruct (Ha f' eq_refl) as [xs Hxs]; rewrite K in Hxs; eauto.
Qed.

(** Whether an item is expensive is asked once: the first [is_expensive] says whether the
    processor says so of some item below, and later calls, whatever the processor then
    says, answer the same and change nothing, until a walk with [cleanup_is_expensive_cache_processor]
    from any item above: then the question is asked again. *)
Theorem is_expensive_cached rank s l it n (p : loc -> bool) :
  wf rank s -> s !! l = Some it -> is_expensive_cache it < 0 -> (rank l < n)%nat ->
  exists b s', is_expensive p n s l = Some (b, s') /\ (b = true <-> exists x, below true s l x /\ p x = true) /\
    (forall p' m, is_expensive p' m s' l = Some (b, s')) /\
    (forall top m p', below true s top l -> is_Some (s !! top) -> (rank top < m)%nat ->
      exists s2, walk cleanup_is_expensive_cache_processor m s' tt top = Some (false, s2, tt) /\
        exists b' s3, is_expensive p' n s2 l = Some (b', s3) /\ (b' = true <-> exists x, below true s l x /\ p' x = true)).
Proof.
  intros W L Neg Hn. destruct (is_expensive_asks rank p n s l it W L Neg Hn) as (b & R & Hb).
  set (s' := <[l := with_expensive it (if b then 1 else 0)]> s) in *. assert (E : same_tree s s') by (by apply with_expensive_tree).
  assert (L1 : s' !! l = Some (with_expensive it (if b then 1 else 0))) by apply lookup_insert_eq.
  exists b, s'. split; [done |]. split; [done |]. split.
  - intros p' m. unfold is_expensive. rewrite L1. by destruct b.
  - intros top m p' B Ht Hm. assert (W' : wf rank s') by (by apply (wf_tree rank s)).
    assert (Ex : forall x, below true s' top x -> is_Some (s' !! x)).
    { intros x. apply (below_exists rank); [done |]. destruct Ht as [it0 L0]. destruct (tree_lookup _ _ _ _ E L0) as (? & ? & _). eauto. }
    assert (Et : is_Some (s' !! top)) by (apply Ex; constructor).
    exists (cleared (post m s' top) s'). rewrite (walk_ok _ cleanup_keeps rank s' W' m s' tt top (reflexivity s') Et Hm), visit_cleanup.
    + split; [done |]. set (s2 := cleared (post m s' top) s').
      assert (E2 : same_tree s' s2) by (intros x; unfold s2; rewrite cleared_lookup; destruct (s' !! x); [cbn; by destruct (decide _) | done]).
      assert (L2 : s2 !! l = Some (with_expensive it (-1))).
      { unfold s2. rewrite cleared_lookup, L1. cbn. rewrite decide_True; [done |].
        apply (elem_of_post rank s' W' m top l Et Hm). by apply (below_tree s). }
      destruct (is_expensive_asks rank p' n s2 l _ (wf_tree rank _ _ E2 W') L2) as (b' & R' & Hb'); [cbn; lia | done |].
      exists b', (<[l := with_expensive (with_expensive it (-1)) (if b' then 1 else 0)]> s2). split; [done |]. rewrite Hb'.
      assert (E3 : same_tree s s2) by (by transitivity s').
      split; intros (x & Bx & Px); exists x; (split; [| done]); [apply (below_tree s2); [by symmetry | done] | by apply (below_tree s)].
    + intros x Hx. apply Ex. by apply (elem_of_post rank s' W' m top x Et Hm).
Qed.

(** *** Pushing a condition down to a table *)

(** Why a leaf may be below an expression that is accepted for [tab_map]. *)
Definition leaf_accepted (tab_map : Z) (it : Item T) : Prop :=
  leaf_const it = true \/
  (forall k, 0 <= k < 64 -> Z.testbit (leaf_tables it) k = true -> Z.testbit tab_map k = true) \/
  exists o, item_class_of it = Item_other o /\ leaf_excl_dep_on_table (leaf_update_used_tables o) tab_map = true.

Lemma excl_dep_loop_ok (excl : loc -> option bool) n s a xs : (forall x, x ∈ xs -> is_Some (const_item n s x) /\ is_Some (excl x)) ->
  forall i, (forall j x, xs !! j = Some x -> arg_at a (i + Z.of_nat j) = Some x) ->
  exists b, excl_dep_loop excl n s a (length xs) i = Some b /\
    (b = true -> forall x, x ∈ xs -> const_item n s x = Some true \/ excl x = Some true).
Proof.
  induction xs as [| x xs IH]; intros Hx i At; [exists true; split; [done | set_solver] |]. cbn [length excl_dep_loop].
  pose proof (At 0%nat x eq_refl) as A0. rewrite Z.add_0_r in A0. rewrite A0. cbn [mbind option_bind].
  destruct (Hx x) as [[c Ec] [e Ee]]; [set_solver |]. rewrite Ec. cbn [mbind option_bind].
  destruct (IH ltac:(intros; apply Hx; set_solver) (i + 1)) as (b & R & Hb).
  { intros j y Lj. rewrite <- (At (S j) y Lj). f_equal. lia. }
  destruct c; [exists b; split; [done |]; intros Et y Hy; apply elem_of_cons in Hy as [-> |]; [by left | by apply Hb] |].
  rewrite Ee. cbn [mbind option_bind]. destruct e; cbn [negb].
  - exists b. split; [done |]. intros Et y Hy. apply elem_of_cons in Hy as [-> |]; [by right | by apply Hb].
  - by exists false.
Qed.

Lemma land_wnot_zero t m : t &&& wnot 64 m = 0 -> forall k, 0 <= k < 64 -> Z.testbit t k = true -> Z.testbit m k = true.
Proof.
  intros E k Hk Ht. assert (B : Z.testbit (t &&& wnot 64 m) k = false) by (by rewrite E, Z.bits_0).
  rewrite Z.land_spec, Ht, testbit_wnot in B by lia. destruct (Z.ltb_spec k 64); [| lia]. by destruct (Z.testbit m k).
Qed.

Lemma excl_dep_ok rank s s' (W : wf rank s) (E : same_shape s s') tab_map n : forall l, is_Some (s !! l) -> (rank l < n)%nat ->
  (forall x, below false s l x -> s' !! x = final rank s x) ->
  exists b, excl_dep_on_table n tab_map s' l = Some b /\
    (b = true -> forall x ix, below false s l x -> s !! x = Some ix -> leaf_accepted tab_map ix).
Proof.
  induction n as [| n IH]; intros l [it L] Hn B; [lia |]. destruct (W _ _ L) as [Hc Ha].
  assert (C : forall x, child false it x -> is_Some (s !! x) /\ (rank x < n)%nat /\ forall y, below false s x y -> s' !! y = final rank s y).
  { intros x C. destruct (Hc x (child_copied _ _ C)). split; [done |]. split; [lia |]. intros y By. apply B. by eapply below_step. }
  assert (Args : forall f, func_of it = Some f -> exists b, args_excl_dep_on_table (excl_dep_on_table n tab_map s') n s' (func_args f) = Some b /\
    (b = true -> forall x ix, below false s l x -> s !! x = Some ix -> leaf_accepted tab_map ix)).
  { intros f F. destruct (Ha f F) as [xs Hxs]. pose proof Hxs as [Hlen Hat]. unfold args_excl_dep_on_table. rewrite Hlen, Nat2Z.id.
    assert (Cx : forall x, x ∈ xs -> child false it x) by (intros x; by apply (child_of_arg _ f xs)).
    destruct (excl_dep_loop_ok (excl_dep_on_table n tab_map s') n s' (func_args f) xs) with (i := 0) as (b & R & Hb); [| done |].
    - intros x Hx. destruct (C x (Cx x Hx)) as (Hs & Hr & Hf). destruct (read_final rank s s' W E n x Hs Hr Hf) as [_ ->].
      destruct (IH x Hs Hr Hf) as (e & -> & _). eauto.
    - exists b. split; [done |]. intros Et x ix Bx Lx. destruct (below_inv _ _ _ _ _ L Bx) as [-> | (y & Cy & By)].
      + left. replace ix with it by congruence. unfold leaf_const. unfold func_of in F. by destruct (item_class_of it).
      + pose proof (arg_of_child _ f xs y false F Hxs Cy) as Hy. destruct (C y Cy) as (Hs & Hr & Hf). destruct (Hb Et y Hy) as [Hk | Hk].
        * left. destruct (read_final rank s s' W E n y Hs Hr Hf) as [_ Hc']. rewrite Hc' in Hk. injection Hk as Hk.
          destruct (tree_leaves rank s W (S (rank y)) y Hs ltac:(lia)) as [_ Lc]. by apply (proj1 Lc Hk x).
        * destruct (IH y Hs Hr Hf) as (e & Ee & He). apply (He ltac:(congruence) x); done. }
  cbn [excl_dep_on_table]. rewrite (B l (below_self _ _ _)).
  destruct (func_of it) as [f |] eqn:F.
  - rewrite (final_func rank s l it f L F). cbn [mbind option_bind]. destruct (Args f eq_refl) as (b & R & Hb).
    destruct (tree_leaves rank s W (S (rank l)) l (mk_is_Some _ _ L) ltac:(lia)) as [Lt _].
    set (t := tree_tables (S (rank l)) s l) in *. set (c := tree_const (S (rank l)) s l) in *.
    unfold func_of in F. unfold put. destruct (item_class_of it) eqn:K; try done; injection F as ->; cbn [item_class_of set_class].
    + unfold Item_func_excl_dep_on_table, Item_func_used_tables. cbn [used_tables_cache set_caches func_args].
      destruct (negb (t &&& OUTER_REF_TABLE_BIT =? 0)); [by exists false |]. cbn [or_else mbind option_bind].
      destruct (Z.eqb_spec (t &&& wnot 64 tab_map) 0) as [Z0 |]; [| by exists b].
      exists true. split; [done |]. intros _ x ix Bx Lx. right. left. intros k Hk Hbit. apply (land_wnot_zero t tab_map Z0 k Hk). apply Lt. eauto.
    + unfold Item_row_excl_dep_on_table. cbn [set_caches func_args]. by exists b.
  - rewrite (final_plain rank s l it L F). cbn [mbind option_bind]. unfold func_of in F.
    destruct (item_class_of it) eqn:K; try done; unfold shape; rewrite K; cbn [set_class item_class_of]; try by exists false.
    eexists. split; [done |]. intros Et x ix Bx Lx. destruct (below_inv _ _ _ _ _ L Bx) as [-> | (y & Cy & _)].
    + right. right. exists o. split; [congruence | done].
    + destruct Cy as [? ? C' | ? ? | ? ? F' ?]; [congruence | done | unfold func_of in F'; by rewrite K in F'].
Qed.

(** C5: After [update_used_tables], [excl_dep_on_table] always answers; when it accepts an
    expression for the tables [tab_map], every leaf of the expression is constant, or uses no other
    table, or accepts by itself (a column that is equal to one of the table); a
    function with an argument that refers to an outer query is never accepted. *)
Theorem excl_dep_on_table_is_safe rank s s' l n tab_map :
  wf rank s -> is_Some (s !! l) -> (rank l < n)%nat -> update_used_tables n s l = Some s' ->
  exists b, excl_dep_on_table n tab_map s' l = Some b /\
    (b = true -> forall x ix, below false s l x -> s !! x = Some ix -> leaf_accepted tab_map ix) /\
    ((exists it f x ix, s !! l = Some it /\ item_class_of it = Item_func f /\ below false s l x /\ s !! x = Some ix /\
       Z.testbit (leaf_tables ix) 62 = true) -> b = false).
Proof.
  intros W Hl Hn R. destruct (update_ok rank s W n s l (reflexivity _) Hl Hn) as (s1 & R1 & (E & B & _)). replace s1 with s' in * by congruence.
  destruct (excl_dep_ok rank s s' W E tab_map n l Hl Hn B) as (b & Rb & Hb). exists b. split; [done |]. split; [done |].
  intros (it & f & x & ix & L & K & Bx & Lx & Hk). assert (F : func_of it = Some f) by (unfold func_of; by rewrite K).
  destruct n as [| n]; [lia |]. cbn [excl_dep_on_table] in Rb. rewrite (B l (below_self _ _ _)), (final_func rank s l it f L F) in Rb.
  cbn [mbind option_bind] in Rb. unfold put in Rb. rewrite K in Rb. cbn [item_class_of set_class] in Rb.
  unfold Item_func_excl_dep_on_table, Item_func_used_tables in Rb. cbn [used_tables_cache set_caches] in Rb.
  destruct (tree_leaves rank s W (S (rank l)) l Hl ltac:(lia)) as [Lt _].
  assert (Hbit : Z.testbit (tree_tables (S (rank l)) s l &&& OUTER_REF_TABLE_BIT) 62 = true) by (rewrite Z.land_spec, (proj2 (Lt 62)) by eauto; done).
  destruct (Z.eqb_spec (tree_tables (S (rank l)) s l &&& OUTER_REF_TABLE_BIT) 0) as [Z0 |]; cbn [negb] in Rb; [| congruence].
  by rewrite Z0 in Hbit.
Qed.

(** *** Rows and constructors *)

Lemma add_argument_ok a xs cells x : args a = Some cells -> arg_count a = Z.of_nat (length xs) -> (length xs < length cells)%nat -> Z.of_nat (length cells) < 2 ^ 32 ->
  (forall i y, xs !! i = Some y -> arg_at a (Z.of_nat i) = Some y) ->
  exists a' cells', add_argument a x = Some a' /\ args a' = Some cells' /\ length cells' = length cells /\ has_args a' (xs ++ [x]).
Proof.
  intros Ea Ec Hlt Hw At. unfold add_argument. rewrite Ea, Ec. cbn [mbind option_bind].
  destruct (Z.leb_spec 0 (Z.of_nat (length xs))); [| lia]. destruct (Z.ltb_spec (Z.of_nat (length xs)) (Z.of_nat (length cells))); [| lia]. cbn [andb].
  eexists _, _. split; [done |]. split; [done |]. rewrite length_insert. split; [done |]. rewrite Nat2Z.id, u32_small by lia. split; cbn [arg_count].
  { rewrite length_app. cbn. lia. }
  intros i y Hi. unfold arg_at. cbn [args]. destruct (Z.ltb_spec (Z.of_nat i) 0); [lia |]. cbn [mbind option_bind]. rewrite Nat2Z.id.
  apply lookup_app_Some in Hi as [Hi | [Hi1 Hi2]].
  - rewrite list_lookup_insert_ne by (apply lookup_lt_Some in Hi; lia). pose proof (At i y Hi) as A0. unfold arg_at in A0. rewrite Ea in A0. cbn [mbind option_bind] in A0.
    destruct (Z.ltb_spec (Z.of_nat i) 0); [lia |]. by rewrite Nat2Z.id in A0.
  - apply list_lookup_singleton_Some in Hi2 as [Hz ->]. replace i with (length xs) by lia. rewrite list_lookup_insert_eq by lia. done.
Qed.

Lemma extract_loop_ok (s : items) rows pos : forall (todo : list (loc * loc)) k this done_ cells,
  length todo = k -> args this = Some cells -> has_args this done_ -> (length done_ + k <= length cells)%nat -> Z.of_nat (length cells) < 2 ^ 32 ->
  (forall j r x, todo !! j = Some (r, x) -> arg_at rows (Z.of_nat (length done_ + j)) = Some r /\ element_index s r pos = Some x) ->
  exists this', extract_loop k s rows pos (Z.of_nat (length done_)) this = Some this' /\ has_args this' (done_ ++ todo.*2).
Proof.
  induction todo as [| [r x] todo IH]; intros k this done_ cells <- Ea Ha Hc Hw At.
  - exists this. cbn. by rewrite app_nil_r.
  - destruct (At 0%nat r x eq_refl) as [Ar Ex]. rewrite Nat.add_0_r in Ar. cbn [length extract_loop]. rewrite Ar. cbn [mbind option_bind]. rewrite Ex. cbn [mbind option_bind].
    destruct Ha as [Hn Hat]. cbn [length] in Hc.
    destruct (add_argument_ok this done_ cells x Ea Hn ltac:(lia) Hw Hat) as (this1 & cells1 & R & Ea1 & Hl1 & Ha1). rewrite R. cbn [mbind option_bind].
    destruct (IH (length todo) this1 (done_ ++ [x]) cells1 eq_refl Ea1 Ha1) as (this' & R' & Ha').
    + rewrite length_app, Hl1. cbn. lia.
    + by rewrite Hl1.
    + intros j r' x' Hj. rewrite length_app. cbn. rewrite <- Nat.add_assoc. apply (At (S j)). done.
    + exists this'. rewrite length_app in R'. cbn in R'. replace (Z.of_nat (length done_) + 1) with (Z.of_nat (length done_ + 1)) by lia.
      split; [done |]. by rewrite <- app_assoc in Ha'.
Qed.

(** [alloc_and_extract_row_elements] takes a column out of an array of rows: when there is
    memory, the arguments become the elements at [pos] of the rows in order; without
    memory it reports that and adds nothing. *)
Theorem row_elements_extracted (s : items) (alloc : Item_args -> Z -> bool * Item_args) this rows rs pos :
  (forall a n a', 0 <= n -> alloc a n = (false, a') -> arg_count a' = 0 /\ exists cells, args a' = Some cells /\ Z.of_nat (length cells) = n) ->
  has_args rows rs -> Z.of_nat (length rs) < 2 ^ 32 -> 0 <= pos ->
  Forall (fun r => exists it f xs, s !! r = Some it /\ item_class_of it = Item_row f /\ has_args (func_args f) xs /\ pos < Z.of_nat (length xs)) rs ->
  (exists a', alloc this (Z.of_nat (length rs)) = (true, a') /\ alloc_and_extract_row_elements alloc this s rows pos = Some (true, a')) \/
  (exists this' xs, alloc_and_extract_row_elements alloc this s rows pos = Some (false, this') /\ has_args this' xs /\
     Forall2 (fun r x => element_index s r pos = Some x) rs xs).
Proof.
  intros Law [Hn Hat] Hw Hpos Hrows. unfold alloc_and_extract_row_elements, argument_count. rewrite Hn.
  destruct (alloc this (Z.of_nat (length rs))) as [[] a'] eqn:Al; [left; by exists a' |]. right.
  destruct (Law _ _ _ (Zle_0_nat _) Al) as (H0 & cells & Ea & Hl).
  assert (exists xs, Forall2 (fun r x => element_index s r pos = Some x) rs xs) as [xs Hxs].
  { clear - Hrows Hpos. induction Hrows as [| r rs (it & f & ys & L & K & [Hn Hat] & Hlt) _ [xs IH]]; [by exists [] |].
    destruct (lookup_lt_is_Some_2 ys (Z.to_nat pos)) as [x Hx]; [lia |]. exists (x :: xs). constructor; [| done].
    unfold element_index. rewrite L. cbn [mbind option_bind]. rewrite K. unfold Item_row_element_index. rewrite <- (Hat _ _ Hx). f_equal. lia. }
  assert (Hlen : length rs = length xs) by (by eapply Forall2_length). rewrite Nat2Z.id.
  destruct (extract_loop_ok s rows pos (zip rs xs) (length rs) a' [] cells) as (this' & R & Ha).
  - rewrite length_zip_with. lia.
  - done.
  - split; [done |]. intros i x Hx. done.
  - cbn. lia.
  - lia.
  - intros j r x Hj. apply lookup_zip_Some in Hj as [Hr Hx]. split; [by apply Hat |]. by apply (Forall2_lookup_lr _ _ _ _ _ _ Hxs Hr).
  - change (Z.of_nat (length (@nil loc))) with 0 in R. rewrite R. cbn [mbind option_bind]. exists this', xs. split; [done |]. split; [| done].
    rewrite snd_zip in Ha by lia. done.
Qed.

(** *** Lists of items *)

Lemma put_caches_args (s s' : items) l t c x : put_caches s l t c = Some s' -> args_of s' x = args_of s x.
Proof.
  unfold put_caches. destruct (s !! l) as [it |] eqn:L; [| done]. cbn [mbind option_bind]. intros P.
  destruct (decide (x = l)) as [-> |].
  - destruct (item_class_of it) eqn:K; try done; injection P as <-; unfold args_of; rewrite lookup_insert_eq, L; cbn; unfold func_of; by rewrite K.
  - destruct (item_class_of it) eqn:K; try done; injection P as <-; unfold args_of; by rewrite lookup_insert_ne.
Qed.

Lemma join_args update n (s s' : items) this item : (forall s x s', update s x = Some s' -> args_of s' this = args_of s this) ->
  used_tables_and_const_cache_update_and_join update n s this item = Some s' -> args_of s' this = args_of s this.
Proof.
  intros Hu. unfold used_tables_and_const_cache_update_and_join, used_tables_and_const_cache_join.
  destruct (update s item) as [s1 |] eqn:U; [| done]. cbn [mbind option_bind]. rewrite <- (Hu _ _ _ U).
  destruct (s1 !! this) as [it |]; [| done]. cbn [mbind option_bind]. destruct (func_of it) as [f |]; [| done]. cbn [mbind option_bind].
  destruct (used_tables n s1 item) as [t |]; [| done]. cbn [mbind option_bind]. destruct (const_item n s1 item) as [c |]; [| done]. cbn [mbind option_bind].
  apply put_caches_args.
Qed.

Lemma list_loop_ok (update : items -> loc -> option items) (n : nat) (eol : loc) (m : mem) a0 this (xs : list loc) : (forall s x s', update s x = Some s' -> args_of s' this = args_of s this) -> eol_ok eol m ->
  forall ns k s it ad i, chain 0 m ad ns (VObj eol) -> infos m ns (VObj <$> xs) -> it_el it = VAddr ad -> (length xs < k)%nat ->
  args_of s this = Some a0 -> (forall j x, xs !! j = Some x -> arg_at a0 (i + Z.of_nat j) = Some x) ->
  update_and_join_list_loop update n k s this it m = update_and_join_loop update n (length xs) s this i.
Proof.
  intros Hu [He1 He2]. induction xs as [| x xs IH]; intros ns k s it ad i Hc Hi Hit Hk Ha At; (destruct k as [| k]; [lia |]); cbn [update_and_join_list_loop].
  - apply Forall2_nil_inv_r in Hi as ->. cbn in Hc. destruct (next_fast_steps it m ad eol VNull Hit Hc He2) as (it' & R & _). by rewrite R.
  - destruct ns as [| n0 ns]; [by inversion Hi |]. cbn [fmap list_fmap] in Hi. apply infos_cons in Hi as [Hi His]. destruct Hc as [Hc1 Hc2].
    destruct (next_fast_steps it m ad n0 (VObj x) Hit Hc1 Hi) as (it' & R & _ & El). rewrite R. cbn [mbind option_bind length update_and_join_loop].
    pose proof (At 0%nat x eq_refl) as A0. rewrite Z.add_0_r in A0. rewrite Ha. cbn [mbind option_bind]. rewrite A0. cbn [mbind option_bind].
    destruct (used_tables_and_const_cache_update_and_join update n s this x) as [s1 |] eqn:J; [| done]. cbn [mbind option_bind].
    apply (IH ns k s1 it' (nxt n0) (i + 1)); [done | done | done | cbn in Hk; lia | |].
    + by rewrite (join_args _ _ _ _ _ _ Hu J).
    + intros j y Hj. rewrite <- (At (S j) y Hj). f_equal. lia.
Qed.

Lemma loop_args update n this : (forall s x s', update s x = Some s' -> forall l, args_of s' l = args_of s l) ->
  forall k s s' i l, update_and_join_loop update n k s this i = Some s' -> args_of s' l = args_of s l.
Proof.
  intros Hu. induction k as [| k IH]; intros s s' i l; cbn [update_and_join_loop]; [by intros [= ->] |].
  destruct (args_of s this) as [a |]; [| done]. cbn [mbind option_bind]. destruct (arg_at a i) as [x |]; [| done]. cbn [mbind option_bind].
  destruct (used_tables_and_const_cache_update_and_join update n s this x) as [s1 |] eqn:J; [| done]. cbn [mbind option_bind]. intros R.
  rewrite (IH _ _ _ _ R). revert J. unfold used_tables_and_const_cache_update_and_join, used_tables_and_const_cache_join.
  destruct (update s x) as [s2 |] eqn:U; [| done]. cbn [mbind option_bind]. rewrite <- (Hu _ _ _ U l).
  destruct (s2 !! this) as [it |]; [| done]. cbn [mbind option_bind]. destruct (func_of it) as [f |]; [| done]. cbn [mbind option_bind].
  destruct (used_tables n s2 x) as [t |]; [| done]. cbn [mbind option_bind]. destruct (const_item n s2 x) as [c |]; [| done]. cbn [mbind option_bind].
  apply put_caches_args.
Qed.

Lemma update_args n : forall s x s', update_used_tables n s x = Some s' -> forall l, args_of s' l = args_of s l.
Proof.
  induction n as [| n IH]; intros s x s'; [done |]. cbn [update_used_tables]. destruct (s !! x) as [it |] eqn:L; [| done]. cbn [mbind option_bind].
  assert (Fn : forall f, Item_func_update_used_tables (update_used_tables n) n s x f = Some s' -> forall l, args_of s' l = args_of s l).
  { intros f. unfold Item_func_update_used_tables, update_and_join_args. destruct (used_tables_and_const_cache_init s x) as [s1 |] eqn:I; [| done].
    cbn [mbind option_bind]. intros R l. rewrite (loop_args _ _ _ IH _ _ _ _ _ R). by eapply put_caches_args. }
  destruct (item_class_of it) as [| | | | | f | f | o] eqn:K; try (by intros [= <-]); try (by apply IH); try apply (Fn f).
  intros [= <-] l. destruct (decide (l = x)) as [-> |]; unfold args_of; [rewrite lookup_insert_eq, L | by rewrite lookup_insert_ne].
  cbn. unfold func_of. by rewrite K.
Qed.

(** Updating and joining the items of a [List<Item>] is doing so for an array that holds
    the same items in order, with the same result, defined or not. *)
Theorem list_and_array_join_alike (eol : loc) (m : mem) l ns (xs : list loc) n k (s : items) this a :
  eol_ok eol m -> is_list eol m l ns (VObj <$> xs) -> (length xs < k)%nat -> args_of s this = Some a -> has_args a xs ->
  update_and_join_list (update_used_tables n) n k s this l m = update_and_join_args (update_used_tables n) n s this (arg_count a).
Proof.
  intros He Hl Hk Ha [Hn Hat]. unfold update_and_join_list, update_and_join_args. rewrite Hn, Nat2Z.id. destruct Hl as [Hc _ _ Hi _ _ _].
  apply (list_loop_ok (update_used_tables n) n eol m a this xs (fun s x s' R => update_args n s x s' R this) He ns k s (iter_init l) (l, F_first) 0); done.
Qed.

(** *** Constructors *)

Lemma or_else_some x y : or_else (Some x) (Some y) = Some (x || y).
Proof. by destruct x. Qed.

(** A function of five arguments that was built when there was no memory for
    them counts five arguments and has none: [update_used_tables] is undefined on it, while the
    function of four arguments has none to look at and is a constant. With memory,
    both have their arguments, and the flag for aggregates of any argument. *)
Theorem five_arguments_without_memory e0 (s : items) this a b c d e n (ia ib ic id ie : Item T) :
  s !! a = Some ia -> s !! b = Some ib -> s !! c = Some ic -> s !! d = Some id -> s !! e = Some ie ->
  exists it4 it5 it5', Item_func_4 e0 false s a b c d = Some it4 /\ Item_func_5 e0 false s a b c d e = Some it5 /\ Item_func_5 e0 true s a b c d e = Some it5' /\
    update_used_tables n (<[this := it5]> s) this = None /\
    (exists s', update_used_tables (S n) (<[this := it4]> s) this = Some s' /\ used_tables (S n) s' this = Some 0 /\ const_item (S n) s' this = Some true) /\
    (exists f, item_class_of it5' = Item_func f /\ has_args (func_args f) [a; b; c; d; e] /\
       m_with_sum_func f = existsb (fun x => bool_decide (with_sum_func s x = Some true)) [a; b; c; d; e]) /\
    with_field it5' = existsb with_field [ia; ib; ic; id; ie] /\ with_param it5' = existsb with_param [ia; ib; ic; id; ie].
Proof.
  intros Ha Hb Hc Hd He.
  assert (WS : forall x ix, s !! x = Some ix -> exists w, with_sum_func s x = Some w).
  { intros x ix L. unfold with_sum_func. rewrite L. cbn. destruct (item_class_of ix); eauto. }
  destruct (WS a ia Ha) as [wa Wa], (WS b ib Hb) as [wb Wb], (WS c ic Hc) as [wc Wc], (WS d id Hd) as [wd Wd], (WS e ie He) as [we We].
  unfold Item_func_4, Item_func_5, With_sum_func_cache_4, With_sum_func_cache_5, field_of, param_of.
  rewrite Wa, Wb, Wc, Wd, We, Ha, Hb, Hc, Hd, He. cbn [fmap option_fmap option_map]. rewrite !or_else_some. cbn [mbind option_bind].
  eexists _, _, _. split; [done |]. split; [done |]. split; [done |]. split_and!.
  - destruct n as [| n]; [done |]. cbn [update_used_tables]. rewrite lookup_insert_eq. cbn [mbind option_bind item_class_of].
    unfold Item_func_update_used_tables, used_tables_and_const_cache_init, put_caches. rewrite lookup_insert_eq. cbn [mbind option_bind item_class_of].
    unfold update_and_join_args. cbn [func_args new_func Item_args_5 arg_count]. change (Z.to_nat 5) with 5%nat. cbn [update_and_join_loop].
    unfold args_of. rewrite lookup_insert_eq. done.
  - cbn [update_used_tables]. rewrite lookup_insert_eq. cbn [mbind option_bind item_class_of].
    unfold Item_func_update_used_tables, used_tables_and_const_cache_init, put_caches. rewrite lookup_insert_eq. cbn [mbind option_bind item_class_of].
    unfold update_and_join_args. cbn [func_args new_func Item_args_4 arg_count]. change (Z.to_nat 0) with 0%nat. cbn [update_and_join_loop].
    eexists. split; [done |]. cbn [used_tables const_item]. by rewrite lookup_insert_eq.
  - eexists. split; [done |]. split.
    + split; [done |]. intros i x Hi. do 5 (destruct i as [| i]; [by injection Hi as <- |]). done.
    + cbn [m_with_sum_func new_func existsb]. rewrite Wa, Wb, Wc, Wd, We. by destruct wa, wb, wc, wd, we.
  - cbn. by rewrite orb_false_r, !orb_assoc.
  - cbn. by rewrite orb_false_r, !orb_assoc.
Qed.
End trees.

(** ** Instances *)

(** A column of table [t]: its tables are known after an update. *)
Definition column : Type := Z * Z.
#[export] Instance column_leaf : LeafItem column.
Proof.
  refine {| leaf_used_tables := fst; leaf_const_item := fun o => fst o =? 0; leaf_with_sum_func := fun _ => false;
            leaf_excl_dep_on_table := fun o m => snd o &&& wnot 64 m =? 0; leaf_update_used_tables := fun o => (snd o, snd o) |}.
  by intros [a b].
Defined.

(** [f(1, g(c1, c1), row(c2, 1))] with stale caches: 1 is [f], 2 [g], 3 the row, 4 the literal, 5 and 6 the columns. *)
Definition demo_func (xs : list loc) : func := Func (Args (Some (Some <$> xs)) (Z.of_nat (length xs))) 99 false false true.
Definition demo_items : gmap loc (Item column) := list_to_map
  [(1%positive, MkItem true false (-1) (Item_func (demo_func [4; 2; 3]%positive)));
   (2%positive, MkItem true false (-1) (Item_func (demo_func [5; 5]%positive)));
   (3%positive, MkItem true false (-1) (Item_row (demo_func [6; 4]%positive)));
   (4%positive, MkItem false false (-1) Item_literal);
   (5%positive, MkItem true false (-1) (Item_other (0, 1)));
   (6%positive, MkItem true false (-1) (Item_other (0, 4)))].
Definition demo_rank (l : loc) : nat := match l with 1%positive => 2 | 2%positive | 3%positive => 1 | _ => 0 end.

Ltac demo_lookup :=
  repeat match goal with
  | L : demo_items !! ?x = Some _ |- _ =>
    unfold demo_items in L; cbn [list_to_map foldr fst snd uncurry] in L;
    repeat (apply lookup_insert_Some in L as [[<- <-] | [? L]]); [.. | by apply lookup_empty_Some in L]
  end.

Lemma demo_has xs : has_args (func_args (demo_func xs)) xs.
Proof.
  split; [done |]. intros i x Hx. unfold arg_at, demo_func. cbn [args func_args]. destruct (Z.ltb_spec (Z.of_nat i) 0); [lia |].
  cbn [mbind option_bind]. rewrite Nat2Z.id, list_lookup_fmap, Hx. done.
Qed.

Lemma demo_child (it : Item column) xs x : func_of it = Some (demo_func xs) -> child true it x -> x ∈ xs.
Proof. intros F. by apply (arg_of_child it (demo_func xs) xs x true F (demo_has xs)). Qed.

Lemma demo_wf : wf demo_rank demo_items.
Proof.
  intros l it L.
  assert (K : exists e xs k, it = MkItem (with_field it) false e k /\ (forall f, func_of it = Some f -> f = demo_func xs) /\
    (forall x, child true it x -> x ∈ xs) /\ Forall (fun x => is_Some (demo_items !! x) /\ (demo_rank x < demo_rank l)%nat) xs).
  { demo_lookup; eexists _, _, _; (split; [reflexivity |]); (split; [cbn; by intros f [= <-] || by intros f [=] |]).
    1-3: split; [intros x C; eapply demo_child; [| exact C]; reflexivity |
      repeat constructor; try (vm_compute; by eexists); cbn; lia].
    all: split; [intros x [? ? C | ? C | ? ? C]; discriminate | apply List.Forall_nil]. }
  destruct K as (e & xs & k & _ & Hf & Hx & Hall). split.
  - intros x C. apply Hx in C. rewrite Forall_forall in Hall. by apply Hall.
  - intros f F. rewrite (Hf f F). exists xs. apply demo_has.
Qed.

Lemma update_used_tables_spec_witness :
  (exists s' t c, update_used_tables 3 demo_items 1 = Some s' /\ used_tables 3 s' 1 = Some t /\ const_item 3 s' 1 = Some c /\
    update_used_tables 3 s' 1 = Some s') /\
  (s' ← update_used_tables 3 demo_items 1; t ← used_tables 3 s' 1; c ← const_item 3 s' 1; Some (t, c)) = Some (5, false).
Proof.
  split; [| by vm_compute].
  destruct (update_used_tables_spec demo_rank demo_items 1 3 demo_wf ltac:(by eexists) ltac:(cbn; lia)) as (s' & t & c & H1 & H2 & H3 & _ & _ & _ & H4 & _).
  eauto 8.
Defined.

Lemma walk_is_postorder_witness :
  walk (fun l s (a : list loc) => Some (false, s, a ++ [l])) 3 demo_items [] 1 =
    visit (fun l s (a : list loc) => Some (false, s, a ++ [l])) (post 3 demo_items 1) demo_items [] /\
  post 3 demo_items 1 = [4; 5; 5; 2; 6; 4; 3; 1]%positive.
Proof.
  split; [| by vm_compute].
  apply (walk_is_postorder (fun l s (a : list loc) => Some (false, s, a ++ [l])) demo_rank demo_items 1 3 [] demo_wf); [by eexists | cbn; lia |].
  by intros ? ? ? ? ? ? [= _ <- _].
Defined.

Lemma is_expensive_cached_witness :
  exists b s', is_expensive (fun l => bool_decide (l = 6%positive)) 3 demo_items 1 = Some (b, s') /\
    (forall p' m, is_expensive p' m s' 1 = Some (b, s')).
Proof.
  destruct (is_expensive_cached demo_rank demo_items 1 (MkItem true false (-1) (Item_func (demo_func [4; 2; 3]%positive))) 3
    (fun l => bool_decide (l = 6%positive)) demo_wf eq_refl ltac:(cbn; lia) ltac:(cbn; lia)) as (b & s' & H1 & _ & H2 & _).
  eauto.
Defined.

Lemma excl_dep_on_table_is_safe_witness :
  (exists s' b, update_used_tables 3 demo_items 1 = Some s' /\ excl_dep_on_table 3 5 s' 1 = Some b /\
    (b = true -> forall x ix, below false demo_items 1 x -> demo_items !! x = Some ix -> leaf_accepted 5 ix)) /\
  (s' ← update_used_tables 3 demo_items 1; a ← excl_dep_on_table 3 5 s' 1; b ← excl_dep_on_table 3 4 s' 1; Some (a, b)) = Some (true, false).
Proof.
  split; [| by vm_compute]. destruct (update_used_tables 3 demo_items 1) as [s' |] eqn:E; [| vm_compute in E; discriminate].
  destruct (excl_dep_on_table_is_safe demo_rank demo_items s' 1 3 5 demo_wf ltac:(by eexists) ltac:(cbn; lia) E) as (b & H1 & H2 & _).
  eauto.
Defined.

Lemma row_elements_extracted_witness :
  exists this' xs, alloc_and_extract_row_elements (fun _ n => (false, Args (Some (replicate (Z.to_nat n) None)) 0)) Item_args_0 demo_items
      (Item_args_2 3 3) 1 = Some (false, this') /\ has_args this' xs /\ Forall2 (fun r x => element_index demo_items r 1 = Some x) [3; 3]%positive xs.
Proof.
  destruct (row_elements_extracted demo_items (fun _ n => (false, Args (Some (replicate (Z.to_nat n) None)) 0)) Item_args_0 (Item_args_2 3 3) [3; 3]%positive 1)
    as [(a' & [=] & _) | R]; [.. | exact R].
  - intros a n a' Hn [= <-]. split; [done |]. eexists. split; [done |]. rewrite length_replicate. lia.
  - split; [done |]. intros i x Hi. do 2 (destruct i as [| i]; [by injection Hi as <- |]). done.
  - cbn. lia.
  - lia.
  - repeat constructor; (eexists _, _, [6; 4]%positive; split; [reflexivity |]; split; [reflexivity |]; split; [apply demo_has | cbn; lia]).
Defined.

Definition demo_list : mem := <[(4%positive, F_info) := VObj 6]> (<[(5%positive, F_info) := VObj 4]> demo_mem).

Lemma list_and_array_join_alike_witness :
  update_and_join_list (update_used_tables 1) 1 3 demo_items 3 2 demo_list = update_and_join_args (update_used_tables 1) 1 demo_items 3 2.
Proof.
  apply (list_and_array_join_alike 1 demo_list 2 [4; 5]%positive [6; 4]%positive 1 3 demo_items 3 (func_args (demo_func [6; 4]%positive))).
  - split; reflexivity.
  - split; try reflexivity; try (by vm_compute).
    + repeat (apply infos_cons; split; [reflexivity |]). apply infos_nil.
    + apply (bool_decide_unpack _). by vm_compute.
    + apply (bool_decide_unpack _). by vm_compute.
  - cbn. lia.
  - reflexivity.
  - apply demo_has.
Defined.

Lemma five_arguments_without_memory_witness :
  exists it5, Item_func_5 (-1) false demo_items 4 4 5 6 4 = Some it5 /\ update_used_tables 9 (<[7%positive := it5]> demo_items) 7 = None.
Proof.
  destruct (five_arguments_without_memory (-1) demo_items 7 4 4 5 6 4 9 _ _ _ _ _ eq_refl eq_refl eq_refl eq_refl eq_refl)
    as (_ & it5 & _ & _ & H5 & _ & HN & _).
  eauto.
Defined.
