(* ===== verification/Field.v ===== *)
(** * Field: columns in a record buffer ([field.h])

    A [Field] does not hold a value: it points into a record buffer, at the bytes of the
    value ([ptr]) and at the byte and bit that say whether it is NULL ([null_ptr], [null_bit]);
    columns without such a bit have a NULL [null_ptr].  The record is the memory of
    ByteMem.v, shared by all fields and all copies of the record: moving a field
    ([move_field_offset]) is looking at another copy, and [row_offset] arguments do
    so for one call.

    What a kind of column decides (its length, its type, how two values compare) is the class
    [FieldType].  Numbers are stored as the x86_64 macros of ByteOrder.v do. *)

From stdpp Require Import base numbers option list gmap sets.
From Stdlib Require Import ZArith Lia.
From S2P Require Import Prelude ByteOrder ByteMem KeySeg.

Local Open Scope Z_scope.
Local Open Scope cxx_scope.

(** ** Memory *)

(** [memcpy]: the two places may not overlap. *)
Definition memcpy (m : memory) (dst src n : Z) : option memory :=
  if (0 <? n) && (dst <? src + n) && (src <? dst + n) then None else
  bs ← read_bytes m src (Z.to_nat n);
  write_bytes m dst bs.
Definition bzero (m : memory) (a n : Z) : option memory := write_bytes m a (replicate (Z.to_nat n) 0).

(** ** Numbers of a given length *)

(* [field.h:4179-4182 number_storage_requirement] *)
Definition number_storage_requirement (n : Z) : Z := if n <? 256 then 1 else if n <? 65536 then 2 else if n <? 16777216 then 3 else 4.

Section endian.
(** The number of bits of [ulong]. *)
Variable W : Z.

(** The bytes that are written at [to]. *)
(* [field.h:4185-4198 store_bigendian] *)
Definition store_bigendian (num bytes_ : Z) : option bytes :=
  if bytes_ =? 1 then Some (Mi.mi_int1store num) else
  if bytes_ =? 2 then Some (Mi.mi_int2store num) else
  if bytes_ =? 3 then Some (Mi.mi_int3store W num) else
  if bytes_ =? 4 then Some (Mi.mi_int4store W num) else
  if bytes_ =? 5 then Some (Mi.mi_int5store W num) else
  if bytes_ =? 6 then Some (Mi.mi_int6store W num) else
  if bytes_ =? 7 then Some (Mi.mi_int7store W num) else
  if bytes_ =? 8 then Some (Mi.mi_int8store W num) else None.
(* [field.h:4201-4214 read_bigendian] *)
Definition read_bigendian (from : bytes) (bytes_ : Z) : option Z :=
  if Z.of_nat (length from) <? bytes_ then None else
  if bytes_ =? 1 then Some (Mi.mi_uint1korr from) else
  if bytes_ =? 2 then Some (Mi.mi_uint2korr from) else
  if bytes_ =? 3 then Some (Mi.mi_uint3korr from) else
  if bytes_ =? 4 then Some (Mi.mi_uint4korr from) else
  if bytes_ =? 5 then Some (Mi.mi_uint5korr from) else
  if bytes_ =? 6 then Some (Mi.mi_uint6korr from) else
  if bytes_ =? 7 then Some (Mi.mi_uint7korr from) else
  if bytes_ =? 8 then Some (Mi.mi_sint8korr from) else None.
End endian.
(* [field.h:4216-4226 store_lowendian] *)
Definition store_lowendian (num bytes_ : Z) : option bytes :=
  if bytes_ =? 1 then Some [u8 num] else
  if bytes_ =? 2 then Some (X64.int2store num) else
  if bytes_ =? 3 then Some (X64.int3store num) else
  if bytes_ =? 4 then Some (X64.int4store num) else
  if bytes_ =? 8 then Some (X64.int8store num) else None.
(* [field.h:4228-4238 read_lowendian] *)
Definition read_lowendian (from : bytes) (bytes_ : Z) : option Z :=
  if Z.of_nat (length from) <? bytes_ then None else
  if bytes_ =? 1 then from !! 0%nat else
  if bytes_ =? 2 then Some (X64.uint2korr from) else
  if bytes_ =? 3 then Some (X64.uint3korr from) else
  if bytes_ =? 4 then Some (X64.uint4korr from) else
  if bytes_ =? 8 then Some (X64.sint8korr from) else None.

(** ** Fields *)

(** Of the table: the buffer of its current row, and whether it is the row of NULLs of an outer join. *)
Record Table := Tbl { record0 : Z; null_row : bool; table_maybe_null : bool }.

(** A pointer of 0 is NULL. *)
(* [field.h:779-831 Field] *)
Record Field := Fld { ptr : Z; null_ptr : Z; null_bit : Z; field_length : Z; flags : Z }.

Definition with_ptrs (f : Field) (p np nb : Z) : Field := Fld p np nb (field_length f) (flags f).

(** What the kind of column decides. *)
Class FieldType := {
  pack_length : Field -> Z;
  type : Field -> Z;
  zero_pack : Field -> bool;
  compare : Field -> bytes -> bytes -> Z
}.

Definition UNSIGNED_FLAG : Z := 32.
(* [mysql_com.h:528-528 MYSQL_TYPE_STRING] *)
Definition MYSQL_TYPE_STRING : Z := 254.

Section code.
Context `{FieldType}.

(* [field.h:891-891 is_unsigned] *)
Definition is_unsigned (f : Field) : bool := negb (flags f &&& UNSIGNED_FLAG =? 0).
(** Of the value [nr] of the column. *)
(* [field.h:985-989 val_uint] *)
Definition Field_val_uint (nr : Z) : Z := if nr <? 0 then 0 else u64 nr.
(* [field.h:1045-1049 eq] *)
Definition eq (f field : Field) : bool :=
  (ptr f =? ptr field) && (null_ptr f =? null_ptr field) && (null_bit f =? null_bit field) && (type field =? type f).
(* [field.h:1057-1057 pack_length] *)
Definition Field_pack_length (f : Field) : Z := u32 (field_length f).
(* [field.h:1064-1064 pack_length_in_rec] *)
Definition pack_length_in_rec (f : Field) : Z := pack_length f.
(* [field.h:1077-1077 data_length] *)
Definition data_length (f : Field) : Z := pack_length f.
(* [field.h:1078-1078 sort_length] *)
Definition sort_length (f : Field) : Z := pack_length f.
(* [field.h:1112-1114 max_data_length] *)
Definition max_data_length (f : Field) : Z := pack_length f.
(* [field.h:1164-1164 key_length] *)
Definition key_length (f : Field) : Z := pack_length f.

(** The loop over [end]; a string shorter than [k]. *)
(* [field.h:1099-1099 value_length] *)
Fixpoint trailing_spaces (m : memory) (k : nat) (str end_ : Z) : option Z :=
  match k with
  | O => Some end_
  | S k =>
    if end_ >? str then
      c ← read m (end_ - 1);
      if c =? 32 then trailing_spaces m k str (end_ - 1) else Some end_
    else Some end_
  end.
(* [field.h:1091-1104 value_length] *)
Definition value_length (m : memory) (f : Field) : option Z :=
  let len := pack_length f in
  if negb (zero_pack f) && (type f =? MYSQL_TYPE_STRING) && (4 <=? len) && (len <? 256) then
    e ← trailing_spaces m (Z.to_nat len) (ptr f) (ptr f + len);
    Some (u32 (e - ptr f))
  else Some (data_length f).

(* [field.h:1116-1116 reset] *)
Definition reset (m : memory) (f : Field) : option memory := bzero m (ptr f) (pack_length f).
(* [field.h:1118-1122 ptr_in_record] *)
Definition ptr_in_record (t : Table) (f : Field) (record : Z) : Z := let l_offset := record - record0 t in ptr f + l_offset.

(** [cmp] reads both values; how it compares them is the kind's. *)
Definition cmp (m : memory) (f : Field) (a b : Z) : option Z :=
  x ← read_bytes m a (Z.to_nat (pack_length f));
  y ← read_bytes m b (Z.to_nat (pack_length f));
  Some (compare f x y).
(* [field.h:1242-1242 cmp] *)
Definition cmp_own (m : memory) (f : Field) (str : Z) : option Z := cmp m f (ptr f) str.
(* [field.h:1243-1244 cmp_max] *)
Definition cmp_max (m : memory) (f : Field) (a b max_len : Z) : option Z := cmp m f a b.
(* [field.h:1248-1249 cmp_offset] *)
Definition cmp_offset (m : memory) (f : Field) (row_offset : Z) : option Z := cmp m f (ptr f) (ptr f + row_offset).
(* [field.h:1252-1253 key_cmp] *)
Definition key_cmp (m : memory) (f : Field) (a b : Z) : option Z := cmp m f a b.
(* [field.h:1254-1255 key_cmp] *)
Definition key_cmp_own (m : memory) (f : Field) (str length : Z) : option Z := cmp m f (ptr f) str.

(** *** The NULL bit *)

(** [null_ptr[row_offset] & null_bit]. *)
Definition null_test (m : memory) (f : Field) (row_offset : Z) : option bool :=
  b ← read m (null_ptr f + row_offset); Some (negb (b &&& null_bit f =? 0)).
(* [field.h:1311-1332 is_null] *)
Definition is_null (m : memory) (t : Table) (f : Field) (row_offset : Z) : option bool :=
  if negb (null_ptr f =? 0) then null_test m f row_offset else Some (null_row t).
(* [field.h:1333-1334 is_real_null] *)
Definition is_real_null (m : memory) (f : Field) (row_offset : Z) : option bool :=
  if negb (null_ptr f =? 0) then null_test m f row_offset else Some false.
(* [field.h:1364-1365 maybe_null_in_table] *)
Definition maybe_null_in_table (t : Table) (f : Field) : bool := (record0 t <=? null_ptr f) && (null_ptr f <=? ptr f).
(* [field.h:1335-1340 is_null_in_record] *)
Definition is_null_in_record (m : memory) (t : Table) (f : Field) (record : Z) : option bool :=
  if maybe_null_in_table t f then
    b ← read m (record + u32 (null_ptr f - record0 t)); Some (negb (b &&& null_bit f =? 0))
  else Some false.
(* [field.h:1341-1342 set_null] *)
Definition set_null (m : memory) (f : Field) (row_offset : Z) : option memory :=
  if negb (null_ptr f =? 0) then
    b ← read m (null_ptr f + row_offset); write m (null_ptr f + row_offset) (b ||| null_bit f)
  else Some m.
(* [field.h:1343-1344 set_notnull] *)
Definition set_notnull (m : memory) (f : Field) (row_offset : Z) : option memory :=
  if negb (null_ptr f =? 0) then
    b ← read m (null_ptr f + row_offset); write m (null_ptr f + row_offset) (b &&& wnot 8 (null_bit f))
  else Some m.
(* [field.h:1345-1346 maybe_null] *)
Definition maybe_null (t : Table) (f : Field) : bool := negb (null_ptr f =? 0) || table_maybe_null t.
(* [field.h:1354-1354 real_maybe_null] *)
Definition real_maybe_null (f : Field) : bool := negb (null_ptr f =? 0).
(* [field.h:1355-1356 null_offset] *)
Definition null_offset (f : Field) (record : Z) : Z := u32 (null_ptr f - record).
(* [field.h:1367-1368 null_offset] *)
Definition null_offset0 (t : Table) (f : Field) : Z := null_offset f (record0 t).
(* [field.h:1369-1373 set_null_ptr] *)
Definition set_null_ptr (f : Field) (p_null_ptr p_null_bit : Z) : Field := with_ptrs f (ptr f) p_null_ptr (u8 p_null_bit).

(** *** Moving *)

(* [field.h:1450-1453 move_field] *)
Definition move_field (f : Field) (ptr_arg null_ptr_arg null_bit_arg : Z) : Field := with_ptrs f ptr_arg null_ptr_arg null_bit_arg.
(* [field.h:1454-1454 move_field] *)
Definition move_field_ptr (f : Field) (ptr_arg : Z) : Field := with_ptrs f ptr_arg (null_ptr f) (null_bit f).
(** [table->s->field[field_index]->ptr] is [share_ptr], [table->s->default_values] is [default_values]. *)
(* [field.h:1455-1459 record_ptr] *)
Definition record_ptr (f : Field) (share_ptr default_values : Z) : Z := let offset := share_ptr - default_values in ptr f - offset.
(* [field.h:1460-1465 move_field_offset] *)
Definition move_field_offset (f : Field) (ptr_diff : Z) : Field :=
  with_ptrs f (ptr f + ptr_diff) (if negb (null_ptr f =? 0) then null_ptr f + ptr_diff else null_ptr f) (null_bit f).
(* [field.h:1466-1467 get_image] *)
Definition get_image (m : memory) (f : Field) (buff length : Z) : option memory := memcpy m buff (ptr f) length.
(* [field.h:1468-1469 set_image] *)
Definition set_image (m : memory) (f : Field) (buff length : Z) : option memory := memcpy m (ptr f) buff length.
(* [field.h:1286-1289 store_field_value] *)
Definition store_field_value (m : memory) (f : Field) (val len : Z) : option memory := memcpy m (ptr f) val len.

(** *** Minimum and maximum *)

(* [field.h:1261-1270 update_min] *)
Definition update_min (m : memory) (f min_val : Field) (force_update : bool) : option (bool * memory) :=
  update_fl ← (if force_update then Some true else c ← cmp m f (ptr f) (ptr min_val); Some (c <? 0));
  if (update_fl : bool) then
    m ← set_notnull m min_val 0;
    m ← memcpy m (ptr min_val) (ptr f) (pack_length f);
    Some (update_fl, m)
  else Some (update_fl, m).
(* [field.h:1276-1285 update_max] *)
Definition update_max (m : memory) (f max_val : Field) (force_update : bool) : option (bool * memory) :=
  update_fl ← (if force_update then Some true else c ← cmp m f (ptr f) (ptr max_val); Some (c >? 0));
  if (update_fl : bool) then
    m ← set_notnull m max_val 0;
    m ← memcpy m (ptr max_val) (ptr f) (pack_length f);
    Some (update_fl, m)
  else Some (update_fl, m).

(** *** Packing integers *)

(* [field.h:1892-1896 pack_int] *)
Definition pack_int (m : memory) (to from size : Z) : option (Z * memory) := m ← memcpy m to from size; Some (to + size, m).
(* [field.h:1898-1905 unpack_int] *)
Definition unpack_int (m : memory) (to from from_end size : Z) : option (Z * memory) :=
  if from_end <? from + size then Some (0, m) else m ← memcpy m to from size; Some (from + size, m).
(* [field.h:1907-1908 pack_int16] *)
Definition pack_int16 (m : memory) (to from : Z) : option (Z * memory) := pack_int m to from 2.
(* [field.h:1909-1910 unpack_int16] *)
Definition unpack_int16 (m : memory) (to from from_end : Z) : option (Z * memory) := unpack_int m to from from_end 2.
(* [field.h:1911-1912 pack_int24] *)
Definition pack_int24 (m : memory) (to from : Z) : option (Z * memory) := pack_int m to from 3.
(* [field.h:1913-1914 unpack_int24] *)
Definition unpack_int24 (m : memory) (to from from_end : Z) : option (Z * memory) := unpack_int m to from from_end 3.
(* [field.h:1915-1916 pack_int32] *)
Definition pack_int32 (m : memory) (to from : Z) : option (Z * memory) := pack_int m to from 4.
(* [field.h:1917-1918 unpack_int32] *)
Definition unpack_int32 (m : memory) (to from from_end : Z) : option (Z * memory) := unpack_int m to from from_end 4.
(* [field.h:1919-1920 pack_int64] *)
Definition pack_int64 (m : memory) (to from : Z) : option (Z * memory) := pack_int m to from 8.
(* [field.h:1921-1922 unpack_int64] *)
Definition unpack_int64 (m : memory) (to from from_end : Z) : option (Z * memory) := unpack_int m to from from_end 8.
End code.

(** ** Integer columns *)

(** Of the value [nr]. *)
(* [field.h:2400-2404 val_uint] *)
Definition Field_int_val_uint (f : Field) (nr : Z) : Z := if (nr <? 0) && negb (is_unsigned f) then 0 else u64 nr.

(** [p[i] = 0] for the first [n] bytes, the last one first as the assignments nest. *)
Fixpoint clear_bytes (m : memory) (p : Z) (n : nat) : option memory :=
  match n with O => Some m | S n => m ← write m (p + Z.of_nat n) 0; clear_bytes m p n end.

(* [field.h:2468-2468 reset] *)
Definition tiny_reset (m : memory) (f : Field) : option memory := clear_bytes m (ptr f) 1.
(* [field.h:2475-2475 pack_length] *)
Definition tiny_pack_length : Z := 1.
(* [field.h:2481-2485 pack] *)
Definition tiny_pack (m : memory) (to from : Z) : option (Z * memory) := b ← read m from; m ← write m to b; Some (to + 1, m).
(* [field.h:2487-2494 unpack] *)
Definition tiny_unpack (m : memory) (to from from_end : Z) : option (Z * memory) :=
  if from =? from_end then Some (0, m) else b ← read m from; m ← write m to b; Some (from + 1, m).
(* [field.h:2495-2498 get_max_int_value] *)
Definition tiny_get_max_int_value (f : Field) : Z := if is_unsigned f then 255 else 127.
(* [field.h:2531-2531 reset] *)
Definition short_reset (m : memory) (f : Field) : option memory := clear_bytes m (ptr f) 2.
(* [field.h:2538-2538 pack_length] *)
Definition short_pack_length : Z := 2.
(* [field.h:2543-2544 pack] *)
Definition short_pack (m : memory) (to from : Z) : option (Z * memory) := pack_int16 m to from.
(* [field.h:2546-2548 unpack] *)
Definition short_unpack (m : memory) (to from from_end : Z) : option (Z * memory) := unpack_int16 m to from from_end.
(* [field.h:2549-2552 get_max_int_value] *)
Definition short_get_max_int_value (f : Field) : Z := if is_unsigned f then 65535 else 32767.
(* [field.h:2578-2578 reset] *)
Definition medium_reset (m : memory) (f : Field) : option memory := clear_bytes m (ptr f) 3.
(* [field.h:2585-2585 pack_length] *)
Definition medium_pack_length : Z := 3.
(* [field.h:2594-2597 get_max_int_value] *)
Definition medium_get_max_int_value (f : Field) : Z := if is_unsigned f then 16777215 else 8388607.
(* [field.h:2630-2630 reset] *)
Definition long_reset (m : memory) (f : Field) : option memory := clear_bytes m (ptr f) 4.
(* [field.h:2637-2637 pack_length] *)
Definition long_pack_length : Z := 4.
(* [field.h:2642-2645 pack] *)
Definition long_pack (m : memory) (to from : Z) : option (Z * memory) := pack_int32 m to from.
(* [field.h:2646-2650 unpack] *)
Definition long_unpack (m : memory) (to from from_end : Z) : option (Z * memory) := unpack_int32 m to from from_end.
(* [field.h:2651-2654 get_max_int_value] *)
Definition long_get_max_int_value (f : Field) : Z := if is_unsigned f then 4294967295 else 2147483647.
(* [field.h:2687-2691 reset] *)
Definition longlong_reset (m : memory) (f : Field) : option memory := clear_bytes m (ptr f) 8.
(* [field.h:2698-2698 pack_length] *)
Definition longlong_pack_length : Z := 8.
(* [field.h:2703-2706 pack] *)
Definition longlong_pack (m : memory) (to from : Z) : option (Z * memory) := pack_int64 m to from.
(* [field.h:2707-2711 unpack] *)
Definition longlong_unpack (m : memory) (to from from_end : Z) : option (Z * memory) := unpack_int64 m to from from_end.
(* [field.h:2714-2717 get_max_int_value] *)
Definition longlong_get_max_int_value (f : Field) : Z := if is_unsigned f then 18446744073709551615 else 9223372036854775807.

(** ** Strings of variable length *)

(** [binary_charset] is whether [field_charset() == &my_charset_bin]. *)
(* [field.h:4027-4029 Field_varstring] *)
Record Field_varstring := Varstring { vs_field : Field; length_bytes : Z; binary_charset : bool }.

(* [field.h:4041-4049 Field_varstring] *)
Definition varstring_length_bytes (len_arg : Z) : Z := if len_arg <? 256 then 1 else 2.
(* [field.h:4006-4009 get_data] *)
Definition get_data (f : Field_varstring) : Z := ptr (vs_field f) + length_bytes f.
(* [field.h:4010-4013 get_length] *)
Definition varstring_get_length (m : memory) (f : Field_varstring) : option Z :=
  if length_bytes f =? 1 then read m (ptr (vs_field f)) else b ← read_bytes m (ptr (vs_field f)) 2; Some (X64.uint2korr b).
(* [field.h:4015-4021 store_length] *)
Definition varstring_store_length (m : memory) (f : Field_varstring) (number : Z) : option memory :=
  if length_bytes f =? 1 then write m (ptr (vs_field f)) number else write_bytes m (ptr (vs_field f)) (X64.int2store number).
(* [field.h:4062-4062 reset] *)
Definition varstring_reset (m : memory) (f : Field_varstring) : option memory :=
  bzero m (ptr (vs_field f)) (u32 (field_length (vs_field f) + length_bytes f)).
(* [field.h:4063-4064 pack_length] *)
Definition varstring_pack_length (f : Field_varstring) : Z := u32 (field_length (vs_field f) + length_bytes f).
(* [field.h:4065-4065 key_length] *)
Definition varstring_key_length (f : Field_varstring) : Z := u32 (field_length (vs_field f)).
(* [field.h:4070-4073 sort_suffix_length] *)
Definition varstring_sort_suffix_length (f : Field_varstring) : Z := if binary_charset f then length_bytes f else 0.
(* [field.h:4066-4069 sort_length] *)
Definition varstring_sort_length (f : Field_varstring) : Z := u32 (field_length (vs_field f) + varstring_sort_suffix_length f).
(* [field.h:4122-4122 length_size] *)
Definition varstring_length_size (f : Field_varstring) : Z := length_bytes f.

(** ** Blobs *)

(** A blob in a record is its length, in [packlength] bytes, and a pointer to its data. *)
(* [field.h:4243-4248 Field_blob] *)
Record Field_blob := Blob { bl_field : Field; packlength : Z }.

(* [my_compare.h:125-125 portable_sizeof_char_ptr] *)
Definition portable_sizeof_char_ptr : Z := 8.

(** The functions that write and read the length are compiled elsewhere: the class says how they fit
    together. *)
Class BlobLength := {
  blob_store_length : memory -> Z -> Z -> Z -> option memory;
  blob_get_length : memory -> Z -> Z -> option Z;
  blob_length_law m p n number : mem_ok m -> 1 <= n <= 4 -> 0 <= number < 2 ^ 32 ->
    (forall x, p <= x < p + n -> is_Some (read m x)) ->
    exists m', blob_store_length m p n number = Some m' /\ mem_ok m' /\ same_domain m m' /\
      (forall x, ~ (p <= x < p + n) -> read m' x = read m x) /\ blob_get_length m' p n = Some (number mod 2 ^ (8 * n));
  blob_length_local m m' p n : (forall x, p <= x < p + n -> read m' x = read m x) -> blob_get_length m' p n = blob_get_length m p n
}.

Section blob.
Context `{BlobLength}.

(* [field.h:4277-4285 Field_blob] *)
Definition blob_packlength (len_arg : Z) (set_packlength : bool) : Z := if set_packlength then number_storage_requirement len_arg else 4.
(* [field.h:4391-4392 pack_length] *)
Definition blob_pack_length (f : Field_blob) : Z := u32 (packlength f + portable_sizeof_char_ptr).
(* [field.h:4402-4403 pack_length_no_ptr] *)
Definition pack_length_no_ptr (f : Field_blob) : Z := u32 (packlength f).
(* [field.h:4404-4404 row_pack_length] *)
Definition blob_row_pack_length (f : Field_blob) : Z := pack_length_no_ptr f.
(* [field.h:4408-4411 max_data_length] *)
Definition blob_max_data_length (f : Field_blob) : Z := u32 (u64 (1 <<< (packlength f * 8)) - 1).
(* [field.h:4412-4412 reset] *)
Definition blob_reset (m : memory) (f : Field_blob) : option memory := bzero m (ptr (bl_field f)) (packlength f + 8).
(* [field.h:4420-4424 store_length] *)
Definition blob_set_length (m : memory) (f : Field_blob) (number : Z) : option memory :=
  if number <? 4294967295 then blob_store_length m (ptr (bl_field f)) (packlength f) (u32 number) else None.
(* [field.h:4428-4429 get_length] *)
Definition blob_length_at (m : memory) (f : Field_blob) (ptr_arg : Z) : option Z := blob_get_length m ptr_arg (packlength f).
(* [field.h:4425-4426 get_length] *)
Definition get_length (m : memory) (f : Field_blob) (row_offset : Z) : option Z :=
  blob_get_length m (ptr (bl_field f) + row_offset) (packlength f).
(* [field.h:4431-4436 get_ptr] *)
Definition get_ptr (m : memory) (f : Field_blob) (row_offset : Z) : option Z :=
  s ← read_bytes m (ptr (bl_field f) + packlength f + row_offset) 8; Some (load_le 8 s).
(* [field.h:4430-4430 get_ptr] *)
Definition get_ptr0 (m : memory) (f : Field_blob) : option Z := get_ptr m f 0.
(** [length] points to the bytes of the length. *)
(* [field.h:4437-4441 set_ptr] *)
Definition set_ptr_bytes (m : memory) (f : Field_blob) (length data : Z) : option memory :=
  m ← memcpy m (ptr (bl_field f)) length (packlength f);
  write_bytes m (ptr (bl_field f) + packlength f) (store_le 8 data).
(* [field.h:4442-4447 set_ptr_offset] *)
Definition set_ptr_offset (m : memory) (f : Field_blob) (ptr_diff length data : Z) : option memory :=
  let ptr_ofs := ptr (bl_field f) + ptr_diff in
  m ← blob_store_length m ptr_ofs (packlength f) length;
  write_bytes m (ptr_ofs + packlength f) (store_le 8 data).
(* [field.h:4448-4451 set_ptr] *)
Definition set_ptr (m : memory) (f : Field_blob) (length data : Z) : option memory := set_ptr_offset m f 0 length data.
End blob.

(** ** Bit columns *)

(** The bits that do not fill a byte are at [bit_ofs] of [*bit_ptr], among the NULL bits. *)
(* [field.h:4749-4752 Field_bit] *)
Record Field_bit := Bit { bi_field : Field; bit_ptr : Z; bit_ofs : Z; bit_len : Z; bytes_in_rec : Z }.

(* [field.h:4760-4761 key_length] *)
Definition bit_key_length (f : Field_bit) : Z := u32 (field_length (bi_field f) + 7) / 8.
(* [field.h:4762-4762 max_data_length] *)
Definition bit_max_data_length (f : Field_bit) : Z := bit_key_length f.
(* [field.h:4858-4859 pack_length] *)
Definition bit_pack_length (f : Field_bit) : Z := u32 (field_length (bi_field f) + 7) / 8.
(* [field.h:4860-4860 pack_length_in_rec] *)
Definition bit_pack_length_in_rec (f : Field_bit) : Z := bytes_in_rec f.
(* [field.h:4862-4863 row_pack_length] *)
Definition bit_row_pack_length (f : Field_bit) : Z := u32 (bytes_in_rec f + (if 0 <? bit_len f then 1 else 0)).
(** [clr_rec_bits] looks at one byte or two. *)
(* [field.h:4779-4785 reset] *)
Definition bit_reset (m : memory) (f : Field_bit) : option memory :=
  m ← bzero m (ptr (bi_field f)) (bytes_in_rec f);
  if negb (bit_ptr f =? 0) && (0 <? bit_len f) then
    b ← read_bytes m (bit_ptr f) (if 8 <? bit_ofs f + bit_len f then 2 else 1);
    b ← clr_rec_bits b (bit_ofs f) (bit_len f);
    write_bytes m (bit_ptr f) b
  else Some m.
(* [field.h:4875-4879 set_bit_ptr] *)
Definition set_bit_ptr (f : Field_bit) (bit_ptr_arg bit_ofs_arg : Z) : Field_bit :=
  Bit (bi_field f) bit_ptr_arg bit_ofs_arg (bit_len f) (bytes_in_rec f).
(* [field.h:4880-4885 eq] *)
Definition bit_eq `{FieldType} (f field : Field_bit) : bool :=
  eq (bi_field f) (bi_field field) && (bit_ptr f =? bit_ptr field) && (bit_ofs f =? bit_ofs field).
(* [field.h:4887-4891 move_field_offset] *)
Definition bit_move_field_offset (f : Field_bit) (ptr_diff : Z) : Field_bit :=
  Bit (move_field_offset (bi_field f) ptr_diff) (bit_ptr f + ptr_diff) (bit_ofs f) (bit_len f) (bytes_in_rec f).

(** ** Lemmas on memory *)

Lemma memcpy_ok m dst src n bs : mem_ok m -> read_bytes m src n = Some bs -> writable m dst (Z.of_nat n) -> apart dst (Z.of_nat n) src (Z.of_nat n) ->
  exists m', memcpy m dst src (Z.of_nat n) = Some m' /\ mem_ok m' /\ same_domain m m' /\ read_bytes m' dst n = Some bs /\
    forall x, ~ (dst <= x < dst + Z.of_nat n) -> read m' x = read m x.
Proof.
  intros Hm Hr Hw Ha. unfold memcpy.
  destruct (Z.ltb_spec 0 (Z.of_nat n)), (Z.ltb_spec dst (src + Z.of_nat n)), (Z.ltb_spec src (dst + Z.of_nat n)); cbn [andb];
    try (destruct Ha; lia); rewrite Nat2Z.id, Hr; cbn [mbind option_bind];
    pose proof (read_bytes_length _ _ _ _ Hr) as <-; apply write_bytes_ok; eauto using read_bytes_bytes.
Qed.

Lemma land_bit b k : 0 <= k -> (b &&& 2 ^ k =? 0) = negb (Z.testbit b k).
Proof.
  intros Hk. destruct (Z.eqb_spec (b &&& 2 ^ k) 0) as [E | E].
  - assert (Z.testbit (b &&& 2 ^ k) k = false) as B by (by rewrite E, Z.bits_0). rewrite Z.land_spec, Z.pow2_bits_true, andb_true_r in B by done. by rewrite B.
  - destruct (Z.testbit b k) eqn:B; [done |]. exfalso. apply E. apply Z.bits_inj'. intros i Hi. rewrite Z.land_spec, Z.bits_0.
    destruct (decide (i = k)) as [-> |]; [by rewrite B |]. rewrite Z.pow2_bits_false by lia. apply andb_false_r.
Qed.

(** ** The NULL bit *)

Section null.
Context `{FieldType}.

(** The field [g], looked at with [row_offset], has the bit [j] of the byte at [a] for its NULL bit. *)
Definition null_at (g : Field) (row_offset a j : Z) : Prop := null_ptr g <> 0 /\ null_ptr g + row_offset = a /\ null_bit g = 2 ^ j /\ 0 <= j < 8.

Lemma null_test_bit m t g o a j : null_at g o a j -> is_null m t g o = (b ← read m a; Some (Z.testbit b j)).
Proof.
  intros (Hp & Ha & Hb & Hj). unfold is_null, null_test. destruct (Z.eqb_spec (null_ptr g) 0); [done |]. cbn [negb]. rewrite Ha, Hb.
  destruct (read m a); [| done]. cbn [mbind option_bind]. rewrite land_bit by lia. by rewrite negb_involutive.
Qed.

(** A bit of a byte set or cleared; all other bits of the memory stay. *)
Lemma write_bit m a k b v : mem_ok m -> 0 <= k < 8 -> read m a = Some b -> (forall j, 0 <= j < 8 -> j <> k -> Z.testbit v j = Z.testbit b j) ->
  exists m', write m a v = Some m' /\ mem_ok m' /\ same_domain m m' /\ (c ← read m' a; Some (Z.testbit c k)) = Some (Z.testbit v k) /\
    forall x j, 0 <= j < 8 -> (x, j) <> (a, k) -> (c ← read m' x; Some (Z.testbit c j)) = (c ← read m x; Some (Z.testbit c j)).
Proof.
  intros Hm Hk Hb Hv. destruct (write_ok m a v Hm (mk_is_Some _ _ Hb)) as (m' & W & Hm' & D & R & F). exists m'.
  assert (T : forall j, 0 <= j < 8 -> Z.testbit (u8 v) j = Z.testbit v j).
  { intros j Hj. unfold u8. rewrite testbit_wrap by lia. destruct (Z.ltb_spec j 8); [done | lia]. }
  split; [done |]. split; [done |]. split; [done |]. split.
  - rewrite R. cbn. by rewrite T.
  - intros x j Hj Hne. destruct (decide (x = a)) as [-> | Hx]; [| by rewrite F].
    rewrite R, Hb. cbn. rewrite T, Hv by (done || congruence). done.
Qed.

(** C7: A column that can be NULL is NULL after [set_null] and not NULL after [set_notnull], whatever row
    [row_offset] selects; no other column, nor the same column of another copy of the record,
    sees a change. A field moved by [move_field_offset] shows the row that [row_offset]
    shows, and so does [is_null_in_record] for a column whose NULL bit is in the record. *)
Theorem null_bits_isolated m t f o a k :
  mem_ok m -> null_at f o a k -> is_Some (read m a) ->
  exists m1 m2, set_null m f o = Some m1 /\ is_null m1 t f o = Some true /\ is_real_null m1 f o = Some true /\
    set_notnull m1 f o = Some m2 /\ is_null m2 t f o = Some false /\
    (forall g o' b j, null_at g o' b j -> (b, j) <> (a, k) -> is_null m1 t g o' = is_null m t g o' /\ is_null m2 t g o' = is_null m t g o') /\
    (null_ptr f + o <> 0 -> forall m', is_null m' t (move_field_offset f o) 0 = is_null m' t f o) /\
    (maybe_null_in_table t f = true -> null_ptr f - record0 t < 2 ^ 32 -> forall m', is_null_in_record m' t f (record0 t + o) = is_null m' t f o).
Proof.
  intros Hm Hf [b Hb]. pose proof Hf as (Hp & Ha & Hbit & Hk).
  assert (P : forall j, 0 <= j < 8 -> Z.testbit (2 ^ k) j = bool_decide (j = k)).
  { intros j Hj. destruct (decide (j = k)) as [-> |]; [by rewrite Z.pow2_bits_true, bool_decide_eq_true_2 by lia | by rewrite Z.pow2_bits_false, bool_decide_eq_false_2 by lia]. }
  destruct (write_bit m a k b (b ||| 2 ^ k) Hm Hk Hb) as (m1 & W1 & Hm1 & D1 & R1 & F1).
  { intros j Hj Hne. rewrite Z.lor_spec, P, bool_decide_eq_false_2 by done. apply orb_false_r. }
  assert (exists b1, read m1 a = Some b1) as [b1 Hb1] by (by apply D1).
  destruct (write_bit m1 a k b1 (b1 &&& wnot 8 (2 ^ k)) Hm1 Hk Hb1) as (m2 & W2 & Hm2 & D2 & R2 & F2).
  { intros j Hj Hne. rewrite Z.land_spec, testbit_wnot, P, bool_decide_eq_false_2 by (done || lia). destruct (Z.ltb_spec j 8); [| lia]. apply andb_true_r. }
  exists m1, m2. unfold set_null, set_notnull, is_real_null. destruct (Z.eqb_spec (null_ptr f) 0); [done |]. cbn [negb].
  rewrite Ha, Hb. cbn [mbind option_bind]. rewrite Hbit, W1. split; [done |].
  assert (N1 : is_null m1 t f o = Some true).
  { rewrite (null_test_bit m1 t f o a k Hf), R1, Z.lor_spec, P, bool_decide_eq_true_2 by done. by rewrite orb_true_r. }
  split; [done |]. split.
  { unfold is_null in N1. destruct (Z.eqb_spec (null_ptr f) 0); [done |]. exact N1. }
  rewrite Hb1. cbn [mbind option_bind]. split; [done |]. split.
  { rewrite (null_test_bit m2 t f o a k Hf), R2, Z.land_spec, testbit_wnot, P, bool_decide_eq_true_2 by (done || lia). by rewrite andb_false_r, andb_false_r. }
  split; [| split].
  - intros g o' b' j Hg Hne. pose proof Hg as (_ & _ & _ & Hj). rewrite !(null_test_bit _ t g o' b' j Hg).
    split; [by apply F1 |]. by rewrite F2, F1.
  - intros H0 m'. unfold is_null, null_test, move_field_offset, with_ptrs. cbn [null_ptr null_bit].
    destruct (Z.eqb_spec (null_ptr f) 0); [done |]. cbn [negb]. rewrite Ha.
    destruct (Z.eqb_spec a 0); [done |]. cbn [negb]. by rewrite Z.add_0_r.
  - intros Ht Hlt m'. unfold is_null_in_record, is_null, null_test. rewrite Ht. destruct (Z.eqb_spec (null_ptr f) 0); [done |]. cbn [negb].
    unfold maybe_null_in_table in Ht. apply andb_true_iff in Ht as [Ht _]. apply Z.leb_le in Ht. rewrite u32_small by lia.
    by replace (record0 t + o + (null_ptr f - record0 t)) with (null_ptr f + o) by lia.
Qed.
End null.

(** ** Minimum and maximum *)

Section bounds.
Context `{FieldType}.

(** [update_min] and [update_max] with the comparison as an argument. *)
Definition update_gen (better : Z -> bool) (m : memory) (f g : Field) (force_update : bool) : option (bool * memory) :=
  update_fl ← (if force_update then Some true else c ← cmp m f (ptr f) (ptr g); Some (better c));
  if (update_fl : bool) then
    m ← set_notnull m g 0;
    m ← memcpy m (ptr g) (ptr f) (pack_length f);
    Some (update_fl, m)
  else Some (update_fl, m).

(** Two columns of the same kind whose values, and the NULL bit of the second, do not overlap. *)
Record columns_ok (m : memory) (f g : Field) (k : Z) : Prop := {
  co_ok : mem_ok m;
  co_len : 0 <= pack_length f;
  co_f : writable m (ptr f) (pack_length f);
  co_g : writable m (ptr g) (pack_length f);
  co_apart : apart (ptr f) (pack_length f) (ptr g) (pack_length f);
  co_null : null_at g 0 (null_ptr g) k;
  co_null_in : is_Some (read m (null_ptr g));
  co_null_f : apart (null_ptr g) 1 (ptr f) (pack_length f);
  co_null_g : apart (null_ptr g) 1 (ptr g) (pack_length f) }.

Lemma columns_domain m m' f g k : mem_ok m' -> same_domain m m' -> columns_ok m f g k -> columns_ok m' f g k.
Proof using Type. intros Hm' D [Hm Hl Hf Hg Ha Hn Hi Hnf Hng]. split; eauto using writable_domain. by apply D. Qed.

Definition value_at (m : memory) (f g : Field) : option bytes := read_bytes m (ptr g) (Z.to_nat (pack_length f)).

Lemma update_gen_ok better m f g k force x y t :
  columns_ok m f g k -> value_at m f f = Some x -> value_at m f g = Some y ->
  let b := (force : bool) || better (compare f x y) in
  exists m', update_gen better m f g force = Some (b, m') /\ columns_ok m' f g k /\
    value_at m' f g = Some (if b then x else y) /\ (b = true -> is_null m' t g 0 = Some false) /\ (b = false -> m' = m).
Proof using Type.
  intros C Hx Hy b. pose proof C as [Hm Hl Hf Hg Ha Hn Hi Hnf Hng]. unfold update_gen.
  assert (E : (if force then Some true else c ← cmp m f (ptr f) (ptr g); Some (better c)) = Some b).
  { unfold b, cmp, value_at in *. destruct force; [done |]. rewrite Hx. cbn [mbind option_bind]. rewrite Hy. done. }
  rewrite E. cbn [mbind option_bind]. destruct b eqn:Eb; [| by exists m].
  pose proof Hn as (Hn1 & _ & Hn3 & Hk). destruct Hi as [nb Hnb]. unfold set_notnull. destruct (Z.eqb_spec (null_ptr g) 0); [done |]. cbn [negb].
  rewrite Z.add_0_r, Hnb. cbn [mbind option_bind]. rewrite Hn3.
  assert (P : forall j, 0 <= j < 8 -> j <> k -> Z.testbit (nb &&& wnot 8 (2 ^ k)) j = Z.testbit nb j).
  { intros j Hj Hne. rewrite Z.land_spec, testbit_wnot, Z.pow2_bits_false by lia. destruct (Z.ltb_spec j 8); [| lia]. apply andb_true_r. }
  destruct (write_bit m (null_ptr g) k nb _ Hm Hk Hnb P) as (m1 & W1 & Hm1 & D1 & R1 & F1). rewrite W1. cbn [mbind option_bind].
  assert (Frame : forall z, z <> null_ptr g -> read m1 z = read m z).
  { intros z Hz. destruct (write_ok m (null_ptr g) (nb &&& wnot 8 (2 ^ k)) Hm (mk_is_Some _ _ Hnb)) as (m1' & W1' & _ & _ & _ & Fr).
    replace m1 with m1' by congruence. by apply Fr. }
  assert (Hx1 : read_bytes m1 (ptr f) (Z.to_nat (pack_length f)) = Some x).
  { rewrite <- Hx. apply read_bytes_ext. intros z Hz. apply Frame. destruct Hnf; lia. }
  destruct (memcpy_ok m1 (ptr g) (ptr f) (Z.to_nat (pack_length f)) x Hm1 Hx1) as (m2 & M2 & Hm2 & D2 & R2 & F2).
  { rewrite Z2Nat.id by done. by apply (writable_domain m). }
  { rewrite Z2Nat.id by done. destruct Ha; [right | left]; done. }
  rewrite Z2Nat.id in M2, F2 by done. rewrite M2. cbn [mbind option_bind]. exists m2. split; [done |].
  split; [apply (columns_domain m); [done | by eapply same_domain_trans | done] |]. split; [done |]. split; [| done]. intros _.
  rewrite (null_test_bit m2 t g 0 (null_ptr g) k Hn). rewrite F2 by (destruct Hng; lia). rewrite R1, Z.land_spec, testbit_wnot, Z.pow2_bits_true by lia.
  by rewrite andb_false_r, andb_false_r.
Qed.

(** The statistics of a column: every value of [vs] is put into [f], then [g] is updated, the first time
    by force. *)
Fixpoint collect (upd : memory -> Field -> Field -> bool -> option (bool * memory)) (m : memory) (f g : Field) (force : bool) (vs : list bytes) :
    option memory :=
  match vs with
  | [] => Some m
  | v :: vs => m ← write_bytes m (ptr f) v; '(_, m) ← upd m f g force; collect upd m f g false vs
  end.

(** [compare] orders the values. *)
Record compare_ok (f : Field) : Prop := {
  cp_trans x y z : compare f x y <= 0 -> compare f y z <= 0 -> compare f x z <= 0;
  cp_total x y : compare f x y < 0 <-> 0 < compare f y x }.

Lemma collect_ok (better : Z -> bool) (le : bytes -> bytes -> Prop) f g k t :
  (forall x y, better (compare f x y) = true -> le x y) -> (forall x y, better (compare f x y) = false -> le y x) ->
  (forall x y z, le x y -> le y z -> le x z) -> (forall x, le x x) ->
  forall vs m y (seen : list bytes), columns_ok m f g k -> Forall (fun v => is_bytes v /\ Z.of_nat (length v) = pack_length f) vs ->
  value_at m f g = Some y -> is_null m t g 0 = Some false -> y ∈ seen -> (forall z, z ∈ seen -> le y z) ->
  exists m' r, collect (update_gen better) m f g false vs = Some m' /\ value_at m' f g = Some r /\ is_null m' t g 0 = Some false /\
    r ∈ seen ++ vs /\ forall z, z ∈ seen ++ vs -> le r z.
Proof using Type.
  intros B1 B2 Tr Re. induction vs as [| v vs IH]; intros m y seen C Hvs Hy Hn Hin Hle.
  - exists m, y. rewrite app_nil_r. done.
  - apply Forall_cons in Hvs as [[Hv Hl] Hvs]. cbn [collect]. pose proof C as [Hm Hl0 Hf Hg Ha Hna Hi Hnf Hng].
    destruct (write_bytes_ok v m (ptr f) Hm) as (m1 & W & Hm1 & D1 & R1 & F1); [by rewrite Hl | done |]. rewrite W. cbn [mbind option_bind].
    assert (C1 : columns_ok m1 f g k) by (by apply (columns_domain m)). rewrite Hl in F1.
    assert (Hx : value_at m1 f f = Some v) by (unfold value_at; by rewrite <- Hl, Nat2Z.id).
    assert (Hy1 : value_at m1 f g = Some y).
    { unfold value_at in *. rewrite <- Hy. apply read_bytes_ext. intros z Hz. apply F1. destruct Ha; lia. }
    assert (Hn1 : is_null m1 t g 0 = Some false).
    { rewrite (null_test_bit m1 t g 0 _ k Hna), F1 by (destruct Hnf; lia). by rewrite (null_test_bit m t g 0 _ k Hna) in Hn. }
    destruct (update_gen_ok better m1 f g k false v y t C1 Hx Hy1) as (m2 & U & C2 & R2 & N2 & S2). cbn [orb] in *. rewrite U. cbn [mbind option_bind].
    assert (Hn2 : is_null m2 t g 0 = Some false) by (destruct (better (compare f v y)); [by apply N2 | by rewrite S2]).
    destruct (IH m2 _ (seen ++ [v]) C2 Hvs R2 Hn2) as (m3 & r & R3 & V3 & N3 & I3 & L3).
    + destruct (better (compare f v y)); set_solver.
    + intros z Hz. apply elem_of_app in Hz as [Hz | Hz%list_elem_of_singleton]; destruct (better (compare f v y)) eqn:E.
      * apply (Tr _ y); [by apply B1 | by apply Hle].
      * by apply Hle.
      * by subst.
      * subst. by apply B2.
    + exists m3, r. rewrite <- app_assoc in I3, L3. done.
Qed.

Lemma collect_first (better : Z -> bool) (le : bytes -> bytes -> Prop) f g k t m v vs :
  (forall x y, better (compare f x y) = true -> le x y) -> (forall x y, better (compare f x y) = false -> le y x) ->
  (forall x y z, le x y -> le y z -> le x z) -> (forall x, le x x) ->
  columns_ok m f g k -> Forall (fun v => is_bytes v /\ Z.of_nat (length v) = pack_length f) (v :: vs) ->
  exists m' r, collect (update_gen better) m f g true (v :: vs) = Some m' /\ value_at m' f g = Some r /\ is_null m' t g 0 = Some false /\
    r ∈ v :: vs /\ forall z, z ∈ v :: vs -> le r z.
Proof using Type.
  intros B1 B2 Tr Re C Hvs. apply Forall_cons in Hvs as [[Hv Hl] Hvs]. cbn [collect]. pose proof C as [Hm Hl0 Hf Hg Ha Hna Hi Hnf Hng].
  destruct (write_bytes_ok v m (ptr f) Hm) as (m1 & W & Hm1 & D1 & R1 & F1); [by rewrite Hl | done |]. rewrite W. cbn [mbind option_bind].
  assert (C1 : columns_ok m1 f g k) by (by apply (columns_domain m)).
  assert (Hx : value_at m1 f f = Some v) by (unfold value_at; by rewrite <- Hl, Nat2Z.id).
  destruct (read_bytes_some m1 (ptr g) (Z.to_nat (pack_length f))) as [y Hy].
  { intros z Hz. apply D1, Hg. lia. }
  destruct (update_gen_ok better m1 f g k true v y t C1 Hx Hy) as (m2 & U & C2 & R2 & N2 & _). cbn [orb] in *. rewrite U. cbn [mbind option_bind].
  apply (collect_ok better le f g k t B1 B2 Tr Re vs m2 v [v]); [done | done | done | by apply N2 | set_solver |].
  intros z ->%list_elem_of_singleton. apply Re.
Qed.

(** Collecting the minimum of a column with [update_min] (the maximum with [update_max]), the
    first value by force, leaves the least (greatest) of the values, as the kind of
    column compares them, and a NULL bit that is off. *)
Theorem column_bounds_collected m f g k t v vs :
  columns_ok m f g k -> compare_ok f -> Forall (fun v => is_bytes v /\ Z.of_nat (length v) = pack_length f) (v :: vs) ->
  (exists m' r, collect update_min m f g true (v :: vs) = Some m' /\ value_at m' f g = Some r /\ is_null m' t g 0 = Some false /\
     r ∈ v :: vs /\ forall z, z ∈ v :: vs -> compare f r z <= 0) /\
  (exists m' r, collect update_max m f g true (v :: vs) = Some m' /\ value_at m' f g = Some r /\ is_null m' t g 0 = Some false /\
     r ∈ v :: vs /\ forall z, z ∈ v :: vs -> compare f z r <= 0).
Proof using Type.
  intros C [Tr To] Hvs. split.
  - change (collect update_min) with (collect (update_gen (fun c => c <? 0))).
    apply (collect_first (fun c => c <? 0) (fun x y => compare f x y <= 0) f g k t m v vs); [| | done | | done | done].
    + intros x y Hb. apply Z.ltb_lt in Hb. lia.
    + intros x y Hb. apply Z.ltb_ge in Hb. destruct (decide (0 < compare f y x)) as [Hp |]; [apply To in Hp; lia | lia].
    + intros x. destruct (decide (0 < compare f x x)) as [Hp |]; [apply To in Hp as Hq; lia | lia].
  - change (collect update_max) with (collect (update_gen (fun c => c >? 0))).
    apply (collect_first (fun c => c >? 0) (fun x y => compare f y x <= 0) f g k t m v vs); [| | intros x y z H1 H2; by apply (Tr z y x) | | done | done].
    + intros x y Hb. rewrite Z.gtb_ltb in Hb. apply Z.ltb_lt in Hb. apply To in Hb. lia.
    + intros x y Hb. rewrite Z.gtb_ltb in Hb. apply Z.ltb_ge in Hb. lia.
    + intros x. destruct (decide (0 < compare f x x)) as [Hp |]; [apply To in Hp as Hq; lia | lia].
Qed.
End bounds.

(** ** Packing integers *)

(** How the integer columns are packed: the function, its inverse and the number of bytes. *)
Definition int_packers : list ((memory -> Z -> Z -> option (Z * memory)) * (memory -> Z -> Z -> Z -> option (Z * memory)) * Z) :=
  [(tiny_pack, tiny_unpack, tiny_pack_length); (short_pack, short_unpack, short_pack_length); (pack_int24, unpack_int24, medium_pack_length);
   (long_pack, long_unpack, long_pack_length); (longlong_pack, longlong_unpack, longlong_pack_length)].

(** A packer copies; its inverse refuses what does not fit. *)
Definition packs (n : Z) (pk : memory -> Z -> Z -> option (Z * memory)) (up : memory -> Z -> Z -> Z -> option (Z * memory)) : Prop :=
  0 < n /\
  (forall m to from bs, mem_ok m -> read_bytes m from (Z.to_nat n) = Some bs -> writable m to n -> apart to n from n ->
     exists m', pk m to from = Some (to + n, m') /\ mem_ok m' /\ same_domain m m' /\ read_bytes m' to (Z.to_nat n) = Some bs /\
       forall x, ~ (to <= x < to + n) -> read m' x = read m x) /\
  (forall m to from from_end, from + n <= from_end -> forall bs, mem_ok m -> read_bytes m from (Z.to_nat n) = Some bs -> writable m to n -> apart to n from n ->
     exists m', up m to from from_end = Some (from + n, m') /\ mem_ok m' /\ same_domain m m' /\ read_bytes m' to (Z.to_nat n) = Some bs /\
       forall x, ~ (to <= x < to + n) -> read m' x = read m x) /\
  (forall m to from from_end, from <= from_end < from + n -> up m to from from_end = Some (0, m)).

Lemma packs_int n : 0 < n -> packs n (fun m to from => pack_int m to from n) (fun m to from from_end => unpack_int m to from from_end n).
Proof.
  intros Hn. split; [done |]. split; [| split].
  - intros m to from bs Hm Hr Hw Ha. destruct (memcpy_ok m to from (Z.to_nat n) bs Hm Hr) as (m' & M & R); [by rewrite Z2Nat.id by lia | by rewrite Z2Nat.id by lia |].
    rewrite Z2Nat.id in M, R by lia. exists m'. unfold pack_int. by rewrite M.
  - intros m to from from_end He bs Hm Hr Hw Ha. destruct (memcpy_ok m to from (Z.to_nat n) bs Hm Hr) as (m' & M & R); [by rewrite Z2Nat.id by lia | by rewrite Z2Nat.id by lia |].
    rewrite Z2Nat.id in M, R by lia. exists m'. unfold unpack_int. destruct (Z.ltb_spec from_end (from + n)); [lia |]. by rewrite M.
  - intros m to from from_end He. unfold unpack_int. destruct (Z.ltb_spec from_end (from + n)); [done | lia].
Qed.

Lemma packs_tiny : packs 1 tiny_pack tiny_unpack.
Proof.
  assert (Copy : forall m to from bs, mem_ok m -> read_bytes m from (Z.to_nat 1) = Some bs -> writable m to 1 ->
    exists b m', read m from = Some b /\ write m to b = Some m' /\ mem_ok m' /\ same_domain m m' /\ read_bytes m' to (Z.to_nat 1) = Some bs /\
       forall x, ~ (to <= x < to + 1) -> read m' x = read m x).
  { intros m to from bs Hm Hr Hw. change (Z.to_nat 1) with 1%nat in *. cbn [read_bytes] in *. destruct (read m from) as [b |] eqn:E; [| done].
    cbn in Hr. injection Hr as <-. destruct (write_ok m to b Hm) as (m' & W & Hm' & D & R & F); [apply Hw; lia |]. exists b, m'.
    pose proof (Hm _ _ E). rewrite R. cbn. unfold u8. rewrite (wrap_small 8) by (unfold is_word; lia).
    split_and!; try done. intros x Hx. apply F. lia. }
  split; [lia |]. split; [| split].
  - intros m to from bs Hm Hr Hw Ha. destruct (Copy m to from bs Hm Hr Hw) as (b & m' & E & W & R). exists m'. unfold tiny_pack.
    rewrite E. cbn [mbind option_bind]. by rewrite W.
  - intros m to from from_end He bs Hm Hr Hw Ha. destruct (Copy m to from bs Hm Hr Hw) as (b & m' & E & W & R). exists m'. unfold tiny_unpack.
    destruct (Z.eqb_spec from from_end); [lia |]. rewrite E. cbn [mbind option_bind]. by rewrite W.
  - intros m to from from_end He. unfold tiny_unpack. destruct (Z.eqb_spec from from_end); [done | lia].
Qed.

Lemma all_pack : Forall (fun p => packs p.2 p.1.1 p.1.2) int_packers.
Proof. unfold int_packers. repeat apply Forall_cons_2; [apply packs_tiny | apply (packs_int 2) | apply (packs_int 3) | apply (packs_int 4) | apply (packs_int 8) | apply Forall_nil_2]; lia. Qed.

(** An integer column packed at [to] and unpacked from there is the same bytes: both advance by the
    column's length and touch nothing else. Unpacking from a buffer that ends too soon
    answers NULL and writes nothing. *)
Theorem packed_integers_roundtrip pk up n m to from dst bs :
  (pk, up, n) ∈ int_packers -> mem_ok m -> read_bytes m from (Z.to_nat n) = Some bs ->
  writable m to n -> apart to n from n -> writable m dst n -> apart dst n to n ->
  exists m1 m2, pk m to from = Some (to + n, m1) /\ up m1 dst to (to + n) = Some (to + n, m2) /\
    read_bytes m2 dst (Z.to_nat n) = Some bs /\
    (forall x, ~ (to <= x < to + n) -> ~ (dst <= x < dst + n) -> read m2 x = read m x) /\
    forall from_end, to <= from_end < to + n -> up m1 dst to from_end = Some (0, m1).
Proof.
  intros Hin Hm Hr Hw Ha Hwd Had. destruct (proj1 (Forall_forall _ _) all_pack _ Hin) as (Hn & Pk & Up & Short). cbn [fst snd] in *.
  destruct (Pk m to from bs Hm Hr Hw Ha) as (m1 & P & Hm1 & D1 & R1 & F1).
  destruct (Up m1 dst to (to + n) ltac:(lia) bs Hm1 R1) as (m2 & U & Hm2 & D2 & R2 & F2); [by apply (writable_domain m) | done |].
  exists m1, m2. split; [done |]. split; [done |]. split; [done |]. split; [| by intros; apply Short].
  intros x Hx Hy. by rewrite F2, F1.
Qed.

(** ** The length of a fixed string without its spaces *)

Section spaces.
Context `{FieldType}.

Lemma trailing_spaces_ok m str k : forall bs, read_bytes m str k = Some bs -> mem_ok m ->
  exists r, trailing_spaces m k str (str + Z.of_nat k) = Some (str + Z.of_nat r) /\ (r <= k)%nat /\
    Forall (fun c => c = 32) (drop r bs) /\ (forall c, last (take r bs) = Some c -> c <> 32).
Proof using Type.
  induction k as [| k IH]; intros bs Hr Hm.
  - injection Hr as <-. exists 0%nat. cbn. split_and!; [done | done | apply Forall_nil_2 | done].
  - cbn [trailing_spaces]. rewrite Z.gtb_ltb. destruct (Z.ltb_spec str (str + Z.of_nat (S k))) as [_ |]; [| lia].
    assert (exists bs0 c, bs = bs0 ++ [c] /\ read_bytes m str k = Some bs0 /\ read m (str + Z.of_nat k) = Some c) as (bs0 & c & -> & Hr0 & Hc).
    { clear IH Hm. revert str bs Hr. induction k as [| k IH]; intros str bs.
      - cbn [read_bytes]. rewrite Z.add_0_r. destruct (read m str) as [c |]; [| done]. cbn. intros [= <-]. by exists [], c.
      - intros Hr. cbn [read_bytes] in Hr. destruct (read m str) as [b |] eqn:Eb; [| done]. cbn [mbind option_bind] in Hr.
        destruct (b1 ← read m (str + 1); bs1 ← read_bytes m (str + 1 + 1) k; Some (b1 :: bs1)) as [bs1 |] eqn:E1; [| done]. cbn in Hr. injection Hr as <-.
        destruct (IH (str + 1) bs1 E1) as (bs0 & c & -> & R0 & Rc). exists (b :: bs0), c. split; [done |].
        cbn [read_bytes]. rewrite Eb. cbn [mbind option_bind]. rewrite R0. split; [done |]. rewrite <- Rc. f_equal. lia. }
    replace (str + Z.of_nat (S k) - 1) with (str + Z.of_nat k) by lia. rewrite Hc. cbn [mbind option_bind].
    pose proof (read_bytes_length _ _ _ _ Hr0) as L0. destruct (Z.eqb_spec c 32) as [-> | Hne].
    + destruct (IH bs0 Hr0 Hm) as (r & R & Hk & Hd & Hl). exists r. split; [done |]. split; [lia |].
      rewrite drop_app_le, take_app_le by lia. split; [| done]. apply Forall_app. split; [done |]. by apply Forall_cons.
    + exists (S k). split; [done |]. split; [done |]. rewrite drop_ge, take_ge by (rewrite length_app; cbn; lia).
      split; [apply Forall_nil_2 |]. intros c'. rewrite last_snoc. congruence.
Qed.

(** [value_length] of a fixed-length string of 4 to 255 bytes is its length without the
    spaces at the end, and no other; every other column answers its full length. *)
Theorem value_length_spec m f bs : mem_ok m -> 0 <= pack_length f < 2 ^ 32 -> read_bytes m (ptr f) (Z.to_nat (pack_length f)) = Some bs ->
  exists r, value_length m f = Some r /\
    (if negb (zero_pack f) && (type f =? MYSQL_TYPE_STRING) && (4 <=? pack_length f) && (pack_length f <? 256)
     then 0 <= r <= pack_length f /\ Forall (fun c => c = 32) (drop (Z.to_nat r) bs) /\ (forall c, last (take (Z.to_nat r) bs) = Some c -> c <> 32)
     else r = pack_length f).
Proof using Type.
  intros Hm Hl Hr. unfold value_length. destruct (negb (zero_pack f) && _ && _ && _); [| by eexists].
  destruct (trailing_spaces_ok m (ptr f) _ bs Hr Hm) as (r & R & Hk & Hd & Ht). rewrite Z2Nat.id in R by lia. rewrite R. cbn [mbind option_bind].
  exists (Z.of_nat r). split; [f_equal; rewrite u32_small; lia |]. split; [lia |]. by rewrite Nat2Z.id.
Qed.
End spaces.

(** ** Numbers in records *)

(* membership in the tables of ByteOrder.v *)
Ltac at_position i := apply list_elem_of_lookup; exists i; reflexivity.

Lemma le_stored_length w z : w ∈ le_writers -> length (w_write w z) = w_width w.
Proof. intros Hw. pose proof (proj1 (Forall_forall _ _) (le_writes z) w Hw) as ->. apply length_le. Qed.
Lemma be_stored_length W w z : 32 <= W -> w ∈ mi_writers W -> length (w_write w z) = w_width w.
Proof. intros HW Hw. pose proof (proj1 (Forall_forall _ _) (mi_writes W z HW) w Hw) as ->. by rewrite length_reverse, length_le. Qed.
Lemma le_stored_bytes w z : w ∈ le_writers -> is_bytes (w_write w z).
Proof. intros Hw. pose proof (proj1 (Forall_forall _ _) (le_writes z) w Hw) as ->. apply is_bytes_le. Qed.

(** A stored number is read back, for a reader and a writer of the tables. *)
Ltac le_case r w i j num rest Hrest :=
  exists (w_write w num); split; [done |];
  assert (w ∈ le_writers) by at_position j; assert (r ∈ le_readers) by at_position i;
  split; [by apply le_stored_bytes | split; [by apply le_stored_length |]];
  unfold read_lowendian; rewrite (proj2 (Z.ltb_ge _ _)) by (rewrite length_app, (le_stored_length w) by done; cbn; lia);
  cbn -[low_int w_write]; f_equal; by apply (le_stored_read r w num rest Hrest).
Ltac be_case W r w i j num rest HW Hrest :=
  exists (w_write w num); split; [done |];
  assert (w ∈ mi_writers W) by at_position j; assert (r ∈ mi_readers) by at_position i;
  split; [by apply (be_stored_length W) |];
  unfold read_bigendian; rewrite (proj2 (Z.ltb_ge _ _)) by (rewrite length_app, (be_stored_length W w) by done; cbn; lia);
  cbn -[low_int w_write]; f_equal; by apply (be_stored_read W r w num rest HW Hrest).

Lemma lowendian_stored num n rest : is_bytes rest -> n ∈ [1; 2; 3; 4; 8]%nat ->
  exists bs, store_lowendian num (Z.of_nat n) = Some bs /\ is_bytes bs /\ length bs = n /\
    read_lowendian (bs ++ rest) (Z.of_nat n) = Some (low_int n (bool_decide (n = 8%nat)) num).
Proof.
  intros Hrest Hn. repeat (apply elem_of_cons in Hn as [-> | Hn]); [.. | by apply not_elem_of_nil in Hn].
  - exists [u8 num]. split; [done |]. assert (0 <= u8 num < 256) by (pose proof (is_word_wrap 8 num ltac:(lia)) as Hw; exact Hw).
    split; [by apply Forall_cons; split; [| apply Forall_nil_2] |]. split; [done |].
    unfold read_lowendian. rewrite (proj2 (Z.ltb_ge _ _)) by (rewrite length_app; cbn; lia). done.
  - le_case (Reader 2 false X64.uint2korr) (Writer 2 X64.int2store) 24%nat 12%nat num rest Hrest.
  - le_case (Reader 3 false X64.uint3korr) (Writer 3 X64.int3store) 25%nat 13%nat num rest Hrest.
  - le_case (Reader 4 false X64.uint4korr) (Writer 4 X64.int4store) 26%nat 14%nat num rest Hrest.
  - le_case (Reader 8 true X64.sint8korr) (Writer 8 X64.int8store) 23%nat 17%nat num rest Hrest.
Qed.

Lemma bigendian_stored W num n rest : 32 <= W -> is_bytes rest -> (1 <= n <= 8)%nat ->
  exists bs, store_bigendian W num (Z.of_nat n) = Some bs /\ length bs = n /\
    read_bigendian (bs ++ rest) (Z.of_nat n) = Some (low_int n (bool_decide (n = 8%nat)) num).
Proof.
  intros HW Hrest Hn.
  assert (n ∈ [1; 2; 3; 4; 5; 6; 7; 8]%nat) as Hin by (do 8 (destruct n as [| n]; [try lia; set_solver |]); destruct n; [set_solver | lia]).
  clear Hn. repeat (apply elem_of_cons in Hin as [-> | Hin]); [.. | by apply not_elem_of_nil in Hin].
  - be_case W (Reader 1 false Mi.mi_uint1korr) (Writer 1 Mi.mi_int1store) 1%nat 0%nat num rest HW Hrest.
  - be_case W (Reader 2 false Mi.mi_uint2korr) (Writer 2 Mi.mi_int2store) 6%nat 1%nat num rest HW Hrest.
  - be_case W (Reader 3 false Mi.mi_uint3korr) (Writer 3 (Mi.mi_int3store W)) 7%nat 2%nat num rest HW Hrest.
  - be_case W (Reader 4 false Mi.mi_uint4korr) (Writer 4 (Mi.mi_int4store W)) 8%nat 3%nat num rest HW Hrest.
  - be_case W (Reader 5 false Mi.mi_uint5korr) (Writer 5 (Mi.mi_int5store W)) 9%nat 4%nat num rest HW Hrest.
  - be_case W (Reader 6 false Mi.mi_uint6korr) (Writer 6 (Mi.mi_int6store W)) 10%nat 5%nat num rest HW Hrest.
  - be_case W (Reader 7 false Mi.mi_uint7korr) (Writer 7 (Mi.mi_int7store W)) 11%nat 6%nat num rest HW Hrest.
  - be_case W (Reader 8 true Mi.mi_sint8korr) (Writer 8 (Mi.mi_int8store W)) 5%nat 7%nat num rest HW Hrest.
Qed.

(** A number stored in a record in [n] bytes, high or low byte first, is read back as its low
    [8n] bits, with its sign when [n] is 8; lengths that the code does not know have no
    result. [number_storage_requirement] is the least number of bytes that holds the number. *)
Theorem record_numbers_roundtrip W num n rest : 32 <= W -> is_bytes rest ->
  ((1 <= n <= 8)%nat -> exists bs, store_bigendian W num (Z.of_nat n) = Some bs /\ length bs = n /\
     read_bigendian (bs ++ rest) (Z.of_nat n) = Some (low_int n (bool_decide (n = 8%nat)) num)) /\
  (n ∈ [1; 2; 3; 4; 8]%nat -> exists bs, store_lowendian num (Z.of_nat n) = Some bs /\ length bs = n /\
     read_lowendian (bs ++ rest) (Z.of_nat n) = Some (low_int n (bool_decide (n = 8%nat)) num)) /\
  (n ∉ [1; 2; 3; 4; 8]%nat -> store_lowendian num (Z.of_nat n) = None) /\
  (0 <= num < 2 ^ 32 -> let r := number_storage_requirement num in
     1 <= r <= 4 /\ num < 2 ^ (8 * r) /\ (r = 1 \/ 2 ^ (8 * (r - 1)) <= num)).
Proof.
  intros HW Hrest. split; [by apply bigendian_stored |]. split; [| split].
  - intros Hn. destruct (lowendian_stored num n rest Hrest Hn) as (bs & S & _ & R). by exists bs.
  - intros Hn. unfold store_lowendian.
    repeat match goal with |- context [Z.eqb ?x ?y] => destruct (Z.eqb_spec x y) as [E |]; [exfalso; apply Hn; assert (n = Z.to_nat y) as -> by lia; set_solver |] end.
    done.
  - intros Hnum r. unfold r, number_storage_requirement.
    destruct (Z.ltb_spec num 256); [split_and!; [lia | lia | change (2 ^ (8 * 1)) with 256; lia | by left] |].
    destruct (Z.ltb_spec num 65536); [split_and!; [lia | lia | change (2 ^ (8 * 2)) with 65536; lia | right; change (2 ^ (8 * (2 - 1))) with 256; lia] |].
    destruct (Z.ltb_spec num 16777216); [split_and!; [lia | lia | change (2 ^ (8 * 3)) with 16777216; lia | right; change (2 ^ (8 * (3 - 1))) with 65536; lia] |].
    split_and!; [lia | lia | change (2 ^ (8 * 4)) with 4294967296; lia | right; change (2 ^ (8 * (4 - 1))) with 16777216; lia].
Qed.

(** ** Blobs *)

(** The functions of the header for the length of a blob. *)
Lemma read_lowendian_take bs n : read_lowendian (take (Z.to_nat n) bs) n = read_lowendian bs n \/ Z.of_nat (length bs) < n \/ n < 0.
Proof.
  destruct (decide (n < 0)); [by right; right |]. destruct (decide (Z.of_nat (length bs) < n)); [by right; left |]. left.
  unfold read_lowendian. rewrite !(proj2 (Z.ltb_ge _ _)) by (rewrite ?length_take; lia).
  repeat match goal with |- context [Z.eqb ?x ?y] => destruct (Z.eqb_spec x y) as [-> |] end; [.. | done];
    do 8 (destruct bs as [| ? bs]; [cbn in *; lia || done |]); done.
Qed.

#[export] Instance lowendian_lengths : BlobLength.
Proof.
  refine {| blob_store_length := fun m p n number => bs ← store_lowendian number n; write_bytes m p bs;
            blob_get_length := fun m p n => bs ← read_bytes m p (Z.to_nat n); read_lowendian bs n |}.
  - intros m p n number Hm Hn Hnum Hw.
    assert (Hin : Z.to_nat n ∈ [1; 2; 3; 4; 8]%nat).
    { assert (n = 1 \/ n = 2 \/ n = 3 \/ n = 4) as [-> | [-> | [-> | ->]]] by lia; cbn; set_solver. }
    destruct (lowendian_stored number (Z.to_nat n) [] (Forall_nil_2 _) Hin) as (bs & S & Hb & Hl & R). rewrite Z2Nat.id in S, R by lia. rewrite app_nil_r in R.
    rewrite S. cbn [mbind option_bind]. destruct (write_bytes_ok bs m p Hm) as (m' & W & Hm' & D & Rb & F); [rewrite Hl, Z2Nat.id by lia; done | done |].
    exists m'. rewrite Hl in F, Rb. rewrite Z2Nat.id in F by lia. split; [done |]. split; [done |]. split; [done |]. split; [done |].
    rewrite Rb. cbn [mbind option_bind]. rewrite R. f_equal. unfold low_int, as_int. rewrite bool_decide_eq_false_2 by lia.
    unfold wrap. by rewrite Z2Nat.id by lia.
  - intros m m' p n Hf. rewrite (read_bytes_ext m m' p (Z.to_nat n)); [done |]. intros x Hx. apply Hf. lia.
Defined.

Section blobs.
Context `{BlobLength}.

(** The value of a blob in the row that [row_offset] selects. *)
Definition blob_value (m : memory) (f : Field_blob) (row_offset : Z) : option (Z * Z) :=
  len ← get_length m f row_offset; data ← get_ptr m f row_offset; Some (len, data).

Lemma blob_value_local m m' f o : (forall x, ptr (bl_field f) + o <= x < ptr (bl_field f) + o + packlength f + 8 -> read m' x = read m x) ->
  0 <= packlength f -> blob_value m' f o = blob_value m f o.
Proof using Type.
  intros Hf Hp. unfold blob_value, get_length, get_ptr. rewrite (blob_length_local m m') by (intros; apply Hf; lia).
  rewrite (read_bytes_ext m m'); [done |]. intros x Hx. apply Hf. lia.
Qed.

(** C8: The length and the pointer that [set_ptr_offset] puts into a row are what [get_length] and [get_ptr]
    find there; the length is cut to the bytes that the column has for it, and whole when it
    is at most [max_data_length]; the rows that do not overlap keep their value. A column
    made for a length ([set_packlength]) can hold that length. *)
Theorem blob_values_roundtrip m f o length_ data :
  mem_ok m -> 1 <= packlength f <= 4 -> 0 <= length_ < 2 ^ 32 -> 0 <= data < 2 ^ 64 ->
  writable m (ptr (bl_field f) + o) (packlength f + 8) ->
  (exists m', set_ptr_offset m f o length_ data = Some m' /\ mem_ok m' /\ same_domain m m' /\
    blob_value m' f o = Some (length_ mod 2 ^ (8 * packlength f), data) /\
    (length_ <= blob_max_data_length f -> length_ mod 2 ^ (8 * packlength f) = length_) /\
    (forall o', apart (ptr (bl_field f) + o) (packlength f + 8) (ptr (bl_field f) + o') (packlength f + 8) -> blob_value m' f o' = blob_value m f o')) /\
  length_ <= blob_max_data_length (Blob (bl_field f) (blob_packlength length_ true)).
Proof using Type.
  intros Hm Hp Hl Hd Hw.
  assert (Max : forall g, 1 <= packlength g <= 4 -> blob_max_data_length g = 2 ^ (8 * packlength g) - 1).
  { intros g Hg. unfold blob_max_data_length. assert (packlength g = 1 \/ packlength g = 2 \/ packlength g = 3 \/ packlength g = 4) as [-> | [-> | [-> | ->]]] by lia; done. }
  split.
  - unfold set_ptr_offset. set (p := ptr (bl_field f) + o) in *.
    destruct (blob_length_law m p (packlength f) length_ Hm Hp Hl) as (m1 & S & Hm1 & D1 & F1 & G1); [intros x Hx; apply Hw; lia |].
    rewrite S. cbn [mbind option_bind].
    destruct (write_bytes_ok (store_le 8 data) m1 (p + packlength f) Hm1) as (m2 & W2 & Hm2 & D2 & R2 & F2).
    { unfold store_le. rewrite length_le. intros x Hx. apply D1, Hw. lia. }
    { apply is_bytes_le. }
    unfold store_le in R2, F2. rewrite length_le in R2, F2.
    exists m2. split; [done |]. split; [done |]. split; [by eapply same_domain_trans |]. split; [| split].
    + unfold blob_value, get_length, get_ptr. fold p. rewrite (blob_length_local m1 m2) by (intros x Hx; apply F2; lia). rewrite G1. cbn [mbind option_bind].
      replace (ptr (bl_field f) + packlength f + o) with (p + packlength f) by (unfold p; lia). rewrite R2. cbn [mbind option_bind].
      by rewrite (load_store_le data Hd).
    + rewrite Max by done. intros Hle. apply Z.mod_small. lia.
    + intros o' Ha. apply blob_value_local; [| lia]. intros x Hx. rewrite F2 by (destruct Ha; lia). apply F1. destruct Ha; lia.
  - unfold blob_packlength, number_storage_requirement.
    destruct (Z.ltb_spec length_ 256), (Z.ltb_spec length_ 65536), (Z.ltb_spec length_ 16777216); try lia; rewrite Max by (cbn; lia); cbn; lia.
Qed.
End blobs.

(** ** Strings of variable length *)

(** The length of a string column is read back as it was stored, cut to the one or two bytes that
    the column has for it; a column made for strings of [len_arg] bytes has room for every
    length up to that. Nothing but those bytes is written; the data begins behind them. *)
Theorem varstring_length_roundtrip m f number : mem_ok m -> length_bytes f = 1 \/ length_bytes f = 2 ->
  writable m (ptr (vs_field f)) (length_bytes f) -> 0 <= number < 2 ^ 32 ->
  (exists m', varstring_store_length m f number = Some m' /\ mem_ok m' /\ same_domain m m' /\
    varstring_get_length m' f = Some (number mod 2 ^ (8 * length_bytes f)) /\
    forall x, ~ (ptr (vs_field f) <= x < get_data f) -> read m' x = read m x) /\
  (forall len_arg, len_arg < 65536 -> length_bytes f = varstring_length_bytes len_arg -> number <= len_arg ->
    number mod 2 ^ (8 * length_bytes f) = number).
Proof.
  intros Hm Hlb Hw Hn. split.
  - unfold varstring_store_length, varstring_get_length, get_data. destruct Hlb as [E | E]; rewrite E in *.
    + change (1 =? 1) with true. destruct (write_ok m (ptr (vs_field f)) number Hm) as (m' & W & Hm' & D & R & F); [apply Hw; lia |].
      exists m'. split; [done |]. split; [done |]. split; [done |]. split; [done |]. intros x Hx. apply F. lia.
    + change (2 =? 1) with false. cbv iota. assert (HW : Writer 2 X64.int2store ∈ le_writers) by at_position 12%nat.
      pose proof (le_stored_length _ number HW) as Hl. pose proof (le_stored_bytes _ number HW) as Hb. cbn [w_write w_width] in Hl, Hb.
      destruct (write_bytes_ok (X64.int2store number) m (ptr (vs_field f)) Hm) as (m' & W & Hm' & D & R & F); [rewrite Hl; done | done |].
      rewrite Hl in R, F. exists m'. rewrite R. cbn [mbind option_bind]. split; [done |]. split; [done |]. split; [done |]. split; [| done].
      pose proof (le_stored_read (Reader 2 false X64.uint2korr) (Writer 2 X64.int2store) number [] (Forall_nil_2 _) eq_refl ltac:(at_position 24%nat) HW) as RR.
      rewrite app_nil_r in RR. cbn [r_read w_write] in RR. by rewrite RR.
  - intros len_arg Hlen E Hle. unfold varstring_length_bytes in E. destruct (Z.ltb_spec len_arg 256); rewrite E; apply Z.mod_small;
      [change (2 ^ (8 * 1)) with 256 | change (2 ^ (8 * 2)) with 65536]; lia.
Qed.

(** ** Bit columns *)

(** [reset] of a bit column clears its whole bytes and exactly its own bits among the NULL bits:
    every other bit there, the NULL bits of other columns, is as before. *)
Theorem bit_reset_keeps_null_bits m f n :
  mem_ok m -> 0 <= bytes_in_rec f -> writable m (ptr (bi_field f)) (bytes_in_rec f) ->
  bit_ptr f <> 0 -> 1 <= bit_len f <= 7 -> 0 <= bit_ofs f < 8 -> n = (if 8 <? bit_ofs f + bit_len f then 2%nat else 1%nat) ->
  writable m (bit_ptr f) (Z.of_nat n) -> apart (ptr (bi_field f)) (bytes_in_rec f) (bit_ptr f) (Z.of_nat n) ->
  exists m' b b', bit_reset m f = Some m' /\ read_bytes m' (ptr (bi_field f)) (Z.to_nat (bytes_in_rec f)) = Some (replicate (Z.to_nat (bytes_in_rec f)) 0) /\
    read_bytes m (bit_ptr f) n = Some b /\ read_bytes m' (bit_ptr f) n = Some b' /\
    (forall i, 0 <= i -> rec_bit b' i = if (bit_ofs f <=? i) && (i <? bit_ofs f + bit_len f) then false else rec_bit b i) /\
    forall x, ~ (ptr (bi_field f) <= x < ptr (bi_field f) + bytes_in_rec f) -> ~ (bit_ptr f <= x < bit_ptr f + Z.of_nat n) -> read m' x = read m x.
Proof.
  intros Hm Hb Hw Hbp Hlen Hofs En Hwb Ha. unfold bit_reset, bzero.
  destruct (write_bytes_ok (replicate (Z.to_nat (bytes_in_rec f)) 0) m (ptr (bi_field f)) Hm) as (m1 & W1 & Hm1 & D1 & R1 & F1).
  { rewrite length_replicate, Z2Nat.id by done. done. }
  { apply Forall_replicate. lia. }
  rewrite length_replicate in R1, F1. rewrite Z2Nat.id in F1 by done. rewrite W1. cbn [mbind option_bind].
  rewrite (proj2 (Z.eqb_neq (bit_ptr f) 0)), (proj2 (Z.ltb_lt 0 (bit_len f))) by (done || lia). cbn [negb andb]. rewrite <- En.
  destruct (read_bytes_some m (bit_ptr f) n Hwb) as [b Eb].
  assert (Eb1 : read_bytes m1 (bit_ptr f) n = Some b).
  { rewrite <- Eb. apply read_bytes_ext. intros x Hx. apply F1. destruct Ha; lia. }
  pose proof (read_bytes_length _ _ _ _ Eb) as Lb. rewrite Eb1. cbn [mbind option_bind].
  destruct (set_bits_ok 0 b (bit_ofs f) (bit_len f)) as (b' & S & Lb' & Bb' & Bits).
  { split; [by eapply read_bytes_bytes | done | lia |]. rewrite Lb, En. destruct (Z.ltb_spec 8 (bit_ofs f + bit_len f)); lia. }
  { split; [lia |]. apply Z.pow_pos_nonneg; lia. }
  unfold clr_rec_bits. rewrite S. cbn [mbind option_bind].
  destruct (write_bytes_ok b' m1 (bit_ptr f) Hm1) as (m2 & W2 & Hm2 & D2 & R2 & F2); [rewrite Lb', Lb; by apply (writable_domain m) | done |].
  rewrite Lb', Lb in R2, F2. exists m2, b, b'. split; [done |]. split; [| split; [done |]; split; [done |]; split].
  - rewrite <- R1. apply read_bytes_ext. intros x Hx. apply F2. destruct Ha; lia.
  - intros i Hi. rewrite Bits by done. by rewrite Z.bits_0.
  - intros x Hx Hy. by rewrite F2, F1.
Qed.

(** ** Instances *)

(** Four-byte strings compared as numbers, at 110 and 120 of the record that begins at 100; their NULL
    bits are bits 1 and 2 of the first byte. *)
#[local] Instance demo_kind : FieldType :=
  {| pack_length := fun _ => 4; type := fun _ => 254; zero_pack := fun _ => false; compare := fun _ x y => le_value x - le_value y |}.
Definition demo_memory : memory := Mem (list_to_map ((fun i => (100 + Z.of_nat i, 32)) <$> seq 0 64)) ∅.
Definition demo_table : Table := Tbl 100 false true.
Definition demo_f : Field := Fld 110 100 2 4 0.
Definition demo_g : Field := Fld 120 100 4 4 0.

Lemma demo_memory_ok : mem_ok demo_memory.
Proof. apply mem_ok_compute. by vm_compute. Qed.

Lemma demo_columns : columns_ok demo_memory demo_f demo_g 2.
Proof.
  split; [apply demo_memory_ok | done | demo_writable | demo_writable | left; cbn; lia | | by eexists | left; cbn; lia | left; cbn; lia].
  repeat split; cbn; lia.
Qed.

Lemma null_bits_isolated_witness :
  exists m1 m2, set_null demo_memory demo_f 20 = Some m1 /\ is_null m1 demo_table demo_f 20 = Some true /\
    set_notnull m1 demo_f 20 = Some m2 /\ is_null m2 demo_table demo_f 20 = Some false.
Proof.
  destruct (null_bits_isolated demo_memory demo_table demo_f 20 120 1 demo_memory_ok) as (m1 & m2 & H1 & H2 & _ & H3 & H4 & _).
  - repeat split; cbn; lia.
  - by eexists.
  - eauto 8.
Defined.

Lemma column_bounds_collected_witness :
  (exists m' r, collect update_min demo_memory demo_f demo_g true [[9; 0; 0; 0]; [3; 0; 0; 0]; [0; 1; 0; 0]] = Some m' /\ value_at m' demo_f demo_g = Some r) /\
  (m ← collect update_min demo_memory demo_f demo_g true [[9; 0; 0; 0]; [3; 0; 0; 0]; [0; 1; 0; 0]]; value_at m demo_f demo_g) = Some [3; 0; 0; 0].
Proof.
  split; [| by vm_compute].
  destruct (column_bounds_collected demo_memory demo_f demo_g 2 demo_table [9; 0; 0; 0] [[3; 0; 0; 0]; [0; 1; 0; 0]] demo_columns) as [(m' & r & H1 & H2 & _) _].
  - split; cbn; intros; lia.
  - repeat (apply Forall_cons_2; [split; [repeat (apply Forall_cons_2; [lia |]); apply Forall_nil_2 | done] |]). apply Forall_nil_2.
  - eauto.
Defined.

Lemma packed_integers_roundtrip_witness :
  exists m1 m2, long_pack demo_memory 110 100 = Some (114, m1) /\ long_unpack m1 120 110 114 = Some (114, m2) /\ long_unpack m1 120 110 113 = Some (0, m1).
Proof.
  destruct (packed_integers_roundtrip long_pack long_unpack 4 demo_memory 110 100 120 [32; 32; 32; 32]) as (m1 & m2 & H1 & H2 & _ & _ & H3).
  - at_position 3%nat.
  - apply demo_memory_ok.
  - by vm_compute.
  - demo_writable.
  - right. lia.
  - demo_writable.
  - right. lia.
  - exists m1, m2. split; [done |]. split; [done |]. apply H3. lia.
Defined.

Lemma value_length_spec_witness : exists r, value_length demo_memory demo_f = Some r /\ Forall (fun c => c = 32) (drop (Z.to_nat r) [32; 32; 32; 32]).
Proof.
  destruct (value_length_spec demo_memory demo_f [32; 32; 32; 32] demo_memory_ok) as (r & H1 & H2); [done | by vm_compute |].
  cbn in H2. exists r. split; [done |]. apply H2.
Defined.

Lemma record_numbers_roundtrip_witness :
  (exists bs, store_bigendian 64 (-2) 8 = Some bs /\ read_bigendian (bs ++ [7]) 8 = Some (low_int 8 true (-2))) /\ store_bigendian 64 258 3 = Some [0; 1; 2].
Proof.
  split; [| by vm_compute].
  destruct (record_numbers_roundtrip 64 (-2) 8 [7]) as [HB _]; [lia | repeat constructor; lia |]. destruct (HB ltac:(lia)) as (bs & H1 & _ & H2). by exists bs.
Defined.

Definition demo_blob : Field_blob := Blob demo_f 2.

Lemma blob_values_roundtrip_witness :
  exists m', set_ptr_offset demo_memory demo_blob 20 65537 4660 = Some m' /\ blob_value m' demo_blob 20 = Some (1, 4660).
Proof.
  destruct (blob_values_roundtrip demo_memory demo_blob 20 65537 4660 demo_memory_ok) as [(m' & H1 & _ & _ & H2 & _) _]; [cbn; lia | lia | lia | demo_writable |].
  exists m'. split; [done | exact H2].
Defined.

Lemma varstring_length_roundtrip_witness :
  exists m', varstring_store_length demo_memory (Varstring demo_f 2 false) 300 = Some m' /\ varstring_get_length m' (Varstring demo_f 2 false) = Some 300.
Proof.
  destruct (varstring_length_roundtrip demo_memory (Varstring demo_f 2 false) 300 demo_memory_ok) as [(m' & H1 & _ & _ & H2 & _) _]; [by right | demo_writable | lia |].
  exists m'. split; [done | exact H2].
Defined.

Lemma bit_reset_keeps_null_bits_witness :
  exists m' b b', bit_reset demo_memory (Bit demo_f 101 6 4 1) = Some m' /\ read_bytes demo_memory 101 2 = Some b /\ read_bytes m' 101 2 = Some b' /\
    rec_bit b' 5 = rec_bit b 5.
Proof.
  destruct (bit_reset_keeps_null_bits demo_memory (Bit demo_f 101 6 4 1) 2 demo_memory_ok) as (m' & b & b' & H1 & _ & H2 & H3 & H4 & _);
    [done | demo_writable | done | cbn; lia | cbn; lia | done | demo_writable | right; cbn; lia |].
  exists m', b, b'. split; [done |]. split; [done |]. split; [done |]. by rewrite H4.
Defined.
