(* ===== verification/JsonWriter.v ===== *)
(** * JsonWriter: writing JSON documents for the optimizer trace ([my_json_writer.h])

    [String_with_limit] collects a document up to a size and counts the rest.
    [Json_writer] appends to one; its functions are compiled elsewhere, so that a writer is
    here the sequence of the calls made on it.  [Json_writer_object] and
    [Json_writer_array] are guards that open a structure in their constructor and close
    it in [end()] or in their destructor; without a writer (tracing is off) they are
    meant to do nothing.

    A failing assertion, and a call through a NULL writer, have no result. *)

From stdpp Require Import base numbers option list.
From Stdlib Require Import ZArith Lia.
From S2P Require Import Prelude ByteOrder ByteMem.

Local Open Scope Z_scope.

(** ** String_with_limit *)

(** [str.append] with memory for it; [size_t] has 64 bits. *)
(* [my_json_writer.h:168-174 String_with_limit] *)
Record String_with_limit := Limited { str : bytes; size_limit : Z; truncated_len : Z }.

Definition SIZE_T_MAX : Z := 2 ^ 64 - 1.
Definition str_length (s : String_with_limit) : Z := Z.of_nat (length (str s)).

(* [my_json_writer.h:114-117 String_with_limit] *)
Definition String_with_limit_init : String_with_limit := Limited [] SIZE_T_MAX 0.
(* [my_json_writer.h:119-119 get_truncated_bytes] *)
Definition get_truncated_bytes (s : String_with_limit) : Z := truncated_len s.
(* [my_json_writer.h:120-120 get_size_limit] *)
Definition get_size_limit (s : String_with_limit) : Z := size_limit s.
(* [my_json_writer.h:122-128 set_size_limit] *)
Definition set_size_limit (s : String_with_limit) (limit_arg : Z) : option String_with_limit :=
  if str_length s <? size_limit s then Some (Limited (str s) limit_arg (truncated_len s)) else None.
(* [my_json_writer.h:130-150 append] *)
Definition append (s : String_with_limit) (b : bytes) : String_with_limit :=
  let size := Z.of_nat (length b) in
  if u64 (str_length s + size) <=? size_limit s then Limited (str s ++ b) (size_limit s) (truncated_len s)
  else if str_length s <? size_limit s then
    let bytes_to_add := size_limit s - str_length s in
    Limited (str s ++ take (Z.to_nat bytes_to_add) b) (size_limit s) (u64 (truncated_len s + (size - bytes_to_add)))
  else Limited (str s) (size_limit s) (u64 (truncated_len s + size)).
(** [b] is the memory that the pointer points to. *)
(* [my_json_writer.h:152-155 append] *)
Definition append_cstr (s : String_with_limit) (b : bytes) : String_with_limit := append s (c_string b).
(* [my_json_writer.h:157-163 append] *)
Definition append_char (s : String_with_limit) (c : Z) : String_with_limit :=
  if size_limit s <? u64 (str_length s + 1) then Limited (str s) (size_limit s) (u64 (truncated_len s + 1))
  else Limited (str s ++ [c]) (size_limit s) (truncated_len s).
(* [my_json_writer.h:165-165 get_string] *)
Definition get_string (s : String_with_limit) : bytes := str s.
(* [my_json_writer.h:166-166 length] *)
Definition limited_length (s : String_with_limit) : Z := str_length s.

(** ** Calls on a writer *)

(** A [double] by its bytes, an item or a table by its address. *)
(* [my_json_writer.h:186-216 Json_writer] *)
Inductive call :=
  | C_add_member (name : bytes)
  | C_add_str (val : bytes) | C_add_str_item (item : Z) | C_add_table_name (table : Z)
  | C_add_ll (val : Z) | C_add_size (val : Z) | C_add_double (val : bytes) | C_add_bool (val : bool) | C_add_null
  | C_start_object | C_start_array | C_end_object | C_end_array.

(** The calls made so far. *)
Abbreviation trace := (list call).

(** A member function called through a pointer, which must not be NULL. *)
Definition through (writer : bool) (c : call) (t : trace) : option trace := if writer then Some (t ++ [c]) else None.

(** *** Json_value_helper: the writer it was initialised with, or NULL *)

(* [my_json_writer.h:257-260 add_str] *)
Definition helper_add_str (writer : bool) (val : bytes) (t : trace) : option trace := through writer (C_add_str val) t.
(* [my_json_writer.h:261-264 add_str] *)
Definition helper_add_str_len (writer : bool) (val : bytes) (length_ : nat) (t : trace) : option trace := through writer (C_add_str (take length_ val)) t.
(* [my_json_writer.h:265-268 add_str] *)
Definition helper_add_String (writer : bool) (s : bytes) (t : trace) : option trace := through writer (C_add_str s) t.
(* [my_json_writer.h:269-272 add_str] *)
Definition helper_add_lex (writer : bool) (s : bytes) (t : trace) : option trace := through writer (C_add_str s) t.
(* [my_json_writer.h:273-276 add_str] *)
Definition helper_add_item (writer : bool) (item : Z) (t : trace) : option trace := through writer (C_add_str_item item) t.
(* [my_json_writer.h:278-281 add_ll] *)
Definition helper_add_ll (writer : bool) (val : Z) (t : trace) : option trace := through writer (C_add_ll val) t.
(* [my_json_writer.h:282-285 add_size] *)
Definition helper_add_size (writer : bool) (val : Z) (t : trace) : option trace := through writer (C_add_size val) t.
(* [my_json_writer.h:286-289 add_double] *)
Definition helper_add_double (writer : bool) (val : bytes) (t : trace) : option trace := through writer (C_add_double val) t.
(* [my_json_writer.h:290-293 add_bool] *)
Definition helper_add_bool (writer : bool) (val : bool) (t : trace) : option trace := through writer (C_add_bool val) t.
(* [my_json_writer.h:294-297 add_null] *)
Definition helper_add_null (writer : bool) (t : trace) : option trace := through writer C_add_null t.
(* [my_json_writer.h:298-301 add_table_name] *)
Definition helper_add_join_tab_name (writer : bool) (tab : Z) (t : trace) : option trace := through writer (C_add_table_name tab) t.
(* [my_json_writer.h:302-305 add_table_name] *)
Definition helper_add_table_name (writer : bool) (table : Z) (t : trace) : option trace := through writer (C_add_table_name table) t.

(** ** The guards *)

(** [my_writer] is whether the pointer is not NULL; [context] has the same pointer. *)
(* [my_json_writer.h:309-317 Json_writer_struct] *)
Record Json_writer_struct := Guard { my_writer : bool; closed : bool }.

(** [current] is whether [thd->opt_trace.get_current_json()] is not NULL. *)
(* [my_json_writer.h:320-325 Json_writer_struct] *)
Definition Json_writer_struct_init (current : bool) : Json_writer_struct := Guard current false.
(* [my_json_writer.h:326-329 trace_started] *)
Definition trace_started (g : Json_writer_struct) : bool := my_writer g.

(** The body of a function that is guarded by [DBUG_ASSERT(!closed)] and [if (my_writer)]. *)
Definition guarded (g : Json_writer_struct) (body : trace -> option trace) (t : trace) : option trace :=
  if closed g then None else if my_writer g then body t else Some t.

(** *** Json_writer_object *)

(* [my_json_writer.h:344-347 add_member] *)
Definition object_add_member (g : Json_writer_struct) (name : bytes) (t : trace) : option trace := through (my_writer g) (C_add_member name) t.
(* [my_json_writer.h:349-354 Json_writer_object] *)
Definition Json_writer_object (current : bool) (t : trace) : option (Json_writer_struct * trace) :=
  let g := Json_writer_struct_init current in
  t ← (if my_writer g then through (my_writer g) C_start_object t else Some t); Some (g, t).
(* [my_json_writer.h:356-361 Json_writer_object] *)
Definition Json_writer_object_named (current : bool) (name : bytes) (t : trace) : option (Json_writer_struct * trace) :=
  let g := Json_writer_struct_init current in
  t ← (if my_writer g then t ← through (my_writer g) (C_add_member name) t; through (my_writer g) C_start_object t else Some t); Some (g, t).
(* [my_json_writer.h:363-368 Json_writer_object] *)
Definition object_destroy (g : Json_writer_struct) (t : trace) : option (Json_writer_struct * trace) :=
  t ← (if my_writer g && negb (closed g) then through (my_writer g) C_end_object t else Some t); Some (Guard (my_writer g) true, t).
(* [my_json_writer.h:370-379 add] *)
Definition object_add_bool (g : Json_writer_struct) (name : bytes) (value : bool) : trace -> option trace :=
  guarded g (fun t => t ← object_add_member g name t; helper_add_bool (my_writer g) value t).
(* [my_json_writer.h:380-389 add] *)
Definition object_add_ulonglong (g : Json_writer_struct) (name : bytes) (value : Z) : trace -> option trace :=
  guarded g (fun t => t ← object_add_member g name t; helper_add_ll (my_writer g) (s64 value) t).
(* [my_json_writer.h:390-399 add] *)
Definition object_add_longlong (g : Json_writer_struct) (name : bytes) (value : Z) : trace -> option trace :=
  guarded g (fun t => t ← object_add_member g name t; helper_add_ll (my_writer g) value t).
(* [my_json_writer.h:400-409 add] *)
Definition object_add_double (g : Json_writer_struct) (name : bytes) (value : bytes) : trace -> option trace :=
  guarded g (fun t => t ← object_add_member g name t; helper_add_double (my_writer g) value t).
(* [my_json_writer.h:411-420 add] *)
Definition object_add_size_t (g : Json_writer_struct) (name : bytes) (value : Z) : trace -> option trace :=
  guarded g (fun t => t ← object_add_member g name t; helper_add_ll (my_writer g) (s64 value) t).
(* [my_json_writer.h:422-431 add] *)
Definition object_add_str (g : Json_writer_struct) (name value : bytes) : trace -> option trace :=
  guarded g (fun t => t ← object_add_member g name t; helper_add_str (my_writer g) value t).
(** Without a test. *)
(* [my_json_writer.h:432-437 add] *)
Definition object_add_str_len (g : Json_writer_struct) (name value : bytes) (num_bytes : nat) (t : trace) : option trace :=
  t ← object_add_member g name t; helper_add_str_len (my_writer g) value num_bytes t.
(* [my_json_writer.h:438-447 add] *)
Definition object_add_lex (g : Json_writer_struct) (name value : bytes) : trace -> option trace :=
  guarded g (fun t => t ← object_add_member g name t; helper_add_lex (my_writer g) value t).
(* [my_json_writer.h:448-457 add] *)
Definition object_add_item (g : Json_writer_struct) (name : bytes) (value : Z) : trace -> option trace :=
  guarded g (fun t => t ← object_add_member g name t; helper_add_item (my_writer g) value t).
(* [my_json_writer.h:458-467 add_null] *)
Definition object_add_null (g : Json_writer_struct) (name : bytes) : trace -> option trace :=
  guarded g (fun t => t ← object_add_member g name t; helper_add_null (my_writer g) t).
(** The member [table]. *)
Definition n_table : bytes := [116; 97; 98; 108; 101].
(* [my_json_writer.h:468-477 add_table_name] *)
Definition object_add_join_tab_name (g : Json_writer_struct) (tab : Z) : trace -> option trace :=
  guarded g (fun t => t ← object_add_member g n_table t; helper_add_join_tab_name (my_writer g) tab t).
(* [my_json_writer.h:478-487 add_table_name] *)
Definition object_add_table_name (g : Json_writer_struct) (table : Z) : trace -> option trace :=
  guarded g (fun t => t ← object_add_member g n_table t; helper_add_table_name (my_writer g) table t).
(** The member [select_id] and the value [fake]. *)
Definition n_select_id : bytes := [115; 101; 108; 101; 99; 116; 95; 105; 100].
Definition n_fake : bytes := [102; 97; 107; 101].
(* [my_json_writer.h:488-500 add_select_number] *)
Definition object_add_select_number (g : Json_writer_struct) (select_number : Z) : trace -> option trace :=
  guarded g (fun t => t ← object_add_member g n_select_id t;
    if 2147483647 <=? select_number then helper_add_str (my_writer g) n_fake t else helper_add_ll (my_writer g) select_number t).
(* [my_json_writer.h:501-507 end] *)
Definition object_end (g : Json_writer_struct) (t : trace) : option (Json_writer_struct * trace) :=
  t ← guarded g (through (my_writer g) C_end_object) t; Some (Guard (my_writer g) true, t).

(** *** Json_writer_array *)

(* [my_json_writer.h:522-526 Json_writer_array] *)
Definition Json_writer_array (current : bool) (t : trace) : option (Json_writer_struct * trace) :=
  let g := Json_writer_struct_init current in
  t ← (if my_writer g then through (my_writer g) C_start_array t else Some t); Some (g, t).
(* [my_json_writer.h:528-532 Json_writer_array] *)
Definition Json_writer_array_named (current : bool) (name : bytes) (t : trace) : option (Json_writer_struct * trace) :=
  let g := Json_writer_struct_init current in
  t ← (if my_writer g then t ← through (my_writer g) (C_add_member name) t; through (my_writer g) C_start_array t else Some t); Some (g, t).
(* [my_json_writer.h:533-540 Json_writer_array] *)
Definition array_destroy (g : Json_writer_struct) (t : trace) : option (Json_writer_struct * trace) :=
  if my_writer g && negb (closed g) then t ← through (my_writer g) C_end_array t; Some (Guard (my_writer g) true, t) else Some (g, t).
(* [my_json_writer.h:541-547 end] *)
Definition array_end (g : Json_writer_struct) (t : trace) : option (Json_writer_struct * trace) :=
  t ← guarded g (through (my_writer g) C_end_array) t; Some (Guard (my_writer g) true, t).
(* [my_json_writer.h:549-555 add] *)
Definition array_add_bool (g : Json_writer_struct) (value : bool) : trace -> option trace := guarded g (helper_add_bool (my_writer g) value).
(* [my_json_writer.h:556-562 add] *)
Definition array_add_ulonglong (g : Json_writer_struct) (value : Z) : trace -> option trace := guarded g (helper_add_ll (my_writer g) (s64 value)).
(* [my_json_writer.h:563-569 add] *)
Definition array_add_longlong (g : Json_writer_struct) (value : Z) : trace -> option trace := guarded g (helper_add_ll (my_writer g) value).
(* [my_json_writer.h:570-576 add] *)
Definition array_add_double (g : Json_writer_struct) (value : bytes) : trace -> option trace := guarded g (helper_add_double (my_writer g) value).
(* [my_json_writer.h:578-584 add] *)
Definition array_add_size_t (g : Json_writer_struct) (value : Z) : trace -> option trace := guarded g (helper_add_ll (my_writer g) (s64 value)).
(* [my_json_writer.h:586-592 add] *)
Definition array_add_str (g : Json_writer_struct) (value : bytes) : trace -> option trace := guarded g (helper_add_str (my_writer g) value).
(* [my_json_writer.h:593-599 add] *)
Definition array_add_str_len (g : Json_writer_struct) (value : bytes) (num_bytes : nat) : trace -> option trace :=
  guarded g (helper_add_str_len (my_writer g) value num_bytes).
(* [my_json_writer.h:600-606 add] *)
Definition array_add_lex (g : Json_writer_struct) (value : bytes) : trace -> option trace := guarded g (helper_add_lex (my_writer g) value).
(* [my_json_writer.h:607-613 add] *)
Definition array_add_item (g : Json_writer_struct) (value : Z) : trace -> option trace := guarded g (helper_add_item (my_writer g) value).
(* [my_json_writer.h:614-620 add_null] *)
Definition array_add_null (g : Json_writer_struct) : trace -> option trace := guarded g (helper_add_null (my_writer g)).
(* [my_json_writer.h:621-627 add_table_name] *)
Definition array_add_join_tab_name (g : Json_writer_struct) (tab : Z) : trace -> option trace := guarded g (helper_add_join_tab_name (my_writer g) tab).
(* [my_json_writer.h:628-634 add_table_name] *)
Definition array_add_table_name (g : Json_writer_struct) (table : Z) : trace -> option trace := guarded g (helper_add_table_name (my_writer g) table).

(** ** The limit *)

(** What is appended. *)
Inductive piece := P_bytes (b : bytes) | P_cstr (b : bytes) | P_char (c : Z).
Definition text (p : piece) : bytes := match p with P_bytes b => b | P_cstr b => c_string b | P_char c => [c] end.
Definition append_piece (s : String_with_limit) (p : piece) : String_with_limit :=
  match p with P_bytes b => append s b | P_cstr b => append_cstr s b | P_char c => append_char s c end.

(** [s] has collected [all] under the limit [L]. *)
Definition collected (L : Z) (all : bytes) (s : String_with_limit) : Prop :=
  size_limit s = L /\ str s = take (Z.to_nat L) all /\ truncated_len s = Z.of_nat (length all - Z.to_nat L)%nat.

Lemma append_collected L all s b : 0 <= L < 2 ^ 64 -> Z.of_nat (length all + length b) < 2 ^ 64 -> collected L all s -> collected L (all ++ b) (append s b).
Proof.
  intros HL Hw (E1 & E2 & E3). unfold append, str_length. rewrite E1, E2, length_take.
  destruct (decide (length all <= Z.to_nat L)%nat) as [Hl | Hl].
  - rewrite Nat.min_r, take_ge by lia. rewrite u64_small by lia. destruct (Z.leb_spec (Z.of_nat (length all) + Z.of_nat (length b)) L).
    + split; [done |]. split; cbn [str truncated_len].
      * by rewrite take_ge by (rewrite length_app; lia).
      * rewrite E3, length_app. lia.
    + destruct (Z.ltb_spec (Z.of_nat (length all)) L).
      * split; [done |]. split; cbn [str truncated_len].
        -- rewrite take_app, (take_ge all) by lia. do 2 f_equal. lia.
        -- rewrite E3, length_app, u64_small by lia. lia.
      * split; [done |]. split; cbn [str truncated_len].
        -- rewrite take_app_le, take_ge by lia. done.
        -- rewrite E3, length_app, u64_small by lia. lia.
  - rewrite Nat.min_l by lia.
    assert (C : collected L (all ++ b) (Limited (take (Z.to_nat L) all) L (u64 (truncated_len s + Z.of_nat (length b))))).
    { split; [done |]. split; cbn [str truncated_len].
      - by rewrite take_app_le by lia.
      - rewrite E3, length_app, u64_small by lia. lia. }
    destruct (Z.leb_spec (u64 (Z.of_nat (Z.to_nat L) + Z.of_nat (length b))) L) as [Hle |].
    + rewrite u64_small in Hle by lia. assert (b = []) as -> by (destruct b; [done | cbn in Hle; lia]).
      destruct C as (_ & C2 & C3). cbn [str truncated_len] in C2, C3. split; [done |]. split; cbn [str truncated_len].
      * by rewrite app_nil_r.
      * rewrite E3, app_nil_r. done.
    + destruct (Z.ltb_spec (Z.of_nat (Z.to_nat L)) L); [lia | done].
Qed.

Lemma append_char_is s c : append_char s c = append s [c] \/ size_limit s < u64 (str_length s + 1).
Proof.
  unfold append_char, append. change (Z.of_nat (length [c])) with 1. destruct (Z.ltb_spec (size_limit s) (u64 (str_length s + 1))); [by right | left].
  destruct (Z.leb_spec (u64 (str_length s + 1)) (size_limit s)); [done | lia].
Qed.

Lemma append_piece_collected L all s p : 0 <= L < 2 ^ 64 -> Z.of_nat (length all + length (text p)) < 2 ^ 64 -> collected L all s ->
  collected L (all ++ text p) (append_piece s p).
Proof.
  intros HL Hw C. destruct p as [b | b | c]; cbn [append_piece text] in *; [by apply append_collected | by apply append_collected |].
  destruct (append_char_is s c) as [-> | Hlt]; [by apply append_collected |].
  unfold append_char. rewrite (proj2 (Z.ltb_lt _ _)) by done. destruct C as (E1 & E2 & E3). unfold str_length in Hlt. rewrite E1, E2, length_take in Hlt.
  cbn [length] in Hw. rewrite u64_small in Hlt by lia. split; [done |]. split; cbn [str truncated_len].
  - by rewrite E2, take_app_le by lia.
  - rewrite E3, length_app, u64_small by (cbn; lia). cbn. lia.
Qed.

(** Under a limit set at the start, what [String_with_limit] holds is the first [limit] bytes of all that
    was appended, by whichever function, and [get_truncated_bytes] counts the others.
    A limit can also be set later, even below the length that is already there: then nothing is
    added any more, and the string stays longer than its limit. *)
Theorem limited_string_is_prefix L (ps : list piece) :
  0 <= L < 2 ^ 64 -> Z.of_nat (length (mjoin (text <$> ps))) < 2 ^ 64 ->
  (exists s0, set_size_limit String_with_limit_init L = Some s0 /\
    let s := foldl append_piece s0 ps in
    get_string s = take (Z.to_nat L) (mjoin (text <$> ps)) /\ limited_length s <= get_size_limit s /\
    limited_length s + get_truncated_bytes s = Z.of_nat (length (mjoin (text <$> ps)))) /\
  (forall s, str_length s < size_limit s -> 0 <= truncated_len s -> str_length s + Z.of_nat (length (mjoin (text <$> ps))) < 2 ^ 64 -> L < str_length s ->
    exists s1, set_size_limit s L = Some s1 /\ get_string (foldl append_piece s1 ps) = str s).
Proof.
  intros HL Hw. split.
  - exists (Limited [] L 0). split; [done |].
    assert (G : forall ps all s, Z.of_nat (length all + length (mjoin (text <$> ps))) < 2 ^ 64 -> collected L all s ->
      collected L (all ++ mjoin (text <$> ps)) (foldl append_piece s ps)).
    { induction ps0 as [| p ps0 IH]; intros all s Hall C; [by rewrite app_nil_r |]. change (mjoin (text <$> p :: ps0)) with (text p ++ mjoin (text <$> ps0)) in *. cbn [foldl].
      rewrite length_app in Hall. rewrite app_assoc. apply IH; [rewrite length_app; lia |]. apply append_piece_collected; [done | lia | done]. }
    destruct (G ps [] (Limited [] L 0)) as (E1 & E2 & E3); [cbn; lia | split; [done |]; split; [by rewrite take_nil | done] |]. cbn [app] in E2, E3.
    cbv zeta. unfold get_string, limited_length, get_size_limit, get_truncated_bytes, str_length. rewrite E1, E2, E3, length_take. split; [done |]. lia.
  - intros s Hs Ht Hall Hlt. unfold set_size_limit. rewrite (proj2 (Z.ltb_lt _ _)) by done. eexists. split; [done |].
    assert (G : forall ps s, size_limit s = L -> L < str_length s -> str_length s + Z.of_nat (length (mjoin (text <$> ps))) < 2 ^ 64 ->
      str (foldl append_piece s ps) = str s).
    { clear s Hs Ht Hall Hlt Hw. induction ps0 as [| p ps0 IH]; intros s Hl Hlt Hall; [done |]. change (mjoin (text <$> p :: ps0)) with (text p ++ mjoin (text <$> ps0)) in *. cbn [foldl]. rewrite length_app in Hall.
      assert (K : str (append_piece s p) = str s /\ size_limit (append_piece s p) = L).
      { assert (forall b, (length b <= length (text p))%nat -> str (append s b) = str s /\ size_limit (append s b) = L) as KA.
        { intros b Hb. unfold append. rewrite Hl, u64_small by (unfold str_length in *; lia).
          destruct (Z.leb_spec (str_length s + Z.of_nat (length b)) L); [lia |]. destruct (Z.ltb_spec (str_length s) L); [lia | done]. }
        destruct p as [b | b | c]; cbn [append_piece]; [by apply KA | by apply KA |].
        destruct (append_char_is s c) as [-> | Hc]; [by apply KA |]. unfold append_char. by rewrite (proj2 (Z.ltb_lt _ _)). }
      destruct K as [K1 K2]. rewrite IH, K1; [done | done | |]; unfold str_length in *; rewrite K1; lia. }
    unfold get_string. rewrite G; [done | done | done |]. done.
Qed.

Lemma limited_string_is_prefix_witness :
  (exists s0, set_size_limit String_with_limit_init 4 = Some s0 /\ get_string (foldl append_piece s0 [P_bytes [1; 2; 3]; P_cstr [4; 5; 0]; P_char 6]) = [1; 2; 3; 4]) /\
  (exists s1, set_size_limit (Limited [1; 2; 3] SIZE_T_MAX 0) 2 = Some s1 /\ get_string (foldl append_piece s1 [P_char 9]) = [1; 2; 3]).
Proof.
  split.
  - destruct (limited_string_is_prefix 4 [P_bytes [1; 2; 3]; P_cstr [4; 5; 0]; P_char 6]) as [(s0 & H1 & H2 & _) _]; [lia | cbn; lia |].
    exists s0. split; [done | exact H2].
  - destruct (limited_string_is_prefix 2 [P_char 9]) as [_ H]; [lia | cbn; lia |].
    apply (H (Limited [1; 2; 3] SIZE_T_MAX 0)); [reflexivity | cbn; lia | reflexivity | reflexivity].
Defined.

(** ** Documents *)

(** The values that the [add] functions take. *)
Inductive jleaf :=
  | L_bool (b : bool) | L_ulonglong (v : Z) | L_longlong (v : Z) | L_double (v : bytes) | L_size_t (v : Z)
  | L_str (s : bytes) | L_str_len (s : bytes) (num_bytes : nat) | L_lex (s : bytes) | L_item (i : Z) | L_null
  | L_join_tab (tab : Z) | L_table (table : Z).

(** A program that writes a document: the scopes of its guards, each perhaps ended before the end of the scope,
    and what is added in them. The name of a member that is a table is always [table]. *)
Inductive jnode :=
  | N_leaf (v : jleaf)
  | N_object (ended : bool) (members : list (bytes * jnode))
  | N_array (ended : bool) (elems : list jnode).

Definition object_leaf (g : Json_writer_struct) (name : bytes) (v : jleaf) : trace -> option trace :=
  match v with
  | L_bool b => object_add_bool g name b | L_ulonglong v => object_add_ulonglong g name v | L_longlong v => object_add_longlong g name v
  | L_double v => object_add_double g name v | L_size_t v => object_add_size_t g name v | L_str s => object_add_str g name s
  | L_str_len s n => object_add_str_len g name s n | L_lex s => object_add_lex g name s | L_item i => object_add_item g name i
  | L_null => object_add_null g name | L_join_tab t => object_add_join_tab_name g t | L_table t => object_add_table_name g t
  end.
Definition array_leaf (g : Json_writer_struct) (v : jleaf) : trace -> option trace :=
  match v with
  | L_bool b => array_add_bool g b | L_ulonglong v => array_add_ulonglong g v | L_longlong v => array_add_longlong g v
  | L_double v => array_add_double g v | L_size_t v => array_add_size_t g v | L_str s => array_add_str g s
  | L_str_len s n => array_add_str_len g s n | L_lex s => array_add_lex g s | L_item i => array_add_item g i
  | L_null => array_add_null g | L_join_tab t => array_add_join_tab_name g t | L_table t => array_add_table_name g t
  end.

(** The program run with the guard [g] around it, an object (with the name of the member) or an array; [writer] is
    whether tracing is on. *)
Fixpoint run (writer : bool) (g : Json_writer_struct) (name : option bytes) (n : jnode) (t : trace) : option trace :=
  match n with
  | N_leaf v => match name with Some name => object_leaf g name v t | None => array_leaf g v t end
  | N_object ended members =>
    '(o, t) ← match name with Some name => Json_writer_object_named writer name t | None => Json_writer_object writer t end;
    t ← (fix go ms t := match ms with [] => Some t | (nm, x) :: ms => t ← run writer o (Some nm) x t; go ms t end) members t;
    '(o, t) ← (if ended then object_end o t else Some (o, t));
    '(_, t) ← object_destroy o t; Some t
  | N_array ended elems =>
    '(o, t) ← match name with Some name => Json_writer_array_named writer name t | None => Json_writer_array writer t end;
    t ← (fix go xs t := match xs with [] => Some t | x :: xs => t ← run writer o None x t; go xs t end) elems t;
    '(o, t) ← (if ended then array_end o t else Some (o, t));
    '(_, t) ← array_destroy o t; Some t
  end.

(** A document: values, objects and arrays. A value is the call of the writer that writes it, with the number itself. *)
Inductive json := J_value (c : call) | J_object (members : list (bytes * json)) | J_array (elems : list json).

(** [conv] is what becomes of an unsigned number. *)
Section document.
Variable conv : Z -> Z.

Definition leaf_call (v : jleaf) : call :=
  match v with
  | L_bool b => C_add_bool b | L_ulonglong v => C_add_ll (conv v) | L_longlong v => C_add_ll v | L_double v => C_add_double v | L_size_t v => C_add_ll (conv v)
  | L_str s => C_add_str s | L_str_len s n => C_add_str (take n s) | L_lex s => C_add_str s | L_item i => C_add_str_item i | L_null => C_add_null
  | L_join_tab t | L_table t => C_add_table_name t
  end.
Definition member_name (name : bytes) (n : jnode) : bytes := match n with N_leaf (L_join_tab _) | N_leaf (L_table _) => n_table | _ => name end.

Fixpoint document (n : jnode) : json :=
  match n with
  | N_leaf v => J_value (leaf_call v)
  | N_object _ ms => J_object ((fix go ms := match ms with [] => [] | (nm, x) :: ms => (member_name nm x, document x) :: go ms end) ms)
  | N_array _ xs => J_array ((fix go xs := match xs with [] => [] | x :: xs => document x :: go xs end) xs)
  end.

End document.

(** The document that is meant has the numbers themselves; the one that is written has what the casts to [longlong] make of them. *)
Definition meant : jnode -> json := document (fun v => v).
Abbreviation written := (document s64).

(** All unsigned numbers of a document. *)
Fixpoint all_unsigned (p : Z -> bool) (n : jnode) : bool :=
  match n with
  | N_leaf (L_ulonglong v) | N_leaf (L_size_t v) => p v
  | N_leaf _ => true
  | N_object _ ms => (fix go ms := match ms with [] => true | (nm, x) :: ms => all_unsigned p x && go ms end) ms
  | N_array _ xs => (fix go xs := match xs with [] => true | x :: xs => all_unsigned p x && go xs end) xs
  end.
Definition is_ulonglong (v : Z) : bool := (0 <=? v) && (v <? 2 ^ 64).
Definition is_small (v : Z) : bool := v <? 2 ^ 63.

(** The calls that write a document. *)
Fixpoint serialise (j : json) : trace :=
  match j with
  | J_value c => [c]
  | J_object ms => C_start_object :: (fix go ms := match ms with [] => [C_end_object] | (nm, x) :: ms => C_add_member nm :: serialise x ++ go ms end) ms
  | J_array xs => C_start_array :: (fix go xs := match xs with [] => [C_end_array] | x :: xs => serialise x ++ go xs end) xs
  end.

Definition is_value (c : call) : bool :=
  match c with C_add_member _ | C_start_object | C_start_array | C_end_object | C_end_array => false | _ => true end.

(** Reading a document from calls. *)
Fixpoint parse (fuel : nat) (t : trace) : option (json * trace) :=
  match fuel with
  | O => None
  | S fuel =>
    match t with
    | [] => None
    | C_start_object :: t =>
      '(ms, t) ← (fix go k t := match k with O => None | S k =>
          match t with
          | C_end_object :: t => Some ([], t)
          | C_add_member nm :: t => '(x, t) ← parse fuel t; '(ms, t) ← go k t; Some ((nm, x) :: ms, t)
          | _ => None
          end end) fuel t;
      Some (J_object ms, t)
    | C_start_array :: t =>
      '(xs, t) ← (fix go k t := match k with O => None | S k =>
          match t with
          | C_end_array :: t => Some ([], t)
          | t => '(x, t) ← parse fuel t; '(xs, t) ← go k t; Some (x :: xs, t)
          end end) fuel t;
      Some (J_array xs, t)
    | c :: t => if is_value c then Some (J_value c, t) else None
    end
  end.

(** Induction over the nested trees. *)
Section ind.
Variable P : jnode -> Prop.
Hypothesis Hl : forall v, P (N_leaf v).
Hypothesis Ho : forall e ms, Forall (fun m => P m.2) ms -> P (N_object e ms).
Hypothesis Ha : forall e xs, Forall P xs -> P (N_array e xs).
Fixpoint jnode_nested (n : jnode) : P n :=
  match n with
  | N_leaf v => Hl v
  | N_object e ms => Ho e ms ((fix go ms : Forall (fun m => P m.2) ms :=
      match ms with [] => Forall_nil_2 _ | m :: ms => Forall_cons_2 _ _ _ (jnode_nested m.2) (go ms) end) ms)
  | N_array e xs => Ha e xs ((fix go xs : Forall P xs :=
      match xs with [] => Forall_nil_2 _ | x :: xs => Forall_cons_2 _ _ _ (jnode_nested x) (go xs) end) xs)
  end.
End ind.

Lemma s64_small_iff v : is_ulonglong v = true -> s64 v = v <-> is_small v = true.
Proof.
  unfold is_ulonglong, is_small, s64, swrap. rewrite andb_true_iff, Z.leb_le, !Z.ltb_lt. intros Hv. change (2 ^ (64 - 1)) with (2 ^ 63). split; intros Hs.
  - pose proof (Z.mod_pos_bound (v + 2 ^ 63) (2 ^ 64) ltac:(done)). lia.
  - rewrite Z.mod_small by lia. lia.
Qed.

(** The casts are seen in the document exactly when a number is too great for them. *)
Lemma written_is_meant n : all_unsigned is_ulonglong n = true -> written n = meant n <-> all_unsigned is_small n = true.
Proof.
  unfold meant. induction n as [v | e ms IH | e xs IH] using jnode_nested; intros Hu.
  - destruct v; cbn in *; try done; rewrite <- s64_small_iff by done; (split; [congruence | by intros ->]).
  - cbn [document all_unsigned] in *. induction IH as [| [nm x] ms Hx Hf IHm]; [done |]. cbn [snd] in Hx. apply andb_true_iff in Hu as [Hu1 Hu2].
    specialize (IHm Hu2). specialize (Hx Hu1). rewrite andb_true_iff, <- Hx, <- IHm. split; [by intros [= -> ->] | by intros [-> [= ->]]].
  - cbn [document all_unsigned] in *. induction IH as [| x xs Hx Hf IHm]; [done |]. apply andb_true_iff in Hu as [Hu1 Hu2].
    specialize (IHm Hu2). specialize (Hx Hu1). rewrite andb_true_iff, <- Hx, <- IHm. split; [by intros [= -> ->] | by intros [-> [= ->]]].
Qed.

(** What a node writes where it stands. *)
Definition node_calls (name : option bytes) (n : jnode) : trace :=
  match name with Some nm => C_add_member (member_name nm n) :: serialise (written n) | None => serialise (written n) end.

Lemma run_writes n : forall g name t, my_writer g = true -> closed g = false -> run true g name n t = Some (t ++ node_calls name n).
Proof.
  induction n as [v | e ms IH | e xs IH] using jnode_nested; intros g name t Hw Hc.
  - destruct g as [w c]. cbn in Hw, Hc. subst. destruct name as [nm |]; destruct v; cbn; by rewrite <- ?app_assoc.
  - cbn [run node_calls written serialise].
    assert (G : forall ms t, Forall (fun m => forall g name t, my_writer g = true -> closed g = false -> run true g name m.2 t = Some (t ++ node_calls name m.2)) ms ->
      (fix go (ms : list (bytes * jnode)) t := match ms with [] => Some t | (nm, x) :: ms => t ← run true (Guard true false) (Some nm) x t; go ms t end) ms t ≫= (fun t => Some (t ++ [C_end_object])) =
      Some (t ++ (fix go ms := match ms with [] => [C_end_object] | (nm, x) :: ms => C_add_member nm :: serialise x ++ go ms end)
        ((fix go ms := match ms with [] => [] | (nm, x) :: ms => (member_name nm x, written x) :: go ms end) ms))).
    { clear. induction ms as [| [nm x] ms IHm]; intros t Hf; [done |]. apply Forall_cons in Hf as [Hx Hf].
      cbn [snd] in Hx. rewrite (Hx (Guard true false) (Some nm) t eq_refl eq_refl). cbn [mbind option_bind]. rewrite (IHm _ Hf). cbn [node_calls].
      by rewrite <- !app_assoc, <- app_comm_cons. }
    assert (Start : match name with Some nm => Json_writer_object_named true nm t | None => Json_writer_object true t end =
      Some (Guard true false, t ++ match name with Some nm => [C_add_member nm; C_start_object] | None => [C_start_object] end)).
    { destruct name; cbn; by rewrite <- ?app_assoc. }
    rewrite Start. cbn [mbind option_bind]. specialize (G ms (t ++ match name with Some nm => [C_add_member nm; C_start_object] | None => [C_start_object] end) IH).
    destruct ((fix go (ms : list (bytes * jnode)) t := match ms with [] => Some t | (nm, x) :: ms => t ← run true (Guard true false) (Some nm) x t; go ms t end) ms _) as [t1 |] eqn:E;
      [| by cbn in G]. cbn [mbind option_bind] in *. injection G as G.
    destruct e; cbn; rewrite G, <- app_assoc; by destruct name.
  - cbn [run node_calls written serialise].
    assert (G : forall xs t, Forall (fun m => forall g name t, my_writer g = true -> closed g = false -> run true g name m t = Some (t ++ node_calls name m)) xs ->
      (fix go (xs : list jnode) t := match xs with [] => Some t | x :: xs => t ← run true (Guard true false) None x t; go xs t end) xs t ≫= (fun t => Some (t ++ [C_end_array])) =
      Some (t ++ (fix go xs := match xs with [] => [C_end_array] | x :: xs => serialise x ++ go xs end)
        ((fix go xs := match xs with [] => [] | x :: xs => written x :: go xs end) xs))).
    { clear. induction xs as [| x xs IHm]; intros t Hf; [done |]. apply Forall_cons in Hf as [Hx Hf].
      rewrite (Hx (Guard true false) None t eq_refl eq_refl). cbn [mbind option_bind]. rewrite (IHm _ Hf). cbn [node_calls].
      by rewrite <- !app_assoc. }
    assert (Start : match name with Some nm => Json_writer_array_named true nm t | None => Json_writer_array true t end =
      Some (Guard true false, t ++ match name with Some nm => [C_add_member nm; C_start_array] | None => [C_start_array] end)).
    { destruct name; cbn; by rewrite <- ?app_assoc. }
    rewrite Start. cbn [mbind option_bind]. specialize (G xs (t ++ match name with Some nm => [C_add_member nm; C_start_array] | None => [C_start_array] end) IH).
    destruct ((fix go (xs : list jnode) t := match xs with [] => Some t | x :: xs => t ← run true (Guard true false) None x t; go xs t end) xs _) as [t1 |] eqn:E;
      [| by cbn in G]. cbn [mbind option_bind] in *. injection G as G.
    destruct e; cbn; rewrite G, <- app_assoc; by destruct name.
Qed.

(** A value starts with a call that neither ends a structure nor names a member. *)
Lemma serialise_head n : exists c t, serialise (written n) = c :: t /\ (c = C_start_object \/ c = C_start_array \/ is_value c = true).
Proof. destruct n as [v | e ms | e xs]; cbn; eexists _, _; (split; [reflexivity |]); auto. destruct v; cbn; auto. Qed.

(** Enough fuel is the number of the calls. *)
Definition parses_back (n : jnode) : Prop := forall fuel rest,
  (length (serialise (written n)) <= fuel)%nat -> parse fuel (serialise (written n) ++ rest) = Some (written n, rest).

Lemma members_parse fuel ms : Forall (fun m => parses_back m.2) ms -> forall k rest,
  let calls := (fix go ms := match ms with [] => [C_end_object] | (nm, x) :: ms => C_add_member nm :: serialise x ++ go ms end)
    ((fix go (ms : list (bytes * jnode)) := match ms with [] => [] | (nm, x) :: ms => (member_name nm x, written x) :: go ms end) ms) in
  (length calls <= fuel)%nat -> (length calls <= k)%nat ->
  (fix go k t := match k with O => None | S k =>
     match t with
     | C_end_object :: t => Some ([], t)
     | C_add_member nm :: t => '(x, t) ← parse fuel t; '(ms, t) ← go k t; Some ((nm, x) :: ms, t)
     | _ => None
     end end) k (calls ++ rest) =
  Some ((fix go (ms : list (bytes * jnode)) := match ms with [] => [] | (nm, x) :: ms => (member_name nm x, written x) :: go ms end) ms, rest).
Proof.
  induction ms as [| [nm x] ms IH]; intros Hf k rest calls Hfu Hk.
  - subst calls. destruct k; [cbn in Hk; lia |]. done.
  - apply Forall_cons in Hf as [Hx Hf]. subst calls. cbn [length] in Hfu, Hk. rewrite length_app in Hfu, Hk. destruct k; [lia |].
    cbn [app]. rewrite <- app_assoc. cbn [snd] in Hx. rewrite Hx by lia. cbn [mbind option_bind].
    rewrite (IH Hf k rest) by lia. done.
Qed.

Lemma elements_parse fuel xs : Forall parses_back xs -> forall k rest,
  let calls := (fix go xs := match xs with [] => [C_end_array] | x :: xs => serialise x ++ go xs end)
    ((fix go xs := match xs with [] => [] | x :: xs => written x :: go xs end) xs) in
  (length calls <= fuel)%nat -> (length calls <= k)%nat ->
  (fix go k t := match k with O => None | S k =>
     match t with
     | C_end_array :: t => Some ([], t)
     | t => '(x, t) ← parse fuel t; '(xs, t) ← go k t; Some (x :: xs, t)
     end end) k (calls ++ rest) =
  Some ((fix go xs := match xs with [] => [] | x :: xs => written x :: go xs end) xs, rest).
Proof.
  induction xs as [| x xs IH]; intros Hf k rest calls Hfu Hk.
  - subst calls. destruct k; [cbn in Hk; lia |]. done.
  - apply Forall_cons in Hf as [Hx Hf]. subst calls. rewrite length_app in Hfu, Hk. specialize (IH Hf).
    pose proof (Hx fuel) as Hp. destruct (serialise_head x) as (c & t & Es & Hc). rewrite Es in *. cbn [length] in Hfu, Hk. destruct k; [lia |].
    rewrite <- app_assoc. rewrite <- app_comm_cons. specialize (Hp ((fix go xs := match xs with [] => [C_end_array] | x :: xs => serialise x ++ go xs end)
      ((fix go xs := match xs with [] => [] | x :: xs => written x :: go xs end) xs) ++ rest) ltac:(cbn; lia)). rewrite <- app_comm_cons in Hp.
    destruct c; try (by destruct Hc as [? | [? | ?]]); rewrite Hp; cbn [mbind option_bind]; rewrite (IH k rest) by lia; done.
Qed.

Lemma serialised_parses n : parses_back n.
Proof.
  induction n as [v | e ms IH | e xs IH] using jnode_nested; intros [| fuel] rest Hf; cbn [written serialise length] in Hf; try lia.
  - by destruct v.
  - cbn [written serialise parse app]. by rewrite (members_parse fuel ms IH fuel rest) by lia.
  - cbn [written serialise parse app]. by rewrite (elements_parse fuel xs IH fuel rest) by lia.
Qed.

(** C19: A program of nested guards, each ended by hand or by its destructor, writes a well-formed document: the calls of the
    writer, read back as JSON, give the structure that was meant, every member under its name (a table under [table]), and nothing else is written.
    The values are those that were meant exactly when every [ulonglong] and [size_t] is below 2^63: the [add]
    functions cast them to [longlong], so that a greater one is written as a negative number. *)
Theorem json_document_written n g name t :
  my_writer g = true -> closed g = false ->
  exists calls, run true g name n t = Some (t ++ match name with Some nm => [C_add_member (member_name nm n)] | None => [] end ++ calls) /\
    (forall rest, parse (length calls) (calls ++ rest) = Some (written n, rest)) /\
    (all_unsigned is_ulonglong n = true -> written n = meant n <-> all_unsigned is_small n = true).
Proof.
  intros Hw Hc. exists (serialise (written n)). split; [rewrite run_writes by done; by destruct name |].
  split; [intros rest; by apply serialised_parses | apply written_is_meant].
Qed.

(** An object with a table, an ended array with two numbers and a NULL, and an object that its destructor closes. *)
Definition sample_node : jnode :=
  N_object false [([1], N_leaf (L_table 7)); ([2], N_array true [N_leaf (L_longlong (-1)); N_leaf (L_ulonglong (2 ^ 63)); N_leaf L_null]); ([3], N_object true [])].

Lemma json_document_written_witness :
  (exists calls, run true (Guard true false) None sample_node [] = Some calls /\ parse (length calls) calls = Some (written sample_node, [])) /\
  written sample_node <> meant sample_node.
Proof.
  destruct (json_document_written sample_node (Guard true false) None [] eq_refl eq_refl) as (calls & H1 & H2 & H3). split.
  - exists calls. split; [exact H1 | rewrite <- (app_nil_r calls) at 2; apply H2].
  - rewrite (H3 eq_refl). vm_compute. done.
Defined.

(** ** Without a writer *)

(** The document has no string of a given length directly in an object. *)
Fixpoint quiet_ok (name : option bytes) (n : jnode) : bool :=
  match n with
  | N_leaf v => match name, v with Some _, L_str_len _ _ => false | _, _ => true end
  | N_object _ ms => (fix go ms := match ms with [] => true | (nm, x) :: ms => quiet_ok (Some nm) x && go ms end) ms
  | N_array _ xs => (fix go xs := match xs with [] => true | x :: xs => quiet_ok None x && go xs end) xs
  end.

(** C27: With tracing off the guards make no calls: a program runs through and leaves the trace as it is, but for
    one function. [Json_writer_object::add(name, value, num_bytes)] does not test [my_writer] as the
    others do, and calls through the NULL pointer. *)
Theorem tracing_off_is_quiet n : forall g name t,
  my_writer g = false -> closed g = false -> run false g name n t = if quiet_ok name n then Some t else None.
Proof.
  induction n as [v | e ms IH | e xs IH] using jnode_nested; intros g name t Hw Hc.
  - destruct g as [w c]. cbn in Hw, Hc. subst. by destruct name, v.
  - cbn [run quiet_ok]. replace (match name with Some _ => _ | None => _ end) with (Some (Guard false false, t)) by by destruct name.
    cbn [mbind option_bind]. revert t. induction IH as [| [nm x] ms Hx Hf IHm]; intros t; [by destruct e |]. cbn [snd] in Hx.
    rewrite (Hx (Guard false false) (Some nm) t eq_refl eq_refl). destruct (quiet_ok (Some nm) x); [|done]. apply IHm.
  - cbn [run quiet_ok]. replace (match name with Some _ => _ | None => _ end) with (Some (Guard false false, t)) by by destruct name.
    cbn [mbind option_bind]. revert t. induction IH as [| x xs Hx Hf IHm]; intros t; [by destruct e |].
    rewrite (Hx (Guard false false) None t eq_refl eq_refl). destruct (quiet_ok None x); [|done]. apply IHm.
Qed.

Lemma tracing_off_is_quiet_witness :
  run false (Guard false false) None sample_node [] = Some [] /\
  run false (Guard false false) None (N_object false [([1], N_leaf (L_str_len [2] 1))]) [] = None.
Proof.
  split; [exact (tracing_off_is_quiet sample_node (Guard false false) None [] eq_refl eq_refl) |
          exact (tracing_off_is_quiet (N_object false [([1], N_leaf (L_str_len [2] 1))]) (Guard false false) None [] eq_refl eq_refl)].
Defined.

(** A guard that was ended makes no more calls when it is destroyed, and with assertions nothing can be added to it. *)
Theorem ended_guard_is_closed w t :
  (exists g t1, object_end (Guard w false) t = Some (g, t1) /\ object_destroy g t1 = Some (g, t1) /\
    forall name v, (forall s k, v <> L_str_len s k) -> object_leaf g name v t1 = None) /\
  (exists g t1, array_end (Guard w false) t = Some (g, t1) /\ array_destroy g t1 = Some (g, t1) /\ forall v, array_leaf g v t1 = None).
Proof.
  split; destruct w; eexists _, _; (split; [reflexivity |]); (split; [reflexivity |]).
  1, 2: intros name v Hv; destruct v as [| | | | | | s k | | | | |]; try reflexivity; by destruct (Hv s k).
  all: intros v; by destruct v.
Qed.
