(* ===== verification/FilesortBuffer.v ===== *)
(** * FilesortBuffer: records and pointers in one buffer ([filesort_utils.h])

    A [Filesort_buffer] fills its block of memory from both ends: records grow from the
    left, the pointers to them from the right.  Packed records are shorter than
    [m_record_length], so that more of them may fit than were counted on.  The array
    of pointers runs backwards, and [reverse_record_pointers] brings it in order.

    Pointers are eight bytes.  An access outside the memory, and a failing assertion,
    have no result. *)

From stdpp Require Import base numbers option list gmap.
From Stdlib Require Import ZArith Lia.
From S2P Require Import Prelude ByteOrder ByteMem BoundsArray.

Local Open Scope Z_scope.

(** ** The buffer *)

(* [filesort_utils.h:262-279 m_next_rec_ptr] *)
Record Filesort_buffer := Buffer {
  m_next_rec_ptr : Z; m_rawmem : Z; m_record_pointers : Z; m_sort_keys : Z;
  m_num_records : Z; m_record_length : Z; m_sort_length : Z; m_size_in_bytes : Z; m_idx : Z }.

Definition sizeof_ptr : Z := 8.

(* [filesort_utils.h:76-82 Filesort_buffer] *)
Definition mk_Filesort_buffer : Filesort_buffer := Buffer 0 0 0 0 0 0 0 0 0.
(* [filesort_utils.h:213-218 get_sort_keys] *)
Definition get_sort_keys (b : Filesort_buffer) : Z :=
  if m_idx b =? 0 then 0 else m_record_pointers b + sizeof_ptr * (1 - m_idx b).

(** [keys[i]], read and written. *)
Definition key_at (m : memory) (keys i : Z) : option Z := read_ptr m (keys + sizeof_ptr * i).
Definition set_key (m : memory) (keys i p : Z) : option memory := write_ptr m (keys + sizeof_ptr * i) p.

(** The loop of [reverse_record_pointers] from [ix] on. *)
(* [filesort_utils.h:97-102 reverse_record_pointers] *)
Fixpoint reverse_loop (fuel : nat) (m : memory) (keys count ix : Z) : option memory :=
  match fuel with
  | O => None
  | S fuel =>
    if ix <=? count / 2 then
      tmp ← key_at m keys (count - ix);
      p ← key_at m keys ix;
      m ← set_key m keys (count - ix) p;
      m ← set_key m keys ix tmp;
      reverse_loop fuel m keys count (ix + 1)
    else Some m
  end.
(* [filesort_utils.h:91-103 reverse_record_pointers] *)
Definition reverse_record_pointers (m : memory) (b : Filesort_buffer) : option memory :=
  if m_idx b <? 2 then Some m else reverse_loop (Z.to_nat (m_idx b) + 1) m (get_sort_keys b) (m_idx b - 1) 0.
(* [filesort_utils.h:119-124 init_next_record_pointer] *)
Definition init_next_record_pointer (b : Filesort_buffer) : Filesort_buffer :=
  Buffer (m_rawmem b) (m_rawmem b) (m_record_pointers b) 0 (m_num_records b) (m_record_length b) (m_sort_length b) (m_size_in_bytes b) 0.
(* [filesort_utils.h:129-132 space_used_for_data] *)
Definition space_used_for_data (b : Filesort_buffer) : Z := if negb (m_next_rec_ptr b =? 0) then u64 (m_next_rec_ptr b - m_rawmem b) else 0.
(* [filesort_utils.h:137-144 spaceleft] *)
Definition spaceleft (b : Filesort_buffer) : option Z :=
  if m_rawmem b <=? m_next_rec_ptr b then
    Some (u64 (m_size_in_bytes b - u64 ((m_next_rec_ptr b - m_rawmem b) + u64 (u64 (m_idx b) * sizeof_ptr))))
  else None.
(* [filesort_utils.h:149-154 isfull] *)
Definition isfull (b : Filesort_buffer) : option bool :=
  if m_idx b <? m_num_records b then Some false else left ← spaceleft b; Some (left <? m_record_length b + sizeof_ptr).
(* [filesort_utils.h:159-168 get_next_record_pointer] *)
Definition get_next_record_pointer (m : memory) (b : Filesort_buffer) : option (Z * memory * Filesort_buffer) :=
  m ← set_key m (m_record_pointers b) (- m_idx b) (m_next_rec_ptr b);
  Some (m_next_rec_ptr b, m,
        Buffer (m_next_rec_ptr b + m_record_length b) (m_rawmem b) (m_record_pointers b) (m_sort_keys b) (m_num_records b) (m_record_length b)
          (m_sort_length b) (m_size_in_bytes b) (m_idx b + 1)).
(** The difference of two [uint]s. *)
(* [filesort_utils.h:174-177 adjust_next_record_pointer] *)
Definition adjust_next_record_pointer (b : Filesort_buffer) (val : Z) : Filesort_buffer :=
  Buffer (m_next_rec_ptr b - u32 (m_record_length b - val)) (m_rawmem b) (m_record_pointers b) (m_sort_keys b) (m_num_records b) (m_record_length b)
    (m_sort_length b) (m_size_in_bytes b) (m_idx b).
(** The loop of [init_record_pointers]. *)
(* [filesort_utils.h:111-112 get_next_record_pointer] *)
Fixpoint init_loop (fuel : nat) (m : memory) (b : Filesort_buffer) : option (memory * Filesort_buffer) :=
  match fuel with
  | O => None
  | S fuel => if m_idx b <? m_num_records b then '(_, m, b) ← get_next_record_pointer m b; init_loop fuel m b else Some (m, b)
  end.
(* [filesort_utils.h:108-114 init_record_pointers] *)
Definition init_record_pointers (m : memory) (b : Filesort_buffer) : option (memory * Filesort_buffer) :=
  let b := init_next_record_pointer b in
  '(m, b) ← init_loop (Z.to_nat (m_num_records b) + 1) m b;
  m ← reverse_record_pointers m b;
  Some (m, b).
(* [filesort_utils.h:180-183 sort_buffer_size] *)
Definition sort_buffer_size (b : Filesort_buffer) : Z := m_size_in_bytes b.
(* [filesort_utils.h:185-188 is_allocated] *)
Definition is_allocated (b : Filesort_buffer) : bool := negb (m_rawmem b =? 0).
(* [filesort_utils.h:205-208 reset] *)
Definition reset (b : Filesort_buffer) : Filesort_buffer :=
  Buffer (m_next_rec_ptr b) 0 (m_record_pointers b) (m_sort_keys b) (m_num_records b) (m_record_length b) (m_sort_length b) (m_size_in_bytes b) (m_idx b).
(* [filesort_utils.h:224-227 get_sorted_record] *)
Definition get_sorted_record (m : memory) (b : Filesort_buffer) (ix : Z) : option Z := key_at m (m_sort_keys b) ix.
(* [filesort_utils.h:233-236 get_raw_buf] *)
Definition get_raw_buf (b : Filesort_buffer) : Bounds_checked_array := array_make (m_rawmem b) (m_size_in_bytes b).
(* [filesort_utils.h:244-256 operator=] *)
Definition assign (b rhs : Filesort_buffer) : Filesort_buffer :=
  Buffer (m_next_rec_ptr rhs) (m_rawmem rhs) (m_record_pointers rhs) (m_sort_keys rhs) (m_num_records rhs) (m_record_length rhs) (m_sort_length rhs)
    (m_size_in_bytes rhs) (m_idx rhs).
(* [filesort_utils.h:258-258 get_sort_length] *)
Definition get_sort_length (b : Filesort_buffer) : Z := m_sort_length b.
(* [filesort_utils.h:259-259 set_sort_length] *)
Definition set_sort_length (b : Filesort_buffer) (val : Z) : Filesort_buffer :=
  Buffer (m_next_rec_ptr b) (m_rawmem b) (m_record_pointers b) (m_sort_keys b) (m_num_records b) (m_record_length b) val (m_size_in_bytes b) (m_idx b).

(** ** Reversing an array of pointers *)

Lemma set_key_ok m A j p : mem_ok m -> writable m (A + 8 * j) 8 -> 0 <= p < 2 ^ 64 ->
  exists m', set_key m A j p = Some m' /\ mem_ok m' /\ same_domain m m' /\ key_at m' A j = Some p /\
    (forall i, i <> j -> key_at m' A i = key_at m A i) /\ forall x, ~ (A + 8 * j <= x < A + 8 * j + 8) -> read m' x = read m x.
Proof.
  intros Hm Hw Hp. destruct (write_ptr_ok m (A + 8 * j) p Hm Hw Hp) as (m' & E & Hm' & D & R & F).
  exists m'. split; [done |]. split; [done |]. split; [done |]. split; [done |]. split; [| done].
  intros i Hi. unfold key_at, read_ptr, sizeof_ptr. f_equal. apply read_bytes_ext. intros x Hx. apply F. lia.
Qed.

(** The array [A] of [n] pointers. *)
Definition slots (m : memory) (A n : Z) (f : Z -> Z) : Prop := forall j, 0 <= j < n -> key_at m A j = Some (f j).

Lemma reverse_loop_ok f A count fuel : forall m ix,
  (forall j, 0 <= j <= count -> 0 <= f j < 2 ^ 64) -> 0 <= count -> mem_ok m -> writable m A (8 * (count + 1)) ->
  0 <= ix <= count / 2 + 1 -> (Z.to_nat (count / 2 + 1 - ix) < fuel)%nat ->
  slots m A (count + 1) (fun j => if (j <? ix) || (count - ix <? j) then f (count - j) else f j) ->
  exists m', reverse_loop fuel m A count ix = Some m' /\ mem_ok m' /\ same_domain m m' /\ slots m' A (count + 1) (fun j => f (count - j)) /\
    forall x, ~ (A <= x < A + 8 * (count + 1)) -> read m' x = read m x.
Proof.
  induction fuel as [| fuel IH]; intros m ix Hf Hc Hm Hw Hix Hfu Hs; [lia |]. cbn [reverse_loop].
  assert (Hdiv : 2 * (count / 2) <= count < 2 * (count / 2) + 2) by (pose proof (Z.div_mod count 2); pose proof (Z.mod_pos_bound count 2); lia).
  destruct (Z.leb_spec ix (count / 2)) as [Hle | Hgt].
  - pose proof (Hs (count - ix) ltac:(lia)) as E1. pose proof (Hs ix ltac:(lia)) as E2. cbn beta in E1, E2.
    rewrite (proj2 (Z.ltb_ge (count - ix) ix)), (proj2 (Z.ltb_ge (count - ix) (count - ix))) in E1 by lia.
    rewrite (proj2 (Z.ltb_ge ix ix)), (proj2 (Z.ltb_ge (count - ix) ix)) in E2 by lia. cbn [orb] in E1, E2.
    rewrite E1, E2. cbn [mbind option_bind].
    destruct (set_key_ok m A (count - ix) (f ix) Hm) as (m1 & W1 & Hm1 & D1 & K1 & O1 & F1); [intros x Hx; apply Hw; lia | apply Hf; lia |].
    destruct (set_key_ok m1 A ix (f (count - ix)) Hm1) as (m2 & W2 & Hm2 & D2 & K2 & O2 & F2); [apply (writable_domain m _ _ _ D1); intros x Hx; apply Hw; lia | apply Hf; lia |].
    rewrite W1. cbn [mbind option_bind]. rewrite W2. cbn [mbind option_bind].
    destruct (IH m2 (ix + 1)) as (m' & E & Hm' & D & S & F); try done; try lia.
    + apply (writable_domain m1 _ _ _ D2), (writable_domain m _ _ _ D1), Hw.
    + intros j Hj. destruct (decide (j = ix)) as [-> |].
      { rewrite K2, (proj2 (Z.ltb_lt ix (ix + 1))) by lia. done. }
      rewrite O2 by done. destruct (decide (j = count - ix)) as [-> |].
      { rewrite K1, (proj2 (Z.ltb_lt (count - (ix + 1)) _)) by lia. rewrite orb_true_r. by replace (count - (count - ix)) with ix by lia. }
      rewrite O1, Hs by done. f_equal. destruct (Z.ltb_spec j ix), (Z.ltb_spec j (ix + 1)), (Z.ltb_spec (count - ix) j), (Z.ltb_spec (count - (ix + 1)) j); cbn; done || lia.
    + exists m'. split; [done |]. split; [done |]. split; [eauto using same_domain_trans |]. split; [done |].
      intros x Hx. rewrite F, F2, F1 by lia. done.
  - exists m. split; [done |]. split; [done |]. split; [apply same_domain_refl |]. split; [| done].
    intros j Hj. rewrite Hs by done. f_equal. destruct (Z.ltb_spec j ix), (Z.ltb_spec (count - ix) j); cbn; done || lia.
Qed.

Lemma reversed_ok m b f : mem_ok m -> 0 <= m_idx b -> writable m (get_sort_keys b) (8 * m_idx b) ->
  (forall j, 0 <= j < m_idx b -> 0 <= f j < 2 ^ 64) -> slots m (get_sort_keys b) (m_idx b) f ->
  exists m', reverse_record_pointers m b = Some m' /\ mem_ok m' /\ same_domain m m' /\
    slots m' (get_sort_keys b) (m_idx b) (fun j => f (m_idx b - 1 - j)) /\
    forall x, ~ (get_sort_keys b <= x < get_sort_keys b + 8 * m_idx b) -> read m' x = read m x.
Proof.
  intros Hm Hi Hw Hf Hs. unfold reverse_record_pointers. destruct (Z.ltb_spec (m_idx b) 2) as [Hlt | Hge].
  - exists m. split; [done |]. split; [done |]. split; [apply same_domain_refl |]. split; [| done].
    intros j Hj. rewrite Hs by done. do 2 f_equal. lia.
  - destruct (reverse_loop_ok f (get_sort_keys b) (m_idx b - 1) (Z.to_nat (m_idx b) + 1) m 0) as (m' & E & Hm' & D & S & F).
    + intros; apply Hf; lia.
    + lia.
    + done.
    + by replace (m_idx b - 1 + 1) with (m_idx b) by lia.
    + split; [lia |]. pose proof (Z.div_pos (m_idx b - 1) 2). lia.
    + assert ((m_idx b - 1) / 2 < m_idx b) by (apply Z.div_lt_upper_bound; lia). lia.
    + intros j Hj. rewrite (proj2 (Z.ltb_ge j 0)), (proj2 (Z.ltb_ge (m_idx b - 1 - 0) j)) by lia. cbn [orb]. apply Hs. lia.
    + replace (m_idx b - 1 + 1) with (m_idx b) in * by lia. by exists m'.
Qed.

(** ** The layout *)

(** What [alloc_sort_buffer] leaves: a block with room for [m_num_records] records of the greatest length and their
    pointers; the last eight bytes of the block are the first pointer. *)
Record allocated (m : memory) (b : Filesort_buffer) : Prop := Allocated {
  al_mem : mem_ok m;
  al_block : writable m (m_rawmem b) (m_size_in_bytes b);
  al_place : 0 < m_rawmem b /\ m_rawmem b + m_size_in_bytes b < 2 ^ 64;
  al_pointers : m_record_pointers b = m_rawmem b + m_size_in_bytes b - sizeof_ptr;
  al_counts : 0 <= m_num_records b < 2 ^ 32 /\ 0 <= m_record_length b < 2 ^ 32;
  al_room : m_num_records b * (m_record_length b + sizeof_ptr) <= m_size_in_bytes b }.

(** Both buffers were allocated alike. *)
Definition same_block (b b' : Filesort_buffer) : Prop :=
  m_rawmem b' = m_rawmem b /\ m_size_in_bytes b' = m_size_in_bytes b /\ m_record_pointers b' = m_record_pointers b /\
  m_num_records b' = m_num_records b /\ m_record_length b' = m_record_length b.

Lemma allocated_same m m' b b' : allocated m b -> same_block b b' -> mem_ok m' -> same_domain m m' -> allocated m' b'.
Proof.
  intros [Hm Hb Hp Hr Hc Ho] (E1 & E2 & E3 & E4 & E5) Hm' D. split; rewrite ?E1, ?E2, ?E3, ?E4, ?E5; try done. by apply (writable_domain m).
Qed.

(** The address of record [i]. *)
Definition record_addr (b : Filesort_buffer) (rs : list bytes) (i : nat) : Z := m_rawmem b + Z.of_nat (length (mjoin (take i rs))).

(** The buffer holds the records [rs] one behind the other, and pointer [-i] is that of record [i]. *)
Record filled (m : memory) (b : Filesort_buffer) (rs : list bytes) : Prop := Filled {
  fi_alloc : allocated m b;
  fi_idx : m_idx b = Z.of_nat (length rs);
  fi_next : m_next_rec_ptr b = m_rawmem b + Z.of_nat (length (mjoin rs));
  fi_data : read_bytes m (m_rawmem b) (length (mjoin rs)) = Some (mjoin rs);
  fi_pointers : forall i : nat, (i < length rs)%nat -> key_at m (m_record_pointers b) (- Z.of_nat i) = Some (record_addr b rs i);
  fi_each : Z.of_nat (length (mjoin rs)) <= m_idx b * m_record_length b;
  fi_fits : Z.of_nat (length (mjoin rs)) + sizeof_ptr * m_idx b <= m_size_in_bytes b }.

(** A record that was made at the next place, and was [length r] bytes long. *)
Definition add_record (m : memory) (b : Filesort_buffer) (r : bytes) : option (memory * Filesort_buffer) :=
  '(p, m, b) ← get_next_record_pointer m b; m ← write_bytes m p r; Some (m, adjust_next_record_pointer b (Z.of_nat (length r))).
(** Records are added until the buffer is full; the others are left. *)
Fixpoint fill (m : memory) (b : Filesort_buffer) (rs : list bytes) : option (memory * Filesort_buffer * list bytes) :=
  match rs with
  | [] => Some (m, b, [])
  | r :: rs' => full ← isfull b; if (full : bool) then Some (m, b, rs) else '(m, b) ← add_record m b r; fill m b rs'
  end.

Definition fitting (b : Filesort_buffer) (r : bytes) : Prop := is_bytes r /\ Z.of_nat (length r) <= m_record_length b.

Lemma filled_start m b : allocated m b -> filled m (init_next_record_pointer b) [].
Proof.
  intros A. split; try done.
  - destruct A. by split.
  - cbn. lia.
  - intros i Hi. cbn in Hi. lia.
  - destruct A as [_ _ _ _ [Hn Hl] Hr]. unfold sizeof_ptr in *. cbn. nia.
Qed.

(** [isfull] looks at the space only when all the records that were counted on are there. *)
Lemma isfull_ok m b rs : filled m b rs ->
  isfull b = Some (negb (m_idx b <? m_num_records b) && (m_size_in_bytes b <? Z.of_nat (length (mjoin rs)) + 8 * m_idx b + (m_record_length b + 8))).
Proof.
  intros [A Hi Hn _ _ _ Hf]. destruct A as [_ _ [Hp Hp'] _ [_ Hl] _]. unfold isfull, spaceleft, sizeof_ptr in *.
  destruct (Z.ltb_spec (m_idx b) (m_num_records b)); [done |]. cbn [negb andb]. rewrite Hn, (proj2 (Z.leb_le _ _)) by lia. cbn [mbind option_bind].
  rewrite (u64_small (m_idx b)), (u64_small (m_idx b * 8)), (u64_small (_ - _ + _)), u64_small by lia.
  f_equal. apply eq_bool_prop_intro. rewrite !Is_true_true, !Z.ltb_lt. lia.
Qed.

Lemma mjoin_app {A} (rs ts : list (list A)) : mjoin (rs ++ ts) = mjoin rs ++ mjoin ts.
Proof. induction rs as [| x rs IH]; cbn; [done |]. rewrite <- app_assoc. f_equal. exact IH. Qed.

Lemma mjoin_snoc {A} (rs : list (list A)) r : mjoin (rs ++ [r]) = mjoin rs ++ r.
Proof. rewrite mjoin_app. cbn. by rewrite app_nil_r. Qed.

Lemma record_addr_snoc b b' rs r i : m_rawmem b' = m_rawmem b -> (i <= length rs)%nat -> record_addr b' (rs ++ [r]) i = record_addr b rs i.
Proof. intros E Hi. unfold record_addr. by rewrite E, take_app_le. Qed.

(** There is room when the buffer is not full. *)
Lemma room_left m b rs : filled m b rs -> isfull b = Some false ->
  Z.of_nat (length (mjoin rs)) + 8 * m_idx b + m_record_length b + 8 <= m_size_in_bytes b.
Proof.
  intros F. rewrite (isfull_ok m b rs F). destruct F as [[_ _ _ _ [Hn Hl] Hr] Hi _ _ _ He Hf]. unfold sizeof_ptr in *. intros [= E].
  destruct (Z.ltb_spec (m_idx b) (m_num_records b)); cbn [negb andb] in E; [nia | apply Z.ltb_ge in E; lia].
Qed.

Lemma add_record_ok m b rs r : filled m b rs -> isfull b = Some false -> fitting b r ->
  exists m' b', add_record m b r = Some (m', b') /\ filled m' b' (rs ++ [r]) /\ same_block b b' /\ same_domain m m' /\
    forall x, ~ (m_rawmem b <= x < m_rawmem b + m_size_in_bytes b) -> read m' x = read m x.
Proof.
  intros F Hfull [Hb Hr]. pose proof (room_left m b rs F Hfull) as Room. destruct F as [A Hi Hn Hd Hk He Hf]. pose proof A as [Hm Hblock Hplace Hptr [Hnum Hlen] Hroom].
  unfold sizeof_ptr in *. unfold add_record, get_next_record_pointer.
  assert (Slot : m_record_pointers b + 8 * (- m_idx b) = m_rawmem b + m_size_in_bytes b - 8 - 8 * m_idx b) by lia.
  destruct (set_key_ok m (m_record_pointers b) (- m_idx b) (m_next_rec_ptr b) Hm) as (m1 & W1 & Hm1 & D1 & K1 & O1 & F1); [rewrite Slot; intros x Hx; apply Hblock; lia | lia |].
  rewrite W1. cbn [mbind option_bind]. rewrite Slot in F1.
  destruct (write_bytes_ok r m1 (m_next_rec_ptr b) Hm1) as (m2 & W2 & Hm2 & D2 & R2 & F2); [intros x Hx; apply D1, Hblock; lia | done |].
  rewrite W2. cbn [mbind option_bind]. eexists _, _. split; [reflexivity |].
  assert (D : same_domain m m2) by eauto using same_domain_trans.
  split; [| split; [done | split; [done |]]].
  - split.
    + by apply (allocated_same m m2 b).
    + unfold adjust_next_record_pointer. cbn [m_idx]. rewrite length_app. cbn. lia.
    + unfold adjust_next_record_pointer. cbn [m_next_rec_ptr m_rawmem m_record_length]. rewrite mjoin_snoc, length_app, u32_small by lia. lia.
    + unfold adjust_next_record_pointer. cbn [m_rawmem]. rewrite mjoin_snoc, length_app. apply read_bytes_app; [| by rewrite <- Hn].
      rewrite <- Hd. apply read_bytes_ext. intros x Hx. rewrite F2, F1 by lia. done.
    + intros i Hilt. rewrite length_app in Hilt. cbn in Hilt. unfold adjust_next_record_pointer at 1. cbn [m_record_pointers].
      rewrite (record_addr_snoc b _ rs r i) by (done || lia).
      replace (key_at m2 (m_record_pointers b) (- Z.of_nat i)) with (key_at m1 (m_record_pointers b) (- Z.of_nat i)).
      2:{ unfold key_at, read_ptr, sizeof_ptr. f_equal. symmetry. apply read_bytes_ext. intros x Hx. apply F2. lia. }
      destruct (decide (i = length rs)) as [-> |].
      * rewrite <- Hi, K1. unfold record_addr. by rewrite firstn_all, Hn.
      * rewrite O1 by lia. apply Hk. lia.
    + unfold adjust_next_record_pointer. cbn [m_idx m_record_length]. rewrite mjoin_snoc, length_app. lia.
    + unfold adjust_next_record_pointer. cbn [m_idx m_size_in_bytes]. rewrite mjoin_snoc, length_app. unfold sizeof_ptr. lia.
  - intros x Hx. rewrite F2, F1 by lia. done.
Qed.

Lemma fill_buffer_ok rs' : forall m b rs, filled m b rs -> Forall (fitting b) rs' ->
  exists m' b' n, fill m b rs' = Some (m', b', drop n rs') /\ filled m' b' (rs ++ take n rs') /\ same_block b b' /\ same_domain m m' /\ (n <= length rs')%nat /\
    (n = length rs' \/ isfull b' = Some true) /\
    forall x, ~ (m_rawmem b <= x < m_rawmem b + m_size_in_bytes b) -> read m' x = read m x.
Proof.
  induction rs' as [| r rs' IH]; intros m b rs F Hf.
  { exists m, b, 0%nat. cbn. rewrite app_nil_r. split; [done |]. split; [done |]. split; [by repeat split |]. split; [apply same_domain_refl |]. auto. }
  cbn [fill]. pose proof (isfull_ok m b rs F) as Efull. set (full := negb _ && _) in Efull. clearbody full. rewrite Efull. cbn [mbind option_bind].
  destruct full.
  { exists m, b, 0%nat. cbn [take drop]. rewrite app_nil_r. split; [done |]. split; [done |]. split; [by repeat split |]. split; [apply same_domain_refl |]. cbn. split; [lia |]. auto. }
  apply Forall_cons in Hf as [Hr Hf]. destruct (add_record_ok m b rs r F Efull Hr) as (m1 & b1 & E1 & F1 & S1 & D1 & O1). rewrite E1. cbn [mbind option_bind].
  pose proof S1 as (Q1 & Q2 & Q3 & Q4 & Q5).
  destruct (IH m1 b1 (rs ++ [r]) F1) as (m2 & b2 & n & E2 & F2 & (T1 & T2 & T3 & T4 & T5) & D2 & Hn & Hstop & O2).
  { apply (Forall_impl _ _ _ Hf). intros x. unfold fitting. by rewrite Q5. }
  exists m2, b2, (S n). cbn [drop take length]. rewrite <- app_assoc in F2. split; [done |]. split; [done |].
  split; [unfold same_block; repeat split; congruence |]. split; [eauto using same_domain_trans |]. split; [lia |]. split; [destruct Hstop; [left; lia | by right] |].
  intros x Hx. rewrite O2, O1 by congruence. done.
Qed.

Lemma read_bytes_nth m a n bs i c : read_bytes m a n = Some bs -> bs !! i = Some c -> read m (a + Z.of_nat i) = Some c.
Proof.
  revert a bs i. induction n as [| n IH]; intros a bs i; cbn [read_bytes]; [by intros [= <-] |].
  destruct (read m a) eqn:E; [| done]. cbn [mbind option_bind]. destruct (read_bytes m (a + 1) n) eqn:E'; [| done]. cbn. intros [= <-].
  destruct i as [| i]; cbn [lookup list_lookup]; [intros [= <-]; by rewrite Z.add_0_r |]. intros Hc.
  replace (a + Z.of_nat (S i)) with (a + 1 + Z.of_nat i) by lia. by apply (IH _ l).
Qed.

(** Each record where its pointer says. *)
Lemma record_read m b rs i r : read_bytes m (m_rawmem b) (length (mjoin rs)) = Some (mjoin rs) -> rs !! i = Some r ->
  read_bytes m (record_addr b rs i) (length r) = Some r.
Proof.
  intros Hd Hr. apply read_bytes_lookup; [done |]. intros k c Hc. unfold record_addr. rewrite <- Z.add_assoc, <- Nat2Z.inj_add.
  apply (read_bytes_nth _ _ _ _ _ _ Hd). rewrite <- (take_drop_middle rs i r Hr) at 2. rewrite mjoin_app.
  rewrite lookup_app_r by lia. replace (length (mjoin (take i rs)) + k - length (mjoin (take i rs)))%nat with k by lia.
  change (mjoin (r :: drop (S i) rs)) with (r ++ mjoin (drop (S i) rs)). apply lookup_app_l_Some, Hc.
Qed.

(** The array of pointers, read forwards, begins with the last record. *)
Lemma sort_keys_backwards m b n (f : nat -> Z) : m_idx b = Z.of_nat n -> (0 < n)%nat ->
  (forall i : nat, (i < n)%nat -> key_at m (m_record_pointers b) (- Z.of_nat i) = Some (f i)) ->
  slots m (get_sort_keys b) (Z.of_nat n) (fun j => f (n - 1 - Z.to_nat j)%nat).
Proof.
  intros Hn Hpos Hk j Hj. unfold get_sort_keys. rewrite (proj2 (Z.eqb_neq _ _)) by lia. rewrite <- (Hk (n - 1 - Z.to_nat j)%nat) by lia.
  unfold key_at, sizeof_ptr. f_equal. rewrite Hn. lia.
Qed.

(** Reversed: pointer [i] is that of record [i], and no record has changed. *)
Lemma filled_reversed m b n (f : nat -> Z) : allocated m b -> m_idx b = Z.of_nat n -> 8 * Z.of_nat n <= m_size_in_bytes b ->
  (forall i : nat, (i < n)%nat -> key_at m (m_record_pointers b) (- Z.of_nat i) = Some (f i)) -> (forall i, 0 <= f i < 2 ^ 64) ->
  exists m', reverse_record_pointers m b = Some m' /\
    (forall i : nat, (i < n)%nat -> key_at m' (get_sort_keys b) (Z.of_nat i) = Some (f i) /\ key_at m (get_sort_keys b) (Z.of_nat (n - 1 - i)) = Some (f i)) /\
    (forall x, ~ (m_rawmem b + m_size_in_bytes b - 8 * Z.of_nat n <= x < m_rawmem b + m_size_in_bytes b) -> read m' x = read m x).
Proof.
  intros [Hm Hblock Hplace Hptr _ _] Hn Hfit Hk Hf. destruct n as [| n].
  { exists m. unfold reverse_record_pointers. rewrite Hn. cbn. split; [done |]. split; [intros; lia | done]. }
  assert (Ek : get_sort_keys b = m_rawmem b + m_size_in_bytes b - 8 * Z.of_nat (S n)).
  { unfold get_sort_keys, sizeof_ptr in *. rewrite (proj2 (Z.eqb_neq _ _)) by lia. lia. }
  pose proof (sort_keys_backwards m b (S n) f Hn ltac:(lia) Hk) as Sl.
  destruct (reversed_ok m b (fun j => f (S n - 1 - Z.to_nat j)%nat) Hm) as (m' & E & _ & _ & Sl' & F).
  - lia.
  - rewrite Ek, Hn. intros x Hx. apply Hblock. lia.
  - intros; apply Hf.
  - rewrite Hn. exact Sl.
  - exists m'. split; [done |]. split; [| intros x Hx; apply F; rewrite Ek, Hn; lia].
    intros i Hi. split; [rewrite Sl' by lia | rewrite Sl by lia]; do 2 f_equal; rewrite ?Hn; lia.
Qed.

(** C11: Records that are added while the buffer is not full go one behind the other; their pointers, which come
    from the other end, never meet them, whatever the lengths of the records. At least
    [m_num_records] fit, more when they are packed. The array of pointers begins with the last
    record, after [reverse_record_pointers] with the first, and each pointer leads to its
    record; nothing outside the block is touched. *)
Theorem sort_buffer_holds_records m b rs :
  allocated m b -> Forall (fitting b) rs ->
  exists m1 b1 n m2, fill m (init_next_record_pointer b) rs = Some (m1, b1, drop n rs) /\ (n <= length rs)%nat /\ (n = length rs \/ isfull b1 = Some true) /\
    Z.min (m_num_records b) (Z.of_nat (length rs)) <= Z.of_nat n /\
    space_used_for_data b1 = Z.of_nat (length (mjoin (take n rs))) /\
    spaceleft b1 = Some (m_size_in_bytes b - Z.of_nat (length (mjoin (take n rs))) - 8 * Z.of_nat n) /\
    reverse_record_pointers m1 b1 = Some m2 /\
    (forall i r, take n rs !! i = Some r -> exists p,
       key_at m1 (get_sort_keys b1) (Z.of_nat (n - 1 - i)) = Some p /\ read_bytes m1 p (length r) = Some r /\
       key_at m2 (get_sort_keys b1) (Z.of_nat i) = Some p /\ read_bytes m2 p (length r) = Some r) /\
    forall x, ~ (m_rawmem b <= x < m_rawmem b + m_size_in_bytes b) -> read m1 x = read m x /\ read m2 x = read m x.
Proof.
  intros A Hf. destruct (fill_buffer_ok rs m (init_next_record_pointer b) [] (filled_start m b A) Hf) as (m1 & b1 & n & E & F & Same & D & Hn & Hstop & O).
  cbn [app] in F. pose proof F as [A1 Hi Hnext Hd Hk He Hfit]. destruct Same as (Q1 & Q2 & Q3 & Q4 & Q5). cbn in Q1, Q2, Q3, Q4, Q5, O.
  pose proof A1 as [Hm1 _ [Hp Hp'] _ _ _]. unfold sizeof_ptr in *. rewrite length_take_le in Hi by done.
  assert (Hlen : length (take n rs) = n) by (by rewrite length_take_le). rewrite Hlen in Hk.
  assert (Hdata : forall i, record_addr b1 (take n rs) i <= m_rawmem b1 + Z.of_nat (length (mjoin (take n rs)))).
  { intros i. unfold record_addr. rewrite <- (take_drop i (take n rs)) at 2. rewrite mjoin_app, length_app. lia. }
  destruct (filled_reversed m1 b1 n (record_addr b1 (take n rs)) A1 Hi) as (m2 & R & K & O2); [lia | done | |].
  { intros i. specialize (Hdata i). unfold record_addr in *. lia. }
  exists m1, b1, n, m2. split; [done |]. split; [done |]. split; [done |]. split.
  { destruct Hstop as [-> | Hfull]; [lia |]. rewrite (isfull_ok m1 b1 _ F), Hi, Q4 in Hfull. destruct (Z.ltb_spec (Z.of_nat n) (m_num_records b)); [done | lia]. }
  split; [unfold space_used_for_data; rewrite (proj2 (Z.eqb_neq _ _)), Hnext, u64_small by lia; cbn [negb]; lia |].
  split. { unfold spaceleft, sizeof_ptr. rewrite Hnext, (proj2 (Z.leb_le _ _)) by lia. rewrite Hi, (u64_small (Z.of_nat n)), (u64_small (_ * 8)), (u64_small (_ - _ + _)), u64_small by lia. f_equal. lia. }
  split; [done |]. split.
  - intros i r Hr. pose proof (record_read m1 b1 _ i r Hd Hr) as Rd. destruct (K i) as [K2 K1]; [apply lookup_lt_Some in Hr; lia |].
    eexists. split; [exact K1 |]. split; [exact Rd |]. split; [exact K2 |]. rewrite <- Rd. apply read_bytes_ext. intros x Hx. apply O2.
    assert (record_addr b1 (take n rs) i + Z.of_nat (length r) <= m_rawmem b1 + Z.of_nat (length (mjoin (take n rs)))); [| lia].
    unfold record_addr. rewrite <- (take_drop_middle (take n rs) i r Hr) at 2. rewrite mjoin_app.
    change (mjoin (r :: drop (S i) (take n rs))) with (r ++ mjoin (drop (S i) (take n rs))). rewrite !length_app. lia.
  - intros x Hx. split; [by apply O |]. rewrite O2 by lia. by apply O.
Qed.

Lemma init_loop_ok fuel : forall m b n, allocated m b -> m_idx b = Z.of_nat n -> m_next_rec_ptr b = m_rawmem b + Z.of_nat n * m_record_length b ->
  (forall i : nat, (i < n)%nat -> key_at m (m_record_pointers b) (- Z.of_nat i) = Some (m_rawmem b + Z.of_nat i * m_record_length b)) ->
  Z.of_nat n <= m_num_records b -> (Z.to_nat (m_num_records b) - n < fuel)%nat ->
  exists m' b', init_loop fuel m b = Some (m', b') /\ allocated m' b' /\ same_block b b' /\ m_idx b' = m_num_records b /\
    forall i : nat, Z.of_nat i < m_num_records b -> key_at m' (m_record_pointers b') (- Z.of_nat i) = Some (m_rawmem b + Z.of_nat i * m_record_length b).
Proof.
  induction fuel as [| fuel IH]; intros m b n A Hi Hn Hk Hle Hfu; [lia |]. cbn [init_loop]. destruct (Z.ltb_spec (m_idx b) (m_num_records b)) as [Hlt | Hge].
  - pose proof A as [Hm Hblock Hplace Hptr [Hnum Hlen] Hroom]. unfold sizeof_ptr in *. unfold get_next_record_pointer.
    destruct (set_key_ok m (m_record_pointers b) (- m_idx b) (m_next_rec_ptr b) Hm) as (m1 & W1 & Hm1 & D1 & K1 & O1 & F1); [intros x Hx; apply Hblock; nia | nia |].
    rewrite W1. cbn [mbind option_bind].
    destruct (IH m1 (Buffer (m_next_rec_ptr b + m_record_length b) (m_rawmem b) (m_record_pointers b) (m_sort_keys b) (m_num_records b) (m_record_length b) (m_sort_length b)
      (m_size_in_bytes b) (m_idx b + 1)) (S n)) as (m' & b' & E & A' & S' & I' & K'); cbn [m_next_rec_ptr m_rawmem m_record_pointers m_num_records m_record_length m_idx].
    + by apply (allocated_same m m1 b).
    + lia.
    + lia.
    + intros i Hilt. destruct (decide (i = n)) as [-> |]; [by rewrite <- Hi, K1, Hn, Hi | rewrite O1 by lia; apply Hk; lia].
    + lia.
    + lia.
    + exists m', b'. split; [exact E |]. split; [exact A' |]. split; [exact S' |]. split; [exact I' | exact K'].
  - exists m, b. split; [done |]. split; [done |]. split; [by repeat split |]. split; [lia |]. intros i Hilt. apply Hk. lia.
Qed.

(** [init_record_pointers] makes pointer [i] that of the [i]th record of the full length, for all the records
    counted on. *)
Theorem init_record_pointers_spec m b : allocated m b ->
  exists m' b', init_record_pointers m b = Some (m', b') /\ m_idx b' = m_num_records b /\
    forall i : nat, Z.of_nat i < m_num_records b -> key_at m' (get_sort_keys b') (Z.of_nat i) = Some (m_rawmem b + Z.of_nat i * m_record_length b).
Proof.
  intros A. assert (A0 : allocated m (init_next_record_pointer b)) by (destruct A; by split).
  pose proof A as [_ _ Hplace _ [Hnum Hlen] Hroom]. unfold sizeof_ptr in Hroom. unfold init_record_pointers.
  destruct (init_loop_ok (Z.to_nat (m_num_records b) + 1) m (init_next_record_pointer b) 0 A0) as (m1 & b1 & E & A1 & (Q1 & Q2 & Q3 & Q4 & Q5) & I & K);
    cbn [m_idx m_next_rec_ptr m_rawmem m_num_records init_next_record_pointer]; try lia.
  rewrite E. cbn [mbind option_bind]. cbn in Q1, Q2, Q3, Q4, Q5, I, K.
  destruct (filled_reversed m1 b1 (Z.to_nat (m_num_records b)) (fun i => m_rawmem b + Z.of_nat (Nat.min i (Z.to_nat (m_num_records b))) * m_record_length b) A1) as (m2 & R & K2 & _).
  - lia.
  - rewrite Q2. nia.
  - intros i Hi. rewrite Nat.min_l by lia. apply K. lia.
  - intros i. nia.
  - rewrite R. cbn [mbind option_bind]. eexists m2, b1. split; [reflexivity |]. split; [done |]. intros i Hi. destruct (K2 i) as [-> _]; [lia |]. by rewrite Nat.min_l by lia.
Qed.

(** Forty bytes for two records of up to ten bytes: packed records of three bytes fit three times. *)
Definition demo_memory : memory := Mem (list_to_map ((fun i => (96 + Z.of_nat i, 0)) <$> seq 0 64)) ∅.
Definition demo_buffer : Filesort_buffer := Buffer 0 100 132 0 2 10 0 40 0.

Lemma demo_allocated : allocated demo_memory demo_buffer.
Proof. split; [apply mem_ok_compute; by vm_compute | demo_writable | cbn; lia | done | cbn; lia | by vm_compute]. Qed.

Lemma sort_buffer_holds_records_witness : exists m1 b1 m2,
  fill demo_memory (init_next_record_pointer demo_buffer) [[1; 2; 3]; [4; 5]; [6; 7; 8]; [9]] = Some (m1, b1, [[9]]) /\
  reverse_record_pointers m1 b1 = Some m2 /\ key_at m2 (get_sort_keys b1) 1 = Some 103 /\ read_bytes m2 103 2 = Some [4; 5].
Proof.
  destruct (sort_buffer_holds_records demo_memory demo_buffer [[1; 2; 3]; [4; 5]; [6; 7; 8]; [9]] demo_allocated) as (m1 & b1 & n & m2 & H1 & _ & _ & _ & _ & _ & H2 & H3 & _).
  { repeat (apply Forall_cons_2; [split; [repeat (apply Forall_cons_2; [lia |]); apply Forall_nil_2 | cbn; lia] |]). apply Forall_nil_2. }
  assert (n = 3%nat) as ->.
  { assert (H0 : Some 1%nat = Some (length (drop n [[1; 2; 3]; [4; 5]; [6; 7; 8]; [9]]))).
    { transitivity (option_map (fun x => length x.2) (fill demo_memory (init_next_record_pointer demo_buffer) [[1; 2; 3]; [4; 5]; [6; 7; 8]; [9]]));
        [vm_compute; reflexivity | exact (f_equal (option_map (fun x => length x.2)) H1)]. }
    rewrite length_drop in H0. injection H0. cbn [length]. lia. }
  exists m1, b1, m2. split; [exact H1 |]. split; [exact H2 |]. destruct (H3 1%nat [4; 5] eq_refl) as (p & _ & _ & H4 & H5).
  change (Z.of_nat 1) with 1 in H4. assert (p = 103) as ->; [| by split].
  vm_compute in H1. injection H1 as <- <-. vm_compute in H2. injection H2 as <-. vm_compute in H4. congruence.
Defined.

Lemma init_record_pointers_spec_witness : exists m' b',
  init_record_pointers demo_memory demo_buffer = Some (m', b') /\ key_at m' (get_sort_keys b') 1 = Some 110.
Proof.
  destruct (init_record_pointers_spec demo_memory demo_buffer demo_allocated) as (m' & b' & H1 & _ & H2). exists m', b'. split; [exact H1 |]. apply (H2 1%nat). cbn. lia.
Defined.
