(* ===== verification/InPredicate.v ===== *)
(** * InPredicate: one value compared with a list of others ([item_cmpfunc.h])

    [IN] and simple [CASE] compare a predicant with values of several types.  A
    [Predicant_to_list_comparator] has an entry for each value; the entries that
    compare with the same type handler share one [cmp_item], which keeps the value of
    the predicant while it is compared with the values.  Comparisons answer TRUE
    (different), FALSE (equal) or UNKNOWN (a NULL).

    Items are named by their addresses; evaluating one sets its [null_value], which
    the code reads later, so that these flags are a state.  The class [ItemValues] has
    the values of items, as each way of evaluating gives them. The class [CmpItem] is
    the interface of [cmp_item], the class [CmpItemLaws] what its clients rely on; the
    comparators of strings, integers and reals implement it.

    A failing assertion and an access outside an array have no result. *)

From stdpp Require Import base numbers option list gmap.
From Stdlib Require Import ZArith Lia.
From S2P Require Import Prelude ByteMem ByteOrder.

Local Open Scope Z_scope.

(** ** Evaluating items *)

Definition FALSE : Z := 0.
Definition TRUE : Z := 1.
(* [item_cmpfunc.h:334-334 UNKNOWN] *)
Definition UNKNOWN : Z := -1.

(** The [null_value] of each item, by its address. *)
Abbreviation nulls := (gmap Z bool).
Definition null_value (s : nulls) (item : Z) : bool := default false (s !! item).

(** The value of an item and whether it is NULL, in the contexts in which it can be asked for. *)
Class ItemValues (D : Type) := {
  val_int : Z -> Z * bool;
  val_real : Z -> D * bool;
  val_str : Z -> option bytes * bool;
  val_datetime_packed : Z -> Z * bool;
  val_time_packed : Z -> Z * bool;
  const_item : Z -> bool;
  is_expensive : Z -> bool;
  sortcmp : bytes -> bytes -> Z;
  real_eq : D -> D -> bool;
  real_lt : D -> D -> bool }.

(** What [Item_save_in_value] puts into a [Value]. *)
Inductive Value (D : Type) := V_null | V_longlong (v : Z) | V_double (v : D) | V_string (v : bytes).
Arguments V_null {D}. Arguments V_longlong {D}. Arguments V_double {D}. Arguments V_string {D}.

(** ** cmp_item *)

Section items.
Context `{ItemValues D}.

(** A call that evaluates [item]. *)
Definition evaluate {A} (item : Z) (v : A * bool) (s : nulls) : A * nulls := (v.1, <[item := v.2]> s).

(** The objects of each class with the value that they keep. *)
(* [item_cmpfunc.h:1558-1562 cmp_item_scalar] *)
Inductive cmp_item :=
  | cmp_item_sort_string (value_res : option bytes) (m_null_value : bool)
  | cmp_item_int (value : Z) (m_null_value : bool)
  | cmp_item_real (value : D) (m_null_value : bool).

(** [truth] of a C++ [bool]. *)
Definition int_of_bool (b : bool) : Z := if b then TRUE else FALSE.

(** The copy into the own buffer; [ok] is whether there is memory for it. *)
(* [item_cmpfunc.h:1587-1598 store_value] *)
Definition string_store_value (ok : bool) (item : Z) (s : nulls) : cmp_item * nulls :=
  let '(value_res, s) := evaluate item (val_str item) s in
  let m_null_value := null_value s item in
  (cmp_item_sort_string (match value_res with Some v => Some (if ok then v else []) | None => None end) m_null_value, s).
(* [item_cmpfunc.h:1599-1604 cmp_not_null] *)
Definition string_cmp_not_null (value_res : option bytes) (val : Value D) : option Z :=
  match val with V_string v => r ← value_res; Some (int_of_bool (negb (sortcmp r v =? 0))) | _ => None end.
(* [item_cmpfunc.h:1605-1617 cmp] *)
Definition string_cmp (value_res : option bytes) (m_null_value : bool) (arg : Z) (s : nulls) : Z * nulls :=
  let '(res, s) := evaluate arg (val_str arg) s in
  (if m_null_value || null_value s arg then UNKNOWN
   else match value_res, res with
        | Some v, Some r => int_of_bool (negb (sortcmp v r =? 0))
        | None, None => FALSE
        | _, _ => TRUE
        end, s).
(* [item_cmpfunc.h:1618-1622 compare] *)
Definition string_compare (value_res other : option bytes) : option Z := v ← value_res; r ← other; Some (sortcmp v r).

(* [item_cmpfunc.h:1636-1640 store_value] *)
Definition int_store_value (item : Z) (s : nulls) : cmp_item * nulls :=
  let '(value, s) := evaluate item (val_int item) s in (cmp_item_int value (null_value s item), s).
(* [item_cmpfunc.h:1641-1646 cmp_not_null] *)
Definition int_cmp_not_null (value : Z) (val : Value D) : option Z :=
  match val with V_longlong v => Some (int_of_bool (negb (value =? v))) | _ => None end.
(* [item_cmpfunc.h:1647-1651 cmp] *)
Definition int_cmp (value : Z) (m_null_value : bool) (arg : Z) (s : nulls) : Z * nulls :=
  let '(v, s) := evaluate arg (val_int arg) s in
  let rc := negb (value =? v) in
  (if m_null_value || null_value s arg then UNKNOWN else int_of_bool rc, s).
(* [item_cmpfunc.h:1652-1656 compare] *)
Definition int_compare (value other : Z) : Z := if value <? other then -1 else if value =? other then 0 else 1.

(* [item_cmpfunc.h:1725-1729 store_value] *)
Definition real_store_value (item : Z) (s : nulls) : cmp_item * nulls :=
  let '(value, s) := evaluate item (val_real item) s in (cmp_item_real value (null_value s item), s).
(* [item_cmpfunc.h:1730-1735 cmp_not_null] *)
Definition real_cmp_not_null (value : D) (val : Value D) : option Z :=
  match val with V_double v => Some (int_of_bool (negb (real_eq value v))) | _ => None end.
(* [item_cmpfunc.h:1736-1740 cmp] *)
Definition real_cmp (value : D) (m_null_value : bool) (arg : Z) (s : nulls) : Z * nulls :=
  let '(v, s) := evaluate arg (val_real arg) s in
  let rc := negb (real_eq value v) in
  (if m_null_value || null_value s arg then UNKNOWN else int_of_bool rc, s).
(* [item_cmpfunc.h:1741-1745 compare] *)
Definition real_compare (value other : D) : Z := if real_lt value other then -1 else if real_eq value other then 0 else 1.

(** The packed values of DATETIME and TIME; the comparisons of these classes are compiled elsewhere. *)
(* [item_cmpfunc.h:1679-1683 store_value] *)
Definition datetime_store_value (item : Z) (s : nulls) : (Z * bool) * nulls :=
  let '(value, s) := evaluate item (val_datetime_packed item) s in ((value, null_value s item), s).
(* [item_cmpfunc.h:1696-1700 store_value] *)
Definition time_store_value (item : Z) (s : nulls) : (Z * bool) * nulls :=
  let '(value, s) := evaluate item (val_time_packed item) s in ((value, null_value s item), s).

(** The comparator of a row's constant strings keeps the string of the item itself. *)
(* [item_cmpfunc.h:1775-1779 store_value] *)
Definition static_store_value (item : Z) (s : nulls) : (option bytes * bool) * nulls :=
  let '(value_res, s) := evaluate item (val_str item) s in ((value_res, null_value s item), s).
(* [item_cmpfunc.h:1780-1784 cmp_not_null] *)
Definition static_cmp_not_null (val : Value D) : option Z := None.
(* [item_cmpfunc.h:1785-1790 cmp] *)
Definition static_cmp (item : Z) : option Z := None.
(* [item_cmpfunc.h:1791-1795 compare] *)
Definition static_compare (value_res other : option bytes) : option Z := v ← value_res; r ← other; Some (sortcmp v r).

(** The virtual functions. *)
Definition header_store_value (c : cmp_item) (s : nulls) (item : Z) : cmp_item * nulls :=
  match c with
  | cmp_item_sort_string _ _ => string_store_value true item s
  | cmp_item_int _ _ => int_store_value item s
  | cmp_item_real _ _ => real_store_value item s
  end.
Definition header_cmp (c : cmp_item) (s : nulls) (item : Z) : Z * nulls :=
  match c with
  | cmp_item_sort_string v n => string_cmp v n item s
  | cmp_item_int v n => int_cmp v n item s
  | cmp_item_real v n => real_cmp v n item s
  end.
Definition header_cmp_not_null (c : cmp_item) (val : Value D) : option Z :=
  match c with
  | cmp_item_sort_string v _ => string_cmp_not_null v val
  | cmp_item_int v _ => int_cmp_not_null v val
  | cmp_item_real v _ => real_cmp_not_null v val
  end.

(** *** Arg_comparator *)

(** The first component is [owner->null_value]. *)
(* [item_cmpfunc.h:61-68 compare_not_null_values] *)
Definition compare_not_null_values (set_null owner_null : bool) (val1 val2 : Z) : bool * Z :=
  (if set_null then false else owner_null, if val1 <? val2 then -1 else if val1 =? val2 then 0 else 1).
End items.
Arguments cmp_item D : clear implicits.

(** ** The interface of comparators *)

(** [CI] are the objects, [VAL] what [Item_save_in_value] makes of an item. *)
Class CmpItem (CI VAL : Type) := {
  store_value : CI -> nulls -> Z -> CI * nulls;
  ci_cmp : CI -> nulls -> Z -> Z * nulls;
  cmp_not_null : CI -> VAL -> option Z;
  is_null : VAL -> bool }.

(** ** Predicant_to_list_comparator *)

Section code.
Context {CI VAL H : Type} `{CmpItem CI VAL} `{EqDecision H}.

(* [item_cmpfunc.h:1973-1978 Predicant_to_value_comparator] *)
Record Predicant_to_value_comparator := Entry { m_handler : option H; m_cmp_item : option CI; m_arg_index : nat; m_handler_index : nat }.

(* [item_cmpfunc.h:1979-1984 cleanup] *)
Definition entry_cleanup (e : Predicant_to_value_comparator) : Predicant_to_value_comparator := Entry None None 0 0.

(** The array has [length m_comparators] elements, of which [m_comparator_count] are in use. *)
(* [item_cmpfunc.h:1987-1992 m_comparators] *)
Record Predicant_to_list_comparator := Comparator { m_comparators : list Predicant_to_value_comparator; m_comparator_count : nat; m_predicant_index : nat }.

(** [array] is what [alloc_comparators] got for the values. *)
(* [item_cmpfunc.h:1996-2001 Predicant_to_list_comparator] *)
Definition mk_Predicant_to_list_comparator (array : list Predicant_to_value_comparator) : Predicant_to_list_comparator := Comparator array 0 0.
(* [item_cmpfunc.h:2003-2003 comparator_count] *)
Definition comparator_count (p : Predicant_to_list_comparator) : nat := m_comparator_count p.
(* [item_cmpfunc.h:2004-2008 get_comparator_type_handler] *)
Definition get_comparator_type_handler (p : Predicant_to_list_comparator) (i : nat) : option (option H) :=
  if (i <? m_comparator_count p)%nat then e ← m_comparators p !! i; Some (m_handler e) else None.
(* [item_cmpfunc.h:2009-2013 get_comparator_arg_index] *)
Definition get_comparator_arg_index (p : Predicant_to_list_comparator) (i : nat) : option nat :=
  if (i <? m_comparator_count p)%nat then e ← m_comparators p !! i; Some (m_arg_index e) else None.
(* [item_cmpfunc.h:2014-2018 get_comparator_cmp_item] *)
Definition get_comparator_cmp_item (p : Predicant_to_list_comparator) (i : nat) : option (option CI) :=
  if (i <? m_comparator_count p)%nat then e ← m_comparators p !! i; Some (m_cmp_item e) else None.
(** [argument_count] is that of the owner's arguments. *)
(* [item_cmpfunc.h:2036-2042 add_predicant] *)
Definition add_predicant (p : Predicant_to_list_comparator) (argument_count predicant_index : nat) : option Predicant_to_list_comparator :=
  if (m_comparator_count p =? 0)%nat && (m_predicant_index p =? 0)%nat && (predicant_index <? argument_count)%nat
  then Some (Comparator (m_comparators p) (m_comparator_count p) predicant_index) else None.

(** The result is whether the handler was {e not} found, and [*idx]. *)
Fixpoint find_loop (k : nat) (p : Predicant_to_list_comparator) (handler : H) (count i idx : nat) : option (bool * nat) :=
  match k with
  | O => None
  | S k =>
    if (i <? count)%nat then
      e ← m_comparators p !! i;
      if bool_decide (m_handler e = Some handler) then Some (false, i) else find_loop k p handler count (i + 1) idx
    else Some (true, idx)
  end.
(* [item_cmpfunc.h:1877-1889 find_handler] *)
Definition find_handler (p : Predicant_to_list_comparator) (idx : nat) (handler : H) (count : nat) : option (bool * nat) :=
  if (count <? m_comparator_count p)%nat then find_loop (S count) p handler count 0 idx else None.

(* [item_cmpfunc.h:2086-2094 cleanup] *)
Definition cleanup (p : Predicant_to_list_comparator) : Predicant_to_list_comparator :=
  Comparator (imap (fun i e => if (i <? m_comparator_count p)%nat then entry_cleanup e else e) (m_comparators p)) 0 0.
(* [item_cmpfunc.h:2095-2100 init_clone] *)
Definition init_clone (p : Predicant_to_list_comparator) (array : option (list Predicant_to_value_comparator)) : bool * Predicant_to_list_comparator :=
  match array with Some a => (false, Comparator a 0 0) | None => (true, Comparator (m_comparators p) 0 0) end.

Definition with_item (e : Predicant_to_value_comparator) (c : CI) : Predicant_to_value_comparator := Entry (m_handler e) (Some c) (m_arg_index e) (m_handler_index e).
Definition set_item (p : Predicant_to_list_comparator) (i : nat) (c : CI) : Predicant_to_list_comparator :=
  Comparator (alter (fun e => with_item e c) i (m_comparators p)) (m_comparator_count p) (m_predicant_index p).

(** The type handler of rows. *)
Variable type_handler_row : H.

(** [args] are the addresses of the owner's arguments. *)
(* [item_cmpfunc.h:1923-1950 cmp_arg] *)
Definition cmp_arg (p : Predicant_to_list_comparator) (args : list Z) (i : nat) (s : nulls) : option (Z * Predicant_to_list_comparator * nulls) :=
  e ← m_comparators p !! i;
  cmp ← m_comparators p !! m_handler_index e;
  in_item ← m_cmp_item cmp;
  predicant ← args !! m_predicant_index p;
  let '(in_item, s) := if (m_handler_index e =? i)%nat then store_value in_item s predicant else (in_item, s) in
  let p := set_item p (m_handler_index e) in_item in
  if null_value s predicant && negb (bool_decide (m_handler e = Some type_handler_row)) then Some (UNKNOWN, p, s)
  else arg ← args !! m_arg_index e; let '(rc, s) := ci_cmp in_item s arg in Some (rc, p, s).

(** [Item_save_in_value] evaluates the item. *)
Variable Item_save_in_value : option H -> Z -> VAL.

(* [item_cmpfunc.h:1951-1968 cmp_args_nulls_equal] *)
Definition cmp_args_nulls_equal (p : Predicant_to_list_comparator) (args : list Z) (i : nat) (s : nulls) : option (Z * Predicant_to_list_comparator * nulls) :=
  e ← m_comparators p !! i;
  cmp ← m_comparators p !! m_handler_index e;
  in_item ← m_cmp_item cmp;
  predicant ← args !! m_predicant_index p;
  arg ← args !! m_arg_index e;
  let '(in_item, s) := if (m_handler_index e =? i)%nat then store_value in_item s predicant else (in_item, s) in
  let p := set_item p (m_handler_index e) in_item in
  let val := Item_save_in_value (m_handler e) arg in
  let s := <[arg := is_null val]> s in
  if null_value s predicant && is_null val then Some (FALSE, p, s)
  else if null_value s predicant || is_null val then Some (UNKNOWN, p, s)
  else rc ← cmp_not_null in_item val; Some (rc, p, s).

(** What [cmp] and [cmp_nulls_equal] return and change: [*idx], [*found_unknown_values]. *)
Record cmp_state := State { st_idx : nat; st_found : option bool; st_cmp : Predicant_to_list_comparator; st_nulls : nulls }.

(** The loop of [cmp] from [i] on; [st_found] is [None] for a NULL pointer. *)
Fixpoint cmp_loop (k : nat) (args : list Z) (i : nat) (st : cmp_state) : option (bool * cmp_state) :=
  match k with
  | O => None
  | S k =>
    if (i <? m_comparator_count (st_cmp st))%nat then
      e ← m_comparators (st_cmp st) !! i;
      _ ← m_handler e;
      '(rc, p, s) ← cmp_arg (st_cmp st) args i (st_nulls st);
      if rc =? FALSE then Some (false, State (m_arg_index e) (st_found st) p s)
      else if rc =? UNKNOWN then
        match st_found st with
        | None => Some (true, State (st_idx st) None p s)
        | Some _ => cmp_loop k args (i + 1) (State (st_idx st) (Some true) p s)
        end
      else cmp_loop k args (i + 1) (State (st_idx st) (st_found st) p s)
    else Some (true, st)
  end.
(* [item_cmpfunc.h:2120-2139 cmp] *)
Definition cmp (p : Predicant_to_list_comparator) (args : list Z) (idx : nat) (found_unknown_values : option bool) (s : nulls) : option (bool * cmp_state) :=
  cmp_loop (S (m_comparator_count p)) args 0 (State idx found_unknown_values p s).

Fixpoint nulls_equal_loop (k : nat) (args : list Z) (i : nat) (st : cmp_state) : option (bool * cmp_state) :=
  match k with
  | O => None
  | S k =>
    if (i <? m_comparator_count (st_cmp st))%nat then
      e ← m_comparators (st_cmp st) !! i;
      _ ← m_handler e;
      '(rc, p, s) ← cmp_args_nulls_equal (st_cmp st) args i (st_nulls st);
      if rc =? FALSE then Some (false, State (m_arg_index e) (st_found st) p s)
      else nulls_equal_loop k args (i + 1) (State (st_idx st) (st_found st) p s)
    else Some (true, st)
  end.
(* [item_cmpfunc.h:2143-2155 cmp_nulls_equal] *)
Definition cmp_nulls_equal (p : Predicant_to_list_comparator) (args : list Z) (idx : nat) (s : nulls) : option (bool * cmp_state) :=
  nulls_equal_loop (S (m_comparator_count p)) args 0 (State idx None p s).
End code.

(** ** The functions that use it *)

(* [item_cmpfunc.h:2205-2205 when_count] *)
Definition searched_when_count (arg_count : nat) : nat := arg_count / 2.
(* [item_cmpfunc.h:2206-2206 with_else] *)
Definition searched_with_else (arg_count : nat) : bool := negb (arg_count mod 2 =? 0)%nat.
(** The position of the argument, or NULL. *)
(* [item_cmpfunc.h:2207-2207 else_expr_addr] *)
Definition searched_else_expr_addr (arg_count : nat) : option nat := if searched_with_else arg_count then Some (arg_count - 1)%nat else None.
(* [item_cmpfunc.h:2246-2246 when_count] *)
Definition simple_when_count (arg_count : nat) : nat := (arg_count - 1) / 2.
(* [item_cmpfunc.h:2247-2247 with_else] *)
Definition simple_with_else (arg_count : nat) : bool := (arg_count mod 2 =? 0)%nat.
(* [item_cmpfunc.h:2248-2248 else_expr_addr] *)
Definition simple_else_expr_addr (arg_count : nat) : option nat := if simple_with_else arg_count then Some (arg_count - 1)%nat else None.

Section bisection.
Context `{ItemValues D}.

(** The loop over [items]. *)
Fixpoint consts_loop (k : nat) (items : list Z) (nitems i : nat) : option bool :=
  match k with
  | O => None
  | S k =>
    if (i <? nitems)%nat then
      item ← items !! i;
      if negb (const_item item) || is_expensive item then Some false else consts_loop k items nitems (i + 1)
    else Some true
  end.
(* [item_cmpfunc.h:2338-2346 all_items_are_consts] *)
Definition all_items_are_consts (items : list Z) (nitems : nat) : option bool := consts_loop (S nitems) items nitems 0.
(** [is_row] is whether the comparison type is [ROW_RESULT]. *)
(* [item_cmpfunc.h:2384-2388 compatible_types_scalar_bisection_possible] *)
Definition compatible_types_scalar_bisection_possible (is_row : bool) (args : list Z) : option bool :=
  if is_row then None else all_items_are_consts (drop 1 args) (length args - 1).
(* [item_cmpfunc.h:2389-2395 compatible_types_row_bisection_possible] *)
Definition compatible_types_row_bisection_possible (is_row is_top_level_item negated list_contains_null maybe_null : bool) (args : list Z) : option bool :=
  if is_row then
    c ← all_items_are_consts (drop 1 args) (length args - 1);
    Some (c && ((is_top_level_item && negb negated) || (negb list_contains_null && negb maybe_null)))
  else None.

Lemma consts_loop_ok items : forall k i, (i <= length items)%nat -> (length items - i < k)%nat ->
  consts_loop k items (length items) i = Some (forallb (fun x => const_item x && negb (is_expensive x)) (drop i items)).
Proof.
  induction k as [| k IH]; intros i Hi Hk; [lia |]. cbn [consts_loop]. destruct (Nat.ltb_spec i (length items)) as [Hlt | Hge].
  - destruct (lookup_lt_is_Some_2 items i Hlt) as [x Hx]. rewrite Hx. cbn [mbind option_bind]. rewrite (drop_S _ x i Hx). cbn [forallb].
    rewrite IH, Nat.add_1_r by lia. destruct (const_item x), (is_expensive x); done.
  - by rewrite drop_ge.
Qed.

(** [IN] may search by bisection exactly when all the values are constants that are not expensive; for rows
    only where a NULL cannot make the answer UNKNOWN instead of FALSE, or that makes no difference. *)
Theorem bisection_of_constants args row top negated contains maybe : args <> [] ->
  (row = false -> compatible_types_scalar_bisection_possible row args = Some (forallb (fun x => const_item x && negb (is_expensive x)) (drop 1 args))) /\
  (row = true -> exists b, compatible_types_row_bisection_possible row top negated contains maybe args = Some b /\
    (b = true <-> Forall (fun x => const_item x = true /\ is_expensive x = false) (drop 1 args) /\ ((top = true /\ negated = false) \/ (contains = false /\ maybe = false)))).
Proof.
  intros Hne. assert (E : all_items_are_consts (drop 1 args) (length args - 1) = Some (forallb (fun x => const_item x && negb (is_expensive x)) (drop 1 args))).
  { unfold all_items_are_consts. rewrite <- length_drop. rewrite consts_loop_ok by lia. done. }
  split; intros ->; [exact E |]. unfold compatible_types_row_bisection_possible. rewrite E. cbn [mbind option_bind]. eexists. split; [done |].
  rewrite andb_true_iff, forallb_forall, Forall_forall, orb_true_iff, !andb_true_iff, !negb_true_iff. split; intros [A1 A2]; (split; [| done]).
  - intros x Hx. apply list_elem_of_In in Hx. specialize (A1 x Hx). by rewrite andb_true_iff, negb_true_iff in A1.
  - intros x Hx. apply list_elem_of_In in Hx. rewrite andb_true_iff, negb_true_iff. by apply A1.
Qed.
End bisection.

(** ** What comparators promise *)

(** The answer for [stored <> value] in three-valued logic. *)
Definition answer (o : option bool) : Z := match o with None => UNKNOWN | Some b => int_of_bool b end.

(** [K] are the kinds of comparators: what an object keeps when it stores another value. *)
Class CmpItemLaws (CI VAL K : Type) `{CmpItem CI VAL} := {
  kind : CI -> K;
  item_null : K -> Z -> bool;
  differs : K -> Z -> Z -> option bool;
  differs_value : K -> Z -> VAL -> bool;
  holds : CI -> Z -> Prop;
  scalar : K -> bool;
  saves : K -> VAL -> Prop;
  store_law c s p : exists c', store_value c s p = (c', <[p := item_null (kind c) p]> s) /\ kind c' = kind c /\ holds c' p;
  cmp_law c s p v : holds c p -> ci_cmp c s v = (answer (differs (kind c) p v), <[v := item_null (kind c) v]> s);
  null_law k p v : scalar k = true -> item_null k p = true -> differs k p v = None;
  not_null_law c p val : holds c p -> item_null (kind c) p = false -> saves (kind c) val -> is_null val = false ->
    cmp_not_null c val = Some (int_of_bool (differs_value (kind c) p val)) }.

Section laws.
Context {CI VAL K H : Type} {Items : CmpItem CI VAL} {Laws : CmpItemLaws CI VAL K} {Dec : EqDecision H}.
Variable type_handler_row : H.
Abbreviation entry := (@Predicant_to_value_comparator CI H).
Abbreviation comparator := (@Predicant_to_list_comparator CI H).

(** What the comparisons do not change of an entry. *)
Definition view (e : entry) : option H * nat * nat * option K := (m_handler e, m_arg_index e, m_handler_index e, kind <$> m_cmp_item e).
Definition alike (p p' : comparator) : Prop :=
  m_comparator_count p' = m_comparator_count p /\ m_predicant_index p' = m_predicant_index p /\ view <$> m_comparators p' = view <$> m_comparators p.

#[local] Instance alike_equiv : Equivalence alike.
Proof.
  split.
  - done.
  - by intros p p' (? & ? & ?).
  - intros p p' p'' (E1 & E2 & E3) (F1 & F2 & F3). split; [congruence |]. split; congruence.
Qed.

(** What [add_value], [detect_unique_handlers] and [make_unique_cmp_items] leave: every entry has a handler and an
    argument, its [m_handler_index] is that of the leftmost entry with the handler, and
    these entries have a [cmp_item]. *)
Record comparator_ok (p : comparator) (args : list Z) : Prop := Comparator_ok {
  co_count : (m_comparator_count p <= length (m_comparators p))%nat;
  co_predicant : is_Some (args !! m_predicant_index p);
  co_entry : forall i e, (i < m_comparator_count p)%nat -> m_comparators p !! i = Some e ->
    exists h, m_handler e = Some h /\ is_Some (args !! m_arg_index e) /\ (m_handler_index e <= i)%nat /\
    exists e' c, m_comparators p !! m_handler_index e = Some e' /\ m_handler e' = Some h /\ m_handler_index e' = m_handler_index e /\
      m_cmp_item e' = Some c /\ (h <> type_handler_row -> scalar (kind c) = true) }.

(** The kind of the comparator that entry [i] uses, and what the pair compares as. *)
Definition kind_of (p : comparator) (i : nat) : option K := e ← m_comparators p !! i; e' ← m_comparators p !! m_handler_index e; kind <$> m_cmp_item e'.
Definition pair (p : comparator) (args : list Z) (i : nat) : option (nat * option bool) :=
  e ← m_comparators p !! i; k ← kind_of p i; predicant ← args !! m_predicant_index p; arg ← args !! m_arg_index e;
  Some (m_arg_index e, differs k predicant arg).
Definition pairs (p : comparator) (args : list Z) : option (list (nat * option bool)) := mapM (pair p args) (seq 0 (m_comparator_count p)).

Lemma alike_lookup p p' i e : alike p p' -> m_comparators p !! i = Some e -> exists e', m_comparators p' !! i = Some e' /\ view e' = view e.
Proof.
  intros (_ & _ & E) Hi. pose proof (f_equal (fun l => l !! i) E) as L. cbn in L. rewrite !list_lookup_fmap, Hi in L. cbn in L.
  destruct (m_comparators p' !! i) as [e' |]; [| done]. injection L as E1 E2 E3 E4. exists e'. unfold view. split; congruence.
Qed.

Lemma alike_ok p p' args : alike p p' -> comparator_ok p args -> comparator_ok p' args.
Proof.
  intros A [Hc Hp He]. pose proof A as (E1 & E2 & E3). split; rewrite ?E1, ?E2; try done.
  - apply (f_equal length) in E3. rewrite !length_fmap in E3. lia.
  - intros i e' Hi L. symmetry in A. destruct (alike_lookup _ _ i e' A L) as (e & Le & Ve). destruct (He i e Hi Le) as (h & Hh & Ha & Hle & e1 & c & L1 & H1 & I1 & C1 & S1).
    symmetry in A. destruct (alike_lookup _ _ _ e1 A L1) as (e1' & L1' & V1). unfold view in Ve, V1. injection Ve as Q1 Q2 Q3 Q4. injection V1 as R1 R2 R3 R4.
    rewrite C1 in R4. destruct (m_cmp_item e1') as [c' |] eqn:C'; [| done]. cbn in R4. injection R4 as R4.
    exists h. rewrite <- Q1, <- Q2, <- Q3 at 1. split; [done |]. split; [done |]. split; [congruence |].
    exists e1', c'. rewrite <- Q3. split; [done |]. split; [congruence |]. split; [congruence |]. split; [done |]. by rewrite R4.
Qed.

Lemma alike_kind p p' i : alike p p' -> kind_of p' i = kind_of p i.
Proof.
  intros A. unfold kind_of. destruct (m_comparators p !! i) as [e |] eqn:L.
  - destruct (alike_lookup _ _ i e A L) as (e' & -> & V). injection V as _ _ V3 _. cbn [mbind option_bind]. rewrite V3.
    destruct (m_comparators p !! m_handler_index e) as [f |] eqn:L2.
    + destruct (alike_lookup _ _ _ f A L2) as (f' & -> & W). cbn. by injection W.
    + symmetry in A. destruct (m_comparators p' !! m_handler_index e) as [f' |] eqn:L3; [| done]. destruct (alike_lookup _ _ _ f' A L3) as (f & L4 & _). congruence.
  - symmetry in A. destruct (m_comparators p' !! i) as [e' |] eqn:L3; [| done]. destruct (alike_lookup _ _ _ e' A L3) as (f & L4 & _). congruence.
Qed.

Lemma set_item_alike p i e c c' : m_comparators p !! i = Some e -> m_cmp_item e = Some c -> kind c' = kind c -> alike p (set_item p i c').
Proof.
  intros L C E. split; [done |]. split; [done |]. apply list_eq. intros j. cbn [set_item m_comparators]. rewrite !list_lookup_fmap.
  destruct (decide (j = i)) as [-> |]; [| by rewrite list_lookup_alter_ne]. rewrite list_lookup_alter_eq, L. cbn. unfold view. cbn. by rewrite C, E.
Qed.

Lemma alike_pair p p' args i : alike p p' -> pair p' args i = pair p args i.
Proof.
  intros A. unfold pair. rewrite (alike_kind p p' i A). destruct A as (E1 & E2 & E3). rewrite E2.
  pose proof (f_equal (fun l => l !! i) E3) as L. cbn in L. rewrite !list_lookup_fmap in L.
  destruct (m_comparators p !! i), (m_comparators p' !! i); try done. injection L as _ L _ _. cbn [mbind option_bind]. by rewrite L.
Qed.

(** *** A run over the entries *)

Section run.
Variables (p0 : comparator) (args : list Z) (predicant : Z) (b : bool).
Hypothesis Hok : comparator_ok p0 args.
Hypothesis Hpred : args !! m_predicant_index p0 = Some predicant.
(** All the comparators see a NULL in the predicant, or none of them. Whether they do is left open: some facts need it. *)
Variable agreeing : Prop.
Hypothesis Hagree : agreeing -> forall i k, (i < m_comparator_count p0)%nat -> kind_of p0 i = Some k -> item_null k predicant = b.

(** After the entries before [i]: the shared comparators among them hold the predicant. *)
Record progress (i : nat) (p : comparator) (s : nulls) : Prop := Progress {
  pr_alike : alike p0 p;
  pr_flag : agreeing -> (0 < i)%nat -> null_value s predicant = b;
  pr_held : forall j e c, (j < i)%nat -> m_comparators p !! j = Some e -> m_handler_index e = j -> m_cmp_item e = Some c -> holds c predicant }.

(** The comparator of entry [i] holds the predicant once it has been stored there. *)
Lemma prepare_ok i p s : progress i p s -> (i < m_comparator_count p0)%nat ->
  exists e h e' c arg k c1 s1, m_comparators p !! i = Some e /\ m_handler e = Some h /\ args !! m_arg_index e = Some arg /\
    m_comparators p !! m_handler_index e = Some e' /\ m_cmp_item e' = Some c /\ kind_of p0 i = Some k /\
    pair p0 args i = Some (m_arg_index e, differs k predicant arg) /\
    (if (m_handler_index e =? i)%nat then store_value c s predicant else (c, s)) = (c1, s1) /\
    holds c1 predicant /\ kind c1 = k /\ (agreeing -> null_value s1 predicant = b) /\ (h <> type_handler_row -> scalar k = true) /\
    progress (i + 1) (set_item p (m_handler_index e) c1) s1.
Proof using Hok Hpred Hagree.
  intros [A Fl Held] Hi. pose proof (alike_ok _ _ _ A Hok) as [Hc _ He]. pose proof A as (E1 & E2 & _). rewrite E1 in Hc, He.
  destruct (lookup_lt_is_Some_2 (m_comparators p) i) as [e L]; [lia |].
  destruct (He i e Hi L) as (h & Hh & [arg Ha] & Hle & e' & c & L' & Hh' & Hi' & C & Sc).
  assert (Hk : kind_of p0 i = Some (kind c)) by (rewrite <- (alike_kind _ _ i A); unfold kind_of; rewrite L; cbn; rewrite L'; cbn; by rewrite C).
  assert (Hpair : pair p0 args i = Some (m_arg_index e, differs (kind c) predicant arg)).
  { rewrite <- (alike_pair _ _ args i A). unfold pair. rewrite (alike_kind _ _ i A), Hk, L. cbn [mbind option_bind]. rewrite E2, Hpred. cbn [mbind option_bind]. by rewrite Ha. }
  assert (exists c1 s1, (if (m_handler_index e =? i)%nat then store_value c s predicant else (c, s)) = (c1, s1) /\ holds c1 predicant /\ kind c1 = kind c /\
    (agreeing -> null_value s1 predicant = b)) as (c1 & s1 & E & Hh1 & K1 & N1).
  { destruct (Nat.eqb_spec (m_handler_index e) i) as [Heq | Hne].
    - destruct (store_law c s predicant) as (c1 & -> & K1 & Hh1). eexists _, _. split; [reflexivity |]. split; [done |]. split; [done |].
      intros Hy. unfold null_value. rewrite lookup_insert_eq. cbn. by apply (Hagree Hy i).
    - eexists _, _. split; [reflexivity |]. split; [apply (Held (m_handler_index e) e'); done || lia |]. split; [done |]. intros Hy. apply Fl; [done | lia]. }
  exists e, h, e', c, arg, (kind c), c1, s1. do 7 (split; [done |]). split; [done |]. do 4 (split; [done |]). split.
  - etransitivity; [exact A |]. by apply (set_item_alike p _ e' c).
  - by intros Hy _; apply N1.
  - intros j f d Hj Lf If Cf. cbn [set_item m_comparators] in Lf. destruct (decide (j = m_handler_index e)) as [-> | Hne].
    + rewrite list_lookup_alter_eq, L' in Lf. cbn in Lf. injection Lf as <-. cbn in Cf. by injection Cf as <-.
    + rewrite list_lookup_alter_ne in Lf by done. apply (Held j f); try done. destruct (decide (j = i)) as [-> |]; [| lia].
      rewrite L in Lf. injection Lf as ->. lia.
Qed.

(** Evaluating an argument keeps that. *)
Lemma progress_evaluate i p s arg n : progress i p s -> (0 < i)%nat -> (agreeing -> arg = predicant -> n = b) -> progress i p (<[arg := n]> s).
Proof using Type.
  intros [A Fl Held] Hi Hn. split; [done | | done]. intros Hy _. unfold null_value in *. destruct (decide (arg = predicant)) as [-> |].
  - rewrite lookup_insert_eq. cbn. by apply Hn.
  - rewrite lookup_insert_ne by done. by apply Fl.
Qed.

(** The pair's comparison, or UNKNOWN in its place, which does not happen when the comparators agree. *)
Lemma cmp_arg_ok i p s : progress i p s -> (i < m_comparator_count p0)%nat ->
  exists e o o' p' s', m_comparators p !! i = Some e /\ is_Some (m_handler e) /\ pair p0 args i = Some (m_arg_index e, o) /\
    cmp_arg type_handler_row p args i s = Some (answer o', p', s') /\ (o' = o \/ o' = None) /\ (agreeing -> o' = o) /\ progress (i + 1) p' s'.
Proof using Hok Hpred Hagree.
  intros P Hi. destruct (prepare_ok i p s P Hi) as (e & h & e' & c & arg & k & c1 & s1 & L & Hh & Ha & L' & C & Hk & Hpair & E & Hh1 & K1 & N1 & Sc & P1).
  unfold cmp_arg. rewrite L. cbn [mbind option_bind]. rewrite L'. cbn [mbind option_bind]. rewrite C. cbn [mbind option_bind].
  destruct P as [(E1 & E2 & E3) _ _]. rewrite E2, Hpred. cbn [mbind option_bind]. rewrite E, Hh.
  destruct (null_value s1 predicant && negb (bool_decide (Some h = Some type_handler_row))) eqn:B.
  - exists e, (differs k predicant arg), None, (set_item p (m_handler_index e) c1), s1. do 4 (split; [done || by eexists |]). split; [by right |]. split; [| done].
    intros Hy. apply andb_true_iff in B as [B1 B]. rewrite null_law; [done | apply Sc; intros -> |]; [by rewrite bool_decide_eq_true_2 in B |].
    rewrite (N1 Hy) in B1. rewrite <- B1. by apply (Hagree Hy i).
  - rewrite Ha. cbn [mbind option_bind]. rewrite (cmp_law c1 s1 predicant arg Hh1), K1. eexists _, _, _, _, _. split; [done |]. split; [by eexists |]. split; [done |]. split; [reflexivity |].
    split; [by left |]. split; [done |]. apply progress_evaluate; [done | lia |]. intros Hy ->. by apply (Hagree Hy i).
Qed.

(** What [cmp] finds in the pairs: whether nothing was found, [*idx], [*found_unknown_values]. *)
Fixpoint search (ps : list (nat * option bool)) (idx : nat) (found : option bool) : bool * nat * option bool :=
  match ps with
  | [] => (true, idx, found)
  | (a, Some false) :: _ => (false, a, found)
  | (_, Some true) :: ps => search ps idx found
  | (_, None) :: ps => match found with None => (true, idx, None) | Some _ => search ps idx (Some true) end
  end.

(** Some of the comparisons may be missing, their answers UNKNOWN. *)
Definition less_known : list (nat * option bool) -> list (nat * option bool) -> Prop := Forall2 (fun x y => y.1 = x.1 /\ (y.2 = x.2 \/ y.2 = None)).

Lemma cmp_loop_ok n : forall i p s idx found k, progress i p s -> (i + n = m_comparator_count p0)%nat -> (n < k)%nat ->
  exists ps qs res st, mapM (pair p0 args) (seq i n) = Some ps /\ cmp_loop type_handler_row k args i (State idx found p s) = Some (res, st) /\
    (res, st_idx st, st_found st) = search qs idx found /\ less_known ps qs /\ (agreeing -> qs = ps) /\ alike p0 (st_cmp st).
Proof using Hok Hpred Hagree.
  induction n as [| n IH]; intros i p s idx found k P Hn Hk; (destruct k as [| k]; [lia |]); cbn [seq mapM cmp_loop st_cmp].
  - pose proof (pr_alike i p s P) as A. destruct A as (E1 & _). rewrite E1, (proj2 (Nat.ltb_ge _ _)) by lia. eexists [], [], true, _. split; [done |]. split; [reflexivity |].
    split; [done |]. split; [by constructor |]. split; [done | by apply (pr_alike i p s)].
  - destruct (cmp_arg_ok i p s P) as (e & o & o' & p' & s' & L & [h Hh] & Hp & E & Ho & Hy & P'); [lia |].
    pose proof (pr_alike i p s P) as (E1 & _). rewrite E1, (proj2 (Nat.ltb_lt _ _)) by lia. rewrite L, Hp. cbn [mbind option_bind]. rewrite Hh. cbn [mbind option_bind st_nulls]. rewrite E.
    cbn [mbind option_bind]. destruct (IH (i + 1)%nat p' s' idx found k P') as (ps & qs & res & st & E2 & E3 & E4 & F4 & Y4 & A4); [lia | lia |].
    destruct (IH (i + 1)%nat p' s' idx (Some true) k P') as (ps' & qs' & res' & st' & E2' & E3' & E4' & F4' & Y4' & A4'); [lia | lia |].
    rewrite Nat.add_1_r in E2, E2'. rewrite E2' in E2. injection E2 as ->. rewrite E2'. cbn [mbind option_bind mret option_ret].
    assert (G : forall qs, less_known ps qs -> (agreeing -> qs = ps) -> less_known ((m_arg_index e, o) :: ps) ((m_arg_index e, o') :: qs) /\
      (agreeing -> (m_arg_index e, o') :: qs = (m_arg_index e, o) :: ps)) by (intros rs F Y; split; [by constructor | intros Hg; by rewrite Hy, Y]).
    destruct (G qs F4 Y4) as [F5 Y5]. destruct (G qs' F4' Y4') as [F5' Y5']. clear G. destruct o' as [[|]|]; cbn [answer int_of_bool st_found].
    + change (TRUE =? FALSE) with false. change (TRUE =? UNKNOWN) with false. cbn [st_idx]. eexists _, _, res, st. split; [reflexivity |]. split; [done |].
      split; [| split; [exact F5 |]; split; [exact Y5 | done]]. done.
    + change (FALSE =? FALSE) with true. eexists _, _, false, _. split; [reflexivity |]. split; [reflexivity |].
      split; [| split; [exact F5 |]; split; [exact Y5 | by apply (pr_alike (i + 1) p' s')]]. done.
    + change (UNKNOWN =? FALSE) with false. change (UNKNOWN =? UNKNOWN) with true. cbn [st_idx]. destruct found as [u |].
      * eexists _, _, res', st'. split; [reflexivity |]. split; [done |]. split; [| split; [exact F5' |]; split; [exact Y5' | done]]. cbn [search]. congruence.
      * eexists _, _, true, _. split; [reflexivity |]. split; [reflexivity |]. split; [| split; [exact F5 |]; split; [exact Y5 | by apply (pr_alike (i + 1) p' s')]]. done.
Qed.

Lemma progress_start s : progress 0 p0 s.
Proof using Type. split; [done | lia | lia]. Qed.

Lemma cmp_ok idx found s : exists ps qs res st, pairs p0 args = Some ps /\ cmp type_handler_row p0 args idx found s = Some (res, st) /\
  (res, st_idx st, st_found st) = search qs idx found /\ less_known ps qs /\ (agreeing -> qs = ps) /\ alike p0 (st_cmp st).
Proof using Hok Hpred Hagree. apply (cmp_loop_ok (m_comparator_count p0) 0 p0 s idx found); [apply progress_start | lia | lia]. Qed.
(** *** NULLs that are equal *)

Hypothesis Hyes : agreeing.
Variable Item_save_in_value : option H -> Z -> VAL.
(** What is saved is of the type that the comparator of the handler expects, and the predicant is as NULL as it was. *)
Hypothesis Hsaves : forall i e k arg, (i < m_comparator_count p0)%nat -> m_comparators p0 !! i = Some e -> kind_of p0 i = Some k -> args !! m_arg_index e = Some arg ->
  (is_null (Item_save_in_value (m_handler e) arg) = false -> saves k (Item_save_in_value (m_handler e) arg)) /\
  (arg = predicant -> is_null (Item_save_in_value (m_handler e) arg) = b).

(** The pair is equal: both NULL, or neither and the values are. *)
Definition null_pair (i : nat) : option (nat * bool) :=
  e ← m_comparators p0 !! i; k ← kind_of p0 i; arg ← args !! m_arg_index e;
  let val := Item_save_in_value (m_handler e) arg in
  Some (m_arg_index e, if b && is_null val then true else if b || is_null val then false else negb (differs_value k predicant val)).

Lemma nulls_equal_arg_ok i p s : progress i p s -> (i < m_comparator_count p0)%nat ->
  exists e (o : bool) rc p' s', m_comparators p !! i = Some e /\ is_Some (m_handler e) /\ null_pair i = Some (m_arg_index e, o) /\
    cmp_args_nulls_equal Item_save_in_value p args i s = Some (rc, p', s') /\ (rc =? FALSE) = o /\ progress (i + 1) p' s'.
Proof using Hok Hpred Hagree Hyes Hsaves.
  intros P Hi. destruct (prepare_ok i p s P Hi) as (e & h & e' & c & arg & k & c1 & s1 & L & Hh & Ha & L' & C & Hk & Hpair & E & Hh1 & K1 & N1 & Sc & P1).
  pose proof (pr_alike i p s P) as A. pose proof A as (E1 & E2 & E3). destruct (alike_lookup p p0 i e (symmetry A) L) as (e0 & L0 & V0). injection V0 as V1 V2 V3 V4.
  rewrite <- V2 in Ha. destruct (Hsaves i e0 k arg Hi L0 Hk Ha) as [Hs Hn].
  specialize (N1 Hyes). unfold cmp_args_nulls_equal. rewrite L. cbn [mbind option_bind]. rewrite L'. cbn [mbind option_bind]. rewrite C. cbn [mbind option_bind].
  rewrite E2, Hpred, <- V2, Ha. cbn [mbind option_bind]. rewrite E. rewrite <- V1.
  assert (Hf : null_value (<[arg := is_null (Item_save_in_value (m_handler e0) arg)]> s1) predicant = b).
  { unfold null_value in *. destruct (decide (arg = predicant)) as [-> |]; [rewrite lookup_insert_eq; by apply Hn | by rewrite lookup_insert_ne]. }
  rewrite Hf.
  assert (P2 : progress (i + 1) (set_item p (m_handler_index e) c1) (<[arg := is_null (Item_save_in_value (m_handler e0) arg)]> s1)) by (apply progress_evaluate; [done | lia | done]).
  unfold null_pair. rewrite L0. cbn [mbind option_bind]. rewrite Hk. cbn [mbind option_bind]. rewrite Ha. cbn [mbind option_bind].
  destruct (b && is_null (Item_save_in_value (m_handler e0) arg)) eqn:B1; [| destruct (b || is_null (Item_save_in_value (m_handler e0) arg)) eqn:B2].
  - eexists e, true, FALSE, _, _. split; [done |]. split; [by eexists |]. split; [by rewrite V2 |]. done.
  - eexists e, false, UNKNOWN, _, _. split; [done |]. split; [by eexists |]. split; [by rewrite V2 |]. done.
  - apply orb_false_iff in B2 as [-> B2].
    rewrite (not_null_law c1 predicant _ Hh1) by (rewrite ?K1; auto; by apply (Hagree Hyes i)). cbn [mbind option_bind].
    eexists e, _, _, _, _. split; [done |]. split; [by eexists |]. split; [by rewrite V2 |]. split; [reflexivity |]. split; [| done]. rewrite K1. by destruct (differs_value _ _ _).
Qed.

Lemma nulls_equal_loop_ok n : forall i p s idx k, progress i p s -> (i + n = m_comparator_count p0)%nat -> (n < k)%nat ->
  exists ps res st, mapM null_pair (seq i n) = Some ps /\ nulls_equal_loop Item_save_in_value k args i (State idx None p s) = Some (res, st) /\
    let first := fst <$> head (filter (fun x => x.2 = true) ps) in res = bool_decide (first = None) /\ st_idx st = default idx first /\ alike p0 (st_cmp st).
Proof using Hok Hpred Hagree Hyes Hsaves.
  induction n as [| n IH]; intros i p s idx k P Hn Hk; (destruct k as [| k]; [lia |]); cbn [seq mapM nulls_equal_loop st_cmp].
  - pose proof (pr_alike i p s P) as A. destruct A as (E1 & _). rewrite E1, (proj2 (Nat.ltb_ge _ _)) by lia. eexists [], true, _. split; [done |]. split; [reflexivity |].
    split; [done |]. split; [done | by apply (pr_alike i p s)].
  - destruct (nulls_equal_arg_ok i p s P) as (e & o & rc & p' & s' & L & [h Hh] & Hp & E & Hrc & P'); [lia |].
    pose proof (pr_alike i p s P) as (E1 & _). rewrite E1, (proj2 (Nat.ltb_lt _ _)) by lia. rewrite L, Hp. cbn [mbind option_bind]. rewrite Hh. cbn [mbind option_bind st_nulls]. rewrite E.
    cbn [mbind option_bind]. rewrite Hrc. destruct (IH (i + 1)%nat p' s' idx k P') as (ps & res & st & E2 & E3 & E4); [lia | lia |]. rewrite Nat.add_1_r in E2.
    rewrite E2. cbn [mbind option_bind mret option_ret]. destruct o.
    + eexists _, false, _. split; [reflexivity |]. split; [reflexivity |]. cbv zeta. rewrite filter_cons_True by done. cbn.
      split; [done |]. split; [done | by apply (pr_alike (i + 1) p' s')].
    + eexists _, res, st. split; [reflexivity |]. split; [done |]. cbv zeta. rewrite filter_cons_False by done. done.
Qed.
End run.

(** ** IN *)

(** The disjunction of three-valued logic. *)
Definition or3 (x y : option bool) : option bool :=
  match x, y with Some true, _ | _, Some true => Some true | Some false, Some false => Some false | _, _ => None end.
(** [pred = v1 OR pred = v2 OR ..] *)
Definition any_equal (ps : list (nat * option bool)) : option bool := foldr (fun x acc => or3 (negb <$> x.2) acc) (Some false) ps.
(** What [IN] makes of the answers: a match is TRUE, otherwise an unknown comparison makes it UNKNOWN. *)
Definition in_value (not_found : bool) (found_unknown : option bool) : option bool :=
  if negb not_found then Some true else match found_unknown with Some true => None | _ => Some false end.
(** The first pair that compares equal. *)
Definition first_equal (ps : list (nat * option bool)) : option nat := fst <$> head (filter (fun x => x.2 = Some false) ps).

Lemma any_equal_unknown ps u : or3 (if (u : bool) then None else Some false) (any_equal ps) =
  match first_equal ps with Some _ => Some true | None => if u || existsb (fun x => bool_decide (x.2 = None)) ps then None else Some false end.
Proof.
  revert u. induction ps as [| [a [[|]|]] ps IH]; intros u; [by destruct u | | |].
  - cbn [any_equal foldr snd fmap option_fmap option_map negb]. unfold first_equal. rewrite filter_cons_False by done. cbn [existsb snd]. rewrite bool_decide_eq_false_2 by done.
    change (foldr _ _ ps) with (any_equal ps). rewrite orb_false_l. specialize (IH u). unfold first_equal in *. rewrite <- IH. destruct u, (any_equal ps) as [[|]|]; done.
  - unfold first_equal. rewrite filter_cons_True by done. cbn. by destruct u.
  - cbn [any_equal foldr snd fmap option_fmap option_map]. unfold first_equal. rewrite filter_cons_False by done. cbn [existsb snd]. rewrite bool_decide_eq_true_2 by done.
    change (foldr _ _ ps) with (any_equal ps). specialize (IH true). rewrite orb_true_l, orb_true_r. rewrite orb_true_l in IH. unfold first_equal in *.
    rewrite <- IH. destruct u, (any_equal ps) as [[|]|]; done.
Qed.

Lemma search_in ps : forall idx u, exists res i u', search ps idx (Some u) = (res, i, Some u') /\ res = bool_decide (first_equal ps = None) /\ i = default idx (first_equal ps) /\
  (first_equal ps = None -> u' = u || existsb (fun x => bool_decide (x.2 = None)) ps).
Proof.
  induction ps as [| [a [[|]|]] ps IH]; intros idx u; cbn [search existsb snd].
  - exists true, idx, u. rewrite orb_false_r. done.
  - destruct (IH idx u) as (res & i & u' & -> & Hr & Hi & Hu). exists res, i, u'. unfold first_equal in *. rewrite filter_cons_False by done.
    rewrite (bool_decide_eq_false_2 (Some true = None)), orb_false_l by done. done.
  - exists false, a, u. unfold first_equal. rewrite filter_cons_True by done. cbn. done.
  - destruct (IH idx true) as (res & i & u' & -> & Hr & Hi & Hu). exists res, i, u'. unfold first_equal in *. rewrite filter_cons_False by done.
    rewrite (bool_decide_eq_true_2 (None = None)), orb_true_l, orb_true_r by done. done.
Qed.

Lemma less_known_any ps qs : less_known ps qs -> any_equal qs = any_equal ps \/ any_equal qs = None.
Proof.
  induction 1 as [| [a o] [c o'] ps qs [E1 E2] F IH]; [by left |]. cbn in E1, E2. subst c. change (any_equal ((a, o') :: qs)) with (or3 (negb <$> o') (any_equal qs)).
  change (any_equal ((a, o) :: ps)) with (or3 (negb <$> o) (any_equal ps)).
  destruct E2 as [-> | ->]; destruct IH as [-> | ->]; destruct (any_equal ps) as [[|]|]; destruct o as [[|]|]; cbn; auto.
Qed.

Lemma less_known_first ps qs a : less_known ps qs -> first_equal qs = Some a -> (a, Some false) ∈ ps.
Proof.
  unfold first_equal. induction 1 as [| [c o] [d o'] ps qs [E1 E2] F IH]; [done |]. cbn in E1, E2. subst d. rewrite filter_cons. case_decide as E; cbn in E.
  - subst o'. cbn. intros [= ->]. destruct E2 as [<- | [=]]. left.
  - intros Hf. right. by apply IH.
Qed.

(** What [cmp] answers when it is told to report unknown comparisons. *)
Lemma in_answer qs idx res i found : (res, i, found) = search qs idx (Some false) ->
  in_value res found = any_equal qs /\ res = bool_decide (first_equal qs = None) /\ i = default idx (first_equal qs).
Proof.
  intros E3. destruct (search_in qs idx false) as (res' & i' & u' & E4 & Hr & Hi & Hu). rewrite E4 in E3. injection E3 as -> -> ->. split; [| done].
  pose proof (any_equal_unknown qs false) as KQ. cbn [orb] in KQ, Hu. unfold in_value. rewrite Hr.
  transitivity (or3 (Some false) (any_equal qs)); [| by destruct (any_equal qs) as [[|]|]]. rewrite KQ. destruct (first_equal qs) as [a |].
  - by rewrite bool_decide_eq_false_2.
  - rewrite bool_decide_eq_true_2, Hu by done. cbn [negb]. by destruct (existsb _ qs).
Qed.

(** C10: [pred IN (v1, v2, ..)]: [cmp] always returns, and the comparators can be used again. What it answers, with the unknown comparisons
    it reports, is the disjunction of the comparisons in three-valued logic, each pair compared by the
    comparator of its own type handler, although the handlers share the objects that keep the
    predicant, or it is UNKNOWN in its place; a value that it finds is equal. If the
    comparators agree on whether the predicant is NULL, the answer is that disjunction and [*idx] is
    the first value that is equal. *)
Theorem in_is_kleene_or p args predicant idx s :
  comparator_ok p args -> args !! m_predicant_index p = Some predicant ->
  exists ps res st, pairs p args = Some ps /\ cmp type_handler_row p args idx (Some false) s = Some (res, st) /\
    (in_value res (st_found st) = any_equal ps \/ in_value res (st_found st) = None) /\
    (if res then st_idx st = idx else (st_idx st, Some false) ∈ ps) /\
    alike p (st_cmp st) /\ comparator_ok (st_cmp st) args /\
    (forall b, (forall i k, (i < m_comparator_count p)%nat -> kind_of p i = Some k -> item_null k predicant = b) ->
      in_value res (st_found st) = any_equal ps /\ res = bool_decide (first_equal ps = None) /\ st_idx st = default idx (first_equal ps)).
Proof.
  intros Hok Hpred. destruct (cmp_ok p args predicant true Hok Hpred False ltac:(done) idx (Some false) s) as (ps & qs & res & st & E1 & E2 & E3 & F & _ & A).
  destruct (in_answer qs idx _ _ _ E3) as (V & R & I). exists ps, res, st. split; [done |]. split; [done |]. split; [rewrite V; by apply less_known_any |].
  split; [| split; [done |]; split; [by apply (alike_ok p) |]].
  - rewrite R, I. case_bool_decide as N; [by rewrite N |]. destruct (first_equal qs) as [a |] eqn:Ea; [by apply (less_known_first ps qs) | done].
  - intros b Hagree. destruct (cmp_ok p args predicant b Hok Hpred True (fun _ => Hagree) idx (Some false) s) as (ps' & qs' & res' & st' & E1' & E2' & E3' & _ & Y & _).
    rewrite E1 in E1'. injection E1' as <-. rewrite E2 in E2'. injection E2' as <- <-. specialize (Y Logic.I); subst qs'. by apply in_answer.
Qed.

(** Simple [CASE]: without a place for unknown comparisons [cmp] finds a value when all before it are
    known to differ; it stops at the first NULL, even if a later value is equal. *)
Theorem case_stops_at_null p args predicant b idx s :
  comparator_ok p args -> args !! m_predicant_index p = Some predicant ->
  (forall i k, (i < m_comparator_count p)%nat -> kind_of p i = Some k -> item_null k predicant = b) ->
  exists ps res st, pairs p args = Some ps /\ cmp type_handler_row p args idx None s = Some (res, st) /\
    (res = true -> st_idx st = idx) /\
    (res = false <-> exists before a after, ps = before ++ (a, Some false) :: after /\ Forall (fun x => x.2 = Some true) before) /\
    (forall before a after, ps = before ++ (a, Some false) :: after -> Forall (fun x => x.2 = Some true) before -> st_idx st = a) /\
    (Forall (fun x => x.2 <> None) ps -> res = bool_decide (first_equal ps = None)) /\
    alike p (st_cmp st).
Proof.
  intros Hok Hpred Hagree. destruct (cmp_ok p args predicant b Hok Hpred True (fun _ => Hagree) idx None s) as (ps & qs & res & st & E1 & E2 & E3 & _ & Y & A).
  specialize (Y Logic.I). subst qs.
  exists ps, res, st. split; [done |]. split; [done |]. clear E1 E2. assert (Ei : st_idx st = (search ps idx None).1.2) by (by rewrite <- E3).
  assert (Er : res = (search ps idx None).1.1) by (by rewrite <- E3). rewrite Ei, Er. clear Ei Er E3.
  assert (G : forall ps : list (nat * option bool), ((search ps idx None).1.1 = true -> (search ps idx None).1.2 = idx) /\
    ((search ps idx None).1.1 = false -> exists before a after, ps = before ++ (a, Some false) :: after /\ Forall (fun x => x.2 = Some true) before) /\
    (Forall (fun x => x.2 <> None) ps -> (search ps idx None).1.1 = bool_decide (first_equal ps = None))).
  { clear. induction ps as [| [a [[|]|]] ps (H1 & H2 & H3)]; cbn [search].
    - done.
    - split; [done |]. split.
      + intros E. destruct (H2 E) as (before & c & after & -> & Hb). exists ((a, Some true) :: before), c, after. split; [done | by apply Forall_cons].
      + intros Hf. apply Forall_cons in Hf as [_ Hf]. rewrite H3 by done. unfold first_equal. by rewrite filter_cons_False.
    - split; [done |]. split; [intros _; by exists [], a, ps |]. intros _. unfold first_equal. by rewrite filter_cons_True.
    - split; [done |]. split; [done |]. intros Hf. by apply Forall_cons in Hf as [Hf _]. }
  assert (G2 : forall before a after, Forall (fun x => x.2 = Some true) before -> search (before ++ (a, Some false) :: after) idx None = (false, a, None)).
  { clear. induction before as [| [c o] before IH]; intros a after Hf; [done |]. apply Forall_cons in Hf as [Hc Hf]. cbn in Hc. subst o. cbn. by apply IH. }
  destruct (G ps) as (H1 & H2 & H3). split; [done |]. split; [split; [done |]; intros (before & a & after & -> & Hb); by rewrite G2 |].
  split; [intros before a after -> Hb; by rewrite G2 |]. done.
Qed.

(** [cmp_nulls_equal] (DECODE_ORACLE) finds the first value that is equal to the predicant, where a NULL is equal
    to a NULL and to nothing else. *)
Theorem decode_finds_nulls p args predicant b save idx s :
  comparator_ok p args -> args !! m_predicant_index p = Some predicant ->
  (forall i k, (i < m_comparator_count p)%nat -> kind_of p i = Some k -> item_null k predicant = b) ->
  (forall i e k arg, (i < m_comparator_count p)%nat -> m_comparators p !! i = Some e -> kind_of p i = Some k -> args !! m_arg_index e = Some arg ->
    (is_null (save (m_handler e) arg) = false -> saves k (save (m_handler e) arg)) /\ (arg = predicant -> is_null (save (m_handler e) arg) = b)) ->
  exists ps res st, mapM (null_pair p args predicant b save) (seq 0 (m_comparator_count p)) = Some ps /\ cmp_nulls_equal save p args idx s = Some (res, st) /\
    let first := fst <$> head (filter (fun x => x.2 = true) ps) in res = bool_decide (first = None) /\ st_idx st = default idx first /\ alike p (st_cmp st).
Proof.
  intros Hok Hpred Hagree Hs.
  apply (nulls_equal_loop_ok p args predicant b Hok Hpred True (fun _ => Hagree) Logic.I save Hs (m_comparator_count p) 0 p s idx); [apply progress_start | lia | lia].
Qed.

(** C16: The code asks whether the predicant {e was} NULL when it was last evaluated. Where the predicant is NULL only
    for the second of two comparators, the pairs behind it that use the first comparator
    count as unknown, although they compare equal. *)
Theorem null_of_other_comparator (h1 h2 : H) (c1 c2 : CI) pred v1 v2 v3 idx s :
  h1 <> type_handler_row -> h2 <> type_handler_row -> scalar (kind c1) = true -> scalar (kind c2) = true ->
  item_null (kind c1) pred = false -> item_null (kind c2) pred = true -> differs (kind c1) pred v1 = Some true -> differs (kind c1) pred v3 = Some false ->
  v1 <> pred ->
  let p := Comparator [Entry (Some h1) (Some c1) 1 0; Entry (Some h2) (Some c2) 2 1; Entry (Some h1) None 3 0] 3 0 in
  exists ps st, pairs p [pred; v1; v2; v3] = Some ps /\ any_equal ps = Some true /\
    cmp type_handler_row p [pred; v1; v2; v3] idx (Some false) s = Some (true, st) /\ in_value true (st_found st) = None.
Proof.
  intros Hh1 Hh2 Hs1 Hs2 N1 N2 D1 D3 Hne. cbv zeta.
  assert (D2 : differs (kind c2) pred v2 = None) by (by apply null_law).
  exists [(1%nat, Some true); (2%nat, None); (3%nat, Some false)].
  destruct (store_law c1 s pred) as (d1 & S1 & K1 & Y1). rewrite N1 in S1.
  set (s1 := <[v1 := item_null (kind d1) v1]> (<[pred := false]> s)).
  destruct (store_law c2 s1 pred) as (d2 & S2 & K2 & Y2). rewrite N2 in S2.
  assert (F1 : null_value (<[pred := false]> s) pred = false) by (unfold null_value; by rewrite lookup_insert_eq).
  assert (F2 : null_value (<[pred := true]> s1) pred = true) by (unfold null_value; by rewrite lookup_insert_eq).
  eexists. split; [cbn; by rewrite D1, D2, D3 |]. split; [done |].
  unfold cmp. cbn [m_comparator_count cmp_loop Nat.ltb Nat.leb st_cmp m_comparators lookup list_lookup mbind option_bind m_handler cmp_arg m_handler_index m_cmp_item m_predicant_index st_nulls Nat.eqb].
  rewrite S1, F1. cbn [andb mbind option_bind m_arg_index lookup list_lookup]. rewrite (cmp_law d1 _ pred v1 Y1), K1, D1. rewrite <- K1. fold s1.
  cbn [answer int_of_bool mbind option_bind]. change (TRUE =? FALSE) with false. change (TRUE =? UNKNOWN) with false.
  cbn [st_idx st_found Nat.add cmp_loop m_comparator_count st_cmp set_item Nat.ltb Nat.leb m_comparators alter list_alter lookup list_lookup mbind option_bind m_handler cmp_arg m_handler_index with_item m_cmp_item
    m_predicant_index st_nulls Nat.eqb].
  rewrite S2, F2. rewrite bool_decide_eq_false_2 by congruence. cbn [negb andb mbind option_bind]. change (UNKNOWN =? FALSE) with false. change (UNKNOWN =? UNKNOWN) with true.
  cbn [st_idx st_found Nat.add cmp_loop m_comparator_count st_cmp set_item Nat.ltb Nat.leb m_comparators alter list_alter lookup list_lookup mbind option_bind m_handler cmp_arg m_handler_index with_item m_cmp_item
    m_predicant_index st_nulls Nat.eqb].
  rewrite F2. rewrite bool_decide_eq_false_2 by congruence. cbn [negb andb mbind option_bind]. change (UNKNOWN =? FALSE) with false. change (UNKNOWN =? UNKNOWN) with true.
  cbn. split; [reflexivity | done].
Qed.
End laws.

(** ** The comparators of the header *)

(** An item that is not NULL has a string. *)
Class ItemStrings (D : Type) `{ItemValues D} := not_null_string : forall i, (val_str i).2 = false -> is_Some (val_str i).1.

Section header.
Context {D : Type} {Values : ItemValues D} {Strings : ItemStrings D}.

Inductive item_kind := K_string | K_int | K_real.

#[export] Instance header_items : CmpItem (cmp_item D) (Value D) :=
  {| store_value := header_store_value; ci_cmp := header_cmp; cmp_not_null := header_cmp_not_null;
     is_null := fun v => match v with V_null => true | _ => false end |}.

Definition header_kind (c : cmp_item D) : item_kind :=
  match c with cmp_item_sort_string _ _ => K_string | cmp_item_int _ _ => K_int | cmp_item_real _ _ => K_real end.
Definition header_null (k : item_kind) (p : Z) : bool :=
  match k with K_string => (val_str p).2 | K_int => (val_int p).2 | K_real => (val_real p).2 end.
Definition header_ne (k : item_kind) (p v : Z) : bool :=
  match k with
  | K_string => match (val_str p).1, (val_str v).1 with Some a, Some b => negb (sortcmp a b =? 0) | None, None => false | _, _ => true end
  | K_int => negb ((val_int p).1 =? (val_int v).1)
  | K_real => negb (real_eq (val_real p).1 (val_real v).1)
  end.
Definition header_ne_value (k : item_kind) (p : Z) (val : Value D) : bool :=
  match k, val with
  | K_string, V_string v => match (val_str p).1 with Some a => negb (sortcmp a v =? 0) | None => true end
  | K_int, V_longlong v => negb ((val_int p).1 =? v)
  | K_real, V_double v => negb (real_eq (val_real p).1 v)
  | _, _ => true
  end.
Definition header_holds (c : cmp_item D) (p : Z) : Prop :=
  match c with
  | cmp_item_sort_string v n => (v, n) = val_str p
  | cmp_item_int v n => (v, n) = val_int p
  | cmp_item_real v n => (v, n) = val_real p
  end.
Definition header_saves (k : item_kind) (val : Value D) : Prop :=
  match k, val with K_string, V_string _ | K_int, V_longlong _ | K_real, V_double _ => True | _, _ => False end.

Lemma header_store c s p : exists c', header_store_value c s p = (c', <[p := header_null (header_kind c) p]> s) /\ header_kind c' = header_kind c /\ header_holds c' p.
Proof.
  destruct c; cbn; unfold string_store_value, int_store_value, real_store_value, evaluate, null_value; rewrite lookup_insert_eq; eexists; (split; [reflexivity |]); (split; [done |]); cbn.
  - by destruct (val_str p) as [[|] ?].
  - by destruct (val_int p).
  - by destruct (val_real p).
Qed.

Lemma header_cmp_ok c s p v : header_holds c p ->
  header_cmp c s v = (answer (if header_null (header_kind c) p || header_null (header_kind c) v then None else Some (header_ne (header_kind c) p v)),
    <[v := header_null (header_kind c) v]> s).
Proof.
  destruct c; cbn; intros E; unfold string_cmp, int_cmp, real_cmp, evaluate, null_value; rewrite lookup_insert_eq; rewrite <- E; cbn.
  - destruct m_null_value, (val_str v) as [r []], value_res, r; try done; cbn; by destruct (sortcmp _ _ =? 0).
  - destruct m_null_value, (val_int v) as [r []]; try done; cbn; by destruct (value =? r).
  - destruct m_null_value, (val_real v) as [r []]; try done; cbn; by destruct (real_eq value r).
Qed.

(** [cmp_item_sort_string], [cmp_item_int] and [cmp_item_real] keep the promises. *)
#[export, refine] Instance header_laws : CmpItemLaws (cmp_item D) (Value D) item_kind :=
  {| kind := header_kind; item_null := header_null; differs := fun k p v => if header_null k p || header_null k v then None else Some (header_ne k p v);
     differs_value := header_ne_value; holds := header_holds; scalar := fun _ => true; saves := header_saves |}.
Proof.
  - exact header_store.
  - exact header_cmp_ok.
  - intros k p v _ ->. done.
  - intros c p val Hh Hn Hs Hv. destruct c; cbn in *; destruct val; try done; cbn.
    + unfold string_cmp_not_null. pose proof (not_null_string p Hn) as [a Ea]. rewrite <- Hh in Ea |- *. cbn in *. by subst value_res.
    + unfold int_cmp_not_null. by rewrite <- Hh.
    + unfold real_cmp_not_null. by rewrite <- Hh.
Defined.
End header.

(** ** Instances *)

(** Item 1 is 7, items 2 to 5 are 3, 5, NULL and 7; item 9 is 7 as an integer and NULL as a real. *)
Definition demo_int (i : Z) : Z * bool :=
  if i =? 2 then (3, false) else if i =? 3 then (5, false) else if i =? 4 then (0, true) else (7, false).
#[local] Instance demo_values : ItemValues Z :=
  {| val_int := demo_int; val_real := fun i => if i =? 9 then (0, true) else demo_int i; val_str := fun i => (Some [48 + (demo_int i).1], (demo_int i).2);
     val_datetime_packed := demo_int; val_time_packed := demo_int; const_item := fun i => 1 <? i; is_expensive := fun _ => false;
     sortcmp := fun a b => le_value a - le_value b; real_eq := Z.eqb; real_lt := Z.ltb |}.
#[local] Instance demo_strings : ItemStrings Z.
Proof. intros i _. by eexists. Qed.

(** Handler 0 compares integers, handler 1 reals, handler 2 would be that of rows. *)
Definition demo_comparator : @Predicant_to_list_comparator (cmp_item Z) nat :=
  Comparator [Entry (Some 0%nat) (Some (cmp_item_int 0 false)) 1 0; Entry (Some 1%nat) (Some (cmp_item_real 0 false)) 2 1; Entry (Some 0%nat) None 3 0; Entry (Some 0%nat) None 4 0] 4 0.
Definition demo_args : list Z := [1; 2; 3; 4; 5].

Lemma demo_comparator_ok : comparator_ok 2%nat demo_comparator demo_args.
Proof.
  split; [done | by eexists |]. intros i e Hi L. destruct i as [| [| [| [| i]]]]; [| | | | cbn in Hi; lia]; injection L as <-.
  - exists 0%nat. split; [done |]. split; [by eexists |]. split; [done |]. by eexists _, _.
  - exists 1%nat. split; [done |]. split; [by eexists |]. split; [done |]. by eexists _, _.
  - exists 0%nat. split; [done |]. split; [by eexists |]. split; [cbn; lia |]. by eexists _, _.
  - exists 0%nat. split; [done |]. split; [by eexists |]. split; [cbn; lia |]. by eexists _, _.
Qed.

Lemma demo_agree i k : (i < m_comparator_count demo_comparator)%nat -> kind_of demo_comparator i = Some k -> item_null k 1 = false.
Proof. intros _. by destruct k. Qed.

Definition demo_pairs : list (nat * option bool) := [(1%nat, Some true); (2%nat, Some true); (3%nat, None); (4%nat, Some false)].

Lemma in_is_kleene_or_witness : exists st,
  cmp 2%nat demo_comparator demo_args 0 (Some false) ∅ = Some (false, st) /\ st_idx st = 4%nat /\ any_equal demo_pairs = Some true.
Proof.
  destruct (in_is_kleene_or 2%nat demo_comparator demo_args 1 0 ∅ demo_comparator_ok eq_refl) as (ps & res & st & H1 & H2 & _ & _ & _ & _ & H3).
  destruct (H3 false demo_agree) as (_ & H4 & H5).
  change (Some demo_pairs = Some ps) in H1. injection H1 as <-. change (res = false) in H4. subst res. exists st. split; [exact H2 |]. split; [exact H5 | reflexivity].
Defined.

Lemma case_stops_at_null_witness : exists st, cmp 2%nat demo_comparator demo_args 0 None ∅ = Some (true, st) /\ st_idx st = 0%nat /\ first_equal demo_pairs = Some 4%nat.
Proof.
  destruct (case_stops_at_null 2%nat demo_comparator demo_args 1 false 0 ∅ demo_comparator_ok eq_refl demo_agree) as (ps & res & st & H1 & H2 & H3 & H4 & _).
  change (Some demo_pairs = Some ps) in H1. injection H1 as <-. exists st. destruct res; [split; [exact H2 |]; split; [by apply H3 | reflexivity] |].
  exfalso. destruct (proj1 H4 eq_refl) as (before & a & after & E & Hb).
  destruct before as [| x [| y [| z before]]]; cbn in E; [discriminate E | discriminate E | discriminate E |]. injection E as <- <- <- _.
  apply Forall_cons in Hb as [_ Hb]. apply Forall_cons in Hb as [_ Hb]. apply Forall_cons in Hb as [Hb _]. discriminate Hb.
Defined.

(** What is saved for an integer or a real. *)
Definition demo_save (h : option nat) (i : Z) : Value Z := if (demo_int i).2 then V_null else if bool_decide (h = Some 1%nat) then V_double (demo_int i).1 else V_longlong (demo_int i).1.

Lemma demo_saves i e k arg : (i < m_comparator_count demo_comparator)%nat -> m_comparators demo_comparator !! i = Some e -> kind_of demo_comparator i = Some k ->
  demo_args !! m_arg_index e = Some arg ->
  (is_null (demo_save (m_handler e) arg) = false -> saves k (demo_save (m_handler e) arg)) /\ (arg = 1 -> is_null (demo_save (m_handler e) arg) = false).
Proof.
  intros Hi L Hk Ha. destruct i as [| [| [| [| i]]]]; [| | | | cbn in Hi; lia]; injection L as <-; injection Hk as <-; injection Ha as <-; by split.
Qed.

Lemma decode_finds_nulls_witness : exists st, cmp_nulls_equal demo_save demo_comparator demo_args 0 ∅ = Some (false, st) /\ st_idx st = 4%nat.
Proof.
  destruct (decode_finds_nulls 2%nat demo_comparator demo_args 1 false demo_save 0 ∅ demo_comparator_ok eq_refl demo_agree demo_saves) as (ps & res & st & H1 & H2 & H3 & H4 & _).
  vm_compute in H1. injection H1 as <-. cbn in H3, H4. exists st. subst res. split; [exact H2 | exact H4].
Defined.

Lemma null_of_other_comparator_witness : exists st,
  cmp 2%nat (Comparator [Entry (Some 0%nat) (Some (cmp_item_int 0 false)) 1 0; Entry (Some 1%nat) (Some (cmp_item_real 0 false)) 2 1; Entry (Some 0%nat) None 3 0] 3 0)
    [9; 2; 3; 5] 0 (Some false) ∅ = Some (true, st).
Proof.
  destruct (null_of_other_comparator 2%nat 0%nat 1%nat (cmp_item_int 0 false : cmp_item Z) (cmp_item_real 0 false : cmp_item Z) 9 2 3 5 0 ∅) as (ps & st & _ & _ & H & _);
    [done | done | reflexivity | reflexivity | reflexivity | reflexivity | reflexivity | reflexivity | done |]. by exists st.
Defined.

Lemma bisection_of_constants_witness : compatible_types_scalar_bisection_possible false demo_args = Some true.
Proof.
  destruct (bisection_of_constants demo_args false true false true true ltac:(done)) as [H _]. exact (H eq_refl).
Defined.

(** The arguments of [CASE] are the conditions, as many results, and an ELSE when one is left over: the
    numbers of the WHENs and the place of the ELSE account for every argument. *)
Theorem case_arguments n :
  (n = 2 * searched_when_count n + (if searched_with_else n then 1 else 0))%nat /\
  ((0 < n)%nat -> n = (1 + 2 * simple_when_count n + (if simple_with_else n then 1 else 0))%nat) /\
  (forall i, searched_else_expr_addr n = Some i -> (i = 2 * searched_when_count n)%nat /\ (i < n)%nat) /\
  (forall i, (0 < n)%nat -> simple_else_expr_addr n = Some i -> (i = 1 + 2 * simple_when_count n)%nat /\ (i < n)%nat).
Proof.
  unfold searched_else_expr_addr, simple_else_expr_addr, searched_when_count, searched_with_else, simple_when_count, simple_with_else.
  pose proof (Nat.div_mod_eq n 2). pose proof (Nat.mod_upper_bound n 2 ltac:(lia)). pose proof (Nat.div_mod_eq (n - 1) 2). pose proof (Nat.mod_upper_bound (n - 1) 2 ltac:(lia)).
  destruct (Nat.eqb_spec (n mod 2) 0); cbn [negb]; (split; [lia |]); (split; [lia |]); (split; [intros i E | intros i Hn E]); try discriminate E; injection E as <-; lia.
Qed.
