(* ===== verification/SessionTime.v ===== *)
(** * SessionTime: the time of a statement ([sql_class.h], [my_sys.h], [my_time.h])

    A session gives each statement a time, from the clock, from [SET timestamp], or from
    the binary log.  Time from the clock must not repeat: when the clock has not moved
    since the last statement, the code counts microseconds of its own.

    The readings of the two clocks are arguments.  [my_time_t] is a [long], which has 32 or
    64 bits; its width is a parameter, and a sum that leaves its range has no result. *)

From stdpp Require Import base numbers option list.
From Stdlib Require Import ZArith Lia Sorted.
From S2P Require Import Prelude MyTime.

Local Open Scope Z_scope.
Local Open Scope cxx_scope.

(* [my_sys.h:947-947 HRTIME_RESOLUTION] *)
Definition HRTIME_RESOLUTION : Z := 1000000.
(* [mysql_com.h:398-398 SERVER_QUERY_WAS_SLOW] *)
Definition SERVER_QUERY_WAS_SLOW : Z := 2048.
(* [mysqld.h:306-306 secure_timestamp] *)
Inductive secure_timestamp := SECTIME_NO | SECTIME_SUPER | SECTIME_REPL | SECTIME_YES.
Definition sectime_value (s : secure_timestamp) : Z := match s with SECTIME_NO => 0 | SECTIME_SUPER => 1 | SECTIME_REPL => 2 | SECTIME_YES => 3 end.

(* [sql_class.h:3546-3550 struct] *)
Record system_time_t := System { start : Z; sec : Z; sec_part : Z }.

(** The members of [THD] that keep times. *)
(* [sql_class.h:2496-2499 user_time] *)
Record Session := Thd { system_time : system_time_t; user_time : Z; start_time : Z; start_time_sec_part : Z;
                        start_utime : Z; utime_after_lock : Z; utime_after_query : Z; query_start_sec_part_used : bool }.

Section code.
(** The number of bits of a [long]. *)
Variable long_bits : Z.

(* [my_sys.h:963-963 hrtime_from_time] *)
Definition hrtime_from_time (x : Z) : Z := u64 (u64 x * HRTIME_RESOLUTION).
(* [my_sys.h:965-965 hrtime_sec_part] *)
Definition hrtime_sec_part (x : Z) : Z := x mod HRTIME_RESOLUTION.
(* [my_time.h:246-246 hrtime_to_my_time] *)
Definition hrtime_to_my_time (x : Z) : Z := swrap long_bits (x / HRTIME_RESOLUTION).

(** [hrtime] is what [my_hrtime()] answers. [system_time.sec++] may leave the range of a [long]. *)
(* [sql_class.h:3552-3575 set_system_time] *)
Definition set_system_time (t : system_time_t) (hrtime : Z) : option system_time_t :=
  let sec' := hrtime_to_my_time hrtime in
  let sec_part' := hrtime_sec_part hrtime in
  if (sec t <? sec') || ((sec' =? sec t) && (sec_part t <? sec_part')) || (hrtime <? start t) then Some (System hrtime sec' sec_part')
  else if sec_part t <? TIME_MAX_SECOND_PART then Some (System (start t) (sec t) (sec_part t + 1))
  else if sec t + 1 <? 2 ^ (long_bits - 1) then Some (System (start t) (sec t + 1) 0) else None.

Definition with_start_time (s : Session) (t : system_time_t) (sec sec_part : Z) : Session :=
  Thd t (user_time s) sec sec_part (start_utime s) (utime_after_lock s) (utime_after_query s) (query_start_sec_part_used s).
Definition with_utime (s : Session) (utime : Z) : Session :=
  Thd (system_time s) (user_time s) (start_time s) (start_time_sec_part s) utime utime (utime_after_query s) (query_start_sec_part_used s).
Definition with_user_time (s : Session) (t : Z) : Session :=
  Thd (system_time s) t (start_time s) (start_time_sec_part s) (start_utime s) (utime_after_lock s) (utime_after_query s) (query_start_sec_part_used s).

(* [sql_class.h:3585-3599 set_start_time] *)
Definition set_start_time (s : Session) (hrtime : Z) : option Session :=
  if negb (user_time s =? 0) then Some (with_start_time s (system_time s) (hrtime_to_my_time (user_time s)) (hrtime_sec_part (user_time s)))
  else t ← set_system_time (system_time s) hrtime; Some (with_start_time s t (sec t) (sec_part t)).
(** [utime] is what [microsecond_interval_timer()] answers. *)
(* [sql_class.h:3600-3604 set_time] *)
Definition set_time (s : Session) (hrtime utime : Z) : option Session := s ← set_start_time s hrtime; Some (with_utime s utime).
(* [sql_class.h:3606-3610 set_time] *)
Definition set_time_user (s : Session) (t hrtime utime : Z) : option Session := set_time (with_user_time s t) hrtime utime.
(* [sql_class.h:3615-3640 set_time] *)
Definition set_time_binlog (s : Session) (opt_secure_timestamp : secure_timestamp) (slave_thread : bool) (t sec_part_ hrtime utime : Z) : option Session :=
  if (if slave_thread then sectime_value SECTIME_REPL else sectime_value SECTIME_SUPER) <? sectime_value opt_secure_timestamp then set_time s hrtime utime
  else
    let y := system_time s in
    let s := if sec_part_ <=? TIME_MAX_SECOND_PART then with_start_time s (System (start y) t sec_part_) t sec_part_
             else if negb (t =? sec y) then with_start_time s (System (start y) t 0) t 0
             else with_start_time s (System (start y) (sec y) (wrap long_bits (sec_part y + 1))) t (wrap long_bits (sec_part y + 1)) in
    Some (with_utime (with_user_time s (u64 (hrtime_from_time (start_time s) + start_time_sec_part s))) utime).
(* [sql_class.h:3641-3646 set_time_after_lock] *)
Definition set_time_after_lock (s : Session) (utime : Z) : Session :=
  Thd (system_time s) (user_time s) (start_time s) (start_time_sec_part s) (start_utime s) utime (utime_after_query s) (query_start_sec_part_used s).
(* [sql_class.h:3650-3653 set_time_for_next_stage] *)
Definition set_time_for_next_stage (s : Session) (utime : Z) : Session :=
  Thd (system_time s) (user_time s) (start_time s) (start_time_sec_part s) (start_utime s) (utime_after_lock s) utime (query_start_sec_part_used s).
(* [sql_class.h:3662-3667 update_server_status] *)
Definition update_server_status (s : Session) (utime long_query_time server_status : Z) : Session * Z :=
  let s := set_time_for_next_stage s utime in
  (s, if u64 (utime_after_lock s + long_query_time) <=? utime_after_query s then server_status ||| SERVER_QUERY_WAS_SLOW else server_status).
(* [sql_class.h:3535-3535 query_start] *)
Definition query_start (s : Session) : Z := start_time s.
(* [sql_class.h:3536-3537 query_start_sec_part] *)
Definition query_start_sec_part (s : Session) : Z * Session :=
  (start_time_sec_part s, Thd (system_time s) (user_time s) (start_time s) (start_time_sec_part s) (start_utime s) (utime_after_lock s) (utime_after_query s) true).

(** ** Time from the clock *)

(** Microseconds since the epoch. *)
Definition stamp (t : system_time_t) : Z := sec t * HRTIME_RESOLUTION + sec_part t.
Definition system_ok (t : system_time_t) : Prop := 0 <= sec_part t <= TIME_MAX_SECOND_PART.
(** The first microsecond that a [my_time_t] has no second for: in 2038 where a [long] has 32 bits. *)
Definition end_of_time : Z := 2 ^ (long_bits - 1) * HRTIME_RESOLUTION.
Definition clock_ok (hrtime : Z) : Prop := 0 <= hrtime < end_of_time.

Hypothesis Hlong : 32 <= long_bits <= 64.

Lemma long_range : 2 ^ 31 <= 2 ^ (long_bits - 1).
Proof using Hlong. apply Z.pow_le_mono_r; lia. Qed.

Lemma my_time_ok h : clock_ok h -> hrtime_to_my_time h = h / HRTIME_RESOLUTION.
Proof using Hlong.
  intros Hh. unfold hrtime_to_my_time, clock_ok, end_of_time in *. apply swrap_small; [lia |].
  assert (0 <= h / HRTIME_RESOLUTION < 2 ^ (long_bits - 1)) by (split; [apply Z.div_pos | apply Z.div_lt_upper_bound]; unfold HRTIME_RESOLUTION in *; lia). lia.
Qed.

Lemma set_system_time_ok t h : system_ok t -> clock_ok h -> h < start t \/ stamp t + 1 < end_of_time ->
  exists t', set_system_time t h = Some t' /\ system_ok t' /\ stamp t' = (if h <? start t then h else Z.max h (stamp t + 1)) /\ start t' <= Z.max (start t) h.
Proof using Hlong.
  intros Ht Hh Hend. unfold set_system_time. rewrite (my_time_ok h Hh). unfold hrtime_sec_part.
  pose proof (Z.div_mod h HRTIME_RESOLUTION ltac:(done)) as E. pose proof (Z.mod_pos_bound h HRTIME_RESOLUTION ltac:(done)) as B.
  unfold system_ok, clock_ok, end_of_time, stamp, TIME_MAX_SECOND_PART, HRTIME_RESOLUTION in *. set (q := h / 1000000) in *. set (r := h mod 1000000) in *. clearbody q r.
  set (lim := 2 ^ (long_bits - 1)) in *. clearbody lim.
  destruct (Z.ltb_spec (sec t) q), (Z.eqb_spec q (sec t)), (Z.ltb_spec (sec_part t) r), (Z.ltb_spec h (start t)); cbn [andb orb]; try lia;
    try (eexists; split; [reflexivity |]; cbn [sec sec_part start]; lia);
    (destruct (Z.ltb_spec (sec_part t) 999999); [| rewrite (proj2 (Z.ltb_lt _ _)) by lia]; eexists; (split; [reflexivity |]); cbn [sec sec_part start]; lia).
Qed.

Lemma set_system_time_overflow t h : system_ok t -> clock_ok h -> start t <= h -> stamp t = end_of_time - 1 -> h < end_of_time - 1 \/ h = stamp t -> set_system_time t h = None.
Proof using Hlong.
  intros Ht Hh Hs Hst Hend. unfold set_system_time. rewrite (my_time_ok h Hh). unfold hrtime_sec_part.
  pose proof (Z.div_mod h HRTIME_RESOLUTION ltac:(done)) as E. pose proof (Z.mod_pos_bound h HRTIME_RESOLUTION ltac:(done)) as B.
  unfold system_ok, clock_ok, end_of_time, stamp, TIME_MAX_SECOND_PART, HRTIME_RESOLUTION in *. set (q := h / 1000000) in *. set (r := h mod 1000000) in *. clearbody q r.
  set (lim := 2 ^ (long_bits - 1)) in *. clearbody lim.
  rewrite (proj2 (Z.ltb_ge (sec t) q)), (proj2 (Z.ltb_ge h (start t))), (proj2 (Z.ltb_ge (sec_part t) r)), (proj2 (Z.ltb_ge (sec_part t) 999999)), (proj2 (Z.ltb_ge _ lim)) by lia.
  by rewrite andb_false_r.
Qed.

Definition session_ok (s : Session) : Prop := system_ok (system_time s) /\ user_time s = 0.
(** The times of statements that start when the clocks answer [cs]. *)
Fixpoint statement_times (s : Session) (cs : list (Z * Z)) : option (list Z) :=
  match cs with
  | [] => Some []
  | (hrtime, utime) :: cs =>
    s ← set_time s hrtime utime; ts ← statement_times s cs;
    Some ((query_start s * HRTIME_RESOLUTION + (query_start_sec_part s).1) :: ts)
  end.

Lemma set_time_session s h u t' : session_ok s -> set_system_time (system_time s) h = Some t' -> system_ok t' ->
  exists s', set_time s h u = Some s' /\ session_ok s' /\ system_time s' = t' /\
    query_start s' * HRTIME_RESOLUTION + (query_start_sec_part s').1 = stamp t'.
Proof using Type.
  intros [Hs Hu] E Ht. unfold set_time, set_start_time. rewrite Hu. cbn [Z.eqb negb]. rewrite E. cbn [mbind option_bind]. eexists. split; [reflexivity |]. done.
Qed.


(** ** Time from the binary log *)

(** A time with microseconds that the binary log sets is the time of the statement and of the next ones, until
    the clock is asked for again. *)
Theorem binlog_time_roundtrip s opt (slave : bool) t p h u :
  sectime_value opt <= (if slave then 2 else 1) -> 0 <= t < 2 ^ 31 -> 0 <= p <= TIME_MAX_SECOND_PART -> 0 < t \/ 0 < p ->
  exists s', set_time_binlog s opt slave t p h u = Some s' /\
  query_start s' = t /\ (query_start_sec_part s').1 = p /\ stamp (system_time s') = t * HRTIME_RESOLUTION + p /\
  forall h' u', exists s'', set_time s' h' u' = Some s'' /\ query_start s'' = t /\ (query_start_sec_part s'').1 = p.
Proof using Hlong.
  intros Ho Ht Hp Hpos. unfold set_time_binlog. rewrite (proj2 (Z.ltb_ge _ _)) by (by destruct slave). rewrite (proj2 (Z.leb_le p _)) by lia.
  eexists. split; [reflexivity |]. split; [done |]. split; [done |]. split; [done |]. intros h' u'. unfold set_time, set_start_time. cbn [user_time with_utime with_user_time with_start_time start_time start_time_sec_part].
  pose proof (long_range). unfold hrtime_from_time, HRTIME_RESOLUTION, TIME_MAX_SECOND_PART in *. rewrite (u64_small t), (u64_small (t * 1000000)), u64_small by lia.
  rewrite (proj2 (Z.eqb_neq _ _)) by lia. cbn [negb mbind option_bind]. eexists. split; [reflexivity |]. cbn. rewrite my_time_ok by (unfold clock_ok, end_of_time, HRTIME_RESOLUTION; lia). unfold hrtime_sec_part, HRTIME_RESOLUTION.
  rewrite Z.add_comm, Z.div_add, Z.div_small, Z.mod_add, Z.mod_small by lia. lia.
Qed.

(** [n] events of the second [t] that have no microseconds in the binary log. *)
Fixpoint binlog_events (s : Session) (slave : bool) (t p : Z) (n : nat) (h u : Z) : option Session :=
  match n with O => Some s | S n => s ← binlog_events s slave t p n h u; set_time_binlog s SECTIME_NO slave t p h u end.

Lemma binlog_event_ok s slave t p h u : TIME_MAX_SECOND_PART < p -> sec (system_time s) = t -> 0 <= sec_part (system_time s) < 2 ^ 32 - 1 ->
  let y := System (start (system_time s)) t (sec_part (system_time s) + 1) in
  set_time_binlog s SECTIME_NO slave t p h u = Some (with_utime (with_user_time (with_start_time s y t (sec_part y)) (u64 (hrtime_from_time t + sec_part y))) u).
Proof using Hlong.
  intros Hp Hsec Hr. unfold set_time_binlog. rewrite (proj2 (Z.ltb_ge _ _)) by (by destruct slave). rewrite (proj2 (Z.leb_gt p _)) by lia. rewrite Hsec, Z.eqb_refl. cbn [negb].
  assert (E : wrap long_bits (sec_part (system_time s) + 1) = sec_part (system_time s) + 1); [| by rewrite E].
  apply wrap_small. unfold is_word. assert (2 ^ 32 <= 2 ^ long_bits) by (apply Z.pow_le_mono_r; lia). lia.
Qed.

(** C17: Events of one second without microseconds get one microsecond after the other, also beyond the last one of
    the second: [set_time] does not carry, as [set_system_time] does, so that
    [start_time_sec_part] is no longer below a million, and the time that the session keeps is in the next second. *)
Theorem binlog_second_overflows s slave t p h u n :
  0 <= t < 2 ^ 31 -> TIME_MAX_SECOND_PART < p -> sec (system_time s) = t -> system_ok (system_time s) -> Z.of_nat n < 2 ^ 20 -> (0 < n)%nat ->
  exists s', binlog_events s slave t p n h u = Some s' /\
  query_start s' = t /\ (query_start_sec_part s').1 = sec_part (system_time s) + Z.of_nat n /\
  (TIME_MAX_SECOND_PART < sec_part (system_time s) + Z.of_nat n -> 0 < t < 2 ^ 31 - 2 ->
    forall h' u', exists s'', set_time s' h' u' = Some s'' /\ t < query_start s'').
Proof using Hlong.
  intros Ht Hp Hsec Hok Hn Hpos. pose proof long_range as Hlr.
  assert (G : forall n, Z.of_nat n < 2 ^ 20 -> exists s', binlog_events s slave t p n h u = Some s' /\
    system_time s' = System (start (system_time s)) t (sec_part (system_time s) + Z.of_nat n)).
  { unfold system_ok, TIME_MAX_SECOND_PART in Hok. induction n0 as [| n0 IH]; intros Hn0; cbn [binlog_events]; [exists s; split; [done |]; rewrite Z.add_0_r, <- Hsec; by destruct (system_time s) |].
    destruct IH as (s1 & -> & E1); [lia |]. cbn [mbind option_bind]. rewrite binlog_event_ok by (rewrite ?E1; cbn [sec sec_part]; lia || done).
    eexists. split; [reflexivity |]. cbn [system_time with_utime with_user_time with_start_time]. rewrite E1. cbn [start sec_part]. f_equal. lia. }
  destruct n as [| n]; [lia |]. destruct (G n ltac:(lia)) as (s0 & E0 & E). clear G. cbn [binlog_events]. rewrite E0. cbn [mbind option_bind].
  unfold system_ok, TIME_MAX_SECOND_PART in Hok. rewrite binlog_event_ok by (rewrite ?E; cbn [sec sec_part]; lia || done). rewrite E. cbn [start sec_part].
  eexists. split; [reflexivity |]. split; [done |]. split; [cbn; lia |]. intros Hover Ht0 h' u'. unfold set_time, set_start_time. cbn [user_time with_utime with_user_time with_start_time start_time start_time_sec_part sec_part].
  unfold hrtime_from_time, HRTIME_RESOLUTION, TIME_MAX_SECOND_PART in *. rewrite (u64_small t), (u64_small (t * 1000000)), u64_small by lia.
  rewrite (proj2 (Z.eqb_neq _ _)) by lia. cbn [negb mbind option_bind]. eexists. split; [reflexivity |]. cbn [query_start with_utime with_start_time start_time].
  rewrite my_time_ok by (unfold clock_ok, end_of_time, HRTIME_RESOLUTION; lia).
  unfold HRTIME_RESOLUTION. rewrite Z.add_comm, Z.div_add by lia. assert (1 <= (sec_part (system_time s) + Z.of_nat n + 1) / 1000000) by (apply Z.div_le_lower_bound; lia). lia.
Qed.

(** A query is marked slow when [long_query_time] or more has passed since it got its locks; the other bits of
    the status stay. *)
Theorem slow_query_marked s utime long_query_time status :
  0 <= utime_after_lock s -> 0 <= long_query_time -> utime_after_lock s + long_query_time < 2 ^ 64 ->
  (update_server_status s utime long_query_time status).2 =
    (if long_query_time <=? utime - utime_after_lock s then Z.lor status SERVER_QUERY_WAS_SLOW else status).
Proof using Type.
  intros H1 H2 H3. unfold update_server_status. cbn. rewrite u64_small by lia.
  destruct (Z.leb_spec (utime_after_lock s + long_query_time) utime), (Z.leb_spec long_query_time (utime - utime_after_lock s)); done || lia.
Qed.
End code.

(** ** Instances *)

Definition demo_session : Session := Thd (System 5000000 5 0) 0 0 0 0 0 0 false.


Lemma binlog_time_roundtrip_witness : exists s' s'', set_time_binlog 64 demo_session SECTIME_NO false 77 5 0 0 = Some s' /\ set_time 64 s' 1 2 = Some s'' /\ query_start s'' = 77.
Proof.
  destruct (binlog_time_roundtrip 64 ltac:(lia) demo_session SECTIME_NO false 77 5 0 0) as (s' & E & _ & _ & _ & H);
    [done | lia | split; done | lia |]. destruct (H 1 2) as (s'' & E2 & H2 & _). by exists s', s''.
Defined.

Lemma binlog_second_overflows_witness : exists s' s'',
  binlog_events 32 (Thd (System 5000000 5 999999) 0 0 0 0 0 0 false) true 5 1000000 1 0 0 = Some s' /\
  (query_start_sec_part s').1 = 1000000 /\ set_time 32 s' 0 0 = Some s'' /\ 5 < query_start s''.
Proof.
  destruct (binlog_second_overflows 32 ltac:(lia) (Thd (System 5000000 5 999999) 0 0 0 0 0 0 false) true 5 1000000 0 0 1) as (s' & E & _ & H1 & H2);
    [lia | done | done | split; done | lia | lia |]. destruct (H2 ltac:(done) ltac:(lia) 0 0) as (s'' & E2 & H3). exists s', s''. split; [exact E |]. split; [exact H1 |]. split; [exact E2 | exact H3].
Defined.

Lemma slow_query_marked_witness : (update_server_status demo_session 20 10 1).2 = 2049.
Proof. exact (slow_query_marked demo_session 20 10 1 ltac:(done) ltac:(done) ltac:(done)). Defined.
