(* ===== verification/LooseScan.v ===== *)
(** * LooseScan: looking for a loose index scan ([opt_subselect.h])

    For [(oe1, .., oeN) IN (SELECT ie1, .., ieN ..)] a loose scan reads an index of the
    inner table in groups of duplicates.  It is possible when every equality [ieK = oeK] is
    bound by earlier tables or handled by the leading parts of the index.
    [best_access_path()] tells a [Loose_scan_opt] about the ways to use each index; it
    keeps the cheapest of those that are possible.

    What the code reads of joins, tables, indexes and quick selects are fields of
    records here.  Costs are doubles: the class [Cost].  A shift by the width of the type or
    more, an array access outside, and a failing assertion have no result. *)

From stdpp Require Import base numbers option list sets.
From Stdlib Require Import ZArith Lia.
From S2P Require Import Prelude.

Local Open Scope Z_scope.
Local Open Scope cxx_scope.

Class Cost (D : Type) := { dlt : D -> D -> bool; ddiv : D -> D -> D; rows2double : Z -> D; DBL_MAX : D; one : D }.

(* [sql_priv.h:202-202 OPTIMIZER_SWITCH_LOOSE_SCAN] *)
Definition OPTIMIZER_SWITCH_LOOSE_SCAN : Z := 1 <<< 10.
(* [handler.h:339-339 HA_READ_ORDER] *)
Definition HA_READ_ORDER : Z := 4.
Definition UINT_MAX : Z := 2 ^ 32 - 1.

(* [my_global.h:510-510 MY_TEST] *)
Definition MY_TEST (a : Z) : bool := negb (a =? 0).
(** [type] has [w] bits. *)
(* [my_global.h:873-873 PREV_BITS] *)
Definition PREV_BITS (w a : Z) : option Z := if (0 <=? a) && (a <? w) then Some (2 ^ a - 1) else None.
(** [1 << a] in [w] bits. *)
Definition single_bit (w a : Z) : option Z := if (0 <=? a) && (a <? w) then Some (1 <<< a) else None.
(* [my_global.h:511-511 set_if_bigger] *)
Definition set_if_bigger (a b : Z) : Z := if a <? b then b else a.
(** [optimizer_switch] of the session. *)
(* [sql_select.h:2376-2379 optimizer_flag] *)
Definition optimizer_flag (optimizer_switch flag : Z) : bool := negb (optimizer_switch &&& flag =? 0).

Section code.
Context {D : Type} `{Cost D}.
(** The bits of an [unsigned long], which [key_part_map] is. *)
Variable long_bits : Z.

(** The semi-join nest of a table. *)
Record Sj_nest := Nest { sj_in_exprs : Z; sj_inner_tables : Z; sj_corr_tables : Z; sj_depends_on : Z }.
(** An index: whether it covers the query, has partial columns, the cost of reading it whole, its [rec_per_key]. *)
Record Key := Index { covering : bool; uses_partial_cols : bool; keyread_time : D; rec_per_key : list Z }.
(** A quick select. *)
Record Quick := Quick_select { q_index : Z; is_range : bool; q_read_time : D; q_records : Z }.
(* [sql_select.h:47-74 keyuse_t] *)
Record KEYUSE := Keyuse { used_tables : Z; keypart : Z; sj_pred_no : Z; index_flags : Z }.

(** The best way so far. *)
Record Best := Way { best_key : Z; best_cost : D; best_records : D; best_start_key : option Z; best_max_loose_keypart : Z; best_ref_depend_map : Z }.

(* [opt_subselect.h:66-94 try_loosescan] *)
Record Loose_scan_opt := Opt {
  try_loosescan : bool; bound_sj_equalities : Z; handled_sj_equalities : Z; loose_scan_keyparts : Z; max_loose_keypart : Z; part1_conds_met : bool;
  quick_uses_applicable_index : bool; quick_max_loose_keypart : Z; best : Best }.

(** The members that the constructor leaves alone are arguments. *)
(* [opt_subselect.h:97-109 Loose_scan_opt] *)
Definition mk_Loose_scan_opt (handled keyparts max_keypart : Z) (met : bool) : Loose_scan_opt :=
  Opt false 0 handled keyparts max_keypart met false 0 (Way 0 (rows2double 0) (rows2double 0) None 0 0).

Definition with_best (o : Loose_scan_opt) (b : Best) : Loose_scan_opt :=
  Opt (try_loosescan o) (bound_sj_equalities o) (handled_sj_equalities o) (loose_scan_keyparts o) (max_loose_keypart o) (part1_conds_met o)
    (quick_uses_applicable_index o) (quick_max_loose_keypart o) b.
Definition with_part1 (o : Loose_scan_opt) (met quick : bool) (quick_max : Z) : Loose_scan_opt :=
  Opt (try_loosescan o) (bound_sj_equalities o) (handled_sj_equalities o) (loose_scan_keyparts o) (max_loose_keypart o) met quick quick_max (best o).

(** [bound] is what [get_bound_sj_equalities] answers. *)
(* [opt_subselect.h:111-143 init] *)
Definition init (o : Loose_scan_opt) (in_materialization : bool) (nest : option Sj_nest) (cur_sj_inner_tables optimizer_switch bound remaining_tables : Z) : Loose_scan_opt :=
  let b := best o in
  let o := with_best o (Way (best_key b) DBL_MAX (best_records b) (best_start_key b) (best_max_loose_keypart b) (best_ref_depend_map b)) in
  match nest with
  | Some n =>
    if negb in_materialization && (sj_in_exprs n <? 64) && (remaining_tables &&& sj_inner_tables n =? sj_inner_tables n) && (cur_sj_inner_tables =? 0) &&
       (remaining_tables &&& sj_corr_tables n =? 0) && negb (remaining_tables &&& sj_depends_on n =? 0) && optimizer_flag optimizer_switch OPTIMIZER_SWITCH_LOOSE_SCAN
    then Opt true bound (handled_sj_equalities o) (loose_scan_keyparts o) (max_loose_keypart o) (part1_conds_met o) (quick_uses_applicable_index o) (quick_max_loose_keypart o) (best o)
    else o
  | None => o
  end.
(* [opt_subselect.h:145-151 next_ref_key] *)
Definition next_ref_key (o : Loose_scan_opt) : Loose_scan_opt :=
  Opt (try_loosescan o) (bound_sj_equalities o) 0 0 0 false (quick_uses_applicable_index o) (quick_max_loose_keypart o) (best o).
(* [opt_subselect.h:153-174 add_keyuse] *)
Definition add_keyuse (o : Loose_scan_opt) (remaining_tables : Z) (k : KEYUSE) : option Loose_scan_opt :=
  if try_loosescan o && negb (sj_pred_no k =? UINT_MAX) && negb (index_flags k &&& HA_READ_ORDER =? 0) then
    b ← single_bit 64 (sj_pred_no k);
    if remaining_tables &&& used_tables k =? 0 then
      Some (Opt (try_loosescan o) (bound_sj_equalities o ||| b) (handled_sj_equalities o) (loose_scan_keyparts o) (max_loose_keypart o) (part1_conds_met o)
        (quick_uses_applicable_index o) (quick_max_loose_keypart o) (best o))
    else
      p ← single_bit long_bits (keypart k);
      Some (Opt (try_loosescan o) (bound_sj_equalities o) (handled_sj_equalities o ||| b) (loose_scan_keyparts o ||| p) (set_if_bigger (max_loose_keypart o) (keypart k))
        (part1_conds_met o) (quick_uses_applicable_index o) (quick_max_loose_keypart o) (best o))
  else Some o.
(* [opt_subselect.h:176-176 have_a_case] *)
Definition have_a_case (o : Loose_scan_opt) : bool := MY_TEST (handled_sj_equalities o).

(** The condition of [check_ref_access_part1], evaluated from left to right. *)
(* [opt_subselect.h:195-200 try_loosescan] *)
Definition part1_conditions (o : Loose_scan_opt) (in_exprs : Z) (key_info : Key) (found_part : Z) : option bool :=
  if try_loosescan o then
    all ← PREV_BITS 64 in_exprs;
    if handled_sj_equalities o ||| bound_sj_equalities o =? all then
      parts ← PREV_BITS long_bits (max_loose_keypart o + 1);
      Some ((parts &&& (found_part ||| loose_scan_keyparts o) =? parts) && negb (uses_partial_cols key_info))
    else Some false
  else Some false.
(** [in_exprs] is the number of equalities of the table's nest, [stats_records] the number of rows of the table. *)
(* [opt_subselect.h:178-261 check_ref_access_part1] *)
Definition check_ref_access_part1 (o : Loose_scan_opt) (in_exprs : Z) (quick : option Quick) (stats_records : Z) (key : Z) (key_info : Key) (start_key : Z) (found_part : Z) : option Loose_scan_opt :=
  c ← part1_conditions o in_exprs key_info found_part;
  if (c : bool) then
    let use_quick := match quick with Some q => (q_index q =? key) && is_range q | None => false end in
    let o := if use_quick then with_part1 o (part1_conds_met o) true (max_loose_keypart o) else o in
    let o := if negb (found_part &&& 1 =? 0) then with_part1 o true (quick_uses_applicable_index o) (quick_max_loose_keypart o) else o in
    if (found_part &&& 1 =? 0) && covering key_info then
      let o := with_part1 o true (quick_uses_applicable_index o) (quick_max_loose_keypart o) in
      let records := rows2double stats_records in
      let read_time := keyread_time key_info in
      rpc ← rec_per_key key_info !! Z.to_nat (max_loose_keypart o);
      let records := if negb (rpc =? 0) then ddiv records (rows2double rpc) else records in
      if dlt read_time (best_cost (best o)) then Some (with_best o (Way key read_time records (Some start_key) (max_loose_keypart o) 0)) else Some o
    else Some o
  else Some o.
(* [opt_subselect.h:263-276 check_ref_access_part2] *)
Definition check_ref_access_part2 (o : Loose_scan_opt) (key start_key : Z) (records read_time : D) (ref_depend_map_arg : Z) : Loose_scan_opt :=
  if part1_conds_met o && dlt read_time (best_cost (best o))
  then with_best o (Way key read_time records (Some start_key) (max_loose_keypart o) ref_depend_map_arg) else o.
(* [opt_subselect.h:278-292 check_range_access] *)
Definition check_range_access (o : Loose_scan_opt) (const_tables idx : Z) (quick : Quick) : Loose_scan_opt :=
  if quick_uses_applicable_index o && (idx =? const_tables) && dlt (q_read_time quick) (best_cost (best o))
  then with_best o (Way (q_index quick) (q_read_time quick) (rows2double (q_records quick)) None (quick_max_loose_keypart o) 0) else o.

(** The members of [POSITION] that are set. *)
Record POSITION := Position { read_time : D; records_read : D; pos_key : option Z; cond_selectivity : D; loosescan_key : Z; loosescan_parts : Z; use_join_buffer : bool;
                              pos_table : Z; range_rowid_filter_info : Z; ref_depend_map : Z }.

Variable deq : D -> D -> bool.
(* [opt_subselect.h:294-313 save_to_position] *)
Definition save_to_position (o : Loose_scan_opt) (tab tab_range_rowid_filter_info : Z) (pos : POSITION) : POSITION :=
  let b := best o in
  if negb (deq (best_cost b) DBL_MAX) then
    Position (best_cost b) (best_records b) (best_start_key b) one (best_key b) (u32 (best_max_loose_keypart b + 1)) false tab tab_range_rowid_filter_info (best_ref_depend_map b)
  else Position (best_cost b) (records_read pos) (pos_key pos) (cond_selectivity pos) (loosescan_key pos) (loosescan_parts pos) (use_join_buffer pos) (pos_table pos)
    (range_rowid_filter_info pos) (ref_depend_map pos).
End code.
Arguments Key D : clear implicits.
Arguments Quick D : clear implicits.
Arguments Best D : clear implicits.
Arguments Loose_scan_opt D : clear implicits.
Arguments POSITION D : clear implicits.

(** ** Which indexes are possible *)

Section possible.
Context {D : Type} `{Cost D}.
Variable long_bits : Z.

(** The equality comes from the semi-join and the index has an order. *)
Definition usable (k : KEYUSE) : bool := negb (sj_pred_no k =? UINT_MAX) && negb (index_flags k &&& HA_READ_ORDER =? 0).
(** The outer expression depends on earlier tables only. *)
Definition is_bound (remaining : Z) (k : KEYUSE) : bool := usable k && (remaining &&& used_tables k =? 0).
(** The inner expression is a part of the index. *)
Definition is_handled (remaining : Z) (k : KEYUSE) : bool := usable k && negb (remaining &&& used_tables k =? 0).
Definition keyuse_ok (k : KEYUSE) : Prop := usable k = true -> 0 <= sj_pred_no k < 64 /\ 0 <= keypart k < long_bits.

Fixpoint add_all (o : Loose_scan_opt D) (remaining : Z) (ks : list KEYUSE) : option (Loose_scan_opt D) :=
  match ks with [] => Some o | k :: ks => o ← add_keyuse long_bits o remaining k; add_all o remaining ks end.

(** The greatest part that handles an equality, or [m]. *)
Definition last_part (remaining m : Z) (ks : list KEYUSE) : Z := foldl (fun m k => if is_handled remaining k then set_if_bigger m (keypart k) else m) m ks.

Lemma single_bit_ok w a : 0 <= a < w -> single_bit w a = Some (2 ^ a).
Proof using Type. intros Ha. unfold single_bit. rewrite (proj2 (andb_true_iff _ _)) by (split; [apply Z.leb_le | apply Z.ltb_lt]; lia). by rewrite Z.shiftl_1_l. Qed.

Lemma testbit_lor_pow x a i : 0 <= a -> Z.testbit (x ||| 2 ^ a) i = Z.testbit x i || (a =? i).
Proof using Type.
  intros Ha. rewrite Z.lor_spec. f_equal. destruct (Z.eqb_spec a i) as [<- |]; [by apply Z.pow2_bits_true | by apply Z.pow2_bits_false; lia].
Qed.

Lemma add_all_ok remaining ks : forall o, try_loosescan o = true -> Forall keyuse_ok ks ->
  exists o', add_all o remaining ks = Some o' /\ try_loosescan o' = true /\ best o' = best o /\ part1_conds_met o' = part1_conds_met o /\
    quick_uses_applicable_index o' = quick_uses_applicable_index o /\ quick_max_loose_keypart o' = quick_max_loose_keypart o /\
    (forall i, Z.testbit (bound_sj_equalities o') i = Z.testbit (bound_sj_equalities o) i || existsb (fun k => is_bound remaining k && (sj_pred_no k =? i)) ks) /\
    (forall i, Z.testbit (handled_sj_equalities o') i = Z.testbit (handled_sj_equalities o) i || existsb (fun k => is_handled remaining k && (sj_pred_no k =? i)) ks) /\
    (forall j, Z.testbit (loose_scan_keyparts o') j = Z.testbit (loose_scan_keyparts o) j || existsb (fun k => is_handled remaining k && (keypart k =? j)) ks) /\
    max_loose_keypart o' = last_part remaining (max_loose_keypart o) ks.
Proof using Type.
  induction ks as [| k ks IH]; intros o Ht Hk; [exists o; cbn; repeat (split; [done |]); repeat (split; [intros; by rewrite orb_false_r |]); done |]. apply Forall_cons in Hk as [Hk Hks]. cbn [add_all].
  unfold add_keyuse. rewrite Ht. rewrite andb_true_l. fold (usable k). unfold keyuse_ok in Hk.
  assert (Sk : forall o1, try_loosescan o1 = true -> exists o', add_all o1 remaining ks = Some o' /\ try_loosescan o' = true /\ best o' = best o1 /\ part1_conds_met o' = part1_conds_met o1 /\
    quick_uses_applicable_index o' = quick_uses_applicable_index o1 /\ quick_max_loose_keypart o' = quick_max_loose_keypart o1 /\
    (forall i, Z.testbit (bound_sj_equalities o') i = Z.testbit (bound_sj_equalities o1) i || existsb (fun k => is_bound remaining k && (sj_pred_no k =? i)) ks) /\
    (forall i, Z.testbit (handled_sj_equalities o') i = Z.testbit (handled_sj_equalities o1) i || existsb (fun k => is_handled remaining k && (sj_pred_no k =? i)) ks) /\
    (forall j, Z.testbit (loose_scan_keyparts o') j = Z.testbit (loose_scan_keyparts o1) j || existsb (fun k => is_handled remaining k && (keypart k =? j)) ks) /\
    max_loose_keypart o' = last_part remaining (max_loose_keypart o1) ks) by (intros; by apply IH). clear IH.
  cbn [existsb]. unfold last_part in *. cbn [foldl]. unfold is_bound, is_handled in Sk |- *. destruct (usable k) eqn:U; cbn [andb].
  - destruct (Hk eq_refl) as [Hp Hj]. rewrite (single_bit_ok 64 (sj_pred_no k)) by done. cbn [mbind option_bind]. destruct (remaining &&& used_tables k =? 0); cbn [negb andb].
    + edestruct Sk as (o' & E & T1 & T2 & T3 & T4 & T5 & T6 & T7 & T8 & T9); [| exists o'; split; [exact E |]]; [done |]. cbn in *.
      split; [done |]. split; [done |]. split; [done |]. split; [done |]. split; [done |]. split; [intros i; rewrite T6, testbit_lor_pow by lia; by rewrite orb_assoc |].
      split; [intros i; rewrite T7; done |]. split; [intros j; rewrite T8; done | done].
    + rewrite (single_bit_ok long_bits (keypart k)) by done. cbn [mbind option_bind].
      edestruct Sk as (o' & E & T1 & T2 & T3 & T4 & T5 & T6 & T7 & T8 & T9); [| exists o'; split; [exact E |]]; [done |]. cbn in *.
      split; [done |]. split; [done |]. split; [done |]. split; [done |]. split; [done |]. split; [intros i; rewrite T6; done |].
      split; [intros i; rewrite T7, testbit_lor_pow by lia; by rewrite orb_assoc |]. split; [intros j; rewrite T8, testbit_lor_pow by lia; by rewrite orb_assoc | done].
  - cbn [mbind option_bind]. apply Sk. done.
Qed.

Lemma last_part_bound remaining ks m : 0 <= m < long_bits -> Forall keyuse_ok ks -> 0 <= last_part remaining m ks < long_bits.
Proof using Type.
  revert m. induction ks as [| k ks IH]; intros m Hm Hk; [done |]. apply Forall_cons in Hk as [Hk Hks]. unfold last_part. cbn [foldl]. apply IH; [| done].
  unfold is_handled. destruct (usable k) eqn:U; [| done]. destruct (Hk U). destruct (remaining &&& used_tables k =? 0); cbn; [done |]. unfold set_if_bigger. by destruct (_ <? _).
Qed.

Lemma all_ones_iff n x : 0 <= n -> (forall i, n <= i -> Z.testbit x i = false) -> (x =? 2 ^ n - 1) = true <-> forall i, 0 <= i < n -> Z.testbit x i = true.
Proof using Type.
  intros Hn Hh. rewrite Z.eqb_eq. rewrite Z.sub_1_r, <- Z.ones_equiv. split.
  - intros -> i Hi. apply Z.ones_spec_low. lia.
  - intros Hb. apply Z.bits_inj'. intros i Hi. destruct (Z.lt_ge_cases i n); [rewrite Z.ones_spec_low, Hb by lia; done | rewrite Z.ones_spec_high, Hh by lia; done].
Qed.

Lemma covers_ones_iff n x : 0 <= n -> ((2 ^ n - 1) &&& x =? 2 ^ n - 1) = true <-> forall i, 0 <= i < n -> Z.testbit x i = true.
Proof using Type.
  intros Hn. rewrite all_ones_iff; [| done |].
  - split; intros Hb i Hi; specialize (Hb i Hi); rewrite Z.sub_1_r, <- Z.ones_equiv, Z.land_spec, Z.ones_spec_low in * by lia; by rewrite ?andb_true_l in *.
  - intros i Hi. rewrite Z.sub_1_r, <- Z.ones_equiv, Z.land_spec, Z.ones_spec_high by lia. done.
Qed.

(** Every equality of the semi-join is bound by earlier tables or one that the index is used for. *)
Definition equalities_met (o : Loose_scan_opt D) (in_exprs : Z) (ks : list KEYUSE) : Prop :=
  forall i, 0 <= i < in_exprs -> Z.testbit (bound_sj_equalities o) i = true \/ exists k, k ∈ ks /\ usable k = true /\ sj_pred_no k = i.
(** The equalities and the parts of the index as the conditions of a loose scan ask for them. *)
Record loose_scan_possible (o : Loose_scan_opt D) (in_exprs remaining : Z) (ks : list KEYUSE) (key_info : Key D) (found_part : Z) : Prop := Possible {
  lp_equalities : equalities_met o in_exprs ks;
  lp_parts : forall j, 0 <= j <= last_part remaining 0 ks -> Z.testbit found_part j = true \/ exists k, k ∈ ks /\ is_handled remaining k = true /\ keypart k = j;
  lp_whole : uses_partial_cols key_info = false }.

Lemma existsb_elem {A} (f : A -> bool) l : existsb f l = true <-> exists x, x ∈ l /\ f x = true.
Proof using Type. rewrite existsb_exists. by setoid_rewrite list_elem_of_In. Qed.

Lemma equalities_ok o in_exprs remaining ks o1 : 0 <= in_exprs -> try_loosescan o = true -> Forall keyuse_ok ks ->
  (forall k, k ∈ ks -> usable k = true -> sj_pred_no k < in_exprs) -> (forall i, in_exprs <= i -> Z.testbit (bound_sj_equalities o) i = false) ->
  add_all (next_ref_key o) remaining ks = Some o1 ->
  (handled_sj_equalities o1 ||| bound_sj_equalities o1 =? 2 ^ in_exprs - 1) = true <-> equalities_met o in_exprs ks.
Proof using Type.
  intros Hn Ht Hk Hin Hb E. destruct (add_all_ok remaining ks (next_ref_key o) Ht Hk) as (o' & E' & T1 & T2 & T3 & T4 & T5 & T6 & T7 & T8 & T9).
  rewrite E in E'. injection E' as <-. cbn in T6, T7. unfold equalities_met. rewrite all_ones_iff; [| lia |].
  - assert (Each : forall i, Z.testbit (handled_sj_equalities o1 ||| bound_sj_equalities o1) i = true <->
      Z.testbit (bound_sj_equalities o) i = true \/ exists k, k ∈ ks /\ usable k = true /\ sj_pred_no k = i).
    { intros i. rewrite Z.lor_spec, T6, T7, Z.bits_0, orb_false_l, !orb_true_iff, !existsb_elem. split.
      - intros [(k & Hke & Hu) | [Hbit | (k & Hke & Hu)]]; [right | by left | right]; exists k; unfold is_handled, is_bound in Hu;
          rewrite !andb_true_iff, !Z.eqb_eq in Hu; tauto.
      - intros [Hbit | (k & Hke & Hu & Hi)]; [by right; left |]. destruct (remaining &&& used_tables k =? 0) eqn:F; [right; right | left]; exists k; unfold is_handled, is_bound;
          rewrite Hu, F, Hi, Z.eqb_refl; done. }
    split; intros A i Hi; apply Each; by apply A.
  - intros i Hi. rewrite Z.lor_spec, T6, T7, Z.bits_0, (Hb i Hi), !orb_false_l. apply orb_false_iff.
    split; apply not_true_is_false; rewrite existsb_elem; intros (k & Hke & Hu); unfold is_handled, is_bound in Hu; rewrite !andb_true_iff, !Z.eqb_eq in Hu;
      specialize (Hin k Hke (proj1 (proj1 Hu))); lia.
Qed.

Lemma part1_conditions_ok o in_exprs remaining ks o1 ki found : 0 <= in_exprs < 64 -> try_loosescan o = true -> Forall keyuse_ok ks ->
  (forall k, k ∈ ks -> usable k = true -> sj_pred_no k < in_exprs) -> (forall i, in_exprs <= i -> Z.testbit (bound_sj_equalities o) i = false) ->
  0 < long_bits -> add_all (next_ref_key o) remaining ks = Some o1 ->
  if last_part remaining 0 ks + 1 <? long_bits then
    exists b, part1_conditions long_bits o1 in_exprs ki found = Some b /\ (b = true <-> loose_scan_possible o in_exprs remaining ks ki found)
  else (equalities_met o in_exprs ks -> part1_conditions long_bits o1 in_exprs ki found = None) /\
       (~ equalities_met o in_exprs ks -> part1_conditions long_bits o1 in_exprs ki found = Some false).
Proof using Type.
  intros Hn Ht Hk Hin Hb Hl E. pose proof (equalities_ok o in_exprs remaining ks o1 (proj1 Hn) Ht Hk Hin Hb E) as Eq.
  destruct (add_all_ok remaining ks (next_ref_key o) Ht Hk) as (o' & E' & T1 & T2 & T3 & T4 & T5 & T6 & T7 & T8 & T9).
  rewrite E in E'. injection E' as <-. cbn in T8, T9. unfold part1_conditions. rewrite T1. unfold PREV_BITS.
  rewrite (proj2 (andb_true_iff (0 <=? in_exprs) _)) by (split; [apply Z.leb_le | apply Z.ltb_lt]; lia). cbn [mbind option_bind]. rewrite T9.
  pose proof (last_part_bound remaining ks 0 ltac:(lia) Hk) as Hm.
  assert (Hle : (0 <=? last_part remaining 0 ks + 1) = true) by (apply Z.leb_le; lia). rewrite Hle. cbn [andb].
  destruct (last_part remaining 0 ks + 1 <? long_bits); destruct (handled_sj_equalities o1 ||| bound_sj_equalities o1 =? 2 ^ in_exprs - 1); cbn [mbind option_bind].
  - eexists. split; [reflexivity |]. rewrite andb_true_iff, negb_true_iff, covers_ones_iff by lia.
    assert (Each : forall j, Z.testbit (found ||| loose_scan_keyparts o1) j = true <-> Z.testbit found j = true \/ exists k, k ∈ ks /\ is_handled remaining k = true /\ keypart k = j).
    { intros j. rewrite Z.lor_spec, T8, Z.bits_0, orb_false_l, orb_true_iff, existsb_elem.
      split; intros [Hbit | (k & Hke & Hu)]; auto; right; exists k; rewrite andb_true_iff, Z.eqb_eq in *; tauto. }
    split.
    + intros [A1 A2]. split; [by apply Eq | | done]. intros j Hj. apply Each, A1. lia.
    + intros [A1 A2 A3]. split; [| done]. intros j Hj. apply Each, A2. lia.
  - exists false. split; [done |]. split; [done |]. intros [A _ _]. by apply Eq.
  - split; [done |]. intros A. exfalso. by apply A, Eq.
  - split; [| done]. intros A. by apply Eq in A.
Qed.

Lemma add_all_off remaining ks : forall o, try_loosescan o = false -> add_all o remaining ks = Some o.
Proof using Type. induction ks as [| k ks IH]; intros o Ho; [done |]. cbn [add_all]. unfold add_keyuse. rewrite Ho. cbn [andb mbind option_bind]. by apply IH. Qed.

(** C13: For a semi-join of fewer than 64 equalities, whose uses and bound ones are numbered among them and whose key parts are parts of the index and bits of a [long]: after [next_ref_key] and an [add_keyuse] for each use of the index, [check_ref_access_part1] accepts the index
    exactly when a loose scan is tried at all, every semi-join equality is bound or handled by the index, the leading parts up
    to the last that handles one are all bound or handled, they are whole columns, and the
    first part is bound or the index covers the query. This is so as long as the last part that handles an equality is not the
    last bit of a [long]: if it is, the check shifts by the width of a [long] and has no result once the equalities are all there. *)
Theorem loose_scan_conditions o in_exprs remaining ks quick stats key ki start found :
  0 <= in_exprs < 64 -> Forall keyuse_ok ks ->
  (forall k, k ∈ ks -> usable k = true -> sj_pred_no k < in_exprs) -> (forall i, in_exprs <= i -> Z.testbit (bound_sj_equalities o) i = false) ->
  0 < long_bits -> last_part remaining 0 ks < Z.of_nat (length (rec_per_key ki)) ->
  exists o1, add_all (next_ref_key o) remaining ks = Some o1 /\
    let check := check_ref_access_part1 long_bits o1 in_exprs quick stats key ki start found in
    (try_loosescan o = false -> check = Some o1 /\ part1_conds_met o1 = false) /\
    (try_loosescan o = true -> last_part remaining 0 ks + 1 < long_bits -> exists o2, check = Some o2 /\
      (part1_conds_met o2 = true <-> loose_scan_possible o in_exprs remaining ks ki found /\ (Z.testbit found 0 = true \/ covering ki = true))) /\
    (try_loosescan o = true -> long_bits <= last_part remaining 0 ks + 1 ->
      (equalities_met o in_exprs ks -> check = None) /\ (~ equalities_met o in_exprs ks -> check = Some o1 /\ part1_conds_met o1 = false)).
Proof using Type.
  intros Hn Hk Hin Hb Hl Hrpc. destruct (try_loosescan o) eqn:Ht.
  2:{ exists (next_ref_key o). split; [by apply add_all_off |]. cbv zeta. split; [| done]. intros _. unfold check_ref_access_part1, part1_conditions. cbn. by rewrite Ht. }
  destruct (add_all_ok remaining ks (next_ref_key o) Ht Hk) as (o1 & E & _ & _ & Hmet & _ & _ & _ & _ & _ & Hmax). exists o1. split; [done |]. cbv zeta. split; [done |].
  pose proof (part1_conditions_ok o in_exprs remaining ks o1 ki found Hn Ht Hk Hin Hb Hl E) as Hc. cbn in Hmet. unfold check_ref_access_part1.
  split; intros _ Hlast; [rewrite (proj2 (Z.ltb_lt _ _)) in Hc by lia | rewrite (proj2 (Z.ltb_ge _ _)) in Hc by lia].
  2:{ destruct Hc as [C1 C2]. split; intros A; [by rewrite C1 | rewrite C2 by done; by split]. }
  destruct Hc as (b & Ec & Hb'). rewrite Ec. cbn [mbind option_bind].
  assert (Bit : negb (found &&& 1 =? 0) = Z.testbit found 0).
  { change 1 with (Z.ones 1). rewrite Z.land_ones by lia. change (2 ^ 1) with 2. rewrite <- Z.bit0_mod. by destruct (Z.testbit found 0). }
  assert (Bit' : (found &&& 1 =? 0) = negb (Z.testbit found 0)) by (by rewrite <- Bit, negb_involutive).
  assert (Hr : is_Some (rec_per_key ki !! Z.to_nat (max_loose_keypart o1))).
  { apply lookup_lt_is_Some. rewrite Hmax. pose proof (last_part_bound remaining ks 0 ltac:(lia) Hk). cbn. lia. }
  destruct Hr as [rpc Hr].
  destruct b.
  - rewrite Bit, Bit'. destruct (match quick with Some _ => _ | None => _ end), (Z.testbit found 0), (covering ki); cbn [negb andb with_part1 max_loose_keypart part1_conds_met];
      rewrite ?Hr; cbn [mbind option_bind]; try (destruct (dlt _ _)); eexists; (split; [reflexivity |]); cbn [part1_conds_met with_best]; rewrite ?Hmet; split; try done; intuition congruence.
  - eexists. split; [reflexivity |]. rewrite Hmet. split; [done |]. intros [P _]. by apply Hb'.
Qed.

(** [key_part_map] is an [unsigned long], an index has up to 32 parts, and the bits of the parts up to the last one
    are computed as [(1 << 32) - 1]: where a [long] has 32 bits that is undefined as soon as the 32nd
    part handles an equality. *)
Theorem last_part_shifts_out o in_exprs quick stats key ki start found :
  0 <= in_exprs < 64 -> try_loosescan o = true -> handled_sj_equalities o ||| bound_sj_equalities o = 2 ^ in_exprs - 1 -> max_loose_keypart o = 31 ->
  (long_bits = 32 -> check_ref_access_part1 long_bits o in_exprs quick stats key ki start found = None) /\
  (long_bits = 64 -> (32 <= length (rec_per_key ki))%nat -> is_Some (check_ref_access_part1 long_bits o in_exprs quick stats key ki start found)).
Proof using Type.
  intros Hn Ht He Hm. unfold check_ref_access_part1, part1_conditions, PREV_BITS. rewrite Ht, Hm.
  rewrite (proj2 (andb_true_iff (0 <=? in_exprs) _)) by (split; [apply Z.leb_le | apply Z.ltb_lt]; lia). cbn [mbind option_bind]. rewrite He, Z.eqb_refl.
  split; intros ->; [done |]. intros Hr. destruct (lookup_lt_is_Some_2 (rec_per_key ki) 31) as [rpc Er]; [lia |].
  change ((0 <=? 31 + 1) && (31 + 1 <? 64)) with true. cbn [mbind option_bind].
  destruct (_ && negb (uses_partial_cols ki)); [| by eexists].
  destruct (match quick with Some _ => _ | None => _ end), (found &&& 1 =? 0), (covering ki); cbn [negb andb with_part1 max_loose_keypart]; rewrite ?Hm; try (change (Z.to_nat 31) with 31%nat);
    rewrite ?Er; cbn [mbind option_bind]; try destruct (dlt _ _); by eexists.
Qed.
End possible.

(** ** The cheapest way *)

(** Costs that are not NaN. *)
Class CostOrder (D : Type) `{Cost D} := { rank : D -> Z; dlt_rank x y : dlt x y = (rank x <? rank y) }.

Section cheapest.
Context {D : Type} {Costs : Cost D} {Ranks : CostOrder D}.
Variable long_bits : Z.

(** The calls that [best_access_path()] makes. *)
Inductive call :=
  | Next_ref_key
  | Add_keyuse (remaining : Z) (k : KEYUSE)
  | Check_part1 (in_exprs : Z) (quick : option (Quick D)) (stats_records key : Z) (ki : Key D) (start_key found_part : Z)
  | Check_part2 (key start_key : Z) (records read_time : D) (depend_map : Z)
  | Check_range (const_tables idx : Z) (quick : Quick D).

Definition run_call (o : Loose_scan_opt D) (c : call) : option (Loose_scan_opt D) :=
  match c with
  | Next_ref_key => Some (next_ref_key o)
  | Add_keyuse r k => add_keyuse long_bits o r k
  | Check_part1 n q r key ki sk fp => check_ref_access_part1 long_bits o n q r key ki sk fp
  | Check_part2 key sk r t d => Some (check_ref_access_part2 o key sk r t d)
  | Check_range c i q => Some (check_range_access o c i q)
  end.
Fixpoint run (o : Loose_scan_opt D) (cs : list call) : option (Loose_scan_opt D) :=
  match cs with [] => Some o | c :: cs => o ← run_call o c; run o cs end.

(** The ways that the calls offer: a full index scan, access by the index with what was collected, the quick select. *)
Definition offered (o : Loose_scan_opt D) (c : call) : list (Best D) :=
  match c with
  | Check_part1 n q r key ki sk fp =>
    match part1_conditions long_bits o n ki fp, rec_per_key ki !! Z.to_nat (max_loose_keypart o) with
    | Some true, Some rpc => if (fp &&& 1 =? 0) && covering ki
        then [Way key (keyread_time ki) (if rpc =? 0 then rows2double r else ddiv (rows2double r) (rows2double rpc)) (Some sk) (max_loose_keypart o) 0] else []
    | _, _ => []
    end
  | Check_part2 key sk r t d => if part1_conds_met o then [Way key t r (Some sk) (max_loose_keypart o) d] else []
  | Check_range c i q => if quick_uses_applicable_index o && (i =? c) then [Way (q_index q) (q_read_time q) (rows2double (q_records q)) None (quick_max_loose_keypart o) 0] else []
  | _ => []
  end.
Fixpoint all_offered (o : Loose_scan_opt D) (cs : list call) : list (Best D) :=
  match cs with [] => [] | c :: cs => offered o c ++ match run_call o c with Some o => all_offered o cs | None => [] end end.

(** The first of the cheapest ways. *)
Definition cheaper (b w : Best D) : Best D := if dlt (best_cost w) (best_cost b) then w else b.

Lemma run_call_best o c o' : run_call o c = Some o' -> best o' = foldl cheaper (best o) (offered o c).
Proof using Type.
  destruct c; cbn [run_call offered]; unfold cheaper.
  - by intros [= <-].
  - unfold add_keyuse. destruct (_ && _); [| by intros [= <-]]. destruct (single_bit 64 _); [| done]. cbn [mbind option_bind].
    destruct (_ =? 0); [by intros [= <-] |]. destruct (single_bit long_bits _); [| done]. by intros [= <-].
  - unfold check_ref_access_part1. destruct (part1_conditions long_bits o in_exprs ki found_part) as [[|] |]; cbn [mbind option_bind]; [| by intros [= <-] | done].
    destruct (match quick with Some _ => _ | None => _ end), (found_part &&& 1 =? 0), (covering ki); cbn [negb andb with_part1 max_loose_keypart];
      destruct (rec_per_key ki !! Z.to_nat (max_loose_keypart o)) as [rpc |]; cbn [mbind option_bind]; try done; try (by intros [= <-]);
      cbn [best with_part1 foldl best_cost]; destruct (dlt (keyread_time ki) (best_cost (best o))); intros [= <-]; cbn; try done; by destruct (rpc =? 0).
  - intros [= <-]. unfold check_ref_access_part2. destruct (part1_conds_met o); cbn; [| done]. by destruct (dlt _ _).
  - intros [= <-]. unfold check_range_access. destruct (quick_uses_applicable_index o), (idx =? const_tables); cbn; try done. by destruct (dlt _ _).
Qed.

Lemma cheapest_of ws : forall b, foldl cheaper b ws ∈ b :: ws /\ forall w, w ∈ b :: ws -> rank (best_cost (foldl cheaper b ws)) <= rank (best_cost w).
Proof using Type.
  induction ws as [| w ws IH]; intros b; cbn [foldl].
  - split; [apply list_elem_of_singleton; done |]. by intros w ->%list_elem_of_singleton.
  - destruct (IH (cheaper b w)) as [E L]. assert (C : cheaper b w = b \/ cheaper b w = w) by (unfold cheaper; destruct (dlt _ _); auto).
    assert (R : rank (best_cost (cheaper b w)) <= rank (best_cost b) /\ rank (best_cost (cheaper b w)) <= rank (best_cost w)).
    { unfold cheaper. rewrite dlt_rank. destruct (Z.ltb_spec (rank (best_cost w)) (rank (best_cost b))); lia. }
    split.
    + apply elem_of_cons in E as [-> | E]; [destruct C as [-> | ->]; set_solver | set_solver].
    + intros v Hv. apply elem_of_cons in Hv as [-> | Hv]; [| apply elem_of_cons in Hv as [-> | Hv]].
      * etransitivity; [apply (L (cheaper b w)); set_solver | tauto].
      * etransitivity; [apply (L (cheaper b w)); set_solver | tauto].
      * apply L. set_solver.
Qed.

(** C14: Whatever the order of the calls, what is kept in the end is one of the ways that were offered, complete with
    its index, records, start key and parts, and none of the others is cheaper. *)
Theorem cheapest_way_kept o cs o' : run o cs = Some o' ->
  best o' ∈ best o :: all_offered o cs /\ forall w, w ∈ best o :: all_offered o cs -> rank (best_cost (best o')) <= rank (best_cost w).
Proof using Type.
  assert (E : run o cs = Some o' -> best o' = foldl cheaper (best o) (all_offered o cs)).
  { revert o. induction cs as [| c cs IH]; intros o; cbn [run all_offered]; [by intros [= <-] |]. destruct (run_call o c) as [o1 |] eqn:Ec; [| done]. cbn [mbind option_bind].
    intros Er. rewrite foldl_app, <- (run_call_best o c o1 Ec). by apply IH. }
  intros Er. rewrite (E Er). apply cheapest_of.
Qed.

(** A table that is no candidate for a loose scan gets none: when [init] does not accept it, no calls make a plan,
    and [save_to_position] only writes the greatest cost. *)
Theorem no_candidate_no_plan (deq : D -> D -> bool) handled parts maxp met nest mat cur switch bound remaining cs tab filter pos o' :
  (forall x, deq x x = true) ->
  let o := init (mk_Loose_scan_opt handled parts maxp met) mat nest cur switch bound remaining in
  try_loosescan o = false -> run o (Next_ref_key :: cs) = Some o' ->
  try_loosescan o' = false /\ pos_key (save_to_position deq o' tab filter pos) = pos_key pos /\ loosescan_parts (save_to_position deq o' tab filter pos) = loosescan_parts pos /\
  read_time (save_to_position deq o' tab filter pos) = DBL_MAX.
Proof using Type.
  intros Hd o Ht Hr.
  assert (S0 : try_loosescan (next_ref_key o) = false /\ part1_conds_met (next_ref_key o) = false /\ quick_uses_applicable_index (next_ref_key o) = false /\ best_cost (best (next_ref_key o)) = DBL_MAX).
  { split; [exact Ht |]. split; [done |]. subst o. unfold init in *. destruct nest as [n |]; [| done]. destruct (_ && _); [done |]. done. }
  cbn [run run_call mbind option_bind] in Hr. revert S0 Hr. generalize (next_ref_key o). clear Ht. induction cs as [| c cs IH]; intros o1 (T1 & T2 & T3 & T4) Hr.
  - injection Hr as <-. unfold save_to_position. rewrite T4, Hd. done.
  - cbn [run] in Hr. destruct (run_call o1 c) as [o2 |] eqn:Ec; [| done]. cbn [mbind option_bind] in Hr. apply (IH o2); [| done].
    pose proof (run_call_best o1 c o2 Ec) as Eb. destruct c; cbn [run_call] in Ec.
    + injection Ec as <-. done.
    + unfold add_keyuse in Ec. rewrite T1 in Ec. by injection Ec as <-.
    + unfold check_ref_access_part1, part1_conditions in Ec. rewrite T1 in Ec. cbn in Ec. by injection Ec as <-.
    + injection Ec as <-. unfold check_ref_access_part2. rewrite T2. done.
    + injection Ec as <-. unfold check_range_access. rewrite T3. done.
Qed.
End cheapest.

(** ** Instances *)

#[local] Instance integer_cost : Cost Z := {| dlt := Z.ltb; ddiv := Z.div; rows2double := fun x => x; DBL_MAX := 2 ^ 1000; one := 1 |}.
#[local] Instance integer_order : CostOrder Z := {| rank := fun x => x; dlt_rank := fun x y => eq_refl |}.

(** Two equalities; the index has the inner expression of the first in its first part, the second is bound. *)
Definition demo_opt : Loose_scan_opt Z := Opt true 2 0 0 0 false false 0 (Way 0 (2 ^ 1000) 0 None 0 0).
Definition demo_uses : list KEYUSE := [Keyuse 4 0 0 4].
Definition demo_key : Key Z := Index true false 100 [10].

Lemma demo_uses_ok long_bits : 0 < long_bits -> Forall (keyuse_ok long_bits) demo_uses.
Proof. intros Hl. apply Forall_cons_2; [| apply Forall_nil_2]. intros _. cbn. lia. Qed.

Lemma loose_scan_conditions_witness : exists o1 o2, add_all 32 (next_ref_key demo_opt) 4 demo_uses = Some o1 /\
  check_ref_access_part1 32 o1 2 None 1000 7 demo_key 50 0 = Some o2 /\ part1_conds_met o2 = true.
Proof.
  destruct (loose_scan_conditions 32 demo_opt 2 4 demo_uses None 1000 7 demo_key 50 0) as (o1 & H1 & _ & H & _); [lia | by apply demo_uses_ok | | | lia | by vm_compute |].
  - intros k ->%list_elem_of_singleton _. done.
  - intros i Hi. change (bound_sj_equalities demo_opt) with (2 ^ 1). apply Z.pow2_bits_false. lia.
  - destruct (H eq_refl ltac:(by vm_compute)) as (o2 & H2 & H3). exists o1, o2. split; [exact H1 |]. split; [exact H2 |]. apply H3. split; [split; [| | done] | by right].
    + intros i Hi. destruct (decide (i = 0)) as [-> |]; [right; exists (Keyuse 4 0 0 4); split; [apply list_elem_of_singleton; done | done] | left]. by replace i with 1 by lia.
    + intros j Hj. right. exists (Keyuse 4 0 0 4). split; [apply list_elem_of_singleton; done |]. split; [done |]. change (last_part 4 0 demo_uses) with 0 in Hj. cbn. lia.
Defined.

Lemma last_part_shifts_out_witness :
  check_ref_access_part1 32 (Opt true 2 1 (2 ^ 31) 31 false false 0 (Way 0 (2 ^ 1000) 0 None 0 0)) 2 None 1000 7 demo_key 50 0 = None.
Proof.
  apply (last_part_shifts_out 32 (Opt true 2 1 (2 ^ 31) 31 false false 0 (Way 0 (2 ^ 1000) 0 None 0 0)) 2 None 1000 7 demo_key 50 0); done || lia.
Defined.

Definition demo_calls : list (call (D := Z)) := [Next_ref_key; Add_keyuse 4 (Keyuse 4 0 0 4); Check_part1 2 None 1000 7 demo_key 50 0; Check_part2 7 50 20 90 0; Check_part2 7 50 20 95 0].

Lemma cheapest_way_kept_witness : exists o', run 32 demo_opt demo_calls = Some o' /\ best_cost (best o') <= 90.
Proof.
  destruct (run 32 demo_opt demo_calls) as [o' |] eqn:E; [| exfalso; vm_compute in E; discriminate E]. exists o'. split; [reflexivity |].
  destruct (cheapest_way_kept 32 demo_opt demo_calls o' E) as [_ H]. apply (H (Way 7 90 20 (Some 50) 0 0)). vm_compute. right. right. left.
Defined.

Lemma no_candidate_no_plan_witness : exists o', run 32 (init (mk_Loose_scan_opt 5 6 7 true) false None 0 0 0 0) demo_calls = Some o' /\ try_loosescan o' = false.
Proof.
  destruct (run 32 (init (mk_Loose_scan_opt 5 6 7 true) false None 0 0 0 0) demo_calls) as [o' |] eqn:E; [| exfalso; vm_compute in E; discriminate E]. exists o'. split; [reflexivity |].
  refine (proj1 (no_candidate_no_plan 32 Z.eqb 5 6 7 true None false 0 0 0 0 _ 0 0 (Position 0 0 None 0 0 0 false 0 0 0) o' Z.eqb_refl eq_refl E)).
Defined.
