(* ===== verification/CommitOrder.v ===== *)
(** * CommitOrder: waiting for an earlier commit ([sql_class.h])

    In parallel replication a transaction registers with the one before it and waits for
    its commit.  A [wait_for_commit] keeps a list of those that registered with it,
    linked through a field of the waiters, and a pointer to the one it waits for.

    The model is of one thread at a time that holds the locks the comments ask for.  The
    functions that block, signal or take locks are compiled elsewhere and are
    parameters. *)

From stdpp Require Import base numbers option gmap list.
From Stdlib Require Import ZArith Lia.
From S2P Require Import Prelude Heap.

Local Open Scope Z_scope.

(** ** wait_for_commit *)

(** The fields of a [wait_for_commit] at [l]. *)
(* [sql_class.h:2096-2096 subsequent_commits_list] *)
Definition subsequent_commits_list (l : loc) : addr := (l, F_first).
(* [sql_class.h:2098-2098 next_subsequent_commit] *)
Definition next_subsequent_commit (l : loc) : addr := (l, F_next 0).
(* [sql_class.h:2112-2112 waitee] *)
Definition waitee (l : loc) : addr := (l, F_info).
(* [sql_class.h:2123-2123 wakeup_error] *)
Definition wakeup_error (l : loc) : addr := (l, F_elements).

(** The loop of [remove_from_list] from [next_ptr_ptr] on. *)
Fixpoint remove_loop (fuel : nat) (this : loc) (next_ptr_ptr : addr) : prog unit :=
  match fuel with
  | O => undefined
  | S fuel =>
    cur ← load next_ptr_ptr;
    if ptr_eqb cur VNull then mret tt else
    if ptr_eqb cur (VObj this) then n ← load (next_subsequent_commit this); store next_ptr_ptr n
    else cur ← as_obj cur; remove_loop fuel this (next_subsequent_commit cur)
  end.
(* [sql_class.h:2184-2198 remove_from_list] *)
Definition remove_from_list (fuel : nat) (this : loc) (next_ptr_ptr : addr) : prog unit :=
  remove_loop fuel this next_ptr_ptr;; store (waitee this) VNull.

Section calls.
(** [wait_for_prior_commit2], [wakeup_subsequent_commits2], [unregister_wait_for_prior_commit2]. *)
Variable wait2 : loc -> prog Z.
Variable wakeup2 : loc -> Z -> prog unit.
Variable unregister2 : loc -> prog unit.

(** The result, and whether [my_error] was called. *)
(* [sql_class.h:2141-2155 wait_for_prior_commit] *)
Definition wait_for_prior_commit (this : loc) : prog (Z * bool) :=
  w ← load (waitee this);
  if negb (ptr_eqb w VNull) then r ← wait2 this; mret (r, false)
  else e ← load (wakeup_error this); e ← as_int e; mret (e, negb (e =? 0)).
(* [sql_class.h:2156-2172 wakeup_subsequent_commits] *)
Definition wakeup_subsequent_commits (this : loc) (wakeup_error_arg : Z) : prog unit :=
  l ← load (subsequent_commits_list this); if negb (ptr_eqb l VNull) then wakeup2 this wakeup_error_arg else mret tt.
(* [sql_class.h:2173-2179 unregister_wait_for_prior_commit] *)
Definition unregister_wait_for_prior_commit (this : loc) : prog unit :=
  w ← load (waitee this); if negb (ptr_eqb w VNull) then unregister2 this else store (wakeup_error this) (VInt 0).

(** *** The session's pointer *)

(** [wait_for_commit_ptr] of the session. *)
(* [sql_class.h:4738-4743 wait_for_prior_commit] *)
Definition thd_wait_for_prior_commit (p : option loc) : prog (Z * bool) := match p with Some l => wait_for_prior_commit l | None => mret (0, false) end.
(* [sql_class.h:4744-4748 wakeup_subsequent_commits] *)
Definition thd_wakeup_subsequent_commits (p : option loc) (wakeup_error_ : Z) : prog unit :=
  match p with Some l => wakeup_subsequent_commits l wakeup_error_ | None => mret tt end.
(** The result and the new pointer. *)
(* [sql_class.h:4749-4753 suspend_subsequent_commits] *)
Definition suspend_subsequent_commits (p : option loc) : option loc * option loc := (p, None).
(* [sql_class.h:4754-4757 resume_subsequent_commits] *)
Definition resume_subsequent_commits (p suspended : option loc) : option (option loc) := match p with None => Some suspended | Some _ => None end.
End calls.

(** ** The list of waiters *)

(** [ns] are the waiters of [w], the latest first. *)
Record waiters (m : mem) (w : loc) (ns : list loc) : Prop := Waiters {
  ws_chain : chain 0 m (subsequent_commits_list w) ns VNull;
  ws_nodup : NoDup ns;
  ws_waitee : forall n, n ∈ ns -> m !! waitee n = Some (VObj w) }.

(** The fields that taking [this] off the list may write. *)
Definition written (w this : loc) (ns : list loc) (a : addr) : Prop := a ∈ cells 0 (subsequent_commits_list w) ns \/ a = waitee this.

Lemma remove_loop_ok this ns : forall m a fuel, chain 0 m a ns VNull -> NoDup ns -> (forall n, a <> next_subsequent_commit n) \/ (exists p, a = next_subsequent_commit p /\ p ∉ ns) ->
  (length ns < fuel)%nat ->
  exists m', remove_loop fuel this a m = Some (tt, m') /\ chain 0 m' a (filter (fun n => n <> this) ns) VNull /\ same_outside (fun c => c ∈ cells 0 a ns) m m'.
Proof.
  induction ns as [| n ns IH]; intros m a fuel Hc Hnd Ha Hf; unfold next_subsequent_commit in *; (destruct fuel as [| fuel]; [cbn in Hf; lia |]); cbn [remove_loop]; unfold next_subsequent_commit.
  - cbn in Hc. exists m. run. split; [done |]. split; [done | by intros c _].
  - destruct Hc as [Hc1 Hc2]. apply NoDup_cons in Hnd as [Hn Hnd]. destruct (decide (n = this)) as [-> | Hne].
    + rewrite filter_cons_False by tauto. assert (Hid : filter (fun n => n <> this) ns = ns) by (apply filter_id_on; intros x Hx ->; exact (Hn Hx)).
      pose proof (chain_head 0 m _ ns VNull Hc2) as Hh. rewrite Hid. exists (<[a := head_ptr ns VNull]> m). run. rewrite (run_store_ret a _ (VObj this)) by done. split; [done |]. split.
      * assert (Hne : a <> (this, F_next 0)) by (destruct Ha as [Ha | (p & -> & Hp)]; [apply Ha | intros [= ->]; apply Hp; left]).
        apply (chain_rebase 0 m _ (this, F_next 0)); [by rewrite lookup_insert_eq | | done].
        intros k Hk. rewrite lookup_insert_ne; [done |]. destruct Ha as [Ha | (p & -> & Hp)]; [apply Ha | intros [= ->]; apply Hp; by right].
      * apply same_outside_insert; [apply elem_of_cells; by left | by intros c _].
    + rewrite filter_cons_True by done. destruct (IH m (next_subsequent_commit n) fuel Hc2 Hnd) as (m' & E & C & O); [right; by exists n | cbn in Hf; lia |].
      exists m'. run. rewrite ?bool_decide_eq_false_2 by congruence. run. split; [exact E |]. split.
      * split; [| exact C]. rewrite O; [done |]. rewrite elem_of_cells. intros [-> | (k & Hk & ->)].
        -- destruct Ha as [Ha | (p & Ep & Hp)]; [by apply (Ha n) | injection Ep as <-; apply Hp; left].
        -- destruct Ha as [Ha | (p & Ep & Hp)]; [by apply (Ha k) | injection Ep as <-; apply Hp; by right].
      * apply (same_outside_mono (fun c => c ∈ cells 0 (next_subsequent_commit n) ns)); [| exact O]. intros c Hx. rewrite elem_of_cells in *.
        destruct Hx as [-> | (k & Hk & ->)]; right; [exists n; split; [left | done] | exists k; split; [by right | done]].
Qed.

(** C15: [remove_from_list] takes a waiter off the list of the one it waits for, wherever it is in the list, and only that
    one: the others stay in their order, and what is not a link of the list or the [waitee] of the
    waiter is untouched. A waiter that is not in the list only gets its [waitee] cleared. *)
Theorem waiter_removed m w this ns fuel :
  waiters m w ns -> is_Some (m !! waitee this) -> (length ns < fuel)%nat ->
  exists m', remove_from_list fuel this (subsequent_commits_list w) m = Some (tt, m') /\ waiters m' w (filter (fun n => n <> this) ns) /\
    m' !! waitee this = Some VNull /\ same_outside (written w this ns) m m'.
Proof.
  intros [C Nd Wt] [v Hv] Hf. destruct (remove_loop_ok this ns m (subsequent_commits_list w) fuel C Nd) as (m1 & E & C1 & O); [left; done | done |].
  assert (Off : forall l, waitee l ∉ cells 0 (subsequent_commits_list w) ns) by (intros l; rewrite elem_of_cells; intros [[=] | (k & _ & [=])]).
  assert (Hv1 : m1 !! waitee this = Some v) by (rewrite O; [done | apply Off]).
  exists (<[waitee this := VNull]> m1). unfold remove_from_list. rewrite (run_bind _ _ m tt m1 E). rewrite (run_store_ret _ _ v) by done. split; [done |].
  split; [split | split].
  - apply chain_insert; [| done]. rewrite elem_of_cells. intros [[=] | (k & _ & [=])].
  - by apply NoDup_filter.
  - intros n [Hne Hn]%list_elem_of_filter. rewrite lookup_insert_ne by (intros [=]; congruence). rewrite O by apply Off. by apply Wt.
  - by rewrite lookup_insert_eq.
  - apply same_outside_insert; [by right |]. apply (same_outside_mono (fun c => c ∈ cells 0 (subsequent_commits_list w) ns)); [| done]. intros a Ha. by left.
Qed.

(** Without a registered wait nothing blocks: the error that came with the wakeup is reported by every later
    wait until the waiter unregisters, which clears it; a commit that nobody waits for wakes nobody. *)
Theorem fast_paths (wait2 : loc -> prog Z) (wakeup2 : loc -> Z -> prog unit) (unregister2 : loc -> prog unit) (m : mem) this e (c : Z) :
  m !! waitee this = Some VNull -> m !! wakeup_error this = Some (VInt e) -> m !! subsequent_commits_list this = Some VNull ->
  wait_for_prior_commit wait2 this m = Some ((e, negb (e =? 0)), m) /\
  (exists m', unregister_wait_for_prior_commit unregister2 this m = Some (tt, m') /\ wait_for_prior_commit wait2 this m' = Some ((0, false), m')) /\
  wakeup_subsequent_commits wakeup2 this c m = Some (tt, m).
Proof.
  intros H1 H2 H3. split; [unfold wait_for_prior_commit; run; done |]. split.
  - unfold waitee, wakeup_error in *. exists (<[(this, F_elements) := VInt 0]> m). split; [unfold unregister_wait_for_prior_commit; run; done |].
    unfold wait_for_prior_commit. assert (H1' : <[wakeup_error this := VInt 0]> m !! waitee this = Some VNull) by (rewrite lookup_insert_ne; done).
    assert (H2' : <[wakeup_error this := VInt 0]> m !! wakeup_error this = Some (VInt 0)) by (by rewrite lookup_insert_eq). revert H1' H2'. generalize (<[wakeup_error this := VInt 0]> m).
    intros m' H1' H2'. run. done.
  - unfold wakeup_subsequent_commits. run. done.
Qed.

(** What is suspended is what is resumed; while it is suspended nobody is woken, and resuming over another pointer
    fails the assertion. *)
Theorem suspended_is_resumed (wakeup2 : loc -> Z -> prog unit) (p q : option loc) (l : loc) (e : Z) (m : mem) :
  let '(suspended, p') := suspend_subsequent_commits p in
  resume_subsequent_commits p' suspended = Some p /\ thd_wakeup_subsequent_commits wakeup2 p' e m = Some (tt, m) /\ resume_subsequent_commits (Some l) q = None.
Proof. done. Qed.

(** Waiters 2, 3 and 4 of 1. *)
Definition demo_waiters : mem :=
  list_to_map [((1, F_first), VObj 2); ((2, F_next 0), VObj 3); ((3, F_next 0), VObj 4); ((4, F_next 0), VNull);
               ((2, F_info), VObj 1); ((3, F_info), VObj 1); ((4, F_info), VObj 1); ((1, F_info), VNull); ((1, F_elements), VInt 0)]%positive.

Lemma waiter_removed_witness : exists m', remove_from_list 4 3%positive (subsequent_commits_list 1) demo_waiters = Some (tt, m') /\ waiters m' 1 [2; 4]%positive.
Proof.
  destruct (waiter_removed demo_waiters 1 3%positive [2; 3; 4]%positive 4) as (m' & H1 & H2 & _).
  - split; [by vm_compute | by apply (bool_decide_unpack _); vm_compute |]. intros n Hn. apply list_elem_of_In in Hn.
    destruct Hn as [<- | [<- | [<- | []]]]; reflexivity.
  - by eexists.
  - cbn. lia.
  - exists m'. split; [exact H1 | exact H2].
Defined.

Lemma fast_paths_witness :
  wait_for_prior_commit (fun _ => undefined) 1 (<[(1%positive, F_first) := VNull]> demo_waiters) = Some ((0, false), <[(1%positive, F_first) := VNull]> demo_waiters).
Proof.
  apply (fast_paths (fun _ => undefined) (fun _ _ => undefined) (fun _ => undefined) (<[(1%positive, F_first) := VNull]> demo_waiters) 1 0 0); by vm_compute.
Defined.
